(* ===== verification/_CoqProject ===== *)
-Q . S2P
Prelude.v
QHostAddress.v
QString.v
QtTextModel.v
QStringExtra.v
IPAddress.v
Rfc.v
Json.v
InterfaceConfig.v
WireGuardConfig.v
ConfigRoundTrip.v
WireGuardProfileModel.v
DaemonModel.v
Server.v
ServerList.v
ServerData.v
Dns.v
ControllerModel.v
ControllerProofs.v
PingHelper.v
ConnectionHealth.v
Tasks.v
TaskGroup.v
TaskControllerAction.v
ServerLatency.v
NetmgrUtils.v
NetmgrController.v
Netlink.v
WireguardUtilsLinux.v
LinuxDaemon.v
AppScope.v
SplitTunnel.v
DnsUtilsLinux.v
JsonText.v
DBusService.v
LocalSocket.v
DaemonConnection.v
LinuxController.v
CryptoSettings.v
PingSender.v
Settings.v
SettingsList.v
Features.v
RecentConnections.v
CaptivePortal.v
MozillaVPN.v
Navigator.v
Notifications.v
WebExtension.v
CommandLine.v
