(* ===== verification/Prelude.v ===== *)
(** * WG Desktop: verification library

    WG Desktop is a VPN client in C++ and Qt: a client process (src/src/), and a
    privileged daemon (src/src/daemon/ and src/src/platforms/) that configures the
    tunnel. The client keeps WireGuard profiles or a list of servers, decides what
    to connect to, drives a backend through a state machine, watches the health of
    the connection and measures the servers. This library models that core as
    executable definitions and proves what makes it correct.

    ** How the parts interact

    A profile (WireGuardProfileModel.v) is text that the parser
    (WireGuardConfig.v) reads into an [InterfaceConfig] (InterfaceConfig.v). The
    controller (ControllerModel.v) builds such configurations from a profile or
    from a location (ServerData.v) whose servers come from the server list
    (ServerList.v, Server.v), with the resolver and the address ranges of Dns.v,
    which exclude reserved blocks (Rfc.v) by the prefix arithmetic of
    IPAddress.v. The configuration crosses to the daemon as JSON (Json.v) and the
    daemon (DaemonModel.v) configures peers, routes, firewall and resolvers.
    Requests to the controller are tasks (TaskControllerAction.v) in the queue of
    Tasks.v, possibly in groups (TaskGroup.v). Once connected, ConnectionHealth.v
    runs the pings of PingHelper.v and asks for a silent switch when the
    connection is poor; ServerLatency.v measures the servers while it is down.
    CaptivePortal.v looks for a portal when the connection is unstable, and
    Notifications.v shows what the user is told and answers to the clicks. The
    application object (MozillaVPN.v) turns what the user, the controller and the
    profiles do into tasks and states, for each of which Navigator.v finds a screen.
    What lasts is kept in the settings (Settings.v, SettingsList.v), which Features.v
    and RecentConnections.v read. The commands of CommandLine.v run a controller of their
    own until it has come to a result. A browser talks to all this through the bridge process
    and the adapter of WebExtension.v.

    On the other side, the controller's backend is NetworkManager
    (NetmgrController.v, with the routing table of NetmgrUtils.v) or the daemon.
    Client and daemon talk by lines of JSON (JsonText.v) over a local socket
    (LocalSocket.v, DaemonConnection.v), or by the calls of D-Bus: DBusService.v is
    the service, which asks polkit about every caller, and LinuxController.v the
    client; the two run as a system of asynchronous steps. The Linux backend of the daemon
    (WireguardUtilsLinux.v) sends the netlink messages of Netlink.v;
    LinuxDaemon.v runs the daemon on it and states what the kernel is left with.
    SplitTunnel.v keeps applications out of the tunnel by the control groups that
    AppScope.v recognises, and DnsUtilsLinux.v sets the resolvers and the device.
    CryptoSettings.v is the encrypted settings file.

    ** Files

    - Prelude: the [Outcome] of a computation that can run out of fuel or be
      undefined in C++, tactics, the hint database, lemmas on lists and words.
    - QHostAddress, QString, Json: the Qt types the code uses. What Qt does with
      the text of addresses and numbers is the interface [QHostAddressText] /
      [QtText], whose laws ([QtTextLaws]) state documented behaviour; QtTextModel
      is an instance that satisfies them and the witnesses compute with it.
    - IPAddress (utils/ipaddress.cpp): prefixes on the raw words and byte arrays.
      [excludeAddresses] returns networks that cover exactly the difference, in
      at most one iteration per bit of the address.
    - Rfc (utils/rfc/): the reserved blocks as tables and the LAN ranges.
    - InterfaceConfig, WireGuardConfig (utils/): record, JSON and text forms, the
      parser with every error; ConfigRoundTrip proves that parsing the printed
      text gives the configuration back.
    - WireGuardProfileModel (models/): the stored profiles, refined to an abstract
      list of profiles with an active one; what is persisted is what is loaded.
    - DaemonModel (daemon/daemon.cpp): activation, switching, deactivation,
      status, handshake polling. The backend is any function from the calls it
      has received to an answer; theorems are about the sequences of calls, and
      hold for every backend.
    - Server, ServerList (utils/models/), ServerData (models/serverdata.cpp), Dns
      (dnshelper.cpp, controller_p.cpp): reading the server document, the weighted
      choice, the chosen location, resolvers and ranges.
    - ControllerModel (controller.cpp): every slot and operation as a function
      from the environment of the event to an effectful change of the members;
      ControllerProofs: no event a desktop client can meet reaches undefined
      behaviour, unless the servers it chooses from have weights of sum -1 or an
      empty range of ports; attempts are bounded, and what each main operation does.
    - PingSender (pingsender*.cpp, platforms/linux/linuxpingsender.cpp): checksums,
      echo and DNS requests, the filter of the raw socket, the answers.
    - PingHelper, ConnectionHealth (pinghelper.cpp, connectionhealth.cpp): the
      circular buffer refines a window on the log of all pings of the session;
      the statistics, the verdicts of a health check and the signals.
    - Tasks, TaskGroup (utils/taskscheduler.cpp, taskgroup.cpp): the scheduler
      refines a queue with one server, tasks run in order, none is lost.
    - TaskControllerAction (tasks/controlleraction/): task and controller composed;
      a task completes exactly once.
    - ServerLatency (serverlatency.cpp): queue, parallel pings, retries and
      timeouts, averages, scores and cooldowns.
    - NetmgrUtils, NetmgrController (platforms/linux/): longest prefix of the
      routing table; the activation, the wait for a handshake, the state machine.
    - Netlink, WireguardUtilsLinux, LinuxDaemon (platforms/linux/daemon/): message
      buffers and their reader, the backend in a state monad with the calls of the
      system as a trace, and the theorems over the trace (what the kernel holds).
    - DBusService, LinuxController (platforms/linux/daemon/dbusservice.cpp,
      platforms/linux/linuxcontroller.cpp, dbusclient.cpp): the service over the
      daemon and split tunnelling, and the backend of the controller that calls it.
    - AppScope, SplitTunnel, DnsUtilsLinux (platforms/linux/daemon/): the names of
      control groups, applications outside the tunnel, systemd-resolved and the
      interface.
    - JsonText, LocalSocket, DaemonConnection (localsocketcontroller.cpp,
      daemon/daemonlocalserverconnection.cpp): lines of JSON, the client with its
      timeouts and attempts, the server; the two put together. What Qt does with
      JSON text is the interface [QtJsonText] with its laws.
    - CryptoSettings (settings/cryptosettings.cpp, utils/hkdf.cpp and
      platforms/linux/xdgcryptosettings.cpp): the file formats, the nonces, the key
      derived from the secret of the portal. Cipher and HMAC are arguments.
    - Settings, SettingsList, Features (settings/, settingsholder.cpp, feature/):
      typed settings and groups, what listeners see, the list of the settings, what
      is logged and reset; features and what the service may change of them.
    - RecentConnections (models/recentconnections.cpp): the two lists of the last
      connections and their setting.
    - CaptivePortal (captiveportal/): the verdict of several requests, the task with
      its retries and time limit, when a detection starts and what it may report.
    - MozillaVPN (mozillavpn.cpp, errorhandler.cpp): states, tasks, alerts.
    - Navigator (frontend/navigator.cpp): the registered screens, requests and history;
      navigator and application composed, a screen of the state is always shown.
    - Notifications (notificationhandler.cpp, networkwatcher.cpp, statusicon.cpp):
      what is notified, unsecured networks with their cooldown, the clicks, the icon.
    - CommandLine (utils/commandlineparser.cpp, commands/): options, help, exit codes,
      and the commands; activate, deactivate and status in their event loops.
    - WebExtension (webextension/, webextensionadapter.cpp): messages framed by their
      length; both readers are instances of the interface [DecoderLaws], against which
      the path of a request from standard input to its answer is put together.

    ** Conventions

    A class is a [Record] of its members with one definition per method; names
    are the source's. Integers are [Z] with the wrap-around of their C++ width
    written out ([u16], [u32], [u64]); doubles are binary64 numbers of the standard
    library's [SpecFloat] where the code computes with doubles. Signals and calls
    of other components are values recorded in order. The clock, random numbers, sockets, settings and answers of
    other processes are arguments. An access that C++ leaves undefined is
    [Undefined], so that "is never undefined" is a theorem, not an assumption.

    ** Fuel

    Loops that are not structural take fuel and return [OutOfFuel] when it is
    spent; each has a theorem that the bound passed in is enough.
    [IPAddress.excludeAddress] has 129 units, one per bit of an IPv6 address and one
    to stop; [Tasks.maybeRunTask] has the size of the scripts of the queued tasks,
    which every run decreases; [ServerLatency.retryOverdue] has one more than the
    pings in flight; [Daemon.activate] and [DBusService.activate] have two levels,
    because the recursive call follows a deactivation that leaves no connection. The
    controller has no unbounded loop. The readers of WebExtension.v have one unit more
    than the bytes they hold; [WebExtension.handleMessage] has the depth of the stack,
    and one message exhausts every depth.

    ** Groups of theorems

    Refinements of abstract specifications: [excludeAddresses_correct],
    [run_refines], [scheduler_refines], [session_statistics], [signals_cross],
    [service_refines], [recent_refines]. Equivalence with a reference:
    [inetChecksum_rfc1071], [mainRoute_longestPrefix].
    Invariants of reachable states: [reachable_safe], [reachable_handles],
    [reachable_measurement], [reachable_activation], [reachable_app],
    [navigation_shows], [deactivate_leaves_nothing], [listeners_current]. Termination
    and progress: [timeouts_bounded], [completes_once], [task_completes],
    [switch_reconnect], [reachable_trying], [deactivations_told]. Round trips:
    [parse_toWgConf], [requests_roundtrip], [activate_crosses],
    [activation_crosses], [xdg_roundtrip], [launch_recognised], [request_response]. What is undone:
    [peer_undone], [sessions_restore], [exclusions_current]. What must not happen: [refused_no_effect],
    [logs_hide_secrets], [write_nonces], [reachable_alerts]. Functional and error behaviour: the
    remaining ones. Lemmas named in the manifest's findings
    ([excludeAddress_diverges], [weightChooser_undefined], ...) show defects.

    ** Not modelled

    User interface, translations, the drawing of icons, logging and telemetry; code of
    Qt, of the vendored HACL* ciphers and of the operating systems (sockets, the
    kernel behind netlink, iptables, D-Bus services), which is an argument of the
    models; the daemons of Windows and macOS; the sign-in, subscription and add-on
    delivery of the hosted service, whose tasks send one request each and which
    this fork switches off by early returns; copies and reference counts that only
    the leak detector sees. A backend answers the controller by later events, never
    from inside a call, and a completed task does not start its successor from
    inside the controller's call. Strings are of Latin-1 characters. *)
From Stdlib Require Import ZArith Lia Ascii String.
From stdpp Require Import base numbers list gmap strings.

(** ** Scope and notations *)

Declare Scope wg_scope.
Delimit Scope wg_scope with wg.

(** ** Outcome of a C++ computation

    [Ret v] is a normal return; [OutOfFuel] is reported when the loop bound the
    model passes in is used up; [Undefined] is an execution whose behaviour C++
    (or the Qt container) leaves undefined, such as an out-of-range
    [QList::operator[]]. *)
Inductive Outcome (A : Type) : Type :=
| Ret (a : A)
| OutOfFuel
| Undefined.

Arguments Ret {A} a.
Arguments OutOfFuel {A}.
Arguments Undefined {A}.

Definition outcome_bind {A B : Type} (m : Outcome A) (k : A -> Outcome B) : Outcome B :=
  match m with
  | Ret a => k a
  | OutOfFuel => OutOfFuel
  | Undefined => Undefined
  end.

Notation "x <~ m ;; k" := (outcome_bind m (fun x => k))
  (at level 100, m at next level, right associativity) : wg_scope.

(** ** Functional update of record fields

    A record type that declares its [Eta] expansion gets an update operation for
    each of its projections: [r <| field := v |>]. *)
Class Eta (R : Type) : Type := eta : R -> R.

Class FieldUpdate {R T : Type} (proj : R -> T) : Type :=
  updateField : (T -> T) -> R -> R.

Ltac field_update :=
  match goal with
  | |- @FieldUpdate ?R ?T ?proj =>
      let f := fresh "f" in let r := fresh "r" in intros f r;
      let body := eval hnf in (eta r) in
      lazymatch eval pattern (proj r) in body with
      | ?g _ => exact (g (f (proj r)))
      end
  end.

#[export] Hint Extern 1 (FieldUpdate _) => field_update : typeclass_instances.

Notation "r <| proj := v |>" := (updateField (proj := proj) (fun _ => v) r)
  (at level 1, proj at level 11, v at level 200, left associativity,
   format "r  <| proj  :=  v |>") : wg_scope.

(** ** Fixed-width unsigned integers *)

Definition u8 (z : Z) : Z := (z mod 2 ^ 8)%Z.
Definition u16 (z : Z) : Z := (z mod 2 ^ 16)%Z.
Definition u32 (z : Z) : Z := (z mod 2 ^ 32)%Z.
Definition u64 (z : Z) : Z := (z mod 2 ^ 64)%Z.

(** Conversion to a signed 32-bit integer. *)
Definition s32 (z : Z) : Z := (if u32 z <? 2 ^ 31 then u32 z else u32 z - 2 ^ 32)%Z.

Lemma u16_range (z : Z) : (0 <= u16 z < 65536)%Z.
Proof. by apply Z.mod_pos_bound. Qed.

Lemma u64_range (z : Z) : (0 <= u64 z < 2 ^ 64)%Z.
Proof. by apply Z.mod_pos_bound. Qed.

(** ** Automation *)

Create HintDb wg discriminated.
Create HintDb wg_bits.

(** Case analysis on every [if] and [match] of the goal. *)
Ltac case_all := repeat (case_match; simplify_eq/=; try done).

(** Case analysis on boolean tests over integers, as linear arithmetic. *)
Ltac zbool :=
  repeat match goal with
  | H : (_ && _)%bool = true |- _ => apply andb_true_iff in H as [? ?]
  | H : (_ && _)%bool = false |- _ => apply andb_false_iff in H
  | H : (_ || _)%bool = true |- _ => apply orb_true_iff in H
  | H : (_ || _)%bool = false |- _ => apply orb_false_iff in H as [? ?]
  | H : negb _ = true |- _ => apply negb_true_iff in H
  | H : negb _ = false |- _ => apply negb_false_iff in H
  | H : Z.ltb _ _ = true |- _ => apply Z.ltb_lt in H
  | H : Z.ltb _ _ = false |- _ => apply Z.ltb_ge in H
  | H : Z.leb _ _ = true |- _ => apply Z.leb_le in H
  | H : Z.leb _ _ = false |- _ => apply Z.leb_gt in H
  | H : Z.eqb _ _ = true |- _ => apply Z.eqb_eq in H
  | H : Z.eqb _ _ = false |- _ => apply Z.eqb_neq in H
  | H : bool_decide _ = true |- _ => apply bool_decide_eq_true in H
  | H : bool_decide _ = false |- _ => apply bool_decide_eq_false in H
  end.

(** Decide a [bool_decide] of the goal by congruence. *)
Ltac bd_true := rewrite bool_decide_true by (done || congruence).
Ltac bd_false := rewrite bool_decide_false by (intros ?; congruence).

(** Membership in explicit lists. *)
Ltac list_in :=
  rewrite ?elem_of_app, ?elem_of_cons, ?elem_of_app, ?elem_of_cons, ?elem_of_nil in *;
  first [tauto | intuition congruence].

(** A closed decidable proposition, by evaluation. *)
Ltac by_decision := apply (bool_decide_unpack _); vm_compute; exact I.

(** ** Bits of integers *)

Section Bits.
Local Open Scope Z_scope.

(** Two non-negative integers below [2^w] with the same [w] bits, counted from
    the most significant one, are equal. *)
Lemma msb_inj (w x y : Z) :
  0 <= w -> 0 <= x < 2 ^ w -> 0 <= y < 2 ^ w ->
  (forall j, 0 <= j < w -> Z.testbit x (w - 1 - j) = Z.testbit y (w - 1 - j)) ->
  x = y.
Proof.
  intros Hw Hx Hy Hb. apply Z.bits_inj'. intros n Hn.
  destruct (decide (n < w)) as [Hlt|Hge].
  - replace n with (w - 1 - (w - 1 - n)) by lia. apply Hb. lia.
  - rewrite <- (Z.mod_small x (2 ^ w)), <- (Z.mod_small y (2 ^ w)) by lia.
    rewrite !Z.mod_pow2_bits_high by lia. done.
Qed.

(** The test [((x ^ y) >> (w - r)) == 0] compares the [r] most significant bits
    of two [w]-bit integers. *)
Lemma shiftr_lxor_zero (w r x y : Z) :
  0 <= r <= w -> 0 <= x < 2 ^ w -> 0 <= y < 2 ^ w ->
  Z.shiftr (Z.lxor x y) (w - r) = 0 <->
  (forall j, 0 <= j < r -> Z.testbit x (w - 1 - j) = Z.testbit y (w - 1 - j)).
Proof.
  intros Hr Hx Hy. split.
  - intros H j Hj.
    assert (Z.testbit (Z.shiftr (Z.lxor x y) (w - r)) (r - 1 - j) = false) as Hb
      by (rewrite H; apply Z.testbit_0_l).
    rewrite Z.shiftr_spec in Hb by lia.
    replace (r - 1 - j + (w - r)) with (w - 1 - j) in Hb by lia.
    rewrite Z.lxor_spec in Hb. by apply xorb_eq.
  - intros H. apply Z.bits_inj'. intros n Hn. rewrite Z.testbit_0_l.
    rewrite Z.shiftr_spec, Z.lxor_spec by lia.
    destruct (decide (n < r)).
    + replace (n + (w - r)) with (w - 1 - (r - 1 - n)) by lia.
      rewrite H by lia. apply xorb_nilpotent.
    + rewrite <- (Z.mod_small x (2 ^ w)), <- (Z.mod_small y (2 ^ w)) by lia.
      rewrite !Z.mod_pow2_bits_high by lia. done.
Qed.

(** Bits of an all-ones constant shifted right. *)
Lemma testbit_ones_shiftr (w p j : Z) :
  0 <= p <= w -> 0 <= j < w ->
  Z.testbit (Z.shiftr (Z.ones w) p) (w - 1 - j) = (p <=? j).
Proof.
  intros Hp Hj. rewrite Z.shiftr_spec by lia.
  destruct (Z.leb_spec p j).
  - rewrite Z.ones_spec_low by lia. done.
  - rewrite Z.ones_spec_high by lia. done.
Qed.

(** Bits of the top bit shifted right. *)
Lemma testbit_top_shiftr (w p j : Z) :
  0 <= p < w -> 0 <= j < w ->
  Z.testbit (Z.shiftr (2 ^ (w - 1)) p) (w - 1 - j) = (j =? p).
Proof.
  intros Hp Hj. rewrite Z.shiftr_spec, Z.pow2_bits_eqb by lia.
  destruct (Z.eqb_spec j p), (Z.eqb_spec (w - 1) (w - 1 - j + p)); lia || done.
Qed.

Lemma lor_range (w x y : Z) :
  0 <= w -> 0 <= x < 2 ^ w -> 0 <= y < 2 ^ w -> 0 <= Z.lor x y < 2 ^ w.
Proof.
  intros Hw Hx Hy. split; [apply Z.lor_nonneg; lia|].
  rewrite <- (Z.mod_small x (2 ^ w)), <- (Z.mod_small y (2 ^ w)) by lia.
  rewrite <- !Z.land_ones, <- Z.land_lor_distr_l, Z.land_ones by lia.
  apply Z.mod_pos_bound. lia.
Qed.

Lemma lxor_range (w x y : Z) :
  0 <= w -> 0 <= x < 2 ^ w -> 0 <= y < 2 ^ w -> 0 <= Z.lxor x y < 2 ^ w.
Proof.
  intros Hw Hx Hy. split; [apply Z.lxor_nonneg; lia|].
  assert (Z.lxor x y = Z.lxor x y mod 2 ^ w) as ->; [|apply Z.mod_pos_bound; lia].
  apply Z.bits_inj'. intros n Hn. destruct (decide (n < w)).
  - rewrite Z.mod_pow2_bits_low by lia. done.
  - rewrite Z.mod_pow2_bits_high, Z.lxor_spec by lia.
    rewrite <- (Z.mod_small x (2 ^ w)), <- (Z.mod_small y (2 ^ w)) by lia.
    rewrite !Z.mod_pow2_bits_high by lia. done.
Qed.

Lemma shiftr_range (w x p : Z) :
  0 <= w -> 0 <= p -> 0 <= x < 2 ^ w -> 0 <= Z.shiftr x p < 2 ^ w.
Proof.
  intros Hw Hp Hx. rewrite Z.shiftr_div_pow2 by lia.
  assert (0 < 2 ^ p) by lia.
  split; [apply Z.div_pos; lia|].
  apply Z.div_lt_upper_bound; [lia|]. nia.
Qed.

End Bits.

#[export] Hint Resolve lor_range lxor_range shiftr_range : wg_bits.

(** ** Lists *)

Lemma filter_all {A : Type} (P : A -> Prop) `{forall x, Decision (P x)} (l : list A) :
  (forall x, x ∈ l -> P x) -> filter P l = l.
Proof.
  induction l as [|x l IH]; intros Hl; [done|].
  rewrite filter_cons_True by (apply Hl; left). f_equal. apply IH.
  intros y Hy. apply Hl. by right.
Qed.

Lemma NoDup_map_filter {A B : Type} (f : A -> B) (P : A -> Prop)
    `{forall x, Decision (P x)} (l : list A) :
  NoDup (map f l) -> NoDup (map f (filter P l)).
Proof.
  induction l as [|x l IH]; intros Hd; [done|]. inversion Hd as [|? ? Hx Hl]; subst.
  destruct (decide (P x)).
  - rewrite filter_cons_True by done. simpl. constructor; [|by apply IH].
    intros Hin. apply Hx. apply list_elem_of_fmap in Hin as (y & -> & Hy).
    apply list_elem_of_filter in Hy as [_ Hy]. by apply list_elem_of_fmap_2.
  - rewrite filter_cons_False by done. by apply IH.
Qed.

(** Every two elements of [l1 ++ l2] are related when those of [l1], those of
    [l2], and those across are. *)
Lemma ForallOrdPairs_app {A} (R : A -> A -> Prop) (l1 l2 : list A) :
  ForallOrdPairs R l1 -> ForallOrdPairs R l2 ->
  (forall x y, x ∈ l1 -> y ∈ l2 -> R x y) -> ForallOrdPairs R (l1 ++ l2).
Proof.
  induction 1 as [|x l1 Hx Hl1 IH]; intros Hl2 Hx12; simpl; [done|].
  constructor.
  - apply Forall_app. split; [done|]. apply Forall_forall. intros y Hy.
    apply Hx12; [left|done].
  - apply IH; [done|]. intros y z Hy Hz. apply Hx12; [by right|done].
Qed.

Lemma ForallOrdPairs_inv {A} (R : A -> A -> Prop) (x : A) (l : list A) :
  ForallOrdPairs R (x :: l) -> (forall y, y ∈ l -> R x y) /\ ForallOrdPairs R l.
Proof. inversion 1 as [|? ? H1 H2]; subst. by rewrite Forall_forall in H1. Qed.
