(* ===== verification/QHostAddress.v ===== *)
(** * Addresses of the Qt network module

    [QHostAddress] as the code under src/ uses it: an IPv4 address (a 32-bit
    integer), an IPv6 address (a [Q_IPV6ADDR], sixteen bytes in network order)
    or a null address. Scope identifiers are not represented. The textual forms
    (parsing and printing) are Qt code and stay abstract: [QHostAddressText] is
    the interface the rest of the development uses. *)
From Stdlib Require Import ZArith Lia Ascii String.
From stdpp Require Import base numbers list gmap strings.
From S2P Require Import Prelude.

Local Open Scope Z_scope.

(** ** Data *)

Inductive NetworkLayerProtocol : Type :=
| IPv4Protocol
| IPv6Protocol
| UnknownNetworkLayerProtocol.

Inductive QHostAddress : Type :=
| NullHost
| HostV4 (a : Z)
| HostV6 (bytes : list Z).

#[export] Instance NetworkLayerProtocol_eq_dec : EqDecision NetworkLayerProtocol.
Proof. solve_decision. Defined.

#[export] Instance QHostAddress_eq_dec : EqDecision QHostAddress.
Proof. solve_decision. Defined.

Definition protocol (a : QHostAddress) : NetworkLayerProtocol :=
  match a with
  | NullHost => UnknownNetworkLayerProtocol
  | HostV4 _ => IPv4Protocol
  | HostV6 _ => IPv6Protocol
  end.

Definition isNull (a : QHostAddress) : bool :=
  bool_decide (a = NullHost).

(** Width in bits of the addresses of a family. *)
Definition addrWidth (a : QHostAddress) : Z :=
  match a with
  | NullHost => 0
  | HostV4 _ => 32
  | HostV6 _ => 128
  end.

Definition wf_byte (b : Z) : Prop := 0 <= b < 2 ^ 8.

Definition wf_host (a : QHostAddress) : Prop :=
  match a with
  | NullHost => False
  | HostV4 v => 0 <= v < 2 ^ 32
  | HostV6 l => length l = 16%nat /\ Forall wf_byte l
  end.

#[export] Instance wf_host_dec (a : QHostAddress) : Decision (wf_host a).
Proof. destruct a; simpl; unfold wf_byte; apply _. Defined.

(** The [i]-th bit of an address, counted from the most significant one. *)
Definition abit (a : QHostAddress) (i : Z) : bool :=
  match a with
  | NullHost => false
  | HostV4 v => Z.testbit v (31 - i)
  | HostV6 l => Z.testbit (default 0 (l !! Z.to_nat (i / 8))) (7 - i mod 8)
  end.

(** ** The textual interface of Qt *)

(** [QHostAddress(const QString&)], [QHostAddress::parseSubnet] and
    [QHostAddress::toString]. Strings are lists of characters. *)
Class QHostAddressText : Type := {
  hostOfString : list ascii -> QHostAddress;
  parseSubnet : list ascii -> QHostAddress * Z;
  hostToString : QHostAddress -> list ascii;
}.

(** ** Lemmas *)

Lemma wf_host_not_null (a : QHostAddress) : wf_host a -> a <> NullHost.
Proof. by intros ? ->. Qed.

Lemma addrWidth_pos (a : QHostAddress) : wf_host a -> 0 < addrWidth a.
Proof. destruct a; simpl; lia || done. Qed.

Lemma addrWidth_protocol (a b : QHostAddress) :
  protocol a = protocol b -> addrWidth a = addrWidth b.
Proof. by destruct a, b. Qed.

Lemma wf_byte_lookup (l : list Z) (k : nat) :
  Forall wf_byte l -> wf_byte (default 0 (l !! k)).
Proof.
  intros Hl. destruct (l !! k) as [b|] eqn:E; simpl.
  - by eapply Forall_lookup_1.
  - unfold wf_byte. lia.
Qed.

(** Two well-formed addresses of a family with the same bits are equal. *)
Lemma abit_inj (a b : QHostAddress) :
  wf_host a -> wf_host b -> protocol a = protocol b ->
  (forall i, 0 <= i < addrWidth a -> abit a i = abit b i) -> a = b.
Proof.
  destruct a as [|v|l], b as [|v'|l']; simpl; try done.
  - intros Hv Hv' _ H. f_equal. apply (msb_inj 32); [lia..|].
    intros j Hj. apply (H j). lia.
  - intros [Hlen Hl] [Hlen' Hl'] _ H. f_equal. apply list_eq. intros k.
    destruct (decide (k < 16)%nat) as [Hk|Hk].
    2:{ rewrite !lookup_ge_None_2 by lia. done. }
    destruct (lookup_lt_is_Some_2 l k) as [x Hx]; [lia|].
    destruct (lookup_lt_is_Some_2 l' k) as [y Hy]; [lia|].
    rewrite Hx, Hy. f_equal.
    pose proof (Forall_lookup_1 _ _ _ _ Hl Hx).
    pose proof (Forall_lookup_1 _ _ _ _ Hl' Hy).
    apply (msb_inj 8); [done..|]. intros j Hj.
    specialize (H (8 * Z.of_nat k + j)).
    replace ((8 * Z.of_nat k + j) / 8) with (Z.of_nat k) in H
      by (Z.to_euclidean_division_equations; lia).
    replace ((8 * Z.of_nat k + j) mod 8) with j in H
      by (Z.to_euclidean_division_equations; lia).
    rewrite Nat2Z.id, Hx, Hy in H. simpl in H. apply H. lia.
Qed.

#[export] Hint Resolve wf_host_not_null addrWidth_pos : wg.
