(* ===== verification/QString.v ===== *)
(** * Strings

    The [QString] operations the code under src/ uses, on characters of the
    Latin-1 range (one [ascii] per UTF-16 unit below 256). A [QString] is null
    or a sequence of characters: [None] is the null string, which [isEmpty]
    accepts and which compares equal to the empty one. Conversions whose details
    are Qt code (numbers and addresses from text) are the fields of [QtText],
    with the documented behaviour the code relies on in [QtTextLaws]. *)
From Stdlib Require Import ZArith Lia Ascii String.
From Stdlib Require Import DecimalString DecimalPos DecimalN.
From stdpp Require Import base numbers list gmap strings.
From S2P Require Import Prelude QHostAddress.

(** ** Characters and strings *)

Abbreviation chars := (list ascii).

(** A string literal of the source. *)
Definition qs (s : string) : chars := String.list_ascii_of_string s.

Definition QString : Type := option chars.

#[export] Instance QString_eq_dec : EqDecision QString.
Proof. unfold QString. solve_decision. Defined.

(** The characters of a string; the null string has none. *)
Definition text (s : QString) : chars := default [] s.

Definition isNullString (s : QString) : bool :=
  match s with None => true | Some _ => false end.

Definition isEmpty (s : QString) : bool := bool_decide (text s = []).

(** [operator==] does not tell the null string from the empty one. *)
Definition QString_eqb (a b : QString) : bool := bool_decide (text a = text b).

#[export] Instance QString_equiv : Equiv QString := fun a b => text a = text b.

(** ** Operations *)

(** [QChar::isSpace] on Latin-1. *)
Definition isSpace (c : ascii) : bool :=
  let n := nat_of_ascii c in
  ((9 <=? n) && (n <=? 13)) || (n =? 32) || (n =? 133) || (n =? 160).

(** [QChar::toLower] on Latin-1. *)
Definition toLowerChar (c : ascii) : ascii :=
  let n := nat_of_ascii c in
  if ((65 <=? n) && (n <=? 90)) || ((192 <=? n) && (n <=? 222) && negb (n =? 215))
  then ascii_of_nat (n + 32) else c.

Definition toLower (s : chars) : chars := map toLowerChar s.

Fixpoint dropSpaces (s : chars) : chars :=
  match s with
  | [] => []
  | c :: r => if isSpace c then dropSpaces r else s
  end.

Definition trimmed (s : chars) : chars := rev (dropSpaces (rev (dropSpaces s))).

(** [indexOf(QChar)]: position of the first occurrence, [-1] if there is none. *)
Fixpoint indexOf (c : ascii) (s : chars) : Z :=
  match s with
  | [] => -1
  | x :: r =>
      if bool_decide (x = c) then 0
      else let i := indexOf c r in if i <? 0 then -1 else i + 1
  end%Z.

Definition lastIndexOf (c : ascii) (s : chars) : Z :=
  let i := indexOf c (rev s) in
  if (i <? 0)%Z then -1 else Z.of_nat (length s) - 1 - i.

Definition left (s : chars) (n : Z) : chars := take (Z.to_nat n) s.

(** [mid(pos)] and [mid(pos, n)], for non-negative arguments. *)
Definition mid (s : chars) (pos : Z) : chars := drop (Z.to_nat pos) s.
Definition midn (s : chars) (pos n : Z) : chars := take (Z.to_nat n) (drop (Z.to_nat pos) s).

(** [split(QChar)], which keeps empty parts. *)
Fixpoint split (c : ascii) (s : chars) : list chars :=
  match s with
  | [] => [[]]
  | x :: r =>
      match split c r with
      | h :: t => if bool_decide (x = c) then [] :: h :: t else (x :: h) :: t
      | [] => []
      end
  end.

(** [section(sep, 0, 0)]: what precedes the first separator. *)
Fixpoint section0 (c : ascii) (s : chars) : chars :=
  match s with
  | [] => []
  | x :: r => if bool_decide (x = c) then [] else x :: section0 c r
  end.

(** [QStringList::join]. *)
Fixpoint join (sep : chars) (l : list chars) : chars :=
  match l with
  | [] => []
  | [x] => x
  | x :: r => x ++ sep ++ join sep r
  end.

Definition startsWith (c : ascii) (s : chars) : bool := bool_decide (head s = Some c).
Definition endsWith (c : ascii) (s : chars) : bool := bool_decide (last s = Some c).

(** Decimal numerals, as [QString::arg(int)] and [QTextStream] write them. *)
Definition showN (n : N) : chars := qs (NilZero.string_of_uint (N.to_uint n)).

Definition showZ (z : Z) : chars :=
  if (z <? 0)%Z then qs "-" ++ showN (Z.to_N (- z)) else showN (Z.to_N z).

(** ** What the code relies on in Qt's text conversions *)

Definition newline : ascii := ascii_of_nat 10.

(** Characters that mean something to the configuration parser. *)
Definition special (c : ascii) : bool :=
  isSpace c || bool_decide (c ∈ qs ",#;/[]=").

Definition plainText (s : chars) : Prop := Forall (fun c => special c = false) s.

(** The dotted-quad form of an IPv4 address. *)
Definition dottedQuad (v : Z) : chars :=
  join (qs ".") [showZ (v / 2 ^ 24); showZ (v / 2 ^ 16 mod 256);
                 showZ (v / 2 ^ 8 mod 256); showZ (v mod 256)].

(** [toInt] is [None] where [QString::toInt] sets its [ok] argument to false. *)
Class QtText : Type := {
  #[global] qt_hosts :: QHostAddressText;
  toInt : chars -> option Z;
}.

Class QtTextLaws `{QtText} : Prop := {
  hostOfString_wf s : hostOfString s = NullHost \/ wf_host (hostOfString s);
  parseSubnet_wf s : (parseSubnet s).1 = NullHost \/ wf_host (parseSubnet s).1;
  hostOfString_toString a :
    wf_host a -> hostOfString (hostToString a) = a;
  hostToString_plain a : wf_host a -> plainText (hostToString a);
  hostToString_nonempty a : wf_host a -> hostToString a <> [];
  hostToString_v4_colon v : (0 <= v < 2 ^ 32)%Z -> ":"%char ∉ hostToString (HostV4 v);
  parseSubnet_toString a p :
    wf_host a -> (0 <= p <= addrWidth a)%Z ->
    (forall i, (p <= i < addrWidth a)%Z -> abit a i = false) ->
    parseSubnet (hostToString a ++ qs "/" ++ showZ p) = (a, p);
  hostToString_v4 v : (0 <= v < 2 ^ 32)%Z -> hostToString (HostV4 v) = dottedQuad v;
  parseSubnet_v6_blocks :
    parseSubnet (qs "fc00::/7") = (HostV6 (252 :: replicate 15 0), 7)%Z
    /\ parseSubnet (qs "fe80::/10") = (HostV6 (254 :: 128 :: replicate 14 0), 10)%Z
    /\ parseSubnet (qs "ff00::/8") = (HostV6 (255 :: replicate 15 0), 8)%Z;
  parseSubnet_v6_any : parseSubnet (qs "::0/0") = (HostV6 (replicate 16 0), 0)%Z;
  toInt_show n : (0 <= n < 2 ^ 31)%Z -> toInt (showZ n) = Some n;
  toInt_range s n : toInt s = Some n -> (- 2 ^ 31 <= n < 2 ^ 31)%Z;
}.

(** ** Lemmas *)

#[export] Instance QString_equivalence : Equivalence (≡@{QString}).
Proof. split; red; unfold equiv, QString_equiv; congruence. Qed.

#[export] Instance isEmpty_proper : Proper ((≡@{QString}) ==> eq) isEmpty.
Proof. intros a b H. unfold isEmpty. by rewrite (H : text a = text b). Qed.

#[export] Instance QString_eqb_proper :
  Proper ((≡@{QString}) ==> (≡) ==> eq) QString_eqb.
Proof. intros a b H c d H'. unfold QString_eqb.
  by rewrite (H : text a = text b), (H' : text c = text d). Qed.

Lemma isEmpty_spec (s : QString) : isEmpty s = true <-> s ≡ None.
Proof. unfold isEmpty. by rewrite bool_decide_eq_true. Qed.

Lemma isEmpty_false (s : QString) : isEmpty s = false <-> text s <> [].
Proof. unfold isEmpty. by rewrite bool_decide_eq_false. Qed.

Lemma dropSpaces_id (c : ascii) (s : chars) :
  isSpace c = false -> dropSpaces (c :: s) = c :: s.
Proof. intros H. simpl. by rewrite H. Qed.

Lemma dropSpaces_plain (s : chars) :
  Forall (fun c => isSpace c = false) s -> dropSpaces s = s.
Proof. destruct 1 as [|c s Hc _]; [done|by apply dropSpaces_id]. Qed.

(** A string that neither starts nor ends with a space. *)
Definition edgesPlain (s : chars) : Prop :=
  dropSpaces s = s /\ dropSpaces (rev s) = rev s.

Lemma trimmed_id (s : chars) : edgesPlain s -> trimmed s = s.
Proof. intros [H1 H2]. unfold trimmed. by rewrite H1, H2, rev_involutive. Qed.

Lemma dropSpaces_app (sp s : chars) :
  Forall (fun c => isSpace c = true) sp -> dropSpaces (sp ++ s) = dropSpaces s.
Proof. induction 1 as [|c sp Hc _ IH]; simpl; [done|by rewrite Hc]. Qed.

Lemma trimmed_space_l (s : chars) : trimmed (" "%char :: s) = trimmed s.
Proof. done. Qed.

Lemma trimmed_space_r (s : chars) :
  dropSpaces s = s -> s <> [] -> trimmed (s ++ [" "%char]) = trimmed s.
Proof.
  intros H Hn. unfold trimmed. destruct s as [|c s]; [done|].
  simpl in H. destruct (isSpace c) eqn:E.
  - exfalso. assert (length (dropSpaces s) <= length s)%nat as Hl.
    { clear. induction s as [|x s IH]; simpl; [done|]. case_match; simpl; lia. }
    rewrite H in Hl. simpl in Hl. lia.
  - change ((c :: s) ++ [" "%char]) with (c :: (s ++ [" "%char])).
    rewrite !dropSpaces_id by done.
    change (c :: (s ++ [" "%char])) with ((c :: s) ++ [" "%char]).
    by rewrite rev_app_distr.
Qed.

Lemma dropSpaces_suffix (s : chars) : exists sp, s = sp ++ dropSpaces s.
Proof.
  induction s as [|c s [sp IH]]; simpl; [by exists []|].
  destruct (isSpace c); [|by exists []]. exists (c :: sp). simpl. by rewrite <- IH.
Qed.

Lemma trimmed_elem (c : ascii) (s : chars) : c ∈ trimmed s -> c ∈ s.
Proof.
  unfold trimmed. rewrite !list_elem_of_In, <- in_rev.
  intros H. destruct (dropSpaces_suffix (rev (dropSpaces s))) as [sp E].
  assert (In c (rev (dropSpaces s))) as H2 by (rewrite E; apply in_or_app; by right).
  rewrite <- in_rev in H2. destruct (dropSpaces_suffix s) as [sp' E'].
  rewrite E'. apply in_or_app. by right.
Qed.

Lemma dropSpaces_head (s : chars) :
  dropSpaces s = [] \/ exists c r, dropSpaces s = c :: r /\ isSpace c = false.
Proof.
  induction s as [|c s IH]; simpl; [by left|].
  destruct (isSpace c) eqn:E; [done|]. right. eauto.
Qed.

Lemma dropSpaces_idemp (s : chars) : dropSpaces (dropSpaces s) = dropSpaces s.
Proof.
  destruct (dropSpaces_head s) as [->|(c & r & -> & Hc)]; [done|by apply dropSpaces_id].
Qed.

Lemma trimmed_edges (s : chars) : edgesPlain (trimmed s).
Proof.
  unfold edgesPlain, trimmed. rewrite rev_involutive, dropSpaces_idemp. split; [|done].
  destruct (dropSpaces_head s) as [->|(c & r & -> & Hc)]; [done|].
  destruct (dropSpaces_suffix (rev (c :: r))) as [sp E].
  apply (f_equal (@rev ascii)) in E. rewrite rev_involutive, rev_app_distr in E.
  destruct (rev (dropSpaces (rev (c :: r)))) as [|d t]; [done|].
  simpl in E. injection E as <- _. by apply dropSpaces_id.
Qed.

(** A string between two characters that are not spaces. *)
Lemma edgesPlain_intro (s : chars) (c d : ascii) (r t : chars) :
  s = c :: r -> s = t ++ [d] -> isSpace c = false -> isSpace d = false -> edgesPlain s.
Proof.
  intros H1 H2 Hc Hd. split.
  - rewrite H1. by apply dropSpaces_id.
  - rewrite H2, rev_app_distr. by apply dropSpaces_id.
Qed.

Lemma edgesPlain_first (s : chars) :
  edgesPlain s -> s <> [] -> exists c r, s = c :: r /\ isSpace c = false.
Proof.
  intros [H _] Hn. destruct (dropSpaces_head s) as [E|(c & r & E & Hc)]; [congruence|].
  exists c, r. split; [congruence|done].
Qed.

Lemma edgesPlain_last (s : chars) :
  edgesPlain s -> s <> [] -> exists t d, s = t ++ [d] /\ isSpace d = false.
Proof.
  intros [_ H] Hn. destruct (dropSpaces_head (rev s)) as [E|(c & r & E & Hc)].
  - exfalso. apply Hn. rewrite H in E. apply (f_equal (@rev ascii)) in E.
    by rewrite rev_involutive in E.
  - exists (rev r), c. split; [|done]. rewrite <- (rev_involutive s), <- H, E. done.
Qed.

(** Concatenation around any middle part. *)
Lemma edgesPlain_app (a m b : chars) :
  edgesPlain a -> a <> [] -> edgesPlain b -> b <> [] -> edgesPlain (a ++ m ++ b).
Proof.
  intros Ha Hna Hb Hnb.
  destruct (edgesPlain_first a Ha Hna) as (c & r & -> & Hc).
  destruct (edgesPlain_last b Hb Hnb) as (t & d & -> & Hd).
  eapply (edgesPlain_intro _ c d); [done| |done|done].
  by rewrite !app_assoc.
Qed.

Lemma indexOf_app (c : ascii) (a b : chars) :
  c ∉ a -> indexOf c (a ++ c :: b) = Z.of_nat (length a).
Proof.
  induction a as [|x a IH]; simpl; intros H.
  - by bd_true.
  - rewrite bool_decide_false by list_in. rewrite IH by list_in.
    destruct (Z.ltb_spec (Z.of_nat (length a)) 0); lia.
Qed.

Lemma indexOf_none (c : ascii) (a : chars) : c ∉ a <-> indexOf c a = (-1)%Z.
Proof.
  induction a as [|x a IH]; simpl; [list_in|].
  case_bool_decide as E; [list_in|]. rewrite elem_of_cons.
  destruct (Z.ltb_spec (indexOf c a) 0) as [Hl|Hl].
  - split; [done|]. intros _ [->|Hin]; [done|]. apply IH in Hin; [done|].
    clear -Hl. induction a as [|y a IH]; simpl in *; [done|].
    case_bool_decide; [lia|]. destruct (Z.ltb_spec (indexOf c a) 0); lia.
  - split; [|lia]. intros Hn. exfalso.
    assert (indexOf c a = -1)%Z by (apply IH; tauto). lia.
Qed.

Lemma indexOf_range (c : ascii) (a : chars) : (-1 <= indexOf c a)%Z.
Proof.
  induction a as [|x a IH]; simpl; [done|]. case_bool_decide; [done|].
  destruct (Z.ltb_spec (indexOf c a) 0); lia.
Qed.

Lemma indexOf_not_elem (c : ascii) (s : chars) : (indexOf c s < 0)%Z -> c ∉ s.
Proof. intros H. apply indexOf_none. pose proof (indexOf_range c s). lia. Qed.

Lemma indexOf_nonneg (c : ascii) (a : chars) :
  (0 <= indexOf c a)%Z ->
  exists x y, a = (x ++ c :: y) /\ (c ∉ x) /\ indexOf c a = Z.of_nat (length x).
Proof.
  induction a as [|h a IH]; simpl; [lia|]. case_bool_decide as E.
  - intros _. subst. exists [], a. simpl. split_and!; [done|list_in|done].
  - destruct (Z.ltb_spec (indexOf c a) 0) as [Hl|Hl]; [lia|]. intros _.
    destruct (IH Hl) as (x & y & -> & Hx & ->). exists (h :: x), y. simpl.
    split_and!; [done|list_in|lia].
Qed.

Lemma lastIndexOf_app (c : ascii) (a b : chars) :
  c ∉ b -> lastIndexOf c (a ++ c :: b) = Z.of_nat (length a).
Proof.
  intros Hb. unfold lastIndexOf. rewrite rev_app_distr. cbn [rev]. rewrite <- app_assoc.
  cbn [app]. rewrite indexOf_app by (by rewrite list_elem_of_In, <- in_rev, <- list_elem_of_In).
  rewrite length_app, length_rev. cbn [length].
  destruct (Z.ltb_spec (Z.of_nat (length b)) 0); lia.
Qed.

Lemma split_nonempty (c : ascii) (s : chars) : split c s <> [].
Proof. induction s as [|x s IH]; simpl; [done|]. repeat case_match; done. Qed.

Lemma split_app (c : ascii) (a b : chars) :
  c ∉ a -> split c (a ++ c :: b) = a :: split c b.
Proof.
  induction a as [|x a IH]; simpl; intros H.
  - destruct (split c b) eqn:E; [|by bd_true].
    by apply split_nonempty in E.
  - rewrite IH by list_in. rewrite bool_decide_false by list_in. done.
Qed.

Lemma split_none (c : ascii) (a : chars) : c ∉ a -> split c a = [a].
Proof.
  induction a as [|x a IH]; simpl; intros H; [done|].
  rewrite IH by list_in. rewrite bool_decide_false by list_in. done.
Qed.

Lemma section0_app (c : ascii) (a b : chars) :
  c ∉ a -> section0 c (a ++ c :: b) = a.
Proof.
  induction a as [|x a IH]; simpl; intros H; [by bd_true|].
  rewrite bool_decide_false by list_in. rewrite IH by list_in. done.
Qed.

Lemma section0_none (c : ascii) (a : chars) : c ∉ a -> section0 c a = a.
Proof.
  induction a as [|x a IH]; simpl; intros H; [done|].
  rewrite bool_decide_false by list_in. rewrite IH by list_in. done.
Qed.

Lemma left_app (a b : chars) : left (a ++ b) (Z.of_nat (length a)) = a.
Proof. unfold left. rewrite Nat2Z.id. apply take_app_length. Qed.

Lemma mid_app (a b : chars) (c : ascii) :
  mid (a ++ c :: b) (Z.of_nat (length a) + 1) = b.
Proof.
  unfold mid. replace (Z.to_nat (Z.of_nat (length a) + 1)) with (S (length a)) by lia.
  rewrite cons_middle, app_assoc.
  replace (S (length a)) with (length (a ++ [c])) by (rewrite length_app; simpl; lia).
  apply drop_app_length.
Qed.

Lemma plainText_not_elem (c : ascii) (s : chars) :
  plainText s -> special c = true -> c ∉ s.
Proof.
  intros H Hc Hin. unfold plainText in H. rewrite Forall_forall in H.
  apply H in Hin. congruence.
Qed.

Lemma plainText_edges (s : chars) : plainText s -> edgesPlain s.
Proof.
  intros H.
  assert (Forall (fun c => isSpace c = false) s) as Hs.
  { eapply Forall_impl; [exact H|]. intros c Hc. unfold special in Hc.
    by apply orb_false_iff in Hc as [? _]. }
  split; apply dropSpaces_plain; [done|]. by apply Forall_rev.
Qed.

(** Numerals. *)

Definition isDigit (c : ascii) : bool :=
  (48 <=? nat_of_ascii c) && (nat_of_ascii c <=? 57).

Lemma string_of_uint_digits (d : Decimal.uint) :
  Forall (fun c => isDigit c = true) (qs (NilEmpty.string_of_uint d)).
Proof. induction d; simpl; constructor; done. Qed.

Lemma showN_digits (n : N) : Forall (fun c => isDigit c = true) (showN n).
Proof.
  unfold showN, NilZero.string_of_uint. destruct (N.to_uint n) eqn:E;
    [by repeat constructor|..]; rewrite <- E; apply string_of_uint_digits.
Qed.

Lemma showN_nonempty (n : N) : showN n <> [].
Proof. unfold showN, NilZero.string_of_uint. by destruct (N.to_uint n). Qed.

Lemma isDigit_special (c : ascii) : isDigit c = true -> special c = false.
Proof. destruct c as [[] [] [] [] [] [] [] []]; vm_compute; done. Qed.

Lemma showZ_plain (z : Z) : (0 <= z)%Z -> plainText (showZ z).
Proof.
  intros H. unfold showZ. destruct (Z.ltb_spec z 0); [lia|].
  eapply Forall_impl; [apply showN_digits|]. apply isDigit_special.
Qed.

Lemma showZ_nonempty (z : Z) : (0 <= z)%Z -> showZ z <> [].
Proof. intros H. unfold showZ. destruct (Z.ltb_spec z 0); [lia|]. apply showN_nonempty. Qed.

Lemma showZ_digits (z : Z) : (0 <= z)%Z -> Forall (fun c => isDigit c = true) (showZ z).
Proof. intros H. unfold showZ. destruct (Z.ltb_spec z 0); [lia|]. apply showN_digits. Qed.

(** Reading a numeral back. *)
Definition readN (s : chars) : option N :=
  N.of_uint <$> NilZero.uint_of_string (String.string_of_list_ascii s).

Lemma readN_showN (n : N) : readN (showN n) = Some n.
Proof.
  unfold readN, showN, qs. rewrite String.string_of_list_ascii_of_string.
  rewrite NilZero.usu; [simpl; f_equal; apply DecimalN.Unsigned.of_to|].
  destruct n as [|p]; [done|]. apply DecimalPos.Unsigned.to_uint_nonnil.
Qed.

#[export] Hint Resolve trimmed_id plainText_edges showZ_plain showZ_nonempty : wg.
