(* ===== verification/QtTextModel.v ===== *)
(** * A concrete text layer

    An instance of [QtText] that satisfies [QtTextLaws], on which the witnesses
    of the theorems about parsing and printing are evaluated: dotted quads for
    IPv4, sixteen decimal bytes separated by colons for IPv6 (and the three
    blocks the code writes as literals). It shows that the laws can hold; it is
    not a model of Qt's own formats. *)
From Stdlib Require Import ZArith Lia Ascii String.
From stdpp Require Import base numbers list gmap strings.
From S2P Require Import Prelude QHostAddress QString.

Local Open Scope Z_scope.

Definition readZ (s : chars) : option Z := Z.of_N <$> readN s.

Definition readByte (s : chars) : option Z :=
  z ← readZ s; if z <? 256 then Some z else None.

Definition parseV4 (s : chars) : option QHostAddress :=
  match split "."%char s with
  | [a; b; c; d] =>
      a ← readByte a; b ← readByte b; c ← readByte c; d ← readByte d;
      Some (HostV4 (a * 2 ^ 24 + b * 2 ^ 16 + c * 2 ^ 8 + d))
  | _ => None
  end.

Definition parseV6 (s : chars) : option QHostAddress :=
  l ← mapM readByte (split ":"%char s);
  if bool_decide (length l = 16%nat) then Some (HostV6 l) else None.

Definition modelHostOfString (s : chars) : QHostAddress :=
  default (default NullHost (parseV6 s)) (parseV4 s).

Definition modelHostToString (a : QHostAddress) : chars :=
  match a with
  | NullHost => []
  | HostV4 v => dottedQuad v
  | HostV6 l => join (qs ":") (map showZ l)
  end.

Definition modelParseSubnet (s : chars) : QHostAddress * Z :=
  if bool_decide (s = qs "fc00::/7") then (HostV6 (252 :: replicate 15 0), 7)
  else if bool_decide (s = qs "fe80::/10") then (HostV6 (254 :: 128 :: replicate 14 0), 10)
  else if bool_decide (s = qs "ff00::/8") then (HostV6 (255 :: replicate 15 0), 8)
  else if bool_decide (s = qs "::0/0") then (HostV6 (replicate 16 0), 0)
  else match split "/"%char s with
  | [h; n] => default (NullHost, -1) (n ← readZ n; Some (modelHostOfString h, n))
  | _ => (NullHost, -1)
  end.

Definition modelToInt (s : chars) : option Z :=
  z ← readZ s; if z <? 2 ^ 31 then Some z else None.

Definition modelHosts : QHostAddressText := {|
  hostOfString := modelHostOfString;
  parseSubnet := modelParseSubnet;
  hostToString := modelHostToString;
|}.

Definition modelText : QtText := {|
  qt_hosts := modelHosts;
  toInt := modelToInt;
|}.

(** ** The laws *)

Lemma readZ_showZ (z : Z) : 0 <= z -> readZ (showZ z) = Some z.
Proof.
  intros H. unfold readZ, showZ. destruct (Z.ltb_spec z 0); [lia|].
  rewrite readN_showN. simpl. f_equal. lia.
Qed.

Lemma readByte_showZ (z : Z) : 0 <= z < 256 -> readByte (showZ z) = Some z.
Proof.
  intros H. unfold readByte. rewrite readZ_showZ by lia. simpl.
  destruct (Z.ltb_spec z 256); [done|lia].
Qed.

Lemma split_join (c : ascii) (l : list chars) :
  l <> [] -> Forall (fun s => c ∉ s) l -> split c (join [c] l) = l.
Proof.
  intros Hn Hl. induction Hl as [|x l Hx Hl IH]; [done|].
  destruct l as [|y l]; [by apply split_none|].
  change (join [c] (x :: y :: l)) with (x ++ c :: join [c] (y :: l)).
  rewrite split_app by done. by rewrite IH.
Qed.

Lemma digits_not_elem (c : ascii) (s : chars) :
  isDigit c = false -> Forall (fun c => isDigit c = true) s -> c ∉ s.
Proof. intros Hc Hs Hin. rewrite Forall_forall in Hs. apply Hs in Hin. congruence. Qed.

Lemma showZ_not_elem (c : ascii) (z : Z) : 0 <= z -> isDigit c = false -> c ∉ showZ z.
Proof. intros Hz Hc. eapply digits_not_elem; [done|by apply showZ_digits]. Qed.

(** The four fields of a dotted quad are bytes. *)
Lemma quad_fields (v : Z) :
  0 <= v < 2 ^ 32 ->
  0 <= v / 2 ^ 24 < 256 /\ 0 <= v / 2 ^ 16 mod 256 < 256
  /\ 0 <= v / 2 ^ 8 mod 256 < 256 /\ 0 <= v mod 256 < 256
  /\ v / 2 ^ 24 * 2 ^ 24 + v / 2 ^ 16 mod 256 * 2 ^ 16 + v / 2 ^ 8 mod 256 * 2 ^ 8
     + v mod 256 = v.
Proof. intros H. Z.to_euclidean_division_equations. lia. Qed.

Lemma parseV4_dottedQuad (v : Z) :
  0 <= v < 2 ^ 32 -> parseV4 (dottedQuad v) = Some (HostV4 v).
Proof.
  intros Hv. destruct (quad_fields v Hv) as (H1 & H2 & H3 & H4 & E).
  unfold parseV4, dottedQuad. change (qs ".") with ["."%char].
  rewrite split_join; [|done|repeat constructor; apply showZ_not_elem; lia || done].
  rewrite !readByte_showZ by done. simpl. by rewrite E.
Qed.

Lemma join_elem (c : ascii) (sep : chars) (l : list chars) :
  c ∈ join sep l -> c ∈ sep \/ Exists (fun s => c ∈ s) l.
Proof.
  induction l as [|x l IH]; simpl; [by inversion 1|].
  destruct l as [|y l]; [intros; right; by left|].
  rewrite !elem_of_app. intros [?|[?|H]]; [right; by left|by left|].
  destruct (IH H); [by left|right; by right].
Qed.

(** Every character of a printed address is a digit or the separator. *)
Lemma join_digits_elem (c d : ascii) (l : list Z) :
  Forall (fun z => 0 <= z) l ->
  c ∈ join [d] (map showZ l) -> c = d \/ isDigit c = true.
Proof.
  intros Hl [H|H]%join_elem; [left; list_in|right].
  apply Exists_exists in H as (s & Hs & Hc).
  apply list_elem_of_fmap in Hs as (z & -> & Hz). rewrite Forall_forall in Hl.
  pose proof (showZ_digits z (Hl z Hz)) as Hd. rewrite Forall_forall in Hd. by apply Hd.
Qed.

Lemma wf_bytes_nonneg (l : list Z) : Forall wf_byte l -> Forall (fun z => 0 <= z) l.
Proof. intros H. eapply Forall_impl; [exact H|]. by intros ? []. Qed.

Lemma dottedQuad_elem (c : ascii) (v : Z) :
  0 <= v < 2 ^ 32 -> c ∈ dottedQuad v -> c = "."%char \/ isDigit c = true.
Proof.
  intros Hv. destruct (quad_fields v Hv) as (H1 & H2 & H3 & H4 & _).
  apply (join_digits_elem c "."%char
    [v / 2 ^ 24; v / 2 ^ 16 mod 256; v / 2 ^ 8 mod 256; v mod 256]).
  repeat constructor; lia.
Qed.

Lemma mapM_readByte (l : list Z) :
  Forall wf_byte l -> mapM readByte (map showZ l) = Some l.
Proof.
  induction 1 as [|z l Hz _ IH]; [done|]. cbn [map mapM].
  rewrite readByte_showZ by done. cbn [mbind option_bind]. by rewrite IH.
Qed.

Lemma model_host_elem (c : ascii) (a : QHostAddress) :
  wf_host a -> c ∈ modelHostToString a ->
  c = "."%char \/ c = ":"%char \/ isDigit c = true.
Proof.
  destruct a as [|v|l]; simpl; [done| |].
  - intros Hv [?|?]%dottedQuad_elem; auto.
  - intros [_ Hl] [?|?]%join_digits_elem; [tauto..|by apply wf_bytes_nonneg].
Qed.

Lemma model_roundtrip (a : QHostAddress) :
  wf_host a -> modelHostOfString (modelHostToString a) = a.
Proof.
  destruct a as [|v|l]; [done| |]; cbn [wf_host modelHostToString].
  - intros Hv. unfold modelHostOfString. by rewrite parseV4_dottedQuad.
  - intros [Hlen Hl]. unfold modelHostOfString.
    assert (parseV4 (join (qs ":") (map showZ l)) = None) as ->.
    { unfold parseV4. rewrite split_none; [done|]. intros H.
      apply join_digits_elem in H as [?|?]; [done..|by apply wf_bytes_nonneg]. }
    cbn [default]. unfold parseV6. change (qs ":") with [":"%char]. rewrite split_join.
    + rewrite mapM_readByte by done. simpl. by bd_true.
    + by destruct l.
    + apply Forall_map. eapply Forall_impl; [by apply wf_bytes_nonneg|].
      intros z Hz. by apply showZ_not_elem.
Qed.

Lemma model_special (c : ascii) (a : QHostAddress) :
  wf_host a -> c ∈ modelHostToString a -> special c = false.
Proof.
  intros Ha [->|[->|H]]%model_host_elem; [done..|by apply isDigit_special|done].
Qed.

Lemma model_parseSubnet (a : QHostAddress) (p : Z) :
  wf_host a -> 0 <= p ->
  modelParseSubnet (modelHostToString a ++ qs "/" ++ showZ p) = (a, p).
Proof.
  intros Ha Hp.
  assert ("/"%char ∉ modelHostToString a) as Hs
    by (intros H; by apply model_special in H).
  assert (forall b s, (isDigit b || bool_decide (b ∈ qs ".:")) = false ->
    modelHostToString a ++ qs "/" ++ showZ p <> b :: "/"%char :: s /\
    forall c, modelHostToString a ++ qs "/" ++ showZ p <> b :: c :: s) as Hne.
  { intros b s Hb. assert (b ∉ modelHostToString a) as Hb'.
    { intros [->|[->|H]]%model_host_elem; [done..|by rewrite H in Hb|done]. }
    destruct (modelHostToString a) as [|x t] eqn:E.
    - exfalso. destruct a as [|v|l]; [done|..]; simpl in E.
      + unfold dottedQuad in E. apply (f_equal length) in E.
        simpl in E. rewrite !length_app in E. simpl in E. lia.
      + destruct Ha as [Hl _]. destruct l as [|z [|z' l]]; try done.
        apply (f_equal length) in E. simpl in E. rewrite !length_app in E. simpl in E. lia.
    - split; [|intros c]; intros [= -> _]; apply Hb'; left. }
  assert (modelHostToString a ++ qs "/" ++ showZ p <> qs "::0/0") as Hany.
  { intros E. apply (f_equal (split "/"%char)) in E.
    change (qs "/" ++ showZ p) with ("/"%char :: showZ p) in E.
    rewrite split_app in E by done. rewrite split_none in E by (by apply showZ_not_elem).
    vm_compute (split _ (qs _)) in E. injection E as E _.
    pose proof (model_roundtrip a Ha) as Hr. rewrite E in Hr. vm_compute in Hr. by subst. }
  unfold modelParseSubnet.
  rewrite 3!bool_decide_false by (apply Hne; done). rewrite bool_decide_false by exact Hany.
  change (qs "/" ++ showZ p) with ("/"%char :: showZ p).
  rewrite split_app by done. rewrite split_none by (by apply showZ_not_elem).
  rewrite readZ_showZ by done. simpl. by rewrite model_roundtrip.
Qed.

Lemma model_nonempty (a : QHostAddress) : wf_host a -> modelHostToString a <> [].
Proof.
  intros Ha E. pose proof (model_roundtrip a Ha) as H. rewrite E in H.
  vm_compute in H. by subst.
Qed.

Lemma readByte_wf (s : chars) (z : Z) : readByte s = Some z -> 0 <= z < 256.
Proof.
  unfold readByte, readZ. destruct (readN s) as [n|]; simpl; [|done].
  destruct (Z.ltb_spec (Z.of_N n) 256); [|done]. intros [= <-]. lia.
Qed.

Lemma model_host_wf (s : chars) :
  modelHostOfString s = NullHost \/ wf_host (modelHostOfString s).
Proof.
  unfold modelHostOfString. destruct (parseV4 s) as [a|] eqn:E4; simpl.
  - right. unfold parseV4 in E4. repeat (case_match; try done).
    repeat match type of E4 with
    | readByte ?t ≫= _ = _ =>
        let E := fresh "E" in
        destruct (readByte t) eqn:E; simpl in E4; [apply readByte_wf in E|done]
    end.
    simplify_eq/=. lia.
  - destruct (parseV6 s) as [a|] eqn:E6; simpl; [right|by left].
    unfold parseV6 in E6. destruct (mapM readByte _) as [l|] eqn:El; simpl in E6; [|done].
    case_bool_decide; simplify_eq/=. split; [done|].
    apply mapM_Some_1 in El. apply Forall_lookup_2. intros k z Hk.
    destruct (Forall2_lookup_r _ _ _ _ _ El Hk) as (t & _ & Ht).
    by apply readByte_wf in Ht.
Qed.

Lemma model_subnet_wf (s : chars) :
  (modelParseSubnet s).1 = NullHost \/ wf_host (modelParseSubnet s).1.
Proof.
  unfold modelParseSubnet.
  repeat (case_bool_decide; [right; apply (bool_decide_unpack _); vm_compute; exact I|]).
  repeat (case_match; try (by left)). destruct (readZ _); simpl; [|by left].
  apply model_host_wf.
Qed.

Lemma modelTextLaws : QtTextLaws (H := modelText).
Proof.
  split; simpl.
  - apply model_host_wf.
  - apply model_subnet_wf.
  - apply model_roundtrip.
  - intros a Ha. apply Forall_forall. intros c Hc. by eapply model_special.
  - apply model_nonempty.
  - intros v Hv H. by apply dottedQuad_elem in H as [?|?].
  - intros a p Ha Hp _. by apply model_parseSubnet; [|lia].
  - done.
  - repeat split.
  - done.
  - intros n Hn. unfold modelToInt. rewrite readZ_showZ by lia. simpl.
    destruct (Z.ltb_spec n (2 ^ 31)); [done|lia].
  - intros s n. unfold modelToInt, readZ. destruct (readN s) as [m|]; simpl; [|done].
    destruct (Z.ltb_spec (Z.of_N m) (2 ^ 31)); [|done]. intros [= <-]. lia.
Qed.
