(* ===== verification/QStringExtra.v ===== *)
(** * More string operations

    The [QString] operations of the Linux backends: [simplified], searches for
    substrings and number conversions. The conversions are Qt's; [QtNumbers]
    states what the code relies on in them, and [modelNumbers] is an instance
    that satisfies it. *)
From Stdlib Require Import ZArith Lia Ascii String.
From stdpp Require Import base numbers list gmap strings.
From S2P Require Import Prelude QHostAddress QString QtTextModel.

Local Open Scope Z_scope.

(** ** Operations *)

(** White space as one space before the next character that is not one. *)
Fixpoint squeeze (pending : bool) (s : chars) : chars :=
  match s with
  | [] => []
  | c :: r =>
      if isSpace c then squeeze true r
      else if pending then " "%char :: c :: squeeze false r
      else c :: squeeze false r
  end.

(** [simplified()]. *)
Definition simplified (s : chars) : chars := squeeze false (dropSpaces s).

(** [startsWith(QString)] and [endsWith(QString)]. *)
Definition startsWithText (p s : chars) : bool := bool_decide (take (length p) s = p).
Definition endsWithText (p s : chars) : bool := startsWithText (rev p) (rev s).

(** [contains(QString)]. *)
Fixpoint containsText (p s : chars) : bool :=
  startsWithText p s || match s with [] => false | _ :: r => containsText p r end.

(** [replace(QChar, QChar)]. *)
Definition replaceChar (a b : ascii) (s : chars) : chars :=
  map (fun c => if bool_decide (c = a) then b else c) s.

(** [split(QChar, Qt::SkipEmptyParts)]. *)
Definition splitSkipEmpty (c : ascii) (s : chars) : list chars :=
  base.filter (fun p => p <> []) (split c s).

(** ** Number conversions *)

(** Hexadecimal digits of a 32-bit integer, most significant first, as C's [%08X]
    prints them. *)
Definition hexDigit (d : Z) : ascii :=
  ascii_of_nat (Z.to_nat (if d <? 10 then 48 + d else 55 + d)).

Definition hex8 (v : Z) : chars :=
  map (fun k => hexDigit (Z.shiftr v (4 * k) mod 16)) [7; 6; 5; 4; 3; 2; 1; 0].

(** [toUInt(&ok, 16)] is [None] where it sets [ok] to false; the other conversions
    give 0 there. *)
Class QtNumbers : Type := {
  toUIntHex : chars -> option Z;
  toUInt : chars -> Z;
  toULongLong : chars -> Z;
}.

Class QtNumbersLaws `{QtNumbers} : Prop := {
  toUIntHex_hex8 v : 0 <= v < 2 ^ 32 -> toUIntHex (hex8 v) = Some v;
  toUIntHex_range s v : toUIntHex s = Some v -> 0 <= v < 2 ^ 32;
  toUInt_show n : 0 <= n < 2 ^ 32 -> toUInt (showZ n) = n;
}.

(** ** Words of a line *)

(** A word has a character and no space. *)
Definition word (s : chars) : Prop := s <> [] /\ Forall (fun c => isSpace c = false) s.

#[export] Instance word_dec (s : chars) : Decision (word s).
Proof. unfold word. apply _. Defined.

Definition spaces (s : chars) : Prop := Forall (fun c => isSpace c = true) s.

Lemma squeeze_word (w s : chars) :
  Forall (fun c => isSpace c = false) w -> squeeze false (w ++ s) = w ++ squeeze false s.
Proof. induction 1 as [|c w Hc _ IH]; simpl; [done|]. by rewrite Hc, IH. Qed.

Lemma squeeze_spaces (p : bool) (sp s : chars) :
  spaces sp -> sp <> [] -> squeeze p (sp ++ s) = squeeze true s.
Proof.
  intros H. revert p. induction H as [|c sp Hc Hs IH]; intros p Hn; [done|].
  simpl. rewrite Hc. destruct sp; [done|]. by apply IH.
Qed.

Lemma squeeze_pending (w s : chars) :
  word w -> squeeze true (w ++ s) = " "%char :: w ++ squeeze false s.
Proof.
  intros [Hn Hw]. destruct w as [|c w]; [done|]. simpl. inversion Hw; subst.
  rewrite H1. by rewrite squeeze_word.
Qed.

(** Words separated by [sep] and followed by spaces, simplified. *)
Lemma squeeze_join (sep pad w : chars) (ws : list chars) :
  spaces sep -> sep <> [] -> spaces pad -> Forall word (w :: ws) ->
  squeeze false (join sep (w :: ws) ++ pad) = join [" "%char] (w :: ws).
Proof.
  intros Hsep Hsn Hpad. revert w. induction ws as [|v ws IH]; intros w Hw.
  - inversion Hw as [|? ? [_ Hc] _]; subst. cbn [join].
    rewrite squeeze_word by done. destruct pad as [|c pad]; [by rewrite app_nil_r|].
    rewrite <- (app_nil_r (c :: pad)), squeeze_spaces by done. simpl. by rewrite app_nil_r.
  - inversion Hw as [|? ? [_ Hc] Hv]; subst.
    change (join sep (w :: v :: ws)) with (w ++ sep ++ join sep (v :: ws)).
    change (join [" "%char] (w :: v :: ws)) with (w ++ " "%char :: join [" "%char] (v :: ws)).
    rewrite <- !app_assoc, squeeze_word by done. f_equal.
    rewrite squeeze_spaces by done. rewrite <- (IH v Hv).
    inversion Hv as [|? ? Hvw _]; subst. pose proof (proj2 Hvw).
    destruct ws as [|x ws]; cbn [join]; rewrite <- ?app_assoc;
      by rewrite squeeze_pending, (squeeze_word v) by done.
Qed.

Lemma word_first (w : chars) (s : chars) : word w -> dropSpaces (w ++ s) = w ++ s.
Proof.
  intros [Hn Hw]. destruct w as [|c w]; [done|]. inversion Hw; subst.
  by apply dropSpaces_id.
Qed.

Lemma word_no_space (w : chars) : word w -> " "%char ∉ w.
Proof. intros [_ Hw] Hin. rewrite Forall_forall in Hw. by apply Hw in Hin. Qed.

(** The fields of a line are its words. *)
Lemma split_simplified (sep pad : chars) (ws : list chars) :
  spaces sep -> sep <> [] -> spaces pad -> ws <> [] -> Forall word ws ->
  split " "%char (simplified (join sep ws ++ pad)) = ws.
Proof.
  intros Hsep Hsn Hpad Hn Hw. destruct ws as [|w ws]; [done|].
  unfold simplified. inversion Hw as [|? ? Hword _]; subst.
  assert (dropSpaces (join sep (w :: ws) ++ pad) = join sep (w :: ws) ++ pad) as ->.
  { destruct ws; cbn [join]; rewrite <- ?app_assoc; by apply word_first. }
  rewrite squeeze_join by done. apply split_join; [done|].
  eapply Forall_impl; [exact Hw|]. apply word_no_space.
Qed.

(** The lines of a text of terminated lines. *)
Lemma splitSkipEmpty_lines (ls : list chars) :
  Forall (fun l => l <> [] /\ newline ∉ l) ls ->
  splitSkipEmpty newline (concat (map (fun l => l ++ [newline]) ls)) = ls.
Proof.
  unfold splitSkipEmpty. induction 1 as [|l ls [Hn Hl] _ IH]; [done|].
  cbn [map concat]. rewrite <- app_assoc. cbn [app]. rewrite split_app by done.
  rewrite filter_cons_True by done. by rewrite IH.
Qed.

(** ** Hexadecimal numerals *)

Lemma hexDigit_cases (P : ascii -> Prop) (d : Z) :
  0 <= d < 16 -> (forall k, (k < 16)%nat -> P (hexDigit (Z.of_nat k))) -> P (hexDigit d).
Proof. intros Hd H. rewrite <- (Z2Nat.id d) by lia. apply H. lia. Qed.

Lemma hexDigit_word (d : Z) : 0 <= d < 16 -> isSpace (hexDigit d) = false.
Proof.
  intros Hd. apply (hexDigit_cases (fun c => isSpace c = false)); [done|].
  intros k Hk. do 16 (destruct k as [|k]; [done|]). lia.
Qed.

Lemma hex8_word (v : Z) : word (hex8 v).
Proof.
  split; [done|]. unfold hex8. rewrite Forall_map. apply Forall_forall. intros k _.
  apply hexDigit_word. apply Z.mod_pos_bound. lia.
Qed.

(** A number from its sixteen-ary digits. *)
Lemma digits16 (v : Z) :
  0 <= v < 2 ^ 32 ->
  fold_left (fun a k => 16 * a + Z.shiftr v (4 * k) mod 16) [7; 6; 5; 4; 3; 2; 1; 0] 0 = v.
Proof.
  intros Hv. cbn [fold_left]. rewrite !Z.shiftr_div_pow2 by lia.
  change (4 * 7) with 28. change (4 * 6) with 24. change (4 * 5) with 20.
  change (4 * 4) with 16. change (4 * 3) with 12. change (4 * 2) with 8.
  change (4 * 1) with 4. change (4 * 0) with 0. rewrite Z.pow_0_r, Z.div_1_r.
  Z.to_euclidean_division_equations. lia.
Qed.

(** ** A concrete instance *)

Definition hexValue (c : ascii) : option Z :=
  let n := Z.of_nat (nat_of_ascii c) in
  if (48 <=? n) && (n <=? 57) then Some (n - 48)
  else if (65 <=? n) && (n <=? 70) then Some (n - 55)
  else if (97 <=? n) && (n <=? 102) then Some (n - 87)
  else None.

Definition readHex (s : chars) : option Z :=
  match s with
  | [] => None
  | _ => fold_left (fun a c => n ← a; d ← hexValue c; Some (16 * n + d)) s (Some 0)
  end.

Definition inUInt (z : Z) : option Z := if (0 <=? z) && (z <? 2 ^ 32) then Some z else None.

Definition modelNumbers : QtNumbers := {|
  toUIntHex s := z ← readHex s; inUInt z;
  toUInt s := default 0 (z ← readZ s; inUInt z);
  toULongLong s := default 0 (z ← readZ s; if z <? 2 ^ 64 then Some z else None);
|}.

Lemma hexValue_hexDigit (d : Z) : 0 <= d < 16 -> hexValue (hexDigit d) = Some d.
Proof.
  intros Hd. rewrite <- (Z2Nat.id d) by lia.
  assert (Z.to_nat d < 16)%nat as Hk by lia. revert Hk. generalize (Z.to_nat d).
  intros k Hk. do 16 (destruct k as [|k]; [done|]). lia.
Qed.

Lemma readHex_hex8 (v : Z) : 0 <= v < 2 ^ 32 -> readHex (hex8 v) = Some v.
Proof.
  intros Hv. rewrite <- (digits16 v Hv) at 2. unfold readHex, hex8.
  assert (forall k, hexValue (hexDigit (Z.shiftr v (4 * k) mod 16))
                    = Some (Z.shiftr v (4 * k) mod 16)) as Hd.
  { intros k. apply hexValue_hexDigit. apply Z.mod_pos_bound. lia. }
  cbn [map fold_left]. rewrite !Hd. cbn [mbind option_bind]. reflexivity.
Qed.

Lemma modelNumbersLaws : @QtNumbersLaws modelNumbers.
Proof.
  constructor.
  - intros v Hv. cbn [toUIntHex modelNumbers]. rewrite readHex_hex8 by done. cbn.
    unfold inUInt. destruct (Z.leb_spec 0 v), (Z.ltb_spec v (2 ^ 32)); done || lia.
  - intros s v H. cbn [toUIntHex modelNumbers] in H.
    destruct (readHex s) as [z|]; [cbn in H|done]. unfold inUInt in H.
    destruct (Z.leb_spec 0 z), (Z.ltb_spec z (2 ^ 32)); simpl in H; simplify_eq; lia.
  - intros n Hn. cbn [toUInt modelNumbers]. rewrite readZ_showZ by lia. cbn.
    unfold inUInt. destruct (Z.leb_spec 0 n), (Z.ltb_spec n (2 ^ 32)); done || lia.
Qed.
