(* ===== verification/IPAddress.v ===== *)
(** * IP prefixes

    Model of [src/src/utils/ipaddress.cpp] and [.h]: a prefix (an address and a
    length), its masks, the containment and overlap tests, the split of a prefix
    into its two halves and the exclusion of prefixes from a list of prefixes.
    The operations are translated on the raw representations (a 32-bit integer
    for IPv4, sixteen bytes for IPv6); the theorems speak of the bits of the
    addresses ([abit], from the most significant one). *)
From Stdlib Require Import ZArith Lia Ascii String.
From stdpp Require Import base numbers list gmap strings.
From S2P Require Import Prelude QHostAddress QString.

Local Open Scope Z_scope.
Local Open Scope wg_scope.

(** ** Raw byte arrays *)

(** [memset(&raw[off], v, n)]. *)
Definition memset (raw : list Z) (off : nat) (v : Z) (n : nat) : list Z :=
  imap (fun i x => if bool_decide (off <= i < off + n)%nat then v else x) raw.

(** [raw[k]] of a [Q_IPV6ADDR]. *)
Definition byteAt (raw : list Z) (k : nat) : Z := default 0 (raw !! k).

Module IPAddress.

(** ** The class and its operations *)

Record IPAddress : Type := mkIPAddress {
  m_address : QHostAddress;
  m_prefixLength : Z;
}.

#[export] Instance IPAddress_eq_dec : EqDecision IPAddress.
Proof. solve_decision. Defined.

(** [IPAddress(const QString&)]. *)
Definition ofString `{QtText} (ip : list ascii) : IPAddress :=
  let '(addr, len) :=
    if bool_decide ("/"%char ∈ ip) then parseSubnet ip
    else (hostOfString ip, 999999) in
  let len :=
    match protocol addr with
    | IPv4Protocol => if 32 <=? len then 32 else len
    | IPv6Protocol => if 128 <=? len then 128 else len
    | UnknownNetworkLayerProtocol => len
    end in
  mkIPAddress addr len.

(** [IPAddress(const QHostAddress&)]. *)
Definition ofHost (address : QHostAddress) : IPAddress :=
  mkIPAddress address
    (match protocol address with IPv4Protocol => 32 | _ => 128 end).

(** [toString()]. *)
Definition toString `{QtText} (ip : IPAddress) : chars :=
  hostToString (m_address ip) ++ qs "/" ++ showZ (m_prefixLength ip).

(** [type()]. *)
Definition type (ip : IPAddress) : NetworkLayerProtocol := protocol (m_address ip).

Definition netmask (ip : IPAddress) : QHostAddress :=
  let p := m_prefixLength ip in
  match m_address ip with
  | HostV6 _ =>
      let raw := memset (replicate 16 0) 0 255 (Z.to_nat (p / 8)) in
      HostV6 (if bool_decide (p mod 8 ≠ 0)
              then <[Z.to_nat (p / 8) := Z.lxor 255 (Z.shiftr 255 (p mod 8))]> raw
              else raw)
  | HostV4 _ =>
      HostV4 (if p <? 32 then Z.lxor 4294967295 (Z.shiftr 4294967295 p)
              else 4294967295)
  | NullHost => NullHost
  end.

Definition hostmask (ip : IPAddress) : QHostAddress :=
  let p := m_prefixLength ip in
  match m_address ip with
  | HostV6 _ =>
      let offset := Z.to_nat ((p + 7) / 8) in
      let raw := memset (replicate 16 0) offset 255 (16 - offset) in
      HostV6 (if bool_decide (p mod 8 ≠ 0)
              then <[Z.to_nat (p / 8) := Z.shiftr 255 (p mod 8)]> raw
              else raw)
  | HostV4 _ => HostV4 (if p <? 32 then Z.shiftr 4294967295 p else 0)
  | NullHost => NullHost
  end.

Definition broadcastAddress (ip : IPAddress) : QHostAddress :=
  let p := m_prefixLength ip in
  match m_address ip with
  | HostV6 l =>
      let offset := Z.to_nat ((p + 7) / 8) in
      let raw := memset l offset 255 (16 - offset) in
      HostV6 (if bool_decide (p mod 8 ≠ 0)
              then <[Z.to_nat (p / 8) :=
                      Z.lor (byteAt raw (Z.to_nat (p / 8))) (Z.shiftr 255 (p mod 8))]> raw
              else raw)
  | HostV4 v => HostV4 (if p <? 32 then Z.lor v (Z.shiftr 4294967295 p) else v)
  | NullHost => NullHost
  end.

Definition contains (ip : IPAddress) (address : QHostAddress) : bool :=
  let p := m_prefixLength ip in
  if bool_decide (protocol address ≠ protocol (m_address ip)) then false
  else if p =? 0 then true
  else match m_address ip, address with
  | HostV6 a, HostV6 b =>
      let bytes := Z.to_nat (p / 8) in
      if bool_decide (take bytes a ≠ take bytes b) then false
      else if bool_decide (p mod 8 ≠ 0)
      then Z.shiftr (Z.lxor (byteAt a bytes) (byteAt b bytes)) (8 - p mod 8) =? 0
      else true
  | HostV4 a, HostV4 b =>
      let diff := Z.lxor a b in
      (if p <? 32 then Z.shiftr diff (32 - p) else diff) =? 0
  | _, _ => false
  end.

Definition overlaps (ip other : IPAddress) : bool :=
  if m_prefixLength ip <? m_prefixLength other
  then contains ip (m_address other)
  else contains other (m_address ip).

(** [operator==]. *)
Definition eqb (ip other : IPAddress) : bool :=
  bool_decide (m_address ip = m_address other)
  && (m_prefixLength ip =? m_prefixLength other).

Definition subnetOf (ip other : IPAddress) : bool :=
  if bool_decide (protocol (m_address other) ≠ protocol (m_address ip)) then false
  else if m_prefixLength ip <? m_prefixLength other then false
  else contains other (m_address ip).

(** On a null address the code only asserts; what a release build reads then is
    unspecified, and no halves are returned here. *)
Definition subnets (ip : IPAddress) : list IPAddress :=
  let p := m_prefixLength ip in
  match m_address ip with
  | HostV4 rawAddress =>
      if 32 <=? p then [ip]
      else [mkIPAddress (HostV4 rawAddress) (p + 1);
            mkIPAddress (HostV4 (Z.lor rawAddress (Z.shiftr 2147483648 p))) (p + 1)]
  | HostV6 rawAddress =>
      if 128 <=? p then [ip]
      else
        let k := Z.to_nat (p / 8) in
        [mkIPAddress (HostV6 rawAddress) (p + 1);
         mkIPAddress (HostV6 (<[k := Z.lor (byteAt rawAddress k)
                                       (Z.shiftr 128 (p mod 8))]> rawAddress)) (p + 1)]
  | NullHost => []
  end.

(** The [while] loop of [excludeAddresses(const IPAddress&)]. When none of the
    two halves contains [ip] the code only asserts, and a release build goes
    round the loop again with the same halves. *)
Fixpoint excludeLoop (fuel : nat) (ip : IPAddress) (sn result : list IPAddress)
  : Outcome (list IPAddress) :=
  match fuel with
  | O => OutOfFuel
  | S fuel =>
      match sn !! 0%nat, sn !! 1%nat with
      | Some s0, Some s1 =>
          if negb (eqb s0 ip) && negb (eqb s1 ip) then
            if subnetOf ip s0 then excludeLoop fuel ip (subnets s0) (result ++ [s1])
            else if subnetOf ip s1 then excludeLoop fuel ip (subnets s1) (result ++ [s0])
            else excludeLoop fuel ip sn result
          else if eqb s0 ip then Ret (result ++ [s1])
          else Ret (result ++ [s0])
      | _, _ => Undefined
      end
  end.

(** At most one iteration per bit of the address. *)
Definition excludeFuel : nat := 129.

(** [excludeAddresses(const IPAddress&) const]. *)
Definition excludeAddress (self ip : IPAddress) : Outcome (list IPAddress) :=
  excludeLoop excludeFuel ip (subnets self) [].

(** The inner loop of the static [excludeAddresses], for one excluded prefix. *)
Fixpoint excludeOne (exclude : IPAddress) (results : list IPAddress)
  : Outcome (list IPAddress) :=
  match results with
  | [] => Ret []
  | ip :: rest =>
      here <~ (if negb (overlaps ip exclude) then Ret [ip]
               else if subnetOf exclude ip && negb (eqb exclude ip)
               then excludeAddress ip exclude
               else Ret []) ;;
      more <~ excludeOne exclude rest ;;
      Ret (here ++ more)
  end.

(** The static [excludeAddresses(sourceList, excludeList)]. *)
Fixpoint excludeAddresses (sourceList excludeList : list IPAddress)
  : Outcome (list IPAddress) :=
  match excludeList with
  | [] => Ret sourceList
  | exclude :: rest =>
      newResults <~ excludeOne exclude sourceList ;;
      excludeAddresses newResults rest
  end.

(** ** Well-formedness and the specification vocabulary *)

Definition wf (ip : IPAddress) : Prop :=
  wf_host (m_address ip)
  /\ 0 <= m_prefixLength ip <= addrWidth (m_address ip).

(** No bit is set after the prefix: the form in which networks are written. *)
Definition canonical (ip : IPAddress) : Prop :=
  forall i, m_prefixLength ip <= i < addrWidth (m_address ip) ->
  abit (m_address ip) i = false.

(** What "address [a] is in prefix [ip]" means. *)
Definition inPrefix (ip : IPAddress) (a : QHostAddress) : Prop :=
  protocol a = protocol (m_address ip)
  /\ forall i, 0 <= i < m_prefixLength ip -> abit a i = abit (m_address ip) i.

(** The addresses a list of prefixes covers. *)
Definition covered (l : list IPAddress) (a : QHostAddress) : Prop :=
  Exists (fun ip => inPrefix ip a) l.

(** No address is in both prefixes. *)
Definition disjoint (x y : IPAddress) : Prop :=
  forall a, wf_host a -> inPrefix x a -> ~ inPrefix y a.

(** ** Bytes and bits *)

Lemma byteAt_memset (raw : list Z) (off n k : nat) (v : Z) :
  (k < length raw)%nat ->
  byteAt (memset raw off v n) k =
  if bool_decide (off <= k < off + n)%nat then v else byteAt raw k.
Proof.
  intros Hk. unfold byteAt, memset. rewrite list_lookup_imap.
  destruct (lookup_lt_is_Some_2 raw k Hk) as [x ->]. simpl.
  by case_bool_decide.
Qed.

Lemma byteAt_insert (raw : list Z) (j k : nat) (v : Z) :
  (j < length raw)%nat ->
  byteAt (<[j:=v]> raw) k = if bool_decide (j = k) then v else byteAt raw k.
Proof.
  intros Hj. unfold byteAt. case_bool_decide as E.
  - subst. by rewrite list_lookup_insert_eq.
  - by rewrite list_lookup_insert_ne.
Qed.

Lemma byteAt_zeros (k : nat) : byteAt (replicate 16 0) k = 0.
Proof.
  unfold byteAt. destruct (decide (k < 16)%nat).
  - by rewrite lookup_replicate_2.
  - rewrite lookup_ge_None_2; [done|]. rewrite length_replicate. lia.
Qed.

Lemma length_memset raw off v n : length (memset raw off v n) = length raw.
Proof. apply length_imap. Qed.

Lemma abit_v6 (l : list Z) (i : Z) :
  abit (HostV6 l) i = Z.testbit (byteAt l (Z.to_nat (i / 8))) (7 - i mod 8).
Proof. done. Qed.

Lemma wf_byteAt (l : list Z) (k : nat) : Forall wf_byte l -> wf_byte (byteAt l k).
Proof. apply wf_byte_lookup. Qed.

Lemma Forall_memset raw off v n :
  wf_byte v -> Forall wf_byte raw -> Forall wf_byte (memset raw off v n).
Proof.
  intros Hv Hr. apply Forall_lookup_2. intros k x Hk.
  unfold memset in Hk. rewrite list_lookup_imap in Hk.
  destruct (raw !! k) as [y|] eqn:E; simplify_eq/=.
  case_bool_decide; [done|]. by eapply Forall_lookup_1.
Qed.

Lemma testbit_255 (r : Z) : 0 <= r < 8 -> Z.testbit 255 (7 - r) = true.
Proof. intros. change 255 with (Z.ones 8). apply Z.ones_spec_low. lia. Qed.

Lemma testbit_255_shiftr (s r : Z) :
  0 <= s <= 8 -> 0 <= r < 8 -> Z.testbit (Z.shiftr 255 s) (7 - r) = (s <=? r).
Proof. intros. change 255 with (Z.ones 8). by apply (testbit_ones_shiftr 8). Qed.

Lemma testbit_128_shiftr (s r : Z) :
  0 <= s < 8 -> 0 <= r < 8 -> Z.testbit (Z.shiftr 128 s) (7 - r) = (r =? s).
Proof. intros. change 128 with (2 ^ (8 - 1)). by apply (testbit_top_shiftr 8). Qed.

(** Where bit [i] sits relative to prefix length [p], by byte and bit number. *)
Lemma bit_position (i p : Z) :
  0 <= i < 128 -> 0 <= p <= 128 ->
  0 <= i / 8 < 16 /\ 0 <= i mod 8 < 8 /\ 0 <= p / 8 <= 16 /\ 0 <= p mod 8 < 8
  /\ (i < p <-> i / 8 < p / 8 \/ (i / 8 = p / 8 /\ i mod 8 < p mod 8))
  /\ (i = p <-> i / 8 = p / 8 /\ i mod 8 = p mod 8)
  /\ ((p + 7) / 8 = if bool_decide (p mod 8 ≠ 0) then p / 8 + 1 else p / 8).
Proof.
  intros. case_bool_decide; Z.to_euclidean_division_equations; lia.
Qed.

Lemma prefix_byte_range (p : Z) : 0 <= p < 128 -> (Z.to_nat (p / 8) < 16)%nat.
Proof. intros. Z.to_euclidean_division_equations; lia. Qed.

Ltac bits_of i p :=
  let H := fresh "Hpos" in
  pose proof (bit_position i p ltac:(lia) ltac:(lia)) as H;
  destruct H as (? & ? & ? & ? & ? & ? & ?).

(** Case analysis for goals about one bit of a byte array. *)
Ltac solve_bit :=
  repeat first
    [ progress rewrite ?byteAt_memset by (rewrite ?length_replicate; lia)
    | progress rewrite ?byteAt_zeros, ?Z.lxor_spec, ?Z.lor_spec, ?Z.testbit_0_l,
        ?testbit_255_shiftr, ?testbit_128_shiftr, ?testbit_255 by lia
    | case_bool_decide ];
  repeat match goal with
  | |- context [Z.ltb ?a ?b] => destruct (Z.ltb_spec a b)
  | |- context [Z.leb ?a ?b] => destruct (Z.leb_spec a b)
  | |- context [Z.eqb ?a ?b] => destruct (Z.eqb_spec a b)
  end; rewrite ?orb_false_r, ?orb_true_r, ?orb_false_l, ?orb_true_l; try done; try lia; try congruence.

(** ** The masks *)

(** The position hypotheses of a masked byte array, and its reads. *)
Ltac open_v6 op i p :=
  bits_of i p; cbn [op m_address m_prefixLength]; rewrite abit_v6;
  case_bool_decide;
  rewrite ?byteAt_insert by
    (rewrite ?length_memset, ?length_replicate; Z.to_euclidean_division_equations; lia).

Lemma netmask_bits_v6 (l : list Z) (p i : Z) :
  0 <= p <= 128 -> 0 <= i < 128 ->
  abit (netmask (mkIPAddress (HostV6 l) p)) i = (i <? p).
Proof. intros Hp Hi. open_v6 netmask i p; solve_bit. Qed.

Lemma hostmask_bits_v6 (l : list Z) (p i : Z) :
  0 <= p <= 128 -> 0 <= i < 128 ->
  abit (hostmask (mkIPAddress (HostV6 l) p)) i = (p <=? i).
Proof. intros Hp Hi. open_v6 hostmask i p; solve_bit. Qed.

Lemma broadcast_bits_v6 (l : list Z) (p i : Z) :
  length l = 16%nat -> 0 <= p <= 128 -> 0 <= i < 128 ->
  abit (broadcastAddress (mkIPAddress (HostV6 l) p)) i
  = (p <=? i) || abit (HostV6 l) i.
Proof.
  intros Hl Hp Hi. rewrite abit_v6.
  open_v6 broadcastAddress i p; solve_bit.
Qed.

Lemma netmask_bits_v4 (v p i : Z) :
  0 <= p <= 32 -> 0 <= i < 32 ->
  abit (netmask (mkIPAddress (HostV4 v) p)) i = (i <? p).
Proof.
  intros Hp Hi. cbn [netmask m_address m_prefixLength abit].
  change 4294967295 with (Z.ones 32). change (31 - i) with (32 - 1 - i).
  destruct (Z.ltb_spec p 32).
  - rewrite Z.lxor_spec, testbit_ones_shiftr, Z.ones_spec_low by lia. solve_bit.
  - rewrite Z.ones_spec_low by lia. solve_bit.
Qed.

Lemma hostmask_bits_v4 (v p i : Z) :
  0 <= p <= 32 -> 0 <= i < 32 ->
  abit (hostmask (mkIPAddress (HostV4 v) p)) i = (p <=? i).
Proof.
  intros Hp Hi. cbn [hostmask m_address m_prefixLength abit].
  change 4294967295 with (Z.ones 32). change (31 - i) with (32 - 1 - i).
  destruct (Z.ltb_spec p 32).
  - rewrite testbit_ones_shiftr by lia. done.
  - rewrite Z.testbit_0_l. solve_bit.
Qed.

Lemma broadcast_bits_v4 (v p i : Z) :
  0 <= p <= 32 -> 0 <= i < 32 ->
  abit (broadcastAddress (mkIPAddress (HostV4 v) p)) i
  = (p <=? i) || abit (HostV4 v) i.
Proof.
  intros Hp Hi. cbn [broadcastAddress m_address m_prefixLength abit].
  change 4294967295 with (Z.ones 32). change (31 - i) with (32 - 1 - i).
  destruct (Z.ltb_spec p 32).
  - rewrite Z.lor_spec, testbit_ones_shiftr by lia. apply orb_comm.
  - solve_bit.
Qed.

(** The three masks of a prefix. *)
Theorem masks_correct (ip : IPAddress) :
  wf ip ->
  protocol (netmask ip) = protocol (m_address ip)
  /\ protocol (hostmask ip) = protocol (m_address ip)
  /\ protocol (broadcastAddress ip) = protocol (m_address ip)
  /\ forall i, 0 <= i < addrWidth (m_address ip) ->
       abit (netmask ip) i = (i <? m_prefixLength ip)
       /\ abit (hostmask ip) i = negb (abit (netmask ip) i)
       /\ abit (broadcastAddress ip) i
          = if i <? m_prefixLength ip then abit (m_address ip) i else true.
Proof.
  destruct ip as [[|v|l] p]; intros [Hwf Hp]; cbn [m_address m_prefixLength addrWidth] in *;
    [done| |]; (split_and!; [done..|]); intros i Hi.
  - rewrite netmask_bits_v4, hostmask_bits_v4, broadcast_bits_v4 by lia.
    split_and!; solve_bit.
  - destruct Hwf as [Hlen _].
    rewrite netmask_bits_v6, hostmask_bits_v6, broadcast_bits_v6 by lia.
    split_and!; solve_bit.
Qed.

(** ** Containment *)

(** A comparison of the first [n] bytes is a comparison of the first [8n] bits. *)
Lemma take_eq_bits (n : nat) (a b : list Z) :
  length a = 16%nat -> length b = 16%nat ->
  Forall wf_byte a -> Forall wf_byte b -> (n <= 16)%nat ->
  take n a = take n b <->
  (forall i, 0 <= i < 8 * Z.of_nat n -> abit (HostV6 a) i = abit (HostV6 b) i).
Proof.
  intros Ha Hb Wa Wb Hn. split.
  - intros E i Hi. rewrite !abit_v6. unfold byteAt.
    rewrite <- (lookup_take_lt a n), <- (lookup_take_lt b n), E; [done|..];
      Z.to_euclidean_division_equations; lia.
  - intros H. apply list_eq. intros k.
    destruct (decide (k < n)%nat).
    2:{ rewrite !lookup_ge_None_2; [done|rewrite length_take; lia..]. }
    rewrite !lookup_take_lt by done.
    destruct (lookup_lt_is_Some_2 a k) as [x Hx]; [lia|].
    destruct (lookup_lt_is_Some_2 b k) as [y Hy]; [lia|].
    rewrite Hx, Hy. f_equal.
    pose proof (Forall_lookup_1 _ _ _ _ Wa Hx). pose proof (Forall_lookup_1 _ _ _ _ Wb Hy).
    apply (msb_inj 8); [done..|].
    intros j Hj. specialize (H (8 * Z.of_nat k + j) ltac:(lia)).
    rewrite !abit_v6 in H. unfold byteAt in H.
    replace ((8 * Z.of_nat k + j) / 8) with (Z.of_nat k) in H
      by (Z.to_euclidean_division_equations; lia).
    replace ((8 * Z.of_nat k + j) mod 8) with j in H
      by (Z.to_euclidean_division_equations; lia).
    by rewrite Nat2Z.id, Hx, Hy in H.
Qed.

Lemma contains_v6 (a b : list Z) (p : Z) :
  wf_host (HostV6 a) -> wf_host (HostV6 b) -> 0 <= p <= 128 ->
  contains (mkIPAddress (HostV6 a) p) (HostV6 b) = true <->
  (forall i, 0 <= i < p -> abit (HostV6 b) i = abit (HostV6 a) i).
Proof.
  intros [Ha Wa] [Hb Wb] Hp.
  unfold contains; cbn [m_address m_prefixLength protocol].
  bd_false.
  destruct (Z.eqb_spec p 0) as [->|Hp0]; [split; [intros; lia|done]|].
  pose proof (bit_position 0 p ltac:(lia) Hp) as (_ & _ & Hq & Hr & _ & _ & _).
  pose proof (take_eq_bits (Z.to_nat (p / 8)) a b Ha Hb Wa Wb ltac:(lia)) as Htake.
  rewrite Z2Nat.id in Htake by lia.
  destruct (decide (take (Z.to_nat (p / 8)) a = take (Z.to_nat (p / 8)) b)) as [Et|Et].
  2:{ bd_true. split; [done|]. intros H. exfalso. apply Et, Htake. intros i Hi. symmetry.
    apply H. Z.to_euclidean_division_equations; lia. }
  bd_false. rewrite Htake in Et. clear Htake.
  case_bool_decide as Es.
  - rewrite Z.eqb_eq, (shiftr_lxor_zero 8) by (lia || by apply wf_byteAt).
    split.
    + intros H i Hi. destruct (decide (i < 8 * (p / 8))) as [Hlt|Hge].
      { symmetry. apply Et. lia. }
      specialize (H (i - 8 * (p / 8)) ltac:(Z.to_euclidean_division_equations; lia)).
      rewrite !abit_v6.
      replace (i / 8) with (p / 8) by (Z.to_euclidean_division_equations; lia).
      replace (7 - i mod 8) with (8 - 1 - (i - 8 * (p / 8)))
        by (Z.to_euclidean_division_equations; lia). done.
    + intros H j Hj. specialize (H (8 * (p / 8) + j)
        ltac:(Z.to_euclidean_division_equations; lia)).
      rewrite !abit_v6 in H.
      replace ((8 * (p / 8) + j) / 8) with (p / 8) in H
        by (Z.to_euclidean_division_equations; lia).
      replace ((8 * (p / 8) + j) mod 8) with j in H
        by (Z.to_euclidean_division_equations; lia).
      done.
  - split; [|done]. intros _ i Hi. symmetry. apply Et.
    Z.to_euclidean_division_equations; lia.
Qed.

Lemma contains_v4 (a b p : Z) :
  wf_host (HostV4 a) -> wf_host (HostV4 b) -> 0 <= p <= 32 ->
  contains (mkIPAddress (HostV4 a) p) (HostV4 b) = true <->
  (forall i, 0 <= i < p -> abit (HostV4 b) i = abit (HostV4 a) i).
Proof.
  intros Ha Hb Hp. unfold contains; cbn [m_address m_prefixLength protocol].
  bd_false.
  destruct (Z.eqb_spec p 0) as [->|Hp0]; [split; [intros; lia|done]|].
  rewrite Z.eqb_eq.
  replace (if p <? 32 then Z.shiftr (Z.lxor a b) (32 - p) else Z.lxor a b)
    with (Z.shiftr (Z.lxor a b) (32 - p)).
  2:{ destruct (Z.ltb_spec p 32); [done|].
      replace (32 - p) with 0 by lia. apply Z.shiftr_0_r. }
  rewrite shiftr_lxor_zero by done.
  change (32 - 1) with 31. split; intros H i Hi; symmetry; by apply H.
Qed.

(** [contains] tells whether an address has the bits of the prefix. *)
Lemma contains_spec (ip : IPAddress) (a : QHostAddress) :
  wf ip -> wf_host a -> contains ip a = true <-> inPrefix ip a.
Proof.
  destruct ip as [x p]. intros [Hx Hp] Ha. unfold inPrefix.
  cbn [m_address m_prefixLength] in *.
  destruct (decide (protocol a = protocol x)) as [E|E].
  2:{ unfold contains. cbn [m_address]. bd_true. split; [done|]. by intros []. }
  destruct x, a; try done.
  - rewrite contains_v4 by done. tauto.
  - rewrite contains_v6 by done. tauto.
Qed.

Lemma overlaps_true (x y : IPAddress) :
  wf x -> wf y -> m_prefixLength x <= m_prefixLength y ->
  overlaps x y = true <-> inPrefix x (m_address y).
Proof.
  intros Hx Hy Hle. unfold overlaps.
  destruct (Z.ltb_spec (m_prefixLength x) (m_prefixLength y)).
  - apply contains_spec; [done|apply Hy].
  - rewrite contains_spec by (done || apply Hx).
    assert (m_prefixLength x = m_prefixLength y) as E by lia.
    unfold inPrefix. rewrite E. split; intros [H1 H2]; split; auto;
      intros i Hi; symmetry; auto.
Qed.

Lemma overlaps_comm (x y : IPAddress) :
  wf x -> wf y -> overlaps x y = overlaps y x.
Proof.
  intros Hx Hy. unfold overlaps.
  destruct (Z.ltb_spec (m_prefixLength x) (m_prefixLength y)),
    (Z.ltb_spec (m_prefixLength y) (m_prefixLength x)); try done; [lia|].
  apply eq_iff_eq_true. rewrite !contains_spec by (done || apply Hx || apply Hy).
  assert (m_prefixLength x = m_prefixLength y) as E by lia.
  unfold inPrefix. rewrite E. split; intros [H1 H2]; split; auto;
    intros i Hi; symmetry; auto.
Qed.

Lemma inPrefix_trans (x y : IPAddress) (a : QHostAddress) :
  m_prefixLength x <= m_prefixLength y ->
  inPrefix x (m_address y) -> inPrefix y a -> inPrefix x a.
Proof.
  intros Hle [H1 H2] [H3 H4]. split; [congruence|].
  intros i Hi. rewrite H4 by lia. by apply H2.
Qed.

Lemma inPrefix_common (x y : IPAddress) (a : QHostAddress) :
  m_prefixLength x <= m_prefixLength y ->
  inPrefix x a -> inPrefix y a -> inPrefix x (m_address y).
Proof.
  intros Hle [H1 H2] [H3 H4]. split; [congruence|].
  intros i Hi. rewrite <- H4 by lia. by apply H2.
Qed.

Lemma inPrefix_self (x : IPAddress) : inPrefix x (m_address x).
Proof. done. Qed.

(** Two prefixes overlap exactly when they share an address. *)
Lemma overlaps_spec (x y : IPAddress) :
  wf x -> wf y ->
  overlaps x y = true <-> (exists a, wf_host a /\ inPrefix x a /\ inPrefix y a).
Proof.
  intros Hx Hy.
  assert (forall x y, wf x -> wf y -> m_prefixLength x <= m_prefixLength y ->
    overlaps x y = true <-> (exists a, wf_host a /\ inPrefix x a /\ inPrefix y a)) as Hgen.
  { clear. intros x y Hx Hy Hle. rewrite overlaps_true by done. split.
    - intros H. exists (m_address y). split; [apply Hy|]. split; [done|]. apply inPrefix_self.
    - intros (a & Ha & H1 & H2). by eapply inPrefix_common. }
  destruct (decide (m_prefixLength x <= m_prefixLength y)).
  - by apply Hgen.
  - rewrite overlaps_comm, Hgen by (done || lia).
    split; intros (a & ? & ? & ?); eauto.
Qed.

(** ** Halves of a prefix *)

(** [subnets] keeps the address for the first half and sets the bit after the
    prefix for the second one. *)
Lemma subnets_bits (ip : IPAddress) :
  wf ip -> m_prefixLength ip < addrWidth (m_address ip) ->
  exists hi,
    subnets ip = [mkIPAddress (m_address ip) (m_prefixLength ip + 1);
                  mkIPAddress hi (m_prefixLength ip + 1)]
    /\ wf_host hi /\ protocol hi = protocol (m_address ip)
    /\ forall i, 0 <= i < addrWidth (m_address ip) ->
         abit hi i = (i =? m_prefixLength ip) || abit (m_address ip) i.
Proof.
  destruct ip as [[|v|l] p]; intros [Hwf Hp] Hlt;
    cbn [m_address m_prefixLength addrWidth] in *; [done| |].
  - eexists. unfold subnets; cbn [m_address m_prefixLength].
    destruct (Z.leb_spec 32 p); [lia|]. split; [done|].
    change 2147483648 with (2 ^ (32 - 1)). simpl wf_host.
    split; [apply lor_range; [done|done|apply shiftr_range; lia]|]. split; [done|].
    intros i Hi. simpl abit. change (31 - i) with (32 - 1 - i).
    rewrite Z.lor_spec, testbit_top_shiftr by lia. apply orb_comm.
  - destruct Hwf as [Hlen Hl]. pose proof (prefix_byte_range p ltac:(lia)).
    pose proof (wf_byteAt l (Z.to_nat (p / 8)) Hl) as Hb.
    eexists. unfold subnets; cbn [m_address m_prefixLength].
    destruct (Z.leb_spec 128 p); [lia|]. split; [done|].
    split.
    { split; [by rewrite length_insert|]. apply Forall_insert; [done|].
      apply lor_range; [done|done|apply shiftr_range; [lia| |lia]].
      Z.to_euclidean_division_equations; lia. }
    split; [done|]. intros i Hi. bits_of i p. rewrite !abit_v6.
    rewrite byteAt_insert by lia. solve_bit.
Qed.

(** [subnets] splits a network into two halves: both are networks of the
    next prefix length, they share no address and cover the network exactly. *)
Lemma subnets_partition (ip : IPAddress) :
  wf ip -> canonical ip -> m_prefixLength ip < addrWidth (m_address ip) ->
  exists s0 s1,
    subnets ip = [s0; s1]
    /\ wf s0 /\ wf s1 /\ canonical s0 /\ canonical s1
    /\ m_prefixLength s0 = m_prefixLength ip + 1
    /\ m_prefixLength s1 = m_prefixLength ip + 1
    /\ disjoint s0 s1
    /\ forall a, wf_host a -> inPrefix ip a <-> inPrefix s0 a \/ inPrefix s1 a.
Proof.
  intros Hwf Hcan Hlt.
  destruct (subnets_bits ip Hwf Hlt) as (hi & Hs & Hhi & Hpr & Hbits).
  destruct ip as [x p]. destruct Hwf as [Hx Hp].
  cbn [m_address m_prefixLength] in *.
  pose proof (addrWidth_protocol _ _ Hpr) as Hw.
  assert (abit x p = false) as Hxp by (apply Hcan; cbn; lia).
  assert (abit hi p = true) as Hhp by (rewrite Hbits, Z.eqb_refl by lia; done).
  eexists _, _. split; [done|]. unfold wf, canonical, disjoint, inPrefix.
  cbn [m_address m_prefixLength]. rewrite Hw, Hpr. split_and!; try done; try lia.
  - intros i Hi. apply Hcan. cbn. lia.
  - intros i Hi. rewrite Hbits by lia. rewrite Hcan by (cbn; lia).
    destruct (Z.eqb_spec i p); [lia|done].
  - intros a Ha [H1 H2] [H3 H4]. specialize (H2 p ltac:(lia)).
    specialize (H4 p ltac:(lia)). congruence.
  - intros a Ha. split.
    + intros [H1 H2]. destruct (abit a p) eqn:E; [right|left]; (split; [done|]);
        intros i Hi; destruct (decide (i = p)) as [->|]; try congruence.
      * rewrite Hbits, H2 by lia. destruct (Z.eqb_spec i p); [lia|done].
      * apply H2. lia.
    + intros [[H1 H2]|[H1 H2]]; (split; [done|]); intros i Hi; rewrite H2 by lia; [done|].
      rewrite Hbits by lia. destruct (Z.eqb_spec i p); [lia|done].
Qed.

(** ** Exclusion *)

(** A network as the exclusion expects it. *)
Definition network (ip : IPAddress) : Prop := wf ip /\ canonical ip.

Lemma eqb_true (x y : IPAddress) : eqb x y = true <-> x = y.
Proof.
  unfold eqb. rewrite andb_true_iff, bool_decide_eq_true, Z.eqb_eq.
  destruct x, y; simpl. split; [by intros [-> ->]|by intros [= -> ->]].
Qed.

Lemma eqb_false (x y : IPAddress) : x <> y -> eqb x y = false.
Proof. intros H. apply not_true_is_false. by rewrite eqb_true. Qed.

Lemma subnetOf_true (x y : IPAddress) :
  wf x -> wf y ->
  subnetOf x y = true <->
  m_prefixLength y <= m_prefixLength x /\ inPrefix y (m_address x).
Proof.
  intros Hx Hy. unfold subnetOf. case_bool_decide as E.
  { split; [done|]. intros [_ [Hp _]]. congruence. }
  destruct (Z.ltb_spec (m_prefixLength x) (m_prefixLength y)).
  { split; [done|lia]. }
  rewrite contains_spec by (done || apply Hx). tauto.
Qed.

Lemma network_eq (x y : IPAddress) :
  network x -> network y -> m_prefixLength x = m_prefixLength y ->
  inPrefix x (m_address y) -> y = x.
Proof.
  intros [[Hx Hpx] Cx] [[Hy Hpy] Cy] E [Hpr Hb].
  unfold canonical in *.
  destruct x as [x p], y as [y p']. cbn [m_address m_prefixLength] in *. subst p'.
  f_equal. apply abit_inj; [done..|]. intros i Hi.
  destruct (decide (i < p)); [apply Hb; lia|].
  pose proof (addrWidth_protocol _ _ Hpr) as Hw.
  rewrite (Cx i), (Cy i); [done|lia..].
Qed.

(** What the loop returns when it splits the network [cur] to leave out [ip]. *)
Definition excluded (cur ip : IPAddress) (new : list IPAddress) : Prop :=
  Forall network new
  /\ ForallOrdPairs disjoint new
  /\ forall a, wf_host a -> covered new a <-> inPrefix cur a /\ ~ inPrefix ip a.

(** One turn of the loop: [half] keeps [ip], [other] goes to the result. *)
Lemma excluded_cons (cur ip half other : IPAddress) (new : list IPAddress) :
  network other -> m_prefixLength half <= m_prefixLength ip ->
  inPrefix half (m_address ip) -> disjoint other half ->
  (forall a, wf_host a -> inPrefix cur a <-> inPrefix half a \/ inPrefix other a) ->
  excluded half ip new -> excluded cur ip (other :: new).
Proof.
  intros Ho Hle Hin Hdis Hpart (Hnet & Hfop & Hcov). split_and!.
  - by constructor.
  - constructor; [|done]. apply Forall_forall. intros r Hr a Ha Hoa Hra.
    apply (Hdis a Ha Hoa). apply Hcov; [done|].
    apply Exists_exists. by exists r.
  - intros a Ha. unfold covered. rewrite Exists_cons. fold (covered new a).
    rewrite Hcov, Hpart by done. split.
    + intros [H|[H1 H2]]; [split; [by right|]|split; [by left|done]].
      intros Hip. apply (Hdis a Ha H). by eapply inPrefix_trans.
    + intros [[H|H] Hn]; [by right|by left].
Qed.

Lemma excluded_self (ip : IPAddress) : excluded ip ip [].
Proof.
  split_and!; [constructor..|]. intros a Ha. split; [by inversion 1|tauto].
Qed.

Lemma disjoint_sym (x y : IPAddress) : disjoint x y -> disjoint y x.
Proof. intros H a Ha Hy Hx. by apply (H a). Qed.

Lemma excludeLoop_correct (n : nat) :
  forall fuel cur ip res,
  network cur -> network ip -> inPrefix cur (m_address ip) ->
  m_prefixLength ip = m_prefixLength cur + Z.of_nat n + 1 -> (n < fuel)%nat ->
  exists new, excludeLoop fuel ip (subnets cur) res = Ret (res ++ new)
    /\ length new = S n /\ excluded cur ip new.
Proof.
  induction n as [|n IH]; intros fuel cur ip res [Hwf Hcan] Hip Hin Hlen Hfuel;
    (destruct fuel as [|fuel]; [lia|]);
    pose proof (proj2 (proj1 Hip)) as Hipw;
    rewrite (addrWidth_protocol _ _ (proj1 Hin)) in Hipw;
    destruct (subnets_partition cur Hwf Hcan ltac:(lia))
      as (s0 & s1 & Hsub & W0 & W1 & C0 & C1 & P0 & P1 & Hdis & Hpart);
    rewrite Hsub; cbn [excludeLoop lookup list_lookup];
    destruct (proj1 (Hpart _ (proj1 (proj1 Hip))) Hin) as [Hk|Hk].
  - pose proof (network_eq s0 ip (conj W0 C0) Hip ltac:(lia) Hk) as ->.
    rewrite (proj2 (eqb_true s0 s0)) by done. simpl.
    exists [s1]. split_and!; [done..|].
    apply (excluded_cons _ _ s0); [done|lia|done|by apply disjoint_sym|done|].
    apply excluded_self.
  - pose proof (network_eq s1 ip (conj W1 C1) Hip ltac:(lia) Hk) as ->.
    rewrite (proj2 (eqb_true s1 s1)), (eqb_false s0 s1); [|intros ->|done].
    2:{ by apply (Hdis (m_address s1) (proj1 W1)). }
    simpl. exists [s0]. split_and!; [done..|].
    apply (excluded_cons _ _ s1); [done|lia|done|done| |apply excluded_self].
    intros a Ha. rewrite Hpart by done. tauto.
  - rewrite !eqb_false by (intros ->; lia). cbn [negb andb].
    rewrite (proj2 (subnetOf_true ip s0 (proj1 Hip) W0)) by (split; [lia|done]).
    destruct (IH fuel s0 ip (res ++ [s1]) (conj W0 C0) Hip Hk ltac:(lia) ltac:(lia))
      as (new & -> & Hl & Hex).
    exists (s1 :: new). split_and!; [by rewrite <- app_assoc|simpl; lia|].
    apply (excluded_cons _ _ s0); [done|lia|done|by apply disjoint_sym|done|done].
  - rewrite !eqb_false by (intros ->; lia). cbn [negb andb].
    rewrite (not_true_is_false (subnetOf ip s0)).
    2:{ rewrite subnetOf_true by (done || apply Hip). intros [_ H0].
        by apply (Hdis (m_address ip) (proj1 (proj1 Hip))). }
    rewrite (proj2 (subnetOf_true ip s1 (proj1 Hip) W1)) by (split; [lia|done]).
    destruct (IH fuel s1 ip (res ++ [s0]) (conj W1 C1) Hip Hk ltac:(lia) ltac:(lia))
      as (new & -> & Hl & Hex).
    exists (s0 :: new). split_and!; [by rewrite <- app_assoc|simpl; lia|].
    apply (excluded_cons _ _ s1); [done|lia|done|done| |done].
    intros a Ha. rewrite Hpart by done. tauto.
Qed.

(** Once the loop returns, more fuel gives the same result. *)
Lemma excludeLoop_mono (f1 f2 : nat) (ip : IPAddress) (sn res new : list IPAddress) :
  (f1 <= f2)%nat -> excludeLoop f1 ip sn res = Ret new -> excludeLoop f2 ip sn res = Ret new.
Proof.
  revert f2 sn res. induction f1 as [|f1 IH]; intros f2 sn res Hle; [done|].
  destruct f2 as [|f2]; [lia|]. cbn [excludeLoop].
  repeat case_match; try done; apply IH; lia.
Qed.

Lemma excludeLoop_fuel (f1 f2 : nat) (ip : IPAddress) (sn res n1 n2 : list IPAddress) :
  excludeLoop f1 ip sn res = Ret n1 -> excludeLoop f2 ip sn res = Ret n2 -> n1 = n2.
Proof.
  intros H1 H2. destruct (decide (f1 <= f2)%nat).
  - eapply excludeLoop_mono in H1; [|done]. congruence.
  - eapply (excludeLoop_mono f2 f1) in H2; [|lia]. congruence.
Qed.

Lemma excludeAddress_loop (self ip : IPAddress) :
  excludeAddress self ip = excludeLoop excludeFuel ip (subnets self) [].
Proof. reflexivity. Qed.

Lemma excludeAddress_excluded (self ip : IPAddress) :
  network self -> network ip -> inPrefix self (m_address ip) ->
  m_prefixLength self < m_prefixLength ip ->
  exists new, excludeAddress self ip = Ret new
    /\ Z.of_nat (length new) = m_prefixLength ip - m_prefixLength self
    /\ excluded self ip new.
Proof.
  intros Hs Hi Hin Hlt.
  pose proof (proj2 (proj1 Hi)). pose proof (proj2 (proj1 Hs)).
  assert (addrWidth (m_address ip) <= 128) by (destruct (m_address ip); simpl; lia).
  destruct (excludeLoop_correct (Z.to_nat (m_prefixLength ip - m_prefixLength self - 1))
              excludeFuel self ip [] Hs Hi Hin) as (new & E & Hl & Hex);
    [lia|unfold excludeFuel; lia|].
  exists new. split_and!; [done|lia|done].
Qed.

(** What one pass of the static function keeps of one network. *)
Lemma excludeOne_head (ip exclude : IPAddress) :
  network ip -> network exclude ->
  exists here,
    (if negb (overlaps ip exclude) then Ret [ip]
     else if subnetOf exclude ip && negb (eqb exclude ip)
     then excludeAddress ip exclude else Ret []) = Ret here
    /\ excluded ip exclude here.
Proof.
  intros Hi He. destruct (overlaps ip exclude) eqn:Ho; simpl.
  2:{ exists [ip]. split; [done|]. split_and!; [by constructor|by repeat constructor|].
      intros a Ha. unfold covered. rewrite Exists_cons, Exists_nil. split; [|tauto].
      intros [H|[]]. split; [done|]. intros Hx. apply not_true_iff_false in Ho.
      apply Ho, overlaps_spec; [apply Hi|apply He|by exists a]. }
  destruct (subnetOf exclude ip) eqn:Hs; simpl.
  - apply subnetOf_true in Hs as [Hle Hin]; [|apply He|apply Hi].
    destruct (eqb exclude ip) eqn:E; simpl.
    + apply eqb_true in E as ->. exists []. split; [done|]. apply excluded_self.
    + destruct (excludeAddress_excluded ip exclude Hi He Hin) as (new & -> & _ & Hex).
      { destruct (decide (m_prefixLength exclude = m_prefixLength ip)) as [Eq|]; [|lia].
        rewrite (network_eq ip exclude), (proj2 (eqb_true ip ip)) in E; done. }
      by exists new.
  - exists []. split; [done|]. split_and!; [constructor..|].
    intros a Ha. split; [by inversion 1|]. intros [H1 H2]. exfalso. apply H2.
    apply not_true_iff_false in Hs. rewrite subnetOf_true in Hs by (apply He || apply Hi).
    destruct (proj1 (overlaps_spec ip exclude (proj1 Hi) (proj1 He)) Ho) as (b & Hb & Hb1 & Hb2).
    destruct (decide (m_prefixLength ip <= m_prefixLength exclude)).
    { exfalso. apply Hs. split; [done|]. by eapply inPrefix_common. }
    apply (inPrefix_trans exclude ip); [lia| |done].
    eapply inPrefix_common; [lia|done|done].
Qed.

Lemma covered_app (l1 l2 : list IPAddress) (a : QHostAddress) :
  covered (l1 ++ l2) a <-> covered l1 a \/ covered l2 a.
Proof. apply Exists_app. Qed.

Lemma covered_cons (x : IPAddress) (l : list IPAddress) (a : QHostAddress) :
  covered (x :: l) a <-> inPrefix x a \/ covered l a.
Proof. apply Exists_cons. Qed.

Lemma covered_elem (x : IPAddress) (l : list IPAddress) (a : QHostAddress) :
  x ∈ l -> inPrefix x a -> covered l a.
Proof. intros Hx Ha. apply Exists_exists. eauto. Qed.

Lemma excludeOne_correct (exclude : IPAddress) (results : list IPAddress) :
  network exclude -> Forall network results ->
  exists out, excludeOne exclude results = Ret out
    /\ Forall network out
    /\ (forall a, wf_host a -> covered out a <-> covered results a /\ ~ inPrefix exclude a)
    /\ (ForallOrdPairs disjoint results -> ForallOrdPairs disjoint out).
Proof.
  intros He. induction 1 as [|ip rest Hip Hrest IH].
  { exists []. split_and!; [done|constructor| |done].
    intros a Ha. split; [by inversion 1|]. intros [H _]. by inversion H. }
  destruct IH as (more & Hmore & Hnet & Hcov & Hfop).
  destruct (excludeOne_head ip exclude Hip He) as (here & Hhere & Hnh & Hfh & Hch).
  exists (here ++ more). cbn [excludeOne]. rewrite Hhere. cbn [outcome_bind].
  rewrite Hmore. cbn [outcome_bind]. split_and!; [done|by apply Forall_app| |].
  - intros a Ha. rewrite covered_app, covered_cons, Hch, Hcov by done. tauto.
  - intros [Hd Hr]%ForallOrdPairs_inv. apply ForallOrdPairs_app; [done|auto|].
    intros x y Hx Hy a Ha Hxa Hya.
    assert (inPrefix ip a) as Hipa by (eapply Hch; [done|by eapply covered_elem]).
    assert (covered rest a) as (z & Hz & Hza)%Exists_exists
      by (eapply Hcov; [done|by eapply covered_elem]).
    by apply (Hd z Hz a Ha).
Qed.

(** C1: the static [excludeAddresses] removes from the source networks exactly
    the addresses of the excluded ones: it terminates within the bound, returns
    networks, covers an address if and only if some source does and no excluded
    prefix does, and keeps pairwise disjoint networks pairwise disjoint. *)
Theorem excludeAddresses_correct (sourceList excludeList : list IPAddress) :
  Forall network sourceList -> Forall network excludeList ->
  exists out, excludeAddresses sourceList excludeList = Ret out
    /\ Forall network out
    /\ (forall a, wf_host a ->
          covered out a <-> covered sourceList a /\ ~ covered excludeList a)
    /\ (ForallOrdPairs disjoint sourceList -> ForallOrdPairs disjoint out).
Proof.
  intros Hs He. revert sourceList Hs.
  induction He as [|exclude rest Hx Hrest IH]; intros sourceList Hs.
  { exists sourceList. split_and!; [done..| |done].
    intros a Ha. split; [|tauto]. intros H. split; [done|]. by inversion 1. }
  destruct (excludeOne_correct exclude sourceList Hx Hs) as (o1 & E1 & N1 & C1 & F1).
  destruct (IH o1 N1) as (out & E2 & N2 & C2 & F2).
  exists out. cbn [excludeAddresses]. rewrite E1. cbn [outcome_bind].
  split_and!; [done..| |auto].
  intros a Ha. rewrite C2, C1, covered_cons by done. tauto.
Qed.

(** When the first prefix has its next bit already set and the excluded
    address has it clear, the two halves are the same prefix, neither holds the
    excluded one, and the loop never ends. *)
Theorem excludeAddress_diverges (self ip : IPAddress) (fuel : nat) :
  wf self -> wf ip -> inPrefix self (m_address ip) ->
  m_prefixLength self < m_prefixLength ip ->
  abit (m_address self) (m_prefixLength self) = true ->
  abit (m_address ip) (m_prefixLength self) = false ->
  excludeLoop fuel ip (subnets self) [] = OutOfFuel.
Proof.
  intros Hs Hi [Hpr Hin] Hlt Hb1 Hb2.
  pose proof (proj2 Hi) as Hpi. rewrite (addrWidth_protocol _ _ Hpr) in Hpi.
  destruct (subnets_bits self Hs ltac:(lia)) as (hi & -> & Hhi & Hph & Hbits).
  pose proof (proj2 Hs).
  assert (abit hi (m_prefixLength self) = true) as Hb3
    by (rewrite Hbits, Z.eqb_refl by lia; done).
  assert (forall x, wf_host x -> protocol x = protocol (m_address self) ->
    abit x (m_prefixLength self) = true ->
    eqb (mkIPAddress x (m_prefixLength self + 1)) ip = false
    /\ subnetOf ip (mkIPAddress x (m_prefixLength self + 1)) = false) as Hout.
  { intros x Hx Hp Hb. split.
    - apply eqb_false. intros <-. cbn in Hb2. congruence.
    - apply not_true_iff_false. rewrite subnetOf_true; [|done|].
      2:{ split; cbn; [done|]. rewrite (addrWidth_protocol _ _ Hp). lia. }
      intros [_ [_ H2]]. specialize (H2 (m_prefixLength self) ltac:(cbn; lia)).
      cbn in H2. congruence. }
  destruct (Hout (m_address self)) as [E1 E2]; [apply Hs|done..|].
  destruct (Hout hi) as [E3 E4]; [done..|].
  generalize (@nil IPAddress). induction fuel as [|fuel IH]; intros res; [done|].
  cbn [excludeLoop lookup list_lookup]. rewrite E1, E2, E3, E4. cbn [negb andb]. apply IH.
Qed.

(** The three tests between prefixes mean what their names say: [contains] is
    membership of an address, [overlaps] is having an address in common, and
    [subnetOf] is inclusion. *)
Theorem prefix_tests_correct (x y : IPAddress) :
  network x -> wf y ->
  (forall a, wf_host a -> contains x a = true <-> inPrefix x a)
  /\ (overlaps x y = true <-> exists a, wf_host a /\ inPrefix x a /\ inPrefix y a)
  /\ (subnetOf x y = true <-> forall a, wf_host a -> inPrefix x a -> inPrefix y a).
Proof.
  intros [Hx Cx] Hy. split_and!.
  - intros a Ha. by apply contains_spec.
  - by apply overlaps_spec.
  - rewrite subnetOf_true by done. split.
    + intros [Hle Hin] a Ha. by apply inPrefix_trans.
    + intros H. pose proof (H _ (proj1 Hx) (inPrefix_self x)) as Hin. split; [|done].
      pose proof (proj2 Hy) as Hpy. rewrite <- (addrWidth_protocol _ _ (proj1 Hin)) in Hpy.
      destruct (decide (m_prefixLength x < addrWidth (m_address x))); [|lia].
      destruct (subnets_partition x Hx Cx ltac:(done))
        as (s0 & s1 & _ & W0 & W1 & _ & _ & P0 & P1 & Hd & Hp).
      apply Z.le_ngt. intros Hlt. apply (Hd (m_address s0)); [apply W0|done|].
      pose proof (H _ (proj1 W0) (proj2 (Hp _ (proj1 W0)) (or_introl (inPrefix_self s0)))) as H0.
      pose proof (H _ (proj1 W1) (proj2 (Hp _ (proj1 W1)) (or_intror (inPrefix_self s1)))) as H1.
      destruct H0 as [E0 B0], H1 as [E1 B1]. split; [congruence|].
      intros i Hi. rewrite B0, B1 by lia. done.
Qed.

(** Excluding a strict subnet from a network returns, for every loop bound
    above the difference of the two lengths, the same list: one network per bit
    of difference, pairwise disjoint, covering exactly the addresses of the
    network outside the subnet. *)
Theorem excludeAddress_correct (self ip : IPAddress) :
  network self -> network ip -> inPrefix self (m_address ip) ->
  m_prefixLength self < m_prefixLength ip ->
  exists new, excludeAddress self ip = Ret new
    /\ (forall fuel, m_prefixLength ip - m_prefixLength self <= Z.of_nat fuel ->
          excludeLoop fuel ip (subnets self) [] = Ret new)
    /\ Z.of_nat (length new) = m_prefixLength ip - m_prefixLength self
    /\ excluded self ip new.
Proof.
  intros Hs Hi Hin Hlt.
  destruct (excludeAddress_excluded self ip Hs Hi Hin Hlt) as (new & E & Hl & Hex).
  exists new. split_and!; [done| |done..]. intros fuel Hfuel.
  destruct (excludeLoop_correct (Z.to_nat (m_prefixLength ip - m_prefixLength self - 1))
              fuel self ip [] Hs Hi Hin) as (new' & E' & _); [lia..|].
  rewrite E'. f_equal. rewrite excludeAddress_loop in E.
  exact (excludeLoop_fuel _ _ _ _ _ _ _ E' E).
Qed.

(** ** Deciding well-formedness *)

#[export] Instance wf_dec (ip : IPAddress) : Decision (wf ip).
Proof. unfold wf. apply _. Defined.

Lemma canonical_seqZ (ip : IPAddress) :
  canonical ip <->
  Forall (fun i => abit (m_address ip) i = false)
    (seqZ (m_prefixLength ip) (addrWidth (m_address ip) - m_prefixLength ip)).
Proof.
  unfold canonical. rewrite Forall_forall. setoid_rewrite elem_of_seqZ.
  split; intros H i Hi; apply H; lia.
Qed.

#[export] Instance canonical_dec (ip : IPAddress) : Decision (canonical ip).
Proof.
  refine (cast_if (decide (Forall (fun i => abit (m_address ip) i = false)
    (seqZ (m_prefixLength ip) (addrWidth (m_address ip) - m_prefixLength ip)))));
    by rewrite canonical_seqZ.
Defined.

#[export] Instance network_dec (ip : IPAddress) : Decision (network ip).
Proof. unfold network. apply _. Defined.

Lemma disjoint_overlaps (x y : IPAddress) :
  wf x -> wf y -> overlaps x y = false -> disjoint x y.
Proof.
  intros Hx Hy H a Ha H1 H2. apply not_true_iff_false in H. apply H.
  apply overlaps_spec; [done..|]. by exists a.
Qed.

#[export] Instance disjoint_dec (x y : IPAddress) : Decision (wf x /\ wf y /\ overlaps x y = false).
Proof. apply _. Defined.

(** A network is an interval of addresses. *)
Lemma contains_v4_interval (a p v : Z) :
  network (mkIPAddress (HostV4 a) p) -> wf_host (HostV4 v) ->
  contains (mkIPAddress (HostV4 a) p) (HostV4 v) = true <-> a <= v < a + 2 ^ (32 - p).
Proof.
  intros [[Ha Hp] Hc] Hv. cbn [m_address m_prefixLength wf_host addrWidth] in *.
  assert (a mod 2 ^ (32 - p) = 0) as Hm.
  { rewrite <- Z.land_ones by lia. apply Z.bits_inj'. intros n Hn.
    rewrite Z.land_spec, Z.testbit_0_l. destruct (decide (n < 32 - p)).
    - specialize (Hc (31 - n)). unfold abit in Hc. cbn in Hc.
      replace (31 - (31 - n)) with n in Hc by lia. rewrite Hc by lia. done.
    - rewrite Z.ones_spec_high by lia. apply andb_false_r. }
  assert (contains (mkIPAddress (HostV4 a) p) (HostV4 v) = true
          <-> a / 2 ^ (32 - p) = v / 2 ^ (32 - p)) as ->.
  { rewrite <- !Z.shiftr_div_pow2, <- Z.lxor_eq_0_iff, <- Z.shiftr_lxor by lia.
    unfold contains. cbn [m_address m_prefixLength protocol]. bd_false.
    destruct (Z.eqb_spec p 0) as [->|].
    - split; [|done]. intros _. rewrite Z.shiftr_div_pow2 by lia.
      apply Z.div_small. apply lxor_range; lia.
    - rewrite Z.eqb_eq. destruct (Z.ltb_spec p 32); [done|].
      by replace (32 - p) with 0 by lia. }
  assert (0 < 2 ^ (32 - p)) by lia.
  generalize dependent (2 ^ (32 - p)). clear. intros k Hm Hk.
  Z.to_euclidean_division_equations. nia.
Qed.

(** ** Concrete inputs *)

Definition ip4 (a b c d p : Z) : IPAddress :=
  mkIPAddress (HostV4 (Z.lor (Z.shiftl a 24) (Z.lor (Z.shiftl b 16) (Z.lor (Z.shiftl c 8) d)))) p.

Definition v6any : IPAddress := mkIPAddress (HostV6 (replicate 16 0)) 0.

(** fc00::/7 *)
Definition v6ula : IPAddress := mkIPAddress (HostV6 (252 :: replicate 15 0)) 7.

Lemma network_v4 (v p : Z) :
  0 <= v < 2 ^ 32 -> 0 <= p <= 32 -> v mod 2 ^ (32 - p) = 0 ->
  network (mkIPAddress (HostV4 v) p).
Proof.
  intros Hv Hp Hm. split; [done|]. intros i Hi. cbn in *.
  rewrite (Z_div_mod_eq_full v (2 ^ (32 - p))), Hm, Z.add_0_r, Z.mul_comm.
  rewrite <- Z.shiftl_mul_pow2 by lia. apply Z.shiftl_spec_low. lia.
Qed.

Ltac solve_network := apply (bool_decide_unpack (network _)); vm_compute; exact I.

Example excludeAddress_v4 :
  excludeAddress (ip4 192 168 0 0 24) (ip4 192 168 0 64 26)
  = Ret [ip4 192 168 0 128 25; ip4 192 168 0 0 26].
Proof. vm_compute. reflexivity. Qed.

Example excludeAddresses_v6 :
  (n <~ excludeAddresses [v6any; ip4 0 0 0 0 0] [v6ula; ip4 10 0 0 0 8] ;; Ret (length n))
  = Ret 15%nat.
Proof. vm_compute. reflexivity. Qed.

Lemma masks_correct_witness :
  wf (ip4 192 168 1 42 24)
  /\ protocol (netmask (ip4 192 168 1 42 24)) = IPv4Protocol.
Proof.
  assert (wf (ip4 192 168 1 42 24)) as H by (vm_compute; repeat split; discriminate).
  split; [exact H|]. apply (proj1 (masks_correct _ H)).
Defined.

Lemma prefix_tests_correct_witness :
  overlaps (ip4 10 0 0 0 8) (ip4 10 20 0 0 16) = true
  /\ exists a, wf_host a /\ inPrefix (ip4 10 0 0 0 8) a /\ inPrefix (ip4 10 20 0 0 16) a.
Proof.
  split; [reflexivity|].
  apply (proj1 (proj2 (prefix_tests_correct (ip4 10 0 0 0 8) (ip4 10 20 0 0 16)
    ltac:(solve_network) ltac:(by_decision)))). reflexivity.
Defined.

Lemma excludeAddress_correct_witness :
  exists new, excludeAddress (ip4 192 168 0 0 24) (ip4 192 168 0 64 26) = Ret new
    /\ excluded (ip4 192 168 0 0 24) (ip4 192 168 0 64 26) new.
Proof.
  destruct (excludeAddress_correct (ip4 192 168 0 0 24) (ip4 192 168 0 64 26))
    as (new & E & _ & _ & H); [solve_network..| |reflexivity|exists new; split; [exact E|exact H]].
  apply contains_spec; [vm_compute; repeat split; discriminate..|reflexivity].
Defined.

Lemma excludeAddresses_correct_witness :
  exists out, excludeAddresses [ip4 0 0 0 0 0] [ip4 10 0 0 0 8; ip4 172 16 0 0 12] = Ret out
    /\ Forall network out.
Proof.
  destruct (excludeAddresses_correct [ip4 0 0 0 0 0] [ip4 10 0 0 0 8; ip4 172 16 0 0 12])
    as (out & E & N & _);
    [repeat (apply Forall_cons_2; [solve_network|]); apply Forall_nil_2..|].
  exists out. split; [exact E|exact N].
Defined.

Lemma excludeAddress_diverges_witness :
  excludeLoop 1000 (ip4 10 0 0 1 32) (subnets (ip4 10 0 0 129 24)) [] = OutOfFuel.
Proof.
  apply excludeAddress_diverges;
    [vm_compute; repeat split; discriminate..| |reflexivity|reflexivity|reflexivity].
  apply contains_spec; [vm_compute; repeat split; discriminate..|reflexivity].
Defined.

End IPAddress.
