(* ===== verification/Rfc.v ===== *)
(** * Reserved address blocks

    Model of [src/src/utils/rfc/] and of [IPAddress::lanAddressRanges]: the
    blocks of RFC 1112, 1918, 4193, 4291 and 5735, built from their textual form
    by [IPAddress(const QString&)]. *)
From Stdlib Require Import ZArith Lia Ascii String.
From stdpp Require Import base numbers list gmap strings.
From S2P Require Import Prelude QHostAddress QString QtTextModel IPAddress.
Import IPAddress.

Local Open Scope Z_scope.

Module RFC1112.
Definition ipv4MulticastAddressBlock `{QtText} : IPAddress := ofString (qs "224.0.0.0/4").
End RFC1112.

Module RFC1918.
Definition ipv4 `{QtText} : list IPAddress :=
  [ofString (qs "10.0.0.0/8"); ofString (qs "172.16.0.0/12"); ofString (qs "192.168.0.0/16")].

Definition contains `{QtText} (ip : QHostAddress) : bool :=
  existsb (fun addr => IPAddress.contains addr ip) ipv4.
End RFC1918.

Module RFC4193.
Definition ipv6 `{QtText} : list IPAddress := [ofString (qs "fc00::/7")].

Definition contains `{QtText} (ip : QHostAddress) : bool :=
  existsb (fun addr => IPAddress.contains addr ip) ipv6.
End RFC4193.

Module RFC4291.
Definition ipv6LoopbackAddressBlock `{QtText} : IPAddress := ofString (qs "::1/128").
Definition ipv6MulticastAddressBlock `{QtText} : IPAddress := ofString (qs "ff00::/8").
Definition ipv6LinkLocalAddressBlock `{QtText} : IPAddress := ofString (qs "fe80::/10").
End RFC4291.

Module RFC5735.
Definition ipv4LoopbackAddressBlock `{QtText} : IPAddress := ofString (qs "127.0.0.0/8").
End RFC5735.

Module Lan.

(** [IPAddress::lanAddressRanges()]. *)
Definition lanAddressRanges `{QtText} : list IPAddress :=
  RFC1918.ipv4 ++ RFC4193.ipv6 ++ [RFC4291.ipv6LinkLocalAddressBlock]
  ++ [RFC1112.ipv4MulticastAddressBlock] ++ [RFC4291.ipv6MulticastAddressBlock].

Section Laws.
Context `{QtTextLaws}.

Lemma parseSubnet_v4 (v p : Z) (s : chars) :
  s = dottedQuad v ++ qs "/" ++ showZ p ->
  0 <= v < 2 ^ 32 -> 0 <= p <= 32 -> v mod 2 ^ (32 - p) = 0 ->
  parseSubnet s = (HostV4 v, p).
Proof.
  intros -> Hv Hp Hm. rewrite <- hostToString_v4 by done.
  apply parseSubnet_toString; [done..|].
  apply (proj2 (network_v4 v p Hv Hp Hm)).
Qed.

Lemma ofString_v4 (v p : Z) (s : chars) :
  s = dottedQuad v ++ qs "/" ++ showZ p -> "/"%char ∈ s ->
  0 <= v < 2 ^ 32 -> 0 <= p <= 32 -> v mod 2 ^ (32 - p) = 0 ->
  ofString s = mkIPAddress (HostV4 v) p.
Proof.
  intros Hs Hin Hv Hp Hm. unfold ofString. bd_true.
  rewrite (parseSubnet_v4 v p) by done. simpl. f_equal.
  destruct (Z.leb_spec 32 p); lia.
Qed.

Ltac ofString_v4_tac v p :=
  apply (ofString_v4 v p);
    [vm_compute; reflexivity|by apply (bool_decide_unpack _)|lia|lia|reflexivity].

Lemma rfc1918_blocks :
  RFC1918.ipv4 = [ip4 10 0 0 0 8; ip4 172 16 0 0 12; ip4 192 168 0 0 16].
Proof.
  unfold RFC1918.ipv4. repeat f_equal.
  - ofString_v4_tac 167772160 8.
  - ofString_v4_tac 2886729728 12.
  - ofString_v4_tac 3232235520 16.
Qed.

Lemma ofString_v6 (s : chars) (l : list Z) (p : Z) :
  parseSubnet s = (HostV6 l, p) -> "/"%char ∈ s -> p <= 128 ->
  ofString s = mkIPAddress (HostV6 l) p.
Proof.
  intros Hs Hin Hp. unfold ofString. bd_true. rewrite Hs. simpl. f_equal.
  destruct (Z.leb_spec 128 p); lia.
Qed.

Lemma lan_blocks :
  lanAddressRanges =
  [ip4 10 0 0 0 8; ip4 172 16 0 0 12; ip4 192 168 0 0 16; v6ula;
   mkIPAddress (HostV6 (254 :: 128 :: replicate 14 0)) 10;
   ip4 224 0 0 0 4; mkIPAddress (HostV6 (255 :: replicate 15 0)) 8].
Proof.
  destruct parseSubnet_v6_blocks as (H1 & H2 & H3).
  unfold lanAddressRanges. rewrite rfc1918_blocks. simpl app. repeat f_equal.
  - apply ofString_v6; [done|by apply (bool_decide_unpack _)|lia].
  - apply ofString_v6; [done|by apply (bool_decide_unpack _)|lia].
  - ofString_v4_tac 3758096384 4.
  - apply ofString_v6; [done|by apply (bool_decide_unpack _)|lia].
Qed.

(** An IPv4 address is private exactly when it lies in 10.0.0.0-10.255.255.255,
    172.16.0.0-172.31.255.255 or 192.168.0.0-192.168.255.255. *)
Theorem rfc1918_contains_spec (v : Z) :
  0 <= v < 2 ^ 32 ->
  RFC1918.contains (HostV4 v) = true <->
  167772160 <= v < 184549376 \/ 2886729728 <= v < 2887778304
  \/ 3232235520 <= v < 3232301056.
Proof.
  intros Hv. unfold RFC1918.contains. rewrite rfc1918_blocks. cbn [existsb].
  rewrite !orb_true_iff.
  rewrite (contains_v4_interval 167772160 8 v ltac:(solve_network) Hv).
  rewrite (contains_v4_interval 2886729728 12 v ltac:(solve_network) Hv).
  rewrite (contains_v4_interval 3232235520 16 v ltac:(solve_network) Hv).
  change (2 ^ (32 - 8)) with 16777216. change (2 ^ (32 - 12)) with 1048576.
  change (2 ^ (32 - 16)) with 65536. lia.
Qed.

(** The LAN ranges are networks, no two of which share an address, so they can
    be excluded from any list of networks. *)
Theorem lanAddressRanges_networks :
  Forall network lanAddressRanges /\ ForallOrdPairs disjoint lanAddressRanges.
Proof.
  rewrite lan_blocks. split; [by_decision|].
  repeat (apply FOP_cons;
    [repeat (apply Forall_cons_2; [apply disjoint_overlaps; by_decision|]); apply Forall_nil_2|]).
  apply FOP_nil.
Qed.

End Laws.

#[local] Existing Instance modelText.
#[local] Existing Instance modelTextLaws.

Lemma rfc1918_contains_spec_witness :
  0 <= 3232235777 < 2 ^ 32
  /\ (RFC1918.contains (HostV4 3232235777) = true).
Proof.
  split; [done|]. apply (rfc1918_contains_spec 3232235777); [done|]. right. right. done.
Defined.

Lemma lanAddressRanges_networks_witness :
  Forall network (lanAddressRanges)
  /\ ForallOrdPairs disjoint (lanAddressRanges).
Proof. apply lanAddressRanges_networks. Defined.

End Lan.
