(* ===== verification/Json.v ===== *)
(** * JSON values

    [QJsonValue], [QJsonArray] and [QJsonObject] as the code under src/ builds
    and reads them. An object maps each key to one value; the order of its
    members is not observable by the code. A number is a rational
    [num / den]: the code stores machine integers in doubles. *)
From Stdlib Require Import ZArith Lia Ascii String.
From stdpp Require Import base numbers list gmap strings.
From S2P Require Import Prelude QHostAddress QString.

Local Open Scope Z_scope.

#[warnings="-register-all"]
Inductive QJsonValue : Type :=
| JUndefined
| JNull
| JBool (b : bool)
| JDouble (num : Z) (den : positive)
| JString (s : chars)
| JArray (l : list QJsonValue)
| JObject (o : list (chars * QJsonValue)).

Abbreviation QJsonObject := (list (chars * QJsonValue)).

#[export] Instance QJsonValue_eq_dec : EqDecision QJsonValue.
Proof.
  refine (fix go (a b : QJsonValue) : Decision (a = b) :=
    let _ : EqDecision QJsonValue := @go in
    match a, b with
    | JUndefined, JUndefined => Specif.left _
    | JNull, JNull => Specif.left _
    | JBool x, JBool y => cast_if (decide (x = y))
    | JDouble n d, JDouble n' d' => cast_if_and (decide (n = n')) (decide (d = d'))
    | JString s, JString s' => cast_if (decide (s = s'))
    | JArray l, JArray l' => cast_if (decide (l = l'))
    | JObject o, JObject o' => cast_if (decide (o = o'))
    | _, _ => Specif.right _
    end); try clear r; clear go; congruence.
Defined.

(** ** Objects *)

Fixpoint value (k : chars) (o : QJsonObject) : QJsonValue :=
  match o with
  | [] => JUndefined
  | (k', v) :: r => if bool_decide (k' = k) then v else value k r
  end.

Fixpoint hasKey (k : chars) (o : QJsonObject) : bool :=
  match o with
  | [] => false
  | (k', _) :: r => bool_decide (k' = k) || hasKey k r
  end.

(** [insert(key, value)] replaces the value of a key already there. *)
Fixpoint insertKey (k : chars) (v : QJsonValue) (o : QJsonObject) : QJsonObject :=
  match o with
  | [] => [(k, v)]
  | (k', v') :: r => if bool_decide (k' = k) then (k, v) :: r else (k', v') :: insertKey k v r
  end.

(** A sequence of insertions. *)
Definition insertAll (l : list (chars * QJsonValue)) (o : QJsonObject) : QJsonObject :=
  fold_left (fun o '(k, v) => insertKey k v o) l o.

(** ** Conversions *)

(** [QJsonValue(QString)]: a null string becomes an empty JSON string. *)
Definition ofQString (s : QString) : QJsonValue := JString (text s).

(** [QJsonValue((double)i)] for a machine integer [i]. *)
Definition ofInt (i : Z) : QJsonValue := JDouble i 1.

(** [toString()]: a null string when the value is not a string. *)
Definition toQString (v : QJsonValue) : QString :=
  match v with JString s => Some s | _ => None end.

Definition isString (v : QJsonValue) : bool := match v with JString _ => true | _ => false end.
Definition isDouble (v : QJsonValue) : bool := match v with JDouble _ _ => true | _ => false end.
Definition isBool (v : QJsonValue) : bool := match v with JBool _ => true | _ => false end.
Definition isArray (v : QJsonValue) : bool := match v with JArray _ => true | _ => false end.
Definition isObject (v : QJsonValue) : bool := match v with JObject _ => true | _ => false end.

Definition toArray (v : QJsonValue) : list QJsonValue :=
  match v with JArray l => l | _ => [] end.
Definition toObject (v : QJsonValue) : QJsonObject :=
  match v with JObject o => o | _ => [] end.
Definition toBool (v : QJsonValue) : bool := match v with JBool b => b | _ => false end.

(** [toInt()]: the value of a whole number of the [int] range, [0] otherwise. *)
Definition jsonToInt (v : QJsonValue) : Z :=
  match v with
  | JDouble n d =>
      if (n mod Zpos d =? 0) && (- 2 ^ 31 <=? n / Zpos d) && (n / Zpos d <? 2 ^ 31)
      then n / Zpos d else 0
  | _ => 0
  end.

(** [toDouble()] stored into an [int]: truncation. Outside the [int] range the
    conversion is undefined in C++; the exact truncation is kept here. *)
Definition doubleToInt (v : QJsonValue) : Z :=
  match v with JDouble n d => Z.quot n (Zpos d) | _ => 0 end.

(** ** Lemmas *)

Lemma value_insertKey (k k' : chars) (v : QJsonValue) (o : QJsonObject) :
  value k (insertKey k' v o) = if bool_decide (k' = k) then v else value k o.
Proof.
  induction o as [|[h w] o IH]; simpl; [done|].
  destruct (decide (h = k')) as [->|].
  - bd_true. simpl. case_bool_decide; [done|]. done.
  - bd_false. simpl. rewrite IH. repeat case_bool_decide; congruence.
Qed.

Lemma hasKey_insertKey (k k' : chars) (v : QJsonValue) (o : QJsonObject) :
  hasKey k (insertKey k' v o) = bool_decide (k' = k) || hasKey k o.
Proof.
  induction o as [|[h w] o IH]; simpl; [done|].
  destruct (decide (h = k')) as [->|].
  - bd_true. simpl. by case_bool_decide.
  - bd_false. simpl. rewrite IH. repeat case_bool_decide; done.
Qed.

Lemma jsonToInt_ofInt (i : Z) : - 2 ^ 31 <= i < 2 ^ 31 -> jsonToInt (ofInt i) = i.
Proof.
  intros H. unfold jsonToInt, ofInt. rewrite Z.mod_1_r, Z.div_1_r, Z.eqb_refl.
  rewrite (proj2 (Z.leb_le _ _)), (proj2 (Z.ltb_lt _ _)) by lia. done.
Qed.

Lemma doubleToInt_ofInt (i : Z) : doubleToInt (ofInt i) = i.
Proof. apply Z.quot_1_r. Qed.

(** ** Objects up to the order of their members *)

(** Two values that no reader of this file can tell apart. *)
#[warnings="-register-all"]
Inductive sameJson : QJsonValue -> QJsonValue -> Prop :=
| same_leaf v : sameJson v v
| same_array l l' : Forall2 sameJson l l' -> sameJson (JArray l) (JArray l')
| same_object o o' :
    (forall k, sameJson (value k o) (value k o')) -> sameJson (JObject o) (JObject o').

#[export] Instance QJsonValue_equiv : Equiv QJsonValue := sameJson.

#[export] Instance QJsonObject_equiv : Equiv QJsonObject :=
  fun o o' => forall k, value k o ≡ value k o'.

#[export] Instance sameJson_refl : Reflexive (≡@{QJsonValue}).
Proof. intros v. apply same_leaf. Qed.

#[export] Instance value_proper (k : chars) : Proper ((≡) ==> (≡)) (value k).
Proof. intros o o' Ho. apply Ho. Qed.

#[export] Instance toQString_proper : Proper ((≡@{QJsonValue}) ==> (=)) toQString.
Proof. by intros v v' []. Qed.

#[export] Instance toObject_proper : Proper ((≡@{QJsonValue}) ==> (≡@{QJsonObject})) toObject.
Proof. intros v v' []; [by intros k|by intros k|done]. Qed.

Lemma toArray_same (v v' : QJsonValue) : v ≡ v' -> Forall2 (≡) (toArray v) (toArray v').
Proof.
  intros []; [|done..]. induction (toArray v0); constructor; [apply same_leaf|done].
Qed.

(** ** Documents *)

(** A value whose text form is exact: no undefined member and only the integers
    a double represents. *)
Fixpoint exactJson (v : QJsonValue) : bool :=
  match v with
  | JUndefined => false
  | JNull | JBool _ | JString _ => true
  | JDouble n d => bool_decide (d = 1%positive) && (Z.abs n <? 2 ^ 53)
  | JArray l => forallb exactJson l
  | JObject o => forallb (fun kv => exactJson (snd kv)) o
  end.

Lemma exactJson_insertKey (k : chars) (v : QJsonValue) (o : QJsonObject) :
  exactJson v = true -> exactJson (JObject o) = true -> exactJson (JObject (insertKey k v o)) = true.
Proof.
  intros Hv. cbn. induction o as [|[k' v'] o IH]; cbn; intros Ho; [by rewrite Hv|].
  apply andb_true_iff in Ho as [H1 H2]. case_bool_decide; cbn; [by rewrite Hv|].
  by rewrite H1, IH.
Qed.

Lemma exactJson_insertAll (l : list (chars * QJsonValue)) (o : QJsonObject) :
  Forall (fun kv => exactJson (snd kv) = true) l -> exactJson (JObject o) = true ->
  exactJson (JObject (insertAll l o)) = true.
Proof.
  intros Hl. unfold insertAll. revert o.
  induction Hl as [|[k v] l Hv _ IH]; intros o Ho; [done|]. cbn [fold_left].
  apply IH. by apply exactJson_insertKey.
Qed.

Lemma exactJson_ofInt (i : Z) : 0 <= i < 2 ^ 53 -> exactJson (ofInt i) = true.
Proof. intros Hi. unfold ofInt, exactJson. rewrite bool_decide_true by done. cbn. lia. Qed.

(** [QJsonDocument::toJson] and [fromJson]; reading gives [None] where the
    document is not an object. *)
Class QtJson : Type := {
  QByteArray : Type;
  #[global] QByteArray_eq_dec :: EqDecision QByteArray;
  emptyBytes : QByteArray;
  documentToJson : QJsonObject -> QByteArray;
  documentFromJson : QByteArray -> option QJsonObject;
}.

(** What is read from the text of an object is that object. *)
Class QtJsonLaws `{QtJson} : Prop := {
  documentFromJson_toJson o :
    exactJson (JObject o) = true ->
    exists o' : QJsonObject, documentFromJson (documentToJson o) = Some o' /\ o ≡ o';
}.

(** An instance, for examples: the bytes are the object itself. *)
Definition modelJson : QtJson := {|
  QByteArray := option QJsonObject;
  QByteArray_eq_dec := _;
  emptyBytes := None;
  documentToJson o := Some o;
  documentFromJson b := b;
|}.

Lemma modelJsonLaws : QtJsonLaws (H := modelJson).
Proof. split. intros o _. exists o. split; [done|]. intros k. apply same_leaf. Qed.
