(* ===== verification/InterfaceConfig.v ===== *)
(** * Interface configuration

    Model of [src/src/utils/interfaceconfig.cpp] and [.h]: the record handed from
    the profile or the controller to the backend, its JSON form for the daemon
    and its textual WireGuard form. *)
From Stdlib Require Import ZArith Lia Ascii String.
From stdpp Require Import base numbers list gmap strings.
From S2P Require Import Prelude QHostAddress QString IPAddress Json.
Import IPAddress.

Local Open Scope Z_scope.
Local Open Scope wg_scope.

Inductive HopType : Type := SingleHop | MultiHopEntry | MultiHopExit.

#[export] Instance HopType_eq_dec : EqDecision HopType.
Proof. solve_decision. Defined.

Record InterfaceConfig : Type := mkInterfaceConfig {
  m_hopType : HopType;
  m_privateKey : QString;
  m_deviceIpv4Address : QString;
  m_deviceIpv6Address : QString;
  m_serverIpv4Gateway : QString;
  m_serverIpv6Gateway : QString;
  m_serverPublicKey : QString;
  m_serverIpv4AddrIn : QString;
  m_serverIpv6AddrIn : QString;
  m_dnsServer : QString;
  m_entryCity : QString;
  m_exitCity : QString;
  m_serverPort : Z;
  m_allowedIPAddressRanges : list IPAddress;
  m_vpnDisabledApps : list chars;
}.

#[export] Instance InterfaceConfig_eta : Eta InterfaceConfig := fun c =>
  mkInterfaceConfig (m_hopType c) (m_privateKey c) (m_deviceIpv4Address c)
    (m_deviceIpv6Address c) (m_serverIpv4Gateway c) (m_serverIpv6Gateway c)
    (m_serverPublicKey c) (m_serverIpv4AddrIn c) (m_serverIpv6AddrIn c)
    (m_dnsServer c) (m_entryCity c) (m_exitCity c) (m_serverPort c)
    (m_allowedIPAddressRanges c) (m_vpnDisabledApps c).

#[export] Instance InterfaceConfig_eq_dec : EqDecision InterfaceConfig.
Proof. solve_decision. Defined.

(** A default-constructed object; [hop] is what the uninitialised [m_hopType]
    holds. *)
Definition emptyConfig (hop : HopType) : InterfaceConfig :=
  mkInterfaceConfig hop None None None None None None None None None None None 0 [] [].

(** [QMetaEnum] names of the hop types. *)
Definition hopTypeKey (h : HopType) : chars :=
  match h with
  | SingleHop => qs "SingleHop"
  | MultiHopEntry => qs "MultiHopEntry"
  | MultiHopExit => qs "MultiHopExit"
  end.

Definition hopTypeOfKey (s : chars) : option HopType :=
  if bool_decide (s = qs "SingleHop") then Some SingleHop
  else if bool_decide (s = qs "MultiHopEntry") then Some MultiHopEntry
  else if bool_decide (s = qs "MultiHopExit") then Some MultiHopExit
  else None.

Definition isExitHop (h : HopType) : bool :=
  match h with MultiHopExit | SingleHop => true | MultiHopEntry => false end.

(** ** JSON form *)

Definition rangeToJson `{QtText} (i : IPAddress) : QJsonValue :=
  JObject (insertAll
    [(qs "address", JString (hostToString (m_address i)));
     (qs "range", ofInt (m_prefixLength i));
     (qs "isIpv6", JBool (bool_decide (IPAddress.type i = IPv6Protocol)))] []).

Definition toJson `{QtText} (c : InterfaceConfig) : QJsonObject :=
  let json := insertAll
    [(qs "hopType", JString (hopTypeKey (m_hopType c)));
     (qs "privateKey", ofQString (m_privateKey c));
     (qs "deviceIpv4Address", ofQString (m_deviceIpv4Address c));
     (qs "deviceIpv6Address", ofQString (m_deviceIpv6Address c));
     (qs "serverPublicKey", ofQString (m_serverPublicKey c));
     (qs "serverIpv4AddrIn", ofQString (m_serverIpv4AddrIn c));
     (qs "serverIpv6AddrIn", ofQString (m_serverIpv6AddrIn c));
     (qs "serverPort", ofInt (m_serverPort c))] [] in
  let json :=
    if isExitHop (m_hopType c) then
      insertAll
        [(qs "serverIpv4Gateway", ofQString (m_serverIpv4Gateway c));
         (qs "serverIpv6Gateway", ofQString (m_serverIpv6Gateway c));
         (qs "dnsServer", ofQString (m_dnsServer c))] json
    else json in
  insertAll
    [(qs "allowedIPAddressRanges", JArray (map rangeToJson (m_allowedIPAddressRanges c)));
     (qs "vpnDisabledApps", JArray (map JString (m_vpnDisabledApps c)))] json.

(** ** WireGuard configuration text *)

Definition hasNewline (s : QString) : bool := bool_decide (newline ∈ text s).

Definition line (s : chars) : chars := s ++ [newline].

Definition setting (k v : chars) : chars := line (k ++ qs " = " ++ v).

Definition commentLines (comment : chars) : chars :=
  if bool_decide (comment = []) then []
  else concat (map (fun l => line (qs "# " ++ l)) (split newline comment)).

(** The [Endpoint] line of a peer section. *)
Definition endpointLine (c : InterfaceConfig) : chars :=
  match m_serverIpv4AddrIn c, m_serverIpv6AddrIn c with
  | Some h, _ => setting (qs "Endpoint") (h ++ qs ":" ++ showZ (m_serverPort c))
  | None, Some h => setting (qs "Endpoint") (qs "[" ++ h ++ qs "]:" ++ showZ (m_serverPort c))
  | None, None => []
  end.

Definition peerSection `{QtText} (c : InterfaceConfig) (comment : chars) : chars :=
  [newline] ++ line (qs "[Peer]") ++ commentLines comment
  ++ setting (qs "PublicKey") (text (m_serverPublicKey c))
  ++ endpointLine c
  ++ setting (qs "AllowedIPs")
       (join (qs ", ") (map IPAddress.toString (m_allowedIPAddressRanges c))).

(** The strings that are not null, in order. *)
Definition nonNull (l : list QString) : list chars := omap id l.

(** [toWgConf(extra, peerComment)]; [extra] lists the map in key order. *)
Definition toWgConf `{QtText} (c : InterfaceConfig) (extra : list (chars * chars))
    (peerComment : chars) : chars :=
  if existsb hasNewline
       [m_privateKey c; m_deviceIpv4Address c; m_deviceIpv6Address c;
        m_serverIpv4Gateway c; m_serverIpv6Gateway c; m_serverPublicKey c;
        m_serverIpv4AddrIn c; m_serverIpv6AddrIn c]
  then []
  else
    let addresses := nonNull [m_deviceIpv4Address c; m_deviceIpv6Address c] in
    if bool_decide (addresses = []) then []
    else
      line (qs "[Interface]")
      ++ setting (qs "PrivateKey") (text (m_privateKey c))
      ++ setting (qs "Address") (join (qs ", ") addresses)
      ++ match m_dnsServer c with
         | None => []
         | Some dns =>
             setting (qs "DNS")
               (join (qs ", ")
                  (if QString_eqb (m_dnsServer c) (m_serverIpv4Gateway c)
                   then [dns; text (m_serverIpv6Gateway c)] else [dns]))
         end
      ++ concat (map (fun '(k, v) => setting k v) extra)
      ++ peerSection c peerComment.

(** [toMultiHopWgConf]: the entry server's configuration with the exit server as
    a second peer. *)
Definition toMultiHopWgConf `{QtText} (c exitConfig : InterfaceConfig)
    (extra : list (chars * chars)) (exitPeerComment entryPeerComment : chars) : chars :=
  let content := toWgConf c extra entryPeerComment in
  if existsb hasNewline [m_serverPublicKey exitConfig; m_serverIpv4AddrIn exitConfig]
  then []
  else content ++ peerSection exitConfig exitPeerComment.
