(* ===== verification/WireGuardConfig.v ===== *)
(** * The WireGuard configuration parser

    Model of [src/src/utils/wireguardconfig.cpp]: [WireGuardConfig::parse] and
    its helpers, line by line, with every error message. The parser returns
    either the message it stores through its [error] argument or the parsed
    configuration; [parseInto] adds the treatment of the output arguments. *)
From Stdlib Require Import ZArith Lia Ascii String.
From stdpp Require Import base numbers list gmap strings.
From S2P Require Import Prelude QHostAddress QString QtTextModel IPAddress InterfaceConfig.
Import IPAddress.

Local Open Scope Z_scope.
Local Open Scope wg_scope.

Module WireGuardConfig.

Definition hash : ascii := "#"%char.
Definition semicolon : ascii := ";"%char.
Definition colon : ascii := ":"%char.
Definition comma : ascii := ","%char.
Definition slash : ascii := "/"%char.
Definition equals : ascii := "="%char.
Definition lbracket : ascii := "["%char.
Definition rbracket : ascii := "]"%char.

Definition stripComment (line : chars) : chars :=
  let hashIndex := indexOf hash line in
  let semicolonIndex := indexOf semicolon line in
  let commentIndex :=
    if (0 <=? hashIndex) && (0 <=? semicolonIndex) then Z.min hashIndex semicolonIndex
    else if 0 <=? hashIndex then hashIndex
    else if 0 <=? semicolonIndex then semicolonIndex
    else -1 in
  trimmed (if 0 <=? commentIndex then left line commentIndex else line).

Definition splitCsv (value : chars) : list chars :=
  filter (fun s => s <> []) (map trimmed (split comma value)).

Section Parser.
Context `{QtText}.

Definition isValidAddressWithPrefix (value : chars) : bool :=
  if negb (bool_decide (slash ∈ value))
  then bool_decide (protocol (hostOfString value) ≠ UnknownNetworkLayerProtocol)
  else
    let subnet := parseSubnet value in
    bool_decide (protocol subnet.1 ≠ UnknownNetworkLayerProtocol) && (0 <=? subnet.2).

Definition invalidAddress (value : chars) : chars := qs "Invalid Address value: " ++ value.

(** [appendAddress] updates the IPv4 or the IPv6 device address. *)
Definition appendAddress (value : chars) (c : InterfaceConfig) : chars + InterfaceConfig :=
  if negb (isValidAddressWithPrefix value) then inl (invalidAddress value)
  else
    match protocol (hostOfString (section0 slash value)) with
    | IPv4Protocol => inr (c <| m_deviceIpv4Address := Some value |>)
    | IPv6Protocol => inr (c <| m_deviceIpv6Address := Some value |>)
    | UnknownNetworkLayerProtocol => inl (invalidAddress value)
    end.

Definition endpointFormat : chars := qs "Endpoint IPv6 address must use [address]:port format".

(** The host and the port of an endpoint, as text. *)
Definition splitEndpoint (value : chars) : chars + chars * chars :=
  if startsWith lbracket value then
    let closeBracket := indexOf rbracket value in
    if (closeBracket <? 0)
       || negb (bool_decide (midn value (closeBracket + 1) 1 = qs ":"))
    then inl endpointFormat
    else inr (midn value 1 (closeBracket - 1), mid value (closeBracket + 2))
  else
    let separator := lastIndexOf colon value in
    if (separator <=? 0) || (separator =? Z.of_nat (length value) - 1)
    then inl (qs "Endpoint must include host and port")
    else
      let host := left value separator in
      if bool_decide (colon ∈ host) then inl endpointFormat
      else inr (host, mid value (separator + 1)).

Definition parseEndpoint (value : chars) (c : InterfaceConfig) : chars + InterfaceConfig :=
  match splitEndpoint value with
  | inl e => inl e
  | inr (host, portValue) =>
      let badPort := inl (qs "Invalid Endpoint port: " ++ portValue) in
      match toInt portValue with
      | None => badPort
      | Some parsedPort =>
          if (parsedPort <=? 0) || (65535 <? parsedPort) then badPort
          else
            let c :=
              match protocol (hostOfString host) with
              | IPv6Protocol => c <| m_serverIpv6AddrIn := Some host |>
              | _ => c <| m_serverIpv4AddrIn := Some host |>
              end in
            inr (c <| m_serverPort := parsedPort |>)
      end
  end.

Definition appendAllowedIp (value : chars) (c : InterfaceConfig) : chars + InterfaceConfig :=
  if negb (isValidAddressWithPrefix value)
  then inl (qs "Invalid AllowedIPs value: " ++ value)
  else inr (c <| m_allowedIPAddressRanges :=
                   m_allowedIPAddressRanges c ++ [IPAddress.ofString value] |>).

(** A loop that stops at the first error. *)
Fixpoint forEach {A : Type} (f : A -> InterfaceConfig -> chars + InterfaceConfig)
    (l : list A) (c : InterfaceConfig) : chars + InterfaceConfig :=
  match l with
  | [] => inr c
  | x :: r => match f x c with inl e => inl e | inr c => forEach f r c end
  end.

(** What one [key = value] entry does in a section. *)
Definition parseEntry (section key value : chars) (c : InterfaceConfig)
  : chars + InterfaceConfig :=
  if bool_decide (section = qs "interface") then
    if bool_decide (key = qs "privatekey") then inr (c <| m_privateKey := Some value |>)
    else if bool_decide (key = qs "address") then forEach appendAddress (splitCsv value) c
    else if bool_decide (key = qs "dns") then
      match splitCsv value with
      | [] => inr c
      | first :: _ => inr (c <| m_dnsServer := Some first |>)
      end
    else inr c
  else if bool_decide (section = qs "peer") then
    if bool_decide (key = qs "publickey") then inr (c <| m_serverPublicKey := Some value |>)
    else if bool_decide (key = qs "endpoint") then parseEndpoint value c
    else if bool_decide (key = qs "allowedips") then forEach appendAllowedIp (splitCsv value) c
    else inr c
  else inr c.

(** One turn of the loop over the lines: the current section and the fields read
    so far. *)
Definition parseLine (index : Z) (raw section : chars) (c : InterfaceConfig)
  : chars + chars * InterfaceConfig :=
  let line := stripComment raw in
  if bool_decide (line = []) then inr (section, c)
  else if startsWith lbracket line && endsWith rbracket line then
    inr (toLower (trimmed (midn line 1 (Z.of_nat (length line) - 2))), c)
  else
    let separator := indexOf equals line in
    if separator <=? 0 then inl (qs "Invalid WireGuard line " ++ showZ (index + 1))
    else
      let key := toLower (trimmed (left line separator)) in
      let value := trimmed (mid line (separator + 1)) in
      if bool_decide (value = []) then inl (qs "Empty WireGuard value for " ++ key)
      else match parseEntry section key value c with
           | inl e => inl e
           | inr c => inr (section, c)
           end.

Fixpoint parseLines (index : Z) (lines : list chars) (section : chars) (c : InterfaceConfig)
  : chars + chars * InterfaceConfig :=
  match lines with
  | [] => inr (section, c)
  | raw :: rest =>
      match parseLine index raw section c with
      | inl e => inl e
      | inr (section, c) => parseLines (index + 1) rest section c
      end
  end.

(** The checks on the fields after the loop, in order. *)
Definition missingField (c : InterfaceConfig) : option chars :=
  if isEmpty (m_privateKey c) then Some (qs "Interface PrivateKey is required")
  else if isEmpty (m_deviceIpv4Address c) && isEmpty (m_deviceIpv6Address c)
  then Some (qs "Interface Address is required")
  else if isEmpty (m_serverPublicKey c) then Some (qs "Peer PublicKey is required")
  else if isEmpty (m_serverIpv4AddrIn c) && isEmpty (m_serverIpv6AddrIn c)
  then Some (qs "Peer Endpoint is required")
  else if m_serverPort c =? 0 then Some (qs "Peer Endpoint port is required")
  else if bool_decide (m_allowedIPAddressRanges c = [])
  then Some (qs "Peer AllowedIPs is required")
  else None.

Definition parse (content : chars) : chars + InterfaceConfig :=
  match parseLines 0 (split newline content) [] (emptyConfig SingleHop) with
  | inl e => inl e
  | inr (_, parsed) =>
      match missingField parsed with Some e => inl e | None => inr parsed end
  end.

(** [parse(content, config, error)]: the result and what the two output
    arguments hold afterwards. *)
Definition parseInto (content : chars) (config : InterfaceConfig)
  : bool * InterfaceConfig * QString :=
  match parse content with
  | inl e => (false, config, Some e)
  | inr parsed => (true, parsed, None)
  end.

End Parser.

(** ** Text fields *)

(** A value as a line of the file can carry it. *)
Definition fieldText (s : chars) : Prop :=
  s <> [] /\ edgesPlain s /\ (newline ∉ s) /\ (hash ∉ s) /\ (semicolon ∉ s).

(** The same for a field of the record, which may be null. *)
Definition fieldOk (s : QString) : Prop := match s with None => True | Some s => fieldText s end.

Lemma take_not_elem (c : ascii) (n : nat) (s x y : chars) :
  s = x ++ c :: y -> c ∉ x -> (n <= length x)%nat -> c ∉ take n s.
Proof.
  intros -> Hx Hn Hin. apply Hx. rewrite take_app_le in Hin by done.
  apply list_elem_of_In in Hin. apply list_elem_of_In.
  rewrite <- (take_drop n x). apply in_or_app. by left.
Qed.

Lemma left_indexOf (c : ascii) (n : Z) (s : chars) :
  0 <= indexOf c s -> n <= indexOf c s -> c ∉ left s n.
Proof.
  intros H Hn. destruct (indexOf_nonneg c s H) as (x & y & E & Hx & Hi).
  unfold left. eapply take_not_elem; [exact E|done|lia].
Qed.

Lemma left_elem (c : ascii) (n : Z) (s : chars) : c ∈ left s n -> c ∈ s.
Proof.
  unfold left. rewrite !list_elem_of_In. intros H.
  rewrite <- (take_drop (Z.to_nat n) s). apply in_or_app. by left.
Qed.

Lemma mid_elem (c : ascii) (n : Z) (s : chars) : c ∈ mid s n -> c ∈ s.
Proof.
  unfold mid. rewrite !list_elem_of_In. intros H.
  rewrite <- (take_drop (Z.to_nat n) s). apply in_or_app. by right.
Qed.

(** What is left of a line has no comment character and no outer space. *)
Lemma stripComment_clean (line : chars) :
  edgesPlain (stripComment line) /\ (hash ∉ stripComment line)
  /\ (semicolon ∉ stripComment line)
  /\ forall c, c ∈ stripComment line -> c ∈ line.
Proof.
  unfold stripComment. split; [apply trimmed_edges|].
  set (n := if (0 <=? indexOf hash line) && (0 <=? indexOf semicolon line)
            then Z.min (indexOf hash line) (indexOf semicolon line) else _).
  assert ((hash ∉ (if 0 <=? n then left line n else line))
    /\ semicolon ∉ (if 0 <=? n then left line n else line)) as [Hh Hs].
  { subst n. destruct (Z.leb_spec 0 (indexOf hash line)) as [Eh|Eh],
      (Z.leb_spec 0 (indexOf semicolon line)) as [Es|Es]; simpl.
    - rewrite (proj2 (Z.leb_le _ _)) by lia. split; apply left_indexOf; lia.
    - rewrite (proj2 (Z.leb_le _ _)) by lia. split; [apply left_indexOf; lia|].
      intros Hin%left_elem. by apply indexOf_not_elem in Es.
    - rewrite (proj2 (Z.leb_le _ _)) by lia. split; [|apply left_indexOf; lia].
      intros Hin%left_elem. by apply indexOf_not_elem in Eh.
    - by split; apply indexOf_not_elem. }
  split_and!.
  - by intros ?%trimmed_elem.
  - by intros ?%trimmed_elem.
  - intros c Hc%trimmed_elem. destruct (0 <=? n); [by apply left_elem in Hc|done].
Qed.

(** A line without comment characters or outer spaces is unchanged. *)
Lemma stripComment_id (line : chars) :
  edgesPlain line -> hash ∉ line -> semicolon ∉ line -> stripComment line = line.
Proof.
  intros He Hh Hs. unfold stripComment.
  apply indexOf_none in Hh as ->. apply indexOf_none in Hs as ->. by apply trimmed_id.
Qed.

(** A comment line is empty. *)
Lemma stripComment_comment (l : chars) : stripComment (hash :: l) = [].
Proof.
  unfold stripComment. pose proof (indexOf_range semicolon (hash :: l)).
  assert (indexOf hash (hash :: l) = 0) as -> by done.
  destruct (Z.leb_spec 0 (indexOf semicolon (hash :: l))); [|done].
  cbn [andb Z.leb Z.compare]. rewrite Z.min_l by done. done.
Qed.

(** The value of an entry is a text field. *)
Lemma entry_value_field (raw : chars) (n : Z) :
  newline ∉ raw -> trimmed (mid (stripComment raw) n) <> [] ->
  fieldText (trimmed (mid (stripComment raw) n)).
Proof.
  intros Hn Hne. destruct (stripComment_clean raw) as (_ & Hh & Hs & Hin).
  split_and!; [done|apply trimmed_edges|..]; intros H%trimmed_elem%mid_elem; auto.
Qed.

Lemma split_elem (c d : ascii) (s p : chars) : p ∈ split c s -> d ∈ p -> d ∈ s /\ d <> c.
Proof.
  revert p. induction s as [|x s IH]; intros p; simpl.
  { rewrite list_elem_of_singleton. intros -> Hd. by inversion Hd. }
  destruct (split c s) as [|h t] eqn:E; [by inversion 1|].
  case_bool_decide as Hx.
  - subst. rewrite !elem_of_cons. intros [->|Hp] Hd; [by inversion Hd|].
    destruct (IH p); [by rewrite elem_of_cons|done|]. split; [by right|done].
  - rewrite !elem_of_cons. intros [->|Hp] Hd.
    + apply elem_of_cons in Hd as [->|Hd]; [split; [by left|done]|].
      destruct (IH h); [by left|done|]. split; [by right|done].
    + destruct (IH p); [by right|done|]. split; [by right|done].
Qed.

Lemma splitCsv_field (value p : chars) :
  fieldText value -> p ∈ splitCsv value -> fieldText p.
Proof.
  intros (_ & _ & Hn & Hh & Hs). unfold splitCsv. rewrite list_elem_of_filter.
  intros [Hp Hin]. apply list_elem_of_fmap in Hin as (q & -> & Hq).
  split_and!; [done|apply trimmed_edges|..];
    intros H%trimmed_elem; destruct (split_elem _ _ _ _ Hq H); done.
Qed.

(** ** What a successful parse guarantees *)

Section Facts.
Context `{QtTextLaws}.

(** A device address as [appendAddress] accepts it for a family. *)
Definition deviceOk (fam : NetworkLayerProtocol) (s : QString) : Prop :=
  match s with
  | None => True
  | Some s => fieldText s /\ isValidAddressWithPrefix s = true
              /\ protocol (hostOfString (section0 slash s)) = fam
  end.

(** What holds of the fields read so far, at every line. *)
Record parsedInv (c : InterfaceConfig) : Prop := {
  pi_hop : m_hopType c = SingleHop;
  pi_key : fieldOk (m_privateKey c);
  pi_dev4 : deviceOk IPv4Protocol (m_deviceIpv4Address c);
  pi_dev6 : deviceOk IPv6Protocol (m_deviceIpv6Address c);
  pi_pub : fieldOk (m_serverPublicKey c);
  pi_dns : fieldOk (m_dnsServer c);
  pi_in4 : newline ∉ text (m_serverIpv4AddrIn c);
  pi_in6 : newline ∉ text (m_serverIpv6AddrIn c);
  pi_port : 0 <= m_serverPort c <= 65535;
  pi_allowed : Forall wf (m_allowedIPAddressRanges c);
  pi_rest : m_serverIpv4Gateway c = None /\ m_serverIpv6Gateway c = None
    /\ m_entryCity c = None /\ m_exitCity c = None /\ m_vpnDisabledApps c = [];
}.

Lemma parsedInv_empty : parsedInv (emptyConfig SingleHop).
Proof. split; simpl; try done; try lia; by inversion 1. Qed.

(** A valid range text gives a well-formed prefix. *)
Lemma ofString_wf (value : chars) :
  isValidAddressWithPrefix value = true -> wf (IPAddress.ofString value).
Proof.
  unfold isValidAddressWithPrefix, IPAddress.ofString. intros Hv.
  destruct (decide (slash ∈ value)) as [Hin|Hin].
  - rewrite bool_decide_true in Hv by done. rewrite bool_decide_true by done.
    cbn [negb] in Hv. zbool.
    pose proof (parseSubnet_wf value) as Hw. destruct (parseSubnet value) as [[|v|l] n];
      cbn [fst snd protocol] in *; [done|..]; destruct Hw as [|Hw]; try done;
      (split; [done|]); cbn [m_address m_prefixLength addrWidth].
    + destruct (Z.leb_spec 32 n); lia.
    + destruct (Z.leb_spec 128 n); lia.
  - rewrite bool_decide_false in Hv by done. rewrite bool_decide_false by done.
    cbn [negb] in Hv. zbool.
    pose proof (hostOfString_wf value) as Hw. destruct (hostOfString value) as [|v|l];
      cbn [protocol] in *; [done|..]; destruct Hw as [|Hw]; try done;
      (split; [done|]); cbn; lia.
Qed.

Lemma appendAddress_inv (value : chars) (c c' : InterfaceConfig) :
  fieldText value -> parsedInv c -> appendAddress value c = inr c' -> parsedInv c'.
Proof.
  intros Hf Hc. unfold appendAddress.
  destruct (isValidAddressWithPrefix value) eqn:Hv; simpl; [|done].
  destruct (protocol (hostOfString (section0 slash value))) eqn:Hp; intros [= <-];
    destruct Hc; split; simpl; done.
Qed.

Lemma appendAllowedIp_inv (value : chars) (c c' : InterfaceConfig) :
  fieldText value -> parsedInv c -> appendAllowedIp value c = inr c' -> parsedInv c'.
Proof.
  intros Hf Hc. unfold appendAllowedIp.
  destruct (isValidAddressWithPrefix value) eqn:Hv; simpl; [|done].
  intros [= <-]. destruct Hc; split; simpl; try done.
  apply Forall_app. split; [done|]. apply Forall_singleton. by apply ofString_wf.
Qed.

Lemma forEach_inv (f : chars -> InterfaceConfig -> chars + InterfaceConfig) (l : list chars) :
  (forall v c c', fieldText v -> parsedInv c -> f v c = inr c' -> parsedInv c') ->
  Forall fieldText l ->
  forall c c', parsedInv c -> forEach f l c = inr c' -> parsedInv c'.
Proof.
  intros Hf. induction 1 as [|v l Hv _ IH]; intros c c' Hc; simpl; [by intros [= <-]|].
  destruct (f v c) as [e|c1] eqn:E; [done|]. eauto.
Qed.

Lemma splitEndpoint_elem (value host port : chars) (d : ascii) :
  splitEndpoint value = inr (host, port) -> d ∈ host -> d ∈ value.
Proof.
  unfold splitEndpoint. repeat case_match; intros [= <- <-] Hd.
  - unfold midn in Hd. by apply left_elem, (mid_elem d 1) in Hd.
  - by apply left_elem in Hd.
Qed.

Lemma parseEndpoint_inv (value : chars) (c c' : InterfaceConfig) :
  fieldText value -> parsedInv c -> parseEndpoint value c = inr c' -> parsedInv c'.
Proof.
  intros (_ & _ & Hn & _ & _) Hc. unfold parseEndpoint.
  destruct (splitEndpoint value) as [e|[host port]] eqn:Es; [done|].
  assert (newline ∉ host) as Hh by (intros Hd; eapply splitEndpoint_elem in Hd; done).
  destruct (toInt port) as [n|]; [|done].
  destruct ((n <=? 0) || (65535 <? n)) eqn:En; [done|]. zbool.
  destruct (protocol (hostOfString host)); intros [= <-]; destruct Hc;
    split; simpl; done || lia.
Qed.

Lemma parseEntry_inv (section key value : chars) (c c' : InterfaceConfig) :
  fieldText value -> parsedInv c -> parseEntry section key value c = inr c' -> parsedInv c'.
Proof.
  intros Hv Hc. pose proof Hv as Hcsv. unfold parseEntry.
  assert (Forall fieldText (splitCsv value)) as Hl.
  { apply Forall_forall. intros p. by apply splitCsv_field. }
  repeat (case_bool_decide; simplify_eq/=).
  - intros [= <-]. destruct Hc; by split.
  - intros E. eapply forEach_inv; [apply appendAddress_inv|done..].
  - destruct (splitCsv value) as [|first rest]; intros [= <-]; [done|].
    inversion Hl; subst. destruct Hc; by split.
  - by intros [= <-].
  - intros [= <-]. destruct Hc; by split.
  - by apply parseEndpoint_inv.
  - intros E. eapply forEach_inv; [apply appendAllowedIp_inv|done..].
  - by intros [= <-].
  - by intros [= <-].
Qed.

Lemma parseLine_inv (idx : Z) (raw section section' : chars) (c c' : InterfaceConfig) :
  newline ∉ raw -> parsedInv c ->
  parseLine idx raw section c = inr (section', c') -> parsedInv c'.
Proof.
  intros Hn Hc. unfold parseLine.
  case_bool_decide; [by intros [= <- <-]|].
  destruct (startsWith lbracket _ && endsWith rbracket _); [by intros [= <- <-]|].
  destruct (indexOf equals _ <=? 0); [done|].
  case_bool_decide as Hv; [done|].
  destruct (parseEntry _ _ _ _) as [e|c1] eqn:E; [done|]. intros [= <- <-].
  eapply parseEntry_inv; [by apply entry_value_field|done..].
Qed.

Lemma parseLines_inv (lines : list chars) :
  Forall (fun l => newline ∉ l) lines ->
  forall idx section section' c c', parsedInv c ->
  parseLines idx lines section c = inr (section', c') -> parsedInv c'.
Proof.
  induction 1 as [|l lines Hl _ IH]; intros idx section section' c c' Hc; simpl.
  { by intros [= <- <-]. }
  destruct (parseLine idx l section c) as [e|[s1 c1]] eqn:E; [done|].
  apply IH. by eapply parseLine_inv.
Qed.

Lemma parse_inv (content : chars) (c : InterfaceConfig) :
  parse content = inr c -> parsedInv c /\ missingField c = None.
Proof.
  unfold parse. destruct (parseLines _ _ _ _) as [e|[s c1]] eqn:E; [done|].
  destruct (missingField c1) eqn:Em; [done|]. intros [= ->]. split; [|done].
  eapply parseLines_inv; [|apply parsedInv_empty|done].
  apply Forall_forall. intros l Hl Hn. by destruct (split_elem _ _ _ _ Hl Hn).
Qed.

(** A configuration the parser accepts has everything a tunnel needs: a
    private key, a device address, a peer key, an endpoint with a port between 1
    and 65535 and at least one allowed range; every range is a well-formed
    prefix, the device addresses are of the family of their field, and the
    fields the file cannot set are empty. *)
Theorem parse_success (content : chars) (c : InterfaceConfig) :
  parse content = inr c ->
  m_hopType c = SingleHop
  /\ isEmpty (m_privateKey c) = false
  /\ (isEmpty (m_deviceIpv4Address c) = false \/ isEmpty (m_deviceIpv6Address c) = false)
  /\ deviceOk IPv4Protocol (m_deviceIpv4Address c)
  /\ deviceOk IPv6Protocol (m_deviceIpv6Address c)
  /\ isEmpty (m_serverPublicKey c) = false
  /\ (isEmpty (m_serverIpv4AddrIn c) = false \/ isEmpty (m_serverIpv6AddrIn c) = false)
  /\ 1 <= m_serverPort c <= 65535
  /\ m_allowedIPAddressRanges c <> []
  /\ Forall wf (m_allowedIPAddressRanges c)
  /\ m_serverIpv4Gateway c = None /\ m_serverIpv6Gateway c = None
  /\ m_vpnDisabledApps c = [].
Proof.
  intros Hp. destruct (parse_inv content c Hp) as [[] Hm].
  revert Hm. unfold missingField.
  destruct (isEmpty (m_privateKey c)); [done|].
  destruct (isEmpty (m_deviceIpv4Address c)) eqn:D4,
    (isEmpty (m_deviceIpv6Address c)) eqn:D6; try done; simpl;
  (destruct (isEmpty (m_serverPublicKey c)); [done|]);
  (destruct (isEmpty (m_serverIpv4AddrIn c)) eqn:I4,
    (isEmpty (m_serverIpv6AddrIn c)) eqn:I6; try done; simpl);
  (destruct (Z.eqb_spec (m_serverPort c) 0); [done|]);
  (case_bool_decide; [done|]); intros _; split_and!; try done; try lia; tauto.
Qed.

(** Every error message starts with a literal. *)
Lemma forEach_error (f : chars -> InterfaceConfig -> chars + InterfaceConfig) (l : list chars) :
  (forall v c e, f v c = inl e -> e <> []) ->
  forall c e, forEach f l c = inl e -> e <> [].
Proof.
  intros Hf. induction l as [|v l IH]; intros c e; simpl; [done|].
  destruct (f v c) as [e'|c1] eqn:E; [|by apply IH]. intros [= <-]. by eapply Hf.
Qed.

#[local] Ltac literal_error := intros E; simplify_eq; try discriminate E; done.

Lemma appendAddress_error v c e : appendAddress v c = inl e -> e <> [].
Proof. unfold appendAddress, invalidAddress. repeat case_match; literal_error. Qed.

Lemma appendAllowedIp_error v c e : appendAllowedIp v c = inl e -> e <> [].
Proof. unfold appendAllowedIp. case_match; literal_error. Qed.

Lemma splitEndpoint_error v e : splitEndpoint v = inl e -> e <> [].
Proof. unfold splitEndpoint, endpointFormat. repeat case_match; literal_error. Qed.

Lemma parseEndpoint_error v c e : parseEndpoint v c = inl e -> e <> [].
Proof.
  unfold parseEndpoint. destruct (splitEndpoint v) as [e'|[host port]] eqn:Es.
  - intros [= <-]. by eapply splitEndpoint_error.
  - repeat case_match; literal_error.
Qed.

Lemma parseEntry_error section key v c e : parseEntry section key v c = inl e -> e <> [].
Proof.
  unfold parseEntry. repeat case_bool_decide; try done.
  - apply forEach_error, appendAddress_error.
  - by case_match.
  - apply parseEndpoint_error.
  - apply forEach_error, appendAllowedIp_error.
Qed.

Lemma missingField_error c e : missingField c = Some e -> e <> [].
Proof. unfold missingField. repeat case_match; literal_error. Qed.

Lemma parseLine_error idx raw section c e :
  parseLine idx raw section c = inl e -> e <> [].
Proof.
  unfold parseLine.
  destruct (bool_decide (stripComment raw = [])); [done|].
  destruct (startsWith lbracket _ && endsWith rbracket _); [done|].
  destruct (indexOf equals _ <=? 0); [literal_error|].
  destruct (bool_decide (trimmed _ = [])); [literal_error|].
  destruct (parseEntry _ _ _ _) as [e'|c1] eqn:E; [|done].
  intros [= <-]. by eapply parseEntry_error.
Qed.

Lemma parseLines_error lines :
  forall idx section c e, parseLines idx lines section c = inl e -> e <> [].
Proof.
  induction lines as [|l lines IH]; intros idx section c e; simpl; [done|].
  destruct (parseLine idx l section c) as [e'|[s1 c1]] eqn:E; [|by apply IH].
  intros [= <-]. by eapply parseLine_error.
Qed.

Lemma parse_error content e : parse content = inl e -> e <> [].
Proof.
  unfold parse. destruct (parseLines _ _ _ _) as [e'|[s1 c1]] eqn:E.
  - intros [= <-]. by eapply parseLines_error.
  - destruct (missingField c1) eqn:Em; [|done]. intros [= <-].
    by eapply missingField_error.
Qed.

(** The output arguments of [parse]: on success the configuration is the
    parsed one and the error is cleared; on failure the configuration is left as
    it was and the error is not empty. *)
Theorem parseInto_outputs (content : chars) (config : InterfaceConfig) :
  match parseInto content config with
  | (true, config', error) => parse content = inr config' /\ error = None
  | (false, config', error) => config' = config /\ isEmpty error = false
  end.
Proof.
  unfold parseInto. destruct (parse content) as [e|c] eqn:E; [|done].
  split; [done|]. apply isEmpty_false. simpl. by eapply parse_error.
Qed.

Lemma parseLines_app (a b : list chars) :
  forall idx s c s1 c1, parseLines idx a s c = inr (s1, c1) ->
  parseLines idx (a ++ b) s c = parseLines (idx + Z.of_nat (length a)) b s1 c1.
Proof.
  induction a as [|l a IH]; intros idx s c s1 c1; cbn [parseLines app length].
  - intros [= <- <-]. f_equal. lia.
  - destruct (parseLine idx l s c) as [e|[s2 c2]]; [done|]. intros E.
    rewrite (IH _ _ _ _ _ E). f_equal. lia.
Qed.

(** The first line that is neither blank, nor a section header, nor an entry
    is reported with its number, counted from one; what follows is not read. *)
Theorem parse_invalid_line (content raw s : chars) (pre post : list chars)
    (c : InterfaceConfig) :
  split newline content = pre ++ raw :: post ->
  parseLines 0 pre [] (emptyConfig SingleHop) = inr (s, c) ->
  stripComment raw <> [] ->
  startsWith lbracket (stripComment raw) && endsWith rbracket (stripComment raw) = false ->
  indexOf equals (stripComment raw) <= 0 ->
  parse content = inl (qs "Invalid WireGuard line " ++ showZ (Z.of_nat (length pre) + 1)).
Proof.
  intros Hsplit Hpre Hne Hb Heq. unfold parse.
  rewrite Hsplit, (parseLines_app _ _ _ _ _ _ _ Hpre). cbn [parseLines].
  unfold parseLine. rewrite bool_decide_false, Hb by done.
  by destruct (Z.leb_spec (indexOf equals (stripComment raw)) 0); [|lia].
Qed.

End Facts.

(** ** Examples *)

#[local] Existing Instance modelText.
#[local] Existing Instance modelTextLaws.

Definition sampleText : chars := qs "
[Interface]
PrivateKey = localPrivateKey=
Address = 10.64.222.2/32  # tunnel
DNS = 10.64.0.1, 1.1.1.1

[Peer]
PublicKey = remotePublicKey=
Endpoint = vpn.example.test:51820
AllowedIPs = 0.0.0.0/0, 10.0.0.0/8
PersistentKeepalive = 25
"%string.

Definition sampleConfig : InterfaceConfig :=
  mkInterfaceConfig SingleHop (Some (qs "localPrivateKey=")) (Some (qs "10.64.222.2/32"))
    None None None (Some (qs "remotePublicKey=")) (Some (qs "vpn.example.test")) None
    (Some (qs "10.64.0.1")) None None 51820 [ip4 0 0 0 0 0; ip4 10 0 0 0 8] [].

Example parse_sample : parse sampleText = inr sampleConfig.
Proof. by_decision. Qed.

Lemma parse_success_witness :
  parse sampleText = inr sampleConfig /\ 1 <= m_serverPort sampleConfig <= 65535.
Proof.
  assert (parse sampleText = inr sampleConfig) as E by by_decision.
  split; [exact E|]. apply (parse_success sampleText sampleConfig E).
Defined.

Lemma parse_invalid_line_witness :
  parse (qs "[Interface]
foo
") = inl (qs "Invalid WireGuard line 2").
Proof.
  apply (parse_invalid_line _ (qs "foo") (qs "interface") [qs "[Interface]"] [[]]
    (emptyConfig SingleHop)); [by_decision|by_decision|by_decision|by_decision|].
  vm_compute. discriminate.
Defined.

End WireGuardConfig.
