(* ===== verification/ConfigRoundTrip.v ===== *)
(** * Printing and parsing a configuration

    [InterfaceConfig::toWgConf] (of [utils/interfaceconfig.cpp]) followed by
    [WireGuardConfig::parse] (of [utils/wireguardconfig.cpp]): the lines of the
    printed file, what each of them does to the parser, and the round trip. *)
From Stdlib Require Import ZArith Lia Ascii String.
From stdpp Require Import base numbers list gmap strings.
From S2P Require Import Prelude QHostAddress QString QtTextModel IPAddress InterfaceConfig.
From S2P Require Import WireGuardConfig.
Import IPAddress WireGuardConfig.

Local Open Scope Z_scope.
Local Open Scope wg_scope.

(** ** The printed file as a list of lines *)

Definition settingText (k v : chars) : chars := k ++ qs " = " ++ v.

Definition commentTexts (comment : chars) : list chars :=
  if bool_decide (comment = []) then []
  else map (fun l => qs "# " ++ l) (split newline comment).

Definition endpointTexts (c : InterfaceConfig) : list chars :=
  match m_serverIpv4AddrIn c, m_serverIpv6AddrIn c with
  | Some h, _ => [settingText (qs "Endpoint") (h ++ qs ":" ++ showZ (m_serverPort c))]
  | None, Some h =>
      [settingText (qs "Endpoint") (qs "[" ++ h ++ qs "]:" ++ showZ (m_serverPort c))]
  | None, None => []
  end.

Lemma concat_lines_app (a b : list chars) :
  concat (map line (a ++ b)) = concat (map line a) ++ concat (map line b).
Proof. by rewrite map_app, concat_app. Qed.

Lemma commentLines_texts (comment : chars) :
  commentLines comment = concat (map line (commentTexts comment)).
Proof.
  unfold commentLines, commentTexts. case_bool_decide; [done|]. by rewrite map_map.
Qed.

Lemma endpointLine_texts (c : InterfaceConfig) :
  endpointLine c = concat (map line (endpointTexts c)).
Proof.
  unfold endpointLine, endpointTexts. repeat case_match; simpl; by rewrite ?app_nil_r.
Qed.

(** Splitting a sequence of terminated lines gives them back, and an empty one. *)
Lemma split_lines (ls : list chars) :
  Forall (fun l => newline ∉ l) ls ->
  split newline (concat (map line ls)) = ls ++ [[]].
Proof.
  induction 1 as [|l ls Hl _ IH]; [done|]. cbn [map concat]. unfold line at 1.
  rewrite <- app_assoc. cbn [app]. rewrite split_app by done. by rewrite IH.
Qed.

(** ** Steps of the parser *)

Section Steps.
Context `{QtText}.

(** The lines take the parser from one section and configuration to another,
    wherever in the file they are. *)
Definition steps (ls : list chars) (s : chars) (c : InterfaceConfig)
    (s' : chars) (c' : InterfaceConfig) : Prop :=
  forall idx rest,
    parseLines idx (ls ++ rest) s c = parseLines (idx + Z.of_nat (length ls)) rest s' c'.

Lemma steps_nil (s : chars) (c : InterfaceConfig) : steps [] s c s c.
Proof. intros idx rest. simpl. f_equal. lia. Qed.

Lemma steps_app (a b : list chars) s c s1 c1 s2 c2 :
  steps a s c s1 c1 -> steps b s1 c1 s2 c2 -> steps (a ++ b) s c s2 c2.
Proof.
  intros Ha Hb idx rest. rewrite <- app_assoc, Ha, Hb. f_equal.
  rewrite length_app. lia.
Qed.

Lemma steps_one (l : chars) s c s' c' :
  (forall idx, parseLine idx l s c = inr (s', c')) -> steps [l] s c s' c'.
Proof. intros Hl idx rest. simpl. rewrite Hl. done. Qed.

Lemma steps_cons (l : chars) (ls : list chars) s c s1 c1 s2 c2 :
  (forall idx, parseLine idx l s c = inr (s1, c1)) -> steps ls s1 c1 s2 c2 ->
  steps (l :: ls) s c s2 c2.
Proof. intros Hl Hs. apply (steps_app [l] ls s c s1 c1); [by apply steps_one|done]. Qed.

(** Lines that are blank once the comment is removed change nothing. *)
Lemma steps_blank (ls : list chars) s c :
  Forall (fun l => stripComment l = []) ls -> steps ls s c s c.
Proof.
  induction 1 as [|l ls Hl _ IH]; [apply steps_nil|].
  eapply steps_cons; [|done]. intros idx. unfold parseLine. rewrite Hl. done.
Qed.

Lemma steps_comment (comment : chars) s c : steps (commentTexts comment) s c s c.
Proof.
  apply steps_blank. unfold commentTexts. case_bool_decide; [done|].
  apply Forall_forall. intros l Hl. apply list_elem_of_fmap in Hl as (x & -> & _).
  apply (stripComment_comment (" "%char :: x)).
Qed.

(** A key the printer can write. *)
Definition keyText (k : chars) : Prop :=
  fieldText k /\ (equals ∉ k) /\ (lbracket ∉ k).

#[export] Instance fieldText_dec (s : chars) : Decision (fieldText s).
Proof. unfold fieldText, edgesPlain. apply _. Defined.

#[export] Instance keyText_dec (s : chars) : Decision (keyText s).
Proof. unfold keyText. apply _. Defined.

(** A [key = value] line is one entry. *)
Lemma parseLine_setting (idx : Z) (k v s : chars) (c : InterfaceConfig) :
  keyText k -> fieldText v ->
  parseLine idx (settingText k v) s c =
  match parseEntry s (toLower k) v c with inl e => inl e | inr c' => inr (s, c') end.
Proof.
  intros (Hk & Heq & Hlb) Hv. unfold parseLine.
  assert (stripComment (settingText k v) = settingText k v) as ->.
  { destruct Hk as (Hk0 & Hke & _ & Hkh & Hks), Hv as (Hv0 & Hve & _ & Hvh & Hvs).
    apply stripComment_id.
    - by apply edgesPlain_app.
    - unfold settingText, hash in *. simpl. list_in.
    - unfold settingText, semicolon in *. simpl. list_in. }
  assert (settingText k v <> []) as Hne.
  { unfold settingText. by destruct k. }
  rewrite bool_decide_false by done.
  assert (startsWith lbracket (settingText k v) = false) as ->.
  { unfold startsWith. apply bool_decide_false. destruct Hk as (Hk0 & _).
    destruct k as [|x k]; [done|]. simpl. intros [= ->]. apply Hlb. left. }
  cbn [andb].
  assert (settingText k v = (k ++ [" "%char]) ++ equals :: " "%char :: v) as E.
  { unfold settingText. by rewrite <- app_assoc. }
  assert (equals ∉ k ++ [" "%char]) as Hkeq by (unfold equals in *; list_in).
  rewrite E, indexOf_app by done.
  destruct (Z.leb_spec (Z.of_nat (length (k ++ [" "%char]))) 0) as [Hl|_].
  { rewrite length_app in Hl. simpl in Hl. lia. }
  destruct Hv as (Hv0 & Hve & _), Hk as (Hk0 & Hke & _).
  rewrite left_app, mid_app, trimmed_space_r, trimmed_space_l by (done || apply Hke).
  rewrite !trimmed_id by done. by rewrite bool_decide_false.
Qed.

Lemma steps_setting (k v s : chars) (c c' : InterfaceConfig) :
  keyText k -> fieldText v -> parseEntry s (toLower k) v c = inr c' ->
  steps [settingText k v] s c s c'.
Proof.
  intros Hk Hv He. apply steps_one. intros idx. by rewrite parseLine_setting, He.
Qed.


(** ** Lists of values *)

Lemma splitCsv_cons (v w : chars) :
  fieldText v -> comma ∉ v -> splitCsv (v ++ comma :: w) = v :: splitCsv w.
Proof.
  intros (Hv0 & Hve & _) Hc. unfold splitCsv. rewrite split_app by done.
  cbn [map]. rewrite trimmed_id by done. by rewrite filter_cons_True.
Qed.

Lemma splitCsv_space (w : chars) : splitCsv (" "%char :: w) = splitCsv w.
Proof.
  unfold splitCsv. simpl. pose proof (split_nonempty comma w).
  destruct (split comma w) as [|h t]; [done|]. cbn [map].
  by rewrite trimmed_space_l.
Qed.

Lemma splitCsv_one (v : chars) : fieldText v -> comma ∉ v -> splitCsv v = [v].
Proof.
  intros (Hv0 & Hve & _) Hc. unfold splitCsv. rewrite split_none by done. cbn [map].
  rewrite trimmed_id by done. by rewrite filter_cons_True.
Qed.

Definition itemText (v : chars) : Prop := fieldText v /\ (comma ∉ v).

Lemma splitCsv_join (l : list chars) :
  Forall itemText l -> splitCsv (join (qs ", ") l) = l.
Proof.
  induction 1 as [|v l [Hv Hc] Hl IH]; [done|].
  destruct l as [|w l]; [by apply splitCsv_one|].
  change (join (qs ", ") (v :: w :: l))
    with (v ++ comma :: " "%char :: join (qs ", ") (w :: l)).
  rewrite splitCsv_cons by done. by rewrite splitCsv_space, IH.
Qed.

Lemma fieldText_app (a m b : chars) :
  fieldText a -> fieldText b ->
  (newline ∉ m) -> (hash ∉ m) -> (semicolon ∉ m) -> fieldText (a ++ m ++ b).
Proof.
  intros (Ha & Hea & Hna & Hha & Hsa) (Hb & Heb & Hnb & Hhb & Hsb) Hn Hh Hs.
  split_and!; [by destruct a|by apply edgesPlain_app|list_in..].
Qed.

Lemma fieldText_join (l : list chars) :
  l <> [] -> Forall itemText l -> fieldText (join (qs ", ") l).
Proof.
  intros Hne. induction 1 as [|v l [Hv Hc] Hl IH]; [done|].
  destruct l as [|w l]; [done|].
  apply (fieldText_app v (qs ", ") (join (qs ", ") (w :: l))); [done|by apply IH|..];
    by_decision.
Qed.

End Steps.

(** ** Values the printer writes and the parser reads back *)

Section Values.
Context `{QtTextLaws}.

Lemma fieldText_plain (s : chars) : plainText s -> s <> [] -> itemText s.
Proof.
  intros Hs Hne. split.
  - split_and!; [done|by apply plainText_edges|..]; by apply plainText_not_elem.
  - by apply plainText_not_elem.
Qed.

Lemma itemText_range (ip : IPAddress) : wf ip -> itemText (IPAddress.toString ip).
Proof.
  intros [Ha Hp].
  destruct (fieldText_plain (hostToString (m_address ip))) as [Hf Hc];
    [by apply hostToString_plain|by apply hostToString_nonempty|].
  destruct (fieldText_plain (showZ (m_prefixLength ip))) as [Hf' Hc'];
    [apply showZ_plain; lia|apply showZ_nonempty; lia|].
  unfold IPAddress.toString. split.
  - by apply fieldText_app; [..|by_decision|by_decision|by_decision].
  - unfold comma in *. simpl. list_in.
Qed.

Lemma range_slash (ip : IPAddress) : slash ∈ IPAddress.toString ip.
Proof. unfold IPAddress.toString, slash. simpl. list_in. Qed.

Lemma wf_host_protocol (a : QHostAddress) : wf_host a -> protocol a <> UnknownNetworkLayerProtocol.
Proof. by destruct a. Qed.

Lemma range_valid (ip : IPAddress) :
  network ip -> isValidAddressWithPrefix (IPAddress.toString ip) = true.
Proof.
  intros [[Ha Hp] Hc]. unfold isValidAddressWithPrefix.
  rewrite bool_decide_true by apply range_slash. cbn [negb].
  unfold IPAddress.toString. rewrite parseSubnet_toString by done. cbn [fst snd].
  rewrite bool_decide_true by (by apply wf_host_protocol).
  apply Z.leb_le. lia.
Qed.

Lemma ofString_toString (ip : IPAddress) :
  network ip -> IPAddress.ofString (IPAddress.toString ip) = ip.
Proof.
  intros [[Ha Hp] Hc]. unfold IPAddress.ofString.
  rewrite bool_decide_true by apply range_slash.
  unfold IPAddress.toString. rewrite parseSubnet_toString by done.
  destruct ip as [a p]. cbn [m_address m_prefixLength] in *. f_equal.
  destruct a; cbn [protocol addrWidth] in *; [done|..];
    destruct (Z.leb_spec 32 p); destruct (Z.leb_spec 128 p); lia.
Qed.

(** Reading the printed ranges appends them. *)
Lemma forEach_ranges (l : list IPAddress) (c : InterfaceConfig) :
  Forall network l ->
  forEach appendAllowedIp (map IPAddress.toString l) c
  = inr (c <| m_allowedIPAddressRanges := m_allowedIPAddressRanges c ++ l |>).
Proof.
  intros Hl. revert c. induction Hl as [|ip l Hip _ IH]; intros c; simpl.
  - destruct c. unfold updateField. simpl. by rewrite app_nil_r.
  - unfold appendAllowedIp. rewrite range_valid by done. cbn [negb].
    rewrite IH, ofString_toString by done. destruct c. unfold updateField. simpl.
    by rewrite <- app_assoc.
Qed.

(** An address text of a family, as the printer writes it in a list. *)
Definition addressText (fam : NetworkLayerProtocol) (s : QString) : Prop :=
  deviceOk fam s /\ (comma ∉ text s).

Lemma appendAddress_v4 (a : chars) (c : InterfaceConfig) :
  addressText IPv4Protocol (Some a) ->
  appendAddress a c = inr (c <| m_deviceIpv4Address := Some a |>).
Proof. intros [(_ & Hv & Hp) _]. unfold appendAddress. by rewrite Hv, Hp. Qed.

Lemma appendAddress_v6 (a : chars) (c : InterfaceConfig) :
  addressText IPv6Protocol (Some a) ->
  appendAddress a c = inr (c <| m_deviceIpv6Address := Some a |>).
Proof. intros [(_ & Hv & Hp) _]. unfold appendAddress. by rewrite Hv, Hp. Qed.

Lemma addressText_item (fam : NetworkLayerProtocol) (a : chars) :
  addressText fam (Some a) -> itemText a.
Proof. by intros [(Hf & _) Hc]. Qed.

End Values.

(** ** The round trip *)

Section RoundTrip.
Context `{QtTextLaws}.

(** The endpoint host, as the printer can write it. *)
Definition endpointOk (c : InterfaceConfig) : Prop :=
  match m_serverIpv4AddrIn c, m_serverIpv6AddrIn c with
  | Some h, None =>
      fieldText h /\ (colon ∉ h) /\ (lbracket ∉ h)
      /\ protocol (hostOfString h) <> IPv6Protocol
  | None, Some h =>
      fieldText h /\ (rbracket ∉ h) /\ protocol (hostOfString h) = IPv6Protocol
  | _, _ => False
  end.

(** The configurations a WireGuard file can express: a required text is there and
    fits on a line, there is one endpoint, the ranges are networks, and the
    fields the file has no line for are empty. *)
Record printable (c : InterfaceConfig) : Prop := {
  pr_hop : m_hopType c = SingleHop;
  pr_key : match m_privateKey c with Some k => fieldText k | None => False end;
  pr_dev4 : addressText IPv4Protocol (m_deviceIpv4Address c);
  pr_dev6 : addressText IPv6Protocol (m_deviceIpv6Address c);
  pr_dev : nonNull [m_deviceIpv4Address c; m_deviceIpv6Address c] <> [];
  pr_pub : match m_serverPublicKey c with Some k => fieldText k | None => False end;
  pr_dns : match m_dnsServer c with Some d => itemText d | None => True end;
  pr_endpoint : endpointOk c;
  pr_port : 1 <= m_serverPort c <= 65535;
  pr_allowed : Forall network (m_allowedIPAddressRanges c);
  pr_some : m_allowedIPAddressRanges c <> [];
  pr_rest : m_serverIpv4Gateway c = None /\ m_serverIpv6Gateway c = None
    /\ m_entryCity c = None /\ m_exitCity c = None /\ m_vpnDisabledApps c = [];
}.

(** An additional line of the interface section that the parser skips. *)
Definition extraOk (kv : chars * chars) : Prop :=
  keyText kv.1 /\ fieldText kv.2
  /\ (toLower kv.1 ∉ [qs "privatekey"; qs "address"; qs "dns"]).

Lemma port_show (n : Z) : 1 <= n <= 65535 -> toInt (showZ n) = Some n.
Proof. intros Hn. apply toInt_show. lia. Qed.

Lemma port_field (n : Z) : 1 <= n <= 65535 -> itemText (showZ n).
Proof.
  intros Hn. apply fieldText_plain; [apply showZ_plain|apply showZ_nonempty]; lia.
Qed.

Lemma port_colon (n : Z) : 1 <= n <= 65535 -> colon ∉ showZ n.
Proof. intros Hn. apply showZ_not_elem; [lia|done]. Qed.

Lemma parseEndpoint_v4 (h : chars) (n : Z) (c : InterfaceConfig) :
  fieldText h -> colon ∉ h -> lbracket ∉ h ->
  protocol (hostOfString h) <> IPv6Protocol -> 1 <= n <= 65535 ->
  parseEndpoint (h ++ qs ":" ++ showZ n) c
  = inr (c <| m_serverIpv4AddrIn := Some h |> <| m_serverPort := n |>).
Proof.
  intros (Hh0 & _) Hc Hb Hp Hn. unfold parseEndpoint, splitEndpoint.
  destruct h as [|x h]; [done|].
  assert (startsWith lbracket ((x :: h) ++ qs ":" ++ showZ n) = false) as ->.
  { apply bool_decide_false. simpl. intros [= ->]. apply Hb. left. }
  change ((x :: h) ++ qs ":" ++ showZ n) with ((x :: h) ++ colon :: showZ n).
  rewrite lastIndexOf_app by (by apply port_colon).
  assert (0 < length (showZ n))%nat.
  { destruct (showZ n) eqn:E; [|simpl; lia]. by apply showZ_nonempty in E; [|lia]. }
  destruct (Z.leb_spec (Z.of_nat (length (x :: h))) 0) as [Hl|_]; [simpl in Hl; lia|].
  destruct (Z.eqb_spec (Z.of_nat (length (x :: h)))
    (Z.of_nat (length ((x :: h) ++ colon :: showZ n)) - 1)) as [Hl|_].
  { rewrite length_app in Hl. simpl in Hl. lia. }
  cbn [orb]. rewrite left_app, mid_app, bool_decide_false by done.
  rewrite port_show by done.
  destruct (Z.leb_spec n 0); [lia|]. destruct (Z.ltb_spec 65535 n); [lia|]. cbn [orb].
  by destruct (protocol (hostOfString (x :: h))).
Qed.

Lemma parseEndpoint_v6 (h : chars) (n : Z) (c : InterfaceConfig) :
  rbracket ∉ h -> protocol (hostOfString h) = IPv6Protocol -> 1 <= n <= 65535 ->
  parseEndpoint (qs "[" ++ h ++ qs "]:" ++ showZ n) c
  = inr (c <| m_serverIpv6AddrIn := Some h |> <| m_serverPort := n |>).
Proof.
  intros Hb Hp Hn. unfold parseEndpoint, splitEndpoint.
  assert (startsWith lbracket (qs "[" ++ h ++ qs "]:" ++ showZ n) = true) as -> by done.
  set (v := qs "[" ++ h ++ qs "]:" ++ showZ n).
  assert (v = (lbracket :: h) ++ rbracket :: colon :: showZ n) as Ev by done.
  assert (rbracket ∉ lbracket :: h) as Hb' by (unfold rbracket, lbracket in *; list_in).
  assert (indexOf rbracket v = Z.of_nat (length h) + 1) as ->.
  { rewrite Ev, indexOf_app by done. simpl. lia. }
  assert (forall k, drop (Z.to_nat (Z.of_nat (length h) + 1 + Z.of_nat k)) v
    = drop k (rbracket :: colon :: showZ n)) as Hd.
  { intros k. rewrite Ev. replace (Z.to_nat (Z.of_nat (length h) + 1 + Z.of_nat k))
      with (length (lbracket :: h) + k)%nat by (simpl; lia).
    by rewrite <- drop_drop, drop_app_length. }
  destruct (Z.ltb_spec (Z.of_nat (length h) + 1) 0); [lia|].
  pose proof (Hd 1%nat) as Hd1. pose proof (Hd 2%nat) as Hd2.
  change (Z.of_nat 1) with 1 in Hd1. change (Z.of_nat 2) with 2 in Hd2.
  assert (midn v (Z.of_nat (length h) + 1 + 1) 1 = qs ":") as ->.
  { unfold midn. by rewrite Hd1. }
  assert (mid v (Z.of_nat (length h) + 1 + 2) = showZ n) as ->.
  { unfold mid. by rewrite Hd2. }
  rewrite bool_decide_true by done. cbn [negb orb].
  assert (midn v 1 (Z.of_nat (length h) + 1 - 1) = h) as ->.
  { rewrite Z.add_simpl_r. unfold midn. rewrite Nat2Z.id, Ev.
    change (Z.to_nat 1) with 1%nat. cbn [app drop]. apply take_app_length. }
  rewrite port_show, Hp by done.
  destruct (Z.leb_spec n 0); [lia|]. by destruct (Z.ltb_spec 65535 n); [lia|].
Qed.

(** The lines of the printed file. *)
Definition interfaceLines (c : InterfaceConfig) (extra : list (chars * chars)) : list chars :=
  [qs "[Interface]"; settingText (qs "PrivateKey") (text (m_privateKey c));
   settingText (qs "Address")
     (join (qs ", ") (nonNull [m_deviceIpv4Address c; m_deviceIpv6Address c]))]
  ++ match m_dnsServer c with Some d => [settingText (qs "DNS") d] | None => [] end
  ++ map (fun kv => settingText kv.1 kv.2) extra.

Definition peerLines (c : InterfaceConfig) (comment : chars) : list chars :=
  [[]; qs "[Peer]"] ++ commentTexts comment
  ++ [settingText (qs "PublicKey") (text (m_serverPublicKey c))]
  ++ endpointTexts c
  ++ [settingText (qs "AllowedIPs")
        (join (qs ", ") (map IPAddress.toString (m_allowedIPAddressRanges c)))].

Lemma fieldText_newline (s : chars) : fieldText s -> newline ∉ s.
Proof. by intros (_ & _ & Hn & _). Qed.

Lemma settingText_newline (k v : chars) :
  newline ∉ k -> newline ∉ v -> newline ∉ settingText k v.
Proof.
  intros Hk Hv. unfold settingText.
  assert (newline ∉ qs " = ") by by_decision. list_in.
Qed.

Lemma addresses_item (c : InterfaceConfig) :
  printable c ->
  Forall itemText (nonNull [m_deviceIpv4Address c; m_deviceIpv6Address c]).
Proof.
  intros [_ _ H4 H6 _ _ _ _ _ _ _ _].
  destruct (m_deviceIpv4Address c), (m_deviceIpv6Address c);
    repeat constructor; by eapply addressText_item.
Qed.

Lemma ranges_item (l : list IPAddress) :
  Forall network l -> Forall itemText (map IPAddress.toString l).
Proof.
  induction 1 as [|ip l [Hw _] _ IH]; simpl; constructor; [by apply itemText_range|done].
Qed.

Lemma addresses_field (c : InterfaceConfig) :
  printable c ->
  fieldText (join (qs ", ") (nonNull [m_deviceIpv4Address c; m_deviceIpv6Address c])).
Proof. intros Hc. apply fieldText_join; [apply Hc|by apply addresses_item]. Qed.

Lemma ranges_field (c : InterfaceConfig) :
  printable c ->
  fieldText (join (qs ", ") (map IPAddress.toString (m_allowedIPAddressRanges c))).
Proof.
  intros Hc. apply fieldText_join; [|apply ranges_item, Hc].
  pose proof (pr_some c Hc). by destruct (m_allowedIPAddressRanges c).
Qed.

(** The text of the endpoint is a field. *)
Lemma endpoint_field (c : InterfaceConfig) :
  printable c -> exists v, fieldText v /\ endpointTexts c = [settingText (qs "Endpoint") v]
  /\ forall r, parseEndpoint v r
       = inr (match m_serverIpv4AddrIn c, m_serverIpv6AddrIn c with
              | Some h, _ => r <| m_serverIpv4AddrIn := Some h |>
              | None, Some h => r <| m_serverIpv6AddrIn := Some h |>
              | None, None => r
              end <| m_serverPort := m_serverPort c |>).
Proof.
  intros [_ _ _ _ _ _ _ He Hn _ _ _]. unfold endpointOk, endpointTexts in *.
  destruct (port_field _ Hn) as [Hpf _].
  destruct (m_serverIpv4AddrIn c) as [h|], (m_serverIpv6AddrIn c) as [h'|]; try done.
  - destruct He as (Hf & Hc & Hb & Hp). eexists. split_and!; [|done|].
    + apply fieldText_app; [done..|by_decision|by_decision|by_decision].
    + intros r. by apply parseEndpoint_v4.
  - destruct He as (Hf & Hb & Hp). eexists. split_and!; [|done|].
    + apply fieldText_app; [by_decision| |by destruct Hf as (_ & _ & ? & ? & ?)..].
      apply (fieldText_app (qs "]") (qs ":"));
        [by_decision|done|by_decision|by_decision|by_decision].
    + intros r. by apply parseEndpoint_v6.
Qed.

Lemma hasNewline_false (q : QString) :
  match q with Some s => fieldText s | None => True end -> hasNewline q = false.
Proof.
  intros Hq. apply bool_decide_false. destruct q; [by apply fieldText_newline|by inversion 1].
Qed.

Lemma printable_newlines (c : InterfaceConfig) :
  printable c ->
  existsb hasNewline [m_privateKey c; m_deviceIpv4Address c; m_deviceIpv6Address c;
    m_serverIpv4Gateway c; m_serverIpv6Gateway c; m_serverPublicKey c; m_serverIpv4AddrIn c;
    m_serverIpv6AddrIn c] = false.
Proof.
  intros [_ Hk [H4 _] [H6 _] _ Hp _ He _ _ _ (-> & -> & _)].
  unfold endpointOk, deviceOk in *. cbn [existsb].
  rewrite !hasNewline_false; [done|..]; repeat case_match; tauto.
Qed.

Lemma extra_lines (extra : list (chars * chars)) :
  concat (map (fun '(k, v) => setting k v) extra)
  = concat (map line (map (fun kv => settingText kv.1 kv.2) extra)).
Proof. induction extra as [|[k v] extra IH]; [done|]. cbn [map concat]. by rewrite IH. Qed.

Lemma concat_lines_cons (l : chars) (ls : list chars) :
  concat (map line (l :: ls)) = line l ++ concat (map line ls).
Proof. done. Qed.

Lemma toWgConf_lines (c : InterfaceConfig) (extra : list (chars * chars)) (comment : chars) :
  printable c -> 
  toWgConf c extra comment
  = concat (map line (interfaceLines c extra ++ peerLines c comment)).
Proof.
  intros Hc. unfold toWgConf.
  rewrite printable_newlines by done.
  pose proof (pr_dev c Hc) as Hd. rewrite bool_decide_false by done.
  destruct (pr_rest c Hc) as (G4 & _). pose proof (pr_dns c Hc) as Hdns.
  unfold interfaceLines, peerLines, peerSection, setting.
  rewrite commentLines_texts, endpointLine_texts, extra_lines, G4.
  rewrite !concat_lines_app, !concat_lines_cons. unfold settingText.
  change (concat (map line [])) with (@nil ascii).
  change (line []) with [newline].
  destruct (m_dnsServer c) as [d|]; rewrite ?concat_lines_cons;
    change (concat (map line [])) with (@nil ascii); rewrite ?app_nil_r, <- ?app_assoc;
    [|done].
  assert (QString_eqb (Some d) None = false) as ->; [|done].
  apply bool_decide_false. simpl. apply Hdns.
Qed.

(** What the two sections of the printed file give. *)
Definition withInterface (c r : InterfaceConfig) : InterfaceConfig :=
  r <| m_privateKey := m_privateKey c |>
    <| m_deviceIpv4Address := m_deviceIpv4Address c |>
    <| m_deviceIpv6Address := m_deviceIpv6Address c |>
    <| m_dnsServer := m_dnsServer c |>.

Lemma parseLine_header (idx : Z) (s : chars) (r : InterfaceConfig) :
  parseLine idx (qs "[Interface]") s r = inr (qs "interface", r)
  /\ parseLine idx (qs "[Peer]") s r = inr (qs "peer", r).
Proof. done. Qed.

Lemma forEach_addresses (c r : InterfaceConfig) :
  printable c -> m_deviceIpv4Address r = None -> m_deviceIpv6Address r = None ->
  forEach appendAddress (nonNull [m_deviceIpv4Address c; m_deviceIpv6Address c]) r
  = inr (r <| m_deviceIpv4Address := m_deviceIpv4Address c |>
           <| m_deviceIpv6Address := m_deviceIpv6Address c |>).
Proof.
  intros [_ _ H4 H6 _ _ _ _ _ _ _ _] E4 E6. unfold nonNull.
  destruct (m_deviceIpv4Address c) as [a|], (m_deviceIpv6Address c) as [b|]; simpl;
    rewrite ?appendAddress_v4, ?appendAddress_v6 by done; destruct r; simpl in *; by subst.
Qed.

Lemma dns_steps (c r : InterfaceConfig) :
  printable c -> m_dnsServer r = None ->
  steps (match m_dnsServer c with Some d => [settingText (qs "DNS") d] | None => [] end)
    (qs "interface") r (qs "interface") (r <| m_dnsServer := m_dnsServer c |>).
Proof.
  intros Hc Hr. pose proof (pr_dns c Hc) as Hd. destruct (m_dnsServer c) as [d|].
  - destruct Hd as [Hf Hcomma]. apply steps_setting; [by_decision|done|].
    change (match splitCsv d with
            | [] => inr r
            | first :: _ => inr (r <| m_dnsServer := Some first |>)
            end = inr (A := chars) (r <| m_dnsServer := Some d |>)).
    by rewrite splitCsv_one.
  - assert (r <| m_dnsServer := None |> = r) as ->; [|apply steps_nil].
    destruct r. simpl in *. by subst.
Qed.

Lemma extra_steps (extra : list (chars * chars)) (r : InterfaceConfig) :
  Forall extraOk extra ->
  steps (map (fun kv => settingText kv.1 kv.2) extra) (qs "interface") r (qs "interface") r.
Proof.
  induction 1 as [|[k v] extra (Hk & Hv & Hn) _ IH]; [apply steps_nil|].
  cbn [map fst snd] in *. apply (steps_app [_] _ _ _ (qs "interface") r); [|done].
  apply steps_setting; [done..|]. unfold parseEntry. bd_true.
  rewrite !bool_decide_false; [done|..]; intros E; apply Hn; rewrite E; by_decision.
Qed.

Lemma interface_steps (c : InterfaceConfig) (s : chars) (extra : list (chars * chars)) :
  printable c -> Forall extraOk extra ->
  steps (interfaceLines c extra)
    s (emptyConfig SingleHop)
    (qs "interface") (withInterface c (emptyConfig SingleHop)).
Proof.
  intros Hc Hx.
  eapply steps_cons; [intros; apply parseLine_header|].
  eapply (steps_app [_]); [|eapply (steps_app [_])].
  - apply steps_setting; [by_decision| |done].
    pose proof (pr_key c Hc). by destruct (m_privateKey c).
  - apply steps_setting; [by_decision|by apply addresses_field|].
    change (parseEntry _ _ ?v ?r) with (forEach appendAddress (splitCsv v) r).
    rewrite splitCsv_join by (by apply addresses_item). by apply forEach_addresses.
  - eapply steps_app; [by apply dns_steps|].
    pose proof (pr_key c Hc) as Hk. destruct (m_privateKey c) as [k|] eqn:Ek; [|done].
    unfold withInterface. rewrite Ek. by apply extra_steps.
Qed.

Lemma peer_steps (c r : InterfaceConfig) (s comment : chars) :
  printable c -> m_allowedIPAddressRanges r = [] ->
  steps (peerLines c comment)
    s r (qs "peer")
    ((match m_serverIpv4AddrIn c, m_serverIpv6AddrIn c with
      | Some h, _ => (r <| m_serverPublicKey := m_serverPublicKey c |>)
                       <| m_serverIpv4AddrIn := Some h |>
      | None, Some h => (r <| m_serverPublicKey := m_serverPublicKey c |>)
                          <| m_serverIpv6AddrIn := Some h |>
      | None, None => r <| m_serverPublicKey := m_serverPublicKey c |>
      end <| m_serverPort := m_serverPort c |>)
       <| m_allowedIPAddressRanges := m_allowedIPAddressRanges c |>).
Proof.
  intros Hc Hr.
  eapply steps_app; [|eapply steps_app; [apply steps_comment|
    eapply steps_app; [|eapply steps_app]]].
  - apply (steps_app [_] [_] _ _ s r); [by apply steps_one|].
    apply steps_one. intros idx. apply parseLine_header.
  - apply steps_setting; [by_decision| |done].
    pose proof (pr_pub c Hc). by destruct (m_serverPublicKey c).
  - destruct (endpoint_field c Hc) as (v & Hv & -> & He).
    apply steps_setting; [by_decision|done|]. apply He.
  - apply steps_setting; [by_decision|by apply ranges_field|].
    change (parseEntry _ _ ?v ?r) with (forEach appendAllowedIp (splitCsv v) r).
    rewrite splitCsv_join by (apply ranges_item, Hc). rewrite forEach_ranges by apply Hc.
    pose proof (pr_pub c Hc) as Hp. destruct (m_serverPublicKey c); [|done].
    pose proof (pr_endpoint c Hc) as He. unfold endpointOk in He.
    destruct (m_serverIpv4AddrIn c), (m_serverIpv6AddrIn c); try done;
      destruct r; simpl in Hr; by subst.
Qed.

Lemma endpointTexts_newline (c : InterfaceConfig) :
  printable c -> Forall (fun l => newline ∉ l) (endpointTexts c).
Proof.
  intros Hc. destruct (endpoint_field c Hc) as (v & (_ & _ & Hn & _) & -> & _).
  apply Forall_singleton. apply settingText_newline; [by_decision|done].
Qed.

Lemma commentTexts_newline (comment : chars) :
  Forall (fun l => newline ∉ l) (commentTexts comment).
Proof.
  unfold commentTexts. case_bool_decide; [done|]. apply Forall_forall. intros l Hl.
  apply list_elem_of_fmap in Hl as (x & -> & Hx). intros Hin. simpl in Hin.
  destruct (split_elem newline newline comment x Hx); [|done]. revert Hin.
  unfold newline. rewrite !elem_of_cons. by intros [?|[?|?]].
Qed.

Lemma interfaceLines_newline (c : InterfaceConfig) extra :
  printable c -> Forall extraOk extra ->
  Forall (fun l => newline ∉ l) (interfaceLines c extra).
Proof.
  intros Hc Hx. unfold interfaceLines. rewrite !Forall_app, !Forall_cons, Forall_map.
  pose proof (pr_key c Hc) as Hk. pose proof (pr_dns c Hc) as Hd. split_and!.
  - by_decision.
  - apply settingText_newline; [by_decision|].
    destruct (m_privateKey c); [by apply fieldText_newline|done].
  - apply settingText_newline; [by_decision|].
    by apply fieldText_newline, addresses_field.
  - done.
  - destruct (m_dnsServer c); [|done]. apply Forall_singleton.
    apply settingText_newline; [by_decision|apply fieldText_newline, Hd].
  - eapply Forall_impl; [done|]. intros [k v] ((Hf & _) & Hv & _).
    by apply settingText_newline; apply fieldText_newline.
Qed.

Lemma peerLines_newline (c : InterfaceConfig) comment :
  printable c -> Forall (fun l => newline ∉ l) (peerLines c comment).
Proof.
  intros Hc. unfold peerLines. rewrite !Forall_app, !Forall_cons.
  pose proof (pr_pub c Hc) as Hp. split_and!; try done; try by_decision.
  - apply commentTexts_newline.
  - apply settingText_newline; [by_decision|].
    destruct (m_serverPublicKey c); [by apply fieldText_newline|done].
  - by apply endpointTexts_newline.
  - apply settingText_newline; [by_decision|by apply fieldText_newline, ranges_field].
Qed.

(** The fields of a printable configuration are all there. *)
Lemma isEmpty_field (s : chars) : fieldText s -> isEmpty (Some s) = false.
Proof. intros [Hs _]. by apply bool_decide_false. Qed.

Lemma printable_missing (c : InterfaceConfig) : printable c -> missingField c = None.
Proof.
  intros [_ Hk [H4 _] [H6 _] Hd Hp _ He Hn _ Hs _].
  unfold missingField, endpointOk, deviceOk in *.
  destruct (m_privateKey c) as [k|], (m_serverPublicKey c) as [p|]; try done.
  rewrite (isEmpty_field k), (isEmpty_field p) by done.
  rewrite (bool_decide_false _ Hs). destruct (Z.eqb_spec (m_serverPort c) 0); [lia|].
  assert (isEmpty (m_deviceIpv4Address c) && isEmpty (m_deviceIpv6Address c) = false) as ->.
  { destruct (m_deviceIpv4Address c) as [a|]; [by rewrite (isEmpty_field a) by apply H4|].
    destruct (m_deviceIpv6Address c) as [b|]; [|done].
    by rewrite (isEmpty_field b) by apply H6. }
  destruct (m_serverIpv4AddrIn c) as [h|], (m_serverIpv6AddrIn c) as [h'|]; try done;
    destruct He as [Hf _]; by rewrite (isEmpty_field _ Hf), ?andb_false_r.
Qed.

Lemma parseLine_empty (idx : Z) (s : chars) (r : InterfaceConfig) :
  parseLine idx [] s r = inr (s, r).
Proof. done. Qed.

(** The fields the two sections give are all the fields. *)
Lemma printed_fields (c : InterfaceConfig) :
  printable c ->
  ((match m_serverIpv4AddrIn c, m_serverIpv6AddrIn c with
    | Some h, _ => (withInterface c (emptyConfig SingleHop)
                      <| m_serverPublicKey := m_serverPublicKey c |>)
                     <| m_serverIpv4AddrIn := Some h |>
    | None, Some h => (withInterface c (emptyConfig SingleHop)
                         <| m_serverPublicKey := m_serverPublicKey c |>)
                        <| m_serverIpv6AddrIn := Some h |>
    | None, None => withInterface c (emptyConfig SingleHop)
                      <| m_serverPublicKey := m_serverPublicKey c |>
    end <| m_serverPort := m_serverPort c |>)
     <| m_allowedIPAddressRanges := m_allowedIPAddressRanges c |>) = c.
Proof.
  intros [Hh _ _ _ _ _ _ He _ _ _ (H1 & H2 & H3 & H4 & H5)]. unfold endpointOk in He.
  destruct c as [hop key d4 d6 g4 g6 pub i4 i6 dns ec xc port al apps].
  cbn [m_hopType m_serverIpv4Gateway m_serverIpv6Gateway m_entryCity m_exitCity
    m_vpnDisabledApps m_serverIpv4AddrIn m_serverIpv6AddrIn] in *. subst.
  by destruct i4, i6.
Qed.

(** C19: printing and parsing again gives the configuration back, whatever comment
    and whatever additional interface lines are printed with it. *)
Theorem parse_toWgConf (c : InterfaceConfig) (extra : list (chars * chars))
    (comment : chars) :
  printable c -> Forall extraOk extra -> parse (toWgConf c extra comment) = inr c.
Proof.
  intros Hc Hx. rewrite toWgConf_lines by done. unfold parse.
  rewrite split_lines by (apply Forall_app; split;
    [by apply interfaceLines_newline|by apply peerLines_newline]).
  rewrite <- app_assoc, (interface_steps c [] extra Hc Hx).
  rewrite (peer_steps c _ _ comment Hc) by done.
  cbn [parseLines]. rewrite parseLine_empty. cbn iota beta.
  rewrite printed_fields by done. by rewrite printable_missing.
Qed.

End RoundTrip.

(** ** Examples *)

#[local] Existing Instance modelText.
#[local] Existing Instance modelTextLaws.

Lemma sample_printable : printable sampleConfig.
Proof.
  split; try done; try by_decision.
Qed.

Lemma parse_toWgConf_witness :
  parse (toWgConf sampleConfig [(qs "MTU", qs "1280")] (qs "a comment")) = inr sampleConfig.
Proof.
  apply (parse_toWgConf sampleConfig [(qs "MTU", qs "1280")] (qs "a comment")).
  - apply sample_printable.
  - apply Forall_singleton. split; [|split]; by_decision.
Defined.
