(* ===== verification/WireGuardProfileModel.v ===== *)
(** * The profiles

    Model of [src/src/models/wireguardprofilemodel.cpp] and [.h]: the list of
    stored WireGuard configurations, the active one, the settings they are
    persisted in and the signals the model emits. *)
From Stdlib Require Import ZArith Lia Ascii String.
From stdpp Require Import base numbers list gmap strings.
From S2P Require Import Prelude QHostAddress QString QtTextModel IPAddress Json.
From S2P Require Import InterfaceConfig WireGuardConfig.
Import WireGuardConfig.

Local Open Scope Z_scope.
Local Open Scope wg_scope.

Module WireGuardProfileModel.

Inductive ModelRole : Type := IdRole | ProfileIdRole | NameRole | ActiveRole.

Inductive Signal : Type :=
| RowsInserted (row : nat)
| RowsRemoved (row : nat)
| DataChanged (row : nat) (role : ModelRole)
| ModelReset
| Changed
| LastErrorChanged.

#[export] Instance ModelRole_eq_dec : EqDecision ModelRole.
Proof. solve_decision. Defined.

Record Profile : Type := mkProfile {
  id : chars;
  name : chars;
  configText : chars;
}.

#[export] Instance Profile_eta : Eta Profile := fun p =>
  mkProfile (id p) (name p) (configText p).

#[export] Instance Profile_eq_dec : EqDecision Profile.
Proof. solve_decision. Defined.

(** The settings holder's two entries. *)
Record Settings `{QtJson} : Type := mkSettings {
  wireGuardProfiles : QByteArray;
  activeWireGuardProfileId : chars;
}.

(** The model object, the settings it writes and the signals emitted so far. *)
Record Model `{QtJson} : Type := mkModel {
  m_profiles : list Profile;
  m_activeProfileId : chars;
  m_lastError : chars;
  settings : Settings;
  signals : list Signal;
}.

#[export] Instance Model_eta `{QtJson} : Eta Model := fun m =>
  mkModel _ (m_profiles m) (m_activeProfileId m) (m_lastError m) (settings m) (signals m).

Section Model.
Context `{QtText} `{QtJson}.

(** The translation of a message. *)
Variable tr : chars -> chars.

Definition emit (s : Signal) (m : Model) : Model := m <| signals := signals m ++ [s] |>.

Definition profileIndex (i : chars) (l : list Profile) : option nat :=
  fst <$> list_find (fun p => id p = i) l.

Definition activeProfileName (m : Model) : chars :=
  match profileIndex (m_activeProfileId m) (m_profiles m) with
  | Some k => match m_profiles m !! k with Some p => name p | None => [] end
  | None => []
  end.

Definition hasProfiles (m : Model) : bool := negb (bool_decide (m_profiles m = [])).

Definition setLastError (e : chars) (m : Model) : Model :=
  if bool_decide (m_lastError m = e) then m
  else emit LastErrorChanged (m <| m_lastError := e |>).

Definition profileToJson (p : Profile) : QJsonValue :=
  JObject (insertAll [(qs "id", JString (id p)); (qs "name", JString (name p));
                      (qs "config", JString (configText p))] []).

Definition writeSettings (m : Model) : Model :=
  m <| settings := mkSettings _
         (documentToJson (insertKey (qs "profiles")
            (JArray (map profileToJson (m_profiles m))) []))
         (m_activeProfileId m) |>.

Definition firstId (l : list Profile) : chars :=
  match l with [] => [] | p :: _ => id p end.

(** One turn of the loop of [loadFromSettings]. *)
Definition profileOfJson (v : QJsonValue) : option Profile :=
  let object := toObject v in
  let field k := text (toQString (value k object)) in
  let p := mkProfile (field (qs "id")) (field (qs "name")) (field (qs "config")) in
  if negb (bool_decide (id p = [])) && negb (bool_decide (name p = []))
     && negb (bool_decide (configText p = []))
  then match parse (configText p) with inr _ => Some p | inl _ => None end
  else None.

Definition loadFromSettings (m : Model) : Model :=
  let profiles :=
    match documentFromJson (wireGuardProfiles (settings m)) with
    | Some document => omap profileOfJson (toArray (value (qs "profiles") document))
    | None => []
    end in
  let active := activeWireGuardProfileId (settings m) in
  let active :=
    match profileIndex active profiles with Some _ => active | None => firstId profiles end in
  emit ModelReset (m <| m_profiles := profiles |> <| m_activeProfileId := active |>).

(** The constructor. *)
Definition construct (s : Settings) : Model :=
  loadFromSettings (mkModel _ [] [] [] s []).

Definition nameOrDefault (n : chars) : chars :=
  if bool_decide (trimmed n = []) then tr (qs "WireGuard Profile") else trimmed n.

(** [addProfile]; [uuid] is the identifier [QUuid::createUuid] returns. *)
Definition addProfile (uuid n content : chars) (m : Model) : bool * Model :=
  match parse content with
  | inl e => (false, setLastError e m)
  | inr _ =>
      let p := mkProfile uuid (nameOrDefault n) content in
      let row := length (m_profiles m) in
      let m := emit (RowsInserted row) (m <| m_profiles := m_profiles m ++ [p] |>) in
      let m := if bool_decide (m_activeProfileId m = [])
               then m <| m_activeProfileId := id p |> else m in
      (true, emit Changed (setLastError [] (writeSettings m)))
  end.

(** [addProfileFromFile]: the URL is local or not, the file can be read or not,
    and has a base name. *)
Definition addProfileFromFile (uuid n : chars) (isLocalFile : bool)
    (contents : option chars) (completeBaseName : chars) (m : Model) : bool * Model :=
  if negb isLocalFile
  then (false, setLastError (tr (qs "WireGuard configuration file must be local.")) m)
  else
    match contents with
    | None => (false, setLastError (tr (qs "Unable to open WireGuard configuration file.")) m)
    | Some content =>
        addProfile uuid (if bool_decide (trimmed n = []) then completeBaseName else n) content m
    end.

Definition notFound (m : Model) : bool * Model :=
  (false, setLastError (tr (qs "WireGuard profile not found.")) m).

Definition removeProfile (i : chars) (m : Model) : bool * Model :=
  match profileIndex i (m_profiles m) with
  | None => notFound m
  | Some k =>
      let m := emit (RowsRemoved k) (m <| m_profiles := delete k (m_profiles m) |>) in
      let m := if bool_decide (m_activeProfileId m = i)
               then m <| m_activeProfileId := firstId (m_profiles m) |> else m in
      (true, emit Changed (setLastError [] (writeSettings m)))
  end.

Definition renameProfile (i n : chars) (m : Model) : bool * Model :=
  match profileIndex i (m_profiles m) with
  | None => notFound m
  | Some k =>
      if bool_decide (trimmed n = [])
      then (false, setLastError (tr (qs "WireGuard profile name cannot be empty.")) m)
      else
        let m := m <| m_profiles := alter (fun p => p <| name := trimmed n |>) k (m_profiles m) |> in
        let m := emit (DataChanged k NameRole) m in
        (true, emit Changed (setLastError [] (writeSettings m)))
  end.

Definition selectProfile (i : chars) (m : Model) : bool * Model :=
  match profileIndex i (m_profiles m) with
  | None => notFound m
  | Some next =>
      let previous := profileIndex (m_activeProfileId m) (m_profiles m) in
      let m := m <| m_activeProfileId := i |> in
      let m := match previous with
               | Some k => emit (DataChanged k ActiveRole) m
               | None => m
               end in
      let m := emit (DataChanged next ActiveRole) m in
      (true, emit Changed (setLastError [] (writeSettings m)))
  end.

(** [activeInterfaceConfig]: the configuration or the error. *)
Definition activeInterfaceConfig (m : Model) : chars + InterfaceConfig :=
  match profileIndex (m_activeProfileId m) (m_profiles m) with
  | None => inl (tr (qs "No active WireGuard profile selected."))
  | Some k =>
      match m_profiles m !! k with
      | Some p => parse (configText p)
      | None => inl []
      end
  end.

Definition rowCount (parentValid : bool) (m : Model) : nat :=
  if parentValid then 0%nat else length (m_profiles m).

(** [data]: a text, a boolean, or nothing for an index out of range. *)
Definition data (row : Z) (role : ModelRole) (m : Model) : option (chars + bool) :=
  if (row <? 0) || (Z.of_nat (length (m_profiles m)) <=? row) then None
  else
    p ← m_profiles m !! Z.to_nat row;
    Some match role with
         | IdRole | ProfileIdRole => inl (id p)
         | NameRole => inl (name p)
         | ActiveRole => inr (bool_decide (id p = m_activeProfileId m))
         end.

(** The operations of the interface, with the inputs they read from outside. *)
Inductive Op : Type :=
| AddFromText (uuid n content : chars)
| AddFromFile (uuid n : chars) (isLocalFile : bool) (contents : option chars) (baseName : chars)
| Remove (i : chars)
| Rename (i n : chars)
| Select (i : chars).

Definition run (op : Op) (m : Model) : bool * Model :=
  match op with
  | AddFromText uuid n content => addProfile uuid n content m
  | AddFromFile uuid n isLocal contents base =>
      addProfileFromFile uuid n isLocal contents base m
  | Remove i => removeProfile i m
  | Rename i n => renameProfile i n m
  | Select i => selectProfile i m
  end.

(** The identifier an operation creates. *)
Definition createdId (op : Op) : option chars :=
  match op with
  | AddFromText uuid _ _ | AddFromFile uuid _ _ _ _ => Some uuid
  | _ => None
  end.

(** The objects that exist: constructed from some settings, then operated on with
    fresh, non-empty identifiers. *)
Inductive reachable : Model -> Prop :=
| reach_construct s : reachable (construct s)
| reach_run op m :
    reachable m ->
    (forall u, createdId op = Some u -> u <> [] /\ (u ∉ map id (m_profiles m))) ->
    reachable (run op m).2.

End Model.

(** ** The invariant *)

Section Invariant.
Context `{QtText} `{QtJson}.
Variable tr : chars -> chars.
Hypothesis tr_nonempty : forall s, s <> [] -> tr s <> [].

(** A profile as [loadFromSettings] accepts it. *)
Definition storable (p : Profile) : Prop :=
  id p <> [] /\ name p <> [] /\ exists c, parse (configText p) = inr c.

(** The active identifier is that of a profile, and empty if there is none. *)
Definition activeOk (l : list Profile) (a : chars) : Prop :=
  match l with [] => a = [] | _ => a ∈ map id l end.

Definition inv (m : Model) : Prop :=
  Forall storable (m_profiles m) /\ activeOk (m_profiles m) (m_activeProfileId m).

Lemma profileIndex_some (i : chars) (l : list Profile) (k : nat) :
  profileIndex i l = Some k -> exists p, l !! k = Some p /\ id p = i.
Proof.
  unfold profileIndex. destruct (list_find _ l) as [[j p]|] eqn:E; simpl; [|done].
  intros [= <-]. apply list_find_Some in E as (Hl & Hp & _). eauto.
Qed.

Lemma profileIndex_none (i : chars) (l : list Profile) :
  profileIndex i l = None <-> i ∉ map id l.
Proof.
  unfold profileIndex. destruct (list_find _ l) as [[j p]|] eqn:E; simpl.
  - apply list_find_Some in E as (Hl & Hp & _). split; [done|]. intros Hn. destruct Hn.
    apply list_elem_of_fmap. exists p. split; [done|]. by eapply list_elem_of_lookup_2.
  - apply list_find_None in E. split; [|done]. intros _ Hin.
    apply list_elem_of_fmap in Hin as (p & -> & Hp). by rewrite Forall_forall in E; eapply E.
Qed.

Lemma activeOk_first (l : list Profile) : activeOk l (firstId l).
Proof. destruct l; [done|]. simpl. left. Qed.

Lemma activeOk_cases (l : list Profile) (a : chars) :
  activeOk l (match profileIndex a l with Some _ => a | None => firstId l end).
Proof.
  destruct (profileIndex a l) as [k|] eqn:E; [|apply activeOk_first].
  apply profileIndex_some in E as (p & Hl & <-). destruct l as [|q l]; [done|].
  unfold activeOk. apply list_elem_of_fmap. exists p. split; [done|].
  by eapply list_elem_of_lookup_2.
Qed.

Lemma profileOfJson_storable (v : QJsonValue) (p : Profile) :
  profileOfJson v = Some p -> storable p.
Proof.
  unfold profileOfJson. destruct (negb _ && _ && _) eqn:Eb; [|done].
  destruct (parse _) as [e|c] eqn:E; [done|]. intros [= <-].
  zbool. split_and!; [done..|]. by exists c.
Qed.

Lemma construct_inv (s : Settings) : inv (construct s).
Proof.
  split; simpl; [|apply activeOk_cases].
  destruct (documentFromJson _) as [d|]; [|done]. apply Forall_forall. intros p Hp.
  apply list_elem_of_omap in Hp as (v & _ & Hv). by eapply profileOfJson_storable.
Qed.

(** What each helper leaves alone. *)
Lemma setLastError_fields (e : chars) (m : Model) :
  m_profiles (setLastError e m) = m_profiles m
  /\ m_activeProfileId (setLastError e m) = m_activeProfileId m
  /\ settings (setLastError e m) = settings m
  /\ m_lastError (setLastError e m) = e.
Proof. unfold setLastError. by case_bool_decide. Qed.

Definition stored (l : list Profile) (a : chars) : Settings :=
  mkSettings _ (documentToJson (insertKey (qs "profiles") (JArray (map profileToJson l)) [])) a.

(** The end of an operation that succeeds. *)
Lemma finish_fields (m : Model) :
  let m' := emit Changed (setLastError [] (writeSettings m)) in
  m_profiles m' = m_profiles m /\ m_activeProfileId m' = m_activeProfileId m
  /\ settings m' = stored (m_profiles m) (m_activeProfileId m)
  /\ m_lastError m' = [] /\ last (signals m') = Some Changed.
Proof.
  pose proof (setLastError_fields [] (writeSettings m)) as (H1 & H2 & H3 & H4).
  simpl. rewrite H1, H2, H3, H4. split_and!; try done. apply last_snoc.
Qed.

(** What a successful operation makes of the profiles and of the active one. *)
Definition effect (op : Op) (l : list Profile) (a : chars) : option (list Profile * chars) :=
  match op with
  | AddFromText uuid n content =>
      match parse content with
      | inl _ => None
      | inr _ => Some (l ++ [mkProfile uuid (nameOrDefault tr n) content],
                       if bool_decide (a = []) then uuid else a)
      end
  | AddFromFile uuid n isLocal contents base =>
      if isLocal then
        content ← contents;
        match parse content with
        | inl _ => None
        | inr _ =>
            Some (l ++ [mkProfile uuid (nameOrDefault tr (if bool_decide (trimmed n = [])
                                                           then base else n)) content],
                  if bool_decide (a = []) then uuid else a)
        end
      else None
  | Remove i =>
      k ← profileIndex i l;
      Some (delete k l, if bool_decide (a = i) then firstId (delete k l) else a)
  | Rename i n =>
      k ← profileIndex i l;
      if bool_decide (trimmed n = []) then None
      else Some (alter (fun p => p <| name := trimmed n |>) k l, a)
  | Select i => _ ← profileIndex i l; Some (l, i)
  end.

Definition failedWith (m m' : Model) : Prop :=
  m_profiles m' = m_profiles m /\ m_activeProfileId m' = m_activeProfileId m
  /\ settings m' = settings m /\ m_lastError m' <> [].

Definition succeededWith (l : list Profile) (a : chars) (m' : Model) : Prop :=
  m_profiles m' = l /\ m_activeProfileId m' = a /\ settings m' = stored l a
  /\ m_lastError m' = [] /\ last (signals m') = Some Changed.

Lemma failed (e : chars) (m : Model) : e <> [] -> failedWith m (setLastError e m).
Proof.
  intros He. destruct (setLastError_fields e m) as (H1 & H2 & H3 & H4).
  by split_and!; rewrite ?H4.
Qed.

Lemma finished (m : Model) (l : list Profile) (a : chars) :
  m_profiles m = l -> m_activeProfileId m = a ->
  succeededWith l a (emit Changed (setLastError [] (writeSettings m))).
Proof. intros <- <-. apply finish_fields. Qed.

Definition outcome (op : Op) (m : Model) (r : bool * Model) : Prop :=
  match effect op (m_profiles m) (m_activeProfileId m) with
  | Some (l, a) => r.1 = true /\ succeededWith l a r.2
  | None => r.1 = false /\ failedWith m r.2
  end.

Lemma addProfile_effect (uuid n content : chars) (m : Model) :
  outcome (AddFromText uuid n content) m (addProfile tr uuid n content m).
Proof.
  unfold outcome, addProfile. simpl. destruct (parse content) as [e|c] eqn:E; simpl.
  - split; [done|]. apply failed. by eapply parse_error.
  - split; [done|]. by apply finished; case_bool_decide.
Qed.

Lemma run_effect (op : Op) (m : Model) : outcome op m (run tr op m).
Proof.
  assert (Hnf : forall i, profileIndex i (m_profiles m) = None ->
    (notFound tr m).1 = false /\ failedWith m (notFound tr m).2).
  { intros i Hi. split; [done|]. apply failed, tr_nonempty. done. }
  destruct op as [uuid n content|uuid n isLocal contents base|i|i n|i]; simpl.
  - apply addProfile_effect.
  - unfold outcome, addProfileFromFile. simpl. destruct isLocal; simpl.
    + destruct contents as [content|]; simpl; [apply addProfile_effect|].
      split; [done|]. by apply failed, tr_nonempty.
    + split; [done|]. by apply failed, tr_nonempty.
  - unfold outcome, removeProfile. simpl.
    destruct (profileIndex i (m_profiles m)) as [k|] eqn:E; simpl; [|by eapply Hnf].
    split; [done|]. by apply finished; case_bool_decide.
  - unfold outcome, renameProfile. simpl.
    destruct (profileIndex i (m_profiles m)) as [k|] eqn:E; simpl; [|by eapply Hnf].
    case_bool_decide; simpl; split; try done; [by apply failed, tr_nonempty|].
    by apply finished.
  - unfold outcome, selectProfile. simpl.
    destruct (profileIndex i (m_profiles m)) as [k|] eqn:E; simpl; [|by eapply Hnf].
    split; [done|]. by apply finished; case_match.
Qed.

Definition freshFor (op : Op) (m : Model) : Prop :=
  forall u, createdId op = Some u -> u <> [] /\ (u ∉ map id (m_profiles m)).

Lemma nameOrDefault_nonempty (n : chars) : nameOrDefault tr n <> [].
Proof. unfold nameOrDefault. case_bool_decide; [by apply tr_nonempty|done]. Qed.

Lemma activeOk_id (l : list Profile) (a : chars) : a ∈ map id l -> activeOk l a.
Proof. destruct l; [by intros ?%elem_of_nil|done]. Qed.

Lemma activeOk_app (l : list Profile) (p : Profile) (a : chars) :
  Forall storable l -> activeOk l a ->
  activeOk (l ++ [p]) (if bool_decide (a = []) then id p else a).
Proof.
  intros Hl Ha. apply activeOk_id. rewrite map_app, elem_of_app. simpl.
  destruct l as [|q l]; simpl in *.
  - subst. bd_true. right. left.
  - rewrite bool_decide_false; [by left|]. intros ->.
    change (([] : chars) ∈ map id (q :: l)) in Ha.
    apply list_elem_of_fmap in Ha as (r & E & Hr). rewrite Forall_forall in Hl.
    destruct (Hl r Hr) as [Hne _]. by rewrite <- E in Hne.
Qed.

Lemma activeOk_delete (l : list Profile) (k : nat) (i a : chars) :
  profileIndex i l = Some k -> activeOk l a ->
  activeOk (delete k l) (if bool_decide (a = i) then firstId (delete k l) else a).
Proof.
  intros Hk Ha. case_bool_decide as Hi; [apply activeOk_first|].
  apply profileIndex_some in Hk as (p & Hp & <-).
  destruct l as [|q l]; [done|]. unfold activeOk in Ha.
  apply activeOk_id. apply list_elem_of_fmap in Ha as (r & -> & Hr).
  apply list_elem_of_fmap. exists r. split; [done|].
  apply list_elem_of_lookup_1 in Hr as [j Hj].
  destruct (decide (j = k)) as [->|Hjk]; [congruence|].
  destruct (decide (j < k)%nat).
  - apply (list_elem_of_lookup_2 _ j). by rewrite list_lookup_delete_lt by lia.
  - apply (list_elem_of_lookup_2 _ (pred j)). rewrite list_lookup_delete_ge by lia.
    by replace (S (pred j)) with j by lia.
Qed.

Lemma map_id_alter (l : list Profile) (k : nat) (n : chars) :
  map id (alter (fun p => p <| name := n |>) k l) = map id l.
Proof.
  revert k. induction l as [|p l IH]; intros [|k]; try done.
  change (id p :: map id (alter (fun p => p <| name := n |>) k l) = id p :: map id l).
  by rewrite IH.
Qed.

Lemma effect_inv (op : Op) (m : Model) (l : list Profile) (a : chars) :
  inv m -> freshFor op m ->
  effect op (m_profiles m) (m_activeProfileId m) = Some (l, a) ->
  Forall storable l /\ activeOk l a.
Proof.
  intros [Hl Ha] Hf.
  assert (Hadd : forall u n content c, parse content = inr c -> u <> [] ->
    let p := mkProfile u (nameOrDefault tr n) content in
    Forall storable (m_profiles m ++ [p])
    /\ activeOk (m_profiles m ++ [p])
         (if bool_decide (m_activeProfileId m = []) then u else m_activeProfileId m)).
  { intros u n content c Hc Hu p. split; [|by apply (activeOk_app _ p)].
    apply Forall_app. split; [done|]. apply Forall_singleton.
    split_and!; [done|apply nameOrDefault_nonempty|by exists c]. }
  destruct op as [u n content|u n isLocal contents base|i|i n|i]; simpl.
  - destruct (parse content) as [e|c] eqn:E; [done|]. intros [= <- <-].
    destruct (Hf u eq_refl) as [Hu _]. by eapply Hadd.
  - destruct isLocal; [|done]. destruct contents as [content|]; simpl; [|done].
    destruct (parse content) as [e|c] eqn:E; [done|]. intros [= <- <-].
    destruct (Hf u eq_refl) as [Hu _]. by eapply Hadd.
  - destruct (profileIndex i _) as [k|] eqn:E; simpl; [|done]. intros [= <- <-].
    split; [by apply Forall_delete|by apply activeOk_delete].
  - destruct (profileIndex i _) as [k|] eqn:E; simpl; [|done].
    destruct (bool_decide (trimmed n = [])) eqn:Hn; [done|]. intros [= <- <-]. zbool. split.
    + apply Forall_alter; [done|]. intros p _ (H1 & _ & H3). by split_and!.
    + destruct (m_profiles m) as [|q l']; [done|]. apply activeOk_id.
      by rewrite map_id_alter.
  - destruct (profileIndex i _) as [k|] eqn:E; simpl; [|done]. intros [= <- <-].
    split; [done|]. apply activeOk_id, dec_stable. intros Hn.
    apply profileIndex_none in Hn. congruence.
Qed.

Lemma run_inv (op : Op) (m : Model) : inv m -> freshFor op m -> inv (run tr op m).2.
Proof.
  intros Hi Hf. pose proof (run_effect op m) as Ho. unfold outcome in Ho.
  destruct (effect op _ _) as [[l a]|] eqn:E.
  - destruct Ho as (_ & Hl & Ha & _). unfold inv. rewrite Hl, Ha. by eapply effect_inv.
  - destruct Ho as (_ & Hl & Ha & _). unfold inv. rewrite Hl, Ha. apply Hi.
Qed.

Lemma inv_active (m : Model) :
  inv m -> m_profiles m <> [] -> exists c, activeInterfaceConfig tr m = inr c.
Proof.
  intros [Hl Ha] Hne. unfold activeInterfaceConfig.
  destruct (profileIndex _ _) as [k|] eqn:E.
  - apply profileIndex_some in E as (p & Hp & _). rewrite Hp.
    rewrite Forall_lookup in Hl. by destruct (Hl k p Hp) as (_ & _ & ?).
  - apply profileIndex_none in E. by destruct (m_profiles m).
Qed.

Lemma reachable_inv (m : Model) : reachable tr m -> inv m.
Proof. induction 1; [apply construct_inv|by apply run_inv]. Qed.

(** In every state the application can reach, from whatever the settings hold,
    each stored profile parses and has an identifier and a name, and the active
    identifier is that of a stored profile; so activating the tunnel finds a
    configuration as soon as there is a profile. *)
Theorem reachable_active (m : Model) :
  reachable tr m ->
  inv m /\ (hasProfiles m = true -> exists c, activeInterfaceConfig tr m = inr c).
Proof.
  intros Hr%reachable_inv. split; [done|]. intros Hp. apply inv_active; [done|].
  unfold hasProfiles in Hp. by zbool.
Qed.

End Invariant.

(** ** Persistence *)

Section Persistence.
Context `{QtText} `{QtJsonLaws}.
Variable tr : chars -> chars.
Hypothesis tr_nonempty : forall s, s <> [] -> tr s <> [].

Lemma profileOfJson_toJson (p : Profile) (v : QJsonValue) :
  storable p -> profileToJson p ≡ v -> profileOfJson v = Some p.
Proof.
  intros (Hi & Hn & c & Hc) Hv. unfold profileOfJson.
  assert (forall k, toQString (value k (toObject v))
    = toQString (value k (toObject (profileToJson p)))) as Hk.
  { intros k. by rewrite Hv. }
  rewrite !Hk. cbn [profileToJson toObject].
  change (value (qs "id") _) with (JString (id p)).
  change (value (qs "name") _) with (JString (name p)).
  change (value (qs "config") _) with (JString (configText p)).
  cbn [toQString text default id name configText]. unfold Datatypes.id.
  rewrite (bool_decide_false _ Hi), (bool_decide_false _ Hn), Hc.
  assert (configText p <> []) as Hne.
  { intros E. rewrite E in Hc. by vm_compute in Hc. }
  rewrite (bool_decide_false _ Hne). by destruct p.
Qed.

Lemma profiles_roundtrip (l : list Profile) (vs : list QJsonValue) :
  Forall storable l -> Forall2 (≡) (map profileToJson l) vs -> omap profileOfJson vs = l.
Proof.
  intros Hl. revert vs. induction Hl as [|p l Hp _ IH]; intros vs Hvs; inversion Hvs; subst.
  { done. }
  simpl. rewrite (profileOfJson_toJson p) by done. f_equal. by apply IH.
Qed.

Lemma stored_exact (l : list Profile) :
  exactJson (JObject (insertKey (qs "profiles") (JArray (map profileToJson l)) [])) = true.
Proof. simpl. rewrite andb_true_r. induction l as [|p l IH]; [done|]. exact IH. Qed.

Lemma construct_stored (l : list Profile) (a : chars) :
  Forall storable l -> activeOk l a ->
  m_profiles (construct (stored l a)) = l /\ m_activeProfileId (construct (stored l a)) = a.
Proof.
  intros Hl Ha. destruct (documentFromJson_toJson _ (stored_exact l)) as (o' & E' & Ho).
  simpl in E' |- *. rewrite E'.
  pose proof (toArray_same _ _ (Ho (qs "profiles"))) as Hv. cbn [value] in Hv.
  rewrite (profiles_roundtrip l) by done. split; [done|].
  destruct (profileIndex a l) as [k|] eqn:E; [done|].
  apply profileIndex_none in E. destruct l as [|p l]; [by rewrite Ha|].
  by unfold activeOk in Ha.
Qed.

(** What a successful operation writes to the settings is what a new model
    reads: the same profiles in the same order, and the same active one. *)
Theorem restart_roundtrip (op : Op) (m m' : Model) :
  reachable tr m -> freshFor op m -> run tr op m = (true, m') ->
  m_profiles (construct (settings m')) = m_profiles m'
  /\ m_activeProfileId (construct (settings m')) = m_activeProfileId m'.
Proof.
  intros Hr%reachable_inv Hf Hrun; [|done].
  pose proof (run_effect tr tr_nonempty op m) as Ho. unfold outcome in Ho.
  rewrite Hrun in Ho. destruct (effect tr op _ _) as [[l a]|] eqn:E; [|by destruct Ho].
  destruct Ho as (_ & Hl & Ha & Hs & _). cbn [snd] in *. rewrite Hl, Ha, Hs.
  destruct (effect_inv tr tr_nonempty op m l a) as [Hst Hact]; [done..|].
  by apply construct_stored.
Qed.

End Persistence.

(** ** The abstract view: a set of profiles with unique identifiers *)

Section Abstract.
Context `{QtText} `{QtJson}.
Variable tr : chars -> chars.
Hypothesis tr_nonempty : forall s, s <> [] -> tr s <> [].

(** What the operations mean on the profiles, without positions. *)
Definition spec (op : Op) (l : list Profile) (a : chars) : option (list Profile * chars) :=
  match op with
  | AddFromText _ _ _ | AddFromFile _ _ _ _ _ => effect tr op l a
  | Remove i =>
      if bool_decide (i ∈ map id l) then
        let l' := filter (fun p => id p <> i) l in
        Some (l', if bool_decide (a = i) then firstId l' else a)
      else None
  | Rename i n =>
      if bool_decide (i ∈ map id l) && negb (bool_decide (trimmed n = [])) then
        Some (map (fun p => if bool_decide (id p = i) then p <| name := trimmed n |> else p) l, a)
      else None
  | Select i => if bool_decide (i ∈ map id l) then Some (l, i) else None
  end.

Lemma delete_filter (i : chars) (l : list Profile) (k : nat) :
  NoDup (map id l) -> profileIndex i l = Some k ->
  delete k l = filter (fun p => id p <> i) l.
Proof.
  intros Hd Hk. apply profileIndex_some in Hk as (p & Hp & <-).
  revert k Hd Hp. induction l as [|q l IH]; intros k Hd Hp; [done|].
  inversion Hd as [|? ? Hq Hl]; subst. destruct k as [|k]; simpl in Hp.
  - injection Hp as ->. rewrite filter_cons_False by tauto.
    change (delete 0%nat (p :: l)) with l. symmetry. apply filter_all.
    intros r Hr E. apply Hq. rewrite <- E. by apply list_elem_of_fmap_2.
  - rewrite filter_cons_True.
    + change (delete (S k) (q :: l)) with (q :: delete k l). f_equal. by apply IH.
    + intros E. apply Hq. rewrite E. apply list_elem_of_fmap_2.
      by eapply list_elem_of_lookup_2.
Qed.

Lemma alter_map (i : chars) (f : Profile -> Profile) (l : list Profile) (k : nat) :
  NoDup (map id l) -> profileIndex i l = Some k ->
  alter f k l = map (fun p => if bool_decide (id p = i) then f p else p) l.
Proof.
  intros Hd Hk. apply profileIndex_some in Hk as (p & Hp & <-).
  revert k Hd Hp. induction l as [|q l IH]; intros k Hd Hp; [done|].
  inversion Hd as [|? ? Hq Hl]; subst. destruct k as [|k]; simpl in Hp.
  - injection Hp as ->. simpl. bd_true. f_equal.
    rewrite <- (map_id l) at 1. apply map_ext_in. intros r Hr.
    rewrite bool_decide_false; [done|]. intros E. apply Hq. rewrite <- E.
    apply list_elem_of_fmap_2. by apply list_elem_of_In.
  - simpl. rewrite bool_decide_false.
    + f_equal. by apply IH.
    + intros E. apply Hq. rewrite E. apply list_elem_of_fmap_2.
      by eapply list_elem_of_lookup_2.
Qed.

Lemma profileIndex_in (i : chars) (l : list Profile) (k : nat) :
  profileIndex i l = Some k -> i ∈ map id l.
Proof.
  intros (p & Hp & <-)%profileIndex_some. apply list_elem_of_fmap_2.
  by eapply list_elem_of_lookup_2.
Qed.

Lemma effect_spec (op : Op) (l : list Profile) (a : chars) :
  NoDup (map id l) -> effect tr op l a = spec op l a.
Proof.
  intros Hd. destruct op as [| |i|i n|i]; simpl; try done;
    (destruct (profileIndex i l) as [k|] eqn:E; simpl;
     [rewrite (bool_decide_true (i ∈ map id l)) by (by eapply profileIndex_in)
     |rewrite (bool_decide_false (i ∈ map id l)) by (by apply profileIndex_none)]); try done.
  - by rewrite (delete_filter i).
  - destruct (bool_decide (trimmed n = [])); [done|]. simpl. by erewrite alter_map.
Qed.

Lemma spec_ids (op : Op) (m : Model) (l : list Profile) (a : chars) :
  NoDup (map id (m_profiles m)) -> freshFor op m ->
  spec op (m_profiles m) (m_activeProfileId m) = Some (l, a) -> NoDup (map id l).
Proof.
  intros Hd Hf.
  assert (Hadd : forall u n content, (u ∉ map id (m_profiles m)) ->
    NoDup (map id (m_profiles m ++ [mkProfile u n content]))).
  { intros u n content Hu. rewrite map_app. apply NoDup_app. split_and!; [done| |].
    - intros x Hx Hin. simpl in Hin. apply list_elem_of_singleton in Hin as ->. done.
    - apply NoDup_singleton. }
  destruct op as [u n content|u n isLocal contents base|i|i n|i]; simpl.
  - destruct (parse content); [done|]. intros [= <- <-]. apply Hadd.
    by destruct (Hf u eq_refl).
  - destruct isLocal; [|done]. destruct contents; simpl; [|done].
    destruct (parse _); [done|]. intros [= <- <-]. apply Hadd. by destruct (Hf u eq_refl).
  - destruct (bool_decide _); [|done]. intros [= <- <-].
    by apply NoDup_map_filter.
  - destruct (_ && _); [|done]. intros [= <- <-]. rewrite map_map.
    erewrite map_ext; [exact Hd|]. intros p. simpl. by case_bool_decide.
  - destruct (bool_decide _); [|done]. by intros [= <- <-].
Qed.

(** C20: each operation implements its abstract meaning: where that is defined the
    operation succeeds, has exactly this effect, persists it, clears the error
    and ends with the changed signal; otherwise it fails with an error and
    touches neither the profiles nor the settings. Identifiers stay unique. *)
Theorem run_refines (op : Op) (m : Model) :
  NoDup (map id (m_profiles m)) -> freshFor op m ->
  NoDup (map id (m_profiles (run tr op m).2))
  /\ match spec op (m_profiles m) (m_activeProfileId m) with
     | Some (l, a) => (run tr op m).1 = true /\ succeededWith l a (run tr op m).2
     | None => (run tr op m).1 = false /\ failedWith m (run tr op m).2
     end.
Proof.
  intros Hd Hf. pose proof (run_effect tr tr_nonempty op m) as Ho. unfold outcome in Ho.
  rewrite effect_spec in Ho by done. split; [|exact Ho].
  destruct (spec op _ _) as [[l a]|] eqn:E.
  - destruct Ho as (_ & -> & _). by eapply spec_ids.
  - by destruct Ho as (_ & -> & _).
Qed.

End Abstract.

(** ** Examples *)

#[local] Existing Instance modelText.
#[local] Existing Instance modelJson.
#[local] Existing Instance modelJsonLaws.

Definition emptySettings : Settings := mkSettings modelJson None [].

Definition sampleOp : Op := AddFromText (qs "id-1") (qs "home") sampleText.

Lemma sample_fresh : freshFor sampleOp (construct emptySettings).
Proof. intros u [= <-]. split; [done|by apply not_elem_of_nil]. Qed.

Lemma tr_id_nonempty : forall s : chars, s <> [] -> (fun s : chars => s) s <> [].
Proof. done. Qed.

Lemma reachable_active_witness :
  exists c, activeInterfaceConfig (fun s => s)
    (run (fun s => s) sampleOp (construct emptySettings)).2 = inr c.
Proof.
  apply (reachable_active (fun s => s) tr_id_nonempty).
  - apply reach_run; [apply reach_construct|apply sample_fresh].
  - by vm_compute.
Defined.

Lemma restart_roundtrip_witness :
  m_profiles (construct (settings
    (run (fun s => s) sampleOp (construct emptySettings)).2))
  = [mkProfile (qs "id-1") (qs "home") sampleText].
Proof.
  pose proof (restart_roundtrip (fun s => s) tr_id_nonempty sampleOp (construct emptySettings)
    (run (fun s => s) sampleOp (construct emptySettings)).2
    (reach_construct _ _) sample_fresh) as Hr.
  destruct Hr as [-> _]; vm_compute; reflexivity.
Defined.

Lemma run_refines_witness :
  (run (fun s => s) sampleOp (construct emptySettings)).1 = true.
Proof.
  destruct (run_refines (fun s => s) tr_id_nonempty sampleOp (construct emptySettings))
    as [_ Ho]; [by apply NoDup_nil|apply sample_fresh|].
  vm_compute in Ho |- *. apply Ho.
Defined.

End WireGuardProfileModel.
