(* ===== verification/DaemonModel.v ===== *)
(** * The daemon

    Model of [src/src/daemon/daemon.cpp] and [.h], over the interfaces of
    [wireguardutils.h], [dnsutils.h] and [iputils.h]. The privileged backend is
    code of the platforms: its answers are an arbitrary function of the calls it
    has received, and the calls are recorded, so that a theorem about the daemon
    holds for every backend and can speak of the order of the calls. *)
From Stdlib Require Import ZArith Lia Ascii String.
From stdpp Require Import base numbers list gmap strings sorting.
From S2P Require Import Prelude QHostAddress QString QtTextModel IPAddress Rfc Json.
From S2P Require Import InterfaceConfig.
Import IPAddress.

Local Open Scope Z_scope.
Local Open Scope wg_scope.

Module Daemon.

Inductive Op : Type := Up | Down | Switch.

#[export] Instance Op_eq_dec : EqDecision Op.
Proof. solve_decision. Defined.

(** ** The backend interface *)

Inductive Call : Type :=
| InterfaceExists
| AddInterface (c : InterfaceConfig)
| DeleteInterface
| UpdatePeer (c : InterfaceConfig)
| DeletePeer (c : InterfaceConfig)
| GetPeerStatus
| UpdateRoutePrefix (ip : IPAddress)
| DeleteRoutePrefix (ip : IPAddress)
| ExcludeLocalNetworks (l : list IPAddress)
| AddInterfaceIPs (c : InterfaceConfig)
| SetMTUAndUp (c : InterfaceConfig)
| UpdateResolvers (ifname : chars) (resolvers : list QHostAddress)
| RestoreResolvers
| Run (op : Op) (c : InterfaceConfig).

#[export] Instance Call_eq_dec : EqDecision Call.
Proof. solve_decision. Defined.

Record PeerStatus : Type := mkPeerStatus {
  m_pubkey : QString;
  m_handshake : Z;
  m_rxBytes : Z;
  m_txBytes : Z;
}.

(** A platform: what each call answers after the calls before it, the peers it
    reports, its interface name, its features and whether it has an [IPUtils]. *)
Class Backend : Type := {
  answer : list Call -> Call -> bool;
  peerStatus : list Call -> list PeerStatus;
  interfaceName : chars;
  getFeatures : list chars;
  hasIPUtils : bool;
}.

(** ** The state *)

(** [m_date] is [None] where the [QDateTime] is not valid. *)
Record ConnectionState : Type := mkConnectionState {
  m_date : option Z;
  m_config : InterfaceConfig;
}.

#[export] Instance ConnectionState_eta : Eta ConnectionState := fun s =>
  mkConnectionState (m_date s) (m_config s).

(** [QMap<HopType, ConnectionState>]: a map whose iteration follows the order of
    the enumeration. *)
Record Connections : Type := mkConnections {
  singleHop : option ConnectionState;
  multiHopEntry : option ConnectionState;
  multiHopExit : option ConnectionState;
}.

Definition lookupHop (h : HopType) (m : Connections) : option ConnectionState :=
  match h with
  | SingleHop => singleHop m
  | MultiHopEntry => multiHopEntry m
  | MultiHopExit => multiHopExit m
  end.

Definition insertHop (h : HopType) (s : ConnectionState) (m : Connections) : Connections :=
  match h with
  | SingleHop => mkConnections (Some s) (multiHopEntry m) (multiHopExit m)
  | MultiHopEntry => mkConnections (singleHop m) (Some s) (multiHopExit m)
  | MultiHopExit => mkConnections (singleHop m) (multiHopEntry m) (Some s)
  end.

Definition noConnections : Connections := mkConnections None None None.

Definition connectionList (m : Connections) : list ConnectionState :=
  omap id [singleHop m; multiHopEntry m; multiHopExit m].

Inductive Signal : Type :=
| Connected (pubkey : QString)
| ActivationFailure
| Disconnected
| BackendFailure.

#[export] Instance Signal_eq_dec : EqDecision Signal.
Proof. solve_decision. Defined.

(** The daemon object, with the calls it has made and the signals it has
    emitted. [m_handshakeTimer] says whether the poll timer is running. *)
Record Daemon : Type := mkDaemon {
  m_connections : Connections;
  m_handshakeTimer : bool;
  trace : list Call;
  signals : list Signal;
}.

#[export] Instance Daemon_eta : Eta Daemon := fun d =>
  mkDaemon (m_connections d) (m_handshakeTimer d) (trace d) (signals d).

Definition initial : Daemon := mkDaemon noConnections false [] [].

(** ** Computations *)

Definition M (A : Type) : Type := Daemon -> A * Daemon.

Definition ret {A : Type} (a : A) : M A := fun d => (a, d).
Definition bind {A B : Type} (m : M A) (k : A -> M B) : M B :=
  fun d => let '(a, d) := m d in k a d.

Notation "x <- m ;; k" := (bind m (fun x => k))
  (at level 100, m at next level, right associativity) : wg_scope.

(** [if (!m) return false;] *)
Notation "m &? k" := (bind m (fun ok : bool => if ok then k else ret false))
  (at level 100, k at level 200, right associativity) : wg_scope.

Definition modify (f : Daemon -> Daemon) : M unit := fun d => (tt, f d).
Definition gets {A : Type} (f : Daemon -> A) : M A := fun d => (f d, d).
Definition emit (s : Signal) : M unit := modify (fun d => d <| signals := signals d ++ [s] |>).

(** A scope guard that emits [activationFailure] unless the call succeeds. *)
Definition failureGuard (m : M bool) : M bool :=
  b <- m ;; if b then ret true else (_ <- emit ActivationFailure ;; ret false).

Section Operations.
Context `{QtText} `{Backend}.

Definition call (c : Call) : M bool := fun d =>
  (answer (trace d) c, d <| trace := trace d ++ [c] |>).

Definition getPeerStatus : M (list PeerStatus) := fun d =>
  (peerStatus (trace d), d <| trace := trace d ++ [GetPeerStatus] |>).

(** A loop of calls that stops at the first that fails. *)
Fixpoint callAll (l : list Call) : M bool :=
  match l with
  | [] => ret true
  | c :: r => call c &? callAll r
  end.

(** A loop of calls whose answers are ignored. *)
Fixpoint callEach (l : list Call) : M unit :=
  match l with
  | [] => ret tt
  | c :: r => _ <- call c ;; callEach r
  end.

Definition resolversOf (config : InterfaceConfig) : list QHostAddress :=
  [hostOfString (text (m_dnsServer config))]
  ++ (if QString_eqb (m_dnsServer config) (m_serverIpv4Gateway config)
      then [hostOfString (text (m_serverIpv6Gateway config))] else []).

Definition maybeUpdateResolvers (config : InterfaceConfig) : M bool :=
  if isExitHop (m_hopType config)
  then call (UpdateResolvers interfaceName (resolversOf config)) &? ret true
  else ret true.

(** [m_connections[config.m_hopType] = ConnectionState(config)]. *)
Definition setConnection (config : InterfaceConfig) : M unit :=
  modify (fun d => d <| m_connections :=
    insertHop (m_hopType config) (mkConnectionState None config) (m_connections d) |>).

Definition startHandshakeTimer : M unit := modify (fun d => d <| m_handshakeTimer := true |>).

(** The end of a successful activation. *)
Definition registerConnection (config : InterfaceConfig) : M bool :=
  _ <- setConnection config ;; _ <- startHandshakeTimer ;; ret true.

Definition supportServerSwitching (config : InterfaceConfig) (d : Daemon) : bool :=
  match lookupHop (m_hopType config) (m_connections d) with
  | None => false
  | Some s =>
      let current := m_config s in
      QString_eqb (m_privateKey current) (m_privateKey config)
      && QString_eqb (m_deviceIpv4Address current) (m_deviceIpv4Address config)
      && QString_eqb (m_deviceIpv6Address current) (m_deviceIpv6Address config)
      && QString_eqb (m_serverIpv4Gateway current) (m_serverIpv4Gateway config)
      && QString_eqb (m_serverIpv6Gateway current) (m_serverIpv6Gateway config)
  end.

(** [switchServer]; [lastConfig] is the value of the map for the hop. *)
Definition switchServer (config : InterfaceConfig) : M bool :=
  state <- gets (fun d => lookupHop (m_hopType config) (m_connections d)) ;;
  let lastConfig := default (emptyConfig SingleHop) (m_config <$> state) in
  call (UpdatePeer config) &?
  (_ <- callAll (map UpdateRoutePrefix (m_allowedIPAddressRanges config)) ;;
   _ <- callEach (map DeleteRoutePrefix
          (filter (fun ip => ip ∉ m_allowedIPAddressRanges config)
             (m_allowedIPAddressRanges lastConfig))) ;;
   ((if QString_eqb (m_serverPublicKey config) (m_serverPublicKey lastConfig) then ret true
     else call (DeletePeer lastConfig)) &?
    (_ <- setConnection config ;; ret true))).

Definition deactivate (emitSignals : bool) : M bool :=
  connections <- gets (fun d => connectionList (m_connections d)) ;;
  (match connections with
   | [] => ret true
   | state :: _ => call (Run Down (m_config state))
   end &?
   (_ <- call RestoreResolvers ;;
    _ <- callEach (concat (map (fun state =>
           map DeleteRoutePrefix (m_allowedIPAddressRanges (m_config state))
           ++ [DeletePeer (m_config state)]) connections)) ;;
    _ <- modify (fun d => d <| m_connections := noConnections |>) ;;
    result <- call DeleteInterface ;;
    _ <- (if emitSignals then emit Disconnected else ret tt) ;;
    ret result)).

(** [activate] when the hop has no connection. *)
Definition bringUp (config : InterfaceConfig) : M bool :=
  exists_ <- call InterfaceExists ;;
  ((if exists_ then ret true
    else callAll ([AddInterface config]
                  ++ (if hasIPUtils then [AddInterfaceIPs config; SetMTUAndUp config] else [])
                  ++ [ExcludeLocalNetworks Lan.lanAddressRanges])) &?
   call (UpdatePeer config) &?
   maybeUpdateResolvers config &?
   callAll (map UpdateRoutePrefix (m_allowedIPAddressRanges config)) &?
   call (Run Up config) &?
   registerConnection config).

(** [activate] when the hop has a connection and the servers can be switched. *)
Definition switchTo (config : InterfaceConfig) : M bool :=
  switchServer config &?
  call RestoreResolvers &?
  maybeUpdateResolvers config &?
  call (Run Switch config) &?
  registerConnection config.

(** [activate], with a bound on the depth of its recursion. *)
Fixpoint activateFuel (fuel : nat) (config : InterfaceConfig) : M (Outcome bool) := fun d =>
  match fuel with
  | O => (OutOfFuel, d)
  | S fuel =>
      match lookupHop (m_hopType config) (m_connections d) with
      | None => let '(b, d) := failureGuard (bringUp config) d in (Ret b, d)
      | Some _ =>
          if supportServerSwitching config d
          then let '(b, d) := failureGuard (switchTo config) d in (Ret b, d)
          else
            match deactivate false d with
            | (false, d) => let '(b, d) := failureGuard (ret false) d in (Ret b, d)
            | (true, d) =>
                match activateFuel fuel config d with
                | (Ret b, d) => let '(b, d) := failureGuard (ret b) d in (Ret b, d)
                | r => r
                end
            end
      end
  end.

Definition activate (config : InterfaceConfig) : M (Outcome bool) := activateFuel 2 config.

(** ** The configuration message *)

(** [parseStringList]: [None] where it fails. *)
Definition parseStringList (obj : QJsonObject) (name : chars) (items : list chars)
  : option (list chars) :=
  if hasKey name obj then
    match value name obj with
    | JArray array => app items <$> mapM toQString array
    | _ => None
    end
  else Some items.

(** One element of [allowedIPAddressRanges]. *)
Definition parseRange (i : QJsonValue) : option IPAddress :=
  match i with
  | JObject ipObj =>
      match value (qs "address") ipObj, value (qs "range") ipObj, value (qs "isIpv6") ipObj with
      | JString address, JDouble n d, JBool _ =>
          Some (mkIPAddress (hostOfString address) (jsonToInt (JDouble n d)))
      | _, _, _ => None
      end
  | _ => None
  end.

(** [std::sort] by decreasing prefix length; which of the sorted permutations it
    gives is left to the library. *)
Variable sort : list IPAddress -> list IPAddress.

Definition parseHop (obj : QJsonObject) : option HopType :=
  if hasKey (qs "hopType") obj then
    match value (qs "hopType") obj with
    | JString key => hopTypeOfKey key
    | _ => None
    end
  else Some SingleHop.

Definition parseDns (obj : QJsonObject) : option QString :=
  if hasKey (qs "dnsServer") obj then
    match value (qs "dnsServer") obj with
    | JString s => Some (Some s)
    | _ => None
    end
  else Some None.

Definition optionalText (k : chars) (obj : QJsonObject) : QString := toQString (value k obj).

Definition parseConfig (obj : QJsonObject) (config : InterfaceConfig) : option InterfaceConfig :=
  match value (qs "privateKey") obj, value (qs "serverPublicKey") obj,
        value (qs "serverPort") obj with
  | JString privateKey, JString publicKey, JDouble n d =>
      let config := config <| m_privateKey := Some privateKey |>
                           <| m_serverPublicKey := Some publicKey |>
                           <| m_serverPort := doubleToInt (JDouble n d) |>
                           <| m_deviceIpv4Address := optionalText (qs "deviceIpv4Address") obj |>
                           <| m_deviceIpv6Address := optionalText (qs "deviceIpv6Address") obj |> in
      if isNullString (m_deviceIpv4Address config) && isNullString (m_deviceIpv6Address config)
      then None
      else
        let config := config <| m_serverIpv4AddrIn := optionalText (qs "serverIpv4AddrIn") obj |>
                             <| m_serverIpv6AddrIn := optionalText (qs "serverIpv6AddrIn") obj |> in
        if isNullString (m_serverIpv4AddrIn config) && isNullString (m_serverIpv6AddrIn config)
        then None
        else
          let config :=
            config <| m_serverIpv4Gateway := optionalText (qs "serverIpv4Gateway") obj |>
                   <| m_serverIpv6Gateway := optionalText (qs "serverIpv6Gateway") obj |> in
          dns ← parseDns obj;
          hop ← parseHop obj;
          match value (qs "allowedIPAddressRanges") obj with
          | JArray array =>
              ranges ← mapM parseRange array;
              apps ← parseStringList obj (qs "vpnDisabledApps") (m_vpnDisabledApps config);
              Some (config <| m_dnsServer := dns |>
                           <| m_hopType := hop |>
                           <| m_allowedIPAddressRanges :=
                                sort (m_allowedIPAddressRanges config ++ ranges) |>
                           <| m_vpnDisabledApps := apps |>)
          | _ => None
          end
  | _, _, _ => None
  end.

(** [activate(const QString& json)]: [json] is the object of the document, empty
    if there is none. *)
Definition activateJson (hop0 : HopType) (json : QJsonObject) : M (Outcome bool) :=
  match parseConfig json (emptyConfig hop0) with
  | None => ret (Ret false)
  | Some config => activate config
  end.

(** ** Status and handshakes *)

(** [applicationVersion] and [QDateTime::toString] are given. *)
Definition getStatus (version : chars) (dateToString : option Z -> chars) : M QJsonObject :=
  let json := insertAll [(qs "version", JString version);
                         (qs "features", JArray (map JString getFeatures))] [] in
  let off := insertKey (qs "connected") (JBool false) json in
  exists_ <- call InterfaceExists ;;
  connections <- gets (fun d => connectionList (m_connections d)) ;;
  match connections with
  | connection :: _ =>
      if negb exists_ then ret off
      else
        peers <- getPeerStatus ;;
        match list_find (fun s => QString_eqb (m_pubkey s)
                 (m_serverPublicKey (m_config connection)) = true) peers with
        | Some (_, status) =>
            ret (insertAll
              [(qs "connected", JBool true);
               (qs "serverIpv4Gateway", ofQString (m_serverIpv4Gateway (m_config connection)));
               (qs "deviceIpv4Address", ofQString (m_deviceIpv4Address (m_config connection)));
               (qs "date", JString (dateToString (m_date connection)));
               (qs "txBytes", ofInt (m_txBytes status));
               (qs "rxBytes", ofInt (m_rxBytes status))] json)
        | None => ret off
        end
  | [] => ret off
  end.

(** The loop over the peers for one connection that awaits its handshake: the
    date it ends with and the signals it emits. *)
Fixpoint pollPeers (config : InterfaceConfig) (peers : list PeerStatus) (date : option Z)
  : option Z * list Signal :=
  match peers with
  | [] => (date, [])
  | status :: r =>
      if QString_eqb (m_serverPublicKey config) (m_pubkey status)
         && negb (m_handshake status =? 0) then
        let '(date, s) := pollPeers config r (Some (m_handshake status)) in
        (date, Connected (m_pubkey status) :: s)
      else pollPeers config r date
  end.

Definition pollConnection (peers : list PeerStatus) (c : option ConnectionState)
  : option ConnectionState * list Signal :=
  match c with
  | None => (None, [])
  | Some c =>
      match m_date c with
      | Some _ => (Some c, [])
      | None =>
          let '(date, s) := pollPeers (m_config c) peers None in
          (Some (c <| m_date := date |>), s)
      end
  end.

Definition pending (c : ConnectionState) : bool := bool_decide (m_date c = None).

Definition checkHandshake : M unit :=
  peers <- getPeerStatus ;;
  modify (fun d =>
    let m := m_connections d in
    let '(c0, s0) := pollConnection peers (singleHop m) in
    let '(c1, s1) := pollConnection peers (multiHopEntry m) in
    let '(c2, s2) := pollConnection peers (multiHopExit m) in
    let m := mkConnections c0 c1 c2 in
    d <| m_connections := m |>
      <| signals := signals d ++ s0 ++ s1 ++ s2 |>
      <| m_handshakeTimer :=
           if existsb pending (connectionList m) then true else m_handshakeTimer d |>).

(** The timer expires: a single-shot timer is no longer running. *)
Definition handshakeTimeout : M unit :=
  _ <- modify (fun d => d <| m_handshakeTimer := false |>) ;; checkHandshake.

Definition abortBackendFailure : M bool :=
  _ <- emit BackendFailure ;; deactivate true.

End Operations.

(** ** Sequences of calls *)

Section Plans.
Context `{QtText} `{Backend}.

(** The reference for a loop that stops at the first failure: the answer and the
    calls made, on the calls already made. *)
Fixpoint execute (plan : list Call) (t : list Call) : bool * list Call :=
  match plan with
  | [] => (true, t)
  | c :: r => if answer t c then execute r (t ++ [c]) else (false, t ++ [c])
  end.

Lemma execute_app (a b t : list Call) :
  execute (a ++ b) t
  = let '(ok, t') := execute a t in if ok then execute b t' else (false, t').
Proof.
  revert t. induction a as [|c a IH]; intros t; simpl; [done|].
  destruct (answer t c); [apply IH|done].
Qed.

(** Either every call succeeds and all are made, or the calls are made up to the
    first that fails. *)
Lemma execute_spec (plan t : list Call) :
  match execute plan t with
  | (true, t') => t' = t ++ plan
  | (false, t') => exists done_ c rest,
      plan = done_ ++ c :: rest /\ t' = t ++ done_ ++ [c] /\ answer (t ++ done_) c = false
  end.
Proof.
  revert t. induction plan as [|c plan IH]; intros t; simpl; [by rewrite app_nil_r|].
  destruct (answer t c) eqn:E.
  - specialize (IH (t ++ [c])). destruct (execute plan (t ++ [c])) as [[] t'].
    + by rewrite IH, <- app_assoc.
    + destruct IH as (done_ & c' & rest & -> & -> & E').
      exists (c :: done_), c', rest. rewrite <- app_assoc in E'.
      split_and!; [done|by rewrite <- app_assoc|done].
  - exists [], c, plan. rewrite app_nil_r. by split_and!.
Qed.

Lemma callAll_bind (plan : list Call) (k : M bool) (d : Daemon) :
  (callAll plan &? k) d
  = let '(ok, t) := execute plan (trace d) in
    if ok then k (d <| trace := t |>) else (false, d <| trace := t |>).
Proof.
  revert d. induction plan as [|c plan IH]; intros d; simpl.
  - by destruct d.
  - change ((call c &? callAll plan) &? k) with (bind (call c &? callAll plan)
      (fun ok : bool => if ok then k else ret false)).
    unfold bind at 1. unfold bind at 1. cbn [call].
    destruct (answer (trace d) c); [|done]. destruct d as [m h t l]. exact (IH _).
Qed.

Lemma callAll_eq (plan : list Call) (d : Daemon) :
  callAll plan d = let '(ok, t) := execute plan (trace d) in (ok, d <| trace := t |>).
Proof.
  pose proof (callAll_bind plan (ret true) d) as E. unfold bind in E.
  destruct (callAll plan d) as [[] d'], (execute plan (trace d)) as [[] t];
    unfold ret in E; congruence.
Qed.

Lemma callEach_eq (l : list Call) (d : Daemon) :
  callEach l d = (tt, d <| trace := trace d ++ l |>).
Proof.
  revert d. induction l as [|c l IH]; intros d; simpl.
  - destruct d. unfold ret, updateField. simpl. by rewrite app_nil_r.
  - unfold bind, call. rewrite IH. destruct d. unfold updateField. simpl.
    by rewrite <- app_assoc.
Qed.

Lemma call_bind (c : Call) (k : M bool) (d : Daemon) :
  (call c &? k) d = (callAll [c] &? k) d.
Proof.
  unfold bind. cbn [callAll]. unfold bind, ret, call. by destruct (answer (trace d) c).
Qed.

(** ** Bringing the tunnel up *)

Definition resolverCalls (config : InterfaceConfig) : list Call :=
  if isExitHop (m_hopType config) then [UpdateResolvers interfaceName (resolversOf config)]
  else [].

Lemma resolvers_bind (config : InterfaceConfig) (k : M bool) (d : Daemon) :
  (maybeUpdateResolvers config &? k) d = (callAll (resolverCalls config) &? k) d.
Proof.
  unfold maybeUpdateResolvers, resolverCalls. by destruct (isExitHop _).
Qed.

(** Every call of a first activation, in order; [up] says whether the interface is
    there already. *)
Definition bringUpPlan (up : bool) (config : InterfaceConfig) : list Call :=
  (if up then []
   else [AddInterface config]
        ++ (if hasIPUtils then [AddInterfaceIPs config; SetMTUAndUp config] else [])
        ++ [ExcludeLocalNetworks Lan.lanAddressRanges])
  ++ [UpdatePeer config] ++ resolverCalls config
  ++ map UpdateRoutePrefix (m_allowedIPAddressRanges config) ++ [Run Up config].

Definition registered (config : InterfaceConfig) (d : Daemon) : Daemon :=
  d <| m_connections :=
         insertHop (m_hopType config) (mkConnectionState None config) (m_connections d) |>
    <| m_handshakeTimer := true |>.

Lemma bringUp_eq (config : InterfaceConfig) (d : Daemon) :
  bringUp config d
  = let up := answer (trace d) InterfaceExists in
    let '(ok, t) := execute (bringUpPlan up config) (trace d ++ [InterfaceExists]) in
    if ok then (true, registered config (d <| trace := t |>)) else (false, d <| trace := t |>).
Proof.
  unfold bringUp, bringUpPlan. unfold bind at 1. cbn [call].
  set (up := answer (trace d) InterfaceExists).
  set (d1 := d <| trace := trace d ++ [InterfaceExists] |>).
  assert (Hpre : forall k : M bool,
    ((if up then ret true
      else callAll ([AddInterface config]
             ++ (if hasIPUtils then [AddInterfaceIPs config; SetMTUAndUp config] else [])
             ++ [ExcludeLocalNetworks Lan.lanAddressRanges])) &? k) d1
    = (callAll (if up then []
      else [AddInterface config]
             ++ (if hasIPUtils then [AddInterfaceIPs config; SetMTUAndUp config] else [])
             ++ [ExcludeLocalNetworks Lan.lanAddressRanges]) &? k) d1) by (by destruct up).
  rewrite Hpre, callAll_bind. change (trace d1) with (trace d ++ [InterfaceExists]).
  rewrite execute_app. destruct (execute _ (trace d ++ [InterfaceExists])) as [[] t1]; [|done].
  rewrite execute_app, call_bind, callAll_bind. cbn [trace].
  change (trace (d1 <| trace := t1 |>)) with t1.
  destruct (execute [UpdatePeer config] t1) as [[] t2]; [|done].
  rewrite execute_app, resolvers_bind, callAll_bind.
  change (trace (d1 <| trace := t1 |> <| trace := t2 |>)) with t2.
  destruct (execute (resolverCalls config) t2) as [[] t3]; [|done].
  rewrite execute_app, callAll_bind.
  change (trace (d1 <| trace := t1 |> <| trace := t2 |> <| trace := t3 |>)) with t3.
  destruct (execute (map UpdateRoutePrefix _) t3) as [[] t4]; [|done].
  rewrite call_bind, callAll_bind. cbn [trace].
  change (trace (_ <| trace := t4 |>)) with t4.
  by destruct (execute [Run Up config] t4) as [[] t5].
Qed.

(** ** Switching servers *)

Definition sameKey (a b : InterfaceConfig) : bool :=
  QString_eqb (m_serverPublicKey a) (m_serverPublicKey b).

(** The routes of the old configuration that the new one does not have. *)
Definition staleRoutes (config last : InterfaceConfig) : list IPAddress :=
  filter (fun ip => ip ∉ m_allowedIPAddressRanges config) (m_allowedIPAddressRanges last).

(** A server switch: the new peer, its routes as far as they can be added, the
    removal of the old routes and of the old peer, the resolvers, the script. *)
Definition switchPlan (config last : InterfaceConfig) (d : Daemon) : bool * Daemon :=
  let '(ok, t) := execute [UpdatePeer config] (trace d) in
  if ok then
    let '(_, t) := execute (map UpdateRoutePrefix (m_allowedIPAddressRanges config)) t in
    let t := t ++ map DeleteRoutePrefix (staleRoutes config last) in
    let '(ok, t) := execute (if sameKey config last then [] else [DeletePeer last]) t in
    if ok then
      let switched := insertHop (m_hopType config) (mkConnectionState None config)
                        (m_connections d) in
      let '(ok, t) := execute ([RestoreResolvers] ++ resolverCalls config
                               ++ [Run Switch config]) t in
      let d := d <| trace := t |> <| m_connections := switched |> in
      if ok then (true, registered config d) else (false, d)
    else (false, d <| trace := t |>)
  else (false, d <| trace := t |>).

Lemma switchTo_eq (config last : InterfaceConfig) (date : option Z) (d : Daemon) :
  lookupHop (m_hopType config) (m_connections d) = Some (mkConnectionState date last) ->
  switchTo config d = switchPlan config last d.
Proof.
  intros Hl. unfold switchTo, switchPlan, switchServer.
  unfold bind at 1. unfold bind at 1. cbn [gets]. rewrite Hl.
  cbn [m_config fmap option_fmap option_map default from_option].
  rewrite call_bind, callAll_bind.
  destruct (execute [UpdatePeer config] (trace d)) as [[] t1]; [|done].
  unfold bind at 1. rewrite callAll_eq. change (trace (d <| trace := t1 |>)) with t1.
  destruct (execute (map UpdateRoutePrefix _) t1) as [ok2 t2]. cbn iota beta.
  unfold bind at 1. rewrite callEach_eq. cbn iota beta.
  change (trace (d <| trace := t1 |> <| trace := t2 |>)) with t2.
  change (filter (fun ip => ip ∉ m_allowedIPAddressRanges config)
    (m_allowedIPAddressRanges last)) with (staleRoutes config last).
  set (t3 := t2 ++ map DeleteRoutePrefix (staleRoutes config last)).
  set (d3 := d <| trace := t1 |> <| trace := t2 |> <| trace := t3 |>).
  assert (Hpre : forall k : M bool,
    ((if sameKey config last then ret true else call (DeletePeer last)) &? k) d3
    = (callAll (if sameKey config last then [] else [DeletePeer last]) &? k) d3).
  { intros k. destruct (sameKey config last); [done|]. by rewrite call_bind. }
  change (QString_eqb (m_serverPublicKey config) (m_serverPublicKey last))
    with (sameKey config last).
  rewrite Hpre, callAll_bind. change (trace d3) with t3.
  destruct (execute (if sameKey config last then [] else [DeletePeer last]) t3) as [[] t4];
    [|done].
  unfold bind at 1, setConnection, modify, ret. cbn iota beta.
  set (d4 := updateField _ (d3 <| trace := t4 |>)).
  rewrite call_bind, callAll_bind, execute_app. change (trace d4) with t4.
  destruct (execute [RestoreResolvers] t4) as [[] t5]; [|done].
  rewrite execute_app, resolvers_bind, callAll_bind. change (trace (d4 <| trace := t5 |>)) with t5.
  destruct (execute (resolverCalls config) t5) as [[] t6]; [|done].
  rewrite call_bind, callAll_bind. change (trace (_ <| trace := t6 |>)) with t6.
  by destruct (execute [Run Switch config] t6) as [[] t7].
Qed.

(** ** Tearing the tunnel down *)

Definition downCalls (l : list ConnectionState) : list Call :=
  match l with [] => [] | s :: _ => [Run Down (m_config s)] end.

Definition teardownCalls (l : list ConnectionState) : list Call :=
  concat (map (fun s => map DeleteRoutePrefix (m_allowedIPAddressRanges (m_config s))
                        ++ [DeletePeer (m_config s)]) l).

Definition teardownPlan (emitSignals : bool) (d : Daemon) : bool * Daemon :=
  let l := connectionList (m_connections d) in
  let '(ok, t) := execute (downCalls l) (trace d) in
  if ok then
    let t := t ++ [RestoreResolvers] ++ teardownCalls l in
    (answer t DeleteInterface,
     mkDaemon noConnections (m_handshakeTimer d) (t ++ [DeleteInterface])
       (signals d ++ (if emitSignals then [Disconnected] else [])))
  else (false, d <| trace := t |>).

Lemma deactivate_eq (emitSignals : bool) (d : Daemon) :
  deactivate emitSignals d = teardownPlan emitSignals d.
Proof.
  unfold deactivate, teardownPlan, downCalls. unfold bind at 1. cbn [gets].
  set (l := connectionList (m_connections d)).
  assert (Hpre : forall k : M bool,
    (match l with [] => ret true | s :: _ => call (Run Down (m_config s)) end &? k) d
    = (callAll (match l with [] => [] | s :: _ => [Run Down (m_config s)] end) &? k) d).
  { intros k. destruct l as [|s l']; [done|]. by rewrite call_bind. }
  cbn beta iota. rewrite Hpre, callAll_bind.
  destruct (execute _ (trace d)) as [[] t]; [|done].
  unfold bind at 1. cbn [call]. unfold bind at 1. rewrite callEach_eq. cbn iota beta.
  unfold bind at 1, modify. unfold bind at 1. cbn [call]. unfold bind at 1.
  destruct d as [m h t0 sg], emitSignals; unfold emit, modify, ret, updateField; simpl;
    rewrite <- ?app_assoc, ?app_nil_r; done.
Qed.

(** ** Activation *)

(** The signal of a failure guard. *)
Definition guarded (r : bool * Daemon) : bool * Daemon :=
  if r.1 then r else (false, r.2 <| signals := signals r.2 ++ [ActivationFailure] |>).

Lemma failureGuard_eq (m : M bool) (d : Daemon) : failureGuard m d = guarded (m d).
Proof. unfold failureGuard, guarded, bind. by destruct (m d) as [[] d']. Qed.

(** The three situations [activate] tells apart. *)
Definition activatePlan (config : InterfaceConfig) (d : Daemon) : bool * Daemon :=
  match lookupHop (m_hopType config) (m_connections d) with
  | None => guarded (bringUp config d)
  | Some s =>
      if supportServerSwitching config d then guarded (switchPlan config (m_config s) d)
      else
        let '(ok, d) := teardownPlan false d in
        guarded (if ok then guarded (bringUp config d) else (false, d))
  end.

Lemma teardown_connections (e : bool) (d d' : Daemon) :
  teardownPlan e d = (true, d') -> m_connections d' = noConnections.
Proof. unfold teardownPlan. destruct (execute _ _) as [[] t]; [by intros [= _ <-]|done]. Qed.

Lemma lookup_noConnections (h : HopType) : lookupHop h noConnections = None.
Proof. by destruct h. Qed.

(** The recursion of [activate] is one level deep. *)
Lemma activate_eq (config : InterfaceConfig) (d : Daemon) :
  activate config d = let '(b, d') := activatePlan config d in (Ret b, d').
Proof.
  unfold activate, activatePlan. cbn [activateFuel].
  destruct (lookupHop (m_hopType config) (m_connections d)) as [[date last]|] eqn:El.
  - destruct (supportServerSwitching config d).
    + by rewrite failureGuard_eq, (switchTo_eq config last date d El).
    + rewrite deactivate_eq. destruct (teardownPlan false d) as [[] d'] eqn:Et.
      * apply teardown_connections in Et. rewrite Et, lookup_noConnections.
        rewrite failureGuard_eq. destruct (guarded (bringUp config d')) as [b d''].
        by rewrite failureGuard_eq.
      * by rewrite failureGuard_eq.
  - by rewrite failureGuard_eq.
Qed.

(** A call that the backend always refuses makes a sequence fail. *)
Lemma execute_rejected (plan t : list Call) (c : Call) :
  c ∈ plan -> (forall t, answer t c = false) -> fst (execute plan t) = false.
Proof.
  intros Hin Hc. revert t. induction plan as [|x plan IH]; intros t; [set_solver|]. simpl.
  apply elem_of_cons in Hin as [->|Hin]; [by rewrite Hc|].
  destruct (answer t x); [by apply IH|done].
Qed.

Lemma guarded_false (r : bool * Daemon) : fst r = false -> fst (guarded r) = false.
Proof. unfold guarded. by intros ->. Qed.

Lemma activate_rejected (config : InterfaceConfig) (d : Daemon) :
  (forall t, answer t (UpdatePeer config) = false) -> fst (activate config d) = Ret false.
Proof.
  intros Hc. assert (forall d, fst (bringUp config d) = false) as Hup.
  { intros d'. rewrite bringUp_eq. cbv zeta.
    set (up := answer (trace d') InterfaceExists).
    pose proof (execute_rejected (bringUpPlan up config) (trace d' ++ [InterfaceExists])
      (UpdatePeer config)) as E. destruct (execute _ _) as [ok t]. cbn [fst] in E.
    rewrite E; [done| |done]. unfold bringUpPlan. set_solver. }
  assert (fst (activatePlan config d) = false) as E.
  { unfold activatePlan. destruct (lookupHop _ _) as [s|]; [|by apply guarded_false].
    destruct (supportServerSwitching config d).
    - apply guarded_false. unfold switchPlan. cbn [execute]. by rewrite Hc.
    - destruct (teardownPlan false d) as [[] d']; apply guarded_false; [|done].
      by apply guarded_false. }
  rewrite activate_eq. destruct (activatePlan config d) as [b d']. cbn [fst] in *. by subst b.
Qed.

End Plans.

(** ** What the daemon leaves in the system *)

Section Resources.
Context `{QtText} `{Backend}.

(** What a call of the backend adds to the system, and another removes. *)
Inductive Resource : Type :=
| Route (ip : IPAddress)
| Peer (pubkey : chars).

Definition adds (r : Resource) (c : Call) : bool :=
  match r, c with
  | Route ip, UpdateRoutePrefix ip' => bool_decide (ip' = ip)
  | Peer k, UpdatePeer config => bool_decide (text (m_serverPublicKey config) = k)
  | _, _ => false
  end.

Definition removes (r : Resource) (c : Call) : bool :=
  match r, c with
  | Route ip, DeleteRoutePrefix ip' => bool_decide (ip' = ip)
  | Peer k, DeletePeer config => bool_decide (text (m_serverPublicKey config) = k)
  | _, _ => false
  end.

(** What a configuration asks for. *)
Definition uses (r : Resource) (config : InterfaceConfig) : Prop :=
  match r with
  | Route ip => ip ∈ m_allowedIPAddressRanges config
  | Peer k => text (m_serverPublicKey config) = k
  end.

#[export] Instance uses_dec (r : Resource) (config : InterfaceConfig) : Decision (uses r config).
Proof. destruct r; unfold uses; apply _. Defined.

Definition after (r : Resource) (b : bool) (l : list Call) : bool :=
  fold_left (fun b c => if adds r c then true else if removes r c then false else b) l b.

(** The last call about the resource, whatever its answer, asks for it. *)
Definition present (r : Resource) (t : list Call) : bool := after r false t.

Lemma present_app (r : Resource) (t l : list Call) :
  present r (t ++ l) = after r (present r t) l.
Proof. apply fold_left_app. Qed.

Definition quiet (r : Resource) (l : list Call) : Prop := Forall (fun c => adds r c = false) l.

Lemma after_quiet (r : Resource) (l : list Call) :
  quiet r l -> forall b, after r b l = true -> b = true.
Proof.
  induction 1 as [|c l Hc _ IH]; intros b; [done|]. unfold after in *. simpl. rewrite Hc.
  destruct (removes r c); [by intros ?%IH|apply IH].
Qed.

Lemma after_removed (r : Resource) (l : list Call) :
  quiet r l -> existsb (removes r) l = true -> forall b, after r b l = false.
Proof.
  induction 1 as [|c l Hc Hl IH]; intros Hr b; [done|].
  unfold after in *. simpl in *. rewrite Hc. destruct (removes r c).
  - destruct (fold_left _ l false) eqn:E; [|done].
    by apply (after_quiet r l Hl) in E.
  - by apply IH.
Qed.

Lemma quiet_app (r : Resource) (a b : list Call) : quiet r a -> quiet r b -> quiet r (a ++ b).
Proof. intros. by apply Forall_app. Qed.

Lemma quiet_map {A : Type} (r : Resource) (f : A -> Call) (l : list A) :
  (forall x, x ∈ l -> adds r (f x) = false) -> quiet r (map f l).
Proof.
  intros Hf. apply Forall_forall. intros c Hc. apply list_elem_of_fmap in Hc as (x & -> & Hx).
  by apply Hf.
Qed.

(** Calls made on behalf of a configuration that does not use a resource. *)
Lemma quiet_routes (r : Resource) (config : InterfaceConfig) :
  ~ uses r config -> quiet r (map UpdateRoutePrefix (m_allowedIPAddressRanges config)).
Proof.
  intros Hu. apply quiet_map. intros ip Hip. destruct r as [ip'|k]; simpl in *; [|done].
  apply bool_decide_false. by intros ->.
Qed.

Lemma quiet_peer (r : Resource) (config : InterfaceConfig) :
  ~ uses r config -> quiet r [UpdatePeer config].
Proof.
  intros Hu. apply Forall_singleton. destruct r as [ip|k]; simpl in *; [done|].
  by apply bool_decide_false.
Qed.

Lemma quiet_resolvers (r : Resource) (config : InterfaceConfig) :
  quiet r (resolverCalls config).
Proof. unfold resolverCalls. destruct (isExitHop _); repeat constructor; by destruct r. Qed.

Lemma quiet_teardown (r : Resource) (l : list ConnectionState) : quiet r (teardownCalls l).
Proof.
  induction l as [|s l IH]; [constructor|]. apply quiet_app; [|done].
  apply quiet_app; [apply quiet_map; by destruct r|repeat constructor; by destruct r].
Qed.

Lemma quiet_bringUp (r : Resource) (up : bool) (config : InterfaceConfig) :
  ~ uses r config -> quiet r (bringUpPlan up config).
Proof.
  intros Hu. unfold bringUpPlan. repeat apply quiet_app.
  - destruct up; [constructor|].
    repeat apply quiet_app; [by destruct r; repeat constructor| |by destruct r; repeat constructor].
    destruct hasIPUtils; destruct r; repeat constructor.
  - by apply quiet_peer.
  - apply quiet_resolvers.
  - by apply quiet_routes.
  - destruct r; repeat constructor.
Qed.

(** The calls made are a part of the plan. *)
Lemma execute_quiet (r : Resource) (plan t t' : list Call) (ok : bool) :
  quiet r plan -> execute plan t = (ok, t') ->
  exists l, t' = t ++ l /\ quiet r l /\ (ok = true -> l = plan).
Proof.
  intros Hq He. pose proof (execute_spec plan t) as Hs. rewrite He in Hs. destruct ok.
  - by exists plan.
  - destruct Hs as (a & c & rest & -> & -> & _). exists (a ++ [c]). split_and!; [done| |done].
    apply Forall_app in Hq as [Ha Hc]. inversion Hc; subst.
    apply Forall_app. split; [done|]. by apply Forall_singleton.
Qed.

Lemma execute_present (r : Resource) (plan t t' : list Call) (ok : bool) :
  quiet r plan -> execute plan t = (ok, t') -> present r t' = true -> present r t = true.
Proof.
  intros Hq He. destruct (execute_quiet r plan t t' ok Hq He) as (l & -> & Hl & _).
  rewrite present_app. by apply after_quiet.
Qed.

(** ** The connections *)

Lemma elem_connectionList (s : ConnectionState) (m : Connections) :
  s ∈ connectionList m <-> exists h, lookupHop h m = Some s.
Proof.
  unfold connectionList. rewrite list_elem_of_omap. unfold id. split.
  - intros (x & Hx & ->). rewrite !elem_of_cons, elem_of_nil in Hx.
    destruct Hx as [E|[E|[E|[]]]]; [exists SingleHop|exists MultiHopEntry|exists MultiHopExit];
      by rewrite E.
  - intros [h Hh]. exists (lookupHop h m). split; [|done].
    rewrite !elem_of_cons. destruct h; simpl; tauto.
Qed.

Lemma lookup_insertHop (h h' : HopType) (s : ConnectionState) (m : Connections) :
  lookupHop h' (insertHop h s m) = if bool_decide (h = h') then Some s else lookupHop h' m.
Proof. by destruct h, h'. Qed.

(** Every resource the daemon has asked for belongs to a connection. *)
Definition tracked (d : Daemon) : Prop :=
  forall r, present r (trace d) = true ->
  exists s, s ∈ connectionList (m_connections d) /\ uses r (m_config s).

(** A connection that awaits its handshake is polled. *)
Definition polled (d : Daemon) : Prop :=
  existsb pending (connectionList (m_connections d)) = true -> m_handshakeTimer d = true.

Lemma tracked_registered (config : InterfaceConfig) (d : Daemon) :
  (forall r, ~ uses r config -> present r (trace d) = true ->
   exists h s, h <> m_hopType config /\ lookupHop h (m_connections d) = Some s
               /\ uses r (m_config s)) ->
  tracked (registered config d) /\ polled (registered config d).
Proof.
  intros Hr. split; [|done]. intros r Hp. unfold registered in *. simpl in *.
  destruct (decide (uses r config)) as [Hu|Hu].
  - exists (mkConnectionState None config). split; [|done].
    apply elem_connectionList. exists (m_hopType config).
    rewrite lookup_insertHop. by bd_true.
  - destruct (Hr r Hu Hp) as (h & s & Hh & Hs & Hu'). exists s. split; [|done].
    apply elem_connectionList. exists h. rewrite lookup_insertHop. by bd_false.
Qed.

Lemma bringUp_tracked (config : InterfaceConfig) (d d' : Daemon) :
  lookupHop (m_hopType config) (m_connections d) = None -> tracked d ->
  bringUp config d = (true, d') -> tracked d' /\ polled d'.
Proof.
  intros Hn Ht. rewrite bringUp_eq. cbn zeta.
  destruct (execute _ _) as [[] t] eqn:Ee; [|done]. intros [= <-].
  apply tracked_registered. intros r Hu Hp. simpl in Hp.
  apply (execute_present r _ _ _ _ (quiet_bringUp r _ config Hu) Ee) in Hp.
  rewrite present_app in Hp. apply after_quiet in Hp; [|by destruct r; repeat constructor].
  destruct (Ht r Hp) as (s & Hs & Hu'). apply elem_connectionList in Hs as [h Hh].
  exists h, s. split_and!; [|done..]. intros ->. simpl in Hh. congruence.
Qed.

(** The calls of a switch remove what only the old configuration uses. *)
Lemma switch_present (r : Resource) (config last : InterfaceConfig) (t t' : list Call) :
  ~ uses r config ->
  execute (if sameKey config last then [] else [DeletePeer last])
    (t ++ map DeleteRoutePrefix (staleRoutes config last)) = (true, t') ->
  present r t' = true -> present r t = true /\ ~ uses r last.
Proof.
  intros Hu He.
  assert (quiet r (map DeleteRoutePrefix (staleRoutes config last))) as Hq1
    by (by apply quiet_map; destruct r).
  assert (quiet r (if sameKey config last then [] else [DeletePeer last])) as Hq2
    by (destruct (sameKey config last); destruct r; repeat constructor).
  destruct (execute_quiet r _ _ _ _ Hq2 He) as (l & -> & Hl & Hall).
  rewrite Hall by done. rewrite !present_app. intros Hp. pose proof Hp as Hp2.
  apply after_quiet in Hp2; [|done]. pose proof Hp2 as Hp3. apply after_quiet in Hp3; [|done].
  split; [done|]. intros Hlast. destruct r as [ip|k]; simpl in Hu, Hlast.
  - rewrite after_removed in Hp2; [done..|].
    apply existsb_exists. exists (DeleteRoutePrefix ip). split; [|simpl; by bd_true].
    apply list_elem_of_In, list_elem_of_fmap_2. unfold staleRoutes.
    by apply list_elem_of_filter.
  - assert (sameKey config last = false) as Hk.
    { unfold sameKey. apply bool_decide_false. intros E. apply Hu. by rewrite E. }
    rewrite Hk in Hp. rewrite after_removed in Hp; [done| |].
    + repeat constructor.
    + simpl. by bd_true.
Qed.

Lemma switch_tracked (config last : InterfaceConfig) (date : option Z) (d d' : Daemon) :
  lookupHop (m_hopType config) (m_connections d) = Some (mkConnectionState date last) ->
  tracked d -> switchPlan config last d = (true, d') -> tracked d' /\ polled d'.
Proof.
  intros Hl Ht. unfold switchPlan.
  destruct (execute [UpdatePeer config] (trace d)) as [[] t1] eqn:E1; [|done].
  destruct (execute (map UpdateRoutePrefix _) t1) as [ok2 t2] eqn:E2.
  destruct (execute (if sameKey config last then [] else [DeletePeer last]) _)
    as [[] t3] eqn:E3; [|done].
  destruct (execute ([RestoreResolvers] ++ _) t3) as [[] t4] eqn:E4; [|done].
  intros [= <-]. apply tracked_registered. intros r Hu Hp. cbn [trace] in Hp.
  change (present r t4 = true) in Hp.
  assert (quiet r ([RestoreResolvers] ++ resolverCalls config ++ [Run Switch config])) as Hq.
  { apply quiet_app; [by destruct r; repeat constructor|].
    apply quiet_app; [apply quiet_resolvers|by destruct r; repeat constructor]. }
  apply (execute_present r _ _ _ _ Hq E4) in Hp.
  destruct (switch_present r config last t2 t3 Hu E3 Hp) as [Hp2 Hlast].
  apply (execute_present r _ _ _ _ (quiet_routes r config Hu) E2) in Hp2.
  apply (execute_present r _ _ _ _ (quiet_peer r config Hu) E1) in Hp2.
  destruct (Ht r Hp2) as (s & Hs & Hu'). apply elem_connectionList in Hs as [h Hh].
  assert (h <> m_hopType config) as Hne.
  { intros ->. rewrite Hl in Hh. by injection Hh as <-. }
  exists h, s. split_and!; [done| |done].
  cbn [m_connections]. change (lookupHop h (insertHop (m_hopType config)
    (mkConnectionState None config) (m_connections d)) = Some s).
  rewrite lookup_insertHop. by bd_false.
Qed.

(** A teardown that runs leaves nothing. *)
Lemma teardown_removes (r : Resource) (l : list ConnectionState) (s : ConnectionState) :
  s ∈ l -> uses r (m_config s) -> existsb (removes r) (teardownCalls l) = true.
Proof.
  intros Hs Hu. apply existsb_exists. destruct r as [ip|k]; simpl in Hu.
  - exists (DeleteRoutePrefix ip). split; [|simpl; by bd_true].
    apply in_concat. eexists. split; [apply in_map; by apply list_elem_of_In|].
    apply in_or_app. left. by apply list_elem_of_In, list_elem_of_fmap_2.
  - exists (DeletePeer (m_config s)). split; [|simpl; by bd_true].
    apply in_concat. eexists. split; [apply in_map; by apply list_elem_of_In|].
    apply in_or_app. right. by left.
Qed.

Lemma quiet_down (r : Resource) (l : list ConnectionState) : quiet r (downCalls l).
Proof. destruct l; destruct r; repeat constructor. Qed.

Lemma teardown_present (e ok : bool) (d d' : Daemon) (r : Resource) :
  tracked d -> teardownPlan e d = (ok, d') -> m_connections d' = noConnections ->
  present r (trace d') = false.
Proof.
  intros Ht. unfold teardownPlan. set (l := connectionList (m_connections d)).
  destruct (execute (downCalls l) (trace d)) as [[] t] eqn:Ee.
  - intros [= _ <-] _. cbn [trace]. destruct (present r _) eqn:Hp; [|done].
    assert (quiet r ([RestoreResolvers] ++ teardownCalls l)) as Hq.
    { apply quiet_app; [by destruct r; repeat constructor|apply quiet_teardown]. }
    rewrite !present_app in Hp.
    apply after_quiet in Hp; [|by destruct r; repeat constructor].
    pose proof Hp as Hp2. apply after_quiet in Hp2; [|exact Hq].
    apply (execute_present r _ _ _ _ (quiet_down r l) Ee) in Hp2.
    destruct (Ht r Hp2) as (s & Hs & Hu).
    rewrite after_removed in Hp; [done|exact Hq|].
    apply orb_true_iff. right. by eapply teardown_removes.
  - intros [= _ <-] Hn. change (m_connections d = noConnections) in Hn.
    subst l. by rewrite Hn in Ee.
Qed.

Lemma teardown_tracked (e ok : bool) (d d' : Daemon) :
  tracked d -> polled d -> teardownPlan e d = (ok, d') -> tracked d' /\ polled d'.
Proof.
  intros Ht Hp Hd. pose proof (teardown_present e ok d d') as Hr. revert Hr Hd.
  unfold teardownPlan. destruct (execute _ (trace d)) as [[] t] eqn:Ee;
    intros Hr [= <- <-].
  - split; [|done]. intros r. by rewrite Hr.
  - split; [|done]. intros r Hr'. destruct (Ht r) as (s & Hs & Hu); [|by exists s].
    by apply (execute_present r _ _ _ _ (quiet_down r _) Ee) in Hr'.
Qed.

Lemma guarded_true (x : bool * Daemon) (d' : Daemon) :
  guarded x = (true, d') -> x = (true, d').
Proof. by destruct x as [[] d]. Qed.

Lemma activate_tracked (config : InterfaceConfig) (d d' : Daemon) :
  tracked d -> polled d -> activate config d = (Ret true, d') -> tracked d' /\ polled d'.
Proof.
  intros Ht Hp. rewrite activate_eq. unfold activatePlan.
  destruct (lookupHop (m_hopType config) (m_connections d)) as [[date last]|] eqn:El.
  - destruct (supportServerSwitching config d).
    + destruct (guarded _) as [b d1] eqn:E. intros [= -> ->].
      apply guarded_true in E. by eapply switch_tracked.
    + destruct (teardownPlan false d) as [ok d1] eqn:Et.
      destruct (guarded _) as [b d2] eqn:E. intros [= -> ->]. apply guarded_true in E.
      destruct ok; [|done]. apply guarded_true in E.
      destruct (teardown_tracked false true d d1 Ht Hp Et) as [Ht1 _].
      apply teardown_connections in Et. apply bringUp_tracked in E; [done| |done].
      by rewrite Et, lookup_noConnections.
  - destruct (guarded _) as [b d1] eqn:E. intros [= -> ->]. apply guarded_true in E.
    by apply bringUp_tracked in E.
Qed.

(** ** Handshakes *)

Lemma pollConnection_config (peers : list PeerStatus) (c : option ConnectionState) :
  m_config <$> (pollConnection peers c).1 = m_config <$> c.
Proof.
  unfold pollConnection. destruct c as [c|]; [|done]. destruct (m_date c); [done|].
  by destruct (pollPeers _ _ _).
Qed.

(** The state a poll ends in. *)
Lemma checkHandshake_eq (d : Daemon) :
  let peers := peerStatus (trace d) in
  let poll h := pollConnection peers (lookupHop h (m_connections d)) in
  let m := mkConnections (poll SingleHop).1 (poll MultiHopEntry).1 (poll MultiHopExit).1 in
  checkHandshake d = (tt, mkDaemon m
    (if existsb pending (connectionList m) then true else m_handshakeTimer d)
    (trace d ++ [GetPeerStatus])
    (signals d ++ (poll SingleHop).2 ++ (poll MultiHopEntry).2 ++ (poll MultiHopExit).2)).
Proof.
  cbn zeta. unfold checkHandshake, bind, getPeerStatus, modify, lookupHop. cbn [m_connections].
  destruct d as [[c0 c1 c2] h t sg]. unfold updateField. simpl.
  destruct (pollConnection (peerStatus t) c0), (pollConnection (peerStatus t) c1),
    (pollConnection (peerStatus t) c2). done.
Qed.

Lemma checkHandshake_tracked (d d' : Daemon) (u : unit) :
  tracked d -> checkHandshake d = (u, d') -> tracked d' /\ polled d'.
Proof.
  intros Ht. rewrite checkHandshake_eq. intros [= _ <-]. split.
  - intros r Hr. cbn [trace] in Hr. rewrite present_app in Hr.
    apply after_quiet in Hr; [|by destruct r; repeat constructor].
    destruct (Ht r Hr) as (s & Hs & Hu). apply elem_connectionList in Hs as [h Hh].
    pose proof (pollConnection_config (peerStatus (trace d)) (lookupHop h (m_connections d)))
      as Hc. rewrite Hh in Hc at 2.
    destruct (pollConnection (peerStatus (trace d)) (lookupHop h (m_connections d))).1
      as [s'|] eqn:Es; [|done]. injection Hc as Hc.
    exists s'. split; [|by rewrite Hc]. apply elem_connectionList. exists h. by destruct h.
  - unfold polled. cbn [m_connections m_handshakeTimer]. intros ->. done.
Qed.

(** ** Reachable states *)

(** The operations the daemon offers, where an activation that is asked for
    succeeds. *)
Inductive step : Daemon -> Daemon -> Prop :=
| step_activate config d d' : activate config d = (Ret true, d') -> step d d'
| step_deactivate e b d d' : deactivate e d = (b, d') -> step d d'
| step_timeout u d d' :
    m_handshakeTimer d = true -> handshakeTimeout d = (u, d') -> step d d'
| step_status version dateToString json d d' :
    getStatus version dateToString d = (json, d') -> step d d'
| step_abort b d d' : abortBackendFailure d = (b, d') -> step d d'.

Lemma getStatus_state version dateToString json d d' :
  getStatus version dateToString d = (json, d') ->
  exists l, d' = d <| trace := trace d ++ l |> /\ forall r, quiet r l.
Proof.
  unfold getStatus, bind, gets, getPeerStatus, call, ret.
  assert (forall r, quiet r [InterfaceExists]) as Hq1 by (by intros []; repeat constructor).
  assert (forall r, quiet r ([InterfaceExists] ++ [GetPeerStatus])) as Hq2
    by (by intros []; repeat constructor).
  destruct (connectionList _) as [|c l]; [intros [= _ <-]; by exists [InterfaceExists]|].
  destruct (negb _); [intros [= _ <-]; by exists [InterfaceExists]|].
  destruct (list_find _ _) as [[i st]|]; intros [= _ <-];
    exists ([InterfaceExists] ++ [GetPeerStatus]); (split; [|done]);
    rewrite app_assoc; by destruct d.
Qed.

Lemma step_tracked (d d' : Daemon) :
  step d d' -> tracked d -> polled d -> tracked d' /\ polled d'.
Proof.
  intros [config ? ? E|e b ? ? E|u ? ? _ E|version f json ? ? E|b ? ? E] Ht Hp.
  - by eapply activate_tracked.
  - rewrite deactivate_eq in E. by eapply teardown_tracked.
  - eapply checkHandshake_tracked; [|exact E]. exact Ht.
  - destruct (getStatus_state _ _ _ _ _ E) as (l & -> & Hq). split; [|exact Hp].
    intros r Hr. cbn [trace] in Hr. change (present r (trace d0 ++ l) = true) in Hr.
    rewrite present_app in Hr. apply after_quiet in Hr; [|apply Hq]. by apply Ht.
  - unfold abortBackendFailure, bind, emit, modify in E. rewrite deactivate_eq in E.
    eapply teardown_tracked; [| |exact E]; done.
Qed.

Lemma reachable_from (d d' : Daemon) :
  rtc step d d' -> tracked d /\ polled d -> tracked d' /\ polled d'.
Proof.
  induction 1 as [d|d1 d2 d3 Hs _ IH]; [done|]. intros [Ht Hp]. apply IH.
  by eapply step_tracked.
Qed.

Lemma reachable_tracked (d : Daemon) : rtc step initial d -> tracked d /\ polled d.
Proof.
  intros Hr. apply (reachable_from _ _ Hr). split; [by intros []|done].
Qed.

(** C4: in a daemon whose activations have succeeded, every route and every peer it
    has asked the backend for belongs to one of its connections, a connection
    that awaits its handshake is being polled, and a deactivation that is carried
    out asks the backend to remove every one of them: no route and no peer is
    left behind, whatever the backend answers and however often the server was
    switched. *)
Theorem deactivate_leaves_nothing (d d' : Daemon) (emitSignals ok : bool) :
  rtc step initial d -> deactivate emitSignals d = (ok, d') ->
  m_connections d' = noConnections ->
  polled d /\ forall r, present r (trace d') = false.
Proof.
  intros Hr. rewrite deactivate_eq. intros Hd Hn.
  destruct (reachable_tracked d Hr) as [Ht Hp]. split; [done|].
  intros r. by eapply teardown_present.
Qed.

(** A deactivation runs the down script of the first connection and, unless
    that fails, restores the resolvers, removes the routes and the peer of each
    connection in turn and deletes the interface; the result is that of the last
    call, the connections are forgotten and the signal is emitted if asked for.
    If the script fails nothing else is done. *)
Theorem deactivate_calls (d : Daemon) (emitSignals : bool) :
  let l := connectionList (m_connections d) in
  let calls := trace d ++ downCalls l ++ [RestoreResolvers] ++ teardownCalls l in
  if fst (execute (downCalls l) (trace d)) then
    deactivate emitSignals d
    = (answer calls DeleteInterface,
       mkDaemon noConnections (m_handshakeTimer d) (calls ++ [DeleteInterface])
         (signals d ++ (if emitSignals then [Disconnected] else [])))
  else deactivate emitSignals d = (false, d <| trace := trace d ++ downCalls l |>).
Proof.
  cbn zeta. rewrite deactivate_eq. unfold teardownPlan.
  set (l := connectionList (m_connections d)).
  assert (forall t, (execute (downCalls l) t).2 = t ++ downCalls l) as Ht.
  { intros t. destruct l as [|s l']; simpl; [by rewrite app_nil_r|]. by destruct (answer t _). }
  specialize (Ht (trace d)). destruct (execute (downCalls l) (trace d)) as [[] t];
    cbn [fst snd] in *; subst t; [|done]. by rewrite <- !app_assoc.
Qed.

(** C8: the first activation of a hop makes the calls of the plan in order and
    stops at the first that fails. If all succeed the connection is registered,
    awaiting its handshake with the poll timer running; otherwise the
    connections are as before and [activationFailure] is emitted once. *)
Theorem activate_first (config : InterfaceConfig) (d : Daemon) :
  lookupHop (m_hopType config) (m_connections d) = None ->
  let plan := bringUpPlan (answer (trace d) InterfaceExists) config in
  exists ok d', activate config d = (Ret ok, d') /\
  if ok then
    trace d' = trace d ++ [InterfaceExists] ++ plan
    /\ lookupHop (m_hopType config) (m_connections d') = Some (mkConnectionState None config)
    /\ (forall h, h <> m_hopType config ->
        lookupHop h (m_connections d') = lookupHop h (m_connections d))
    /\ m_handshakeTimer d' = true /\ signals d' = signals d
  else
    (exists done_ c rest, plan = done_ ++ c :: rest
     /\ trace d' = trace d ++ [InterfaceExists] ++ done_ ++ [c]
     /\ answer (trace d ++ [InterfaceExists] ++ done_) c = false)
    /\ m_connections d' = m_connections d /\ m_handshakeTimer d' = m_handshakeTimer d
    /\ signals d' = signals d ++ [ActivationFailure].
Proof.
  intros Hn plan. rewrite activate_eq. unfold activatePlan. rewrite Hn, bringUp_eq.
  cbn zeta. fold plan. pose proof (execute_spec plan (trace d ++ [InterfaceExists])) as Hs.
  destruct (execute plan _) as [[] t].
  - exists true. eexists. split; [done|]. cbn. subst t. rewrite <- app_assoc.
    split_and!; [done| | |done|done].
    + change (lookupHop (m_hopType config) (insertHop (m_hopType config)
        (mkConnectionState None config) (m_connections d))
        = Some (mkConnectionState None config)).
      rewrite lookup_insertHop. by bd_true.
    + intros h Hh. change (lookupHop h (insertHop (m_hopType config)
        (mkConnectionState None config) (m_connections d)) = lookupHop h (m_connections d)).
      rewrite lookup_insertHop. by bd_false.
  - exists false. eexists. split; [done|]. split; [|done].
    destruct Hs as (a & c & rest & Hp & -> & Ha). exists a, c, rest.
    rewrite <- !app_assoc in *. done.
Qed.

(** An activation that replaces a connection it cannot switch is a deactivation
    without signal followed by a first activation; when that fails,
    [activationFailure] is emitted twice. *)
Theorem activate_again (config : InterfaceConfig) (d d1 d2 : Daemon) (ok : bool) :
  lookupHop (m_hopType config) (m_connections d) <> None ->
  supportServerSwitching config d = false ->
  deactivate false d = (true, d1) -> activate config d1 = (Ret ok, d2) ->
  if ok then activate config d = (Ret true, d2)
  else exists d', activate config d = (Ret false, d') /\ m_connections d' = noConnections
       /\ signals d' = signals d ++ [ActivationFailure; ActivationFailure].
Proof.
  rewrite deactivate_eq, !activate_eq. intros Hl Hs Hd Ha.
  unfold activatePlan at 1 2. unfold activatePlan at 1 in Ha.
  pose proof (teardown_connections _ _ _ Hd) as Hn.
  rewrite Hn, lookup_noConnections in Ha.
  destruct (lookupHop (m_hopType config) (m_connections d)); [|done].
  rewrite Hs, Hd. destruct (guarded (bringUp config d1)) as [b d3] eqn:Eg.
  injection Ha as -> ->. destruct ok; [done|].
  eexists. split; [done|]. revert Eg. rewrite bringUp_eq. cbn zeta.
  destruct (execute _ _) as [[] t]; [done|]. intros [= <-].
  split; [exact Hn|]. cbn. unfold teardownPlan in Hd.
  destruct (execute _ (trace d)) as [[] t']; [|done]. injection Hd as _ <-.
  cbn. by rewrite app_nil_r, <- app_assoc.
Qed.

Lemma support_lookup (config : InterfaceConfig) (d : Daemon) :
  supportServerSwitching config d = true ->
  exists s, lookupHop (m_hopType config) (m_connections d) = Some s.
Proof. unfold supportServerSwitching. destruct (lookupHop _ _); [eauto|done]. Qed.

Lemma switchServer_connection (config : InterfaceConfig) (d d1 : Daemon) :
  switchServer config d = (true, d1) ->
  lookupHop (m_hopType config) (m_connections d1) = Some (mkConnectionState None config)
  /\ m_handshakeTimer d1 = m_handshakeTimer d.
Proof.
  unfold switchServer. unfold bind at 1. cbn [gets]. rewrite call_bind, callAll_bind.
  destruct (execute _ (trace d)) as [[] t1]; [|done].
  unfold bind at 1. rewrite callAll_eq. destruct (execute _ _) as [b t2].
  unfold bind at 1. rewrite callEach_eq.
  set (last := default _ _). set (t3 := trace _ ++ _).
  destruct (QString_eqb _ _).
  - unfold bind, ret, setConnection, modify. intros [= <-]. split; [|done].
    change (lookupHop (m_hopType config) (insertHop (m_hopType config)
      (mkConnectionState None config) (m_connections d)) = Some (mkConnectionState None config)).
    rewrite lookup_insertHop. by bd_true.
  - rewrite call_bind, callAll_bind. destruct (execute _ _) as [[] t4]; [|done].
    unfold bind, ret, setConnection, modify. intros [= <-]. split; [|done].
    change (lookupHop (m_hopType config) (insertHop (m_hopType config)
      (mkConnectionState None config) (m_connections d)) = Some (mkConnectionState None config)).
    rewrite lookup_insertHop. by bd_true.
Qed.

(** A switch that exchanges the servers but then cannot restore the resolvers
    fails and keeps the new connection, which awaits a handshake that nothing
    polls for: the timer was stopped once the old handshake was seen. *)
Theorem switch_unpolled (config : InterfaceConfig) (d d1 : Daemon) :
  supportServerSwitching config d = true -> m_handshakeTimer d = false ->
  switchServer config d = (true, d1) -> answer (trace d1) RestoreResolvers = false ->
  exists d', activate config d = (Ret false, d')
  /\ lookupHop (m_hopType config) (m_connections d') = Some (mkConnectionState None config)
  /\ ~ polled d'.
Proof.
  intros Hs Ht Hsw Ha. destruct (support_lookup config d Hs) as [s Hl].
  destruct (switchServer_connection config d d1 Hsw) as [Hc Htm].
  unfold activate. cbn [activateFuel]. rewrite Hl, Hs, failureGuard_eq.
  unfold switchTo. unfold bind at 1. rewrite Hsw. unfold bind at 1, call at 1. rewrite Ha.
  eexists. split; [done|]. split; [exact Hc|]. intros Hp.
  assert (m_handshakeTimer d1 = true); [|congruence]. apply Hp.
  apply existsb_exists. exists (mkConnectionState None config). split; [|done].
  apply list_elem_of_In, elem_connectionList. by exists (m_hopType config).
Qed.

(** ** Polling *)

(** The completed handshakes among the reported peers of a configuration. *)
Definition completed (config : InterfaceConfig) (peers : list PeerStatus) : list PeerStatus :=
  filter (fun s => QString_eqb (m_serverPublicKey config) (m_pubkey s)
                   && negb (m_handshake s =? 0) = true) peers.

Lemma pollPeers_spec (config : InterfaceConfig) (peers : list PeerStatus) (date : option Z) :
  pollPeers config peers date
  = (match last (completed config peers) with Some s => Some (m_handshake s) | None => date end,
     map (fun s => Connected (m_pubkey s)) (completed config peers)).
Proof.
  revert date. induction peers as [|s peers IH]; intros date; [done|]. simpl.
  unfold completed. destruct (_ && _) eqn:E.
  - rewrite filter_cons_True by done. rewrite IH. cbn [map]. f_equal.
    fold (completed config peers). destruct (completed config peers) as [|x l]; [done|].
    change (last (s :: x :: l)) with (last (x :: l)).
    destruct (last (x :: l)) eqn:Ex; [done|]. by apply last_None in Ex.
  - rewrite filter_cons_False by (by rewrite E). apply IH.
Qed.

(** What a poll does to one connection, and the signals it gives. *)
Definition polledConnection (peers : list PeerStatus) (c : ConnectionState)
  : ConnectionState * list Signal :=
  match m_date c with
  | Some _ => (c, [])
  | None =>
      (mkConnectionState (m_handshake <$> last (completed (m_config c) peers)) (m_config c),
       map (fun s => Connected (m_pubkey s)) (completed (m_config c) peers))
  end.

Lemma pollConnection_spec (peers : list PeerStatus) (c : option ConnectionState) :
  pollConnection peers c
  = match c with
    | Some c => (Some (polledConnection peers c).1, (polledConnection peers c).2)
    | None => (None, [])
    end.
Proof.
  unfold pollConnection, polledConnection. destruct c as [c|]; [|done].
  destruct (m_date c); [done|]. rewrite pollPeers_spec.
  destruct c, (last _); done.
Qed.

(** When the poll timer expires, each connection without a date takes the last
    completed handshake reported for its peer and [connected] is emitted for each
    of them, in the order of the hops; a connection that has a date is left
    alone; the timer runs again exactly when a connection still has none. *)
Theorem handshakeTimeout_spec (d : Daemon) :
  let peers := peerStatus (trace d) in
  exists d', handshakeTimeout d = (tt, d')
  /\ connectionList (m_connections d')
      = map (fun c => (polledConnection peers c).1) (connectionList (m_connections d))
  /\ signals d' = signals d
       ++ concat (map (fun c => (polledConnection peers c).2) (connectionList (m_connections d)))
  /\ m_handshakeTimer d' = existsb pending (connectionList (m_connections d'))
  /\ trace d' = trace d ++ [GetPeerStatus].
Proof.
  intros peers. unfold handshakeTimeout. unfold bind at 1, modify.
  rewrite checkHandshake_eq. eexists. split; [done|].
  cbn [m_connections signals m_handshakeTimer trace]. unfold updateField. cbn.
  rewrite !pollConnection_spec. fold peers. split_and!.
  - destruct (m_connections d) as [[c0|] [c1|] [c2|]]; done.
  - destruct (m_connections d) as [[c0|] [c1|] [c2|]]; cbn; by rewrite ?app_nil_r.
  - by destruct (existsb _ _).
  - done.
Qed.

End Resources.

(** ** The configuration message *)

Section Message.
Context `{QtTextLaws}.
Variable sort : list IPAddress -> list IPAddress.

(** What a text field of the message holds for a member of the configuration. *)
Definition sent (s : QString) : QString := Some (text s).

(** The configuration the daemon works with. *)
Definition received (c : InterfaceConfig) : InterfaceConfig :=
  mkInterfaceConfig (m_hopType c) (sent (m_privateKey c)) (sent (m_deviceIpv4Address c))
    (sent (m_deviceIpv6Address c))
    (if isExitHop (m_hopType c) then sent (m_serverIpv4Gateway c) else None)
    (if isExitHop (m_hopType c) then sent (m_serverIpv6Gateway c) else None)
    (sent (m_serverPublicKey c)) (sent (m_serverIpv4AddrIn c)) (sent (m_serverIpv6AddrIn c))
    (if isExitHop (m_hopType c) then sent (m_dnsServer c) else None)
    None None (m_serverPort c) (sort (m_allowedIPAddressRanges c)) (m_vpnDisabledApps c).

Lemma parseRange_toJson (ip : IPAddress) : wf ip -> parseRange (rangeToJson ip) = Some ip.
Proof.
  intros [Ha Hp]. unfold rangeToJson.
  change (parseRange _) with (Some (mkIPAddress (hostOfString (hostToString (m_address ip)))
    (jsonToInt (ofInt (m_prefixLength ip))))).
  rewrite hostOfString_toString, jsonToInt_ofInt by
    (done || destruct (m_address ip); simpl in Hp; lia).
  by destruct ip.
Qed.

Lemma parseRanges_toJson (l : list IPAddress) :
  Forall wf l -> mapM parseRange (map rangeToJson l) = Some l.
Proof.
  intros Hl. induction Hl as [|ip l Hip _ IH]; [done|]. cbn [map mapM].
  change (mapM parseRange (rangeToJson ip :: map rangeToJson l))
    with (parseRange (rangeToJson ip) ≫= fun y =>
          mapM parseRange (map rangeToJson l) ≫= fun k => Some (y :: k)).
  by rewrite parseRange_toJson, IH.
Qed.

Lemma parseApps_toJson (l : list chars) : mapM toQString (map JString l) = Some l.
Proof.
  induction l as [|s l IH]; [done|].
  change (mapM toQString (map JString (s :: l)))
    with (mapM toQString (map JString l) ≫= fun k => Some (s :: k)). by rewrite IH.
Qed.

(** The members of the message. *)
Lemma toJson_texts (c : InterfaceConfig) :
  let v k := value (qs k) (toJson c) in
  v "privateKey"%string = ofQString (m_privateKey c)
  /\ v "serverPublicKey"%string = ofQString (m_serverPublicKey c)
  /\ v "serverPort"%string = ofInt (m_serverPort c)
  /\ v "deviceIpv4Address"%string = ofQString (m_deviceIpv4Address c)
  /\ v "deviceIpv6Address"%string = ofQString (m_deviceIpv6Address c)
  /\ v "serverIpv4AddrIn"%string = ofQString (m_serverIpv4AddrIn c)
  /\ v "serverIpv6AddrIn"%string = ofQString (m_serverIpv6AddrIn c)
  /\ v "allowedIPAddressRanges"%string
      = JArray (map rangeToJson (m_allowedIPAddressRanges c))
  /\ v "vpnDisabledApps"%string = JArray (map JString (m_vpnDisabledApps c)).
Proof. destruct c as [[] ? ? ? ? ? ? ? ? ? ? ? ? ? ?]; by repeat split. Qed.

Lemma toJson_gateways (c : InterfaceConfig) :
  let exitText s := if isExitHop (m_hopType c) then sent s else None in
  optionalText (qs "serverIpv4Gateway") (toJson c) = exitText (m_serverIpv4Gateway c)
  /\ optionalText (qs "serverIpv6Gateway") (toJson c) = exitText (m_serverIpv6Gateway c)
  /\ parseDns (toJson c) = Some (exitText (m_dnsServer c))
  /\ parseHop (toJson c) = Some (m_hopType c)
  /\ hasKey (qs "vpnDisabledApps") (toJson c) = true.
Proof. destruct c as [[] ? ? ? ? ? ? ? ? ? ? ? ? ? ?]; by repeat split. Qed.

Lemma parseConfig_received (c : InterfaceConfig) (hop0 : HopType) :
  Forall wf (m_allowedIPAddressRanges c) ->
  parseConfig sort (toJson c) (emptyConfig hop0) = Some (received c).
Proof.
  intros Hw. destruct (toJson_texts c) as (Hk & Hpub & Hport & Hd4 & Hd6 & Hi4 & Hi6 & Hr & Ha).
  destruct (toJson_gateways c) as (Hg4 & Hg6 & Hdns & Hhop & Happs).
  unfold parseConfig, parseStringList.
  rewrite Hk, Hpub, Hport, Hg4, Hg6, Hdns, Hhop, Hr, Happs, Ha.
  unfold optionalText. rewrite Hd4, Hd6, Hi4, Hi6. cbn [ofQString ofInt toQString].
  rewrite parseRanges_toJson, parseApps_toJson by done. cbn.
  by rewrite Z.quot_1_r.
Qed.

(** The daemon reads back the configuration the client sends and activates it:
    every field, the gateways and the resolver of an exit hop, and the allowed ranges
    in the order the sort gives; null texts arrive as empty ones. *)
Theorem parseConfig_toJson (b : Backend) (c : InterfaceConfig) (hop0 : HopType) (d : Daemon) :
  Forall wf (m_allowedIPAddressRanges c) ->
  parseConfig sort (toJson c) (emptyConfig hop0) = Some (received c)
  /\ activateJson sort hop0 (toJson c) d = activate (received c) d.
Proof.
  intros Hw. pose proof (parseConfig_received c hop0 Hw) as E. split; [exact E|].
  unfold activateJson. by rewrite E.
Qed.

End Message.

(** ** Examples *)

#[local] Existing Instance modelText.
#[local] Existing Instance modelTextLaws.

(** A backend that accepts everything but the given calls. *)
Definition rejecting (rejected : Call -> bool) (peers : list PeerStatus) : Backend := {|
  answer _ c := match c with InterfaceExists => false | _ => negb (rejected c) end;
  peerStatus _ := peers;
  interfaceName := qs "moz0";
  getFeatures := [];
  hasIPUtils := true;
|}.

Definition accepting : Backend := rejecting (fun _ => false) [].

Definition rejectRestore : Backend :=
  rejecting (fun c => bool_decide (c = RestoreResolvers)) [].

Definition rejectUp : Backend :=
  rejecting (fun c => match c with Run Up _ => true | _ => false end) [].

Definition home (server : chars) (address : chars) : InterfaceConfig :=
  mkInterfaceConfig SingleHop (Some (qs "key=")) (Some address) None None None (Some server)
    (Some (qs "192.0.2.1")) None (Some (qs "10.64.0.1")) None None 51820
    [ip4 0 0 0 0 1; ip4 128 0 0 0 1] [].

Definition serverA : InterfaceConfig := home (qs "A=") (qs "10.64.0.2/32").
Definition serverB : InterfaceConfig := home (qs "B=") (qs "10.64.0.2/32").
Definition serverC : InterfaceConfig := home (qs "C=") (qs "10.64.0.3/32").

(** The daemon after it has connected to a server, and after its handshake. *)
Definition connectedTo (b : Backend) (c : InterfaceConfig) : Daemon :=
  snd (activate (H0 := b) c initial).

Definition settled (b : Backend) (c : InterfaceConfig) : Daemon :=
  (connectedTo b c) <| m_handshakeTimer := false |>.

Definition switched : Daemon := snd (activate (H0 := accepting) serverB (connectedTo accepting serverA)).

Lemma deactivate_leaves_nothing_witness :
  present (Peer (qs "B=")) (trace (snd (deactivate (H0 := accepting) true switched))) = false.
Proof.
  refine (proj2 (deactivate_leaves_nothing (H0 := accepting) switched
    (snd (deactivate (H0 := accepting) true switched)) true true _ _ _) _).
  - apply (rtc_l _ initial (connectedTo accepting serverA)).
    + apply (step_activate (H0 := accepting) serverA). by vm_compute.
    + apply rtc_once, (step_activate (H0 := accepting) serverB). by vm_compute.
  - by vm_compute.
  - by vm_compute.
Defined.

Lemma activate_first_witness :
  exists d', activate (H0 := rejectUp) serverA initial = (Ret false, d')
             /\ signals d' = [ActivationFailure].
Proof.
  destruct (activate_first (H0 := rejectUp) serverA initial eq_refl) as (ok & d' & E & Hd).
  exists d'. vm_compute in E. injection E as <- <-.
  split; [by vm_compute|]. destruct Hd as (_ & _ & _ & ->). reflexivity.
Defined.

(** The up script is rejected the second time. *)
Definition rejectUpAgain : Backend :=
  rejecting (fun c => bool_decide (c = Run Up serverC)) [].

Lemma activate_again_witness :
  exists d', activate (H0 := rejectUpAgain) serverC (connectedTo rejectUpAgain serverA)
             = (Ret false, d')
             /\ signals d' = [ActivationFailure; ActivationFailure].
Proof.
  destruct (activate_again (H0 := rejectUpAgain) serverC (connectedTo rejectUpAgain serverA)
    (snd (deactivate (H0 := rejectUpAgain) false (connectedTo rejectUpAgain serverA)))
    (snd (activate (H0 := rejectUpAgain) serverC
      (snd (deactivate (H0 := rejectUpAgain) false (connectedTo rejectUpAgain serverA)))))
    false) as (d' & E & _ & Hs); [by vm_compute..|].
  exists d'. split; [exact E|]. rewrite Hs. by vm_compute.
Defined.

Lemma switch_unpolled_witness :
  exists d', activate (H0 := rejectRestore) serverB (settled rejectRestore serverA)
             = (Ret false, d') /\ ~ polled d'.
Proof.
  destruct (switch_unpolled (H0 := rejectRestore) serverB (settled rejectRestore serverA)
    (snd (switchServer (H0 := rejectRestore) serverB (settled rejectRestore serverA))))
    as (d' & E & _ & Hp); [by vm_compute..|].
  by exists d'.
Defined.

Lemma parseConfig_toJson_witness :
  parseConfig (fun l => l) (toJson serverA) (emptyConfig SingleHop)
  = Some (received (fun l => l) serverA)
  /\ activateJson (H0 := accepting) (fun l => l) SingleHop (toJson serverA) initial
     = activate (H0 := accepting) (received (fun l => l) serverA) initial.
Proof.
  apply (parseConfig_toJson (fun l => l) accepting serverA SingleHop initial).
  repeat constructor; by vm_compute.
Defined.

End Daemon.
