(* ===== verification/Server.v ===== *)
(** * Servers

    Model of [src/src/utils/models/server.cpp] and [.h]: a VPN server as the
    server list describes it, the weighted choice among servers and the choice of
    a port. The random numbers are arguments. *)
From Stdlib Require Import ZArith Lia Ascii String.
From stdpp Require Import base numbers list gmap strings.
From S2P Require Import Prelude QHostAddress QString Json.

Local Open Scope Z_scope.
Local Open Scope wg_scope.

Module Server.

Record Server : Type := mkServer {
  m_hostname : QString;
  m_ipv4AddrIn : QString;
  m_ipv4Gateway : QString;
  m_ipv6AddrIn : QString;
  m_ipv6Gateway : QString;
  m_portRanges : list (Z * Z);
  m_publicKey : QString;
  m_socksName : QString;
  m_weight : Z;
  m_multihopPort : Z;
  m_countryCode : QString;
  m_cityName : QString;
}.

#[export] Instance Server_eta : Eta Server := fun s =>
  mkServer (m_hostname s) (m_ipv4AddrIn s) (m_ipv4Gateway s) (m_ipv6AddrIn s)
    (m_ipv6Gateway s) (m_portRanges s) (m_publicKey s) (m_socksName s) (m_weight s)
    (m_multihopPort s) (m_countryCode s) (m_cityName s).

#[export] Instance Server_eq_dec : EqDecision Server.
Proof. solve_decision. Defined.

(** The constructors. *)
Definition ofCity (countryCode cityName : QString) : Server :=
  mkServer None None None None None [] None None 0 0 countryCode cityName.

Definition emptyServer : Server := ofCity None None.

Definition initialized (s : Server) : bool := negb (isEmpty (m_hostname s)).

(** One element of [port_ranges]. *)
Definition portRangeOfJson (v : QJsonValue) : option (Z * Z) :=
  match v with
  | JArray [JDouble a b as x; JDouble c d as y] => Some (u32 (jsonToInt x), u32 (jsonToInt y))
  | _ => None
  end.

(** [fromJson]: the result and the object afterwards. *)
Definition fromJson (obj : QJsonObject) (s : Server) : bool * Server :=
  let reset := s <| m_hostname := Some [] |> in
  match value (qs "hostname") obj, value (qs "ipv4_addr_in") obj,
        value (qs "ipv4_gateway") obj, value (qs "public_key") obj,
        value (qs "weight") obj, value (qs "port_ranges") obj with
  | JString hostname, JString ipv4AddrIn, JString ipv4Gateway, JString publicKey,
    JDouble n d as weight, JArray portRanges =>
      match mapM portRangeOfJson portRanges with
      | None => (false, reset)
      | Some prList =>
          (true,
           s <| m_hostname := Some hostname |>
             <| m_ipv4AddrIn := Some ipv4AddrIn |>
             <| m_ipv4Gateway := Some ipv4Gateway |>
             <| m_ipv6AddrIn := toQString (value (qs "ipv6_addr_in") obj) |>
             <| m_ipv6Gateway := toQString (value (qs "ipv6_gateway") obj) |>
             <| m_portRanges := prList |>
             <| m_publicKey := Some publicKey |>
             <| m_weight := u32 (jsonToInt weight) |>
             <| m_socksName := toQString (value (qs "socks5_name") obj) |>
             <| m_multihopPort := u32 (jsonToInt (value (qs "multihop_port") obj)) |>)
      end
  | _, _, _, _, _, _ => (false, reset)
  end.

Definition forcePort (port : Z) (s : Server) : Server :=
  s <| m_portRanges := [(port, port)] |>.

Definition fromMultihop (exit entry s : Server) : Server :=
  forcePort (m_multihopPort exit)
    (s <| m_hostname := m_hostname exit |>
       <| m_ipv4Gateway := m_ipv4Gateway exit |>
       <| m_ipv6Gateway := m_ipv6Gateway exit |>
       <| m_publicKey := m_publicKey exit |>
       <| m_socksName := m_socksName exit |>
       <| m_multihopPort := m_multihopPort exit |>
       <| m_ipv4AddrIn := m_ipv4AddrIn entry |>
       <| m_ipv6AddrIn := m_ipv6AddrIn entry |>).

(** ** The weighted choice *)

(** The sum, on 32 bits. *)
Definition weightSum (servers : list Server) : Z :=
  fold_left (fun sum s => u32 (sum + m_weight s)) servers 0.

Fixpoint chooseLoop (servers : list Server) (r : Z) : Server :=
  match servers with
  | [] => emptyServer
  | s :: rest => if r <=? m_weight s then s else chooseLoop rest (u32 (r - m_weight s))
  end.

(** [weightChooser]; [random] is the generated 32-bit number. A remainder by zero
    is undefined. *)
Definition weightChooser (servers : list Server) (random : Z) : Outcome Server :=
  match servers with
  | [] => Ret emptyServer
  | _ =>
      let modulus := u32 (weightSum servers + 1) in
      if modulus =? 0 then Undefined else Ret (chooseLoop servers (random mod modulus))
  end.

(** ** The choice of a port *)

Definition rangeLength (range : Z * Z) : Z := u32 (u32 (range.2 - range.1) + 1).

Definition portCount (ranges : list (Z * Z)) : Z :=
  fold_left (fun length range => u32 (length + rangeLength range)) ranges 0.

Fixpoint portLoop (ranges : list (Z * Z)) (r : Z) : Z :=
  match ranges with
  | [] => 0
  | range :: rest =>
      if r <=? u32 (range.2 - range.1) then u32 (r + range.1)
      else portLoop rest (u32 (r - rangeLength range))
  end.

Definition choosePort (s : Server) (random : Z) : Outcome Z :=
  match m_portRanges s with
  | [] => Ret 0
  | ranges =>
      let length := portCount ranges in
      if length =? 0 then Undefined else Ret (portLoop ranges (random mod length))
  end.

(** ** Properties of the choices *)

Definition totalWeight (servers : list Server) : Z :=
  foldr (fun s sum => m_weight s + sum) 0 servers.

Lemma u32_small (z : Z) : 0 <= z < 2 ^ 32 -> u32 z = z.
Proof. apply Z.mod_small. Qed.

Lemma totalWeight_nonneg (servers : list Server) :
  Forall (fun s => 0 <= m_weight s) servers -> 0 <= totalWeight servers.
Proof. induction 1; simpl; lia. Qed.

Lemma weightSum_total (servers : list Server) (acc : Z) :
  Forall (fun s => 0 <= m_weight s) servers -> 0 <= acc ->
  acc + totalWeight servers < 2 ^ 32 ->
  fold_left (fun sum s => u32 (sum + m_weight s)) servers acc = acc + totalWeight servers.
Proof.
  intros Hw. revert acc. induction Hw as [|s l Hs Hl IH]; intros acc Ha Hb; simpl in *; [lia|].
  pose proof (totalWeight_nonneg l Hl). rewrite u32_small by lia. rewrite IH by lia. lia.
Qed.

(** The loop picks the server in whose share of the numbers [r] falls. *)
Lemma chooseLoop_share (servers : list Server) (r : Z) :
  Forall (fun s => 0 <= m_weight s) servers -> 0 <= r <= totalWeight servers ->
  totalWeight servers < 2 ^ 32 -> servers <> [] ->
  exists before s after, servers = before ++ s :: after /\ chooseLoop servers r = s
  /\ r <= totalWeight before + m_weight s /\ (before = [] \/ totalWeight before < r).
Proof.
  intros Hw. revert r. induction Hw as [|s l Hs Hl IH]; intros r Hr Hb Hne; [done|].
  cbn [totalWeight foldr] in Hr, Hb. fold (totalWeight l) in Hr, Hb.
  pose proof (totalWeight_nonneg l Hl). cbn [chooseLoop].
  destruct (Z.leb_spec r (m_weight s)) as [Hle|Hgt].
  - exists [], s, l. split_and!; [done|done|simpl; lia|by left].
  - rewrite u32_small by lia. destruct l as [|s' l']; [simpl in *; lia|].
    destruct (IH (r - m_weight s)) as (b & x & a & -> & -> & Hx & Hbx); [lia|lia|done|].
    exists (s :: b), x, a. cbn [totalWeight foldr]. fold (totalWeight b).
    split_and!; [done|done|lia|right].
    destruct Hbx as [->|]; simpl; lia.
Qed.

(** With non-negative weights whose sum fits, the choice returns a server of the
    list. Of the [sum + 1] equally likely remainders, those above the weights of
    the servers before it and up to its own weight more choose a server, so its
    chances are its weight; the first server also gets the remainder zero. *)
Theorem weightChooser_share (servers : list Server) (random : Z) :
  servers <> [] -> Forall (fun s => 0 <= m_weight s) servers ->
  totalWeight servers < 2 ^ 32 - 1 ->
  let r := random mod (totalWeight servers + 1) in
  exists before s after, servers = before ++ s :: after
  /\ weightChooser servers random = Ret s
  /\ r <= totalWeight before + m_weight s /\ (before = [] \/ totalWeight before < r).
Proof.
  intros Hne Hw Hb r. pose proof (totalWeight_nonneg servers Hw) as H0.
  assert (weightSum servers = totalWeight servers) as Hs by (apply weightSum_total; [done|lia..]).
  assert (0 <= r <= totalWeight servers) as Hr.
  { pose proof (Z.mod_pos_bound random (totalWeight servers + 1)). subst r. lia. }
  destruct (chooseLoop_share servers r Hw Hr) as (b & s & a & E & Hc & H1 & H2); [lia|done|].
  exists b, s, a. split_and!; [done| |done|done].
  unfold weightChooser. destruct servers as [|s0 l]; [done|].
  rewrite Hs, u32_small by lia. destruct (Z.eqb_spec (totalWeight (s0 :: l) + 1) 0); [lia|].
  exact (f_equal Ret Hc).
Qed.

(** A single server with weight [-1] in the list, that is [2 ^ 32 - 1], makes
    the choice divide by zero. *)
Theorem weightChooser_undefined (s : Server) (random : Z) :
  m_weight s = u32 (-1) -> weightChooser [s] random = Undefined.
Proof. intros Hw. unfold weightChooser, weightSum. simpl. by rewrite Hw. Qed.

Definition goodRange (range : Z * Z) : Prop := 1 <= range.1 <= range.2 /\ range.2 <= 65535.

Definition totalPorts (ranges : list (Z * Z)) : Z :=
  foldr (fun range sum => range.2 - range.1 + 1 + sum) 0 ranges.

Lemma rangeLength_good (range : Z * Z) :
  goodRange range -> u32 (range.2 - range.1) = range.2 - range.1
  /\ rangeLength range = range.2 - range.1 + 1.
Proof.
  intros [H1 H2]. unfold rangeLength. rewrite !u32_small by (rewrite ?u32_small; lia). done.
Qed.

Lemma totalPorts_pos (ranges : list (Z * Z)) :
  Forall goodRange ranges -> 0 <= totalPorts ranges /\ (ranges <> [] -> 0 < totalPorts ranges).
Proof.
  induction 1 as [|range l [H1 H2] _ [IH _]]; simpl; [done|]. split; [lia|intros _; lia].
Qed.

Lemma portCount_total (ranges : list (Z * Z)) (acc : Z) :
  Forall goodRange ranges -> 0 <= acc -> acc + totalPorts ranges < 2 ^ 32 ->
  fold_left (fun length range => u32 (length + rangeLength range)) ranges acc
  = acc + totalPorts ranges.
Proof.
  intros Hg. revert acc. induction Hg as [|range l Hr Hl IH]; intros acc Ha Hb; simpl in *; [lia|].
  destruct (rangeLength_good range Hr) as [_ ->]. pose proof (totalPorts_pos l Hl) as [? _].
  destruct Hr. rewrite u32_small by lia. rewrite IH by lia. lia.
Qed.

Lemma portLoop_in (ranges : list (Z * Z)) (r : Z) :
  Forall goodRange ranges -> 0 <= r < totalPorts ranges -> totalPorts ranges < 2 ^ 32 ->
  exists range, range ∈ ranges /\ range.1 <= portLoop ranges r <= range.2.
Proof.
  intros Hg. revert r. induction Hg as [|range l Hr Hl IH]; intros r Hb Ht; simpl in *; [lia|].
  destruct (rangeLength_good range Hr) as [-> ->]. destruct Hr as [H1 H2].
  destruct (Z.leb_spec r (range.2 - range.1)).
  - exists range. split; [left|]. rewrite u32_small; lia.
  - rewrite u32_small by (pose proof (totalPorts_pos l Hl); lia).
    destruct (IH (r - (range.2 - range.1 + 1))) as (x & Hx & Hp); [lia|lia|].
    exists x. split; [by right|done].
Qed.

(** With port ranges inside 1..65535 (and fewer ports than [2 ^ 32]), the
    chosen port lies in one of the ranges; without ranges it is zero. *)
Theorem choosePort_range (s : Server) (random : Z) :
  Forall goodRange (m_portRanges s) -> totalPorts (m_portRanges s) < 2 ^ 32 ->
  exists port, choosePort s random = Ret port
  /\ if decide (m_portRanges s = []) then port = 0
     else exists range, range ∈ m_portRanges s /\ range.1 <= port <= range.2.
Proof.
  intros Hg Hb. unfold choosePort. destruct (m_portRanges s) as [|r0 l] eqn:E.
  { exists 0. by split. }
  pose proof (totalPorts_pos (r0 :: l) Hg) as [_ Hp]. specialize (Hp ltac:(done)).
  assert (portCount (r0 :: l) = totalPorts (r0 :: l)) as ->
    by (apply portCount_total; [done|lia..]).
  destruct (Z.eqb_spec (totalPorts (r0 :: l)) 0); [lia|].
  eexists. split; [done|]. rewrite decide_False by done.
  apply portLoop_in; [done|by apply Z.mod_pos_bound|done].
Qed.

(** A server read from the list has its name, and one whose description is
    refused has none, whatever it held before: it is not initialized. *)
Theorem fromJson_initialized (obj : QJsonObject) (s : Server) :
  match fromJson obj s with
  | (false, s') => initialized s' = false
  | (true, s') =>
      toQString (value (qs "hostname") obj) = m_hostname s'
      /\ toQString (value (qs "public_key") obj) = m_publicKey s'
      /\ toQString (value (qs "ipv4_gateway") obj) = m_ipv4Gateway s'
      /\ 0 <= m_weight s' < 2 ^ 32
      /\ Forall (fun r => 0 <= r.1 < 2 ^ 32 /\ 0 <= r.2 < 2 ^ 32) (m_portRanges s')
  end.
Proof.
  unfold fromJson.
  destruct (value (qs "hostname") obj); try done.
  destruct (value (qs "ipv4_addr_in") obj); try done.
  destruct (value (qs "ipv4_gateway") obj); try done.
  destruct (value (qs "public_key") obj); try done.
  destruct (value (qs "weight") obj); try done.
  destruct (value (qs "port_ranges") obj); try done.
  destruct (mapM portRangeOfJson l) as [prList|] eqn:E; [|done].
  split_and!; try done; try (by apply Z.mod_pos_bound).
  change (Forall (fun r => 0 <= r.1 < 2 ^ 32 /\ 0 <= r.2 < 2 ^ 32) prList).
  apply mapM_Some_1 in E. apply Forall_lookup_2. intros i r Hr.
  destruct (Forall2_lookup_r _ _ _ _ _ E Hr) as (v & _ & Hv).
  unfold portRangeOfJson in Hv. repeat (case_match; try done). injection Hv as <-.
  split; by apply Z.mod_pos_bound.
Qed.

(** ** Examples *)

Definition sampleServer (w : Z) : Server := emptyServer <| m_weight := w |>
  <| m_portRanges := [(53, 53); (4000, 33433)] |>.

Lemma weightChooser_share_witness :
  exists s, weightChooser [sampleServer 10; sampleServer 20] 15 = Ret s /\ m_weight s = 20.
Proof.
  destruct (weightChooser_share [sampleServer 10; sampleServer 20] 15)
    as (b & s & a & E & Hc & _ & _); [done|repeat constructor; simpl; lia|simpl; lia|].
  exists s. split; [exact Hc|]. vm_compute in Hc. injection Hc as <-. reflexivity.
Defined.

Lemma weightChooser_undefined_witness :
  weightChooser [sampleServer (u32 (-1))] 7 = Undefined.
Proof. apply (weightChooser_undefined (sampleServer (u32 (-1))) 7). reflexivity. Defined.

Lemma choosePort_range_witness :
  exists port, choosePort (sampleServer 1) 100 = Ret port /\ port <> 0.
Proof.
  destruct (choosePort_range (sampleServer 1) 100) as (p & Hp & _).
  - repeat constructor; simpl; lia.
  - simpl. lia.
  - exists p. split; [exact Hp|]. vm_compute in Hp. injection Hp as <-. discriminate.
Defined.

End Server.
