(* ===== verification/ServerList.v ===== *)
(** * The server list

    Model of [src/src/utils/models/servercity.cpp], [servercountry.cpp] and
    [servercountrymodel.cpp]: the countries, cities and servers read from the
    JSON document, and the look-ups in them. Translated names and their collation
    are Qt's; the two sorts are arguments. *)
From Stdlib Require Import ZArith Lia Ascii String.
From stdpp Require Import base numbers list gmap strings.
From S2P Require Import Prelude QHostAddress QString Json Server.

Local Open Scope Z_scope.
Local Open Scope wg_scope.

Module ServerList.
Import Server.

(** ** Cities *)

(** A latitude or longitude is kept as the JSON number. *)
Record ServerCity : Type := mkServerCity {
  m_country : QString;
  m_name : QString;
  m_code : QString;
  m_hashKey : QString;
  m_latitude : QJsonValue;
  m_longitude : QJsonValue;
  m_servers : list chars;
  m_latency : Z;
  m_connectionScore : Z;
}.

#[export] Instance ServerCity_eta : Eta ServerCity := fun c =>
  mkServerCity (m_country c) (m_name c) (m_code c) (m_hashKey c) (m_latitude c) (m_longitude c)
    (m_servers c) (m_latency c) (m_connectionScore c).

Definition emptyCity : ServerCity :=
  mkServerCity None None None None JUndefined JUndefined [] 0 0.

Definition cityInitialized (c : ServerCity) : bool := negb (isEmpty (m_name c)).

(** The static [hashKey(country, cityName)]. *)
Definition hashKey (country cityName : chars) : chars := cityName ++ qs "," ++ country.

Definition publicKeyOfJson (v : QJsonValue) : option chars :=
  match v with
  | JObject serverObj => toQString (value (qs "public_key") serverObj)
  | _ => None
  end.

(** [fromJson] on a new object; [None] where it fails. *)
Definition cityOfJson (obj : QJsonObject) (country : chars) : option ServerCity :=
  match value (qs "name") obj, value (qs "code") obj, value (qs "latitude") obj,
        value (qs "longitude") obj, value (qs "servers") obj with
  | JString name, JString code, JDouble _ _ as latitude, JDouble _ _ as longitude,
    JArray serversArray =>
      servers ← mapM publicKeyOfJson serversArray;
      Some (mkServerCity (Some country) (Some name) (Some code) (Some (hashKey country name))
              latitude longitude servers 0 0)
  | _, _, _, _, _ => None
  end.

(** [operator=]: the hash key, the latency and the score stay those of the target. *)
Definition assignCity (target other : ServerCity) : ServerCity :=
  mkServerCity (m_country other) (m_name other) (m_code other) (m_hashKey target)
    (m_latitude other) (m_longitude other) (m_servers other) (m_latency target)
    (m_connectionScore target).

Definition setLatency (msec : Z) (c : ServerCity) : ServerCity := c <| m_latency := msec |>.
Definition setConnectionScore (score : Z) (c : ServerCity) : ServerCity :=
  c <| m_connectionScore := score |>.

(** ** Countries *)

Record ServerCountry : Type := mkServerCountry {
  name : chars;
  code : chars;
  cities : list chars;
}.

Definition cityNameOfJson (v : QJsonValue) : option chars :=
  match v with
  | JObject cityObject =>
      let cityName := text (toQString (value (qs "name") cityObject)) in
      if bool_decide (cityName = []) then None else Some cityName
  | _ => None
  end.

(** ** The model *)

Inductive Signal : Type := BeginResetModel | EndResetModel | Changed.

#[export] Instance Signal_eq_dec : EqDecision Signal.
Proof. solve_decision. Defined.

Record ServerCountryModel `{QtJson} : Type := mkModel {
  m_rawJson : QByteArray;
  m_countries : list ServerCountry;
  m_cities : gmap chars ServerCity;
  m_serverTable : gmap chars Server;
  signals : list Signal;
}.

#[export] Instance Model_eta `{QtJson} : Eta ServerCountryModel := fun m =>
  mkModel _ (m_rawJson m) (m_countries m) (m_cities m) (m_serverTable m) (signals m).

Section Model.
Context `{QtJson}.

(** The sort of the names of the cities of a country, and of the countries. *)
Variable sortCityNames : list chars -> list chars.
Variable sortCountries : list ServerCountry -> list ServerCountry.

Definition sortCities (c : ServerCountry) : ServerCountry :=
  mkServerCountry (name c) (code c) (sortCityNames (cities c)).

Definition countryOfJson (countryObj : QJsonObject) : option ServerCountry :=
  match value (qs "name") countryObj, value (qs "code") countryObj,
        value (qs "cities") countryObj with
  | JString countryName, JString countryCode, JArray citiesArray =>
      cityNames ← mapM cityNameOfJson citiesArray;
      Some (sortCities (mkServerCountry countryName countryCode cityNames))
  | _, _, _ => None
  end.

Definition emit (s : Signal) (m : ServerCountryModel) : ServerCountryModel :=
  m <| signals := signals m ++ [s] |>.

(** A loop that stops at the first failure, keeping what it has done. *)
Fixpoint loop {A : Type} (f : A -> ServerCountryModel -> bool * ServerCountryModel)
    (l : list A) (m : ServerCountryModel) : bool * ServerCountryModel :=
  match l with
  | [] => (true, m)
  | x :: r => match f x m with (false, m) => (false, m) | (true, m) => loop f r m end
  end.

Definition addServer (country : ServerCountry) (city : ServerCity) (v : QJsonValue)
    (m : ServerCountryModel) : bool * ServerCountryModel :=
  match Server.fromJson (toObject v) (Server.ofCity (Some (code country)) (m_name city)) with
  | (false, _) => (false, m)
  | (true, server) =>
      (true, m <| m_serverTable := <[text (m_publicKey server) := server]> (m_serverTable m) |>)
  end.

Definition addCity (country : ServerCountry) (v : QJsonValue) (m : ServerCountryModel)
  : bool * ServerCountryModel :=
  match v with
  | JObject cityObj =>
      match value (qs "servers") cityObj with
      | JArray serverArray =>
          match cityOfJson cityObj (code country) with
          | None => (false, m)
          | Some city =>
              let key := text (m_hashKey city) in
              let m := m <| m_cities :=
                <[key := assignCity (default emptyCity (m_cities m !! key)) city]> (m_cities m) |> in
              loop (addServer country city) serverArray m
          end
      | _ => (false, m)
      end
  | _ => (false, m)
  end.

Definition addCountry (v : QJsonValue) (m : ServerCountryModel) : bool * ServerCountryModel :=
  match v with
  | JObject countryObj =>
      match countryOfJson countryObj with
      | None => (false, m)
      | Some country =>
          if bool_decide (cities country = []) then (true, m)
          else
            let m := m <| m_countries := m_countries m ++ [country] |> in
            match value (qs "cities") countryObj with
            | JArray cityArray => loop (addCity country) cityArray m
            | _ => (false, m)
            end
      end
  | _ => (false, m)
  end.

Definition fromJsonInternal (s : QByteArray) (m : ServerCountryModel)
  : bool * ServerCountryModel :=
  let m := emit BeginResetModel m in
  let m := mkModel _ emptyBytes [] ∅ ∅ (signals m) in
  match documentFromJson s with
  | None => (false, m)
  | Some obj =>
      match value (qs "countries") obj with
      | JArray countriesArray =>
          match loop addCountry countriesArray m with
          | (false, m) => (false, m)
          | (true, m) =>
              (true, emit EndResetModel
                (m <| m_countries := map sortCities (sortCountries (m_countries m)) |>))
          end
      | _ => (false, m)
      end
  end.

Definition fromJson (json : QByteArray) (m : ServerCountryModel)
  : bool * ServerCountryModel :=
  if negb (bool_decide (json = emptyBytes)) && bool_decide (m_rawJson m = json) then (true, m)
  else
    match fromJsonInternal json m with
    | (false, m) => (false, m)
    | (true, m) => (true, emit Changed (m <| m_rawJson := json |>))
    end.

Definition exists_ (countryCode cityName : chars) (m : ServerCountryModel) : bool :=
  bool_decide (is_Some (m_cities m !! hashKey countryCode cityName)).

Definition findCity (countryCode cityName : chars) (m : ServerCountryModel) : ServerCity :=
  default emptyCity (m_cities m !! hashKey countryCode cityName).

Definition server (pubkey : chars) (m : ServerCountryModel) : Server :=
  default emptyServer (m_serverTable m !! pubkey).

Definition countryName (countryCode : chars) (m : ServerCountryModel) : QString :=
  match list_find (fun c => code c = countryCode) (m_countries m) with
  | Some (_, c) => Some (name c)
  | None => None
  end.

Definition retranslate (m : ServerCountryModel) : ServerCountryModel :=
  let m := emit BeginResetModel m in
  emit EndResetModel (m <| m_countries := map sortCities (sortCountries (m_countries m)) |>).

End Model.

(** ** References between the tables *)

Section Properties.
Context `{QtJson}.
Variable sortCityNames : list chars -> list chars.
Variable sortCountries : list ServerCountry -> list ServerCountry.
Hypothesis sortCityNames_perm : forall l, sortCityNames l ≡ₚ l.
Hypothesis sortCountries_perm : forall l, sortCountries l ≡ₚ l.

(** The tables only grow while a document is read. *)
Definition grows (m m' : ServerCountryModel) : Prop :=
  (forall key, is_Some (m_cities m !! key) -> is_Some (m_cities m' !! key))
  /\ (forall pk, is_Some (m_serverTable m !! pk) -> is_Some (m_serverTable m' !! pk)).

#[local] Instance grows_preorder : PreOrder grows.
Proof.
  split; [by split|]. intros a b c [H1 H2] [H3 H4]. split; eauto.
Qed.

(** A server is stored under its public key, and every stored city has a name. *)
Definition keyed (m : ServerCountryModel) : Prop :=
  (forall pk s, m_serverTable m !! pk = Some s -> m_publicKey s = Some pk)
  /\ (forall key c, m_cities m !! key = Some c -> cityInitialized c = true).

(** Every server of a city is in the table. *)
Definition serversKnown (m : ServerCountryModel) : Prop :=
  forall key c, m_cities m !! key = Some c ->
  forall pk, pk ∈ m_servers c -> is_Some (m_serverTable m !! pk).

(** Every city of a country is in the table. *)
Definition citiesKnown (m : ServerCountryModel) : Prop :=
  forall country, country ∈ m_countries m ->
  forall n, n ∈ cities country -> is_Some (m_cities m !! hashKey (code country) n).

Lemma server_publicKey (obj : QJsonObject) (s s' : Server) (pk : chars) :
  Server.fromJson obj s = (true, s') -> toQString (value (qs "public_key") obj) = Some pk ->
  m_publicKey s' = Some pk.
Proof.
  unfold Server.fromJson. repeat (case_match; try done). intros [= <-] [= <-]. done.
Qed.

Lemma addServers (country : ServerCountry) (city : ServerCity) (l : list QJsonValue) :
  forall m m', loop (addServer country city) l m = (true, m') -> keyed m ->
  grows m m' /\ keyed m' /\ m_cities m' = m_cities m /\ m_countries m' = m_countries m
  /\ forall v pk, v ∈ l -> publicKeyOfJson v = Some pk -> is_Some (m_serverTable m' !! pk).
Proof.
  induction l as [|v l IH]; intros m m'; simpl.
  - intros [= <-] Hk. split_and!; [done|done|done|done|by inversion 1].
  - destruct (addServer country city v m) as [[] m1] eqn:E; [|done]. intros Hl Hk.
    unfold addServer in E. destruct (Server.fromJson _ _) as [[] s] eqn:Es; [|done].
    injection E as <-.
    set (m1 := m <| m_serverTable := <[text (m_publicKey s) := s]> (m_serverTable m) |>) in Hl.
    assert (forall pk, is_Some (m_serverTable m !! pk) -> is_Some (m_serverTable m1 !! pk)) as Hg.
    { intros pk Hpk. simpl. apply lookup_insert_is_Some'. by right. }
    assert (exists pk, m_publicKey s = Some pk) as [pk0 Hpk0].
    { revert Es. unfold Server.fromJson. repeat (case_match; try done). intros [= <-]. by eexists. }
    assert (keyed m1) as Hk1.
    { split; [|apply Hk]. intros pk x.
      change (m_serverTable m1) with (<[text (m_publicKey s) := s]> (m_serverTable m)).
      rewrite Hpk0. simpl. unfold Datatypes.id.
      rewrite lookup_insert_Some. intros [[<- <-]|[_ Hx]]; [done|by apply Hk]. }
    destruct (IH m1 m' Hl Hk1) as ([G1 G2] & K & C & Co & S).
    split_and!; [split; [exact G1|by intros pk Hpk; apply G2, Hg]|done|done|done|].
    intros w pk Hw Hp. apply elem_of_cons in Hw as [->|Hw]; [|by eapply S].
    apply G2. destruct v; try done.
    pose proof (server_publicKey _ _ _ pk Es Hp) as E2.
    change (m_serverTable m1) with (<[text (m_publicKey s) := s]> (m_serverTable m)).
    rewrite E2. apply lookup_insert_is_Some'. by left.
Qed.

Lemma city_facts (obj : QJsonObject) (country : chars) (city : ServerCity)
    (serverArray : list QJsonValue) :
  cityOfJson obj country = Some city -> value (qs "servers") obj = JArray serverArray ->
  m_hashKey city = Some (hashKey country (text (m_name city)))
  /\ toQString (value (qs "name") obj) = m_name city
  /\ forall pk, pk ∈ m_servers city ->
     exists v, v ∈ serverArray /\ publicKeyOfJson v = Some pk.
Proof.
  unfold cityOfJson. intros Hc Hs. rewrite Hs in Hc. repeat (case_match; try done).
  destruct (mapM publicKeyOfJson serverArray) as [pks|] eqn:E; [|done].
  injection Hc as <-. simpl. split_and!; [done|done|].
  intros pk Hpk. apply mapM_Some_1 in E. apply list_elem_of_lookup_1 in Hpk as [i Hi].
  destruct (Forall2_lookup_r _ _ _ _ _ E Hi) as (v & Hv & Hp). exists v.
  split; [by eapply list_elem_of_lookup_2|done].
Qed.

(** Reading one city of a country. *)
Lemma addCity_facts (country : ServerCountry) (v : QJsonValue) (n : chars) (m m' : ServerCountryModel) :
  cityNameOfJson v = Some n -> addCity country v m = (true, m') -> keyed m -> serversKnown m ->
  grows m m' /\ keyed m' /\ serversKnown m' /\ m_countries m' = m_countries m
  /\ is_Some (m_cities m' !! hashKey (code country) n).
Proof.
  intros Hn Hadd Hk Hs. unfold addCity in Hadd. destruct v as [| | | | | |cityObj]; try done.
  destruct (value (qs "servers") cityObj) as [| | | | |serverArray|] eqn:Ev; try done.
  destruct (cityOfJson cityObj (code country)) as [city|] eqn:Ec; [|done].
  destruct (city_facts _ _ _ _ Ec Ev) as (Hkey & Hname & Hpks).
  unfold cityNameOfJson in Hn. rewrite Hname in Hn.
  destruct (bool_decide (text (m_name city) = [])) eqn:Hne; [done|]. injection Hn as <-.
  rewrite Hkey in Hadd. cbn [text default] in Hadd. unfold Datatypes.id in Hadd.
  set (key := hashKey (code country) (text (m_name city))) in *.
  set (city' := assignCity _ city) in Hadd.
  set (m1 := m <| m_cities := <[key := city']> (m_cities m) |>) in Hadd.
  assert (keyed m1) as Hk1.
  { split; [apply Hk|]. intros key' c.
    change (m_cities m1) with (<[key := city']> (m_cities m)). rewrite lookup_insert_Some.
    intros [[_ <-]|[_ Hc]]; [|by apply Hk in Hc].
    unfold cityInitialized, isEmpty. simpl. by rewrite Hne. }
  destruct (addServers country city serverArray m1 m' Hadd Hk1) as ([G1 G2] & K & C & Co & S).
  split_and!; [split|done| |done|].
  - intros key' Hc. rewrite C. apply lookup_insert_is_Some'. by right.
  - exact G2.
  - intros key' c. rewrite C.
    change (m_cities m1) with (<[key := city']> (m_cities m)). rewrite lookup_insert_Some.
    intros [[_ <-]|[_ Hc]] pk Hpk.
    + destruct (Hpks pk Hpk) as (w & Hw & Hp). by eapply S.
    + apply G2. by eapply Hs.
  - rewrite C. apply lookup_insert_is_Some'. by left.
Qed.

Lemma addCities (country : ServerCountry) (l : list QJsonValue) :
  forall names m m', mapM cityNameOfJson l = Some names ->
  loop (addCity country) l m = (true, m') -> keyed m -> serversKnown m ->
  grows m m' /\ keyed m' /\ serversKnown m' /\ m_countries m' = m_countries m
  /\ forall n, n ∈ names -> is_Some (m_cities m' !! hashKey (code country) n).
Proof.
  induction l as [|v l IH]; intros names m m' Hnames Hl Hk Hs.
  - injection Hnames as <-. injection Hl as <-. split_and!; try done. by inversion 1.
  - cbn [mapM] in Hnames.
    change (cityNameOfJson v ≫= (fun y => mapM cityNameOfJson l ≫= fun k => Some (y :: k))
      = Some names) in Hnames.
    destruct (cityNameOfJson v) as [n|] eqn:En; [|done]. simpl in Hnames.
    destruct (mapM cityNameOfJson l) as [rest|] eqn:Er; [|done]. injection Hnames as <-.
    cbn [loop] in Hl. destruct (addCity country v m) as [[] m1] eqn:Ea; [|done].
    destruct (addCity_facts country v n m m1 En Ea Hk Hs) as (G & K & S & C & X).
    destruct (IH rest m1 m' eq_refl Hl K S) as (G' & K' & S' & C' & X').
    split_and!; [by transitivity m1|done|done|congruence|].
    intros x Hx. apply elem_of_cons in Hx as [->|Hx]; [|by apply X'].
    by apply G'.
Qed.

Lemma addCountry_facts (v : QJsonValue) (m m' : ServerCountryModel) :
  addCountry sortCityNames v m = (true, m') -> keyed m -> serversKnown m -> citiesKnown m ->
  keyed m' /\ serversKnown m' /\ citiesKnown m'.
Proof.
  intros Ha Hk Hs Hc. unfold addCountry in Ha. destruct v as [| | | | | |countryObj]; try done.
  destruct (countryOfJson _ countryObj) as [country|] eqn:Eco; [|done].
  destruct (bool_decide (cities country = [])); [by injection Ha as <-|].
  unfold countryOfJson in Eco.
  destruct (value (qs "name") countryObj) as [| | | |cn| |]; try done.
  destruct (value (qs "code") countryObj) as [| | | |cc| |]; try done.
  destruct (value (qs "cities") countryObj) as [| | | | |cityArray|]; try done.
  destruct (mapM cityNameOfJson cityArray) as [names|] eqn:En; [|done].
  injection Eco as <-. simpl in Ha.
  edestruct addCities as (G & K & S & C & X); [exact En|exact Ha|done|done|].
  split_and!; [done|done|]. intros country Hin n Hn. rewrite C in Hin. simpl in Hin.
  apply elem_of_app in Hin as [Hin|Hin].
  - apply G. by eapply Hc.
  - apply list_elem_of_singleton in Hin as ->. apply X. simpl in Hn.
    by rewrite sortCityNames_perm in Hn.
Qed.

Lemma addCountries (l : list QJsonValue) :
  forall m m', loop (addCountry sortCityNames) l m = (true, m') ->
  keyed m -> serversKnown m -> citiesKnown m ->
  keyed m' /\ serversKnown m' /\ citiesKnown m'.
Proof.
  induction l as [|v l IH]; intros m m' Hl Hk Hs Hc; cbn [loop] in Hl.
  - by injection Hl as <-.
  - destruct (addCountry sortCityNames v m) as [[] m1] eqn:Ea; [|done].
    destruct (addCountry_facts v m m1 Ea Hk Hs Hc) as (K & S & C). by eapply IH.
Qed.

(** After a document has been read, the look-ups of the model agree with each
    other: each city a country lists is found and has a name, and each server
    that city lists is found under its public key. *)
Theorem fromJson_references (json : QByteArray) (m m' : ServerCountryModel) :
  fromJsonInternal sortCityNames sortCountries json m = (true, m') ->
  forall country n, country ∈ m_countries m' -> n ∈ cities country ->
  cityInitialized (findCity (code country) n m') = true
  /\ forall pk, pk ∈ m_servers (findCity (code country) n m') ->
     m_publicKey (server pk m') = Some pk.
Proof.
  unfold fromJsonInternal. destruct (documentFromJson json) as [obj|]; [|done].
  destruct (value (qs "countries") obj) as [| | | | |arr|]; try done.
  destruct (loop _ arr _) as [[] m1] eqn:El; [|done]. intros [= <-].
  destruct (addCountries _ _ _ El) as (K & S & C).
  { split; intros ? ? Hx; simpl in Hx; by rewrite lookup_empty in Hx. }
  { intros ? ? Hx. simpl in Hx. by rewrite lookup_empty in Hx. }
  { intros ? Hx. by inversion Hx. }
  intros country n Hcountry Hn. simpl in Hcountry.
  apply list_elem_of_fmap in Hcountry as (c & -> & Hin). rewrite sortCountries_perm in Hin.
  simpl in Hn. rewrite sortCityNames_perm in Hn. simpl.
  destruct (C c Hin n Hn) as [city Hcity]. unfold findCity. simpl. rewrite Hcity. simpl.
  split; [by eapply K|]. intros pk Hpk. destruct (S _ _ Hcity pk Hpk) as [s Hss].
  unfold server. simpl. rewrite Hss. simpl. by eapply K.
Qed.

(** A document that is refused leaves the model reset for good: it is not
    initialized, and the views have been told that a reset begins but never that
    it has ended. *)
Theorem fromJson_refused (json : QByteArray) (m m' : ServerCountryModel) :
  fromJsonInternal sortCityNames sortCountries json m = (false, m') ->
  m_rawJson m' = emptyBytes /\ signals m' = signals m ++ [BeginResetModel].
Proof.
  assert (Hloop : forall A (f : A -> ServerCountryModel -> bool * ServerCountryModel) l m1 b m2,
    (forall x m1 b m2, f x m1 = (b, m2) ->
      m_rawJson m2 = m_rawJson m1 /\ signals m2 = signals m1) ->
    loop f l m1 = (b, m2) -> m_rawJson m2 = m_rawJson m1 /\ signals m2 = signals m1).
  { intros A f l. induction l as [|x l IH]; intros m1 b m2 Hf; cbn [loop].
    - by intros [= _ <-].
    - destruct (f x m1) as [[] m3] eqn:E; apply Hf in E as [E1 E2].
      + intros Hl. destruct (IH m3 b m2 Hf Hl). split; congruence.
      + by intros [= _ <-]. }
  assert (Hserver : forall country city v m1 b m2, addServer country city v m1 = (b, m2) ->
    m_rawJson m2 = m_rawJson m1 /\ signals m2 = signals m1).
  { intros country city v m1 b m2. unfold addServer. destruct (Server.fromJson _ _) as [[] s];
      by intros [= _ <-]. }
  assert (Hcity : forall country v m1 b m2, addCity country v m1 = (b, m2) ->
    m_rawJson m2 = m_rawJson m1 /\ signals m2 = signals m1).
  { intros country v m1 b m2. unfold addCity. destruct v; try (by intros [= _ <-]).
    destruct (value _ o); try (by intros [= _ <-]).
    destruct (cityOfJson _ _); [|by intros [= _ <-]].
    intros Hl. by apply (Hloop _ _ _ _ _ _ (Hserver _ _)) in Hl. }
  assert (Hcountry : forall v m1 b m2, addCountry sortCityNames v m1 = (b, m2) ->
    m_rawJson m2 = m_rawJson m1 /\ signals m2 = signals m1).
  { intros v m1 b m2. unfold addCountry. destruct v; try (by intros [= _ <-]).
    destruct (countryOfJson _ o); [|by intros [= _ <-]].
    destruct (bool_decide _); [by intros [= _ <-]|].
    destruct (value _ o); try (by intros [= _ <-]).
    intros Hl. by apply (Hloop _ _ _ _ _ _ (Hcity _)) in Hl. }
  unfold fromJsonInternal. destruct (documentFromJson json) as [obj|]; [|by intros [= <-]].
  destruct (value _ obj); try (by intros [= <-]).
  destruct (loop _ l _) as [[] m1] eqn:El; [done|]. intros [= <-].
  by apply (Hloop _ _ _ _ _ _ Hcountry) in El.
Qed.

End Properties.

(** ** Examples *)

#[local] Existing Instance modelJson.

Definition str (x : string) : QJsonValue := JString (qs x).

Definition sampleServerJson : QJsonValue :=
  JObject [(qs "hostname", str "h1"); (qs "ipv4_addr_in", str "192.0.2.1");
           (qs "ipv4_gateway", str "10.64.0.1"); (qs "public_key", str "key1");
           (qs "weight", ofInt 10); (qs "port_ranges", JArray [JArray [ofInt 53; ofInt 53]])].

Definition sampleCityJson : QJsonValue :=
  JObject [(qs "name", str "Oslo"); (qs "code", str "osl"); (qs "latitude", ofInt 60);
           (qs "longitude", ofInt 11); (qs "servers", JArray [sampleServerJson])].

Definition sampleDocument (country : QJsonValue) : QJsonObject :=
  [(qs "countries", JArray [JObject [(qs "name", str "Norway"); (qs "code", country);
                                     (qs "cities", JArray [sampleCityJson])]])].

Definition emptyModel : ServerCountryModel := mkModel _ emptyBytes [] ∅ ∅ [].

Definition readSample (country : QJsonValue) : bool * ServerCountryModel :=
  fromJsonInternal (fun l => l) (fun l => l) (documentToJson (sampleDocument country)) emptyModel.

Lemma fromJson_references_witness :
  cityInitialized (findCity (qs "no") (qs "Oslo") (snd (readSample (str "no")))) = true.
Proof.
  apply (fromJson_references (fun l => l) (fun l => l) (fun l => Permutation_refl l)
    (fun l => Permutation_refl l) (documentToJson (sampleDocument (str "no"))) emptyModel
    (snd (readSample (str "no"))) ltac:(reflexivity)
    (mkServerCountry (qs "Norway") (qs "no") [qs "Oslo"])); left.
Defined.

Lemma fromJson_refused_witness :
  signals (snd (readSample JNull)) = [BeginResetModel].
Proof.
  apply (fromJson_refused (fun l => l) (fun l => l) (documentToJson (sampleDocument JNull))
    emptyModel (snd (readSample JNull))). reflexivity.
Defined.

End ServerList.
