(* ===== verification/ServerData.v ===== *)
(** * The chosen location

    Model of [src/src/models/serverdata.cpp] and [.h]: the location of the exit
    and of the entry server, its copy in the settings, and the servers available
    there. *)
From Stdlib Require Import ZArith Lia Ascii String.
From stdpp Require Import base numbers list gmap strings.
From S2P Require Import Prelude QHostAddress QString Json Server ServerList.

Local Open Scope Z_scope.
Local Open Scope wg_scope.

Module ServerData.
Import Server ServerList.

Record ServerData : Type := mkServerData {
  m_initialized : bool;
  m_exitCountryCode : chars;
  m_exitCountryName : chars;
  m_exitCityName : chars;
  m_entryCountryCode : chars;
  m_entryCountryName : chars;
  m_entryCityName : chars;
  m_previousExitCountryCode : chars;
  m_previousExitCountryName : chars;
  m_previousExitCityName : chars;
  m_exitServerPublicKey : chars;
  m_entryServerPublicKey : chars;
}.

#[export] Instance ServerData_eta : Eta ServerData := fun d =>
  mkServerData (m_initialized d) (m_exitCountryCode d) (m_exitCountryName d) (m_exitCityName d)
    (m_entryCountryCode d) (m_entryCountryName d) (m_entryCityName d)
    (m_previousExitCountryCode d) (m_previousExitCountryName d) (m_previousExitCityName d)
    (m_exitServerPublicKey d) (m_entryServerPublicKey d).

#[export] Instance ServerData_eq_dec : EqDecision ServerData.
Proof. solve_decision. Defined.

Definition emptyServerData : ServerData :=
  mkServerData false [] [] [] [] [] [] [] [] [] [] [].

(** [operator=]: the names of the countries are not copied. *)
Definition assign (target other : ServerData) : ServerData :=
  mkServerData (m_initialized other) (m_exitCountryCode other) (m_exitCountryName target)
    (m_exitCityName other) (m_entryCountryCode other) (m_entryCountryName target)
    (m_entryCityName other) (m_previousExitCountryCode other) (m_previousExitCountryName target)
    (m_previousExitCityName other) (m_exitServerPublicKey other) (m_entryServerPublicKey other).

(** The copy constructor. *)
Definition copy (other : ServerData) : ServerData := assign emptyServerData other.

Definition multihop (d : ServerData) : bool :=
  negb (bool_decide (m_entryCountryCode d = [])) && negb (bool_decide (m_entryCityName d = [])).

Definition setEntryServerPublicKey (k : chars) (d : ServerData) : ServerData :=
  d <| m_entryServerPublicKey := k |>.
Definition setExitServerPublicKey (k : chars) (d : ServerData) : ServerData :=
  d <| m_exitServerPublicKey := k |>.

Definition forget (d : ServerData) : ServerData :=
  mkServerData (m_initialized d) [] [] [] [] [] [] [] [] []
    (m_exitServerPublicKey d) (m_entryServerPublicKey d).

Inductive Signal : Type := Changed | RetranslationNeeded.

(** The location of the settings of versions before 2.13: exit country and city,
    entry country and city. *)
Record Deprecated : Type := mkDeprecated {
  currentServerCountryCode : option chars;
  currentServerCity : option chars;
  entryServerCountryCode : chars;
  entryServerCity : chars;
}.

(** The object, the settings it shares and the signals it has emitted. *)
Record World `{QtJson} : Type := mkWorld {
  data : ServerData;
  serverData : option QByteArray;
  deprecated : Deprecated;
  signals : list Signal;
}.

#[export] Instance World_eta `{QtJson} : Eta World := fun w =>
  mkWorld _ (data w) (serverData w) (deprecated w) (signals w).

Section Operations.
Context `{QtJson}.
Variable model : ServerCountryModel.

Definition nameOf (countryCode : chars) : chars := text (countryName countryCode model).

Definition field (k : chars) (obj : QJsonObject) : chars := text (toQString (value k obj)).

(** A country name of the document, or that of the code where there is none. *)
Definition nameField (k : chars) (countryCode : chars) (obj : QJsonObject) : chars :=
  if hasKey k obj then field k obj else nameOf countryCode.

Definition settingsChanged (w : World) : bool * World :=
  match serverData w with
  | None => (false, w)
  | Some bytes =>
      match documentFromJson bytes with
      | None => (false, w)
      | Some obj =>
          let exitCode := field (qs "exit_country_code") obj in
          let entryCode := field (qs "enter_country_code") obj in
          let d := data w in
          let d :=
            d <| m_exitCountryCode := exitCode |>
              <| m_exitCityName := field (qs "exit_city_name") obj |>
              <| m_exitCountryName := nameField (qs "exit_country_name") exitCode obj |>
              <| m_entryCountryCode := entryCode |>
              <| m_entryCityName := field (qs "enter_city_name") obj |>
              <| m_entryCountryName := nameField (qs "enter_country_name") entryCode obj |> in
          (true, w <| data := d |> <| signals := signals w ++ [Changed; RetranslationNeeded] |>)
      end
  end.

Definition locationToJson (exitCode exitCity entryCode entryCity : chars) : QJsonObject :=
  insertAll
    [(qs "exit_country_code", JString exitCode);
     (qs "exit_country_name", JString (nameOf exitCode));
     (qs "exit_city_name", JString exitCity);
     (qs "enter_country_code", JString entryCode);
     (qs "enter_country_name", JString (nameOf entryCode));
     (qs "enter_city_name", JString entryCity)] [].

(** The setter of the setting: a new value is announced, and read back. *)
Definition setServerData (bytes : QByteArray) (w : World) : World :=
  if bool_decide (serverData w = Some bytes) then w
  else snd (settingsChanged (w <| serverData := Some bytes |>)).

Definition update (exitCode exitCity entryCode entryCity : chars) (w : World) : World :=
  let d := data w in
  let d := d <| m_previousExitCountryCode := m_exitCountryCode d |>
             <| m_previousExitCountryName := nameOf exitCode |>
             <| m_previousExitCityName := m_exitCityName d |> in
  let w := w <| data := d |> in
  setServerData (documentToJson (locationToJson exitCode exitCity entryCode entryCity)) w.

Definition fromSettings (w : World) : bool * World :=
  match currentServerCountryCode (deprecated w), currentServerCity (deprecated w) with
  | Some code, Some city =>
      let old := deprecated w in
      let w := update code city (entryServerCountryCode old) (entryServerCity old) w in
      (true, w <| deprecated := mkDeprecated None None [] [] |>)
  | _, _ => settingsChanged w
  end.

Definition changeServer (code city entryCode entryCity : chars) (w : World) : World :=
  let d := data w in
  if bool_decide (m_exitCountryCode d = code) && bool_decide (m_exitCityName d = city)
     && bool_decide (m_entryCountryCode d = entryCode) && bool_decide (m_entryCityName d = entryCity)
  then w else update code city entryCode entryCity w.

(** ** The servers of a location

    [cooldown] is [ServerLatency::getCooldown], in seconds since the epoch. *)
Variable cooldown : chars -> Z.
Variable now : Z.

Definition getServerList (countryCode cityName : chars) : list Server :=
  filter (fun s => initialized s = true)
    (map (fun pubkey => server pubkey model)
       (filter (fun pubkey => cooldown pubkey <= now)
          (m_servers (findCity countryCode cityName model)))).

Definition exitServers (d : ServerData) : list Server :=
  getServerList (m_exitCountryCode d) (m_exitCityName d).

Definition entryServers (d : ServerData) : list Server :=
  if negb (multihop d) then exitServers d
  else getServerList (m_entryCountryCode d) (m_entryCityName d).

(** The loop of [backupServers], which stops once it has three. *)
Fixpoint backupLoop (currentPublicKey : chars) (servers found : list Server) : list Server :=
  match servers with
  | [] => found
  | item :: rest =>
      if bool_decide (text (m_publicKey item) = currentPublicKey)
      then backupLoop currentPublicKey rest found
      else
        let found := found ++ [item] in
        if (3 <=? length found)%nat then found else backupLoop currentPublicKey rest found
  end.

Definition backupServers (currentPublicKey : chars) (d : ServerData) : list Server :=
  backupLoop currentPublicKey (exitServers d) [].

End Operations.

(** ** Properties *)

Section Properties.
Context `{QtJsonLaws}.
Variable model : ServerCountryModel.

Lemma field_same (k : chars) (o o' : QJsonObject) : o ≡ o' -> field k o' = field k o.
Proof. intros Ho. unfold field. pose proof (Ho k) as Hv. by rewrite Hv. Qed.

Lemma hasKey_text (k : chars) (o : QJsonObject) (s : chars) :
  value k o = JString s -> hasKey k o = true.
Proof.
  induction o as [|[k' v] o IH]; simpl; [done|].
  case_bool_decide; [done|]. intros E. by rewrite IH.
Qed.

Lemma nameField_same (k code : chars) (s : chars) (o o' : QJsonObject) :
  o ≡ o' -> value k o = JString s -> nameField model k code o' = s.
Proof.
  intros Ho Hv. unfold nameField.
  assert (value k o' = JString s) as Hv'.
  { pose proof (Ho k) as E. rewrite Hv in E. by inversion E. }
  rewrite (hasKey_text _ _ _ Hv'). unfold field. by rewrite Hv'.
Qed.

(** After an update that changes the setting, the object and the setting hold
    the new location, the previous location has the old code and city, and the
    name of the previous country is that of the {e new} one. *)
Theorem update_location (w : World) (code city entryCode entryCity : chars) :
  serverData w
    <> Some (documentToJson (locationToJson model code city entryCode entryCity)) ->
  let w' := update model code city entryCode entryCity w in
  m_exitCountryCode (data w') = code /\ m_exitCityName (data w') = city
  /\ m_entryCountryCode (data w') = entryCode /\ m_entryCityName (data w') = entryCity
  /\ m_exitCountryName (data w') = nameOf model code
  /\ m_entryCountryName (data w') = nameOf model entryCode
  /\ m_previousExitCountryCode (data w') = m_exitCountryCode (data w)
  /\ m_previousExitCityName (data w') = m_exitCityName (data w)
  /\ m_previousExitCountryName (data w') = nameOf model code
  /\ signals w' = signals w ++ [Changed; RetranslationNeeded].
Proof.
  intros Hne w'. subst w'. unfold update, setServerData.
  set (bytes := documentToJson _) in *. set (w1 := updateField _ w).
  change (serverData w1) with (serverData w). rewrite bool_decide_false by done.
  destruct (documentFromJson_toJson (locationToJson model code city entryCode entryCity))
    as (o & Ho & Hs); [done|].
  change (documentFromJson bytes = Some o) in Ho.
  unfold settingsChanged. change (serverData (w1 <| serverData := Some bytes |>))
    with (Some bytes). cbn iota. rewrite Ho. cbn zeta iota. cbn [snd].
  rewrite !(field_same _ _ o Hs).
  rewrite (nameField_same (qs "exit_country_name") _ (nameOf model code) _ o Hs)
    by reflexivity.
  rewrite (nameField_same (qs "enter_country_name") _ (nameOf model entryCode) _ o Hs)
    by reflexivity.
  by split_and!.
Qed.

(** A server offered for a location is one the city lists, is known, and is not
    cooling down; the backup servers are at most three, are offered for the
    location and do not include the current one. *)
Theorem servers_offered (cooldown : chars -> Z) (now : Z) (d : ServerData) (current : chars) :
  (forall s, s ∈ exitServers model cooldown now d ->
     initialized s = true
     /\ exists pk, pk ∈ m_servers (findCity (m_exitCountryCode d) (m_exitCityName d) model)
                   /\ cooldown pk <= now /\ server pk model = s)
  /\ (length (backupServers model cooldown now current d) <= 3)%nat
  /\ forall s, s ∈ backupServers model cooldown now current d ->
     s ∈ exitServers model cooldown now d /\ text (m_publicKey s) <> current.
Proof.
  split.
  { intros s. unfold exitServers, getServerList. rewrite list_elem_of_filter.
    intros [Hi Hin]. split; [done|]. apply list_elem_of_fmap in Hin as (pk & -> & Hpk).
    apply list_elem_of_filter in Hpk as [Hc Hpk]. by exists pk. }
  unfold backupServers. generalize (exitServers model cooldown now d). intros l.
  assert (forall found, (length found < 3)%nat ->
    (forall s, s ∈ found -> text (m_publicKey s) <> current) ->
    (length (backupLoop current l found) <= 3)%nat
    /\ forall s, s ∈ backupLoop current l found ->
       (s ∈ found \/ s ∈ l) /\ text (m_publicKey s) <> current) as Hloop.
  { induction l as [|item l IH]; intros found Hlen Hf; cbn [backupLoop].
    { split; [lia|]. intros s Hs. split; [by left|by apply Hf]. }
    case_bool_decide as Hk.
    { destruct (IH found Hlen Hf) as [H1 H2]. split; [done|].
      intros s Hs. destruct (H2 s Hs) as [[?|?] ?]; split; try done; [by left|right; by right]. }
    assert (forall s, s ∈ found ++ [item] -> text (m_publicKey s) <> current) as Hf'.
    { intros s Hs. apply elem_of_app in Hs as [Hs|Hs]; [by apply Hf|].
      by apply list_elem_of_singleton in Hs as ->. }
    assert (forall s, s ∈ found ++ [item] -> s ∈ found \/ s ∈ item :: l) as Hin.
    { intros s Hs. apply elem_of_app in Hs as [Hs|Hs]; [by left|].
      apply list_elem_of_singleton in Hs as ->. right. left. }
    destruct (Nat.leb_spec 3 (length (found ++ [item]))) as [H3|H3].
    - rewrite length_app in *. simpl in *. split; [lia|]. intros s Hs.
      split; [by apply Hin|by apply Hf'].
    - destruct (IH (found ++ [item]) H3 Hf') as [H1 H2]. split; [done|].
      intros s Hs. destruct (H2 s Hs) as [[Hs'|Hs'] ?]; split; try done.
      + by apply Hin.
      + right. by right. }
  destruct (Hloop []) as [H1 H2]; [simpl; lia|by inversion 1|].
  split; [done|]. intros s Hs. destruct (H2 s Hs) as [[Hn|?] ?]; [by inversion Hn|done].
Qed.

End Properties.

(** ** Examples *)

#[local] Existing Instance modelJson.
#[local] Existing Instance modelJsonLaws.

Definition twoCountries : ServerCountryModel :=
  mkModel _ emptyBytes [mkServerCountry (qs "Norway") (qs "no") [qs "Oslo"];
                        mkServerCountry (qs "Italy") (qs "it") [qs "Rome"]] ∅ ∅ [].

Definition inOslo : World :=
  snd (settingsChanged twoCountries
    (mkWorld _ emptyServerData
      (Some (documentToJson (locationToJson twoCountries (qs "no") (qs "Oslo") [] [])))
      (mkDeprecated None None [] []) [])).

Lemma update_location_witness :
  m_previousExitCountryCode (data (update twoCountries (qs "it") (qs "Rome") [] [] inOslo))
  = qs "no"
  /\ m_previousExitCountryName (data (update twoCountries (qs "it") (qs "Rome") [] [] inOslo))
     = qs "Italy".
Proof.
  pose proof (update_location twoCountries inOslo (qs "it") (qs "Rome") [] []) as Hu.
  destruct Hu as (_ & _ & _ & _ & _ & _ & -> & _ & -> & _).
  - by_decision.
  - split; reflexivity.
Defined.

End ServerData.
