(* ===== verification/Dns.v ===== *)
(** * Resolvers and tunnel ranges

    Model of [src/src/dnshelper.cpp] (which resolver the tunnel uses, and the
    migration of the old setting) and of the two functions that compute the
    address ranges of the tunnel: [getExtensionProxyAddressRanges] of
    [src/src/controller_p.cpp] and [getAllowedIPAddressRanges] of
    [src/src/controller.cpp]. *)
From Stdlib Require Import ZArith Lia Ascii String.
From stdpp Require Import base numbers list gmap strings.
From S2P Require Import Prelude QHostAddress QString QtTextModel IPAddress Rfc Server.
Import IPAddress Server.

Local Open Scope Z_scope.
Local Open Scope wg_scope.

Module DNSHelper.

(** [SettingsHolder::DNSProviderFlags]. *)
Definition Gateway : Z := 0.
Definition Custom : Z := 1.
Definition BlockAds : Z := 2.
Definition BlockTrackers : Z := 4.
Definition BlockMalware : Z := 8.

Record dnsData : Type := mkDnsData {
  ipAddress : QString;
  dnsType : QString;
}.

#[export] Instance dnsData_eq_dec : EqDecision dnsData.
Proof. solve_decision. Defined.

(** The settings involved; [dnsProviderDeprecated] is [None] where the old setting
    is not there. *)
Record Settings : Type := mkSettings {
  dnsProviderFlags : Z;
  userDNS : chars;
  dnsProviderDeprecated : option Z;
}.

#[export] Instance Settings_eta : Eta Settings := fun s =>
  mkSettings (dnsProviderFlags s) (userDNS s) (dnsProviderDeprecated s).

(** The build: whether custom resolvers are a feature of the platform and whether
    it is a mobile one, and Qt's [isLoopback]. *)
Class Platform : Type := {
  customDNS : bool;
  mobile : bool;
  isLoopback : QHostAddress -> bool;
}.

Section Operations.
Context `{QtText} `{Platform}.

Definition validateUserDNS (dns : chars) : bool :=
  let address := hostOfString dns in
  if bool_decide (address = NullHost) then false
  else if bool_decide (protocol address = IPv6Protocol) then false
  else negb (mobile && isLoopback address).

(** The table of the blocking resolvers, by flags. *)
Definition dnsMap : list (Z * dnsData) :=
  let entry flags ip type := (flags, mkDnsData (Some (qs ip)) (Some (qs type))) in
  [entry BlockAds "100.64.0.1"%string "BlockAds"%string;
   entry BlockTrackers "100.64.0.2"%string "BlockTrackers"%string;
   entry (BlockAds + BlockTrackers) "100.64.0.3"%string "BlockAdsAndTrackers"%string;
   entry BlockMalware "100.64.0.4"%string "BlockMalware"%string;
   entry (BlockMalware + BlockAds) "100.64.0.5"%string "BlockMalwareAndAds"%string;
   entry (BlockMalware + BlockTrackers) "100.64.0.6"%string "BlockMalwareAndTrackers"%string;
   entry (BlockMalware + BlockAds + BlockTrackers) "100.64.0.7"%string
     "BlockMalwareAndAdsAndTrackers"%string].

(** [getDNSDetails]; flags outside the table give a default-constructed entry. *)
Definition getDNSDetails (s : Settings) (fallback : QString) : dnsData :=
  if negb customDNS then mkDnsData fallback (Some (qs "NoCustomDNSAvailable"))
  else if dnsProviderFlags s =? Gateway then mkDnsData fallback (Some (qs "Default"))
  else if dnsProviderFlags s =? Custom then
    if bool_decide (userDNS s = []) || negb (validateUserDNS (userDNS s))
    then mkDnsData fallback (Some (qs "Default"))
    else mkDnsData (Some (userDNS s)) (Some (qs "Custom"))
  else
    match list_find (fun e => e.1 = dnsProviderFlags s) dnsMap with
    | Some (_, (_, data)) => data
    | None => mkDnsData None None
    end.

Definition getDNS (s : Settings) (fallback : QString) : QString :=
  ipAddress (getDNSDetails s fallback).

Definition getDNSType (s : Settings) : QString :=
  dnsType (getDNSDetails s (Some (qs "IMPOSSIBLE"))).

Definition maybeMigrateDNSProviderFlags (s : Settings) : Settings :=
  match dnsProviderDeprecated s with
  | None => s
  | Some provider =>
      let s :=
        if provider =? 1 then s <| dnsProviderFlags := Z.land BlockAds BlockTrackers |>
        else if provider =? 2 then s <| dnsProviderFlags := BlockAds |>
        else if provider =? 3 then s <| dnsProviderFlags := BlockTrackers |>
        else if provider =? 4 then s <| dnsProviderFlags := Custom |>
        else s in
      s <| dnsProviderDeprecated := None |>
  end.

(** ** Ranges of the tunnel *)

Definition mullvadProxyRange : IPAddress := mkIPAddress (hostOfString (qs "10.124.0.0")) 20.

Definition hostRange (address : QString) (length : Z) : IPAddress :=
  mkIPAddress (hostOfString (text address)) length.

(** [getAllowedIPAddressRanges]. *)
Definition getAllowedIPAddressRanges (exitServer : Server) : list IPAddress :=
  [IPAddress.ofString (qs "0.0.0.0/0"); IPAddress.ofString (qs "::0/0");
   hostRange (m_ipv4Gateway exitServer) 32]
  ++ (if isEmpty (m_ipv6Gateway exitServer) then []
      else [hostRange (m_ipv6Gateway exitServer) 128])
  ++ [mullvadProxyRange].

(** [getExtensionProxyAddressRanges]; [dnsServer] is the optional argument. *)
Definition getExtensionProxyAddressRanges (s : Settings) (exitServer : Server)
    (dnsServer : option dnsData) : list IPAddress :=
  let ranges :=
    [hostRange (m_ipv4Gateway exitServer) 32; mullvadProxyRange]
    ++ (if isEmpty (m_ipv6Gateway exitServer) then []
        else [hostRange (m_ipv6Gateway exitServer) 128]) in
  let dns := default (getDNSDetails s (m_ipv4Gateway exitServer)) dnsServer in
  if bool_decide (text (dnsType dns) = qs "Default") then ranges
  else if negb (bool_decide (text (dnsType dns) = qs "Custom"))
  then ranges ++ [hostRange (ipAddress dns) 32]
  else
    let addr := hostOfString (text (ipAddress dns)) in
    if negb (RFC1918.contains addr) && negb (RFC4193.contains addr) && negb (isLoopback addr)
    then ranges ++ [hostRange (ipAddress dns) 32]
    else ranges.

End Operations.

(** ** Properties *)

Section Properties.
Context `{QtTextLaws} `{Platform}.

(** The flags of a set of blocking lists. *)
Definition blockFlags (ads trackers malware : bool) : Z :=
  (if ads then BlockAds else 0) + (if trackers then BlockTrackers else 0)
  + (if malware then BlockMalware else 0).

(** A set of blocking lists selects the resolver [100.64.0.k] where [k] is the
    set as a number, ads 1, trackers 2 and malware 4; the empty set selects the
    gateway. *)
Theorem getDNS_blocking (s : Settings) (fallback : QString) (ads trackers malware : bool) :
  customDNS = true -> dnsProviderFlags s = blockFlags ads trackers malware ->
  getDNS s fallback
  = if decide (dnsProviderFlags s = 0) then fallback
    else Some (dottedQuad (1681915904 + dnsProviderFlags s / 2)).
Proof.
  intros Hc Hf. unfold getDNS, getDNSDetails. rewrite Hc, Hf.
  by destruct ads, trackers, malware.
Qed.

Lemma dottedQuad_host (v : Z) : 0 <= v < 2 ^ 32 -> hostOfString (dottedQuad v) = HostV4 v.
Proof. intros Hv. rewrite <- hostToString_v4 by done. by apply hostOfString_toString. Qed.

(** Whatever the user typed, the tunnel gets a resolver that is an address: if
    the gateway is one and the flags are valid, so is the result, and a custom
    resolver is used only when it is an IPv4 address. *)
Theorem getDNS_address (s : Settings) (fallback : QString) :
  (dnsProviderFlags s = Custom
   \/ exists ads trackers malware, dnsProviderFlags s = blockFlags ads trackers malware) ->
  protocol (hostOfString (text fallback)) <> UnknownNetworkLayerProtocol ->
  protocol (hostOfString (text (getDNS s fallback))) <> UnknownNetworkLayerProtocol
  /\ (dnsType (getDNSDetails s fallback) = Some (qs "Custom") ->
      protocol (hostOfString (text (getDNS s fallback))) = IPv4Protocol).
Proof.
  intros Hf Hg. unfold getDNS, getDNSDetails. destruct customDNS; [|done]. cbn [negb].
  destruct Hf as [->|(ads & trackers & malware & ->)].
  - cbn [Z.eqb Custom Gateway Pos.eqb].
    destruct (bool_decide (userDNS s = [])); [done|].
    destruct (validateUserDNS (userDNS s)) eqn:Hv; [|done]. cbn [orb negb ipAddress text default].
    unfold validateUserDNS in Hv. unfold Datatypes.id.
    by destruct (hostOfString (userDNS s)).
  - assert (forall k, 1 <= k <= 7 -> protocol (hostOfString (dottedQuad (1681915904 + k)))
      <> UnknownNetworkLayerProtocol) as Hk by (intros k Hk; rewrite dottedQuad_host by lia; done).
    destruct ads, trackers, malware; split; try done;
      [apply (Hk 7)|apply (Hk 3)|apply (Hk 5)|apply (Hk 1)|apply (Hk 6)|apply (Hk 2)|apply (Hk 4)];
      done.
Qed.

(** The migration of the old setting "block everything" turns all blocking off:
    the flags are combined with a bitwise and instead of an or. *)
Theorem migrate_blockAll (s : Settings) (fallback : QString) :
  dnsProviderDeprecated s = Some 1 ->
  dnsProviderFlags (maybeMigrateDNSProviderFlags s) = Gateway
  /\ getDNS (maybeMigrateDNSProviderFlags s) fallback = fallback.
Proof.
  intros Hd. unfold maybeMigrateDNSProviderFlags. rewrite Hd. split; [done|].
  unfold getDNS, getDNSDetails. by destruct customDNS.
Qed.

Lemma any_v4 : IPAddress.ofString (qs "0.0.0.0/0") = mkIPAddress (HostV4 0) 0.
Proof.
  unfold IPAddress.ofString. rewrite bool_decide_true by by_decision.
  assert (qs "0.0.0.0/0" = hostToString (HostV4 0) ++ qs "/" ++ showZ 0) as ->
    by (by rewrite hostToString_v4).
  rewrite parseSubnet_toString; [done|done|done|]. intros i _. apply Z.testbit_0_l.
Qed.

Lemma any_v6 : IPAddress.ofString (qs "::0/0") = mkIPAddress (HostV6 (replicate 16 0)) 0.
Proof.
  unfold IPAddress.ofString. rewrite bool_decide_true by by_decision.
  by rewrite parseSubnet_v6_any.
Qed.

(** The ranges of a tunnel for the whole device contain every IPv4 and IPv6
    address. *)
Theorem allowedRanges_everything (exitServer : Server) (a : QHostAddress) :
  wf_host a ->
  exists ip, ip ∈ getAllowedIPAddressRanges exitServer /\ contains ip a = true.
Proof.
  intros Ha. unfold getAllowedIPAddressRanges. rewrite any_v4, any_v6.
  destruct a as [|v|raw]; [done|..].
  - exists (mkIPAddress (HostV4 0) 0). split; [left|].
    apply contains_spec; [by_decision|done|]. split; [done|]. simpl. intros i Hi. lia.
  - exists (mkIPAddress (HostV6 (replicate 16 0)) 0). split; [right; left|].
    apply contains_spec; [by_decision|done|]. split; [done|]. simpl. intros i Hi. lia.
Qed.

End Properties.

(** ** Examples *)

#[local] Existing Instance modelText.
#[local] Existing Instance modelTextLaws.

Definition desktop : Platform := {|
  customDNS := true;
  mobile := false;
  isLoopback a := match a with HostV4 v => v / 2 ^ 24 =? 127 | _ => false end;
|}.

#[local] Existing Instance desktop.

Definition withFlags (flags : Z) : Settings := mkSettings flags [] None.

Lemma getDNS_blocking_witness :
  getDNS (withFlags 10) (Some (qs "10.64.0.1")) = Some (qs "100.64.0.5").
Proof.
  etransitivity; [apply (getDNS_blocking (withFlags 10) _ true false true); reflexivity|].
  reflexivity.
Defined.

Lemma getDNS_address_witness :
  protocol (hostOfString (text (getDNS (mkSettings Custom (qs "not an address") None)
    (Some (qs "10.64.0.1"))))) <> UnknownNetworkLayerProtocol.
Proof.
  apply (getDNS_address (mkSettings Custom (qs "not an address") None) (Some (qs "10.64.0.1")));
    [by left|]. vm_compute. discriminate.
Defined.

Lemma migrate_blockAll_witness :
  dnsProviderFlags (maybeMigrateDNSProviderFlags (mkSettings 0 [] (Some 1))) = Gateway.
Proof. by apply (migrate_blockAll (mkSettings 0 [] (Some 1)) None). Defined.

Lemma allowedRanges_everything_witness :
  exists ip, ip ∈ getAllowedIPAddressRanges emptyServer /\ contains ip (HostV4 16909060) = true.
Proof. apply (allowedRanges_everything emptyServer (HostV4 16909060)). simpl. lia. Defined.

End DNSHelper.
