(* ===== verification/ControllerModel.v ===== *)
(** * The controller

    Model of [src/src/controller.cpp] and [.h]: the state machine of the client.
    Each slot and each public operation is a definition that changes the
    controller's members and records, in order, the signals it emits and the calls
    it makes to its backend (the [ControllerImpl]), to the ping canary and to the
    rest of the client. What it reads from outside is an [Env] argument. *)
From Stdlib Require Import ZArith Lia Ascii String.
From stdpp Require Import base numbers list gmap strings.
From S2P Require Import Prelude QHostAddress QString QtTextModel IPAddress Json InterfaceConfig.
From S2P Require Import Server ServerList ServerData Dns.

Local Open Scope Z_scope.
Local Open Scope wg_scope.

Module Controller.

(** ** Enumerations *)

Inductive State : Type :=
| StateInitializing | StatePermissionRequired | StateOff | StateDisconnecting
| StateRegeneratingKey | StateConnectionError | StateConnecting | StateConfirming
| StateSwitching | StateSilentSwitching | StateOnPartial | StateOn.

(** The states are ordered from least to most active. *)
Definition stateRank (s : State) : Z :=
  match s with
  | StateInitializing => 0 | StatePermissionRequired => 1 | StateOff => 2
  | StateDisconnecting => 3 | StateRegeneratingKey => 4 | StateConnectionError => 5
  | StateConnecting => 6 | StateConfirming => 7 | StateSwitching => 8
  | StateSilentSwitching => 9 | StateOnPartial => 10 | StateOn => 11
  end.

Inductive Reason : Type := ReasonNone | ReasonSwitching | ReasonConfirming | ReasonUpdating.

Inductive ErrorCode : Type :=
| ErrorNone | ErrorFatal | ErrorSplitTunnelInit | ErrorSplitTunnelStart
| ErrorSplitTunnelExclude | ErrorServerTimeout | ErrorNoServerAvailable.

Inductive ActivationPrincipal : Type := Null | ExtensionUser | ClientUser.

Definition principalRank (p : ActivationPrincipal) : Z :=
  match p with Null => 0 | ExtensionUser => 1 | ClientUser => 2 end.

Inductive NextStep : Type := None_ | Quit | Update | Reconnect | Disconnect.
Inductive DNSPortPolicy : Type := ForceDNSPort | DoNotForceDNSPort.
Inductive ServerSelectionPolicy : Type :=
| RandomizeServerSelection | DoNotRandomizeServerSelection.
Inductive ServerCoolDownPolicy : Type := eServerCoolDownNeeded | eServerCoolDownNotNeeded.

#[export] Instance State_eq_dec : EqDecision State.
Proof. solve_decision. Defined.
#[export] Instance ErrorCode_eq_dec : EqDecision ErrorCode.
Proof. solve_decision. Defined.
#[export] Instance Principal_eq_dec : EqDecision ActivationPrincipal.
Proof. solve_decision. Defined.
#[export] Instance NextStep_eq_dec : EqDecision NextStep.
Proof. solve_decision. Defined.

Definition stateIn (s : State) (l : list State) : bool := bool_decide (s ∈ l).

(** ** Status *)

Record ControllerStatus : Type := mkStatus {
  st_connected : bool;
  st_timestamp : option Z;
  st_ipv4Address : QHostAddress;
  st_ipv6Address : QHostAddress;
  st_ipv4Gateway : QHostAddress;
  st_ipv6Gateway : QHostAddress;
  st_rxBytes : Z;
  st_txBytes : Z;
}.

(** [clear()]. *)
Definition emptyStatus : ControllerStatus :=
  mkStatus false None NullHost NullHost NullHost NullHost 0 0.

(** [toInteger()] of a whole number, stored as a [quint64]. *)
Definition jsonToU64 (v : QJsonValue) : Z :=
  match v with JDouble n 1 => u64 n | _ => 0 end.

(** The constructor from JSON; [dateOfString] is [QDateTime::fromString] with the
    ISO format. *)
Definition statusOfJson `{QtText} (dateOfString : chars -> option Z) (obj : QJsonObject)
  : ControllerStatus :=
  let host k := hostOfString (text (toQString (value (qs k) obj))) in
  let connected := toBool (value (qs "connected") obj) in
  mkStatus connected
    (if connected then dateOfString (text (toQString (value (qs "date") obj))) else None)
    (host "deviceIpv4Address"%string) (host "deviceIpv6Address"%string)
    (host "serverIpv4Gateway"%string) (host "serverIpv6Gateway"%string)
    (jsonToU64 (value (qs "rxBytes") obj)) (jsonToU64 (value (qs "txBytes") obj)).

(** ** What the controller does to the rest of the program *)

Inductive ErrorReport : Type := AuthenticationError | ControllerError | SplitTunnelError.

Inductive Effect : Type :=
(* its own signals *)
| StateChanged (s : State) | ErrorChanged | StatusUpdated | TimestampChanged
| EnableDisconnectInConfirmingChanged | ConnectionRetryChanged
| ReadyToQuit | ReadyToUpdate | ReadyToServerUnavailable (pingReceived : bool)
| ActivationBlockedForCaptivePortal | IsDeviceConnectedChanged | CurrentServerChanged
(* calls of the backend *)
| ImplCreate (localSocket : chars) | ImplInitialize (withDevice : bool)
| ImplActivate (config : InterfaceConfig) (reason : Reason) | ImplDeactivate
| ImplCheckStatus | ImplDeleteOSTunnelConfig | ImplForceDaemonCrash
| ImplForceDaemonSilentServerSwitch | ImplCleanupBackendLogs | ImplGetBackendLogs
| ImplSendUpdatedConfig (entry exit : InterfaceConfig)
(* calls of other components *)
| PingStart (gateway : QString) (address : chars) | PingStop
| SetCooldown (pubkey : QString) (seconds : Z)
| ReportError (e : ErrorReport) | ResetClient | RequestScreenCaptivePortal
| ScheduleSwitch | CloseLogDevice.

(** ** State *)

Record Controller : Type := mkController {
  m_state : State;
  m_nextStep : NextStep;
  m_initiator : ActivationPrincipal;
  m_enableDisconnectInConfirming : bool;
  m_activationQueue : list InterfaceConfig;
  m_connectionRetry : Z;
  m_impl : bool;
  m_backendAvailable : bool;
  m_portalDetected : bool;
  m_isDeviceConnected : bool;
  m_errorCode : ErrorCode;
  m_serverData : ServerData.ServerData;
  m_nextServerData : ServerData.ServerData;
  m_pingReceived : bool;
  m_connectedTimeInUTC : option Z;
  m_status : ControllerStatus;
  m_confirmingTimer : bool;
  m_handshakeTimer : bool;
  slots : nat;
  effects : list Effect;
}.

#[export] Instance Controller_eta : Eta Controller := fun c =>
  mkController (m_state c) (m_nextStep c) (m_initiator c) (m_enableDisconnectInConfirming c)
    (m_activationQueue c) (m_connectionRetry c) (m_impl c) (m_backendAvailable c)
    (m_portalDetected c) (m_isDeviceConnected c) (m_errorCode c) (m_serverData c)
    (m_nextServerData c) (m_pingReceived c) (m_connectedTimeInUTC c) (m_status c)
    (m_confirmingTimer c) (m_handshakeTimer c) (slots c) (effects c).

(** The object as constructed: [m_impl] says whether there is a backend, a timer
    whether it runs, and [slots] how many times [initialize] has connected the
    object's own slots, which it does again each time it is called. *)
Definition construct : Controller :=
  mkController StateInitializing None_ Null false [] 0 false false false true ErrorNone
    ServerData.emptyServerData ServerData.emptyServerData false None emptyStatus false false 0 [].

(** What the controller reads from outside while it handles one event. *)
Record Env `{QtJson} : Type := mkEnv {
  (* the platform and its backend *)
  desktop : bool;
  mobile : bool;
  multihopSupported : bool;
  splitTunnelSupported : bool;
  canSendUpdatedConfig : bool;
  silentServerSwitching : bool;
  suppressNotification : bool;
  wasm : bool;
  windows : bool;
  inProduction : bool;
  controlSocket : chars;
  windowsDaemonPath : chars;
  platformController : bool;
  uninitialisedHop : HopType;
  (* features *)
  multiHopFeature : bool;
  alwaysPort53 : bool;
  checkConnectivityOnActivation : bool;
  (* the account and the settings *)
  hasProfiles : bool;
  device : option (QString * QString);
  privateKey : QString;
  vpnDisabledApps : list chars;
  dnsSettings : DNSHelper.Settings;
  languageCode : chars;
  (* the servers *)
  vpnServerData : ServerData.ServerData;
  model : ServerList.ServerCountryModel;
  cooldown : chars -> Z;
  translatedCityName : chars -> chars;
  (* the network, the clock, the random numbers *)
  disconnected_ : bool;
  now : Z;
  nowMSecs : Z;
  rndExit : Z;
  rndExitPort : Z;
  rndEntry : Z;
  rndEntryPort : Z;
}.

(** ** Computations *)

Definition C (A : Type) : Type := Controller -> Outcome (A * Controller).

Definition ret {A : Type} (a : A) : C A := fun c => Ret (a, c).
Definition bind {A B : Type} (m : C A) (k : A -> C B) : C B :=
  fun c => match m c with
           | Ret (a, c) => k a c
           | OutOfFuel => OutOfFuel
           | Undefined => Undefined
           end.
Definition lift {A : Type} (o : Outcome A) : C A :=
  fun c => a <~ o ;; Ret (a, c).
Definition gets {A : Type} (f : Controller -> A) : C A := fun c => Ret (f c, c).
Definition modify (f : Controller -> Controller) : C unit := fun c => Ret (tt, f c).

Notation "x <- m ;; k" := (bind m (fun x => k))
  (at level 100, m at next level, right associativity) : wg_scope.
Notation "m ;;; k" := (bind m (fun _ => k))
  (at level 100, k at level 200, right associativity) : wg_scope.

Definition emit (e : Effect) : C unit := modify (fun c => c <| effects := effects c ++ [e] |>).
Definition when (b : bool) (m : C unit) : C unit := if b then m else ret tt.

Section Operations.
Context `{QtText} `{QtJson} `{DNSHelper.Platform}.

Definition isActive (c : Controller) : bool := stateRank StateOff <? stateRank (m_state c).
Definition isInitialized (c : Controller) : bool := stateRank StateOff <=? stateRank (m_state c).

Definition stateToReason (s : State) : Reason :=
  if stateIn s [StateSwitching; StateSilentSwitching] then ReasonSwitching
  else if stateIn s [StateConfirming] then ReasonConfirming
  else ReasonNone.

(** The slot on [stateChanged]. *)
Definition maybeEnableDisconnectInConfirming (c : Controller) : Controller :=
  c <| m_enableDisconnectInConfirming := false |>
    <| effects := effects c ++ [EnableDisconnectInConfirmingChanged] |>
    <| m_confirmingTimer := stateIn (m_state c) [StateConfirming] |>.

(** The slot on the confirming timer. *)
Definition confirmingTimeout : C unit :=
  modify (fun c => c <| m_confirmingTimer := false |>
                     <| m_enableDisconnectInConfirming := true |>) ;;;
  emit EnableDisconnectInConfirmingChanged.

(** A change of state is announced, which runs the slot as often as it is
    connected. *)
Definition setState (s : State) : C unit :=
  modify (fun c =>
    if bool_decide (m_state c = s) then c
    else Nat.iter (slots c) maybeEnableDisconnectInConfirming
           (c <| m_state := s |> <| effects := effects c ++ [StateChanged s] |>)).

Definition setError (e : ErrorCode) : C unit :=
  old <- gets m_errorCode ;;
  if bool_decide (old = e) then ret tt
  else modify (fun c => c <| m_errorCode := e |>) ;;; emit ErrorChanged.

Definition clearRetryCounter : C unit :=
  modify (fun c => c <| m_connectionRetry := 0 |>) ;;; emit ConnectionRetryChanged.

Definition setNextStep (n : NextStep) : C unit := modify (fun c => c <| m_nextStep := n |>).
Definition startHandshakeTimer : C unit := modify (fun c => c <| m_handshakeTimer := true |>).
Definition stopHandshakeTimer : C unit := modify (fun c => c <| m_handshakeTimer := false |>).
Definition clearQueue : C unit := modify (fun c => c <| m_activationQueue := [] |>).

(** A call of the backend: without one, a null pointer. *)
Definition impl (e : Effect) : C unit :=
  p <- gets m_impl ;; if p : bool then emit e else lift Undefined.

(** [if (m_impl) ...]. *)
Definition ifImpl (e : Effect) : C unit := p <- gets m_impl ;; when p (emit e).

Definition deactivate (user : ActivationPrincipal) : C bool :=
  c <- gets id ;;
  if principalRank user <? principalRank (m_initiator c) then ret false
  else if stateIn (m_state c) [StateConnectionError]
          && bool_decide (m_errorCode c = ErrorNoServerAvailable)
  then setState StateOff ;;; ret true
  else if negb (isActive c) then ret false
  else
    when (m_portalDetected c)
      (emit ActivationBlockedForCaptivePortal ;;; emit RequestScreenCaptivePortal ;;;
       modify (fun c => c <| m_portalDetected := false |>)) ;;;
    when (negb (stateIn (m_state c) [StateSwitching; StateSilentSwitching]))
      (setState StateDisconnecting) ;;;
    emit PingStop ;;; stopHandshakeTimer ;;; clearQueue ;;; clearRetryCounter ;;;
    setError ErrorNone ;;;
    impl ImplDeactivate ;;; ret true.

Definition serverUnavailable : C unit :=
  c <- gets id ;;
  emit (ReadyToServerUnavailable (m_pingReceived c)) ;;;
  (if stateIn (m_state c) [StateConnecting] then setError ErrorNoServerAvailable
   else setError ErrorServerTimeout) ;;;
  setState StateConnectionError.

(** ** Configurations of an activation *)

Definition chooseServer (policy : ServerSelectionPolicy) (key : chars)
    (servers : list Server.Server) (random : Z) (e : Env) : Outcome Server.Server :=
  match policy with
  | DoNotRandomizeServerSelection =>
      if bool_decide (key = []) then Server.weightChooser servers random
      else Ret (ServerList.server key (model e))
  | RandomizeServerSelection => Server.weightChooser servers random
  end.

Definition chooseEntry (policy : ServerSelectionPolicy) (d : ServerData.ServerData) (e : Env)
  : Outcome Server.Server :=
  chooseServer policy (ServerData.m_entryServerPublicKey d)
    (ServerData.entryServers (model e) (cooldown e) (now e) d) (rndEntry e) e.

Definition chooseExit (policy : ServerSelectionPolicy) (d : ServerData.ServerData) (e : Env)
  : Outcome Server.Server :=
  chooseServer policy (ServerData.m_exitServerPublicKey d)
    (ServerData.exitServers (model e) (cooldown e) (now e) d) (rndExit e) e.

Definition cityName (s : Server.Server) (e : Env) : QString :=
  Some (translatedCityName e (text (Server.m_cityName s))).

(** The exit configuration before the kind of hop is known. *)
Definition exitConfig (initiator : ActivationPrincipal) (hop : HopType)
    (exitServer : Server.Server) (port : Z) (addresses : QString * QString) (e : Env)
  : InterfaceConfig :=
  mkInterfaceConfig hop (privateKey e) addresses.1 addresses.2
    (Server.m_ipv4Gateway exitServer) (Server.m_ipv6Gateway exitServer)
    (Server.m_publicKey exitServer) (Server.m_ipv4AddrIn exitServer)
    (Server.m_ipv6AddrIn exitServer)
    (DNSHelper.getDNS (dnsSettings e) (Server.m_ipv4Gateway exitServer))
    None (cityName exitServer e) port
    (if bool_decide (initiator = ExtensionUser)
     then DNSHelper.getExtensionProxyAddressRanges (dnsSettings e) exitServer None
     else DNSHelper.getAllowedIPAddressRanges exitServer)
    (if splitTunnelSupported e then vpnDisabledApps e else []).

Definition entryConfig (exitServer entryServer : Server.Server) (port : Z)
    (addresses : QString * QString) (e : Env) : InterfaceConfig :=
  mkInterfaceConfig MultiHopEntry (privateKey e) addresses.1 addresses.2 None None
    (Server.m_publicKey entryServer) (Server.m_ipv4AddrIn entryServer)
    (Server.m_ipv6AddrIn entryServer) None None None port
    ([IPAddress.ofString (text (Server.m_ipv4AddrIn exitServer))]
     ++ (if isEmpty (Server.m_ipv6AddrIn exitServer) then []
         else [IPAddress.ofString (text (Server.m_ipv6AddrIn exitServer))])) [].

(** [setupConfigs]: no configuration, one, or the entry and the exit. *)
Definition setupConfigs (dnsPort : DNSPortPolicy) (policy : ServerSelectionPolicy) (e : Env)
  : C (list InterfaceConfig) :=
  c <- gets id ;;
  let d := m_serverData c in
  exitServer <- lift (chooseExit policy d e) ;;
  if negb (Server.initialized exitServer) then serverUnavailable ;;; ret []
  else
    match device e with
    | None => setNextStep Disconnect ;;; ret []
    | Some addresses =>
        exitPort <- lift (Server.choosePort exitServer (rndExitPort e)) ;;
        impl_ <- gets m_impl ;;
        if negb impl_ then lift Undefined
        else
          let force := match dnsPort with ForceDNSPort => true | _ => alwaysPort53 e end in
          let exit hop := exitConfig (m_initiator c) hop exitServer (s32 exitPort) addresses e in
          if negb (multiHopFeature e) || negb (ServerData.multihop d) then
            let config := exit SingleHop in
            ret [if force then config <| m_serverPort := 53 |> else config]
          else
            entryServer <- lift (chooseEntry policy d e) ;;
            if negb (Server.initialized entryServer) then serverUnavailable ;;; ret []
            else if multihopSupported e then
              entryPort <- lift (Server.choosePort entryServer (rndEntryPort e)) ;;
              ret [entryConfig exitServer entryServer (if force then 53 else s32 entryPort)
                     addresses e;
                   (exit MultiHopExit) <| m_entryCity := cityName entryServer e |>]
            else
              ret [(exit SingleHop)
                     <| m_serverPort := s32 (Server.m_multihopPort exitServer) |>
                     <| m_serverIpv4AddrIn := Server.m_ipv4AddrIn entryServer |>
                     <| m_serverIpv6AddrIn := Server.m_ipv6AddrIn entryServer |>
                     <| m_entryCity := cityName entryServer e |>]
    end.

(** ** Activation *)

Definition activateNext (e : Env) : C unit :=
  queue <- gets m_activationQueue ;;
  match queue with
  | [] => setError ErrorFatal ;;; setState StateConnectionError
  | config :: _ =>
      if negb (hasProfiles e) && bool_decide (device e = None)
      then emit (ReportError AuthenticationError) ;;; emit ResetClient
      else
        when (desktop e) startHandshakeTimer ;;;
        s <- gets m_state ;;
        impl (ImplActivate config (stateToReason s)) ;;;
        initiator <- gets m_initiator ;;
        if bool_decide (initiator = ExtensionUser) then ret tt
        else
          s <- gets m_state ;;
          when (negb (stateIn s [StateSwitching; StateSilentSwitching]))
            (setState StateConfirming)
  end.

Definition activateInternal (dnsPort : DNSPortPolicy) (policy : ServerSelectionPolicy)
    (initiator : ActivationPrincipal) (e : Env) : C unit :=
  modify (fun c => c <| m_initiator := initiator |>) ;;;
  stopHandshakeTimer ;;; clearQueue ;;;
  configs <- setupConfigs dnsPort policy e ;;
  match configs with
  | [] => ret tt
  | first :: _ =>
      let exit := List.last configs first in
      modify (fun c =>
        let d := m_serverData c in
        let d := ServerData.setEntryServerPublicKey (text (m_serverPublicKey first)) d in
        let d := ServerData.setExitServerPublicKey (text (m_serverPublicKey exit)) d in
        c <| m_activationQueue := configs |> <| m_serverData := d |> <| m_pingReceived := false |>) ;;;
      (if isNullString (m_serverIpv4AddrIn first)
       then emit (PingStart (m_serverIpv6AddrIn first) (qs "::/0"))
       else emit (PingStart (m_serverIpv4AddrIn first) (qs "0.0.0.0/0"))) ;;;
      activateNext e
  end.

Definition setServerData (d : ServerData.ServerData) : C unit :=
  modify (fun c => c <| m_serverData := ServerData.assign (m_serverData c) d |>).

(** The connectivity check of an activation from the off state: whether the
    activation goes on. *)
Definition checkDeviceConnected (e : Env) : C bool :=
  if negb (checkConnectivityOnActivation e) then ret true
  else if disconnected_ e then
    modify (fun c => c <| m_isDeviceConnected := false |>) ;;;
    emit IsDeviceConnectedChanged ;;; ret false
  else
    connected <- gets m_isDeviceConnected ;;
    when (negb connected)
      (modify (fun c => c <| m_isDeviceConnected := true |>) ;;; emit IsDeviceConnectedChanged) ;;;
    ret true.

Definition CONNECTION_MAX_RETRY : Z := 9.
Definition SERVER_UNRESPONSIVE_COOLDOWN_SEC : Z := 300.

(** The next steps that end a connection as soon as it is made. *)
Definition stopsAfterwards (n : NextStep) : bool :=
  match n with Quit | Disconnect | Update => true | None_ | Reconnect => false end.

(** [==] of strings, to which a null string is empty. *)
Definition sameString (a b : QString) : bool := bool_decide (text a = text b).

(** The states in which an activation is accepted. *)
Definition mayActivate (s : State) : bool :=
  stateIn s [StateOff; StateOnPartial; StateSwitching; StateSilentSwitching; StateRegeneratingKey].

Definition notExtension (initiator : ActivationPrincipal) : bool :=
  negb (bool_decide (initiator = ExtensionUser)).

Definition activate (d : ServerData.ServerData) (initiator : ActivationPrincipal)
    (policy : ServerSelectionPolicy) (e : Env) : C bool :=
  s <- gets m_state ;;
  if negb (mayActivate s) then ret false
  else
    setError ErrorNone ;;; setServerData d ;;; emit CurrentServerChanged ;;;
    s <- gets m_state ;;
    if stateIn s [StateOff] then
      portal <- gets m_portalDetected ;;
      if portal : bool then
        emit ActivationBlockedForCaptivePortal ;;; emit RequestScreenCaptivePortal ;;;
        modify (fun c => c <| m_portalDetected := false |>) ;;; ret true
      else
        connected <- checkDeviceConnected e ;;
        if negb connected then ret false
        else
          when (notExtension initiator) (setState StateConnecting) ;;;
          clearRetryCounter ;;;
          activateInternal DoNotForceDNSPort policy initiator e ;;; ret true
    else
      when (negb (mobile e) && notExtension initiator) (setState StateConnecting) ;;;
      clearRetryCounter ;;;
      activateInternal DoNotForceDNSPort policy initiator e ;;; ret true.

(** [activate(const InterfaceConfig&)]: a local profile. *)
Definition activateConfig (config : InterfaceConfig) (initiator : ActivationPrincipal) (e : Env)
  : C bool :=
  s <- gets m_state ;;
  if negb (mayActivate s) then ret false
  else
    setError ErrorNone ;;;
    c <- gets id ;;
    if negb (m_impl c) || negb (m_backendAvailable c) then
      setError ErrorNoServerAvailable ;;; setState StateConnectionError ;;; ret false
    else
      connected <- (if stateIn (m_state c) [StateOff] then checkDeviceConnected e else ret true) ;;
      if negb connected then ret false
      else
        let localConfig :=
          if splitTunnelSupported e
          then config <| InterfaceConfig.m_vpnDisabledApps := vpnDisabledApps e |>
          else config in
        when (notExtension initiator) (setState StateConnecting) ;;;
        clearRetryCounter ;;;
        modify (fun c => c <| m_initiator := initiator |>) ;;;
        stopHandshakeTimer ;;;
        modify (fun c => c <| m_activationQueue := [localConfig] |> <| m_pingReceived := false |>) ;;;
        (if negb (isEmpty (m_serverIpv4AddrIn localConfig))
         then emit (PingStart (m_serverIpv4AddrIn localConfig) (qs "0.0.0.0/0"))
         else when (negb (isEmpty (m_serverIpv6AddrIn localConfig)))
                (emit (PingStart (m_serverIpv6AddrIn localConfig) (qs "::/0")))) ;;;
        activateNext e ;;; ret true.

(** ** Deactivation, switching and the slots *)

Definition handshakeTimeout (e : Env) : C unit :=
  if hasProfiles e then
    setError ErrorServerTimeout ;;; setState StateConnectionError ;;;
    stopHandshakeTimer ;;; emit PingStop ;;; ifImpl ImplDeactivate
  else
    queue <- gets m_activationQueue ;;
    match queue with
    | [] => lift Undefined
    | hop :: _ =>
        emit (SetCooldown (m_serverPublicKey hop) SERVER_UNRESPONSIVE_COOLDOWN_SEC) ;;;
        next <- gets m_nextStep ;;
        if stopsAfterwards next then deactivate ClientUser ;;; ret tt
        else
          modify (fun c => c <| m_connectionRetry := m_connectionRetry c + 1 |>) ;;;
          emit ConnectionRetryChanged ;;;
          c <- gets id ;;
          if m_connectionRetry c =? 1 then
            activateInternal ForceDNSPort RandomizeServerSelection (m_initiator c) e
          else if m_connectionRetry c <? CONNECTION_MAX_RETRY then
            activateInternal DoNotForceDNSPort RandomizeServerSelection (m_initiator c) e
          else serverUnavailable
    end.

(** The timer fires once. *)
Definition handshakeTimerFires (e : Env) : C unit := stopHandshakeTimer ;;; handshakeTimeout e.

Definition quit : C unit :=
  c <- gets id ;;
  if negb (isActive c) then emit ReadyToQuit
  else
    setNextStep Quit ;;;
    if stateRank StateDisconnecting <? stateRank (m_state c)
    then deactivate ClientUser ;;; ret tt else ret tt.

Definition updateRequired : C unit :=
  c <- gets id ;;
  if negb (isActive c) then emit ReadyToUpdate
  else
    setNextStep Update ;;;
    if stateIn (m_state c) [StateOn; StateOnPartial]
    then deactivate ClientUser ;;; ret tt else ret tt.

Definition silentSwitchServers (policy : ServerCoolDownPolicy) (e : Env) : C bool :=
  c <- gets id ;;
  let switch selection :=
    clearRetryCounter ;;; setState StateSilentSwitching ;;;
    activateInternal DoNotForceDNSPort selection (m_initiator c) e ;;; ret true in
  if negb (stateIn (m_state c) [StateOn]) then ret false
  else
    match policy with
    | eServerCoolDownNotNeeded => switch DoNotRandomizeServerSelection
    | eServerCoolDownNeeded =>
        if (length (ServerData.exitServers (model e) (cooldown e) (now e) (m_serverData c)) <=? 1)%nat
        then ret false
        else
          emit (SetCooldown (Some (ServerData.m_exitServerPublicKey (m_serverData c)))
                  SERVER_UNRESPONSIVE_COOLDOWN_SEC) ;;;
          switch RandomizeServerSelection
    end.

Definition startKeyRegeneration : C unit := setState StateRegeneratingKey.

(** The end of [connected], once nothing is pending. *)
Definition allConnected (e : Env) : C unit :=
  stopHandshakeTimer ;;; emit PingStop ;;; clearRetryCounter ;;;
  c <- gets id ;;
  let isSwitchingServer :=
    stateIn (m_state c) [StateSwitching; StateSilentSwitching]
    || (mobile e && stateIn (m_state c) [StateOn; StateOnPartial]) in
  setState (if bool_decide (m_initiator c = ExtensionUser) then StateOnPartial else StateOn) ;;;
  setError ErrorNone ;;;
  when (negb isSwitchingServer || bool_decide (m_connectedTimeInUTC c = None))
    (modify (fun c => c <| m_connectedTimeInUTC := Some (nowMSecs e) |>) ;;;
     emit TimestampChanged) ;;;
  if stopsAfterwards (m_nextStep c) then deactivate ClientUser ;;; ret tt else ret tt.

Definition connected (pubkey : QString) (e : Env) : C unit :=
  c <- gets id ;;
  match m_activationQueue c with
  | [] =>
      if sameString (Some (ServerData.m_exitServerPublicKey (m_serverData c))) pubkey
      then allConnected e else ret tt
  | first :: rest =>
      if negb (sameString (m_serverPublicKey first) pubkey) then ret tt
      else
        modify (fun c => c <| m_activationQueue := rest |>) ;;;
        match rest with
        | [] => allConnected e
        | _ => activateNext e
        end
  end.

Definition disconnected (e : Env) : C unit :=
  emit PingStop ;;; stopHandshakeTimer ;;; clearQueue ;;; clearRetryCounter ;;;
  next <- gets m_nextStep ;;
  setNextStep None_ ;;;
  match next with
  | Quit => emit ReadyToQuit ;;; setState StateOff
  | Update => emit ReadyToUpdate ;;; setState StateOff
  | Reconnect =>
      c <- gets id ;;
      setServerData (m_nextServerData c) ;;; emit CurrentServerChanged ;;;
      activateInternal DoNotForceDNSPort RandomizeServerSelection (m_initiator c) e
  | None_ | Disconnect =>
      modify (fun c => c <| m_status := emptyStatus |> <| m_connectedTimeInUTC := None |>) ;;;
      emit TimestampChanged ;;; emit StatusUpdated ;;;
      modify (fun c => c <| m_initiator := Null |>) ;;;
      setState StateOff
  end.

Definition maybeSendUpdatedConfig (d : ServerData.ServerData) (e : Env) : C unit :=
  p <- gets m_impl ;;
  if negb p then lift Undefined
  else if negb (canSendUpdatedConfig e) then ret tt
  else
    setServerData d ;;;
    configs <- setupConfigs DoNotForceDNSPort RandomizeServerSelection e ;;
    match configs with
    | [] => ret tt
    | first :: others =>
        let exit := List.last configs first in
        let entry := match others with [] => emptyConfig (uninitialisedHop e) | _ => first end in
        when (negb (bool_decide (others = [])))
          (modify (fun c => c <| m_activationQueue := m_activationQueue c ++ [entry] |>)) ;;;
        modify (fun c =>
          let d := m_serverData c in
          let d := ServerData.setEntryServerPublicKey (text (m_serverPublicKey first)) d in
          let d := ServerData.setExitServerPublicKey (text (m_serverPublicKey exit)) d in
          c <| m_serverData := d |>) ;;;
        emit (ImplSendUpdatedConfig entry exit)
    end.

Definition switchServers (d : ServerData.ServerData) (e : Env) : C bool :=
  c <- gets id ;;
  if negb (isActive c) then maybeSendUpdatedConfig d e ;;; ret false
  else
    modify (fun c =>
      let next := ServerData.assign (m_nextServerData c) d in
      c <| m_nextServerData := next |>) ;;;
    clearRetryCounter ;;;
    when (negb (stateIn (m_state c) [StateConnecting])) (setState StateSwitching) ;;;
    if negb (m_impl c) then lift Undefined
    else if multihopSupported e
            && negb (Bool.eqb (ServerData.multihop d) (ServerData.multihop (m_serverData c)))
    then setNextStep Reconnect ;;; deactivate ClientUser ;;; ret true
    else
      setServerData d ;;; emit CurrentServerChanged ;;;
      activateInternal DoNotForceDNSPort RandomizeServerSelection (m_initiator c) e ;;; ret true.

(** The slot on the settings; the last line schedules the switch in place of the
    pending tasks. *)
Definition serverDataChanged : C unit :=
  c <- gets id ;;
  if negb (isActive c) || stateIn (m_state c) [StateDisconnecting] then ret tt
  else emit ScheduleSwitch.

Definition localeChanged (e : Env) : C unit :=
  if bool_decide (languageCode e = []) then ret tt
  else maybeSendUpdatedConfig (vpnServerData e) e.

(** ** Life cycle and the other slots *)

(** The socket to talk to, empty when there is none. *)
Definition useLocalSocketPath (e : Env) : chars :=
  if negb (wasm e) && negb (inProduction e) && negb (bool_decide (controlSocket e = []))
  then controlSocket e
  else if windows e then windowsDaemonPath e else [].

Definition initialize (e : Env) : C unit :=
  setState StateInitializing ;;;
  modify (fun c =>
    let d := ServerData.assign (m_serverData c) (vpnServerData e) in
    let next := ServerData.assign (m_nextServerData c) (vpnServerData e) in
    let available := negb (bool_decide (useLocalSocketPath e = [])) || platformController e in
    c <| m_backendAvailable := false |> <| m_serverData := d |> <| m_nextServerData := next |>
      <| m_impl := available |> <| slots := S (slots c) |>) ;;;
  ifImpl (ImplCreate (useLocalSocketPath e)) ;;;
  impl (ImplInitialize (negb (hasProfiles e) && negb (bool_decide (device e = None)))).

Definition implPermRequired : C unit :=
  modify (fun c => c <| m_backendAvailable := false |>) ;;; setState StatePermissionRequired.

Definition implInitialized (status a_connected : bool) (connectionDate : option Z) (e : Env)
  : C unit :=
  if negb status then
    modify (fun c => c <| m_backendAvailable := false |>) ;;;
    emit (ReportError ControllerError) ;;; setState StateOff
  else
    modify (fun c => c <| m_backendAvailable := true |>) ;;;
    setState (if a_connected then StateOn else StateOff) ;;;
    modify (fun c =>
      let st := mkStatus a_connected connectionDate NullHost NullHost NullHost NullHost 0 0 in
      c <| m_status := st |>) ;;;
    emit StatusUpdated ;;;
    when a_connected
      (modify (fun c =>
         c <| m_connectedTimeInUTC :=
                Some (match connectionDate with Some t => t | None => nowMSecs e end) |>) ;;;
       emit TimestampChanged).

Definition statusUpdated (st : ControllerStatus) : C unit :=
  modify (fun c => c <| m_status := st |>) ;;; emit StatusUpdated.

(** The slot on the ping canary. *)
Definition pingSentAndReceived : C unit :=
  emit PingStop ;;; modify (fun c => c <| m_pingReceived := true |>).

Definition handleBackendFailure (code : ErrorCode) : C unit :=
  setError code ;;;
  match code with
  | ErrorNone | ErrorFatal => emit (ReportError ControllerError)
  | ErrorSplitTunnelInit | ErrorSplitTunnelStart | ErrorSplitTunnelExclude =>
      emit (ReportError SplitTunnelError)
  | _ => ret tt
  end.

Definition forceDaemonCrash : C unit := ifImpl ImplForceDaemonCrash.

Definition deleteOSTunnelConfig : C unit :=
  ifImpl ImplDeleteOSTunnelConfig ;;; setState StateInitializing.

Definition cleanupBackendLogs : C unit := ifImpl ImplCleanupBackendLogs.

Definition logSerialize : C unit :=
  p <- gets m_impl ;; emit (if p : bool then ImplGetBackendLogs else CloseLogDevice).

Definition refreshStatus : C unit :=
  p <- gets m_impl ;; emit (if p : bool then ImplCheckStatus else StatusUpdated).

Definition captivePortalGone : C unit := modify (fun c => c <| m_portalDetected := false |>).
Definition captivePortalPresent : C unit := modify (fun c => c <| m_portalDetected := true |>).

Definition forceDaemonSilentServerSwitch (e : Env) : C unit :=
  when (mobile e) (ifImpl ImplForceDaemonSilentServerSwitch).

Definition shouldSuppressNextNotification (e : Env) (c : Controller) : bool :=
  m_impl c && suppressNotification e.

Definition splitTunnelSupported_ (e : Env) (c : Controller) : bool :=
  m_impl c && splitTunnelSupported e.

Definition silentServerSwitchingSupported (e : Env) (c : Controller) : Outcome bool :=
  if m_impl c then Ret (silentServerSwitching e) else Undefined.

Definition connectionTimestamp (e : Env) (c : Controller) : Z :=
  if stateIn (m_state c) [StateOn; StateOnPartial; StateSilentSwitching; StateSwitching]
  then match m_connectedTimeInUTC c with Some t => t | None => nowMSecs e end
  else 0.

Definition currentServerString (c : Controller) : chars :=
  let d := m_serverData c in
  ServerData.m_exitCountryCode d ++ qs "-" ++ ServerData.m_exitCityName d ++ qs "-"
  ++ ServerData.m_entryCountryCode d ++ qs "-" ++ ServerData.m_entryCityName d.

(** ** Events *)

Inductive Event : Type :=
(* requests of the client *)
| Initialize | Activate (d : ServerData.ServerData) (initiator : ActivationPrincipal)
    (policy : ServerSelectionPolicy)
| ActivateConfig (config : InterfaceConfig) (initiator : ActivationPrincipal)
| Deactivate (user : ActivationPrincipal) | Quit_ | UpdateRequired
| SwitchServers (d : ServerData.ServerData) | SilentSwitchServers (policy : ServerCoolDownPolicy)
| StartKeyRegeneration | DeleteOSTunnelConfig | RefreshStatus
| CaptivePortalPresent | CaptivePortalGone
| ForceDaemonCrash | ForceDaemonSilentServerSwitch | CleanupBackendLogs | LogSerialize
| ServerDataChanged | LocaleChanged
(* signals of the backend *)
| ImplPermRequired | ImplInitialized (status connected : bool) (date : option Z)
| Connected (pubkey : QString) | Disconnected | BackendFailure (code : ErrorCode)
| StatusReceived (st : ControllerStatus)
(* timers and the canary *)
| HandshakeTimer | ConfirmingTimer | CanaryReply
(* the answer to the permission prompt of a mobile platform *)
| StartHandshakeTimer.

Definition ignore {A : Type} (m : C A) : C unit := m ;;; ret tt.

Definition handle (e : Env) (ev : Event) : C unit :=
  match ev with
  | Initialize => initialize e
  | Activate d initiator policy => ignore (activate d initiator policy e)
  | ActivateConfig config initiator => ignore (activateConfig config initiator e)
  | Deactivate user => ignore (deactivate user)
  | Quit_ => quit
  | UpdateRequired => updateRequired
  | SwitchServers d => ignore (switchServers d e)
  | SilentSwitchServers policy => ignore (silentSwitchServers policy e)
  | StartKeyRegeneration => startKeyRegeneration
  | DeleteOSTunnelConfig => deleteOSTunnelConfig
  | RefreshStatus => refreshStatus
  | CaptivePortalPresent => captivePortalPresent
  | CaptivePortalGone => captivePortalGone
  | ForceDaemonCrash => forceDaemonCrash
  | ForceDaemonSilentServerSwitch => forceDaemonSilentServerSwitch e
  | CleanupBackendLogs => cleanupBackendLogs
  | LogSerialize => logSerialize
  | ServerDataChanged => serverDataChanged
  | LocaleChanged => localeChanged e
  | ImplPermRequired => implPermRequired
  | ImplInitialized status a_connected date => implInitialized status a_connected date e
  | Connected pubkey => connected pubkey e
  | Disconnected => disconnected e
  | BackendFailure code => handleBackendFailure code
  | StatusReceived st => statusUpdated st
  | HandshakeTimer => handshakeTimerFires e
  | ConfirmingTimer => confirmingTimeout
  | CanaryReply => pingSentAndReceived
  | StartHandshakeTimer => startHandshakeTimer
  end.

(** When an event can happen: a timer fires when it runs; a backend signals once it
    exists; the client switches servers and regenerates keys once the controller
    has been initialized; only the mobile backends start the handshake timer. *)
Definition enabled (e : Env) (ev : Event) (c : Controller) : Prop :=
  match ev with
  | HandshakeTimer => m_handshakeTimer c = true
  | ConfirmingTimer => m_confirmingTimer c = true
  | ImplPermRequired | ImplInitialized _ _ _ | Connected _ | Disconnected | BackendFailure _
  | StatusReceived _ | SwitchServers _ | StartKeyRegeneration | LocaleChanged
  | ServerDataChanged => m_impl c = true
  | StartHandshakeTimer => mobile e = true /\ m_impl c = true
  | _ => True
  end.

End Operations.

End Controller.
