(* ===== verification/ControllerProofs.v ===== *)
(** * The controller: invariants and behaviour

    Theorems on the state machine of [ControllerModel]: that no event a desktop
    client can meet leads to undefined behaviour, but for a choice among servers of
    which there is none to choose; the bound on the connection attempts, and the
    effect of the main operations. *)
From Stdlib Require Import ZArith Lia Ascii String.
From stdpp Require Import base numbers list gmap strings.
From S2P Require Import Prelude QHostAddress QString QtTextModel IPAddress Json InterfaceConfig.
From S2P Require Import Server ServerList ServerData Dns ControllerModel.

Local Open Scope Z_scope.
Local Open Scope wg_scope.

Module ControllerProofs.
Import Controller.

(** ** Total correctness of computations *)

(** What undefined behaviour of a computation would prove: [False] where there is
    to be none. *)
Class Crashes : Type := crashes : Prop.

(** The computation returns, in a state and with a result satisfying [Q], or runs
    into undefined behaviour that [crashes] explains. *)
Definition returns `{Crashes} {A : Type} (o : Outcome (A * Controller))
    (Q : A -> Controller -> Prop) : Prop :=
  match o with
  | Ret (a, c') => Q a c'
  | Undefined => crashes
  | OutOfFuel => False
  end.

(** ... from every state satisfying [P]. *)
Definition triple `{Crashes} {A : Type} (P : Controller -> Prop) (m : C A)
    (Q : A -> Controller -> Prop) : Prop :=
  forall c, P c -> returns (m c) Q.

Section Triples.
Context {CC : Crashes}.

Lemma triple_ret {A : Type} (a : A) (P : Controller -> Prop) :
  triple P (ret a) (fun b c => b = a /\ P c).
Proof. by intros c Hc. Qed.

Lemma triple_bind {A B : Type} (P : Controller -> Prop) (m : C A) (Q : A -> Controller -> Prop)
    (k : A -> C B) (R : B -> Controller -> Prop) :
  triple P m Q -> (forall a, triple (Q a) (k a) R) -> triple P (bind m k) R.
Proof.
  intros Hm Hk c Hc. specialize (Hm c Hc). unfold bind.
  destruct (m c) as [[a c1]| |]; [by apply Hk|exact Hm..].
Qed.

Lemma triple_seq {A B : Type} (P Q : Controller -> Prop) (m : C A) (k : C B)
    (R : B -> Controller -> Prop) :
  triple P m (fun _ => Q) -> triple Q k R -> triple P (bind m (fun _ => k)) R.
Proof. intros Hm Hk. by apply (triple_bind P m (fun _ => Q)). Qed.

Lemma triple_conseq {A : Type} (P P' : Controller -> Prop) (m : C A)
    (Q Q' : A -> Controller -> Prop) :
  (forall c, P' c -> P c) -> triple P m Q -> (forall a c, Q a c -> Q' a c) -> triple P' m Q'.
Proof.
  intros HP Hm HQ c Hc. specialize (Hm c (HP c Hc)).
  destruct (m c) as [[a c1]| |]; [by apply HQ|exact Hm..].
Qed.

Lemma triple_modify (f : Controller -> Controller) (P : Controller -> Prop)
    (Q : Controller -> Prop) :
  (forall c, P c -> Q (f c)) -> triple P (modify f) (fun _ => Q).
Proof. intros Hf c Hc. by apply Hf. Qed.

(** Reading the state: the rest is correct for whatever was read. *)
Lemma triple_gets_any {A B : Type} (f : Controller -> A) (P : Controller -> Prop)
    (k : A -> C B) (Q : B -> Controller -> Prop) :
  (forall a, triple (fun c => P c /\ a = f c) (k a) Q) -> triple P (bind (gets f) k) Q.
Proof. intros Hk c Hc. by apply (Hk (f c)). Qed.

Lemma triple_read {A B : Type} (f : Controller -> A) (P : Controller -> Prop)
    (k : A -> C B) (Q : B -> Controller -> Prop) :
  (forall a, triple P (k a) Q) -> triple P (bind (gets f) k) Q.
Proof. intros Hk c Hc. exact (Hk (f c) c Hc). Qed.

Lemma triple_when (b : bool) (m : C unit) (P : Controller -> Prop) :
  (b = true -> triple P m (fun _ => P)) -> triple P (when b m) (fun _ => P).
Proof. destruct b; intros Hm; [by apply Hm|]. by intros c Hc. Qed.

(** What was read is not always needed. *)
Lemma triple_drop {A : Type} (P X : Controller -> Prop) (m : C A) (Q : A -> Controller -> Prop) :
  triple P m Q -> triple (fun c => P c /\ X c) m Q.
Proof. intros Hm c [Hc _]. by apply Hm. Qed.

Lemma triple_lift {A : Type} (o : Outcome A) (a : A) (P : Controller -> Prop) :
  o = Ret a -> triple P (lift o) (fun b c => b = a /\ P c).
Proof. by intros -> c Hc. Qed.

End Triples.

(** ** What always holds *)

(** There is a backend, and the disconnect button of the confirming state and its
    timer belong to that state. *)
Definition Live (c : Controller) : Prop :=
  m_impl c = true /\ slots c <> 0%nat
  /\ (m_confirmingTimer c = true -> m_state c = StateConfirming)
  /\ (m_enableDisconnectInConfirming c = true ->
      m_state c = StateConfirming /\ m_confirmingTimer c = false).

(** [Live], and a relation between the handshake timer, the queue and the retries. *)
Definition Holds (R : bool -> list InterfaceConfig -> Z -> Prop) (c : Controller) : Prop :=
  Live c /\ R (m_handshakeTimer c) (m_activationQueue c) (m_connectionRetry c).

(** While the timer runs something is queued; the attempts left bound what can be
    queued. *)
Definition Budget (timer : bool) (queue : list InterfaceConfig) (retry : Z) : Prop :=
  (timer = true -> queue <> []) /\ 0 <= retry
  /\ retry + Z.of_nat (length queue) <= (if timer then 10 else 11).

(** A controller before its first initialization. *)
Definition Fresh (c : Controller) : Prop :=
  m_impl c = false /\ m_state c = StateInitializing /\ m_handshakeTimer c = false
  /\ m_confirmingTimer c = false /\ m_enableDisconnectInConfirming c = false
  /\ m_activationQueue c = [] /\ m_connectionRetry c = 0.

Lemma setState_fields (s : State) (c : Controller) :
  slots c <> 0%nat ->
  exists c', setState s c = Ret (tt, c') /\ m_state c' = s
  /\ m_impl c' = m_impl c /\ slots c' = slots c
  /\ m_handshakeTimer c' = m_handshakeTimer c /\ m_activationQueue c' = m_activationQueue c
  /\ m_connectionRetry c' = m_connectionRetry c
  /\ (m_state c = s -> c' = c)
  /\ (m_state c <> s ->
      c' = c <| m_state := s |> <| m_enableDisconnectInConfirming := false |>
             <| m_confirmingTimer := stateIn s [StateConfirming] |>
             <| effects := effects c ++ StateChanged s ::
                           repeat EnableDisconnectInConfirmingChanged (slots c) |>).
Proof.
  intros Hn. unfold setState, modify. case_bool_decide as E.
  { exists c. by split_and!. }
  set (c1 := updateField _ _). 
  assert (forall n, n <> 0%nat -> Nat.iter n maybeEnableDisconnectInConfirming c1
    = c1 <| m_enableDisconnectInConfirming := false |>
         <| m_confirmingTimer := stateIn s [StateConfirming] |>
         <| effects := effects c1 ++ repeat EnableDisconnectInConfirmingChanged n |>) as Hi.
  { intros n. induction n as [|n IH]; [done|]. intros _. rewrite Nat.iter_succ.
    destruct n as [|n]; [done|]. rewrite IH by done. 
    change (repeat ?x (S (S n))) with (x :: repeat x (S n)). rewrite repeat_cons, app_assoc.
    unfold maybeEnableDisconnectInConfirming. done. }
  eexists. split; [done|]. rewrite (Hi _ Hn). split_and!; try done.
  intros _. cbn -[stateIn repeat]. rewrite <- app_assoc. done.
Qed.

(** ** Operations that leave the timer, the queue and the retries alone *)

Create HintDb frames.

Section Frames.
Context {CC : Crashes}.
Variable R : bool -> list InterfaceConfig -> Z -> Prop.
#[local] Abbreviation frame m := (triple (Holds R) m (fun _ => Holds R)).

Lemma frame_emit (x : Effect) : frame (emit x).
Proof. apply triple_modify. intros c Hc. exact Hc. Qed.

Lemma frame_ret {A : Type} (a : A) : frame (ret a).
Proof. by intros c Hc. Qed.

Lemma frame_setError (x : ErrorCode) : frame (setError x).
Proof.
  intros c Hc. unfold setError, bind, gets. case_bool_decide; exact Hc.
Qed.

Lemma frame_setNextStep (n : NextStep) : frame (setNextStep n).
Proof. apply triple_modify. intros c Hc. exact Hc. Qed.

Lemma frame_setState (s : State) : frame (setState s).
Proof.
  intros c ((Hi & Hn & Hconf & Hen) & HR).
  destruct (setState_fields s c Hn)
    as (c' & E & Hs & Ei & En & Et & Eq & Er & Hsame & Hnew).
  rewrite E. cbn [returns]. destruct (decide (m_state c = s)) as [Hcs|Hcs].
  { rewrite (Hsame Hcs). done. }
  split; [|by rewrite Et, Eq, Er]. unfold Live. rewrite Ei, En, Hs, (Hnew Hcs).
  split_and!; try done. cbn -[stateIn]. unfold stateIn. intros Hb. zbool.
  by apply list_elem_of_singleton in Hb.
Qed.

Lemma frame_impl (x : Effect) : frame (impl x).
Proof.
  intros c Hc. unfold impl, bind, gets. rewrite (proj1 (proj1 Hc)).
  exact Hc.
Qed.

Lemma frame_ifImpl (x : Effect) : frame (ifImpl x).
Proof.
  intros c Hc. unfold ifImpl, bind, gets. by destruct (m_impl c).
Qed.

Lemma frame_setServerData (d : ServerData.ServerData) : frame (setServerData d).
Proof. apply triple_modify. intros c Hc. exact Hc. Qed.

Lemma frame_when (b : bool) (m : C unit) : frame m -> frame (when b m).
Proof. intros Hm. by apply triple_when. Qed.

(** Operations that change one of the three. *)
Lemma triple_stop (Q : bool -> list InterfaceConfig -> Z -> Prop) :
  (forall t q r, R t q r -> Q false q r) ->
  triple (Holds R) stopHandshakeTimer (fun _ => Holds Q).
Proof. intros HQ. apply triple_modify. intros c [Hl HR]. split; [exact Hl|]. eapply HQ, HR. Qed.

Lemma triple_start (Q : bool -> list InterfaceConfig -> Z -> Prop) :
  (forall t q r, R t q r -> Q true q r) ->
  triple (Holds R) startHandshakeTimer (fun _ => Holds Q).
Proof. intros HQ. apply triple_modify. intros c [Hl HR]. split; [exact Hl|]. eapply HQ, HR. Qed.

Lemma triple_clearQueue (Q : bool -> list InterfaceConfig -> Z -> Prop) :
  (forall t q r, R t q r -> Q t [] r) ->
  triple (Holds R) clearQueue (fun _ => Holds Q).
Proof. intros HQ. apply triple_modify. intros c [Hl HR]. split; [exact Hl|]. eapply HQ, HR. Qed.

Lemma triple_clearRetry (Q : bool -> list InterfaceConfig -> Z -> Prop) :
  (forall t q r, R t q r -> Q t q 0) ->
  triple (Holds R) clearRetryCounter (fun _ => Holds Q).
Proof.
  intros HQ c [Hl HR]. split; [exact Hl|]. eapply HQ, HR.
Qed.

End Frames.

#[export] Hint Resolve frame_emit frame_ret frame_setError frame_setNextStep frame_setState
  frame_impl frame_ifImpl frame_setServerData : frames.

(** Change of the relation. *)
Lemma holds_weaken {CC : Crashes} {A : Type} (R R' : bool -> list InterfaceConfig -> Z -> Prop) (m : C A)
    (Q : A -> Controller -> Prop) :
  (forall t q r, R' t q r -> R t q r) -> triple (Holds R) m Q -> triple (Holds R') m Q.
Proof.
  intros HR Hm. apply (triple_conseq _ _ _ _ _ (fun c '(conj Hl Hc) => conj Hl (HR _ _ _ Hc)) Hm).
  done.
Qed.

(** One step of a sequence whose first part is a frame. *)
Ltac frame_step :=
  cbv beta;
  lazymatch goal with
  | |- triple _ (bind (gets _) _) _ => apply triple_read; intros ?
  | |- triple (Holds ?R) (bind (modify _) _) _ =>
      apply (triple_seq (Holds R) (Holds R)); [apply triple_modify; let Hx := fresh in intros ? Hx; exact Hx|]
  | |- triple _ (modify _) _ => apply triple_modify; let Hx := fresh in intros ? Hx; exact Hx
  | |- triple _ (bind _ _) _ => eapply triple_bind; [|intros ?; cbv beta]
  | |- triple _ (when _ _) _ => apply triple_when; intros ?
  | |- triple _ (if ?b then _ else _) _ => destruct b
  | |- triple _ (match ?x with _ => _ end) _ => destruct x
  | |- _ => cbv beta; solve [auto with frames]
  end.

Section Operations.
Context {CC : Crashes}.
Context `{QtText} `{QtJson} `{DNSHelper.Platform}.

Lemma frame_serverUnavailable (R : bool -> list InterfaceConfig -> Z -> Prop) :
  triple (Holds R) serverUnavailable (fun _ => Holds R).
Proof.
  unfold serverUnavailable. repeat frame_step.
Qed.

(** The state an operation that gives up a connection leaves. *)
Definition Idle (timer : bool) (queue : list InterfaceConfig) (retry : Z) : Prop :=
  timer = false /\ queue = [] /\ retry = 0.

Lemma triple_deactivate (R : bool -> list InterfaceConfig -> Z -> Prop) (user : ActivationPrincipal) :
  (forall t q r, Idle t q r -> R t q r) ->
  triple (Holds R) (deactivate user) (fun _ => Holds R).
Proof.
  intros HI. unfold deactivate. apply triple_read. intros c0.
  destruct (principalRank user <? _); [auto with frames|].
  destruct (_ && _); [repeat frame_step|].
  destruct (negb _); [auto with frames|].
  eapply triple_seq; [repeat frame_step|].
  eapply triple_seq; [repeat frame_step|].
  eapply triple_seq; [apply frame_emit|].
  eapply triple_seq; [apply (triple_stop _ (fun t _ _ => t = false)); done|].
  eapply triple_seq; [apply (triple_clearQueue _ (fun t q _ => t = false /\ q = [])); done|].
  eapply triple_seq; [apply (triple_clearRetry _ Idle); by intros ? ? ? [-> ->]|].
  apply (holds_weaken R); [done|]. repeat frame_step.
Qed.

(** ** Choices that C++ defines *)

(** The weights of the servers of a location do not add up to [-1], and the port
    ranges of a known server are not empty: the remainders that choose a server
    and a port are defined. *)
Definition Choosable (e : Env) : Prop :=
  (forall code city,
     u32 (Server.weightSum (ServerData.getServerList (model e) (cooldown e) (now e) code city) + 1)
     <> 0)
  /\ forall key, let s := ServerList.server key (model e) in
     Server.m_portRanges s <> [] -> Server.portCount (Server.m_portRanges s) <> 0.

Lemma weightChooser_defined (servers : list Server.Server) (random : Z) :
  u32 (Server.weightSum servers + 1) <> 0 ->
  exists s, Server.weightChooser servers random = Ret s.
Proof.
  intros Hw. unfold Server.weightChooser. destruct servers; [by eexists|].
  destruct (Z.eqb_spec (u32 (Server.weightSum (s :: servers) + 1)) 0); [done|by eexists].
Qed.

Lemma chooseLoop_member (servers : list Server.Server) (r : Z) :
  Server.chooseLoop servers r ∈ servers \/ Server.chooseLoop servers r = Server.emptyServer.
Proof.
  revert r. induction servers as [|s l IH]; intros r; simpl; [by right|].
  destruct (r <=? _); [left; left|]. destruct (IH (u32 (r - Server.m_weight s))) as [?| ->].
  - left. by right.
  - by right.
Qed.

(** A chosen server is a known one or the empty one. *)
Lemma weightChooser_known (e : Env) (code city : chars) (random : Z) (s : Server.Server) :
  Server.weightChooser (ServerData.getServerList (model e) (cooldown e) (now e) code city) random
  = Ret s ->
  s = Server.emptyServer \/ exists key, s = ServerList.server key (model e).
Proof.
  assert (forall x, x ∈ ServerData.getServerList (model e) (cooldown e) (now e) code city ->
    exists key, x = ServerList.server key (model e)) as Hl.
  { intros x Hx. apply list_elem_of_filter in Hx as [_ Hx].
    apply list_elem_of_fmap in Hx as (key & Hk & _). by exists key. }
  revert Hl. generalize (ServerData.getServerList (model e) (cooldown e) (now e) code city).
  intros l Hl. unfold Server.weightChooser. destruct l as [|s0 l]; [by intros [= <-]; left|].
  destruct (_ =? 0); [done|]. intros [= <-].
  destruct (chooseLoop_member (s0 :: l) (random mod u32 (Server.weightSum (s0 :: l) + 1)))
    as [Hin|Hin]; [right; by apply Hl|by left].
Qed.

Lemma choosePort_defined (e : Env) (s : Server.Server) (random : Z) :
  Choosable e ->
  s = Server.emptyServer \/ (exists key, s = ServerList.server key (model e)) ->
  exists port, Server.choosePort s random = Ret port.
Proof.
  intros [_ Hp] [->|(key & ->)]; [by eexists|]. specialize (Hp key). simpl in Hp.
  unfold Server.choosePort. destruct (Server.m_portRanges _) as [|r l]; [by eexists|].
  specialize (Hp ltac:(done)). destruct (Z.eqb_spec (Server.portCount (r :: l)) 0); [done|by eexists].
Qed.

Lemma chooseServer_defined (e : Env) (policy : ServerSelectionPolicy) (key code city : chars)
    (random : Z) :
  Choosable e ->
  exists s, chooseServer policy key
              (ServerData.getServerList (model e) (cooldown e) (now e) code city) random e = Ret s
  /\ (s = Server.emptyServer \/ exists key, s = ServerList.server key (model e)).
Proof.
  intros [Hw Hp]. specialize (Hw code city). destruct (weightChooser_defined _ random Hw) as [s Hs].
  assert (exists s, Server.weightChooser
      (ServerData.getServerList (model e) (cooldown e) (now e) code city) random = Ret s
    /\ (s = Server.emptyServer \/ exists key, s = ServerList.server key (model e))) as Hc.
  { exists s. split; [done|]. by eapply weightChooser_known. }
  unfold chooseServer. destruct policy; [done|]. case_bool_decide; [done|]. eexists. split; [done|].
  right. by eexists.
Qed.

Lemma chooseExit_defined (e : Env) (policy : ServerSelectionPolicy) (d : ServerData.ServerData) :
  Choosable e ->
  exists s, chooseExit policy d e = Ret s
  /\ (s = Server.emptyServer \/ exists key, s = ServerList.server key (model e)).
Proof. intros He. by apply chooseServer_defined. Qed.

Lemma chooseEntry_defined (e : Env) (policy : ServerSelectionPolicy) (d : ServerData.ServerData) :
  Choosable e ->
  exists s, chooseEntry policy d e = Ret s
  /\ (s = Server.emptyServer \/ exists key, s = ServerList.server key (model e)).
Proof.
  intros He. unfold chooseEntry, ServerData.entryServers, ServerData.exitServers.
  destruct (ServerData.multihop d); by apply chooseServer_defined.
Qed.

(** A server of the list, or none. *)
Definition Known (e : Env) (s : Server.Server) : Prop :=
  s = Server.emptyServer \/ exists key, s = ServerList.server key (model e).

(** A choice is defined, or the environment is not one where all are. *)
Lemma choosePort_cases (e : Env) (s : Server.Server) (random : Z) :
  Known e s ->
  (exists port, Server.choosePort s random = Ret port)
  \/ (Server.choosePort s random = Undefined /\ ~ Choosable e).
Proof.
  intros [->|(key & ->)]; [left; by eexists|]. unfold Server.choosePort.
  destruct (Server.m_portRanges _) as [|r l] eqn:Er; [left; by eexists|].
  destruct (Z.eqb_spec (Server.portCount (r :: l)) 0) as [Ez|]; [right|left; by eexists].
  split; [done|]. intros [_ Hp]. specialize (Hp key). cbn zeta in Hp. rewrite Er in Hp.
  by apply Hp.
Qed.

Lemma chooseServer_cases (e : Env) (policy : ServerSelectionPolicy) (key code city : chars)
    (random : Z) (o : Outcome Server.Server) :
  o = chooseServer policy key
        (ServerData.getServerList (model e) (cooldown e) (now e) code city) random e ->
  (exists s, o = Ret s
   /\ Known e s)
  \/ (o = Undefined /\ ~ Choosable e).
Proof.
  intros ->. set (l := ServerData.getServerList _ _ _ _ _).
  assert ((exists s, Server.weightChooser l random = Ret s
     /\ Known e s)
    \/ (Server.weightChooser l random = Undefined /\ ~ Choosable e)) as Hc.
  { destruct (Server.weightChooser l random) as [s| |] eqn:E.
    - left. exists s. split; [done|]. by eapply weightChooser_known.
    - exfalso. revert E. unfold Server.weightChooser. destruct l as [|s l']; [done|].
      by destruct (Z.eqb_spec (u32 (Server.weightSum (s :: l') + 1)) 0).
    - right. split; [done|]. intros [Hw _].
      destruct (weightChooser_defined l random (Hw code city)) as [s Hs]. by rewrite Hs in E. }
  unfold chooseServer. destruct policy; [done|]. case_bool_decide; [done|]. left.
  eexists. split; [done|]. right. by eexists.
Qed.

Lemma chooseExit_cases (e : Env) (policy : ServerSelectionPolicy) (d : ServerData.ServerData) :
  (exists s, chooseExit policy d e = Ret s
   /\ Known e s)
  \/ (chooseExit policy d e = Undefined /\ ~ Choosable e).
Proof. by eapply chooseServer_cases. Qed.

Lemma chooseEntry_cases (e : Env) (policy : ServerSelectionPolicy) (d : ServerData.ServerData) :
  (exists s, chooseEntry policy d e = Ret s
   /\ Known e s)
  \/ (chooseEntry policy d e = Undefined /\ ~ Choosable e).
Proof.
  unfold chooseEntry, ServerData.entryServers, ServerData.exitServers.
  destruct (ServerData.multihop d); by eapply chooseServer_cases.
Qed.

(** What [Crashes] may be for an environment: the explanation of undefined behaviour
    is at least that some choice is not defined. *)
Definition Explained (e : Env) : Prop := ~ Choosable e -> crashes.

(** ** Activations keep within the budget *)

Lemma frame_lift {A : Type} (R : bool -> list InterfaceConfig -> Z -> Prop) (o : Outcome A) :
  (exists a, o = Ret a) -> triple (Holds R) (lift o) (fun a c => o = Ret a /\ Holds R c).
Proof. by intros [a ->] c Hc. Qed.

(** A choice: its result where it has one. *)
Lemma frame_choice {A : Type} (R : bool -> list InterfaceConfig -> Z -> Prop) (o : Outcome A)
    (K : A -> Prop) (e : Env) :
  Explained e -> ((exists a, o = Ret a /\ K a) \/ (o = Undefined /\ ~ Choosable e)) ->
  triple (Holds R) (lift o) (fun a c => K a /\ Holds R c).
Proof. intros He [(a & -> & Ha)|[-> Hn]] c Hc; [done|by apply He]. Qed.

Lemma triple_pure {A : Type} (P : Prop) (Q : Controller -> Prop) (m : C A)
    (S : A -> Controller -> Prop) :
  (P -> triple Q m S) -> triple (fun c => P /\ Q c) m S.
Proof. intros Hm c [HP Hc]. by apply Hm. Qed.

Lemma triple_setupConfigs (R : bool -> list InterfaceConfig -> Z -> Prop)
    (dnsPort : DNSPortPolicy) (policy : ServerSelectionPolicy) (e : Env) :
  Explained e ->
  triple (Holds R) (setupConfigs dnsPort policy e)
    (fun configs c => (length configs <= 2)%nat
       /\ (multihopSupported e = false -> (length configs <= 1)%nat) /\ Holds R c).
Proof.
  intros He. set (Q := fun (configs : list InterfaceConfig) c => _).
  assert (forall configs, (length configs <= 2)%nat ->
    (multihopSupported e = false -> (length configs <= 1)%nat) ->
    triple (Holds R) (ret configs) Q) as Hret.
  { by intros configs H2 H3 c Hc. }
  assert (Hnil : triple (Holds R) (ret []) Q) by (apply Hret; simpl; lia).
  assert (Hgone : triple (Holds R) (serverUnavailable ;;; ret []) Q)
    by (eapply triple_seq; [apply frame_serverUnavailable|exact Hnil]).
  unfold setupConfigs. apply triple_read. intros c0.
  assert (forall (s : Server.Server) (random : Z),
    Known e s -> triple (Holds R) (lift (Server.choosePort s random)) (fun _ c => True /\ Holds R c)) as Hport.
  { intros s random Hk. apply (frame_choice _ _ (fun _ => True) e He).
    destruct (choosePort_cases e s random Hk) as [[p Hp]|Hp]; [left; by exists p|by right]. }
  eapply triple_bind; [apply (frame_choice _ _ (Known e) e He), chooseExit_cases|].
  intros exitServer. cbv beta. apply triple_pure. intros Hknown.
  destruct (negb _); [exact Hgone|].
  destruct (device e) as [addresses|];
    [|eapply triple_seq; [apply frame_setNextStep|exact Hnil]].
  eapply triple_bind; [by apply Hport|]. intros p. cbv beta.
  apply triple_pure. intros _. apply triple_gets_any. intros b.
  destruct b; [cbn [negb]|intros c [Hc Hb]; rewrite (proj1 (proj1 Hc)) in Hb; done].
  apply triple_drop.
  destruct (_ || _); [apply Hret; simpl; lia|].
  eapply triple_bind; [apply (frame_choice _ _ (Known e) e He), chooseEntry_cases|].
  intros entryServer. cbv beta. apply triple_pure. intros Hknown'.
  destruct (negb _); [exact Hgone|].
  destruct (multihopSupported e) eqn:Em; [|apply Hret; simpl; lia].
  eapply triple_bind; [by apply Hport|]. intros p'. cbv beta.
  apply triple_pure. intros _. apply Hret; simpl; [lia|done].
Qed.

(** What may be activated: as many configurations as attempts allow. *)
Definition Ready (timer : bool) (queue : list InterfaceConfig) (retry : Z) : Prop :=
  (timer = true -> queue <> []) /\ 0 <= retry /\ retry + Z.of_nat (length queue) <= 10.

Lemma triple_activateNext (Q : bool -> list InterfaceConfig -> Z -> Prop) (e : Env) :
  (forall t q r, Q t q r -> q <> [] -> Q true q r) ->
  triple (Holds Q) (activateNext e) (fun _ => Holds Q).
Proof.
  intros HQ. unfold activateNext. apply triple_gets_any. intros queue.
  destruct queue as [|config rest].
  { apply triple_drop. repeat frame_step. }
  destruct (_ && _).
  { apply triple_drop. repeat frame_step. }
  apply (triple_seq _ (Holds Q)); [|repeat frame_step].
  destruct (desktop e); [|by intros c [Hc _]].
  intros c [[Hl HR] Hq]. split; [exact Hl|].
  exact (HQ _ _ _ HR ltac:(by rewrite <- Hq)).
Qed.

Lemma ready_budget (t : bool) (q : list InterfaceConfig) (r : Z) : Ready t q r -> Budget t q r.
Proof. intros (? & ? & ?). split_and!; [done..|]. destruct t; lia. Qed.

Lemma ready_start (t : bool) (q : list InterfaceConfig) (r : Z) :
  Ready t q r -> q <> [] -> Ready true q r.
Proof. intros (? & ? & ?) ?. by split_and!. Qed.

Lemma triple_activateInternal (dnsPort : DNSPortPolicy) (policy : ServerSelectionPolicy)
    (initiator : ActivationPrincipal) (e : Env) (r0 : Z) :
  Explained e -> 0 <= r0 <= 8 ->
  triple (Holds (fun _ _ r => r = r0)) (activateInternal dnsPort policy initiator e)
    (fun _ => Holds (fun t q r => Ready t q r /\ r = r0)).
Proof.
  intros He Hr. set (Q := fun t q r => Ready t q r /\ r = r0). unfold activateInternal.
  eapply triple_seq; [apply (triple_modify _ _ (Holds (fun _ _ r => r = r0))); intros c Hc; exact Hc|].
  eapply triple_seq; [apply (triple_stop _ (fun t _ r => t = false /\ r = r0)); done|].
  eapply triple_seq.
  { apply (triple_clearQueue _ (fun t q r => t = false /\ q = [] /\ r = r0)).
    by intros ? ? ? [-> ->]. }
  eapply triple_bind; [by apply triple_setupConfigs|]. intros configs. cbv beta.
  apply triple_pure. intros Hlen. apply triple_pure. intros _.
  assert (forall t q r, t = false /\ q = [] /\ r = r0 -> Q t q r) as HQ.
  { intros t q r (-> & -> & ->). split; [|done]. split_and!; [done|lia|simpl; lia]. }
  destruct configs as [|first rest].
  { apply (holds_weaken Q); [exact HQ|]. auto with frames. }
  eapply triple_seq.
  { apply (triple_modify _ _ (Holds Q)). intros c [Hl (Ht & Hq & Hret)]. split; [exact Hl|].
    cbn -[length]. rewrite Ht, Hret. split; [|done]. split_and!; [done|lia|lia]. }
  eapply triple_seq; [repeat frame_step|].
  apply triple_activateNext. intros t q r [Hrd ->] Hq. split; [|done]. by eapply ready_start.
Qed.

(** ** Every operation keeps within the budget *)

#[local] Abbreviation safe m := (triple (Holds Budget) m (fun _ => Holds Budget)).

Lemma idle_budget (t : bool) (q : list InterfaceConfig) (r : Z) : Idle t q r -> Budget t q r.
Proof. intros (-> & -> & ->). split_and!; [done|lia|simpl; lia]. Qed.

Lemma safe_deactivate (user : ActivationPrincipal) : safe (deactivate user).
Proof. apply triple_deactivate, idle_budget. Qed.

Lemma budget_reset (R : bool -> list InterfaceConfig -> Z -> Prop)
    (dnsPort : DNSPortPolicy) (policy : ServerSelectionPolicy) (initiator : ActivationPrincipal)
    (e : Env) :
  Explained e ->
  triple (Holds R) (clearRetryCounter ;;; activateInternal dnsPort policy initiator e)
    (fun _ => Holds Budget).
Proof.
  intros He. eapply triple_seq; [apply (triple_clearRetry _ (fun _ _ r => r = 0)); done|].
  eapply triple_conseq; [|by apply (triple_activateInternal _ _ _ _ 0)|]; [done|].
  intros _ c [Hl [Hr _]]. split; [done|]. by apply ready_budget.
Qed.

Lemma triple_assoc {A : Type} (P : Controller -> Prop) (m1 m2 : C unit) (k : C A)
    (Q : A -> Controller -> Prop) :
  triple P ((m1 ;;; m2) ;;; k) Q -> triple P (m1 ;;; m2 ;;; k) Q.
Proof.
  intros Ht c Hc. specialize (Ht c Hc). revert Ht. unfold bind.
  by destruct (m1 c) as [[[] c1]| |].
Qed.

Lemma safe_checkDeviceConnected (e : Env) : safe (checkDeviceConnected e).
Proof.
  unfold checkDeviceConnected.
  repeat frame_step.
Qed.

Lemma safe_activate (d : ServerData.ServerData) (initiator : ActivationPrincipal)
    (policy : ServerSelectionPolicy) (e : Env) :
  Explained e -> safe (activate d initiator policy e).
Proof.
  intros He. unfold activate. apply triple_read. intros s. destruct (negb _); [auto with frames|].
  do 3 (eapply triple_seq; [auto with frames|]).
  apply triple_read. intros s'. destruct (stateIn s' _).
  - apply triple_read. intros portal. destruct portal.
    { repeat frame_step. }
    eapply triple_bind; [apply safe_checkDeviceConnected|]. intros ok.
    destruct (negb ok); [cbv beta; auto with frames|].
    eapply triple_seq; [repeat frame_step|]. apply triple_assoc.
    eapply triple_seq; [by apply budget_reset|]. auto with frames.
  - eapply triple_seq; [repeat frame_step|]. apply triple_assoc.
    eapply triple_seq; [by apply budget_reset|]. auto with frames.
Qed.

Lemma safe_activateConfig (config : InterfaceConfig) (initiator : ActivationPrincipal) (e : Env) :
  safe (activateConfig config initiator e).
Proof.
  unfold activateConfig. apply triple_read. intros s. destruct (negb _); [auto with frames|].
  eapply triple_seq; [auto with frames|]. apply triple_read. intros c0.
  destruct (_ || _); [repeat frame_step|].
  eapply triple_bind; [instantiate (1 := fun _ => Holds Budget);
    destruct (stateIn _ _); [apply safe_checkDeviceConnected|auto with frames]|].
  intros ok. destruct (negb ok); [cbv beta; auto with frames|]. cbv beta zeta.
  eapply triple_seq; [repeat frame_step|].
  eapply triple_seq; [apply (triple_clearRetry _ (fun _ _ r => r = 0)); done|].
  eapply triple_seq; [apply (triple_modify _ _ (Holds (fun _ _ r => r = 0))); intros c Hc; exact Hc|].
  eapply triple_seq; [apply (triple_stop _ (fun t _ r => t = false /\ r = 0)); done|].
  eapply triple_seq.
  { apply (triple_modify _ _ (Holds Ready)). intros c [Hl [_ Hr]]. split; [exact Hl|].
    change (Ready (m_handshakeTimer c) [if splitTunnelSupported e
      then config <| InterfaceConfig.m_vpnDisabledApps := vpnDisabledApps e |> else config]
      (m_connectionRetry c)).
    rewrite Hr. split_and!; [done|lia|simpl; lia]. }
  eapply triple_seq; [repeat frame_step|].
  eapply triple_seq; [apply triple_activateNext, ready_start|].
  apply (holds_weaken Budget); [apply ready_budget|auto with frames].
Qed.

Lemma triple_allConnected (e : Env) :
  triple (Holds (fun _ q _ => (length q <= 10)%nat)) (allConnected e) (fun _ => Holds Budget).
Proof.
  unfold allConnected.
  eapply triple_seq.
  { apply (triple_stop _ (fun t q _ => t = false /\ (length q <= 10)%nat)). done. }
  eapply triple_seq; [auto with frames|].
  eapply triple_seq.
  { apply (triple_clearRetry _ Budget). intros t q _ [-> Hq]. split_and!; [done|lia|lia]. }
  apply triple_read. intros c0. cbv zeta.
  eapply triple_seq; [auto with frames|]. eapply triple_seq; [auto with frames|].
  eapply triple_seq; [repeat frame_step|].
  destruct (stopsAfterwards _); [|auto with frames].
  eapply triple_seq; [apply safe_deactivate|auto with frames].
Qed.

Lemma budget_length (t : bool) (q : list InterfaceConfig) (r : Z) :
  Budget t q r -> (length q <= 11)%nat.
Proof. intros (_ & ? & ?). destruct t; lia. Qed.

Lemma safe_connected (pubkey : QString) (e : Env) : safe (connected pubkey e).
Proof.
  unfold connected. apply triple_gets_any. intros c0. cbn [id].
  destruct (m_activationQueue c0) as [|first rest] eqn:Eq.
  { destruct (sameString _ _); [|by intros c [Hc _]].
    eapply triple_conseq; [|apply triple_allConnected|done].
    intros c [Hc ->]. destruct Hc as [Hl _]. split; [done|]. unfold id in Eq. rewrite Eq. simpl. lia. }
  destruct (negb _); [by intros c [Hc _]|].
  eapply triple_seq.
  { apply (triple_modify _ _ (Holds (fun t q r => q = rest /\ 0 <= r
      /\ r + Z.of_nat (length rest) <= 10))).
    intros c [[Hl (Ht & Hr & Hb)] ->]. split; [exact Hl|].
    unfold id in Eq. rewrite Eq in Hb. cbn -[length]. cbn [length] in Hb.
    split_and!; [done|done|]. destruct (m_handshakeTimer c); lia. }
  destruct rest as [|second rest].
  { apply (holds_weaken (fun _ q _ => (length q <= 10)%nat)); [|apply triple_allConnected].
    intros t q r (-> & _). simpl. lia. }
  eapply (triple_conseq (Holds Ready)); [|apply triple_activateNext, ready_start|].
  - intros c [Hl (Hq & ? & ?)]. split; [done|]. rewrite Hq. by split_and!.
  - intros _ c [Hl Hr]. split; [done|]. by apply ready_budget.
Qed.

Lemma safe_handshakeTimerFires (e : Env) :
  Explained e ->
  triple (fun c => Holds Budget c /\ m_handshakeTimer c = true) (handshakeTimerFires e)
    (fun _ => Holds Budget).
Proof.
  intros He. unfold handshakeTimerFires.
  apply (triple_seq _ (Holds (fun t q r => t = false /\ q <> [] /\ 0 <= r
                                /\ r + Z.of_nat (length q) <= 10))).
  { apply triple_modify. intros c [[Hl (Ht & Hr & Hb)] Hrun]. rewrite Hrun in Ht, Hb.
    split; [exact Hl|]. split_and!; [done|by apply Ht|done|done]. }
  assert (forall t q r, t = false /\ q <> [] /\ 0 <= r /\ r + Z.of_nat (length q) <= 10 ->
    Budget t q r) as Hbud by (intros t q r (-> & _ & ? & ?); split_and!; [done|lia|lia]).
  unfold handshakeTimeout. destruct (hasProfiles e).
  { apply (holds_weaken Budget); [exact Hbud|].
    do 2 (eapply triple_seq; [auto with frames|]).
    eapply triple_seq; [apply triple_stop|repeat frame_step].
    intros t q r (_ & ? & ?). split_and!; [done|lia|destruct t; lia]. }
  apply triple_gets_any. intros queue. destruct queue as [|hop rest].
  { intros c [[_ (_ & Hq & _)] E]. by rewrite <- E in Hq. }
  apply triple_drop.
  eapply triple_seq; [auto with frames|]. apply triple_read. intros next.
  destruct (stopsAfterwards next).
  { apply (holds_weaken Budget); [exact Hbud|].
    eapply triple_seq; [apply safe_deactivate|auto with frames]. }
  eapply (triple_seq _ (Holds (fun t q r => t = false /\ 1 <= r
                                /\ r + Z.of_nat (length q) <= 11))).
  { apply triple_modify. intros c [Hl (Ht & Hq & Hr & Hb)]. split; [exact Hl|].
    split_and!; [exact Ht|..]; cbn; lia. }
  eapply triple_seq; [auto with frames|]. apply triple_gets_any. intros c0.
  assert (forall dnsPort r0, 0 <= r0 <= 8 -> m_connectionRetry c0 = r0 ->
    triple (fun c => Holds (fun t q r => t = false /\ 1 <= r /\ r + Z.of_nat (length q) <= 11) c
                     /\ c0 = id c)
      (activateInternal dnsPort RandomizeServerSelection (m_initiator c0) e)
      (fun _ => Holds Budget)) as Hact.
  { intros dnsPort r0 Hr0 E. eapply triple_conseq; [|by apply (triple_activateInternal _ _ _ _ r0)|].
    - intros c [[Hl _] ->]. by split.
    - intros _ c [Hl [Hr _]]. split; [done|]. by apply ready_budget. }
  destruct (Z.eqb_spec (m_connectionRetry c0) 1) as [Hone|_]; [by apply (Hact _ 1)|].
  destruct (Z.ltb_spec (m_connectionRetry c0) CONNECTION_MAX_RETRY) as [Hlt|_].
  { intros c [Hc E]. unfold CONNECTION_MAX_RETRY in Hlt. unshelve eapply (Hact _ _ _ eq_refl c).
    - destruct Hc as [_ (_ & Hr & _)]. subst c0. unfold id in *. lia.
    - by split. }
  eapply (triple_conseq (Holds Budget)); [|apply frame_serverUnavailable|done].
  intros c [[Hl (Ht & Hr & Hb)] _]. split; [done|]. rewrite Ht. split_and!; [done|lia|lia].
Qed.

Lemma safe_quit : safe quit.
Proof.
  unfold quit. apply triple_read. intros c0. destruct (negb _); [auto with frames|].
  eapply triple_seq; [auto with frames|]. destruct (_ <? _); [|auto with frames].
  eapply triple_seq; [apply safe_deactivate|auto with frames].
Qed.

Lemma safe_updateRequired : safe updateRequired.
Proof.
  unfold updateRequired. apply triple_read. intros c0. destruct (negb _); [auto with frames|].
  eapply triple_seq; [auto with frames|]. destruct (stateIn _ _); [|auto with frames].
  eapply triple_seq; [apply safe_deactivate|auto with frames].
Qed.

Lemma safe_silentSwitchServers (policy : ServerCoolDownPolicy) (e : Env) :
  Explained e -> safe (silentSwitchServers policy e).
Proof.
  intros He. unfold silentSwitchServers. apply triple_read. intros c0. cbv zeta.
  assert (forall selection, safe (clearRetryCounter ;;; setState StateSilentSwitching ;;;
    activateInternal DoNotForceDNSPort selection (m_initiator c0) e ;;; ret true)) as Hswitch.
  { intros selection. eapply triple_seq; [apply (triple_clearRetry _ (fun _ _ r => r = 0)); done|].
    eapply triple_seq; [auto with frames|].
    eapply triple_seq; [by apply (triple_activateInternal _ _ _ _ 0)|].
    apply (holds_weaken Budget); [|auto with frames]. intros t q r [? _]. by apply ready_budget. }
  destruct (negb _); [auto with frames|]. destruct policy; [|apply Hswitch].
  destruct (_ <=? _)%nat; [auto with frames|]. eapply triple_seq; [auto with frames|]. apply Hswitch.
Qed.

Lemma safe_disconnected (e : Env) : Explained e -> safe (disconnected e).
Proof.
  intros He. unfold disconnected.
  eapply triple_seq; [auto with frames|].
  eapply triple_seq; [apply (triple_stop _ (fun t _ _ => t = false)); done|].
  eapply triple_seq; [apply (triple_clearQueue _ (fun t q _ => t = false /\ q = [])); done|].
  eapply triple_seq; [apply (triple_clearRetry _ Idle); by intros ? ? ? [-> ->]|].
  apply triple_read. intros next. eapply triple_seq; [auto with frames|].
  assert (forall m : C unit, safe m -> triple (Holds Idle) m (fun _ => Holds Budget)) as Hw.
  { intros m. apply holds_weaken, idle_budget. }
  destruct next; try solve [apply Hw; repeat frame_step].
  clear Hw. apply triple_read. intros c0. do 2 (eapply triple_seq; [auto with frames|]).
  eapply triple_conseq; [|by apply (triple_activateInternal _ _ _ _ 0)|].
  - intros c [Hl (_ & _ & ?)]. by split.
  - intros _ c [Hl [Hr _]]. split; [done|]. by apply ready_budget.
Qed.

Lemma safe_maybeSendUpdatedConfig (d : ServerData.ServerData) (e : Env) :
  Explained e -> (canSendUpdatedConfig e = true -> multihopSupported e = false) ->
  safe (maybeSendUpdatedConfig d e).
Proof.
  intros He Hcan. unfold maybeSendUpdatedConfig. apply triple_gets_any. intros p.
  destruct p; [|intros c [Hc E]; by rewrite (proj1 (proj1 Hc)) in E].
  apply triple_drop.
  cbn [negb]. destruct (canSendUpdatedConfig e); cbn [negb]; [|auto with frames].
  eapply triple_seq; [auto with frames|].
  eapply triple_bind; [by apply triple_setupConfigs|]. intros configs. cbv beta.
  apply triple_pure. intros _. apply triple_pure. intros Hlen. specialize (Hlen (Hcan eq_refl)).
  destruct configs as [|first [|? ?]]; [auto with frames| |simpl in Hlen; lia].
  cbv zeta. rewrite bool_decide_true by done. cbn [negb when]. repeat frame_step.
Qed.

Lemma safe_switchServers (d : ServerData.ServerData) (e : Env) :
  Explained e -> (canSendUpdatedConfig e = true -> multihopSupported e = false) ->
  safe (switchServers d e).
Proof.
  intros He Hcan. unfold switchServers. apply triple_gets_any. intros c0.
  destruct (negb (isActive c0)).
  { apply triple_drop.
    eapply triple_seq; [by apply safe_maybeSendUpdatedConfig|auto with frames]. }
  intros c [Hc E]. rewrite E. cbn [id]. rewrite (proj1 (proj1 Hc)). clear E c0. revert c Hc.
  intros c0 Hc0. generalize (m_serverData c0), (m_initiator c0). intros d0 initiator.
  generalize (negb (stateIn (m_state c0) [StateConnecting])). intros b. revert c0 Hc0.
  refine (_ : safe _). frame_step.
  eapply triple_seq; [apply (triple_clearRetry _ (fun t q r => Budget t q r /\ r = 0))|].
  { intros t q r (? & ? & ?). split; [|done]. split_and!; [done|lia|destruct t; lia]. }
  eapply triple_seq; [repeat frame_step|]. cbn [negb].
  destruct (_ && _).
  { apply (holds_weaken Budget); [by intros ? ? ? [? _]|].
    eapply triple_seq; [auto with frames|].
    eapply triple_seq; [apply safe_deactivate|auto with frames]. }
  do 2 (eapply triple_seq; [auto with frames|]).
  eapply triple_seq.
  { apply (holds_weaken (fun _ _ r => r = 0)); [by intros ? ? ? [_ ?]|].
    by apply (triple_activateInternal _ _ _ _ 0). }
  apply (holds_weaken Budget); [|auto with frames]. intros ? ? ? [? _]. by apply ready_budget.
Qed.

Lemma safe_localeChanged (e : Env) :
  Explained e -> (canSendUpdatedConfig e = true -> multihopSupported e = false) ->
  safe (localeChanged e).
Proof.
  intros He Hcan. unfold localeChanged. case_bool_decide; [auto with frames|].
  by apply safe_maybeSendUpdatedConfig.
Qed.

Lemma safe_implInitialized (status a_connected : bool) (date : option Z) (e : Env) :
  safe (implInitialized status a_connected date e).
Proof. unfold implInitialized. repeat frame_step. Qed.

Lemma safe_confirmingTimeout :
  triple (fun c => Holds Budget c /\ m_confirmingTimer c = true) confirmingTimeout
    (fun _ => Holds Budget).
Proof.
  unfold confirmingTimeout. apply (triple_seq _ (Holds Budget)); [|auto with frames].
  apply triple_modify. intros c [[(Hi & Hn & Hc & He) HR] Hrun]. split; [|exact HR].
  split_and!; [done|done|done|]. intros _. by split; [apply Hc|].
Qed.

(** ** The environment of a desktop client *)

(** There is a backend for the platform, and, as in every backend of the program,
    one that is sent configurations while the tunnel is down does not do multihop.
    Nothing is assumed of the servers. *)
Record DesktopEnv (e : Env) : Prop := {
  env_backend : useLocalSocketPath e <> [] \/ platformController e = true;
  env_update : canSendUpdatedConfig e = true -> multihopSupported e = false;
  env_desktop : mobile e = false;
}.

Definition Started (c : Controller) : Prop := Fresh c \/ Holds Budget c.

Lemma initialize_started (e : Env) :
  DesktopEnv e -> triple Started (initialize e) (fun _ => Holds Budget).
Proof.
  intros He. unfold initialize.
  set (Before c := (m_confirmingTimer c = true -> m_state c = StateConfirming)
    /\ (m_enableDisconnectInConfirming c = true ->
        m_state c = StateConfirming /\ m_confirmingTimer c = false)
    /\ Budget (m_handshakeTimer c) (m_activationQueue c) (m_connectionRetry c)).
  apply (triple_seq _ Before).
  { intros c [(Hi & Hs & Ht & Hc & Hd & Hq & Hr)|Hc].
    - unfold setState, modify. rewrite bool_decide_true by done. cbn [returns].
      unfold Before. rewrite Hc, Hd, Ht, Hq, Hr. split_and!; try done.
    - pose proof (frame_setState Budget StateInitializing c Hc) as Hs.
      destruct (setState _ c) as [[[] c']| |]; [|done..].
      by destruct Hs as ((? & ? & ? & ?) & ?). }
  apply (triple_seq _ (Holds Budget)); [|repeat frame_step].
  apply triple_modify. intros c (Hc & Hd & Hb).
  split; [|exact Hb]. split_and!; [|done|exact Hc|exact Hd]. cbn -[useLocalSocketPath].
  apply orb_true_iff. destruct (env_backend e He) as [Hp|Hp]; [left|by right].
  by rewrite bool_decide_false.
Qed.

Lemma fresh_activate (d : ServerData.ServerData) (initiator : ActivationPrincipal)
    (policy : ServerSelectionPolicy) (e : Env) (c : Controller) :
  Fresh c -> activate d initiator policy e c = Ret (false, c).
Proof. intros (_ & Hs & _). unfold activate, bind, gets. by rewrite Hs. Qed.

Lemma fresh_activateConfig (config : InterfaceConfig) (initiator : ActivationPrincipal) (e : Env)
    (c : Controller) :
  Fresh c -> activateConfig config initiator e c = Ret (false, c).
Proof. intros (_ & Hs & _). unfold activateConfig, bind, gets. by rewrite Hs. Qed.

(** Before the first initialization nothing but the signals emitted and the flags of
    the captive portal change. *)
Lemma fresh_deactivate (user : ActivationPrincipal) (c : Controller) :
  Fresh c -> deactivate user c = Ret (false, c).
Proof.
  intros (_ & Hs & _). unfold deactivate, bind, gets, id, isActive. rewrite Hs.
  by destruct (_ <? _).
Qed.

Lemma fresh_step (e : Env) (ev : Event) (c : Controller) :
  Fresh c -> enabled e ev c -> ev <> Initialize ->
  exists c', handle e ev c = Ret (tt, c') /\ Fresh c'.
Proof.
  intros Hf Hen Hne. pose proof Hf as (Hi & Hs & Ht & Hc & Hd & Hq & Hr).
  destruct ev; simpl in Hen; try congruence; cbn [handle]; unfold ignore.
  - unfold bind. rewrite fresh_activate by done. by eexists.
  - unfold bind. rewrite fresh_activateConfig by done. by eexists.
  - unfold bind. rewrite fresh_deactivate by done. by eexists.
  - unfold quit, bind, gets, id, isActive. rewrite Hs. eexists. split; [reflexivity|exact Hf].
  - unfold updateRequired, bind, gets, id, isActive. rewrite Hs.
    eexists. split; [reflexivity|exact Hf].
  - unfold silentSwitchServers, bind, gets, id. rewrite Hs. by eexists.
  - unfold deleteOSTunnelConfig, ifImpl, bind, gets. rewrite Hi. simpl.
    unfold setState, modify. rewrite bool_decide_true by done. by eexists.
  - unfold refreshStatus, bind, gets. rewrite Hi. eexists. split; [reflexivity|exact Hf].
  - eexists. split; [reflexivity|exact Hf].
  - eexists. split; [reflexivity|exact Hf].
  - unfold forceDaemonCrash, ifImpl, bind, gets. rewrite Hi. by eexists.
  - unfold forceDaemonSilentServerSwitch, when, ifImpl, bind, gets.
    destruct (mobile e); [rewrite Hi|]; by eexists.
  - unfold cleanupBackendLogs, ifImpl, bind, gets. rewrite Hi. by eexists.
  - unfold logSerialize, bind, gets. rewrite Hi. eexists. split; [reflexivity|exact Hf].
  - eexists. split; [reflexivity|exact Hf].
  - destruct Hen. congruence.
Qed.

Lemma triple_ignore {A : Type} (m : C A) : safe m -> safe (ignore m).
Proof. intros Hm. unfold ignore. eapply triple_seq; [exact Hm|auto with frames]. Qed.

Lemma live_step (e : Env) (ev : Event) (c : Controller) :
  Explained e -> DesktopEnv e -> enabled e ev c -> Holds Budget c ->
  returns (handle e ev c) (fun _ => Holds Budget).
Proof.
  intros Hch He Hen Hc. pose proof (env_update e He) as Hup.
  revert c Hc Hen. destruct ev; cbn [handle enabled]; intros c Hc Hen;
    lazymatch type of Hen with
    | True => refine ((_ : safe _) c Hc)
    | m_impl _ = _ => refine ((_ : safe _) c Hc)
    | _ => idtac
    end.
  - intros c0 Hc0. apply (initialize_started e He c0). by right.
  - by apply triple_ignore, safe_activate.
  - apply triple_ignore, safe_activateConfig.
  - apply triple_ignore, safe_deactivate.
  - apply safe_quit.
  - apply safe_updateRequired.
  - by apply triple_ignore, safe_switchServers.
  - by apply triple_ignore, safe_silentSwitchServers.
  - apply frame_setState.
  - unfold deleteOSTunnelConfig. repeat frame_step.
  - unfold refreshStatus. repeat frame_step.
  - unfold captivePortalPresent. frame_step.
  - unfold captivePortalGone. frame_step.
  - apply frame_ifImpl.
  - unfold forceDaemonSilentServerSwitch. repeat frame_step.
  - apply frame_ifImpl.
  - unfold logSerialize. repeat frame_step.
  - unfold serverDataChanged. repeat frame_step.
  - by apply safe_localeChanged.
  - unfold implPermRequired. repeat frame_step.
  - apply safe_implInitialized.
  - apply safe_connected.
  - by apply safe_disconnected.
  - unfold handleBackendFailure. repeat frame_step.
  - unfold statusUpdated. repeat frame_step.
  - by apply safe_handshakeTimerFires.
  - by apply safe_confirmingTimeout.
  - unfold pingSentAndReceived. repeat frame_step.
  - destruct Hen as [Hm _]. by rewrite (env_desktop e He) in Hm.
Qed.

Lemma started_step (e : Env) (ev : Event) (c : Controller) :
  Explained e -> DesktopEnv e -> enabled e ev c -> Started c ->
  returns (handle e ev c) (fun _ => Started).
Proof.
  assert (forall o, returns o (fun (_ : unit) => Holds Budget) ->
    returns o (fun (_ : unit) => Started)) as Hw.
  { intros [[[] c']| |] Ho; [by right|exact Ho..]. }
  intros Hch He Hen [Hc|Hc].
  - assert (ev = Initialize \/ ev <> Initialize) as [->|Hne] by (destruct ev; auto).
    + apply Hw, (initialize_started e He c (or_introl Hc)).
    + destruct (fresh_step e ev c Hc Hen Hne) as (c' & E & H'). rewrite E. by left.
  - by apply Hw, live_step.
Qed.

End Operations.

Section Reachability.
Context `{QtText} `{QtJson} `{DNSHelper.Platform}.

(** An event is handled, unless a choice it makes is not defined. *)
Lemma started_cases (e : Env) (ev : Event) (c : Controller) :
  DesktopEnv e -> enabled e ev c -> Started c ->
  (exists c', handle e ev c = Ret (tt, c') /\ Started c')
  \/ (handle e ev c = Undefined /\ ~ Choosable e).
Proof.
  intros He Hen Hc.
  pose proof (started_step (CC := ~ Choosable e) e ev c (fun Hn => Hn) He Hen Hc) as Hs.
  destruct (handle e ev c) as [[[] c']| |]; [left; by exists c'|done|by right].
Qed.

Lemma started_ret (e : Env) (ev : Event) (c c' : Controller) :
  DesktopEnv e -> enabled e ev c -> Started c -> handle e ev c = Ret (tt, c') -> Started c'.
Proof.
  intros He Hen Hc E. destruct (started_cases e ev c He Hen Hc) as [(c2 & E2 & Hs)|[E2 _]];
    rewrite E in E2; [by injection E2 as ->|done].
Qed.

(** The controllers a desktop client can have. *)
Inductive Reachable : Controller -> Prop :=
| reach_construct : Reachable construct
| reach_event (e : Env) (ev : Event) (c c' : Controller) :
    Reachable c -> DesktopEnv e -> enabled e ev c -> handle e ev c = Ret (tt, c') ->
    Reachable c'.

Lemma reachable_started (c : Controller) : Reachable c -> Started c.
Proof.
  induction 1 as [|e ev c c' _ IH He Hen E]; [by left|]. by eapply started_ret.
Qed.

(** C2: whatever sequence of requests, backend signals and timeouts a desktop client
    goes through, and whatever servers it knows, every further event is handled
    (no null backend, no [first()] of an empty queue) with one exception: its
    behaviour is undefined only where the environment is not [Choosable], that is
    where the weights of the servers of a location add up to [-1] modulo [2^32] or
    the port ranges of a server count no port, so that the choice of a server or of
    a port takes a remainder by zero. While the handshake timer runs a configuration
    is queued; disconnecting is offered during confirmation only after the
    confirming timer has run out in that state; and an active controller has a
    backend. *)
Theorem reachable_safe (c : Controller) :
  Reachable c ->
  (forall e ev, DesktopEnv e -> enabled e ev c ->
     (exists c', handle e ev c = Ret (tt, c'))
     \/ (handle e ev c = Undefined /\ ~ Choosable e))
  /\ (m_handshakeTimer c = true -> m_activationQueue c <> [])
  /\ (m_enableDisconnectInConfirming c = true ->
      m_state c = StateConfirming /\ m_confirmingTimer c = false)
  /\ (isActive c = true -> m_impl c = true).
Proof.
  intros Hc. apply reachable_started in Hc. split.
  { intros e ev He Hen. destruct (started_cases e ev c He Hen Hc) as [(c' & E & _)|E];
      [left; by exists c'|by right]. }
  destruct Hc as [(Hi & Hs & Ht & Hcf & Hd & Hq & Hr)|[(Hi & Hn & Hcf & Hd) (Ht & _)]].
  - rewrite Ht, Hd. unfold isActive. rewrite Hs. done.
  - by split_and!.
Qed.

(** In a desktop client the attempts counted and the configurations queued are
    never more than eleven together, and a timeout can happen only after at most
    nine attempts. *)
Theorem reachable_retry (c : Controller) :
  Reachable c ->
  0 <= m_connectionRetry c <= 11 - Z.of_nat (length (m_activationQueue c))
  /\ (m_handshakeTimer c = true -> m_connectionRetry c <= 9).
Proof.
  intros Hc. apply reachable_started in Hc.
  destruct Hc as [(Hi & Hs & Ht & Hcf & Hd & Hq & Hr)|[_ (Ht & Hr & Hb)]].
  - rewrite Ht, Hq, Hr. simpl. lia.
  - destruct (m_handshakeTimer c); [|lia]. specialize (Ht eq_refl).
    destruct (m_activationQueue c); [done|]. cbn [length] in *. lia.
Qed.

(** ** Consecutive timeouts *)

(** [n] timeouts in a row. *)
Inductive Timeouts : nat -> Controller -> Controller -> Prop :=
| timeouts_none (c : Controller) : Timeouts 0 c c
| timeouts_more (n : nat) (e : Env) (c c1 c2 : Controller) :
    DesktopEnv e -> m_handshakeTimer c = true -> handle e HandshakeTimer c = Ret (tt, c1) ->
    Timeouts n c1 c2 -> Timeouts (S n) c c2.

(** A timeout stops the timer for good or spends an attempt. *)
Lemma handshakeTimer_progress {CC : Crashes} (e : Env) (r : Z) :
  Explained e -> 0 <= r ->
  triple (fun c => Live c /\ m_activationQueue c <> [] /\ m_connectionRetry c = r)
    (handshakeTimerFires e)
    (fun _ => Holds (fun t _ r' => t = true -> r' = r + 1 /\ r' <= 8)).
Proof.
  intros He Hr. set (Q := fun t (_ : list InterfaceConfig) r' => t = true -> r' = r + 1 /\ r' <= 8).
  unfold handshakeTimerFires.
  apply (triple_seq _ (Holds (fun t q r' => t = false /\ q <> [] /\ r' = r))).
  { apply triple_modify. intros c (Hl & Hq & Hret). split; [exact Hl|]. by split_and!. }
  assert (forall t q r', t = false /\ q <> [] /\ r' = r -> Q t q r') as HQ by (by intros ? ? ? [-> _]).
  unfold handshakeTimeout. destruct (hasProfiles e).
  { apply (holds_weaken Q); [exact HQ|]. do 2 (eapply triple_seq; [auto with frames|]).
    eapply triple_seq; [by apply (triple_stop _ Q)|repeat frame_step]. }
  apply triple_gets_any. intros queue. destruct queue as [|hop rest].
  { intros c [[_ (_ & Hq & _)] E]. by rewrite <- E in Hq. }
  apply triple_drop. eapply triple_seq; [auto with frames|]. apply triple_read. intros next.
  destruct (stopsAfterwards next).
  { apply (holds_weaken Q); [exact HQ|].
    eapply triple_seq; [|auto with frames]. apply triple_deactivate. by intros ? ? ? [-> _]. }
  eapply (triple_seq _ (Holds (fun t q r' => t = false /\ r' = r + 1))).
  { apply triple_modify. intros c [Hl (Ht & Hq & Hret)]. split; [exact Hl|].
    split; [exact Ht|]. cbn. by rewrite Hret. }
  eapply triple_seq; [auto with frames|]. intros c0 Hc0. revert c0 Hc0.
  apply triple_gets_any. intros c0.
  assert (forall dnsPort, r + 1 <= 8 ->
    triple (fun c => Holds (fun t q r' => t = false /\ r' = r + 1) c /\ c0 = id c)
      (activateInternal dnsPort RandomizeServerSelection (m_initiator c0) e)
      (fun _ => Holds Q)) as Hact.
  { intros dnsPort Hr1. eapply triple_conseq; [|apply (triple_activateInternal _ _ _ _ (r + 1));
      [done|lia]|].
    - by intros c [[Hl [_ ?]] _].
    - intros _ c [Hl [_ Hret]]. split; [done|]. intros _. by rewrite Hret. }
  intros c [Hc E]. assert (m_connectionRetry c0 = r + 1) as Ec.
  { rewrite E. by destruct Hc as [_ [_ ?]]. }
  rewrite Ec. destruct (Z.eqb_spec (r + 1) 1); [apply Hact; [lia|by split]|].
  destruct (Z.ltb_spec (r + 1) CONNECTION_MAX_RETRY) as [Hlt|_].
  { apply Hact; [unfold CONNECTION_MAX_RETRY in Hlt; lia|by split]. }
  apply (frame_serverUnavailable Q). destruct Hc as [Hl [Ht _]]. split; [done|]. by rewrite Ht.
Qed.

(** C3: a connection that gets no handshake is given up: of the handshake timeouts
    that follow one another there are at most nine less the attempts counted
    before, or one where nine or more are counted already; and after as many as
    that the timer no longer runs. *)
Theorem timeouts_bounded (n : nat) (c c' : Controller) :
  Reachable c -> Timeouts n c c' ->
  let most := Z.max 1 (9 - m_connectionRetry c) in
  Z.of_nat n <= most /\ (Z.of_nat n = most -> m_handshakeTimer c' = false).
Proof.
  intros Hc Ht. cbv zeta.
  enough (Z.of_nat n + (if m_handshakeTimer c' then 1 else 0)
          <= Z.max 1 (9 - m_connectionRetry c)) by (destruct (m_handshakeTimer c'); lia).
  apply reachable_started in Hc. revert Hc.
  induction Ht as [c|n e c c1 c2 He Hrun E Ht IH]; intros Hc;
    [destruct (m_handshakeTimer c); lia|].
  assert (Holds Budget c) as Hb.
  { destruct Hc as [(_ & _ & Hno & _)|Hc]; [by rewrite Hno in Hrun|done]. }
  destruct Hb as [Hl (Hq & Hr & Hlen)].
  pose proof (started_ret e HandshakeTimer c c1 He Hrun Hc E) as Hc1.
  pose proof (handshakeTimer_progress (CC := ~ Choosable e) e (m_connectionRetry c)
    (fun Hn => Hn) Hr c ltac:(by split_and!; [|apply Hq|])) as Hp.
  cbn [handle] in E. rewrite E in Hp. destruct Hp as [_ Hp].
  destruct Ht as [c1|n e' c1 c1' c2 He' Hrun' E' Ht].
  { destruct (m_handshakeTimer c1); [destruct (Hp eq_refl)|]; lia. }
  specialize (IH Hc1). destruct (Hp Hrun'). lia.
Qed.

(** ** Exact effects *)

(** [setState], with the slot connected. *)
Definition stateEffects (s : State) (c : Controller) : list Effect :=
  if decide (m_state c = s) then []
  else StateChanged s :: repeat EnableDisconnectInConfirmingChanged (slots c).

Definition withState (s : State) (c : Controller) : Controller :=
  mkController s (m_nextStep c) (m_initiator c)
    (if decide (m_state c = s) then m_enableDisconnectInConfirming c else false)
    (m_activationQueue c) (m_connectionRetry c) (m_impl c) (m_backendAvailable c)
    (m_portalDetected c) (m_isDeviceConnected c) (m_errorCode c) (m_serverData c)
    (m_nextServerData c) (m_pingReceived c) (m_connectedTimeInUTC c) (m_status c)
    (if decide (m_state c = s) then m_confirmingTimer c else stateIn s [StateConfirming])
    (m_handshakeTimer c) (slots c) (effects c ++ stateEffects s c).

Lemma setState_closed (s : State) (c : Controller) :
  slots c <> 0%nat -> setState s c = Ret (tt, withState s c).
Proof.
  intros Hn. destruct (setState_fields s c Hn)
    as (c' & -> & _ & _ & _ & _ & _ & _ & Hsame & Hnew).
  unfold withState, stateEffects. destruct (decide (m_state c = s)) as [Hs|Hs].
  - rewrite (Hsame Hs), app_nil_r, <- Hs. by destruct c.
  - by rewrite (Hnew Hs).
Qed.

Definition errorEffects (x : ErrorCode) (c : Controller) : list Effect :=
  if decide (m_errorCode c = x) then [] else [ErrorChanged].

Lemma setError_closed (x : ErrorCode) (c : Controller) :
  setError x c = Ret (tt, c <| m_errorCode := x |> <| effects := effects c ++ errorEffects x c |>).
Proof.
  unfold setError, bind, gets, errorEffects. case_bool_decide as E.
  - rewrite decide_True by done. rewrite app_nil_r. subst x. by destruct c.
  - by rewrite decide_False.
Qed.

(** The state as an explicit record, on which updates compute. *)
Ltac explicit c :=
  destruct c as [state next initiator enable queue retry hasImpl backend portal isConnected err
                 data nextData ping time status confirming handshake nslots effs];
  cbn in *; subst.


(** ** One step at a time *)

Lemma bind_ret {A B : Type} (m : C A) (k : A -> C B) (c c' : Controller) (a : A) :
  m c = Ret (a, c') -> bind m k c = k a c'.
Proof. intros E. unfold bind. by rewrite E. Qed.

Lemma step_ret {A B : Type} (a : A) (k : A -> C B) (c : Controller) : bind (ret a) k c = k a c.
Proof. done. Qed.

Lemma step_gets {A B : Type} (f : Controller -> A) (k : A -> C B) (c : Controller) :
  bind (gets f) k c = k (f c) c.
Proof. done. Qed.

Lemma step_modify {B : Type} (f : Controller -> Controller) (k : unit -> C B) (c : Controller) :
  bind (modify f) k c = k tt (f c).
Proof. done. Qed.

Lemma step_assoc {A B D : Type} (m : C A) (k : A -> C B) (l : B -> C D) (c : Controller) :
  bind (bind m k) l c = bind m (fun a => bind (k a) l) c.
Proof. unfold bind. by destruct (m c) as [[a c']| |]. Qed.

Lemma step_lift {A B : Type} (o : Outcome A) (a : A) (k : A -> C B) (c : Controller) :
  o = Ret a -> bind (lift o) k c = k a c.
Proof. by intros ->. Qed.

Lemma step_emit {B : Type} (x : Effect) (k : unit -> C B) (c : Controller) :
  bind (emit x) k c = k tt (c <| effects := effects c ++ [x] |>).
Proof. done. Qed.

Lemma step_stop {B : Type} (k : unit -> C B) (c : Controller) :
  bind stopHandshakeTimer k c = k tt (c <| m_handshakeTimer := false |>).
Proof. done. Qed.

Lemma step_clearQueue {B : Type} (k : unit -> C B) (c : Controller) :
  bind clearQueue k c = k tt (c <| m_activationQueue := [] |>).
Proof. done. Qed.

Lemma step_clearRetry {B : Type} (k : unit -> C B) (c : Controller) :
  bind clearRetryCounter k c
  = k tt (c <| m_connectionRetry := 0 |> <| effects := effects c ++ [ConnectionRetryChanged] |>).
Proof. done. Qed.

Lemma step_setNextStep {B : Type} (n : NextStep) (k : unit -> C B) (c : Controller) :
  bind (setNextStep n) k c = k tt (c <| m_nextStep := n |>).
Proof. done. Qed.

Lemma step_setServerData {B : Type} (d : ServerData.ServerData) (k : unit -> C B) (c : Controller) :
  bind (setServerData d) k c = k tt (c <| m_serverData := ServerData.assign (m_serverData c) d |>).
Proof. done. Qed.

Lemma step_setError {B : Type} (x : ErrorCode) (k : unit -> C B) (c : Controller) :
  bind (setError x) k c
  = k tt (c <| m_errorCode := x |> <| effects := effects c ++ errorEffects x c |>).
Proof. apply bind_ret, setError_closed. Qed.

Lemma step_setState {B : Type} (x : State) (k : unit -> C B) (c : Controller) :
  slots c <> 0%nat -> bind (setState x) k c = k tt (withState x c).
Proof. intros Hn. by apply bind_ret, setState_closed. Qed.

Lemma step_impl {B : Type} (x : Effect) (k : unit -> C B) (c : Controller) :
  m_impl c = true -> bind (impl x) k c = k tt (c <| effects := effects c ++ [x] |>).
Proof. intros Hi. unfold impl. by rewrite step_assoc, step_gets, Hi, step_emit. Qed.

Definition portalEffects (c : Controller) : list Effect :=
  if m_portalDetected c then [ActivationBlockedForCaptivePortal; RequestScreenCaptivePortal]
  else [].

Definition switching (s : State) : bool := stateIn s [StateSwitching; StateSilentSwitching].

Lemma stateEffects_in (x : Effect) (s : State) (c : Controller) :
  x ∈ stateEffects s c -> x = StateChanged s \/ x = EnableDisconnectInConfirmingChanged.
Proof.
  unfold stateEffects. destruct (decide _); [by intros ?%elem_of_nil|].
  intros [->|Hx]%elem_of_cons; [by left|right]. by apply list_elem_of_In, repeat_spec in Hx.
Qed.

Lemma errorEffects_in (x : Effect) (e : ErrorCode) (c : Controller) :
  x ∈ errorEffects e c -> x = ErrorChanged.
Proof.
  unfold errorEffects. destruct (decide _); [by intros ?%elem_of_nil|].
  by intros ?%list_elem_of_singleton.
Qed.

Lemma portalEffects_in (x : Effect) (c : Controller) :
  x ∈ portalEffects c -> x = ActivationBlockedForCaptivePortal \/ x = RequestScreenCaptivePortal.
Proof. unfold portalEffects. destruct (m_portalDetected c); list_in. Qed.

(** The parts of a deactivation. *)
Lemma portal_closed (c : Controller) :
  when (m_portalDetected c)
    (emit ActivationBlockedForCaptivePortal ;;; emit RequestScreenCaptivePortal ;;;
     modify (fun c => c <| m_portalDetected := false |>)) c
  = Ret (tt, c <| m_portalDetected := false |> <| effects := effects c ++ portalEffects c |>).
Proof.
  unfold portalEffects, when. explicit c. destruct portal; [|by rewrite app_nil_r].
  unfold bind, emit, modify. cbn. by rewrite <- app_assoc.
Qed.

Definition cleared (c : Controller) : Controller :=
  c <| m_handshakeTimer := false |> <| m_activationQueue := [] |> <| m_connectionRetry := 0 |>
    <| m_errorCode := ErrorNone |>
    <| effects := effects c ++ [PingStop; ConnectionRetryChanged] ++ errorEffects ErrorNone c
         ++ [ImplDeactivate] |>.

Lemma clearing_closed (c : Controller) :
  m_impl c = true ->
  (emit PingStop ;;; stopHandshakeTimer ;;; clearQueue ;;; clearRetryCounter ;;;
   setError ErrorNone ;;; impl ImplDeactivate ;;; ret true) c = Ret (true, cleared c).
Proof.
  intros Hi. rewrite step_emit, step_stop, step_clearQueue, step_clearRetry, step_setError.
  rewrite step_impl by exact Hi. unfold ret, cleared. explicit c.
  unfold errorEffects. cbn. by rewrite <- !app_assoc.
Qed.

(** Where a deactivation leads. *)
Definition leaving (s : State) : State := if switching s then s else StateDisconnecting.

Lemma leaving_closed (c : Controller) :
  slots c <> 0%nat ->
  when (negb (stateIn (m_state c) [StateSwitching; StateSilentSwitching]))
    (setState StateDisconnecting) c
  = Ret (tt, withState (leaving (m_state c)) c).
Proof.
  intros Hn. unfold leaving, switching, when. destruct (stateIn (m_state c) _); cbn [negb].
  - unfold withState, stateEffects. clear. explicit c.
    rewrite !decide_True by done. by rewrite app_nil_r.
  - by apply setState_closed.
Qed.

Definition deactivated (c : Controller) : Controller :=
  cleared (withState (leaving (m_state c))
    (c <| m_portalDetected := false |> <| effects := effects c ++ portalEffects c |>)).

Lemma deactivated_effects (c : Controller) :
  effects (deactivated c)
  = effects c ++ (portalEffects c ++ stateEffects (leaving (m_state c)) c
      ++ [PingStop; ConnectionRetryChanged] ++ errorEffects ErrorNone c) ++ [ImplDeactivate].
Proof.
  unfold deactivated, cleared. explicit c. unfold portalEffects, stateEffects, errorEffects. cbn.
  by rewrite <- !app_assoc.
Qed.

(** The other deactivations. *)
Lemma deactivate_unavailable (user : ActivationPrincipal) (c : Controller) :
  slots c <> 0%nat -> principalRank (m_initiator c) <= principalRank user ->
  m_state c = StateConnectionError -> m_errorCode c = ErrorNoServerAvailable ->
  deactivate user c = Ret (true, withState StateOff c).
Proof.
  intros Hn Hp Hs He. unfold deactivate. rewrite step_gets. unfold id.
  rewrite (proj2 (Z.ltb_ge _ _) Hp), Hs, He.
  change (stateIn StateConnectionError [StateConnectionError]) with true.
  rewrite bool_decide_true by done. cbn [andb]. by rewrite step_setState.
Qed.

Lemma unavailable_false (c : Controller) :
  ~ (m_state c = StateConnectionError /\ m_errorCode c = ErrorNoServerAvailable) ->
  stateIn (m_state c) [StateConnectionError]
  && bool_decide (m_errorCode c = ErrorNoServerAvailable) = false.
Proof.
  intros Hne. apply andb_false_iff. unfold stateIn.
  destruct (decide (m_state c = StateConnectionError)) as [E|E].
  - right. apply bool_decide_eq_false. intros E'. by apply Hne.
  - left. apply bool_decide_eq_false. by rewrite list_elem_of_singleton.
Qed.

Lemma deactivate_inactive (user : ActivationPrincipal) (c : Controller) :
  isActive c = false -> principalRank (m_initiator c) <= principalRank user ->
  ~ (m_state c = StateConnectionError /\ m_errorCode c = ErrorNoServerAvailable) ->
  deactivate user c = Ret (false, c).
Proof.
  intros Ha Hp Hne. unfold deactivate. rewrite step_gets. unfold id.
  by rewrite (proj2 (Z.ltb_ge _ _) Hp), (unavailable_false c Hne), Ha.
Qed.

(** A deactivation that reaches the backend. *)
Lemma deactivate_active (user : ActivationPrincipal) (c : Controller) :
  m_impl c = true -> slots c <> 0%nat -> isActive c = true ->
  principalRank (m_initiator c) <= principalRank user ->
  ~ (m_state c = StateConnectionError /\ m_errorCode c = ErrorNoServerAvailable) ->
  deactivate user c = Ret (true, deactivated c).
Proof.
  intros Hi Hn Ha Hp Hne. unfold deactivate. rewrite step_gets. unfold id.
  rewrite (proj2 (Z.ltb_ge _ _) Hp), (unavailable_false c Hne), Ha. cbn [negb].
  rewrite (bind_ret _ _ _ _ _ (portal_closed c)). set (c1 := updateField _ _).
  assert (Hl : when (negb (stateIn (m_state c) [StateSwitching; StateSilentSwitching]))
    (setState StateDisconnecting) c1 = Ret (tt, withState (leaving (m_state c)) c1))
    by exact (leaving_closed c1 Hn).
  rewrite (bind_ret _ _ _ _ _ Hl). by apply clearing_closed.
Qed.

(** A deactivation. Without permission, or when nothing is active, nothing
    happens; after a failure for want of a server the controller goes to the off
    state by itself; otherwise the timer, the queue, the retries and the error are
    cleared and the backend is deactivated last, the state going to
    [StateDisconnecting] unless a switch is under way. *)
Theorem deactivate_spec (user : ActivationPrincipal) (c : Controller) :
  m_impl c = true -> slots c <> 0%nat ->
  if decide (principalRank user < principalRank (m_initiator c))
  then deactivate user c = Ret (false, c)
  else if decide (m_state c = StateConnectionError /\ m_errorCode c = ErrorNoServerAvailable)
  then deactivate user c = Ret (true, withState StateOff c)
  else if isActive c
  then exists c', deactivate user c = Ret (true, c')
       /\ m_state c' = (if switching (m_state c) then m_state c else StateDisconnecting)
       /\ m_handshakeTimer c' = false /\ m_activationQueue c' = [] /\ m_connectionRetry c' = 0
       /\ m_errorCode c' = ErrorNone /\ m_portalDetected c' = false
       /\ m_nextStep c' = m_nextStep c /\ m_initiator c' = m_initiator c
       /\ effects c' = effects c ++ portalEffects c ++ stateEffects (m_state c') c
            ++ [PingStop; ConnectionRetryChanged] ++ errorEffects ErrorNone c ++ [ImplDeactivate]
  else deactivate user c = Ret (false, c).
Proof.
  intros Hi Hn. destruct (decide (principalRank user < _)) as [Hp|Hp].
  { unfold deactivate. rewrite step_gets. unfold id. by rewrite (proj2 (Z.ltb_lt _ _) Hp). }
  apply Z.nlt_ge in Hp. destruct (decide (_ /\ _)) as [[Hs He]|Hne].
  { by apply deactivate_unavailable. }
  destruct (isActive c) eqn:Ha; [|by apply deactivate_inactive].
  exists (deactivated c). split; [by apply deactivate_active|].
  clear. unfold deactivated, cleared, leaving. explicit c. split_and!; try done.
  unfold portalEffects, stateEffects, errorEffects, switching. cbn. by rewrite <- !app_assoc.
Qed.

Lemma principal_client (p : ActivationPrincipal) : principalRank p <= principalRank ClientUser.
Proof. by destruct p. Qed.

(** Quitting while the controller is in the error state left by a failed first
    connection announces nothing that ends the program: the state becomes
    [StateOff] and [Quit] stays the next step, so that a connection made later is
    taken down again as soon as it is complete. *)
Theorem quit_unanswered (c : Controller) :
  slots c <> 0%nat -> m_state c = StateConnectionError -> m_errorCode c = ErrorNoServerAvailable ->
  exists c', quit c = Ret (tt, c')
  /\ m_state c' = StateOff /\ m_nextStep c' = Quit
  /\ effects c' = effects c ++ StateChanged StateOff :: repeat EnableDisconnectInConfirmingChanged (slots c).
Proof.
  intros Hn Hs He. unfold quit. rewrite step_gets. unfold id, isActive. rewrite Hs.
  change (negb (stateRank StateOff <? stateRank StateConnectionError)) with false.
  change (stateRank StateDisconnecting <? stateRank StateConnectionError) with true. cbn iota.
  rewrite step_setNextStep. erewrite bind_ret
    by (apply deactivate_unavailable; [exact Hn|apply principal_client|exact Hs|exact He]).
  eexists. split; [reflexivity|]. clear Hn. explicit c.
  unfold stateEffects. cbn. by rewrite decide_False.
Qed.

(** The state of a completed connection. *)
Definition onState (c : Controller) : State :=
  if decide (m_initiator c = ExtensionUser) then StateOnPartial else StateOn.

(** The connection is dated, unless it was switched from a dated one. *)
Definition dated (e : Env) (c : Controller) : bool :=
  negb (switching (m_state c) || (mobile e && stateIn (m_state c) [StateOn; StateOnPartial]))
  || bool_decide (m_connectedTimeInUTC c = None).

(** The controller after the last handshake, when it is not to stop. *)
Definition onceConnected (e : Env) (c : Controller) : Controller :=
  let on := withState (onState c)
    (c <| m_handshakeTimer := false |> <| m_connectionRetry := 0 |>
       <| effects := effects c ++ [PingStop; ConnectionRetryChanged] |>) in
  on <| m_errorCode := ErrorNone |>
     <| m_connectedTimeInUTC :=
          if dated e c then Some (nowMSecs e) else m_connectedTimeInUTC c |>
     <| effects := effects on ++ errorEffects ErrorNone c
          ++ (if dated e c then [TimestampChanged] else []) |>.

Lemma onState_bool (c : Controller) :
  (if bool_decide (m_initiator c = ExtensionUser) then StateOnPartial else StateOn) = onState c.
Proof. unfold onState. case_bool_decide; [by rewrite decide_True|by rewrite decide_False]. Qed.

Lemma dating_closed (e : Env) (b : bool) (c : Controller) :
  when b (modify (fun c => c <| m_connectedTimeInUTC := Some (nowMSecs e) |>) ;;;
          emit TimestampChanged) c
  = Ret (tt, c <| m_connectedTimeInUTC := if b then Some (nowMSecs e) else m_connectedTimeInUTC c |>
               <| effects := effects c ++ if b then [TimestampChanged] else [] |>).
Proof. explicit c. destruct b; [done|]. cbn. by rewrite app_nil_r. Qed.

Lemma allConnected_on (e : Env) (c : Controller) :
  slots c <> 0%nat -> stopsAfterwards (m_nextStep c) = false ->
  allConnected e c = Ret (tt, onceConnected e c).
Proof.
  intros Hn Hstop. unfold allConnected.
  rewrite step_stop, step_emit, step_clearRetry, step_gets. unfold id.
  rewrite step_setState by exact Hn. rewrite step_setError.
  rewrite (bind_ret _ _ _ _ _ (dating_closed e _ _)).
  revert Hstop. clear Hn. explicit c. intros ->.
  change (if bool_decide (initiator = ExtensionUser) then StateOnPartial else StateOn)
    with (if bool_decide (m_initiator (mkController state next initiator enable queue retry hasImpl
      backend portal isConnected err data nextData ping time status confirming handshake nslots effs)
      = ExtensionUser) then StateOnPartial else StateOn).
  rewrite onState_bool. cbn. unfold ret, onceConnected. cbn.
  unfold errorEffects, stateEffects, onState, dated. cbn. rewrite <- !app_assoc. done.
Qed.

(** A handshake with a server other than the one awaited changes nothing; the
    handshake that completes the queue puts the controller in [StateOn] (or
    [StateOnPartial] for the extension), with timer, retries and error cleared, and
    dates the connection unless it was switched from a dated one; nothing but
    signals and the end of the canary is emitted. *)
Theorem connected_spec (pubkey : QString) (e : Env) (c : Controller) :
  slots c <> 0%nat -> stopsAfterwards (m_nextStep c) = false ->
  let key := match m_activationQueue c with
             | [] => Some (ServerData.m_exitServerPublicKey (m_serverData c))
             | first :: _ => m_serverPublicKey first
             end in
  (text key <> text pubkey -> connected pubkey e c = Ret (tt, c))
  /\ (text key = text pubkey -> (length (m_activationQueue c) <= 1)%nat ->
      exists c', connected pubkey e c = Ret (tt, c')
      /\ m_state c' = (if decide (m_initiator c = ExtensionUser) then StateOnPartial else StateOn)
      /\ m_handshakeTimer c' = false /\ m_activationQueue c' = []
      /\ m_connectionRetry c' = 0 /\ m_errorCode c' = ErrorNone
      /\ m_connectedTimeInUTC c'
         = (if dated e c then Some (nowMSecs e) else m_connectedTimeInUTC c)
      /\ effects c' = effects c ++ [PingStop; ConnectionRetryChanged]
           ++ stateEffects (m_state c') c ++ errorEffects ErrorNone c
           ++ (if dated e c then [TimestampChanged] else [])).
Proof.
  intros Hn Hstop key. unfold connected. rewrite step_gets. unfold id. subst key.
  destruct (m_activationQueue c) as [|first [|second others]] eqn:Eq; unfold sameString;
    (split; intros Hk; [by rewrite bool_decide_false|]); simpl length; intros Hlen; [..|lia];
    rewrite bool_decide_true by done.
  - exists (onceConnected e c). split; [by apply allConnected_on|]. revert Eq. clear.
    explicit c. unfold stateEffects, errorEffects, dated, onState. cbn. by rewrite <- !app_assoc.
  - cbn [negb]. rewrite step_modify.
    exists (onceConnected e (c <| m_activationQueue := [] |>)).
    split; [by apply allConnected_on|]. clear.
    explicit c. unfold stateEffects, errorEffects, dated, onState. cbn. by rewrite <- !app_assoc.
Qed.

(** What giving up a location does. *)
Definition unavailableError (c : Controller) : ErrorCode :=
  if decide (m_state c = StateConnecting) then ErrorNoServerAvailable else ErrorServerTimeout.

Definition unavailable (c : Controller) : Controller :=
  let err := unavailableError c in
  withState StateConnectionError
    (c <| m_errorCode := err |>
       <| effects := effects c ++ ReadyToServerUnavailable (m_pingReceived c) :: errorEffects err c |>).

Lemma serverUnavailable_closed (c : Controller) :
  slots c <> 0%nat -> serverUnavailable c = Ret (tt, unavailable c).
Proof.
  intros Hn. unfold serverUnavailable. rewrite step_gets, step_emit. unfold id.
  assert (Hb : (if stateIn (m_state c) [StateConnecting] then setError ErrorNoServerAvailable
    else setError ErrorServerTimeout) = setError (unavailableError c)).
  { unfold unavailableError, stateIn. destruct (decide (m_state c = StateConnecting)) as [E|E].
    - by rewrite bool_decide_true by (by rewrite E; left).
    - rewrite bool_decide_false; [done|]. by rewrite list_elem_of_singleton. }
  rewrite Hb, step_setError, setState_closed by exact Hn. clear. unfold unavailable.
  generalize (unavailableError c). intros x. explicit c. unfold errorEffects. cbn.
  by rewrite <- !app_assoc.
Qed.

Lemma unavailable_state (c : Controller) : m_state (unavailable c) = StateConnectionError.
Proof. done. Qed.

(** ** The configurations of an activation *)

(** Port 53 is forced. *)
Definition forced (dnsPort : DNSPortPolicy) (e : Env) : bool :=
  match dnsPort with ForceDNSPort => true | DoNotForceDNSPort => alwaysPort53 e end.

(** The exit configuration leads to the exit server. *)
Definition leadsTo (exitServer : Server.Server) (c : Controller) (e : Env)
    (exit : InterfaceConfig) : Prop :=
  m_serverPublicKey exit = Server.m_publicKey exitServer
  /\ InterfaceConfig.m_privateKey exit = privateKey e
  /\ m_serverIpv4Gateway exit = Server.m_ipv4Gateway exitServer
  /\ m_dnsServer exit = DNSHelper.getDNS (dnsSettings e) (Server.m_ipv4Gateway exitServer)
  /\ m_allowedIPAddressRanges exit
     = (if decide (m_initiator c = ExtensionUser)
        then DNSHelper.getExtensionProxyAddressRanges (dnsSettings e) exitServer None
        else DNSHelper.getAllowedIPAddressRanges exitServer).

(** The entry configuration reaches nothing but the exit server. *)
Definition reachesOnly (exitServer entryServer : Server.Server) (entry : InterfaceConfig) : Prop :=
  m_hopType entry = MultiHopEntry
  /\ m_serverPublicKey entry = Server.m_publicKey entryServer
  /\ m_serverIpv4Gateway entry = None /\ m_dnsServer entry = None
  /\ m_allowedIPAddressRanges entry
     = IPAddress.ofString (text (Server.m_ipv4AddrIn exitServer))
       :: (if isEmpty (Server.m_ipv6AddrIn exitServer) then []
           else [IPAddress.ofString (text (Server.m_ipv6AddrIn exitServer))]).

(** C37: the configurations of an activation. Without a server the connection has
    failed, and without a device nothing is activated; a single hop leads to the
    exit server, directly or through the multihop port of the entry server; two
    hops are an entry that reaches only the exit server, then the exit. Port 53 is
    forced on the first hop, but not on an emulated multihop. *)
Theorem setupConfigs_shape (dnsPort : DNSPortPolicy) (policy : ServerSelectionPolicy) (e : Env)
    (c : Controller) :
  Choosable e -> m_impl c = true -> slots c <> 0%nat ->
  exists configs c' exitServer, setupConfigs dnsPort policy e c = Ret (configs, c')
  /\ chooseExit policy (m_serverData c) e = Ret exitServer
  /\ match configs with
     | [] => m_state c' = StateConnectionError
             \/ device e = None /\ m_state c' = m_state c /\ m_nextStep c' = Disconnect
     | [exit] =>
         c' = c /\ m_hopType exit = SingleHop /\ leadsTo exitServer c e exit
         /\ if negb (multiHopFeature e) || negb (ServerData.multihop (m_serverData c))
            then m_serverIpv4AddrIn exit = Server.m_ipv4AddrIn exitServer
                 /\ (forced dnsPort e = true -> m_serverPort exit = 53)
            else exists entryServer, chooseEntry policy (m_serverData c) e = Ret entryServer
                 /\ m_serverIpv4AddrIn exit = Server.m_ipv4AddrIn entryServer
                 /\ m_serverPort exit = s32 (Server.m_multihopPort exitServer)
     | [entry; exit] =>
         c' = c /\ m_hopType exit = MultiHopExit /\ leadsTo exitServer c e exit
         /\ (forced dnsPort e = true -> m_serverPort entry = 53)
         /\ exists entryServer, chooseEntry policy (m_serverData c) e = Ret entryServer
            /\ reachesOnly exitServer entryServer entry
     | _ => False
     end.
Proof.
  intros He Hi Hn.
  destruct (chooseExit_defined e policy (m_serverData c) He) as (exitServer & Hexit & Hknown).
  unfold setupConfigs. rewrite step_gets. unfold id.
  rewrite (step_lift _ _ _ _ Hexit).
  destruct (negb (Server.initialized exitServer)) eqn:Ex.
  { rewrite (bind_ret _ _ _ _ _ (serverUnavailable_closed c Hn)).
    exists [], (unavailable c), exitServer. split; [done|]. split; [exact Hexit|]. by left. }
  destruct (device e) as [addresses|] eqn:Ed; [|eexists [], _, exitServer; split; [reflexivity|]].
  2: { split; [done|]. right. done. }
  destruct (choosePort_defined e exitServer (rndExitPort e) He Hknown) as [exitPort Hport].
  rewrite (step_lift _ _ _ _ Hport), step_gets, Hi. cbn [negb].
  assert (forall hop, leadsTo exitServer c e
    (exitConfig (m_initiator c) hop exitServer (s32 exitPort) addresses e)) as Hlead.
  { intros hop. split_and!; try done. cbn -[DNSHelper.getExtensionProxyAddressRanges
      DNSHelper.getAllowedIPAddressRanges]. by destruct (decide _), (bool_decide_reflect
      (m_initiator c = ExtensionUser)). }
  fold (forced dnsPort e).
  destruct (negb (multiHopFeature e) || _) eqn:Esingle.
  { eexists _, c, exitServer. split; [reflexivity|]. split; [done|]. cbn iota.
    split; [done|]. destruct (forced dnsPort e); by split_and!; try apply Hlead. }
  destruct (chooseEntry_defined e policy (m_serverData c) He) as (entryServer & Hentry & Hknown').
  rewrite (step_lift _ _ _ _ Hentry).
  destruct (negb (Server.initialized entryServer)).
  { rewrite (bind_ret _ _ _ _ _ (serverUnavailable_closed c Hn)).
    exists [], (unavailable c), exitServer. split; [done|]. split; [exact Hexit|]. by left. }
  destruct (multihopSupported e).
  - destruct (choosePort_defined e entryServer (rndEntryPort e) He Hknown') as [entryPort Hport'].
    rewrite (step_lift _ _ _ _ Hport').
    eexists _, c, exitServer. split; [reflexivity|]. split; [done|]. cbn iota.
    split; [done|]. split; [done|]. split; [apply Hlead|].
    split; [by intros ->|]. by exists entryServer.
  - eexists _, c, exitServer. split; [reflexivity|]. split; [done|]. cbn iota.
    split; [done|]. split; [done|]. split; [apply Hlead|]. by exists entryServer.
Qed.

(** ** Behaviour at the edges *)

(** The ninth timeout of a connection. The server that did not answer is put on a
    cooldown of five minutes, the location is reported as unavailable and the state
    becomes [StateConnectionError] with the timer stopped; the backend is not
    deactivated, so that the network stays down. *)
Theorem timeout_gives_up (e : Env) (c : Controller) (hop : InterfaceConfig)
    (others : list InterfaceConfig) :
  slots c <> 0%nat -> hasProfiles e = false -> m_activationQueue c = hop :: others ->
  stopsAfterwards (m_nextStep c) = false -> 8 <= m_connectionRetry c ->
  let err := if decide (m_state c = StateConnecting) then ErrorNoServerAvailable
             else ErrorServerTimeout in
  exists c', handle e HandshakeTimer c = Ret (tt, c')
  /\ m_state c' = StateConnectionError /\ m_errorCode c' = err
  /\ m_handshakeTimer c' = false /\ m_connectionRetry c' = m_connectionRetry c + 1
  /\ effects c' = effects c
       ++ [SetCooldown (m_serverPublicKey hop) 300; ConnectionRetryChanged;
           ReadyToServerUnavailable (m_pingReceived c)]
       ++ errorEffects err c ++ stateEffects StateConnectionError c.
Proof.
  intros Hn Hp Hq Hstop Hr err. cbn [handle]. unfold handshakeTimerFires. rewrite step_stop.
  unfold handshakeTimeout. rewrite Hp, step_gets.
  change (m_activationQueue (c <| m_handshakeTimer := false |>)) with (m_activationQueue c).
  rewrite Hq, step_emit, step_gets.
  change (m_nextStep (_ <| effects := _ |>)) with (m_nextStep c). rewrite Hstop.
  rewrite step_modify, step_emit, step_gets. unfold id.
  set (c1 := updateField _ _). change (m_connectionRetry c1) with (m_connectionRetry c + 1).
  rewrite (proj2 (Z.eqb_neq _ _)) by lia.
  rewrite (proj2 (Z.ltb_ge _ CONNECTION_MAX_RETRY)) by (unfold CONNECTION_MAX_RETRY; lia).
  exists (unavailable c1). split; [by apply serverUnavailable_closed|]. subst c1 err. clear.
  unfold unavailable, unavailableError, errorEffects, stateEffects. explicit c.
  split_and!; try done. by rewrite <- !app_assoc.
Qed.

(** When the timeout of a local profile fires, the controller enters the error
    state and at the same time has the backend take the tunnel down. *)
Theorem local_timeout (e : Env) (c : Controller) :
  m_impl c = true -> slots c <> 0%nat -> hasProfiles e = true ->
  exists c', handle e HandshakeTimer c = Ret (tt, c')
  /\ m_state c' = StateConnectionError /\ m_errorCode c' = ErrorServerTimeout
  /\ m_handshakeTimer c' = false
  /\ effects c' = effects c ++ errorEffects ErrorServerTimeout c
       ++ stateEffects StateConnectionError c ++ [PingStop; ImplDeactivate].
Proof.
  intros Hi Hn Hp. cbn [handle]. unfold handshakeTimerFires. rewrite step_stop.
  unfold handshakeTimeout. rewrite Hp, step_setError, step_setState by exact Hn.
  rewrite step_stop, step_emit. unfold ifImpl. rewrite step_gets. revert Hi. clear. intros Hi.
  explicit c. eexists. split; [reflexivity|]. cbn. split_and!; try done.
  unfold errorEffects, stateEffects. cbn. by rewrite <- !app_assoc.
Qed.

(** The state an activation hands over to [activateInternal]. *)
Definition handedOver (d : ServerData.ServerData) (c : Controller) : Controller :=
  (withState StateConnecting
    (c <| m_errorCode := ErrorNone |>
       <| m_serverData := ServerData.assign (m_serverData c) d |>
       <| effects := effects c ++ errorEffects ErrorNone c ++ [CurrentServerChanged] |>))
  <| m_connectionRetry := 0 |>
  <| effects := effects c ++ errorEffects ErrorNone c ++ CurrentServerChanged
       :: stateEffects StateConnecting c ++ [ConnectionRetryChanged] |>.

Lemma activate_off (d : ServerData.ServerData) (policy : ServerSelectionPolicy) (e : Env)
    (c : Controller) :
  slots c <> 0%nat -> m_state c = StateOff -> m_portalDetected c = false ->
  checkConnectivityOnActivation e = false ->
  activate d ClientUser policy e c
  = (activateInternal DoNotForceDNSPort policy ClientUser e ;;; ret true) (handedOver d c).
Proof.
  intros Hn Hs Hp Hcheck. unfold activate. rewrite step_gets, Hs.
  change (negb (mayActivate StateOff)) with false. cbn iota.
  rewrite step_setError, step_setServerData, step_emit, step_gets.
  change (m_state (_ <| effects := _ |>)) with (m_state c). rewrite Hs.
  change (stateIn StateOff [StateOff]) with true. cbn iota. rewrite step_gets.
  change (m_portalDetected (_ <| effects := _ |>)) with (m_portalDetected c). rewrite Hp.
  cbn iota. unfold checkDeviceConnected. rewrite Hcheck. cbn [negb]. rewrite step_ret.
  change (when (notExtension ClientUser) (setState StateConnecting)) with (setState StateConnecting).
  cbn [negb]. rewrite step_setState by exact Hn. rewrite step_clearRetry. f_equal. clear.
  unfold handedOver. explicit c. unfold errorEffects, stateEffects. cbn. by rewrite <- !app_assoc.
Qed.

(** A client whose account has no device asks for a connection: the activation
    reports that a signal will follow, but the state stays [StateConnecting] with
    no timer, no configuration and no call of the backend. *)
Theorem activate_noDevice (d : ServerData.ServerData) (policy : ServerSelectionPolicy) (e : Env)
    (c : Controller) (exitServer : Server.Server) :
  slots c <> 0%nat -> m_state c = StateOff -> m_portalDetected c = false ->
  checkConnectivityOnActivation e = false -> device e = None ->
  chooseExit policy (ServerData.assign (m_serverData c) d) e = Ret exitServer ->
  Server.initialized exitServer = true ->
  exists c', activate d ClientUser policy e c = Ret (true, c')
  /\ m_state c' = StateConnecting /\ m_errorCode c' = ErrorNone
  /\ m_handshakeTimer c' = false /\ m_activationQueue c' = [] /\ m_nextStep c' = Disconnect
  /\ effects c' = effects c ++ errorEffects ErrorNone c ++ CurrentServerChanged
       :: stateEffects StateConnecting c ++ [ConnectionRetryChanged].
Proof.
  intros Hn Hs Hp Hcheck Hdev Hexit Hinit. rewrite activate_off by done.
  unfold activateInternal. rewrite step_assoc, step_modify, step_assoc, step_stop.
  rewrite step_assoc, step_clearQueue, step_assoc. unfold setupConfigs. rewrite step_assoc, step_gets.
  unfold id. change (m_serverData (_ <| m_activationQueue := _ |>))
    with (ServerData.assign (m_serverData c) d).
  rewrite step_assoc, (step_lift _ _ _ _ Hexit), Hinit. cbn [negb]. rewrite Hdev.
  rewrite step_assoc, step_setNextStep, step_ret, step_ret. eexists. split; [reflexivity|]. by split_and!.
Qed.

(** The location of [c] is the one of [d]. *)
Definition located (d : ServerData.ServerData) (c : Controller) : Prop :=
  ServerData.m_exitCountryCode (m_serverData c) = ServerData.m_exitCountryCode d
  /\ ServerData.m_exitCityName (m_serverData c) = ServerData.m_exitCityName d
  /\ ServerData.m_entryCountryCode (m_serverData c) = ServerData.m_entryCountryCode d
  /\ ServerData.m_entryCityName (m_serverData c) = ServerData.m_entryCityName d.

(** The state a switch shows, and the controller once it shows it. *)
Definition switchState (c : Controller) : State :=
  if decide (m_state c = StateConnecting) then StateConnecting else StateSwitching.

Definition switchStarted (d : ServerData.ServerData) (c : Controller) : Controller :=
  withState (switchState c)
    (c <| m_nextServerData := ServerData.assign (m_nextServerData c) d |>
       <| m_connectionRetry := 0 |> <| effects := effects c ++ [ConnectionRetryChanged] |>).

Lemma switchServers_active (d : ServerData.ServerData) (e : Env) (c : Controller) :
  m_impl c = true -> slots c <> 0%nat -> isActive c = true ->
  switchServers d e c
  = (if multihopSupported e
        && negb (Bool.eqb (ServerData.multihop d) (ServerData.multihop (m_serverData c)))
     then setNextStep Reconnect ;;; deactivate ClientUser ;;; ret true
     else setServerData d ;;; emit CurrentServerChanged ;;;
       activateInternal DoNotForceDNSPort RandomizeServerSelection (m_initiator c) e ;;; ret true)
      (switchStarted d c).
Proof.
  intros Hi Hn Ha. set (c0 := c <| m_nextServerData := ServerData.assign (m_nextServerData c) d |>
    <| m_connectionRetry := 0 |> <| effects := effects c ++ [ConnectionRetryChanged] |>).
  unfold switchServers. rewrite step_gets. unfold id. rewrite Ha. cbn [negb].
  rewrite step_modify, step_clearRetry. change (_ <| effects := _ |>) with c0.
  assert (when (negb (stateIn (m_state c) [StateConnecting])) (setState StateSwitching) c0
    = Ret (tt, switchStarted d c)) as Hw.
  { unfold switchStarted. fold c0. unfold switchState, stateIn.
    destruct (decide (m_state c = StateConnecting)) as [E|E].
    - rewrite bool_decide_true by (rewrite E; left). cbn [negb when]. revert E. clear. intros E.
      unfold c0, withState, ret, stateEffects. explicit c.
      by rewrite !decide_True, app_nil_r by done.
    - rewrite bool_decide_false by (by rewrite list_elem_of_singleton). cbn [negb when].
      by apply setState_closed. }
  by rewrite (bind_ret _ _ _ _ _ Hw), Hi.
Qed.

Lemma switch_full (d : ServerData.ServerData) (e : Env) (c : Controller) :
  m_impl c = true -> slots c <> 0%nat -> isActive c = true -> multihopSupported e = true ->
  ServerData.multihop d <> ServerData.multihop (m_serverData c) ->
  switchServers d e c
  = Ret (true, deactivated (switchStarted d c <| m_nextStep := Reconnect |>)).
Proof.
  intros Hi Hn Ha Hm Hd. rewrite switchServers_active, Hm by done. cbn [andb].
  replace (negb (Bool.eqb (ServerData.multihop d) (ServerData.multihop (m_serverData c))))
    with true by (by destruct (ServerData.multihop d), (ServerData.multihop (m_serverData c))).
  rewrite step_setNextStep. erewrite bind_ret; [reflexivity|].
  apply deactivate_active; [exact Hi|exact Hn| |apply principal_client|].
  - unfold isActive, switchStarted. cbn. unfold switchState. by destruct (decide _).
  - intros [Hs _]. cbn in Hs. unfold switchState in Hs. by destruct (decide _).
Qed.

(** C38: a switch of an active controller. Over a backend with multihop, between a
    single hop and two hops, it deactivates the backend and activates nothing; when
    the backend is disconnected, the activation that follows is for the new
    location. Every other switch, among them all those over a backend without
    multihop, goes straight to the activation of the new location, and neither
    deactivates nor activates anything before it. *)
Theorem switch_reconnect (d : ServerData.ServerData) (e : Env) (c : Controller) :
  m_impl c = true -> slots c <> 0%nat -> isActive c = true ->
  (multihopSupported e = true ->
   ServerData.multihop d <> ServerData.multihop (m_serverData c) ->
   exists c1 signals, switchServers d e c = Ret (true, c1)
   /\ m_nextStep c1 = Reconnect /\ m_activationQueue c1 = [] /\ m_handshakeTimer c1 = false
   /\ effects c1 = effects c ++ signals ++ [ImplDeactivate]
   /\ (forall config reason, ImplActivate config reason ∉ signals)
   /\ forall e', exists c2,
        disconnected e' c1
        = activateInternal DoNotForceDNSPort RandomizeServerSelection (m_initiator c) e' c2
        /\ m_nextStep c2 = None_ /\ located d c2)
  /\ (multihopSupported e = false
      \/ ServerData.multihop d = ServerData.multihop (m_serverData c) ->
      exists c1 signals,
        switchServers d e c
        = (activateInternal DoNotForceDNSPort RandomizeServerSelection (m_initiator c) e ;;;
           ret true) c1
        /\ m_nextStep c1 = m_nextStep c /\ located d c1
        /\ effects c1 = effects c ++ signals /\ ImplDeactivate ∉ signals
        /\ (forall config reason, ImplActivate config reason ∉ signals)).
Proof.
  intros Hi Hn Ha. set (s := switchState c). split.
  - intros Hm Hd. set (c3 := switchStarted d c <| m_nextStep := Reconnect |>).
    exists (deactivated c3), ([ConnectionRetryChanged] ++ stateEffects s c ++ portalEffects c3
      ++ stateEffects (leaving s) c3 ++ [PingStop; ConnectionRetryChanged]
      ++ errorEffects ErrorNone c3).
    split; [by apply switch_full|]. do 3 (split; [done|]). split; [|split].
    + rewrite deactivated_effects.
      change (effects c3) with ((effects c ++ [ConnectionRetryChanged]) ++ stateEffects s c).
      change (m_state c3) with s. by rewrite <- !app_assoc.
    + intros config reason Hin. rewrite !elem_of_app, !elem_of_cons, !elem_of_nil in Hin.
      destruct Hin as [Hin|[Hin|[Hin|[Hin|[Hin|Hin]]]]];
        [|apply stateEffects_in in Hin|apply portalEffects_in in Hin|apply stateEffects_in in Hin
         |..|apply errorEffects_in in Hin]; intuition congruence.
    + intros e'. unfold disconnected.
      rewrite step_emit, step_stop, step_clearQueue, step_clearRetry, step_gets, step_setNextStep.
      change (m_nextStep (_ <| effects := _ |>)) with Reconnect. cbn iota.
      rewrite step_gets, step_setServerData, step_emit. eexists. split; [reflexivity|]. by split_and!.
  - intros Hd. rewrite switchServers_active by done.
    replace (multihopSupported e && _) with false.
    2: { destruct Hd as [-> | ->]; [done|]. by rewrite Bool.eqb_reflx, andb_false_r. }
    rewrite step_setServerData, step_emit. eexists _, ([ConnectionRetryChanged]
      ++ stateEffects s c ++ [CurrentServerChanged]).
    split; [reflexivity|]. split; [done|]. split; [by split_and!|]. split.
    { cbn -[stateEffects]. by rewrite <- !app_assoc. }
    split; [|intros config reason]; intros Hin; rewrite !elem_of_app, !elem_of_cons, !elem_of_nil in Hin;
      (destruct Hin as [Hin|[Hin|Hin]]; [|apply stateEffects_in in Hin|]); intuition congruence.
Qed.

(** A disconnection with no step to follow ends in the off state, whatever the state
    was and whether or not an activation was on its way. *)
Lemma disconnected_off (e : Env) (c : Controller) :
  slots c <> 0%nat -> m_nextStep c = None_ \/ m_nextStep c = Disconnect ->
  exists c', disconnected e c = Ret (tt, c')
  /\ m_state c' = StateOff /\ m_activationQueue c' = [] /\ m_handshakeTimer c' = false
  /\ m_nextStep c' = None_.
Proof.
  intros Hn Hs. unfold disconnected.
  rewrite step_emit, step_stop, step_clearQueue, step_clearRetry, step_gets, step_setNextStep.
  change (m_nextStep (_ <| effects := _ |>)) with (m_nextStep c).
  destruct Hs as [-> | ->]; cbn iota; rewrite step_modify, !step_emit, step_modify;
    rewrite setState_closed by exact Hn; eexists; (split; [reflexivity|]); by split_and!.
Qed.

(** On a mobile platform the answer to the permission prompt starts the handshake
    timer whether or not the connection is still wanted; if it was taken down in the
    meantime, the timeout takes the first of an empty queue. *)
Theorem mobile_timeout_undefined (e : Env) (c : Controller) :
  mobile e = true -> m_impl c = true -> hasProfiles e = false -> m_activationQueue c = [] ->
  enabled e StartHandshakeTimer c
  /\ exists c1, handle e StartHandshakeTimer c = Ret (tt, c1)
     /\ enabled e HandshakeTimer c1 /\ handle e HandshakeTimer c1 = Undefined.
Proof.
  intros Hm Hi Hp Hq. split; [done|]. eexists. split; [reflexivity|]. split; [done|].
  cbn [handle]. unfold handshakeTimerFires. rewrite step_stop. unfold handshakeTimeout.
  rewrite Hp, step_gets. change (m_activationQueue (_ <| m_handshakeTimer := _ |>))
    with (m_activationQueue c). by rewrite Hq.
Qed.

(** A change of language while the tunnel is up, over a backend that is sent
    configurations, when every server of the location is cooling down: the
    controller enters the error state although the tunnel still runs and nobody
    asked for a connection. *)
Theorem localeChanged_drops (e : Env) (c : Controller) (exitServer : Server.Server) :
  m_impl c = true -> slots c <> 0%nat -> m_state c = StateOn -> languageCode e <> [] ->
  canSendUpdatedConfig e = true ->
  chooseExit RandomizeServerSelection (ServerData.assign (m_serverData c) (vpnServerData e)) e
  = Ret exitServer -> Server.initialized exitServer = false ->
  exists c', handle e LocaleChanged c = Ret (tt, c')
  /\ m_state c' = StateConnectionError /\ m_errorCode c' = ErrorServerTimeout
  /\ effects c' = effects c ++ ReadyToServerUnavailable (m_pingReceived c)
       :: errorEffects ErrorServerTimeout c ++ stateEffects StateConnectionError c.
Proof.
  intros Hi Hn Hs Hl Hcan Hexit Hinit. cbn [handle]. unfold localeChanged.
  rewrite bool_decide_false by done. unfold maybeSendUpdatedConfig.
  rewrite step_gets, Hi. cbn [negb]. rewrite Hcan. cbn [negb]. rewrite step_setServerData.
  unfold setupConfigs. rewrite step_assoc, step_gets. unfold id. set (c1 := updateField _ _).
  change (m_serverData c1) with (ServerData.assign (m_serverData c) (vpnServerData e)).
  rewrite step_assoc, (step_lift _ _ _ _ Hexit), Hinit. cbn [negb].
  rewrite step_assoc, (bind_ret _ _ _ _ _ (serverUnavailable_closed c1 Hn)), step_ret.
  exists (unavailable c1). split; [done|]. split; [done|].
  assert (unavailableError c1 = ErrorServerTimeout) as He.
  { unfold unavailableError. change (m_state c1) with (m_state c). by rewrite Hs. }
  unfold unavailable. rewrite He. split; [done|]. clear. subst c1. explicit c.
  unfold errorEffects, stateEffects. cbn. by rewrite <- !app_assoc.
Qed.


End Reachability.

(** ** Examples *)

#[local] Existing Instance modelText.
#[local] Existing Instance modelTextLaws.
#[local] Existing Instance modelJson.
#[local] Existing Instance DNSHelper.desktop.

Definition sampleServer (key : chars) : Server.Server :=
  Server.mkServer (Some (key ++ qs "-wg")) (Some (qs "192.0.2.1")) (Some (qs "10.64.0.1")) None None
    [(51820, 51820)] (Some key) None 100 4000 (Some (qs "no")) (Some (qs "Oslo")).

(** Oslo and Rome, with a server each. *)
Definition sampleModel : ServerList.ServerCountryModel :=
  ServerList.mkModel _ emptyBytes []
    {[ServerList.hashKey (qs "no") (qs "Oslo") :=
        ServerList.mkServerCity (Some (qs "no")) (Some (qs "Oslo")) (Some (qs "osl")) None
          JUndefined JUndefined [qs "oslo"] 0 0]}
    {[qs "oslo" := sampleServer (qs "oslo")]} [].

(** A desktop or a mobile client; the account may lack a device, and all servers
    may be cooling down until [until]. *)
Definition sampleEnv (mob : bool) (dev : option (QString * QString)) (profiles : bool) (until : Z)
  : Env :=
  {| desktop := negb mob; mobile := mob; multihopSupported := negb mob;
     splitTunnelSupported := false; canSendUpdatedConfig := mob; silentServerSwitching := true;
     suppressNotification := false; wasm := false; windows := false; inProduction := true;
     controlSocket := []; windowsDaemonPath := []; platformController := true;
     uninitialisedHop := SingleHop; multiHopFeature := true; alwaysPort53 := false;
     checkConnectivityOnActivation := false; hasProfiles := profiles; device := dev;
     privateKey := Some (qs "private"); vpnDisabledApps := [];
     dnsSettings := DNSHelper.withFlags 0; languageCode := qs "en";
     vpnServerData := ServerData.emptyServerData; model := sampleModel;
     cooldown := fun _ => until; translatedCityName := id; disconnected_ := false;
     now := 1000; nowMSecs := 1000000; rndExit := 7; rndExitPort := 0; rndEntry := 3;
     rndEntryPort := 0 |}.

Definition sampleDevice : option (QString * QString) := Some (Some (qs "10.1.2.3/32"), None).
Definition desktopEnv : Env := sampleEnv false sampleDevice false 0.

Definition inOslo : ServerData.ServerData :=
  ServerData.mkServerData true (qs "no") (qs "Norway") (qs "Oslo") [] [] [] [] [] [] [] [].

Lemma sample_servers (until : Z) (code city : chars) :
  let l := ServerData.getServerList sampleModel (fun _ => until) 1000 code city in
  l = [] \/ l = [sampleServer (qs "oslo")].
Proof.
  cbv zeta. unfold ServerData.getServerList, ServerList.findCity, sampleModel.
  cbn [ServerList.m_cities]. rewrite lookup_singleton. case_decide; [|by left].
  cbn. case_decide; [right; vm_compute; reflexivity|by left].
Qed.

Lemma sample_choosable (mob profiles : bool) (dev : option (QString * QString)) (until : Z) :
  Choosable (sampleEnv mob dev profiles until).
Proof.
  split.
  - intros code city. cbn [model cooldown now sampleEnv].
    destruct (sample_servers until code city) as [-> | ->]; vm_compute; discriminate.
  - intros key s. subst s. unfold ServerList.server. cbn [model sampleEnv sampleModel
      ServerList.m_serverTable]. rewrite lookup_singleton. case_decide; [vm_compute; discriminate|done].
Qed.

Lemma sample_desktop (dev : option (QString * QString)) (profiles : bool) (until : Z) :
  DesktopEnv (sampleEnv false dev profiles until).
Proof. split; [by right|done|done]. Qed.

Definition next (e : Env) (ev : Event) (c : Controller) : Controller :=
  match handle e ev c with Ret (_, c') => c' | _ => c end.

Lemma reach_next (e : Env) (ev : Event) (c : Controller) :
  Reachable c -> DesktopEnv e -> enabled e ev c -> Reachable (next e ev c).
Proof.
  intros Hc He Hen. unfold next. destruct (handle e ev c) as [[[] c']| |] eqn:E; [|done..].
  by eapply reach_event.
Qed.

(** An initialized controller, and one that waits for the handshake of Oslo. *)
Definition idle (e : Env) : Controller :=
  next e (ImplInitialized true false None) (next e Initialize construct).
Definition confirming (e : Env) : Controller :=
  next e (Activate inOslo ClientUser RandomizeServerSelection) (idle e).

Lemma idle_reachable : Reachable (idle desktopEnv).
Proof.
  repeat (apply reach_next; [|apply sample_desktop|by vm_compute]). apply reach_construct.
Qed.

Lemma confirming_reachable : Reachable (confirming desktopEnv).
Proof. apply reach_next; [apply idle_reachable|apply sample_desktop|done]. Qed.

Lemma reachable_safe_witness :
  m_handshakeTimer (confirming desktopEnv) = true
  /\ m_activationQueue (confirming desktopEnv) <> []
  /\ exists c', handle desktopEnv HandshakeTimer (confirming desktopEnv) = Ret (tt, c').
Proof.
  destruct (reachable_safe _ confirming_reachable) as (Hsafe & Hq & _).
  assert (m_handshakeTimer (confirming desktopEnv) = true) as Ht by (vm_compute; reflexivity).
  split; [exact Ht|]. split; [exact (Hq Ht)|].
  destruct (Hsafe desktopEnv HandshakeTimer (sample_desktop _ _ _) Ht) as [Hret|[_ Hno]];
    [exact Hret|]. destruct Hno. apply sample_choosable.
Defined.

Definition retrying : Controller := next desktopEnv HandshakeTimer (confirming desktopEnv).

Lemma retrying_reachable : Reachable retrying.
Proof.
  apply reach_next; [apply confirming_reachable|apply sample_desktop|vm_compute; reflexivity].
Qed.

Lemma reachable_retry_witness :
  m_connectionRetry retrying = 1 /\ m_handshakeTimer retrying = true
  /\ m_connectionRetry retrying <= 9.
Proof.
  destruct (reachable_retry _ retrying_reachable) as [_ Hr].
  assert (m_handshakeTimer retrying = true) as Ht by (vm_compute; reflexivity).
  split; [vm_compute; reflexivity|]. split; [exact Ht|exact (Hr Ht)].
Defined.

(** Nine timeouts after a connection to Oslo. *)
Fixpoint manyTimeouts (n : nat) (c : Controller) : Controller :=
  match n with O => c | S n => manyTimeouts n (next desktopEnv HandshakeTimer c) end.

Fixpoint allRunning (n : nat) (c : Controller) : bool :=
  match n with
  | O => true
  | S n => m_handshakeTimer c && allRunning n (next desktopEnv HandshakeTimer c)
  end.

Lemma manyTimeouts_run (n : nat) (c : Controller) :
  Reachable c -> allRunning n c = true -> Timeouts n c (manyTimeouts n c).
Proof.
  revert c. induction n as [|n IH]; intros c Hc Hrun; [apply timeouts_none|].
  cbn [allRunning] in Hrun. apply andb_true_iff in Hrun as [Ht Hrun].
  pose proof (sample_desktop sampleDevice false 0) as He.
  destruct (started_cases desktopEnv HandshakeTimer c He Ht (reachable_started c Hc))
    as [(c1 & E & _)|[_ Hno]]; [|destruct Hno; apply sample_choosable].
  assert (next desktopEnv HandshakeTimer c = c1) as Hn by (unfold next; by rewrite E).
  cbn [manyTimeouts]. rewrite Hn in *.
  apply (timeouts_more n desktopEnv c c1); [exact He|exact Ht|exact E|]. apply IH; [|exact Hrun].
  by apply (reach_event desktopEnv HandshakeTimer c).
Qed.

Lemma timeouts_bounded_witness :
  Timeouts 9 (confirming desktopEnv) (manyTimeouts 9 (confirming desktopEnv))
  /\ m_handshakeTimer (manyTimeouts 9 (confirming desktopEnv)) = false.
Proof.
  assert (Timeouts 9 (confirming desktopEnv) (manyTimeouts 9 (confirming desktopEnv))) as Ht
    by (apply manyTimeouts_run; [apply confirming_reachable|vm_compute; reflexivity]).
  split; [exact Ht|]. apply (timeouts_bounded 9 _ _ confirming_reachable Ht).
  vm_compute. reflexivity.
Defined.

Lemma deactivate_spec_witness :
  exists c', deactivate ClientUser (confirming desktopEnv) = Ret (true, c')
  /\ m_state c' = StateDisconnecting.
Proof.
  assert (m_impl (confirming desktopEnv) = true) as Hi by (vm_compute; reflexivity).
  assert (slots (confirming desktopEnv) <> 0%nat) as Hn by (vm_compute; discriminate).
  assert (m_state (confirming desktopEnv) = StateConfirming) as Hs by (vm_compute; reflexivity).
  assert (isActive (confirming desktopEnv) = true) as Ha by (vm_compute; reflexivity).
  pose proof (deactivate_spec ClientUser _ Hi Hn) as Hd.
  rewrite decide_False in Hd by (apply Z.le_ngt, principal_client).
  rewrite decide_False in Hd by (rewrite Hs; by intros [? _]). rewrite Ha in Hd.
  destruct Hd as (c' & E & Hc' & _). exists c'. split; [exact E|]. rewrite Hc', Hs. reflexivity.
Defined.

(** A first connection with every server cooling down fails. *)
Definition failed : Controller :=
  next (sampleEnv false sampleDevice false 2000) (Activate inOslo ClientUser RandomizeServerSelection)
    (idle desktopEnv).

Lemma quit_unanswered_witness :
  exists c', quit failed = Ret (tt, c') /\ m_state c' = StateOff /\ m_nextStep c' = Quit.
Proof.
  destruct (quit_unanswered failed) as (c' & E & Hs & Hq & _);
    [vm_compute; discriminate|vm_compute; reflexivity..|].
  exists c'. split; [exact E|]. split; [exact Hs|exact Hq].
Defined.

Lemma connected_spec_witness :
  exists c', connected (Some (qs "oslo")) desktopEnv (confirming desktopEnv) = Ret (tt, c')
  /\ m_state c' = StateOn.
Proof.
  destruct (connected_spec (Some (qs "oslo")) desktopEnv (confirming desktopEnv)) as [_ Hc];
    [vm_compute; discriminate|vm_compute; reflexivity|].
  destruct Hc as (c' & E & Hs & _); [vm_compute; reflexivity|apply Nat.leb_le; vm_compute; reflexivity|].
  exists c'. split; [exact E|]. rewrite Hs. vm_compute. reflexivity.
Defined.

Lemma setupConfigs_shape_witness :
  exists configs c' s, setupConfigs ForceDNSPort RandomizeServerSelection desktopEnv
                        (confirming desktopEnv) = Ret (configs, c')
  /\ chooseExit RandomizeServerSelection (m_serverData (confirming desktopEnv)) desktopEnv = Ret s.
Proof.
  destruct (setupConfigs_shape ForceDNSPort RandomizeServerSelection desktopEnv
    (confirming desktopEnv)) as (configs & c' & s & E & Hs & _);
    [apply sample_choosable|vm_compute; reflexivity|vm_compute; discriminate|].
  exists configs, c', s. split; [exact E|exact Hs].
Defined.

Lemma timeout_gives_up_witness :
  exists c', handle desktopEnv HandshakeTimer (manyTimeouts 8 (confirming desktopEnv)) = Ret (tt, c')
  /\ m_state c' = StateConnectionError /\ m_handshakeTimer c' = false.
Proof.
  destruct (m_activationQueue (manyTimeouts 8 (confirming desktopEnv))) as [|hop others] eqn:Eq;
    [vm_compute in Eq; discriminate|].
  destruct (timeout_gives_up desktopEnv (manyTimeouts 8 (confirming desktopEnv)) hop others)
    as (c' & E & Hs & _ & Ht & _);
    [vm_compute; discriminate|reflexivity|exact Eq|vm_compute; reflexivity
    |apply Z.leb_le; vm_compute; reflexivity|].
  exists c'. split; [exact E|]. split; [exact Hs|exact Ht].
Defined.

Lemma local_timeout_witness :
  exists c', handle (sampleEnv false None true 0) HandshakeTimer (confirming desktopEnv) = Ret (tt, c')
  /\ m_state c' = StateConnectionError.
Proof.
  destruct (local_timeout (sampleEnv false None true 0) (confirming desktopEnv))
    as (c' & E & Hs & _); [vm_compute; reflexivity|vm_compute; discriminate|reflexivity|].
  exists c'. split; [exact E|exact Hs].
Defined.

Lemma activate_noDevice_witness :
  exists c', activate inOslo ClientUser RandomizeServerSelection (sampleEnv false None false 0)
               (idle desktopEnv) = Ret (true, c')
  /\ m_state c' = StateConnecting /\ m_activationQueue c' = [].
Proof.
  destruct (activate_noDevice inOslo RandomizeServerSelection (sampleEnv false None false 0)
    (idle desktopEnv) (sampleServer (qs "oslo"))) as (c' & E & Hs & _ & _ & Hq & _);
    [vm_compute; discriminate|vm_compute; reflexivity..|].
  exists c'. split; [exact E|]. split; [exact Hs|exact Hq].
Defined.

Definition throughRome : ServerData.ServerData :=
  ServerData.mkServerData true (qs "no") (qs "Norway") (qs "Oslo") (qs "it") (qs "Italy") (qs "Rome")
    [] [] [] [] [].

Lemma switch_reconnect_witness :
  exists c1 c2, switchServers throughRome desktopEnv (confirming desktopEnv) = Ret (true, c1)
  /\ disconnected desktopEnv c1
     = activateInternal DoNotForceDNSPort RandomizeServerSelection ClientUser desktopEnv c2
  /\ ServerData.m_entryCityName (m_serverData c2) = qs "Rome".
Proof.
  destruct (switch_reconnect throughRome desktopEnv (confirming desktopEnv)) as [Hfull _];
    [vm_compute; reflexivity|vm_compute; discriminate|vm_compute; reflexivity|].
  destruct Hfull as (c1 & signals & E & _ & _ & _ & _ & _ & Hd);
    [reflexivity|vm_compute; discriminate|].
  destruct (Hd desktopEnv) as (c2 & Ed & _ & _ & _ & _ & Hc). exists c1, c2.
  split; [exact E|]. split; [|exact Hc]. rewrite Ed.
  replace (m_initiator (confirming desktopEnv)) with ClientUser by (vm_compute; reflexivity).
  reflexivity.
Defined.

Definition mobileEnv : Env := sampleEnv true sampleDevice false 0.

(** A connection asked for on a mobile platform, then taken down while the platform
    asks for permission. *)
Definition takenDown : Controller :=
  next mobileEnv Disconnected (next mobileEnv (Deactivate ClientUser) (confirming mobileEnv)).

Lemma mobile_timeout_undefined_witness :
  handle mobileEnv HandshakeTimer (next mobileEnv StartHandshakeTimer takenDown) = Undefined.
Proof.
  destruct (mobile_timeout_undefined mobileEnv takenDown) as (_ & c1 & E & _ & Hu);
    [reflexivity|vm_compute; reflexivity|reflexivity|vm_compute; reflexivity|].
  unfold next at 1. rewrite E. exact Hu.
Defined.

Definition connectedOnMobile : Controller :=
  next mobileEnv (Connected (Some (qs "oslo"))) (confirming mobileEnv).

Lemma localeChanged_drops_witness :
  exists c', handle (sampleEnv true sampleDevice false 2000) LocaleChanged connectedOnMobile
             = Ret (tt, c')
  /\ m_state c' = StateConnectionError.
Proof.
  destruct (localeChanged_drops (sampleEnv true sampleDevice false 2000) connectedOnMobile
    Server.emptyServer) as (c' & E & Hs & _);
    [vm_compute; reflexivity|vm_compute; discriminate|vm_compute; reflexivity|vm_compute; discriminate
    |reflexivity|vm_compute; reflexivity|reflexivity|].
  exists c'. split; [exact E|exact Hs].
Defined.

End ControllerProofs.
