(* ===== verification/PingHelper.v ===== *)
(** * Pings through the tunnel

    Model of [src/src/pinghelper.cpp] and [.h]: while the tunnel is up a ping is
    sent every second, and the last 32 of them are kept in a circular buffer that
    the statistics (latency, deviation, maximum, loss) are computed from. The
    buffer is shown to be a window on the log of all the pings of the session,
    however long it lasts and although the sequence number has 16 bits. *)
From Stdlib Require Import ZArith Lia Ascii String SpecFloat.
From stdpp Require Import base numbers list gmap strings.
From S2P Require Import Prelude.
From S2P Require Import QHostAddress.
From S2P Require Import QString.
From S2P Require Import QtTextModel.

Local Open Scope Z_scope.
Local Open Scope wg_scope.

(** ** Double-precision numbers *)

Definition double : Type := spec_float.

Definition doubleOfZ (z : Z) : double := binary_normalize 53 1024 z 0 false.
Definition doubleDiv : double -> double -> double := SFdiv 53 1024.
Definition doubleSqrt : double -> double := SFsqrt 53 1024.

(** The conversion to an integer, towards zero. *)
Definition doubleToZ (d : double) : Z :=
  match d with
  | S754_finite s m e =>
      let v := if 0 <=? e then Z.pos m * 2 ^ e else Z.pos m / 2 ^ (- e) in
      if s then - v else v
  | _ => 0
  end.

Module PingHelper.

(** ** Data *)

Definition PING_STATS_WINDOW : Z := 32.
Definition PING_TIMEOUT : Z := 1000.

Record PingSendData : Type := mkPingSendData {
  timestamp : Z;
  latency_ : Z;
  sequence : Z;
}.

#[export] Instance PingSendData_eta : Eta PingSendData := fun d =>
  mkPingSendData (timestamp d) (latency_ d) (sequence d).

(** The three senders [start] tries, in this order. *)
Inductive Sender : Type := PlatformPingSender | DnsPingSender | DummyPingSender.

Inductive Effect : Type :=
| CreateSender (s : Sender) (source : QHostAddress)
| DeleteSender (s : Sender)
| SendPing (gateway : QHostAddress) (seq : Z)
| PingSentAndReceived (msec : Z).

(** [m_pingTimer] says whether the timer runs. *)
Record PingHelper : Type := mkPingHelper {
  m_gateway : QHostAddress;
  m_source : QHostAddress;
  m_sequence : Z;
  m_pingData : list PingSendData;
  m_pingTimer : bool;
  m_pingSender : option Sender;
}.

#[export] Instance PingHelper_eta : Eta PingHelper := fun h =>
  mkPingHelper (m_gateway h) (m_source h) (m_sequence h) (m_pingData h) (m_pingTimer h)
    (m_pingSender h).

(** The constructor of [PingSendData]. *)
Definition emptyData : PingSendData := mkPingSendData (-1) (-1) 0.

Definition construct : PingHelper :=
  mkPingHelper NullHost NullHost 0 (replicate (Z.to_nat PING_STATS_WINDOW) emptyData) false None.

(** ** Operations *)

(** [senderValid] is [isValid()]: whether the operating system let the sender
    have its socket. *)
Definition start `{QHostAddressText} (senderValid : Sender -> QHostAddress -> bool)
    (serverGateway deviceAddress : chars) (h : PingHelper) : PingHelper * list Effect :=
  let source := hostOfString (section0 "/" deviceAddress) in
  let create s := [CreateSender s source] in
  let '(sender, effects) :=
    if senderValid PlatformPingSender source then (PlatformPingSender, create PlatformPingSender)
    else if senderValid DnsPingSender source then
      (DnsPingSender,
       create PlatformPingSender ++ DeleteSender PlatformPingSender :: create DnsPingSender)
    else
      (DummyPingSender,
       create PlatformPingSender ++ DeleteSender PlatformPingSender :: create DnsPingSender
         ++ DeleteSender DnsPingSender :: create DummyPingSender) in
  (h <| m_gateway := hostOfString serverGateway |> <| m_source := source |>
     <| m_pingSender := Some sender |> <| m_sequence := 0 |>
     <| m_pingData := map (fun _ => emptyData) (m_pingData h) |>
     <| m_pingTimer := true |>, effects).

Definition stop (h : PingHelper) : PingHelper * list Effect :=
  (h <| m_pingSender := None |> <| m_pingTimer := false |>,
   match m_pingSender h with Some s => [DeleteSender s] | None => [] end).

(** The slot on the timer; without a sender, a null pointer. *)
Definition nextPing (now : Z) (h : PingHelper) : Outcome (PingHelper * list Effect) :=
  let index := Z.to_nat (m_sequence h mod PING_STATS_WINDOW) in
  let data := mkPingSendData now (-1) (m_sequence h) in
  match m_pingSender h with
  | None => Undefined
  | Some _ =>
      Ret (h <| m_pingData := <[index := data]> (m_pingData h) |>
             <| m_sequence := u16 (m_sequence h + 1) |>,
           [SendPing (m_gateway h) (m_sequence h)])
  end.

(** The slot on an answer, whose sequence number has 16 bits. *)
Definition pingReceived (now seq : Z) (h : PingHelper) : Outcome (PingHelper * list Effect) :=
  let index := Z.to_nat (seq mod PING_STATS_WINDOW) in
  match m_pingData h !! index with
  | None => Undefined
  | Some d =>
      if sequence d =? seq then
        let rtt := now - timestamp d in
        Ret (h <| m_pingData := <[index := d <| latency_ := rtt |>]> (m_pingData h) |>,
             [PingSentAndReceived rtt])
      else Ret (h, [])
  end.

(** ** Statistics *)

Definition answered (d : PingSendData) : bool := 0 <=? latency_ d.

Definition latencies (l : list PingSendData) : list Z := map latency_ (List.filter answered l).

Definition sumZ (l : list Z) : Z := foldr Z.add 0 l.

Definition latency (h : PingHelper) : Z :=
  let recvCount := Z.of_nat (length (latencies (m_pingData h))) in
  let totalMsec := sumZ (latencies (m_pingData h)) in
  if recvCount <=? 0 then 0
  else u32 ((totalMsec + recvCount ÷ 2) ÷ recvCount).

Definition stddev (h : PingHelper) : Z :=
  let recvCount := Z.of_nat (length (latencies (m_pingData h))) in
  let average := latency h in
  let totalVariance :=
    sumZ (map (fun x => (average - x) * (average - x)) (latencies (m_pingData h))) in
  if recvCount <=? 0 then 0
  else u32 (doubleToZ (doubleSqrt (doubleDiv (doubleOfZ totalVariance) (doubleOfZ recvCount)))).

Definition maxStep (maxRtt : Z) (d : PingSendData) : Z :=
  if latency_ d <? 0 then maxRtt
  else if (maxRtt <? latency_ d) && (latency_ d <? 2 ^ 32 - 1) then latency_ d
  else maxRtt.

Definition maximum (h : PingHelper) : Z := foldl maxStep 0 (m_pingData h).

(** A ping without an answer that cannot be in flight any more. *)
Definition lost (now : Z) (d : PingSendData) : bool :=
  negb (answered d) && (0 <? timestamp d) && (timestamp d <? now - PING_TIMEOUT).

(** The numbers the loop of [loss] counts: the pings sent and the answers. *)
Definition lossStep (now : Z) (counts : Z * Z) (d : PingSendData) : Z * Z :=
  if 0 <=? latency_ d then (counts.1 + 1, counts.2 + 1)
  else if (0 <? timestamp d) && (timestamp d <? now - PING_TIMEOUT)
  then (counts.1 + 1, counts.2)
  else counts.

Definition lossCounts (now : Z) (l : list PingSendData) : Z * Z := foldl (lossStep now) (0, 0) l.

Definition loss (now : Z) (h : PingHelper) : double :=
  let '(sendCount, recvCount) := lossCounts now (m_pingData h) in
  if sendCount <=? 0 then doubleOfZ 0
  else doubleDiv (doubleOfZ (sendCount - recvCount)) (doubleOfZ PING_STATS_WINDOW).

(** ** Sessions *)

(** What happens between [start] and [stop]. *)
Inductive Input : Type := Tick (now : Z) | Reply (now seq : Z).

Definition step (i : Input) (h : PingHelper) : Outcome (PingHelper * list Effect) :=
  match i with
  | Tick now => nextPing now h
  | Reply now seq => pingReceived now seq h
  end.

Fixpoint run (l : list Input) (h : PingHelper) : Outcome (PingHelper * list Effect) :=
  match l with
  | [] => Ret (h, [])
  | i :: l => r <~ step i h ;; r' <~ run l r.1 ;; Ret (r'.1, r.2 ++ r'.2)
  end.

(** ** The log of a session

    The abstract state: every ping sent since [start], oldest first, with the time
    of its answer. [k] is the position of a ping in the log; its sequence number is
    [k] modulo [2^16]. *)
Record Ping : Type := mkPing { p_sent : Z; p_rtt : option Z }.

Definition count (log : list Ping) : Z := Z.of_nat (length log).

(** The last 32 pings. *)
Definition window (log : list Ping) : list Ping := drop (length log - 32) log.

(** The ping an answer belongs to: the latest one with its sequence number, unless
    it has left the window. *)
Definition credited (seq : Z) (log : list Ping) : option nat :=
  let k := count log - 1 - (count log - 1 - seq) mod 2 ^ 16 in
  if (0 <=? k) && (count log - 32 <=? k) then Some (Z.to_nat k) else None.

Definition logStep (i : Input) (log : list Ping) : list Ping * list Z :=
  match i with
  | Tick now => (log ++ [mkPing now None], [])
  | Reply now seq =>
      match credited seq log with
      | None => (log, [])
      | Some k =>
          match log !! k with
          | None => (log, [])
          | Some p => (<[k := mkPing (p_sent p) (Some (now - p_sent p))]> log, [now - p_sent p])
          end
      end
  end.

Fixpoint logRun (l : list Input) (log : list Ping) : list Ping * list Z :=
  match l with
  | [] => (log, [])
  | i :: l => let r := logStep i log in let r' := logRun l r.1 in (r'.1, r.2 ++ r'.2)
  end.

(** Every answer is to a sequence number already used in the session. *)
Fixpoint legitimate (l : list Input) (sent : Z) : Prop :=
  match l with
  | [] => True
  | Tick _ :: l => legitimate l (sent + 1)
  | Reply _ seq :: l => 0 <= seq < 2 ^ 16 /\ seq < sent /\ legitimate l sent
  end.

(** The round-trip times of a list of pings; a negative one, from a clock that was
    set back, counts as no answer. *)
Definition rtts (l : list Ping) : list Z :=
  omap (fun p => match p_rtt p with Some r => if 0 <=? r then Some r else None | None => None end) l.

(** How many pings of a list have been without an answer for longer than the timeout. *)
Definition losses (now : Z) (l : list Ping) : Z :=
  Z.of_nat (length (List.filter (fun p =>
    negb (match p_rtt p with Some r => 0 <=? r | None => false end)
    && (0 <? p_sent p) && (p_sent p <? now - PING_TIMEOUT)) l)).

(** The mean of a list, rounded to the nearest integer. *)
Definition roundedMean (l : list Z) : Z :=
  if decide (l = []) then 0
  else (2 * sumZ l + Z.of_nat (length l)) / (2 * Z.of_nat (length l)).

(** The largest element of a list that an [unsigned int] represents. *)
Definition maxBelow (bound : Z) (l : list Z) : Z :=
  foldr Z.max 0 (List.filter (fun x => x <? bound) l).

(** The buffer holds, at each index, the latest ping whose position is that index
    modulo 32. *)
Definition entryOf (k : Z) (p : Ping) : PingSendData :=
  mkPingSendData (p_sent p) (default (-1) (p_rtt p)) (u16 k).

Definition slotPing (n : Z) (i : Z) : Z := n - 1 - (n - 1 - i) mod 32.

Definition slotData (log : list Ping) (i : nat) : PingSendData :=
  let k := slotPing (count log) (Z.of_nat i) in
  if 0 <=? k then
    match log !! Z.to_nat k with Some p => entryOf k p | None => emptyData end
  else emptyData.

Definition represents (h : PingHelper) (log : list Ping) : Prop :=
  m_sequence h = u16 (count log) /\ m_pingSender h <> None /\
  m_pingData h = map (slotData log) (seq 0 32).

(** *** One step *)

Ltac div_lia := Z.to_euclidean_division_equations; lia.

Lemma slotPing_spec (n i : Z) :
  0 <= i < 32 -> n - 32 <= slotPing n i < n /\ slotPing n i mod 32 = i.
Proof. unfold slotPing. intros Hi. div_lia. Qed.

Lemma slotPing_unique (n i k : Z) :
  0 <= i < 32 -> n - 32 <= k < n -> k mod 32 = i -> slotPing n i = k.
Proof. unfold slotPing. intros. div_lia. Qed.

Lemma credited_slot (seq : Z) (log : list Ping) :
  0 <= seq < 2 ^ 16 -> seq < count log ->
  credited seq log =
    let k := slotPing (count log) (seq mod 32) in
    if u16 k =? seq then Some (Z.to_nat k) else None.
Proof.
  intros Hs Hc. simpl. unfold credited, u16.
  pose proof (slotPing_spec (count log) (seq mod 32) ltac:(div_lia)) as [H1 H2].
  set (k := slotPing (count log) (seq mod 32)) in *.
  destruct (Z.eqb_spec (k mod 2 ^ 16) seq) as [E|E].
  - assert (count log - 1 - (count log - 1 - seq) mod 2 ^ 16 = k) as -> by div_lia.
    assert (0 <= k) by div_lia.
    destruct (Z.leb_spec 0 k), (Z.leb_spec (count log - 32) k); simpl; lia || done.
  - case_match eqn:Hb; [|done]. zbool. exfalso. apply E.
    assert (count log - 1 - (count log - 1 - seq) mod 2 ^ 16 = k) as <-; [|div_lia].
    subst k. symmetry. apply slotPing_unique; div_lia.
Qed.

Lemma buffer_lookup (log : list Ping) (i : nat) :
  (i < 32)%nat -> map (slotData log) (seq 0 32) !! i = Some (slotData log i).
Proof.
  intros Hi. change (map ?f ?l) with (f <$> l). rewrite list_lookup_fmap, lookup_seq_lt by lia.
  done.
Qed.

(** Two buffers that agree on the 32 indexes, after a change at one of them. *)
Lemma buffer_insert (log log' : list Ping) (i : nat) (d : PingSendData) :
  (i < 32)%nat -> slotData log' i = d ->
  (forall j, (j < 32)%nat -> j <> i -> slotData log' j = slotData log j) ->
  <[i := d]> (map (slotData log) (seq 0 32)) = map (slotData log') (seq 0 32).
Proof.
  intros Hi Hd Hj. apply list_eq. intros j. destruct (decide (j < 32)%nat) as [Hlt|Hge].
  - rewrite (buffer_lookup log' j) by lia. destruct (decide (j = i)) as [->|Hne].
    + rewrite list_lookup_insert_eq, Hd; [done|by rewrite length_map, length_seq].
    + rewrite list_lookup_insert_ne, buffer_lookup by lia. by rewrite Hj.
  - rewrite !lookup_ge_None_2; [done| |]; rewrite ?length_insert, length_map, length_seq; lia.
Qed.

Lemma slotData_tick (log : list Ping) (p : Ping) (i : nat) :
  (i < 32)%nat ->
  slotData (log ++ [p]) i =
    if decide (Z.of_nat i = count log mod 32) then entryOf (count log) p else slotData log i.
Proof.
  intros Hi. unfold slotData.
  assert (count (log ++ [p]) = count log + 1) as ->
    by (unfold count; rewrite length_app; simpl; lia).
  pose proof (slotPing_spec (count log) (Z.of_nat i) ltac:(lia)) as [H1 H2].
  assert (0 <= count log) by (unfold count; lia).
  case_decide as Hd.
  - rewrite (slotPing_unique _ _ (count log)) by (try lia; div_lia).
    destruct (Z.leb_spec 0 (count log)); [|lia].
    unfold count. rewrite Nat2Z.id, lookup_app_r, Nat.sub_diag by lia. done.
  - rewrite (slotPing_unique (count log + 1) _ (slotPing (count log) (Z.of_nat i)))
      by (try lia; div_lia).
    destruct (Z.leb_spec 0 (slotPing (count log) (Z.of_nat i))); [|done].
    rewrite lookup_app_l by (unfold count in *; lia). done.
Qed.

Lemma tick_step (h : PingHelper) (log : list Ping) (now : Z) :
  represents h log ->
  exists h', step (Tick now) h = Ret (h', [SendPing (m_gateway h) (m_sequence h)]) /\
    represents h' (logStep (Tick now) log).1 /\ m_gateway h' = m_gateway h.
Proof.
  intros (Hs & Hp & Hd). unfold step, nextPing.
  destruct (m_pingSender h) as [snd|] eqn:Es; [|done].
  eexists. split; [done|]. split; [|done]. unfold represents; simpl. rewrite Es, Hs, Hd.
  assert (count (log ++ [mkPing now None]) = count log + 1) as Hc
    by (unfold count; rewrite length_app; simpl; lia).
  split; [rewrite Hc; unfold u16; div_lia|]. split; [done|].
  assert (0 <= count log) by (unfold count; lia). unfold PING_STATS_WINDOW, u16.
  apply buffer_insert; [div_lia| |].
  - rewrite slotData_tick by div_lia. rewrite decide_True by div_lia. done.
  - intros j Hj Hne. rewrite slotData_tick by lia. rewrite decide_False by div_lia. done.
Qed.

Lemma slotData_update (log : list Ping) (k : nat) (p : Ping) (i : nat) :
  (i < 32)%nat -> (k < length log)%nat ->
  slotData (<[k := p]> log) i =
    if decide (slotPing (count log) (Z.of_nat i) = Z.of_nat k) then entryOf (Z.of_nat k) p
    else slotData log i.
Proof.
  intros Hi Hk. unfold slotData, count. rewrite length_insert. fold (count log).
  set (q := slotPing (count log) (Z.of_nat i)). case_decide as Hd.
  - rewrite Hd. destruct (Z.leb_spec 0 (Z.of_nat k)); [|lia].
    rewrite Nat2Z.id, list_lookup_insert_eq by lia. done.
  - destruct (Z.leb_spec 0 q); [|done]. rewrite list_lookup_insert_ne by lia. done.
Qed.

Lemma reply_step (h : PingHelper) (log : list Ping) (now seq : Z) :
  represents h log -> 0 <= seq < 2 ^ 16 -> seq < count log ->
  exists h', step (Reply now seq) h =
      Ret (h', map PingSentAndReceived (logStep (Reply now seq) log).2) /\
    represents h' (logStep (Reply now seq) log).1 /\ m_gateway h' = m_gateway h.
Proof.
  intros (Hs & Hp & Hd) Hseq Hlt. unfold step, pingReceived, PING_STATS_WINDOW.
  set (i := Z.to_nat (seq mod 32)). assert (i < 32)%nat as Hi by (subst i; div_lia).
  rewrite Hd, buffer_lookup by done. unfold logStep. rewrite credited_slot by done.
  assert (Z.of_nat i = seq mod 32) as Hz by (subst i; div_lia).
  pose proof (slotPing_spec (count log) (seq mod 32) ltac:(div_lia)) as [H1 H2].
  cbv zeta. set (k := slotPing (count log) (seq mod 32)) in *.
  assert (0 <= k) as H0 by div_lia.
  destruct (log !! Z.to_nat k) as [p|] eqn:Ek.
  2: { apply lookup_ge_None_1 in Ek. unfold count in *. lia. }
  assert (slotData log i = entryOf k p) as Hsd.
  { unfold slotData. rewrite Hz. fold k. destruct (Z.leb_spec 0 k); [|lia]. by rewrite Ek. }
  rewrite Hsd. unfold entryOf at 1. cbn [sequence].
  destruct (Z.eqb_spec (u16 k) seq) as [E|E].
  - rewrite Ek. eexists. split; [done|]. split; [|done]. unfold represents.
    cbn [fst]. unfold count. rewrite length_insert. fold (count log).
    split; [done|]. split; [done|]. apply lookup_lt_Some in Ek as Hk.
    refine (buffer_insert log _ i _ Hi _ _).
    + rewrite slotData_update, Hz by done. fold k. rewrite decide_True by lia.
      unfold entryOf; simpl. by rewrite Z2Nat.id.
    + intros j Hj Hne. rewrite slotData_update by done. rewrite decide_False; [done|].
      pose proof (slotPing_spec (count log) (Z.of_nat j) ltac:(lia)) as [_ Hjk].
      intros Heq. rewrite Heq, Z2Nat.id, H2, <- Hz in Hjk by done. lia.
  - eexists. split; [done|]. split; [|done]. simpl. done.
Qed.

(** *** Sessions *)

Lemma logStep_count (i : Input) (log : list Ping) :
  count (logStep i log).1 = match i with Tick _ => count log + 1 | Reply _ _ => count log end.
Proof.
  unfold count. destruct i as [now|now seq]; simpl.
  - rewrite length_app. simpl. lia.
  - repeat case_match; simpl; rewrite ?length_insert; done.
Qed.

Definition repliesOf (l : list Effect) : list Z :=
  omap (fun e => match e with PingSentAndReceived r => Some r | _ => None end) l.

Lemma repliesOf_map (l : list Z) : repliesOf (map PingSentAndReceived l) = l.
Proof. induction l as [|x l IH]; [done|]. simpl. by rewrite IH. Qed.

Lemma run_represents (l : list Input) (h : PingHelper) (log : list Ping) :
  represents h log -> legitimate l (count log) ->
  exists h' effects, run l h = Ret (h', effects) /\
    repliesOf effects = (logRun l log).2 /\ represents h' (logRun l log).1.
Proof.
  revert h log. induction l as [|i l IH]; intros h log Hr Hl; [by exists h, []|].
  assert (exists h' e, step i h = Ret (h', e) /\ repliesOf e = (logStep i log).2 /\
            represents h' (logStep i log).1) as (h1 & e1 & Hs & He & Hr1).
  { destruct i as [now|now seq].
    - destruct (tick_step h log now Hr) as (h' & ? & ? & _). by eexists _, _.
    - destruct Hl as (? & ? & _).
      destruct (reply_step h log now seq Hr) as (h' & ? & ? & _); [done..|].
      eexists _, _. split; [done|]. split; [apply repliesOf_map|done]. }
  destruct (IH h1 (logStep i log).1 Hr1) as (h2 & e2 & Hrun & He2 & Hr2).
  { rewrite logStep_count. destruct i; [done|]. by destruct Hl as (_ & _ & ?). }
  exists h2, (e1 ++ e2). simpl. rewrite Hs. simpl. rewrite Hrun. simpl.
  split; [done|]. split; [|done]. unfold repliesOf. rewrite omap_app. by f_equal.
Qed.

Lemma start_represents `{QHostAddressText} valid gateway address (h : PingHelper) :
  length (m_pingData h) = 32%nat -> represents (start valid gateway address h).1 [].
Proof.
  intros Hl. unfold start.
  assert (map (fun _ => emptyData) (m_pingData h) = map (slotData []) (seq 0 32)) as E.
  { transitivity (replicate 32 emptyData); [|by vm_compute].
    rewrite <- Hl. generalize (m_pingData h) as l. induction l as [|x l IH]; [done|].
    simpl. by rewrite IH. }
  repeat case_match; unfold represents; simpl in *; simplify_eq; rewrite E; done.
Qed.

(** *** Statistics over the window *)

Definition forget (d : PingSendData) : PingSendData := d <| sequence := 0 |>.

Lemma positions (n : Z) :
  map (fun i => slotPing n (Z.of_nat i)) (seq 0 32) ≡ₚ seqZ (n - 32) 32.
Proof.
  apply NoDup_Permutation.
  - apply NoDup_fmap_2_strong; [|apply NoDup_seq].
    intros i j Hi Hj E. apply elem_of_seq in Hi, Hj.
    pose proof (slotPing_spec n (Z.of_nat i) ltac:(lia)) as [_ H1].
    pose proof (slotPing_spec n (Z.of_nat j) ltac:(lia)) as [_ H2]. rewrite E in H1. lia.
  - apply NoDup_seqZ.
  - intros k. rewrite elem_of_seqZ, list_elem_of_fmap. split.
    + intros (i & -> & Hi). apply elem_of_seq in Hi.
      pose proof (slotPing_spec n (Z.of_nat i) ltac:(lia)). lia.
    + intros Hk. exists (Z.to_nat (k mod 32)). split.
      * symmetry. apply slotPing_unique; div_lia.
      * apply elem_of_seq. div_lia.
Qed.

(** The buffer, up to order and sequence numbers, is the window and fillers. *)
Lemma buffer_window (log : list Ping) :
  map forget (map (slotData log) (seq 0 32)) ≡ₚ
  replicate (32 - length log) emptyData ++ map (entryOf 0) (window log).
Proof.
  set (at_ k := forget (if 0 <=? k then
         match log !! Z.to_nat k with Some p => entryOf k p | None => emptyData end
         else emptyData)).
  transitivity (map at_ (map (fun i => slotPing (count log) (Z.of_nat i)) (seq 0 32))).
  { rewrite !map_map. done. }
  rewrite (positions (count log)).
  match goal with |- ?a ≡ₚ ?b => enough (a = b) as -> by done end. apply list_eq. intros j.
  change (map at_ ?l) with (at_ <$> l). rewrite list_lookup_fmap.
  unfold count, window.
  destruct (decide (j < 32)%nat) as [Hj|Hj].
  2: { rewrite lookup_seqZ_ge by lia. symmetry. apply lookup_ge_None_2.
       rewrite length_app, length_replicate, length_map, length_drop. lia. }
  rewrite lookup_seqZ_lt by lia. simpl. unfold at_.
  destruct (decide (j < 32 - length log)%nat) as [Hlt|Hge].
  - rewrite lookup_app_l by (rewrite length_replicate; lia).
    rewrite lookup_replicate_2 by lia.
    destruct (Z.leb_spec 0 (Z.of_nat (length log) - 32 + Z.of_nat j)); [lia|done].
  - rewrite lookup_app_r by (rewrite length_replicate; lia). rewrite length_replicate.
    change (map ?f ?l) with (f <$> l). rewrite list_lookup_fmap, lookup_drop.
    destruct (Z.leb_spec 0 (Z.of_nat (length log) - 32 + Z.of_nat j)); [|lia].
    replace (length log - 32 + (j - (32 - length log)))%nat
      with (Z.to_nat (Z.of_nat (length log) - 32 + Z.of_nat j)) by lia.
    destruct (log !! _) as [p|] eqn:E; [done|]. apply lookup_ge_None_1 in E. lia.
Qed.

(** *** The statistics are computed from the window *)

Lemma Permutation_filterb {A} (f : A -> bool) (l1 l2 : list A) :
  l1 ≡ₚ l2 -> List.filter f l1 ≡ₚ List.filter f l2.
Proof.
  induction 1 as [|x l1 l2 _ IH|x y l|l1 l2 l3 _ IH1 _ IH2]; simpl;
    [done| | |by etrans]; repeat case_match; try done; try by constructor.
Qed.

Lemma sumZ_perm (l1 l2 : list Z) : l1 ≡ₚ l2 -> sumZ l1 = sumZ l2.
Proof. unfold sumZ. induction 1; simpl; lia. Qed.

Lemma filterb_map {A B} (f : A -> B) (p : B -> bool) (l : list A) :
  List.filter p (map f l) = map f (List.filter (fun x => p (f x)) l).
Proof. induction l as [|x l IH]; [done|]. simpl. rewrite IH. by case_match. Qed.

Lemma filterb_replicate {A} (p : A -> bool) (n : nat) (x : A) :
  p x = false -> List.filter p (replicate n x) = [].
Proof. intros E. induction n; simpl; [done|]. by rewrite E. Qed.

(** A predicate that ignores sequence numbers and fillers selects, from the buffer,
    what it selects from the window. *)
Lemma buffer_filter (p : PingSendData -> bool) (log : list Ping) :
  (forall d, p (forget d) = p d) -> p emptyData = false ->
  map forget (List.filter p (map (slotData log) (seq 0 32))) ≡ₚ
  map (entryOf 0) (List.filter (fun x => p (entryOf 0 x)) (window log)).
Proof.
  intros Hf He. rewrite <- filterb_map.
  transitivity (List.filter p (map forget (map (slotData log) (seq 0 32)))).
  { rewrite (filterb_map forget p).
    match goal with |- map _ ?a ≡ₚ map _ ?b => enough (a = b) as -> by done end.
    apply List.filter_ext. intros d. by rewrite Hf. }
  etrans; [apply Permutation_filterb, buffer_window|].
  rewrite List.filter_app, filterb_replicate by done. done.
Qed.

Lemma rtts_filter (l : list Ping) :
  map latency_ (map (entryOf 0) (List.filter (fun x => answered (entryOf 0 x)) l)) = rtts l.
Proof.
  unfold rtts. induction l as [|[t [r|]] l IH]; [done| |]; cbn; cbn in IH; [|exact IH].
  unfold answered at 1; cbn. case_match; cbn; by rewrite IH.
Qed.

Lemma latencies_window (h : PingHelper) (log : list Ping) :
  represents h log -> latencies (m_pingData h) ≡ₚ rtts (window log).
Proof.
  intros (_ & _ & Hd). unfold latencies. rewrite Hd.
  transitivity (map latency_ (map forget (List.filter answered (map (slotData log) (seq 0 32))))).
  { by rewrite map_map. }
  etrans; [exact (Permutation_map latency_ (buffer_filter answered log (fun _ => eq_refl) eq_refl))|].
  by rewrite rtts_filter.
Qed.

Lemma roundedMean_perm (l1 l2 : list Z) : l1 ≡ₚ l2 -> roundedMean l1 = roundedMean l2.
Proof.
  intros Hp. unfold roundedMean. rewrite (Permutation_length Hp), (sumZ_perm _ _ Hp).
  destruct (decide (l1 = [])) as [->|H1], (decide (l2 = [])) as [->|H2]; try done;
    first [apply Permutation_nil_l in Hp | apply Permutation_nil_r in Hp]; congruence.
Qed.

Lemma rtts_nonneg (l : list PingSendData) : Forall (fun x => 0 <= x) (latencies l).
Proof.
  unfold latencies, answered. apply Forall_map. apply List.Forall_forall.
  intros d Hd. apply List.filter_In in Hd as [_ Hd]. zbool. done.
Qed.

Lemma sumZ_nonneg (l : list Z) : Forall (fun x => 0 <= x) l -> 0 <= sumZ l.
Proof. unfold sumZ. induction 1; simpl; lia. Qed.

Lemma latency_mean (h : PingHelper) : latency h = u32 (roundedMean (latencies (m_pingData h))).
Proof.
  unfold latency, roundedMean.
  pose proof (sumZ_nonneg _ (rtts_nonneg (m_pingData h))) as Hs.
  destruct (latencies (m_pingData h)) as [|x l] eqn:E; [done|].
  set (c := Z.of_nat (length (x :: l))). set (t := sumZ (x :: l)) in *.
  assert (0 < c) as Hc by (subst c; simpl; lia).
  destruct (Z.leb_spec c 0); [lia|]. rewrite decide_False by done.
  do 1 f_equal. rewrite !Z.quot_div_nonneg by (try apply Z.add_nonneg_nonneg; try apply Z.quot_pos; lia).
  apply Z.div_unique_pos with (r := (2 * t + c) - 2 * c * ((t + c / 2) / c)).
  - Z.to_euclidean_division_equations. nia.
  - lia.
Qed.

Lemma maximum_latencies (h : PingHelper) :
  maximum h = maxBelow (2 ^ 32 - 1) (latencies (m_pingData h)).
Proof.
  unfold maximum.
  enough (forall l acc, 0 <= acc ->
            foldl maxStep acc l = Z.max acc (maxBelow (2 ^ 32 - 1) (latencies l))) as E.
  { rewrite E by lia. unfold maxBelow. induction (List.filter _ _); simpl; lia. }
  induction l as [|d l IH]; intros acc Ha; simpl.
  - unfold maxBelow, latencies; simpl. lia.
  - unfold maxStep at 2, latencies, answered. simpl.
    destruct (Z.ltb_spec (latency_ d) 0), (Z.leb_spec 0 (latency_ d)); try lia.
    + by rewrite IH.
    + unfold maxBelow. cbn [map List.filter].
      fold answered. fold (latencies l).
      destruct (Z.ltb_spec (latency_ d) (2 ^ 32 - 1)); simpl.
      * rewrite andb_true_r. destruct (Z.ltb_spec acc (latency_ d)); rewrite IH by lia;
          unfold maxBelow; lia.
      * rewrite andb_false_r. by rewrite IH.
Qed.

Lemma maxBelow_perm (b : Z) (l1 l2 : list Z) : l1 ≡ₚ l2 -> maxBelow b l1 = maxBelow b l2.
Proof.
  intros Hp. unfold maxBelow. apply (Permutation_filterb (fun x => x <? b)) in Hp.
  induction Hp; simpl; lia.
Qed.

Lemma lossCounts_spec (now : Z) (l : list PingSendData) :
  lossCounts now l =
    (Z.of_nat (length (List.filter answered l)) + Z.of_nat (length (List.filter (lost now) l)),
     Z.of_nat (length (List.filter answered l))).
Proof.
  unfold lossCounts.
  enough (forall l a b, foldl (lossStep now) (a, b) l =
    (a + (Z.of_nat (length (List.filter answered l))
          + Z.of_nat (length (List.filter (lost now) l))),
     b + Z.of_nat (length (List.filter answered l)))) as E by (rewrite E; f_equal; lia).
  clear l. induction l as [|d l IH]; intros a b; [by rewrite !Z.add_0_r|].
  assert (foldl (lossStep now) (a, b) (d :: l) = foldl (lossStep now) (lossStep now (a, b) d) l)
    as -> by done.
  unfold lossStep at 2. cbn [List.filter fst snd].
  change (lost now d) with
    (negb (answered d) && (0 <? timestamp d) && (timestamp d <? now - PING_TIMEOUT)).
  change (0 <=? latency_ d) with (answered d).
  destruct (answered d); cbn [negb andb].
  - rewrite IH. cbn [length]. rewrite Nat2Z.inj_succ. f_equal; lia.
  - destruct ((0 <? timestamp d) && (timestamp d <? now - PING_TIMEOUT));
      rewrite IH; cbn [length]; rewrite ?Nat2Z.inj_succ; f_equal; lia.
Qed.

Lemma lost_window (now : Z) (h : PingHelper) (log : list Ping) :
  represents h log ->
  Z.of_nat (length (List.filter (lost now) (m_pingData h))) = losses now (window log).
Proof.
  intros (_ & _ & Hd). rewrite Hd. unfold losses. f_equal.
  pose proof (buffer_filter (lost now) log (fun _ => eq_refl) eq_refl) as Hp.
  apply Permutation_length in Hp. rewrite !length_map in Hp. rewrite Hp. f_equal.
  apply List.filter_ext. intros [t [r|]]; done.
Qed.

(** The value of [loss]: the pings lost, over the size of the window. *)
Lemma loss_window (now : Z) (h : PingHelper) (log : list Ping) :
  represents h log ->
  loss now h = doubleDiv (doubleOfZ (losses now (window log))) (doubleOfZ PING_STATS_WINDOW).
Proof.
  intros Hr. unfold loss. rewrite lossCounts_spec, (lost_window _ _ _ Hr).
  assert (0 <= losses now (window log)) by (unfold losses; lia).
  destruct (Z.leb_spec (Z.of_nat (length (List.filter answered (m_pingData h)))
                        + losses now (window log)) 0) as [Hz|Hz].
  - assert (losses now (window log) = 0) as -> by lia. by vm_compute.
  - do 2 f_equal. lia.
Qed.

Lemma losses_bound (now : Z) (log : list Ping) : 0 <= losses now (window log) <= 32.
Proof.
  unfold losses. split; [lia|].
  match goal with |- context [List.filter ?p ?l] => pose proof (List.filter_length_le p l) as Hl end.
  unfold window in Hl at 2. rewrite length_drop in Hl. lia.
Qed.

(** *** Theorems *)

(** C17: a session of the ping helper computes its statistics from the last 32 pings
    it sent. For every sequence of ticks and answers, of whatever length (the
    sequence number wraps at 16 bits), in which answers come only to sequence
    numbers already used, the helper never fails; it announces exactly the
    round-trip times of the answers that come while their ping is one of the last
    32; [latency] is the mean round-trip time of those of the last 32 pings that
    were answered, rounded to the nearest integer, [maximum] their maximum, and
    [loss] the number of those lost over 32. *)
Theorem session_statistics `{QHostAddressText} (valid : Sender -> QHostAddress -> bool)
    (gateway address : chars) (h : PingHelper) (inputs : list Input) :
  length (m_pingData h) = 32%nat ->
  legitimate inputs 0 ->
  let log := (logRun inputs []).1 in
  exists h' effects,
    run inputs (start valid gateway address h).1 = Ret (h', effects) /\
    repliesOf effects = (logRun inputs []).2 /\
    latency h' = u32 (roundedMean (rtts (window log))) /\
    maximum h' = maxBelow (2 ^ 32 - 1) (rtts (window log)) /\
    (forall now, loss now h' =
       doubleDiv (doubleOfZ (losses now (window log))) (doubleOfZ 32)).
Proof.
  intros Hl Hi. simpl.
  destruct (run_represents inputs (start valid gateway address h).1 [])
    as (h' & effects & Hrun & He & Hr); [by apply start_represents|done|].
  exists h', effects. split; [done|]. split; [done|]. split_and!.
  - rewrite latency_mean. f_equal. by apply roundedMean_perm, latencies_window.
  - rewrite maximum_latencies. by apply maxBelow_perm, latencies_window.
  - intros now. by apply loss_window.
Qed.

(** Forty pings, the third answered at once and the last but one after 7 ms, in a
    session that started before the window. *)
Definition sampleInputs : list Input :=
  map (fun k => Tick (1000 * Z.of_nat k)) (seq 1 3) ++ [Reply 3005 2] ++
  map (fun k => Tick (1000 * Z.of_nat k)) (seq 4 37) ++ [Reply 40001 38; Reply 40002 2].

Lemma session_statistics_witness :
  let start' := (start (H := modelHosts) (fun _ _ => true) (qs "10.64.0.1") (qs "10.0.0.2/32")
                   construct).1 in
  exists h' effects,
    run sampleInputs start' = Ret (h', effects) /\
    repliesOf effects = [5; 1001] /\ latency h' = 1001 /\ maximum h' = 1001 /\
    losses 41500 (window (logRun sampleInputs []).1) = 31.
Proof.
  destruct (session_statistics (H := modelHosts) (fun _ _ => true) (qs "10.64.0.1")
              (qs "10.0.0.2/32") construct sampleInputs)
    as (h' & effects & H1 & H2 & H3 & H4 & H5).
  - reflexivity.
  - vm_compute. intuition discriminate.
  - exists h', effects. split; [exact H1|]. split; [rewrite H2; vm_compute; reflexivity|].
    split; [rewrite H3; vm_compute; reflexivity|].
    split; [rewrite H4; vm_compute; reflexivity|vm_compute; reflexivity].
Defined.

(** The latency shown to the user is the nearest integer to the mean of the
    round-trip times in the buffer, and lies between the smallest and the largest
    of them, as long as these fit an [unsigned int]. *)
Theorem latency_nearest (h : PingHelper) (lo hi : Z) :
  let l := latencies (m_pingData h) in
  let n := Z.of_nat (length l) in
  l <> [] -> hi < 2 ^ 32 -> Forall (fun x => lo <= x <= hi) l ->
  2 * sumZ l - n < 2 * n * latency h <= 2 * sumZ l + n /\ lo <= latency h <= hi.
Proof.
  intros l n Hne Hhi Hl. rewrite latency_mean. fold l. unfold roundedMean.
  rewrite decide_False by done. fold n.
  assert (0 < n) as Hn by (destruct l; [done|subst n; simpl; lia]).
  assert (n * lo <= sumZ l <= n * hi) as Hs.
  { subst n. clear -Hl. unfold sumZ. induction Hl; [simpl; lia|]. cbn [foldr length].
    rewrite Nat2Z.inj_succ. lia. }
  pose proof (sumZ_nonneg _ (rtts_nonneg (m_pingData h))) as H0. fold l in H0.
  assert (0 <= (2 * sumZ l + n) / (2 * n) <= hi) as Hr.
  { split; [apply Z.div_pos; lia|]. apply Z.lt_succ_r, Z.div_lt_upper_bound; nia. }
  unfold u32. rewrite Z.mod_small by lia.
  assert (lo <= (2 * sumZ l + n) / (2 * n)) by (apply Z.div_le_lower_bound; nia).
  pose proof (Z.mul_div_le (2 * sumZ l + n) (2 * n) ltac:(lia)).
  pose proof (Z.mul_succ_div_gt (2 * sumZ l + n) (2 * n) ltac:(lia)). lia.
Qed.

Lemma latency_nearest_witness :
  let h := construct <| m_pingData := [mkPingSendData 1 10 0; mkPingSendData 2 (-1) 1;
                                       mkPingSendData 3 13 2] |> in
  2 * 23 - 2 < 2 * 2 * latency h <= 2 * 23 + 2 /\ 10 <= latency h <= 13.
Proof.
  intros h. apply (latency_nearest h 10 13); [done|lia|].
  repeat constructor; simpl; lia.
Defined.

(** An answer to sequence number 0 that is still queued when the helper starts
    again is taken for an answer to a ping of the new session, with the whole time
    since the epoch as its round-trip time. *)
Lemma start_stale_reply `{QHostAddressText} valid gateway address (h : PingHelper) (now : Z) :
  length (m_pingData h) = 32%nat ->
  exists h', pingReceived now 0 (start valid gateway address h).1 =
    Ret (h', [PingSentAndReceived (now + 1)]).
Proof.
  intros Hl. pose proof (start_represents valid gateway address h Hl) as (_ & _ & Hd).
  unfold pingReceived. rewrite Hd. by eexists.
Qed.

(** Starting again without stopping leaves the sender of the first start behind. *)
Lemma restart_leaks `{QHostAddressText} valid gateway address (h : PingHelper) :
  let h1 := start valid gateway address h in
  let h2 := start valid gateway address h1.1 in
  let h3 := stop h2.1 in
  let created := List.filter (fun e => match e with CreateSender _ _ => true | _ => false end) in
  let deleted := List.filter (fun e => match e with DeleteSender _ => true | _ => false end) in
  length (created (h1.2 ++ h2.2 ++ h3.2)) = S (length (deleted (h1.2 ++ h2.2 ++ h3.2))).
Proof. unfold start, stop. repeat case_match; simpl in *; simplify_eq; done. Qed.

End PingHelper.
