(* ===== verification/ConnectionHealth.v ===== *)
(** * Health of the connection

    Model of [src/src/connectionhealth.cpp] and [.h]: it starts and stops the ping
    helper of PingHelper.v with the state of the controller, measures a baseline
    latency with DNS pings while the tunnel is down, classifies the connection once
    a second, and asks for a silent server switch when it is unstable. Every slot
    is a definition; what it calls outside itself is recorded, in order, in
    [effects]. *)
From Stdlib Require Import ZArith Lia Ascii String SpecFloat.
From stdpp Require Import base numbers list gmap strings.
From S2P Require Import Prelude.
From S2P Require Import QHostAddress.
From S2P Require Import QString.
From S2P Require Import QtTextModel.
From S2P Require Import PingHelper.
From S2P Require Import ControllerModel.

Local Open Scope Z_scope.
Local Open Scope wg_scope.

Module ConnectionHealth.

#[local] Existing Instance Controller.State_eq_dec.

(** ** Data *)

Definition PING_TIME_UNSTABLE : Z := 1000.
Definition PING_BASELINE_EWMA_DIVISOR : Z := 8.

(** The double nearest to 0.10. *)
Definition PING_LOSS_UNSTABLE_THRESHOLD : double := S754_finite false 7205759403792794 (-56).

Inductive ConnectionStability : Type := Stable | Unstable | NoSignal.

#[export] Instance ConnectionStability_eq_dec : EqDecision ConnectionStability.
Proof. solve_decision. Defined.

Inductive Effect : Type :=
| StabilityChanged | UnsettledChanged | PingReceived
| SilentSwitch | RefreshStatus
| PingEffect (e : PingHelper.Effect)
| DnsPingStop | DnsSendPing (seq : Z).

(** A timer is represented by whether it runs; [pendingStarts] counts the
    single-shot connections of [startActive] to the controller's status that have
    not been used yet. *)
Record ConnectionHealth : Type := mkConnectionHealth {
  m_stability : ConnectionStability;
  m_stabilityOverwritten : bool;
  m_settlingTimer : bool;
  m_noSignalTimer : bool;
  m_healthCheckTimer : bool;
  m_pingHelper : PingHelper.PingHelper;
  m_dnsPingTimer : bool;
  m_dnsPingSequence : Z;
  m_dnsPingTimestamp : Z;
  m_dnsPingLatency : Z;
  m_dnsPingInitialized : bool;
  m_suspended : bool;
  m_currentGateway : QHostAddress;
  m_deviceAddress : QHostAddress;
  pendingStarts : nat;
  effects : list Effect;
}.

#[export] Instance ConnectionHealth_eta : Eta ConnectionHealth := fun c =>
  mkConnectionHealth (m_stability c) (m_stabilityOverwritten c) (m_settlingTimer c)
    (m_noSignalTimer c) (m_healthCheckTimer c) (m_pingHelper c) (m_dnsPingTimer c)
    (m_dnsPingSequence c) (m_dnsPingTimestamp c) (m_dnsPingLatency c) (m_dnsPingInitialized c)
    (m_suspended c) (m_currentGateway c) (m_deviceAddress c) (pendingStarts c) (effects c).

Definition construct : ConnectionHealth :=
  mkConnectionHealth Stable false false false false PingHelper.construct false 0 0
    PING_TIME_UNSTABLE false false NullHost NullHost 0 [].

Inductive ApplicationState : Type :=
| ApplicationActive | ApplicationInactive | ApplicationHidden | ApplicationSuspended.

(** What the object reads from outside: the state of the controller, the sockets,
    the build, the clock and the random number generator. *)
Record Env : Type := mkEnv {
  controllerState : Controller.State;
  senderValid : PingHelper.Sender -> QHostAddress -> bool;
  dnsSenderValid : bool;
  mobile : bool;
  inProduction : bool;
  now : Z;
  random : Z;
}.

(** ** Operations *)

Section Operations.
Context `{QHostAddressText}.

Definition emit (e : Effect) (c : ConnectionHealth) : ConnectionHealth :=
  c <| effects := effects c ++ [e] |>.

Definition withPing (r : PingHelper.PingHelper * list PingHelper.Effect) (c : ConnectionHealth)
  : ConnectionHealth :=
  c <| m_pingHelper := r.1 |> <| effects := effects c ++ map PingEffect r.2 |>.

Definition stop (c : ConnectionHealth) : ConnectionHealth :=
  let c := withPing (PingHelper.stop (m_pingHelper c)) c in
  let c := c <| m_noSignalTimer := false |> <| m_healthCheckTimer := false |> in
  emit DnsPingStop c <| m_dnsPingTimer := false |>.

Definition startActive (e : Env) (status : Controller.ControllerStatus) (c : ConnectionHealth)
  : ConnectionHealth :=
  let isNotOnOrOnPartial :=
    negb (bool_decide (controllerState e = Controller.StateOn)) &&
    negb (bool_decide (controllerState e = Controller.StateOnPartial)) in
  if isNull (Controller.st_ipv4Gateway status) || isNotOnOrOnPartial then c
  else
    let c := c <| m_currentGateway := Controller.st_ipv4Gateway status |>
               <| m_deviceAddress := Controller.st_ipv4Address status |> in
    let c := withPing (PingHelper.start (senderValid e) (hostToString (m_currentGateway c))
                         (hostToString (m_deviceAddress c)) (m_pingHelper c)) c in
    let c := c <| m_noSignalTimer := true |> <| m_healthCheckTimer := true |> in
    emit DnsPingStop c <| m_dnsPingTimer := false |>.

Definition startIdle (e : Env) (c : ConnectionHealth) : ConnectionHealth :=
  let c := withPing (PingHelper.stop (m_pingHelper c)) c in
  let c := c <| m_noSignalTimer := false |> <| m_healthCheckTimer := false |> in
  let c := c <| m_dnsPingSequence := random e mod (2 ^ 16 - 1) |>
             <| m_dnsPingInitialized := false |>
             <| m_dnsPingLatency := PING_TIME_UNSTABLE |> in
  if dnsSenderValid e then
    let c := c <| m_dnsPingTimer := true |> <| m_dnsPingTimestamp := u64 (now e) |> in
    emit (DnsSendPing (m_dnsPingSequence c)) c
  else c.

Definition setStability (e : Env) (stability : ConnectionStability) (c : ConnectionHealth)
  : ConnectionHealth :=
  if m_stabilityOverwritten c then c
  else
    let c := if negb (bool_decide (controllerState e = Controller.StateOnPartial))
                && bool_decide (stability = Unstable)
             then emit SilentSwitch c else c in
    if bool_decide (m_stability c = stability) then c
    else emit StabilityChanged (c <| m_stability := stability |>).

Definition startUnsettledPeriod (c : ConnectionHealth) : ConnectionHealth :=
  emit UnsettledChanged c <| m_settlingTimer := true |>.

(** The slot on the controller's change of state. *)
Definition connectionStateChanged (e : Env) (c : ConnectionHealth) : ConnectionHealth :=
  let state := controllerState e in
  let c :=
    if negb (bool_decide (state = Controller.StateInitializing))
       && negb (bool_decide (state = Controller.StatePermissionRequired))
    then startUnsettledPeriod c else c in
  match state with
  | Controller.StateOnPartial | Controller.StateOn =>
      emit RefreshStatus (c <| pendingStarts := S (pendingStarts c) |>)
  | Controller.StateOff => startIdle e c
  | _ => stop c
  end.

(** The controller's signal [statusUpdated]. *)
Definition statusUpdated (e : Env) (status : Controller.ControllerStatus) (c : ConnectionHealth)
  : ConnectionHealth :=
  Nat.iter (pendingStarts c) (startActive e status) (c <| pendingStarts := 0%nat |>).

Definition healthCheckup (e : Env) (c : ConnectionHealth) : ConnectionHealth :=
  if negb (m_noSignalTimer c) then setStability e NoSignal c
  else if SFltb PING_LOSS_UNSTABLE_THRESHOLD (PingHelper.loss (now e) (m_pingHelper c)) then
    setStability e Unstable c
  else if m_dnsPingInitialized c
          && (u64 (PING_TIME_UNSTABLE + m_dnsPingLatency c)
                <? PingHelper.maximum (m_pingHelper c)) then
    setStability e Unstable c
  else setStability e Stable c.

(** The slot on the ping helper's signal. *)
Definition pingSentAndReceived (e : Env) (c : ConnectionHealth) : ConnectionHealth :=
  let c := c <| m_noSignalTimer := true |> <| m_healthCheckTimer := true |> in
  emit PingReceived (healthCheckup e c).

Definition updateDnsPingLatency (latency : Z) (c : ConnectionHealth) : ConnectionHealth :=
  if m_dnsPingInitialized c then
    let l := u64 (m_dnsPingLatency c * (PING_BASELINE_EWMA_DIVISOR - 1)) in
    let l := u64 (l + latency) in
    c <| m_dnsPingLatency := l / PING_BASELINE_EWMA_DIVISOR |>
  else c <| m_dnsPingLatency := latency |> <| m_dnsPingInitialized := true |>.

Definition dnsPingReceived (e : Env) (sequence : Z) (c : ConnectionHealth) : ConnectionHealth :=
  if negb (sequence =? m_dnsPingSequence c) then c
  else updateDnsPingLatency (u64 (now e - m_dnsPingTimestamp c)) c.

(** The slot on the DNS ping timer. *)
Definition dnsPingTimeout (e : Env) (c : ConnectionHealth) : ConnectionHealth :=
  let c := c <| m_dnsPingSequence := u16 (m_dnsPingSequence c + 1) |>
             <| m_dnsPingTimestamp := u64 (now e) |> in
  emit (DnsSendPing (m_dnsPingSequence c)) c.

(** The slot on [criticalPingError]. *)
Definition dnsCriticalPingError (c : ConnectionHealth) : ConnectionHealth :=
  c <| m_dnsPingInitialized := false |> <| m_dnsPingTimer := false |>.

Definition settlingTimeout (c : ConnectionHealth) : ConnectionHealth :=
  emit UnsettledChanged (c <| m_settlingTimer := false |>).

Definition applicationStateChanged (e : Env) (state : ApplicationState) (c : ConnectionHealth)
  : ConnectionHealth :=
  if negb (mobile e) then c
  else
    match state with
    | ApplicationActive =>
        if m_suspended c then
          let c := c <| m_suspended := false |> in
          let st := Controller.mkStatus false None (m_deviceAddress c) NullHost
                      (m_currentGateway c) NullHost 0 0 in
          startActive e st c
        else c
    | _ => if m_suspended c then c else stop (c <| m_suspended := true |>)
    end.

(** [None] is the end of the program ([qFatal]). *)
Definition overwriteStabilityForInspector (e : Env) (stability : ConnectionStability)
    (c : ConnectionHealth) : option ConnectionHealth :=
  if inProduction e then None
  else Some (emit StabilityChanged
               (c <| m_stabilityOverwritten := true |> <| m_stability := stability |>)).

(** The ping helper's timer and answers, with the slot on its signal. *)
Definition pingInput (e : Env) (i : PingHelper.Input) (c : ConnectionHealth)
  : Outcome ConnectionHealth :=
  r <~ PingHelper.step i (m_pingHelper c) ;;
  let c := withPing r c in
  Ret (foldl (fun c _ => pingSentAndReceived e c) c (PingHelper.repliesOf r.2)).

(** ** The object and its environment *)

Inductive Event : Type :=
| SettlingTimer | NoSignalTimer | HealthCheckTimer | PingTimer | DnsPingTimer
| PingAnswer (seq : Z) | DnsAnswer (seq : Z) | DnsCritical
| StateChange | Status (s : Controller.ControllerStatus)
| AppState (s : ApplicationState) | Overwrite (s : ConnectionStability).

(** A timer fires when it runs; the other events may come at any time, answers
    also when the sender they come from has been deleted, since they are queued. *)
Definition enabled (ev : Event) (e : Env) (c : ConnectionHealth) : bool :=
  match ev with
  | SettlingTimer => m_settlingTimer c
  | NoSignalTimer => m_noSignalTimer c
  | HealthCheckTimer => m_healthCheckTimer c
  | PingTimer => PingHelper.m_pingTimer (m_pingHelper c)
  | DnsPingTimer => m_dnsPingTimer c
  | PingAnswer seq | DnsAnswer seq => (0 <=? seq) && (seq <? 2 ^ 16)
  | Overwrite _ => negb (inProduction e)
  | _ => true
  end.

Definition handle (ev : Event) (e : Env) (c : ConnectionHealth) : Outcome ConnectionHealth :=
  match ev with
  | SettlingTimer => Ret (settlingTimeout c)
  | NoSignalTimer => Ret (c <| m_noSignalTimer := false |>)
  | HealthCheckTimer => Ret (healthCheckup e c)
  | PingTimer => pingInput e (PingHelper.Tick (now e)) c
  | PingAnswer seq => pingInput e (PingHelper.Reply (now e) seq) c
  | DnsPingTimer => Ret (dnsPingTimeout e c)
  | DnsAnswer seq => Ret (dnsPingReceived e seq c)
  | DnsCritical => Ret (dnsCriticalPingError c)
  | StateChange => Ret (connectionStateChanged e c)
  | Status s => Ret (statusUpdated e s c)
  | AppState s => Ret (applicationStateChanged e s c)
  | Overwrite s => match overwriteStabilityForInspector e s c with
                   | Some c => Ret c | None => Undefined
                   end
  end.

Inductive Reachable : ConnectionHealth -> Prop :=
| Reachable_init : Reachable construct
| Reachable_step c ev e c' :
    Reachable c -> enabled ev e c = true -> handle ev e c = Ret c' -> Reachable c'.

End Operations.

(** ** Invariant *)

Section Invariant.
Context `{QHostAddressText}.

(** Pings are sent only with a sender and under the health check, and never
    together with the idle DNS pings. *)
Definition pinging (c : ConnectionHealth) : Prop :=
  PingHelper.m_pingTimer (m_pingHelper c) = true ->
  PingHelper.m_pingSender (m_pingHelper c) <> None /\ m_healthCheckTimer c = true /\
  m_dnsPingTimer c = false.

Definition Inv (c : ConnectionHealth) : Prop :=
  length (PingHelper.m_pingData (m_pingHelper c)) = 32%nat /\ pinging c /\
  0 <= m_dnsPingLatency c < 2 ^ 64 /\ 0 <= m_dnsPingSequence c < 2 ^ 16.

Ltac split_inv HI :=
  destruct HI as (Hlen & Hp & Hlat & Hseq); refine (conj _ (conj _ (conj _ _)));
  [try exact Hlen | | try exact Hlat | try exact Hseq].

(** Operations that leave the fields of the invariant alone. *)
Definition sameCore (c c' : ConnectionHealth) : Prop :=
  m_pingHelper c' = m_pingHelper c /\ m_healthCheckTimer c' = m_healthCheckTimer c /\
  m_dnsPingTimer c' = m_dnsPingTimer c /\ m_dnsPingLatency c' = m_dnsPingLatency c /\
  m_dnsPingSequence c' = m_dnsPingSequence c.

Lemma sameCore_Inv (c c' : ConnectionHealth) : sameCore c c' -> Inv c -> Inv c'.
Proof. unfold Inv, pinging. intros (-> & -> & -> & -> & ->). done. Qed.

Lemma setStability_core (e : Env) s (c : ConnectionHealth) : sameCore c (setStability e s c).
Proof. unfold setStability, sameCore. repeat case_match; done. Qed.

Lemma healthCheckup_core (e : Env) (c : ConnectionHealth) : sameCore c (healthCheckup e c).
Proof. unfold healthCheckup. repeat case_match; apply setStability_core. Qed.

Lemma pingSentAndReceived_Inv (e : Env) (c : ConnectionHealth) :
  Inv c -> Inv (pingSentAndReceived e c).
Proof.
  intros HI. unfold pingSentAndReceived. cbv zeta.
  eapply (sameCore_Inv (healthCheckup e _)); [done|].
  eapply sameCore_Inv; [apply healthCheckup_core|]. split_inv HI.
  intros Ht. by destruct (Hp Ht) as (? & _ & ?).
Qed.

Lemma stop_Inv (c : ConnectionHealth) : Inv c -> Inv (stop c).
Proof. intros HI. by split_inv HI. Qed.

Lemma startActive_Inv (e : Env) status (c : ConnectionHealth) :
  Inv c -> Inv (startActive e status c).
Proof.
  intros HI. unfold startActive. case_match; [done|]. split_inv HI.
  - simpl. unfold PingHelper.start. repeat case_match; simpl; by rewrite length_map.
  - intros _. split_and!; try done. simpl. unfold PingHelper.start.
    repeat case_match; simpl; done.
Qed.

Lemma startIdle_Inv (e : Env) (c : ConnectionHealth) : Inv c -> Inv (startIdle e c).
Proof.
  intros HI. unfold startIdle.
  assert (0 <= random e mod (2 ^ 16 - 1) < 2 ^ 16)
    by (pose proof (Z.mod_pos_bound (random e) (2 ^ 16 - 1) ltac:(lia)); lia).
  case_match; split_inv HI; try done; unfold PING_TIME_UNSTABLE; simpl in *; lia.
Qed.

Lemma updateDnsPingLatency_range (l : Z) (c : ConnectionHealth) :
  0 <= l < 2 ^ 64 -> 0 <= m_dnsPingLatency (updateDnsPingLatency l c) < 2 ^ 64.
Proof.
  intros Hl. unfold updateDnsPingLatency. case_match; simpl; [|done].
  pose proof (u64_range (u64 (m_dnsPingLatency c * (PING_BASELINE_EWMA_DIVISOR - 1)) + l)).
  unfold PING_BASELINE_EWMA_DIVISOR in *. split; [apply Z.div_pos; lia|].
  apply Z.div_lt_upper_bound; lia.
Qed.

Lemma step_data (i : PingHelper.Input) (h : PingHelper.PingHelper) r :
  PingHelper.step i h = Ret r ->
  length (PingHelper.m_pingData r.1) = length (PingHelper.m_pingData h) /\
  PingHelper.m_pingTimer r.1 = PingHelper.m_pingTimer h /\
  PingHelper.m_pingSender r.1 = PingHelper.m_pingSender h.
Proof.
  destruct i; simpl; unfold PingHelper.nextPing, PingHelper.pingReceived;
    repeat case_match; intros; simplify_eq/=; by rewrite ?length_insert.
Qed.

Lemma pingInput_Inv (e : Env) i (c c' : ConnectionHealth) :
  Inv c -> pingInput e i c = Ret c' -> Inv c'.
Proof.
  unfold pingInput. intros HI. destruct (PingHelper.step i (m_pingHelper c)) as [r| |] eqn:E;
    simpl; try done. intros [= <-]. apply step_data in E as (E1 & E2 & E3).
  assert (Inv (withPing r c)) as HI'.
  { split_inv HI; [simpl; congruence|]. unfold pinging. simpl. by rewrite E2, E3. }
  revert HI'. generalize (withPing r c). induction (PingHelper.repliesOf r.2) as [|x l IH];
    intros d Hd; simpl; [done|]. by apply IH, pingSentAndReceived_Inv.
Qed.

Lemma connectionStateChanged_Inv (e : Env) (c : ConnectionHealth) :
  Inv c -> Inv (connectionStateChanged e c).
Proof.
  intros HI. unfold connectionStateChanged.
  set (d := if negb _ && _ then _ else c).
  assert (Inv d) as HI' by (subst d; case_match; [by eapply sameCore_Inv|done]).
  clearbody d. cbv zeta.
  case_match; auto using stop_Inv, startIdle_Inv; by eapply sameCore_Inv.
Qed.

Lemma statusUpdated_Inv (e : Env) s (c : ConnectionHealth) :
  Inv c -> Inv (statusUpdated e s c).
Proof.
  intros HI. unfold statusUpdated. induction (pendingStarts c) as [|n IH]; simpl.
  - by eapply sameCore_Inv.
  - by apply startActive_Inv.
Qed.

Lemma handle_Inv (ev : Event) (e : Env) (c c' : ConnectionHealth) :
  Inv c -> handle ev e c = Ret c' -> Inv c'.
Proof.
  intros HI. destruct ev; simpl; try (intros [= <-]).
  - by eapply sameCore_Inv.
  - by eapply sameCore_Inv.
  - by eapply sameCore_Inv; [apply healthCheckup_core|].
  - by apply pingInput_Inv.
  - split_inv HI; [done|apply u16_range].
  - by apply pingInput_Inv.
  - unfold dnsPingReceived. case_match; [done|].
    pose proof (updateDnsPingLatency_range (u64 (now e - m_dnsPingTimestamp c)) c (u64_range _)).
    unfold updateDnsPingLatency in *. case_match; split_inv HI; done.
  - split_inv HI. intros Ht. by destruct (Hp Ht) as (? & ? & _).
  - by apply connectionStateChanged_Inv.
  - by apply statusUpdated_Inv.
  - unfold applicationStateChanged. repeat case_match; auto using stop_Inv, startActive_Inv;
      first [apply startActive_Inv | apply stop_Inv]; by apply (sameCore_Inv c).
  - unfold overwriteStabilityForInspector. destruct (inProduction e); [done|].
    intros [= <-]. by apply (sameCore_Inv c).
Qed.

Lemma reachable_Inv (c : ConnectionHealth) : Reachable c -> Inv c.
Proof.
  induction 1 as [|c ev e c' _ IH _ Hh]; [|by eapply handle_Inv].
  split_and!; try done; simpl; unfold PING_TIME_UNSTABLE; lia.
Qed.

End Invariant.

(** ** Theorems *)

Section Theorems.
Context `{QHostAddressText}.

(** C22: the ping helper is never used without a sender and never indexed out of
    range. In every state the object can reach, pings are sent only under the
    health check and never together with the idle DNS pings, and every event that
    can come is handled: in particular no timer or queued answer, however late,
    meets a null sender. *)
Theorem reachable_handles (c : ConnectionHealth) :
  Reachable c ->
  (PingHelper.m_pingTimer (m_pingHelper c) = true ->
   m_healthCheckTimer c = true /\ m_dnsPingTimer c = false) /\
  (forall ev e, enabled ev e c = true -> exists c', handle ev e c = Ret c').
Proof.
  intros Hr. apply reachable_Inv in Hr as (Hlen & Hp & _ & _). split.
  { intros Ht. by destruct (Hp Ht) as (_ & ? & ?). }
  intros ev e He. destruct ev; simpl in *; try by eexists.
  - destruct (Hp He) as (Hs & _). unfold pingInput, PingHelper.step, PingHelper.nextPing.
    destruct (PingHelper.m_pingSender (m_pingHelper c)); [by eexists|done].
  - unfold pingInput, PingHelper.step, PingHelper.pingReceived.
    destruct (PingHelper.m_pingData (m_pingHelper c) !! _) as [d|] eqn:E.
    + case_match; by eexists.
    + apply lookup_ge_None_1 in E. rewrite Hlen in E. unfold PingHelper.PING_STATS_WINDOW in E.
      pose proof (Z.mod_pos_bound seq 32 ltac:(lia)). lia.
  - unfold overwriteStabilityForInspector. destruct (inProduction e); [done|by eexists].
Qed.

(** The comparison of the loss with 0.10, in double precision. *)
Lemma loss_threshold (k : Z) :
  0 <= k <= 32 ->
  SFltb PING_LOSS_UNSTABLE_THRESHOLD (doubleDiv (doubleOfZ k) (doubleOfZ 32)) = (4 <=? k).
Proof.
  intros Hk.
  assert (Forall (fun j => SFltb PING_LOSS_UNSTABLE_THRESHOLD
                    (doubleDiv (doubleOfZ j) (doubleOfZ 32)) = (4 <=? j)) (seqZ 0 33)) as Hall
    by by_decision.
  rewrite Forall_forall in Hall. apply Hall, elem_of_seqZ. lia.
Qed.

(** The verdict of a health check on the pings of the session. *)
Definition verdict (e : Env) (c : ConnectionHealth) (log : list PingHelper.Ping)
  : ConnectionStability :=
  if negb (m_noSignalTimer c) then NoSignal
  else if (4 <=? PingHelper.losses (now e) (PingHelper.window log))
          || (m_dnsPingInitialized c &&
              (PING_TIME_UNSTABLE + m_dnsPingLatency c
                 <? PingHelper.maxBelow (2 ^ 32 - 1) (PingHelper.rtts (PingHelper.window log))))
  then Unstable else Stable.

(** What a health check concludes from the pings of the session. Without an
    answer for four seconds there is no signal; otherwise the connection is
    unstable when at least four of the last 32 pings were lost, or when one of
    them took more than a second longer than the baseline; otherwise it is stable.
    An unstable connection asks for a silent switch at every check, except for a
    partial connection; a change is announced once; and an overwritten stability
    is left alone. *)
Theorem healthCheckup_spec (e : Env) (c : ConnectionHealth) (log : list PingHelper.Ping) :
  PingHelper.represents (m_pingHelper c) log ->
  0 <= m_dnsPingLatency c < 2 ^ 64 - PING_TIME_UNSTABLE ->
  m_stability (healthCheckup e c) =
    (if m_stabilityOverwritten c then m_stability c else verdict e c log) /\
  effects (healthCheckup e c) = effects c ++
    (if m_stabilityOverwritten c then []
     else (if bool_decide (verdict e c log = Unstable)
              && negb (bool_decide (controllerState e = Controller.StateOnPartial))
           then [SilentSwitch] else []) ++
          (if bool_decide (m_stability c = verdict e c log) then [] else [StabilityChanged])).
Proof.
  intros Hr Hb.
  assert (healthCheckup e c = setStability e (verdict e c log) c) as ->.
  { unfold healthCheckup, verdict. case_match; [done|].
    rewrite (PingHelper.loss_window _ _ _ Hr), loss_threshold
      by apply PingHelper.losses_bound.
    rewrite PingHelper.maximum_latencies,
      (PingHelper.maxBelow_perm _ _ _ (PingHelper.latencies_window _ _ Hr)).
    unfold u64. rewrite Z.mod_small by (unfold PING_TIME_UNSTABLE in *; lia).
    destruct (4 <=? _); [done|]. by destruct (_ && _). }
  generalize (verdict e c log) as v. intros v. unfold setStability.
  destruct (m_stabilityOverwritten c); [by rewrite app_nil_r|].
  rewrite andb_comm.
  destruct (bool_decide (v = Unstable) && _); simpl;
    case_bool_decide as E; simpl; rewrite <- ?app_assoc, ?app_nil_r; done.
Qed.

(** The baseline latency is a moving average. As long as nothing overflows, a
    sample never takes it outside the interval between its old value and the
    sample, and a latency [l] that stays the same is approached from any starting
    point within as many samples as the distance, up to at most 7 ms below. *)
Theorem baseline_average (c : ConnectionHealth) (l : Z) :
  m_dnsPingInitialized c = true ->
  0 <= m_dnsPingLatency c < 2 ^ 60 -> 0 <= l < 2 ^ 60 ->
  (let b := m_dnsPingLatency (updateDnsPingLatency l c) in
   Z.min (m_dnsPingLatency c) l <= b <= Z.max (m_dnsPingLatency c) l) /\
  (let b := m_dnsPingLatency
              (Nat.iter (Z.to_nat (Z.abs (m_dnsPingLatency c - l))) (updateDnsPingLatency l) c) in
   l - 7 <= b <= l).
Proof.
  assert (forall c, m_dnsPingInitialized c = true -> 0 <= m_dnsPingLatency c < 2 ^ 60 ->
            0 <= l < 2 ^ 60 ->
            m_dnsPingInitialized (updateDnsPingLatency l c) = true /\
            m_dnsPingLatency (updateDnsPingLatency l c) =
              (7 * m_dnsPingLatency c + l) / 8) as Hstep.
  { intros d Hd Hb Hl. unfold updateDnsPingLatency, PING_BASELINE_EWMA_DIVISOR, u64.
    rewrite Hd. simpl. split; [done|].
    rewrite (Z.mod_small (m_dnsPingLatency d * _)), Z.mod_small by lia. f_equal. lia. }
  intros Hi Hb Hl. split; [|cbv zeta].
  { destruct (Hstep c Hi Hb Hl) as [_ ->]. Z.to_euclidean_division_equations. lia. }
  enough (forall n d, m_dnsPingInitialized d = true -> 0 <= m_dnsPingLatency d < 2 ^ 60 ->
            l - 7 <= m_dnsPingLatency d <= l \/ Z.abs (m_dnsPingLatency d - l) <= Z.of_nat n ->
            l - 7 <= m_dnsPingLatency (Nat.iter n (updateDnsPingLatency l) d) <= l)
    as Hn by (apply Hn; [done|done|right; rewrite Z2Nat.id; lia]).
  clear c Hi Hb. induction n as [|n IH]; intros d Hi Hb Hd; [simpl; lia|].
  rewrite Nat.iter_succ_r. destruct (Hstep d Hi Hb Hl) as [Hi' He].
  apply IH; [done| |]; rewrite He; clear -Hb Hl Hd; Z.to_euclidean_division_equations; lia.
Qed.

Lemma healthCheckup_flags (e : Env) (c : ConnectionHealth) :
  m_noSignalTimer (healthCheckup e c) = m_noSignalTimer c /\
  m_stabilityOverwritten (healthCheckup e c) = m_stabilityOverwritten c.
Proof. unfold healthCheckup, setStability. repeat case_match; done. Qed.

(** The controller goes to [StateOff]. *)
Lemma stateOff_closed (e : Env) (c : ConnectionHealth) :
  controllerState e = Controller.StateOff ->
  let c1 := connectionStateChanged e c in
  m_stabilityOverwritten c1 = m_stabilityOverwritten c /\
  m_pingHelper c1 = (PingHelper.stop (m_pingHelper c)).1 /\
  m_noSignalTimer c1 = false /\ m_healthCheckTimer c1 = false.
Proof.
  intros He. unfold connectionStateChanged. rewrite He. simpl. unfold startIdle.
  destruct (dnsSenderValid e); done.
Qed.

(** An answer to a ping that is in the buffer restarts the timers. *)
Lemma answer_restarts (e : Env) (c : ConnectionHealth) (seq : Z) (d : PingHelper.PingSendData) :
  PingHelper.m_pingData (m_pingHelper c) !! Z.to_nat (seq mod 32) = Some d ->
  PingHelper.sequence d = seq ->
  exists c2, handle (PingAnswer seq) e c = Ret c2 /\
    m_noSignalTimer c2 = true /\ m_healthCheckTimer c2 = true /\
    m_stabilityOverwritten c2 = m_stabilityOverwritten c /\
    PingHelper.m_pingTimer (m_pingHelper c2) = PingHelper.m_pingTimer (m_pingHelper c).
Proof.
  intros Hd Hq. simpl.
  unfold pingInput, PingHelper.step, PingHelper.pingReceived, PingHelper.PING_STATS_WINDOW.
  rewrite Hd, (proj2 (Z.eqb_eq _ _) Hq). simpl. eexists. split; [reflexivity|].
  unfold pingSentAndReceived.
  match goal with |- context [healthCheckup e ?x] =>
    destruct (healthCheckup_flags e x) as [Hf1 Hf2];
    destruct (healthCheckup_core e x) as (Hc1 & Hc2 & _) end.
  split_and!; simpl; by rewrite ?Hf1, ?Hf2, ?Hc1, ?Hc2.
Qed.

Lemma expired_noSignal (e : Env) (c : ConnectionHealth) :
  m_noSignalTimer c = false -> m_stabilityOverwritten c = false ->
  m_stability (healthCheckup e c) = NoSignal.
Proof.
  intros Hn Ho. unfold healthCheckup, setStability. rewrite Hn, Ho. simpl.
  rewrite andb_false_r. by case_bool_decide.
Qed.

(** An answer that is still queued when the tunnel goes down starts the health
    check again. Answers are delivered through the event queue and the buffer is
    not cleared by [stop]; so after the controller has gone to [StateOff], such an
    answer restarts both timers although no ping is sent any more, and four seconds
    later the stability of the switched-off connection becomes [NoSignal]. *)
Theorem stale_answer_noSignal (e : Env) (c : ConnectionHealth) (seq : Z)
    (d : PingHelper.PingSendData) :
  controllerState e = Controller.StateOff -> m_stabilityOverwritten c = false ->
  0 <= seq < 2 ^ 16 ->
  PingHelper.m_pingData (m_pingHelper c) !! Z.to_nat (seq mod 32) = Some d ->
  PingHelper.sequence d = seq ->
  exists c1 c2 c3 c4,
    handle StateChange e c = Ret c1 /\
    PingHelper.m_pingTimer (m_pingHelper c1) = false /\
    m_noSignalTimer c1 = false /\ m_healthCheckTimer c1 = false /\
    (enabled (PingAnswer seq) e c1 = true /\ handle (PingAnswer seq) e c1 = Ret c2) /\
    (enabled NoSignalTimer e c2 = true /\ handle NoSignalTimer e c2 = Ret c3) /\
    (enabled HealthCheckTimer e c3 = true /\ handle HealthCheckTimer e c3 = Ret c4) /\
    PingHelper.m_pingTimer (m_pingHelper c4) = false /\ m_stability c4 = NoSignal.
Proof.
  intros He Ho Hs Hd Hq. destruct (stateOff_closed e c He) as (Ho1 & Hp1 & Hn1 & Hh1).
  set (c1 := connectionStateChanged e c) in *.
  destruct (answer_restarts e c1 seq d) as (c2 & E2 & Hn2 & Hh2 & Ho2 & Hp2);
    [by rewrite Hp1|done|].
  exists c1, c2, (c2 <| m_noSignalTimer := false |>),
    (healthCheckup e (c2 <| m_noSignalTimer := false |>)).
  destruct (healthCheckup_core e (c2 <| m_noSignalTimer := false |>)) as (Hc & _).
  rewrite Hc. split_and!; try done.
  - by rewrite Hp1.
  - simpl. apply andb_true_iff. split; [apply Z.leb_le|apply Z.ltb_lt]; lia.
  - simpl. by rewrite Hp2, Hp1.
  - apply expired_noSignal; [done|]. simpl. congruence.
Qed.

End Theorems.

(** ** Witnesses *)

Section Witnesses.
#[local] Existing Instance modelHosts.

Definition sampleEnv (s : Controller.State) (t : Z) : Env :=
  mkEnv s (fun _ _ => true) true false true t 7.

Definition sampleStatus : Controller.ControllerStatus :=
  Controller.mkStatus true None (modelHostOfString (qs "10.0.0.2")) NullHost
    (modelHostOfString (qs "10.64.0.1")) NullHost 0 0.

(** A connection that has been up for four pings. *)
Definition sampleUp : Outcome ConnectionHealth :=
  let e := sampleEnv Controller.StateOn in
  c <~ handle StateChange (e 0) construct ;;
  c <~ handle (Status sampleStatus) (e 10) c ;;
  c <~ handle PingTimer (e 1000) c ;;
  c <~ handle (PingAnswer 0) (e 1020) c ;;
  c <~ handle PingTimer (e 2000) c ;;
  c <~ handle PingTimer (e 3000) c ;;
  c <~ handle PingTimer (e 4000) c ;;
  handle PingTimer (e 5000) c.

Definition sampleUpState : ConnectionHealth :=
  match sampleUp with Ret c => c | _ => construct end.

Lemma reachable_handles_witness :
  exists c2, handle StateChange (sampleEnv Controller.StateOn 0) construct = Ret c2.
Proof.
  exact (proj2 (reachable_handles construct Reachable_init) StateChange
           (sampleEnv Controller.StateOn 0) eq_refl).
Defined.

(** Four of the five pings were lost. *)
Lemma healthCheckup_spec_witness :
  let e := sampleEnv Controller.StateOn 7000 in
  let inputs := [PingHelper.Tick 1000; PingHelper.Reply 1020 0; PingHelper.Tick 2000;
                 PingHelper.Tick 3000; PingHelper.Tick 4000; PingHelper.Tick 5000] in
  let log := (PingHelper.logRun inputs []).1 in
  verdict e sampleUpState log = Unstable /\
  m_stability (healthCheckup e sampleUpState) = Unstable /\
  effects (healthCheckup e sampleUpState) =
    effects sampleUpState ++ [SilentSwitch; StabilityChanged].
Proof.
  intros e inputs log. split; [vm_compute; reflexivity|].
  destruct (healthCheckup_spec e sampleUpState log) as [H1 H2].
  - split; [vm_compute; reflexivity|]. split; [vm_compute; discriminate|vm_compute; reflexivity].
  - vm_compute. split; [discriminate|reflexivity].
  - split; [rewrite H1; vm_compute; reflexivity|rewrite H2; f_equal; vm_compute; reflexivity].
Defined.

Lemma baseline_average_witness :
  let c := construct <| m_dnsPingInitialized := true |> in
  (900 - 7 <= m_dnsPingLatency (Nat.iter 100 (updateDnsPingLatency 900) c) <= 900) /\
  900 <= m_dnsPingLatency (updateDnsPingLatency 900 c) <= 1000.
Proof.
  intros c. destruct (baseline_average c 900) as [H1 H2]; [done|simpl; unfold PING_TIME_UNSTABLE; lia|lia|].
  split; [exact H2|exact H1].
Defined.

Lemma stale_answer_noSignal_witness :
  exists c1 c2,
    handle StateChange (sampleEnv Controller.StateOff 5001) sampleUpState = Ret c1 /\
    handle (PingAnswer 4) (sampleEnv Controller.StateOff 5001) c1 = Ret c2.
Proof.
  destruct (stale_answer_noSignal (sampleEnv Controller.StateOff 5001) sampleUpState 4
              (PingHelper.mkPingSendData 5000 (-1) 4))
    as (c1 & c2 & c3 & c4 & H1 & _ & _ & _ & [_ H2] & _);
    [reflexivity|vm_compute; reflexivity|lia|vm_compute; reflexivity|reflexivity|].
  exists c1, c2. split; [exact H1|exact H2].
Defined.

End Witnesses.

End ConnectionHealth.
