(* ===== verification/Tasks.v ===== *)
(** * Tasks and their scheduler

    Model of [src/src/utils/taskscheduler.cpp], [taskfunction.cpp] and [task.h]. The scheduler runs one task at a time, in the order in which they
    were scheduled; a task is a script of the calls its [run] makes on the
    scheduler, which may complete it, schedule others or delete the queue while
    [maybeRunTask] is still on the stack. The scheduler is shown to implement a
    transition system of a queue with one server, from which its guarantees are
    derived by rule induction. *)
From Stdlib Require Import ZArith Lia.
From stdpp Require Import base numbers list relations.
From S2P Require Import Prelude.

Local Open Scope Z_scope.
Local Open Scope wg_scope.

(** ** Tasks *)

Inductive DeletePolicy : Type := Deletable | NonDeletable | Reschedulable.

#[export] Instance DeletePolicy_eq_dec : EqDecision DeletePolicy.
Proof. solve_decision. Defined.

(** A task is known by its address. [script] is what [run] does before it returns;
    a task whose script has no [Complete] completes later. *)
Inductive Task : Type := mkTask (id : nat) (script : list Action)
with Action : Type :=
| Complete
| Schedule (t : Task)
| DeleteTasks (forced : bool) (policy : nat -> DeletePolicy).

Definition id (t : Task) : nat := match t with mkTask i _ => i end.
Definition script (t : Task) : list Action := match t with mkTask _ l => l end.

(** [TaskFunction]: the callback, then [completed]. *)
Definition TaskFunction (i : nat) (callback : list Action) : Task :=
  mkTask i (callback ++ [Complete]).

(** The number of tasks in a task, itself and those its script schedules. *)
Fixpoint size (t : Task) : nat :=
  match t with
  | mkTask _ l =>
      S ((fix go (l : list Action) : nat :=
            match l with [] => O | a :: l => (sizeA a + go l)%nat end) l)
  end
with sizeA (a : Action) : nat :=
  match a with Schedule t => size t | _ => O end.

Definition sizes (l : list Task) : nat := foldr (fun t n => size t + n)%nat O l.
Definition sizesA (l : list Action) : nat := foldr (fun a n => sizeA a + n)%nat O l.

Module TaskScheduler.

(** ** State *)

(** What happens to the tasks: [Dropped] is a deletion from the queue, [Deferred]
    the removal of a task that is scheduled again by a timer. *)
Inductive Entry : Type :=
| Scheduled (i : nat) | Run (i : nat) | Completed (i : nat)
| Cancelled (i : nat) | Dropped (i : nat) | Deferred (i : nat).

(** [pending] are the tasks held by the single-shot timers of [deleteTasks]. [m_paused] is
    an [int] that is counted up and down by one, and stays far from its bounds. *)
Record TaskScheduler : Type := mkTaskScheduler {
  m_running_task : option Task;
  m_tasks : list Task;
  m_paused : Z;
  pending : list Task;
  log : list Entry;
}.

#[export] Instance TaskScheduler_eta : Eta TaskScheduler := fun s =>
  mkTaskScheduler (m_running_task s) (m_tasks s) (m_paused s) (pending s) (log s).

Definition construct : TaskScheduler := mkTaskScheduler None [] 0 [] [].

Definition note (e : list Entry) (s : TaskScheduler) : TaskScheduler :=
  s <| log := log s ++ e |>.

(** ** Operations *)

Definition isRunning (i : nat) (s : TaskScheduler) : bool :=
  match m_running_task s with Some t => bool_decide (id t = i) | None => false end.

(** The part of [deleteTasks] that walks the queue: the tasks kept, those given to
    a timer, and the log. *)
Fixpoint purge (forced : bool) (policy : nat -> DeletePolicy) (l : list Task)
  : list Task * list Task * list Entry :=
  match l with
  | [] => ([], [], [])
  | t :: l =>
      let '(kept, deferred, entries) := purge forced policy l in
      if forced then (kept, deferred, Dropped (id t) :: entries)
      else
        match policy (id t) with
        | Deletable => (kept, deferred, Dropped (id t) :: entries)
        | NonDeletable => (t :: kept, deferred, entries)
        | Reschedulable => (kept, t :: deferred, Deferred (id t) :: entries)
        end
  end.

(** The effect of [deleteTasks] before it runs the next task. *)
Definition deleteQueued (forced : bool) (policy : nat -> DeletePolicy) (s : TaskScheduler)
  : TaskScheduler :=
  let '(kept, deferred, entries) := purge forced policy (m_tasks s) in
  let s := note entries (s <| m_tasks := kept |> <| pending := pending s ++ deferred |>) in
  match m_running_task s with
  | None => s
  | Some t =>
      if forced || bool_decide (policy (id t) = Deletable)
      then note [Cancelled (id t)] (s <| m_running_task := None |>)
      else s
  end.

(** The completion of the running task, before the next one runs: the connection to
    [completed] exists only while the task is the running one. *)
Definition finish (t : Task) (s : TaskScheduler) : TaskScheduler :=
  note [Completed (id t)] (s <| m_running_task := None |>).

(** [maybeRunTask]: the task it starts may complete or schedule others while it is
    run, which calls it again. *)
Fixpoint maybeRunTask (fuel : nat) (s : TaskScheduler) : Outcome TaskScheduler :=
  match m_running_task s, m_tasks s with
  | Some _, _ | _, [] => Ret s
  | None, t :: rest =>
      if 0 <? m_paused s then Ret s
      else
        match fuel with
        | O => OutOfFuel
        | S fuel =>
            let s := note [Run (id t)] (s <| m_running_task := Some t |> <| m_tasks := rest |>) in
            foldl (fun o a =>
              s <~ o ;;
              match a with
              | Complete =>
                  if isRunning (id t) s then maybeRunTask fuel (finish t s) else Ret s
              | Schedule t' =>
                  maybeRunTask fuel
                    (note [Scheduled (id t')] (s <| m_tasks := m_tasks s ++ [t'] |>))
              | DeleteTasks forced policy => maybeRunTask fuel (deleteQueued forced policy s)
              end) (Ret s) (script t)
        end
  end.

(** The bound is the number of tasks in the queue, counting those they schedule. *)
Definition runNext (s : TaskScheduler) : Outcome TaskScheduler :=
  maybeRunTask (sizes (m_tasks s)) s.

Definition scheduleTaskInternal (t : Task) (s : TaskScheduler) : Outcome TaskScheduler :=
  runNext (note [Scheduled (id t)] (s <| m_tasks := m_tasks s ++ [t] |>)).

Definition taskCompleted (s : TaskScheduler) : Outcome TaskScheduler :=
  match m_running_task s with
  | None => Undefined
  | Some t => runNext (finish t s)
  end.

Definition deleteTasksInternal (forced : bool) (policy : nat -> DeletePolicy) (s : TaskScheduler)
  : Outcome TaskScheduler := runNext (deleteQueued forced policy s).

Definition pause (s : TaskScheduler) : Outcome TaskScheduler :=
  Ret (s <| m_paused := m_paused s + 1 |>).

Definition resume (s : TaskScheduler) : Outcome TaskScheduler :=
  runNext (s <| m_paused := m_paused s - 1 |>).

(** [scheduleTaskNow]: the task is run beside the queue and deleted by its next
    completion; the result says whether there can be one, since the connection is
    made after [run] has returned. *)
Definition scheduleTaskNow (t : Task) (s : TaskScheduler) : Outcome (TaskScheduler * bool) :=
  s <~ foldl (fun o a =>
         s <~ o ;;
         match a with
         | Complete => Ret s
         | Schedule t' => scheduleTaskInternal t' s
         | DeleteTasks forced policy => deleteTasksInternal forced policy s
         end) (Ret s) (script t) ;;
  Ret (s, forallb (fun a => match a with Complete => false | _ => true end) (script t)).

(** What happens to the scheduler: a call from outside, the completion of a task
    that has been run, or a single-shot timer. *)
Inductive Input : Type :=
| Call (a : Action) | Pause | Resume | TaskCompletes (i : nat) | Timer.

(** A completion reaches the scheduler while the task is the running one. *)
Definition handle (i : Input) (s : TaskScheduler) : Outcome TaskScheduler :=
  match i with
  | Call Complete => Ret s
  | Call (Schedule t) => scheduleTaskInternal t s
  | Call (DeleteTasks forced policy) => deleteTasksInternal forced policy s
  | Pause => pause s
  | Resume => resume s
  | TaskCompletes i => if isRunning i s then taskCompleted s else Ret s
  | Timer =>
      match pending s with
      | [] => Ret s
      | t :: rest => scheduleTaskInternal t (s <| pending := rest |>)
      end
  end.

Fixpoint run (l : list Input) (s : TaskScheduler) : Outcome TaskScheduler :=
  match l with
  | [] => Ret s
  | i :: l => s <~ handle i s ;; run l s
  end.

(** ** The abstract scheduler *)

(** One transition of a queue with a single server. *)
Inductive prim : TaskScheduler -> TaskScheduler -> Prop :=
| prim_schedule t s :
    prim s (note [Scheduled (id t)] (s <| m_tasks := m_tasks s ++ [t] |>))
| prim_start t rest s :
    m_running_task s = None -> m_tasks s = t :: rest -> m_paused s <= 0 ->
    prim s (note [Run (id t)] (s <| m_running_task := Some t |> <| m_tasks := rest |>))
| prim_finish t s :
    m_running_task s = Some t -> prim s (finish t s)
| prim_delete forced policy s :
    prim s (deleteQueued forced policy s)
| prim_pause z s : prim s (s <| m_paused := z |>)
| prim_timer t rest s :
    pending s = t :: rest -> prim s (s <| pending := rest |>).

(** The server does not rest while there is work. *)
Definition busy (s : TaskScheduler) : Prop :=
  m_running_task s = None -> m_tasks s = [] \/ 0 < m_paused s.

(** ** The scheduler implements it *)

Lemma size_eq (t : Task) : size t = S (sizesA (script t)).
Proof. destruct t as [i l]; simpl. f_equal. Qed.

Lemma sizes_app (l1 l2 : list Task) : sizes (l1 ++ l2) = (sizes l1 + sizes l2)%nat.
Proof. unfold sizes. induction l1; simpl; lia. Qed.

Lemma purge_sizes forced policy (l : list Task) : (sizes (purge forced policy l).1.1 <= sizes l)%nat.
Proof.
  induction l as [|t l IH]; [done|]. simpl.
  destruct (purge forced policy l) as [[kept deferred] entries]. simpl in IH.
  repeat case_match; simpl; lia.
Qed.

Lemma deleteQueued_tasks forced policy (s : TaskScheduler) :
  m_tasks (deleteQueued forced policy s) = (purge forced policy (m_tasks s)).1.1.
Proof.
  unfold deleteQueued. destruct (purge _ _ _) as [[kept deferred] entries].
  repeat case_match; done.
Qed.

Lemma finish_id (t t' : Task) (s : TaskScheduler) : id t = id t' -> finish t s = finish t' s.
Proof. unfold finish. by intros ->. Qed.

Lemma busy_running (s : TaskScheduler) (t : Task) : m_running_task s = Some t -> busy s.
Proof. unfold busy. by intros ->. Qed.

(** A call that leaves [s'], from [s], with a queue of at most [n] tasks. *)
Definition implements (s : TaskScheduler) (n : nat) (o : Outcome TaskScheduler) : Prop :=
  exists s', o = Ret s' /\ rtc prim s s' /\ busy s' /\ (sizes (m_tasks s') <= n)%nat.

Lemma implements_step (s s1 : TaskScheduler) (n m : nat) (o : Outcome TaskScheduler) :
  prim s s1 -> implements s1 n o -> (n <= m)%nat -> implements s m o.
Proof.
  intros Hp (s' & Ho & Hr & Hb & Hn) Hm. exists s'. split_and!; [done|by eapply rtc_l|done|lia].
Qed.

Lemma implements_trans (s s1 : TaskScheduler) (n m : nat) (o : Outcome TaskScheduler) :
  rtc prim s s1 -> implements s1 n o -> (n <= m)%nat -> implements s m o.
Proof.
  intros Hp (s' & Ho & Hr & Hb & Hn) Hm. exists s'. split_and!; [done|by etrans|done|lia].
Qed.

Lemma maybeRunTask_implements (fuel : nat) (s : TaskScheduler) :
  (sizes (m_tasks s) <= fuel)%nat ->
  implements s (sizes (m_tasks s)) (maybeRunTask fuel s).
Proof.
  revert s. induction fuel as [|fuel IH]; intros s Hf; simpl.
  all: destruct (m_running_task s) as [r|] eqn:Er;
    [exists s; split_and!; [done|done|by eapply busy_running|done]|].
  all: destruct (m_tasks s) as [|t rest] eqn:Et;
    [exists s; split_and!; [done|done|by left|by rewrite Et]|].
  all: destruct (Z.ltb_spec 0 (m_paused s));
    [exists s; split_and!; [done|done|by right|by rewrite Et]|].
  { simpl in Hf. rewrite size_eq in Hf. lia. }
  set (s1 := note [Run (id t)] (s <| m_running_task := Some t |> <| m_tasks := rest |>)).
  apply (implements_step s s1 (sizes rest + sizesA (script t)));
    [by apply prim_start| |simpl; rewrite size_eq; lia].
  assert (busy s1) as Hb by by eapply (busy_running _ t).
  assert (sizes (m_tasks s1) + sizesA (script t) <= fuel)%nat as Hf1
    by (simpl in *; rewrite size_eq in Hf; lia).
  change (sizes rest) with (sizes (m_tasks s1)).
  clearbody s1. clear Hf. revert s1 Hb Hf1.
  induction (script t) as [|a l IHl]; intros s1 Hb Hf1; [exists s1; split_and!; try done; simpl; lia|].
  simpl foldl. simpl in Hf1. cbn [sizesA foldr].
  match goal with |- context [foldl _ ?o l] =>
    assert (implements s1 (sizes (m_tasks s1) + sizeA a) o) as (s2 & -> & Hr2 & Hb2 & Hn2) end.
  { destruct a as [|t'|forced policy].
    - unfold isRunning. destruct (m_running_task s1) as [r|] eqn:Er1;
        [|exists s1; split_and!; try done; lia].
      case_bool_decide as Eid; [|exists s1; split_and!; try done; lia].
      rewrite <- (finish_id r t s1 Eid).
      eapply implements_step; [by apply prim_finish|apply IH; simpl; lia|simpl; lia].
    - eapply implements_step; [apply prim_schedule|apply IH|];
        simpl; rewrite sizes_app; simpl; simpl in Hf1; lia.
    - eapply implements_step; [apply prim_delete|apply IH|];
        rewrite deleteQueued_tasks; pose proof (purge_sizes forced policy (m_tasks s1)); lia. }
  eapply implements_trans; [exact Hr2|apply IHl; [done|]|]; fold (sizesA l); lia.
Qed.

Lemma runNext_implements (s : TaskScheduler) :
  implements s (sizes (m_tasks s)) (runNext s).
Proof. by apply maybeRunTask_implements. Qed.

Lemma handle_implements (i : Input) (s : TaskScheduler) :
  busy s -> exists s', handle i s = Ret s' /\ rtc prim s s' /\ busy s'.
Proof.
  intros Hb.
  assert (forall s1, rtc prim s s1 -> exists s', runNext s1 = Ret s' /\ rtc prim s s' /\ busy s')
    as Hnext.
  { intros s1 Hr. destruct (runNext_implements s1) as (s' & -> & Hr' & Hb' & _).
    exists s'. split_and!; [done|by etrans|done]. }
  destruct i as [[|t|forced policy]| | |i|]; simpl.
  - by exists s.
  - apply Hnext, rtc_once, prim_schedule.
  - apply Hnext, rtc_once, prim_delete.
  - eexists. split_and!; [done|apply rtc_once, prim_pause|].
    intros Hr. destruct (Hb Hr); [by left|right; simpl; lia].
  - apply Hnext, rtc_once, prim_pause.
  - unfold isRunning, taskCompleted. destruct (m_running_task s) as [r|] eqn:Er; [|by exists s].
    case_bool_decide; [|by exists s]. by apply Hnext, rtc_once, prim_finish.
  - destruct (pending s) as [|t rest] eqn:Ep; [by exists s|].
    apply Hnext. eapply rtc_l; [by eapply prim_timer|]. apply rtc_once, prim_schedule.
Qed.

(** ** What the log says *)

Definition scheduledIds (l : list Entry) : list nat :=
  omap (fun e => match e with Scheduled i => Some i | _ => None end) l.
Definition ranIds (l : list Entry) : list nat :=
  omap (fun e => match e with Run i => Some i | _ => None end) l.
Definition droppedIds (l : list Entry) : list nat :=
  omap (fun e => match e with Dropped i => Some i | _ => None end) l.
Definition deferredIds (l : list Entry) : list nat :=
  omap (fun e => match e with Deferred i => Some i | _ => None end) l.

(** The task that runs after a log in which tasks run one at a time and only the
    running task completes or is cancelled; [None] for any other log. *)
Definition replayStep (o : option (option nat)) (e : Entry) : option (option nat) :=
  match o, e with
  | Some None, Run i => Some (Some i)
  | Some (Some j), (Completed i | Cancelled i) => if decide (i = j) then Some None else None
  | _, (Run _ | Completed _ | Cancelled _) => None
  | _, _ => o
  end.

Definition replay (l : list Entry) : option (option nat) := foldl replayStep (Some None) l.

Lemma replay_app (l1 l2 : list Entry) :
  replay (l1 ++ l2) = foldl replayStep (replay l1) l2.
Proof. unfold replay. by rewrite foldl_app. Qed.

(** The entries of a purge. *)
Definition purgeEntry (e : Entry) : bool :=
  match e with Dropped _ | Deferred _ => true | _ => false end.

Lemma purge_entries forced policy (l : list Task) :
  forallb purgeEntry (purge forced policy l).2 = true.
Proof.
  induction l as [|t l IH]; [done|]. simpl.
  destruct (purge forced policy l) as [[kept deferred] entries]. simpl in IH.
  repeat case_match; simpl; done.
Qed.

Lemma purge_ids forced policy (l : list Task) :
  let '(kept, deferred, entries) := purge forced policy l in
  scheduledIds entries = [] /\ ranIds entries = [] /\ deferredIds entries = map id deferred /\
  sublist (map id kept) (map id l) /\
  map id l ≡ₚ map id kept ++ droppedIds entries ++ deferredIds entries.
Proof.
  induction l as [|t l IH]; simpl; [by split_and!; try constructor|].
  destruct (purge forced policy l) as [[kept deferred] entries].
  destruct IH as (H1 & H2 & H3 & H4 & H5).
  assert (id t :: map id l ≡ₚ map id kept ++ (id t :: droppedIds entries) ++ deferredIds entries)
    by (rewrite H5; simpl; by rewrite <- Permutation_middle).
  destruct forced; [|destruct (policy (id t))]; split_and!; try done; try by constructor.
  - simpl. by rewrite H3.
  - simpl. rewrite H5. by rewrite <- !Permutation_middle.
Qed.

Lemma replay_purge (l : list Entry) (o : option (option nat)) :
  forallb purgeEntry l = true -> foldl replayStep o l = o.
Proof.
  revert o. induction l as [|e l IH]; intros o Hl; [done|]. simpl in *.
  apply andb_true_iff in Hl as [He Hl]. rewrite IH by done.
  destruct e, o as [[]|]; done.
Qed.

Definition orderInv (s : TaskScheduler) : Prop :=
  sublist (ranIds (log s) ++ map id (m_tasks s)) (scheduledIds (log s)) /\
  scheduledIds (log s) ≡ₚ
    ranIds (log s) ++ map id (m_tasks s) ++ droppedIds (log s) ++ deferredIds (log s) /\
  (exists fired, deferredIds (log s) = fired ++ map id (pending s)) /\
  replay (log s) = Some (id <$> m_running_task s).

Lemma orderInv_construct : orderInv construct.
Proof. split_and!; try done. by exists []. Qed.

Ltac log_app :=
  unfold scheduledIds, ranIds, droppedIds, deferredIds in *; simpl;
  rewrite ?omap_app; simpl; rewrite ?app_nil_r.

Lemma shuffle (k x y d f : list nat) : (k ++ x ++ y) ++ d ++ f ≡ₚ k ++ (d ++ x) ++ f ++ y.
Proof.
  rewrite <- !app_assoc. apply Permutation_app_head.
  rewrite (Permutation_app_swap_app d x). apply Permutation_app_head.
  rewrite (app_assoc d f y). apply Permutation_app_comm.
Qed.

Lemma perm_snoc (a q r : list nat) (x : nat) :
  (a ++ q ++ r) ++ [x] ≡ₚ a ++ (q ++ [x]) ++ r.
Proof.
  rewrite <- !app_assoc. do 2 apply Permutation_app_head. apply Permutation_app_comm.
Qed.

(** The running task completes or is cancelled. *)
Lemma orderInv_stop (e : Entry) (t : Task) (s : TaskScheduler) :
  m_running_task s = Some t -> e = Completed (id t) \/ e = Cancelled (id t) ->
  orderInv s -> orderInv (note [e] (s <| m_running_task := None |>)).
Proof.
  intros Ht He (Hs & Hp & (fired & Hd) & Hr). split_and!.
  - destruct He as [-> | ->]; by log_app.
  - destruct He as [-> | ->]; by log_app.
  - exists fired. destruct He as [-> | ->]; by log_app.
  - simpl. rewrite replay_app, Hr, Ht. simpl.
    destruct He as [-> | ->]; simpl; by rewrite decide_True.
Qed.

Lemma orderInv_deleteQueued forced policy (s : TaskScheduler) :
  orderInv s -> orderInv (deleteQueued forced policy s).
Proof.
  intros (Hs & Hp & (fired & Hd) & Hr). unfold deleteQueued.
  pose proof (purge_ids forced policy (m_tasks s)) as Hids.
  pose proof (purge_entries forced policy (m_tasks s)) as Hent.
  destruct (purge forced policy (m_tasks s)) as [[kept deferred] entries].
  destruct Hids as (H1 & H2 & H3 & H4 & H5). simpl in Hent.
  set (s1 := note entries (s <| m_tasks := kept |> <| pending := pending s ++ deferred |>)).
  assert (orderInv s1) as Hs1.
  { split_and!.
    - log_app. rewrite H1, H2, !app_nil_r. etrans; [|exact Hs]. by apply sublist_app.
    - log_app. rewrite H1, H2, !app_nil_r. rewrite Hp, H5. apply Permutation_app_head, shuffle.
    - exists fired. log_app. rewrite Hd, H3, map_app. by rewrite app_assoc.
    - simpl. by rewrite replay_app, replay_purge. }
  clearbody s1. destruct (m_running_task s1) as [t|] eqn:Et; [|done]. case_match; [|done].
  apply (orderInv_stop _ t); [done|by right|done].
Qed.

Lemma prim_orderInv (s s' : TaskScheduler) : prim s s' -> orderInv s -> orderInv s'.
Proof.
  intros Hprim HI. destruct Hprim as [t s|t rest s Hn Ht _|t s Ht|forced policy s|z s|t rest s Ht].
  - destruct HI as (Hs & Hp & (fired & Hd) & Hr). split_and!.
    + log_app. rewrite map_app, app_assoc. by apply sublist_app.
    + log_app. rewrite map_app, Hp. simpl. apply perm_snoc.
    + exists fired. by log_app.
    + simpl. rewrite replay_app, Hr. by destruct (m_running_task s).
  - destruct HI as (Hs & Hp & (fired & Hd) & Hr). rewrite Ht in Hs, Hp. simpl in Hs, Hp.
    split_and!.
    + log_app. by rewrite <- app_assoc.
    + log_app. by rewrite <- app_assoc.
    + exists fired. by log_app.
    + simpl. by rewrite replay_app, Hr, Hn.
  - apply (orderInv_stop _ t); [done|by left|done].
  - by apply orderInv_deleteQueued.
  - done.
  - destruct HI as (Hs & Hp & (fired & Hd) & Hr). split_and!; try done.
    exists (fired ++ [id t]). simpl. rewrite Hd, Ht. simpl. by rewrite <- app_assoc.
Qed.

Lemma reachable_orderInv (s s' : TaskScheduler) :
  rtc prim s s' -> orderInv s -> orderInv s'.
Proof. induction 1; eauto using prim_orderInv. Qed.

Lemma run_implements (l : list Input) (s : TaskScheduler) :
  busy s -> exists s', run l s = Ret s' /\ rtc prim s s' /\ busy s'.
Proof.
  revert s. induction l as [|i l IH]; intros s Hb; [by exists s|].
  destruct (handle_implements i s Hb) as (s1 & E1 & Hr1 & Hb1).
  destruct (IH s1 Hb1) as (s2 & E2 & Hr2 & Hb2).
  exists s2. simpl. rewrite E1. simpl. split_and!; [done|by etrans|done].
Qed.


(** ** Theorems *)

(** C13: the scheduler terminates and implements a queue with a single server.
    Whatever is asked of it, in whatever order, and whatever the tasks do to the
    scheduler while they are run (completing, scheduling tasks that schedule
    others, deleting the queue), every call returns within the bound, is a sequence
    of transitions of the abstract scheduler, and does not leave it idle while a
    task waits, unless it is paused. *)
Theorem scheduler_refines (inputs : list Input) :
  exists s, run inputs construct = Ret s /\ rtc prim construct s /\ busy s.
Proof. apply run_implements. by left. Qed.

(** No task is lost, duplicated or overtaken. After any sequence of inputs, the
    tasks that were run followed by those in the queue are in the order in which
    they were scheduled; each scheduling is accounted for by exactly one run, place
    in the queue, deletion or deferral; the deferred tasks whose timer has not fired
    are those held by the timers; and tasks run one at a time: each is completed or
    cancelled, by itself only, before the next one starts. *)
Theorem scheduler_order (inputs : list Input) :
  exists s, run inputs construct = Ret s /\
    sublist (ranIds (log s) ++ map id (m_tasks s)) (scheduledIds (log s)) /\
    scheduledIds (log s) ≡ₚ
      ranIds (log s) ++ map id (m_tasks s) ++ droppedIds (log s) ++ deferredIds (log s) /\
    (exists fired, deferredIds (log s) = fired ++ map id (pending s)) /\
    replay (log s) = Some (id <$> m_running_task s).
Proof.
  destruct (run_implements inputs construct) as (s & E & Hr & _); [by left|].
  exists s. split; [done|]. apply (reachable_orderInv _ _ Hr), orderInv_construct.
Qed.

Definition withPolicy (policy : nat -> DeletePolicy) (p : DeletePolicy) (l : list Task)
  : list Task := List.filter (fun t => bool_decide (policy (id t) = p)) l.

Lemma purge_policy policy (l : list Task) :
  let '(kept, deferred, entries) := purge false policy l in
  kept = withPolicy policy NonDeletable l /\ deferred = withPolicy policy Reschedulable l /\
  droppedIds entries = map id (withPolicy policy Deletable l).
Proof.
  induction l as [|t l IH]; [done|]. simpl.
  destruct (purge false policy l) as [[kept deferred] entries]. destruct IH as (-> & -> & H).
  destruct (policy (id t)); simpl; split_and!; try done; by f_equal.
Qed.

Lemma purge_forced policy (l : list Task) :
  purge true policy l = ([], [], map (fun t => Dropped (id t)) l).
Proof. induction l as [|t l IH]; [done|]. simpl. by rewrite IH. Qed.

Lemma runNext_running (s : TaskScheduler) (r : Task) :
  m_running_task s = Some r -> runNext s = Ret s.
Proof. unfold runNext. intros E. destruct (sizes (m_tasks s)); simpl; by rewrite E. Qed.

(** [deleteTasks] while a task runs that may not be deleted leaves that task
    alone, keeps exactly the non-deletable tasks in their order, hands the
    reschedulable ones to timers, and deletes the others; [forceDeleteTasks] deletes
    the whole queue and cancels the running task whatever their policies, but not
    the tasks held by timers. *)
Theorem deleteTasks_spec (policy : nat -> DeletePolicy) (s : TaskScheduler) (r : Task) :
  m_running_task s = Some r -> policy (id r) <> Deletable ->
  (exists s', handle (Call (DeleteTasks false policy)) s = Ret s' /\
     m_running_task s' = Some r /\
     m_tasks s' = withPolicy policy NonDeletable (m_tasks s) /\
     pending s' = pending s ++ withPolicy policy Reschedulable (m_tasks s) /\
     droppedIds (log s') = droppedIds (log s) ++ map id (withPolicy policy Deletable (m_tasks s))) /\
  handle (Call (DeleteTasks true policy)) s =
    Ret (s <| m_running_task := None |> <| m_tasks := [] |>
           <| log := log s ++ map (fun t => Dropped (id t)) (m_tasks s) ++ [Cancelled (id r)] |>).
Proof.
  destruct s as [running queue paused pend lg]. simpl. intros -> Hp.
  unfold deleteTasksInternal, deleteQueued. simpl. rewrite purge_forced. split.
  - pose proof (purge_policy policy queue) as H.
    destruct (purge false policy queue) as [[kept deferred] entries].
    destruct H as (-> & -> & H). simpl. rewrite bool_decide_false by done.
    erewrite runNext_running by done. eexists. split; [done|]. split_and!; try done.
    simpl. unfold droppedIds in *. by rewrite omap_app, H.
  - simpl. unfold runNext, note; cbn. by rewrite app_nil_r, app_assoc.
Qed.

Definition samplePolicy (i : nat) : DeletePolicy :=
  match i with
  | 1 | 5 => Deletable
  | 0 | 2 | 4 => NonDeletable
  | _ => Reschedulable
  end%nat.

(** A task that schedules five others and a sentinel and deletes the queue. *)
Definition sampleTask : Task :=
  TaskFunction 0
    (map (fun i => Schedule (TaskFunction i [])) [1; 2; 3; 4; 5; 99]%nat
     ++ [DeleteTasks false samplePolicy]).

(** The sequence of [testtasks.cpp]. *)
Example sample_sequence :
  match run [Call (Schedule sampleTask); Timer; Timer] construct with
  | Ret s => ranIds (log s)
  | _ => []
  end = [0; 2; 4; 3; 99]%nat.
Proof. vm_compute. reflexivity. Qed.

Lemma deleteTasks_spec_witness :
  let s := mkTaskScheduler (Some (mkTask 0 [])) [mkTask 1 []; mkTask 2 []; mkTask 3 []] 0 [] [] in
  exists s', handle (Call (DeleteTasks false samplePolicy)) s = Ret s' /\
    m_tasks s' = [mkTask 2 []] /\ pending s' = [mkTask 3 []].
Proof.
  intros s. destruct (deleteTasks_spec samplePolicy s (mkTask 0 [])) as [(s' & H1 & _ & H2 & H3 & _) _];
    [reflexivity|vm_compute; discriminate|].
  exists s'. split; [exact H1|]. split; [rewrite H2|rewrite H3]; vm_compute; reflexivity.
Defined.

(** A task function started beside the queue is never deleted: it has completed
    before the connection to its completion is made. *)
Lemma scheduleTaskNow_function (i : nat) (s : TaskScheduler) :
  scheduleTaskNow (TaskFunction i []) s = Ret (s, false).
Proof. reflexivity. Qed.

End TaskScheduler.
