(* ===== verification/TaskGroup.v ===== *)
(** * Groups of tasks

    Model of [src/src/utils/taskgroup.cpp] and [.h]: the task that runs several
    others at the same time and completes when all of them have. *)
From Stdlib Require Import ZArith Lia.
From stdpp Require Import base numbers list.
From S2P Require Import Prelude.
From S2P Require Import Tasks.

Local Open Scope Z_scope.
Local Open Scope wg_scope.

Module TaskGroup.

(** A subtask: whether its [run] completes it before it returns, and its policy. *)
Record SubTask : Type := mkSubTask {
  sub_id : nat;
  synchronous : bool;
  sub_policy : DeletePolicy;
}.

(** [completions] counts the emissions of [completed]; [started] and [cancelled] are
    the subtasks [run] and [cancel] were called on. *)
Record TaskGroup : Type := mkTaskGroup {
  m_tasks : list SubTask;
  completions : nat;
  started : list nat;
  cancelled : list nat;
}.

#[export] Instance TaskGroup_eta : Eta TaskGroup := fun g =>
  mkTaskGroup (m_tasks g) (completions g) (started g) (cancelled g).

Definition construct (l : list SubTask) : TaskGroup := mkTaskGroup l 0 [] [].

Definition maybeComplete (g : TaskGroup) : TaskGroup :=
  match m_tasks g with
  | [] => g <| completions := S (completions g) |>
  | _ => g
  end.

(** [removeOne] on the list of pointers. *)
Fixpoint removeOne (i : nat) (l : list SubTask) : list SubTask :=
  match l with
  | [] => []
  | t :: l => if decide (sub_id t = i) then l else t :: removeOne i l
  end.

(** The slot on the completion of a subtask. *)
Definition subtaskCompleted (i : nat) (g : TaskGroup) : TaskGroup :=
  maybeComplete (g <| m_tasks := removeOne i (m_tasks g) |>).

(** The loop of [run]: a subtask that completes synchronously removes itself from
    the list the loop runs over, which invalidates the loop's iterator. *)
Fixpoint runSubtasks (l : list SubTask) (g : TaskGroup) : Outcome TaskGroup :=
  match l with
  | [] => Ret g
  | t :: l =>
      if synchronous t then Undefined
      else runSubtasks l (g <| started := started g ++ [sub_id t] |>)
  end.

Definition run (g : TaskGroup) : Outcome TaskGroup :=
  g <~ runSubtasks (m_tasks g) g ;; Ret (maybeComplete g).

Definition cancel (g : TaskGroup) : TaskGroup :=
  g <| cancelled := cancelled g ++ map sub_id (m_tasks g) |>.

Fixpoint countReschedulable (l : list SubTask) (n : nat) : option nat :=
  match l with
  | [] => Some n
  | t :: l =>
      match sub_policy t with
      | NonDeletable => None
      | Reschedulable => countReschedulable l (S n)
      | Deletable => countReschedulable l n
      end
  end.

Definition deletePolicy (g : TaskGroup) : DeletePolicy :=
  match countReschedulable (m_tasks g) 0 with
  | None => NonDeletable
  | Some n =>
      if (n =? length (m_tasks g))%nat then Reschedulable
      else if (n =? 0)%nat then Deletable
      else NonDeletable
  end.

(** ** Lemmas *)

Lemma runSubtasks_async (l : list SubTask) (g : TaskGroup) :
  Forall (fun t => synchronous t = false) l ->
  runSubtasks l g = Ret (g <| started := started g ++ map sub_id l |>).
Proof.
  intros Hl. revert g. induction Hl as [|t l Ht _ IH]; intros g; simpl.
  - rewrite app_nil_r. by destruct g.
  - rewrite Ht, IH. simpl. by rewrite <- app_assoc.
Qed.

Lemma removeOne_length (i : nat) (l : list SubTask) :
  i ∈ map sub_id l -> S (length (removeOne i l)) = length l.
Proof.
  induction l as [|t l IH]; simpl; intros Hi; [by apply not_elem_of_nil in Hi|].
  case_decide as E; [done|]. simpl. rewrite IH; [done|].
  apply elem_of_cons in Hi as [Hi|Hi]; [congruence|done].
Qed.

Lemma removeOne_in (i j : nat) (l : list SubTask) :
  j <> i -> j ∈ map sub_id l -> j ∈ map sub_id (removeOne i l).
Proof.
  intros Hne. induction l as [|t l IH]; simpl; [done|].
  intros Hj. apply elem_of_cons in Hj as [Hj|Hj]; case_decide; simpl;
    [congruence|rewrite Hj; left|done|right; by apply IH].
Qed.

Lemma completions_spec (order : list nat) (g : TaskGroup) :
  completions g = 0%nat -> m_tasks g <> [] ->
  NoDup order -> (forall i, i ∈ order -> i ∈ map sub_id (m_tasks g)) ->
  completions (foldl (fun g i => subtaskCompleted i g) g order) =
    if (length order =? length (m_tasks g))%nat then 1%nat else 0%nat.
Proof.
  revert g. induction order as [|i order IH]; intros g Hc Hne Hnd Hin.
  { simpl. rewrite Hc. by destruct (m_tasks g). }
  apply NoDup_cons in Hnd as [Hi Hnd].
  pose proof (removeOne_length i (m_tasks g) (Hin i (list_elem_of_here _ _))) as Hlen.
  assert (forall j, j ∈ order -> j ∈ map sub_id (removeOne i (m_tasks g))) as Hin'.
  { intros j Hj. apply removeOne_in; [congruence|]. apply Hin. by right. }
  simpl foldl. unfold subtaskCompleted at 2, maybeComplete. simpl.
  destruct (removeOne i (m_tasks g)) as [|t l] eqn:E.
  - assert (order = []) as ->.
    { destruct order as [|j order]; [done|]. by pose proof (Hin' j (list_elem_of_here _ _)) as
        ?%not_elem_of_nil. }
    simpl in *. rewrite <- Hlen. simpl. by rewrite Hc.
  - rewrite IH by done. simpl in *. by rewrite <- Hlen.
Qed.

(** ** Theorems *)

(** A group completes exactly once, when the last of its subtasks has. For
    subtasks that complete later, [run] starts each of them, in order; then,
    whatever the order in which subtasks complete, [completed] is emitted once if
    all have completed and not before; a group without subtasks completes at once. *)
Theorem group_completes (l : list SubTask) (order : list nat) :
  Forall (fun t => synchronous t = false) l ->
  NoDup order -> (forall i, i ∈ order -> i ∈ map sub_id l) ->
  exists g, run (construct l) = Ret g /\ started g = map sub_id l /\
    completions (foldl (fun g i => subtaskCompleted i g) g order) =
      if (length order =? length l)%nat then 1%nat else 0%nat.
Proof.
  intros Hl Hnd Hin. unfold run. simpl. rewrite runSubtasks_async by done. simpl.
  eexists. split; [done|]. destruct l as [|t l].
  - split; [done|]. destruct order as [|i order]; [done|].
    by pose proof (Hin i (list_elem_of_here _ _)) as ?%not_elem_of_nil.
  - split; [done|]. by rewrite completions_spec.
Qed.

Lemma group_completes_witness :
  let l := [mkSubTask 1 false Deletable; mkSubTask 2 false Reschedulable] in
  exists g, run (construct l) = Ret g /\
    completions (subtaskCompleted 2 g) = 0%nat /\
    completions (subtaskCompleted 1 (subtaskCompleted 2 g)) = 1%nat.
Proof.
  intros l.
  assert (forall i, i ∈ [2%nat; 1%nat] -> i ∈ map sub_id l) as Hin
    by (simpl; intros i; list_in).
  destruct (group_completes l [2%nat; 1%nat]) as (g & Hg & _ & H2);
    [repeat constructor|by_decision|done|].
  exists g. split; [exact Hg|]. injection Hg as <-. split; [reflexivity|exact H2].
Defined.

(** A subtask that completes while it is being run invalidates the loop. *)
Lemma group_synchronous (l : list SubTask) :
  Exists (fun t => synchronous t = true) l -> run (construct l) = Undefined.
Proof.
  intros Hl. unfold run. simpl.
  enough (forall g, runSubtasks l g = Undefined) as -> by done.
  induction Hl as [t l Ht|t l _ IH]; intros g; simpl; [by rewrite Ht|].
  case_match; [done|apply IH].
Qed.

Lemma countReschedulable_spec (l : list SubTask) (n : nat) :
  countReschedulable l n =
    if decide (Exists (fun t => sub_policy t = NonDeletable) l) then None
    else Some (n + length (List.filter (fun t => bool_decide (sub_policy t = Reschedulable)) l))%nat.
Proof.
  revert n. induction l as [|t l IH]; intros n; cbn [countReschedulable List.filter].
  - rewrite decide_False by (intros H; inversion H). f_equal. simpl. lia.
  - destruct (sub_policy t) eqn:E; rewrite ?IH; clear IH.
    1,3: destruct (decide (Exists _ l)) as [H|H];
      [by rewrite decide_True by (by apply Exists_cons_tl)
      |rewrite decide_False by (rewrite Exists_cons; intros [?|?]; congruence);
       f_equal; simpl; lia].
    by rewrite decide_True by (by apply Exists_cons_hd).
Qed.

Definition reschedulables (l : list SubTask) : nat :=
  length (List.filter (fun t => bool_decide (sub_policy t = Reschedulable)) l).

Lemma reschedulables_all (l : list SubTask) :
  reschedulables l = length l <-> Forall (fun t => sub_policy t = Reschedulable) l.
Proof.
  unfold reschedulables. split.
  - induction l as [|t l IH]; simpl; [done|]. case_bool_decide; simpl; intros E.
    + constructor; [done|]. apply IH. lia.
    + pose proof (List.filter_length_le
        (fun t => bool_decide (sub_policy t = Reschedulable)) l). lia.
  - induction 1 as [|t l Ht _ IH]; simpl; [done|]. rewrite bool_decide_true by done. simpl. lia.
Qed.

Lemma reschedulables_none (l : list SubTask) :
  reschedulables l = 0%nat <-> Forall (fun t => sub_policy t <> Reschedulable) l.
Proof.
  unfold reschedulables. split.
  - induction l as [|t l IH]; simpl; [done|]. case_bool_decide; simpl; [done|].
    intros E. constructor; [done|by apply IH].
  - induction 1 as [|t l Ht _ IH]; simpl; [done|]. by rewrite bool_decide_false.
Qed.

(** The policies of subtasks none of which is non-deletable. *)
Lemma not_reschedulable (l : list SubTask) :
  ~ Exists (fun t => sub_policy t = NonDeletable) l ->
  Forall (fun t => sub_policy t <> Reschedulable) l <->
  Forall (fun t => sub_policy t = Deletable) l.
Proof.
  intros Hn. apply not_Exists_Forall in Hn; [|intros ?; apply _]. split; intros Hf.
  - induction l as [|t l IH]; [done|]. inversion_clear Hn. inversion_clear Hf.
    constructor; [simpl in *; destruct (sub_policy t); congruence|by apply IH].
  - eapply Forall_impl; [exact Hf|]. simpl. by intros t ->.
Qed.

(** The policy of a group: non-deletable when a subtask is; reschedulable exactly
    when all are, also when there are none; deletable exactly when it has subtasks
    and all are deletable. *)
Theorem deletePolicy_spec (g : TaskGroup) :
  (Exists (fun t => sub_policy t = NonDeletable) (m_tasks g) -> deletePolicy g = NonDeletable) /\
  (deletePolicy g = Reschedulable <->
     Forall (fun t => sub_policy t = Reschedulable) (m_tasks g)) /\
  (deletePolicy g = Deletable <->
     m_tasks g <> [] /\ Forall (fun t => sub_policy t = Deletable) (m_tasks g)).
Proof.
  unfold deletePolicy. rewrite countReschedulable_spec. simpl.
  fold (reschedulables (m_tasks g)). destruct (decide (Exists _ (m_tasks g))) as [He|He].
  - split; [done|]. apply Exists_exists in He as (t & Ht & E).
    split; (split; [done|]); [intros H|intros [_ H]]; rewrite Forall_forall in H;
      by rewrite (H t Ht) in E.
  - split; [done|]. rewrite <- (not_reschedulable _ He), <- reschedulables_all,
      <- reschedulables_none.
    assert (m_tasks g <> [] -> length (m_tasks g) <> 0%nat) by (by destruct (m_tasks g)).
    assert (length (m_tasks g) <> 0%nat -> m_tasks g <> []) by (intros Hl E; by rewrite E in Hl).
    destruct (Nat.eqb_spec (reschedulables (m_tasks g)) (length (m_tasks g))) as [E|E];
      [|destruct (Nat.eqb_spec (reschedulables (m_tasks g)) 0) as [E0|E0]];
      rewrite ?E, ?E0 in *; intuition (congruence || lia).
Qed.

End TaskGroup.
