(* ===== verification/TaskControllerAction.v ===== *)
(** * Tasks that drive the controller

    Model of [src/src/tasks/controlleraction/taskcontrolleraction.cpp] and [.h]: the
    non-deletable task that keeps the scheduler of Tasks.v busy while the controller
    of ControllerModel.v activates, switches or goes down. The task and the
    controller are composed: the task listens to the [stateChanged] signals the
    controller's operations emit. It is shown to complete exactly once, and not to
    wait longer than the controller keeps changing state. *)
From Stdlib Require Import ZArith Lia Ascii String.
From stdpp Require Import base numbers list gmap strings.
From S2P Require Import Prelude.
From S2P Require Import QHostAddress.
From S2P Require Import QString.
From S2P Require Import QtTextModel.
From S2P Require Import Json.
From S2P Require Import InterfaceConfig.
From S2P Require Import Server.
From S2P Require Import ServerList.
From S2P Require Import ServerData.
From S2P Require Import Dns.
From S2P Require Import Tasks.
From S2P Require Import ControllerModel.
From S2P Require Import ControllerProofs.

Local Open Scope Z_scope.
Local Open Scope wg_scope.

Module TaskControllerAction.
Import Controller.

(** ** Data *)

Definition TASKCONTROLLER_TIMER_MSEC : Z := 3000.

Inductive TaskAction : Type :=
| eActivate | eActivateForExtension | eDeactivate | eDeactivateForExtension
| eSilentSwitch | eSwitch | eRegenerateKey.

#[export] Instance TaskAction_eq_dec : EqDecision TaskAction.
Proof. solve_decision. Defined.

(** [m_timer] says whether the timer runs, [completions] counts the emissions of
    [completed]. *)
Record Task : Type := mkTask {
  m_action : TaskAction;
  m_lastState : State;
  m_serverData : ServerData.ServerData;
  m_serverCoolDownPolicy : ServerCoolDownPolicy;
  m_timer : bool;
  completions : nat;
}.

#[export] Instance Task_eta : Eta Task := fun t =>
  mkTask (m_action t) (m_lastState t) (m_serverData t) (m_serverCoolDownPolicy t) (m_timer t)
    (completions t).

(** The constructor copies the server data of the settings. *)
Definition construct (action : TaskAction) (policy : ServerCoolDownPolicy)
    (serverData : ServerData.ServerData) : Task :=
  mkTask action StateOff serverData policy false 0.

Definition deletePolicy (_ : Task) : DeletePolicy := NonDeletable.

(** ** Operations *)

(** [m_timer.stop(); emit completed();] *)
Definition complete (t : Task) : Task :=
  t <| m_timer := false |> <| completions := S (completions t) |>.

(** The states that end an action at once. *)
Definition reached (action : TaskAction) (state : State) : bool :=
  match action, state with
  | (eActivate | eSwitch), StateOn => true
  | eActivateForExtension, StateOnPartial => true
  | eDeactivate, StateOff => true
  | _, _ => false
  end.

(** The slot on the controller's [stateChanged]. *)
Definition stateChanged (t : Task) (state : State) : Task :=
  if negb (m_timer t) then t
  else if reached (m_action t) state then complete t
  else t.

(** The slot on the timer. *)
Definition checkStatus (state : State) (t : Task) : Task :=
  if bool_decide (state = m_lastState t) then complete t else t <| m_lastState := state |>.

(** The states a list of effects announces, and those announced between two states
    of the controller. *)
Definition statesOf (l : list Effect) : list State :=
  omap (fun x => match x with StateChanged s => Some s | _ => None end) l.

Definition announced (c c' : Controller) : list State :=
  statesOf (drop (length (effects c)) (effects c')).

Section Operations.
Context `{QtText} `{QtJson} `{DNSHelper.Platform}.

(** [profile] is the active configuration of the profile model, if it has one. *)
Definition activateLocalProfile (profile : option InterfaceConfig)
    (principal : ActivationPrincipal) (e : Env) : C bool :=
  match profile with
  | None => ret false
  | Some config => activateConfig config principal e
  end.

(** The call of the controller, and whether a signal is expected. *)
Definition perform (e : Env) (profile : option InterfaceConfig) (t : Task) : C bool :=
  match m_action t with
  | eActivate =>
      if hasProfiles e then activateLocalProfile profile ClientUser e
      else activate (m_serverData t) ClientUser RandomizeServerSelection e
  | eActivateForExtension =>
      if hasProfiles e then activateLocalProfile profile ExtensionUser e
      else activate (m_serverData t) ExtensionUser RandomizeServerSelection e
  | eDeactivate => deactivate ClientUser
  | eDeactivateForExtension => deactivate ExtensionUser
  | eSilentSwitch =>
      if hasProfiles e then ret false else silentSwitchServers (m_serverCoolDownPolicy t) e
  | eSwitch => if hasProfiles e then ret false else switchServers (m_serverData t) e
  | eRegenerateKey => startKeyRegeneration ;;; ret true
  end.

(** [run]; the signals emitted while the controller is called reach the task before
    the call returns. *)
Definition run (e : Env) (profile : option InterfaceConfig) (t : Task) (c : Controller)
  : Outcome (Task * Controller) :=
  let t := t <| m_timer := true |> <| m_lastState := m_state c |> in
  r <~ perform e profile t c ;;
  let '(expectSignal, c') := r in
  let t' := foldl stateChanged t (announced c c') in
  match m_action t with
  | eRegenerateKey => Ret (complete t', c')
  | _ => Ret (if expectSignal then t' else checkStatus (m_state c') t', c')
  end.

(** The task and the controller from the moment the task is run: [ticks] counts the
    expirations of the task's timer, [changes] the announcements of the controller. *)
Inductive System : nat -> nat -> Task -> Controller -> Prop :=
| System_run e profile action policy d c t c' :
    run e profile (construct action policy d) c = Ret (t, c') ->
    System 0 (length (announced c c')) t c'
| System_controller ticks changes t c e ev c' :
    System ticks changes t c -> handle e ev c = Ret (tt, c') ->
    System ticks (changes + length (announced c c')) (foldl stateChanged t (announced c c')) c'
| System_timer ticks changes t c :
    System ticks changes t c -> m_timer t = true ->
    System (S ticks) changes (checkStatus (m_state c) t) c.

End Operations.

(** ** What the controller announces *)

(** The last state of a list of announcements, from a first one. *)
Definition lastState (l : list State) (s : State) : State := foldl (fun _ s => s) s l.

(** Every state the computation sets is announced, the last one is the state it
    leaves, and all satisfy [P]. *)
Definition announces {A : Type} (P : State -> Prop) (m : C A) : Prop :=
  forall c a c', m c = Ret (a, c') ->
  exists l, effects c' = effects c ++ l /\ Forall P (statesOf l) /\
    m_state c' = lastState (statesOf l) (m_state c).

Create HintDb announce discriminated.
#[export] Hint Constants Opaque : announce.

Section Announce.
Variable P : State -> Prop.

Lemma announces_ret {A} (a : A) : announces P (ret a).
Proof. intros c b c' [= <- <-]. exists []. by rewrite app_nil_r. Qed.

Lemma announces_bind {A B} (m : C A) (k : A -> C B) :
  announces P m -> (forall a, announces P (k a)) -> announces P (bind m k).
Proof.
  intros Hm Hk c b c' E. unfold bind in E. destruct (m c) as [[a c1]| |] eqn:E1; try done.
  destruct (Hm _ _ _ E1) as (l1 & H1 & F1 & S1). destruct (Hk _ _ _ _ E) as (l2 & H2 & F2 & S2).
  exists (l1 ++ l2). rewrite H2, H1, app_assoc. unfold statesOf in *. rewrite omap_app.
  split; [done|]. split; [by apply Forall_app|]. unfold lastState in *. by rewrite foldl_app, <- S1.
Qed.

Lemma announces_gets {A} (f : Controller -> A) : announces P (gets f).
Proof. intros c a c' [= <- <-]. exists []. by rewrite app_nil_r. Qed.

Lemma announces_lift {A} (o : Outcome A) : announces P (lift o).
Proof.
  intros c a c'. unfold lift. destruct o; simpl; try done. intros [= <- <-].
  exists []. by rewrite app_nil_r.
Qed.

(** Updates of other members. *)
Lemma announces_modify (f : Controller -> Controller) :
  (forall c, effects (f c) = effects c /\ m_state (f c) = m_state c) -> announces P (modify f).
Proof.
  intros Hf c a c' [= <- <-]. destruct (Hf c) as [-> ->]. exists []. by rewrite app_nil_r.
Qed.

Lemma announces_emit (x : Effect) :
  (forall s, x <> StateChanged s) -> announces P (emit x).
Proof.
  intros Hx c a c' [= <- <-]. exists [x].
  assert (statesOf [x] = []) as -> by (destruct x; try done; by destruct (Hx s)). done.
Qed.

Lemma announces_when (b : bool) (m : C unit) : announces P m -> announces P (when b m).
Proof. destruct b; [done|]. intros _. apply announces_ret. Qed.

Lemma announces_setState (s : State) : P s -> announces P (setState s).
Proof.
  intros Hs c a c'. unfold setState, modify. case_bool_decide as E; intros [= <- <-].
  { exists []. by rewrite app_nil_r. }
  set (c1 := updateField _ _).
  assert (forall n, exists l, effects (Nat.iter n maybeEnableDisconnectInConfirming c1)
            = effects c ++ StateChanged s :: l /\ statesOf l = [] /\
            m_state (Nat.iter n maybeEnableDisconnectInConfirming c1) = s) as Hn.
  { induction n as [|n (l & IH & Hl & Hm)]; [by exists []|].
    exists (l ++ [EnableDisconnectInConfirmingChanged]). simpl. rewrite IH, Hm.
    split; [by rewrite <- app_assoc|]. unfold statesOf in *. by rewrite omap_app, Hl. }
  destruct (Hn (slots c)) as (l & H1 & H2 & H3). exists (StateChanged s :: l).
  change (statesOf (StateChanged s :: l)) with (s :: statesOf l). rewrite H2.
  split; [done|]. by split; [repeat constructor|].
Qed.

Lemma announces_setError (x : ErrorCode) : announces P (setError x).
Proof.
  apply announces_bind; [apply announces_gets|]. intros old. case_bool_decide.
  - apply announces_ret.
  - apply announces_bind; [by apply announces_modify|]. intros _. by apply announces_emit.
Qed.

Lemma announces_weaken {A} (Q : State -> Prop) (m : C A) :
  (forall s, Q s -> P s) -> announces Q m -> announces P m.
Proof.
  intros HQ Hm c a c' E. destruct (Hm _ _ _ E) as (l & H1 & H2 & H3).
  exists l. split; [done|]. split; [by eapply Forall_impl|done].
Qed.

End Announce.

(** No restriction on the states. *)
Definition anyState (s : State) : Prop := True.

Lemma anyState_any (s : State) : anyState s.
Proof. exact I. Qed.

#[export] Hint Resolve announces_ret announces_gets announces_lift announces_setError
  announces_setState anyState_any : announce.

(** One step of the proof that an operation announces its states. *)
Ltac announce_step :=
  cbv beta zeta;
  lazymatch goal with
  | |- announces _ (bind _ _) => apply announces_bind; [|intros ?]
  | |- announces _ (when _ _) => apply announces_when
  | |- announces _ (modify _) => apply announces_modify; intros ?; split; reflexivity
  | |- announces _ (emit _) => apply announces_emit; intros ?; repeat case_match; discriminate
  | |- announces _ (if ?b then _ else _) => destruct b
  | |- announces _ (match ?x with _ => _ end) => destruct x
  | |- announces _ ?m => first [solve [auto with announce] |
      let h := head_of m in unfold h]
  end
with head_of m := match m with ?f _ => head_of f | _ => m end.

Section Announcements.
Context `{QtText} `{QtJson} `{DNSHelper.Platform}.
Variable P : State -> Prop.

Lemma announces_serverUnavailable :
  P StateConnectionError -> announces P serverUnavailable.
Proof. intros ?. unfold serverUnavailable. repeat announce_step. Qed.
#[local] Hint Resolve announces_serverUnavailable : announce.

Lemma announces_setupConfigs dnsPort policy (e : Env) :
  P StateConnectionError -> announces P (setupConfigs dnsPort policy e).
Proof.
  intros ?. unfold setupConfigs. repeat announce_step.
Qed.
#[local] Hint Resolve announces_setupConfigs : announce.

Lemma announces_activateNext (e : Env) :
  P StateConnectionError -> P StateConfirming -> announces P (activateNext e).
Proof. intros ? ?. unfold activateNext. repeat announce_step. Qed.
#[local] Hint Resolve announces_activateNext : announce.

Lemma announces_activateInternal dnsPort policy initiator (e : Env) :
  P StateConnectionError -> P StateConfirming ->
  announces P (activateInternal dnsPort policy initiator e).
Proof.
  intros ? ?. unfold activateInternal.
  repeat announce_step.
Qed.
#[local] Hint Resolve announces_activateInternal : announce.

Lemma announces_deactivate (user : ActivationPrincipal) :
  P StateOff -> P StateDisconnecting -> announces P (deactivate user).
Proof. intros ? ?. unfold deactivate. repeat announce_step. Qed.
#[local] Hint Resolve announces_deactivate : announce.

(** The states an activation goes through. *)
Lemma announces_activate d initiator policy (e : Env) :
  P StateConnecting -> P StateConnectionError -> P StateConfirming ->
  announces P (activate d initiator policy e).
Proof.
  intros ? ? ?. unfold activate, checkDeviceConnected.
  repeat announce_step.
Qed.

Lemma announces_activateConfig config initiator (e : Env) :
  P StateConnecting -> P StateConnectionError -> P StateConfirming ->
  announces P (activateConfig config initiator e).
Proof.
  intros ? ? ?. unfold activateConfig, checkDeviceConnected.
  repeat announce_step.
Qed.

Lemma announces_switchServers d (e : Env) :
  P StateConnectionError -> P StateConfirming -> P StateSwitching -> P StateOff ->
  P StateDisconnecting -> announces P (switchServers d e).
Proof.
  intros ? ? ? ? ?. unfold switchServers, maybeSendUpdatedConfig.
  repeat announce_step.
Qed.

Lemma announces_silentSwitchServers policy (e : Env) :
  P StateConnectionError -> P StateConfirming -> P StateSilentSwitching ->
  announces P (silentSwitchServers policy e).
Proof.
  intros ? ? ?. unfold silentSwitchServers.
  repeat announce_step.
Qed.

End Announcements.

#[export] Hint Resolve announces_serverUnavailable announces_setupConfigs announces_activateNext
  announces_activateInternal announces_deactivate announces_activate announces_activateConfig
  announces_switchServers announces_silentSwitchServers : announce.

Section Controllers.
Context `{QtText} `{QtJson} `{DNSHelper.Platform}.

(** The signals of the controller are consistent with its state: whatever the event,
    every state it enters is announced, in order, and the last announcement is the
    state it is left in. *)
Lemma announces_handle (e : Env) (ev : Event) : announces anyState (handle e ev).
Proof.
  destruct ev; cbn [handle]; unfold ignore, initialize, quit, updateRequired, connected,
    disconnected, allConnected, handshakeTimerFires, handshakeTimeout, implInitialized,
    handleBackendFailure, localeChanged, maybeSendUpdatedConfig;
  repeat announce_step.
Qed.

Lemma announces_perform (e : Env) profile (t : Task) :
  announces anyState (perform e profile t).
Proof.
  unfold perform, activateLocalProfile, startKeyRegeneration.
  repeat announce_step.
Qed.

(** A computation that cannot return [false]. *)
Lemma seq_true {A : Type} (m : C A) (k : A -> C bool) (c c' : Controller) :
  (forall a c1, k a c1 <> Ret (false, c')) -> bind m k c <> Ret (false, c').
Proof. intros Hk. unfold bind. destruct (m c) as [[a c1]| |]; [apply Hk|done..]. Qed.

Lemma deactivate_false (user : ActivationPrincipal) (c c' : Controller) :
  deactivate user c = Ret (false, c') -> c' = c.
Proof.
  unfold deactivate, bind at 1. cbn [gets id]. repeat case_match; intros E;
    try (by injection E); exfalso; revert E; repeat (apply seq_true; intros ? ?); done.
Qed.

(** A call that expects no signal has not announced the state that ends the action. *)
Lemma perform_unexpected (e : Env) profile (t : Task) (c c' : Controller) :
  perform e profile t c = Ret (false, c') ->
  Forall (fun s => reached (m_action t) s = false) (announced c c').
Proof.
  intros E.
  assert (forall (m : C bool), announces (fun s => reached (m_action t) s = false) m ->
            m c = Ret (false, c') ->
            Forall (fun s => reached (m_action t) s = false) (announced c c')) as Hm.
  { intros m Hm Ec. destruct (Hm _ _ _ Ec) as (l & Hl & Hf & _). unfold announced.
    by rewrite Hl, drop_app_length. }
  unfold perform, activateLocalProfile in E.
  destruct (m_action t) eqn:Ea; try (apply Hm with (2 := E); repeat announce_step; done).
  apply deactivate_false in E as ->. unfold announced. by rewrite drop_all.
Qed.

(** Between two states of the controller. *)
Lemma announces_between {A : Type} (P : State -> Prop) (m : C A) (a : A) (c c' : Controller) :
  announces P m -> m c = Ret (a, c') ->
  m_state c' = lastState (announced c c') (m_state c).
Proof.
  intros Hm E. destruct (Hm _ _ _ E) as (l & Hl & _ & Hs). unfold announced.
  by rewrite Hl, drop_app_length.
Qed.

(** The signals of the controller are consistent with its state. Whatever the
    event, an observer that follows [stateChanged] knows the state the controller is
    left in, and is told of every state it goes through. *)
Theorem signals_consistent (e : Env) (ev : Event) (c c' : Controller) :
  handle e ev c = Ret (tt, c') ->
  m_state c' = lastState (announced c c') (m_state c) /\
  exists l, effects c' = effects c ++ l /\ statesOf l = announced c c'.
Proof.
  intros E. split; [exact (announces_between _ _ _ _ _ (announces_handle e ev) E)|].
  destruct (announces_handle e ev _ _ _ E) as (l & Hl & _). exists l. split; [done|].
  unfold announced. by rewrite Hl, drop_app_length.
Qed.

(** *** The task *)

Definition pendingOnce (t : Task) : Prop := completions t = if m_timer t then 0%nat else 1%nat.

Lemma stateChanged_fields (l : list State) (t : Task) :
  m_lastState (foldl stateChanged t l) = m_lastState t /\
  (pendingOnce t -> pendingOnce (foldl stateChanged t l)) /\
  (m_timer t = true ->
   m_timer (foldl stateChanged t l) = negb (existsb (reached (m_action t)) l)) /\
  (m_timer t = false -> foldl stateChanged t l = t).
Proof.
  revert t. induction l as [|s l IH]; intros t; [by split_and!|].
  destruct (IH (stateChanged t s)) as (E1 & E2 & E3 & E4). simpl. rewrite E1.
  unfold stateChanged in *. destruct (m_timer t) eqn:Et; simpl in *.
  - destruct (reached (m_action t) s) eqn:Er; simpl in *; split_and!; try done.
    + intros Hp. apply E2. unfold pendingOnce in *. simpl. by rewrite Hp, Et.
    + intros _. by rewrite E4.
    + intros _. by apply E3.
  - split_and!; try done. intros _. by apply E4.
Qed.

Lemma checkStatus_pending (s : State) (t : Task) :
  m_timer t = true -> pendingOnce t -> pendingOnce (checkStatus s t).
Proof.
  unfold pendingOnce, checkStatus. intros Ht Hp. rewrite Ht in Hp.
  case_bool_decide; cbn; by rewrite ?Ht, Hp.
Qed.

(** How many changes of the controller the task has yet to look at. *)
Definition unseen (t : Task) (c : Controller) : nat :=
  if decide (m_state c = m_lastState t) then 0%nat else 1%nat.

Lemma unseen_announced (t t' : Task) (c c' : Controller) :
  m_state c' = lastState (announced c c') (m_state c) -> m_lastState t' = m_lastState t ->
  (unseen t' c' <= unseen t c + length (announced c c'))%nat.
Proof.
  unfold unseen. intros Hs ->. destruct (announced c c') as [|s l]; simpl in *.
  - rewrite Hs. lia.
  - repeat case_decide; lia.
Qed.

Lemma run_pending (e : Env) profile action policy d (c c' : Controller) (t : Task) :
  run e profile (construct action policy d) c = Ret (t, c') ->
  pendingOnce t /\
  (m_timer t = true -> (unseen t c' <= length (announced c c'))%nat).
Proof.
  unfold run. set (t0 := (construct action policy d) <| m_timer := true |> <| m_lastState := m_state c |>).
  assert (pendingOnce t0 /\ m_timer t0 = true /\ m_lastState t0 = m_state c /\
          m_action t0 = action) as (Hp & Ht & Hl & Ha) by done.
  destruct (perform _ _ _ c) as [[b c1]| |] eqn:E; simpl; try done. intros Hr.
  assert (m_state c1 = lastState (announced c c1) (m_state c)) as Hs
    by exact (announces_between _ _ _ _ _ (announces_perform _ _ _) E).
  destruct (stateChanged_fields (announced c c1) t0) as (E1 & E2 & E3 & _).
  specialize (E3 Ht). rewrite Ha in E3.
  assert (unseen (foldl stateChanged t0 (announced c c1)) c1 <= length (announced c c1))%nat as Hu.
  { etrans; [by apply (unseen_announced t0 _ c)|].
    unfold unseen. rewrite Hl, decide_True by done. lia. }
  assert (action <> eRegenerateKey -> b = false -> m_timer (foldl stateChanged t0 (announced c c1)) = true)
    as Hb.
  { intros _ ->. rewrite E3. apply perform_unexpected in E. rewrite Ha in E.
    clear -E. induction E as [|s l Hs _ IH]; [done|]. simpl. by rewrite Hs. }
  clearbody t0.
  assert (action = eRegenerateKey \/ action <> eRegenerateKey) as [->|Hne]
    by (destruct (decide (action = eRegenerateKey)); tauto).
  { injection Hr as <- <-. split; [|done]. specialize (E2 Hp). unfold pendingOnce in *. simpl.
    assert (forall l, existsb (reached eRegenerateKey) l = false) as Hx
      by (intros l; by induction l).
    by rewrite E2, E3, Hx. }
  assert (Ret (if b then foldl stateChanged t0 (announced c c1)
               else checkStatus (m_state c1) (foldl stateChanged t0 (announced c c1)), c1)
          = Ret (t, c')) as Hr' by (by destruct action).
  injection Hr' as <- <-. destruct b; [auto|]. specialize (Hb Hne eq_refl).
  split; [by apply checkStatus_pending; auto|]. unfold checkStatus.
  case_bool_decide; [done|]. intros _. unfold unseen. simpl. rewrite decide_True by done. lia.
Qed.

Lemma system_pending (ticks changes : nat) (t : Task) (c : Controller) :
  System ticks changes t c ->
  pendingOnce t /\ (m_timer t = true -> (ticks + unseen t c <= changes)%nat).
Proof.
  induction 1 as [e profile action policy d c t c' Hr|ticks changes t c e ev c' _ [Hp IH] Hh
                 |ticks changes t c _ [Hp IH] Ht].
  - by apply run_pending in Hr.
  - destruct (stateChanged_fields (announced c c') t) as (E1 & E2 & _ & E4).
    split; [auto|]. intros Ht.
    pose proof (announces_between anyState _ _ _ _ (announces_handle _ _) Hh) as Hs.
    pose proof (unseen_announced t _ c c' Hs E1).
    assert (m_timer t = true) as Htt by (destruct (m_timer t) eqn:E; [done|]; rewrite E4 in Ht; congruence).
    specialize (IH Htt). lia.
  - split; [by apply checkStatus_pending|]. specialize (IH Ht). unfold checkStatus, unseen in *.
    case_bool_decide as E; [done|]. rewrite decide_False in IH by done.
    intros _. simpl. rewrite decide_True by done. lia.
Qed.

(** C12: a task that drives the controller completes exactly once and does not wait
    for nothing. From the moment it is run, whatever the controller does next and
    whatever events reach it: the task has completed, once, exactly when its timer is
    stopped; it is still waiting after [n] expirations of its timer only if the
    controller has announced at least [n] changes of state since; and when the
    controller is silent it completes at the second expiration at the latest. *)
Theorem completes_once (ticks changes : nat) (t : Task) (c : Controller) :
  System ticks changes t c ->
  completions t = (if m_timer t then 0 else 1)%nat /\
  (m_timer t = true -> (ticks <= changes)%nat) /\
  (m_timer t = true ->
   let t1 := checkStatus (m_state c) t in
   completions t1 = 1%nat \/ completions (checkStatus (m_state c) t1) = 1%nat).
Proof.
  intros Hs. apply system_pending in Hs as [Hp Hn]. split; [done|].
  split; [intros Ht; specialize (Hn Ht); lia|]. intros Ht. unfold pendingOnce in Hp. rewrite Ht in Hp.
  destruct (decide (m_state c = m_lastState t)) as [E|E].
  - left. unfold checkStatus. rewrite bool_decide_true by done. simpl. by rewrite Hp.
  - right. assert (checkStatus (m_state c) t = t <| m_lastState := m_state c |>) as ->
      by (unfold checkStatus; by rewrite bool_decide_false).
    unfold checkStatus. rewrite bool_decide_true by done. simpl. by rewrite Hp.
Qed.

End Controllers.

(** ** Witnesses *)

Section Witnesses.
#[local] Existing Instance modelText.
#[local] Existing Instance modelJson.
#[local] Existing Instance DNSHelper.desktop.

Definition sampleTask : Task :=
  construct eActivate eServerCoolDownNotNeeded ControllerProofs.inOslo.

(** A client that activates Oslo. *)
Definition sampleRun : Outcome (Task * Controller) :=
  run ControllerProofs.desktopEnv None sampleTask (ControllerProofs.idle ControllerProofs.desktopEnv).

Definition sampleStarted : Task * Controller :=
  match sampleRun with Ret r => r | _ => (sampleTask, Controller.construct) end.

Lemma sample_system :
  System 0 (length (announced (ControllerProofs.idle ControllerProofs.desktopEnv) sampleStarted.2))
    sampleStarted.1 sampleStarted.2.
Proof.
  refine (System_run ControllerProofs.desktopEnv None eActivate eServerCoolDownNotNeeded
            ControllerProofs.inOslo _ _ _ _).
  vm_compute. reflexivity.
Qed.

Lemma sample_waiting : m_timer sampleStarted.1 = true.
Proof. vm_compute. reflexivity. Qed.

Lemma completes_once_witness :
  completions (checkStatus (m_state sampleStarted.2) sampleStarted.1) = 1%nat \/
  completions (checkStatus (m_state sampleStarted.2)
                 (checkStatus (m_state sampleStarted.2) sampleStarted.1)) = 1%nat.
Proof.
  exact (proj2 (proj2 (completes_once _ _ _ _ sample_system)) sample_waiting).
Defined.

Lemma signals_consistent_witness :
  let e := ControllerProofs.desktopEnv in
  let c := ControllerProofs.confirming e in
  let c' := ControllerProofs.next e (Connected (Some (qs "oslo"))) c in
  announced c c' = [StateOn] /\ m_state c' = lastState (announced c c') (m_state c).
Proof.
  intros e c c'. split; [vm_compute; reflexivity|].
  apply (proj1 (signals_consistent e (Connected (Some (qs "oslo"))) c c'
                  ltac:(vm_compute; reflexivity))).
Defined.

End Witnesses.

End TaskControllerAction.
