(* ===== verification/ServerLatency.v ===== *)
(** * Latency of the servers

    Model of [src/src/serverlatency.cpp] and [.h]: while the VPN is off the servers
    are pinged, nearest first and at most eight at a time, each at most three
    times; the round-trip times give every city of the server list (ServerList.v) a
    latency and a connection score, and servers that did not answer a handshake are
    kept out for a cooldown time. The object writes into the cities of the shared
    server list, which is part of its state here. *)
From Stdlib Require Import ZArith Lia Ascii String SpecFloat.
From stdpp Require Import base numbers list gmap strings fin_maps.
From S2P Require Import Prelude.
From S2P Require Import QHostAddress.
From S2P Require Import QString.
From S2P Require Import QtTextModel.
From S2P Require Import Json.
From S2P Require Import Server.
From S2P Require Import ServerList.
From S2P Require Import PingHelper.
From S2P Require Import ControllerModel.

Local Open Scope Z_scope.
Local Open Scope wg_scope.

Module ServerLatency.

#[local] Existing Instance Controller.State_eq_dec.
#[local] Existing Instance ServerList.Model_eta.

(** ** Constants *)

Definition SERVER_LATENCY_MAX_PARALLEL : nat := 8.
Definition SERVER_LATENCY_MAX_RETRIES : Z := 2.
Definition SCORE_SERVER_REDUNDANCY_THRESHOLD : Z := 3.
Definition SCORE_EXCELLENT_LATENCY_THRESHOLD : Z := 30.
Definition SERVER_LATENCY_TIMEOUT : Z := 5000.

(** [ConnectionScores]. *)
Definition Unavailable : Z := -1.
Definition NoData : Z := 0.
Definition Poor : Z := 1.
Definition Excellent : Z := 4.

(** [State]. *)
Inductive LatencyState : Type := Initial | Loading | Loaded.

(** ** Data *)

Record ServerPingRecord : Type := mkRecord {
  publicKey : chars;
  countryCode : QString;
  cityName : QString;
  timestamp : Z;
  sequence : Z;
  distance : double;
  retries : Z;
}.

#[export] Instance ServerPingRecord_eta : Eta ServerPingRecord := fun r =>
  mkRecord (publicKey r) (countryCode r) (cityName r) (timestamp r) (sequence r) (distance r)
    (retries r).

Inductive Sender : Type := IcmpSender | TcpSender.

Inductive Effect : Type :=
| ProgressChanged | CreateSender (s : Sender) (anyIPv6 : bool) | DeleteSender (s : Sender)
| SendPing (address : QHostAddress) (seq : Z).

(** A timer is its deadline in milliseconds since the epoch, when it runs. The
    shared server list is [model]; [nullCity] is the static city [findCity] hands
    out, by reference, for a city it does not know. *)
Record ServerLatency `{QtJson} : Type := mkServerLatency {
  m_sequence : Z;
  m_pingSender : option Sender;
  m_pingSendQueue : list ServerPingRecord;
  m_pingReplyList : list ServerPingRecord;
  m_pingSendTotal : Z;
  m_latency : gmap chars Z;
  m_cooldown : gmap chars Z;
  m_sumLatencyMsec : Z;
  m_lastUpdateTime : option Z;
  m_pingTimeout : option Z;
  m_refreshTimer : option Z;
  m_progressDelayTimer : option Z;
  m_cooldownTimer : option Z;
  m_wantRefresh : bool;
  m_hasIPv4Connectivity : bool;
  model : ServerList.ServerCountryModel;
  nullCity : ServerList.ServerCity;
  effects : list Effect;
}.

#[export] Instance ServerLatency_eta `{QtJson} : Eta ServerLatency := fun l =>
  mkServerLatency _ (m_sequence l) (m_pingSender l) (m_pingSendQueue l) (m_pingReplyList l)
    (m_pingSendTotal l) (m_latency l) (m_cooldown l) (m_sumLatencyMsec l) (m_lastUpdateTime l)
    (m_pingTimeout l) (m_refreshTimer l) (m_progressDelayTimer l) (m_cooldownTimer l)
    (m_wantRefresh l) (m_hasIPv4Connectivity l) (model l) (nullCity l) (effects l).

(** What is read from outside: the controller, the features, the network, the
    location of the user and the clock; [distanceTo] is [Location::distance]. *)
Record Env : Type := mkEnv {
  controllerState : Controller.State;
  serverConnectionScore : bool;
  hasIPv4Connectivity : bool;
  icmpValid : bool;
  distanceTo : ServerList.ServerCity -> double;
  cityDistance : ServerList.ServerCity -> ServerList.ServerCity -> double;
  userCountry : chars;
  nowMSecs : Z;
}.

Definition nowSecs (e : Env) : Z := nowMSecs e / 1000.

(** [QTimer::start] and [remainingTime]; a negative interval does not start a timer. *)
Definition startTimer (msec : Z) (e : Env) : option Z :=
  if s32 msec <? 0 then None else Some (nowMSecs e + s32 msec).

Definition remainingTime (t : option Z) (e : Env) : Z :=
  match t with None => -1 | Some d => Z.max 0 (d - nowMSecs e) end.

(** [CheckedInt]: zero where the difference is not an [int]. *)
Definition checkedSub (a b : Z) : Z :=
  if (- 2 ^ 31 <=? a - b) && (a - b <? 2 ^ 31) then a - b else 0.

Section Operations.
Context `{QHostAddressText} `{QtJson}.

Definition construct (m : ServerList.ServerCountryModel) : ServerLatency :=
  mkServerLatency _ 0 None [] [] 0 ∅ ∅ 0 None None None None None false true m
    ServerList.emptyCity [].

Definition emit (x : Effect) (l : ServerLatency) : ServerLatency :=
  l <| effects := effects l ++ [x] |>.

(** ** The cities *)

Definition cityKey (countryCode cityName : QString) : chars :=
  ServerList.hashKey (text countryCode) (text cityName).

(** [findCity] on the list that can be written to. *)
Definition findCity (countryCode cityName : QString) (l : ServerLatency) : ServerList.ServerCity :=
  default (nullCity l) (ServerList.m_cities (model l) !! cityKey countryCode cityName).

(** A change of the city found, through the reference. *)
Definition updateCity (countryCode cityName : QString)
    (f : ServerList.ServerCity -> ServerList.ServerCity) (l : ServerLatency) : ServerLatency :=
  match ServerList.m_cities (model l) !! cityKey countryCode cityName with
  | Some city =>
      let cities := <[cityKey countryCode cityName := f city]> (ServerList.m_cities (model l)) in
      let m := (model l) <| ServerList.m_cities := cities |> in
      l <| model := m |>
  | None => l <| nullCity := f (nullCity l) |>
  end.

(** ** Scores *)

Definition getLatency (pubkey : chars) (l : ServerLatency) : Z := default 0 (m_latency l !! pubkey).
Definition getCooldown (pubkey : chars) (l : ServerLatency) : Z := default 0 (m_cooldown l !! pubkey).

Definition avgLatency (l : ServerLatency) : Z :=
  if bool_decide (m_latency l = ∅) then 0
  else (m_sumLatencyMsec l + Z.of_nat (base.size (m_latency l)) - 1)
         ÷ Z.of_nat (base.size (m_latency l)).

Definition activeServerCount (city : ServerList.ServerCity) (e : Env) (l : ServerLatency) : Z :=
  Z.of_nat (length (List.filter (fun pubkey => getCooldown pubkey l <=? nowSecs e)
                      (ServerList.m_servers city))).

Definition baseCityScore (city : ServerList.ServerCity) (originCountry : chars) (e : Env)
    (l : ServerLatency) : Z :=
  let active := activeServerCount city e l in
  if active =? 0 then Unavailable
  else
    let score := Poor in
    let score := if SCORE_SERVER_REDUNDANCY_THRESHOLD <=? active then score + 1 else score in
    let score :=
      if negb (bool_decide (originCountry = []))
         && bool_decide (toLower originCountry = toLower (text (ServerList.m_country city)))
      then score + 1 else score in
    Z.min score Excellent.

(** The average latency of a city, rounded up; zero when none of its servers has one. *)
Definition cityLatency (city : ServerList.ServerCity) (l : ServerLatency) : Z :=
  let rtts := List.filter (fun x => 0 <? x)
                (map (fun pubkey => getLatency pubkey l) (ServerList.m_servers city)) in
  let n := Z.of_nat (length rtts) in
  if 0 <? n then (PingHelper.sumZ rtts + (n - 1)) ÷ n else 0.

Definition connectionScore (city : ServerList.ServerCity) (avgLatencyMsec : Z) (e : Env)
    (l : ServerLatency) : Z :=
  let score := baseCityScore city (userCountry e) e l in
  if (score <=? Unavailable) || (avgLatencyMsec =? 0) then score
  else
    let score :=
      if avgLatencyMsec <? avgLatency l then
        if avgLatencyMsec <? SCORE_EXCELLENT_LATENCY_THRESHOLD then score + 2 else score + 1
      else score in
    Z.min score Excellent.

Definition updateConnectionScore (pubkey : chars) (e : Env) (l : ServerLatency) : ServerLatency :=
  let server := ServerList.server pubkey (model l) in
  let country := Server.m_countryCode server in
  let name := Server.m_cityName server in
  let city := findCity country name l in
  let avgLatencyMsec := cityLatency city l in
  let score := connectionScore city avgLatencyMsec e l in
  updateCity country name
    (fun c => ServerList.setConnectionScore score (ServerList.setLatency avgLatencyMsec c)) l.

(** [m_latency[pubkey]] creates the entry it reads. *)
Definition setLatency (pubkey : chars) (msec : Z) (e : Env) (l : ServerLatency) : ServerLatency :=
  let l := l <| m_sumLatencyMsec := m_sumLatencyMsec l - getLatency pubkey l + msec |>
             <| m_latency := <[pubkey := msec]> (m_latency l) |> in
  updateConnectionScore pubkey e l.

Definition multiHopScore (exitCountry exitCityName entryCountry entryCityName : chars) (e : Env)
    (l : ServerLatency) : Z :=
  let exitCity := ServerList.findCity exitCountry exitCityName (model l) in
  if negb (ServerList.cityInitialized exitCity) then NoData
  else
    let score := baseCityScore exitCity entryCountry e l in
    if score <=? Unavailable then score
    else
      let entryCity := ServerList.findCity entryCountry entryCityName (model l) in
      if negb (ServerList.cityInitialized entryCity) then NoData
      else
        (* M_PI / 4 *)
        let eighth := S754_finite false 7074237752028440 (-53) in
        let score := if SFltb (cityDistance e exitCity entryCity) eighth then score + 1 else score in
        Z.min score Excellent.

(** ** Cooldowns *)

(** The timer is started when this is the next expiration. *)
Definition scheduleCooldown (timeout : Z) (e : Env) (l : ServerLatency) : ServerLatency :=
  let next := remainingTime (m_cooldownTimer l) e in
  if (next <=? 0) || (timeout <? next)
  then l <| m_cooldownTimer := startTimer timeout e |> else l.

Definition setCooldown (pubkey : chars) (timeout : Z) (e : Env) (l : ServerLatency)
  : ServerLatency :=
  let l :=
    if timeout <=? 0 then l <| m_cooldown := delete pubkey (m_cooldown l) |>
    else l <| m_cooldown := <[pubkey := nowSecs e + timeout]> (m_cooldown l) |> in
  scheduleCooldown timeout e (updateConnectionScore pubkey e l).

(** The cities the loop of [setCityCooldown] stops at. *)
Definition cooledCities (country code : chars) (l : ServerLatency) : list ServerList.ServerCity :=
  List.filter (fun c => bool_decide (text (ServerList.m_country c) = country)
                        && bool_decide (text (ServerList.m_code c) = code))
    (map snd (map_to_list (ServerList.m_cities (model l)))).

Definition setCityCooldown (country cityCode : chars) (timeout : Z) (e : Env) (l : ServerLatency)
  : ServerLatency :=
  let expire := nowSecs e + timeout in
  let cities := cooledCities country cityCode l in
  let cooldowns :=
    foldl (fun m pubkey => <[pubkey := expire]> m) (m_cooldown l)
      (concat (map ServerList.m_servers cities)) in
  let l := l <| m_cooldown := cooldowns |> in
  let name := match last cities with Some c => ServerList.m_name c | None => None end in
  if isEmpty name then l
  else
    let l := updateCity (Some country) name (ServerList.setConnectionScore Unavailable) l in
    scheduleCooldown timeout e l.

(** One key of the loop of [clearCooldowns]. *)
Definition clearCooldown (e : Env) (acc : Z * ServerLatency) (pubkey : chars)
  : Z * ServerLatency :=
  let '(next, l) := acc in
  let expiration := getCooldown pubkey l in
  if nowSecs e <? expiration then
    (if (next =? 0) || (expiration <? next) then expiration else next, l)
  else
    (next, updateConnectionScore pubkey e (l <| m_cooldown := delete pubkey (m_cooldown l) |>)).

(** The slot on the cooldown timer. *)
Definition clearCooldowns (e : Env) (l : ServerLatency) : ServerLatency :=
  let '(next, l) :=
    foldl (clearCooldown e) (0, l <| m_cooldownTimer := None |>)
      (map fst (map_to_list (m_cooldown l))) in
  if nowSecs e <? next then l <| m_cooldownTimer := startTimer (next - nowSecs e) e |> else l.

(** ** The measurement *)

(** The first element of the queue not nearer than [d], which the loop of [start]
    inserts in front of. *)
Fixpoint insertAt (d : double) (recs queue : list ServerPingRecord) : list ServerPingRecord :=
  match queue with
  | [] => recs
  | r :: rest => if SFleb d (distance r) then recs ++ r :: rest else r :: insertAt d recs rest
  end.

(** The servers of a city; each is inserted in front of the previous one. *)
Definition enqueueCity (e : Env) (city : ServerList.ServerCity) (queue : list ServerPingRecord)
  : list ServerPingRecord :=
  let d := distanceTo e city in
  insertAt d
    (rev (map (fun pubkey => mkRecord pubkey (ServerList.m_country city) (ServerList.m_name city)
                               0 0 d 0) (ServerList.m_servers city))) queue.

Definition enqueueAll (e : Env) (l : ServerLatency) : list ServerPingRecord :=
  foldl (fun queue (country : ServerList.ServerCountry) =>
    foldl (fun queue name =>
      enqueueCity e (findCity (Some (ServerList.code country)) (Some name) l) queue)
      queue (ServerList.cities country))
    (m_pingSendQueue l) (ServerList.m_countries (model l)).

Definition clear (l : ServerLatency) : ServerLatency :=
  emit ProgressChanged (l <| m_latency := ∅ |> <| m_sumLatencyMsec := 0 |>).

Definition SERVER_LATENCY_REFRESH : Z := 30 * 60 * 1000.
Definition SERVER_LATENCY_INITIAL : Z := 1000.
Definition SERVER_LATENCY_PROGRESS_DELAY : Z := 500.

Definition stop (e : Env) (l : ServerLatency) : ServerLatency :=
  let l := l <| m_pingTimeout := None |> <| m_pingSendQueue := [] |> <| m_pingReplyList := [] |>
             <| m_pingSendTotal := 0 |> in
  let l := match m_pingSender l with
           | Some s => emit (DeleteSender s) (l <| m_pingSender := None |>)
           | None => l
           end in
  let l := emit ProgressChanged l <| m_progressDelayTimer := None |> in
  match m_refreshTimer l with
  | Some _ => l
  | None => l <| m_refreshTimer := startTimer SERVER_LATENCY_REFRESH e |>
  end.

(** A ping to the server of a record, which joins the reply list. *)
Definition sendPing (r : ServerPingRecord) (l : ServerLatency) : ServerLatency :=
  let server := ServerList.server (publicKey r) (model l) in
  let address :=
    hostOfString (text (if m_hasIPv4Connectivity l then Server.m_ipv4AddrIn server
                        else Server.m_ipv6AddrIn server)) in
  emit (SendPing address (m_sequence l))
    (l <| m_pingReplyList := m_pingReplyList l ++ [r <| sequence := m_sequence l |>] |>
       <| m_sequence := u16 (m_sequence l + 1) |>).

(** The first reply is overdue: it is given another ping or not, and removed. *)
Definition retryFirst (e : Env) (r : ServerPingRecord) (l : ServerLatency) : ServerLatency :=
  let l :=
    if retries r <? SERVER_LATENCY_MAX_RETRIES
    then sendPing (r <| retries := retries r + 1 |> <| timestamp := u64 (nowMSecs e) |>) l
    else l in
  l <| m_pingReplyList := tail (m_pingReplyList l) |>.

(** The first loop of [maybeSendPings]: the replies that are overdue. *)
Fixpoint retryOverdue (fuel : nat) (e : Env) (l : ServerLatency) : Outcome ServerLatency :=
  match m_pingReplyList l with
  | [] => Ret l
  | r :: _ =>
      if u64 (nowMSecs e) <? u64 (timestamp r + SERVER_LATENCY_TIMEOUT) then Ret l
      else
        match fuel with
        | O => OutOfFuel
        | S fuel => retryOverdue fuel e (retryFirst e r l)
        end
  end.

(** The second loop: new pings up to the limit. *)
Fixpoint sendQueued (queue : list ServerPingRecord) (e : Env) (l : ServerLatency)
  : ServerLatency :=
  if (length (m_pingReplyList l) <? SERVER_LATENCY_MAX_PARALLEL)%nat then
    match queue with
    | [] => l
    | r :: rest =>
        let l := l <| m_pingSendQueue := rest |> in
        sendQueued rest e (sendPing (r <| timestamp := u64 (nowMSecs e) |> <| retries := 0 |>) l)
    end
  else l.

(** The time of the update is noted and its announcement scheduled. *)
Definition noteUpdate (e : Env) (l : ServerLatency) : ServerLatency :=
  let l := l <| m_lastUpdateTime := Some (nowMSecs e) |> in
  match m_progressDelayTimer l with
  | Some _ => l
  | None => l <| m_progressDelayTimer := startTimer SERVER_LATENCY_PROGRESS_DELAY e |>
  end.

(** Nothing is left to do, or the timer waits for the oldest ping. *)
Definition awaitReply (e : Env) (l : ServerLatency) : ServerLatency :=
  match m_pingReplyList l with
  | [] => stop e l
  | r :: _ =>
      let value := checkedSub SERVER_LATENCY_TIMEOUT (s32 (nowMSecs e - timestamp r)) in
      l <| m_pingTimeout := startTimer value e |>
  end.

Definition maybeSendPings (e : Env) (l : ServerLatency) : Outcome ServerLatency :=
  match m_pingSender l with
  | None => Ret l
  | Some _ =>
      l <~ retryOverdue (S (length (m_pingReplyList l))) e l ;;
      Ret (awaitReply e (noteUpdate e (sendQueued (m_pingSendQueue l) e l)))
  end.

(** A new measurement: the sender, and the servers to ping. *)
Definition createSender (e : Env) (l : ServerLatency) : ServerLatency :=
  let v6 := negb (hasIPv4Connectivity e) in
  let l := emit (CreateSender IcmpSender v6) l in
  if icmpValid e then l <| m_pingSender := Some IcmpSender |>
  else emit (CreateSender TcpSender v6) (emit (DeleteSender IcmpSender) l)
         <| m_pingSender := Some TcpSender |>.

Definition prepare (e : Env) (l : ServerLatency) : ServerLatency :=
  let l := createSender e (l <| m_sequence := 0 |> <| m_wantRefresh := false |>
                             <| m_hasIPv4Connectivity := hasIPv4Connectivity e |>) in
  let l := l <| m_pingSendQueue := enqueueAll e l |> in
  let l := l <| m_pingSendTotal := Z.of_nat (length (m_pingSendQueue l)) |> in
  let l := emit ProgressChanged (l <| m_progressDelayTimer := None |>) in
  l <| m_refreshTimer := None |>.

Definition start (e : Env) (l : ServerLatency) : Outcome ServerLatency :=
  if negb (serverConnectionScore e) then Ret (clear l)
  else if negb (bool_decide (controllerState e = Controller.StateOff)) then
    Ret (l <| m_wantRefresh := true |>)
  else
    match m_pingSender l with
    | Some _ => Ret l
    | None => maybeSendPings e (prepare e l)
    end.

Definition refresh (e : Env) (l : ServerLatency) : Outcome ServerLatency :=
  match m_pingSender l with
  | Some _ => Ret l
  | None => start e (clear l)
  end.

(** The slot on the controller's state. *)
Definition stateChanged (e : Env) (l : ServerLatency) : Outcome ServerLatency :=
  if negb (bool_decide (controllerState e = Controller.StateOff)) then Ret (stop e l)
  else if m_wantRefresh l then start e l
  else Ret l.

(** The reply list without the first record of a sequence number, and that record. *)
Fixpoint takeReply (seq : Z) (l : list ServerPingRecord)
  : option (ServerPingRecord * list ServerPingRecord) :=
  match l with
  | [] => None
  | r :: rest =>
      if sequence r =? seq then Some (r, rest)
      else '(x, rest) ← takeReply seq rest; Some (x, r :: rest)
  end.

(** The slot on an answer. *)
Definition recvPing (seq : Z) (e : Env) (l : ServerLatency) : Outcome ServerLatency :=
  match takeReply seq (m_pingReplyList l) with
  | None => Ret l
  | Some (r, rest) =>
      let latency := nowMSecs e - timestamp r in
      let l := if latency <=? 2 ^ 32 - 1 then setLatency (publicKey r) latency e l else l in
      maybeSendPings e (l <| m_pingReplyList := rest |>)
  end.

Definition initialize (e : Env) (l : ServerLatency) : ServerLatency :=
  if serverConnectionScore e
  then l <| m_refreshTimer := startTimer SERVER_LATENCY_INITIAL e |> else l.

(** The slot on the progress timer. *)
Definition progressDelayed (l : ServerLatency) : ServerLatency :=
  emit ProgressChanged (l <| m_progressDelayTimer := None |>).

Definition progress (l : ServerLatency) : double :=
  if bool_decide (m_pingSender l = None) || (m_pingSendTotal l =? 0) then doubleOfZ 1
  else
    let remaining :=
      Z.of_nat (length (m_pingReplyList l)) + Z.of_nat (length (m_pingSendQueue l)) in
    SFsub 53 1024 (doubleOfZ 1)
      (doubleDiv (doubleOfZ remaining) (doubleOfZ (m_pingSendTotal l))).

Definition state (l : ServerLatency) : LatencyState :=
  match m_pingSender l, m_lastUpdateTime l with
  | Some _, _ => Loading
  | None, Some _ => Loaded
  | None, None => Initial
  end.

(** ** Events *)

Inductive Event : Type :=
| Initialize | ModelChanged (m : ServerList.ServerCountryModel) | StateChange
| PingTimeout | RefreshTimer | ProgressTimer | CooldownTimer
| RecvPing (seq : Z) | Refresh
| SetCooldown (pubkey : chars) (timeout : Z)
| SetCityCooldown (country city : chars) (timeout : Z).

(** A timer fires at its deadline or later; a sequence number has 16 bits. *)
Definition due (t : option Z) (e : Env) : Prop :=
  match t with Some d => d <= nowMSecs e | None => False end.

Definition enabled (ev : Event) (e : Env) (l : ServerLatency) : Prop :=
  match ev with
  | PingTimeout => due (m_pingTimeout l) e
  | RefreshTimer => due (m_refreshTimer l) e
  | ProgressTimer => due (m_progressDelayTimer l) e
  | CooldownTimer => due (m_cooldownTimer l) e
  | RecvPing seq => 0 <= seq < 2 ^ 16
  | _ => True
  end.

Definition handle (ev : Event) (e : Env) (l : ServerLatency) : Outcome ServerLatency :=
  match ev with
  | Initialize => Ret (initialize e l)
  | ModelChanged m => start e (l <| model := m |>)
  | StateChange => stateChanged e l
  | PingTimeout => maybeSendPings e l
  | RefreshTimer => start e (l <| m_refreshTimer := None |>)
  | ProgressTimer => Ret (progressDelayed l)
  | CooldownTimer => Ret (clearCooldowns e l)
  | RecvPing seq => recvPing seq e l
  | Refresh => refresh e l
  | SetCooldown pubkey timeout => Ret (setCooldown pubkey timeout e l)
  | SetCityCooldown country city timeout => Ret (setCityCooldown country city timeout e l)
  end.

(** The object at a time of a clock that does not go back. *)
Inductive Reachable : Z -> ServerLatency -> Prop :=
| Reachable_init t m : 0 <= t -> Reachable t (construct m)
| Reachable_step t l ev e l' :
    Reachable t l -> t <= nowMSecs e < 2 ^ 62 -> enabled ev e l -> handle ev e l = Ret l' ->
    Reachable (nowMSecs e) l'.

End Operations.

(** ** The pings in flight *)

Section Pings.
Context `{QHostAddressText} `{QtJson}.

(** A record of the reply list at time [t]. *)
Definition good (t : Z) (r : ServerPingRecord) : Prop :=
  0 <= timestamp r <= t /\ 0 <= retries r <= SERVER_LATENCY_MAX_RETRIES.

(** How many more times a server can be given a ping or time out. *)
Definition weight (r : ServerPingRecord) : Z := SERVER_LATENCY_MAX_RETRIES + 1 - retries r.
Definition weights (l : list ServerPingRecord) : Z := foldr (fun r n => weight r + n) 0 l.

Definition measure (l : ServerLatency) : Z :=
  weights (m_pingReplyList l) + 3 * Z.of_nat (length (m_pingSendQueue l)).

Lemma weights_app (l1 l2 : list ServerPingRecord) : weights (l1 ++ l2) = weights l1 + weights l2.
Proof. unfold weights. induction l1; simpl; lia. Qed.

Lemma weights_nonneg t (l : list ServerPingRecord) :
  Forall (good t) l -> Z.of_nat (length l) <= weights l <= 3 * Z.of_nat (length l).
Proof.
  unfold weights, weight, SERVER_LATENCY_MAX_RETRIES. induction 1 as [|r l [_ Hr] _ IH]; [done|].
  unfold SERVER_LATENCY_MAX_RETRIES in Hr. cbn [foldr length]. lia.
Qed.

(** The members a loop of [maybeSendPings] leaves alone. *)
Definition sameRest (l l' : ServerLatency) : Prop :=
  m_pingSender l' = m_pingSender l /\ m_pingSendTotal l' = m_pingSendTotal l /\
  m_latency l' = m_latency l /\ m_sumLatencyMsec l' = m_sumLatencyMsec l /\
  m_cooldown l' = m_cooldown l.

#[local] Instance sameRest_preorder : PreOrder sameRest.
Proof.
  split; [by intros l|]. intros l1 l2 l3 (? & ? & ? & ? & ?) (? & ? & ? & ? & ?).
  split_and!; congruence.
Qed.

Lemma sendPing_same (r : ServerPingRecord) (l : ServerLatency) : sameRest l (sendPing r l).
Proof. done. Qed.

Lemma sendPing_reply (r : ServerPingRecord) (l : ServerLatency) :
  m_pingReplyList (sendPing r l) = m_pingReplyList l ++ [r <| sequence := m_sequence l |>].
Proof. done. Qed.

Lemma good_sequence t n (r : ServerPingRecord) : good t r -> good t (r <| sequence := n |>).
Proof. done. Qed.

Lemma weight_sequence n (r : ServerPingRecord) : weight (r <| sequence := n |>) = weight r.
Proof. done. Qed.

(** What a pass of the first loop leaves. *)
Definition retried (t : Z) (l l' : ServerLatency) : Prop :=
  sameRest l l' /\ m_pingSendQueue l' = m_pingSendQueue l /\
  Forall (good t) (m_pingReplyList l') /\
  (length (m_pingReplyList l') <= length (m_pingReplyList l))%nat /\
  weights (m_pingReplyList l') <= weights (m_pingReplyList l).

(** One pass over an overdue record: it is removed, and joins the end of the list
    again with one retry more unless there were two. *)
Lemma overdue_step (e : Env) (r : ServerPingRecord) (rest : list ServerPingRecord)
    (l : ServerLatency) :
  u64 (nowMSecs e) = nowMSecs e -> 0 <= nowMSecs e -> m_pingReplyList l = r :: rest ->
  0 <= retries r <= SERVER_LATENCY_MAX_RETRIES ->
  exists extra l2,
    retryFirst e r l = l2 /\
    m_pingReplyList l2 = rest ++ extra /\
    Forall (fun x => good (nowMSecs e) x /\ timestamp x = nowMSecs e) extra /\
    sameRest l l2 /\ m_pingSendQueue l2 = m_pingSendQueue l /\
    weights (m_pingReplyList l2) < weights (r :: rest) /\
    (length (m_pingReplyList l2) <= S (length rest))%nat.
Proof.
  intros Hnow Ht Hl Hr. unfold retryFirst, SERVER_LATENCY_MAX_RETRIES in *. rewrite Hnow.
  destruct (Z.ltb_spec (retries r) 2) as [Hlt|Hge]; cbv zeta.
  - eexists [_], _. split; [reflexivity|]. split; [simpl; by rewrite Hl|].
    split_and!; try done.
    + repeat constructor; simpl; unfold SERVER_LATENCY_MAX_RETRIES; lia.
    + cbn [m_pingReplyList updateField]. rewrite sendPing_reply, Hl. simpl tail.
      rewrite weights_app. change (weights (r :: rest)) with (weight r + weights rest).
      match goal with |- context [weights [?x]] =>
        assert (weights [x] = weight r - 1) by (unfold weights, weight; cbn; lia) end. lia.
    + simpl. rewrite Hl. simpl. rewrite length_app. simpl. lia.
  - exists [], (l <| m_pingReplyList := tail (m_pingReplyList l) |>). simpl. rewrite Hl. simpl.
    split_and!; try done; [by rewrite app_nil_r| |lia].
    unfold weight, SERVER_LATENCY_MAX_RETRIES. lia.
Qed.

Lemma retryOverdue_spec (e : Env) (fuel : nat) (old new : list ServerPingRecord)
    (l : ServerLatency) :
  0 <= nowMSecs e < 2 ^ 62 -> m_pingReplyList l = old ++ new ->
  Forall (good (nowMSecs e)) (old ++ new) -> Forall (fun r => timestamp r = nowMSecs e) new ->
  (length old <= fuel)%nat ->
  exists l', retryOverdue fuel e l = Ret l' /\ retried (nowMSecs e) l l' /\
    (forall r, head (m_pingReplyList l') = Some r ->
       nowMSecs e < timestamp r + SERVER_LATENCY_TIMEOUT) /\
    (forall r, head (m_pingReplyList l) = Some r ->
       timestamp r + SERVER_LATENCY_TIMEOUT <= nowMSecs e ->
       weights (m_pingReplyList l') < weights (m_pingReplyList l)).
Proof.
  intros Ht. unfold SERVER_LATENCY_TIMEOUT.
  assert (u64 (nowMSecs e) = nowMSecs e) as Hnow by (unfold u64; rewrite Z.mod_small; lia).
  revert old new l. induction fuel as [|fuel IH]; intros old new l Hl Hg Hn Hf.
  all: cbn [retryOverdue]; rewrite Hl, Hnow; unfold SERVER_LATENCY_TIMEOUT.
  all: destruct (old ++ new) as [|r rest] eqn:E;
    [exists l; rewrite Hl; split_and!; [done|split_and!; rewrite ?Hl; done|done|done]|].
  all: inversion Hg as [|? ? [Hr Hretry] Hrest]; subst.
  all: assert (u64 (timestamp r + 5000) = timestamp r + 5000) as -> by (unfold u64; rewrite Z.mod_small; lia).
  all: destruct (Z.ltb_spec (nowMSecs e) (timestamp r + 5000)) as [Hlt|Hge];
    [exists l; rewrite Hl; split_and!; [done|split_and!; rewrite ?Hl; done
       |intros ? [= <-]; lia|intros ? [= <-] ?; lia]|].
  all: destruct old as [|r0 old]; simpl in E;
    [subst new; inversion Hn; lia|injection E as -> <-; simpl in Hf].
  { lia. }
  destruct (overdue_step e r (old ++ new) l) as (extra & l2 & -> & Hl2 & He & Hsame & Hq & Hw & Hlen);
    [done|lia|done|done|].
  destruct (IH old (new ++ extra) l2) as (l' & E' & (R1 & R2 & R3 & R4 & R5) & Hh & _).
  - by rewrite Hl2, app_assoc.
  - rewrite app_assoc. apply Forall_app. split; [done|].
    eapply Forall_impl; [exact He|]. simpl. by intros ? [? ?].
  - apply Forall_app. split; [done|]. eapply Forall_impl; [exact He|]. by intros ? [? ?].
  - lia.
  - exists l'. split; [done|]. split; [|split; [done|]].
    + split_and!; try done; [by etrans|congruence|rewrite Hl; simpl; lia|rewrite Hl; lia].
    + intros ? [= <-] _. lia.
Qed.

(** What a pass of the second loop leaves. *)
Definition filled (t : Z) (l l' : ServerLatency) : Prop :=
  sameRest l l' /\ Forall (good t) (m_pingReplyList l') /\
  (length (m_pingReplyList l') <= SERVER_LATENCY_MAX_PARALLEL)%nat /\
  (length (m_pingReplyList l') + length (m_pingSendQueue l')
   = length (m_pingReplyList l) + length (m_pingSendQueue l))%nat /\
  measure l' = measure l /\
  (m_pingReplyList l' = [] -> m_pingSendQueue l' = []) /\
  (forall r, head (m_pingReplyList l') = Some r ->
     head (m_pingReplyList l) = Some r \/ timestamp r = t).

Lemma sendQueued_spec (e : Env) (queue : list ServerPingRecord) (l : ServerLatency) :
  0 <= nowMSecs e < 2 ^ 62 -> m_pingSendQueue l = queue ->
  Forall (good (nowMSecs e)) (m_pingReplyList l) ->
  (length (m_pingReplyList l) <= SERVER_LATENCY_MAX_PARALLEL)%nat ->
  filled (nowMSecs e) l (sendQueued queue e l).
Proof.
  intros Ht. assert (u64 (nowMSecs e) = nowMSecs e) as Hnow by (unfold u64; rewrite Z.mod_small; lia).
  revert l. induction queue as [|r rest IH]; intros l Hq Hg Hl; cbn [sendQueued];
    destruct (Nat.ltb_spec (length (m_pingReplyList l)) SERVER_LATENCY_MAX_PARALLEL) as [Hlt|Hge].
  1,2,4: split_and!; try done; auto; intros Hnil; rewrite Hnil in *; unfold SERVER_LATENCY_MAX_PARALLEL in *; simpl in *; lia.
  rewrite Hnow. cbv zeta.
  set (r' := r <| timestamp := nowMSecs e |> <| retries := 0 |>).
  set (l1 := sendPing r' (l <| m_pingSendQueue := rest |>)).
  assert (m_pingReplyList l1 = m_pingReplyList l ++ [r' <| sequence := m_sequence l |>]) as Hr1
    by done.
  assert (m_pingSendQueue l1 = rest) as Hq1 by done.
  destruct (IH l1) as (F1 & F2 & F3 & F4 & F5 & F6 & F7).
  - done.
  - rewrite Hr1. apply Forall_app. split; [done|]. repeat constructor; simpl;
      unfold SERVER_LATENCY_MAX_RETRIES; lia.
  - rewrite Hr1, length_app. simpl. lia.
  - rewrite Hr1, Hq1, length_app in F4. split_and!; try done.
    + rewrite Hq. simpl in *. lia.
    + rewrite F5. unfold measure. rewrite Hr1, Hq1, Hq, weights_app. cbn [length].
      assert (weights [r' <| sequence := m_sequence l |>] = 3) by done. lia.
    + intros x Hx. destruct (F7 x Hx) as [E|E]; [|by right]. rewrite Hr1 in E.
      destruct (m_pingReplyList l) as [|y ys]; [|by left]. right. by injection E as <-.
Qed.

(** *** The invariant *)

Definition latencySum (m : gmap chars Z) : Z := map_fold (fun _ v n => v + n) 0 m.

Lemma latencySum_insert (m : gmap chars Z) (k : chars) (v : Z) :
  latencySum (<[k := v]> m) = latencySum m - default 0 (m !! k) + v.
Proof.
  assert (forall m0 : gmap chars Z, m0 !! k = None -> forall x,
            latencySum (<[k := x]> m0) = x + latencySum m0) as Hins.
  { intros m0 E x. unfold latencySum. rewrite map_fold_insert_L; [done| |done]. intros; lia. }
  destruct (m !! k) as [x|] eqn:E; simpl; [|rewrite Hins by done; lia].
  rewrite <- (insert_delete_eq m), Hins by apply lookup_delete_eq.
  rewrite <- (insert_delete_id m k x E) at 2. rewrite Hins by apply lookup_delete_eq. lia.
Qed.

(** Whenever the measurement is idle, nothing is queued and no ping is awaited. *)
Definition idleClean (l : ServerLatency) : Prop :=
  m_pingSender l = None ->
  m_pingReplyList l = [] /\ m_pingSendQueue l = [] /\ m_pingTimeout l = None.

(** While it runs, a ping is awaited and its timeout is scheduled. *)
Definition awaited (l : ServerLatency) : Prop :=
  m_pingSender l <> None ->
  exists r, head (m_pingReplyList l) = Some r /\
    m_pingTimeout l = Some (timestamp r + SERVER_LATENCY_TIMEOUT).

Definition bounded (l : ServerLatency) : Prop :=
  (length (m_pingReplyList l) <= SERVER_LATENCY_MAX_PARALLEL)%nat /\
  Z.of_nat (length (m_pingReplyList l) + length (m_pingSendQueue l)) <= m_pingSendTotal l.

Definition Core (t : Z) (l : ServerLatency) : Prop :=
  m_sumLatencyMsec l = latencySum (m_latency l) /\ idleClean l /\ bounded l /\
  Forall (good t) (m_pingReplyList l).

Definition Inv (t : Z) (l : ServerLatency) : Prop := Core t l /\ awaited l.

Lemma stop_fields (e : Env) (l : ServerLatency) :
  m_pingSender (stop e l) = None /\ m_pingReplyList (stop e l) = [] /\
  m_pingSendQueue (stop e l) = [] /\ m_pingSendTotal (stop e l) = 0 /\
  m_pingTimeout (stop e l) = None /\ m_latency (stop e l) = m_latency l /\
  m_sumLatencyMsec (stop e l) = m_sumLatencyMsec l /\ m_cooldown (stop e l) = m_cooldown l.
Proof. unfold stop. repeat case_match; split_and!; done. Qed.

Lemma measure_stop_Inv (t : Z) (e : Env) (l : ServerLatency) :
  m_sumLatencyMsec l = latencySum (m_latency l) -> Inv t (stop e l).
Proof.
  intros Hs. destruct (stop_fields e l) as (E1 & E2 & E3 & E4 & E5 & E6 & E7 & _).
  unfold Inv, Core, idleClean, bounded, awaited. rewrite E1, E2, E3, E4, E5, E6, E7.
  split_and!; try done; unfold SERVER_LATENCY_MAX_PARALLEL; simpl; lia.
Qed.

Lemma timeout_deadline (e : Env) (sent : Z) :
  0 <= nowMSecs e - sent < SERVER_LATENCY_TIMEOUT ->
  startTimer (checkedSub SERVER_LATENCY_TIMEOUT (s32 (nowMSecs e - sent))) e
  = Some (sent + SERVER_LATENCY_TIMEOUT).
Proof.
  unfold SERVER_LATENCY_TIMEOUT. intros Hd.
  assert (forall x, 0 <= x < 2 ^ 31 -> s32 x = x) as Hs.
  { intros x Hx. unfold s32, u32. rewrite Z.mod_small by lia.
    destruct (Z.ltb_spec x (2 ^ 31)); lia. }
  rewrite Hs by lia. unfold checkedSub.
  destruct (Z.leb_spec (- 2 ^ 31) (5000 - (nowMSecs e - sent))); [|lia].
  destruct (Z.ltb_spec (5000 - (nowMSecs e - sent)) (2 ^ 31)); [|lia]. cbn [andb].
  unfold startTimer. rewrite Hs by lia.
  destruct (Z.ltb_spec (5000 - (nowMSecs e - sent)) 0); [lia|]. f_equal. lia.
Qed.

(** The end of a pass, over replies the oldest of which is not overdue. *)
Lemma awaitReply_spec (e : Env) (l : ServerLatency) :
  m_pingSender l <> None -> Core (nowMSecs e) l ->
  (forall r, head (m_pingReplyList l) = Some r ->
     nowMSecs e < timestamp r + SERVER_LATENCY_TIMEOUT) ->
  Inv (nowMSecs e) (awaitReply e l) /\ m_latency (awaitReply e l) = m_latency l /\
  m_cooldown (awaitReply e l) = m_cooldown l /\
  (m_pingSender (awaitReply e l) <> None -> measure (awaitReply e l) = measure l).
Proof.
  intros Hsnd (Hs & Hi & Hb & Hg) Hh. unfold awaitReply.
  destruct (m_pingReplyList l) as [|r rest] eqn:El.
  - destruct (stop_fields e l) as (S1 & _ & _ & _ & _ & S2 & _ & S3).
    split; [by apply measure_stop_Inv|]. by rewrite S1, S2, S3.
  - inversion Hg as [|? ? [[? ?] _] _]; subst. specialize (Hh r eq_refl).
    rewrite timeout_deadline by (unfold SERVER_LATENCY_TIMEOUT in *; lia).
    split; [|done]. split.
    + split; [done|]. split; [intros E; by cbn in E|]. split; [exact Hb|]. cbn. by rewrite El.
    + intros _. exists r. cbn. by rewrite El.
Qed.

Lemma noteUpdate_fields (e : Env) (l : ServerLatency) :
  sameRest l (noteUpdate e l) /\ m_pingReplyList (noteUpdate e l) = m_pingReplyList l /\
  m_pingSendQueue (noteUpdate e l) = m_pingSendQueue l.
Proof. unfold noteUpdate. case_match; done. Qed.

(** The measurement goes on: a pass over the replies and the queue. *)
Lemma maybeSendPings_spec (e : Env) (l : ServerLatency) :
  0 <= nowMSecs e < 2 ^ 62 -> Core (nowMSecs e) l ->
  exists l', maybeSendPings e l = Ret l' /\ (m_pingSender l <> None -> Inv (nowMSecs e) l') /\
    (m_pingSender l = None -> l' = l) /\
    m_latency l' = m_latency l /\ m_cooldown l' = m_cooldown l /\
    (m_pingSender l' <> None ->
     measure l' <= measure l /\
     (forall r, head (m_pingReplyList l) = Some r ->
        timestamp r + SERVER_LATENCY_TIMEOUT <= nowMSecs e -> measure l' < measure l)).
Proof.
  intros Ht (Hs & Hi & [Hb1 Hb2] & Hg). unfold maybeSendPings.
  destruct (m_pingSender l) as [snd|] eqn:Esnd; [|exists l; by rewrite Esnd].
  destruct (retryOverdue_spec e (S (length (m_pingReplyList l))) (m_pingReplyList l) [] l)
    as (l1 & -> & (R1 & R2 & R3 & R4 & R5) & Hh & Hlt);
    [done|by rewrite app_nil_r|by rewrite app_nil_r|done|lia|].
  destruct (sendQueued_spec e (m_pingSendQueue l1) l1) as (F1 & F2 & F3 & F4 & F5 & F6 & F7);
    [done|done|done|lia|].
  cbn [outcome_bind]. set (l2 := sendQueued (m_pingSendQueue l1) e l1) in *.
  destruct (noteUpdate_fields e l2) as (N1 & N2 & N3). set (l3 := noteUpdate e l2) in *.
  assert (sameRest l l3) as (G1 & G2 & G3 & G4 & G5) by (etrans; [exact R1|by etrans]).
  assert (measure l3 = measure l1) as Hm by (rewrite <- F5; unfold measure; by rewrite N2, N3).
  clearbody l3. destruct (awaitReply_spec e l3) as (A1 & A2 & A3 & A4).
  - congruence.
  - split; [congruence|]. split; [unfold idleClean; congruence|].
    split; [|by rewrite N2]. unfold bounded. rewrite N2, N3, F4, R2, G2. split; [done|lia].
  - intros r Hr. rewrite N2 in Hr. destruct (F7 r Hr) as [E|E]; [auto|].
    unfold SERVER_LATENCY_TIMEOUT. lia.
  - eexists. split; [done|]. split; [done|]. split; [done|]. split; [congruence|].
    split; [congruence|]. intros Hn. rewrite (A4 Hn), Hm. unfold measure. rewrite R2.
    split; [lia|]. intros r Hr Hover. specialize (Hlt r Hr Hover). lia.
Qed.

(** *** The other operations *)

(** Operations that change only the cities, the cooldowns and other timers. *)
Definition samePings (l l' : ServerLatency) : Prop :=
  m_pingSender l' = m_pingSender l /\ m_pingSendTotal l' = m_pingSendTotal l /\
  m_latency l' = m_latency l /\ m_sumLatencyMsec l' = m_sumLatencyMsec l /\
  m_pingReplyList l' = m_pingReplyList l /\ m_pingSendQueue l' = m_pingSendQueue l /\
  m_pingTimeout l' = m_pingTimeout l.

#[local] Instance samePings_preorder : PreOrder samePings.
Proof.
  split; [by intros l|]. intros l1 l2 l3 (? & ? & ? & ? & ? & ? & ?) (? & ? & ? & ? & ? & ? & ?).
  split_and!; congruence.
Qed.

Lemma samePings_Inv (t : Z) (l l' : ServerLatency) : samePings l l' -> Inv t l -> Inv t l'.
Proof.
  intros (E1 & E2 & E3 & E4 & E5 & E6 & E7).
  unfold Inv, Core, idleClean, bounded, awaited. by rewrite E1, E2, E3, E4, E5, E6, E7.
Qed.

Lemma updateCity_same country city f (l : ServerLatency) : samePings l (updateCity country city f l).
Proof. unfold updateCity. case_match; done. Qed.

Lemma updateCity_cooldown country city f (l : ServerLatency) :
  m_cooldown (updateCity country city f l) = m_cooldown l.
Proof. unfold updateCity. case_match; done. Qed.

Lemma updateConnectionScore_same pubkey (e : Env) (l : ServerLatency) :
  samePings l (updateConnectionScore pubkey e l).
Proof. apply updateCity_same. Qed.

Lemma scheduleCooldown_same timeout (e : Env) (l : ServerLatency) :
  samePings l (scheduleCooldown timeout e l).
Proof. unfold scheduleCooldown. case_match; done. Qed.

Lemma setCooldown_same pubkey timeout (e : Env) (l : ServerLatency) :
  samePings l (setCooldown pubkey timeout e l).
Proof.
  unfold setCooldown. etrans; [|apply scheduleCooldown_same].
  etrans; [|apply updateConnectionScore_same]. case_match; done.
Qed.

Lemma setCityCooldown_same country city timeout (e : Env) (l : ServerLatency) :
  samePings l (setCityCooldown country city timeout e l).
Proof.
  unfold setCityCooldown. case_match; [done|].
  etrans; [|apply scheduleCooldown_same]. etrans; [|apply updateCity_same]. done.
Qed.

Lemma clearCooldown_same (e : Env) (acc : Z * ServerLatency) pubkey :
  samePings acc.2 (clearCooldown e acc pubkey).2.
Proof.
  destruct acc as [next l]. unfold clearCooldown. case_match; [done|]. simpl.
  etrans; [|apply updateConnectionScore_same]. done.
Qed.

Lemma clearCooldowns_same (e : Env) (l : ServerLatency) : samePings l (clearCooldowns e l).
Proof.
  unfold clearCooldowns.
  assert (forall keys acc, samePings acc.2 (foldl (clearCooldown e) acc keys).2) as Hf.
  { induction keys as [|k keys IH]; intros acc; simpl; [done|].
    etrans; [apply clearCooldown_same|apply IH]. }
  specialize (Hf (map fst (map_to_list (m_cooldown l))) (0, l <| m_cooldownTimer := None |>)).
  destruct (foldl _ _ _) as [next l']. simpl in Hf.
  etrans; [|case_match; [|reflexivity]]; [etrans; [|exact Hf]; done|done].
Qed.

Lemma Core_mono (t t' : Z) (l : ServerLatency) : t <= t' -> Core t l -> Core t' l.
Proof.
  intros Ht (Hs & Hi & Hb & Hg). split_and!; try done; [apply Hb..|].
  eapply Forall_impl; [exact Hg|]. intros r [? ?]. split; [lia|done].
Qed.

Lemma createSender_fields (e : Env) (l : ServerLatency) :
  m_pingSender (createSender e l) <> None /\ m_latency (createSender e l) = m_latency l /\
  m_sumLatencyMsec (createSender e l) = m_sumLatencyMsec l /\
  m_pingReplyList (createSender e l) = m_pingReplyList l.
Proof. unfold createSender. destruct (icmpValid e); done. Qed.

Lemma prepare_fields (e : Env) (l : ServerLatency) :
  m_pingSender (prepare e l) <> None /\ m_latency (prepare e l) = m_latency l /\
  m_sumLatencyMsec (prepare e l) = m_sumLatencyMsec l /\
  m_pingReplyList (prepare e l) = m_pingReplyList l /\
  m_pingSendTotal (prepare e l) = Z.of_nat (length (m_pingSendQueue (prepare e l))).
Proof.
  unfold prepare. cbv zeta. set (l0 := _ <| m_hasIPv4Connectivity := _ |>).
  destruct (createSender_fields e l0) as (C1 & C2 & C3 & C4).
  set (l1 := createSender e l0) in *. generalize (enqueueAll e l1). intros queue.
  split; [exact C1|]. split; [exact C2|]. split; [exact C3|]. split; [exact C4|reflexivity].
Qed.

(** The start of a measurement keeps the invariant. *)
Lemma start_Inv (e : Env) (l : ServerLatency) :
  0 <= nowMSecs e < 2 ^ 62 -> Inv (nowMSecs e) l ->
  exists l', start e l = Ret l' /\ Inv (nowMSecs e) l'.
Proof.
  intros Ht HI. pose proof HI as [(Hs & Hi & Hb & Hg) Hw]. unfold start.
  destruct (serverConnectionScore e); cbn [negb].
  2: { eexists. split; [done|]. split; [|exact Hw]. by split_and!. }
  destruct (negb _); [by eexists|].
  destruct (m_pingSender l) as [snd|] eqn:E; [by eexists|]. destruct (Hi E) as (Hr & Hq & Hpt).
  destruct (prepare_fields e l) as (L1 & L2 & L3 & L4 & L5).
  set (l1 := prepare e l) in *. clearbody l1. destruct (maybeSendPings_spec e l1) as (l' & -> & HI' & _); [done| |by exists l'; auto].
  split; [congruence|]. split; [done|]. unfold bounded. rewrite L4, L5, Hr.
  split; [split; [unfold SERVER_LATENCY_MAX_PARALLEL|]; simpl; lia|done].
Qed.

Lemma takeReply_some (seq : Z) (l : list ServerPingRecord) r rest :
  takeReply seq l = Some (r, rest) -> sequence r = seq /\ l ≡ₚ r :: rest.
Proof.
  revert r rest. induction l as [|x l IH]; intros r rest; simpl; [done|].
  destruct (Z.eqb_spec (sequence x) seq) as [E|E]; [by intros [= <- <-]|].
  destruct (takeReply seq l) as [[y rest']|]; simpl; [|done].
  intros [= <- <-]. destruct (IH y rest' eq_refl) as [-> ->]. split; [done|]. constructor.
Qed.

Lemma setLatency_fields pubkey msec (e : Env) (l : ServerLatency) :
  samePings (l <| m_sumLatencyMsec := m_sumLatencyMsec l - getLatency pubkey l + msec |>
               <| m_latency := <[pubkey := msec]> (m_latency l) |>) (setLatency pubkey msec e l).
Proof. apply updateConnectionScore_same. Qed.

Lemma setLatency_Core t pubkey msec (e : Env) (l : ServerLatency) :
  Core t l -> Core t (setLatency pubkey msec e l).
Proof.
  intros (Hs & Hi & Hb & Hg).
  destruct (setLatency_fields pubkey msec e l) as (E1 & E2 & E3 & E4 & E5 & E6 & E7).
  unfold Core, idleClean, bounded. rewrite E1, E2, E3, E4, E5, E6, E7. cbn.
  split; [|by split]. unfold getLatency. rewrite latencySum_insert. lia.
Qed.

Lemma recvPing_Inv (seq : Z) (e : Env) (l : ServerLatency) :
  0 <= nowMSecs e < 2 ^ 62 -> Inv (nowMSecs e) l ->
  exists l', recvPing seq e l = Ret l' /\ Inv (nowMSecs e) l'.
Proof.
  intros Ht [HC Hw]. unfold recvPing.
  destruct (takeReply seq (m_pingReplyList l)) as [[r rest]|] eqn:E; [|by exists l].
  apply takeReply_some in E as [_ Hperm].
  set (l1 := if _ <=? _ then _ else l).
  assert (Core (nowMSecs e) l1 /\ m_pingReplyList l1 = m_pingReplyList l /\
          m_pingSender l1 = m_pingSender l) as (HC1 & Hr1 & Hs1).
  { subst l1. case_match; [|done]. split; [by apply setLatency_Core|].
    by destruct (setLatency_fields (publicKey r) (nowMSecs e - timestamp r) e l)
      as (-> & _ & _ & _ & -> & _). }
  clearbody l1. destruct HC1 as (Ks & Ki & [Kb1 Kb2] & Kg).
  assert (m_pingSender l1 <> None) as Hn.
  { intros En. destruct (Ki En) as (En' & _). rewrite Hr1 in En'. rewrite En' in Hperm.
    by apply Permutation_nil_l in Hperm. }
  rewrite Hr1, Hperm in Kg. rewrite Hr1, (Permutation_length Hperm) in Kb1, Kb2. simpl in Kb1, Kb2.
  destruct (maybeSendPings_spec e (l1 <| m_pingReplyList := rest |>)) as (l' & -> & HI' & _);
    [done| |by exists l'; auto].
  split; [done|]. split; [by intros En|]. inversion_clear Kg.
  split; [split; cbn; lia|done].
Qed.

Lemma Inv_mono (t t' : Z) (l : ServerLatency) : t <= t' -> Inv t l -> Inv t' l.
Proof. intros Ht [HC Hw]. split; [by eapply Core_mono|done]. Qed.

Lemma clear_Inv t (l : ServerLatency) : Inv t l -> Inv t (clear l).
Proof. intros [(Hs & Hi & Hb & Hg) Hw]. split; [by split_and!|exact Hw]. Qed.

Lemma measure_handle_Inv (ev : Event) (e : Env) (l : ServerLatency) :
  0 <= nowMSecs e < 2 ^ 62 -> Inv (nowMSecs e) l ->
  exists l', handle ev e l = Ret l' /\ Inv (nowMSecs e) l'.
Proof.
  intros Ht HI.
  assert (forall l', samePings l l' -> exists l1, Ret l' = Ret l1 /\ Inv (nowMSecs e) l1) as Hsame
    by (intros l' Hl; exists l'; split; [done|by eapply samePings_Inv]).
  assert (forall l', samePings l l' -> Inv (nowMSecs e) l') as Hsame'
    by (intros l' Hl; by eapply samePings_Inv).
  destruct ev; cbn [handle].
  - apply Hsame. unfold initialize. case_match; done.
  - by apply start_Inv, Hsame'.
  - unfold stateChanged. case_match; [|case_match; [by apply start_Inv|by exists l]].
    eexists. split; [done|]. apply measure_stop_Inv. apply HI.
  - destruct (m_pingSender l) as [snd|] eqn:E.
    + destruct (maybeSendPings_spec e l) as (l' & -> & HI' & _); [done|apply HI|].
      exists l'. split; [done|]. apply HI'. by rewrite E.
    + unfold maybeSendPings. rewrite E. by exists l.
  - by apply start_Inv, Hsame'.
  - by apply Hsame.
  - apply Hsame, clearCooldowns_same.
  - by apply recvPing_Inv.
  - unfold refresh. case_match; [by exists l|]. by apply start_Inv, clear_Inv.
  - apply Hsame, setCooldown_same.
  - apply Hsame, setCityCooldown_same.
Qed.

Lemma measure_reachable_Inv (t : Z) (l : ServerLatency) : Reachable t l -> 0 <= t /\ Inv t l.
Proof.
  induction 1 as [t m Ht|t l ev e l' _ [IH0 IH] Ht _ Hh].
  - split; [done|]. split; [|intros Hn; by cbn in Hn].
    split; [done|]. split; [done|]. split; [|constructor].
    split; cbn; [unfold SERVER_LATENCY_MAX_PARALLEL|]; lia.
  - split; [lia|]. destruct (measure_handle_Inv ev e l) as (l1 & E & HI); [lia|by eapply Inv_mono; [|exact IH]; lia|].
    congruence.
Qed.

End Pings.

(** ** Theorems *)

Section Theorems.
Context `{QHostAddressText} `{QtJson}.

(** C21: what holds of the measurement in every reachable state, for a clock that does
    not go back. The sum kept for the average is the sum of the latencies; at most
    eight pings are in flight, none has been repeated more than twice, and what is
    in flight or queued is at most the total that the progress is computed from;
    when no measurement runs nothing is left over, and while one runs a ping is
    awaited and the timer is set to its timeout. Every event is handled: the loops
    end within their bounds. *)
Theorem reachable_measurement (t : Z) (l : ServerLatency) :
  Reachable t l ->
  m_sumLatencyMsec l = latencySum (m_latency l) /\
  (length (m_pingReplyList l) <= 8)%nat /\
  Forall (fun r => 0 <= retries r <= 2 /\ 0 <= timestamp r <= t) (m_pingReplyList l) /\
  Z.of_nat (length (m_pingReplyList l) + length (m_pingSendQueue l)) <= m_pingSendTotal l /\
  (m_pingSender l = None ->
   m_pingReplyList l = [] /\ m_pingSendQueue l = [] /\ m_pingTimeout l = None) /\
  (m_pingSender l <> None ->
   exists r, head (m_pingReplyList l) = Some r /\ m_pingTimeout l = Some (timestamp r + 5000)) /\
  (forall ev e, t <= nowMSecs e < 2 ^ 62 -> exists l', handle ev e l = Ret l').
Proof.
  intros Hr. apply measure_reachable_Inv in Hr as (Ht & (Hs & Hi & [Hb1 Hb2] & Hg) & Hw).
  split_and!; try done.
  - eapply Forall_impl; [exact Hg|]. by intros r [? ?].
  - intros ev e He. destruct (measure_handle_Inv ev e l) as (l' & E & _); [lia| |by exists l'].
    apply (Inv_mono t); [lia|]. done.
Qed.

(** A number of expirations of the ping timeout, and nothing else. *)
Inductive Expirations : Z -> nat -> ServerLatency -> ServerLatency -> Prop :=
| Expirations_O t l : Expirations t 0 l l
| Expirations_S t n l e l1 l2 :
    t <= nowMSecs e < 2 ^ 62 -> enabled PingTimeout e l -> handle PingTimeout e l = Ret l1 ->
    Expirations (nowMSecs e) n l1 l2 -> Expirations t (S n) l l2.

Lemma expiration_measure (e : Env) (l l' : ServerLatency) :
  0 <= nowMSecs e < 2 ^ 62 -> Inv (nowMSecs e) l -> due (m_pingTimeout l) e ->
  maybeSendPings e l = Ret l' ->
  Inv (nowMSecs e) l' /\ (m_pingSender l' <> None -> measure l' < measure l).
Proof.
  intros Ht [HC Hw] Hd E. destruct (maybeSendPings_spec e l Ht HC) as (l1 & E1 & HI & _ & _ & _ & Hm).
  assert (l1 = l') as -> by congruence.
  destruct (m_pingSender l) as [snd|] eqn:Es.
  - split; [by apply HI|]. intros Hn. destruct (Hm Hn) as [_ Hlt].
    destruct Hw as (r & Hr & Hp); [by rewrite Es|]. apply (Hlt r Hr). by rewrite Hp in Hd.
  - destruct HC as (_ & Hi & _). destruct (Hi Es) as (_ & _ & Hn). by rewrite Hn in Hd.
Qed.

Lemma measure_bound (t : Z) (l : ServerLatency) :
  Inv t l -> m_pingSender l <> None -> 1 <= measure l <= 3 * m_pingSendTotal l.
Proof.
  intros [(_ & _ & [_ Hb] & Hg) Hw] Hn. apply weights_nonneg in Hg as Hwt.
  destruct (Hw Hn) as (r & Hr & _). unfold measure.
  destruct (m_pingReplyList l) as [|x xs]; [done|]. cbn [length] in *. lia.
Qed.

(** A measurement ends even if no server ever answers. From any reachable state
    in which one runs, it is over after fewer expirations of the timeout than three
    for each of its servers. *)
Theorem timeouts_stop (t : Z) (n : nat) (l l' : ServerLatency) :
  Reachable t l -> Expirations t n l l' -> m_pingSender l' <> None ->
  Z.of_nat n < 3 * m_pingSendTotal l.
Proof.
  intros Hr Hx Hn. apply measure_reachable_Inv in Hr as [Ht HI].
  assert (m_pingSender l <> None /\ Z.of_nat n < measure l) as [Hs Hm].
  { induction Hx as [t l|t n l e l1 l2 Hte Hen Hh Hx IH]; 
      [split; [done|]; pose proof (measure_bound t l HI Hn); lia|].
    apply (Inv_mono _ (nowMSecs e)) in HI; [|lia].
    destruct (expiration_measure e l l1) as [HI1 Hlt]; [lia|done|done|done|].
    destruct IH as [Hs1 Hm1]; [lia|done|done|]. specialize (Hlt Hs1). split; [|lia].
    intros E. destruct HI as [(_ & Hi & _) _]. destruct (Hi E) as (_ & _ & Ep).
    cbn in Hen. by rewrite Ep in Hen. }
  pose proof (measure_bound t l HI Hs). lia.
Qed.

(** The average latency shown is the mean of all the latencies known, rounded up. *)
Theorem avgLatency_mean (t : Z) (l : ServerLatency) :
  Reachable t l -> m_latency l <> ∅ -> 0 <= latencySum (m_latency l) ->
  let n := Z.of_nat (base.size (m_latency l)) in
  n * (avgLatency l - 1) < latencySum (m_latency l) <= n * avgLatency l.
Proof.
  intros Hr Hne Hsum n. apply measure_reachable_Inv in Hr as (_ & (Hs & _) & _).
  unfold avgLatency. rewrite bool_decide_false, Hs by done. fold n.
  assert (base.size (m_latency l) <> 0%nat) by (by rewrite map_size_empty_iff).
  assert (0 < n) by lia.
  rewrite Z.quot_div_nonneg by lia. Z.to_euclidean_division_equations. nia.
Qed.

Lemma activeServerCount_zero city (e : Env) (l : ServerLatency) :
  activeServerCount city e l = 0 <->
  forall pk, pk ∈ ServerList.m_servers city -> nowSecs e < getCooldown pk l.
Proof.
  unfold activeServerCount. induction (ServerList.m_servers city) as [|pk rest IH]; simpl.
  - split; [intros _ pk Hpk; by apply not_elem_of_nil in Hpk|done].
  - destruct (Z.leb_spec (getCooldown pk l) (nowSecs e)) as [Hle|Hgt]; simpl.
    + split; [lia|]. intros Hall. specialize (Hall pk ltac:(left)). lia.
    + rewrite IH. split; intros Hall x Hx; [|apply Hall; by right].
      apply elem_of_cons in Hx as [->|Hx]; [done|by apply Hall].
Qed.

Lemma baseCityScore_range city origin (e : Env) (l : ServerLatency) :
  if decide (activeServerCount city e l = 0) then baseCityScore city origin e l = Unavailable
  else Poor <= baseCityScore city origin e l <= 3.
Proof.
  unfold baseCityScore, Unavailable, Poor, Excellent.
  destruct (Z.eqb_spec (activeServerCount city e l) 0); case_decide; try done.
  repeat case_match; lia.
Qed.

(** The scores. A city is unavailable exactly when all its servers are cooling
    down; otherwise its score is between poor and excellent. The score, and the
    average of the latencies of its servers rounded up, are stored in that city and
    in no other. *)
Theorem updateConnectionScore_spec (pubkey : chars) (e : Env) (l : ServerLatency)
    (city : ServerList.ServerCity) :
  let server := ServerList.server pubkey (model l) in
  let key := cityKey (Server.m_countryCode server) (Server.m_cityName server) in
  ServerList.m_cities (model l) !! key = Some city ->
  let l' := updateConnectionScore pubkey e l in
  exists city',
    ServerList.m_cities (model l') = <[key := city']> (ServerList.m_cities (model l)) /\
    nullCity l' = nullCity l /\
    ServerList.m_latency city' = cityLatency city l /\
    ServerList.m_servers city' = ServerList.m_servers city /\
    (ServerList.m_connectionScore city' = Unavailable <->
       forall pk, pk ∈ ServerList.m_servers city -> nowSecs e < getCooldown pk l) /\
    (ServerList.m_connectionScore city' <> Unavailable ->
       Poor <= ServerList.m_connectionScore city' <= Excellent).
Proof.
  intros server key Hc l'. subst l'. unfold updateConnectionScore. fold server.
  unfold findCity, updateCity. fold key. rewrite Hc. cbn [default].
  eexists. split; [reflexivity|]. split; [done|]. split; [done|]. split; [done|].
  cbn. rewrite <- activeServerCount_zero. unfold connectionScore.
  pose proof (baseCityScore_range city (userCountry e) e l) as Hb.
  unfold Unavailable, Poor, Excellent in *.
  case_decide as Ha.
  - rewrite Hb. simpl. split; [done|lia].
  - destruct (Z.leb_spec (baseCityScore city (userCountry e) e l) (-1)); [lia|].
    simpl. repeat case_match; split; try split; lia.
Qed.

(** *** Cooldowns *)

Lemma updateConnectionScore_timer pubkey (e : Env) (l : ServerLatency) :
  m_cooldownTimer (updateConnectionScore pubkey e l) = m_cooldownTimer l.
Proof. unfold updateConnectionScore, updateCity. cbv zeta. case_match; done. Qed.

Lemma updateConnectionScore_cooldown pubkey (e : Env) (l : ServerLatency) :
  m_cooldown (updateConnectionScore pubkey e l) = m_cooldown l.
Proof. apply updateCity_cooldown. Qed.

Lemma clearCooldown_fold (e : Env) (keys : list chars) (acc : Z * ServerLatency) (k : chars) (x : Z) :
  m_cooldown (foldl (clearCooldown e) acc keys).2 !! k = Some x <->
    m_cooldown acc.2 !! k = Some x /\ (k ∈ keys -> nowSecs e < x).
Proof.
  revert acc. induction keys as [|key keys IH]; intros [next l]; simpl.
  { split; [|by intros [? _]]. intros E. split; [done|]. intros Hk. by apply not_elem_of_nil in Hk. }
  rewrite IH, elem_of_cons. clear IH. unfold clearCooldown.
  destruct (Z.ltb_spec (nowSecs e) (getCooldown key l)) as [Hlt|Hge]; simpl; unfold getCooldown in *.
  - split; intros [E Hx]; (split; [done|]); [|auto]. intros [->|Hk]; [|auto]. by rewrite E in Hlt.
  - rewrite updateConnectionScore_cooldown. simpl. rewrite lookup_delete_Some. split.
    + intros [[Hne E] Hx]. split; [done|]. intros [->|Hk]; [done|auto].
    + intros [E Hx]. split; [split; [|done]|auto]. intros ->. specialize (Hx (or_introl eq_refl)).
      rewrite E in Hge. simpl in Hge. lia.
Qed.

(** When the cooldown timer fires, exactly the cooldowns that have expired are
    forgotten. *)
Theorem clearCooldowns_spec (e : Env) (l : ServerLatency) :
  m_cooldown (clearCooldowns e l) =
    filter (fun kv => nowSecs e < kv.2) (m_cooldown l).
Proof.
  apply map_eq. intros k. apply option_eq. intros x.
  assert (m_cooldown (clearCooldowns e l) !! k = Some x <->
    m_cooldown l !! k = Some x /\ (k ∈ map fst (map_to_list (m_cooldown l)) -> nowSecs e < x)) as ->.
  { pose proof (clearCooldown_fold e (map fst (map_to_list (m_cooldown l)))
                  (0, l <| m_cooldownTimer := None |>) k x) as Hf.
    unfold clearCooldowns. destruct (foldl _ _ _) as [next l']. simpl in Hf.
    case_match; exact Hf. }
  rewrite map_lookup_filter_Some. simpl. split; intros [E Hx]; (split; [done|]); [|done].
  apply Hx, list_elem_of_fmap. exists (k, x). split; [done|]. by apply elem_of_map_to_list.
Qed.

(** The cooldown timer is started with seconds where milliseconds are meant. A
    cooldown of [timeout] seconds, set when no timer runs, makes the timer fire
    [timeout] milliseconds later, when the server is still cooling down; that
    wake-up removes nothing, and the time left, again in seconds, is what the timer
    is started with, so that it fires over and over until the cooldown is over. *)
Theorem setCooldown_wakes_early (pubkey : chars) (timeout : Z) (e e' : Env) (l : ServerLatency) :
  2 <= timeout < 2 ^ 31 -> 0 <= nowMSecs e -> m_cooldownTimer l = None -> m_cooldown l = ∅ ->
  nowMSecs e' = nowMSecs e + timeout ->
  let l1 := setCooldown pubkey timeout e l in
  m_cooldownTimer l1 = Some (nowMSecs e + timeout) /\
  enabled CooldownTimer e' l1 /\
  m_cooldown (clearCooldowns e' l1) = {[pubkey := nowSecs e + timeout]} /\
  m_cooldown l1 = {[pubkey := nowSecs e + timeout]}.
Proof.
  intros Ht He Hn Hc Htime. cbv zeta.
  assert (m_cooldown (setCooldown pubkey timeout e l) = {[pubkey := nowSecs e + timeout]}) as Hcool.
  { unfold setCooldown, scheduleCooldown. destruct (Z.leb_spec timeout 0); [lia|].
    case_match; cbn; rewrite updateConnectionScore_cooldown; cbn; by rewrite Hc. }
  assert (m_cooldownTimer (setCooldown pubkey timeout e l) = Some (nowMSecs e + timeout)) as Htimer.
  { unfold setCooldown, scheduleCooldown. destruct (Z.leb_spec timeout 0); [lia|].
    rewrite updateConnectionScore_timer. cbn. rewrite Hn. cbn. unfold startTimer, s32, u32.
    rewrite Z.mod_small by lia. destruct (Z.ltb_spec timeout (2 ^ 31)); [|lia].
    destruct (Z.ltb_spec timeout 0); [lia|done]. }
  split; [done|]. split; [cbn; rewrite Htimer; cbn; lia|]. split; [|done].
  assert (nowSecs e' < nowSecs e + timeout) as Hlt.
  { unfold nowSecs. rewrite Htime. Z.to_euclidean_division_equations. lia. }
  set (l1 := setCooldown pubkey timeout e l) in *. clearbody l1.
  apply map_eq. intros k. apply option_eq. intros x.
  pose proof (clearCooldown_fold e' (map fst (map_to_list (m_cooldown l1)))
                (0, l1 <| m_cooldownTimer := None |>) k x) as Hf.
  assert (m_cooldown (clearCooldowns e' l1) =
    m_cooldown (foldl (clearCooldown e') (0, l1 <| m_cooldownTimer := None |>)
                  (map fst (map_to_list (m_cooldown l1)))).2) as ->
    by (unfold clearCooldowns; destruct (foldl _ _ _); by case_match).
  rewrite Hf. cbn. rewrite Hcool. split; [by intros [? _]|]. intros E. split; [done|].
  intros _. apply lookup_singleton_Some in E as [_ <-]. done.
Qed.

End Theorems.

(** ** Witnesses *)

Section Witnesses.
#[local] Existing Instance modelHosts.
#[local] Existing Instance modelJson.

Definition sampleServer (key : chars) : Server.Server :=
  Server.mkServer (Some (key ++ qs "-wg")) (Some (qs "192.0.2.1")) (Some (qs "10.64.0.1")) None None
    [(51820, 51820)] (Some key) None 100 4000 (Some (qs "no")) (Some (qs "Oslo")).

(** Oslo, with two servers. *)
Definition sampleModel : ServerList.ServerCountryModel :=
  ServerList.mkModel _ emptyBytes
    [ServerList.mkServerCountry (qs "Norway") (qs "no") [qs "Oslo"]]
    {[ServerList.hashKey (qs "no") (qs "Oslo") :=
        ServerList.mkServerCity (Some (qs "no")) (Some (qs "Oslo")) (Some (qs "osl")) None
          JUndefined JUndefined [qs "oslo"; qs "oslo2"] 0 0]}
    (<[qs "oslo2" := sampleServer (qs "oslo2")]> {[qs "oslo" := sampleServer (qs "oslo")]}) [].

Definition sampleEnv (ms : Z) : Env :=
  mkEnv Controller.StateOff true true true (fun _ => doubleOfZ 0) (fun _ _ => doubleOfZ 0)
    (qs "no") ms.

Definition value (o : Outcome ServerLatency) : ServerLatency :=
  match o with Ret l => l | _ => construct sampleModel end.

(** A measurement that has begun, and one of whose servers has answered. *)
Definition begun : ServerLatency := value (handle Refresh (sampleEnv 1000) (construct sampleModel)).
Definition answered : ServerLatency := value (handle (RecvPing 0) (sampleEnv 1025) begun).

Lemma begun_reachable : Reachable 1000 begun.
Proof.
  apply (Reachable_step 0 (construct sampleModel) Refresh (sampleEnv 1000));
    [by apply Reachable_init|simpl; lia|done|vm_compute; reflexivity].
Qed.

Lemma answered_reachable : Reachable 1025 answered.
Proof.
  apply (Reachable_step 1000 begun (RecvPing 0) (sampleEnv 1025));
    [apply begun_reachable|simpl; lia|simpl; lia|vm_compute; reflexivity].
Qed.

Lemma reachable_measurement_witness :
  exists r, head (m_pingReplyList begun) = Some r /\ m_pingTimeout begun = Some (timestamp r + 5000).
Proof.
  apply (reachable_measurement 1000 begun begun_reachable). vm_compute. discriminate.
Defined.

Lemma timeouts_stop_witness :
  exists l, Expirations 1000 2 begun l /\ m_pingSender l <> None /\ 2 < 3 * m_pingSendTotal begun.
Proof.
  pose (l1 := value (handle PingTimeout (sampleEnv 6000) begun)).
  pose (l2 := value (handle PingTimeout (sampleEnv 11000) l1)).
  assert (Expirations 1000 2 begun l2) as Hx.
  { apply (Expirations_S _ _ _ (sampleEnv 6000) l1);
      [simpl; lia|vm_compute; discriminate|vm_compute; reflexivity|].
    apply (Expirations_S _ _ _ (sampleEnv 11000) l2);
      [simpl; lia|vm_compute; discriminate|vm_compute; reflexivity|]. constructor. }
  assert (m_pingSender l2 <> None) as Hn by (vm_compute; discriminate).
  exists l2. split; [exact Hx|]. split; [exact Hn|].
  exact (timeouts_stop 1000 2 begun l2 begun_reachable Hx Hn).
Defined.

Lemma avgLatency_mean_witness :
  avgLatency answered = 25 /\
  1 * (avgLatency answered - 1) < latencySum (m_latency answered) <= 1 * avgLatency answered.
Proof.
  split; [vm_compute; reflexivity|].
  refine (avgLatency_mean 1025 answered answered_reachable _ _);
    [vm_compute; discriminate|vm_compute; discriminate].
Defined.

Lemma updateConnectionScore_spec_witness :
  exists city', ServerList.m_connectionScore city' <> Unavailable /\
    Poor <= ServerList.m_connectionScore city' <= Excellent.
Proof.
  destruct (updateConnectionScore_spec (qs "oslo") (sampleEnv 1025) answered
    (findCity (Some (qs "no")) (Some (qs "Oslo")) answered))
    as (city' & _ & _ & _ & _ & H1 & H2); [vm_compute; reflexivity|].
  exists city'.
  assert (ServerList.m_connectionScore city' <> Unavailable) as Hn.
  { intros E. pose proof (proj1 H1 E (qs "oslo") ltac:(vm_compute; left)) as Hlt.
    vm_compute in Hlt. discriminate. }
  split; [exact Hn|exact (H2 Hn)].
Defined.

Lemma setCooldown_wakes_early_witness :
  m_cooldownTimer (setCooldown (qs "oslo") 300 (sampleEnv 5000) (construct sampleModel)) = Some 5300.
Proof.
  apply (setCooldown_wakes_early (qs "oslo") 300 (sampleEnv 5000) (sampleEnv 5300)
           (construct sampleModel)); [lia|simpl; lia|reflexivity|reflexivity|reflexivity].
Defined.

End Witnesses.

End ServerLatency.
