(* ===== verification/NetmgrUtils.v ===== *)
(** * The routing table of the kernel

    Model of [src/src/platforms/linux/netmgrutils.h]: the tests of the
    NetworkManager backend on the text of /proc/net/route, on error messages and on
    traffic counters. The decision whether a route of the main table keeps traffic
    out of the tunnel is shown to be a longest-prefix match over the routes the
    table lists. *)
From Stdlib Require Import ZArith Lia Ascii String.
From stdpp Require Import base numbers list gmap strings.
From S2P Require Import Prelude QHostAddress QString QtTextModel QStringExtra IPAddress.

Local Open Scope Z_scope.

Module NetmgrUtils.

(** ** The functions *)

Definition isDuplicateUuidError (message : chars) : bool :=
  let lower := toLower message in
  containsText (qs "uuid") lower && containsText (qs "already exists") lower.

Definition hasNewHandshakeTraffic (baselineRxBytes currentRxBytes : Z) : bool :=
  baselineRxBytes <? currentRxBytes.

Definition hasIpv4DefaultRoute (allowedIpRanges : list chars) : bool :=
  bool_decide (qs "0.0.0.0/0" ∈ allowedIpRanges).

(** The tokens from the first [dev] on. *)
Fixpoint afterDev (tokens : list chars) : option chars :=
  match tokens with
  | t :: ((u :: _) as r) => if bool_decide (t = qs "dev") then Some u else afterDev r
  | _ => None
  end.

Definition routeOutputUsesInterface (routeOutput interfaceName : chars) : bool :=
  match afterDev (split " "%char (simplified routeOutput)) with
  | Some t => bool_decide (t = interfaceName)
  | None => false
  end.

Definition routeHexToIpv4 `{QtNumbers} (value : chars) : Z :=
  match toUIntHex value with
  | None => 0
  | Some raw =>
      Z.lor (Z.lor (u32 (Z.shiftl (Z.land raw 255) 24)) (u32 (Z.shiftl (Z.land raw 65280) 8)))
        (Z.lor (Z.shiftr (Z.land raw 16711680) 8) (Z.shiftr (Z.land raw 4278190080) 24))
  end.

(** The loop of [bitCount] goes once round per binary digit. *)
Fixpoint bitCountLoop (value : positive) : Z :=
  match value with
  | xH => 1
  | xO value => bitCountLoop value
  | xI value => 1 + bitCountLoop value
  end.

Definition bitCount (value : Z) : Z :=
  match value with Zpos p => bitCountLoop p | _ => 0 end.

(** One line of the table, with the best prefix length and interface so far. *)
Definition routeLine `{QtNumbers} (probeIpv4 : Z) (best : Z * chars) (line : chars)
  : Z * chars :=
  if startsWithText (qs "Iface") line then best
  else
    let fields := split " "%char (simplified line) in
    match fields !! 0%nat, fields !! 1%nat, fields !! 7%nat with
    | Some field0, Some field1, Some field7 =>
        let destination := routeHexToIpv4 field1 in
        let mask := routeHexToIpv4 field7 in
        if bool_decide (Z.land probeIpv4 mask ≠ Z.land destination mask) then best
        else
          let prefixLength := bitCount mask in
          if best.1 <? prefixLength then (prefixLength, field0) else best
    | _, _, _ => best
    end.

Definition mainRouteBlocksInterface `{QtText} `{QtNumbers}
    (routeTable probeAddress interfaceName : chars) : bool :=
  match hostOfString probeAddress with
  | HostV4 probeIpv4 =>
      let '(bestPrefixLength, bestInterface) :=
        fold_left (routeLine probeIpv4) (splitSkipEmpty newline routeTable) (-1, []) in
      (0 <? bestPrefixLength) && negb (bool_decide (bestInterface = interfaceName))
  | _ => false
  end.

(** ** The table the kernel writes *)

(** A route: its interface, its destination network, and the columns that are not
    read. *)
Record Route : Type := mkRoute {
  iface : chars;
  network : Z;
  prefixLength : Z;
  middle : list chars;
  final : list chars;
  padding : nat;
}.

(** The bytes of an address in the other order, as /proc/net/route shows them on a
    little-endian machine. *)
Definition swapBytes (v : Z) : Z :=
  Z.lor (Z.lor (Z.shiftl (Z.land v 255) 24) (Z.shiftl (Z.land v 65280) 8))
    (Z.lor (Z.shiftr (Z.land v 16711680) 8) (Z.shiftr (Z.land v 4278190080) 24)).

Definition maskOf (p : Z) : Z :=
  match IPAddress.netmask (IPAddress.mkIPAddress (HostV4 0) p) with HostV4 m => m | _ => 0 end.

Definition routeFields (r : Route) : list chars :=
  iface r :: hex8 (swapBytes (network r)) :: middle r
  ++ hex8 (swapBytes (maskOf (prefixLength r))) :: final r.

Definition tab : chars := [ascii_of_nat 9].

Definition printRoute (r : Route) : chars :=
  join tab (routeFields r) ++ replicate (padding r) " "%char.

Definition routeHeader : chars :=
  qs "Iface" ++ tab ++ qs "Destination" ++ tab ++ qs "Gateway " ++ tab ++ qs "Flags" ++ tab
  ++ qs "RefCnt" ++ tab ++ qs "Use" ++ tab ++ qs "Metric" ++ tab ++ qs "Mask" ++ tab ++ tab
  ++ qs "MTU" ++ tab ++ qs "Window" ++ tab ++ qs "IRTT".

Definition procNetRoute (routes : list Route) : chars :=
  concat (map (fun l => l ++ [newline]) (routeHeader :: map printRoute routes)).

(** ** What a route means *)

Definition wf_route (r : Route) : Prop :=
  word (iface r) /\ startsWithText (qs "Iface") (iface r) = false
  /\ 0 <= network r < 2 ^ 32 /\ 0 <= prefixLength r <= 32
  /\ length (middle r) = 5%nat /\ Forall word (middle r) /\ Forall word (final r).

#[export] Instance wf_route_dec (r : Route) : Decision (wf_route r).
Proof. unfold wf_route. apply _. Defined.

(** The route's network contains the address. *)
Definition covers (a : Z) (r : Route) : bool :=
  IPAddress.contains (IPAddress.mkIPAddress (HostV4 (network r)) (prefixLength r)) (HostV4 a).

(** [r] is the route the table gives an address: no other that covers it is more
    specific, and it comes first among the equally specific ones. *)
Definition selected (a : Z) (routes : list Route) (r : Route) : Prop :=
  exists before after, routes = before ++ r :: after /\ covers a r = true
  /\ (forall r', r' ∈ before -> covers a r' = true -> prefixLength r' < prefixLength r)
  /\ (forall r', r' ∈ after -> covers a r' = true -> prefixLength r' <= prefixLength r).

(** ** Masks *)

Lemma maskOf_bits (p i : Z) :
  0 <= p <= 32 -> 0 <= i < 32 -> Z.testbit (maskOf p) (31 - i) = (i <? p).
Proof. intros Hp Hi. exact (IPAddress.netmask_bits_v4 0 p i Hp Hi). Qed.

Lemma maskOf_all (P : Z -> Prop) (p : Z) :
  0 <= p <= 32 -> (forall k, (k <= 32)%nat -> P (maskOf (Z.of_nat k))) -> P (maskOf p).
Proof. intros Hp H. rewrite <- (Z2Nat.id p) by lia. apply H. lia. Qed.

Lemma maskOf_range (p : Z) : 0 <= p <= 32 -> 0 <= maskOf p < 2 ^ 32.
Proof.
  intros Hp. apply (maskOf_all (fun m => 0 <= m < 2 ^ 32)); [done|].
  intros k Hk. do 33 (destruct k as [|k]; [by vm_compute|]). lia.
Qed.

Lemma bitCount_maskOf (p : Z) : 0 <= p <= 32 -> bitCount (maskOf p) = p.
Proof.
  intros Hp. rewrite <- (Z2Nat.id p) by lia.
  assert (Z.to_nat p <= 32)%nat as Hk by lia. revert Hk. generalize (Z.to_nat p).
  intros k Hk. do 33 (destruct k as [|k]; [by vm_compute|]). lia.
Qed.

(** Masked addresses agree when the addresses agree on the prefix. *)
Lemma masked_covers (a : Z) (r : Route) :
  0 <= a < 2 ^ 32 -> 0 <= network r < 2 ^ 32 -> 0 <= prefixLength r <= 32 ->
  Z.land a (maskOf (prefixLength r)) = Z.land (network r) (maskOf (prefixLength r))
  <-> covers a r = true.
Proof.
  intros Ha Hn Hp. unfold covers. rewrite IPAddress.contains_v4 by done. cbn [abit].
  split.
  - intros E i Hi. apply (f_equal (fun z => Z.testbit z (31 - i))) in E.
    rewrite !Z.land_spec, maskOf_bits in E by lia.
    destruct (Z.ltb_spec i (prefixLength r)); [|lia]. by rewrite !andb_true_r in E.
  - intros E. apply Z.bits_inj'. intros n Hb. rewrite !Z.land_spec.
    destruct (decide (n < 32)) as [Hlt|Hge].
    + replace n with (31 - (31 - n)) by lia. rewrite maskOf_bits by lia.
      destruct (Z.ltb_spec (31 - n) (prefixLength r)); [|by rewrite !andb_false_r].
      by rewrite E by lia.
    + assert (Z.testbit (maskOf (prefixLength r)) n = false) as ->; [|by rewrite !andb_false_r].
      rewrite <- (Z.mod_small (maskOf (prefixLength r)) (2 ^ 32)) by (by apply maskOf_range).
      by rewrite Z.mod_pow2_bits_high by lia.
Qed.

(** ** Byte order *)

Lemma byte_bits (v s k : Z) :
  0 <= s ->
  Z.testbit (Z.land v (Z.shiftl (Z.ones 8) s)) k = (s <=? k) && (k <? s + 8) && Z.testbit v k.
Proof.
  intros Hs. destruct (Z.leb_spec 0 k) as [Hk|Hk].
  2:{ rewrite !(Z.testbit_neg_r _ k) by lia. by rewrite andb_false_r. }
  rewrite Z.land_spec, Z.shiftl_spec, Z.testbit_ones by lia.
  destruct (Z.leb_spec s k), (Z.leb_spec 0 (k - s)), (Z.ltb_spec k (s + 8)), (Z.ltb_spec (k - s) 8);
    try lia; simpl; by rewrite ?andb_true_r, ?andb_false_r.
Qed.

(** A byte moved within 32 bits is not truncated. *)
Lemma byte_no_overflow (v s k : Z) :
  0 <= s -> 0 <= k -> s + 8 + k <= 32 ->
  u32 (Z.shiftl (Z.land v (Z.shiftl (Z.ones 8) s)) k)
  = Z.shiftl (Z.land v (Z.shiftl (Z.ones 8) s)) k.
Proof.
  intros Hs Hk H. apply Z.bits_inj'. intros n Hn. unfold u32.
  destruct (decide (n < 32)); [by rewrite Z.mod_pow2_bits_low by lia|].
  rewrite Z.mod_pow2_bits_high, Z.shiftl_spec, byte_bits by lia.
  destruct (Z.ltb_spec (n - k) (s + 8)); [lia|by rewrite andb_false_r].
Qed.

Lemma swapBytes_bits (v n : Z) :
  0 <= n ->
  Z.testbit (swapBytes v) n =
  if n <? 8 then Z.testbit v (n + 24) else if n <? 16 then Z.testbit v (n + 8)
  else if n <? 24 then Z.testbit v (n - 8) else if n <? 32 then Z.testbit v (n - 24) else false.
Proof.
  intros Hn. unfold swapBytes.
  change 255 with (Z.shiftl (Z.ones 8) 0). change 65280 with (Z.shiftl (Z.ones 8) 8).
  change 16711680 with (Z.shiftl (Z.ones 8) 16). change 4278190080 with (Z.shiftl (Z.ones 8) 24).
  rewrite !Z.lor_spec, !Z.shiftl_spec, !Z.shiftr_spec, !byte_bits by lia.
  repeat match goal with
  | |- context [?a <=? ?b] => destruct (Z.leb_spec a b); try lia
  | |- context [?a <? ?b] => destruct (Z.ltb_spec a b); try lia
  end; simpl; rewrite ?orb_false_r; done || f_equal; lia.
Qed.

Lemma swapBytes_range (v : Z) : 0 <= swapBytes v < 2 ^ 32.
Proof.
  assert (swapBytes v mod 2 ^ 32 = swapBytes v) as <-; [|apply Z.mod_pos_bound; lia].
  apply Z.bits_inj'. intros n Hn. rewrite swapBytes_bits by done.
  destruct (decide (n < 32)).
  - rewrite Z.mod_pow2_bits_low by lia. by rewrite swapBytes_bits.
  - rewrite Z.mod_pow2_bits_high by lia.
    by repeat (case_match; zbool; try lia).
Qed.

Lemma swapBytes_involutive (v : Z) : 0 <= v < 2 ^ 32 -> swapBytes (swapBytes v) = v.
Proof.
  intros Hv. apply Z.bits_inj'. intros n Hn. rewrite swapBytes_bits by done.
  destruct (decide (n < 32)).
  2:{ rewrite <- (Z.mod_small v (2 ^ 32)), Z.mod_pow2_bits_high by lia.
      by repeat (case_match; zbool; try lia). }
  repeat (case_match; zbool; try lia); rewrite swapBytes_bits by lia;
    repeat (case_match; zbool; try lia); try (f_equal; lia).
Qed.

Section Table.
Context `{QtText} `{!QtTextLaws} `{QtNumbers} `{!QtNumbersLaws}.

Lemma routeHexToIpv4_swap (v : Z) :
  0 <= v < 2 ^ 32 -> routeHexToIpv4 (hex8 (swapBytes v)) = v.
Proof.
  intros Hv. unfold routeHexToIpv4. rewrite toUIntHex_hex8 by apply swapBytes_range.
  rewrite <- (swapBytes_involutive v Hv) at 5. unfold swapBytes at 5.
  pose proof (swapBytes_range v) as Hr. set (raw := swapBytes v) in *.
  change 255 with (Z.shiftl (Z.ones 8) 0). change 65280 with (Z.shiftl (Z.ones 8) 8).
  by rewrite !byte_no_overflow by lia.
Qed.

(** ** The lines of the table *)

Lemma startsWithText_word (p w s : chars) (c : ascii) :
  c ∉ p -> startsWithText p (w ++ c :: s) = startsWithText p w.
Proof.
  intros Hc. unfold startsWithText. apply bool_decide_ext. revert w Hc.
  induction p as [|x p IH]; intros w Hc; [done|].
  destruct w as [|y w]; cbn [app length take].
  - split; [intros [= -> _]; list_in|done].
  - assert (c ∉ p) as Hp by list_in. specialize (IH w Hp).
    split; intros [= -> E]; f_equal; tauto.
Qed.

Lemma routeFields_word (r : Route) : wf_route r -> Forall word (routeFields r).
Proof.
  intros (Hi & _ & _ & _ & _ & Hm & Hf). unfold routeFields.
  repeat (constructor; [done || apply hex8_word|]). apply Forall_app. split; [done|].
  constructor; [apply hex8_word|done].
Qed.

Lemma printRoute_fields (r : Route) :
  wf_route r -> split " "%char (simplified (printRoute r)) = routeFields r.
Proof.
  intros Hr. apply split_simplified; [by repeat constructor|done| |done|by apply routeFields_word].
  apply Forall_forall. intros c Hc. apply elem_of_replicate in Hc as [-> _]. done.
Qed.

Lemma printRoute_start (r : Route) : exists s, printRoute r = iface r ++ ascii_of_nat 9 :: s.
Proof. unfold printRoute, routeFields. cbn [join tab]. rewrite <- !app_assoc. by eexists. Qed.

(** What a line does to the best route so far. *)
Lemma routeLine_route (a : Z) (best : Z * chars) (r : Route) :
  0 <= a < 2 ^ 32 -> wf_route r ->
  routeLine a best (printRoute r)
  = if covers a r && (best.1 <? prefixLength r) then (prefixLength r, iface r) else best.
Proof.
  intros Ha Hr. pose proof Hr as (Hi & Hs & Hn & Hp & Hl & _). unfold routeLine.
  destruct (printRoute_start r) as [s E].
  assert (ascii_of_nat 9 ∉ qs "Iface") as Htab by by_decision.
  rewrite E, startsWithText_word, Hs, <- E, printRoute_fields by done.
  unfold routeFields. destruct (middle r) as [|m1 [|m2 [|m3 [|m4 [|m5 [|]]]]]]; try done.
  cbn [lookup list_lookup app]. rewrite !routeHexToIpv4_swap by (done || by apply maskOf_range).
  rewrite bitCount_maskOf by done. pose proof (masked_covers a r Ha Hn Hp) as Hc.
  destruct (covers a r).
  - by rewrite bool_decide_false by (intros Hx; by apply Hx, Hc).
  - by rewrite bool_decide_true by (intros Hx; by apply Hc in Hx).
Qed.

(** ** The whole table *)

(** The route a fold over the routes keeps. *)
Definition keepBest (a : Z) (best : Z * chars) (r : Route) : Z * chars :=
  if covers a r && (best.1 <? prefixLength r) then (prefixLength r, iface r) else best.

Lemma printRoute_newline (r : Route) : wf_route r -> newline ∉ printRoute r.
Proof.
  intros Hr Hin. unfold printRoute in Hin. apply elem_of_app in Hin as [Hin|Hin].
  - apply join_elem in Hin as [Hin|Hin]; [by apply list_elem_of_singleton in Hin|].
    apply Exists_exists in Hin as (w & Hw & Hin).
    pose proof (routeFields_word r Hr) as Hall. rewrite Forall_forall in Hall.
    destruct (Hall w Hw) as [_ Hs]. rewrite Forall_forall in Hs. by apply Hs in Hin.
  - by apply elem_of_replicate in Hin as [? _].
Qed.

Lemma table_lines (routes : list Route) :
  Forall wf_route routes ->
  splitSkipEmpty newline (procNetRoute routes) = routeHeader :: map printRoute routes.
Proof.
  intros Hrs. apply splitSkipEmpty_lines. constructor; [split; by_decision|].
  rewrite Forall_map. eapply Forall_impl; [exact Hrs|]. intros r Hr. unfold compose.
  split; [|by apply printRoute_newline].
  destruct (printRoute_start r) as [s ->]. by destruct (iface r).
Qed.

Lemma routeLines_fold (a : Z) (best : Z * chars) (routes : list Route) :
  0 <= a < 2 ^ 32 -> Forall wf_route routes ->
  fold_left (routeLine a) (map printRoute routes) best = fold_left (keepBest a) routes best.
Proof.
  intros Ha Hrs. revert best. induction Hrs as [|r routes Hr _ IH]; intros best; [done|].
  cbn [map fold_left]. by rewrite routeLine_route, IH by done.
Qed.

Lemma selected_cons (a : Z) (routes : list Route) (r r' : Route) :
  selected a routes r' -> (covers a r = true -> prefixLength r < prefixLength r') ->
  selected a (r :: routes) r'.
Proof.
  intros (before & after & -> & Hc & Hb & Ha) Hr. exists (r :: before), after.
  split_and!; [done..| |done]. intros x [->|Hx]%elem_of_cons; auto.
Qed.

(** The fold keeps the initial best, or the route that is selected. *)
Lemma keepBest_spec (a : Z) (routes : list Route) (best : Z * chars) :
  (fold_left (keepBest a) routes best = best
   /\ forall r, r ∈ routes -> covers a r = true -> prefixLength r <= best.1)
  \/ exists r, selected a routes r /\ best.1 < prefixLength r
     /\ fold_left (keepBest a) routes best = (prefixLength r, iface r).
Proof.
  revert best. induction routes as [|r routes IH]; intros best.
  { left. split; [done|]. intros r Hr. by apply elem_of_nil in Hr. }
  cbn [fold_left]. destruct (covers a r && (best.1 <? prefixLength r)) eqn:Hk.
  - assert (keepBest a best r = (prefixLength r, iface r)) as -> by (unfold keepBest; by rewrite Hk).
    zbool. destruct (IH (prefixLength r, iface r)) as [[-> Hle]|(r' & Hs & Hlt & ->)]; cbn in *.
    + right. exists r. split_and!; [|done..]. exists [], routes. split_and!; [done..| |done].
      intros ? Hr. by apply elem_of_nil in Hr.
    + right. exists r'. split_and!; [|lia|done]. by apply selected_cons.
  - assert (keepBest a best r = best) as -> by (unfold keepBest; by rewrite Hk).
    assert (covers a r = true -> prefixLength r <= best.1) as Hr.
    { intros Hc. rewrite Hc in Hk. cbn [andb] in Hk. zbool. lia. }
    destruct (IH best) as [[-> Hle]|(r' & Hs & Hlt & ->)].
    + left. split; [done|]. intros x [->|Hx]%elem_of_cons; auto.
    + right. exists r'. split_and!; [|done..]. apply selected_cons; [done|].
      intros Hc. specialize (Hr Hc). lia.
Qed.

(** The answers of two selections are the same. *)
Lemma selected_unique (a : Z) (routes : list Route) (r r' : Route) :
  selected a routes r -> selected a routes r' -> iface r = iface r' /\ prefixLength r = prefixLength r'.
Proof.
  intros (b & x & -> & Hc & Hb & Hx) (b' & x' & E & Hc' & Hb' & Hx').
  apply app_eq_inv in E as [([|y k] & -> & E)|([|y k] & -> & E)].
  - by injection E as -> _.
  - injection E as <- ->. exfalso.
    assert (prefixLength r' < prefixLength r) by (apply Hb; [set_solver|done]).
    assert (prefixLength r <= prefixLength r') by (apply Hx'; [set_solver|done]). lia.
  - by injection E as -> _.
  - injection E as <- ->. exfalso.
    assert (prefixLength r < prefixLength r') by (apply Hb'; [set_solver|done]).
    assert (prefixLength r' <= prefixLength r) by (apply Hx; [set_solver|done]). lia.
Qed.

(** ** The theorem *)

(** C33: on a table the kernel writes, the code answers that the main table keeps the
    probed address out of the tunnel exactly when the route a longest-prefix match
    selects for it, the first of the equally specific ones, is not a default route
    and belongs to another interface. *)
Theorem mainRoute_longestPrefix (routes : list Route) (a : Z) (interfaceName : chars) :
  Forall wf_route routes -> 0 <= a < 2 ^ 32 ->
  mainRouteBlocksInterface (procNetRoute routes) (hostToString (HostV4 a)) interfaceName = true
  <-> exists r, selected a routes r /\ 0 < prefixLength r /\ iface r <> interfaceName.
Proof.
  intros Hrs Ha. unfold mainRouteBlocksInterface.
  rewrite hostOfString_toString, table_lines by done. cbn [fold_left].
  change (routeLine a (-1, []) routeHeader) with ((-1, []) : Z * chars).
  rewrite routeLines_fold by done.
  destruct (keepBest_spec a routes (-1, [])) as [[-> Hle]|(r & Hs & Hlt & ->)]; cbn in *.
  - split; [done|]. intros (r & (b & x & -> & Hc & _) & Hp & _).
    assert (prefixLength r <= -1) by (apply Hle; [set_solver|done]). lia.
  - rewrite andb_true_iff, Z.ltb_lt, negb_true_iff, bool_decide_eq_false. split.
    + intros [Hp Hi]. by exists r.
    + intros (r' & Hs' & Hp & Hi).
      destruct (selected_unique a routes r r' Hs Hs') as [-> ->]. done.
Qed.

End Table.

(** ** Examples *)

#[local] Existing Instance modelText.
#[local] Existing Instance modelTextLaws.
#[local] Existing Instance modelNumbers.
#[local] Existing Instance modelNumbersLaws.

(** The tables of the unit test. *)
Definition sampleRoute (name : string) (net p : Z) : Route :=
  mkRoute (qs name) net p [qs "00000000"; qs "0001"; qs "0"; qs "0"; qs "1"]
    [qs "0"; qs "0"; qs "0"] 5.

Definition blockingRoutes : list Route := [sampleRoute "amn0" 0 1; sampleRoute "wlo1" 0 0].
Definition tunnelRoutes : list Route := [sampleRoute "wg0" 0 1; sampleRoute "wlo1" 0 0].

Example blocking_table :
  mainRouteBlocksInterface (procNetRoute blockingRoutes) (qs "1.1.1.1") (qs "wg0") = true.
Proof. vm_compute. reflexivity. Qed.

Example tunnel_table :
  mainRouteBlocksInterface (procNetRoute tunnelRoutes) (qs "1.1.1.1") (qs "wg0") = false.
Proof. vm_compute. reflexivity. Qed.

Example route_output :
  routeOutputUsesInterface (qs "1.1.1.1 via 192.168.0.1 dev wlo1 src 192.168.0.104") (qs "wg0")
  = false
  /\ routeOutputUsesInterface (qs "1.1.1.1 dev  wg0 src 192.168.6.148") (qs "wg0") = true.
Proof. by vm_compute. Qed.

Example duplicate_uuid :
  isDuplicateUuidError (qs "a connection with this UUID already exists") = true
  /\ isDuplicateUuidError (qs "permission denied") = false.
Proof. by vm_compute. Qed.

Lemma blocking_wf : Forall wf_route blockingRoutes.
Proof. by_decision. Qed.

Lemma mainRoute_longestPrefix_witness :
  exists r, selected 16843009 blockingRoutes r /\ 0 < prefixLength r /\ iface r <> qs "wg0".
Proof.
  apply (mainRoute_longestPrefix blockingRoutes 16843009 (qs "wg0") blocking_wf);
    [lia|exact blocking_table].
Defined.

End NetmgrUtils.
