(* ===== verification/NetmgrController.v ===== *)
(** * The NetworkManager backend

    Model of [src/src/platforms/linux/netmgrcontroller.cpp] and
    [netmgrdevice.cpp]: the backend of the controller in a Flatpak. It keeps one
    NetworkManager connection, sends it the settings of each activation, follows
    the device NetworkManager creates for it, and reports the tunnel as connected
    when traffic has come through. The replies and properties of NetworkManager,
    the files of the kernel and the client's settings are read from an [Env]; the
    calls and signals are recorded, in order, in [effects]. *)
From Stdlib Require Import ZArith Lia Ascii String.
From stdpp Require Import base numbers list gmap strings.
From S2P Require Import Prelude QHostAddress QString QtTextModel QStringExtra IPAddress Json.
From S2P Require Import InterfaceConfig NetmgrUtils Server ServerList ServerData Dns.
From S2P Require Import ControllerModel ControllerProofs.
Import IPAddress.

Local Open Scope Z_scope.
Local Open Scope wg_scope.

Module NetmgrController.

(** ** Settings *)

(** The [QVariant]s of the settings: [DataList] is a [NetmgrDataList], [IPv6List] a
    [NetmgrIpv6List] and [UIntList] a [QList<uint>]. *)
#[warnings="-register-all"]
Inductive QVariant : Type :=
| Text (s : chars)
| UInt (n : Z)
| Int (n : Z)
| Bool (b : bool)
| StringList (l : list chars)
| UIntList (l : list Z)
| IPv6List (l : list (list Z))
| DataList (l : list (gmap chars QVariant)).

Abbreviation QVariantMap := (gmap chars QVariant).
Abbreviation NetmgrConfig := (gmap chars QVariantMap).

Definition WG_FIREWALL_MARK : Z := 51820.
Definition WG_INTERFACE_NAME : chars := qs "wg0".
Definition WG_KEEPALIVE_PERIOD : Z := 60.
Definition WG_HANDSHAKE_POLL_MSEC : Z := 500.
Definition IN_MEMORY : Z := 2.

(** ** The device *)

Definition ACTIVATED : Z := 100.
Definition DEACTIVATING : Z := 110.
Definition FAILED : Z := 120.
Definition UNKNOWN : Z := 0.

Record NetmgrDevice : Type := mkNetmgrDevice {
  d_path : chars;
  m_activeConnection : chars;
  d_state : Z;
  d_uuid : QString;
}.

#[export] Instance NetmgrDevice_eta : Eta NetmgrDevice := fun d =>
  mkNetmgrDevice (d_path d) (m_activeConnection d) (d_state d) (d_uuid d).

(** ** What the backend reads from outside *)

Record Env : Type := mkEnv {
  (* the client *)
  applicationName : chars;
  tunnelUuid : chars;
  parseUuid : chars -> option chars;
  createUuid : chars;
  activeInterfaceConfig : option InterfaceConfig;
  (* replies of NetworkManager *)
  getConnectionByUuid : chars -> option chars;
  getDeviceByIpIface : chars -> option chars;
  callOkay : bool;
  (* properties of a device, and the uuid of an active connection *)
  stateProperty : chars -> Z;
  activeConnectionProperty : chars -> chars;
  interfaceProperty : chars -> chars;
  driverProperty : chars -> chars;
  rxBytesProperty : chars -> Z;
  uuidProperty : chars -> QString;
  (* the kernel *)
  routeTableFile : option chars;
  sysfsLine : chars -> option chars;
  interfaceTime : option Z;
}.

(** ** State *)

Inductive Effect : Type :=
(* signals to the controller *)
| Initialized (status connected : bool) (connectionDate : option Z)
| Connected (pubkey : QString) | Disconnected
| BackendFailure (code : Controller.ErrorCode)
| StatusUpdated (st : Controller.ControllerStatus)
(* calls of NetworkManager *)
| AddConnection2 (settings : NetmgrConfig) (flags : Z)
| Update2 (path : chars) (settings : NetmgrConfig) (flags : Z)
| ActivateConnection (path : chars) | DeactivateConnection (path : chars)
| SetRefreshRate (path : chars) (msec : Z)
(* the client's settings *)
| SetTunnelUuid (uuid : chars).

Record NetmgrController : Type := mkNetmgrController {
  m_config : QVariantMap;
  m_ipv4config : QVariantMap;
  m_ipv6config : QVariantMap;
  m_wireguard : QVariantMap;
  m_serverPublicKey : QString;
  m_serverIpv4Gateway : QHostAddress;
  m_serverIpv6Gateway : QHostAddress;
  m_deviceIpv4Address : QHostAddress;
  m_deviceIpv6Address : QHostAddress;
  m_uuid : QString;
  m_remote : option chars;
  m_device : option NetmgrDevice;
  m_handshakePollTimer : bool;
  m_activationRxBytes : Z;
  m_waitingForHandshakeTraffic : bool;
  m_requiresIpv4DefaultRoute : bool;
  effects : list Effect;
}.

#[export] Instance NetmgrController_eta : Eta NetmgrController := fun c =>
  mkNetmgrController (m_config c) (m_ipv4config c) (m_ipv6config c) (m_wireguard c)
    (m_serverPublicKey c) (m_serverIpv4Gateway c) (m_serverIpv6Gateway c)
    (m_deviceIpv4Address c) (m_deviceIpv6Address c) (m_uuid c) (m_remote c) (m_device c)
    (m_handshakePollTimer c) (m_activationRxBytes c) (m_waitingForHandshakeTraffic c)
    (m_requiresIpv4DefaultRoute c) (effects c).

Definition construct : NetmgrController :=
  mkNetmgrController ∅ ∅ ∅ ∅ None NullHost NullHost NullHost NullHost None None None false 0
    false false [].

Definition emit (x : Effect) (c : NetmgrController) : NetmgrController :=
  c <| effects := effects c ++ [x] |>.

Section Operations.
Context `{QtText} `{QtNumbers}.

(** ** Settings of a configuration *)

(** The settings of one address family: the part of [applyInterfaceConfig] that the
    code writes once for each. *)
Definition familyConfig (address : QString) (hostPrefix : Z) : QVariantMap * QHostAddress :=
  if isEmpty address then (<[qs "method" := Text (qs "disabled")]> ∅, NullHost)
  else
    let parts := split "/"%char (text address) in
    let first := default [] (parts !! 0%nat) in
    let prefix := match parts !! 1%nat with Some p => toUInt p | None => hostPrefix end in
    let data := <[qs "prefix" := UInt prefix]> (<[qs "address" := Text first]> ∅) in
    (<[qs "address-data" := DataList [data]]> (<[qs "method" := Text (qs "manual")]> ∅),
     hostOfString first).

Definition applyInterfaceConfig (config : InterfaceConfig) (c : NetmgrController)
  : NetmgrController :=
  let c := c <| m_wireguard := <[qs "private-key" := Text (text (m_privateKey config))]>
                                 (m_wireguard c) |> in
  let '(v4, a4) := familyConfig (InterfaceConfig.m_deviceIpv4Address config) 32 in
  let '(v6, a6) := familyConfig (InterfaceConfig.m_deviceIpv6Address config) 128 in
  c <| m_ipv4config := v4 |> <| m_deviceIpv4Address := a4 |>
    <| m_ipv6config := v6 |> <| m_deviceIpv6Address := a6 |>.

Definition wgPeer (config : InterfaceConfig) : QVariantMap :=
  let port := showZ (m_serverPort config) in
  let endpoint :=
    if negb (isNullString (m_serverIpv4AddrIn config))
    then text (m_serverIpv4AddrIn config) ++ qs ":" ++ port
    else qs "[" ++ text (m_serverIpv6AddrIn config) ++ qs "]:" ++ port in
  <[qs "allowed-ips" := StringList (map toString (m_allowedIPAddressRanges config))]>
  (<[qs "public-key" := Text (text (InterfaceConfig.m_serverPublicKey config))]>
  (<[qs "persistent-keepalive" := UInt WG_KEEPALIVE_PERIOD]>
  (<[qs "endpoint" := Text endpoint]> ∅))).

(** [qToBigEndian] on a little-endian machine. *)
Definition setDnsConfig (server : QHostAddress) (m : QVariantMap) : QVariantMap :=
  match server with
  | NullHost => delete (qs "dns-search") (delete (qs "dns-priority") (delete (qs "dns") m))
  | HostV6 bytes =>
      <[qs "dns-search" := StringList [qs "."]]> (<[qs "dns-priority" := Int 10]>
        (<[qs "dns" := IPv6List [bytes]]> m))
  | HostV4 v =>
      <[qs "dns-search" := StringList [qs "."]]> (<[qs "dns-priority" := Int 10]>
        (<[qs "dns" := UIntList [NetmgrUtils.swapBytes v]]> m))
  end.

Definition serializeConfig (c : NetmgrController) : NetmgrConfig :=
  <[qs "wireguard" := m_wireguard c]> (<[qs "ipv6" := m_ipv6config c]>
    (<[qs "ipv4" := m_ipv4config c]> (<[qs "connection" := m_config c]> ∅))).

(** ** The device *)

Definition updateActiveConnection (path : chars) (e : Env) (d : NetmgrDevice) : NetmgrDevice :=
  d <| m_activeConnection := path |> <| d_uuid := uuidProperty e path |>.

Definition newDevice (path : chars) (e : Env) : NetmgrDevice :=
  updateActiveConnection (activeConnectionProperty e path) e
    (mkNetmgrDevice path [] (stateProperty e path) None).

(** [m_device->uuid() == m_uuid]. *)
Definition ours (d : NetmgrDevice) (c : NetmgrController) : bool := QString_eqb (d_uuid d) (m_uuid c).

(** ** Handshakes *)

Definition ipv4DefaultRouteReady (e : Env) (c : NetmgrController) : bool :=
  if negb (m_requiresIpv4DefaultRoute c) then true
  else
    match routeTableFile e with
    | None => false
    | Some contents =>
        negb (NetmgrUtils.mainRouteBlocksInterface contents (qs "1.1.1.1") WG_INTERFACE_NAME)
    end.

Definition checkHandshakeTraffic (e : Env) (c : NetmgrController) : NetmgrController :=
  match m_device c with
  | None => c
  | Some d =>
      if negb (m_waitingForHandshakeTraffic c) || negb (ours d c)
         || negb (d_state d =? ACTIVATED)
      then c
      else
        let rxBytes := u64 (rxBytesProperty e (d_path d)) in
        if negb (NetmgrUtils.hasNewHandshakeTraffic (m_activationRxBytes c) rxBytes) then c
        else if negb (ipv4DefaultRouteReady e c) then c
        else
          emit (Connected (m_serverPublicKey c))
            (c <| m_handshakePollTimer := false |> <| m_waitingForHandshakeTraffic := false |>)
  end.

Definition deviceStateChanged (newstate : Z) (e : Env) (c : NetmgrController)
  : Outcome NetmgrController :=
  match m_device c with
  | None => Undefined
  | Some d =>
      if negb (ours d c) then Ret c
      else if newstate =? ACTIVATED then
        let c := emit (SetRefreshRate (d_path d) WG_HANDSHAKE_POLL_MSEC) c in
        let c := c <| m_activationRxBytes := u64 (rxBytesProperty e (d_path d)) |> in
        let c := checkHandshakeTraffic e c in
        Ret (if m_waitingForHandshakeTraffic c then c <| m_handshakePollTimer := true |> else c)
      else if (newstate =? DEACTIVATING) || (newstate =? FAILED) then
        Ret (c <| m_handshakePollTimer := false |> <| m_waitingForHandshakeTraffic := false |>)
      else Ret c
  end.

(** [NetmgrDevice::dbusStateChanged] and the slot connected to it. *)
Definition dbusStateChanged (path : chars) (state : Z) (e : Env) (c : NetmgrController)
  : Outcome NetmgrController :=
  match m_device c with
  | Some d =>
      if bool_decide (d_path d = path)
      then deviceStateChanged state e (c <| m_device := Some (d <| d_state := state |>) |>)
      else Ret c
  | None => Ret c
  end.

(** [NetmgrDevice::propertyChanged] for a new active connection. *)
Definition propertyChanged (path connection : chars) (e : Env) (c : NetmgrController)
  : NetmgrController :=
  match m_device c with
  | Some d =>
      if bool_decide (d_path d = path)
      then c <| m_device := Some (updateActiveConnection connection e d) |>
      else c
  | None => c
  end.

Definition deviceAdded (devpath : chars) (e : Env) (c : NetmgrController)
  : Outcome NetmgrController :=
  let device := newDevice devpath e in
  if bool_decide (interfaceProperty e devpath ≠ WG_INTERFACE_NAME) then Ret c
  else if bool_decide (driverProperty e devpath ≠ qs "wireguard") then Ret c
  else deviceStateChanged (d_state device) e (c <| m_device := Some device |>).

Definition deviceRemoved (path : chars) (c : NetmgrController) : NetmgrController :=
  match m_device c with
  | Some d =>
      if bool_decide (d_path d = path) then
        emit Disconnected
          (c <| m_handshakePollTimer := false |> <| m_waitingForHandshakeTraffic := false |>
             <| m_device := None |>)
      else c
  | None => c
  end.

(** ** Initialization *)

Definition guessUptime (e : Env) : option Z := interfaceTime e.

Definition initCompleted (path : chars) (e : Env) (c : NetmgrController) : NetmgrController :=
  let c := c <| m_remote := Some path |> in
  match getDeviceByIpIface e WG_INTERFACE_NAME with
  | Some devpath =>
      let d := newDevice devpath e in
      let isConnected := (d_state d =? ACTIVATED) && ours d c in
      emit (Initialized true isConnected (guessUptime e)) (c <| m_device := Some d |>)
  | None => emit (Initialized true false (guessUptime e)) c
  end.

Definition dbusInitError (message : chars) (e : Env) (c : NetmgrController)
  : NetmgrController :=
  match (if NetmgrUtils.isDuplicateUuidError message
         then getConnectionByUuid e (text (m_uuid c)) else None) with
  | Some path => initCompleted path e c
  | None => emit (Initialized false false None) c
  end.

(** The end of [initialize]: the connection that exists, or a new one. *)
Definition findConnection (e : Env) (c : NetmgrController) : NetmgrController :=
  match getConnectionByUuid e (text (m_uuid c)) with
  | Some path => initCompleted path e c
  | None =>
      let c := emit (AddConnection2 (serializeConfig c) IN_MEMORY) c in
      if callOkay e then c else emit (Initialized false false None) c
  end.

(** The uuid of the connection, kept in the client's settings. *)
Definition chooseUuid (e : Env) (c : NetmgrController) : NetmgrController :=
  match parseUuid e (tunnelUuid e) with
  | Some uuid => c <| m_uuid := Some uuid |>
  | None => emit (SetTunnelUuid (createUuid e)) (c <| m_uuid := Some (createUuid e) |>)
  end.

(** The keys and addresses of the device, when the client has them. *)
Record Identity : Type := mkIdentity {
  privateKey : QString;
  ipv4Address : QString;
  ipv6Address : QString;
}.

Definition initialize (identity : option Identity) (e : Env) (c : NetmgrController)
  : NetmgrController :=
  let c := chooseUuid e c in
  let c := c <| m_config :=
    <[qs "autoconnect" := Bool false]> (<[qs "uuid" := Text (text (m_uuid c))]>
    (<[qs "type" := Text (qs "wireguard")]> (<[qs "interface-name" := Text WG_INTERFACE_NAME]>
    (<[qs "id" := Text (applicationName e)]> (m_config c))))) |> in
  let c := c <| m_wireguard :=
    <[qs "peer-routes" := Bool true]> (<[qs "ip6-auto-default-route" := Int 1]>
    (<[qs "ip4-auto-default-route" := Int 1]> (<[qs "fwmark" := UInt WG_FIREWALL_MARK]>
    (m_wireguard c)))) |> in
  match identity with
  | Some i =>
      let config := (emptyConfig SingleHop) <| m_privateKey := privateKey i |>
                      <| InterfaceConfig.m_deviceIpv4Address := ipv4Address i |>
                      <| InterfaceConfig.m_deviceIpv6Address := ipv6Address i |> in
      findConnection e (applyInterfaceConfig config c)
  | None =>
      match activeInterfaceConfig e with
      | None => emit (Initialized false false None) c
      | Some config => findConnection e (applyInterfaceConfig config c)
      end
  end.

(** ** Activation *)

Definition activate (config : InterfaceConfig) (e : Env) (c : NetmgrController)
  : Outcome NetmgrController :=
  let c := applyInterfaceConfig config c in
  let c := c <| m_waitingForHandshakeTraffic := true |> <| m_activationRxBytes := 0 |> in
  let c := c <| m_requiresIpv4DefaultRoute :=
    NetmgrUtils.hasIpv4DefaultRoute (map toString (m_allowedIPAddressRanges config)) |> in
  let c := c <| m_ipv4config := delete (qs "route-data") (m_ipv4config c) |>
             <| m_ipv6config := delete (qs "route-data") (m_ipv6config c) |>
             <| m_wireguard := <[qs "peers" := DataList [wgPeer config]]> (m_wireguard c) |> in
  let c := c <| m_serverPublicKey := InterfaceConfig.m_serverPublicKey config |>
             <| m_serverIpv4Gateway :=
                  hostOfString (text (InterfaceConfig.m_serverIpv4Gateway config)) |>
             <| m_serverIpv6Gateway :=
                  hostOfString (text (InterfaceConfig.m_serverIpv6Gateway config)) |> in
  let dns := m_dnsServer config in
  let '(dns4, dns6) :=
    if QString_eqb dns (InterfaceConfig.m_serverIpv4Gateway config)
       || QString_eqb dns (InterfaceConfig.m_serverIpv6Gateway config)
    then (m_serverIpv4Gateway c, m_serverIpv6Gateway c)
    else if bool_decide (":"%char ∈ text dns) then (NullHost, hostOfString (text dns))
    else (hostOfString (text dns), NullHost) in
  let c := c <| m_ipv4config := setDnsConfig dns4 (m_ipv4config c) |>
             <| m_ipv6config := setDnsConfig dns6 (m_ipv6config c) |> in
  match m_remote c with
  | None => Undefined
  | Some path => Ret (emit (Update2 path (serializeConfig c) IN_MEMORY) c)
  end.

Definition peerCompleted (c : NetmgrController) : Outcome NetmgrController :=
  match m_remote c with
  | None => Undefined
  | Some path => Ret (emit (ActivateConnection path) c)
  end.

Definition dbusBackendError (c : NetmgrController) : NetmgrController :=
  emit (BackendFailure Controller.ErrorFatal) c.

Definition deactivate (c : NetmgrController) : NetmgrController :=
  match m_device c with
  | Some d =>
      if negb (ours d c) then emit Disconnected c
      else emit (DeactivateConnection (m_activeConnection d)) c
  | None => emit Disconnected c
  end.

(** The slot on the reply to [DeactivateConnection]. *)
Definition deactivateFinished (c : NetmgrController) : NetmgrController := emit Disconnected c.

(** ** Status *)

Definition readSysfsFile (path : chars) (e : Env) : Z :=
  match sysfsLine e path with None => 0 | Some line => toULongLong line end.

Definition statistics (name : string) : chars :=
  qs "/sys/class/net/" ++ WG_INTERFACE_NAME ++ qs "/statistics/" ++ qs name.

Definition checkStatus (e : Env) (c : NetmgrController) : NetmgrController :=
  emit (StatusUpdated (Controller.mkStatus true (guessUptime e) (m_deviceIpv4Address c)
          (m_deviceIpv6Address c) (m_serverIpv4Gateway c) (m_serverIpv6Gateway c)
          (readSysfsFile (statistics "rx_bytes") e) (readSysfsFile (statistics "tx_bytes") e))) c.

(** ** Events *)

Inductive Event : Type :=
(* calls of the controller *)
| Activate (config : InterfaceConfig) | Deactivate | CheckStatus
(* replies of NetworkManager *)
| InitCompleted (path : chars) | DbusInitError (message : chars)
| PeerCompleted | ActivateCompleted (path : chars) | DbusBackendError | DeactivateFinished
(* its signals *)
| DeviceAdded (path : chars) | DeviceRemoved (path : chars)
| StateChanged (path : chars) (state : Z) | ActiveConnection (path connection : chars)
(* the poll timer *)
| PollTimer.

Definition handle (ev : Event) (e : Env) (c : NetmgrController) : Outcome NetmgrController :=
  match ev with
  | Activate config => activate config e c
  | Deactivate => Ret (deactivate c)
  | CheckStatus => Ret (checkStatus e c)
  | InitCompleted path => Ret (initCompleted path e c)
  | DbusInitError message => Ret (dbusInitError message e c)
  | PeerCompleted => peerCompleted c
  | ActivateCompleted _ => Ret c
  | DbusBackendError => Ret (dbusBackendError c)
  | DeactivateFinished => Ret (deactivateFinished c)
  | DeviceAdded path => deviceAdded path e c
  | DeviceRemoved path => Ret (deviceRemoved path c)
  | StateChanged path state => dbusStateChanged path state e c
  | ActiveConnection path connection => Ret (propertyChanged path connection e c)
  | PollTimer => Ret (checkHandshakeTraffic e c)
  end.

(** A sequence of events, each with what it finds outside. *)
Fixpoint run (evs : list (Event * Env)) (c : NetmgrController) : Outcome NetmgrController :=
  match evs with
  | [] => Ret c
  | (ev, e) :: evs => c <~ handle ev e c ;; run evs c
  end.

(** ** Specifications *)

(** The settings every activation sends, from the profile alone. *)
Definition baseConnection (application uuid : chars) : QVariantMap :=
  list_to_map [(qs "id", Text application); (qs "interface-name", Text (qs "wg0"));
    (qs "type", Text (qs "wireguard")); (qs "uuid", Text uuid); (qs "autoconnect", Bool false)].

Definition baseWireguard : QVariantMap :=
  list_to_map [(qs "fwmark", UInt 51820); (qs "ip4-auto-default-route", Int 1);
    (qs "ip6-auto-default-route", Int 1); (qs "peer-routes", Bool true)].

(** [address] is a text such as [10.0.0.2/24]. *)
Definition addressSettings (address : QString) (hostPrefix : Z) : list (chars * QVariant) :=
  if isEmpty address then [(qs "method", Text (qs "disabled"))]
  else
    let prefix :=
      match split "/"%char (text address) with _ :: p :: _ => toUInt p | _ => hostPrefix end in
    [(qs "method", Text (qs "manual"));
     (qs "address-data",
      DataList [list_to_map [(qs "address", Text (section0 "/"%char (text address)));
                             (qs "prefix", UInt prefix)]])].

Definition resolverSettings (server : QHostAddress) : list (chars * QVariant) :=
  let settings dns :=
    [(qs "dns", dns); (qs "dns-priority", Int 10); (qs "dns-search", StringList [qs "."])] in
  match server with
  | NullHost => []
  | HostV4 v => settings (UIntList [NetmgrUtils.swapBytes v])
  | HostV6 bytes => settings (IPv6List [bytes])
  end.

(** The resolvers for IPv4 and IPv6: those of the server when the profile names one
    of its gateways, otherwise the one the profile names, in its family. *)
Definition resolvers (config : InterfaceConfig) : QHostAddress * QHostAddress :=
  let dns := text (m_dnsServer config) in
  let gateway4 := text (InterfaceConfig.m_serverIpv4Gateway config) in
  let gateway6 := text (InterfaceConfig.m_serverIpv6Gateway config) in
  if decide (dns = gateway4 \/ dns = gateway6)
  then (hostOfString gateway4, hostOfString gateway6)
  else if decide (":"%char ∈ dns) then (NullHost, hostOfString dns)
  else (hostOfString dns, NullHost).

Definition profileSettings (application uuid : chars) (config : InterfaceConfig) : NetmgrConfig :=
  list_to_map
    [(qs "connection", baseConnection application uuid);
     (qs "ipv4", list_to_map (addressSettings (InterfaceConfig.m_deviceIpv4Address config) 32
                              ++ resolverSettings (resolvers config).1));
     (qs "ipv6", list_to_map (addressSettings (InterfaceConfig.m_deviceIpv6Address config) 128
                              ++ resolverSettings (resolvers config).2));
     (qs "wireguard", <[qs "private-key" := Text (text (m_privateKey config))]>
                        (<[qs "peers" := DataList [wgPeer config]]> baseWireguard))].

(** ** Reachable states *)

(** The calls and signals that tell of the connection: the settings are sent to it,
    and the controller has been told that the backend is ready. *)
Definition isUpdate (x : Effect) : bool := match x with Update2 _ _ _ => true | _ => false end.
Definition isReady (x : Effect) : bool := match x with Initialized true _ _ => true | _ => false end.

Definition updated (c : NetmgrController) : bool := existsb isUpdate (effects c).
Definition initialized (c : NetmgrController) : bool := existsb isReady (effects c).

(** Anything may happen at any time, but [Update2] is answered only after a call. *)
Definition enabled (ev : Event) (c : NetmgrController) : Prop :=
  match ev with
  | PeerCompleted => updated c = true
  | _ => True
  end.

Inductive Reachable (application : chars) : NetmgrController -> Prop :=
| Reachable_initialize identity e :
    applicationName e = application ->
    Reachable application (initialize identity e construct)
| Reachable_step c ev e c' :
    Reachable application c -> enabled ev c -> handle ev e c = Ret c' ->
    Reachable application c'.

Definition Inv (application : chars) (c : NetmgrController) : Prop :=
  (exists uuid, m_uuid c = Some uuid /\ m_config c = baseConnection application uuid)
  /\ delete (qs "private-key") (delete (qs "peers") (m_wireguard c)) = baseWireguard
  /\ (m_handshakePollTimer c = true -> m_waitingForHandshakeTraffic c = true).

(** There is a connection once the controller has been told that the backend is ready,
    and before anything is sent to it. *)
Definition remoteInv (c : NetmgrController) : Prop :=
  (is_Some (m_remote c) <-> initialized c = true) /\ (updated c = true -> is_Some (m_remote c)).

(** ** The settings of an activation *)

Lemma split_section0 (c : ascii) (s : chars) : exists r, split c s = section0 c s :: r.
Proof.
  induction s as [|x s [r IH]]; cbn [split section0]; [by eexists|].
  rewrite IH. case_bool_decide; by eexists.
Qed.

Lemma familyConfig_settings (address : QString) (hostPrefix : Z) :
  (familyConfig address hostPrefix).1 = list_to_map (addressSettings address hostPrefix).
Proof.
  unfold familyConfig, addressSettings. destruct (isEmpty address); [reflexivity|].
  destruct (split_section0 "/"%char (text address)) as [r ->].
  destruct r as [|p r]; reflexivity.
Qed.

Lemma setDnsConfig_settings (address : QString) (hostPrefix : Z) (server : QHostAddress) :
  setDnsConfig server (delete (qs "route-data") (list_to_map (addressSettings address hostPrefix)))
  = list_to_map (addressSettings address hostPrefix ++ resolverSettings server).
Proof.
  unfold addressSettings, resolverSettings, setDnsConfig.
  destruct (isEmpty address); [|generalize (DataList [list_to_map
    [(qs "address", Text (section0 "/"%char (text address))); (qs "prefix", UInt
       match split "/"%char (text address) with _ :: p :: _ => toUInt p | _ => hostPrefix end)]])];
    destruct server as [|v|l]; try (generalize (UIntList [NetmgrUtils.swapBytes v]));
    try (generalize (IPv6List [l])); intros; reflexivity.
Qed.

Lemma wireguard_settings (w : QVariantMap) (key peers : QVariant) :
  delete (qs "private-key") (delete (qs "peers") w) = baseWireguard ->
  <[qs "peers" := peers]> (<[qs "private-key" := key]> w)
  = <[qs "private-key" := key]> (<[qs "peers" := peers]> baseWireguard).
Proof.
  intros <-. rewrite delete_delete, insert_delete_eq.
  rewrite (insert_insert_ne (delete (qs "private-key") w)) by (vm_compute; congruence).
  by rewrite insert_delete_eq.
Qed.

(** ** The invariant *)

(** Operations that leave the settings alone. *)
Definition keepsSettings (c c' : NetmgrController) : Prop :=
  m_uuid c' = m_uuid c /\ m_config c' = m_config c /\ m_wireguard c' = m_wireguard c.

Lemma Inv_keeps (application : chars) (c c' : NetmgrController) :
  keepsSettings c c' ->
  (m_handshakePollTimer c' = true -> m_waitingForHandshakeTraffic c' = true) ->
  Inv application c -> Inv application c'.
Proof.
  intros (Hu & Hc & Hw) Ht ((uuid & E & Hconf) & Hwire & _).
  split; [exists uuid; by rewrite Hu, Hc|]. by rewrite Hw.
Qed.

Lemma checkHandshakeTraffic_keeps (e : Env) (c : NetmgrController) :
  keepsSettings c (checkHandshakeTraffic e c)
  /\ (checkHandshakeTraffic e c = c
      \/ m_handshakePollTimer (checkHandshakeTraffic e c) = false
         /\ m_waitingForHandshakeTraffic (checkHandshakeTraffic e c) = false).
Proof. unfold checkHandshakeTraffic. repeat case_match; cbn; split; auto; done. Qed.

Lemma deviceStateChanged_keeps (state : Z) (e : Env) (c c' : NetmgrController) :
  deviceStateChanged state e c = Ret c' ->
  keepsSettings c c'
  /\ ((m_handshakePollTimer c = true -> m_waitingForHandshakeTraffic c = true) ->
      m_handshakePollTimer c' = true -> m_waitingForHandshakeTraffic c' = true).
Proof.
  unfold deviceStateChanged. destruct (m_device c) as [d|]; [|done].
  destruct (ours d c); cbn [negb]; [|intros [= <-]; by repeat split].
  destruct (state =? ACTIVATED).
  - match goal with |- context [checkHandshakeTraffic e ?x] => set (c1 := x) end.
    destruct (checkHandshakeTraffic_keeps e c1) as [(Hu & Hc & Hw) Hk].
    set (c2 := checkHandshakeTraffic e c1) in *. intros [= <-].
    destruct (m_waitingForHandshakeTraffic c2) eqn:E; split; cbn; try done.
    intros H1. destruct Hk as [->|[-> _]]; [exact H1|done].
  - destruct ((state =? DEACTIVATING) || (state =? FAILED)); intros [= <-]; by repeat split.
Qed.

Lemma initCompleted_keeps (path : chars) (e : Env) (c : NetmgrController) :
  keepsSettings c (initCompleted path e c)
  /\ m_handshakePollTimer (initCompleted path e c) = m_handshakePollTimer c
  /\ m_waitingForHandshakeTraffic (initCompleted path e c) = m_waitingForHandshakeTraffic c.
Proof. unfold initCompleted. case_match; by repeat split. Qed.

Lemma Inv_initCompleted (application path : chars) (e : Env) (c : NetmgrController) :
  Inv application c -> Inv application (initCompleted path e c).
Proof.
  intros Hi. destruct (initCompleted_keeps path e c) as (Hk & Ht & Hw).
  apply (Inv_keeps _ c); [done| |done]. rewrite Ht, Hw. apply Hi.
Qed.

Lemma Inv_emit (application : chars) (x : Effect) (c : NetmgrController) :
  Inv application c -> Inv application (emit x c).
Proof. done. Qed.

Lemma Inv_applyInterfaceConfig (application : chars) (config : InterfaceConfig)
    (c : NetmgrController) :
  Inv application c -> Inv application (applyInterfaceConfig config c).
Proof.
  intros (Hu & Hw & Ht). unfold applyInterfaceConfig.
  destruct (familyConfig _ 32), (familyConfig _ 128). split; [done|]. split; [|done].
  rewrite <- Hw. cbn. rewrite !(delete_delete _ (qs "private-key")).
  by rewrite delete_insert_eq.
Qed.

Lemma Inv_findConnection (application : chars) (e : Env) (c : NetmgrController) :
  Inv application c -> Inv application (findConnection e c).
Proof.
  intros Hi. unfold findConnection. case_match; [by apply Inv_initCompleted|].
  by destruct (callOkay e).
Qed.

Lemma Inv_initialize (identity : option Identity) (e : Env) :
  Inv (applicationName e) (initialize identity e construct).
Proof.
  unfold initialize.
  match goal with |- context [findConnection e (applyInterfaceConfig _ ?x)] => set (c := x) end.
  assert (Inv (applicationName e) c) as Hc.
  { subst c. unfold chooseUuid. case_match; cbn; (split; [by eexists|by split]). }
  destruct identity; [by apply Inv_findConnection, Inv_applyInterfaceConfig|].
  destruct (activeInterfaceConfig e); [by apply Inv_findConnection, Inv_applyInterfaceConfig|done].
Qed.

(** What an activation sends and keeps. *)
Lemma activate_effect (application uuid path : chars) (config : InterfaceConfig) (e : Env)
    (c : NetmgrController) :
  Inv application c -> m_uuid c = Some uuid -> m_remote c = Some path ->
  exists c', activate config e c = Ret c' /\ Inv application c'
  /\ effects c' = effects c ++ [Update2 path (profileSettings application uuid config) IN_MEMORY]
  /\ m_waitingForHandshakeTraffic c' = true /\ m_activationRxBytes c' = 0
  /\ m_serverPublicKey c' = InterfaceConfig.m_serverPublicKey config
  /\ m_device c' = m_device c /\ m_remote c' = Some path.
Proof.
  intros ((uuid' & Hu & Hconf) & Hw & Ht) Hu' Hr. assert (uuid' = uuid) as -> by congruence.
  unfold activate, applyInterfaceConfig.
  pose proof (familyConfig_settings (InterfaceConfig.m_deviceIpv4Address config) 32) as H4.
  pose proof (familyConfig_settings (InterfaceConfig.m_deviceIpv6Address config) 128) as H6.
  destruct (familyConfig _ 32) as [v4 a4], (familyConfig _ 128) as [v6 a6]. cbn in H4, H6. subst.
  set (dns := if QString_eqb (m_dnsServer config) _ || _ then _ else _).
  assert (dns = resolvers config) as ->.
  { subst dns. unfold resolvers, QString_eqb. cbn [m_serverIpv4Gateway m_serverIpv6Gateway].
    generalize (text (m_dnsServer config)) (text (InterfaceConfig.m_serverIpv4Gateway config))
      (text (InterfaceConfig.m_serverIpv6Gateway config)). intros d g4 g6.
    destruct (decide (d = g4 \/ d = g6)) as [[->| ->]|Hn].
    - by rewrite bool_decide_true.
    - by rewrite (bool_decide_true (g6 = g6)), orb_true_r.
    - rewrite !bool_decide_false by tauto. cbn [orb].
      destruct (decide (":"%char ∈ d)); [by rewrite bool_decide_true|by rewrite bool_decide_false]. }
  destruct (resolvers config) as [dns4 dns6] eqn:Hdns. cbn. rewrite Hr. eexists. split; [done|].
  split_and!; try done.
  - split; [by exists uuid|]. split; [|done]. cbn. rewrite wireguard_settings by done.
    reflexivity.
  - cbn. unfold serializeConfig, profileSettings. cbn.
    rewrite Hconf, wireguard_settings, !setDnsConfig_settings, Hdns by done. reflexivity.
Qed.

Lemma deviceStateChanged_Inv (application : chars) (state : Z) (e : Env) (c : NetmgrController) :
  Inv application c -> is_Some (m_device c) ->
  exists c', deviceStateChanged state e c = Ret c' /\ Inv application c'.
Proof.
  intros Hi [d Hd]. destruct (deviceStateChanged state e c) as [c'| |] eqn:E.
  - exists c'. split; [done|]. destruct (deviceStateChanged_keeps state e c c' E) as [Hk Ht].
    apply (Inv_keeps _ c); [done| |done]. by apply Ht, Hi.
  - exfalso. unfold deviceStateChanged in E. rewrite Hd in E. by repeat case_match.
  - exfalso. unfold deviceStateChanged in E. rewrite Hd in E. by repeat case_match.
Qed.

Lemma netmgr_handle_Inv (application : chars) (ev : Event) (e : Env) (c : NetmgrController) :
  Inv application c ->
  match ev with Activate _ | PeerCompleted => is_Some (m_remote c) | _ => True end ->
  exists c', handle ev e c = Ret c' /\ Inv application c'.
Proof.
  intros Hi Hen. pose proof Hi as ((uuid & Hu & _) & _ & Ht).
  destruct ev; cbn [handle enabled] in *;
    try (eexists; split; [reflexivity|]); try exact Hi.
  - destruct Hen as [path Hr].
    destruct (activate_effect application uuid path config e c) as (c' & E & Hi' & _); eauto.
  - unfold deactivate. by repeat case_match.
  - by apply Inv_initCompleted.
  - unfold dbusInitError. by case_match; [apply Inv_initCompleted|].
  - unfold peerCompleted. destruct Hen as [path ->]. by eexists.
  - unfold deviceAdded. do 2 (case_bool_decide; [by eexists|]).
    apply deviceStateChanged_Inv; [done|by eexists].
  - unfold deviceRemoved. destruct (m_device c) as [d|]; [|done].
    case_bool_decide; [|done]. apply (Inv_keeps _ c); [by repeat split|done|done].
  - unfold dbusStateChanged. destruct (m_device c) as [d|]; [|by eexists].
    case_bool_decide; [|by eexists]. apply deviceStateChanged_Inv; [done|by eexists].
  - unfold propertyChanged. destruct (m_device c) as [d|]; [|done]. by case_bool_decide.
  - destruct (checkHandshakeTraffic_keeps e c) as [Hk [->|[Hp Hq]]]; [done|].
    apply (Inv_keeps _ c); [done| |done]. by rewrite Hp.
Qed.

(** ** The connection *)

Lemma remoteInv_emit (x : Effect) (c : NetmgrController) :
  isUpdate x = false -> isReady x = false -> remoteInv c -> remoteInv (emit x c).
Proof.
  unfold remoteInv, updated, initialized, emit. cbn. intros Hu Hr.
  by rewrite !existsb_app; cbn; rewrite Hu, Hr, !orb_false_r.
Qed.

Lemma remoteInv_same (c c' : NetmgrController) :
  m_remote c' = m_remote c -> effects c' = effects c -> remoteInv c -> remoteInv c'.
Proof. unfold remoteInv, updated, initialized. by intros -> ->. Qed.

Lemma remoteInv_initCompleted (path : chars) (e : Env) (c : NetmgrController) :
  remoteInv (initCompleted path e c).
Proof.
  unfold remoteInv, initCompleted, updated, initialized.
  case_match; cbn; rewrite !existsb_app; cbn; rewrite orb_true_r; by split.
Qed.

Lemma remoteInv_checkHandshakeTraffic (e : Env) (c : NetmgrController) :
  remoteInv c -> remoteInv (checkHandshakeTraffic e c).
Proof.
  intros Hi. unfold checkHandshakeTraffic. repeat case_match; try exact Hi.
  apply remoteInv_emit; [done|done|]. by apply (remoteInv_same c).
Qed.

Lemma remoteInv_deviceStateChanged (state : Z) (e : Env) (c c' : NetmgrController) :
  deviceStateChanged state e c = Ret c' -> remoteInv c -> remoteInv c'.
Proof.
  unfold deviceStateChanged. destruct (m_device c) as [d|]; [|done].
  destruct (ours d c); cbn [negb]; [|by intros [= <-]].
  destruct (state =? ACTIVATED).
  - intros [= <-] Hi.
    match goal with |- context [checkHandshakeTraffic e ?x] =>
      assert (remoteInv (checkHandshakeTraffic e x)) as Hc;
        [apply remoteInv_checkHandshakeTraffic|revert Hc; generalize (checkHandshakeTraffic e x)] end.
    + apply (remoteInv_same (emit (SetRefreshRate (d_path d) WG_HANDSHAKE_POLL_MSEC) c));
        [done|done|]. by apply remoteInv_emit.
    + intros c1 Hc. destruct (m_waitingForHandshakeTraffic c1); [|done]. by apply (remoteInv_same c1).
  - destruct ((state =? DEACTIVATING) || (state =? FAILED)); intros [= <-] Hi; [|done].
    by apply (remoteInv_same c).
Qed.

Lemma remoteInv_activate (config : InterfaceConfig) (e : Env) (c c' : NetmgrController) :
  activate config e c = Ret c' -> remoteInv c -> remoteInv c'.
Proof.
  unfold activate, applyInterfaceConfig. destruct (familyConfig _ 32), (familyConfig _ 128).
  match goal with |- context [let '(a, b) := ?x in _] => destruct x end.
  cbn. destruct (m_remote c) as [path|] eqn:Hr; intros [= <-] [Hi _].
  unfold remoteInv, initialized in *. cbn. rewrite existsb_app. cbn. rewrite orb_false_r, Hr in *.
  by split.
Qed.

Lemma remoteInv_handle (ev : Event) (e : Env) (c c' : NetmgrController) :
  handle ev e c = Ret c' -> remoteInv c -> remoteInv c'.
Proof.
  intros Hh Hi. destruct ev; cbn [handle] in Hh; try injection Hh as <-; try exact Hi.
  - by eapply remoteInv_activate.
  - unfold deactivate. repeat case_match; by apply remoteInv_emit.
  - by apply remoteInv_emit.
  - apply remoteInv_initCompleted.
  - unfold dbusInitError. case_match; [apply remoteInv_initCompleted|by apply remoteInv_emit].
  - unfold peerCompleted in Hh. destruct (m_remote c); [|done]. injection Hh as <-.
    by apply remoteInv_emit.
  - by apply remoteInv_emit.
  - by apply remoteInv_emit.
  - unfold deviceAdded in Hh. do 2 (case_bool_decide; [by injection Hh as <-|]).
    apply (remoteInv_deviceStateChanged _ _ _ _ Hh). by apply (remoteInv_same c).
  - unfold deviceRemoved. destruct (m_device c) as [d|]; [|done]. case_bool_decide; [|done].
    apply remoteInv_emit; [done|done|]. by apply (remoteInv_same c).
  - unfold dbusStateChanged in Hh. destruct (m_device c) as [d|]; [|by injection Hh as <-].
    case_bool_decide; [|by injection Hh as <-].
    apply (remoteInv_deviceStateChanged _ _ _ _ Hh). by apply (remoteInv_same c).
  - unfold propertyChanged. destruct (m_device c); [|done]. case_bool_decide; [|done].
    by apply (remoteInv_same c).
  - by apply remoteInv_checkHandshakeTraffic.
Qed.

Lemma remoteInv_findConnection (e : Env) (c : NetmgrController) :
  remoteInv c -> remoteInv (findConnection e c).
Proof.
  intros Hi. unfold findConnection. case_match; [by apply remoteInv_initCompleted|].
  destruct (callOkay e); [by apply remoteInv_emit|]. by do 2 (apply remoteInv_emit; [done|done|]).
Qed.

Lemma remoteInv_initialize (identity : option Identity) (e : Env) :
  remoteInv (initialize identity e construct).
Proof.
  assert (forall x c, remoteInv c -> remoteInv (applyInterfaceConfig x c)) as Ha.
  { intros x c Hi. unfold applyInterfaceConfig. destruct (familyConfig _ 32), (familyConfig _ 128).
    by apply (remoteInv_same c). }
  assert (remoteInv construct) as Hc by (split; [split; [by intros []|done]|done]).
  unfold initialize.
  match goal with |- context [findConnection e (applyInterfaceConfig _ ?x)] => set (c := x) end.
  assert (remoteInv c) as Hi.
  { subst c. unfold chooseUuid. case_match; [by apply (remoteInv_same construct)|].
    eapply remoteInv_same; [reflexivity|reflexivity|]. by apply (remoteInv_emit (SetTunnelUuid _)). }
  destruct identity; [by apply remoteInv_findConnection, Ha|].
  destruct (activeInterfaceConfig e); [by apply remoteInv_findConnection, Ha|].
  by apply remoteInv_emit.
Qed.

Lemma Reachable_Inv (application : chars) (c : NetmgrController) :
  Reachable application c -> Inv application c /\ remoteInv c.
Proof.
  induction 1 as [identity e <-|c ev e c' _ [IH1 IH2] Hen Hh].
  { split; [apply Inv_initialize|apply remoteInv_initialize]. }
  split; [|by eapply remoteInv_handle].
  destruct (netmgr_handle_Inv application ev e c IH1) as (c1 & E & Hi).
  - destruct ev; try done; [|by apply IH2].
    destruct (m_remote c) as [path|] eqn:Hr; [done|]. exfalso. revert Hh.
    cbn [handle]. unfold activate, applyInterfaceConfig.
    destruct (familyConfig _ 32), (familyConfig _ 128).
    match goal with |- context [let '(a, b) := ?x in _] => destruct x end. cbn. by rewrite Hr.
  - congruence.
Qed.

(** ** Reports of a connection *)

Definition isConnected (x : Effect) : Prop := match x with Connected _ => True | _ => False end.
Definition isActivation (ev : Event * Env) : Prop :=
  match ev.1 with Activate _ => True | _ => False end.

#[export] Instance isConnected_dec (x : Effect) : Decision (isConnected x).
Proof. destruct x; cbn; apply _. Defined.
#[export] Instance isActivation_dec (ev : Event * Env) : Decision (isActivation ev).
Proof. destruct ev as [[]]; unfold isActivation; cbn; apply _. Defined.

(** How many times a connection has been reported, how many activations a sequence
    of events has, and whether one is waited for. *)
Definition connections (c : NetmgrController) : nat :=
  length (base.filter isConnected (effects c)).
Definition activations (evs : list (Event * Env)) : nat := length (base.filter isActivation evs).
Definition armed (c : NetmgrController) : nat := if m_waitingForHandshakeTraffic c then 1 else 0.

(** Traffic has come through the client's own, activated device, and the kernel
    routes the Internet through it when the profile asks for that. *)
Definition established (e : Env) (c : NetmgrController) (k : QString) : Prop :=
  exists d, m_device c = Some d /\ ours d c = true /\ d_state d = ACTIVATED
  /\ m_activationRxBytes c < u64 (rxBytesProperty e (d_path d))
  /\ ipv4DefaultRouteReady e c = true /\ k = m_serverPublicKey c.

Lemma checkHandshakeTraffic_cases (e : Env) (c : NetmgrController) :
  checkHandshakeTraffic e c = c
  \/ exists k, m_waitingForHandshakeTraffic c = true /\ established e c k
     /\ checkHandshakeTraffic e c
        = emit (Connected k) (c <| m_handshakePollTimer := false |>
                                <| m_waitingForHandshakeTraffic := false |>).
Proof.
  unfold checkHandshakeTraffic, established, NetmgrUtils.hasNewHandshakeTraffic.
  destruct (m_device c) as [d|]; [|by left].
  destruct (m_waitingForHandshakeTraffic c); cbn [negb orb]; [|by left].
  destruct (ours d c) eqn:Ho; cbn [negb orb]; [|by left].
  destruct (Z.eqb_spec (d_state d) ACTIVATED); cbn [negb]; [|by left].
  destruct (Z.ltb_spec (m_activationRxBytes c) (u64 (rxBytesProperty e (d_path d))));
    cbn [negb]; [|by left].
  destruct (ipv4DefaultRouteReady e c) eqn:Hr; cbn [negb]; [|by left].
  right. eexists. split; [done|]. split; [|reflexivity]. by exists d.
Qed.

Lemma connections_emit (x : Effect) (c : NetmgrController) :
  ~ isConnected x -> connections (emit x c) = connections c.
Proof.
  intros Hx. unfold connections, emit. cbn. rewrite filter_app, length_app.
  rewrite filter_cons_False by exact Hx. cbn. lia.
Qed.

Lemma connections_report (k : QString) (c : NetmgrController) :
  connections (emit (Connected k) c) = S (connections c).
Proof.
  unfold connections, emit. cbn. rewrite filter_app, length_app.
  rewrite filter_cons_True by exact I. cbn. lia.
Qed.

Lemma checkHandshakeTraffic_balance (e : Env) (c : NetmgrController) :
  (connections (checkHandshakeTraffic e c) + armed (checkHandshakeTraffic e c)
   = connections c + armed c)%nat.
Proof.
  destruct (checkHandshakeTraffic_cases e c) as [->|(k & Hw & _ & ->)]; [done|].
  rewrite connections_report. unfold armed. rewrite Hw. cbn. unfold connections. cbn. lia.
Qed.

Lemma deviceStateChanged_balance (state : Z) (e : Env) (c c' : NetmgrController) :
  deviceStateChanged state e c = Ret c' ->
  (connections c' + armed c' <= connections c + armed c)%nat.
Proof.
  unfold deviceStateChanged. destruct (m_device c) as [d|]; [|done].
  destruct (ours d c); cbn [negb]; [|by intros [= <-]].
  destruct (state =? ACTIVATED).
  - match goal with |- context [checkHandshakeTraffic e ?x] => set (c1 := x) end.
    pose proof (checkHandshakeTraffic_balance e c1) as Hb.
    set (c2 := checkHandshakeTraffic e c1) in *. intros [= <-].
    assert (connections c1 = connections c) as E1
      by (apply (connections_emit (SetRefreshRate (d_path d) WG_HANDSHAKE_POLL_MSEC) c); intros []).
    assert (armed c1 = armed c) as E2 by done. rewrite E1, E2 in Hb.
    destruct (m_waitingForHandshakeTraffic c2) eqn:Hw; [|lia].
    change (armed (c2 <| m_handshakePollTimer := true |>)) with (armed c2).
    change (connections (c2 <| m_handshakePollTimer := true |>)) with (connections c2). lia.
  - destruct ((state =? DEACTIVATING) || (state =? FAILED)); intros [= <-]; [|done].
    unfold armed, connections. cbn. lia.
Qed.

Lemma emit_balance (x : Effect) (c : NetmgrController) :
  ~ isConnected x -> (connections (emit x c) + armed (emit x c) = connections c + armed c)%nat.
Proof. intros Hx. by rewrite connections_emit. Qed.

Lemma initCompleted_balance (path : chars) (e : Env) (c : NetmgrController) :
  (connections (initCompleted path e c) + armed (initCompleted path e c)
   = connections c + armed c)%nat.
Proof. unfold initCompleted. case_match; by rewrite emit_balance by (intros []). Qed.

(** Only an activation arms, and a report disarms. *)
Lemma handle_balance (ev : Event) (e : Env) (c c' : NetmgrController) :
  handle ev e c = Ret c' ->
  (connections c' + armed c' <= connections c + armed c + activations [(ev, e)])%nat.
Proof.
  assert (activations [(ev, e)] = match ev with Activate _ => 1 | _ => 0 end)%nat as ->
    by (destruct ev; reflexivity).
  destruct ev; cbn [handle].
  - unfold activate, applyInterfaceConfig.
    destruct (familyConfig _ 32), (familyConfig _ 128).
    match goal with |- context [let '(a, b) := ?x in _] => destruct x end.
    cbn. destruct (m_remote c); intros [= <-]. rewrite emit_balance by (intros []).
    unfold armed, connections. cbn. lia.
  - intros [= <-]. unfold deactivate. repeat case_match; rewrite emit_balance by (intros []); lia.
  - intros [= <-]. unfold checkStatus. rewrite emit_balance by (intros []). lia.
  - intros [= <-]. rewrite initCompleted_balance. lia.
  - intros [= <-]. unfold dbusInitError. case_match;
      [rewrite initCompleted_balance|rewrite emit_balance by (intros [])]; lia.
  - unfold peerCompleted. destruct (m_remote c); intros [= <-]. rewrite emit_balance by (intros []). lia.
  - intros [= <-]. lia.
  - intros [= <-]. unfold dbusBackendError. rewrite emit_balance by (intros []). lia.
  - intros [= <-]. unfold deactivateFinished. rewrite emit_balance by (intros []). lia.
  - unfold deviceAdded. do 2 (case_bool_decide; [intros [= <-]; lia|]).
    intros E%deviceStateChanged_balance. unfold armed, connections in *. cbn in *. lia.
  - intros [= <-]. unfold deviceRemoved. destruct (m_device c) as [d|]; [|lia].
    case_bool_decide; [|lia]. rewrite emit_balance by (intros []).
    unfold armed, connections. cbn. lia.
  - unfold dbusStateChanged. destruct (m_device c) as [d|]; [|intros [= <-]; lia].
    case_bool_decide; [|intros [= <-]; lia].
    intros E%deviceStateChanged_balance. unfold armed, connections in *. cbn in *. lia.
  - intros [= <-]. unfold propertyChanged. destruct (m_device c) as [d|]; [|lia].
    case_bool_decide; [|lia]. unfold armed, connections. cbn. lia.
  - intros [= <-]. rewrite checkHandshakeTraffic_balance. lia.
Qed.

Lemma activations_cons (ev : Event * Env) (evs : list (Event * Env)) :
  activations (ev :: evs) = (activations [ev] + activations evs)%nat.
Proof.
  unfold activations. rewrite (filter_app isActivation [ev] evs : _ = _), length_app. done.
Qed.

Lemma run_balance (evs : list (Event * Env)) (c c' : NetmgrController) :
  run evs c = Ret c' ->
  (connections c' + armed c' <= connections c + armed c + activations evs)%nat.
Proof.
  revert c. induction evs as [|[ev e] evs IH]; intros c; cbn [run]; [intros [= <-]; lia|].
  destruct (handle ev e c) as [c1| |] eqn:E; [|done..]. cbn [outcome_bind]. intros Hr.
  apply IH in Hr. apply handle_balance in E. rewrite activations_cons. lia.
Qed.

(** ** What a step adds *)

(** The effects a step adds, and when they report a connection. *)
Definition adds (e : Env) (c c' : NetmgrController) : Prop :=
  exists l, effects c' = effects c ++ l
  /\ forall k, Connected k ∈ l -> m_waitingForHandshakeTraffic c = true
     /\ m_waitingForHandshakeTraffic c' = false /\ established e c' k.

Lemma adds_silent (e : Env) (c c' : NetmgrController) (l : list Effect) :
  effects c' = effects c ++ l -> Forall (fun x => ~ isConnected x) l -> adds e c c'.
Proof.
  intros E Hl. exists l. split; [done|]. intros k Hk. rewrite Forall_forall in Hl.
  by destruct (Hl _ Hk).
Qed.

Lemma adds_nothing (e : Env) (c c' : NetmgrController) : effects c' = effects c -> adds e c c'.
Proof. intros E. apply (adds_silent _ _ _ []); [by rewrite app_nil_r|constructor]. Qed.

Lemma adds_emit (e : Env) (x : Effect) (c c' : NetmgrController) :
  effects c' = effects c ++ [x] -> ~ isConnected x -> adds e c c'.
Proof. intros E Hx. by apply (adds_silent _ _ _ [x]); [|repeat constructor]. Qed.

Lemma adds_check (e : Env) (c : NetmgrController) : adds e c (checkHandshakeTraffic e c).
Proof.
  destruct (checkHandshakeTraffic_cases e c) as [->|(k & Hw & He & ->)]; [by apply adds_nothing|].
  exists [Connected k]. split; [done|]. intros k' Hk'%list_elem_of_singleton.
  injection Hk' as ->. done.
Qed.

Lemma adds_deviceStateChanged (state : Z) (e : Env) (c c' : NetmgrController) :
  deviceStateChanged state e c = Ret c' -> adds e c c'.
Proof.
  unfold deviceStateChanged. destruct (m_device c) as [d|]; [|done].
  destruct (ours d c); cbn [negb]; [|intros [= <-]; by apply adds_nothing].
  destruct (state =? ACTIVATED).
  - match goal with |- context [checkHandshakeTraffic e ?x] => set (c1 := x) end.
    destruct (adds_check e c1) as (l & El & Hl). set (c2 := checkHandshakeTraffic e c1) in *.
    intros [= <-]. exists (SetRefreshRate (d_path d) WG_HANDSHAKE_POLL_MSEC :: l). split.
    + rewrite cons_middle, app_assoc. change (effects c ++ [_]) with (effects c1).
      rewrite <- El. by destruct (m_waitingForHandshakeTraffic c2).
    + intros k [Hk|Hk]%elem_of_cons; [done|]. destruct (Hl k Hk) as (Hw & Hw' & He).
      by rewrite Hw'.
  - destruct ((state =? DEACTIVATING) || (state =? FAILED)); intros [= <-]; by apply adds_nothing.
Qed.

Lemma adds_initCompleted (path : chars) (e : Env) (c : NetmgrController) :
  adds e c (initCompleted path e c).
Proof. unfold initCompleted. case_match; (eapply adds_emit; [reflexivity|intros []]). Qed.

Lemma handle_adds (ev : Event) (e : Env) (c c' : NetmgrController) :
  handle ev e c = Ret c' -> adds e c c'.
Proof.
  destruct ev; cbn [handle];
    try (intros [= <-]; first [by apply adds_nothing | eapply adds_emit; [reflexivity|intros []]]).
  - unfold activate, applyInterfaceConfig. destruct (familyConfig _ 32), (familyConfig _ 128).
    match goal with |- context [let '(a, b) := ?x in _] => destruct x end.
    cbn. destruct (m_remote c); intros [= <-]. eapply adds_emit; [reflexivity|intros []].
  - intros [= <-]. unfold deactivate.
    repeat case_match; (eapply adds_emit; [reflexivity|intros []]).
  - intros [= <-]. apply adds_initCompleted.
  - intros [= <-]. unfold dbusInitError.
    case_match; [apply adds_initCompleted|eapply adds_emit; [reflexivity|intros []]].
  - unfold peerCompleted. destruct (m_remote c); intros [= <-].
    eapply adds_emit; [reflexivity|intros []].
  - unfold deviceAdded. do 2 (case_bool_decide; [intros [= <-]; by apply adds_nothing|]).
    intros (l & El & Hl)%adds_deviceStateChanged. by exists l.
  - intros [= <-]. unfold deviceRemoved. destruct (m_device c); [|by apply adds_nothing].
    case_bool_decide; [eapply adds_emit; [reflexivity|intros []]|by apply adds_nothing].
  - unfold dbusStateChanged. destruct (m_device c); [|intros [= <-]; by apply adds_nothing].
    case_bool_decide; [|intros [= <-]; by apply adds_nothing].
    intros (l & El & Hl)%adds_deviceStateChanged. by exists l.
  - intros [= <-]. unfold propertyChanged. destruct (m_device c); [|by apply adds_nothing].
    case_bool_decide; by apply adds_nothing.
  - intros [= <-]. apply adds_check.
Qed.

(** Reports are never taken back. *)
Lemma run_grows (evs : list (Event * Env)) (c c' : NetmgrController) :
  run evs c = Ret c' -> (connections c <= connections c')%nat.
Proof.
  revert c. induction evs as [|[ev e] evs IH]; intros c; cbn [run]; [intros [= <-]; lia|].
  destruct (handle ev e c) as [c1| |] eqn:E; [|done..]. cbn [outcome_bind]. intros Hr%IH.
  apply handle_adds in E as (l & El & _). unfold connections in *.
  rewrite El, filter_app, length_app in Hr. lia.
Qed.

(** ** Theorems *)

Lemma activate_undefined (config : InterfaceConfig) (e : Env) (c : NetmgrController) :
  m_remote c = None -> activate config e c = Undefined.
Proof.
  intros Hr. unfold activate, applyInterfaceConfig. destruct (familyConfig _ 32), (familyConfig _ 128).
  match goal with |- context [let '(a, b) := ?x in _] => destruct x end. cbn. by rewrite Hr.
Qed.

(** C32: whatever the backend has done before, an activation sends NetworkManager
    exactly the settings of its profile: nothing of an earlier activation, of its
    resolvers or of its peer is left in them. It then waits for traffic on a fresh
    baseline. This is so once the backend has told the controller that it is ready; an
    activation before that goes through a null pointer. Every other event is handled
    in every state. *)
Theorem reachable_activation (application : chars) (c : NetmgrController) :
  Reachable application c ->
  (forall config e,
     if initialized c
     then exists uuid path c', m_uuid c = Some uuid /\ m_remote c = Some path
          /\ handle (Activate config) e c = Ret c'
          /\ effects c' = effects c
                          ++ [Update2 path (profileSettings application uuid config) IN_MEMORY]
          /\ m_waitingForHandshakeTraffic c' = true /\ m_activationRxBytes c' = 0
          /\ m_serverPublicKey c' = InterfaceConfig.m_serverPublicKey config
     else handle (Activate config) e c = Undefined)
  /\ (forall ev e, enabled ev c -> ~ isActivation (ev, e) ->
       exists c', handle ev e c = Ret c' /\ Reachable application c')
  /\ (m_handshakePollTimer c = true -> m_waitingForHandshakeTraffic c = true).
Proof.
  intros Hr. destruct (Reachable_Inv application c Hr) as [Hi [Hm Hup]].
  split; [|split; [|apply Hi]].
  - intros config e. destruct (initialized c).
    + destruct (proj2 Hm eq_refl) as [path Hp]. pose proof Hi as ((uuid & Hu & _) & _).
      destruct (activate_effect application uuid path config e c Hi Hu Hp)
        as (c' & E & _ & He & Hw & Hb & Hk & _).
      by exists uuid, path, c'.
    + apply activate_undefined. destruct (m_remote c) as [path|]; [|done].
      by discriminate (proj1 Hm (mk_is_Some _ path eq_refl)).
  - intros ev e Hen Ha.
    destruct (netmgr_handle_Inv application ev e c Hi) as (c' & E & _).
    + destruct ev; first [done|by destruct Ha|by apply Hup].
    + exists c'. split; [done|]. by eapply Reachable_step.
Qed.

(** A connection is reported at most once for each activation; once the device
    has gone down or failed, and whatever happens next, nothing is reported until
    the controller activates again. *)
Theorem connected_once (evs : list (Event * Env)) (c c' : NetmgrController) :
  run evs c = Ret c' ->
  (connections c' <= connections c + armed c + activations evs)%nat
  /\ (m_waitingForHandshakeTraffic c = false -> activations evs = 0%nat ->
      connections c' = connections c /\ m_waitingForHandshakeTraffic c' = false).
Proof.
  intros Hr. pose proof (run_balance evs c c' Hr) as Hb. split; [lia|].
  intros Hw Ha. pose proof (run_grows evs c c' Hr) as Hg.
  unfold armed in Hb. rewrite Hw, Ha in Hb.
  destruct (m_waitingForHandshakeTraffic c'); [lia|]. split; [lia|done].
Qed.

(** When a connection is reported, it was waited for, and traffic has come
    through the activated device of the client's own connection since the baseline
    of the activation, whose peer it names; a profile that routes everything is
    reported only when no other interface keeps the traffic. *)
Theorem connected_when (ev : Event) (e : Env) (c c' : NetmgrController) (l : list Effect)
    (k : QString) :
  handle ev e c = Ret c' -> effects c' = effects c ++ l -> Connected k ∈ l ->
  m_waitingForHandshakeTraffic c = true /\ m_waitingForHandshakeTraffic c' = false
  /\ k = m_serverPublicKey c'
  /\ (exists d, m_device c' = Some d /\ ours d c' = true /\ d_state d = ACTIVATED
      /\ m_activationRxBytes c' < u64 (rxBytesProperty e (d_path d)))
  /\ (m_requiresIpv4DefaultRoute c' = true ->
      exists contents, routeTableFile e = Some contents
      /\ NetmgrUtils.mainRouteBlocksInterface contents (qs "1.1.1.1") WG_INTERFACE_NAME = false).
Proof.
  intros Hh El Hk. apply handle_adds in Hh as (l' & El' & Hl).
  rewrite El' in El. apply app_inv_head in El as ->.
  destruct (Hl k Hk) as (Hw & Hw' & d & Hd & Ho & Hs & Hrx & Hready & ->).
  split_and!; try done; [by exists d|]. intros Hreq. unfold ipv4DefaultRouteReady in Hready.
  rewrite Hreq in Hready. destruct (routeTableFile e) as [contents|]; [|done].
  exists contents. split; [done|]. by apply negb_true_iff.
Qed.

End Operations.

(** ** A device that goes late *)

Section Composition.
Context `{QtText} `{QtNumbers} `{QtJson} `{DNSHelper.Platform}.

(** The backend reports a deactivation twice, on the reply and when the device
    goes. If the user activates again in between, the activation is carried out,
    but the second report puts the controller back to off, and the connection is
    never reported although NetworkManager has been asked to bring it up. *)
Theorem late_removal (application uuid path : chars) (d : NetmgrDevice) (config : InterfaceConfig)
    (e : Env) (c : NetmgrController) :
  Reachable application c -> m_uuid c = Some uuid -> m_remote c = Some path ->
  m_device c = Some d -> ours d c = true ->
  exists c',
  run [(Deactivate, e); (DeactivateFinished, e); (Activate config, e); (PeerCompleted, e);
       (DeviceRemoved (d_path d), e)] c = Ret c'
  /\ effects c' = effects c
       ++ [DeactivateConnection (m_activeConnection d); Disconnected;
           Update2 path (profileSettings application uuid config) IN_MEMORY;
           ActivateConnection path; Disconnected]
  /\ (forall evs c'', activations evs = 0%nat -> run evs c' = Ret c'' ->
      connections c'' = connections c')
  /\ (forall env ct, Controller.slots ct <> 0%nat ->
      Controller.m_state ct = Controller.StateConnecting ->
      Controller.m_nextStep ct = Controller.None_ ->
      exists ct', Controller.handle env Controller.Disconnected ct = Ret (tt, ct')
      /\ Controller.m_state ct' = Controller.StateOff /\ Controller.m_activationQueue ct' = []).
Proof.
  intros Hr Hu Hp Hd Ho. apply Reachable_Inv in Hr as [Hr _]. cbn [run handle outcome_bind].
  assert (deactivate c = emit (DeactivateConnection (m_activeConnection d)) c) as ->
    by (unfold deactivate; by rewrite Hd, Ho).
  cbn [outcome_bind]. set (c1 := deactivateFinished _).
  destruct (activate_effect application uuid path config e c1 Hr Hu Hp)
    as (c2 & E & _ & He & _ & _ & _ & Hd2 & Hp2).
  rewrite E. cbn [outcome_bind]. unfold peerCompleted. rewrite Hp2. cbn [outcome_bind].
  assert (m_device (emit (ActivateConnection path) c2) = Some d) as Hd3 by (rewrite <- Hd; exact Hd2).
  unfold deviceRemoved. rewrite Hd3. bd_true. eexists. split; [reflexivity|]. split_and!.
  - cbn. rewrite He. subst c1. cbn. by rewrite <- !app_assoc.
  - intros evs c'' Ha Hrun. pose proof (run_balance evs _ _ Hrun) as Hb.
    pose proof (run_grows evs _ _ Hrun). rewrite Ha in Hb.
    match goal with |- _ = connections ?x => change (armed x) with 0%nat in Hb end. lia.
  - intros env ct Hn _ Hnext.
    destruct (ControllerProofs.disconnected_off env ct Hn (or_introl Hnext))
      as (ct' & E' & Hs & Hq & _).
    by exists ct'.
Qed.

End Composition.

(** ** Examples *)

#[local] Existing Instance modelText.
#[local] Existing Instance modelNumbers.

Definition sampleConfig : InterfaceConfig :=
  mkInterfaceConfig SingleHop (Some (qs "private")) (Some (qs "10.2.0.2/24")) None
    None None (Some (qs "peer")) (Some (qs "203.0.113.9")) None (Some (qs "10.2.0.1"))
    None None 51820 [mkIPAddress (HostV4 0) 0] [].

(** A system with one connection, whose device has received [rx] bytes. *)
Definition sampleEnv (rx : Z) : Env :=
  mkEnv (qs "WG Desktop") (qs "{5a}") (fun _ => Some (qs "5a")) (qs "6b") (Some sampleConfig)
    (fun _ => Some (qs "/Settings/7")) (fun _ => None) true
    (fun _ => ACTIVATED) (fun _ => qs "/Active/3") (fun _ => qs "wg0") (fun _ => qs "wireguard")
    (fun _ => rx) (fun _ => Some (qs "5a"))
    (Some (NetmgrUtils.procNetRoute NetmgrUtils.tunnelRoutes)) (fun _ => None) (Some 1000).

Definition value (o : Outcome NetmgrController) : NetmgrController :=
  match o with Ret c => c | _ => construct end.

Definition ready : NetmgrController := initialize None (sampleEnv 0) construct.

(** The tunnel up to its activation, and the poll that finds traffic. *)
Definition bringUp : list (Event * Env) :=
  [(Activate sampleConfig, sampleEnv 0); (PeerCompleted, sampleEnv 0);
   (DeviceAdded (qs "/Devices/4"), sampleEnv 128); (PollTimer, sampleEnv 128)].

Definition state1 : NetmgrController :=
  value (handle (Activate sampleConfig) (sampleEnv 0) ready).
Definition state2 : NetmgrController := value (handle PeerCompleted (sampleEnv 0) state1).
Definition state3 : NetmgrController :=
  value (handle (DeviceAdded (qs "/Devices/4")) (sampleEnv 128) state2).
Definition waiting : NetmgrController := value (handle PollTimer (sampleEnv 128) state3).
Definition connectedState : NetmgrController :=
  value (handle PollTimer (sampleEnv 512) waiting).

(** A closed step is evaluated only up to its outcome. *)
Definition returned (o : Outcome NetmgrController) : bool :=
  match o with Ret _ => true | _ => false end.

Lemma value_returned (o : Outcome NetmgrController) : returned o = true -> o = Ret (value o).
Proof. by destruct o. Qed.

Example initialized_signal : effects ready = [Initialized true false (Some 1000)].
Proof. vm_compute. reflexivity. Qed.

Example reported :
  last (effects waiting) = Some (SetRefreshRate (qs "/Devices/4") 500)
  /\ last (effects connectedState) = Some (Connected (Some (qs "peer"))).
Proof. by vm_compute. Qed.

Lemma ready_reachable : Reachable (qs "WG Desktop") ready.
Proof. by apply (Reachable_initialize _ None (sampleEnv 0)). Qed.

Lemma step1 : handle (Activate sampleConfig) (sampleEnv 0) ready = Ret state1.
Proof. by apply value_returned; vm_compute. Qed.
Lemma step2 : handle PeerCompleted (sampleEnv 0) state1 = Ret state2.
Proof. by apply value_returned; vm_compute. Qed.
Lemma step3 : handle (DeviceAdded (qs "/Devices/4")) (sampleEnv 128) state2 = Ret state3.
Proof. by apply value_returned; vm_compute. Qed.
Lemma step4 : handle PollTimer (sampleEnv 128) state3 = Ret waiting.
Proof. by apply value_returned; vm_compute. Qed.

Lemma waiting_reachable : Reachable (qs "WG Desktop") waiting.
Proof.
  refine (Reachable_step _ _ _ _ _ _ _ step4); [|exact I].
  refine (Reachable_step _ _ _ _ _ _ _ step3); [|exact I].
  refine (Reachable_step _ _ _ _ _ _ _ step2); [|by vm_compute].
  by refine (Reachable_step _ _ _ _ _ ready_reachable _ step1).
Qed.

Lemma waiting_members :
  m_uuid waiting = Some (qs "5a") /\ m_remote waiting = Some (qs "/Settings/7")
  /\ m_waitingForHandshakeTraffic waiting = true.
Proof. by vm_compute. Qed.

Lemma reachable_activation_witness :
  exists c', handle (Activate sampleConfig) (sampleEnv 0) waiting = Ret c'
  /\ effects c' = effects waiting
       ++ [Update2 (qs "/Settings/7") (profileSettings (qs "WG Desktop") (qs "5a") sampleConfig)
             IN_MEMORY].
Proof.
  pose proof (proj1 (reachable_activation (qs "WG Desktop") waiting waiting_reachable)
                sampleConfig (sampleEnv 0)) as H.
  assert (initialized waiting = true) as E by (by vm_compute). rewrite E in H.
  destruct H as (uuid & path & c' & Hu & Hp & Hh & He & _).
  rewrite (proj1 waiting_members) in Hu. rewrite (proj1 (proj2 waiting_members)) in Hp.
  injection Hu as <-. injection Hp as <-. by exists c'.
Defined.

Lemma waiting_run : run bringUp ready = Ret waiting.
Proof.
  unfold bringUp. cbn [run]. rewrite step1. cbn [outcome_bind]. rewrite step2.
  cbn [outcome_bind]. rewrite step3. cbn [outcome_bind]. by rewrite step4.
Qed.

Lemma connected_once_witness : (connections waiting <= 1)%nat.
Proof. exact (proj1 (connected_once bringUp ready waiting waiting_run)). Defined.

Lemma connected_run : handle PollTimer (sampleEnv 512) waiting = Ret connectedState.
Proof. by apply value_returned; vm_compute. Qed.

Lemma connected_effects : effects connectedState = effects waiting ++ [Connected (Some (qs "peer"))].
Proof. by vm_compute. Qed.

Lemma connected_when_witness :
  exists contents, routeTableFile (sampleEnv 512) = Some contents
  /\ NetmgrUtils.mainRouteBlocksInterface contents (qs "1.1.1.1") WG_INTERFACE_NAME = false.
Proof.
  destruct (connected_when PollTimer (sampleEnv 512) waiting connectedState _ (Some (qs "peer"))
              connected_run connected_effects) as (_ & _ & _ & _ & H);
    [by left|by apply H].
Defined.

#[local] Existing Instance modelJson.
#[local] Existing Instance DNSHelper.desktop.

Definition sampleDevice : NetmgrDevice := newDevice (qs "/Devices/4") (sampleEnv 0).

Lemma waiting_device : m_device waiting = Some sampleDevice /\ ours sampleDevice waiting = true.
Proof. by vm_compute. Qed.

Lemma late_removal_witness :
  exists c', run [(Deactivate, sampleEnv 0); (DeactivateFinished, sampleEnv 0);
                  (Activate sampleConfig, sampleEnv 0); (PeerCompleted, sampleEnv 0);
                  (DeviceRemoved (qs "/Devices/4"), sampleEnv 0)] waiting = Ret c'
  /\ last (effects c') = Some Disconnected.
Proof.
  destruct (late_removal (qs "WG Desktop") (qs "5a") (qs "/Settings/7") sampleDevice sampleConfig
              (sampleEnv 0) waiting waiting_reachable (proj1 waiting_members)
              (proj1 (proj2 waiting_members)) (proj1 waiting_device) (proj2 waiting_device))
    as (c' & E & He & _).
  exists c'. split; [exact E|]. rewrite He. reflexivity.
Defined.

End NetmgrController.
