(* ===== verification/Netlink.v ===== *)
(** * Netlink messages

    The messages the Linux daemon builds byte by byte for the kernel's routing
    tables, of [src/src/platforms/linux/daemon/wireguardutilslinux.cpp]: a header,
    a fixed part and attributes in a buffer of fixed size. [parseMessage] is the
    reference, the way the kernel reads a message; building and reading are shown
    to be inverse, so that no attribute is dropped for lack of room. *)
From Stdlib Require Import ZArith Lia.
From stdpp Require Import base numbers list.
From S2P Require Import Prelude.

Local Open Scope Z_scope.
Local Open Scope wg_scope.

Module Netlink.

(** ** Little-endian integers *)

Fixpoint le (n : nat) (v : Z) : list Z :=
  match n with O => [] | S n => v mod 256 :: le n (v / 256) end.

Fixpoint ofLe (l : list Z) : Z :=
  match l with [] => 0 | b :: l => b + 256 * ofLe l end.

(** ** The constants of the kernel's interface *)

Definition AF_INET : Z := 2.
Definition AF_INET6 : Z := 10.
Definition RTM_NEWLINK : Z := 16.
Definition RTM_DELLINK : Z := 17.
Definition RTM_NEWROUTE : Z := 24.
Definition RTM_DELROUTE : Z := 25.
Definition RTM_NEWRULE : Z := 32.
Definition RTM_DELRULE : Z := 33.
Definition NLMSG_NOOP : Z := 1.
Definition NLMSG_ERROR : Z := 2.
Definition NLMSG_DONE : Z := 3.
Definition NLM_F_REQUEST : Z := 1.
Definition NLM_F_ACK : Z := 4.
Definition NLM_F_REPLACE : Z := 256.
Definition NLM_F_CREATE : Z := 1024.
Definition FRA_DST : Z := 1.
Definition FRA_FWMARK : Z := 10.
Definition FRA_TABLE : Z := 15.
Definition RTA_DST : Z := 1.
Definition RTA_OIF : Z := 4.
Definition RTA_TABLE : Z := 15.
Definition FR_ACT_TO_TBL : Z := 1.
Definition FIB_RULE_INVERT : Z := 2.
Definition RTPROT_BOOT : Z := 3.
Definition RT_SCOPE_UNIVERSE : Z := 0.
Definition RT_TABLE_UNSPEC : Z := 0.
Definition RTN_UNICAST : Z := 1.
Definition RTN_THROW : Z := 9.

(** ** Sizes *)

Definition align4 (n : Z) : Z := (n + 3) / 4 * 4.
Definition NLMSG_HDRLEN : Z := 16.
Definition NLMSG_SPACE (n : Z) : Z := align4 (NLMSG_HDRLEN + n).
Definition NLMSG_LENGTH (n : Z) : Z := NLMSG_HDRLEN + n.
Definition RTA_LENGTH (n : Z) : Z := 4 + n.
Definition RTA_SPACE (n : Z) : Z := align4 (RTA_LENGTH n).

(** ** Building a message *)

(** A [struct nlmsghdr] and the bytes that follow it in the buffer. *)
Record Buffer : Type := mkBuffer {
  nlmsg_len : Z;
  nlmsg_type : Z;
  nlmsg_flags : Z;
  nlmsg_seq : Z;
  nlmsg_pid : Z;
  body : list Z;
}.

#[export] Instance Buffer_eta : Eta Buffer := fun b =>
  mkBuffer (nlmsg_len b) (nlmsg_type b) (nlmsg_flags b) (nlmsg_seq b) (nlmsg_pid b) (body b).

(** [memcpy] to an offset. *)
Definition writeAt (off : nat) (bytes l : list Z) : list Z :=
  take off l ++ bytes ++ drop (off + length bytes) l.

(** A zeroed buffer of [maxlen] bytes with a fixed part. *)
Definition newBuffer (maxlen type flags seq pid : Z) (fixed : list Z) : Buffer :=
  mkBuffer (NLMSG_LENGTH (Z.of_nat (length fixed))) type flags seq pid
    (writeAt 0 fixed (replicate (Z.to_nat (maxlen - NLMSG_HDRLEN)) 0)).

Definition nlmsg_append_attr (maxlen attrtype : Z) (attrdata : list Z) (b : Buffer) : Buffer :=
  let attrlen := Z.of_nat (length attrdata) in
  let newlen := align4 (nlmsg_len b) + RTA_SPACE attrlen in
  if newlen <=? maxlen then
    let off := Z.to_nat (align4 (nlmsg_len b) - NLMSG_HDRLEN) in
    b <| body := writeAt off (le 2 (RTA_LENGTH attrlen) ++ le 2 attrtype ++ attrdata) (body b) |>
      <| nlmsg_len := newlen |>
  else b.

Definition nlmsg_append_attr32 (maxlen attrtype value : Z) (b : Buffer) : Buffer :=
  nlmsg_append_attr maxlen attrtype (le 4 value) b.

(** The first [nlmsg_len] bytes of the buffer. *)
Definition bytes (b : Buffer) : list Z :=
  le 4 (nlmsg_len b) ++ le 2 (nlmsg_type b) ++ le 2 (nlmsg_flags b) ++ le 4 (nlmsg_seq b)
  ++ le 4 (nlmsg_pid b) ++ take (Z.to_nat (nlmsg_len b - NLMSG_HDRLEN)) (body b).

(** ** Reading a message *)

(** Attributes, each with its type and data; every one of them takes four bytes at
    least, so as many steps as bytes are enough. *)
Fixpoint parseAttrs (fuel : nat) (l : list Z) : option (list (Z * list Z)) :=
  match l, fuel with
  | [], _ => Some []
  | _, O => None
  | _, S fuel =>
      let len := Z.to_nat (ofLe (take 2 l)) in
      if (4 <=? len)%nat && (len <=? length l)%nat then
        rest ← parseAttrs fuel (drop (Z.to_nat (align4 (Z.of_nat len))) l);
        Some ((ofLe (take 2 (drop 2 l)), take (len - 4) (drop 4 l)) :: rest)
      else None
  end.

(** A message: its type, flags and sequence number, its fixed part of 12 bytes (a
    [rtmsg] or a [fib_rule_hdr]) and its attributes. *)
Record Message : Type := mkMessage {
  type : Z;
  flags : Z;
  seq : Z;
  pid : Z;
  fixed : list Z;
  attrs : list (Z * list Z);
}.

Definition parseMessage (l : list Z) : option Message :=
  if bool_decide (ofLe (take 4 l) = Z.of_nat (length l)) && (28 <=? length l)%nat then
    attrs ← parseAttrs (length l) (drop 28 l);
    Some (mkMessage (ofLe (take 2 (drop 4 l))) (ofLe (take 2 (drop 6 l)))
            (ofLe (take 4 (drop 8 l))) (ofLe (take 4 (drop 12 l))) (take 12 (drop 16 l)) attrs)
  else None.

(** ** Little-endian lemmas *)

Lemma length_le (n : nat) (v : Z) : length (le n v) = n.
Proof. revert v. induction n as [|n IH]; intros v; simpl; [done|]. by rewrite IH. Qed.

Lemma ofLe_le (n : nat) (v : Z) : 0 <= v < 256 ^ Z.of_nat n -> ofLe (le n v) = v.
Proof.
  revert v. induction n as [|n IH]; intros v Hv; [simpl in *; lia|].
  rewrite Nat2Z.inj_succ, Z.pow_succ_r in Hv by lia. cbn [le ofLe].
  rewrite IH; [|split; [apply Z.div_pos; lia|apply Z.div_lt_upper_bound; lia]].
  pose proof (Z.div_mod v 256 ltac:(done)). lia.
Qed.

(** Only the low bytes are stored. *)
Lemma ofLe_le_mod (n : nat) (v : Z) : ofLe (le n v) = v mod 256 ^ Z.of_nat n.
Proof.
  revert v. induction n as [|n IH]; intros v; [by rewrite Z.mod_1_r|].
  rewrite Nat2Z.inj_succ, Z.pow_succ_r by lia. cbn [le ofLe]. rewrite IH.
  rewrite Z.rem_mul_r by lia. done.
Qed.

Lemma align4_spec (n : Z) : n <= align4 n < n + 4 /\ align4 n mod 4 = 0.
Proof. unfold align4. Z.to_euclidean_division_equations. lia. Qed.

Lemma align4_id (n : Z) : n mod 4 = 0 -> align4 n = n.
Proof. unfold align4. intros H. Z.to_euclidean_division_equations. lia. Qed.

(** ** Building and reading *)

(** An attribute as bytes, with its padding. *)
Definition attrBytes (a : Z * list Z) : list Z :=
  let n := Z.of_nat (length (a.2)) in
  le 2 (RTA_LENGTH n) ++ le 2 (a.1) ++ a.2
  ++ replicate (Z.to_nat (RTA_SPACE n - RTA_LENGTH n)) 0.

Definition wf_attr (a : Z * list Z) : Prop :=
  0 <= a.1 < 2 ^ 16 /\ Z.of_nat (length (a.2)) < 2 ^ 16 - 8.

Lemma length_attrBytes (a : Z * list Z) :
  Z.of_nat (length (attrBytes a)) = RTA_SPACE (Z.of_nat (length (a.2))).
Proof.
  unfold attrBytes. rewrite !length_app, !length_le, length_replicate.
  unfold RTA_SPACE, RTA_LENGTH.
  pose proof (align4_spec (4 + Z.of_nat (length (a.2)))). lia.
Qed.

Lemma attrBytes_ge (a : Z * list Z) : (4 <= length (attrBytes a))%nat.
Proof. unfold attrBytes. rewrite !length_app, !length_le. lia. Qed.

Lemma parseAttrs_concat (l : list (Z * list Z)) (fuel : nat) :
  Forall wf_attr l -> (length (concat (map attrBytes l)) <= fuel)%nat ->
  parseAttrs fuel (concat (map attrBytes l)) = Some l.
Proof.
  intros H. revert fuel. induction H as [|a l Ha _ IH]; intros fuel Hf; [by destruct fuel|].
  cbn [map concat] in *. rewrite length_app in Hf. pose proof (attrBytes_ge a) as Hge.
  destruct fuel as [|fuel]; [lia|].
  set (rest := concat (map attrBytes l)) in *.
  assert (forall x f, x <> [] -> parseAttrs (S f) x =
    let len := Z.to_nat (ofLe (take 2 x)) in
    if (4 <=? len)%nat && (len <=? length x)%nat then
      r ← parseAttrs f (drop (Z.to_nat (align4 (Z.of_nat len))) x);
      Some ((ofLe (take 2 (drop 2 x)), take (len - 4) (drop 4 x)) :: r)
    else None) as Hstep by (by intros []).
  rewrite Hstep by (intros E; apply (f_equal length) in E; rewrite length_app in E; simpl in E; lia).
  pose proof (length_attrBytes a) as Hlen. destruct a as [t data]. destruct Ha as [Ht Hd].
  cbn [fst snd] in *. set (n := Z.of_nat (length data)) in *.
  pose proof (align4_spec (RTA_LENGTH n)) as [Hal _]. fold (RTA_SPACE n) in Hal.
  assert (RTA_LENGTH n = 4 + n) as Hrl by done.
  set (pad := replicate (Z.to_nat (RTA_SPACE n - RTA_LENGTH n)) 0).
  assert (attrBytes (t, data) = le 2 (RTA_LENGTH n) ++ le 2 t ++ data ++ pad) as E by done.
  assert (Z.to_nat (ofLe (take 2 (attrBytes (t, data) ++ rest))) = (4 + length data)%nat) as Hl.
  { rewrite E, <- app_assoc, take_app_length' by (by rewrite length_le).
    rewrite ofLe_le by (cbn; lia). lia. }
  cbv zeta. rewrite Hl, length_app.
  destruct (Nat.leb_spec 4 (4 + length data)); [|lia].
  destruct (Nat.leb_spec (4 + length data) (length (attrBytes (t, data)) + length rest)); [|lia].
  cbn [andb].
  assert (align4 (Z.of_nat (4 + length data)) = RTA_SPACE n) as ->
    by (unfold RTA_SPACE, RTA_LENGTH; f_equal; lia).
  rewrite (drop_app_length' _ rest (Z.to_nat (RTA_SPACE n))) by lia.
  rewrite IH by lia. cbn [mbind option_bind]. rewrite E, <- !app_assoc.
  do 2 f_equal. f_equal.
  - rewrite drop_app_length' by (by rewrite length_le).
    rewrite take_app_length' by (by rewrite length_le). by apply ofLe_le.
  - rewrite (app_assoc (le 2 _)), drop_app_length' by (rewrite length_app, !length_le; done).
    by rewrite take_app_length' by lia.
Qed.

(** A buffer with a fixed part of 12 bytes and attributes. *)
Definition built (maxlen : Z) (fixed : list Z) (attrs : list (Z * list Z)) (b : Buffer) : Prop :=
  length fixed = 12%nat
  /\ nlmsg_len b = 28 + Z.of_nat (length (concat (map attrBytes attrs))) /\ nlmsg_len b <= maxlen
  /\ body b = fixed ++ concat (map attrBytes attrs)
              ++ replicate (Z.to_nat (maxlen - nlmsg_len b)) 0.

Lemma length_attrs_aligned (attrs : list (Z * list Z)) :
  Z.of_nat (length (concat (map attrBytes attrs))) mod 4 = 0.
Proof.
  induction attrs as [|a l IH]; [done|]. cbn [map concat]. rewrite length_app.
  pose proof (length_attrBytes a) as E. pose proof (align4_spec (RTA_LENGTH (Z.of_nat (length a.2)))).
  unfold RTA_SPACE in E. rewrite Nat2Z.inj_add, E. Z.to_euclidean_division_equations. lia.
Qed.

Lemma writeAt_zeros (pre l : list Z) (k : nat) :
  (length l <= k)%nat ->
  writeAt (length pre) l (pre ++ replicate k 0) = pre ++ l ++ replicate (k - length l) 0.
Proof.
  intros H. unfold writeAt. rewrite take_app_length.
  rewrite drop_app_add, drop_replicate. done.
Qed.

Lemma built_new (maxlen t f s p : Z) (fixed : list Z) :
  length fixed = 12%nat -> 28 <= maxlen ->
  built maxlen fixed [] (newBuffer maxlen t f s p fixed).
Proof.
  intros Hl Hm. unfold built, newBuffer, NLMSG_LENGTH, NLMSG_HDRLEN. cbn [nlmsg_len body map concat].
  rewrite Hl. split_and!; [done|cbn; lia|cbn; lia|].
  pose proof (writeAt_zeros [] fixed (Z.to_nat (maxlen - 16))) as E. cbn [length app] in E.
  rewrite E by lia. cbn [concat map app]. rewrite Hl. do 2 f_equal. lia.
Qed.

Lemma built_append (maxlen : Z) (fixed : list Z) (attrs : list (Z * list Z)) (b : Buffer)
    (t : Z) (data : list Z) :
  built maxlen fixed attrs b ->
  nlmsg_len b + RTA_SPACE (Z.of_nat (length data)) <= maxlen ->
  built maxlen fixed (attrs ++ [(t, data)]) (nlmsg_append_attr maxlen t data b).
Proof.
  intros (Hf & Hl & Hm & Hb) Hroom. unfold nlmsg_append_attr.
  assert (align4 (nlmsg_len b) = nlmsg_len b) as ->.
  { apply align4_id. pose proof (length_attrs_aligned attrs). Z.to_euclidean_division_equations. lia. }
  set (n := Z.of_nat (length data)) in *.
  destruct (Z.leb_spec (nlmsg_len b + RTA_SPACE n) maxlen); [|lia].
  pose proof (length_attrBytes (t, data)) as La. cbn [snd] in La. fold n in La.
  pose proof (align4_spec (RTA_LENGTH n)) as [Hal _]. fold (RTA_SPACE n) in Hal.
  assert (RTA_LENGTH n = 4 + n) as Hrl by done.
  unfold built. rewrite map_app, concat_app, length_app. cbn [map concat]. rewrite app_nil_r.
  match goal with |- context [nlmsg_len ?x = _ + _] => set (b' := x) end.
  assert (nlmsg_len b' = nlmsg_len b + RTA_SPACE n) as -> by done.
  assert (body b' = writeAt (Z.to_nat (nlmsg_len b - NLMSG_HDRLEN))
            (le 2 (RTA_LENGTH n) ++ le 2 t ++ data) (body b)) as -> by done. clear b'.
  split_and!; [done|lia|lia|]. rewrite Hb. rewrite (app_assoc fixed).
  replace (Z.to_nat (nlmsg_len b - NLMSG_HDRLEN)) with
    (length (fixed ++ concat (map attrBytes attrs)))
    by (rewrite length_app; unfold NLMSG_HDRLEN; lia).
  set (piece := le 2 (RTA_LENGTH n) ++ le 2 t ++ data).
  assert (length piece = 4 + length data)%nat as Lp
    by (subst piece; rewrite !length_app, !length_le; lia).
  rewrite writeAt_zeros by lia. rewrite <- !app_assoc. do 2 f_equal.
  unfold attrBytes. cbn [fst snd]. fold n. rewrite !(app_assoc (le 2 _)).
  change ((le 2 (RTA_LENGTH n) ++ le 2 t) ++ data ++ _) with
    ((le 2 (RTA_LENGTH n) ++ le 2 t) ++ data ++ replicate (Z.to_nat (RTA_SPACE n - RTA_LENGTH n)) 0).
  subst piece. rewrite <- !app_assoc. do 3 f_equal.
  rewrite <- replicate_add. f_equal. lia.
Qed.

(** The header's fields fit their widths. *)
Definition wf_header (b : Buffer) : Prop :=
  0 <= nlmsg_type b < 2 ^ 16 /\ 0 <= nlmsg_flags b < 2 ^ 16
  /\ 0 <= nlmsg_seq b < 2 ^ 32 /\ 0 <= nlmsg_pid b < 2 ^ 32.

Lemma take_drop_field (pre field post : list Z) (n k : nat) :
  length pre = n -> length field = k -> take k (drop n (pre ++ field ++ post)) = field.
Proof. intros <- <-. by rewrite drop_app_length, take_app_length. Qed.

Lemma parse_built (maxlen : Z) (fixed : list Z) (attrs : list (Z * list Z)) (b : Buffer) :
  built maxlen fixed attrs b -> maxlen < 2 ^ 32 -> wf_header b -> Forall wf_attr attrs ->
  parseMessage (bytes b)
  = Some (mkMessage (nlmsg_type b) (nlmsg_flags b) (nlmsg_seq b) (nlmsg_pid b) fixed attrs).
Proof.
  intros (Hf & Hl & Hm & Hb) Hmax (Ht & Hfl & Hs & Hp) Ha.
  set (tail := fixed ++ concat (map attrBytes attrs)).
  assert (length tail = 12 + length (concat (map attrBytes attrs)))%nat as Ltail
    by (subst tail; rewrite length_app; lia).
  assert (bytes b = le 4 (nlmsg_len b) ++ le 2 (nlmsg_type b) ++ le 2 (nlmsg_flags b)
          ++ le 4 (nlmsg_seq b) ++ le 4 (nlmsg_pid b) ++ tail) as E.
  { unfold bytes. do 5 f_equal. rewrite Hb, app_assoc. fold tail.
    apply take_app_length'. unfold NLMSG_HDRLEN. lia. }
  assert (length (bytes b) = 28 + length (concat (map attrBytes attrs)))%nat as Lb
    by (rewrite E, !length_app, !length_le, Ltail; lia).
  unfold parseMessage.
  assert (ofLe (take 4 (bytes b)) = Z.of_nat (length (bytes b))) as Hlen.
  { rewrite E at 1. rewrite take_app_length' by (by rewrite length_le).
    rewrite ofLe_le by (cbn; lia). lia. }
  rewrite bool_decide_true by exact Hlen. destruct (Nat.leb_spec 28 (length (bytes b))); [|lia].
  cbn [andb].
  assert (drop 28 (bytes b) = concat (map attrBytes attrs)) as ->.
  { rewrite E. subst tail. rewrite !app_assoc. apply drop_app_length'.
    rewrite !length_app, !length_le. lia. }
  rewrite parseAttrs_concat by (done || lia). cbn [mbind option_bind]. do 2 f_equal.
  - rewrite E, take_drop_field by (by rewrite length_le). by apply ofLe_le.
  - rewrite E, (app_assoc (le 4 _) (le 2 _)), take_drop_field
      by (rewrite ?length_app, ?length_le; done). by apply ofLe_le.
  - rewrite E, (app_assoc (le 4 _) (le 2 _)), (app_assoc _ (le 2 (nlmsg_flags b))), take_drop_field
      by (rewrite ?length_app, ?length_le; done). by apply ofLe_le.
  - rewrite E, (app_assoc (le 4 _) (le 2 _)), (app_assoc _ (le 2 (nlmsg_flags b))),
      (app_assoc _ (le 4 (nlmsg_seq b))), take_drop_field
      by (rewrite ?length_app, ?length_le; done). by apply ofLe_le.
  - rewrite E, (app_assoc (le 4 _) (le 2 _)), (app_assoc _ (le 2 (nlmsg_flags b))),
      (app_assoc _ (le 4 (nlmsg_seq b))), (app_assoc _ (le 4 (nlmsg_pid b))).
    by apply take_drop_field; [rewrite !length_app, !length_le|].
Qed.

(** ** Received messages *)

(** What the daemon's loop reads: messages one after the other, each padded to a
    multiple of four bytes, up to the end of the bytes received. *)
Fixpoint splitMessages (fuel : nat) (l : list Z) : list (list Z) :=
  match fuel with
  | O => []
  | S fuel =>
      let len := ofLe (take 4 l) in
      if (NLMSG_HDRLEN <=? Z.of_nat (length l)) && (NLMSG_HDRLEN <=? len)
         && (len <=? Z.of_nat (length l))
      then take (Z.to_nat len) l :: splitMessages fuel (drop (Z.to_nat (align4 len)) l)
      else []
  end.

(** [NLMSG_OK] and [NLMSG_NEXT] over all the bytes received: every message takes
    sixteen of them at least. *)
Definition messages (l : list Z) : list (list Z) := splitMessages (S (length l)) l.

(** A message as it is sent, with its padding. *)
Definition padded (m : list Z) : list Z :=
  m ++ replicate (Z.to_nat (align4 (Z.of_nat (length m)) - Z.of_nat (length m))) 0.

Definition wf_message (m : list Z) : Prop :=
  16 <= Z.of_nat (length m) /\ ofLe (take 4 m) = Z.of_nat (length m).

Lemma splitMessages_concat (ms : list (list Z)) (fuel : nat) :
  Forall wf_message ms -> (length (concat (map padded ms)) < fuel)%nat ->
  splitMessages fuel (concat (map padded ms)) = ms.
Proof.
  intros H. revert fuel. induction H as [|m ms [Hge Hlen] _ IH]; intros fuel Hf.
  { destruct fuel; [lia|done]. }
  cbn [map concat] in *. rewrite length_app in Hf. destruct fuel as [|fuel]; [lia|].
  set (rest := concat (map padded ms)) in *. cbn [splitMessages].
  pose proof (align4_spec (Z.of_nat (length m))) as [Hal _].
  assert (Z.of_nat (length (padded m)) = align4 (Z.of_nat (length m))) as Lp
    by (unfold padded; rewrite length_app, length_replicate; lia).
  assert (take 4 (padded m ++ rest) = take 4 m) as ->.
  { unfold padded. rewrite <- app_assoc. apply take_app_le. lia. }
  rewrite Hlen, length_app. unfold NLMSG_HDRLEN.
  destruct (Z.leb_spec 16 (Z.of_nat (length (padded m) + length rest))); [|lia].
  destruct (Z.leb_spec 16 (Z.of_nat (length m))); [|lia].
  destruct (Z.leb_spec (Z.of_nat (length m)) (Z.of_nat (length (padded m) + length rest))); [|lia].
  cbn [andb]. f_equal.
  - rewrite Nat2Z.id. unfold padded. rewrite <- app_assoc. apply take_app_length.
  - rewrite (drop_app_length' (padded m)) by lia. apply IH. lia.
Qed.

Lemma messages_concat (ms : list (list Z)) :
  Forall wf_message ms -> messages (concat (map padded ms)) = ms.
Proof. intros H. by apply splitMessages_concat; [|lia]. Qed.

End Netlink.
