(* ===== verification/WireguardUtilsLinux.v ===== *)
(** * The Linux backend of the daemon

    Model of [src/src/platforms/linux/daemon/wireguardutilslinux.cpp] and
    [linuxfirewall.cpp]: the WireGuard device, its peers, the routing messages of
    Netlink.v, the firewall and the control groups. The kernel, the C library, the
    WireGuard library and the firewall's Go library are a [Kernel]: what each call
    returns after the calls before it, which are recorded in [trace]. *)
From Stdlib Require Import ZArith Lia Ascii String.
From stdpp Require Import base numbers list gmap strings.
From S2P Require Import Prelude QHostAddress QString QtTextModel IPAddress Rfc Json.
From S2P Require Import InterfaceConfig Netlink DaemonModel.
Import IPAddress Netlink.

Local Open Scope Z_scope.
Local Open Scope wg_scope.

Module WireguardUtilsLinux.

(** ** System calls *)

Definition WG_FIREWALL_MARK : Z := 51820.
Definition WG_ROUTE_TABLE : Z := 51820.
Definition WG_KEEPALIVE_PERIOD : Z := 60.
Definition WG_INTERFACE : chars := qs "moz0".
Definition VPN_EXCLUDE_CGROUP : chars := qs "/mozvpn.exclude".
Definition VPN_EXCLUDE_CLASS_ID : Z := 1114129.

(** A [wg_allowedip], a [wg_peer] and a [wg_device]; a zeroed endpoint is empty. *)
Record AllowedIp : Type := mkAllowedIp { family : Z; cidr : Z; ip : list Z }.

Record WgPeer : Type := mkWgPeer {
  public_key : list Z;
  peer_flags : Z;
  endpoint : list Z;
  persistent_keepalive_interval : Z;
  allowedips : list AllowedIp;
}.

#[export] Instance WgPeer_eta : Eta WgPeer := fun p =>
  mkWgPeer (public_key p) (peer_flags p) (endpoint p) (persistent_keepalive_interval p)
    (allowedips p).

Record WgDevice : Type := mkWgDevice {
  private_key : list Z;
  fwmark : Z;
  device_flags : Z;
  peers : list WgPeer;
}.

Definition WGDEVICE_REPLACE_PEERS : Z := 1.
Definition WGDEVICE_HAS_PRIVATE_KEY : Z := 2.
Definition WGDEVICE_HAS_FWMARK : Z := 16.
Definition WGPEER_REMOVE_ME : Z := 1.
Definition WGPEER_REPLACE_ALLOWEDIPS : Z := 2.
Definition WGPEER_HAS_PUBLIC_KEY : Z := 4.
Definition WGPEER_HAS_PERSISTENT_KEEPALIVE_INTERVAL : Z := 16.

(** The functions of the firewall library. *)
Inductive Netfilter : Type :=
| RemoveTables | CreateTables | ApplyFwMark (mark : Z) | RestrictTraffic (ifname : chars)
| IsolateIpv6 (ifname address : chars) | AllowPrefix (prefix : chars)
| AllowDHCP | AllowNDP | BlockDNS
| MarkInbound (address : chars) | ClearInbound (address : chars)
| MarkCgroupV1 (classid : Z) | MarkCgroupV2 (cgroup : chars)
| ResetCgroupV2 (cgroup : chars) | ResetAllCgroupsV2.

Inductive Sys : Type :=
| NetfilterCall (n : Netfilter)
| WgAddDevice | WgSetDevice (d : WgDevice) | WgDelDevice | WgListDevices | WgGetDevice
| SendTo (message : list Z) | IfNameToIndex
| GetAddrInfo (address port : chars) | USleep (usec : Z) | ProbeRoute (address : list Z)
| MkDir (path : chars) | OpenWrite (path : chars) | Fputs (path text : chars)
| OpenRead (path : chars).

(** What [getaddrinfo] answers: an address with its family, or a failure that is
    permanent or not. *)
Inductive AddrInfo : Type :=
| Resolved (ai_family ai_addrlen : Z) (ai_addr : list Z)
| Permanent
| Transient.

(** What [wg_get_device] says of a peer. *)
Record PeerInfo : Type := mkPeerInfo {
  info_key : list Z;
  tv_sec : Z;
  tv_nsec : Z;
  tx_bytes : Z;
  rx_bytes : Z;
}.

(** [code] is the value a call returns ([-errno] for [mkdir]; zero for a file that
    could be opened); [connectable] says that [connect] succeeded or failed for
    another reason than an unreachable network or host; [released] is what is read,
    at some moment, through a pointer to a text that has been freed. *)
Class Kernel : Type := {
  code : list Sys -> Sys -> Z;
  getaddrinfo : list Sys -> chars -> chars -> AddrInfo;
  deviceNames : list Sys -> list chars;
  devicePeers : list Sys -> option (list PeerInfo);
  connectable : list Sys -> list Z -> bool;
  udpSocket : list Sys -> bool;
  fileLines : list Sys -> chars -> list chars;
  findCgroupPath : QString;
  findCgroup2Path : QString;
  wg_key_from_base64 : chars -> list Z;
  wg_key_to_base64 : list Z -> chars;
  inet_pton4 : chars -> option (list Z);
  inet_pton6 : chars -> option (list Z);
  released : list Sys -> chars -> chars;
  getpid : Z;
}.

(** The bytes of an IPv4 address in network order. *)
Definition networkBytes (v : Z) : list Z := rev (le 4 v).

(** What the code relies on: [inet_pton] reads the text Qt writes and stores four or
    sixteen bytes, and an empty name has no address. *)
Class KernelLaws `{QtText} `{Kernel} : Prop := {
  inet_pton4_length s a : inet_pton4 s = Some a -> length a = 4%nat;
  inet_pton6_length s a : inet_pton6 s = Some a -> length a = 16%nat;
  inet_pton4_text v :
    0 <= v < 2 ^ 32 -> inet_pton4 (hostToString (HostV4 v)) = Some (networkBytes v);
  inet_pton4_empty : inet_pton4 [] = None;
  inet_pton6_text l :
    wf_host (HostV6 l) -> inet_pton6 (hostToString (HostV6 l)) = Some l;
  getaddrinfo_empty t port : getaddrinfo t [] port = Permanent;
  getpid_range : 0 <= getpid < 2 ^ 32;
}.

(** ** State *)

(** [m_isUp] is the member of [m_firewall]. *)
Record WireguardUtilsLinux : Type := mkWireguardUtilsLinux {
  m_isUp : bool;
  m_nlseq : Z;
  m_cgroupVersion : Z;
  m_cgroupNetClass : QString;
  m_cgroupUnified : QString;
  m_ifindex : Z;
  m_ifflags : Z;
  m_routesExcluded : list IPAddress;
  m_peerEndpoints : gmap chars QString;
  trace : list Sys;
}.

#[export] Instance WireguardUtilsLinux_eta : Eta WireguardUtilsLinux := fun w =>
  mkWireguardUtilsLinux (m_isUp w) (m_nlseq w) (m_cgroupVersion w) (m_cgroupNetClass w)
    (m_cgroupUnified w) (m_ifindex w) (m_ifflags w) (m_routesExcluded w) (m_peerEndpoints w)
    (trace w).

Definition M (A : Type) : Type := WireguardUtilsLinux -> A * WireguardUtilsLinux.

Definition ret {A : Type} (a : A) : M A := fun w => (a, w).
Definition bind {A B : Type} (m : M A) (k : A -> M B) : M B :=
  fun w => let '(a, w) := m w in k a w.

Notation "x <- m ;; k" := (bind m (fun x => k))
  (at level 100, m at next level, right associativity) : wg_scope.

(** [if (!m) return false;] *)
Notation "m &? k" := (bind m (fun ok : bool => if ok then k else ret false))
  (at level 100, k at level 200, right associativity) : wg_scope.

Definition modify (f : WireguardUtilsLinux -> WireguardUtilsLinux) : M unit := fun w => (tt, f w).
Definition gets {A : Type} (f : WireguardUtilsLinux -> A) : M A := fun w => (f w, w).

Section Operations.
Context `{QtText} `{Kernel}.

Definition sys (c : Sys) : M Z := fun w =>
  (code (trace w) c, w <| trace := trace w ++ [c] |>).

(** A call that succeeds when it returns zero. *)
Definition succeeds (c : Sys) : M bool := r <- sys c ;; ret (r =? 0).

Definition netfilter (n : Netfilter) : M bool := succeeds (NetfilterCall n).

(** Calls in order, up to the first that fails. *)
Fixpoint allSucceed (l : list Netfilter) : M bool :=
  match l with
  | [] => ret true
  | n :: r => netfilter n &? allSucceed r
  end.

(** ** The firewall *)

Definition firewallDown : M bool :=
  isUp <- gets m_isUp ;;
  if isUp then netfilter RemoveTables &? ret true else ret true.

(** The address without its prefix length. *)
Definition withoutPrefix (address : chars) : chars :=
  let slashPos := indexOf "/"%char address in
  if slashPos =? -1 then address else left address slashPos.

Definition firewallUp (ifname : chars) (mark : Z) (deviceIpv6Address : chars) : M bool :=
  netfilter CreateTables &?
  (_ <- modify (fun w => w <| m_isUp := true |>) ;;
   ok <- allSucceed ([ApplyFwMark mark; RestrictTraffic ifname;
                      IsolateIpv6 ifname (withoutPrefix deviceIpv6Address)]
                     ++ map (fun p => AllowPrefix (toString p)) Lan.lanAddressRanges
                     ++ [AllowDHCP; AllowNDP; BlockDNS]) ;;
   if ok then ret true else _ <- firewallDown ;; ret false).

(** ** Netlink *)

Definition nextSeq : M Z := fun w => (m_nlseq w, w <| m_nlseq := m_nlseq w + 1 |>).

(** [sendto], which succeeds when the whole message was taken. *)
Definition send (b : Buffer) : M bool :=
  result <- sys (SendTo (bytes b)) ;; ret (result =? nlmsg_len b).

(** A [struct fib_rule_hdr] of the unspecified table. *)
Definition fibRuleHdr (fam dst_len rule_flags : Z) : list Z :=
  [fam; dst_len; 0; 0; RT_TABLE_UNSPEC; 0; 0; FR_ACT_TO_TBL] ++ le 4 rule_flags.

Definition rtmSendRule (action flags addrfamily : Z) : M bool :=
  let maxlen := NLMSG_SPACE (12 + 2 * RTA_SPACE 4) in
  seq <- nextSeq ;;
  let b := newBuffer maxlen action flags (u32 seq) getpid
             (fibRuleHdr addrfamily 0 FIB_RULE_INVERT) in
  let b := nlmsg_append_attr32 maxlen FRA_FWMARK WG_FIREWALL_MARK b in
  let b := nlmsg_append_attr32 maxlen FRA_TABLE WG_ROUTE_TABLE b in
  send b.

(** [buildAllowedIp]: the entry, and whether the address could be converted. The
    text of the address belongs to a temporary that is gone when [inet_pton] reads
    it, so that [released] says what is read. *)
Definition buildAllowedIp (t : list Sys) (prefix : IPAddress) : AllowedIp * bool :=
  let addrString := released t (hostToString (m_address prefix)) in
  match IPAddress.type prefix with
  | IPv4Protocol =>
      match inet_pton4 addrString with
      | Some a => (mkAllowedIp AF_INET (u8 (m_prefixLength prefix)) a, true)
      | None => (mkAllowedIp AF_INET (u8 (m_prefixLength prefix)) (replicate 4 0), false)
      end
  | IPv6Protocol =>
      match inet_pton6 addrString with
      | Some a => (mkAllowedIp AF_INET6 (u8 (m_prefixLength prefix)) a, true)
      | None => (mkAllowedIp AF_INET6 (u8 (m_prefixLength prefix)) (replicate 16 0), false)
      end
  | UnknownNetworkLayerProtocol => (mkAllowedIp 0 0 (replicate 16 0), false)
  end.

(** A [struct rtmsg] of the unspecified table. *)
Definition rtmsgHdr (fam dst_len rtm_type : Z) : list Z :=
  [fam; dst_len; 0; 0; RT_TABLE_UNSPEC; RTPROT_BOOT; RT_SCOPE_UNIVERSE; rtm_type] ++ le 4 0.

Definition rtmSendRoute (action : Z) (dest : IPAddress) (rtm_type flags : Z) : M bool :=
  let maxlen := NLMSG_SPACE (12 + 2 * RTA_SPACE 4 + RTA_SPACE 16) in
  t <- gets trace ;;
  let '(entry, ok) := buildAllowedIp t dest in
  if negb ok then ret false
  else
    seq <- nextSeq ;;
    ifindex <- gets m_ifindex ;;
    let b := newBuffer maxlen action (Z.lor flags (Z.lor NLM_F_REQUEST NLM_F_ACK)) (u32 seq) getpid
               (rtmsgHdr (family entry) (cidr entry) rtm_type) in
    let b := nlmsg_append_attr32 maxlen RTA_TABLE WG_ROUTE_TABLE b in
    let b := nlmsg_append_attr maxlen RTA_DST (ip entry) b in
    let b := if rtm_type =? RTN_UNICAST
             then nlmsg_append_attr32 maxlen RTA_OIF ifindex b else b in
    send b.

Definition rtmIncludePeer (action : Z) (prefix : IPAddress) (flags : Z) : M bool :=
  let maxlen := NLMSG_SPACE (12 + RTA_SPACE 16 + 2 * RTA_SPACE 4) in
  seq <- nextSeq ;;
  let rule fam := newBuffer maxlen action (Z.lor flags (Z.lor NLM_F_REQUEST NLM_F_ACK)) (u32 seq)
                    getpid (fibRuleHdr fam (u8 (m_prefixLength prefix)) 0) in
  let attrs b := nlmsg_append_attr32 maxlen FRA_TABLE WG_ROUTE_TABLE
                   (nlmsg_append_attr32 maxlen FRA_FWMARK WG_FIREWALL_MARK b) in
  match m_address prefix with
  | HostV6 dst => send (nlmsg_append_attr maxlen FRA_DST dst (attrs (rule AF_INET6)))
  | HostV4 dst =>
      send (nlmsg_append_attr maxlen FRA_DST (networkBytes dst) (attrs (rule AF_INET)))
  | NullHost => ret false
  end.

(** A loop whose calls' results are ignored. *)
Fixpoint forEach {A : Type} (f : A -> M bool) (l : list A) : M unit :=
  match l with
  | [] => ret tt
  | a :: r => _ <- f a ;; forEach f r
  end.

(** ** The interface *)

Definition currentInterfaces : M (list chars) := fun w =>
  (deviceNames (trace w), w <| trace := trace w ++ [WgListDevices] |>).

Definition interfaceExists : M bool :=
  names <- currentInterfaces ;; ret (bool_decide (WG_INTERFACE ∈ names)).

Definition newDevice (config : InterfaceConfig) : WgDevice :=
  mkWgDevice (wg_key_from_base64 (text (m_privateKey config))) WG_FIREWALL_MARK
    (Z.lor WGDEVICE_HAS_PRIVATE_KEY (Z.lor WGDEVICE_REPLACE_PEERS WGDEVICE_HAS_FWMARK)) [].

Definition NEWRULE_FLAGS : Z :=
  Z.lor NLM_F_REQUEST (Z.lor NLM_F_CREATE (Z.lor NLM_F_REPLACE NLM_F_ACK)).

Definition addInterface (config : InterfaceConfig) : M bool :=
  succeeds WgAddDevice &?
  succeeds (WgSetDevice (newDevice config)) &?
  rtmSendRule RTM_NEWRULE NEWRULE_FLAGS AF_INET &?
  rtmSendRule RTM_NEWRULE NEWRULE_FLAGS AF_INET6 &?
  firewallUp WG_INTERFACE WG_FIREWALL_MARK (text (m_deviceIpv6Address config)) &?
  (version <- gets m_cgroupVersion ;;
   (if version =? 1 then netfilter (MarkCgroupV1 VPN_EXCLUDE_CLASS_ID) else ret true) &?
   (index <- sys IfNameToIndex ;;
    _ <- modify (fun w => w <| m_ifindex := index |>) ;;
    ret (negb (index =? 0)))).

Definition deleteInterface : M bool :=
  firewallDown &?
  rtmSendRule RTM_DELRULE (Z.lor NLM_F_REQUEST NLM_F_ACK) AF_INET &?
  rtmSendRule RTM_DELRULE (Z.lor NLM_F_REQUEST NLM_F_ACK) AF_INET6 &?
  succeeds WgDelDevice &?
  ret true.

(** ** Peers *)

Definition hasRouteToIPv4 (ipv4addr : chars) : M bool :=
  sock <- gets (fun w => udpSocket (trace w)) ;;
  if negb sock then ret true
  else match inet_pton4 ipv4addr with
  | None => ret true
  | Some dest => fun w =>
      (connectable (trace w) dest, w <| trace := trace w ++ [ProbeRoute dest] |>)
  end.

Definition lookupName (address port : chars) : M AddrInfo := fun w =>
  (getaddrinfo (trace w) address port, w <| trace := trace w ++ [GetAddrInfo address port] |>).

(** The loop of [setPeerEndpoint]: [retries] counts down to zero, and the next
    failure is the last one. *)
Fixpoint resolve (retries : nat) (timeout : Z) (address port : chars) : M AddrInfo :=
  r <- lookupName address port ;;
  match r, retries with
  | Resolved _ _ _, _ => ret r
  | Permanent, _ => ret Permanent
  | Transient, O => ret Transient
  | Transient, S retries =>
      _ <- sys (USleep timeout) ;;
      resolve retries (Z.min 20000000 (u32 (timeout * 6) / 5)) address port
  end.

(** [sizeof(struct sockaddr_in)] and [sizeof(struct sockaddr_in6)]. *)
Definition SOCKADDR_IN : Z := 16.
Definition SOCKADDR_IN6 : Z := 28.

Definition setPeerEndpoint (address : chars) (port : Z) : M (option (list Z)) :=
  r <- resolve 15 1000000 address (showZ port) ;;
  ret match r with
  | Resolved family len addr =>
      if ((family =? AF_INET) && (len =? SOCKADDR_IN))
         || ((family =? AF_INET6) && (len =? SOCKADDR_IN6))
      then Some addr else None
  | _ => None
  end.

(** A zeroed [wg_peer] with its key. *)
Definition newPeer (key : QString) : WgPeer :=
  mkWgPeer (wg_key_from_base64 (text key)) 0 [] 0 [].

Definition addPeerPrefix (peer : WgPeer) (prefix : IPAddress) : M (WgPeer * bool) :=
  t <- gets trace ;;
  let '(entry, ok) := buildAllowedIp t prefix in
  ret (peer <| allowedips := allowedips peer ++ [entry] |>, ok).

(** The allowed addresses of an entry hop; [None] where the function returns. *)
Fixpoint addEntryPrefixes (l : list IPAddress) (peer : WgPeer) : M (option WgPeer) :=
  match l with
  | [] => ret (Some peer)
  | ip :: r =>
      added <- addPeerPrefix peer ip ;;
      if added.2 then
        _ <- rtmIncludePeer RTM_NEWRULE ip (Z.lor NLM_F_CREATE NLM_F_REPLACE) ;;
        addEntryPrefixes r (added.1)
      else ret None
  end.

Definition addAllowedIps (config : InterfaceConfig) (peer : WgPeer) : M (option WgPeer) :=
  match m_hopType config with
  | SingleHop | MultiHopExit =>
      peer <- (if isNullString (m_deviceIpv4Address config) then ret peer
               else added <- addPeerPrefix peer (ofString (qs "0.0.0.0/0")) ;; ret (added.1)) ;;
      peer <- (if isNullString (m_deviceIpv6Address config) then ret peer
               else added <- addPeerPrefix peer (ofString (qs "::/0")) ;; ret (added.1)) ;;
      ret (Some peer)
  | MultiHopEntry => addEntryPrefixes (m_allowedIPAddressRanges config) peer
  end.

(** [m_serverIpv4AddrIn] where it can be used, [m_serverIpv6AddrIn] otherwise. *)
Definition chooseEndpoint (config : InterfaceConfig) : M QString :=
  useIPv4 <- (if isNullString (m_serverIpv4AddrIn config) then ret false
              else if isNullString (m_serverIpv6AddrIn config) then ret true
              else hasRouteToIPv4 (text (m_serverIpv4AddrIn config))) ;;
  ret (if useIPv4 then m_serverIpv4AddrIn config else m_serverIpv6AddrIn config).

(** A device without flags that carries a peer. *)
Definition peerDevice (peer : WgPeer) : WgDevice := mkWgDevice (replicate 32 0) 0 0 [peer].

Definition updatePeer (config : InterfaceConfig) : M bool :=
  endpointAddr <- chooseEndpoint config ;;
  sa <- setPeerEndpoint (text endpointAddr) (m_serverPort config) ;;
  match sa with
  | None => ret false
  | Some sa =>
      peer <- addAllowedIps config ((newPeer (m_serverPublicKey config)) <| endpoint := sa |>) ;;
      match peer with
      | None => ret false
      | Some peer =>
          netfilter (MarkInbound (text endpointAddr)) &?
          (_ <- modify (fun w => w <| m_peerEndpoints :=
                  <[text (m_serverPublicKey config) := endpointAddr]> (m_peerEndpoints w) |>) ;;
           succeeds (WgSetDevice (peerDevice
             (peer <| persistent_keepalive_interval := WG_KEEPALIVE_PERIOD |>
                   <| peer_flags := Z.lor WGPEER_HAS_PUBLIC_KEY
                        (Z.lor WGPEER_REPLACE_ALLOWEDIPS
                               WGPEER_HAS_PERSISTENT_KEEPALIVE_INTERVAL) |>))))
      end
  end.

(** [QHash::take]. *)
Definition takeEndpoint (key : QString) : M QString := fun w =>
  (default None (m_peerEndpoints w !! text key),
   w <| m_peerEndpoints := delete (text key) (m_peerEndpoints w) |>).

Definition deletePeer (config : InterfaceConfig) : M bool :=
  let peer := (newPeer (m_serverPublicKey config))
                <| peer_flags := Z.lor WGPEER_HAS_PUBLIC_KEY WGPEER_REMOVE_ME |> in
  _ <- (match m_hopType config with
        | MultiHopEntry =>
            forEach (fun ip => rtmIncludePeer RTM_DELRULE ip 0) (m_allowedIPAddressRanges config)
        | _ => ret tt
        end) ;;
  endpointAddr <- takeEndpoint (m_serverPublicKey config) ;;
  (if isEmpty endpointAddr then ret true else netfilter (ClearInbound (text endpointAddr))) &?
  succeeds (WgSetDevice (peerDevice peer)).

(** A peer's status; times in milliseconds. *)
Definition peerStatusOf (i : PeerInfo) : Daemon.PeerStatus :=
  Daemon.mkPeerStatus (Some (wg_key_to_base64 (info_key i)))
    (tv_sec i * 1000 + tv_nsec i / 1000000) (rx_bytes i) (tx_bytes i).

Definition getPeerStatus : M (list Daemon.PeerStatus) := fun w =>
  (match devicePeers (trace w) with None => [] | Some l => map peerStatusOf l end,
   w <| trace := trace w ++ [WgGetDevice] |>).

(** ** Routes *)

Definition updateRoutePrefix (prefix : IPAddress) : M bool :=
  rtmSendRoute RTM_NEWROUTE prefix RTN_UNICAST (Z.lor NLM_F_CREATE NLM_F_REPLACE).

Definition deleteRoutePrefix (prefix : IPAddress) : M bool :=
  rtmSendRoute RTM_DELROUTE prefix RTN_UNICAST 0.

Definition excludeNetwork (prefix : IPAddress) : M bool :=
  _ <- modify (fun w => w <| m_routesExcluded := m_routesExcluded w ++ [prefix] |>) ;;
  rtmSendRoute RTM_NEWROUTE prefix RTN_THROW (Z.lor NLM_F_CREATE NLM_F_REPLACE).

Definition excludeLocalNetworks (lanAddressRanges : list IPAddress) : M bool :=
  _ <- forEach excludeNetwork lanAddressRanges ;; ret true.

(** ** Notifications of the kernel *)

(** The fields of the [struct ifinfomsg] after the header. *)
Definition ifi_index (m : list Z) : Z := ofLe (take 4 (drop 20 m)).
Definition ifi_flags (m : list Z) : Z := ofLe (take 4 (drop 24 m)).

Definition nlsockHandleNewlink (m : list Z) : M unit :=
  ifindex <- gets m_ifindex ;;
  if negb (ifi_index m =? ifindex) then ret tt
  else modify (fun w => w <| m_ifflags := ifi_flags m |>).

Definition nlsockHandleDellink (m : list Z) : M unit :=
  ifindex <- gets m_ifindex ;;
  if negb (ifi_index m =? ifindex) then ret tt
  else
    excluded <- gets m_routesExcluded ;;
    _ <- forEach (fun prefix => rtmSendRoute RTM_DELROUTE prefix RTN_THROW 0) excluded ;;
    modify (fun w => w <| m_routesExcluded := [] |> <| m_ifindex := 0 |> <| m_ifflags := 0 |>).

(** The loop over the messages received, up to one of type [NLMSG_DONE]. *)
Fixpoint handleMessages (l : list (list Z)) : M unit :=
  match l with
  | [] => ret tt
  | m :: r =>
      let t := ofLe (take 2 (drop 4 m)) in
      if t =? NLMSG_DONE then ret tt
      else
        _ <- (if t =? RTM_NEWLINK then nlsockHandleNewlink m
              else if t =? RTM_DELLINK then nlsockHandleDellink m
              else ret tt) ;;
        handleMessages r
  end.

(** [received] is what [recv] stored, empty where it failed. *)
Definition nlsockReady (received : list Z) : M unit := handleMessages (messages received).

(** ** Control groups *)

Definition EEXIST : Z := 17.

Definition setupCgroupClass (path : chars) (classid : Z) : M bool :=
  err <- sys (MkDir path) ;;
  if (err <? 0) && negb (err =? - EEXIST) then ret false
  else
    succeeds (OpenWrite (path ++ qs "/net_cls.classid")) &?
    (_ <- sys (Fputs (path ++ qs "/net_cls.classid") (showZ classid)) ;; ret true).

Definition moveCgroupProcs (src dest : chars) : M bool :=
  succeeds (OpenWrite (dest ++ qs "/cgroup.procs")) &?
  succeeds (OpenRead (src ++ qs "/cgroup.procs")) &?
  (lines <- gets (fun w => fileLines (trace w) (src ++ qs "/cgroup.procs")) ;;
   _ <- forEach (fun line => succeeds (Fputs (dest ++ qs "/cgroup.procs") line)) lines ;;
   ret true).

Definition excludeCgroup (cgroup : chars) : M unit :=
  version <- gets m_cgroupVersion ;;
  unified <- gets m_cgroupUnified ;;
  netClass <- gets m_cgroupNetClass ;;
  _ <- (if version =? 1
        then moveCgroupProcs (text unified ++ cgroup) (text netClass ++ VPN_EXCLUDE_CGROUP)
        else if version =? 2 then netfilter (MarkCgroupV2 cgroup)
        else ret true) ;;
  ret tt.

Definition resetCgroup (cgroup : chars) : M unit :=
  version <- gets m_cgroupVersion ;;
  unified <- gets m_cgroupUnified ;;
  netClass <- gets m_cgroupNetClass ;;
  _ <- (if version =? 1 then moveCgroupProcs (text unified ++ cgroup) (text netClass)
        else if version =? 2 then netfilter (ResetCgroupV2 cgroup)
        else ret true) ;;
  ret tt.

Definition resetAllCgroups : M unit :=
  version <- gets m_cgroupVersion ;;
  netClass <- gets m_cgroupNetClass ;;
  _ <- (if version =? 1
        then moveCgroupProcs (text netClass ++ VPN_EXCLUDE_CGROUP) (text netClass)
        else if version =? 2 then netfilter ResetAllCgroupsV2
        else ret true) ;;
  ret tt.

(** The constructor, after that of the firewall. The netlink socket, its options
    and its notifier are left to the kernel. *)
Definition chooseCgroups : M unit :=
  _ <- modify (fun w => w <| m_cgroupNetClass := findCgroupPath |>
                          <| m_cgroupUnified := findCgroup2Path |>) ;;
  if negb (isNullString findCgroupPath) then
    ok <- setupCgroupClass (text findCgroupPath ++ VPN_EXCLUDE_CGROUP) VPN_EXCLUDE_CLASS_ID ;;
    if ok then modify (fun w => w <| m_cgroupVersion := 1 |>) else ret tt
  else
    version <- gets m_cgroupVersion ;;
    if (version =? 0) && negb (isNullString findCgroup2Path)
    then modify (fun w => w <| m_cgroupVersion := 2 |>) else ret tt.

Definition initial : WireguardUtilsLinux :=
  mkWireguardUtilsLinux false 0 0 None None 0 0 [] ∅ [].

Definition construct : WireguardUtilsLinux :=
  snd ((_ <- netfilter RemoveTables ;; chooseCgroups) initial).

End Operations.

(** ** Reasoning about the operations *)

Section Logic.
Context `{QtText} `{Kernel}.

(** [keeps I m]: from a state where [I] holds, [m] ends in one where it holds. *)
Definition keeps {A : Type} (I : WireguardUtilsLinux -> Prop) (m : M A) : Prop :=
  forall w, I w -> I (snd (m w)).

Lemma keeps_ret {A : Type} I (a : A) : keeps I (ret a).
Proof. by intros w. Qed.

Lemma keeps_gets {A : Type} I (f : WireguardUtilsLinux -> A) : keeps I (gets f).
Proof. by intros w. Qed.

Lemma keeps_modify I f : (forall w, I w -> I (f w)) -> keeps I (modify f).
Proof. intros Hf w. apply Hf. Qed.

Lemma keeps_bind {A B : Type} I (m : M A) (k : A -> M B) :
  keeps I m -> (forall a, keeps I (k a)) -> keeps I (bind m k).
Proof.
  intros Hm Hk w Hw. unfold bind. specialize (Hm w Hw). destruct (m w) as [a w'].
  by apply Hk.
Qed.

Lemma keeps_forEach {A : Type} I (f : A -> M bool) (l : list A) :
  (forall a, keeps I (f a)) -> keeps I (forEach f l).
Proof.
  intros Hf. induction l as [|a l IH]; [apply keeps_ret|]. simpl. by apply keeps_bind.
Qed.

(** Inversion of a sequence and of a guarded sequence that succeeds. *)
Lemma bind_inv {A B : Type} (m : M A) (k : A -> M B) (w w2 : WireguardUtilsLinux) (b : B) :
  bind m k w = (b, w2) -> exists a w1, m w = (a, w1) /\ k a w1 = (b, w2).
Proof. unfold bind. destruct (m w) as [a w1]. eauto. Qed.

Lemma guard_inv (m k : M bool) (w w2 : WireguardUtilsLinux) :
  (m &? k) w = (true, w2) -> exists w1, m w = (true, w1) /\ k w1 = (true, w2).
Proof. intros E. apply bind_inv in E as ([] & w1 & E1 & E2); [eauto|done]. Qed.

End Logic.

(** ** Messages *)

Section Messages.
Context `{KernelLaws}.

(** One more request, with the next sequence number. *)
Definition requested (m : list Z) (w : WireguardUtilsLinux) : WireguardUtilsLinux :=
  w <| m_nlseq := m_nlseq w + 1 |> <| trace := trace w ++ [SendTo m] |>.

(** [op] sends one message, which reads as [msg], and changes nothing else. *)
Definition requests (op : M bool) (msg : Message) (w : WireguardUtilsLinux) : Prop :=
  exists m ok, op w = (ok, requested m w) /\ parseMessage m = Some msg.

Lemma u32_range (z : Z) : 0 <= u32 z < 2 ^ 32.
Proof. apply Z.mod_pos_bound. lia. Qed.

Lemma nlmsg_header (maxlen t : Z) (data : list Z) (b : Buffer) :
  let b' := nlmsg_append_attr maxlen t data b in
  nlmsg_type b' = nlmsg_type b /\ nlmsg_flags b' = nlmsg_flags b
  /\ nlmsg_seq b' = nlmsg_seq b /\ nlmsg_pid b' = nlmsg_pid b.
Proof. cbv zeta. unfold nlmsg_append_attr. by destruct (_ <=? _). Qed.

(** Appending a list of attributes that fits. *)
Definition appendAttrs (maxlen : Z) (l : list (Z * list Z)) (b : Buffer) : Buffer :=
  foldl (fun b a => nlmsg_append_attr maxlen (a.1) (a.2) b) b l.

Lemma built_appendAttrs (maxlen : Z) (fixed : list Z) (l l0 : list (Z * list Z)) (b : Buffer) :
  built maxlen fixed l0 b ->
  28 + Z.of_nat (length (concat (map attrBytes (l0 ++ l)))) <= maxlen ->
  built maxlen fixed (l0 ++ l) (appendAttrs maxlen l b).
Proof.
  revert l0 b. induction l as [|[t data] l IH]; intros l0 b Hb Hroom.
  { by rewrite app_nil_r. }
  rewrite (cons_middle (t, data)), (app_assoc l0) in *. apply IH; [|done].
  apply built_append; [done|]. pose proof (length_attrBytes (t, data)) as La. cbn [snd] in La.
  destruct Hb as (_ & -> & _). rewrite !map_app, !concat_app, !length_app in Hroom.
  cbn [map concat snd] in *. rewrite length_app in Hroom. lia.
Qed.

Lemma appendAttrs_header (maxlen : Z) (l : list (Z * list Z)) (b : Buffer) :
  let b' := appendAttrs maxlen l b in
  nlmsg_type b' = nlmsg_type b /\ nlmsg_flags b' = nlmsg_flags b
  /\ nlmsg_seq b' = nlmsg_seq b /\ nlmsg_pid b' = nlmsg_pid b.
Proof.
  revert b. induction l as [|[t data] l IH]; intros b; [done|].
  destruct (IH (nlmsg_append_attr maxlen t data b)) as (E1 & E2 & E3 & E4).
  destruct (nlmsg_header maxlen t data b) as (F1 & F2 & F3 & F4).
  cbv zeta in *. cbn [appendAttrs foldl fst snd] in *. unfold appendAttrs in *.
  rewrite E1, E2, E3, E4. by rewrite F1, F2, F3, F4.
Qed.

(** Attributes short enough for the buffers: the room they take. *)
Definition room (l : list (Z * list Z)) : Z :=
  foldr Z.add 0 (map (fun a => RTA_SPACE (Z.of_nat (length (a.2)))) l).

Lemma room_length (l : list (Z * list Z)) :
  Z.of_nat (length (concat (map attrBytes l))) = room l.
Proof.
  induction l as [|a l IH]; [done|]. cbn [map concat room foldr].
  rewrite length_app, Nat2Z.inj_add, length_attrBytes, IH. done.
Qed.

Lemma parse_appendAttrs (maxlen action flags seq : Z) (fixed : list Z) (l : list (Z * list Z)) :
  length fixed = 12%nat -> 28 + room l <= maxlen < 2 ^ 32 -> 28 <= maxlen ->
  0 <= action < 2 ^ 16 -> 0 <= flags < 2 ^ 16 -> Forall wf_attr l ->
  parseMessage (bytes (appendAttrs maxlen l (newBuffer maxlen action flags (u32 seq) getpid fixed)))
  = Some (mkMessage action flags (u32 seq) getpid fixed l).
Proof.
  intros Hf Hr Hm Ha Hfl Hl. set (b0 := newBuffer maxlen action flags (u32 seq) getpid fixed).
  destruct (appendAttrs_header maxlen l b0) as (E1 & E2 & E3 & E4). cbv zeta in *.
  rewrite (parse_built maxlen fixed l).
  - rewrite E1, E2, E3, E4. done.
  - apply (built_appendAttrs maxlen fixed l []); [by apply built_new|].
    cbn [app]. rewrite room_length. lia.
  - lia.
  - unfold wf_header. rewrite E1, E2, E3, E4. cbn [nlmsg_type nlmsg_flags nlmsg_seq nlmsg_pid b0 newBuffer].
    split_and!; try (apply u32_range || apply getpid_range); lia.
  - done.
Qed.

(** *** The messages asked for *)

Definition fwmarkAttr : Z * list Z := (FRA_FWMARK, le 4 WG_FIREWALL_MARK).
Definition tableAttr : Z * list Z := (FRA_TABLE, le 4 WG_ROUTE_TABLE).

(** The family and the bytes of an address. *)
Definition familyOf (a : QHostAddress) : Z :=
  match a with HostV4 _ => AF_INET | HostV6 _ => AF_INET6 | NullHost => 0 end.
Definition destination (a : QHostAddress) : list Z :=
  match a with HostV4 v => networkBytes v | HostV6 l => l | NullHost => [] end.

Definition acked (flags : Z) : Z := Z.lor flags (Z.lor NLM_F_REQUEST NLM_F_ACK).

(** [ip rule ... not fwmark MARK table TABLE]. *)
Definition tunnelRule (action flags fam : Z) (w : WireguardUtilsLinux) : Message :=
  mkMessage action flags (u32 (m_nlseq w)) getpid (fibRuleHdr fam 0 FIB_RULE_INVERT)
    [fwmarkAttr; tableAttr].

(** [ip rule ... fwmark MARK to PREFIX table TABLE]. *)
Definition peerRule (action : Z) (prefix : IPAddress) (flags : Z) (w : WireguardUtilsLinux)
  : Message :=
  mkMessage action (acked flags) (u32 (m_nlseq w)) getpid
    (fibRuleHdr (familyOf (m_address prefix)) (u8 (m_prefixLength prefix)) 0)
    [fwmarkAttr; tableAttr; (FRA_DST, destination (m_address prefix))].

(** [ip route ... PREFIX table TABLE], through the device if it is a unicast route;
    [read] are the bytes of the address. *)
Definition routeMessage (action : Z) (dest : IPAddress) (rtm_type flags : Z) (read : list Z)
    (w : WireguardUtilsLinux) : Message :=
  mkMessage action (acked flags) (u32 (m_nlseq w)) getpid
    (rtmsgHdr (familyOf (m_address dest)) (u8 (m_prefixLength dest)) rtm_type)
    ([(RTA_TABLE, le 4 WG_ROUTE_TABLE); (RTA_DST, read)]
     ++ (if rtm_type =? RTN_UNICAST then [(RTA_OIF, le 4 (m_ifindex w))] else [])).

(** Actions and flags fit the header. *)
Definition fits (action flags : Z) : Prop := 0 <= action < 2 ^ 16 /\ 0 <= flags < 2 ^ 16.

Lemma fits_acked (action flags : Z) : fits action flags -> 0 <= acked flags < 2 ^ 16.
Proof. intros [_ Hf]. by apply lor_range. Qed.

Lemma wf_prefix_u8 (ip : IPAddress) : wf ip -> u8 (m_prefixLength ip) = m_prefixLength ip.
Proof.
  intros [_ Hp]. unfold u8. rewrite Z.mod_small; [done|].
  destruct (m_address ip); simpl in Hp; lia.
Qed.

Lemma length_destination (a : QHostAddress) :
  wf_host a -> length (destination a) = 4%nat \/ length (destination a) = 16%nat.
Proof.
  destruct a as [|v|l]; [done|intros _; left|intros [Hl _]; by right].
  unfold destination, networkBytes. by rewrite length_rev, length_le.
Qed.

Lemma send_requests (b : Buffer) (msg : Message) (w : WireguardUtilsLinux) :
  parseMessage (bytes b) = Some msg ->
  requests (_ <- nextSeq ;; send b) msg w.
Proof.
  intros E. exists (bytes b). eexists. split; [|done].
  unfold bind, nextSeq, send, sys, ret, requested. cbn. done.
Qed.

Lemma rtmSendRule_requests (action flags fam : Z) (w : WireguardUtilsLinux) :
  fits action flags ->
  requests (rtmSendRule action flags fam) (tunnelRule action flags fam w) w.
Proof.
  intros [Ha Hf].
  set (b := appendAttrs 44 [fwmarkAttr; tableAttr] (newBuffer 44 action flags (u32 (m_nlseq w))
              getpid (fibRuleHdr fam 0 FIB_RULE_INVERT))).
  assert (rtmSendRule action flags fam w = (_ <- nextSeq ;; send b) w) as E.
  { unfold rtmSendRule, bind, nextSeq. change (NLMSG_SPACE _) with 44. by subst b. }
  unfold requests. rewrite E. apply (send_requests b).
  subst b. apply parse_appendAttrs; try done. by repeat constructor.
Qed.

Lemma wf_destination (t : Z) (a : QHostAddress) :
  wf_host a -> 0 <= t < 2 ^ 16 -> wf_attr (t, destination a).
Proof.
  intros Ha Ht. split; [done|].
  destruct (length_destination _ Ha) as [E|E]; cbn [snd]; by rewrite E.
Qed.

Lemma room_destination (a : QHostAddress) :
  wf_host a -> RTA_SPACE (Z.of_nat (length (destination a))) <= 20.
Proof. intros Ha. by destruct (length_destination _ Ha) as [E|E]; rewrite E. Qed.

Lemma rtmIncludePeer_requests (action : Z) (prefix : IPAddress) (flags : Z)
    (w : WireguardUtilsLinux) :
  wf_host (m_address prefix) -> fits action flags ->
  requests (rtmIncludePeer action prefix flags) (peerRule action prefix flags w) w.
Proof.
  intros Hw Hfit. pose proof (fits_acked _ _ Hfit) as Hf. destruct Hfit as [Ha _].
  pose proof (room_destination _ Hw) as Hr. pose proof (wf_destination FRA_DST _ Hw) as Hd.
  set (attrs := [fwmarkAttr; tableAttr; (FRA_DST, destination (m_address prefix))]).
  set (b := appendAttrs 64 attrs (newBuffer 64 action (acked flags) (u32 (m_nlseq w)) getpid
    (fibRuleHdr (familyOf (m_address prefix)) (u8 (m_prefixLength prefix)) 0))).
  assert (rtmIncludePeer action prefix flags w = (_ <- nextSeq ;; send b) w) as E.
  { subst b attrs. unfold rtmIncludePeer, bind, nextSeq.
    change (NLMSG_SPACE _) with 64. by destruct (m_address prefix) as [|v|l]. }
  unfold requests. rewrite E. apply (send_requests b).
  subst b. rewrite parse_appendAttrs; try done.
  - unfold attrs, room. cbn [map foldr snd]. change (RTA_SPACE (Z.of_nat (length (fwmarkAttr.2)))) with 8.
    change (RTA_SPACE (Z.of_nat (length (tableAttr.2)))) with 8. lia.
  - repeat constructor; try done; by apply Hd.
Qed.

(** The bytes of an address as they are read back from its freed text. *)
Definition readBack (t : list Sys) (a : QHostAddress) : option (list Z) :=
  match a with
  | HostV4 _ => inet_pton4 (released t (hostToString a))
  | HostV6 _ => inet_pton6 (released t (hostToString a))
  | NullHost => None
  end.

Lemma buildAllowedIp_read (t : list Sys) (ip : IPAddress) (dest : list Z) :
  readBack t (m_address ip) = Some dest ->
  buildAllowedIp t ip
  = (mkAllowedIp (familyOf (m_address ip)) (u8 (m_prefixLength ip)) dest, true).
Proof.
  unfold readBack, buildAllowedIp, IPAddress.type.
  destruct (m_address ip) as [|v|l]; [done|..]; cbn [protocol]; by intros ->.
Qed.

Lemma buildAllowedIp_unread (t : list Sys) (ip : IPAddress) :
  readBack t (m_address ip) = None -> snd (buildAllowedIp t ip) = false.
Proof.
  unfold readBack, buildAllowedIp, IPAddress.type.
  destruct (m_address ip) as [|v|l]; [done|..]; cbn [protocol]; by intros ->.
Qed.

(** Where the freed text is still there, it reads as the address. *)
Lemma readBack_intact (t : list Sys) (a : QHostAddress) :
  wf_host a -> released t (hostToString a) = hostToString a ->
  readBack t a = Some (destination a).
Proof.
  intros Ha E. unfold readBack. rewrite E. destruct a as [|v|l]; [done|..].
  - by rewrite inet_pton4_text.
  - by rewrite inet_pton6_text.
Qed.

Lemma readBack_length (t : list Sys) (a : QHostAddress) (dest : list Z) :
  readBack t a = Some dest -> length dest = 4%nat \/ length dest = 16%nat.
Proof.
  destruct a; [done|..]; simpl; intros E.
  - left. by eapply inet_pton4_length.
  - right. by eapply inet_pton6_length.
Qed.

(** A route for the address that was read. *)
Lemma rtmSendRoute_requests (action : Z) (dest : IPAddress) (rtm_type flags : Z) (read : list Z)
    (w : WireguardUtilsLinux) :
  readBack (trace w) (m_address dest) = Some read -> fits action flags ->
  requests (rtmSendRoute action dest rtm_type flags)
    (routeMessage action dest rtm_type flags read w) w.
Proof.
  intros Hread Hfit. pose proof (fits_acked _ _ Hfit) as Hf. destruct Hfit as [Ha _].
  pose proof (readBack_length _ _ _ Hread) as Hlen.
  assert (RTA_SPACE (Z.of_nat (length read)) <= 20) as Hr by (by destruct Hlen as [-> | ->]).
  assert (wf_attr (RTA_DST, read)) as Hd.
  { split; [done|]. cbn [snd]. by destruct Hlen as [-> | ->]. }
  set (attrs := [(RTA_TABLE, le 4 WG_ROUTE_TABLE); (RTA_DST, read)]
     ++ (if rtm_type =? RTN_UNICAST then [(RTA_OIF, le 4 (m_ifindex w))] else [])).
  set (b := appendAttrs 64 attrs (newBuffer 64 action (acked flags) (u32 (m_nlseq w)) getpid
    (rtmsgHdr (familyOf (m_address dest)) (u8 (m_prefixLength dest)) rtm_type))).
  assert (rtmSendRoute action dest rtm_type flags w = (_ <- nextSeq ;; send b) w) as E.
  { unfold rtmSendRoute, bind, gets. rewrite (buildAllowedIp_read _ _ _ Hread). subst b attrs.
    cbn [negb family cidr ip]. unfold nextSeq. change (NLMSG_SPACE _) with 64.
    by destruct (rtm_type =? RTN_UNICAST). }
  unfold requests. rewrite E. apply (send_requests b).
  subst b. rewrite parse_appendAttrs; try done.
  - unfold attrs, room. rewrite map_app, foldr_app. cbn [map foldr snd].
    change (RTA_SPACE (Z.of_nat (length (le 4 WG_ROUTE_TABLE)))) with 8.
    destruct (rtm_type =? RTN_UNICAST); cbn [map foldr snd].
    + change (RTA_SPACE (Z.of_nat (length (le 4 (m_ifindex w))))) with 8. lia.
    + lia.
  - unfold attrs. apply Forall_app. split; [apply Forall_cons; split; [done|by apply Forall_singleton]|].
    destruct (_ =? _); by repeat constructor.
Qed.

(** No route is asked for when the text does not read as an address. *)
Lemma rtmSendRoute_unread (action : Z) (dest : IPAddress) (rtm_type flags : Z)
    (w : WireguardUtilsLinux) :
  readBack (trace w) (m_address dest) = None ->
  rtmSendRoute action dest rtm_type flags w = (false, w).
Proof.
  intros Hread. apply buildAllowedIp_unread in Hread. unfold rtmSendRoute, bind, gets.
  destruct (buildAllowedIp (trace w) dest) as [entry ok]. cbn [snd] in Hread. by subst ok.
Qed.

End Messages.

End WireguardUtilsLinux.
