(* ===== verification/LinuxDaemon.v ===== *)
(** * The Linux daemon at work

    What the calls of WireguardUtilsLinux.v add up to: the policy rules, routes,
    firewall marks and peers the kernel has been asked for ([View]), as a function of
    the calls made. The operations are put behind the daemon's [Backend] interface. *)
From Stdlib Require Import ZArith Lia Ascii String.
From stdpp Require Import base numbers list gmap strings.
From S2P Require Import Prelude QHostAddress QString QtTextModel IPAddress Rfc Json.
From S2P Require Import InterfaceConfig Netlink DaemonModel WireguardUtilsLinux.
Import IPAddress Netlink WireguardUtilsLinux.

Local Open Scope Z_scope.
Local Open Scope wg_scope.

Create HintDb linux.

Module LinuxDaemon.

(** ** What the kernel has been asked for *)

(** A rule or a route is known by the fixed part and the attributes of the message
    that adds it. *)
Definition Key : Type := list Z * list (Z * list Z).

Definition key (m : Message) : Key := (fixed m, attrs m).

Record View : Type := mkView {
  rules : gset Key;
  routes : gset Key;
  inbound : gset chars;
  tunnelPeers : gmap (list Z) WgPeer;
}.

#[export] Instance View_eta : Eta View := fun v =>
  mkView (rules v) (routes v) (inbound v) (tunnelPeers v).

Definition emptyView : View := mkView ∅ ∅ ∅ ∅.

Definition observeMessage (m : Message) (v : View) : View :=
  if Netlink.type m =? RTM_NEWRULE then v <| rules := {[key m]} ∪ rules v |>
  else if Netlink.type m =? RTM_DELRULE then v <| rules := rules v ∖ {[key m]} |>
  else if Netlink.type m =? RTM_NEWROUTE then v <| routes := {[key m]} ∪ routes v |>
  else if Netlink.type m =? RTM_DELROUTE then v <| routes := routes v ∖ {[key m]} |>
  else v.

(** A peer is added or replaced, or removed when its flags say so. *)
Definition observePeer (v : View) (p : WgPeer) : View :=
  if Z.land (peer_flags p) WGPEER_REMOVE_ME =? 0
  then v <| tunnelPeers := <[public_key p := p]> (tunnelPeers v) |>
  else v <| tunnelPeers := delete (public_key p) (tunnelPeers v) |>.

Definition observeDevice (d : WgDevice) (v : View) : View :=
  let v := if Z.land (device_flags d) WGDEVICE_REPLACE_PEERS =? 0 then v
           else v <| tunnelPeers := ∅ |> in
  foldl observePeer v (peers d).

Definition observe (v : View) (c : Sys) : View :=
  match c with
  | SendTo bytes =>
      match parseMessage bytes with Some m => observeMessage m v | None => v end
  | NetfilterCall (MarkInbound a) => v <| inbound := {[a]} ∪ inbound v |>
  | NetfilterCall (ClearInbound a) => v <| inbound := inbound v ∖ {[a]} |>
  | NetfilterCall RemoveTables => v <| inbound := ∅ |>
  | WgSetDevice d => observeDevice d v
  | WgDelDevice => v <| tunnelPeers := ∅ |>
  | _ => v
  end.

Definition view (w : WireguardUtilsLinux) : View := foldl observe emptyView (trace w).

Lemma view_snoc (w : WireguardUtilsLinux) (c : Sys) :
  view (w <| trace := trace w ++ [c] |>) = observe (view w) c.
Proof. unfold view, updateField. cbn [trace]. by rewrite foldl_app. Qed.

(** ** The daemon's interface *)

Section Interface.
Context `{QtText} `{Kernel}.

(** The operation behind a call of the daemon; [others] stands for the classes that
    set addresses, resolvers and the network manager. *)
Variable others : list Daemon.Call -> Daemon.Call -> bool.

Definition perform (calls : list Daemon.Call) (c : Daemon.Call) : M bool :=
  match c with
  | Daemon.InterfaceExists => interfaceExists
  | Daemon.AddInterface config => addInterface config
  | Daemon.DeleteInterface => deleteInterface
  | Daemon.UpdatePeer config => updatePeer config
  | Daemon.DeletePeer config => deletePeer config
  | Daemon.GetPeerStatus => _ <- getPeerStatus ;; ret true
  | Daemon.UpdateRoutePrefix ip => updateRoutePrefix ip
  | Daemon.DeleteRoutePrefix ip => deleteRoutePrefix ip
  | Daemon.ExcludeLocalNetworks l => excludeLocalNetworks l
  | _ => ret (others calls c)
  end.

(** [DBusService::removeInterfaceIfExists], at the start of the daemon. *)
Definition removeInterfaceIfExists : M bool :=
  exists_ <- interfaceExists ;; if exists_ then deleteInterface else ret true.

(** The state after a sequence of calls. *)
Fixpoint replayFrom (w : WireguardUtilsLinux) (before calls : list Daemon.Call)
  : WireguardUtilsLinux :=
  match calls with
  | [] => w
  | c :: r => replayFrom (snd (perform before c w)) (before ++ [c]) r
  end.

Definition replay (calls : list Daemon.Call) : WireguardUtilsLinux :=
  replayFrom construct [] calls.

(** The daemon with this backend, as long as no notification of the kernel is read
    between its calls. *)
#[local] Instance linuxBackend : Daemon.Backend := {
  Daemon.answer calls c := fst (perform calls c (replay calls));
  Daemon.peerStatus calls := fst (getPeerStatus (replay calls));
  Daemon.interfaceName := WG_INTERFACE;
  Daemon.getFeatures := [];
  Daemon.hasIPUtils := true;
}.

Lemma replayFrom_snoc w before calls c :
  replayFrom w before (calls ++ [c])
  = snd (perform (before ++ calls) c (replayFrom w before calls)).
Proof.
  revert w before. induction calls as [|x calls IH]; intros w before; simpl.
  - by rewrite app_nil_r.
  - by rewrite IH, <- app_assoc.
Qed.

Lemma replay_snoc calls c : replay (calls ++ [c]) = snd (perform calls c (replay calls)).
Proof. apply replayFrom_snoc. Qed.

End Interface.

(** ** Calls that the view does not show *)

Section Traces.
Context `{QtText} `{Kernel}.

(** [traced P m]: [m] only makes calls, all of which satisfy [P]. *)
Definition traced {A : Type} (P : Sys -> Prop) (m : M A) : Prop :=
  forall w, exists l, snd (m w) = w <| trace := trace w ++ l |> /\ Forall P l.

Definition silent (c : Sys) : Prop := forall v, observe v c = v.

Lemma traced_ret {A : Type} P (a : A) : traced P (ret a).
Proof. intros w. exists []. destruct w. unfold updateField. cbn. by rewrite app_nil_r. Qed.

Lemma traced_gets {A : Type} P (f : WireguardUtilsLinux -> A) : traced P (gets f).
Proof. intros w. exists []. destruct w. unfold updateField. cbn. by rewrite app_nil_r. Qed.

Lemma traced_bind {A B : Type} P (m : M A) (k : A -> M B) :
  traced P m -> (forall a, traced P (k a)) -> traced P (bind m k).
Proof.
  intros Hm Hk w. unfold bind. destruct (Hm w) as (l & E & Hl).
  destruct (m w) as [a w']. cbn [snd] in E. subst w'.
  destruct (Hk a (w <| trace := trace w ++ l |>)) as (l' & -> & Hl').
  exists (l ++ l'). split; [|by apply Forall_app].
  destruct w. unfold updateField. cbn. by rewrite app_assoc.
Qed.

Lemma traced_sys P (c : Sys) : P c -> traced P (sys c).
Proof. intros Hc w. exists [c]. by repeat constructor. Qed.

Lemma traced_lookup P address port :
  P (GetAddrInfo address port) -> traced P (lookupName address port).
Proof. intros Hc w. eexists [_]. by repeat constructor. Qed.

Lemma traced_resolve P n t address port :
  (forall c, (c = GetAddrInfo address port \/ exists u, c = USleep u) -> P c) ->
  traced P (resolve n t address port).
Proof.
  intros HP. revert t. induction n as [|n IH]; intros t; simpl.
  - apply traced_bind; [apply traced_lookup, HP; by left|]. intros []; apply traced_ret.
  - apply traced_bind; [apply traced_lookup, HP; by left|]. intros []; try apply traced_ret.
    apply traced_bind; [apply traced_sys, HP; eauto|]. intros _. apply IH.
Qed.

Lemma traced_setPeerEndpoint P address port :
  (forall c, (c = GetAddrInfo address (showZ port) \/ exists u, c = USleep u) -> P c) ->
  traced P (setPeerEndpoint address port).
Proof.
  intros HP. apply traced_bind; [by apply traced_resolve|]. intros []; apply traced_ret.
Qed.

Lemma traced_chooseEndpoint config : traced silent (chooseEndpoint config).
Proof.
  unfold chooseEndpoint. apply traced_bind; [|intros; apply traced_ret].
  destruct (isNullString _); [apply traced_ret|].
  destruct (isNullString _); [apply traced_ret|].
  unfold hasRouteToIPv4. apply traced_bind; [apply traced_gets|]. intros [].
  - cbn [negb]. destruct (inet_pton4 _) as [dest|]; [|apply traced_ret].
    intros w. exists [ProbeRoute dest]. by repeat constructor.
  - apply traced_ret.
Qed.

Lemma silent_view (l : list Sys) (w : WireguardUtilsLinux) :
  Forall silent l -> view (w <| trace := trace w ++ l |>) = view w.
Proof.
  intros Hl. unfold view, updateField. cbn [trace]. rewrite foldl_app.
  generalize (foldl observe emptyView (trace w)). induction Hl as [|c l Hc _ IH]; intros v; [done|].
  simpl. by rewrite Hc.
Qed.

Lemma traced_silent {A : Type} (m : M A) (w w' : WireguardUtilsLinux) (a : A) :
  traced silent m -> m w = (a, w') ->
  exists t, w' = w <| trace := t |> /\ view w' = view w.
Proof.
  intros Hm E. destruct (Hm w) as (l & El & Hl). rewrite E in El. cbn [snd] in El. subst w'.
  eexists. split; [done|by apply silent_view].
Qed.

Lemma silent_setPeerEndpoint address port : traced silent (setPeerEndpoint address port).
Proof. apply traced_setPeerEndpoint. by intros c [->|[u ->]]. Qed.

End Traces.

(** ** Requests and the view *)

Section Requests.
Context `{KernelLaws}.

Lemma requested_view (m : list Z) (msg : Message) (w : WireguardUtilsLinux) :
  parseMessage m = Some msg -> view (requested m w) = observeMessage msg (view w).
Proof.
  intros E. unfold view, requested, updateField. cbn [trace]. rewrite foldl_app.
  cbn [foldl observe]. by rewrite E.
Qed.

(** The rule that directs a prefix of an entry hop into the tunnel. *)
Definition ruleKey (p : IPAddress) : Key :=
  (fibRuleHdr (familyOf (m_address p)) (u8 (m_prefixLength p)) 0,
   [fwmarkAttr; tableAttr; (FRA_DST, destination (m_address p))]).

(** A route that keeps a network out of the tunnel. *)
Definition throwKey (p : IPAddress) : Key :=
  (rtmsgHdr (familyOf (m_address p)) (u8 (m_prefixLength p)) RTN_THROW,
   [(RTA_TABLE, le 4 WG_ROUTE_TABLE); (RTA_DST, destination (m_address p))]).

Definition peerRules (config : InterfaceConfig) : gset Key :=
  match m_hopType config with
  | MultiHopEntry => list_to_set (map ruleKey (m_allowedIPAddressRanges config))
  | _ => ∅
  end.

Definition wfRanges (config : InterfaceConfig) : Prop :=
  Forall (fun ip => wf_host (m_address ip)) (m_allowedIPAddressRanges config).

(** Same members, but for the sequence number and the calls made. *)
Definition sameBut (w w' : WireguardUtilsLinux) : Prop :=
  m_isUp w' = m_isUp w /\ m_cgroupVersion w' = m_cgroupVersion w /\ m_ifindex w' = m_ifindex w
  /\ m_routesExcluded w' = m_routesExcluded w /\ m_peerEndpoints w' = m_peerEndpoints w.

#[local] Instance sameBut_preorder : PreOrder sameBut.
Proof. split; [by intros w|]. unfold sameBut. intros a b c. intuition congruence. Qed.

Lemma include_view (action : Z) (flags : Z) (p : IPAddress) (w : WireguardUtilsLinux) :
  wf_host (m_address p) -> 0 <= flags < 2 ^ 16 ->
  (action = RTM_NEWRULE \/ action = RTM_DELRULE) ->
  let w' := snd (rtmIncludePeer action p flags w) in
  sameBut w w'
  /\ view w' = (view w) <| rules := if action =? RTM_NEWRULE then {[ruleKey p]} ∪ rules (view w)
                                  else rules (view w) ∖ {[ruleKey p]} |>.
Proof.
  intros Hp Hf Ha. cbv zeta.
  assert (fits action flags) as Hfits by (split; [by destruct Ha as [-> | ->]|done]).
  destruct (rtmIncludePeer_requests action p flags w Hp Hfits) as (m & ok & -> & E).
  cbn [snd]. split; [done|]. rewrite (requested_view m _ w E).
  by destruct Ha as [-> | ->].
Qed.

Lemma addPeerPrefix_inv (p p' : WgPeer) (ip : IPAddress) (ok : bool) (w w' : WireguardUtilsLinux) :
  addPeerPrefix p ip w = (p', ok, w') -> w = w' /\ public_key p' = public_key p.
Proof.
  unfold addPeerPrefix, bind, gets. destruct (buildAllowedIp (trace w) ip). by intros [= <- _ <-].
Qed.

Lemma optional_prefix (b : bool) (peer peer' : WgPeer) (ip : IPAddress)
    (w w' : WireguardUtilsLinux) :
  (if b then ret peer else added <- addPeerPrefix peer ip ;; ret (added.1)) w = (peer', w') ->
  w = w' /\ public_key peer' = public_key peer.
Proof.
  destruct b; [by intros [= <- <-]|]. intros E. apply bind_inv in E as ([p ok] & w1 & E & E1).
  apply addPeerPrefix_inv in E as [-> Hk]. injection E1 as <- <-. by split.
Qed.

Lemma entry_prefixes (l : list IPAddress) (peer peer' : WgPeer) (w w' : WireguardUtilsLinux) :
  Forall (fun ip => wf_host (m_address ip)) l ->
  addEntryPrefixes l peer w = (Some peer', w') ->
  public_key peer' = public_key peer /\ sameBut w w'
  /\ view w' = (view w) <| rules := list_to_set (map ruleKey l) ∪ rules (view w) |>.
Proof.
  intros Hl. revert peer w. induction Hl as [|p l Hp _ IH]; intros peer w E.
  - injection E as <- <-. split_and!; [done|done|]. destruct (view w). unfold updateField. cbn.
    f_equal. set_solver.
  - cbn [addEntryPrefixes] in E. apply bind_inv in E as ([peer1 []] & w0 & E0 & E); [|done].
    apply addPeerPrefix_inv in E0 as [<- Hk1]. cbn [fst snd] in E.
    apply bind_inv in E as (ok & w1 & E1 & E).
    destruct (include_view RTM_NEWRULE (Z.lor NLM_F_CREATE NLM_F_REPLACE) p w Hp) as [Hs Hv];
      [done|by left|]. rewrite E1 in Hs, Hv. cbn [snd] in *.
    apply IH in E as (Hk & Hs' & ->). split_and!; [by rewrite Hk|by etrans|].
    rewrite Hv. destruct (view w). unfold updateField. cbn. f_equal. set_solver.
Qed.

Lemma exclude_prefixes (l : list IPAddress) (w : WireguardUtilsLinux) :
  Forall (fun ip => wf_host (m_address ip)) l ->
  let w' := snd (forEach (fun ip => rtmIncludePeer RTM_DELRULE ip 0) l w) in
  sameBut w w'
  /\ view w' = (view w) <| rules := rules (view w) ∖ list_to_set (map ruleKey l) |>.
Proof.
  intros Hl. cbv zeta. revert w. induction Hl as [|p l Hp _ IH]; intros w.
  - split; [done|]. destruct (view w) as [r ? ? ?] eqn:E. cbn [forEach ret snd map list_to_set].
    rewrite E. unfold updateField. cbn. f_equal. set_solver.
  - cbn [forEach]. unfold bind.
    destruct (include_view RTM_DELRULE 0 p w Hp) as [Hs Hv]; [done|by right|].
    destruct (rtmIncludePeer RTM_DELRULE p 0 w) as [ok w1]. cbn [snd] in *.
    destruct (IH w1) as [Hs' ->]. split; [by etrans|].
    rewrite Hv. destruct (view w). unfold updateField. cbn. f_equal. set_solver.
Qed.

(** ** Adding and removing a peer *)

Lemma bind_Some {A : Type} (m : M (option A)) (k : A -> M bool) (w w2 : WireguardUtilsLinux) :
  (x <- m ;; match x with None => ret false | Some a => k a end) w = (true, w2) ->
  exists a w1, m w = (Some a, w1) /\ k a w1 = (true, w2).
Proof. intros E. apply bind_inv in E as ([a|] & w1 & E1 & E2); [eauto|done]. Qed.

Lemma allowed_view config peer peer' w w' :
  wfRanges config -> addAllowedIps config peer w = (Some peer', w') ->
  public_key peer' = public_key peer /\ sameBut w w'
  /\ view w' = (view w) <| rules := peerRules config ∪ rules (view w) |>.
Proof.
  intros Hw E.
  assert (forall v : View, v <| rules := ∅ ∪ rules v |> = v) as Hid
    by (intros []; unfold updateField; cbn; by rewrite (left_id_L ∅ (∪))).
  unfold addAllowedIps, peerRules in *.
  destruct (m_hopType config); [|by eapply entry_prefixes|];
    (apply bind_inv in E as (p1 & w1 & E1 & E); apply optional_prefix in E1 as [<- K1];
     apply bind_inv in E as (p2 & w2 & E2 & E); apply optional_prefix in E2 as [<- K2];
     injection E as <- <-; split_and!; [by rewrite K2|done|by rewrite Hid]).
Qed.

Lemma succeeds_inv (c : Sys) (w w' : WireguardUtilsLinux) (ok : bool) :
  succeeds c w = (ok, w') -> w' = w <| trace := trace w ++ [c] |>.
Proof. by intros [= _ <-]. Qed.

Lemma resolve_empty n t port w : fst (resolve n t [] port w) = Permanent.
Proof. destruct n; simpl; unfold bind, lookupName; by rewrite getaddrinfo_empty. Qed.

(** What a successful [updatePeer] adds up to: the endpoint it chose is recorded and
    marked, the rules of an entry hop and the peer are there. *)
Lemma updatePeer_view config w w' :
  wfRanges config -> updatePeer config w = (true, w') ->
  exists a p,
    text a <> [] /\ (a = m_serverIpv4AddrIn config \/ a = m_serverIpv6AddrIn config)
    /\ public_key p = wg_key_from_base64 (text (m_serverPublicKey config))
    /\ m_peerEndpoints w' = <[text (m_serverPublicKey config) := a]> (m_peerEndpoints w)
    /\ view w' = mkView (peerRules config ∪ rules (view w)) (routes (view w))
                   ({[text a]} ∪ inbound (view w))
                   (<[wg_key_from_base64 (text (m_serverPublicKey config)) := p]>
                      (tunnelPeers (view w))).
Proof.
  intros Hw E. unfold updatePeer in E.
  apply bind_inv in E as (a & w1 & E1 & E). exists a.
  assert (a = m_serverIpv4AddrIn config \/ a = m_serverIpv6AddrIn config) as Ha.
  { apply bind_inv in E1 as ([] & ? & _ & [= <- _]); [by left|by right]. }
  apply (traced_silent _ _ _ _ (traced_chooseEndpoint config)) in E1 as (t1 & -> & V1).
  apply bind_Some in E as (sa & w2 & E2 & E).
  assert (text a <> []) as Hne.
  { intros Hnil. rewrite Hnil in E2. unfold setPeerEndpoint in E2. apply bind_inv in E2 as (r & w3 & E3 & E4).
    pose proof (resolve_empty 15 1000000 (showZ (m_serverPort config)) (w <| trace := t1 |>)) as Er.
    assert (r = Permanent) as -> by (change r with (fst (r, w3)); rewrite <- E3; exact Er).
    by injection E4. }
  apply (traced_silent _ _ _ _ (silent_setPeerEndpoint _ _)) in E2 as (t2 & -> & V2).
  apply bind_Some in E as (peer & w3 & E3 & E).
  apply (allowed_view config _ _ _ _ Hw) in E3 as (Hk & Hs & V3).
  apply guard_inv in E as (w4 & E4 & E). apply succeeds_inv in E4.
  apply bind_inv in E as ([] & w5 & E5 & E). injection E5 as <-.
  apply succeeds_inv in E.
  set (p := peer <| persistent_keepalive_interval := WG_KEEPALIVE_PERIOD |>
                 <| peer_flags := Z.lor WGPEER_HAS_PUBLIC_KEY
                      (Z.lor WGPEER_REPLACE_ALLOWEDIPS
                             WGPEER_HAS_PERSISTENT_KEEPALIVE_INTERVAL) |>) in *.
  assert (public_key p = wg_key_from_base64 (text (m_serverPublicKey config))) as Hp by exact Hk.
  exists p. split_and!; [done..| |].
  - subst w' w4. destruct Hs as (_ & _ & _ & _ & Hs). cbn. cbn in Hs. by rewrite Hs.
  - subst w'. rewrite view_snoc.
    assert (forall f (x : WireguardUtilsLinux),
      view (x <| m_peerEndpoints := f |>) = view x) as Hends by done.
    rewrite Hends. subst w4. rewrite view_snoc, V3, V2, V1. clear -Hp.
    destruct (view w) as [r s i q]. unfold updateField. cbn [rules routes inbound tunnelPeers].
    cbn [observe]. unfold observeDevice, peerDevice. cbn [device_flags peers foldl].
    change (Z.land 0 WGDEVICE_REPLACE_PEERS =? 0) with true. cbn iota. unfold observePeer.
    change (peer_flags p) with 22. change (Z.land 22 WGPEER_REMOVE_ME =? 0) with true. cbn iota.
    rewrite Hp. done.
Qed.

(** What a successful [deletePeer] takes away. *)
Lemma deletePeer_view config w w' :
  wfRanges config -> deletePeer config w = (true, w') ->
  let a := default None (m_peerEndpoints w !! text (m_serverPublicKey config)) in
  m_peerEndpoints w' = delete (text (m_serverPublicKey config)) (m_peerEndpoints w)
  /\ view w' = mkView (rules (view w) ∖ peerRules config) (routes (view w))
                 (if isEmpty a then inbound (view w) else inbound (view w) ∖ {[text a]})
                 (delete (wg_key_from_base64 (text (m_serverPublicKey config)))
                    (tunnelPeers (view w))).
Proof.
  intros Hw E a. unfold deletePeer in E. cbv zeta in E.
  apply bind_inv in E as ([] & w1 & E1 & E).
  assert (sameBut w w1 /\ view w1 = (view w) <| rules := rules (view w) ∖ peerRules config |>)
    as [Hs V1].
  { assert (forall v : View, v <| rules := rules v ∖ ∅ |> = v) as Hid
      by (intros []; unfold updateField; cbn; by rewrite difference_empty_L).
    unfold peerRules. destruct (m_hopType config).
    1,3: injection E1 as <-; split; [done|by rewrite Hid].
    pose proof (exclude_prefixes _ w Hw) as Hx. rewrite E1 in Hx. exact Hx. }
  destruct Hs as (_ & _ & _ & _ & Hs).
  apply bind_inv in E as (a' & w2 & E2 & E). unfold takeEndpoint in E2. rewrite Hs in E2.
  injection E2 as <- <-. fold a in E.
  set (w2 := w1 <| m_peerEndpoints := _ |>) in E.
  assert (view w2 = view w1) as V2 by done. assert (m_peerEndpoints w2 =
    delete (text (m_serverPublicKey config)) (m_peerEndpoints w)) as H2 by done. clearbody w2.
  apply guard_inv in E as (w3 & E3 & E).
  assert (m_peerEndpoints w3 = m_peerEndpoints w2 /\ view w3 =
    (view w2) <| inbound := if isEmpty a then inbound (view w2)
                          else inbound (view w2) ∖ {[text a]} |>) as [H3 V3].
  { destruct (isEmpty a); [injection E3 as <-|apply succeeds_inv in E3; subst w3].
    - split; [done|]. by destruct (view w2).
    - by rewrite view_snoc. }
  apply succeeds_inv in E. subst w'. rewrite view_snoc, V3, V2, V1.
  split; [cbn; congruence|]. by destruct (view w).
Qed.

End Requests.

(** ** Routes kept out of the tunnel *)

Section Exclusions.
Context `{KernelLaws}.

(** The texts that the code reads after they were freed are still there. *)
Hypothesis intact : forall t s, released t s = s.
Variable others : list Daemon.Call -> Daemon.Call -> bool.

(** A prefix as the daemon has it: well formed, or of the null address. *)
Definition validIp (ip : IPAddress) : Prop := m_address ip = NullHost \/ wf_host (m_address ip).

Definition routeKey (p : IPAddress) (rtm_type ifindex : Z) : Key :=
  (rtmsgHdr (familyOf (m_address p)) (u8 (m_prefixLength p)) rtm_type,
   [(RTA_TABLE, le 4 WG_ROUTE_TABLE); (RTA_DST, destination (m_address p))]
   ++ (if rtm_type =? RTN_UNICAST then [(RTA_OIF, le 4 ifindex)] else [])).

(** The byte of [rtm_type]. *)
Definition isThrow (k : Key) : bool := bool_decide (k.1 !! 7%nat = Some RTN_THROW).

(** Every exclusion the kernel was asked for is remembered. *)
Definition tracked (w : WireguardUtilsLinux) : Prop :=
  Forall validIp (m_routesExcluded w)
  /\ forall k, k ∈ routes (view w) -> isThrow k = true ->
       exists p, p ∈ m_routesExcluded w /\ wf_host (m_address p) /\ k = throwKey p.

Lemma route_view action p rtm_type flags w :
  validIp p -> 0 <= flags < 2 ^ 16 -> (action = RTM_NEWROUTE \/ action = RTM_DELROUTE) ->
  let w' := snd (rtmSendRoute action p rtm_type flags w) in
  let k := routeKey p rtm_type (m_ifindex w) in
  sameBut w w'
  /\ view w' = (view w) <| routes :=
       if bool_decide (wf_host (m_address p))
       then if action =? RTM_NEWROUTE then {[k]} ∪ routes (view w) else routes (view w) ∖ {[k]}
       else routes (view w) |>.
Proof.
  intros [Hp|Hp] Hf Ha; cbv zeta.
  - rewrite rtmSendRoute_unread by (by rewrite Hp). rewrite Hp. cbn. split; [done|].
    by destruct (view w).
  - assert (fits action flags) as Hfits by (split; [by destruct Ha as [-> | ->]|done]).
    destruct (rtmSendRoute_requests action p rtm_type flags _ w
      (readBack_intact _ _ Hp (intact _ _)) Hfits) as (m & ok & -> & E).
    cbn [snd]. split; [done|]. rewrite (requested_view m _ w E), bool_decide_true by done.
    by destruct Ha as [-> | ->].
Qed.

(** [still m]: the routes and the remembered exclusions stay as they are. *)
Definition still {A : Type} (m : M A) : Prop :=
  forall w, routes (view (snd (m w))) = routes (view w)
            /\ m_routesExcluded (snd (m w)) = m_routesExcluded w.

Lemma still_tracked {A : Type} (m : M A) : still m -> keeps tracked m.
Proof. intros Hm w [Hv Ht]. destruct (Hm w) as [Hr He]. unfold tracked. by rewrite Hr, He. Qed.

Lemma still_ret {A : Type} (a : A) : still (ret a).
Proof. by intros w. Qed.

Lemma still_gets {A : Type} (f : WireguardUtilsLinux -> A) : still (gets f).
Proof. by intros w. Qed.

Lemma still_modify f :
  (forall w, trace (f w) = trace w /\ m_routesExcluded (f w) = m_routesExcluded w) ->
  still (modify f).
Proof. intros Hf w. destruct (Hf w) as [Ht He]. cbn. unfold view. by rewrite Ht. Qed.

Lemma still_bind {A B : Type} (m : M A) (k : A -> M B) :
  still m -> (forall a, still (k a)) -> still (bind m k).
Proof.
  intros Hm Hk w. unfold bind. destruct (Hm w) as [Hr He]. destruct (m w) as [a w1].
  cbn [snd] in *. destruct (Hk a w1) as [-> ->]. done.
Qed.

Lemma still_sys (c : Sys) : (forall v, routes (observe v c) = routes v) -> still (sys c).
Proof. intros Hc w. cbn [sys snd]. by rewrite view_snoc, Hc. Qed.

Lemma still_traced {A : Type} (m : M A) : traced silent m -> still m.
Proof. intros Hm w. destruct (Hm w) as (l & -> & Hl). by rewrite silent_view. Qed.

Lemma observePeer_routes l v : routes (foldl observePeer v l) = routes v.
Proof.
  revert v. induction l as [|p l IH]; intros v; [done|]. simpl. rewrite IH.
  unfold observePeer. by destruct (_ =? 0).
Qed.

Lemma still_netfilter n : still (netfilter n).
Proof. apply still_bind; [apply still_sys; by destruct n|]. intros a. apply still_ret. Qed.

Lemma still_device d : still (succeeds (WgSetDevice d)).
Proof.
  apply still_bind; [apply still_sys|intros a; apply still_ret]. intros v. cbn [observe].
  unfold observeDevice. rewrite observePeer_routes. by destruct (_ =? 0).
Qed.

Lemma still_allSucceed l : still (allSucceed l).
Proof.
  induction l as [|n l IH]; [apply still_ret|]. apply still_bind; [apply still_netfilter|].
  intros []; [done|apply still_ret].
Qed.

Lemma still_rule action flags fam :
  (action = RTM_NEWRULE \/ action = RTM_DELRULE) -> 0 <= flags < 2 ^ 16 ->
  still (rtmSendRule action flags fam).
Proof.
  intros Ha Hf w. assert (fits action flags) as Hfits by (split; [by destruct Ha as [-> | ->]|done]).
  destruct (rtmSendRule_requests action flags fam w Hfits) as (m & ok & -> & E).
  cbn [snd]. split; [|done]. rewrite (requested_view m _ w E). by destruct Ha as [-> | ->].
Qed.

Lemma still_include action p flags :
  validIp p -> (action = RTM_NEWRULE \/ action = RTM_DELRULE) -> 0 <= flags < 2 ^ 16 ->
  still (rtmIncludePeer action p flags).
Proof.
  intros [Hp|Hp] Ha Hf w.
  - unfold rtmIncludePeer, bind, nextSeq. by rewrite Hp.
  - destruct (include_view action flags p w Hp Hf Ha) as [(_ & _ & _ & He & _) ->]. done.
Qed.

Lemma still_addPrefix peer ip : still (addPeerPrefix peer ip).
Proof.
  unfold addPeerPrefix. apply still_bind; [apply still_gets|]. intros t.
  destruct (buildAllowedIp t ip). apply still_ret.
Qed.

Lemma still_entry l peer : Forall validIp l -> still (addEntryPrefixes l peer).
Proof.
  intros Hl. revert peer. induction Hl as [|p l Hp _ IH]; intros peer; [apply still_ret|].
  cbn [addEntryPrefixes]. apply still_bind; [apply still_addPrefix|].
  intros [q []]; [|apply still_ret]. apply still_bind; [|intros _; apply IH]. by apply still_include; [|left|].
Qed.

Lemma still_forEach {A : Type} (f : A -> M bool) (l : list A) :
  Forall (fun a => still (f a)) l -> still (forEach f l).
Proof.
  induction 1 as [|a l Ha _ IH]; [apply still_ret|]. cbn [forEach].
  by apply still_bind; [|intros _].
Qed.

(** One step of an argument that an operation is still. *)
Ltac still_step :=
  first
  [ apply still_ret | apply still_gets | apply still_netfilter | apply still_device
  | apply still_allSucceed
  | apply still_rule; [by auto|done]
  | apply still_sys; intros v; reflexivity
  | apply still_modify; intros w; split; reflexivity
  | apply still_traced; apply traced_chooseEndpoint
  | apply still_traced; apply silent_setPeerEndpoint
  | apply still_bind; [|intros ?] ].

Lemma still_firewallUp ifname mark a : still (firewallUp ifname mark a).
Proof. unfold firewallUp, firewallDown. repeat (still_step || case_match). Qed.

Lemma still_addInterface config : still (addInterface config).
Proof.
  unfold addInterface, succeeds.
  repeat (apply still_firewallUp || still_step || case_match).
Qed.

Lemma still_deleteInterface : still deleteInterface.
Proof. unfold deleteInterface, firewallDown, succeeds. repeat (still_step || case_match). Qed.

Lemma still_updatePeer config :
  Forall validIp (m_allowedIPAddressRanges config) -> still (updatePeer config).
Proof.
  intros Hr. unfold updatePeer, addAllowedIps.
  repeat ((apply still_entry; exact Hr) || apply still_addPrefix || still_step || case_match).
Qed.

Lemma still_deletePeer config :
  Forall validIp (m_allowedIPAddressRanges config) -> still (deletePeer config).
Proof.
  intros Hr. unfold deletePeer. cbv zeta.
  apply still_bind; [|intros _].
  { case_match; try apply still_ret. apply still_forEach. eapply Forall_impl; [exact Hr|].
    intros ip Hip. by apply still_include; [|right|]. }
  apply still_bind; [by intros w|intros a]. repeat (still_step || case_match).
Qed.

Lemma still_moveCgroupProcs src dest : still (moveCgroupProcs src dest).
Proof.
  unfold moveCgroupProcs, succeeds. repeat (still_step || case_match).
  apply still_forEach, Forall_forall. intros line _. repeat still_step.
Qed.

Lemma still_excludeCgroup cg : still (excludeCgroup cg).
Proof. unfold excludeCgroup. repeat (apply still_moveCgroupProcs || still_step || case_match).
  Qed.

Lemma still_resetCgroup cg : still (resetCgroup cg).
Proof. unfold resetCgroup. repeat (apply still_moveCgroupProcs || still_step || case_match). Qed.

Lemma still_resetAllCgroups : still resetAllCgroups.
Proof.
  unfold resetAllCgroups. repeat (apply still_moveCgroupProcs || still_step || case_match).
Qed.

(** *** The operations on routes *)

Lemma isThrow_key p t idx : isThrow (routeKey p t idx) = (t =? RTN_THROW).
Proof.
  unfold isThrow, routeKey, rtmsgHdr. cbn [fst lookup list_lookup app].
  destruct (Z.eqb_spec t RTN_THROW); [subst; by apply bool_decide_true|].
  apply bool_decide_false. congruence.
Qed.

Lemma throwKey_eq p idx : routeKey p RTN_THROW idx = throwKey p.
Proof. done. Qed.

Lemma keeps_unicast action p flags :
  validIp p -> 0 <= flags < 2 ^ 16 -> (action = RTM_NEWROUTE \/ action = RTM_DELROUTE) ->
  keeps tracked (rtmSendRoute action p RTN_UNICAST flags).
Proof.
  intros Hp Hf Ha w [Hv Ht].
  destruct (route_view action p RTN_UNICAST flags w Hp Hf Ha) as [(_ & _ & _ & He & _) V].
  unfold tracked. rewrite He, V. split; [done|]. intros k Hk Hthrow. apply Ht; [|done].
  cbn in Hk. destruct (bool_decide _); [|done]. destruct (_ =? _); [|set_solver].
  apply elem_of_union in Hk as [Hk|Hk]; [|done].
  apply elem_of_singleton in Hk. subst k. by rewrite isThrow_key in Hthrow.
Qed.

Lemma keeps_exclude p : validIp p -> keeps tracked (excludeNetwork p).
Proof.
  intros Hp w [Hv Ht]. unfold excludeNetwork, bind, modify. cbn iota beta.
  set (w1 := w <| m_routesExcluded := _ |>).
  destruct (route_view RTM_NEWROUTE p RTN_THROW (Z.lor NLM_F_CREATE NLM_F_REPLACE) w1 Hp)
    as [(_ & _ & _ & He & _) V]; [done|by left|].
  unfold tracked. rewrite He, V.
  assert (m_routesExcluded w1 = m_routesExcluded w ++ [p]) as -> by done.
  assert (view w1 = view w) as -> by done. split; [by apply Forall_app; split; [|apply Forall_singleton]|].
  intros k Hk Hthrow. cbn in Hk. rewrite throwKey_eq in Hk.
  assert (k ∈ routes (view w) -> exists q, q ∈ m_routesExcluded w ++ [p]
            /\ wf_host (m_address q) /\ k = throwKey q) as Hold.
  { intros Hin. destruct (Ht k Hin Hthrow) as (q & Hq & Hr). exists q. set_solver. }
  case_bool_decide as Hwf; [|by apply Hold].
  apply elem_of_union in Hk as [Hk|Hk]; [|by apply Hold].
  apply elem_of_singleton in Hk. exists p. split_and!; [set_solver|done|done].
Qed.

(** Deleting the remembered exclusions leaves none. *)
Lemma delete_exclusions (l : list IPAddress) (w : WireguardUtilsLinux) :
  Forall validIp l ->
  (forall k, k ∈ routes (view w) -> isThrow k = true ->
     exists p, p ∈ l /\ wf_host (m_address p) /\ k = throwKey p) ->
  let w' := snd (forEach (fun p => rtmSendRoute RTM_DELROUTE p RTN_THROW 0) l w) in
  (forall k, k ∈ routes (view w') -> isThrow k = false)
  /\ forall k, isThrow k = false -> k ∈ routes (view w') <-> k ∈ routes (view w).
Proof.
  intros Hl. cbv zeta. revert w. induction Hl as [|p l Hp _ IH]; intros w Hk.
  - split; [|done]. intros k Hin. destruct (isThrow k) eqn:E; [|done].
    destruct (Hk k Hin E) as (q & Hq & _). set_solver.
  - cbn [forEach]. unfold bind.
    destruct (route_view RTM_DELROUTE p RTN_THROW 0 w Hp) as [_ V]; [done|by right|].
    destruct (rtmSendRoute RTM_DELROUTE p RTN_THROW 0 w) as [ok w1]. cbn [snd] in V.
    rewrite throwKey_eq in V.
    assert (forall k, k ∈ routes (view w1)
              <-> k ∈ routes (view w) /\ ~ (wf_host (m_address p) /\ k = throwKey p)) as Hr.
    { intros k. rewrite V. cbn. case_bool_decide; [rewrite elem_of_difference, elem_of_singleton|];
        tauto. }
    destruct (IH w1) as [H1' H2'].
    { intros k Hin E. apply Hr in Hin as [Hin Hne]. destruct (Hk k Hin E) as (q & Hq & Hwf & ->).
      apply elem_of_cons in Hq as [->|Hq]; [tauto|]. by exists q. }
    split; [exact H1'|]. intros k E. rewrite (H2' k E), Hr. split; [tauto|]. intros Hin.
    split; [done|]. intros [_ ->]. rewrite <- (throwKey_eq p 0), isThrow_key in E. done.
Qed.

(** The state after the notification that the device is gone. *)
Lemma dellink_spec (m : list Z) (w : WireguardUtilsLinux) :
  tracked w -> ifi_index m = m_ifindex w ->
  let w' := snd (nlsockHandleDellink m w) in
  m_routesExcluded w' = [] /\ m_ifindex w' = 0 /\ m_ifflags w' = 0
  /\ (forall k, k ∈ routes (view w') -> isThrow k = false)
  /\ forall k, isThrow k = false -> k ∈ routes (view w') <-> k ∈ routes (view w).
Proof.
  intros [Hv Ht] Hi. cbv zeta. unfold nlsockHandleDellink, bind, gets, modify.
  rewrite Hi, Z.eqb_refl. cbn [negb].
  destruct (delete_exclusions (m_routesExcluded w) w Hv Ht) as [H1' H2'].
  destruct (forEach _ _ w) as [u w1]. cbn [snd] in *. by split_and!.
Qed.

Lemma keeps_dellink m : keeps tracked (nlsockHandleDellink m).
Proof.
  intros w Hw. destruct (decide (ifi_index m = m_ifindex w)) as [Hi|Hi].
  - destruct (dellink_spec m w Hw Hi) as (He & _ & _ & Hr & _). unfold tracked. rewrite He.
    split; [done|]. intros k Hk E. rewrite (Hr k Hk) in E. done.
  - unfold nlsockHandleDellink, bind, gets. apply Z.eqb_neq in Hi. by rewrite Hi.
Qed.

Lemma keeps_newlink m : keeps tracked (nlsockHandleNewlink m).
Proof.
  apply still_tracked. unfold nlsockHandleNewlink. repeat (still_step || case_match).
Qed.

Lemma keeps_messages l : keeps tracked (handleMessages l).
Proof.
  induction l as [|m l IH]; [apply keeps_ret|]. cbn [handleMessages].
  destruct (_ =? NLMSG_DONE); [apply keeps_ret|].
  apply keeps_bind; [|intros _; exact IH].
  destruct (_ =? RTM_NEWLINK); [apply keeps_newlink|].
  destruct (_ =? RTM_DELLINK); [apply keeps_dellink|apply keeps_ret].
Qed.

(** ** Events *)

(** What happens to the object: a call of the daemon, bytes of the kernel to read, and
    the control groups of split tunnelling. *)
Inductive Event : Type :=
| Called (before : list Daemon.Call) (c : Daemon.Call)
| Notified (bytes : list Z)
| GroupExcluded (cgroup : chars)
| GroupReset (cgroup : chars)
| GroupsReset.

Definition handleEvent (e : Event) : M unit :=
  match e with
  | Called before c => _ <- perform others before c ;; ret tt
  | Notified bytes => nlsockReady bytes
  | GroupExcluded cgroup => excludeCgroup cgroup
  | GroupReset cgroup => resetCgroup cgroup
  | GroupsReset => resetAllCgroups
  end.

Definition validCall (c : Daemon.Call) : Prop :=
  match c with
  | Daemon.UpdatePeer config | Daemon.DeletePeer config =>
      Forall validIp (m_allowedIPAddressRanges config)
  | Daemon.UpdateRoutePrefix ip | Daemon.DeleteRoutePrefix ip => validIp ip
  | Daemon.ExcludeLocalNetworks l => Forall validIp l
  | _ => True
  end.

Definition validEvent (e : Event) : Prop :=
  match e with Called _ c => validCall c | _ => True end.

Inductive step (w : WireguardUtilsLinux) : WireguardUtilsLinux -> Prop :=
| step_event e : validEvent e -> step w (snd (handleEvent e w)).

Lemma keeps_excludeLocalNetworks l : Forall validIp l -> keeps tracked (excludeLocalNetworks l).
Proof.
  intros Hl. apply keeps_bind; [|intros _; apply keeps_ret].
  induction Hl as [|p l Hp _ IH]; [apply keeps_ret|].
  by apply keeps_bind; [apply keeps_exclude|intros _].
Qed.

Lemma keeps_perform before c : validCall c -> keeps tracked (perform others before c).
Proof.
  intros Hc. destruct c; cbn [perform validCall] in *;
    try (apply still_tracked, still_ret);
    try (apply keeps_unicast; [done|done|by auto]).
  - apply still_tracked, still_traced. intros w. exists [WgListDevices]. by repeat constructor.
  - apply still_tracked, still_addInterface.
  - apply still_tracked, still_deleteInterface.
  - by apply still_tracked, still_updatePeer.
  - by apply still_tracked, still_deletePeer.
  - apply still_tracked, still_traced. intros w. exists [WgGetDevice]. by repeat constructor.
  - by apply keeps_excludeLocalNetworks.
Qed.

Lemma keeps_event e : validEvent e -> keeps tracked (handleEvent e).
Proof.
  intros He. destruct e; cbn [handleEvent].
  - apply keeps_bind; [by apply keeps_perform|intros _; apply keeps_ret].
  - apply keeps_messages.
  - apply still_tracked, still_excludeCgroup.
  - apply still_tracked, still_resetCgroup.
  - apply still_tracked, still_resetAllCgroups.
Qed.

Lemma tracked_construct : tracked construct.
Proof.
  assert (still (_ <- netfilter RemoveTables ;; chooseCgroups)) as Hs.
  { unfold chooseCgroups, setupCgroupClass, succeeds. repeat (still_step || case_match). }
  apply (still_tracked _ Hs). split; [constructor|]. intros k Hk. set_solver.
Qed.

Lemma reachable_linux_tracked w : rtc step construct w -> tracked w.
Proof.
  pose proof tracked_construct as Ht. intros Hr. revert Ht.
  induction Hr as [w0|w0 w1 w2 Hs _ IH]; intros Ht; [done|].
  apply IH. destruct Hs as [e He]. by apply keeps_event.
Qed.

End Exclusions.
(** ** Properties *)

Section Properties.
Context `{KernelLaws}.
Variable others : list Daemon.Call -> Daemon.Call -> bool.

(** [op] asks for the route to the address that is read back, or for none and fails
    where the text reads as no address. *)
Definition asks (op : M bool) (ip : IPAddress) (route : list Z -> Message)
    (w : WireguardUtilsLinux) : Prop :=
  match readBack (trace w) (m_address ip) with
  | Some read => requests op (route read) w
  | None => op w = (false, w)
  end.

(** C5: what the kernel is asked for. Each call sends one message, which reads as the
    route or rule meant, with the family and length of the prefix, the tunnel's
    table and mark, the device in a unicast route and no attribute lost for lack of
    room: the unicast and throw routes added and deleted, the rules of an entry
    hop added and deleted, and the rule of each family added and deleted with the
    interface. Rules carry the bytes of the address. Routes carry those that are
    read back from the freed text of the address, and none is asked for where it
    reads as no address; they carry the bytes of the address if that text is still
    there. *)
Theorem requests_roundtrip (ip : IPAddress) (w : WireguardUtilsLinux) :
  wf ip ->
  let seq := u32 (m_nlseq w) in
  let fam := familyOf (m_address ip) in
  let dest := destination (m_address ip) in
  let route type rtm_type flags read := mkMessage type flags seq getpid
        (rtmsgHdr fam (m_prefixLength ip) rtm_type)
        ([(RTA_TABLE, le 4 WG_ROUTE_TABLE); (RTA_DST, read)]
         ++ (if rtm_type =? RTN_UNICAST then [(RTA_OIF, le 4 (m_ifindex w))] else [])) in
  let rule type flags := mkMessage type flags seq getpid
        (fibRuleHdr fam (m_prefixLength ip) 0)
        [(FRA_FWMARK, le 4 WG_FIREWALL_MARK); (FRA_TABLE, le 4 WG_ROUTE_TABLE); (FRA_DST, dest)] in
  let tunnel type flags family := mkMessage type flags seq getpid
        (fibRuleHdr family 0 FIB_RULE_INVERT)
        [(FRA_FWMARK, le 4 WG_FIREWALL_MARK); (FRA_TABLE, le 4 WG_ROUTE_TABLE)] in
  asks (updateRoutePrefix ip) ip (route RTM_NEWROUTE RTN_UNICAST 1285) w
  /\ asks (deleteRoutePrefix ip) ip (route RTM_DELROUTE RTN_UNICAST 5) w
  /\ asks (rtmSendRoute RTM_NEWROUTE ip RTN_THROW (Z.lor NLM_F_CREATE NLM_F_REPLACE)) ip
       (route RTM_NEWROUTE RTN_THROW 1285) w
  /\ asks (rtmSendRoute RTM_DELROUTE ip RTN_THROW 0) ip (route RTM_DELROUTE RTN_THROW 5) w
  /\ requests (rtmIncludePeer RTM_NEWRULE ip (Z.lor NLM_F_CREATE NLM_F_REPLACE))
       (rule RTM_NEWRULE 1285) w
  /\ requests (rtmIncludePeer RTM_DELRULE ip 0) (rule RTM_DELRULE 5) w
  /\ (forall family,
       requests (rtmSendRule RTM_NEWRULE NEWRULE_FLAGS family) (tunnel RTM_NEWRULE 1285 family) w
       /\ requests (rtmSendRule RTM_DELRULE (Z.lor NLM_F_REQUEST NLM_F_ACK) family)
            (tunnel RTM_DELRULE 5 family) w)
  /\ (released (trace w) (hostToString (m_address ip)) = hostToString (m_address ip) ->
      readBack (trace w) (m_address ip) = Some dest).
Proof.
  intros Hw. pose proof (wf_prefix_u8 ip Hw) as E. destruct Hw as [Ha _]. cbv zeta.
  assert (forall action rtm_type flags, fits action flags ->
    asks (rtmSendRoute action ip rtm_type flags) ip
      (fun read => routeMessage action ip rtm_type flags read w) w) as Hroute.
  { intros action rtm_type flags Hf. unfold asks.
    destruct (readBack (trace w) (m_address ip)) as [read|] eqn:Er;
      [by apply rtmSendRoute_requests|by apply rtmSendRoute_unread]. }
  rewrite <- E.
  split_and!; [by apply Hroute..|by apply rtmIncludePeer_requests
    |by apply rtmIncludePeer_requests| |by apply readBack_intact].
  intros family. split; by apply rtmSendRule_requests.
Qed.

(** C31: the update of a peer and its deletion. Afterwards the policy rules of its
    prefixes, the mark of the endpoint chosen for it, its record and the peer are
    gone and nothing else has changed; they are gone also where they were there
    before the update, as the mark of a host that another peer shares. Where the
    peer is new (no record of its key, none of its rules, endpoints and keys in
    use), everything is as it was before the update. *)
Theorem peer_undone (config : InterfaceConfig) (w w1 w2 : WireguardUtilsLinux) :
  wfRanges config -> updatePeer config w = (true, w1) -> deletePeer config w1 = (true, w2) ->
  let key := text (m_serverPublicKey config) in
  (m_peerEndpoints w2 = delete key (m_peerEndpoints w)
   /\ exists a, (a = m_serverIpv4AddrIn config \/ a = m_serverIpv6AddrIn config)
      /\ view w2 = mkView (rules (view w) ∖ peerRules config) (routes (view w))
                     (inbound (view w) ∖ {[text a]})
                     (delete (wg_key_from_base64 key) (tunnelPeers (view w))))
  /\ (m_peerEndpoints w !! key = None -> peerRules config ## rules (view w) ->
      text (m_serverIpv4AddrIn config) ∉ inbound (view w) ->
      text (m_serverIpv6AddrIn config) ∉ inbound (view w) ->
      tunnelPeers (view w) !! wg_key_from_base64 key = None ->
      m_peerEndpoints w2 = m_peerEndpoints w /\ view w2 = view w).
Proof.
  intros Hw E1 E2 key.
  destruct (updatePeer_view config w w1 Hw E1) as (a & p & Hne & Ha & Hk & Hm & V1).
  destruct (deletePeer_view config w1 w2 Hw E2) as [Hm2 V2]. fold key in Hm, Hm2, V1, V2.
  rewrite Hm, lookup_insert_eq in V2. change (default None (Some a)) with a in V2.
  apply isEmpty_false in Hne. rewrite Hne in V2.
  rewrite V1 in V2. cbn [rules routes inbound tunnelPeers] in V2. rewrite delete_insert_eq in V2. rewrite Hm, delete_insert_eq in Hm2.
  assert (view w2 = mkView (rules (view w) ∖ peerRules config) (routes (view w))
            (inbound (view w) ∖ {[text a]})
            (delete (wg_key_from_base64 key) (tunnelPeers (view w)))) as V.
  { rewrite V2. f_equal; set_solver. }
  split; [split; [done|by exists a]|]. intros Hrec Hrules H4 H6 Hpeer. split.
  - by rewrite Hm2, delete_id.
  - rewrite V, delete_id by done. destruct (view w) as [r s i q].
    cbn [rules routes inbound tunnelPeers] in *. f_equal; [set_solver|].
    destruct Ha as [-> | ->]; set_solver.
Qed.

(** No network kept out of the tunnel is forgotten, where freed texts stay intact: whatever happened before, the
    exclusions in the kernel are remembered ones, and when the device disappears all
    of them are removed and no other route. *)
Theorem dellink_removes_exclusions (w : WireguardUtilsLinux) (m : list Z) :
  (forall t s, released t s = s) ->
  rtc (step others) construct w -> ifi_index m = m_ifindex w ->
  let w' := snd (nlsockHandleDellink m w) in
  (forall k, k ∈ routes (view w) -> isThrow k = true ->
     exists p, p ∈ m_routesExcluded w /\ wf_host (m_address p) /\ k = throwKey p)
  /\ (forall k, k ∈ routes (view w') -> isThrow k = false)
  /\ (forall k, isThrow k = false -> k ∈ routes (view w') <-> k ∈ routes (view w))
  /\ m_routesExcluded w' = [] /\ m_ifindex w' = 0.
Proof.
  intros Hi' Hr Hi. apply reachable_linux_tracked in Hr; [|exact Hi'].
  destruct (dellink_spec Hi' m w Hr Hi) as (He & Hx & _ & Hgone & Hstay).
  split_and!; [apply Hr|exact Hgone|exact Hstay|exact He|exact Hx].
Qed.

(** *** Name resolution *)

(** [n] failed lookups with the pauses after them, and a last one. *)
Fixpoint attempts (n : nat) (timeout : Z) (address port : chars) : list Sys :=
  match n with
  | O => [GetAddrInfo address port]
  | S n => GetAddrInfo address port :: USleep timeout
           :: attempts n (Z.min 20000000 (u32 (timeout * 6) / 5)) address port
  end.

Definition slept (l : list Sys) : Z :=
  foldr Z.add 0 (omap (fun c => match c with USleep u => Some u | _ => None end) l).

Lemma resolve_attempts (r : nat) (t : Z) (address port : chars) (w : WireguardUtilsLinux) :
  exists n, (n <= r)%nat
    /\ snd (resolve r t address port w) = w <| trace := trace w ++ attempts n t address port |>
    /\ exists before, fst (resolve r t address port w) = getaddrinfo before address port.
Proof.
  revert t w. induction r as [|r IH]; intros t w; simpl; unfold bind, lookupName.
  - exists 0%nat. split_and!; [done|by case_match|]. exists (trace w). by case_match.
  - set (w1 := w <| trace := trace w ++ [GetAddrInfo address port] |>).
    destruct (getaddrinfo (trace w) address port) eqn:E.
    1,2: exists 0%nat; split_and!; [lia|done|by exists (trace w)].
    destruct (IH (Z.min 20000000 (u32 (t * 6) / 5)) (snd (sys (USleep t) w1)))
      as (n & Hn & Es & Ef).
    exists (S n). split; [lia|]. split; [|exact Ef]. cbn [sys fst snd] in *. rewrite Es.
    destruct w. unfold w1, updateField. cbn. by rewrite <- !app_assoc.
Qed.

(** Resolving an endpoint makes at most sixteen lookups and pauses for at most
    72.04 seconds in all, whatever the answers; an address is returned only if a
    lookup gave it, with the family and the size of an IPv4 or an IPv6 address. *)
Theorem setPeerEndpoint_bounded (address : chars) (port : Z) (w : WireguardUtilsLinux) :
  exists n, (n <= 15)%nat
    /\ snd (setPeerEndpoint address port w)
       = w <| trace := trace w ++ attempts n 1000000 address (showZ port) |>
    /\ slept (attempts n 1000000 address (showZ port)) <= 72035082
    /\ forall sa, fst (setPeerEndpoint address port w) = Some sa ->
        exists before family len,
          getaddrinfo before address (showZ port) = Resolved family len sa
          /\ ((family = AF_INET /\ len = SOCKADDR_IN)
              \/ (family = AF_INET6 /\ len = SOCKADDR_IN6)).
Proof.
  destruct (resolve_attempts 15 1000000 address (showZ port) w) as (n & Hn & Es & before & Ef).
  exists n. unfold setPeerEndpoint, bind, ret.
  destruct (resolve 15 1000000 address (showZ port) w) as [r w1]. cbn [fst snd] in *.
  split_and!; [done|done| |].
  - clear -Hn. do 16 (destruct n as [|n]; [by vm_compute|]). lia.
  - intros sa Hsa. destruct r as [family len addr| |]; try done. exists before, family, len.
    destruct (_ || _) eqn:E; [|done]. injection Hsa as <-. split; [done|].
    apply orb_true_iff in E. destruct E as [E|E]; apply andb_true_iff in E as [E1 E2];
      apply Z.eqb_eq in E1, E2; auto.
Qed.

(** *** The firewall *)

(** The steps after the tables exist. *)
Definition firewallPlan (ifname : chars) (mark : Z) (address : chars) : list Netfilter :=
  [ApplyFwMark mark; RestrictTraffic ifname; IsolateIpv6 ifname (withoutPrefix address)]
  ++ map (fun p => AllowPrefix (toString p)) Lan.lanAddressRanges
  ++ [AllowDHCP; AllowNDP; BlockDNS].

Lemma allSucceed_calls (l : list Netfilter) (w : WireguardUtilsLinux) :
  exists p, snd (allSucceed l w) = w <| trace := trace w ++ map NetfilterCall p |>
    /\ if fst (allSucceed l w) then p = l else p `prefix_of` l.
Proof.
  revert w. induction l as [|n l IH]; intros w.
  - exists []. destruct w. unfold updateField. cbn. by rewrite app_nil_r.
  - simpl. unfold bind, netfilter, succeeds, bind, sys, ret. cbn iota beta.
    set (w1 := w <| trace := trace w ++ [NetfilterCall n] |>).
    destruct (code (trace w) (NetfilterCall n) =? 0); cbn [fst snd].
    + destruct (IH w1) as (p & Es & Hp). exists (n :: p). rewrite Es. split.
      * destruct w. unfold w1, updateField. cbn. by rewrite <- app_assoc.
      * destruct (fst (allSucceed l w1)); [by subst|by apply prefix_cons].
    + exists [n]. split; [done|]. by exists l.
Qed.

(** Bringing the firewall up makes its calls in order; when one fails after the
    tables were created, nothing more is called but their removal. *)
Theorem firewallUp_spec (ifname : chars) (mark : Z) (address : chars) (w : WireguardUtilsLinux) :
  let '(ok, w') := firewallUp ifname mark address w in
  exists l, trace w' = trace w ++ map NetfilterCall l
    /\ (if ok then l = CreateTables :: firewallPlan ifname mark address /\ m_isUp w' = true
        else (l = [CreateTables] /\ m_isUp w' = m_isUp w)
             \/ exists p, p `prefix_of` firewallPlan ifname mark address
                 /\ l = CreateTables :: p ++ [RemoveTables] /\ m_isUp w' = true).
Proof.
  unfold firewallUp. fold (firewallPlan ifname mark address).
  set (plan := firewallPlan ifname mark address).
  unfold netfilter at 1, succeeds at 1, bind, sys at 1, ret at 1, modify. cbn iota beta.
  destruct (code (trace w) (NetfilterCall CreateTables) =? 0); [|exists [CreateTables]; auto].
  cbn iota beta. set (w1 := (w <| trace := _ |>) <| m_isUp := true |>).
  destruct (allSucceed_calls plan w1) as (p & Es & Hp).
  destruct (allSucceed plan w1) as [ok w2]. cbn [fst snd] in Es, Hp. subst w2.
  destruct ok; cbn iota beta.
  - exists (CreateTables :: plan). subst p. cbn. by rewrite <- app_assoc.
  - unfold firewallDown, netfilter, succeeds, bind, gets, sys, ret. cbn iota beta.
    change (m_isUp (w1 <| trace := trace w1 ++ map NetfilterCall p |>)) with true.
    cbn iota beta. destruct (_ =? 0); exists (CreateTables :: p ++ [RemoveTables]);
      (split; [by cbn; rewrite map_app, <- !app_assoc|right; by exists p]).
Qed.

(** *** An IPv6-only endpoint *)

(** An update without an IPv4 endpoint but with one that is not null fails. *)
Lemma updatePeer_emptyV4 config w :
  m_serverIpv4AddrIn config = Some [] -> fst (updatePeer config w) = false.
Proof.
  intros E4. unfold updatePeer.
  assert (fst (chooseEndpoint config w) = Some []) as Ec.
  { unfold chooseEndpoint, bind, ret. rewrite E4. cbn [isNullString text].
    destruct (isNullString _); [done|]. unfold hasRouteToIPv4, bind, gets, ret.
    cbn [text default from_option id]. rewrite inet_pton4_empty. by destruct (udpSocket _). }
  unfold bind at 1. destruct (chooseEndpoint config w) as [a w1]. cbn [fst] in Ec. subst a.
  unfold bind at 1, setPeerEndpoint, bind.
  pose proof (resolve_empty 15 1000000 (showZ (m_serverPort config)) w1) as Er.
  change (text (Some [])) with ([] : chars). destruct (resolve _ _ _ _ w1) as [r w2].
  cbn [fst] in Er. by subst r.
Qed.

(** An IPv6-only endpoint is lost on the way to the daemon: the null IPv4 address
    arrives as an empty one, is taken for an address, and every activation of such a
    configuration fails, whatever the state of the daemon and of the system. *)
Theorem ipv6_endpoint_fails `{!QtTextLaws} (sort : list IPAddress -> list IPAddress)
    (c : InterfaceConfig) (hop0 : HopType) (d : Daemon.Daemon) :
  Forall wf (m_allowedIPAddressRanges c) -> m_serverIpv4AddrIn c = None ->
  fst (Daemon.activateJson (H0 := linuxBackend others) sort hop0 (toJson c) d) = Ret false.
Proof.
  intros Hw H4. unfold Daemon.activateJson. rewrite Daemon.parseConfig_received by done.
  apply Daemon.activate_rejected. intros t. cbn [Daemon.answer linuxBackend perform].
  apply updatePeer_emptyV4. cbn. by rewrite H4.
Qed.

End Properties.

(** ** Examples *)

#[local] Existing Instance modelText.
#[local] Existing Instance modelTextLaws.

Definition modelPton4 (s : chars) : option (list Z) :=
  match modelHostOfString s with HostV4 v => Some (networkBytes v) | _ => None end.
Definition modelPton6 (s : chars) : option (list Z) :=
  match modelHostOfString s with HostV6 l => Some l | _ => None end.

(** A kernel that accepts everything but the given calls and resolves literal
    addresses; [read] is what a freed text reads as. *)
Definition readingKernel (read : chars -> chars) (refused : Sys -> bool) : Kernel := {|
  code _ c := if refused c then -1 else
    match c with SendTo m => Z.of_nat (length m) | IfNameToIndex => 7 | _ => 0 end;
  getaddrinfo _ address port :=
    match modelHostOfString address with
    | HostV4 v => Resolved AF_INET SOCKADDR_IN (networkBytes v)
    | HostV6 l => Resolved AF_INET6 SOCKADDR_IN6 l
    | NullHost => Permanent
    end;
  deviceNames _ := [];
  devicePeers _ := None;
  connectable _ _ := true;
  udpSocket _ := true;
  fileLines _ _ := [];
  findCgroupPath := None;
  findCgroup2Path := Some (qs "/sys/fs/cgroup");
  wg_key_from_base64 s := map (fun c => Z.of_nat (nat_of_ascii c)) s;
  wg_key_to_base64 l := map (fun z => ascii_of_nat (Z.to_nat z)) l;
  inet_pton4 := modelPton4;
  inet_pton6 := modelPton6;
  released _ := read;
  getpid := 1000;
|}.

Definition modelKernel : (Sys -> bool) -> Kernel := readingKernel (fun s => s).

Lemma modelPton4_text (v : Z) :
  0 <= v < 2 ^ 32 -> modelPton4 (modelHostToString (HostV4 v)) = Some (networkBytes v).
Proof. intros Hv. unfold modelPton4. by rewrite (model_roundtrip (HostV4 v) Hv). Qed.

Lemma modelPton6_text (l : list Z) :
  wf_host (HostV6 l) -> modelPton6 (modelHostToString (HostV6 l)) = Some l.
Proof. intros Hl. unfold modelPton6. by rewrite (model_roundtrip (HostV6 l) Hl). Qed.

Lemma modelKernelLaws refused : KernelLaws (H0 := modelKernel refused).
Proof.
  split; simpl.
  - intros s a. unfold modelPton4. destruct (modelHostOfString s); [done| |done].
    intros [= <-]. unfold networkBytes. by rewrite length_rev, length_le.
  - intros s a. unfold modelPton6. destruct (model_host_wf s) as [E|Hw]; [by rewrite E|].
    destruct (modelHostOfString s); try done. intros [= <-]. apply Hw.
  - exact modelPton4_text.
  - done.
  - exact modelPton6_text.
  - done.
  - lia.
Qed.

Definition kindKernel : Kernel := modelKernel (fun _ => false).
#[local] Existing Instance kindKernel.
#[local] Instance kindKernelLaws : KernelLaws := modelKernelLaws _.

Definition lan10 : IPAddress := mkIPAddress (HostV4 167772160) 8.

Definition accept (calls : list Daemon.Call) (c : Daemon.Call) : bool := true.

(** A peer at an address. *)
Definition peerAt (hop : HopType) (serverKey address : string) : InterfaceConfig :=
  (emptyConfig hop) <| m_privateKey := Some (qs "K=") |>
    <| m_deviceIpv4Address := Some (qs "10.64.0.2/32") |>
    <| m_serverPublicKey := Some (qs serverKey) |>
    <| m_serverIpv4AddrIn := Some (qs address) |> <| m_serverPort := 51820 |>
    <| m_allowedIPAddressRanges := [mkIPAddress (HostV4 3325256704) 32] |>.

Definition entryHop : InterfaceConfig := peerAt MultiHopEntry "A=" "198.51.100.1".

Lemma requests_roundtrip_witness :
  wf lan10 /\
  requests (updateRoutePrefix lan10)
    (mkMessage RTM_NEWROUTE 1285 0 1000 (rtmsgHdr AF_INET 8 RTN_UNICAST)
       [(RTA_TABLE, [108; 202; 0; 0]); (RTA_DST, [10; 0; 0; 0]); (RTA_OIF, [0; 0; 0; 0])])
    construct.
Proof.
  assert (wf lan10) as Hw by (split; by_decision).
  split; [exact Hw|]. exact (proj1 (requests_roundtrip lan10 construct Hw)).
Defined.

(** The states after the peer was added and deleted. *)
Definition peerAdded : WireguardUtilsLinux := snd (updatePeer entryHop construct).
Definition peerDeleted : WireguardUtilsLinux := snd (deletePeer entryHop peerAdded).

Lemma peer_updated :
  fst (updatePeer entryHop construct) = true /\ fst (deletePeer entryHop peerAdded) = true
  /\ size (rules (view peerAdded)) = 1%nat /\ size (inbound (view peerAdded)) = 1%nat.
Proof. by_decision. Qed.

Lemma peer_undone_witness :
  updatePeer entryHop construct = (true, peerAdded)
  /\ deletePeer entryHop peerAdded = (true, peerDeleted)
  /\ m_peerEndpoints peerDeleted = m_peerEndpoints construct /\ view peerDeleted = view construct.
Proof.
  assert (forall p : bool * WireguardUtilsLinux, fst p = true -> p = (true, snd p)) as Hp
    by (by intros [b w]; cbn; intros ->).
  assert (updatePeer entryHop construct = (true, peerAdded)) as E1 by apply Hp, peer_updated.
  assert (deletePeer entryHop peerAdded = (true, peerDeleted)) as E2 by apply Hp, peer_updated.
  split; [exact E1|]. split; [exact E2|].
  destruct (peer_undone entryHop construct peerAdded peerDeleted) as [_ Hback]; [|done|done|].
  { apply Forall_singleton. by_decision. }
  apply Hback; by_decision.
Defined.

(** The system after the LAN was excluded, with the device at index 7. *)
Definition lanExcluded : WireguardUtilsLinux :=
  snd (handleEvent accept (Called [] (Daemon.ExcludeLocalNetworks Lan.lanAddressRanges))
    (snd (handleEvent accept (Called [] (Daemon.AddInterface entryHop)) construct))).

(** A notification that the device of index 7 is gone. *)
Definition goneMessage : list Z :=
  le 4 32 ++ le 2 RTM_DELLINK ++ replicate 10 0 ++ replicate 4 0 ++ le 4 7 ++ replicate 8 0.

Lemma lanExcluded_reachable : rtc (step accept) construct lanExcluded.
Proof.
  apply rtc_l with (snd (handleEvent accept (Called [] (Daemon.AddInterface entryHop)) construct)).
  - by constructor.
  - apply rtc_once. constructor. cbn [validEvent validCall].
    apply Forall_forall. intros ip Hip. right. revert ip Hip. apply Forall_forall.
    by_decision.
Qed.

Lemma dellink_removes_exclusions_witness :
  size (routes (view lanExcluded)) = 7%nat
  /\ m_routesExcluded (snd (nlsockHandleDellink goneMessage lanExcluded)) = [].
Proof.
  split; [by_decision|].
  assert (forall t s, released t s = s) as Hi by done.
  apply (dellink_removes_exclusions accept lanExcluded goneMessage Hi lanExcluded_reachable).
  by_decision.
Defined.

Definition onlyV6 : InterfaceConfig :=
  (peerAt SingleHop "A=" "") <| m_serverIpv4AddrIn := None |>
    <| m_serverIpv6AddrIn := Some (join (qs ":") (map showZ (replicate 16 1))) |>.

Lemma ipv6_endpoint_fails_witness :
  fst (updatePeer onlyV6 construct) = true
  /\ fst (Daemon.activateJson (H0 := linuxBackend accept) (fun l => l) SingleHop (toJson onlyV6)
            Daemon.initial) = Ret false.
Proof.
  split; [by_decision|].
  apply (ipv6_endpoint_fails accept (fun l => l) onlyV6 SingleHop Daemon.initial); [|done].
  apply Forall_singleton. by_decision.
Defined.

(** *** Defects *)

(** A new endpoint for a peer leaves the mark of the old one, which no later call
    removes. *)
Lemma changed_endpoint_leaks :
  let w1 := snd (updatePeer (peerAt SingleHop "A=" "198.51.100.1") construct) in
  let w2 := snd (updatePeer (peerAt SingleHop "A=" "198.51.100.2") w1) in
  let w3 := snd (deletePeer (peerAt SingleHop "A=" "198.51.100.2") w2) in
  inbound (view w3) = {[qs "198.51.100.1"]} /\ m_peerEndpoints w3 = ∅.
Proof. cbv zeta. by_decision. Qed.

(** Switching between two peers on one host clears the mark of the host that the new
    peer needs. *)
Lemma same_host_unmarked :
  let w1 := snd (updatePeer (peerAt SingleHop "A=" "198.51.100.1") construct) in
  let w2 := snd (updatePeer (peerAt SingleHop "B=" "198.51.100.1") w1) in
  let w3 := snd (deletePeer (peerAt SingleHop "A=" "198.51.100.1") w2) in
  inbound (view w3) = ∅ /\ m_peerEndpoints w3 = {[qs "B=" := Some (qs "198.51.100.1")]}.
Proof. cbv zeta. by_decision. Qed.

(** An update that fails at the firewall leaves the rules of the entry hop behind. *)
Lemma failed_update_leaks :
  let K := modelKernel (fun c => match c with NetfilterCall (MarkInbound _) => true | _ => false end) in
  let r := updatePeer (H0 := K) entryHop (construct (H0 := K)) in
  let w1 := snd r in
  fst r = false /\ size (rules (view w1)) = 1%nat /\ tunnelPeers (view w1) = ∅.
Proof. cbv zeta. by_decision. Qed.

(** What is left of the text of an address decides on the route: none where it is
    overwritten, another where other bytes are there. *)
Lemma freed_text_decides :
  let K s := readingKernel (fun _ => s) (fun _ => false) in
  fst (updateRoutePrefix (H0 := K []) lan10 (construct (H0 := K []))) = false
  /\ readBack (H0 := K (qs "9.9.9.9")) [] (m_address lan10) = Some [9; 9; 9; 9].
Proof. cbv zeta. split; by vm_compute. Qed.

(** Without the net_cls directory split tunnelling stays off although the unified
    hierarchy is there. *)
Lemma no_fallback_to_v2 :
  let refused c := match c with MkDir _ => true | _ => false end in
  let K := {| findCgroupPath := Some (qs "/sys/fs/cgroup/net_cls");
              code := code (Kernel := modelKernel refused);
              getaddrinfo := getaddrinfo (Kernel := modelKernel refused);
              deviceNames _ := []; devicePeers _ := None; connectable _ _ := true;
              udpSocket _ := true; fileLines _ _ := [];
              findCgroup2Path := Some (qs "/sys/fs/cgroup/unified");
              wg_key_from_base64 _ := []; wg_key_to_base64 _ := [];
              inet_pton4 := modelPton4; inet_pton6 := modelPton6; released _ s := s;
              getpid := 1000 |} in
  m_cgroupVersion (construct (H0 := K)) = 0.
Proof. by vm_compute. Qed.

End LinuxDaemon.
