(* ===== verification/AppScope.v ===== *)
(** * Applications and their control groups

    How the daemon recognises the application of a control group by its name:
    [parseCgroupAppId] of [src/src/platforms/linux/xdgportal.cpp], [findDesktopFileId]
    and [snapDesktopFileId] of [daemon/apptracker.cpp], [desktopFileId] of
    [linuxutils.cpp]. The reference is the way launchers write these names. *)
From Stdlib Require Import ZArith Lia Ascii String.
From stdpp Require Import base numbers list strings.
From S2P Require Import Prelude QHostAddress QString QtTextModel QStringExtra.

Local Open Scope Z_scope.
Local Open Scope wg_scope.

Module AppScope.

(** ** Operations *)

Definition isHex (c : ascii) : bool := bool_decide (is_Some (hexValue c)).

(** The character of two hexadecimal digits. *)
Definition hexCode (a b : ascii) : option Z :=
  x ← hexValue a; y ← hexValue b; Some (16 * x + y).

(** [decodeSystemdEscape]: every [\xHH] is replaced by its character, from left to
    right, but for a code of zero, which stays as it is written. *)
Fixpoint decodeSystemdEscape (s : chars) : chars :=
  match s with
  | [] => []
  | c :: (x :: a :: b :: r) as t =>
      if bool_decide (c = "\"%char) && bool_decide (x = "x"%char) then
        match hexCode a b with
        | Some code =>
            if code =? 0 then c :: x :: a :: b :: decodeSystemdEscape r
            else ascii_of_nat (Z.to_nat code) :: decodeSystemdEscape r
        | None => c :: decodeSystemdEscape t
        end
      else c :: decodeSystemdEscape t
  | c :: t => c :: decodeSystemdEscape t
  end.

(** [XdgPortal::parseCgroupAppId]; [Undefined] where the name has no dot and
    [QString::first] gets a negative length. *)
Definition parseCgroupAppId (cgroup : chars) : Outcome QString :=
  let cgName := default [] (last (split "/"%char cgroup)) in
  if negb (startsWithText (qs "app-") cgName) then Ret None
  else
    let dot := lastIndexOf "."%char cgName in
    if dot <? 0 then Undefined
    else
      let suffix := mid cgName (dot + 1) in
      let cgSplit := split "-"%char (left cgName dot) in
      if bool_decide (suffix = qs "service") then
        let cgSplit := if bool_decide (last cgSplit = Some (qs "autostart"))
                       then removelast cgSplit else cgSplit in
        Ret (Some (decodeSystemdEscape (section0 "@"%char (default [] (last cgSplit)))))
      else if bool_decide (suffix = qs "scope") || bool_decide (suffix = qs "slice") then
        if (length cgSplit <? 3)%nat then Ret None
        else Ret (Some (decodeSystemdEscape (default [] (cgSplit !! (length cgSplit - 2)%nat))))
      else Ret None.

(** The lengths of the groups of digits of a UUID. *)
Definition hexRun (n : nat) (s : chars) : bool :=
  (n <=? length s)%nat && forallb isHex (take n s).

Definition dash (s : chars) : bool := bool_decide (head s = Some "-"%char).

(** The regular expression of [snapDesktopFileId] matches at the start: 37
    characters. *)
Definition uuidAt (s : chars) : bool :=
  (bool_decide (head s = Some "-"%char) || bool_decide (head s = Some "."%char))
  && hexRun 8 (drop 1 s) && dash (drop 9 s) && hexRun 4 (drop 10 s) && dash (drop 14 s)
  && hexRun 4 (drop 15 s) && dash (drop 19 s) && hexRun 4 (drop 20 s) && dash (drop 24 s)
  && hexRun 12 (drop 25 s).

(** [remove(QRegularExpression)]; [skip] characters belong to a match. *)
Fixpoint removeUuids (skip : nat) (s : chars) : chars :=
  match s with
  | [] => []
  | c :: r =>
      match skip with
      | S skip => removeUuids skip r
      | O => if uuidAt s then removeUuids 36 r else c :: removeUuids 0 r
      end
  end.

(** [QStringList::value]. *)
Definition valueAt (l : list chars) (i : nat) : chars := default [] (l !! i).

Definition snapDesktopFileId (scope : chars) : QString :=
  let stripped := removeUuids 0 scope in
  let parts := removelast (split "."%char stripped) in
  let package := valueAt parts 1 in
  let app := if bool_decide (valueAt parts 2 = qs "hook") then valueAt parts 3
             else valueAt parts 2 in
  if bool_decide (package = []) || bool_decide (app = []) then None
  else Some (package ++ qs "_" ++ app ++ qs ".desktop").

(** [lastIndexOf(QString)]. *)
Fixpoint lastIndexOfText (p s : chars) : Z :=
  match s with
  | [] => if bool_decide (p = []) then 0 else -1
  | _ :: r =>
      let i := lastIndexOfText p r in
      if 0 <=? i then i + 1 else if startsWithText p s then 0 else -1
  end.

(** [LinuxUtils::desktopFileId]. *)
Definition desktopFileId (path : chars) : chars :=
  if negb (bool_decide ("/"%char ∈ path)) then path
  else
    let dirComponent := qs "/applications/" in
    let index := lastIndexOfText dirComponent path in
    let index := if 0 <=? index then index + Z.of_nat (length dirComponent)
                 else lastIndexOf "/"%char path + 1 in
    replaceChar "/"%char "-"%char (mid path index).

(** [QFileInfo::fileName]. *)
Definition fileName (path : chars) : chars := mid path (lastIndexOf "/"%char path + 1).

Definition gnomeLaunchdPrefix : chars := qs "gnome-launched-".

(** [AppTracker::findDesktopFileId]; [sourcePath] is the property [SourcePath] of
    systemd's unit of a name. *)
Definition findDesktopFileId (sourcePath : chars -> chars) (cgroup : chars) : Outcome QString :=
  let scopeName := fileName cgroup in
  appId <~ (if startsWithText (qs "app-") scopeName then parseCgroupAppId scopeName
            else Ret None) ;;
  if negb (isEmpty appId) then Ret (Some (text appId ++ qs ".desktop"))
  else
    let start := Z.of_nat (length gnomeLaunchdPrefix) in
    let end_ := lastIndexOf "-"%char scopeName in
    if startsWithText gnomeLaunchdPrefix scopeName && (start <? end_)
    then Ret (Some (midn scopeName start (end_ - start)))
    else if startsWithText (qs "snap.") scopeName then Ret (snapDesktopFileId scopeName)
    else
      let source := sourcePath scopeName in
      if negb (bool_decide (source = [])) && endsWithText (qs ".desktop") source
      then Ret (Some (desktopFileId source))
      else Ret None.

(** ** The names launchers give *)

(** Characters systemd keeps in an escaped name. *)
Definition plainChar (c : ascii) : bool :=
  let n := nat_of_ascii c in
  ((48 <=? n) && (n <=? 57) || (65 <=? n) && (n <=? 90) || (97 <=? n) && (n <=? 122))%nat
  || bool_decide (c ∈ qs ":_.").

Definition hexChar (n : nat) : ascii := ascii_of_nat (if n <? 10 then 48 + n else 87 + n)%nat.

Definition escapeByte (c : ascii) : chars :=
  "\"%char :: "x"%char :: [hexChar (nat_of_ascii c / 16); hexChar (nat_of_ascii c mod 16)].

(** A slash stands for a dash in a unit's name. *)
Definition escapeChar (c : ascii) : chars :=
  if bool_decide (c = "/"%char) then qs "-" else if plainChar c then [c] else escapeByte c.

(** The bytes of a character in UTF-8. *)
Definition utf8 (c : ascii) : chars :=
  let n := nat_of_ascii c in
  if (n <? 128)%nat then [c] else [ascii_of_nat (192 + n / 64); ascii_of_nat (128 + n mod 64)].

(** The escaping of systemd: of bytes, and of a dot only at the start. *)
Definition systemdEscape (s : chars) : chars :=
  match concat (map utf8 s) with
  | [] => []
  | c :: r => (if bool_decide (c = "."%char) then escapeByte c else escapeChar c)
              ++ concat (map escapeChar r)
  end.

(** The ways an application is launched: by systemd, as a scope or a slice, as a
    service, or on login; by an old GNOME; from a snap, as a service or a scope, of the
    application or of a hook. *)
Inductive Launch : Type :=
| Scope (launcher : option chars) (id random type : chars)
| Service (launcher : option chars) (id : chars) (random : option chars)
| Autostart (launcher : option chars) (id : chars)
| Gnome (id pid : chars)
| Snap (hook : bool) (package app uuid type : chars).

Definition gnomeName (id pid : chars) : chars :=
  gnomeLaunchdPrefix ++ id ++ qs "-" ++ pid ++ qs ".scope".

(** [app[-<launcher>]]. *)
Definition appHead (launcher : option chars) : chars :=
  qs "app" ++ match launcher with Some l => "-"%char :: l | None => [] end.

Definition snapHead (hook : bool) (package app : chars) : chars :=
  qs "snap." ++ package ++ (if hook then qs ".hook." else qs ".") ++ app.

(** The name of the control group. *)
Definition groupName (l : Launch) : chars :=
  match l with
  | Scope launcher id random type =>
      appHead launcher ++ "-"%char :: systemdEscape id ++ "-"%char :: random ++ "."%char :: type
  | Service launcher id random =>
      appHead launcher ++ "-"%char :: systemdEscape id
        ++ match random with Some r => "@"%char :: r | None => [] end ++ "."%char :: qs "service"
  | Autostart launcher id =>
      appHead launcher ++ "-"%char :: systemdEscape id ++ qs "-autostart.service"
  | Gnome id pid => gnomeName id pid
  | Snap hook package app uuid type => snapHead hook package app ++ uuid ++ "."%char :: type
  end.

(** The desktop file of the application. *)
Definition application (l : Launch) : chars :=
  match l with
  | Scope _ id _ _ | Service _ id _ | Autostart _ id => id ++ qs ".desktop"
  | Gnome id _ => id
  | Snap _ package app _ _ => package ++ qs "_" ++ app ++ qs ".desktop"
  end.

(** An identifier of ASCII characters other than the slash. *)
Definition asciiId (id : chars) : Prop :=
  id <> [] /\ Forall (fun c => 1 <= nat_of_ascii c < 128)%nat id /\ ("/"%char ∉ id).

Definition noSlash (launcher : option chars) : Prop := "/"%char ∉ default [] launcher.

Definition wellNamed (l : Launch) : Prop :=
  match l with
  | Scope launcher id random type =>
      asciiId id /\ noSlash launcher /\ ("/"%char ∉ random) /\ ("-"%char ∉ random)
      /\ (type = qs "scope" \/ type = qs "slice")
  | Service launcher id random =>
      asciiId id /\ noSlash launcher
      /\ match random with
         | Some r => ("/"%char ∉ r) /\ ("-"%char ∉ r)
         | None => systemdEscape id <> qs "autostart"
         end
  | Autostart launcher id => asciiId id /\ noSlash launcher
  | Gnome id pid => id <> [] /\ ("/"%char ∉ id ++ pid) /\ ("-"%char ∉ pid)
  | Snap hook package app uuid type =>
      ("/"%char ∉ package ++ app ++ uuid ++ type) /\ ("."%char ∉ package ++ app ++ type)
      /\ package <> [] /\ app <> [] /\ (hook = false -> app <> qs "hook")
      /\ (length type < 36)%nat /\ (uuid = [] \/ uuidAt uuid = true /\ length uuid = 37%nat)
      /\ (forall k, (k < length (snapHead hook package app))%nat ->
          uuidAt (drop k (groupName l)) = false)
  end.

(** ** Lemmas *)

Lemma ascii_cases (P : ascii -> bool) :
  forallb P (map ascii_of_nat (seq 0 256)) = true -> forall c, P c = true.
Proof.
  intros H c. rewrite forallb_forall in H. apply H. apply in_map_iff.
  exists (nat_of_ascii c). split; [apply ascii_nat_embedding|].
  apply in_seq. pose proof (nat_ascii_bounded c). lia.
Qed.

Lemma decode_plain (c : ascii) (r : chars) :
  c <> "\"%char -> decodeSystemdEscape (c :: r) = c :: decodeSystemdEscape r.
Proof.
  intros Hc. destruct r as [|x [|a [|b r]]]; try done. simpl.
  by rewrite bool_decide_false.
Qed.

Lemma hexCode_hexChar (c : ascii) :
  hexCode (hexChar (nat_of_ascii c / 16)) (hexChar (nat_of_ascii c mod 16))
  = Some (Z.of_nat (nat_of_ascii c)).
Proof.
  apply (bool_decide_eq_true_1 _). revert c.
  apply (ascii_cases (fun c => bool_decide
    (hexCode (hexChar (nat_of_ascii c / 16)) (hexChar (nat_of_ascii c mod 16))
     = Some (Z.of_nat (nat_of_ascii c))))).
  by vm_compute.
Qed.

Lemma decode_byte (c : ascii) (r : chars) :
  c <> ascii_of_nat 0 -> decodeSystemdEscape (escapeByte c ++ r) = c :: decodeSystemdEscape r.
Proof.
  intros Hc. unfold escapeByte. set (a := hexChar _). set (b := hexChar _).
  cbn [app decodeSystemdEscape].
  assert (hexCode a b = Some (Z.of_nat (nat_of_ascii c))) as -> by apply hexCode_hexChar.
  rewrite !bool_decide_true by done. cbn [andb].
  destruct (Z.eqb_spec (Z.of_nat (nat_of_ascii c)) 0) as [E|_].
  - destruct Hc. rewrite <- (ascii_nat_embedding c). f_equal. lia.
  - by rewrite Nat2Z.id, ascii_nat_embedding.
Qed.

Lemma decode_char (c : ascii) (r : chars) :
  c <> ascii_of_nat 0 -> c <> "/"%char ->
  decodeSystemdEscape (escapeChar c ++ r) = c :: decodeSystemdEscape r.
Proof.
  intros Hc Hs. unfold escapeChar. rewrite bool_decide_false by done.
  destruct (plainChar c) eqn:Ep; [|by apply decode_byte]. apply decode_plain. by intros ->.
Qed.

Lemma utf8_ascii (s : chars) :
  Forall (fun c => 1 <= nat_of_ascii c < 128)%nat s -> concat (map utf8 s) = s.
Proof.
  induction 1 as [|c s Hc _ IH]; [done|]. cbn [map concat]. rewrite IH. unfold utf8.
  by rewrite (proj2 (Nat.ltb_lt _ _)) by lia.
Qed.

(** An escaped name is decoded to what it was. *)
Lemma decode_escape (s : chars) : asciiId s -> decodeSystemdEscape (systemdEscape s) = s.
Proof.
  intros (_ & Ha & Hs). unfold systemdEscape. rewrite utf8_ascii by done.
  assert (forall c, (1 <= nat_of_ascii c < 128)%nat -> c <> ascii_of_nat 0) as Hz
    by (intros c Hc ->; change (nat_of_ascii (ascii_of_nat 0)) with 0%nat in Hc; lia).
  destruct Ha as [|c r Hc Hr]; [done|].
  assert (decodeSystemdEscape (concat (map escapeChar r)) = r) as Er.
  { assert ("/"%char ∉ r) as Hsr by list_in. clear Hs Hc.
    induction Hr as [|x r Hx _ IH]; [done|]. cbn [map concat].
    rewrite decode_char by (by apply Hz || list_in). f_equal. apply IH. list_in. }
  case_bool_decide; [rewrite decode_byte by (by apply Hz)|rewrite decode_char by (by apply Hz || list_in)];
    by rewrite Er.
Qed.

Lemma escaped_without (c : ascii) : c ∈ qs "-/@" -> forall x, x <> "/"%char ->
  (c ∉ escapeChar x) /\ (c ∉ escapeByte x).
Proof.
  intros Hc x Hx.
  assert (forall x, (fun x => forallb (fun c => bool_decide (x = "/"%char)
      || bool_decide ((c ∉ escapeChar x) /\ (c ∉ escapeByte x))) (qs "-/@")) x = true)
    as Hall by (by apply ascii_cases; vm_compute).
  specialize (Hall x). cbv beta in Hall. rewrite forallb_forall in Hall.
  specialize (Hall c ltac:(by apply list_elem_of_In)). apply orb_true_iff in Hall as [H|H];
    [by apply bool_decide_eq_true in H|by apply bool_decide_eq_true in H].
Qed.

Lemma escape_elem (c : ascii) (s : chars) : c ∈ qs "-/@" -> asciiId s -> c ∉ systemdEscape s.
Proof.
  intros Hc (_ & Ha & Hs). unfold systemdEscape. rewrite utf8_ascii by done.
  pose proof (escaped_without c Hc) as He. destruct s as [|x r]; [apply not_elem_of_nil|].
  apply not_elem_of_cons in Hs as [Hx Hr]. rewrite elem_of_app. intros [H|H].
  - destruct (He x (not_eq_sym Hx)) as [E1 E2]. case_bool_decide; [by apply E2|by apply E1].
  - clear Ha. induction r as [|y r IH]; [by apply not_elem_of_nil in H|].
    apply not_elem_of_cons in Hr as [Hy Hr]. cbn [map concat] in H.
    apply elem_of_app in H as [H|H]; [by apply (proj1 (He y (not_eq_sym Hy)))|by apply IH].
Qed.

Lemma split_app_last (c : ascii) (a b : chars) :
  c ∉ b -> split c (a ++ c :: b) = split c a ++ [b].
Proof.
  intros Hb. induction a as [|x a IH].
  - cbn [app]. pose proof (split_app c [] b ltac:(list_in)) as E. cbn [app] in E.
    rewrite E. by rewrite split_none.
  - cbn [app split]. rewrite IH. destruct (split c a) as [|h t] eqn:E;
      [by apply split_nonempty in E|]. cbn [app]. by case_bool_decide.
Qed.

Lemma split_length (c : ascii) (s : chars) : (1 <= length (split c s))%nat.
Proof. pose proof (split_nonempty c s). destruct (split c s); [done|cbn; lia]. Qed.

Lemma fileName_app (dir name : chars) :
  "/"%char ∉ name -> fileName (dir ++ "/"%char :: name) = name.
Proof. intros Hn. unfold fileName. rewrite lastIndexOf_app by done. apply mid_app. Qed.

Lemma fileName_slash (path : chars) : "/"%char ∉ fileName path.
Proof.
  destruct (decide ("/"%char ∈ path)) as [Hin|Hin].
  - assert (0 <= indexOf "/"%char (rev path)) as Hi.
    { pose proof (indexOf_not_elem "/"%char (rev path)). pose proof (indexOf_range "/"%char (rev path)).
      destruct (Z.ltb_spec (indexOf "/"%char (rev path)) 0); [|done].
      destruct (H ltac:(lia)). by rewrite list_elem_of_In, <- in_rev, <- list_elem_of_In. }
    apply indexOf_nonneg in Hi as (x & y & E & Hx & _).
    assert (path = rev y ++ "/"%char :: rev x) as ->.
    { rewrite <- (rev_involutive path), E, rev_app_distr. cbn. by rewrite <- app_assoc. }
    assert ("/"%char ∉ rev x) as Hr by (by rewrite list_elem_of_In, <- in_rev, <- list_elem_of_In).
    by rewrite fileName_app.
  - unfold fileName, lastIndexOf.
    assert (indexOf "/"%char (rev path) = -1) as ->; [|done].
    apply indexOf_none. by rewrite list_elem_of_In, <- in_rev, <- list_elem_of_In.
Qed.

Lemma lastIndexOf_elem (c : ascii) (s : chars) : c ∈ s -> 0 <= lastIndexOf c s.
Proof.
  intros Hc. assert (c ∈ rev s) as Hr by (by rewrite list_elem_of_In, <- in_rev, <- list_elem_of_In).
  unfold lastIndexOf. destruct (Z.ltb_spec (indexOf c (rev s)) 0) as [Hl|Hl].
  - by apply indexOf_not_elem in Hl.
  - apply indexOf_nonneg in Hl as (x & y & E & _ & ->).
    apply (f_equal length) in E. rewrite length_rev, length_app in E. cbn in E. lia.
Qed.

(** A name with a dot is never undefined. *)
Lemma findDesktopFileId_defined (sourcePath : chars -> chars) (cgroup : chars) :
  "."%char ∈ fileName cgroup -> exists id, findDesktopFileId sourcePath cgroup = Ret id.
Proof.
  intros Hdot. pose proof (lastIndexOf_elem _ _ Hdot) as Hl.
  assert (exists id, parseCgroupAppId (fileName cgroup) = Ret id) as [id E].
  { unfold parseCgroupAppId. rewrite split_none by apply fileName_slash.
    cbn [last default from_option id]. destruct (startsWithText _ _); [|by eexists]. cbn [negb].
    destruct (Z.ltb_spec (lastIndexOf "."%char (fileName cgroup)) 0); [lia|].
    repeat case_match; by eexists. }
  unfold findDesktopFileId. destruct (startsWithText (qs "app-") _); rewrite ?E;
    cbn [outcome_bind]; repeat case_match; by eexists.
Qed.

Lemma startsWithText_app (p s : chars) : startsWithText p (p ++ s) = true.
Proof. unfold startsWithText. by rewrite take_app_length, bool_decide_true. Qed.

(** What comes before the suffix of a name, and what is made of it. *)
Lemma parse_name (pre suffix : chars) :
  "/"%char ∉ pre -> "/"%char ∉ suffix -> "."%char ∉ suffix ->
  startsWithText (qs "app-") (pre ++ "."%char :: suffix) = true ->
  parseCgroupAppId (pre ++ "."%char :: suffix)
  = let parts := split "-"%char pre in
    if bool_decide (suffix = qs "service") then
      let parts := if bool_decide (last parts = Some (qs "autostart"))
                   then removelast parts else parts in
      Ret (Some (decodeSystemdEscape (section0 "@"%char (default [] (last parts)))))
    else if bool_decide (suffix = qs "scope") || bool_decide (suffix = qs "slice") then
      if (length parts <? 3)%nat then Ret None
      else Ret (Some (decodeSystemdEscape (default [] (parts !! (length parts - 2)%nat))))
    else Ret None.
Proof.
  intros Hp Hs Hd Ha. unfold parseCgroupAppId.
  assert ("/"%char ∉ pre ++ "."%char :: suffix) as Hn.
  { apply not_elem_of_app. split; [done|]. by apply not_elem_of_cons. }
  rewrite split_none by done. cbn [last default from_option id]. rewrite Ha. cbn [negb].
  rewrite lastIndexOf_app by done.
  destruct (Z.ltb_spec (Z.of_nat (length pre)) 0); [lia|]. by rewrite mid_app, left_app.
Qed.

Lemma appHead_starts (launcher : option chars) (s : chars) :
  startsWithText (qs "app-") (appHead launcher ++ "-"%char :: s) = true.
Proof.
  unfold appHead. rewrite <- app_assoc.
  destruct launcher as [l|]; cbn [app]; exact (startsWithText_app (qs "app-") _).
Qed.

(** A character that is not in a list made of parts. *)
Ltac not_in :=
  repeat match goal with
  | H : _ ∉ _ ++ _ |- _ => apply not_elem_of_app in H as [? ?]
  | |- _ ∉ _ ++ _ => apply not_elem_of_app; split
  | |- _ ∉ _ :: _ => apply not_elem_of_cons; split
  end; done.

(** A group whose identifier is recognised by its name. *)
Lemma find_recognised (sourcePath : chars -> chars) (dir name id : chars) :
  "/"%char ∉ name -> startsWithText (qs "app-") name = true -> id <> [] ->
  parseCgroupAppId name = Ret (Some id) ->
  findDesktopFileId sourcePath (dir ++ "/"%char :: name) = Ret (Some (id ++ qs ".desktop")).
Proof.
  intros Hs Ha Hi E. unfold findDesktopFileId. rewrite fileName_app by done. rewrite Ha, E.
  cbn [outcome_bind]. unfold isEmpty. cbn [text default from_option].
  by rewrite bool_decide_false.
Qed.

Lemma appHead_slash (launcher : option chars) : noSlash launcher -> "/"%char ∉ appHead launcher.
Proof.
  unfold noSlash, appHead. assert ("/"%char ∉ qs "app") as Ha by by_decision.
  destruct launcher; cbn [default from_option id]; intros; not_in.
Qed.

Lemma find_scope (sourcePath : chars -> chars) (dir : chars) (launcher : option chars)
    (id random type : chars) :
  wellNamed (Scope launcher id random type) ->
  findDesktopFileId sourcePath (dir ++ "/"%char :: groupName (Scope launcher id random type))
  = Ret (Some (id ++ qs ".desktop")).
Proof.
  cbn [wellNamed groupName]. intros (Hid & Hl & Hr & Hr' & Ht). apply appHead_slash in Hl.
  assert (("/"%char ∉ type) /\ ("."%char ∉ type)) as [Ht1 Ht2]
    by (destruct Ht as [-> | ->]; by_decision).
  pose proof (escape_elem "/"%char id ltac:(by_decision) Hid) as He.
  pose proof (escape_elem "-"%char id ltac:(by_decision) Hid) as He'.
  set (pre := appHead launcher ++ "-"%char :: systemdEscape id ++ "-"%char :: random).
  assert (appHead launcher ++ "-"%char :: systemdEscape id ++ "-"%char :: random ++ "."%char :: type
          = pre ++ "."%char :: type) as E
    by (subst pre; rewrite <- !app_assoc; cbn [app]; by rewrite <- !app_assoc).
  assert (startsWithText (qs "app-") (pre ++ "."%char :: type) = true) as Ha
    by (rewrite <- E; apply appHead_starts).
  assert ("/"%char ∉ pre) as Hp by (subst pre; not_in). rewrite E.
  apply find_recognised; [not_in|done|apply Hid|]. rewrite parse_name by done. cbv zeta.
  assert (split "-"%char pre = (split "-"%char (appHead launcher) ++ [systemdEscape id]) ++ [random])
    as ->.
  { assert (pre = (appHead launcher ++ "-"%char :: systemdEscape id) ++ "-"%char :: random) as ->
      by (subst pre; by rewrite <- app_assoc).
    by rewrite !split_app_last. }
  assert (bool_decide (type = qs "service") = false) as -> by (destruct Ht as [-> | ->]; done).
  assert (bool_decide (type = qs "scope") || bool_decide (type = qs "slice") = true) as ->
    by (destruct Ht as [-> | ->]; done).
  pose proof (split_length "-"%char (appHead launcher)) as Hn. rewrite !length_app. cbn [length].
  set (n := length (split "-"%char (appHead launcher))) in *.
  destruct (Nat.ltb_spec (n + 1 + 1) 3); [lia|].
  rewrite lookup_app_l by (rewrite length_app; cbn; lia).
  replace (n + 1 + 1 - 2)%nat with n by lia. unfold n. rewrite list_lookup_middle by done.
  cbn [default from_option Datatypes.id]. by rewrite decode_escape.
Qed.

Lemma find_service (sourcePath : chars -> chars) (dir : chars) (launcher : option chars)
    (id : chars) (random : option chars) :
  wellNamed (Service launcher id random) ->
  findDesktopFileId sourcePath (dir ++ "/"%char :: groupName (Service launcher id random))
  = Ret (Some (id ++ qs ".desktop")).
Proof.
  cbn [wellNamed groupName]. intros (Hid & Hl & Hr). apply appHead_slash in Hl.
  pose proof (escape_elem "/"%char id ltac:(by_decision) Hid) as He.
  pose proof (escape_elem "-"%char id ltac:(by_decision) Hid) as He'.
  pose proof (escape_elem "@"%char id ltac:(by_decision) Hid) as He''.
  set (last_ := systemdEscape id ++ match random with Some r => "@"%char :: r | None => [] end).
  assert (("/"%char ∉ last_) /\ ("-"%char ∉ last_) /\ last_ <> qs "autostart"
          /\ section0 "@"%char last_ = systemdEscape id) as (H1 & H2 & H3 & H4).
  { subst last_. destruct random as [r|].
    - destruct Hr as [Hr Hr']. split_and!; [not_in|not_in| |by rewrite section0_app].
      intros E. assert ("@"%char ∈ qs "autostart") as Hin
        by (rewrite <- E; apply elem_of_app; right; by left).
      revert Hin. by_decision.
    - rewrite app_nil_r. split_and!; [done|done|done|by apply section0_none]. }
  assert (appHead launcher ++ "-"%char :: systemdEscape id
          ++ match random with Some r => "@"%char :: r | None => [] end ++ "."%char :: qs "service"
          = (appHead launcher ++ "-"%char :: last_) ++ "."%char :: qs "service") as E
    by (subst last_; rewrite <- !app_assoc; cbn [app]; by rewrite <- !app_assoc).
  assert (startsWithText (qs "app-")
            ((appHead launcher ++ "-"%char :: last_) ++ "."%char :: qs "service") = true) as Ha
    by (rewrite <- E; apply appHead_starts).
  assert ("/"%char ∉ qs "service") as Hs by by_decision.
  rewrite E. apply find_recognised; [not_in|done|apply Hid|].
  rewrite parse_name by (done || not_in || by_decision). cbv zeta.
  rewrite bool_decide_true by done. rewrite split_app_last by done. rewrite last_snoc.
  rewrite bool_decide_false by (by intros [= ?]). rewrite last_snoc. cbn [default from_option Datatypes.id].
  rewrite H4. by rewrite decode_escape.
Qed.

Lemma find_autostart (sourcePath : chars -> chars) (dir : chars) (launcher : option chars)
    (id : chars) :
  wellNamed (Autostart launcher id) ->
  findDesktopFileId sourcePath (dir ++ "/"%char :: groupName (Autostart launcher id))
  = Ret (Some (id ++ qs ".desktop")).
Proof.
  cbn [wellNamed groupName]. intros (Hid & Hl). apply appHead_slash in Hl.
  pose proof (escape_elem "/"%char id ltac:(by_decision) Hid) as He.
  pose proof (escape_elem "-"%char id ltac:(by_decision) Hid) as He'.
  pose proof (escape_elem "@"%char id ltac:(by_decision) Hid) as He''.
  set (pre := (appHead launcher ++ "-"%char :: systemdEscape id) ++ "-"%char :: qs "autostart").
  assert (appHead launcher ++ "-"%char :: systemdEscape id ++ qs "-autostart.service"
          = pre ++ "."%char :: qs "service") as E
    by (subst pre; by rewrite <- !app_assoc).
  assert (startsWithText (qs "app-") (pre ++ "."%char :: qs "service") = true) as Ha
    by (rewrite <- E; apply appHead_starts).
  assert (("/"%char ∉ qs "service") /\ ("/"%char ∉ qs "autostart")) as [Hs Hs'] by by_decision.
  assert ("/"%char ∉ pre) as Hp by (subst pre; not_in).
  rewrite E. apply find_recognised; [not_in|done|apply Hid|].
  rewrite parse_name by (done || by_decision). cbv zeta. rewrite bool_decide_true by done.
  unfold pre. rewrite split_app_last by by_decision. rewrite split_app_last by done.
  rewrite last_snoc, bool_decide_true by done. rewrite removelast_last, last_snoc.
  cbn [default from_option Datatypes.id]. rewrite section0_none by done. by rewrite decode_escape.
Qed.

Lemma find_gnome (sourcePath : chars -> chars) (dir id pid : chars) :
  wellNamed (Gnome id pid) ->
  findDesktopFileId sourcePath (dir ++ "/"%char :: groupName (Gnome id pid)) = Ret (Some id).
Proof.
  cbn [wellNamed groupName]. intros (Hi & Hs & Hp).
  assert (("/"%char ∉ gnomeLaunchdPrefix) /\ ("/"%char ∉ qs ".scope") /\ ("-"%char ∉ qs ".scope"))
    as (Hg & Hsc & Hsc') by by_decision.
  assert (gnomeName id pid = (gnomeLaunchdPrefix ++ id) ++ "-"%char :: pid ++ qs ".scope") as E
    by (unfold gnomeName; by rewrite <- app_assoc).
  unfold findDesktopFileId. rewrite fileName_app by (rewrite E; not_in).
  assert (startsWithText (qs "app-") (gnomeName id pid) = false) as -> by done.
  cbn [outcome_bind]. change (isEmpty None) with true. cbn [negb].
  rewrite E, lastIndexOf_app by not_in.
  rewrite <- app_assoc, startsWithText_app, length_app.
  destruct (Z.ltb_spec (Z.of_nat (length gnomeLaunchdPrefix))
              (Z.of_nat (length gnomeLaunchdPrefix + length id))).
  2:{ destruct id; [done|cbn in *; lia]. }
  cbn [andb]. unfold midn. rewrite Nat2Z.id, drop_app_length.
  rewrite take_app_length' by lia. done.
Qed.

(** *** Removing a UUID *)

Lemma hexRun_app (n : nat) (s t : chars) : hexRun n s = true -> hexRun n (s ++ t) = true.
Proof.
  unfold hexRun. intros H. apply andb_true_iff in H as [Hl Hh]. apply Nat.leb_le in Hl.
  rewrite length_app, take_app_le, Hh by lia. apply andb_true_iff.
  split; [apply Nat.leb_le; lia|done].
Qed.

Lemma dash_app (s t : chars) : dash s = true -> dash (s ++ t) = true.
Proof. unfold dash. by destruct s. Qed.

Lemma uuidAt_length (s : chars) : uuidAt s = true -> (37 <= length s)%nat.
Proof.
  unfold uuidAt. rewrite !andb_true_iff. intros [_ H]. unfold hexRun in H.
  apply andb_true_iff in H as [H _]. apply Nat.leb_le in H. rewrite length_drop in H. lia.
Qed.

Lemma uuidAt_app (s t : chars) : uuidAt s = true -> uuidAt (s ++ t) = true.
Proof.
  intros Hs. pose proof (uuidAt_length s Hs) as Hl. revert Hs. unfold uuidAt.
  rewrite !andb_true_iff, !drop_app_le by lia.
  intros [[[[[[[[[H1 H2] H3] H4] H5] H6] H7] H8] H9] H10].
  split_and!; try (by apply hexRun_app); try (by apply dash_app).
  destruct s; [cbn in Hl; lia|exact H1].
Qed.

Lemma removeUuids_skip (n : nat) (s : chars) : removeUuids n s = removeUuids 0 (drop n s).
Proof. revert n. induction s as [|c s IH]; intros [|n]; try done. apply IH. Qed.

Lemma removeUuids_none (s : chars) :
  (forall k, (k < length s)%nat -> uuidAt (drop k s) = false) -> removeUuids 0 s = s.
Proof.
  induction s as [|c s IH]; intros Hk; [done|]. cbn [removeUuids].
  pose proof (Hk 0%nat ltac:(cbn; lia)) as E. cbn [drop] in E. rewrite E. f_equal. apply IH.
  intros k Hlt. apply (Hk (S k)). cbn. lia.
Qed.

Lemma removeUuids_one (pre uuid post : chars) :
  (forall k, (k < length pre)%nat -> uuidAt (drop k (pre ++ uuid ++ post)) = false) ->
  uuidAt uuid = true -> length uuid = 37%nat -> (length post < 37)%nat ->
  removeUuids 0 (pre ++ uuid ++ post) = pre ++ post.
Proof.
  intros Hpre Hu Hl Hp. induction pre as [|c pre IH].
  - cbn [app]. destruct uuid as [|c uuid]; [done|]. cbn [app removeUuids].
    pose proof (uuidAt_app (c :: uuid) post Hu) as E. cbn [app] in E. rewrite E.
    rewrite removeUuids_skip, drop_app_length' by (cbn in Hl; lia).
    apply removeUuids_none. intros k _. destruct (uuidAt (drop k post)) eqn:Ek; [|done].
    apply uuidAt_length in Ek. rewrite length_drop in Ek. lia.
  - cbn [app removeUuids]. pose proof (Hpre 0%nat ltac:(cbn; lia)) as E. cbn [app drop] in E.
    rewrite E. f_equal. apply IH. intros k Hk. apply (Hpre (S k)). cbn. lia.
Qed.

(** The identifier of a launch is taken out, where there is one. *)
Lemma removeUuids_launch (pre uuid type : chars) :
  (length type < 36)%nat -> (uuid = [] \/ uuidAt uuid = true /\ length uuid = 37%nat) ->
  (forall k, (k < length pre)%nat -> uuidAt (drop k (pre ++ uuid ++ "."%char :: type)) = false) ->
  removeUuids 0 (pre ++ uuid ++ "."%char :: type) = pre ++ "."%char :: type.
Proof.
  intros Ht [->|[Hu Hl]] Hno; [|by apply removeUuids_one; [..|cbn; lia]].
  apply removeUuids_none. intros k _. destruct (Nat.lt_ge_cases k (length pre)); [by apply Hno|].
  destruct (uuidAt _) eqn:E; [|done]. apply uuidAt_length in E.
  rewrite length_drop, length_app in E. cbn in E. lia.
Qed.

Lemma find_snap (sourcePath : chars -> chars) (dir : chars) (hook : bool)
    (package name uuid type : chars) :
  wellNamed (Snap hook package name uuid type) ->
  findDesktopFileId sourcePath (dir ++ "/"%char :: groupName (Snap hook package name uuid type))
  = Ret (Some (package ++ qs "_" ++ name ++ qs ".desktop")).
Proof.
  cbn [wellNamed groupName]. intros (Hs & Hd & Hp & Ha & Hh & Ht & Hu & Hno).
  set (pre := snapHead hook package name) in *.
  assert (("/"%char ∉ qs "snap.") /\ ("/"%char ∉ qs ".") /\ ("/"%char ∉ qs ".hook.")
          /\ ("."%char ∉ qs "snap") /\ ("."%char ∉ qs "hook")) as (H1 & H2 & H3 & H4 & H5)
    by by_decision.
  assert ("/"%char ∉ pre ++ uuid ++ "."%char :: type) as Hslash
    by (subst pre; unfold snapHead; destruct hook; not_in).
  unfold findDesktopFileId. rewrite fileName_app by done.
  assert (startsWithText (qs "app-") (pre ++ uuid ++ "."%char :: type) = false
          /\ startsWithText gnomeLaunchdPrefix (pre ++ uuid ++ "."%char :: type) = false
          /\ startsWithText (qs "snap.") (pre ++ uuid ++ "."%char :: type) = true) as (-> & -> & ->).
  { subst pre. unfold snapHead. rewrite <- app_assoc. split_and!; [done|done|apply startsWithText_app]. }
  cbn [outcome_bind]. change (isEmpty None) with true. cbn [negb andb].
  unfold snapDesktopFileId. rewrite removeUuids_launch by done.
  assert (split "."%char (pre ++ "."%char :: type)
          = [qs "snap"; package] ++ (if hook then [qs "hook"] else []) ++ [name; type]) as ->.
  { subst pre. unfold snapHead. change (qs "snap.") with (qs "snap" ++ ["."%char]).
    rewrite <- !app_assoc. cbn [app]. rewrite split_app by done. destruct hook.
    - change (qs ".hook." ++ name ++ "."%char :: type)
        with ("."%char :: qs "hook" ++ "."%char :: name ++ "."%char :: type).
      rewrite split_app by not_in. rewrite split_app by done.
      rewrite split_app by not_in. by rewrite split_none by not_in.
    - change (qs "." ++ name ++ "."%char :: type) with ("."%char :: name ++ "."%char :: type).
      rewrite split_app by not_in. rewrite split_app by not_in. by rewrite split_none by not_in. }
  destruct hook; cbn [app removelast valueAt lookup list_lookup default from_option id];
    unfold valueAt; cbn [lookup list_lookup default from_option id].
  - rewrite (bool_decide_true (qs "hook" = qs "hook")) by done.
    by rewrite (bool_decide_false (package = [])), (bool_decide_false (name = [])).
  - rewrite (bool_decide_false (name = qs "hook")) by (by apply Hh).
    by rewrite (bool_decide_false (package = [])), (bool_decide_false (name = [])).
Qed.


(** A character beyond ASCII is escaped as two bytes, and decoded as two characters:
    the application is not recognised. *)
Lemma utf8_misdecoded :
  let id := qs "caf" ++ [ascii_of_nat 233] in
  findDesktopFileId (fun _ => []) (qs "/app.slice/" ++ groupName (Scope (Some (qs "gnome")) id (qs "77")
    (qs "scope")))
  = Ret (Some (qs "caf" ++ [ascii_of_nat 195; ascii_of_nat 169] ++ qs ".desktop")).
Proof. by vm_compute. Qed.

(** ** Examples *)

Example flatpak_scope :
  parseCgroupAppId (qs "/user.slice/app-flatpak-org.mozilla.firefox-1234.scope")
  = Ret (Some (qs "org.mozilla.firefox")).
Proof. by vm_compute. Qed.

Example escaped_scope :
  findDesktopFileId (fun _ => [])
    (qs "/app.slice/" ++ groupName (Scope (Some (qs "gnome")) (qs "my-app") (qs "77") (qs "scope")))
  = Ret (Some (qs "my-app.desktop")).
Proof. by vm_compute. Qed.

Example snap_scope :
  findDesktopFileId (fun _ => [])
    (qs "/snap.firefox.firefox-0e9c5a4b-29f2-4c26-9a27-d5b1f4b7a8e1.scope")
  = Ret (Some (qs "firefox_firefox.desktop")).
Proof. by vm_compute. Qed.

(** A name without a dot reaches [QString::first] with a negative length. *)
Lemma no_dot_undefined : parseCgroupAppId (qs "/app-gnome-firefox") = Undefined.
Proof. by vm_compute. Qed.

Example autostart_service :
  findDesktopFileId (fun _ => []) (qs "/app.slice/app-org.kde.kmail@autostart.service")
  = Ret (Some (qs "org.kde.kmail.desktop")).
Proof. by vm_compute. Qed.

Example desktop_path :
  desktopFileId (qs "/usr/share/applications/kde/konsole.desktop") = qs "kde-konsole.desktop".
Proof. by vm_compute. Qed.

Definition uuid : chars := qs "-0e9c5a4b-29f2-4c26-9a27-d5b1f4b7a8e1".


End AppScope.
