(* ===== verification/SplitTunnel.v ===== *)
(** * Split tunnelling on Linux

    The control groups of excluded applications: [cgroupsChanged] and its state of
    [src/src/platforms/linux/daemon/apptracker.cpp], and the application states of
    [daemon/dbusservice.cpp], whose calls are in DBusService. The directory listings and
    the recognition of a group's application are inputs, the calls to the WireGuard
    backend a trace. *)
From Stdlib Require Import ZArith Lia Ascii String.
From stdpp Require Import base numbers list gmap strings.
From S2P Require Import Prelude QHostAddress QString QtTextModel QStringExtra AppScope.
Import AppScope.

Local Open Scope Z_scope.
Local Open Scope wg_scope.

Module SplitTunnel.

(** ** State *)

Inductive AppState : Type := Active | Excluded.

#[export] Instance AppState_eq_dec : EqDecision AppState.
Proof. solve_decision. Defined.

(** The calls to [WireguardUtilsLinux]. *)
Inductive GroupCall : Type :=
| ExcludeCgroup (cgroup : chars)
| ResetCgroup (cgroup : chars)
| ResetAllCgroups.

(** The tracker and the service: a key of a [QHash] is the text of its string. *)
Record Service : Type := mkService {
  m_cgroupMount : chars;
  m_runningCgroups : gmap chars QString;
  m_excludedApps : gmap chars AppState;
  m_excludedCgroups : gmap chars AppState;
  calls : list GroupCall;
}.

#[export] Instance Service_eta : Eta Service := fun s =>
  mkService (m_cgroupMount s) (m_runningCgroups s) (m_excludedApps s) (m_excludedCgroups s)
    (calls s).

Definition initial (mount : chars) : Service := mkService mount ∅ ∅ ∅ [].

Definition call (c : GroupCall) (s : Service) : Service := s <| calls := calls s ++ [c] |>.

(** ** The service *)

(** [AppTracker::findByDesktopFileId]; the order of a [QHash] is unspecified. *)
Definition findByDesktopFileId (id : chars) (s : Service) : list chars :=
  map fst (filter (fun p => text (p.2) = id) (map_to_list (m_runningCgroups s))).

Definition appLaunched (cgroup : chars) (id : QString) (s : Service) : Service :=
  let state := default Active (m_excludedApps s !! text id) in
  match state with
  | Active => s
  | Excluded =>
      call (ExcludeCgroup cgroup)
        (s <| m_excludedCgroups := <[cgroup := state]> (m_excludedCgroups s) |>)
  end.

Definition appTerminated (cgroup : chars) (s : Service) : Service :=
  match m_excludedCgroups s !! cgroup with
  | Some _ =>
      call (ResetCgroup cgroup)
        (s <| m_excludedCgroups := delete cgroup (m_excludedCgroups s) |>)
  | None => s
  end.

(** The body of the loop of [setAppState] for a state that is not active. *)
Definition applyState (state : AppState) (s : Service) (cgroup : chars) : Service :=
  let s := match m_excludedCgroups s !! cgroup with
           | Some _ => call (ResetCgroup cgroup) s
           | None => s
           end in
  let s := s <| m_excludedCgroups := <[cgroup := state]> (m_excludedCgroups s) |> in
  match state with Excluded => call (ExcludeCgroup cgroup) s | Active => s end.

Definition setAppState (id : chars) (state : AppState) (s : Service) : Service :=
  match state with
  | Active =>
      let s := s <| m_excludedApps := delete id (m_excludedApps s) |> in
      foldl (fun s cgroup => call (ResetCgroup cgroup) s) s (findByDesktopFileId id s)
  | Excluded =>
      let s := s <| m_excludedApps := <[id := state]> (m_excludedApps s) |> in
      foldl (applyState state) s (findByDesktopFileId id s)
  end.

Definition clearAppStates (s : Service) : Service :=
  (call ResetAllCgroups s) <| m_excludedCgroups := ∅ |> <| m_excludedApps := ∅ |>.

(** The applications of a configuration, as [DBusService::activate] loads them. *)
Definition excludeApps (apps : list chars) (s : Service) : Service :=
  foldl (fun s app => setAppState (desktopFileId app) Excluded s) (clearAppStates s) apps.

(** ** The tracker *)

(** [QFileInfo::absolutePath]. *)
Definition absolutePath (path : chars) : chars := left path (lastIndexOf "/"%char path).

(** The path of a group from the mount point. *)
Definition rooted (path : chars) : chars :=
  if startsWith "/"%char path then path else "/"%char :: path.

Section Tracker.
Variable sourcePath : chars -> chars.

(** The application of a group. The listing only has names with a dot, for which
    [findDesktopFileId] is defined ([findDesktopFileId_defined]). *)
Definition appOf (path : chars) : QString :=
  match findDesktopFileId sourcePath path with Ret id => id | _ => None end.

(** One entry of the listing, with the paths not seen yet. *)
Definition addScope (acc : list chars * Service) (scope : chars) : list chars * Service :=
  let '(oldScopes, s) := acc in
  let path := rooted scope in
  if bool_decide (path ∈ oldScopes) then (filter (fun p => p <> path) oldScopes, s)
  else
    let id := appOf path in
    (oldScopes,
     appLaunched path id
       (s <| m_runningCgroups := <[path := id]> (m_runningCgroups s) |>)).

(** One path that was not listed. *)
Definition dropScope (directory : chars) (s : Service) (scope : chars) : Service :=
  if bool_decide (absolutePath (m_cgroupMount s ++ scope) = directory)
  then appTerminated scope
         (s <| m_runningCgroups := delete scope (m_runningCgroups s) |>)
  else s.

(** [cgroupsChanged]; [newScopes] is the listing, relative to the mount point. *)
Definition cgroupsChanged (directory : chars) (newScopes : list chars) (s : Service) : Service :=
  let '(oldScopes, s) := foldl addScope (map fst (map_to_list (m_runningCgroups s)), s) newScopes in
  foldl (dropScope directory) s oldScopes.

(** The end of [userCreated]; [controlGroup] is the property of the user's systemd,
    [None] where it is not a string, and the lists are those of its two directories. *)
Definition userCreated (controlGroup : option chars) (scopes appScopes : list chars)
    (s : Service) : Service :=
  match controlGroup with
  | Some group =>
      if bool_decide (m_cgroupMount s = []) then s
      else
        let userCgroupPath := m_cgroupMount s ++ group in
        cgroupsChanged (userCgroupPath ++ qs "/app.slice") appScopes
          (cgroupsChanged userCgroupPath scopes s)
  | None => s
  end.

End Tracker.

(** ** What the backend was asked for *)

Definition observe (v : gset chars) (c : GroupCall) : gset chars :=
  match c with
  | ExcludeCgroup g => {[g]} ∪ v
  | ResetCgroup g => v ∖ {[g]}
  | ResetAllCgroups => ∅
  end.

Definition outside (s : Service) : gset chars := foldl observe ∅ (calls s).

(** ** Events *)

Inductive Event : Type :=
| CgroupsChanged (sourcePath : chars -> chars) (directory : chars) (newScopes : list chars)
| UserCreated (sourcePath : chars -> chars) (controlGroup : option chars)
    (scopes appScopes : list chars).

Definition handle (e : Event) (s : Service) : Service :=
  match e with
  | CgroupsChanged sourcePath directory newScopes =>
      cgroupsChanged sourcePath directory newScopes s
  | UserCreated sourcePath controlGroup scopes appScopes =>
      userCreated sourcePath controlGroup scopes appScopes s
  end.

(** A listing has no group twice. *)
Definition listing (l : list chars) : Prop := NoDup (map rooted l).

Definition valid (e : Event) : Prop :=
  match e with
  | CgroupsChanged _ _ l => listing l
  | UserCreated _ _ l1 l2 => listing l1 /\ listing l2
  end.

(** The running groups of excluded applications. *)
Definition excludedRunning (s : Service) : gset chars :=
  dom (filter (fun p => m_excludedApps s !! text (p.2) = Some Excluded) (m_runningCgroups s)).

(** The groups sent around the tunnel are the remembered ones, and those are the
    running groups of excluded applications. *)
Definition consistent (s : Service) : Prop :=
  outside s = dom (m_excludedCgroups s)
  /\ outside s = excludedRunning s
  /\ map_Forall (fun _ a => a = Excluded) (m_excludedApps s).

(** ** Lemmas *)

Lemma elem_of_excludedRunning (s : Service) (g : chars) :
  g ∈ excludedRunning s <->
  exists id, m_runningCgroups s !! g = Some id /\ m_excludedApps s !! text id = Some Excluded.
Proof.
  unfold excludedRunning. rewrite elem_of_dom. unfold is_Some.
  setoid_rewrite map_lookup_filter_Some. done.
Qed.

Lemma outside_call (c : GroupCall) (s : Service) : outside (call c s) = observe (outside s) c.
Proof. unfold outside, call, updateField. cbn [calls]. by rewrite foldl_app. Qed.

Lemma outside_groups m (s : Service) : outside (s <| m_excludedCgroups := m |>) = outside s.
Proof. done. Qed.

Lemma elem_of_find (id g : chars) (s : Service) :
  g ∈ findByDesktopFileId id s <->
  exists q, m_runningCgroups s !! g = Some q /\ text q = id.
Proof.
  unfold findByDesktopFileId. rewrite list_elem_of_fmap. split.
  - intros ([g' q] & -> & H). apply list_elem_of_filter in H as [Hq H].
    apply elem_of_map_to_list in H. by exists q.
  - intros (q & Hq & Ht). exists (g, q). split; [done|]. apply list_elem_of_filter.
    by rewrite elem_of_map_to_list.
Qed.

Lemma clear_consistent (s : Service) : consistent (clearAppStates s).
Proof.
  unfold consistent, clearAppStates.
  set (s' := ((call ResetAllCgroups s) <| m_excludedCgroups := ∅ |>) <| m_excludedApps := ∅ |>).
  assert (outside s' = ∅) as -> by (change (outside s') with (outside (call ResetAllCgroups s));
    by rewrite outside_call).
  change (m_excludedCgroups s') with (∅ : gmap chars AppState). rewrite dom_empty_L.
  split_and!; [done| |by apply map_Forall_empty].
  symmetry. apply set_eq. intros g. rewrite elem_of_excludedRunning.
  split; [|set_solver]. intros (id & _ & H). done.
Qed.

(** *** Changing the state of an application *)

Lemma applyState_foldl (l : list chars) (s : Service) :
  let s' := foldl (applyState Excluded) s l in
  outside s' = outside s ∪ list_to_set l
  /\ dom (m_excludedCgroups s') = dom (m_excludedCgroups s) ∪ list_to_set l
  /\ m_runningCgroups s' = m_runningCgroups s /\ m_excludedApps s' = m_excludedApps s
  /\ m_cgroupMount s' = m_cgroupMount s.
Proof.
  cbv zeta. revert s. induction l as [|g l IH]; intros s.
  { cbn. rewrite !(right_id_L ∅ (∪)). done. }
  cbn [foldl]. destruct (IH (applyState Excluded s g)) as (-> & -> & -> & -> & ->).
  assert (outside (applyState Excluded s g) = outside s ∪ {[g]}
    /\ dom (m_excludedCgroups (applyState Excluded s g)) = dom (m_excludedCgroups s) ∪ {[g]})
    as [-> ->].
  { unfold applyState. rewrite outside_call, outside_groups. cbn [observe].
    destruct (m_excludedCgroups s !! g) as [a|]; [rewrite outside_call; cbn [observe]|];
      (split; [|cbn; set_solver]); apply set_eq; intros x; destruct (decide (x = g)); set_solver. }
  split_and!; [set_solver|set_solver|..]; unfold applyState;
    by destruct (m_excludedCgroups s !! g).
Qed.

Lemma setExcluded_consistent (id : chars) (s : Service) :
  consistent s -> consistent (setAppState id Excluded s).
Proof.
  intros (H1 & H2 & H3). unfold setAppState.
  set (s0 := s <| m_excludedApps := <[id := Excluded]> (m_excludedApps s) |>).
  destruct (applyState_foldl (findByDesktopFileId id s0) s0) as (Eo & Ed & Er & Ea & _).
  unfold consistent. rewrite Eo, Ed, Ea.
  assert (outside s0 = outside s) as -> by done.
  assert (m_excludedCgroups s0 = m_excludedCgroups s) as -> by done.
  split_and!; [by rewrite H1| |by apply map_Forall_insert_2].
  apply set_eq. intros g. rewrite elem_of_union, elem_of_list_to_set, elem_of_find, H2.
  rewrite !elem_of_excludedRunning, Er, Ea. unfold s0, updateField. cbn. split.
  - intros [(q & Hq & He)|(q & Hq & <-)]; exists q; split; try done.
    + destruct (decide (text q = id)) as [->|Hne]; [by rewrite lookup_insert_eq|].
      by rewrite lookup_insert_ne.
    + by rewrite lookup_insert_eq.
  - intros (q & Hq & He). destruct (decide (text q = id)) as [Ht|Hne]; [by right; exists q|].
    left. exists q. rewrite lookup_insert_ne in He by done. done.
Qed.

Lemma excludeApps_consistent (apps : list chars) (s : Service) : consistent (excludeApps apps s).
Proof.
  unfold excludeApps. pose proof (clear_consistent s) as Hs. revert Hs.
  generalize (clearAppStates s). clear s.
  induction apps as [|a apps IH]; intros s Hs; [done|]. apply IH. by apply setExcluded_consistent.
Qed.

(** *** Changes of the control groups *)

Section Changes.
Variable sourcePath : chars -> chars.

Lemma launched_consistent (path : chars) (id : QString) (s : Service) :
  consistent s -> m_runningCgroups s !! path = None ->
  consistent (appLaunched path id (s <| m_runningCgroups := <[path := id]> (m_runningCgroups s) |>)).
Proof.
  intros (H1 & H2 & H3) Hp. unfold appLaunched.
  set (s0 := s <| m_runningCgroups := <[path := id]> (m_runningCgroups s) |>).
  change (m_excludedApps s0) with (m_excludedApps s).
  assert (forall g, g ∈ excludedRunning s0 <-> g ∈ excludedRunning s
            \/ (g = path /\ m_excludedApps s !! text id = Some Excluded)) as Hr.
  { intros g. rewrite !elem_of_excludedRunning. unfold s0, updateField. cbn. split.
    - intros (q & Hq & He). apply lookup_insert_Some in Hq as [[<- <-]|[Hne Hq]];
        [by right|left; by exists q].
    - intros [(q & Hq & He)|[-> He]]; [exists q|exists id; by rewrite lookup_insert_eq].
      rewrite lookup_insert_ne; [done|]. intros ->. congruence. }
  destruct (default Active (m_excludedApps s !! text id)) eqn:Ed.
  - assert (m_excludedApps s !! text id <> Some Excluded) as Hne
      by (intros E; by rewrite E in Ed).
    split_and!; [exact H1| |exact H3]. apply set_eq. intros g. rewrite Hr.
    change (outside s0) with (outside s). rewrite H2. tauto.
  - assert (m_excludedApps s !! text id = Some Excluded) as He
      by (destruct (m_excludedApps s !! text id); cbn in Ed; congruence).
    set (s1 := s0 <| m_excludedCgroups := _ |>).
    unfold consistent. rewrite outside_call. cbn [observe].
    change (outside s1) with (outside s). split_and!; [|  |exact H3].
    + change (m_excludedCgroups (call _ s1)) with (<[path := Excluded]> (m_excludedCgroups s)).
      by rewrite dom_insert_L, H1.
    + apply set_eq. intros g. change (excludedRunning (call _ s1)) with (excludedRunning s0).
      rewrite Hr, elem_of_union, elem_of_singleton, H2. tauto.
Qed.

(** The paths seen and those still to come: a path to come is running exactly when it
    is among those not seen yet. *)
Lemma addScope_foldl (l : list chars) (old : list chars) (s : Service) :
  consistent s -> NoDup (map rooted l) ->
  (forall p, p ∈ map rooted l -> m_runningCgroups s !! p <> None -> p ∈ old) ->
  let '(_, s') := foldl (addScope sourcePath) (old, s) l in consistent s'.
Proof.
  revert old s. induction l as [|x l IH]; intros old s Hs Hd Hold; [done|].
  cbn [map] in Hd. inversion Hd as [|? ? Hx Hd']; subst. cbn [foldl addScope].
  case_bool_decide as Hin.
  - apply IH; [done|done|]. intros p Hp Hr. apply list_elem_of_filter.
    split; [by intros ->|apply Hold; [by right|done]].
  - assert (m_runningCgroups s !! rooted x = None) as Hnone.
    { destruct (m_runningCgroups s !! rooted x) eqn:E; [|done]. destruct Hin.
      apply Hold; [by left|congruence]. }
    apply IH; [by apply launched_consistent|done|]. intros p Hp Hr.
    apply Hold; [by right|]. intros Hn. apply Hr.
    assert (forall y z (t : Service), m_runningCgroups (appLaunched y z t) = m_runningCgroups t)
      as -> by (intros y z t; unfold appLaunched; by destruct (default Active _)).
    unfold updateField. cbn. rewrite lookup_insert_ne; [done|]. intros E. apply Hx. by rewrite E.
Qed.

Lemma drop_consistent (directory scope : chars) (s : Service) :
  consistent s -> consistent (dropScope directory s scope).
Proof.
  intros (H1 & H2 & H3). unfold dropScope. case_bool_decide; [|by split_and!].
  set (s0 := s <| m_runningCgroups := delete scope (m_runningCgroups s) |>).
  assert (forall g, g ∈ excludedRunning s0 <-> g ∈ excludedRunning s /\ g <> scope) as Hr.
  { intros g. rewrite !elem_of_excludedRunning. unfold s0, updateField. cbn. split.
    - intros (q & Hq & He). apply lookup_delete_Some in Hq as [Hne Hq]. split; [by exists q|done].
    - intros [(q & Hq & He) Hne]. exists q. by rewrite lookup_delete_ne. }
  unfold appTerminated. change (m_excludedCgroups s0) with (m_excludedCgroups s).
  destruct (m_excludedCgroups s !! scope) eqn:E.
  - set (s1 := s0 <| m_excludedCgroups := _ |>). unfold consistent. rewrite outside_call.
    cbn [observe]. change (outside s1) with (outside s). split_and!; [| |exact H3].
    + change (m_excludedCgroups (call _ s1)) with (delete scope (m_excludedCgroups s)).
      by rewrite dom_delete_L, H1.
    + apply set_eq. intros g. change (excludedRunning (call _ s1)) with (excludedRunning s0).
      rewrite Hr, elem_of_difference, elem_of_singleton, H2. done.
  - split_and!; [exact H1| |exact H3]. apply set_eq. intros g. rewrite Hr.
    change (outside s0) with (outside s). rewrite <- H2. split; [|tauto]. intros Hg.
    split; [done|]. intros ->. rewrite H1 in Hg. apply elem_of_dom in Hg as [a Ha]. congruence.
Qed.

Lemma changed_consistent (directory : chars) (l : list chars) (s : Service) :
  consistent s -> listing l -> consistent (cgroupsChanged sourcePath directory l s).
Proof.
  intros Hs Hl. unfold cgroupsChanged.
  pose proof (addScope_foldl l (map fst (map_to_list (m_runningCgroups s))) s Hs Hl) as Ha.
  destruct (foldl (addScope sourcePath) _ l) as [old s'].
  assert (consistent s') as Hs'.
  { apply Ha. intros p _ Hp. apply list_elem_of_fmap.
    destruct (m_runningCgroups s !! p) as [q|] eqn:E; [|done]. exists (p, q).
    by rewrite elem_of_map_to_list. }
  clear -Hs' sourcePath. revert s' Hs'. induction old as [|g old IH]; intros s Hs; [done|].
  apply IH. by apply drop_consistent.
Qed.

End Changes.

Lemma handle_consistent (e : Event) (s : Service) :
  valid e -> consistent s -> consistent (handle e s).
Proof.
  intros He Hs. destruct e as [sp dir l|sp [g|] l1 l2];
    cbn [handle valid] in *; unfold userCreated; try exact Hs.
  - by apply changed_consistent.
  - destruct He as [Hl1 Hl2]. case_bool_decide; [done|].
    apply changed_consistent; [|done]. by apply changed_consistent.
Qed.

Lemma initial_consistent (mount : chars) : consistent (initial mount).
Proof.
  split_and!; [symmetry; apply dom_empty_L| |by apply map_Forall_empty].
  symmetry. apply set_eq. intros g. rewrite elem_of_excludedRunning.
  split; [|set_solver]. by intros (id & ? & _).
Qed.

(** ** Examples *)

Definition scopeName : chars := qs "user.slice/app.slice/app-gnome-firefox-7.scope".

Definition launched : Event :=
  CgroupsChanged (fun _ => []) (qs "/sys/fs/cgroup/user.slice/app.slice") [scopeName].

Definition launchedService : Service :=
  handle launched (excludeApps [qs "/usr/share/applications/firefox.desktop"]
                     (initial (qs "/sys/fs/cgroup"))).

(** The group is brought back when the directory no longer lists it. *)
Example terminated :
  outside launchedService = {[ "/"%char :: scopeName ]}
  /\ outside (handle (CgroupsChanged (fun _ => []) (qs "/sys/fs/cgroup/user.slice/app.slice") [])
                launchedService) = ∅.
Proof. split; by_decision. Qed.

End SplitTunnel.
