(* ===== verification/DnsUtilsLinux.v ===== *)
(** * Resolvers and addresses on Linux

    Model of [src/src/platforms/linux/daemon/dnsutilslinux.cpp] and
    [iputilslinux.cpp]: the requests to systemd-resolved, with the search domains of
    the other links saved and restored, and the addresses given to the device. What
    the requests amount to is told on a map of the links' domains ([serve]). *)
From Stdlib Require Import ZArith Lia Ascii String.
From stdpp Require Import base numbers list gmap strings sorting.
From S2P Require Import Prelude QHostAddress QString QtTextModel IPAddress Rfc Json.
From S2P Require Import InterfaceConfig Netlink.

Local Open Scope Z_scope.
Local Open Scope wg_scope.

Module DnsUtilsLinux.

(** ** Values on the bus *)

Definition AF_INET : Z := Netlink.AF_INET.
Definition AF_INET6 : Z := Netlink.AF_INET6.

(** [operator<<] of a [DnsResolver]: the family and the bytes. *)
Definition marshalResolver (ip : QHostAddress) : Z * list Z :=
  match ip with
  | HostV6 l => (AF_INET6, l)
  | HostV4 v => (AF_INET, [Z.land (Z.shiftr v 24) 255; Z.land (Z.shiftr v 16) 255;
                           Z.land (Z.shiftr v 8) 255; Z.land (Z.shiftr v 0) 255])
  | NullHost => (AF_INET, [0; 0; 0; 0])
  end.

(** A [char], which is signed, as an [int]. *)
Definition signedChar (b : Z) : Z := if b <? 128 then b else b - 256.

(** [operator>>] of an IPv4 [DnsResolver]. *)
Definition demarshalV4 (data : list Z) : option Z :=
  match data with
  | a :: b :: c :: d :: _ =>
      Some (u32 (Z.lor (Z.lor (Z.lor (Z.shiftl (signedChar a) 24) (Z.shiftl (signedChar b) 16))
                              (Z.shiftl (signedChar c) 8)) (signedChar d)))
  | _ => None
  end.

(** A [DnsLinkDomain]. *)
Definition Domain : Type := chars * bool.

(** A [DnsDomain], with the index of its link. *)
Definition LinkDomain : Type := Z * Domain.

Inductive ResolveCall : Type :=
| SetLinkDNS (ifindex : Z) (resolvers : list (Z * list Z))
| SetLinkDefaultRoute (ifindex : Z) (enable : bool)
| SetLinkDomains (ifindex : Z) (domains : list Domain)
| GetDomains
| RevertLink (ifindex : Z).

(** ** State *)

Record DnsUtils : Type := mkDnsUtils {
  m_ifindex : Z;
  m_linkDomains : gmap Z (list Domain);
  calls : list ResolveCall;
}.

#[export] Instance DnsUtils_eta : Eta DnsUtils := fun d =>
  mkDnsUtils (m_ifindex d) (m_linkDomains d) (calls d).

Definition initial : DnsUtils := mkDnsUtils 0 ∅ [].

Definition call (c : ResolveCall) (d : DnsUtils) : DnsUtils := d <| calls := calls d ++ [c] |>.

(** A [QMap] is iterated in the order of its keys. *)
Definition byKey (a b : Z * list Domain) : Prop := a.1 <= b.1.

#[export] Instance byKey_dec : RelDecision byKey.
Proof. intros a b. unfold byKey. apply _. Defined.

Definition entries (m : gmap Z (list Domain)) : list (Z * list Domain) :=
  merge_sort byKey (map_to_list m).

(** ** Operations *)

(** [updateResolvers]; [ifindex] is what [if_nametoindex] returns. *)
Definition updateResolvers (ifindex : Z) (resolvers : list QHostAddress) (d : DnsUtils)
  : bool * DnsUtils :=
  let d := d <| m_ifindex := ifindex |> in
  if m_ifindex d <=? 0 then (false, d)
  else
    (true, call GetDomains
             (call (SetLinkDefaultRoute (m_ifindex d) true)
                (call (SetLinkDNS (m_ifindex d) (map marshalResolver resolvers)) d))).

Definition setDomains (d : DnsUtils) (e : Z * list Domain) : DnsUtils :=
  call (SetLinkDomains (e.1) (e.2)) d.

Definition restoreResolvers (d : DnsUtils) : DnsUtils :=
  let d := foldl setDomains d (entries (m_linkDomains d)) in
  let d := d <| m_linkDomains := ∅ |> in
  if 0 <? m_ifindex d then (call (RevertLink (m_ifindex d)) d) <| m_ifindex := 0 |> else d.

(** The destructor. *)
Definition destroy (d : DnsUtils) : DnsUtils :=
  let d := foldl setDomains d (entries (m_linkDomains d)) in
  if 0 <? m_ifindex d then call (RevertLink (m_ifindex d)) d else d.

Definition root : Domain := (qs ".", true).

(** [m_linkDomains[d.ifindex].append(...)]. *)
Definition addDomain (m : gmap Z (list Domain)) (x : LinkDomain) : gmap Z (list Domain) :=
  if x.1 =? 0 then m else <[x.1 := default [] (m !! x.1) ++ [x.2]]> m.

(** The loop that drops the root domain of a link. *)
Definition dropRoot (d : DnsUtils) (e : Z * list Domain) : DnsUtils :=
  if bool_decide (root ∈ e.2)
  then call (SetLinkDomains (e.1) (filter (fun x => x <> root) (e.2))) d
  else d.

(** [dnsDomainsReceived]; [None] is an error. *)
Definition dnsDomainsReceived (reply : option (list LinkDomain)) (d : DnsUtils) : DnsUtils :=
  match reply with
  | None => d
  | Some l =>
      let d := d <| m_linkDomains := foldl addDomain ∅ l |> in
      let d := foldl dropRoot d (entries (m_linkDomains d)) in
      call (SetLinkDomains (m_ifindex d) [root]) d
  end.

(** ** What the service holds *)

Definition serve (v : gmap Z (list Domain)) (c : ResolveCall) : gmap Z (list Domain) :=
  match c with
  | SetLinkDomains i l => <[i := l]> v
  | RevertLink i => delete i v
  | _ => v
  end.

(** The domains of the links after the calls, from [v]. *)
Definition served (v : gmap Z (list Domain)) (d : DnsUtils) : gmap Z (list Domain) :=
  foldl serve v (calls d).

(** A reply that lists the domains of every link, and global ones. *)
Definition describes (l : list LinkDomain) (v : gmap Z (list Domain)) : Prop :=
  forall i, i <> 0 -> map snd (filter (fun x => x.1 = i) l) = default [] (v !! i).

(** ** Lemmas *)

Lemma served_call v c d : served v (call c d) = serve (served v d) c.
Proof. unfold served, call, updateField. cbn [calls]. by rewrite foldl_app. Qed.

Lemma served_state v i m d :
  served v ((d <| m_ifindex := i |>) <| m_linkDomains := m |>) = served v d
  /\ served v (d <| m_ifindex := i |>) = served v d
  /\ served v (d <| m_linkDomains := m |>) = served v d.
Proof. done. Qed.

Lemma elem_of_entries (m : gmap Z (list Domain)) i l :
  (i, l) ∈ entries m <-> m !! i = Some l.
Proof. unfold entries. by rewrite merge_sort_Permutation, elem_of_map_to_list. Qed.

Lemma NoDup_entries (m : gmap Z (list Domain)) : NoDup (map fst (entries m)).
Proof. unfold entries. rewrite merge_sort_Permutation. apply NoDup_fst_map_to_list. Qed.

(** A loop over the entries that sets the domains of links. *)
Lemma foldl_entries (f : DnsUtils -> Z * list Domain -> DnsUtils)
    (g : Z -> list Domain -> option (list Domain)) (l : list (Z * list Domain)) :
  (forall v d i x, served v (f d (i, x))
     = match g i x with Some y => <[i := y]> (served v d) | None => served v d end) ->
  NoDup (map fst l) ->
  forall v d i, served v (foldl f d l) !! i
    = match list_find (fun e => e.1 = i) l with
      | Some (_, (_, x)) => match g i x with Some y => Some y | None => served v d !! i end
      | None => served v d !! i
      end.
Proof.
  intros Hf Hl. induction l as [|[j x] l IH]; intros v d i; [done|].
  cbn [map] in Hl. inversion Hl as [|? ? Hj Hl']; subst. cbn [foldl]. rewrite IH by done.
  cbn [list_find fst]. destruct (decide (j = i)) as [->|Hne].
  - destruct (list_find _ l) as [[k [j' x']]|] eqn:E.
    { apply list_find_Some in E as (Hk & Hj' & _). cbn in Hj'. subst j'. destruct Hj.
      apply list_elem_of_fmap. exists (i, x'). split; [done|]. by eapply list_elem_of_lookup_2. }
    rewrite Hf. destruct (g i x); [by rewrite lookup_insert_eq|done].
  - destruct (list_find _ l) as [[k [j' x']]|]; cbn;
      rewrite Hf; destruct (g j x); rewrite ?lookup_insert_ne by done; done.
Qed.

Lemma find_entries (m : gmap Z (list Domain)) i :
  match list_find (fun e => e.1 = i) (entries m) with
  | Some (_, (_, x)) => m !! i = Some x
  | None => m !! i = None
  end.
Proof.
  destruct (list_find _ _) as [[k [j x]]|] eqn:E.
  - apply list_find_Some in E as (Hk & Hj & _). cbn in Hj. subst j.
    apply elem_of_entries. by eapply list_elem_of_lookup_2.
  - apply list_find_None in E. destruct (m !! i) as [x|] eqn:Ex; [|done].
    rewrite Forall_forall in E. apply elem_of_entries in Ex. by destruct (E _ Ex).
Qed.

(** The saved domains are those of the reply. *)
Lemma saved_lookup (l : list LinkDomain) i :
  i <> 0 ->
  default [] (foldl addDomain ∅ l !! i) = map snd (filter (fun x => x.1 = i) l)
  /\ (foldl addDomain ∅ l !! i = None <-> map snd (filter (fun x => x.1 = i) l) = []).
Proof.
  intros Hi. induction l as [|[j x] l IH] using rev_ind; [done|].
  rewrite foldl_snoc, filter_app, map_app. unfold addDomain at 1 3. cbn [fst snd].
  destruct IH as [IH1 IH2]. rewrite (filter_cons _ (j, x)), filter_nil. cbn [fst].
  destruct (Z.eqb_spec j 0) as [->|Hj].
  - rewrite decide_False by done. cbn. by rewrite app_nil_r.
  - destruct (decide (j = i)) as [->|Hne].
    + rewrite lookup_insert_eq. cbn. rewrite IH1. split; [done|]. split; [done|].
      intros E. by apply app_nil in E as [_ ?].
    + rewrite lookup_insert_ne by done. cbn. by rewrite app_nil_r.
Qed.

Lemma served_setDomains (v : gmap Z (list Domain)) (m : gmap Z (list Domain)) (d : DnsUtils) i :
  served v (foldl setDomains d (entries m)) !! i
  = match m !! i with Some x => Some x | None => served v d !! i end.
Proof.
  rewrite (foldl_entries setDomains (fun _ x => Some x));
    [|intros; unfold setDomains; by rewrite served_call|apply NoDup_entries].
  pose proof (find_entries m i) as E.
  by destruct (list_find _ _) as [[k [j x]]|]; rewrite E.
Qed.

Lemma served_dropRoot (v : gmap Z (list Domain)) (m : gmap Z (list Domain)) (d : DnsUtils) i :
  served v (foldl dropRoot d (entries m)) !! i
  = match m !! i with
    | Some x => if bool_decide (root ∈ x) then Some (filter (fun y => y <> root) x)
                else served v d !! i
    | None => served v d !! i
    end.
Proof.
  rewrite (foldl_entries dropRoot (fun _ x => if bool_decide (root ∈ x)
    then Some (filter (fun y => y <> root) x) else None)); [| |apply NoDup_entries].
  - pose proof (find_entries m i) as E.
    destruct (list_find _ _) as [[k [j x]]|]; rewrite E; [|done]. by case_bool_decide.
  - intros v' d' j x. unfold dropRoot. cbn [fst snd]. case_bool_decide; [|done].
    by rewrite served_call.
Qed.

Lemma foldl_keeps {A B : Type} (f : DnsUtils -> A -> DnsUtils) (p : DnsUtils -> B) (l : list A) d :
  (forall d a, p (f d a) = p d) -> p (foldl f d l) = p d.
Proof. intros Hf. revert d. induction l as [|a l IH]; intros d; [done|]. simpl. by rewrite IH. Qed.

Lemma dropRoot_keeps (d : DnsUtils) (l : list (Z * list Domain)) :
  m_ifindex (foldl dropRoot d l) = m_ifindex d
  /\ m_linkDomains (foldl dropRoot d l) = m_linkDomains d.
Proof.
  split; apply foldl_keeps; intros d' e; unfold dropRoot; by case_bool_decide.
Qed.

(** The links' domains once the reply was handled. *)
Lemma received_served (v : gmap Z (list Domain)) (l : list LinkDomain) (d : DnsUtils) :
  let d' := dnsDomainsReceived (Some l) d in
  m_ifindex d' = m_ifindex d /\ m_linkDomains d' = foldl addDomain ∅ l
  /\ served v d' !! m_ifindex d = Some [root]
  /\ forall i, i <> m_ifindex d ->
     served v d' !! i = match foldl addDomain ∅ l !! i with
                       | Some x => if bool_decide (root ∈ x)
                                   then Some (filter (fun y => y <> root) x) else served v d !! i
                       | None => served v d !! i
                       end.
Proof.
  cbn [dnsDomainsReceived]. set (d0 := d <| m_linkDomains := foldl addDomain ∅ l |>).
  destruct (dropRoot_keeps d0 (entries (m_linkDomains d0))) as [Hi Hm].
  set (d1 := foldl dropRoot d0 _) in *.
  assert (m_ifindex (call (SetLinkDomains (m_ifindex d1) [root]) d1) = m_ifindex d1) as -> by done.
  rewrite served_call. cbn [serve]. rewrite Hi. change (m_ifindex d0) with (m_ifindex d).
  split_and!; [done|exact Hm|by rewrite lookup_insert_eq|].
  intros i Hne. rewrite lookup_insert_ne by done. unfold d1. by rewrite served_dropRoot.
Qed.

Lemma setDomains_keeps (d : DnsUtils) (l : list (Z * list Domain)) :
  m_ifindex (foldl setDomains d l) = m_ifindex d.
Proof. by apply foldl_keeps. Qed.

(** The links' domains once they were restored. *)
Lemma restored_served (v : gmap Z (list Domain)) (d : DnsUtils) :
  0 < m_ifindex d ->
  let d' := restoreResolvers d in
  m_ifindex d' = 0 /\ m_linkDomains d' = ∅ /\ served v d' !! m_ifindex d = None
  /\ forall i, i <> m_ifindex d ->
     served v d' !! i = match m_linkDomains d !! i with
                       | Some x => Some x | None => served v d !! i end.
Proof.
  intros Hp. unfold restoreResolvers. set (d0 := foldl setDomains d _).
  pose proof (setDomains_keeps d (entries (m_linkDomains d))) as Hi. fold d0 in Hi.
  set (d1 := d0 <| m_linkDomains := ∅ |>). change (m_ifindex d1) with (m_ifindex d0).
  rewrite Hi. destruct (Z.ltb_spec 0 (m_ifindex d)); [|lia].
  assert (forall x, served v (x <| m_ifindex := 0 |>) = served v x) as Hs by done.
  rewrite Hs, served_call. cbn [serve]. change (served v d1) with (served v d0).
  split_and!; [done|done|by rewrite lookup_delete_eq|].
  intros i Hne. rewrite lookup_delete_ne by done. unfold d0. by rewrite served_setDomains.
Qed.

(** ** Sessions *)

(** What the service holds at each question for the domains: it answers in order. *)
Fixpoint asked (v : gmap Z (list Domain)) (l : list ResolveCall) : list (gmap Z (list Domain)) :=
  match l with
  | [] => []
  | GetDomains :: l => v :: asked v l
  | c :: l => asked (serve v c) l
  end.

(** The object, and how many answers it has got. *)
Record System : Type := mkSystem { utils : DnsUtils; answered : nat }.

Inductive Event : Type :=
| Update (vpn : Z) (resolvers : list QHostAddress)
| Reply (reply : option (list LinkDomain))
| Restore.

Definition happen (e : Event) (y : System) : System :=
  match e with
  | Update vpn resolvers => mkSystem (updateResolvers vpn resolvers (utils y)).2 (answered y)
  | Reply reply => mkSystem (dnsDomainsReceived reply (utils y)) (S (answered y))
  | Restore => mkSystem (restoreResolvers (utils y)) (answered y)
  end.

(** From links with the domains [o]: the tunnel's link is new, or could not be found; the
    resolvers are restored before they are updated again; each question is answered, in
    order, with what the service holds or an error. An answer other than an error does
    not come after the resolvers were restored, unless they were updated again. *)
Definition allowed (o : gmap Z (list Domain)) (e : Event) (y : System) : Prop :=
  match e with
  | Update vpn _ => m_ifindex (utils y) = 0 /\ 0 <= vpn /\ (0 < vpn -> o !! vpn = None)
  | Reply reply => exists v, asked o (calls (utils y)) !! answered y = Some v
      /\ match reply with
         | Some l => m_ifindex (utils y) <> 0 /\ describes l v
         | None => True
         end
  | Restore => True
  end.

Inductive Reachable (o : gmap Z (list Domain)) : System -> Prop :=
| Reachable_initial : Reachable o (mkSystem initial 0)
| Reachable_event y e : Reachable o y -> allowed o e y -> Reachable o (happen e y).

Lemma asked_app (v : gmap Z (list Domain)) (l l' : list ResolveCall) :
  asked v (l ++ l') = asked v l ++ asked (foldl serve v l) l'.
Proof. revert v. induction l as [|c l IH]; intros v; [done|]. by destruct c; cbn; rewrite IH. Qed.

Lemma asked_call (o : gmap Z (list Domain)) (c : ResolveCall) (d : DnsUtils) :
  asked o (calls (call c d))
  = asked o (calls d) ++ (if c is GetDomains then [served o d] else []).
Proof. unfold call, updateField. cbn [calls]. rewrite asked_app. by destruct c. Qed.

(** Only the question itself asks. *)
Definition asksNothing (f : DnsUtils -> DnsUtils) : Prop :=
  forall o d, asked o (calls (f d)) = asked o (calls d).

Lemma foldl_asked {A : Type} (f : DnsUtils -> A -> DnsUtils) (l : list A) :
  (forall a, asksNothing (fun d => f d a)) -> asksNothing (fun d => foldl f d l).
Proof. intros Hf o d. apply (foldl_keeps f (fun d => asked o (calls d))). intros. apply Hf. Qed.

Lemma setDomains_asked (l : list (Z * list Domain)) : asksNothing (fun d => foldl setDomains d l).
Proof.
  apply foldl_asked. intros a o d. unfold setDomains. rewrite asked_call. apply app_nil_r.
Qed.

Lemma restore_asked : asksNothing restoreResolvers.
Proof.
  intros o d. unfold restoreResolvers. case_match.
  - change (calls (_ <| m_ifindex := 0 |>)) with
      (calls (call (RevertLink (m_ifindex ((foldl setDomains d (entries (m_linkDomains d)))
        <| m_linkDomains := ∅ |>))) ((foldl setDomains d (entries (m_linkDomains d)))
        <| m_linkDomains := ∅ |>))).
    rewrite asked_call, app_nil_r. apply setDomains_asked.
  - apply setDomains_asked.
Qed.

Lemma received_asked (reply : option (list LinkDomain)) : asksNothing (dnsDomainsReceived reply).
Proof.
  intros o d. destruct reply as [l|]; [|done]. cbn [dnsDomainsReceived].
  rewrite asked_call, app_nil_r.
  refine (foldl_asked dropRoot (entries _) _ o (d <| m_linkDomains := _ |>)). intros a o' d'.
  unfold dropRoot. case_bool_decide; [|done]. rewrite asked_call. apply app_nil_r.
Qed.

(** *** The invariant *)

Definition stripped (x : list Domain) : list Domain := filter (fun y => y <> root) x.

Lemma stripped_none (x : list Domain) : root ∉ x -> stripped x = x.
Proof.
  unfold stripped. induction x as [|y x IH]; intros Hx; [done|].
  apply not_elem_of_cons in Hx as [Hy Hx]. rewrite filter_cons_True by congruence. by rewrite IH.
Qed.

(** What is saved of the links [o]: a link without domains is not. *)
Definition saves (m o : gmap Z (list Domain)) : Prop :=
  forall i, i <> 0 -> match m !! i with
                      | Some x => o !! i = Some x
                      | None => default [] (o !! i) = []
                      end.

(** Nothing was changed; or the answer has been handled, and the tunnel's link has the
    root domain that was taken from the others. *)
Definition session (o : gmap Z (list Domain)) (d : DnsUtils) : Prop :=
  (0 < m_ifindex d -> o !! m_ifindex d = None) /\ 0 <= m_ifindex d
  /\ (m_linkDomains d = ∅ /\ (forall i, i <> 0 -> served o d !! i = o !! i)
      \/ 0 < m_ifindex d /\ saves (m_linkDomains d) o /\ served o d !! m_ifindex d = Some [root]
         /\ forall i, i <> 0 -> i <> m_ifindex d -> served o d !! i = stripped <$> o !! i).

Definition Inv (o : gmap Z (list Domain)) (y : System) : Prop :=
  session o (utils y)
  /\ (m_ifindex (utils y) = 0 -> m_linkDomains (utils y) = ∅)
  /\ Forall (fun v => forall i, i <> 0 -> v !! i = o !! i) (asked o (calls (utils y))).

(** An answer saves what it lists. *)
Lemma reply_saves (o v : gmap Z (list Domain)) (l : list LinkDomain) :
  describes l v -> (forall i, i <> 0 -> v !! i = o !! i) -> saves (foldl addDomain ∅ l) o.
Proof.
  intros Hl Hv i Hi. destruct (saved_lookup l i Hi) as [S1 S2].
  rewrite (Hl i Hi), (Hv i Hi) in S1, S2. destruct (_ !! i) as [x|].
  - cbn in S1. subst x. destruct (o !! i); [done|]. destruct S2 as [_ S2]. by specialize (S2 eq_refl).
  - by apply S2.
Qed.

Lemma reply_session (o v : gmap Z (list Domain)) (l : list LinkDomain) (d : DnsUtils) :
  session o d -> m_ifindex d <> 0 -> describes l v -> (forall i, i <> 0 -> v !! i = o !! i) ->
  let d' := dnsDomainsReceived (Some l) d in
  session o d' /\ m_ifindex d' = m_ifindex d /\ served o d' !! m_ifindex d = Some [root]
  /\ forall i, i <> 0 -> i <> m_ifindex d -> served o d' !! i = stripped <$> o !! i.
Proof.
  intros (Ho & Hp & Hs) Hd Hl Hv. destruct (received_served o l d) as (Hi & Hm & Hr & Hother).
  set (d' := dnsDomainsReceived (Some l) d) in *. cbv zeta.
  pose proof (reply_saves o v l Hl Hv) as Hsave.
  assert (forall i, i <> 0 -> i <> m_ifindex d -> served o d' !! i = stripped <$> o !! i) as Hstrip.
  { intros i Hi0 Hne. rewrite (Hother i Hne). specialize (Hsave i Hi0).
    assert (root ∉ default [] (o !! i) -> served o d !! i = stripped <$> o !! i) as Hkeep.
    { intros Hroot. destruct Hs as [[_ Hs]|(_ & _ & _ & Hs)]; [|by apply Hs]. rewrite Hs by done.
      destruct (o !! i); cbn in *; [by rewrite stripped_none|done]. }
    destruct (_ !! i) as [x|] in Hsave |- *.
    - rewrite Hsave in Hkeep |- *. case_bool_decide; [done|by apply Hkeep].
    - apply Hkeep. rewrite Hsave. apply not_elem_of_nil. }
  split_and!; [|done|done|done]. unfold session. rewrite Hi, Hm. split_and!; [done|done|].
  right. split_and!; [lia|done|done|done].
Qed.

Lemma restore_session (o : gmap Z (list Domain)) (d : DnsUtils) :
  session o d -> (m_ifindex d = 0 -> m_linkDomains d = ∅) ->
  m_ifindex (restoreResolvers d) = 0 /\ m_linkDomains (restoreResolvers d) = ∅
  /\ forall i, i <> 0 -> served o (restoreResolvers d) !! i = o !! i.
Proof.
  intros (Ho & Hp & Hs) Hz. destruct (decide (m_ifindex d = 0)) as [E|E].
  - unfold restoreResolvers. rewrite (Hz E). cbn [entries map_to_list].
    change (entries ∅) with (@nil (Z * list Domain)). cbn [foldl].
    change (m_ifindex (d <| m_linkDomains := ∅ |>)) with (m_ifindex d). rewrite E. cbn [Z.ltb Z.compare].
    split_and!; [done|done|]. intros i Hi. change (served o d !! i = o !! i).
    destruct Hs as [[_ Hs]|[? _]]; [by apply Hs|lia].
  - destruct (restored_served o d) as (Hi & Hm & Hv & Hother); [lia|].
    split_and!; [done|done|]. intros i Hi0.
    destruct (decide (i = m_ifindex d)) as [->|Hne]; [rewrite Hv; symmetry; apply Ho; lia|].
    rewrite (Hother i Hne). destruct Hs as [[-> Hs]|(_ & Hsave & _ & Hs)].
    + rewrite lookup_empty. by apply Hs.
    + specialize (Hsave i Hi0). destruct (m_linkDomains d !! i) as [x|]; [done|].
      rewrite Hs by done. by destruct (o !! i); cbn in *; subst.
Qed.

Lemma links_Inv (o : gmap Z (list Domain)) (y : System) : Reachable o y -> Inv o y.
Proof.
  induction 1 as [|y e _ (Hs & Hz & Ha) He].
  { split; [|by split]. split_and!; [done|done|by left]. }
  destruct e as [vpn resolvers|reply|]; cbn [happen allowed] in *; unfold Inv; cbn [utils].
  - destruct He as (E & Hp & Hnew). specialize (Hz E). destruct Hs as (_ & _ & Hs).
    destruct Hs as [[_ Hs]|[? _]]; [|lia]. unfold updateResolvers.
    change (m_ifindex ((utils y) <| m_ifindex := vpn |>)) with vpn.
    destruct (Z.leb_spec vpn 0); cbn [snd].
    + split; [|by split]. split_and!; [cbn; lia|cbn; lia|by left].
    + split_and!; [| |].
      * split_and!; [done|done|]. left. split; [done|]. intros i Hi. rewrite !served_call. by apply Hs.
      * cbn. lia.
      * rewrite !asked_call, !served_call, !app_nil_r. apply Forall_app. split; [done|].
        by apply Forall_singleton.
  - destruct He as (v & Hv & He). rewrite received_asked.
    assert (forall i, i <> 0 -> v !! i = o !! i) as Hsame.
    { rewrite Forall_forall in Ha. apply Ha. by eapply list_elem_of_lookup_2. }
    destruct reply as [l|]; [|done]. destruct He as [Hup Hl].
    destruct (reply_session o v l (utils y) Hs Hup Hl Hsame) as (Hs' & Hi & _).
    split_and!; [done|by rewrite Hi|done].
  - rewrite restore_asked. destruct (restore_session o (utils y) Hs Hz) as (Hi & Hm & Hv).
    split_and!; [|done|done]. unfold session. rewrite Hi. split_and!; [lia|lia|by left].
Qed.

(** ** Properties *)

(** C35: in any number of sessions the links have their domains again whenever the
    resolvers are restored, or the object is destroyed; once an answer has been handled,
    the tunnel's link has the root domain and it alone: the others have their domains
    without it. *)
Theorem sessions_restore (o : gmap Z (list Domain)) (y : System) :
  Reachable o y ->
  (m_ifindex (utils y) = 0 -> forall i, i <> 0 -> served o (utils y) !! i = o !! i)
  /\ (forall i, i <> 0 -> served o (restoreResolvers (utils y)) !! i = o !! i)
  /\ (forall i, i <> 0 -> served o (destroy (utils y)) !! i = o !! i)
  /\ (forall l, allowed o (Reply (Some l)) y ->
      let v := served o (dnsDomainsReceived (Some l) (utils y)) in
      v !! m_ifindex (utils y) = Some [root]
      /\ forall i, i <> 0 -> i <> m_ifindex (utils y) -> v !! i = stripped <$> o !! i).
Proof.
  intros Hr. destruct (links_Inv o y Hr) as (Hs & Hz & Ha).
  destruct (restore_session o (utils y) Hs Hz) as (_ & _ & Hrestored). split_and!.
  - intros E i Hi. destruct Hs as (_ & _ & [[_ Hs]|[? _]]); [by apply Hs|lia].
  - exact Hrestored.
  - intros i Hi. rewrite <- (Hrestored i Hi). unfold destroy, restoreResolvers.
    set (d := foldl setDomains (utils y) _).
    change (m_ifindex (d <| m_linkDomains := ∅ |>)) with (m_ifindex d).
    by destruct (0 <? m_ifindex d).
  - intros l (v & Hv & Hup & Hl).
    assert (forall i, i <> 0 -> v !! i = o !! i) as Hsame.
    { rewrite Forall_forall in Ha. apply Ha. by eapply list_elem_of_lookup_2. }
    by destruct (reply_session o v l (utils y) Hs Hup Hl Hsame) as (_ & _ & H1 & H2).
Qed.

(** *** Resolvers on the bus *)

(** A resolver is sent with its bytes in network order. *)
Lemma marshalV4_bytes (v : Z) :
  0 <= v < 2 ^ 32 -> marshalResolver (HostV4 v) = (AF_INET, rev (Netlink.le 4 v)).
Proof.
  intros Hv. unfold marshalResolver. change 255 with (Z.ones 8). rewrite !Z.land_ones by lia.
  rewrite !Z.shiftr_div_pow2 by lia. cbn [Netlink.le rev app]. rewrite !Z.div_div by lia.
  rewrite Z.pow_0_r, Z.div_1_r. done.
Qed.

(** ** Examples *)

Definition lanDomains : gmap Z (list Domain) :=
  {[2 := [(qs "home.arpa", false); root]; 3 := [(qs "corp.example", true)]]}.

Definition lanReply : list LinkDomain :=
  [(2, (qs "home.arpa", false)); (0, (qs "global.example", false)); (2, root);
   (3, (qs "corp.example", true))].

Lemma lan_described : describes lanReply (served lanDomains initial).
Proof.
  intros i Hi. unfold lanReply, served, lanDomains. cbn [calls initial foldl].
  destruct (decide (i = 2)) as [->|H2]; [done|]. destruct (decide (i = 3)) as [->|H3]; [done|].
  rewrite lookup_insert_ne, lookup_singleton_ne by done.
  rewrite !filter_cons_False by (cbn; lia). done.
Qed.

Definition after (l : list Event) : System := foldl (fun y e => happen e y) (mkSystem initial 0) l.

(** A switch before the first answer has come, and both answers. *)
Definition switched : list Event :=
  [Update 7 [HostV4 167772161]; Restore; Update 7 [HostV4 167772161]; Reply (Some lanReply)].

Lemma switched_reachable : Reachable lanDomains (after switched).
Proof.
  apply (Reachable_event _ _ (Reply (Some lanReply))).
  - repeat (apply (Reachable_event _ _ (Update 7 [HostV4 167772161])) ||
            apply (Reachable_event _ _ Restore) || constructor || by_decision).
  - exists lanDomains. split; [by_decision|]. split; [done|exact lan_described].
Qed.

Lemma sessions_restore_witness :
  served lanDomains (utils (after switched)) !! 7 = Some [root]
  /\ served lanDomains (utils (after (switched ++ [Reply (Some lanReply)]))) !! 2
     = Some [(qs "home.arpa", false)]
  /\ served lanDomains (destroy (utils (after switched))) !! 2
     = Some [(qs "home.arpa", false); root].
Proof.
  destruct (sessions_restore lanDomains (after switched) switched_reachable)
    as (_ & _ & Hdestroyed & Hreply).
  split; [by_decision|]. split; [|rewrite Hdestroyed by done; by_decision].
  destruct (Hreply lanReply) as [_ H].
  - exists lanDomains. split; [by_decision|]. split; [done|exact lan_described].
  - etransitivity; [exact (H 2 ltac:(done) ltac:(done))|]. by_decision.
Defined.

(** Resolvers that are updated twice without being restored in between, which a failed
    activation leads to: the root domain that was taken is not given back. *)
Lemma second_update_strips :
  let d1 := dnsDomainsReceived (Some lanReply) (snd (updateResolvers 7 [] initial)) in
  let reply := [(2, (qs "home.arpa", false)); (3, (qs "corp.example", true)); (7, root)] in
  let d2 := dnsDomainsReceived (Some reply) (snd (updateResolvers 7 [] d1)) in
  served lanDomains (restoreResolvers d2) !! 2 = Some [(qs "home.arpa", false)].
Proof. cbv zeta. by_decision. Qed.

(** A reply that comes after the resolvers were restored takes the root domain from the
    other links, and the next session does not give it back. *)
Lemma late_reply_strips :
  let d1 := restoreResolvers (snd (updateResolvers 7 [] initial)) in
  let d2 := dnsDomainsReceived (Some lanReply) d1 in
  let d3 := dnsDomainsReceived (Some [(2, (qs "home.arpa", false)); (3, (qs "corp.example", true))])
              (snd (updateResolvers 8 [] d2)) in
  served lanDomains (restoreResolvers d3) !! 2 = Some [(qs "home.arpa", false)].
Proof. cbv zeta. by_decision. Qed.

(** Reading a resolver back extends the sign of its bytes. *)
Lemma demarshal_sign :
  demarshalV4 (snd (marshalResolver (HostV4 (10 * 2 ^ 24 + 200 * 2 ^ 16 + 1)))) = Some 4291297281.
Proof. by vm_compute. Qed.

End DnsUtilsLinux.

Module IPUtilsLinux.

(** ** Addresses of the device *)

(** The calls of [iputilslinux.cpp]. An address is [None] where the memory handed to
    the kernel was never written. *)
Inductive Ioctl : Type :=
| Socket (family : Z)
| SetMTU (mtu : Z)
| SetFlags (flags : Z)
| GetIndex
| SetAddress4 (address : option (list Z))
| SetAddress6 (address : option (list Z)) (prefixlen : Z) (ifindex : Z).

Definition ETH_MTU : Z := 1500.
Definition WG_MTU_OVERHEAD : Z := 80.
Definition EEXIST : Z := 17.
Definition IFF_UP : Z := 1.
Definition IFF_DEBUG : Z := 4.
Definition IFF_RUNNING : Z := 64.
Definition IFF_PROMISC : Z := 256.

(** The flags of [setMTUAndUp]: [ifr_flags] shares its memory with [ifr_mtu], whose
    low half is what it holds (on a little-endian machine). *)
Definition upFlags : Z :=
  Z.land (Z.lor (u16 (ETH_MTU - WG_MTU_OVERHEAD)) (Z.lor IFF_UP IFF_RUNNING)) (Z.lnot IFF_PROMISC).

Section Operations.
Context `{QtText}.

(** [inet_pton], and what each call returns after those before it: zero or more, or
    [-errno]. *)
Variable inet_pton4 inet_pton6 : chars -> option (list Z).
Variable answer : list Ioctl -> Ioctl -> Z.

Definition M (A : Type) : Type := list Ioctl -> A * list Ioctl.
Definition ret {A : Type} (a : A) : M A := fun t => (a, t).
Definition bind {A B : Type} (m : M A) (k : A -> M B) : M B := fun t => let '(a, t) := m t in k a t.
Definition ioctl (c : Ioctl) : M Z := fun t => (answer t c, t ++ [c]).

Notation "x <- m ;; k" := (bind m (fun x => k))
  (at level 100, m at next level, right associativity) : wg_scope.

(** The address of a prefix as text. *)
Definition deviceAddr (prefix : QString) : chars := hostToString (fst (parseSubnet (text prefix))).

Definition addIP4AddressToDevice (config : InterfaceConfig) : M bool :=
  sockfd <- ioctl (Socket Netlink.AF_INET) ;;
  if sockfd <? 0 then ret false
  else
    r <- ioctl (SetAddress4 (inet_pton4 (deviceAddr (m_deviceIpv4Address config)))) ;;
    ret (r =? 0).

Definition addIP6AddressToDevice (config : InterfaceConfig) : M bool :=
  sockfd <- ioctl (Socket Netlink.AF_INET6) ;;
  if sockfd <? 0 then ret false
  else
    index <- ioctl GetIndex ;;
    if index <? 0 then ret false
    else
      r <- ioctl (SetAddress6 (inet_pton6 (deviceAddr (m_deviceIpv6Address config))) 64 index) ;;
      ret ((r =? 0) || (r =? - EEXIST)).

Definition addInterfaceIPs (config : InterfaceConfig) : M bool :=
  ok <- addIP4AddressToDevice config ;;
  if ok then addIP6AddressToDevice config else ret false.

Definition setMTUAndUp : M bool :=
  sockfd <- ioctl (Socket Netlink.AF_INET) ;;
  if sockfd <? 0 then ret false
  else
    r <- ioctl (SetMTU (ETH_MTU - WG_MTU_OVERHEAD)) ;;
    if negb (r =? 0) then ret false
    else r <- ioctl (SetFlags upFlags) ;; ret (r =? 0).

(** ** Properties *)

(** The calls of [addInterfaceIPs], up to the first that fails. *)
Definition planIPs (a4 a6 : option (list Z)) (index : Z) : list Ioctl :=
  [Socket Netlink.AF_INET; SetAddress4 a4; Socket Netlink.AF_INET6; GetIndex; SetAddress6 a6 64 index].

Lemma addInterfaceIPs_calls (config : InterfaceConfig) (t : list Ioctl) :
  let '(ok, t') := addInterfaceIPs config t in
  exists index p, p `prefix_of` planIPs (inet_pton4 (deviceAddr (m_deviceIpv4Address config)))
                    (inet_pton6 (deviceAddr (m_deviceIpv6Address config))) index
    /\ t' = t ++ p /\ (ok = true -> length p = 5%nat).
Proof.
  unfold addInterfaceIPs, addIP4AddressToDevice, addIP6AddressToDevice, bind, ioctl, ret.
  set (a4 := inet_pton4 _). set (a6 := inet_pton6 _).
  repeat (case_match; simplify_eq/=); rewrite <- ?app_assoc; cbn [app];
    match goal with
    | |- context [SetAddress6 _ _ ?i] => exists i
    | _ => exists 0
    end;
    (eexists; split; [|split; [reflexivity|done]]);
    unfold planIPs; repeat apply prefix_cons; apply prefix_nil.
Qed.

End Operations.

(** *** Defects *)

(** The device is put into the debug mode that the size of its packets spells. *)
Lemma flags_of_mtu : upFlags = 1229 /\ Z.land upFlags IFF_DEBUG <> 0.
Proof. by_decision. Qed.

(** Without an IPv6 address the device is given what the memory happens to hold. *)
Lemma ipv4_only_indeterminate :
  let pton (s : chars) := if bool_decide (s = []) then None else Some [10; 64; 0; 2] in
  let config := (emptyConfig SingleHop) <| m_deviceIpv4Address := Some (qs "10.64.0.2/32") |>
                                        <| m_deviceIpv6Address := Some [] |> in
  addInterfaceIPs (H := modelText) pton pton (fun _ c => match c with GetIndex => 7 | _ => 0 end)
    config []
  = (true, planIPs (Some [10; 64; 0; 2]) None 7).
Proof. by vm_compute. Qed.

End IPUtilsLinux.
