(* ===== verification/JsonText.v ===== *)
(** * The text of JSON documents

    What the code relies on of [QJsonDocument::toJson(Compact)] and [fromJson] where
    it frames messages by lines: the interface [QtJsonText] with its laws, and an
    instance for examples. *)
From Stdlib Require Import ZArith Lia Ascii String.
From stdpp Require Import base numbers list gmap strings countable.
From S2P Require Import Prelude QHostAddress QString Json.

Local Open Scope nat_scope.

(** ** Byte strings *)

(** [isspace] of a byte, in the C locale. *)
Definition isSpaceByte (c : ascii) : bool :=
  let n := nat_of_ascii c in ((9 <=? n) && (n <=? 13)) || (n =? 32).

Fixpoint skipSpaceBytes (s : chars) : chars :=
  match s with
  | [] => []
  | c :: r => if isSpaceByte c then skipSpaceBytes r else s
  end.

(** [QByteArray::trimmed]. *)
Definition trimmedBytes (s : chars) : chars :=
  rev (skipSpaceBytes (rev (skipSpaceBytes s))).

Lemma trimmedBytes_id (s : chars) (c d : ascii) (r t : chars) :
  s = c :: r -> s = t ++ [d] -> isSpaceByte c = false -> isSpaceByte d = false ->
  trimmedBytes s = s.
Proof.
  intros H1 H2 Hc Hd. unfold trimmedBytes.
  assert (skipSpaceBytes s = s) as -> by (rewrite H1; simpl; by rewrite Hc).
  rewrite H2, rev_app_distr. simpl. rewrite Hd. cbn. by rewrite rev_involutive.
Qed.

(** ** Messages framed by lines *)

(** The reference for the loops that read messages: the commands are the trimmed
    lines that are not empty, and what follows the last line break is kept. *)
Definition frames (buffer : chars) : list chars * chars :=
  let parts := split newline buffer in
  (filter (fun command => command <> []) (map trimmedBytes (removelast parts)),
   List.last parts []).

(** Every string is a sequence of lines. *)
Lemma lines_ind (P : chars -> Prop) :
  (forall a, newline ∉ a -> P a) ->
  (forall a b, newline ∉ a -> P b -> P (a ++ newline :: b)) ->
  forall s, P s.
Proof.
  intros Hlast Hcons s. remember (length s) as n eqn:En. revert s En.
  induction (lt_wf n) as [n _ IH]. intros s ->.
  destruct (Z.ltb_spec (indexOf newline s) 0) as [Hn|Hn].
  - by apply Hlast, indexOf_not_elem.
  - apply indexOf_nonneg in Hn as (a & b & -> & Ha & _). apply Hcons; [done|].
    apply (IH (length b)); [|done]. rewrite length_app. simpl. lia.
Qed.

Lemma frames_none (a : chars) : newline ∉ a -> frames a = ([], a).
Proof. intros Ha. unfold frames. by rewrite split_none. Qed.

(** The command of one line, if it has one. *)
Definition lineCommand (line : chars) : list chars :=
  if bool_decide (trimmedBytes line = []) then [] else [trimmedBytes line].

Lemma frames_cons (a b : chars) :
  newline ∉ a ->
  frames (a ++ newline :: b) = (lineCommand a ++ fst (frames b), snd (frames b)).
Proof.
  intros Ha. unfold frames, lineCommand. rewrite split_app by done.
  destruct (split newline b) as [|h t] eqn:E; [by apply split_nonempty in E|].
  cbn [removelast List.last map fst snd]. rewrite filter_cons.
  case_bool_decide as Hc; 
    [rewrite decide_False by (intros Hx; by apply Hx)|rewrite decide_True by done]; done.
Qed.

Lemma frames_rest (s : chars) : newline ∉ snd (frames s).
Proof.
  induction s as [a Ha|a b Ha IH] using lines_ind; [by rewrite frames_none|].
  by rewrite frames_cons.
Qed.

(** What has been read so far can be framed first. *)
Lemma frames_app (s t : chars) :
  frames (s ++ t) = (fst (frames s) ++ fst (frames (snd (frames s) ++ t)),
                     snd (frames (snd (frames s) ++ t))).
Proof.
  induction s as [a Ha|a b Ha IH] using lines_ind.
  - rewrite (frames_none a) by done. cbn. apply surjective_pairing.
  - rewrite <- app_assoc. cbn [app]. rewrite !frames_cons, IH by done. cbn [fst snd].
    by rewrite app_assoc.
Qed.

(** The loop's view of a buffer: no line break, or a first line and the rest. *)
Lemma indexOf_newline (buffer : chars) :
  (indexOf newline buffer = -1 /\ newline ∉ buffer)%Z
  \/ exists a b, buffer = a ++ newline :: b /\ (newline ∉ a)
       /\ (indexOf newline buffer <> -1)%Z /\ left buffer (indexOf newline buffer) = a
       /\ mid buffer (indexOf newline buffer + 1) = b.
Proof.
  pose proof (indexOf_range newline buffer) as Hr.
  destruct (Z.ltb_spec (indexOf newline buffer) 0) as [Hn|Hn].
  - left. split; [lia|by apply indexOf_not_elem].
  - right. apply indexOf_nonneg in Hn as (a & b & -> & Ha & E). exists a, b. rewrite E.
    unfold left, mid. repeat split; [done|lia|by rewrite Nat2Z.id, take_app_length|].
    rewrite Z2Nat.inj_add, Nat2Z.id by lia. change (Z.to_nat 1) with 1.
    rewrite drop_app_ge by lia. by replace (length a + 1 - length a) with 1 by lia.
Qed.

(** ** The interface *)

(** [toCompact] is [toJson(QJsonDocument::Compact)]; [fromBytes] is [None] where the
    document that [fromJson] reads is not an object. *)
Class QtJsonText : Type := {
  toCompact : QJsonObject -> chars;
  fromBytes : chars -> option QJsonObject;
}.

(** The compact text is one line between braces, and it reads as the same object; an
    empty text is not an object. *)
Class QtJsonTextLaws `{QtJsonText} : Prop := {
  toCompact_line o : newline ∉ toCompact o;
  toCompact_braces o : exists s, toCompact o = "{"%char :: s ++ ["}"%char];
  fromBytes_nothing : fromBytes [] = None;
  fromBytes_toCompact o :
    exactJson (JObject o) = true ->
    exists o' : QJsonObject, fromBytes (toCompact o) = Some o' /\ o ≡ o'
      /\ (forall k, hasKey k o' = hasKey k o);
}.

Lemma toCompact_trimmed `{QtJsonTextLaws} (o : QJsonObject) :
  trimmedBytes (toCompact o) = toCompact o.
Proof.
  destruct (toCompact_braces o) as [s E].
  apply (trimmedBytes_id _ "{"%char "}"%char (s ++ ["}"%char]) ("{"%char :: s)); done.
Qed.

Lemma toCompact_nonempty `{QtJsonTextLaws} (o : QJsonObject) : toCompact o <> [].
Proof. destruct (toCompact_braces o) as [s ->]. done. Qed.

(** A message as both ends write it. *)
Definition messageLine `{QtJsonText} (o : QJsonObject) : chars := toCompact o ++ [newline].

(** A sequence of messages is read back as such, and nothing is left. *)
Lemma frames_messages `{QtJsonTextLaws} (l : list QJsonObject) :
  frames (concat (map messageLine l)) = (map toCompact l, []).
Proof.
  induction l as [|o l IH]; [done|]. cbn [map concat]. unfold messageLine at 1.
  rewrite <- app_assoc. cbn [app]. rewrite frames_cons by apply toCompact_line.
  unfold lineCommand. rewrite IH, toCompact_trimmed. cbn [fst snd].
  rewrite bool_decide_false by apply toCompact_nonempty. done.
Qed.

(** ** An instance *)

(** A value as a tree: its leaves are booleans, numbers and strings. *)
Definition Leaf : Type := bool + (Z * positive) + chars.

Fixpoint valueTree (v : QJsonValue) : gen_tree Leaf :=
  match v with
  | JUndefined => GenNode 0 []
  | JNull => GenNode 1 []
  | JBool b => GenLeaf (inl (inl b))
  | JDouble n d => GenLeaf (inl (inr (n, d)))
  | JString s => GenLeaf (inr s)
  | JArray l => GenNode 2 (map valueTree l)
  | JObject o => GenNode 3 (map (fun kv => GenNode 4 [GenLeaf (inr (fst kv)); valueTree (snd kv)]) o)
  end.

Fixpoint treeValue (t : gen_tree Leaf) : QJsonValue :=
  match t with
  | GenLeaf (inl (inl b)) => JBool b
  | GenLeaf (inl (inr (n, d))) => JDouble n d
  | GenLeaf (inr s) => JString s
  | GenNode 0 _ => JUndefined
  | GenNode 1 _ => JNull
  | GenNode 2 l => JArray (map treeValue l)
  | GenNode _ l =>
      JObject (map (fun t => match t with
                             | GenNode _ [GenLeaf (inr k); v] => (k, treeValue v)
                             | _ => ([], JUndefined)
                             end) l)
  end.

Lemma treeValue_valueTree (v : QJsonValue) : treeValue (valueTree v) = v.
Proof.
  revert v. fix IH 1. intros [| |b|n d|s|l|o]; [reflexivity..| |].
  - cbn. f_equal. induction l as [|v l IHl]; [done|]. cbn. by rewrite IH, IHl.
  - cbn. f_equal. induction o as [|[k v] o IHo]; [done|]. cbn. by rewrite IH, IHo.
Qed.

#[export] Instance QJsonValue_countable : Countable QJsonValue :=
  inj_countable' valueTree treeValue treeValue_valueTree.

(** Binary digits, the last of which is one, packed by seven into bytes above 127. *)
Fixpoint bits (p : positive) : list bool :=
  match p with xH => [true] | xO p => false :: bits p | xI p => true :: bits p end.

Fixpoint ofBits (l : list bool) : option positive :=
  match l with
  | [] => None
  | b :: r =>
      match ofBits r with
      | Some p => Some (if b then xI p else xO p)
      | None => if b then Some xH else None
      end
  end.

Fixpoint pack (l : list bool) : chars :=
  match l with
  | [] => []
  | b0 :: b1 :: b2 :: b3 :: b4 :: b5 :: b6 :: r =>
      Ascii b0 b1 b2 b3 b4 b5 b6 true :: pack r
  | _ => let b n := nth n l false in [Ascii (b 0) (b 1) (b 2) (b 3) (b 4) (b 5) (b 6) true]
  end.

Definition unpack (s : chars) : list bool :=
  concat (map (fun '(Ascii b0 b1 b2 b3 b4 b5 b6 _) => [b0; b1; b2; b3; b4; b5; b6]) s).

Lemma ofBits_bits (p : positive) : ofBits (bits p) = Some p.
Proof. induction p as [p IH|p IH|]; cbn; by rewrite ?IH. Qed.

Lemma ofBits_pack (l : list bool) : ofBits (unpack (pack l)) = ofBits l.
Proof.
  revert l. fix IH 1. intros [|b0 [|b1 [|b2 [|b3 [|b4 [|b5 [|b6 l]]]]]]]; [reflexivity..|].
  cbn -[unpack]. unfold unpack. cbn. fold (unpack (pack l)). by rewrite (IH l).
Qed.

Lemma newline_pack (l : list bool) : newline ∉ pack l.
Proof.
  revert l. fix IH 1. intros [|b0 [|b1 [|b2 [|b3 [|b4 [|b5 [|b6 l]]]]]]];
    cbn [pack nth]; rewrite ?elem_of_cons; [apply not_elem_of_nil|..];
    intros [E|E]; try done; try (by apply not_elem_of_nil in E). exact (IH l E).
Qed.

Definition modelJsonText : QtJsonText := {|
  toCompact o := "{"%char :: pack (bits (encode (JObject o))) ++ ["}"%char];
  fromBytes s :=
    match s with
    | _ :: r => p ← ofBits (unpack (removelast r)); v ← decode p;
                match v with JObject o => Some o | _ => None end
    | [] => None
    end;
|}.

Lemma modelJsonTextLaws : QtJsonTextLaws (H := modelJsonText).
Proof.
  split.
  - intros o. unfold toCompact, modelJsonText. rewrite elem_of_cons, elem_of_app.
    intros [E|[E|E]]; [done|by apply newline_pack in E|].
    by apply list_elem_of_singleton in E.
  - intros o. by eexists.
  - done.
  - intros o _. exists o. split; [|split; [intros k; apply same_leaf|done]].
    unfold fromBytes, toCompact, modelJsonText.
    rewrite removelast_last, ofBits_pack, ofBits_bits. cbn [mbind option_bind].
    rewrite decode_encode. done.
Qed.
