(* ===== verification/DBusService.v ===== *)
(** * The D-Bus service of the Linux daemon

    Model of [src/src/platforms/linux/daemon/dbusservice.cpp]: the daemon of
    DaemonModel, whose virtual methods come back to this class, with the split
    tunnelling of SplitTunnel and the authorisation of every caller by polkit. *)
From Stdlib Require Import ZArith Lia Ascii String.
From stdpp Require Import base numbers list gmap strings relations.
From S2P Require Import Prelude QHostAddress QString QtTextModel QStringExtra IPAddress.
From S2P Require Import Json JsonText InterfaceConfig DaemonModel AppScope SplitTunnel.
Import IPAddress.
Import Daemon AppScope.

Local Open Scope Z_scope.
Local Open Scope wg_scope.

Module DBusService.

(** ** State *)

(** The base class, the members of split tunnelling with the tracker, and whether the
    logs have been cleaned. *)
Record Service : Type := mkService {
  m_base : Daemon;
  m_split : SplitTunnel.Service;
  logsCleaned : bool;
}.

#[export] Instance Service_eta : Eta Service := fun s =>
  mkService (m_base s) (m_split s) (logsCleaned s).

Definition ACTIVATE : chars := qs "org.mozilla.vpn.activate".
Definition DEACTIVATE : chars := qs "org.mozilla.vpn.deactivate".

(** What polkit answers to the questions of one call: the action, and how often the
    activation has been entered before. A call that does not come from D-Bus is not
    asked about. *)
Definition Polkit : Type := nat -> chars -> bool.

Definition notFromDBus : Polkit := fun _ _ => true.

(** The methods of the interface; [json] is the text of the configuration. *)
Inductive Request : Type :=
| Version
| Activate (json : chars)
| Deactivate
| Status
| GetLogs
| CleanupLogs.

Inductive Reply : Type :=
| BoolReply (b : bool)
| TextReply (t : chars)
| EmptyReply.

Section Service.
Context `{QtText} `{QtJsonText} `{Backend}.

(** [std::sort], the uninitialised hop, [PROTOCOL_VERSION], and what the daemon
    reports of itself. *)
Variable sort : list IPAddress -> list IPAddress.
Variable hop0 : HopType.
Variable protocolVersion : chars.
Variable version : chars.
Variable dateToString : option Z -> chars.
Variable logs : chars.

(** An operation of the base class. *)
Definition base {A : Type} (m : M A) (s : Service) : A * Service :=
  let '(a, d) := m (m_base s) in (a, s <| m_base := d |>).

Definition withSplit (f : SplitTunnel.Service -> SplitTunnel.Service) (s : Service) : Service :=
  s <| m_split := f (m_split s) |>.

(** ** Operations *)

Definition deactivate (p : Polkit) (depth : nat) (emitSignals : bool) (s : Service)
  : bool * Service :=
  if negb (p depth DEACTIVATE) then (false, s)
  else base (Daemon.deactivate emitSignals) (withSplit SplitTunnel.clearAppStates s).

(** [Daemon::activate] calls the virtual [deactivate] and [activate]; [m] is its outcome
    so far, and the guard signals its failure. *)
Definition guard (r : Outcome bool * Service) : Outcome bool * Service :=
  match r with
  | (Ret b, s) => let '(b, s) := base (failureGuard (Daemon.ret b)) s in (Ret b, s)
  | _ => r
  end.

Definition baseActivate (m : M bool) (s : Service) : Outcome bool * Service :=
  let '(b, s) := base (failureGuard m) s in (Ret b, s).

(** The rest of [DBusService::activate]: the applications of the configuration. *)
Definition reloadApps (config : InterfaceConfig) (r : Outcome bool * Service)
  : Outcome bool * Service :=
  match r with
  | (Ret true, s) => (Ret true, withSplit (SplitTunnel.excludeApps (m_vpnDisabledApps config)) s)
  | _ => r
  end.

Fixpoint activateFuel (fuel depth : nat) (p : Polkit) (config : InterfaceConfig) (s : Service)
  : Outcome bool * Service :=
  match fuel with
  | O => (OutOfFuel, s)
  | S fuel =>
      if negb (p depth ACTIVATE) then (Ret false, s)
      else
        reloadApps config
          match lookupHop (m_hopType config) (m_connections (m_base s)) with
          | None => baseActivate (bringUp config) s
          | Some _ =>
              if supportServerSwitching config (m_base s) then baseActivate (switchTo config) s
              else
                match deactivate p depth false s with
                | (false, s) => guard (Ret false, s)
                | (true, s) => guard (activateFuel fuel (S depth) p config s)
                end
          end
  end.

Definition activate (p : Polkit) (config : InterfaceConfig) (s : Service)
  : Outcome bool * Service := activateFuel 2 0 p config s.

(** [Daemon::activate(const QString&)]; what is not an object reads as an empty one. *)
Definition activateJson (p : Polkit) (json : chars) (s : Service) : Outcome bool * Service :=
  match parseConfig sort (default [] (fromBytes json)) (emptyConfig hop0) with
  | None => (Ret false, s)
  | Some config => activate p config s
  end.

Definition status (p : Polkit) (s : Service) : chars * Service :=
  if negb (p 0%nat ACTIVATE) then ([], s)
  else let '(obj, s) := base (getStatus version dateToString) s in (toCompact obj, s).

Definition getLogs (p : Polkit) : chars := if negb (p 0%nat ACTIVATE) then [] else logs.

Definition cleanupLogs (p : Polkit) (s : Service) : Service :=
  if negb (p 0%nat ACTIVATE) then s else s <| logsCleaned := true |>.

(** One call of a client. *)
Definition serve (p : Polkit) (r : Request) (s : Service) : Outcome Reply * Service :=
  match r with
  | Version => (Ret (TextReply protocolVersion), s)
  | Activate json =>
      let '(b, s) := activateJson p json s in (b <~ b ;; Ret (BoolReply b), s)
  | Deactivate => let '(b, s) := deactivate p 0 true s in (Ret (BoolReply b), s)
  | Status => let '(t, s) := status p s in (Ret (TextReply t), s)
  | GetLogs => (Ret (TextReply (getLogs p)), s)
  | CleanupLogs => (Ret EmptyReply, cleanupLogs p s)
  end.

(** [removeInterfaceIfExists], called by the constructor: [false] ends the process. *)
Definition removeInterfaceIfExists : M bool :=
  exists_ <- call InterfaceExists ;;
  if exists_ then call DeleteInterface else Daemon.ret true.

(** ** Events *)

Inductive Event : Type :=
| Called (p : Polkit) (r : Request)
| HandshakeTimer
| QuitRequested
| Tracker (e : SplitTunnel.Event).

Definition handle (s : Service) (e : Event) : Service :=
  match e with
  | Called p r => snd (serve p r s)
  | HandshakeTimer => snd (base handshakeTimeout s)
  | QuitRequested => snd (deactivate notFromDBus 0 true s)
  | Tracker e => withSplit (SplitTunnel.handle e) s
  end.

Definition run (l : list Event) (s : Service) : Service := foldl handle s l.

(** The tracker is told of each group once. *)
Definition valid (e : Event) : Prop :=
  match e with Tracker e => SplitTunnel.valid e | _ => True end.

Definition initial (mount : chars) : Service :=
  mkService Daemon.initial (SplitTunnel.initial mount) false.

(** ** The outcome of an activation *)

Definition setBase (d : Daemon) (s : Service) : Service := s <| m_base := d |>.

(** The result of the base class, with the applications loaded if it succeeded. *)
Definition finish (config : InterfaceConfig) (r : bool * Daemon) (s : Service) : bool * Service :=
  let s := setBase (r.2) s in
  (r.1, if r.1 then withSplit (SplitTunnel.excludeApps (m_vpnDisabledApps config)) s else s).

(** The activation once the old tunnel is down: the guard of the outer call signals a
    failure again. *)
Definition reactivate (p : Polkit) (config : InterfaceConfig) (s : Service) : bool * Service :=
  let failed s := (false, setBase (guarded (false, m_base s)).2 s) in
  if negb (p 1%nat ACTIVATE) then failed s
  else
    let '(b, s) := finish config (guarded (bringUp config (m_base s))) s in
    if b then finish config (true, m_base s) s else failed s.

(** The reference for [activate], without its recursion. *)
Definition activation (p : Polkit) (config : InterfaceConfig) (s : Service) : bool * Service :=
  let d := m_base s in
  if negb (p 0%nat ACTIVATE) then (false, s)
  else
    match lookupHop (m_hopType config) (m_connections d) with
    | None => finish config (guarded (bringUp config d)) s
    | Some c =>
        if supportServerSwitching config d
        then finish config (guarded (switchPlan config (m_config c) d)) s
        else if negb (p 0%nat DEACTIVATE) then (false, setBase (guarded (false, d)).2 s)
        else
          let '(ok, d) := teardownPlan false d in
          let s := setBase d (withSplit SplitTunnel.clearAppStates s) in
          if ok then reactivate p config s else (false, setBase (guarded (false, d)).2 s)
    end.

Lemma baseActivate_eq (config : InterfaceConfig) (m : M bool) (s : Service) :
  reloadApps config (baseActivate m s)
  = let '(b, s) := finish config (guarded (m (m_base s))) s in (Ret b, s).
Proof.
  unfold baseActivate, base. rewrite failureGuard_eq.
  by destruct (guarded (m (m_base s))) as [[] d].
Qed.

Lemma guard_eq (b : bool) (s : Service) :
  guard (Ret b, s) = (Ret b, if b then s else setBase (guarded (false, m_base s)).2 s).
Proof. unfold guard, base. rewrite failureGuard_eq. destruct b, s; done. Qed.

(** The recursion of [activate] through the virtual methods is one level deep. *)
Lemma activation_eq (p : Polkit) (config : InterfaceConfig) (s : Service) :
  activate p config s = let '(b, s) := activation p config s in (Ret b, s).
Proof.
  unfold activate, activation. cbn [activateFuel].
  destruct (p 0%nat ACTIVATE); cbn [negb]; [|done].
  destruct (lookupHop _ (m_connections (m_base s))) as [[date last]|] eqn:El;
    [|apply baseActivate_eq].
  destruct (supportServerSwitching config (m_base s)).
  { rewrite baseActivate_eq. by rewrite (switchTo_eq config last date). }
  unfold deactivate. destruct (p 0%nat DEACTIVATE); cbn [negb];
    [|by rewrite guard_eq; destruct (guarded _)].
  unfold base. change (m_base (withSplit _ s)) with (m_base s). rewrite deactivate_eq.
  destruct (teardownPlan false (m_base s)) as [[] d] eqn:Et; [|by rewrite guard_eq].
  apply teardown_connections in Et. unfold reactivate.
  set (s1 := setBase d _). change (_ <| m_base := d |>) with s1.
  change (m_base s1) with d in *.
  destruct (p 1%nat ACTIVATE); cbn [negb]; [|by rewrite guard_eq].
  rewrite Et, lookup_noConnections, baseActivate_eq. change (m_base s1) with d.
  destruct (finish config (guarded (bringUp config d)) s1) as [[] s2];
    rewrite guard_eq; [|done]. by destruct s2.
Qed.

(** ** Invariants *)

Definition connected (d : Daemon) : Prop := m_connections d <> noConnections.

Lemma connected_hop (h : HopType) (d : Daemon) :
  lookupHop h (m_connections d) <> None -> connected d.
Proof. intros Hl E. apply Hl. rewrite E. apply lookup_noConnections. Qed.

(** The groups are consistent, and no application is excluded without a connection. *)
Definition invariant (s : Service) : Prop :=
  SplitTunnel.consistent (m_split s)
  /\ (m_connections (m_base s) = noConnections -> SplitTunnel.m_excludedApps (m_split s) = ∅).

Lemma bringUp_connected (config : InterfaceConfig) (d : Daemon) :
  let r := guarded (bringUp config d) in
  if r.1 then connected (r.2) else m_connections (r.2) = m_connections d.
Proof.
  cbv zeta. rewrite bringUp_eq. cbv zeta. destruct (execute _ _) as [[] t]; [|done].
  cbn. apply (connected_hop (m_hopType config)). cbn. rewrite lookup_insertHop. by bd_true.
Qed.

Lemma switchPlan_connected (config last : InterfaceConfig) (d : Daemon) :
  lookupHop (m_hopType config) (m_connections d) <> None ->
  connected (guarded (switchPlan config last d)).2.
Proof.
  intros Hl. unfold switchPlan. destruct (execute [UpdatePeer config] (trace d)) as [[] t1];
    [|by apply (connected_hop (m_hopType config))].
  destruct (execute (map UpdateRoutePrefix _) t1) as [ok t2].
  destruct (execute (if sameKey config last then _ else _) _) as [[] t3];
    [|by apply (connected_hop (m_hopType config))].
  destruct (execute _ t3) as [[] t4]; cbn; apply (connected_hop (m_hopType config)); cbn;
    rewrite lookup_insertHop; by bd_true.
Qed.

(** The applications are loaded by a success, which leaves a connection, and a failure
    keeps what there was. *)
Lemma finish_invariant (config : InterfaceConfig) (r : bool * Daemon) (s : Service) :
  invariant s ->
  (r.1 = true -> connected (r.2)) ->
  (r.1 = false -> connected (r.2) \/ m_connections (r.2) = m_connections (m_base s)) ->
  invariant (finish config r s).2.
Proof.
  intros [Hc He] Ht Hf. destruct r as [[] d]; cbn [fst snd] in *.
  - split; [apply SplitTunnel.excludeApps_consistent|]. intros E. by destruct (Ht eq_refl).
  - split; [exact Hc|]. change (m_connections d = noConnections ->
      SplitTunnel.m_excludedApps (m_split s) = ∅). intros E. apply He.
    destruct (Hf eq_refl) as [Hd|<-]; [by destruct Hd|done].
Qed.

Lemma failed_invariant (s : Service) :
  invariant s -> invariant (setBase (guarded (false, m_base s)).2 s).
Proof. exact (fun H => H). Qed.

Lemma cleared_invariant (d : Daemon) (s : Service) :
  invariant (setBase d (withSplit SplitTunnel.clearAppStates s)).
Proof. split; [apply SplitTunnel.clear_consistent|done]. Qed.

Lemma reactivate_invariant (p : Polkit) (config : InterfaceConfig) (s : Service) :
  invariant s -> invariant (reactivate p config s).2.
Proof.
  intros Hs. unfold reactivate. destruct (p 1%nat ACTIVATE); [|by apply failed_invariant].
  cbn [negb]. pose proof (bringUp_connected config (m_base s)) as Hb.
  set (r := guarded (bringUp config (m_base s))) in *. cbv zeta in Hb.
  assert (invariant (finish config r s).2) as Hf.
  { apply finish_invariant; [done|..]; intros E; rewrite E in Hb; [done|by right]. }
  destruct (finish config r s) as [b s2] eqn:E. injection E as Eb E. cbn [snd] in Hf.
  destruct b; [|by apply failed_invariant]. rewrite Eb in Hb.
  apply finish_invariant; [exact Hf| |done]. intros _. subst s2. by rewrite Eb.
Qed.

Lemma activation_invariant (p : Polkit) (config : InterfaceConfig) (s : Service) :
  invariant s -> invariant (activation p config s).2.
Proof.
  intros Hs. unfold activation. destruct (p 0%nat ACTIVATE); [|done]. cbn [negb].
  destruct (lookupHop _ (m_connections (m_base s))) as [c|] eqn:El.
  - assert (lookupHop (m_hopType config) (m_connections (m_base s)) <> None) as Hn by congruence.
    destruct (supportServerSwitching config (m_base s)).
    { pose proof (switchPlan_connected config (m_config c) (m_base s) Hn).
      by apply finish_invariant; [|done|left]. }
    destruct (p 0%nat DEACTIVATE); [|by apply failed_invariant]. cbn [negb].
    destruct (teardownPlan false (m_base s)) as [[] d].
    + apply reactivate_invariant, cleared_invariant.
    + exact (cleared_invariant _ s).
  - pose proof (bringUp_connected config (m_base s)) as Hb. cbv zeta in Hb.
    apply finish_invariant; [done|..]; intros E; rewrite E in Hb; [done|by right].
Qed.

Lemma deactivate_invariant (p : Polkit) (emitSignals : bool) (s : Service) :
  invariant s -> invariant (deactivate p 0 emitSignals s).2.
Proof.
  intros Hs. unfold deactivate. destruct (p 0%nat DEACTIVATE); [|done]. cbn [negb].
  unfold base. destruct (Daemon.deactivate emitSignals _) as [b d]. apply (cleared_invariant d s).
Qed.

Lemma handshake_connections (d : Daemon) :
  m_connections (handshakeTimeout d).2 = noConnections -> m_connections d = noConnections.
Proof.
  unfold handshakeTimeout, bind, modify. rewrite checkHandshake_eq. cbn.
  set (peers := peerStatus _). intros E. injection E as E0 E1 E2.
  pose proof (fun c => pollConnection_config peers c) as Hc.
  destruct (m_connections d) as [c0 c1 c2]. cbn in *.
  pose proof (Hc c0) as P0. pose proof (Hc c1) as P1. pose proof (Hc c2) as P2.
  rewrite E0 in P0. rewrite E1 in P1. rewrite E2 in P2. by destruct c0, c1, c2.
Qed.

(** Events of the control groups do not change which applications are excluded. *)
Lemma tracker_apps (e : SplitTunnel.Event) (s : SplitTunnel.Service) :
  SplitTunnel.m_excludedApps (SplitTunnel.handle e s) = SplitTunnel.m_excludedApps s.
Proof.
  assert (forall sp dir l s, SplitTunnel.m_excludedApps (SplitTunnel.cgroupsChanged sp dir l s)
            = SplitTunnel.m_excludedApps s) as Hc.
  { intros sp dir l s'. unfold SplitTunnel.cgroupsChanged.
    set (f := foldl _ (_, s') l).
    assert (SplitTunnel.m_excludedApps (f.2) = SplitTunnel.m_excludedApps s') as Hf.
    { subst f. generalize (map fst (map_to_list (SplitTunnel.m_runningCgroups s'))). clear.
      revert s'. induction l as [|x l IH]; intros s old; [done|]. cbn [foldl].
      unfold SplitTunnel.addScope at 2. case_bool_decide; [apply IH|]. rewrite IH.
      unfold SplitTunnel.appLaunched. by destruct (default SplitTunnel.Active _). }
    destruct f as [old s1]. cbn [snd] in Hf. rewrite <- Hf. clear Hf. revert s1.
    induction old as [|g old IH]; intros s1; [done|]. cbn [foldl]. rewrite IH.
    unfold SplitTunnel.dropScope, SplitTunnel.appTerminated. case_bool_decide; [|done].
    by destruct (SplitTunnel.m_excludedCgroups _ !! g). }
  destruct e as [sp dir l|sp [g|] l1 l2]; cbn [SplitTunnel.handle]; [apply Hc| |done].
  unfold SplitTunnel.userCreated. case_bool_decide; [done|]. by rewrite !Hc.
Qed.

Lemma status_invariant (p : Polkit) (s : Service) : invariant s -> invariant (status p s).2.
Proof.
  intros Hs. unfold status. destruct (p 0%nat ACTIVATE); [|done]. cbn [negb]. unfold base.
  destruct (getStatus version dateToString (m_base s)) as [json d] eqn:E.
  apply getStatus_state in E as (l & -> & _). exact Hs.
Qed.

Lemma service_invariant (e : Event) (s : Service) : valid e -> invariant s -> invariant (handle s e).
Proof.
  intros He Hs. destruct e as [p r| | |e]; cbn [handle].
  - destruct r; cbn [serve]; [done| | | |done|].
    + unfold activateJson. destruct (parseConfig _ _ _) as [config|]; [|done].
      rewrite activation_eq. pose proof (activation_invariant p config s Hs) as Ha.
      by destruct (activation p config s).
    + pose proof (deactivate_invariant p true s Hs) as Hd. by destruct (deactivate p 0 true s).
    + pose proof (status_invariant p s Hs). by destruct (status p s).
    + unfold cleanupLogs. by destruct (p 0%nat ACTIVATE).
  - destruct Hs as [Hc Ha]. unfold base. pose proof (handshake_connections (m_base s)) as Hh.
    destruct (handshakeTimeout (m_base s)) as [[] d]. cbn [snd] in *.
    split; [exact Hc|]. intros E. by apply Ha, Hh.
  - by apply deactivate_invariant.
  - destruct Hs as [Hc Ha]. split; [by apply SplitTunnel.handle_consistent|].
    intros E. change (SplitTunnel.m_excludedApps (SplitTunnel.handle e (m_split s)) = ∅).
    rewrite tracker_apps. by apply Ha.
Qed.

(** ** Properties *)

(** The applications that are to be outside the tunnel: those of the last activation that
    succeeded, until a caller who may do so deactivates, or an activation takes the old
    tunnel down and then fails. *)
Definition takenDown (p : Polkit) (config : InterfaceConfig) (s : Service) : bool :=
  p 0%nat ACTIVATE && p 0%nat DEACTIVATE
  && bool_decide (lookupHop (m_hopType config) (m_connections (m_base s)) <> None)
  && negb (supportServerSwitching config (m_base s)).

Definition appsAfter (s : Service) (apps : list chars) (e : Event) : list chars :=
  match e with
  | Called p (Activate json) =>
      match parseConfig sort (default [] (fromBytes json)) (emptyConfig hop0) with
      | None => apps
      | Some config =>
          match (activate p config s).1 with
          | Ret true => m_vpnDisabledApps config
          | _ => if takenDown p config s then [] else apps
          end
      end
  | Called p Deactivate => if p 0%nat DEACTIVATE then [] else apps
  | QuitRequested => []
  | _ => apps
  end.

Fixpoint lastApps (l : list Event) (s : Service) (apps : list chars) : list chars :=
  match l with
  | [] => apps
  | e :: l => lastApps l (handle s e) (appsAfter s apps e)
  end.

(** What the service remembers of the applications. *)
Definition remembers (apps : list chars) (s : SplitTunnel.Service) : Prop :=
  forall id, SplitTunnel.m_excludedApps s !! id = Some SplitTunnel.Excluded
             <-> id ∈ map desktopFileId apps.

Lemma cleared_remembers (s : SplitTunnel.Service) : remembers [] (SplitTunnel.clearAppStates s).
Proof. intros id. cbn. rewrite lookup_empty. split; [done|by intros ?%not_elem_of_nil]. Qed.

Lemma applied_apps (l : list chars) (s : SplitTunnel.Service) :
  SplitTunnel.m_excludedApps (foldl (SplitTunnel.applyState SplitTunnel.Excluded) s l)
  = SplitTunnel.m_excludedApps s.
Proof. apply SplitTunnel.applyState_foldl. Qed.

Lemma excluded_remembers (apps : list chars) (s : SplitTunnel.Service) :
  remembers apps (SplitTunnel.excludeApps apps s).
Proof.
  unfold SplitTunnel.excludeApps. pose proof (cleared_remembers s) as Hs.
  change apps with ([] ++ apps) at 1. revert Hs. generalize (SplitTunnel.clearAppStates s).
  generalize (@nil chars) as before. clear s. induction apps as [|a apps IH]; intros before s Hs.
  { by rewrite app_nil_r. }
  cbn [foldl]. rewrite cons_middle, app_assoc. apply IH. intros id. cbn.
  rewrite applied_apps. cbn. rewrite map_app, elem_of_app. cbn. rewrite list_elem_of_singleton.
  destruct (decide (desktopFileId a = id)) as [->|Hne].
  - rewrite lookup_insert_eq. split; [by right|done].
  - rewrite lookup_insert_ne by done. rewrite (Hs id). split; [by left|by intros [?| ->]].
Qed.

(** What an activation makes of the applications. *)
Lemma activation_split (p : Polkit) (config : InterfaceConfig) (s : Service) :
  let '(b, s') := activation p config s in
  if b then exists t, m_split s' = SplitTunnel.excludeApps (m_vpnDisabledApps config) t
  else m_split s' = if takenDown p config s then SplitTunnel.clearAppStates (m_split s)
                    else m_split s.
Proof.
  assert (forall r t, let '(b, s') := finish config r t in
    if b then exists u, m_split s' = SplitTunnel.excludeApps (m_vpnDisabledApps config) u
    else m_split s' = m_split t) as Hf by (intros [[] d] t; cbn; [by eexists|done]).
  unfold activation, takenDown. destruct (p 0%nat ACTIVATE); cbn [negb andb]; [|done].
  destruct (lookupHop _ (m_connections (m_base s))) as [c|].
  2: { rewrite bool_decide_false by tauto. rewrite andb_false_r. cbn [andb].
       pose proof (Hf (guarded (bringUp config (m_base s))) s) as H'.
       by destruct (finish _ _ _) as [[] ?]. }
  rewrite bool_decide_true by done.
  destruct (supportServerSwitching config (m_base s)); cbn [negb andb]; rewrite ?andb_false_r.
  { pose proof (Hf (guarded (switchPlan config (m_config c) (m_base s))) s) as H'.
    by destruct (finish _ _ _) as [[] ?]. }
  destruct (p 0%nat DEACTIVATE); cbn [negb andb]; [|done].
  destruct (teardownPlan false (m_base s)) as [[] d]; [|done].
  unfold reactivate. set (s1 := setBase d _). destruct (p 1%nat ACTIVATE); cbn [negb]; [|done].
  pose proof (Hf (guarded (bringUp config (m_base s1))) s1) as H'.
  destruct (finish config (guarded _) s1) as [[] s2]; [cbn; by eexists|exact H'].
Qed.

Lemma handle_remembers (e : Event) (apps : list chars) (s : Service) :
  remembers apps (m_split s) -> remembers (appsAfter s apps e) (m_split (handle s e)).
Proof.
  assert (forall emitSignals p, m_split (deactivate p 0 emitSignals s).2
    = if p 0%nat DEACTIVATE then SplitTunnel.clearAppStates (m_split s) else m_split s) as Hd.
  { intros emitSignals p. unfold deactivate. destruct (p 0%nat DEACTIVATE); cbn [negb]; [|done].
    unfold base. by destruct (Daemon.deactivate emitSignals _) as [b d]. }
  intros Hs. destruct e as [p r| | |e]; cbn [handle appsAfter].
  - destruct r as [|json| | | |]; cbn [serve]; [done| | | |done|].
    + unfold activateJson. destruct (parseConfig _ _ _) as [config|]; [|done].
      pose proof (activation_split p config s) as Ha. rewrite activation_eq.
      destruct (activation p config s) as [[] s']; cbn [fst snd] in *.
      * destruct Ha as [t ->]. apply excluded_remembers.
      * rewrite Ha. destruct (takenDown p config s); [apply cleared_remembers|done].
    + specialize (Hd true p). destruct (deactivate p 0 true s) as [b s']. cbn [snd] in *.
      rewrite Hd. destruct (p 0%nat DEACTIVATE); [apply cleared_remembers|done].
    + unfold status. destruct (p 0%nat ACTIVATE); [|done]. cbn [negb]. unfold base.
      by destruct (getStatus version dateToString (m_base s)).
    + unfold cleanupLogs. by destruct (p 0%nat ACTIVATE).
  - unfold base. by destruct (handshakeTimeout (m_base s)).
  - rewrite Hd. apply cleared_remembers.
  - intros id. change (m_split (withSplit _ s)) with (SplitTunnel.handle e (m_split s)).
    rewrite tracker_apps. apply Hs.
Qed.

Lemma run_remembers (l : list Event) (apps : list chars) (s : Service) :
  remembers apps (m_split s) -> remembers (lastApps l s apps) (m_split (run l s)).
Proof.
  revert apps s. induction l as [|e l IH]; intros apps s Hs; [done|].
  apply IH. by apply handle_remembers.
Qed.

(** C34: whatever callers ask, polkit allows, the backend answers and the tracker tells,
    the control groups sent around the tunnel are exactly the running groups of the
    applications of the last activation that succeeded; of none, once a caller who may
    do so has deactivated or an activation has taken the tunnel down and failed. And
    none is without a connection. *)
Theorem exclusions_current (mount : chars) (l : list Event) :
  Forall valid l ->
  let s := run l (initial mount) in
  let apps := lastApps l (initial mount) [] in
  (forall g, g ∈ SplitTunnel.outside (m_split s)
             <-> exists id app, SplitTunnel.m_runningCgroups (m_split s) !! g = Some id
                 /\ app ∈ apps /\ text id = desktopFileId app)
  /\ (m_connections (m_base s) = noConnections -> SplitTunnel.outside (m_split s) = ∅).
Proof.
  intros Hl s apps. assert (invariant s) as [(_ & Hg & _) Ha].
  { assert (invariant (initial mount)) as Hi
      by (split; [apply SplitTunnel.initial_consistent|done]).
    revert Hi. subst s. generalize (initial mount). clear apps.
    induction Hl as [|e l He _ IH]; intros s Hi; [done|]. apply IH. by apply service_invariant. }
  assert (remembers apps (m_split s)) as Hr
    by (apply run_remembers; intros id; cbn; rewrite lookup_empty; split;
        [done|by intros ?%not_elem_of_nil]).
  split.
  - intros g. rewrite Hg, SplitTunnel.elem_of_excludedRunning. split.
    + intros (id & Hid & He). apply Hr in He. apply list_elem_of_In, in_map_iff in He.
      destruct He as (app & E & Happ). exists id, app.
      split_and!; [done|by apply list_elem_of_In|done].
    + intros (id & app & Hid & Happ & E). exists id. split; [done|]. apply Hr. rewrite E.
      apply list_elem_of_In, in_map_iff. exists app. split; [done|by apply list_elem_of_In].
  - intros E. rewrite Hg. apply set_eq. intros g.
    rewrite SplitTunnel.elem_of_excludedRunning, (Ha E). set_solver.
Qed.

(** *** What a success leaves *)

(** The connection is recorded and its handshake is polled. *)
Definition awaiting (config : InterfaceConfig) (d : Daemon) : Prop :=
  lookupHop (m_hopType config) (m_connections d) = Some (mkConnectionState None config)
  /\ m_handshakeTimer d = true.

Lemma registered_awaiting (config : InterfaceConfig) (d : Daemon) :
  awaiting config (registered config d).
Proof. split; [|done]. cbn. rewrite lookup_insertHop. by bd_true. Qed.

Lemma bringUp_awaiting (config : InterfaceConfig) (d : Daemon) :
  (guarded (bringUp config d)).1 = true -> awaiting config (guarded (bringUp config d)).2.
Proof.
  rewrite bringUp_eq. cbv zeta. destruct (execute _ _) as [[] t]; [|done]. intros _.
  apply registered_awaiting.
Qed.

Lemma switchPlan_awaiting (config last : InterfaceConfig) (d : Daemon) :
  (guarded (switchPlan config last d)).1 = true ->
  awaiting config (guarded (switchPlan config last d)).2.
Proof.
  unfold switchPlan. destruct (execute [UpdatePeer config] (trace d)) as [[] t1]; [|done].
  destruct (execute (map UpdateRoutePrefix _) t1) as [ok t2].
  destruct (execute (if sameKey config last then _ else _) _) as [[] t3]; [|done].
  destruct (execute _ t3) as [[] t4]; [|done]. intros _. apply registered_awaiting.
Qed.

Lemma activation_awaiting (p : Polkit) (config : InterfaceConfig) (s : Service) :
  (activation p config s).1 = true -> awaiting config (m_base (activation p config s).2).
Proof.
  assert (forall r t, (r.1 = true -> awaiting config (r.2)) ->
    (finish config r t).1 = true -> awaiting config (m_base (finish config r t).2)) as Hf
    by (intros [[] d] t Hr; [by intros _; apply Hr|done]).
  unfold activation. destruct (p 0%nat ACTIVATE); [|done]. cbn [negb].
  destruct (lookupHop _ (m_connections (m_base s))) as [c|];
    [|by apply Hf, bringUp_awaiting].
  destruct (supportServerSwitching config (m_base s)); [by apply Hf, switchPlan_awaiting|].
  destruct (p 0%nat DEACTIVATE); [|done]. cbn [negb].
  destruct (teardownPlan false (m_base s)) as [[] d]; [|done].
  unfold reactivate. destruct (p 1%nat ACTIVATE); [|done]. cbn [negb].
  set (s1 := setBase d _). change (m_base s1) with d.
  pose proof (bringUp_awaiting config d) as Hb. destruct (finish config _ s1) as [b s2] eqn:E. injection E as Eb E2.
  destruct b; [|done]. apply Hf. intros _. rewrite Eb in Hb. subst s2. rewrite Eb.
  by apply Hb.
Qed.

(** *** Callers who are refused *)

Definition actionOf (r : Request) : option chars :=
  match r with
  | Version => None
  | Deactivate => Some DEACTIVATE
  | Activate _ | Status | GetLogs | CleanupLogs => Some ACTIVATE
  end.

Definition refusal (r : Request) : Reply :=
  match r with
  | Activate _ | Deactivate => BoolReply false
  | Version | Status | GetLogs => TextReply []
  | CleanupLogs => EmptyReply
  end.

(** The call is not refused at once. *)
Definition allowed (e : Event) : Prop :=
  match e with
  | Called p r => match actionOf r with Some a => p 0%nat a = true | None => True end
  | _ => True
  end.

#[local] Instance allowed_dec (e : Event) : Decision (allowed e).
Proof. destruct e as [p []| | |]; cbn; apply _. Defined.

Definition answer1 (s : Service) (e : Event) : list (Polkit * Request * Outcome Reply) :=
  match e with Called p r => [(p, r, fst (serve p r s))] | _ => [] end.

(** The answers to the calls of a run. *)
Fixpoint answers (l : list Event) (s : Service) : list (Polkit * Request * Outcome Reply) :=
  match l with [] => [] | e :: r => answer1 s e ++ answers r (handle s e) end.

Definition allowedCall (a : Polkit * Request * Outcome Reply) : Prop :=
  allowed (Called a.1.1 a.1.2).

Lemma serve_refused (p : Polkit) (r : Request) (s : Service) :
  ~ allowed (Called p r) -> serve p r s = (Ret (refusal r), s).
Proof.
  destruct r; cbn [allowed actionOf]; intros Hp; try apply not_true_is_false in Hp; cbn [serve refusal].
  - by destruct Hp.
  - unfold activateJson. destruct (parseConfig _ _ _) as [config|]; [|done].
    rewrite activation_eq. unfold activation. by rewrite Hp.
  - unfold deactivate. by rewrite Hp.
  - unfold status. by rewrite Hp.
  - unfold getLogs. by rewrite Hp.
  - unfold cleanupLogs. by rewrite Hp.
Qed.

(** C10: the calls that polkit refuses are answered with a refusal and have no effect: the
    state of the service, the calls to its backend included, and the answers to all
    other calls are those of the run without them. *)
Theorem refused_no_effect (l : list Event) (s : Service) :
  run l s = run (filter allowed l) s
  /\ filter allowedCall (answers l s) = answers (filter allowed l) s
  /\ Forall (fun a => allowedCall a \/ a.2 = Ret (refusal a.1.2)) (answers l s).
Proof.
  revert s. induction l as [|e l IH]; intros s; [done|].
  change (run (e :: l) s) with (run l (handle s e)). cbn [answers].
  rewrite filter_app, Forall_app. destruct (decide (allowed e)) as [He|He].
  - rewrite filter_cons_True by done. destruct (IH (handle s e)) as (-> & -> & Ha).
    assert (filter allowedCall (answer1 s e) = answer1 s e) as ->
      by (destruct e; [cbn [answer1]; by rewrite filter_cons_True|done..]).
    split_and!; [done|done| |exact Ha]. destruct e as [p r| | |]; [|constructor..].
    apply Forall_singleton. by left.
  - rewrite filter_cons_False by done.
    assert (exists p r, e = Called p r) as (p & r & ->) by (destruct e; [by eexists _, _|done..]).
    assert (handle s (Called p r) = s) as -> by (cbn [handle]; by rewrite serve_refused).
    destruct (IH s) as (-> & -> & Ha). cbn [answer1]. rewrite serve_refused by done.
    rewrite filter_cons_False by done. split_and!; [done|done| |exact Ha].
    apply Forall_singleton. by right.
Qed.

(** *** Callers who are allowed *)

Definition granting (e : Event) : Prop :=
  match e with Called p _ => forall n a, p n a = true | _ => True end.

(** The daemon of DaemonModel on the same events. *)
Definition daemonEvent (d : Daemon) (e : Event) : Daemon :=
  match e with
  | Called _ (Activate json) =>
      snd (Daemon.activateJson sort hop0 (default [] (fromBytes json)) d)
  | Called _ Deactivate | QuitRequested => snd (Daemon.deactivate true d)
  | Called _ Status => snd (getStatus version dateToString d)
  | HandshakeTimer => snd (handshakeTimeout d)
  | _ => d
  end.

Definition daemonReply (d : Daemon) (r : Request) : Outcome Reply :=
  match r with
  | Version => Ret (TextReply protocolVersion)
  | Activate json =>
      b <~ fst (Daemon.activateJson sort hop0 (default [] (fromBytes json)) d) ;;
      Ret (BoolReply b)
  | Deactivate => Ret (BoolReply (fst (Daemon.deactivate true d)))
  | Status => Ret (TextReply (toCompact (fst (getStatus version dateToString d))))
  | GetLogs => Ret (TextReply logs)
  | CleanupLogs => Ret EmptyReply
  end.

Fixpoint daemonAnswers (l : list Event) (d : Daemon) : list (Outcome Reply) :=
  match l with
  | [] => []
  | e :: r =>
      (match e with Called _ q => [daemonReply d q] | _ => [] end)
      ++ daemonAnswers r (daemonEvent d e)
  end.

Lemma activate_granted (p : Polkit) (config : InterfaceConfig) (s : Service) :
  (forall n a, p n a = true) ->
  exists split, activate p config s
    = ((Daemon.activate config (m_base s)).1,
       s <| m_base := (Daemon.activate config (m_base s)).2 |> <| m_split := split |>).
Proof.
  intros Hp. rewrite activation_eq, activate_eq. unfold activation, activatePlan.
  rewrite !Hp. cbn [negb].
  assert (forall r (s : Service), exists split, finish config r s
            = (r.1, s <| m_base := r.2 |> <| m_split := split |>)) as Hf
    by (intros [[] d] t; by eexists).
  destruct (lookupHop _ (m_connections (m_base s))) as [c|].
  - destruct (supportServerSwitching config (m_base s)).
    { destruct (Hf (guarded (switchPlan config (m_config c) (m_base s))) s) as [x ->].
      exists x. by destruct (guarded _). }
    destruct (teardownPlan false (m_base s)) as [[] d] eqn:Et; [|by eexists].
    set (s1 := setBase d _). unfold reactivate. rewrite Hp. cbn [negb].
    change (m_base s1) with d.
    destruct (Hf (guarded (bringUp config d)) s1) as [x ->].
    destruct (guarded (bringUp config d)) as [[] d2] eqn:Eg; cbn [fst snd]; by eexists.
  - destruct (Hf (guarded (bringUp config (m_base s))) s) as [x ->].
    exists x. by destruct (guarded _).
Qed.

Lemma serve_granted (p : Polkit) (r : Request) (s : Service) :
  (forall n a, p n a = true) ->
  fst (serve p r s) = daemonReply (m_base s) r
  /\ m_base (snd (serve p r s)) = daemonEvent (m_base s) (Called p r).
Proof.
  intros Hp. destruct r; cbn [serve daemonReply daemonEvent]; [done| | | |..].
  - unfold activateJson, Daemon.activateJson. destruct (parseConfig _ _ _) as [config|]; [|done].
    destruct (activate_granted p config s Hp) as [x ->]. by destruct (Daemon.activate _ _).
  - unfold deactivate, base. rewrite Hp. cbn [negb].
    change (m_base (withSplit _ s)) with (m_base s). by destruct (Daemon.deactivate true (m_base s)).
  - unfold status, base. rewrite Hp. cbn [negb]. by destruct (getStatus _ _ _).
  - unfold getLogs. by rewrite Hp.
  - unfold cleanupLogs. by rewrite Hp.
Qed.

(** C9: for callers that polkit allows, the service is the daemon: whatever the events, the
    state of the base class, with the calls to the backend and the signals, and all
    answers are those of the daemon alone, although its virtual methods come back to the
    service. *)
Theorem service_refines (l : list Event) (s : Service) :
  Forall granting l ->
  m_base (run l s) = foldl daemonEvent (m_base s) l
  /\ map snd (answers l s) = daemonAnswers l (m_base s).
Proof.
  intros Hl. revert s. induction Hl as [|e l He _ IH]; intros s; [done|].
  change (run (e :: l) s) with (run l (handle s e)). cbn [answers daemonAnswers foldl].
  rewrite map_app. destruct (IH (handle s e)) as [-> ->].
  assert (m_base (handle s e) = daemonEvent (m_base s) e) as ->.
  { destruct e as [p r| | |e]; cbn [handle daemonEvent]; [by apply serve_granted| | |done].
    - unfold base. by destruct (handshakeTimeout (m_base s)).
    - unfold deactivate, base. cbn [negb notFromDBus].
      change (m_base (withSplit _ s)) with (m_base s).
      by destruct (Daemon.deactivate true (m_base s)). }
  split; [done|]. f_equal. destruct e as [p r| | |]; [|done..]. cbn [answer1 map snd].
  f_equal. by apply serve_granted.
Qed.

(** A caller who may activate but not deactivate cannot replace a connection whose keys or
    addresses change: the daemon keeps the old one. *)
Lemma reconnect_refused (p : Polkit) (config : InterfaceConfig) (s : Service) :
  p 0%nat ACTIVATE = true -> p 0%nat DEACTIVATE = false ->
  lookupHop (m_hopType config) (m_connections (m_base s)) <> None ->
  supportServerSwitching config (m_base s) = false ->
  exists s', activate p config s = (Ret false, s')
    /\ m_connections (m_base s') = m_connections (m_base s)
    /\ trace (m_base s') = trace (m_base s) /\ m_split s' = m_split s.
Proof.
  intros Ha Hd Hl Hs. rewrite activation_eq. unfold activation. rewrite Ha, Hd, Hs. cbn [negb].
  destruct (lookupHop _ _); [|done]. eexists. split; [done|]. by split_and!.
Qed.

End Service.

(** ** Examples *)

#[local] Existing Instance modelText.
#[local] Existing Instance modelJsonText.
#[local] Existing Instance accepting.

Definition everyone : Polkit := fun _ _ => true.

Definition runAll (l : list Event) (s : Service) : Service :=
  run (fun l => l) SingleHop (qs "1") [] (fun _ => []) [] l s.

Definition started : Service := initial (qs "/sys/fs/cgroup").

Definition excluding : InterfaceConfig :=
  serverA <| m_vpnDisabledApps := [qs "/usr/share/applications/firefox.desktop"] |>.

Definition activateExcluding : Event :=
  Called everyone (Activate (toCompact (toJson excluding))).

Definition outsideOf (s : Service) : gset chars := SplitTunnel.outside (m_split s).

Definition session : list Event :=
  [activateExcluding; Tracker SplitTunnel.launched; QuitRequested].

(** Another activation, without exclusions, while the application runs. *)
Definition again : list Event :=
  take 2 session ++ [Called everyone (Activate (toCompact (toJson serverA)))].

Definition appsOf (l : list Event) : list chars :=
  lastApps (fun l => l) SingleHop (qs "1") [] (fun _ => []) [] l started [].

Lemma appsOf_again : appsOf again = [].
Proof. vm_compute. reflexivity. Qed.

Lemma again_valid : Forall valid again.
Proof. repeat apply Forall_cons_2; [done|apply NoDup_singleton|done|constructor]. Qed.

Lemma exclusions_current_witness :
  m_connections (m_base (runAll again started)) <> noConnections
  /\ forall g, g ∉ outsideOf (runAll again started).
Proof.
  split; [by vm_compute|]. intros g.
  destruct (exclusions_current (fun l => l) SingleHop (qs "1") [] (fun _ => []) []
    (qs "/sys/fs/cgroup") again again_valid) as [H _].
  unfold outsideOf, runAll, started. intros Hg. apply H in Hg as (id & app & _ & Happ & _).
  change (app ∈ appsOf again) in Happ. rewrite appsOf_again in Happ. by apply not_elem_of_nil in Happ.
Defined.

(** The excluded application is outside the tunnel while it is up. *)
Example excluded_outside :
  outsideOf (runAll (take 2 session) started) = {[ "/"%char :: SplitTunnel.scopeName ]}.
Proof. by_decision. Qed.

Lemma service_refines_witness :
  let l := [activateExcluding; HandshakeTimer; Called everyone Deactivate] in
  map snd (answers (fun l => l) SingleHop (qs "1") [] (fun _ => []) [] l started)
  = [Ret (BoolReply true); Ret (BoolReply true)].
Proof.
  intros l.
  destruct (service_refines (fun l => l) SingleHop (qs "1") [] (fun _ => []) [] l started)
    as [_ E]; [by repeat constructor|].
  etransitivity; [exact E|]. vm_compute. reflexivity.
Defined.

End DBusService.
