(* ===== verification/LocalSocket.v ===== *)
(** * The client's side of the local socket

    Model of [src/src/localsocketcontroller.cpp]: messages framed by lines, the
    connection attempts with their backoff, the state of the daemon and the timers of
    the answers. The socket is what [abort] and [connectToServer] do at once, an
    argument, and events. *)
From Stdlib Require Import ZArith Lia Ascii String.
From stdpp Require Import base numbers list gmap strings.
From S2P Require Import Prelude QHostAddress QString QtTextModel QStringExtra IPAddress.
From S2P Require Import Json JsonText InterfaceConfig.

Local Open Scope Z_scope.
Local Open Scope wg_scope.

Module LocalSocket.

(** ** State *)

Inductive DaemonState : Type := eUnknown | eInitializing | eReady | eDisconnected.

#[export] Instance DaemonState_eq_dec : EqDecision DaemonState.
Proof. solve_decision. Defined.

Inductive SocketState : Type := Unconnected | Connecting | Connected.

#[export] Instance SocketState_eq_dec : EqDecision SocketState.
Proof. solve_decision. Defined.

(** Signals, and calls of the socket and of the receiver of the logs. *)
Inductive Effect : Type :=
| Initialized (status connected : bool) (date : option Z)
| ConnectedSignal (pubkey : chars)
| DisconnectedSignal
| BackendFailure (code : Z)
| StatusUpdated (o : QJsonObject)
| DeviceWrite (device : Z) (text : chars)
| DeviceClose (device : Z)
| SocketAbort
| SocketConnect
| SocketWrite (payload : chars).

#[export] Instance Effect_eq_dec : EqDecision Effect.
Proof. solve_decision. Defined.

(** [m_initializingTimer] is its interval while it is armed; a response timer is
    its [responseType] and its timeout. *)
Record Client : Type := mkClient {
  m_daemonState : DaemonState;
  m_socket : SocketState;
  m_buffer : chars;
  m_logReceiver : option Z;
  m_initializingTimer : option Z;
  m_initializingInterval : Z;
  m_splitTunnelSupported : bool;
  m_responseTimeouts : list (chars * Z);
  effects : list Effect;
}.

#[export] Instance Client_eta : Eta Client := fun c =>
  mkClient (m_daemonState c) (m_socket c) (m_buffer c) (m_logReceiver c)
    (m_initializingTimer c) (m_initializingInterval c) (m_splitTunnelSupported c)
    (m_responseTimeouts c) (effects c).

Definition CONNECTION_RETRY_INITIAL_MSEC : Z := 500.
Definition CONNECTION_RETRY_MAXIMUM_MSEC : Z := 16000.
Definition CONNECTION_RESPONSE_TIMEOUT_MSEC : Z := 500.

(** The constructor. *)
Definition initial : Client :=
  mkClient eUnknown Unconnected [] None None CONNECTION_RETRY_INITIAL_MSEC false [] [].

Definition emit (e : Effect) (c : Client) : Client := c <| effects := effects c ++ [e] |>.

(** ** Timers *)

Definition clearAllTimeouts (c : Client) : Client := c <| m_responseTimeouts := [] |>.

(** [clearTimeout]: the loop removes every timer of the type from the list it runs
    over. A removal that is not the last step of the loop leaves it with iterators of
    the old contents: its behaviour is undefined. *)
Definition clearTimeout (responseType : chars) (c : Client) : Outcome Client :=
  let matching := fun t : chars * Z => bool_decide (t.1 = responseType) in
  if existsb matching (removelast (m_responseTimeouts c)) then Undefined
  else Ret (c <| m_responseTimeouts :=
                   List.filter (fun t => negb (matching t)) (m_responseTimeouts c) |>).

Definition errorOccurred (c : Client) : Client :=
  let c := if bool_decide (m_daemonState c = eInitializing) then c
           else emit DisconnectedSignal (emit (BackendFailure 0) c) in
  let c := clearAllTimeouts c in
  c <| m_initializingTimer := Some (m_initializingInterval c) |>.

Definition disconnectInternal (c : Client) : Client :=
  emit DisconnectedSignal (c <| m_daemonState := eReady |> <| m_initializingTimer := None |>).

(** ** Messages to the daemon *)

Section Protocol.
Context `{QtText} `{QtJsonText}.

(** [QDateTime::fromString]: [None] for a date that is not valid. *)
Variable dateFromString : chars -> option Z.

(** Whether [abort] of a connected socket emits [disconnected] before it returns. *)
Variable abortDisconnects : bool.

Definition write (message : QJsonObject) (expectedResponseType : chars) (timeout : Z)
    (c : Client) : Client :=
  let c := if bool_decide (expectedResponseType = []) then c
           else c <| m_responseTimeouts :=
                       m_responseTimeouts c ++ [(expectedResponseType, timeout)] |> in
  emit (SocketWrite (messageLine message)) c.

Definition message (type : chars) : QJsonObject := insertKey (qs "type") (JString type) [].

Definition checkStatus (c : Client) : Client :=
  if bool_decide (m_daemonState c = eReady) || bool_decide (m_daemonState c = eInitializing)
  then write (message (qs "status")) (qs "status") CONNECTION_RESPONSE_TIMEOUT_MSEC c
  else c.

Definition activateMessage (config : InterfaceConfig) : QJsonObject :=
  insertKey (qs "type") (JString (qs "activate")) (toJson config).

Definition activate (config : InterfaceConfig) (c : Client) : Client :=
  write (activateMessage config) [] CONNECTION_RESPONSE_TIMEOUT_MSEC c.

Definition deactivate (c : Client) : Client :=
  if negb (bool_decide (m_daemonState c = eReady)) then emit DisconnectedSignal c
  else write (message (qs "deactivate")) [] CONNECTION_RESPONSE_TIMEOUT_MSEC c.

Definition closeReceiver (c : Client) : Client :=
  match m_logReceiver c with
  | Some device => (emit (DeviceClose device) c) <| m_logReceiver := None |>
  | None => c
  end.

Definition getBackendLogs (device : Z) (c : Client) : Client :=
  let c := closeReceiver c in
  if negb (bool_decide (m_daemonState c = eReady)) then emit (DeviceClose device) c
  else (write (message (qs "logs")) [] CONNECTION_RESPONSE_TIMEOUT_MSEC c)
       <| m_logReceiver := Some device |>.

Definition cleanupBackendLogs (c : Client) : Client :=
  if negb (bool_decide (m_daemonState c = eReady)) then c
  else write (message (qs "cleanlogs")) (qs "logs") 5000 c.

(** ** Connecting *)

(** What [connectToServer] does before it returns: it emits [connected], or
    [errorOccurred], or neither. *)
Inductive Attempt : Type := Succeeds | Fails | Pends.

Definition daemonConnected (c : Client) : Client := checkStatus c.

Definition abort (c : Client) : Client :=
  let wasConnected := bool_decide (m_socket c = Connected) in
  let c := emit SocketAbort (c <| m_socket := Unconnected |>) in
  if wasConnected && abortDisconnects then errorOccurred c else c.

Definition connectToServer (attempt : Attempt) (c : Client) : Client :=
  let c := emit SocketConnect c in
  match attempt with
  | Succeeds => daemonConnected (c <| m_socket := Connected |>)
  | Fails => errorOccurred c
  | Pends => c <| m_socket := Connecting |>
  end.

Definition initializeInternal (attempt : Attempt) (c : Client) : Client :=
  let c :=
    if negb (bool_decide (m_daemonState c = eInitializing))
    then c <| m_initializingInterval := CONNECTION_RETRY_INITIAL_MSEC |>
    else if m_initializingInterval c <? CONNECTION_RETRY_MAXIMUM_MSEC
    then c <| m_initializingInterval := u32 (m_initializingInterval c * 2) |>
    else c in
  let c := c <| m_daemonState := eInitializing |> in
  connectToServer attempt (abort c).

(** ** Messages from the daemon *)

Definition features (obj : QJsonObject) : list chars :=
  if hasKey (qs "features") obj
  then map (fun v => text (toQString v)) (toArray (value (qs "features") obj)) else [].

(** The first status after a connection. *)
Definition firstStatus (obj : QJsonObject) (c : Client) : Client :=
  let c := c <| m_daemonState := eReady |> in
  match value (qs "connected") obj with
  | JBool false => emit (Initialized true false None) c
  | JBool true =>
      match value (qs "date") obj with
      | JString date =>
          match dateFromString date with
          | Some datetime => emit (Initialized true true (Some datetime)) c
          | None => c
          end
      | _ => c
      end
  | _ => c
  end.

Definition logsReceived (obj : QJsonObject) (c : Client) : Client :=
  match m_logReceiver c with
  | None => c
  | Some device =>
      let logString := match value (qs "logs") obj with
                       | JString logs => replaceChar "|" newline logs
                       | _ => []
                       end in
      closeReceiver (emit (DeviceWrite device logString) c)
  end.

(** The commands of a daemon that is ready. *)
Definition readyCommand (type : chars) (obj : QJsonObject) (c : Client) : Client :=
  if bool_decide (type = qs "status") then emit (StatusUpdated obj) c
  else if bool_decide (type = qs "disconnected") then disconnectInternal c
  else if bool_decide (type = qs "connected") then
    match value (qs "pubkey") obj with
    | JString pubkey => emit (ConnectedSignal pubkey) c
    | _ => c
    end
  else if bool_decide (type = qs "backendFailure") then
    emit (BackendFailure (jsonToInt (value (qs "errorCode") obj))) c
  else if bool_decide (type = qs "logs") then logsReceived obj c
  else c.

(** A command, once its timer is cleared. *)
Definition execute (type : chars) (obj : QJsonObject) (c : Client) : Client :=
  let isStatus := bool_decide (type = qs "status") in
  let c := if isStatus
           then c <| m_splitTunnelSupported := bool_decide (qs "splitTunnel" ∈ features obj) |>
           else c in
  if isStatus && bool_decide (m_daemonState c = eInitializing) then firstStatus obj c
  else if negb (bool_decide (m_daemonState c = eReady)) then c
  else readyCommand type obj c.

Definition parseCommand (command : chars) (c : Client) : Outcome Client :=
  match fromBytes command with
  | None => Ret c
  | Some obj =>
      match value (qs "type") obj with
      | JString type => c <~ clearTimeout type c ;; Ret (execute type obj c)
      | _ => Ret c
      end
  end.

Fixpoint readLoop (fuel : nat) (c : Client) : Outcome Client :=
  match fuel with
  | O => OutOfFuel
  | S fuel =>
      let pos := indexOf newline (m_buffer c) in
      if pos =? -1 then Ret c
      else
        let line := left (m_buffer c) pos in
        let c := c <| m_buffer := mid (m_buffer c) (pos + 1) |> in
        let command := trimmedBytes line in
        if bool_decide (command = []) then readLoop fuel c
        else c <~ parseCommand command c ;; readLoop fuel c
  end.

(** [readData]; [input] is what [readAll] returns. *)
Definition readData (input : chars) (c : Client) : Outcome Client :=
  let c := c <| m_buffer := m_buffer c ++ input |> in
  readLoop (S (length (m_buffer c))) c.

(** ** Events *)

Inductive Event : Type :=
| Initialize (attempt : Attempt)
| InitializingTimeout (attempt : Attempt)
| ResponseTimeout (i : nat)
| SocketConnected
| SocketError
| SocketDisconnected
| Received (input : chars)
| Activate (config : InterfaceConfig)
| Deactivate
| CheckStatus
| GetBackendLogs (device : Z)
| CleanupBackendLogs.

(** When an event can occur. A pending connection that fails leaves the socket
    unconnected, as does a disconnection. *)
Definition enabled (e : Event) (c : Client) : bool :=
  match e with
  | Initialize _ => bool_decide (m_daemonState c = eUnknown)
  | InitializingTimeout _ => bool_decide (m_initializingTimer c <> None)
  | ResponseTimeout i => (i <? length (m_responseTimeouts c))%nat
  | SocketConnected => bool_decide (m_socket c = Connecting)
  | SocketDisconnected | Received _ => bool_decide (m_socket c = Connected)
  | _ => true
  end.

Definition handle (e : Event) (c : Client) : Outcome Client :=
  match e with
  | Initialize attempt => Ret (initializeInternal attempt c)
  | InitializingTimeout attempt =>
      Ret (initializeInternal attempt (c <| m_initializingTimer := None |>))
  | ResponseTimeout _ => Ret (errorOccurred c)
  | SocketConnected => Ret (daemonConnected (c <| m_socket := Connected |>))
  | SocketError =>
      Ret (errorOccurred (if bool_decide (m_socket c = Connecting)
                          then c <| m_socket := Unconnected |> else c))
  | SocketDisconnected => Ret (errorOccurred (c <| m_socket := Unconnected |>))
  | Received input => readData input c
  | Activate config => Ret (activate config c)
  | Deactivate => Ret (deactivate c)
  | CheckStatus => Ret (checkStatus c)
  | GetBackendLogs device => Ret (getBackendLogs device c)
  | CleanupBackendLogs => Ret (cleanupBackendLogs c)
  end.

Inductive reachable : Client -> Prop :=
| reachable_initial : reachable initial
| reachable_step c e c' : reachable c -> enabled e c = true -> handle e c = Ret c' ->
    reachable c'.

(** ** Reading *)

Fixpoint runCommands (commands : list chars) (c : Client) : Outcome Client :=
  match commands with
  | [] => Ret c
  | command :: r => c <~ parseCommand command c ;; runCommands r c
  end.

Definition setBuffer (b : chars) (c : Client) : Client := c <| m_buffer := b |>.

(** The result with another buffer. *)
Definition buffered (b : chars) (o : Outcome Client) : Outcome Client :=
  c <~ o ;; Ret (setBuffer b c).

Lemma runCommands_app (l l' : list chars) (c : Client) :
  runCommands (l ++ l') c = (c <~ runCommands l c ;; runCommands l' c).
Proof.
  revert c. induction l as [|x l IH]; intros c; [done|]. cbn [app runCommands].
  destruct (parseCommand x c); cbn [outcome_bind]; [apply IH|done..].
Qed.

(** The commands neither read nor change the buffer. *)
Lemma clearTimeout_buffer (type b : chars) (c : Client) :
  clearTimeout type (setBuffer b c) = buffered b (clearTimeout type c).
Proof.
  unfold clearTimeout, buffered. change (m_responseTimeouts (setBuffer b c)) with
    (m_responseTimeouts c). by destruct (existsb _ _).
Qed.

Lemma firstStatus_buffer (obj : QJsonObject) (b : chars) (c : Client) :
  firstStatus obj (setBuffer b c) = setBuffer b (firstStatus obj c).
Proof. unfold firstStatus. case_all. Qed.

Lemma readyCommand_buffer (type : chars) (obj : QJsonObject) (b : chars) (c : Client) :
  readyCommand type obj (setBuffer b c) = setBuffer b (readyCommand type obj c).
Proof.
  unfold readyCommand, logsReceived, closeReceiver. cbn [m_logReceiver setBuffer].
  destruct c as [st so bu [dev|] it ii sp rt ef]; case_all.
Qed.

Lemma execute_buffer (type : chars) (obj : QJsonObject) (b : chars) (c : Client) :
  execute type obj (setBuffer b c) = setBuffer b (execute type obj c).
Proof.
  unfold execute. set (supported := bool_decide (qs "splitTunnel" ∈ features obj)).
  destruct (bool_decide (type = _)); cbn [andb].
  - change (m_daemonState (_ <| m_splitTunnelSupported := _ |>)) with (m_daemonState c).
    case_bool_decide; [exact (firstStatus_buffer obj b (c <| m_splitTunnelSupported := supported |>))|].
    case_match; [done|].
    exact (readyCommand_buffer type obj b (c <| m_splitTunnelSupported := supported |>)).
  - change (m_daemonState (setBuffer b c)) with (m_daemonState c).
    case_match; [done|apply readyCommand_buffer].
Qed.

Lemma parseCommand_buffer (command b : chars) (c : Client) :
  parseCommand command (setBuffer b c) = buffered b (parseCommand command c).
Proof.
  unfold parseCommand. destruct (fromBytes command) as [obj|]; [|done].
  destruct (value (qs "type") obj) as [| | | |type| |]; try done.
  rewrite clearTimeout_buffer. unfold buffered.
  destruct (clearTimeout type c) as [c1| |]; cbn [outcome_bind]; [by rewrite execute_buffer|done..].
Qed.

Lemma runCommands_buffer (commands : list chars) (b : chars) (c : Client) :
  runCommands commands (setBuffer b c) = buffered b (runCommands commands c).
Proof.
  revert c. induction commands as [|x l IH]; intros c; [done|]. cbn [runCommands].
  rewrite parseCommand_buffer. unfold buffered at 1.
  destruct (parseCommand x c); cbn [outcome_bind]; [apply IH|done..].
Qed.

Lemma parseCommand_keeps (command : chars) (c c' : Client) :
  parseCommand command c = Ret c' -> m_buffer c' = m_buffer c.
Proof.
  assert (c = setBuffer (m_buffer c) c) as E by (by destruct c).
  rewrite E at 1. rewrite parseCommand_buffer. unfold buffered.
  by destruct (parseCommand command c); intros [= <-].
Qed.

Lemma setBuffer_id (c : Client) : setBuffer (m_buffer c) c = c.
Proof. by destruct c. Qed.

(** Enough fuel: one unit for each line and one to stop. *)
Lemma readLoop_frames (fuel : nat) (c : Client) :
  (length (m_buffer c) < fuel)%nat ->
  readLoop fuel c = buffered (snd (frames (m_buffer c))) (runCommands (fst (frames (m_buffer c))) c).
Proof.
  revert c. induction fuel as [|fuel IH]; intros c Hf; [lia|]. cbn [readLoop].
  destruct (indexOf_newline (m_buffer c)) as [[-> Hn]|(a & b & E & Ha & Hi & Hl & Hm)].
  - rewrite frames_none by done. cbn. by rewrite setBuffer_id.
  - rewrite (proj2 (Z.eqb_neq _ _) Hi), Hl, Hm, E, frames_cons by done.
    rewrite E, length_app in Hf. cbn [length] in Hf. unfold lineCommand.
    change (c <| m_buffer := b |>) with (setBuffer b c). cbn [fst snd].
    assert (forall l r o, buffered r (runCommands l (setBuffer b o)) = buffered r (runCommands l o))
      as Hb.
    { intros l r o. rewrite runCommands_buffer. unfold buffered. by destruct (runCommands l o). }
    case_bool_decide.
    + rewrite IH by (cbn; lia). cbn [app]. apply Hb.
    + rewrite parseCommand_buffer. unfold buffered at 1. cbn [app runCommands].
      destruct (parseCommand (trimmedBytes a) c) as [c1| |]; cbn [outcome_bind]; [|done..].
      rewrite IH by (cbn; lia). apply Hb.
Qed.

Lemma readData_frames (input : chars) (c : Client) :
  readData input c
  = buffered (snd (frames (m_buffer c ++ input))) (runCommands (fst (frames (m_buffer c ++ input))) c).
Proof.
  unfold readData. rewrite readLoop_frames by apply Nat.lt_succ_diag_r.
  change (c <| m_buffer := m_buffer c ++ input |>) with (setBuffer (m_buffer c ++ input) c).
  rewrite runCommands_buffer. unfold buffered. by destruct (runCommands _ c).
Qed.

(** Data arriving in several pieces. *)
Fixpoint readAllData (chunks : list chars) (c : Client) : Outcome Client :=
  match chunks with
  | [] => Ret c
  | input :: r => c <~ readData input c ;; readAllData r c
  end.

Lemma readAllData_frames (chunks : list chars) (c : Client) :
  newline ∉ m_buffer c ->
  readAllData chunks c
  = let '(commands, rest) := frames (m_buffer c ++ concat chunks) in
    buffered rest (runCommands commands c).
Proof.
  revert c. induction chunks as [|input chunks IH]; intros c Hc; cbn [concat readAllData].
  - rewrite app_nil_r, frames_none by done. cbn. by rewrite setBuffer_id.
  - rewrite readData_frames, app_assoc, (frames_app (m_buffer c ++ input)), runCommands_app.
    pose proof (frames_rest (m_buffer c ++ input)) as Hr.
    destruct (frames (m_buffer c ++ input)) as [l r]. cbn [fst snd] in *. unfold buffered at 1.
    destruct (runCommands l c) as [c1| |]; cbn [outcome_bind]; [|done..].
    rewrite IH by exact Hr. change (m_buffer (setBuffer r c1)) with r.
    destruct (frames (r ++ concat chunks)) as [l' r']. cbn [fst snd].
    rewrite runCommands_buffer. unfold buffered. by destruct (runCommands l' c1).
Qed.

(** However the bytes of the daemon are split, reading them has the effect of the whole
    text at once: the commands of its non-empty lines in order, each once, with the
    unfinished line kept, up to one whose behaviour is undefined. *)
Theorem readData_chunks (chunks : list chars) (c : Client) :
  newline ∉ m_buffer c ->
  readAllData chunks c
  = (let '(commands, rest) := frames (m_buffer c ++ concat chunks) in
     buffered rest (runCommands commands c))
  /\ readAllData chunks c = readData (concat chunks) c.
Proof.
  intros Hc. rewrite readAllData_frames by done. split; [done|].
  rewrite readData_frames. by destruct (frames _).
Qed.

(** ** Connection attempts *)

(** The intervals of the backoff. *)
Definition intervals : list Z := [500; 1000; 2000; 4000; 8000; 16000].

Definition statusPending (c : Client) : Prop :=
  exists timeout, (qs "status", timeout) ∈ m_responseTimeouts c.

(** Something will happen: an attempt is scheduled or under way, or the daemon has
    answered or is bound to answer within a timeout. *)
Definition trying (c : Client) : Prop :=
  m_initializingTimer c <> None \/ m_socket c = Connecting
  \/ (m_socket c = Connected /\ (m_daemonState c = eReady \/ statusPending c)).

(** The members that the attempts use. *)
Definition bounded (c : Client) : Prop :=
  m_daemonState c <> eDisconnected /\ m_initializingInterval c ∈ intervals
  /\ (forall i, m_initializingTimer c = Some i -> i ∈ intervals).

Definition invariant (c : Client) : Prop :=
  bounded c /\ (m_daemonState c = eUnknown \/ trying c).

Lemma errorOccurred_invariant (c : Client) : bounded c -> invariant (errorOccurred c).
Proof.
  intros (Hs & Hi & _). unfold errorOccurred.
  assert (forall c, m_daemonState c <> eDisconnected -> m_initializingInterval c ∈ intervals ->
            invariant ((clearAllTimeouts c) <| m_initializingTimer := Some (m_initializingInterval c) |>))
    as Hgen by (intros c' ? ?; repeat split; [done..|by intros i [= <-]|by right; left]).
  case_bool_decide; [exact (Hgen c Hs Hi)|].
  exact (Hgen (emit DisconnectedSignal (emit (BackendFailure 0) c)) Hs Hi).
Qed.

Lemma invariant_pending (c c' : Client) :
  m_daemonState c' = m_daemonState c -> m_socket c' = m_socket c ->
  m_initializingTimer c' = m_initializingTimer c ->
  m_initializingInterval c' = m_initializingInterval c ->
  (statusPending c -> statusPending c') -> invariant c -> invariant c'.
Proof.
  unfold invariant, bounded, trying. intros -> -> -> -> Hp [Hb Ht]. split; [done|]. tauto.
Qed.

Lemma write_invariant (o : QJsonObject) (type : chars) (timeout : Z) (c : Client) :
  invariant c -> invariant (write o type timeout c).
Proof.
  intros Hc. unfold write. case_bool_decide; [done|].
  revert Hc. apply invariant_pending; try done.
  intros [t Hp]. exists t. cbn. apply elem_of_app. by left.
Qed.

Lemma clearTimeout_inv (type : chars) (c c' : Client) :
  clearTimeout type c = Ret c' ->
  c' = c <| m_responseTimeouts :=
              List.filter (fun t => negb (bool_decide (t.1 = type))) (m_responseTimeouts c) |>.
Proof. unfold clearTimeout. by destruct (existsb _ _); intros [= <-]. Qed.

Lemma clearTimeout_invariant (type : chars) (c c' : Client) :
  clearTimeout type c = Ret c' -> type <> qs "status" -> invariant c -> invariant c'.
Proof.
  intros ->%clearTimeout_inv Hn. apply invariant_pending; [done..|]. intros [t Hp]. exists t.
  apply list_elem_of_In, List.filter_In. split; [by apply list_elem_of_In|].
  cbn [fst]. by rewrite bool_decide_false by congruence.
Qed.

Lemma checkStatus_invariant (c : Client) : invariant c -> invariant (checkStatus c).
Proof. intros Hc. unfold checkStatus. destruct (_ || _); [by apply write_invariant|done]. Qed.

Lemma daemonConnected_invariant (c : Client) :
  bounded c -> invariant (daemonConnected (c <| m_socket := Connected |>)).
Proof.
  intros Hb. unfold daemonConnected, checkStatus.
  change (m_daemonState (_ <| m_socket := _ |>)) with (m_daemonState c).
  destruct (decide (m_daemonState c = eReady)) as [E|E].
  { rewrite E. apply write_invariant. split; [done|]. right. right. right. split; [done|by left]. }
  destruct (decide (m_daemonState c = eInitializing)) as [E'|E'].
  - rewrite E'. split; [done|]. right. right. right. split; [done|]. right.
    exists CONNECTION_RESPONSE_TIMEOUT_MSEC. cbn. apply elem_of_app. right. by left.
  - rewrite !bool_decide_false by done. split; [done|]. left. cbn.
    destruct Hb as (Hd & _). destruct (m_daemonState c); by try done.
Qed.

Lemma double_interval (i : Z) :
  i ∈ intervals -> i < CONNECTION_RETRY_MAXIMUM_MSEC -> u32 (i * 2) ∈ intervals.
Proof.
  unfold intervals, CONNECTION_RETRY_MAXIMUM_MSEC. rewrite !elem_of_cons, elem_of_nil.
  intros [->|[->|[->|[->|[->|[->|[]]]]]]] Hi; vm_compute; try (by right; left); lia || tauto.
Qed.

Lemma initializeInternal_invariant (attempt : Attempt) (c : Client) :
  bounded c -> invariant (initializeInternal attempt c).
Proof.
  intros (Hs & Hi & Ht). unfold initializeInternal.
  set (c1 := if negb _ then _ else _). assert (bounded c1 /\ m_initializingTimer c1 = m_initializingTimer c) as [Hb _].
  { unfold c1. destruct (negb _); [by repeat split; [|by left|]|].
    destruct (Z.ltb_spec (m_initializingInterval c) CONNECTION_RETRY_MAXIMUM_MSEC); [|done].
    repeat split; [done|by apply double_interval|done]. }
  assert (bounded (c1 <| m_daemonState := eInitializing |>)) as Hb2
    by (destruct Hb as (_ & ? & ?); by repeat split).
  assert (bounded (abort (c1 <| m_daemonState := eInitializing |>))) as Hb3.
  { unfold abort. destruct (_ && _); [|done]. apply errorOccurred_invariant. done. }
  unfold connectToServer. destruct attempt.
  - by apply daemonConnected_invariant.
  - by apply errorOccurred_invariant.
  - split; [done|]. right. by right; left.
Qed.

(** What a command leaves of a client whose daemon is ready. *)
Lemma readyCommand_invariant (type : chars) (obj : QJsonObject) (c : Client) :
  invariant c -> m_socket c = Connected -> m_daemonState c = eReady ->
  invariant (readyCommand type obj c) /\ m_socket (readyCommand type obj c) = Connected.
Proof.
  intros [(Hs & Hi & Ht) _] Hso Hst.
  assert (forall c', m_daemonState c' = eReady -> m_socket c' = Connected ->
            m_initializingInterval c' = m_initializingInterval c ->
            (m_initializingTimer c' = m_initializingTimer c \/ m_initializingTimer c' = None) ->
            invariant c' /\ m_socket c' = Connected) as Hgen.
  { intros c' E1 E2 E3 E4. split; [|done]. split.
    - repeat split; [by rewrite E1|by rewrite E3|]. destruct E4 as [->| ->]; [done|by intros ?].
    - right. right. right. split; [done|by left]. }
  unfold readyCommand, logsReceived, closeReceiver, disconnectInternal.
  repeat case_match; apply Hgen; cbn; auto.
Qed.

Lemma execute_invariant (type : chars) (obj : QJsonObject) (c : Client) :
  bounded c -> (type <> qs "status" -> invariant c) -> m_socket c = Connected ->
  invariant (execute type obj c) /\ m_socket (execute type obj c) = Connected.
Proof.
  intros Hb Hclear Hso. unfold execute.
  set (supported := bool_decide (qs "splitTunnel" ∈ features obj)).
  assert (forall c', m_daemonState c' = eReady -> m_socket c' = Connected -> bounded c' ->
            invariant c' /\ m_socket c' = Connected) as Hready.
  { intros c' E1 E2 Hb'. split; [|done]. split; [done|]. right. right. right.
    split; [done|by left]. }
  destruct (decide (type = qs "status")) as [->|Hn].
  - rewrite bool_decide_true by done. cbn [andb].
    change (m_daemonState (c <| m_splitTunnelSupported := supported |>)) with (m_daemonState c).
    case_bool_decide as E1.
    + destruct Hb as (_ & Hi & Ht). unfold firstStatus.
      repeat case_match; apply Hready; try done; by repeat split.
    + case_bool_decide as E2; cbn [negb].
      * by apply readyCommand_invariant; [apply Hready| |].
      * split; [|done]. split; [done|]. left. cbn. destruct Hb as (Hd & _).
        by destruct (m_daemonState c).
  - rewrite bool_decide_false by done. cbn [andb]. specialize (Hclear Hn).
    case_bool_decide; [by apply readyCommand_invariant|done].
Qed.

Lemma parseCommand_invariant (command : chars) (c c' : Client) :
  parseCommand command c = Ret c' -> invariant c -> m_socket c = Connected ->
  invariant c' /\ m_socket c' = Connected.
Proof.
  unfold parseCommand. intros E Hc Hso.
  destruct (fromBytes command) as [obj|]; [|by injection E as <-].
  destruct (value (qs "type") obj) as [| | | |type| |]; try (by injection E as <-).
  destruct (clearTimeout type c) as [c1| |] eqn:Et; [|done..]. injection E as <-.
  pose proof (clearTimeout_inv _ _ _ Et) as E1. apply execute_invariant.
  - destruct Hc as [Hb _]. by subst c1.
  - intros Hn. by eapply clearTimeout_invariant.
  - by subst c1.
Qed.

Lemma runCommands_invariant (commands : list chars) (c c' : Client) :
  runCommands commands c = Ret c' -> invariant c -> m_socket c = Connected -> invariant c'.
Proof.
  revert c. induction commands as [|x l IH]; intros c E Hc Hso; [by injection E as <-|].
  cbn [runCommands] in E. destruct (parseCommand x c) as [c1| |] eqn:E1; [|done..].
  destruct (parseCommand_invariant x c c1 E1 Hc Hso) as [H1 H2]. by apply (IH c1).
Qed.

(** *** Where reading is undefined *)

Lemma execute_timeouts (type : chars) (obj : QJsonObject) (c : Client) :
  m_responseTimeouts (execute type obj c) = m_responseTimeouts c.
Proof.
  unfold execute, firstStatus, readyCommand, logsReceived, closeReceiver, disconnectInternal.
  by repeat case_match.
Qed.

(** Commands remove timers; one is undefined only if several are running. *)
Definition safelyRun (c : Client) (o : Outcome Client) : Prop :=
  match o with
  | Ret c' => (length (m_responseTimeouts c') <= length (m_responseTimeouts c))%nat
  | OutOfFuel => False
  | Undefined => (2 <= length (m_responseTimeouts c))%nat
  end.

Lemma parseCommand_safely (command : chars) (c : Client) : safelyRun c (parseCommand command c).
Proof.
  unfold parseCommand. destruct (fromBytes command) as [obj|]; [|cbn; lia].
  destruct (value (qs "type") obj) as [| | | |type| |]; try (cbn; lia).
  unfold clearTimeout. destruct (existsb _ _) eqn:E; cbn [outcome_bind safelyRun].
  - destruct (m_responseTimeouts c) as [|x [|y l]]; [done..|cbn; lia].
  - rewrite execute_timeouts. cbn. apply List.filter_length_le.
Qed.

Lemma runCommands_safely (commands : list chars) (c : Client) :
  safelyRun c (runCommands commands c).
Proof.
  revert c. induction commands as [|x l IH]; intros c; [cbn; lia|]. cbn [runCommands].
  pose proof (parseCommand_safely x c) as Hx.
  destruct (parseCommand x c) as [c1| |]; cbn [outcome_bind safelyRun] in *; [|done..].
  specialize (IH c1). destruct (runCommands l c1); cbn [safelyRun] in *; [lia|done|lia].
Qed.

Lemma handle_invariant (e : Event) (c c' : Client) :
  invariant c -> enabled e c = true -> handle e c = Ret c' -> invariant c'.
Proof.
  intros Hc He. destruct Hc as [Hb Ht]. assert (invariant c) as Hc by done.
  destruct e; cbn [handle]; intros E; try injection E as <-.
  - by apply initializeInternal_invariant.
  - apply initializeInternal_invariant. destruct Hb as (? & ? & _). by repeat split.
  - by apply errorOccurred_invariant.
  - by apply daemonConnected_invariant.
  - apply errorOccurred_invariant. by case_bool_decide.
  - by apply errorOccurred_invariant.
  - rewrite readData_frames in E. unfold buffered in E.
    destruct (runCommands _ c) as [c1| |] eqn:E1; [|done..]. injection E as <-.
    apply bool_decide_eq_true in He. exact (runCommands_invariant _ _ _ E1 Hc He).
  - by apply write_invariant.
  - unfold deactivate. case_match; [done|by apply write_invariant].
  - by apply checkStatus_invariant.
  - unfold getBackendLogs. assert (invariant (closeReceiver c)) as Hr.
    { unfold closeReceiver. by destruct (m_logReceiver c). }
    case_match; [done|]. exact (write_invariant _ _ _ _ Hr).
  - unfold cleanupBackendLogs. case_match; [done|by apply write_invariant].
Qed.

(** An event is handled, or it is data that runs [clearTimeout] over a list it changes,
    which takes at least two timers. *)
Lemma handle_cases (e : Event) (c : Client) :
  (exists c', handle e c = Ret c')
  \/ (handle e c = Undefined /\ (exists input, e = Received input)
      /\ (2 <= length (m_responseTimeouts c))%nat).
Proof.
  destruct e; cbn [handle]; try (left; by eexists). rewrite readData_frames.
  pose proof (runCommands_safely (fst (frames (m_buffer c ++ input))) c) as Hs.
  unfold buffered. destruct (runCommands _ c); cbn [outcome_bind safelyRun] in *;
    [left; by eexists|done|right]. split_and!; [done|by exists input|done].
Qed.

(** C23: once started ([eUnknown] is the state before), the client is never left without
    a way to the daemon: an attempt is scheduled, at 500 ms doubled up to 16 seconds, or
    a connection is pending, or it is connected and either the daemon has answered the
    first status request or the timer of a status request runs. Every event is handled;
    only data that arrives while two or more response timers run may be undefined, in the
    loop of [clearTimeout] over the list it changes. *)
Theorem reachable_trying (c : Client) :
  reachable c ->
  (m_daemonState c = eUnknown \/ trying c) /\ m_initializingInterval c ∈ intervals
  /\ (forall i, m_initializingTimer c = Some i -> i ∈ intervals)
  /\ (forall e, enabled e c = true ->
        (exists c', handle e c = Ret c')
        \/ (handle e c = Undefined /\ (exists input, e = Received input)
            /\ (2 <= length (m_responseTimeouts c))%nat)).
Proof.
  intros Hr. assert (invariant c) as [(_ & Hi & Ht) Htr].
  { induction Hr as [|c e c' Hr IH He E]; [|by eapply handle_invariant].
    split; [|by left]. repeat split; [done|by left|by intros ?]. }
  split_and!; [done..|]. intros e _. apply handle_cases.
Qed.

(** The first attempt and those that its timer starts. *)
Fixpoint attempts (n : nat) (c : Client) : Client :=
  match n with
  | O => initializeInternal Fails c
  | S n => initializeInternal Fails ((attempts n c) <| m_initializingTimer := None |>)
  end.

Lemma double_min (n : nat) :
  (if Z.min (500 * 2 ^ Z.of_nat n) 16000 <? 16000
   then u32 (Z.min (500 * 2 ^ Z.of_nat n) 16000 * 2) else Z.min (500 * 2 ^ Z.of_nat n) 16000)
  = Z.min (500 * 2 ^ Z.of_nat (S n)) 16000.
Proof.
  rewrite Nat2Z.inj_succ, Z.pow_succ_r by lia.
  pose proof (Z.pow_pos_nonneg 2 (Z.of_nat n) ltac:(lia) ltac:(lia)) as Hp.
  destruct (Nat.le_gt_cases n 4) as [Hn|Hn].
  - do 5 (destruct n as [|n]; [done|]). lia.
  - assert (2 ^ 5 <= 2 ^ Z.of_nat n) as H5 by (apply Z.pow_le_mono_r; lia).
    rewrite (Z.min_r (500 * _)), Z.min_r by lia. done.
Qed.

(** The interval an attempt ends with. *)
Definition nextInterval (c : Client) : Z :=
  if bool_decide (m_daemonState c = eInitializing)
  then if m_initializingInterval c <? CONNECTION_RETRY_MAXIMUM_MSEC
       then u32 (m_initializingInterval c * 2) else m_initializingInterval c
  else CONNECTION_RETRY_INITIAL_MSEC.

(** An attempt that fails at once. *)
Lemma attempt_fails (c : Client) :
  m_socket c <> Connected ->
  initializeInternal Fails c
  = mkClient eInitializing Unconnected (m_buffer c) (m_logReceiver c) (Some (nextInterval c))
      (nextInterval c) (m_splitTunnelSupported c) [] (effects c ++ [SocketAbort; SocketConnect]).
Proof.
  destruct c as [st so bu rt it iv sp ts ef]. intros Hso.
  unfold initializeInternal, nextInterval, abort, connectToServer, errorOccurred, emit.
  change [SocketAbort; SocketConnect] with ([SocketAbort] ++ [SocketConnect]).
  rewrite app_assoc. cbn -[u32 Z.ltb].
  destruct so; [..|done]; destruct st; cbn -[u32 Z.ltb]; by destruct (iv <? _).
Qed.

(** While the daemon does not answer, the nth retry is scheduled [500 * 2 ^ n] ms
    later, at most 16 seconds, and no failure is reported. *)
Theorem attempts_backoff (n : nat) (c : Client) :
  m_daemonState c <> eInitializing -> m_socket c <> Connected ->
  let c' := attempts n c in
  m_initializingTimer c' = Some (Z.min (500 * 2 ^ Z.of_nat n) 16000)
  /\ m_daemonState c' = eInitializing
  /\ effects c' = effects c ++ concat (repeat [SocketAbort; SocketConnect] (S n)).
Proof.
  intros Hs Hso. assert (exists i, i = Z.min (500 * 2 ^ Z.of_nat n) 16000 /\ attempts n c
    = mkClient eInitializing Unconnected (m_buffer c) (m_logReceiver c) (Some i) i
        (m_splitTunnelSupported c) []
        (effects c ++ concat (repeat [SocketAbort; SocketConnect] (S n)))) as (i & -> & ->);
    [|done].
  induction n as [|n (i & Hi & IH)]; cbn [attempts].
  - exists 500. split; [done|]. rewrite attempt_fails by done.
    unfold nextInterval. by rewrite bool_decide_false.
  - exists (Z.min (500 * 2 ^ Z.of_nat (S n)) 16000). split; [done|].
    rewrite IH, attempt_fails by done. rewrite <- double_min, <- Hi.
    change (repeat ?x (S (S n))) with (x :: repeat x (S n)).
    by rewrite repeat_cons, concat_app, app_assoc.
Qed.

Lemma errorOccurred_buffer (c : Client) : m_buffer (errorOccurred c) = m_buffer c.
Proof. unfold errorOccurred. by case_bool_decide. Qed.

Lemma initializeInternal_buffer (attempt : Attempt) (c : Client) :
  m_buffer (initializeInternal attempt c) = m_buffer c.
Proof.
  assert (forall c, m_buffer (checkStatus c) = m_buffer c) as Hc
    by (intros c'; unfold checkStatus; by destruct (_ || _)).
  unfold initializeInternal. set (c2 := if negb _ then _ else _).
  assert (m_buffer c2 = m_buffer c) as E
    by (unfold c2; destruct (negb _); [done|]; by destruct (_ <? _)).
  unfold connectToServer, abort, daemonConnected.
  destruct attempt; rewrite ?Hc, ?errorOccurred_buffer; cbn;
    destruct (_ && _); rewrite ?errorOccurred_buffer; exact E.
Qed.

(** What a lost connection leaves in the buffer is prepended to what the next one
    sends. *)
Lemma buffer_survives (attempt : Attempt) (c c1 c2 : Client) :
  handle SocketDisconnected c = Ret c1 -> handle (InitializingTimeout attempt) c1 = Ret c2 ->
  m_buffer c2 = m_buffer c.
Proof.
  intros [= <-] [= <-]. rewrite initializeInternal_buffer. exact (errorOccurred_buffer (c <| m_socket := Unconnected |>)).
Qed.

(** A lost connection is signalled as an error and as a disconnection: the controller
    is told twice. *)
Lemma failure_reported_twice (c c1 c2 : Client) :
  m_daemonState c = eReady -> m_socket c = Connected ->
  handle SocketError c = Ret c1 -> handle SocketDisconnected c1 = Ret c2 ->
  effects c2 = effects c ++ [BackendFailure 0; DisconnectedSignal;
                             BackendFailure 0; DisconnectedSignal].
Proof.
  destruct c as [st so bu rt it iv sp ts ef]. cbn. intros -> -> [= <-] [= <-].
  transitivity ((((ef ++ [BackendFailure 0]) ++ [DisconnectedSignal]) ++ [BackendFailure 0])
                ++ [DisconnectedSignal]); [done|by rewrite <- !app_assoc].
Qed.

End Protocol.

(** ** Examples *)

#[local] Existing Instance modelText.
#[local] Existing Instance modelJsonText.

Definition noDate (s : chars) : option Z := None.

(** The status of a daemon whose tunnel is down. *)
Definition idleStatus : QJsonObject :=
  insertKey (qs "connected") (JBool false) (message (qs "status")).

Definition failureStatus : QJsonObject := message (qs "status").

(** A client that has lost an answer: it is connected, ready, and its timer runs. *)
Definition stalled (l : list Effect) : Client :=
  mkClient eReady Connected [] None (Some 500) 500 false [] l.

(** After an answer that came too late the connection is made anew every half
    second, for ever: [abort] of the connected socket counts as one more failure,
    whose timer still runs when the connection has succeeded. *)
Lemma reconnect_loop (l : list Effect) :
  enabled (InitializingTimeout Succeeds) (stalled l) = true
  /\ exists c, handle noDate true (InitializingTimeout Succeeds) (stalled l) = Ret c
       /\ handle noDate true (Received (messageLine idleStatus)) c
          = Ret (stalled (((((l ++ [SocketAbort]) ++ [SocketConnect])
                            ++ [SocketWrite (messageLine (message (qs "status")))])
                           ++ [Initialized true false None]))).
Proof. split; [done|]. eexists. split; [reflexivity|]. vm_compute. reflexivity. Qed.

(** A status without a connection state makes the client ready, but it is never
    initialized: the next one only updates the status. *)
Lemma never_initialized :
  exists c, handle noDate true (Received (messageLine failureStatus
                                           ++ messageLine idleStatus))
              ((stalled []) <| m_daemonState := eInitializing |>) = Ret c
    /\ m_daemonState c = eReady /\ forall s b d, Initialized s b d ∉ effects c.
Proof.
  eexists. split; [vm_compute; reflexivity|]. split; [done|]. intros s b d. cbn.
  rewrite list_elem_of_singleton. done.
Qed.

(** Two statuses in flight: their answer removes timers from the list that is being
    walked. *)
Lemma two_statuses :
  handle noDate true (Received (messageLine idleStatus)) (checkStatus (checkStatus (stalled [])))
  = Undefined.
Proof. vm_compute. reflexivity. Qed.

(** ** Witnesses *)

Lemma readData_chunks_witness :
  let p := messageLine idleStatus in
  readAllData noDate [take 3 p; drop 3 p ++ qs "x"; qs "y"] (stalled [])
  = buffered (qs "xy") (runCommands noDate [toCompact idleStatus] (stalled [])).
Proof.
  intros p. rewrite (proj1 (readData_chunks noDate _ (stalled []) (not_elem_of_nil newline))).
  vm_compute. reflexivity.
Defined.

Lemma reachable_trying_witness :
  trying (initializeInternal true Pends initial).
Proof.
  destruct (reachable_trying noDate true (initializeInternal true Pends initial)) as [[H|H] _].
  - apply (reachable_step noDate true initial (Initialize Pends)); [constructor|done..].
  - done.
  - exact H.
Defined.

Lemma attempts_backoff_witness :
  m_initializingTimer (attempts true 6 initial) = Some 16000.
Proof. by destruct (attempts_backoff true 6 initial) as [-> _]. Defined.

End LocalSocket.
