(* ===== verification/DaemonConnection.v ===== *)
(** * The daemon's side of the local socket

    Model of [src/src/daemon/daemonlocalserverconnection.cpp]: the commands of a
    client, run by the daemon of DaemonModel, and the messages that carry its signals.
    The two ends are put together at the end of the file: a configuration and a
    sequence of signals arrive as they were sent, however the bytes are split. *)
From Stdlib Require Import ZArith Lia Ascii String.
From stdpp Require Import base numbers list gmap strings.
From S2P Require Import Prelude QHostAddress QString QtTextModel QStringExtra IPAddress.
From S2P Require Import Json JsonText InterfaceConfig DaemonModel LocalSocket.
Import IPAddress.
Import Daemon.

Local Open Scope Z_scope.
Local Open Scope wg_scope.

Module DaemonConnection.

(** ** State *)

(** [written] is the bytes written to the socket, [m_daemon] the daemon the
    connection serves, [logsCleaned] whether its logs have been cleaned. *)
Record Connection : Type := mkConnection {
  m_buffer : chars;
  m_daemon : Daemon;
  written : chars;
  logsCleaned : bool;
}.

#[export] Instance Connection_eta : Eta Connection := fun c =>
  mkConnection (m_buffer c) (m_daemon c) (written c) (logsCleaned c).

(** [DaemonError::ERROR_FATAL], the default of [Daemon::backendFailure]. *)
Definition ERROR_FATAL : Z := 1.

(** ** Messages *)

Definition connectedMessage (pubkey : QString) : QJsonObject :=
  insertAll [(qs "type", JString (qs "connected")); (qs "pubkey", ofQString pubkey)] [].

Definition disconnectedMessage : QJsonObject :=
  insertAll [(qs "type", JString (qs "disconnected"))] [].

Definition backendFailureMessage (err : Z) : QJsonObject :=
  insertAll [(qs "type", JString (qs "backendFailure")); (qs "errorCode", ofInt err)] [].

(** The slots connected to the daemon's signals; [activationFailure] has none. *)
Definition signalMessages (s : Signal) : list QJsonObject :=
  match s with
  | Connected pubkey => [connectedMessage pubkey]
  | Disconnected => [disconnectedMessage]
  | BackendFailure => [backendFailureMessage ERROR_FATAL]
  | ActivationFailure => []
  end.

Section Server.
Context `{QtText} `{QtJsonText} `{Backend}.

(** [std::sort], the uninitialised hop, and what the daemon reports of itself. *)
Variable sort : list IPAddress -> list IPAddress.
Variable hop0 : HopType.
Variable version : chars.
Variable dateToString : option Z -> chars.
Variable logs : chars.

Definition write (obj : QJsonObject) (c : Connection) : Connection :=
  c <| written := (written c ++ toCompact obj) ++ [newline] |>.

Definition disconnected (c : Connection) : Connection := write disconnectedMessage c.

(** An operation of the daemon, whose signals are written as they are emitted. *)
Definition run {A : Type} (m : M A) (c : Connection) : A * Connection :=
  let '(a, d) := m (m_daemon c) in
  let emitted := drop (length (signals (m_daemon c))) (signals d) in
  (a, foldl (fun c obj => write obj c) (c <| m_daemon := d |>) (flat_map signalMessages emitted)).

Definition activateCommand (obj : QJsonObject) (c : Connection) : Outcome Connection :=
  match parseConfig sort obj (emptyConfig hop0) with
  | None => Ret (disconnected c)
  | Some config =>
      let '(result, c) := run (activate config) c in
      ok <~ result ;;
      Ret (if ok then c else disconnected c)
  end.

Definition statusCommand (c : Connection) : Connection :=
  let '(obj, c) := run (getStatus version dateToString) c in
  write (insertKey (qs "type") (JString (qs "status")) obj) c.

Definition logsMessage : QJsonObject :=
  insertAll [(qs "type", JString (qs "logs"));
             (qs "logs", JString (replaceChar newline "|" logs))] [].

Definition parseCommand (data : chars) (c : Connection) : Outcome Connection :=
  match fromBytes data with
  | None => Ret c
  | Some obj =>
      match value (qs "type") obj with
      | JString type =>
          if bool_decide (type = qs "activate") then activateCommand obj c
          else if bool_decide (type = qs "deactivate") then
            Ret (snd (run (deactivate true) c))
          else if bool_decide (type = qs "status") then Ret (statusCommand c)
          else if bool_decide (type = qs "logs") then Ret (write logsMessage c)
          else if bool_decide (type = qs "cleanlogs") then Ret (c <| logsCleaned := true |>)
          else Ret c
      | _ => Ret c
      end
  end.

(** The loop of [readData]; [input] is what the successive calls of [readAll]
    return. *)
Fixpoint readLoop (fuel : nat) (input : list chars) (c : Connection) : Outcome Connection :=
  match fuel with
  | O => OutOfFuel
  | S fuel =>
      let pos := indexOf newline (m_buffer c) in
      if pos =? -1 then
        match input with
        | [] => Ret c
        | i :: rest =>
            if bool_decide (i = []) then Ret c
            else readLoop fuel rest (c <| m_buffer := m_buffer c ++ i |>)
        end
      else
        let line := left (m_buffer c) pos in
        let c := c <| m_buffer := mid (m_buffer c) (pos + 1) |> in
        let command := trimmedBytes line in
        if bool_decide (command = []) then readLoop fuel input c
        else c <~ parseCommand command c ;; readLoop fuel input c
  end.

Definition readData (input : list chars) (c : Connection) : Outcome Connection :=
  readLoop (S (length (m_buffer c) + length (concat input) + length input)) input c.

(** ** Reading *)

Fixpoint runCommands (commands : list chars) (c : Connection) : Outcome Connection :=
  match commands with
  | [] => Ret c
  | command :: r => c <~ parseCommand command c ;; runCommands r c
  end.

Definition setBuffer (b : chars) (c : Connection) : Connection := c <| m_buffer := b |>.

Lemma write_buffer (objs : list QJsonObject) (b : chars) (c : Connection) :
  foldl (fun c obj => write obj c) (setBuffer b c) objs
  = setBuffer b (foldl (fun c obj => write obj c) c objs).
Proof. revert c. induction objs as [|o l IH]; intros c; [done|]. exact (IH (write o c)). Qed.

Lemma run_buffer {A : Type} (m : M A) (b : chars) (c : Connection) :
  run m (setBuffer b c) = (fst (run m c), setBuffer b (snd (run m c))).
Proof.
  unfold run. change (m_daemon (setBuffer b c)) with (m_daemon c).
  destruct (m (m_daemon c)) as [a d]. cbn [fst snd]. f_equal.
  exact (write_buffer _ b (c <| m_daemon := d |>)).
Qed.

(** Every command is executed. *)
Lemma activateCommand_returns (obj : QJsonObject) (b : chars) (c : Connection) :
  exists c', activateCommand obj c = Ret c'
    /\ activateCommand obj (setBuffer b c) = Ret (setBuffer b c').
Proof.
  unfold activateCommand. destruct (parseConfig _ _ _) as [config|]; [|by eexists].
  assert (exists ok, fst (run (activate config) c) = Ret ok) as [ok E].
  { unfold run. rewrite activate_eq. destruct (activatePlan _ _) as [ok d]. by exists ok. }
  rewrite run_buffer. destruct (run (activate config) c) as [r c']. cbn [fst snd] in *. subst r.
  cbn [outcome_bind]. eexists. split; [done|]. by destruct ok.
Qed.

Lemma parseCommand_returns (data b : chars) (c : Connection) :
  exists c', parseCommand data c = Ret c'
    /\ parseCommand data (setBuffer b c) = Ret (setBuffer b c').
Proof.
  unfold parseCommand. destruct (fromBytes data) as [obj|]; [|by eexists].
  destruct (value (qs "type") obj) as [| | | |type| |]; try (by eexists).
  case_match; [apply activateCommand_returns|].
  case_match; [eexists; split; [done|]; by rewrite run_buffer|].
  case_match; [eexists; split; [done|]; unfold statusCommand; rewrite run_buffer;
               by destruct (run _ c)|].
  repeat case_match; by eexists.
Qed.

Lemma runCommands_returns (commands : list chars) (b : chars) (c : Connection) :
  exists c', runCommands commands c = Ret c'
    /\ runCommands commands (setBuffer b c) = Ret (setBuffer b c').
Proof.
  revert c. induction commands as [|x l IH]; intros c; [by eexists|]. cbn [runCommands].
  destruct (parseCommand_returns x b c) as (c1 & -> & ->). apply IH.
Qed.

Lemma serverCommands_app (l l' : list chars) (c : Connection) :
  runCommands (l ++ l') c = (c <~ runCommands l c ;; runCommands l' c).
Proof.
  revert c. induction l as [|x l IH]; intros c; [done|]. cbn [app runCommands].
  destruct (parseCommand x c); cbn [outcome_bind]; [apply IH|done..].
Qed.

Lemma serverBuffer_id (c : Connection) : setBuffer (m_buffer c) c = c.
Proof. by destruct c. Qed.

Lemma serverCommand_keeps (data : chars) (c c' : Connection) :
  parseCommand data c = Ret c' -> m_buffer c' = m_buffer c.
Proof.
  intros E. destruct (parseCommand_returns data (m_buffer c) c) as (c1 & E1 & E2).
  rewrite serverBuffer_id in E2. rewrite E2 in E. by injection E as <-.
Qed.

(** Enough fuel: a unit for each line, each piece of data and to stop. *)
Lemma serverLoop_frames (fuel : nat) (input : list chars) (c : Connection) :
  Forall (fun i => i <> []) input ->
  (length (m_buffer c) + length (concat input) + length input < fuel)%nat ->
  exists c', runCommands (fst (frames (m_buffer c ++ concat input))) c = Ret c'
    /\ readLoop fuel input c = Ret (setBuffer (snd (frames (m_buffer c ++ concat input))) c').
Proof.
  revert input c. induction fuel as [|fuel IH]; intros input c Hi Hf; [lia|]. cbn [readLoop].
  destruct (indexOf_newline (m_buffer c)) as [[-> Hn]|(a & b & E & Ha & Hp & Hl & Hm)].
  - cbn [Z.eqb]. change (-1 =? -1) with true. cbn match. destruct Hi as [|i rest Hi Hrest].
    + cbn [concat]. rewrite app_nil_r, frames_none by done. exists c. cbn. by destruct c.
    + rewrite bool_decide_false by done. cbn [concat] in *. rewrite app_assoc.
      change (c <| m_buffer := m_buffer c ++ i |>) with (setBuffer (m_buffer c ++ i) c).
      destruct (IH rest (setBuffer (m_buffer c ++ i) c)) as (c1 & E1 & E2); [done| |].
      { cbn [m_buffer setBuffer updateField]. rewrite length_app in Hf. cbn [length] in Hf.
        change (m_buffer (setBuffer (m_buffer c ++ i) c)) with (m_buffer c ++ i).
        rewrite length_app. lia. }
      change (m_buffer (setBuffer (m_buffer c ++ i) c)) with (m_buffer c ++ i) in E1, E2.
      destruct (runCommands_returns (fst (frames ((m_buffer c ++ i) ++ concat rest)))
                  (m_buffer c ++ i) c) as (c2 & E3 & E4).
      rewrite E4 in E1. injection E1 as <-. exists c2. by split.
  - rewrite (proj2 (Z.eqb_neq _ _) Hp), Hl, Hm, E, <- app_assoc. cbn [app].
    rewrite frames_cons by done. rewrite E, length_app in Hf. cbn [length fst snd] in *.
    change (c <| m_buffer := b |>) with (setBuffer b c). unfold lineCommand.
    case_bool_decide.
    + destruct (IH input (setBuffer b c)) as (c1 & E1 & E2); [done| |].
      { change (m_buffer (setBuffer b c)) with b. lia. }
      change (m_buffer (setBuffer b c)) with b in E1, E2.
      destruct (runCommands_returns (fst (frames (b ++ concat input))) b c) as (c2 & E3 & E4).
      rewrite E4 in E1. injection E1 as <-. exists c2. by split.
    + destruct (parseCommand_returns (trimmedBytes a) b c) as (c1 & E1 & E2).
      rewrite E2. cbn [outcome_bind app runCommands]. rewrite E1. cbn [outcome_bind].
      destruct (IH input (setBuffer b c1)) as (c2 & E3 & E4); [done| |].
      { change (m_buffer (setBuffer b c1)) with b. lia. }
      change (m_buffer (setBuffer b c1)) with b in E3, E4.
      destruct (runCommands_returns (fst (frames (b ++ concat input))) b c1) as (c3 & E5 & E6).
      rewrite E6 in E3. injection E3 as <-. exists c3. by split.
Qed.

(** Reading ends, whatever arrives, with the commands of the lines executed in
    order. *)
Lemma serverData_frames (input : list chars) (c : Connection) :
  Forall (fun i => i <> []) input ->
  exists c', runCommands (fst (frames (m_buffer c ++ concat input))) c = Ret c'
    /\ readData input c = Ret (setBuffer (snd (frames (m_buffer c ++ concat input))) c').
Proof. intros Hi. apply serverLoop_frames; [done|lia]. Qed.

(** Data that arrives over time: a call of [readData] for each arrival, with what its
    calls of [readAll] return. *)
Fixpoint readArrivals (arrivals : list (list chars)) (c : Connection) : Outcome Connection :=
  match arrivals with
  | [] => Ret c
  | input :: r => c <~ readData input c ;; readArrivals r c
  end.

(** However the bytes are spread over arrivals and calls of [readAll], they have the
    effect of the whole text: its commands in order, each once, and the unfinished
    line kept. *)
Lemma readArrivals_frames (arrivals : list (list chars)) (c : Connection) :
  newline ∉ m_buffer c -> Forall (Forall (fun i => i <> [])) arrivals ->
  exists c', runCommands (fst (frames (m_buffer c ++ concat (concat arrivals)))) c = Ret c'
    /\ readArrivals arrivals c
       = Ret (setBuffer (snd (frames (m_buffer c ++ concat (concat arrivals)))) c').
Proof.
  intros Hc Ha. revert c Hc. induction Ha as [|input rest Hi _ IH]; intros c Hc.
  { cbn [concat]. rewrite app_nil_r, frames_none by done. exists c. cbn. by destruct c. }
  cbn [concat readArrivals]. rewrite concat_app, app_assoc, frames_app.
  destruct (serverData_frames input c Hi) as (c1 & E1 & ->). cbn [outcome_bind].
  set (b := snd (frames (m_buffer c ++ concat input))) in *.
  destruct (IH (setBuffer b c1)) as (c2 & E2 & E3); [apply frames_rest|].
  change (m_buffer (setBuffer b c1)) with b in E2, E3.
  destruct (runCommands_returns (fst (frames (b ++ concat (concat rest)))) b c1)
    as (c3 & E4 & E5).
  rewrite E5 in E2. injection E2 as <-. exists c3. cbn [fst snd].
  rewrite serverCommands_app, E1. cbn [outcome_bind]. by split.
Qed.

End Server.

(** ** A configuration crosses the socket *)

#[local] Hint Resolve exactJson_insertKey exactJson_insertAll exactJson_ofInt : wg.

Section Crossing.
Context `{QtTextLaws} `{QtJsonTextLaws}.

Lemma exactJson_range (ip : IPAddress) : wf ip -> exactJson (rangeToJson ip) = true.
Proof.
  intros [_ Hp]. apply exactJson_insertAll; [|done].
  repeat constructor. apply exactJson_ofInt. destruct (m_address ip); cbn in Hp; lia.
Qed.

Lemma exactJson_config (config : InterfaceConfig) :
  Forall wf (m_allowedIPAddressRanges config) -> 0 <= m_serverPort config < 2 ^ 53 ->
  exactJson (JObject (toJson config)) = true.
Proof.
  intros Hw Hp. unfold toJson.
  assert (exactJson (JArray (map rangeToJson (m_allowedIPAddressRanges config))) = true) as Hr.
  { cbn. induction Hw as [|ip l Hip _ IH]; [done|].
    change (exactJson (rangeToJson ip) && forallb exactJson (map rangeToJson l) = true).
    by rewrite exactJson_range. }
  assert (exactJson (JArray (map JString (m_vpnDisabledApps config))) = true) as Ha.
  { cbn. by induction (m_vpnDisabledApps config). }
  apply exactJson_insertAll; [by repeat constructor|].
  assert (exactJson (ofInt (m_serverPort config)) = true) by auto with wg.
  case_match; repeat (apply exactJson_insertAll); by repeat constructor.
Qed.

Lemma exactJson_activateMessage (config : InterfaceConfig) :
  Forall wf (m_allowedIPAddressRanges config) -> 0 <= m_serverPort config < 2 ^ 53 ->
  exactJson (JObject (LocalSocket.activateMessage config)) = true.
Proof. intros Hw Hp. apply exactJson_insertKey; [done|by apply exactJson_config]. Qed.

Lemma same_string (s : chars) (v : QJsonValue) : JString s ≡ v -> v = JString s.
Proof. by inversion 1. Qed.

Lemma same_double (n : Z) (d : positive) (v : QJsonValue) : JDouble n d ≡ v -> v = JDouble n d.
Proof. by inversion 1. Qed.

(** Objects that agree but for the given key. *)
Definition agreeBut (k : chars) (o o' : QJsonObject) : Prop :=
  forall k', k' <> k -> value k' o ≡ value k' o' /\ hasKey k' o = hasKey k' o'.

Lemma parseRange_same (v v' : QJsonValue) : v ≡ v' -> parseRange v = parseRange v'.
Proof.
  intros [w|l l'|o o' Ho]; [done..|]. unfold parseRange.
  pose proof (Ho (qs "address")) as E1. pose proof (Ho (qs "range")) as E2.
  pose proof (Ho (qs "isIpv6")) as E3. revert E1 E2 E3.
  generalize (value (qs "address") o) (value (qs "address") o') (value (qs "range") o)
    (value (qs "range") o') (value (qs "isIpv6") o) (value (qs "isIpv6") o').
  intros a a' r r' i i' Ha Hr Hi. destruct Ha as [[]| |], Hr as [[]| |], Hi as [[]| |]; done.
Qed.

Lemma mapM_same {A : Type} (f : QJsonValue -> option A) (l l' : list QJsonValue) :
  (forall v v', v ≡ v' -> f v = f v') -> Forall2 (≡) l l' -> mapM f l = mapM f l'.
Proof.
  intros Hf Hl. induction Hl as [|v v' l l' Hv _ IH]; [done|].
  change (mapM f (v :: l)) with (f v ≫= fun y => mapM f l ≫= fun k => Some (y :: k)).
  change (mapM f (v' :: l')) with (f v' ≫= fun y => mapM f l' ≫= fun k => Some (y :: k)).
  by rewrite (Hf v v'), IH.
Qed.

Lemma parseStringList_same (name : chars) (items : list chars) (o o' : QJsonObject) :
  value name o ≡ value name o' -> hasKey name o = hasKey name o' ->
  parseStringList o name items = parseStringList o' name items.
Proof.
  intros Hv Hk. unfold parseStringList. rewrite Hk. destruct (hasKey name o'); [|done].
  destruct Hv as [w|l l' Hl|]; [done| |done].
  by rewrite (mapM_same toQString l l'); [|apply toQString_proper|].
Qed.

(** The reader of a configuration does not look at its type, nor at the order of its
    members. *)
Lemma parseConfig_agree (sort : list IPAddress -> list IPAddress) (o o' : QJsonObject)
    (config : InterfaceConfig) :
  agreeBut (qs "type") o o' -> parseConfig sort o config = parseConfig sort o' config.
Proof.
  intros Ho.
  assert (forall k, k <> qs "type" -> optionalText k o = optionalText k o') as Ht
    by (intros k Hk; by apply toQString_proper, Ho).
  assert (parseHop o = parseHop o') as Hhop.
  { unfold parseHop. destruct (Ho (qs "hopType") ltac:(done)) as [Hv ->].
    by destruct (hasKey _ _), Hv. }
  assert (parseDns o = parseDns o') as Hdns.
  { unfold parseDns. destruct (Ho (qs "dnsServer") ltac:(done)) as [Hv ->].
    by destruct (hasKey _ _), Hv. }
  unfold parseConfig. rewrite Hhop, Hdns, !Ht by done.
  destruct (proj1 (Ho (qs "privateKey") ltac:(done))) as [[]| |],
    (proj1 (Ho (qs "serverPublicKey") ltac:(done))) as [[]| |],
    (proj1 (Ho (qs "serverPort") ltac:(done))) as [[]| |]; try done.
  destruct (proj1 (Ho (qs "allowedIPAddressRanges") ltac:(done))) as [|l l' Hl|]; [|..|done].
  - destruct (Ho (qs "vpnDisabledApps") ltac:(done)) as [Hv Hk].
    by rewrite (parseStringList_same _ _ o o').
  - destruct (Ho (qs "vpnDisabledApps") ltac:(done)) as [Hv Hk].
    by rewrite (parseStringList_same _ _ o o'), (mapM_same parseRange l l' parseRange_same).
Qed.

Context `{Backend}.
Variable sort : list IPAddress -> list IPAddress.
Variable hop0 : HopType.
Variable version : chars.
Variable dateToString : option Z -> chars.
Variable logs : chars.

(** The connection once its daemon has been asked for a configuration. *)
Definition activated (config : InterfaceConfig) (c : Connection) : Connection :=
  let '(result, c) := run (activate config) c in
  match result with Ret true => c | _ => disconnected c end.

Lemma activateCommand_message (config : InterfaceConfig) (obj : QJsonObject) (c : Connection) :
  Forall wf (m_allowedIPAddressRanges config) ->
  agreeBut (qs "type") (toJson config) obj ->
  activateCommand sort hop0 obj c = Ret (activated (received sort config) c).
Proof.
  intros Hw Ho. unfold activateCommand, activated.
  rewrite <- (parseConfig_agree sort (toJson config) obj), parseConfig_received by done.
  assert (exists ok, fst (run (activate (received sort config)) c) = Ret ok) as [ok E].
  { unfold run. rewrite activate_eq. destruct (activatePlan _ _) as [ok d]. by exists ok. }
  destruct (run _ c) as [r c']. cbn [fst] in E. subst r. by destruct ok.
Qed.

(** C6: an activation crosses the socket. The client writes one message; however its
    bytes are spread over the arrivals of a connection without pending bytes and
    over the calls of [readAll] in each, the daemon activates, once, the
    configuration it reads from it, and answers a failure with a disconnection.
    What it reads is [received]: the members the message carries, with null texts
    become empty ones, the ranges sorted, and gateways and resolver only for the
    last hop. *)
Theorem activate_crosses (config : InterfaceConfig) (client : LocalSocket.Client)
    (arrivals : list (list chars)) (c : Connection) :
  Forall wf (m_allowedIPAddressRanges config) -> 0 <= m_serverPort config < 2 ^ 53 ->
  m_buffer c = [] -> Forall (Forall (fun i => i <> [])) arrivals ->
  concat (concat arrivals) = messageLine (LocalSocket.activateMessage config) ->
  LocalSocket.effects (LocalSocket.activate config client)
  = LocalSocket.effects client ++ [LocalSocket.SocketWrite (concat (concat arrivals))]
  /\ readArrivals sort hop0 version dateToString logs arrivals c
     = Ret (activated (received sort config) c).
Proof.
  intros Hw Hp Hb Hi Hinput. split; [by rewrite Hinput|].
  set (message := LocalSocket.activateMessage config) in *.
  destruct (readArrivals_frames sort hop0 version dateToString logs arrivals c)
    as (c' & E1 & ->); [rewrite Hb; apply not_elem_of_nil|done|].
  assert (frames (m_buffer c ++ concat (concat arrivals)) = ([toCompact message], [])) as E.
  { rewrite Hb, Hinput. cbn [app].
    pose proof (frames_messages [message]) as Hf. cbn [map concat] in Hf.
    by rewrite app_nil_r in Hf. }
  rewrite E in E1 |- *. cbn [fst snd runCommands] in *.
  destruct (fromBytes_toCompact message) as (o & Hread & Hsame & Hkeys);
    [by apply exactJson_activateMessage|].
  assert (value (qs "type") o = JString (qs "activate")) as Htype.
  { pose proof (Hsame (qs "type")) as Hv. unfold message, LocalSocket.activateMessage in Hv.
    rewrite value_insertKey, bool_decide_true in Hv by done. by inversion Hv. }
  assert (agreeBut (qs "type") (toJson config) o) as Ho.
  { intros k Hk. unfold message, LocalSocket.activateMessage in Hsame, Hkeys.
    specialize (Hsame k). rewrite value_insertKey in Hsame.
    rewrite Hkeys, hasKey_insertKey. rewrite bool_decide_false in Hsame |- * by congruence.
    done. }
  unfold parseCommand in E1. rewrite Hread, Htype, bool_decide_true in E1 by done.
  rewrite (activateCommand_message config o c Hw Ho) in E1. injection E1 as <-.
  assert (m_buffer (activated (received sort config) c) = []) as Hbuf.
  { rewrite <- Hb. apply (serverCommand_keeps sort hop0 version dateToString logs (toCompact message)).
    unfold parseCommand. rewrite Hread, Htype, bool_decide_true by done.
    by apply activateCommand_message. }
  rewrite <- Hbuf at 1. by rewrite serverBuffer_id.
Qed.

(** ** The daemon's signals cross the socket *)

Variable dateFromString : chars -> option Z.

(** What the client tells the controller. *)
Definition signalEffects (s : Signal) : list LocalSocket.Effect :=
  match s with
  | Connected pubkey => [LocalSocket.ConnectedSignal (text pubkey)]
  | Disconnected => [LocalSocket.DisconnectedSignal]
  | BackendFailure => [LocalSocket.BackendFailure ERROR_FATAL]
  | ActivationFailure => []
  end.

(** A client that is ready, whose timers wait for the answers of its own requests. *)
Definition listening (c : LocalSocket.Client) : Prop :=
  LocalSocket.m_daemonState c = LocalSocket.eReady
  /\ Forall (fun t => t.1 = qs "status" \/ t.1 = qs "logs") (LocalSocket.m_responseTimeouts c).

(** No timer waits for the type of a signal. *)
Lemma clearTimeout_signal (type : chars) (c : LocalSocket.Client) :
  type <> qs "status" -> type <> qs "logs" -> listening c ->
  LocalSocket.clearTimeout type c = Ret c.
Proof.
  intros Hs Hl [_ Ht]. unfold LocalSocket.clearTimeout.
  assert (forall l : list (chars * Z), Forall (fun t => t.1 = qs "status" \/ t.1 = qs "logs") l ->
    existsb (fun t => bool_decide (t.1 = type)) l = false
    /\ List.filter (fun t => negb (bool_decide (t.1 = type))) l = l) as Hnone.
  { intros l Hf. induction Hf as [|t l Ht' _ [IH1 IH2]]; [done|]. cbn.
    rewrite bool_decide_false by (destruct Ht'; congruence). cbn. by rewrite IH1, IH2. }
  rewrite (proj2 (Hnone _ Ht)). cbv zeta.
  assert (existsb (fun t : chars * Z => bool_decide (t.1 = type))
            (removelast (LocalSocket.m_responseTimeouts c)) = false) as ->.
  { apply (Hnone (removelast (LocalSocket.m_responseTimeouts c))).
    clear - Ht. induction Ht as [|t [|u l] Hx Hr IH]; cbn; [done|done|]. by constructor. }
  by destruct c.
Qed.

(** A message of the given type reaches the commands of a ready client. *)
Lemma parseCommand_ready (o : QJsonObject) (type : chars) (c : LocalSocket.Client) :
  exactJson (JObject o) = true -> value (qs "type") o = JString type ->
  type <> qs "status" -> type <> qs "logs" -> listening c ->
  exists o', o ≡ o'
    /\ LocalSocket.parseCommand dateFromString (toCompact o) c
       = Ret (LocalSocket.readyCommand type o' c).
Proof.
  intros He Ht Hs Hl Hc. destruct (fromBytes_toCompact o He) as (o' & Hr & Ho & _).
  exists o'. split; [done|]. unfold LocalSocket.parseCommand. rewrite Hr.
  pose proof (Ho (qs "type")) as Hv. rewrite Ht in Hv. apply same_string in Hv. rewrite Hv.
  rewrite clearTimeout_signal by done. cbn [outcome_bind]. unfold LocalSocket.execute.
  rewrite bool_decide_false by done. cbn [andb]. by rewrite bool_decide_true by apply Hc.
Qed.

Lemma signal_received (s : Signal) (c : LocalSocket.Client) :
  listening c ->
  exists c', LocalSocket.runCommands dateFromString (map toCompact (signalMessages s)) c = Ret c'
    /\ listening c' /\ LocalSocket.effects c' = LocalSocket.effects c ++ signalEffects s.
Proof.
  intros Hc. destruct s as [pubkey| | |]; cbn [signalMessages map LocalSocket.runCommands].
  - destruct (parseCommand_ready (connectedMessage pubkey) (qs "connected") c) as (o & Ho & ->);
      [done..|].
    pose proof (Ho (qs "pubkey")) as Hv.
    change (value (qs "pubkey") (connectedMessage pubkey)) with (JString (text pubkey)) in Hv.
    apply same_string in Hv. eexists. split; [done|].
    unfold LocalSocket.readyCommand. by rewrite Hv.
  - exists c. cbn. by rewrite app_nil_r.
  - destruct (parseCommand_ready disconnectedMessage (qs "disconnected") c) as (o & Ho & ->);
      [done..|].
    eexists. split; [done|]. split; [|done]. split; [done|apply Hc].
  - destruct (parseCommand_ready (backendFailureMessage ERROR_FATAL) (qs "backendFailure") c)
      as (o & Ho & ->); [done..|].
    pose proof (Ho (qs "errorCode")) as Hv.
    change (value (qs "errorCode") (backendFailureMessage ERROR_FATAL)) with (JDouble 1 1) in Hv.
    apply same_double in Hv. eexists. split; [done|].
    unfold LocalSocket.readyCommand. by rewrite Hv.
Qed.

Lemma signals_received (emitted : list Signal) (c : LocalSocket.Client) :
  listening c ->
  exists c', LocalSocket.runCommands dateFromString
               (map toCompact (flat_map signalMessages emitted)) c = Ret c'
    /\ listening c'
    /\ LocalSocket.effects c' = LocalSocket.effects c ++ flat_map signalEffects emitted.
Proof.
  revert c. induction emitted as [|s l IH]; intros c Hc.
  - exists c. cbn. by rewrite app_nil_r.
  - cbn [flat_map]. rewrite map_app, LocalSocket.runCommands_app.
    destruct (signal_received s c Hc) as (c1 & -> & Hl & He). cbn [outcome_bind].
    destruct (IH c1 Hl) as (c2 & -> & Hl' & He'). exists c2. split; [done|]. split; [done|].
    by rewrite He', He, <- app_assoc.
Qed.

(** What the daemon emits is what a ready client tells the controller, in the same
    order and each once, however the bytes are split. *)
Theorem signals_cross (emitted : list Signal) (chunks : list chars) (c : LocalSocket.Client) :
  listening c -> LocalSocket.m_buffer c = [] ->
  concat chunks = concat (map messageLine (flat_map signalMessages emitted)) ->
  exists c', LocalSocket.readAllData dateFromString chunks c = Ret c'
    /\ listening c'
    /\ LocalSocket.effects c' = LocalSocket.effects c ++ flat_map signalEffects emitted.
Proof.
  intros Hc Hb Hchunks. destruct (signals_received emitted c Hc) as (c1 & E & Hl & He).
  rewrite LocalSocket.readAllData_frames by (rewrite Hb; apply not_elem_of_nil).
  rewrite Hb, Hchunks. cbn [app]. rewrite frames_messages, E. by eexists.
Qed.

Lemma write_messages (objs : list QJsonObject) (c : Connection) :
  written (foldl (fun c obj => write obj c) c objs) = written c ++ concat (map messageLine objs).
Proof.
  revert c. induction objs as [|o objs IH]; intros c; cbn [foldl map concat].
  - by rewrite app_nil_r.
  - rewrite IH. unfold write, messageLine.
    change (written (_ <| written := ?x |>)) with x. by rewrite <- !app_assoc.
Qed.

(** What the connection writes for an operation of the daemon is exactly the messages
    of the signals the operation emits. *)
Lemma run_written {A : Type} (m : M A) (c : Connection) (l : list Signal) :
  signals (snd (m (m_daemon c))) = signals (m_daemon c) ++ l ->
  written (snd (run m c)) = written c ++ concat (map messageLine (flat_map signalMessages l)).
Proof.
  unfold run. destruct (m (m_daemon c)) as [a d]. cbn [snd]. intros ->.
  rewrite drop_app_length. exact (write_messages _ (c <| m_daemon := d |>)).
Qed.

(** ** Requests for logs *)

(** The logs arrive as they are, unless they have a vertical bar. *)
Lemma logs_roundtrip (s : chars) :
  "|"%char ∉ s -> replaceChar "|" newline (replaceChar newline "|" s) = s.
Proof.
  intros Hs. unfold replaceChar. rewrite map_map. rewrite <- (map_id s) at 2.
  apply map_ext_in. intros x Hx%list_elem_of_In. repeat case_bool_decide; congruence.
Qed.

(** Cleaning the logs is never answered, but the client waits for an answer: after
    five seconds it takes the daemon for dead. *)
Lemma cleanlogs_unanswered (c : Connection) (client : LocalSocket.Client) :
  LocalSocket.m_daemonState client = LocalSocket.eReady ->
  (exists c', parseCommand sort hop0 version dateToString logs
                (toCompact (LocalSocket.message (qs "cleanlogs"))) c = Ret c'
     /\ written c' = written c)
  /\ LocalSocket.m_responseTimeouts (LocalSocket.cleanupBackendLogs client)
     = LocalSocket.m_responseTimeouts client ++ [(qs "logs", 5000)].
Proof.
  intros Hc. split.
  - destruct (fromBytes_toCompact (LocalSocket.message (qs "cleanlogs")) eq_refl) as (o & E & Ho & _).
    pose proof (Ho (qs "type")) as Hv. apply same_string in Hv.
    unfold parseCommand. rewrite E, Hv. by eexists.
  - unfold LocalSocket.cleanupBackendLogs. rewrite bool_decide_true by done. done.
Qed.

End Crossing.

(** ** Examples *)

#[local] Existing Instance modelText.
#[local] Existing Instance modelTextLaws.
#[local] Existing Instance modelJsonText.
#[local] Existing Instance modelJsonTextLaws.

Definition accepted : Connection := mkConnection [] Daemon.initial [] false.

(** A configuration in two arrivals, the second of two pieces. *)
Lemma activate_crosses_witness :
  let payload := messageLine (LocalSocket.activateMessage serverA) in
  readArrivals (H1 := accepting) (fun l => l) SingleHop [] (fun _ => []) []
    [[take 5 payload]; [take 2 (drop 5 payload); drop 2 (drop 5 payload)]] accepted
  = Ret (activated (H3 := accepting) (received (fun l => l) serverA) accepted).
Proof.
  intros payload.
  apply (activate_crosses (H3 := accepting) (fun l => l) SingleHop [] (fun _ => []) []
           serverA LocalSocket.initial
           [[take 5 payload]; [take 2 (drop 5 payload); drop 2 (drop 5 payload)]] accepted).
  - repeat constructor; by vm_compute.
  - by_decision.
  - done.
  - repeat constructor; by_decision.
  - cbn [concat app]. rewrite app_nil_r. by rewrite (take_drop 2), take_drop.
Defined.

Lemma signals_cross_witness :
  let emitted := [Connected (Some (qs "A=")); ActivationFailure; BackendFailure; Disconnected] in
  let bytes := concat (map messageLine (flat_map signalMessages emitted)) in
  exists c', LocalSocket.readAllData (fun _ => None) [bytes] (LocalSocket.stalled []) = Ret c'
    /\ LocalSocket.effects c'
       = [LocalSocket.ConnectedSignal (qs "A="); LocalSocket.BackendFailure 1;
          LocalSocket.DisconnectedSignal].
Proof.
  intros emitted bytes.
  destruct (signals_cross (fun _ => None) emitted [bytes] (LocalSocket.stalled []))
    as (c' & E & _ & He).
  - split; [done|constructor].
  - done.
  - apply app_nil_r.
  - exists c'. split; [exact E|exact He].
Defined.

End DaemonConnection.
