(* ===== verification/LinuxController.v ===== *)
(** * The controller's backend on Linux

    Model of [src/src/platforms/linux/linuxcontroller.cpp] and [dbusclient.cpp]: the
    calls of the controller as asynchronous D-Bus calls, what their replies and the
    service's signals tell the controller, and when split tunnelling is supported. At
    the end the client, the bus and the service of DBusService are put together. *)
From Stdlib Require Import ZArith Lia Ascii String Wellfounded.
From stdpp Require Import base numbers list gmap strings relations.
From S2P Require Import Prelude QHostAddress QString QtTextModel QStringExtra IPAddress.
From S2P Require Import Json JsonText InterfaceConfig DaemonModel SplitTunnel DBusService.
From S2P Require Import ControllerModel ControllerProofs DaemonConnection.
Import IPAddress.

Local Open Scope Z_scope.
Local Open Scope wg_scope.

Module LinuxController.
Import DBusService.

(** ** State *)

(** The slot that awaits the reply of a call. *)
Inductive Watcher : Type :=
| InitializeCompleted
| OperationCompleted
| CheckStatusCompleted
| LogsCompleted (device : Z)
| NoSlot.

(** What a call answers: the type it was declared with, or an error with its text. *)
Inductive BusReply : Type :=
| Answer (r : Reply)
| Failure (message : chars).

(** Signals to the controller, reports to the error handler and the text given to the
    receiver of the logs, which is then closed. *)
Inductive Effect : Type :=
| Told (ev : Controller.Event)
| Reported (e : Controller.ErrorReport)
| LogsWritten (device : Z) (text : chars).

Definition SERVICE : chars := qs "org.mozilla.vpn.dbus".

(** [QDBusPendingReply<QString>] and [<bool>]: [None] is an error. *)
Definition textOf (r : BusReply) : option chars :=
  match r with Answer (TextReply t) => Some t | _ => None end.

Definition boolOf (r : BusReply) : option bool :=
  match r with Answer (BoolReply b) => Some b | _ => None end.

Section Client.
Context `{QtText} `{QtJsonText}.

(** [QDateTime::fromString] for a date in the ISO format. *)
Variable dateOfString : chars -> option Z.

(** ** Requests *)

Inductive Op : Type :=
| Initialize
| ActivateConfig (config : InterfaceConfig)
| DeactivateTunnel
| CheckStatus
| GetBackendLogs (device : Z)
| CleanupBackendLogs.

(** The call of an operation, and its watcher. *)
Definition request (o : Op) : Watcher * Request :=
  match o with
  | Initialize => (InitializeCompleted, Status)
  | ActivateConfig config => (OperationCompleted, Activate (toCompact (toJson config)))
  | DeactivateTunnel => (OperationCompleted, Deactivate)
  | CheckStatus => (CheckStatusCompleted, Status)
  | GetBackendLogs device => (LogsCompleted device, GetLogs)
  | CleanupBackendLogs => (NoSlot, CleanupLogs)
  end.

(** ** Replies *)

Definition failed : list Effect :=
  [Reported Controller.ControllerError; Told Controller.Disconnected].

(** The document of a status; the assertions on it are not compiled in. *)
Definition statusObject (t : chars) : QJsonObject := default [] (fromBytes t).

Definition initializeCompleted (now : Z) (r : BusReply) : list Effect :=
  match textOf r with
  | None => [Told (Controller.ImplInitialized false false None)]
  | Some status =>
      let statusValue := value (qs "connected") (statusObject status) in
      [Told (Controller.ImplInitialized true (toBool statusValue) (Some now))]
  end.

Definition operationCompleted (r : BusReply) : list Effect :=
  match boolOf r with Some true => [] | _ => failed end.

Definition checkStatusCompleted (r : BusReply) : list Effect :=
  match textOf r with
  | None => []
  | Some status =>
      let obj := statusObject status in
      if negb (toBool (value (qs "connected") obj)) then []
      else [Told (Controller.StatusReceived (Controller.statusOfJson dateOfString obj))]
  end.

(** [logfile] is the contents of the daemon's log, if it can be read. *)
Definition logsCompleted (device : Z) (logfile : option chars) (r : BusReply) : list Effect :=
  [LogsWritten device
     match r with
     | Failure message => default message logfile
     | _ => default [] (textOf r)
     end].

Definition completed (now : Z) (logfile : option chars) (w : Watcher) (r : BusReply)
  : list Effect :=
  match w with
  | InitializeCompleted => initializeCompleted now r
  | OperationCompleted => operationCompleted r
  | CheckStatusCompleted => checkStatusCompleted r
  | LogsCompleted device => logsCompleted device logfile r
  | NoSlot => []
  end.

(** ** Signals of the bus *)

Inductive BusSignal : Type :=
| Emitted (s : Daemon.Signal)
| NameOwnerChanged (name prevOwner newOwner : chars).

Definition dbusNameOwnerChanged (name prevOwner newOwner : chars) : list Effect :=
  if negb (bool_decide (name = SERVICE)) then []
  else if bool_decide (prevOwner = []) then [] else failed.

(** The interface has two signals. *)
Definition receive (s : BusSignal) : list Effect :=
  match s with
  | Emitted (Daemon.Connected pubkey) => [Told (Controller.Connected pubkey)]
  | Emitted Daemon.Disconnected => [Told Controller.Disconnected]
  | Emitted _ => []
  | NameOwnerChanged name prevOwner newOwner => dbusNameOwnerChanged name prevOwner newOwner
  end.

(** ** Split tunnelling *)

(** [QVersionNumber], with its order on numbers that are not negative. *)
Definition QVersionNumber : Type := list Z.

Fixpoint versionLt (a b : QVersionNumber) : bool :=
  match a, b with
  | _, [] => false
  | [], _ :: _ => true
  | x :: a, y :: b => if x =? y then versionLt a b else x <? y
  end.

(** The mount point of the control groups, the variable [XDG_CURRENT_DESKTOP] and the
    versions of the two shells. *)
Record Desktop : Type := mkDesktop {
  findCgroup2Path : QString;
  currentDesktop : option chars;
  gnomeShellVersion : QVersionNumber;
  kdePlasmaVersion : QVersionNumber;
}.

Definition colon : ascii := ":"%char.

Definition supportedBy (d : Desktop) : bool :=
  if isNullString (findCgroup2Path d) then false
  else
    match currentDesktop d with
    | None => false
    | Some names =>
        let desktop := split colon names in
        if bool_decide (qs "GNOME" ∈ desktop) then
          negb (bool_decide (gnomeShellVersion d = [])) && negb (versionLt (gnomeShellVersion d) [3; 34])
        else if bool_decide (qs "KDE" ∈ desktop) then
          negb (bool_decide (kdePlasmaVersion d = [])) && negb (versionLt (kdePlasmaVersion d) [5; 24])
        else false
    end.

(** [m] is the static variable, [None] before the first call. *)
Definition splitTunnelSupported (d : Desktop) (m : option bool) : bool * option bool :=
  match m with
  | Some b => (b, m)
  | None => (supportedBy d, Some (supportedBy d))
  end.

(** ** The client, the bus and the service *)

Context `{Daemon.Backend}.
Variable sort : list IPAddress -> list IPAddress.
Variable hop0 : HopType.
Variable protocolVersion version : chars.
Variable dateToString : option Z -> chars.
Variable logs : chars.

(** A call on the bus. [c_watcher] is [None] once it has been told of an error, as when
    the reply takes too long; [c_reply] is the reply on its way. *)
Record Call : Type := mkCall {
  c_watcher : option Watcher;
  c_request : Request;
  c_reply : option BusReply;
}.

(** What the client has been told is [effects], what it has asked [asked]. *)
Record System : Type := mkSystem {
  asked : list Op;
  effects : list Effect;
  calls : list Call;
  signals : list BusSignal;
  service : Service;
}.

#[export] Instance System_eta : Eta System := fun y =>
  mkSystem (asked y) (effects y) (calls y) (signals y) (service y).

Definition start (mount : chars) : System := mkSystem [] [] [] [] (initial mount).

Definition invoke (o : Op) (y : System) : System :=
  let '(w, r) := request o in
  y <| asked := asked y ++ [o] |> <| calls := calls y ++ [mkCall (Some w) r None] |>.

(** The signals that an operation of the service has emitted. *)
Definition emitted (s s' : Service) : list BusSignal :=
  map Emitted (drop (length (Daemon.signals (m_base s))) (Daemon.signals (m_base s'))).

Definition tell (l : list Effect) (y : System) : System := y <| effects := effects y ++ l |>.

Definition changed (s' : Service) (y : System) : System :=
  y <| service := s' |> <| signals := signals y ++ emitted (service y) s' |>.

(** An error for the calls that the service has not answered. *)
Definition unanswered (c : Call) : Call :=
  match c_reply c with
  | Some _ => c
  | None => mkCall (c_watcher c) (c_request c) (Some (Failure (qs "NoReply")))
  end.

(** The daemon answers calls in order; replies and signals are handled in any order,
    except that signals keep theirs. *)
Inductive progress : System -> System -> Prop :=
| serve_call p y l r w rest reply s' :
    calls y = l ++ mkCall w r None :: rest -> Forall (fun c => c_reply c <> None) l ->
    serve sort hop0 protocolVersion version dateToString logs p r (service y) = (Ret reply, s') ->
    progress y (changed s' y <| calls := l ++ mkCall w r (Some (Answer reply)) :: rest |>)
| deliver_reply now logfile y l w r reply rest :
    calls y = l ++ mkCall (Some w) r (Some reply) :: rest ->
    progress y (tell (completed now logfile w reply) y <| calls := l ++ rest |>)
| forget_reply y l r reply rest :
    calls y = l ++ mkCall None r (Some reply) :: rest ->
    progress y (y <| calls := l ++ rest |>)
| deliver_signal y s rest :
    signals y = s :: rest ->
    progress y (tell (receive s) y <| signals := rest |>).

Inductive step : System -> System -> Prop :=
| step_progress y y' : progress y y' -> step y y'
| step_op o y : step y (invoke o y)
| step_daemon e y :
    match e with Called _ _ => False | _ => True end ->
    step y (changed (handle sort hop0 protocolVersion version dateToString logs (service y) e) y)
| step_timeout now logfile message y l w r reply rest :
    calls y = l ++ mkCall (Some w) r reply :: rest ->
    step y (tell (completed now logfile w (Failure message)) y
              <| calls := l ++ mkCall None r reply :: rest |>)
| step_restart mount prevOwner newOwner y :
    prevOwner <> [] ->
    step y (y <| service := initial mount |> <| calls := map unanswered (calls y) |>
              <| signals := signals y ++ [NameOwnerChanged SERVICE prevOwner newOwner] |>).

Definition quiet (y : System) : Prop := calls y = [] /\ signals y = [].

(** ** Lemmas *)

Lemma activateJson_returns (p : Polkit) (json : chars) (s : Service) :
  exists b s', activateJson sort hop0 p json s = (Ret b, s').
Proof.
  unfold activateJson. destruct (Daemon.parseConfig _ _ _) as [config|]; [|by eexists _, _].
  rewrite activation_eq. destruct (activation p config s) as [b s']. by eexists _, _.
Qed.

(** Every call is answered with the type it was declared with. *)
Lemma serve_returns (p : Polkit) (r : Request) (s : Service) :
  exists reply s',
    serve sort hop0 protocolVersion version dateToString logs p r s = (Ret reply, s').
Proof.
  destruct r; cbn [serve]; try (by eexists _, _).
  - destruct (activateJson_returns p json s) as (b & s' & ->). by eexists _, _.
  - destruct (deactivate p 0 true s). by eexists _, _.
  - destruct (status _ _ p s). by eexists _, _.
Qed.

(** *** Delivery ends *)

Definition open_ (c : Call) : bool := match c_reply c with None => true | Some _ => false end.

Definition count {A : Type} (f : A -> bool) (l : list A) : nat := length (List.filter f l).

#[local] Arguments count : simpl never.

Lemma count_app {A : Type} (f : A -> bool) (l l' : list A) :
  count f (l ++ l') = (count f l + count f l')%nat.
Proof. unfold count. by rewrite List.filter_app, length_app. Qed.

Lemma count_cons {A : Type} (f : A -> bool) (x : A) (l : list A) :
  count f (x :: l) = ((if f x then 1 else 0) + count f l)%nat.
Proof. unfold count. cbn. by destruct (f x). Qed.

Lemma count_nil {A : Type} (f : A -> bool) : count f [] = 0%nat.
Proof. done. Qed.

Ltac counting := rewrite ?count_app, ?count_cons, ?count_nil; cbn.

(** Calls that wait for the service, then everything on its way. *)
Definition workload (y : System) : nat * nat :=
  (count open_ (calls y), (length (calls y) + length (signals y))%nat).

Definition less (a b : nat * nat) : Prop :=
  (a.1 < b.1)%nat \/ (a.1 = b.1 /\ (a.2 < b.2)%nat).

Lemma less_wf : well_founded less.
Proof.
  intros [a b]. revert b. induction (lt_wf a) as [a _ IHa]. intros b.
  induction (lt_wf b) as [b _ IHb]. constructor. intros [a' b'] [Hl|[Ha Hl]];
    cbn in *; [by apply IHa|]. subst a'. by apply IHb.
Qed.

Lemma progress_less (y y' : System) : progress y y' -> less (workload y') (workload y).
Proof.
  unfold less, workload. intros [p y0 l r w rest reply s' E _ _|now lf y0 l w r reply rest E
    |y0 l r reply rest E|y0 s rest E]; cbn; rewrite E, ?count_app, ?count_cons, ?length_app; cbn; lia.
Qed.

(** The first call without a reply can be served, and what is on its way delivered. *)
Lemma progress_possible (y : System) : quiet y \/ exists y', progress y y'.
Proof.
  destruct (signals y) as [|s rest] eqn:Es; [|right; eexists; by eapply deliver_signal].
  destruct (calls y) as [|c rest] eqn:Ec; [by left|right].
  destruct c as [w r [reply|]].
  - destruct w as [w|]; eexists.
    + by apply (deliver_reply 0 None y [] w r reply rest).
    + by apply (forget_reply y [] r reply rest).
  - destruct (serve_returns (fun _ _ => true) r (service y)) as (reply & s' & Hs).
    eexists. by eapply (serve_call _ y [] r w rest reply s').
Qed.

(** *** Disconnections *)

Definition asksDeactivation (o : Op) : bool :=
  match o with DeactivateTunnel => true | _ => false end.

Definition isDisconnected (e : Effect) : bool :=
  match e with Told Controller.Disconnected => true | _ => false end.

(** A signal that will be passed on as a disconnection. *)
Definition bringsDisconnected (s : BusSignal) : bool := existsb isDisconnected (receive s).

(** A deactivation whose watcher will tell of a disconnection: all but a success on its
    way, for which the daemon has emitted the signal. *)
Definition owed (c : Call) : bool :=
  match c_watcher c, c_request c with
  | Some OperationCompleted, Deactivate =>
      match c_reply c with Some (Answer (BoolReply true)) => false | _ => true end
  | _, _ => false
  end.

(** Each deactivation asked for has been told, or will be. *)
Definition answered (y : System) : Prop :=
  (count asksDeactivation (asked y)
   <= count isDisconnected (effects y) + count bringsDisconnected (signals y)
      + count owed (calls y))%nat.

Lemma count_map {A B : Type} (f : B -> bool) (g : A -> bool) (h : A -> B) (l : list A) :
  (forall x, f (h x) = g x) -> count f (map h l) = count g l.
Proof. intros E. induction l as [|x l IH]; [done|]. cbn. by rewrite !count_cons, E, IH. Qed.

(** A deactivation that succeeds is signalled. *)
Lemma deactivate_emits (p : Polkit) (s s' : Service) (reply : Reply) :
  serve sort hop0 protocolVersion version dateToString logs p Deactivate s = (Ret reply, s') ->
  reply = BoolReply true -> (0 < count bringsDisconnected (emitted s s'))%nat.
Proof.
  cbn [serve]. unfold deactivate, base. destruct (p 0%nat DEACTIVATE); cbn [negb];
    [|by intros [= <- _]].
  change (m_base (withSplit _ s)) with (m_base s). rewrite Daemon.deactivate_eq.
  unfold Daemon.teardownPlan. destruct (Daemon.execute _ _) as [[] t]; [|by intros [= <- _]].
  intros [= _ <-] _. unfold emitted. cbn. rewrite drop_app_length. cbn. rewrite count_cons. cbn. lia.
Qed.

Lemma failed_told : count isDisconnected failed = 1%nat.
Proof. done. Qed.

(** The watcher of a deactivation that is owed tells of it. *)
Lemma completed_told now logfile w r reply :
  owed (mkCall (Some w) r (Some reply)) = true ->
  count isDisconnected (completed now logfile w reply) = 1%nat.
Proof.
  unfold owed. cbn. destruct w, r; try done.
  destruct reply as [[[] | |]|]; done.
Qed.

Lemma timeout_told now logfile w r reply message :
  owed (mkCall (Some w) r reply) = true ->
  count isDisconnected (completed now logfile w (Failure message)) = 1%nat.
Proof. unfold owed. cbn. by destruct w, r. Qed.

Lemma progress_answered (y y' : System) : answered y -> progress y y' -> answered y'.
Proof.
  unfold answered. intros Hy Hp. destruct Hp as [p y0 l r w rest reply s' E _ Es
    |now lf y0 l w r reply rest E|y0 l r reply rest E|y0 s rest E]; cbn in *;
    rewrite E, ?count_app, ?count_cons in Hy; rewrite ?count_app, ?count_cons.
  - assert (owed (mkCall w r None) = true -> owed (mkCall w r (Some (Answer reply))) = false ->
            (0 < count bringsDisconnected (emitted (service y0) s'))%nat) as Hd.
    { unfold owed. cbn. destruct w as [[]|], r; try done. intros _ Hr.
      eapply deactivate_emits; [exact Es|]. destruct reply as [[] | |]; done. }
    destruct (owed (mkCall w r None)), (owed (mkCall w r (Some (Answer reply)))); lia.
  - pose proof (completed_told now lf w r reply) as Hd.
    destruct (owed _); [rewrite Hd by done|]; lia.
  - cbn [owed c_watcher] in Hy. lia.
  - assert (bringsDisconnected s = true -> (0 < count isDisconnected (receive s))%nat) as Hd.
    { unfold bringsDisconnected. generalize (receive s). clear. intros l.
      induction l as [|x l IH]; [done|]. cbn [existsb]. rewrite count_cons.
      destruct (isDisconnected x); cbn; [lia|]. intros E. specialize (IH E). lia. }
    destruct (bringsDisconnected s); [specialize (Hd eq_refl)|]; lia.
Qed.

Lemma step_answered (y y' : System) : answered y -> step y y' -> answered y'.
Proof.
  intros Hy Hs.
  destruct Hs as [y0 y1 Hp|o y0|e y0 _|now lf message y0 l w r reply rest E|mount old new y0 _].
  - exact (progress_answered y0 y1 Hy Hp).
  - unfold answered in *. destruct o; cbn; counting; lia.
  - unfold answered in *. cbn. counting. lia.
  - unfold answered in *. cbn in *. rewrite E, count_app, count_cons in Hy.
    rewrite !count_app, count_cons. pose proof (timeout_told now lf w r reply message) as Hd.
    change (owed (mkCall None r reply)) with false.
    destruct (owed _); [rewrite Hd by done|]; lia.
  - unfold answered in *. cbn. counting.
    rewrite (count_map owed owed) by (intros [w r [reply|]]; [done|by destruct w as [[]|], r]).
    lia.
Qed.

(** ** Properties *)

(** C11: whatever the controller asks, polkit and the backend answer and the clock does, in
    every reachable state the service can answer and the bus deliver what is under way,
    this comes to an end, and once nothing is under way the controller has been told of
    at least one disconnection for each deactivation that it asked for. *)
Theorem deactivations_told (mount : chars) (y : System) :
  rtc step (start mount) y ->
  Acc (fun a b => progress b a) y
  /\ (quiet y \/ exists y', progress y y')
  /\ (quiet y -> (count asksDeactivation (asked y) <= count isDisconnected (effects y))%nat).
Proof.
  intros Hr. split_and!; [|apply progress_possible|].
  - clear Hr. remember (workload y) as n eqn:En. revert y En.
    induction (less_wf n) as [n _ IH]. intros y ->. constructor. intros y' Hp.
    eapply IH; [by apply progress_less|done].
  - assert (answered y) as Ha.
    { assert (answered (start mount)) as H0' by (unfold answered; cbn; counting; lia).
      induction Hr as [|y0 y1 y2 Hs _ IH]; [done|]. apply IH. by eapply step_answered. }
    unfold answered in Ha. intros [Ec Es]. rewrite Ec, Es, !count_nil in Ha. lia.
Qed.

(** *** What crosses the bus *)

(** An operation answered by the service. *)
Definition serveOp (p : Polkit) (o : Op) (s : Service) : Outcome Reply * Service :=
  serve sort hop0 protocolVersion version dateToString logs p (request o).2 s.

Section Crossing.
Context `{!QtTextLaws} `{!QtJsonTextLaws}.

Lemma activateJson_config (p : Polkit) (config : InterfaceConfig) (s : Service) :
  Forall wf (m_allowedIPAddressRanges config) -> 0 <= m_serverPort config < 2 ^ 53 ->
  activateJson sort hop0 p (toCompact (toJson config)) s
  = activate p (Daemon.received sort config) s.
Proof.
  intros Hw Hp. unfold activateJson.
  destruct (fromBytes_toCompact (toJson config)) as (o & -> & Ho & Hk);
    [by apply DaemonConnection.exactJson_config|]. cbn [default from_option].
  rewrite <- (DaemonConnection.parseConfig_agree sort (toJson config) o); [|by split].
  by rewrite Daemon.parseConfig_received.
Qed.

(** C7: an activation crosses the bus whole: the service activates the configuration that
    was asked for, as the daemon reads it. If polkit allows the caller and this
    succeeds, the connection is recorded and its handshake awaited, and the controller is
    told nothing yet; in all other cases, errors of the bus included, the controller is
    told of a disconnection and an error is reported. *)
Theorem activation_crosses (p : Polkit) (config : InterfaceConfig) (s : Service)
    (now : Z) (logfile : option chars) :
  Forall wf (m_allowedIPAddressRanges config) -> 0 <= m_serverPort config < 2 ^ 53 ->
  let config' := Daemon.received sort config in
  let w := (request (ActivateConfig config)).1 in
  exists b s', activate p config' s = (Ret b, s')
  /\ serveOp p (ActivateConfig config) s = (Ret (BoolReply b), s')
  /\ (b = true -> awaiting config' (m_base s'))
  /\ completed now logfile w (Answer (BoolReply b)) = (if b then [] else failed)
  /\ forall message, completed now logfile w (Failure message) = failed.
Proof.
  intros Hw Hp config' w. pose proof (activation_awaiting p config' s) as Ha.
  destruct (activation p config' s) as [b s'] eqn:E. exists b, s'.
  assert (activate p config' s = (Ret b, s')) as Es by (by rewrite activation_eq, E).
  split_and!; [done| |done|by destruct b|done].
  unfold serveOp. cbn [request snd serve]. rewrite activateJson_config by done.
  change (Daemon.received sort config) with config'. by rewrite Es.
Qed.

(** A caller that polkit refuses initializes as disconnected, whatever the state of the
    tunnel: the empty text is taken for a status. *)
Lemma refused_status (p : Polkit) (s : Service) (now : Z) (logfile : option chars) :
  p 0%nat ACTIVATE = false ->
  exists reply, serveOp p Initialize s = (Ret reply, s)
  /\ completed now logfile (request Initialize).1 (Answer reply)
     = [Told (Controller.ImplInitialized true false (Some now))].
Proof.
  intros Hp. exists (TextReply []). unfold serveOp, serve, status. cbn [request snd].
  rewrite Hp. split; [done|]. unfold completed, initializeCompleted, statusObject. cbn.
  by rewrite fromBytes_nothing.
Qed.

End Crossing.

(** A refused deactivation leaves the tunnel as it is, and the controller, unless it is to
    do something else next, ends in the off state. *)
Lemma refused_deactivation_off (p : Polkit) (s : Service) (now : Z) (logfile : option chars)
    `{Json.QtJson} `{Dns.DNSHelper.Platform} (e : Controller.Env) (c : Controller.Controller) :
  p 0%nat DEACTIVATE = false -> Controller.slots c <> 0%nat ->
  Controller.m_nextStep c = Controller.None_ ->
  exists reply, serveOp p DeactivateTunnel s = (Ret reply, s)
  /\ completed now logfile (request DeactivateTunnel).1 (Answer reply) = failed
  /\ exists c', Controller.handle e Controller.Disconnected c = Ret (tt, c')
     /\ Controller.m_state c' = Controller.StateOff.
Proof.
  intros Hp Hn Hs. exists (BoolReply false). unfold serveOp, serve, deactivate. cbn [request snd].
  rewrite Hp. split_and!; [done|done|].
  destruct (ControllerProofs.ControllerProofs.disconnected_off e c Hn (or_introl Hs))
    as (c' & E & Hoff & _). by exists c'.
Qed.

End Client.

(** ** Examples *)

#[local] Existing Instance modelText.
#[local] Existing Instance modelTextLaws.
#[local] Existing Instance modelJsonText.
#[local] Existing Instance modelJsonTextLaws.
#[local] Existing Instance Daemon.accepting.

#[local] Abbreviation sample f := (f (fun l => l) SingleHop (qs "1") [] (fun _ => []) []).

Definition mount : chars := qs "/sys/fs/cgroup".

(** The caller is refused, and the reply delivered. *)
Definition nobody : Polkit := fun _ _ => false.

Definition refusedReply : BusReply := Answer (BoolReply false).

Definition served : System :=
  changed (initial mount) (invoke DeactivateTunnel (start mount))
    <| calls := [mkCall (Some OperationCompleted) Deactivate (Some refusedReply)] |>.

Definition delivered : System :=
  tell (completed (fun _ => None) 0 None OperationCompleted refusedReply) served <| calls := [] |>.

Lemma delivered_reachable : rtc (sample (step (fun _ => None))) (start mount) delivered.
Proof.
  eapply rtc_l; [apply (step_op _ _ _ _ _ _ _ DeactivateTunnel)|].
  eapply rtc_l; [apply step_progress, (serve_call _ _ _ _ _ _ _ nobody
    (invoke DeactivateTunnel (start mount)) [] Deactivate (Some OperationCompleted) []
    (BoolReply false) (initial mount)); done|].
  apply rtc_once, step_progress.
  by apply (deliver_reply _ _ _ _ _ _ _ 0 None served [] OperationCompleted Deactivate
              refusedReply []).
Qed.

Lemma deactivations_told_witness :
  quiet delivered /\ (1 <= count isDisconnected (effects delivered))%nat.
Proof.
  split; [done|].
  exact (proj2 (proj2 (deactivations_told (fun _ => None) (fun l => l) SingleHop (qs "1") []
    (fun _ => []) [] mount delivered delivered_reachable)) (conj eq_refl eq_refl)).
Defined.

Lemma activation_crosses_witness :
  exists s', serveOp (fun l => l) SingleHop (qs "1") [] (fun _ => []) [] everyone
               (ActivateConfig Daemon.serverA) (initial mount) = (Ret (BoolReply true), s')
  /\ awaiting (Daemon.received (fun l => l) Daemon.serverA) (m_base s').
Proof.
  destruct (activation_crosses (fun _ => None) (fun l => l) SingleHop (qs "1") [] (fun _ => []) []
    everyone Daemon.serverA (initial mount) 0 None) as (b & s' & Ea & Es & Hb & _);
    [repeat constructor; by vm_compute|by_decision|].
  assert (b = true) as Hok.
  { rewrite activation_eq in Ea. apply (f_equal fst) in Ea.
    assert (forall r : bool * Service, fst (let '(b, s) := r in (Ret b, s)) = Ret (fst r)) as Hr
      by (by intros []).
    rewrite Hr in Ea. injection Ea as <-. vm_compute. reflexivity. }
  subst b. exists s'. split; [exact Es|by apply Hb].
Defined.

(** GNOME 3.34 and KDE Plasma 5.24 are recent enough. *)
Example splitTunnel_versions :
  supportedBy (mkDesktop (Some mount) (Some (qs "ubuntu:GNOME")) [3; 34] []) = true
  /\ supportedBy (mkDesktop (Some mount) (Some (qs "KDE")) [] [5; 9; 2]) = false
  /\ supportedBy (mkDesktop (Some mount) (Some (qs "KDE")) [] [6]) = true
  /\ supportedBy (mkDesktop None (Some (qs "KDE")) [] [6]) = false.
Proof. by_decision. Qed.

End LinuxController.
