(* ===== verification/CryptoSettings.v ===== *)
(** * The encrypted settings file

    Model of [src/src/cryptosettings.cpp], of its Linux implementation
    [platforms/linux/xdgcryptosettings.cpp] and of [utils/hkdf.cpp]. The ciphers, the
    hash and the secret of the desktop portal are interfaces; bytes are 8-bit
    characters, and the host is little-endian. *)
From Stdlib Require Import ZArith Lia Ascii String Sorted.
From stdpp Require Import base numbers list gmap strings.
From S2P Require Import Prelude QHostAddress QString Json JsonText.

Local Open Scope Z_scope.
Local Open Scope wg_scope.

(** ** Bytes *)

Definition byteOf (z : Z) : ascii := ascii_of_N (Z.to_N (u8 z)).

(** A [char] as an [int]: it is signed. *)
Definition charValue (c : ascii) : Z :=
  let n := Z.of_N (N_of_ascii c) in if n <? 128 then n else n - 256.

Fixpoint toLittleEndian (n : nat) (z : Z) : chars :=
  match n with
  | O => []
  | S n => byteOf z :: toLittleEndian n (Z.shiftr z 8)
  end.

Fixpoint fromLittleEndian (s : chars) : Z :=
  match s with
  | [] => 0
  | c :: r => Z.of_N (N_of_ascii c) + 256 * fromLittleEndian r
  end.

Lemma byteOf_value (z : Z) : Z.of_N (N_of_ascii (byteOf z)) = u8 z.
Proof.
  unfold byteOf, u8. pose proof (Z.mod_pos_bound z (2 ^ 8) ltac:(lia)).
  rewrite N_ascii_embedding; [by rewrite Z2N.id by lia|].
  change 256%N with (Z.to_N 256). apply Z2N.inj_lt; lia.
Qed.

Lemma charValue_byteOf (z : Z) : charValue (byteOf z) = if u8 z <? 128 then u8 z else u8 z - 256.
Proof. unfold charValue. by rewrite byteOf_value. Qed.

Lemma length_toLittleEndian (n : nat) (z : Z) : length (toLittleEndian n z) = n.
Proof. revert z. induction n as [|n IH]; intros z; cbn; by rewrite ?IH. Qed.

Lemma fromLittleEndian_to (n : nat) (z : Z) :
  0 <= z < 256 ^ Z.of_nat n -> fromLittleEndian (toLittleEndian n z) = z.
Proof.
  revert z. induction n as [|n IH]; intros z Hz; [cbn in *; lia|].
  cbn [toLittleEndian fromLittleEndian]. rewrite Nat2Z.inj_succ, Z.pow_succ_r in Hz by lia.
  rewrite byteOf_value, IH.
  - unfold u8. rewrite Z.shiftr_div_pow2 by lia. change (2 ^ 8) with 256.
    pose proof (Z.div_mod z 256). lia.
  - rewrite Z.shiftr_div_pow2 by lia. change (2 ^ 8) with 256.
    split; [apply Z.div_pos; lia|apply Z.div_lt_upper_bound; lia].
Qed.

Module Hkdf.

(** A keyed hash with results of a fixed length. *)
Class Hmac : Type := {
  hashLength : nat;
  hmac : chars -> chars -> chars;
}.

Class HmacLaws `{Hmac} : Prop := {
  hashLength_positive : (0 < hashLength)%nat;
  length_hmac key message : length (hmac key message) = hashLength;
}.

Section Derivation.
Context `{Hmac}.

(** The constructor, [addData] and the key that [result] computes first. *)
Definition privateKey (salt data : chars) : chars :=
  hmac (if bool_decide (salt = []) then repeat (byteOf 0) hashLength else salt) data.

(** The loop of [result]; [counter] is a [char]. *)
Fixpoint blocks (fuel : nat) (size : nat) (privkey info : chars) (counter : Z)
    (block result : chars) : Outcome chars :=
  if (length result <? size)%nat then
    match fuel with
    | O => OutOfFuel
    | S fuel =>
        let block := hmac privkey ((block ++ info) ++ [byteOf counter]) in
        blocks fuel size privkey info (counter + 1) block (result ++ block)
    end
  else Ret (take size result).

Definition result (size : nat) (salt data info : chars) : Outcome chars :=
  blocks size size (privateKey salt data) info 1 [] [].

(** RFC 5869: [T(0)] is empty and [T(n) = HMAC(PRK, T(n-1) | info | n)]. *)
Fixpoint T (privkey info : chars) (n : nat) : chars :=
  match n with
  | O => []
  | S m => hmac privkey (T privkey info m ++ info ++ [byteOf (Z.of_nat n)])
  end.

Definition expand (privkey info : chars) (n : nat) : chars :=
  concat (map (T privkey info) (seq 1 n)).

End Derivation.

Section Laws.
Context `{HmacLaws}.

Lemma expand_S (privkey info : chars) (n : nat) :
  expand privkey info (S n) = expand privkey info n ++ T privkey info (S n).
Proof.
  unfold expand. rewrite seq_S, map_app, concat_app. cbn [map concat]. by rewrite app_nil_r.
Qed.

Lemma length_expand (privkey info : chars) (n : nat) :
  length (expand privkey info n) = (n * hashLength)%nat.
Proof.
  induction n as [|n IH]; [done|]. rewrite expand_S, length_app, IH. cbn [T].
  rewrite length_hmac. lia.
Qed.

(** More blocks than needed change nothing. *)
Lemma take_expand (privkey info : chars) (size m n : nat) :
  (size <= m * hashLength)%nat -> (m <= n)%nat ->
  take size (expand privkey info n) = take size (expand privkey info m).
Proof.
  intros Hs Hn. induction Hn as [|n Hn IH]; [done|].
  rewrite expand_S, take_app_le, IH; [done|]. rewrite length_expand. nia.
Qed.

Lemma blocks_expand (fuel size m n : nat) (privkey info : chars) :
  (size <= m * hashLength + fuel)%nat -> (m <= n)%nat -> (size <= n * hashLength)%nat ->
  blocks fuel size privkey info (Z.of_nat m + 1) (T privkey info m) (expand privkey info m)
  = Ret (take size (expand privkey info n)).
Proof.
  revert m. induction fuel as [|fuel IH]; intros m Hf Hm Hn; cbn [blocks];
    rewrite length_expand; destruct (Nat.ltb_spec (m * hashLength) size) as [Hlt|Hge].
  - lia.
  - by rewrite (take_expand _ _ size m n).
  - pose proof hashLength_positive.
    replace (Z.of_nat m + 1 + 1) with (Z.of_nat (S m) + 1) by lia.
    rewrite <- app_assoc. replace (Z.of_nat m + 1) with (Z.of_nat (S m)) by lia.
    change (hmac privkey (T privkey info m ++ info ++ [byteOf (Z.of_nat (S m))]))
      with (T privkey info (S m)).
    rewrite <- expand_S. apply IH; [nia| |done].
    destruct (Nat.eq_dec m n) as [->|]; [lia|lia].
  - by rewrite (take_expand _ _ size m n).
Qed.

(** The loop ends, and derives what RFC 5869 prescribes for any number of blocks
    that is enough. *)
Theorem result_rfc5869 (size n : nat) (salt data info : chars) :
  (size <= n * hashLength)%nat ->
  result size salt data info = Ret (take size (expand (privateKey salt data) info n)).
Proof. intros Hn. apply (blocks_expand size size 0 n); lia. Qed.

Lemma result_length (size : nat) (salt data info : chars) :
  exists key, result size salt data info = Ret key /\ length key = size.
Proof.
  pose proof hashLength_positive.
  eexists. split; [apply (blocks_expand size size 0 size); nia|].
  rewrite length_take, length_expand. nia.
Qed.

End Laws.

End Hkdf.

Module CryptoSettings.

Definition NONCE_SIZE : nat := 12.
Definition MAC_SIZE : nat := 16.
Definition ENCRYPTED_V2_HEADER_SIZE : nat := 4.
Definition CRYPTO_SETTINGS_KEY_SIZE : nat := 32.

Inductive Version : Type := NoEncryption | EncryptionChachaPolyV1 | EncryptionChachaPolyV2.

#[export] Instance Version_eq_dec : EqDecision Version.
Proof. solve_decision. Defined.

Definition versionCode (v : Version) : Z :=
  match v with NoEncryption => 0 | EncryptionChachaPolyV1 => 1 | EncryptionChachaPolyV2 => 2 end.

(** [Chacha20Poly1305]: the cipher text with its code, and the plain text if the code
    is right. *)
Class Cipher : Type := {
  encrypt : chars -> chars -> chars -> chars -> chars * chars;
  decrypt : chars -> chars -> chars -> chars -> chars -> option chars;
}.

Class CipherLaws `{Cipher} : Prop := {
  length_ciphertext key nonce aad plain :
    length (encrypt key nonce aad plain).1 = length plain;
  length_mac key nonce aad plain : length (encrypt key nonce aad plain).2 = MAC_SIZE;
  decrypt_encrypt key nonce aad plain :
    let '(ciphertext, mac) := encrypt key nonce aad plain in
    decrypt key nonce aad ciphertext mac = Some plain;
}.

(** [QVariant], as far as it is stored in JSON. *)
Class Variants : Type := {
  QVariant : Type;
  fromVariant : QVariant -> QJsonValue;
  toVariant : QJsonValue -> QVariant;
}.

(** The members of an object are not ordered in a variant either. *)
Class VariantsLaws `{Variants} : Prop := {
  #[global] toVariant_proper :: Proper ((≡@{QJsonValue}) ==> (=)) toVariant;
}.

(** The pure virtual methods of an implementation. *)
Class Implementation (Impl : Type) : Type := {
  resetKeyOf : Impl -> Impl;
  getKeyOf : Version -> chars -> Impl -> chars * Impl;
  getMetaDataOf : Impl -> chars;
  getPreferredVersionOf : Impl -> Version;
}.

(** The singleton. *)
Record Crypto (Impl : Type) : Type := mkCrypto {
  implementation : Impl;
  m_lastNonce : Z;
}.
Arguments mkCrypto {Impl}.
Arguments implementation {Impl}.
Arguments m_lastNonce {Impl}.

#[export] Instance Crypto_eta (Impl : Type) : Eta (Crypto Impl) := fun i =>
  mkCrypto (implementation i) (m_lastNonce i).

(** A file being written, with the room that is left if it is limited. *)
Record Device : Type := mkDevice {
  contents : chars;
  room : option nat;
}.

(** [write(data) != data.length()] where the room does not suffice. *)
Definition deviceWrite (data : chars) (d : Device) : bool * Device :=
  match room d with
  | None => (true, mkDevice (contents d ++ data) None)
  | Some n =>
      if (length data <=? n)%nat
      then (true, mkDevice (contents d ++ data) (Some (n - length data)%nat))
      else (false, mkDevice (contents d ++ take n data) (Some O))
  end.

(** Several writes, up to the first that fails. *)
Fixpoint deviceWriteAll (l : list chars) (d : Device) : bool * Device :=
  match l with
  | [] => (true, d)
  | data :: r => let '(ok, d) := deviceWrite data d in
                 if ok then deviceWriteAll r d else (false, d)
  end.

Section Format.
Context `{QtJsonText} `{Cipher} `{Variants} {Impl : Type} `{Implementation Impl}.

Abbreviation SettingsMap := (gmap chars QVariant).

(** The loop over the members of the object; their keys are distinct. *)
Definition insertMembers (obj : QJsonObject) (m : SettingsMap) : SettingsMap :=
  foldr (fun '(k, v) m => <[k := toVariant v]> m) m obj.

Definition toObject (m : SettingsMap) : QJsonObject :=
  insertAll (map (fun '(k, v) => (k, fromVariant v)) (map_to_list m)) [].

(** ** Reading *)

Definition readJsonFile (device : chars) (m : SettingsMap) : bool * SettingsMap :=
  match fromBytes device with
  | None => (false, m)
  | Some obj => (true, insertMembers obj m)
  end.

(** The length of the metadata, from the third and fourth bytes of the header. *)
Definition metaLength (header : chars) : nat :=
  Z.to_nat (u16 (charValue (nth 2 header Ascii.zero)
                 + Z.shiftr (charValue (nth 3 header Ascii.zero)) 8)).

(** The header, the metadata and what follows. *)
Definition readHeader (fileVersion : Version) (device : chars)
  : option (chars * chars * chars) :=
  let header := [byteOf (versionCode fileVersion)] in
  match fileVersion with
  | EncryptionChachaPolyV2 =>
      let header := header ++ take (ENCRYPTED_V2_HEADER_SIZE - 1) device in
      let device := drop (ENCRYPTED_V2_HEADER_SIZE - 1) device in
      if negb (length header =? ENCRYPTED_V2_HEADER_SIZE)%nat then None
      else
        let n := metaLength header in
        let header := header ++ take n device in
        let device := drop n device in
        if negb (length header =? n + ENCRYPTED_V2_HEADER_SIZE)%nat then None
        else Some (header, drop ENCRYPTED_V2_HEADER_SIZE header, device)
  | EncryptionChachaPolyV1 => Some (header, [], device)
  | NoEncryption => None
  end.

Definition readEncryptedChachaPolyFile (fileVersion : Version) (device : chars)
    (m : SettingsMap) (i : Crypto Impl) : bool * SettingsMap * Crypto Impl :=
  match readHeader fileVersion device with
  | None => (false, m, i)
  | Some (header, metadata, device) =>
      let nonce := take NONCE_SIZE device in
      let device := drop NONCE_SIZE device in
      if negb (length nonce =? NONCE_SIZE)%nat then (false, m, i)
      else
        let mac := take MAC_SIZE device in
        let ciphertext := drop MAC_SIZE device in
        if negb (length mac =? MAC_SIZE)%nat then (false, m, i)
        else if (length ciphertext =? 0)%nat then (false, m, i)
        else
          let '(key, s) := getKeyOf fileVersion metadata (implementation i) in
          let i := i <| implementation := s |> in
          if negb (length key =? CRYPTO_SETTINGS_KEY_SIZE)%nat then (false, m, i)
          else
            match decrypt key nonce header ciphertext mac with
            | None => (false, m, i)
            | Some content =>
                match fromBytes content with
                | None => (false, m, i)
                | Some obj =>
                    (true, insertMembers obj m,
                     i <| m_lastNonce := fromLittleEndian (take 8 nonce) |>)
                end
            end
  end.

(** [readFile]; the instance is the singleton, if there is one. *)
Definition readFile (device : chars) (m : SettingsMap) (i : option (Crypto Impl))
  : bool * SettingsMap * option (Crypto Impl) :=
  match device with
  | [] => (false, m, i)
  | version :: device =>
      let v := charValue version in
      if v =? 0 then let '(ok, m) := readJsonFile device m in (ok, m, i)
      else
        match i with
        | None => (false, m, None)
        | Some inst =>
            if v =? 1 then
              let '(ok, m, inst) := readEncryptedChachaPolyFile EncryptionChachaPolyV1 device m inst in
              (ok, m, Some inst)
            else if v =? 2 then
              let '(ok, m, inst) := readEncryptedChachaPolyFile EncryptionChachaPolyV2 device m inst in
              (ok, m, Some inst)
            else (false, m, i)
        end
  end.

(** ** Writing *)

Definition writeJsonFile (m : SettingsMap) (d : Device) : bool * Device :=
  deviceWriteAll [[byteOf 0]; toCompact (toObject m)] d.

(** The header of a file, [None] if its metadata are too long or its version is not
    supported. *)
Definition makeHeader (fileVersion : Version) (metadata : chars) : option chars :=
  match fileVersion with
  | EncryptionChachaPolyV1 => Some [byteOf 1]
  | EncryptionChachaPolyV2 =>
      let n := Z.of_nat (length metadata) in
      if 65535 <? n then None
      else Some ([byteOf 2; byteOf 0; byteOf (Z.land n 255);
                  byteOf (Z.land (Z.shiftr n 8) 255)] ++ metadata)
  | NoEncryption => None
  end.

(** The nonce of the next file; the key is replaced when they run out. *)
Definition nextNonce (i : Crypto Impl) : Crypto Impl :=
  let n := u64 (m_lastNonce i + 1) in
  if n =? 2 ^ 64 - 1 then mkCrypto (resetKeyOf (implementation i)) 0
  else i <| m_lastNonce := n |>.

Definition nonceBytes (n : Z) : chars :=
  toLittleEndian 8 n ++ repeat (byteOf 0) (NONCE_SIZE - 8).

Definition writeEncryptedChachaPolyFile (m : SettingsMap) (d : Device) (i : Crypto Impl)
  : bool * Device * Crypto Impl :=
  let content := toCompact (toObject m) in
  let i := nextNonce i in
  let nonce := nonceBytes (m_lastNonce i) in
  let fileVersion := getPreferredVersionOf (implementation i) in
  let '(key, s) := getKeyOf fileVersion [] (implementation i) in
  let i := i <| implementation := s |> in
  if negb (length key =? CRYPTO_SETTINGS_KEY_SIZE)%nat then (false, d, i)
  else
    match makeHeader fileVersion (getMetaDataOf s) with
    | None => (false, d, i)
    | Some header =>
        let '(ciphertext, mac) := encrypt key nonce header content in
        let '(ok, d) := deviceWriteAll [header; nonce; mac; ciphertext] d in
        (ok, d, i)
    end.

Definition writeFile (m : SettingsMap) (d : Device) (i : option (Crypto Impl))
  : bool * Device * option (Crypto Impl) :=
  match i with
  | None => let '(ok, d) := writeJsonFile m d in (ok, d, None)
  | Some inst =>
      match getPreferredVersionOf (implementation inst) with
      | NoEncryption => let '(ok, d) := writeJsonFile m d in (ok, d, i)
      | EncryptionChachaPolyV1 | EncryptionChachaPolyV2 =>
          let '(ok, d, inst) := writeEncryptedChachaPolyFile m d inst in
          (ok, d, Some inst)
      end
  end.

End Format.

(** ** What is written is what is read *)

Section RoundTrip.
Context `{QtJsonTextLaws} `{CipherLaws} `{VariantsLaws}.

Abbreviation SettingsMap := (gmap chars QVariant).

(** What a map becomes in a file. *)
Definition stored (m : SettingsMap) : SettingsMap := (fun v => toVariant (fromVariant v)) <$> m.

(** The settings whose text is exact. *)
Definition exactSettings (m : SettingsMap) : Prop :=
  map_Forall (fun _ v => exactJson (fromVariant v) = true) m.

Lemma insertMembers_lookup (obj : QJsonObject) (m : SettingsMap) (k : chars) :
  insertMembers obj m !! k = if hasKey k obj then Some (toVariant (value k obj)) else m !! k.
Proof.
  induction obj as [|[k' v] obj IH]; [done|]. cbn [insertMembers foldr hasKey value].
  destruct (decide (k' = k)) as [->|Hk].
  - rewrite lookup_insert_eq. by rewrite bool_decide_true by done.
  - rewrite lookup_insert_ne by done. rewrite bool_decide_false by done. exact IH.
Qed.

Lemma insertAll_variants (l : list (chars * QVariant)) (o : QJsonObject) (k : chars) :
  NoDup l.*1 ->
  let o' := insertAll (map (fun '(k, v) => (k, fromVariant v)) l) o in
  (forall v, (k, v) ∈ l -> value k o' = fromVariant v /\ hasKey k o' = true)
  /\ (k ∉ l.*1 -> value k o' = value k o /\ hasKey k o' = hasKey k o).
Proof.
  unfold insertAll. revert o. induction l as [|[k' v'] l IH]; intros o Hl.
  { split; [by intros v ?%not_elem_of_nil|done]. }
  cbn [fmap list_fmap fst] in *. apply NoDup_cons in Hl as [Hk' Hl].
  destruct (IH (insertKey k' (fromVariant v') o) Hl) as [IH1 IH2].
  cbn [map fold_left]. split.
  - intros v [[= -> ->]|Hv]%elem_of_cons; [|by apply IH1].
    destruct (IH2 Hk') as [-> ->]. rewrite value_insertKey, hasKey_insertKey.
    by rewrite bool_decide_true.
  - rewrite not_elem_of_cons. intros [Hk Hn]. destruct (IH2 Hn) as [-> ->].
    rewrite value_insertKey, hasKey_insertKey. by rewrite bool_decide_false.
Qed.

Lemma toObject_lookup (m : SettingsMap) (k : chars) :
  match m !! k with
  | Some v => value k (toObject m) = fromVariant v /\ hasKey k (toObject m) = true
  | None => value k (toObject m) = JUndefined /\ hasKey k (toObject m) = false
  end.
Proof.
  unfold toObject.
  destruct (insertAll_variants (map_to_list m) [] k (NoDup_fst_map_to_list m)) as [H1' H2'].
  destruct (m !! k) as [v|] eqn:E.
  - by apply H1', elem_of_map_to_list.
  - apply H2'. intros Hin. apply list_elem_of_fmap in Hin as ([k' v] & -> & Hin).
    apply elem_of_map_to_list in Hin. cbn in E. congruence.
Qed.

Lemma toObject_exact (m : SettingsMap) :
  exactSettings m -> exactJson (JObject (toObject m)) = true.
Proof.
  intros Hm. apply exactJson_insertAll; [|done]. apply Forall_forall. intros kv Hin.
  apply list_elem_of_In, in_map_iff in Hin as ([k v] & <- & Hin).
  apply list_elem_of_In, elem_of_map_to_list in Hin. by apply (Hm k).
Qed.

(** The text of the settings reads as the settings. *)
Lemma settings_text (m : SettingsMap) :
  exactSettings m ->
  exists obj, fromBytes (toCompact (toObject m)) = Some obj /\ insertMembers obj ∅ = stored m.
Proof.
  intros Hm. destruct (fromBytes_toCompact (toObject m) (toObject_exact m Hm))
    as (obj & E & Ho & Hk). exists obj. split; [done|]. apply map_eq. intros k.
  rewrite insertMembers_lookup, Hk. unfold stored. rewrite lookup_fmap.
  pose proof (toObject_lookup m k) as Hl. pose proof (Ho k) as Hv.
  destruct (m !! k) as [v|]; destruct Hl as [Hl ->]; rewrite Hl in Hv; cbn; [|done].
  by rewrite Hv.
Qed.

(** ** Headers *)

Lemma makeHeader_short (metadata : chars) :
  Z.of_nat (length metadata) <= 65535 ->
  makeHeader EncryptionChachaPolyV2 metadata
  = Some ([byteOf 2; byteOf 0; byteOf (Z.of_nat (length metadata));
           byteOf (Z.of_nat (length metadata / 256))] ++ metadata).
Proof.
  intros Hl. unfold makeHeader. rewrite (proj2 (Z.ltb_ge _ _)) by lia.
  change 255 with (Z.ones 8). rewrite !Z.land_ones by lia.
  unfold byteOf, u8. rewrite !Zmod_mod, Z.shiftr_div_pow2 by lia.
  change (2 ^ 8) with (Z.of_nat 256). by rewrite Nat2Z.inj_div.
Qed.

(** The header of a file whose first bytes are given. *)
Lemma readHeader_bytes (b1 b2 b3 : ascii) (file : chars) :
  let n := Z.to_nat (u16 (charValue b2 + Z.shiftr (charValue b3) 8)) in
  readHeader EncryptionChachaPolyV2 (b1 :: b2 :: b3 :: file)
  = if (length (take n file) =? n)%nat
    then Some ([byteOf 2; b1; b2; b3] ++ take n file, take n file, drop n file) else None.
Proof.
  intros n. unfold readHeader.
  change (take (ENCRYPTED_V2_HEADER_SIZE - 1) (b1 :: b2 :: b3 :: file)) with [b1; b2; b3].
  change (drop (ENCRYPTED_V2_HEADER_SIZE - 1) (b1 :: b2 :: b3 :: file)) with file.
  change (metaLength ([byteOf (versionCode EncryptionChachaPolyV2)] ++ [b1; b2; b3])) with n.
  change (length ([byteOf (versionCode EncryptionChachaPolyV2)] ++ [b1; b2; b3])
          =? ENCRYPTED_V2_HEADER_SIZE)%nat with true. cbn [negb].
  rewrite length_app. rewrite Nat.add_comm.
  change (length ([byteOf (versionCode EncryptionChachaPolyV2)] ++ [b1; b2; b3])) with 4%nat.
  change ENCRYPTED_V2_HEADER_SIZE with 4%nat.
  destruct (Nat.eqb_spec (length (take n file)) n) as [E|E].
  - rewrite (proj2 (Nat.eqb_eq _ _)) by lia. done.
  - rewrite (proj2 (Nat.eqb_neq _ _)) by lia. done.
Qed.

Lemma readHeader_make (metadata rest header : chars) :
  (length metadata <= 127)%nat ->
  makeHeader EncryptionChachaPolyV2 metadata = Some header ->
  exists file, header ++ rest = byteOf 2 :: file
    /\ readHeader EncryptionChachaPolyV2 file = Some (header, metadata, rest).
Proof.
  intros Hl. rewrite makeHeader_short, Nat.div_small by lia. intros [= <-].
  exists (byteOf 0 :: byteOf (Z.of_nat (length metadata)) :: byteOf (Z.of_nat 0)
          :: metadata ++ rest).
  split; [done|]. rewrite readHeader_bytes, !charValue_byteOf.
  assert (u8 (Z.of_nat (length metadata)) = Z.of_nat (length metadata)) as ->
    by (unfold u8; apply Z.mod_small; lia).
  rewrite (proj2 (Z.ltb_lt _ _)) by lia. change (Z.shiftr _ 8) with 0. rewrite Z.add_0_r.
  assert (Z.to_nat (u16 (Z.of_nat (length metadata))) = length metadata) as ->
    by (unfold u16; rewrite Z.mod_small by lia; lia).
  by rewrite take_app_length, drop_app_length, Nat.eqb_refl.
Qed.

(** The length is written in two bytes, but the first is read as a signed number and
    the second is shifted the wrong way: a file whose metadata take 128 to 255 bytes
    is refused. *)
Lemma long_metadata_refused (metadata rest header : chars) :
  (128 <= length metadata < 256)%nat -> Z.of_nat (length metadata + length rest) < 65280 ->
  makeHeader EncryptionChachaPolyV2 metadata = Some header ->
  exists file, header ++ rest = byteOf 2 :: file
    /\ readHeader EncryptionChachaPolyV2 file = None.
Proof.
  intros Hl Hr. rewrite makeHeader_short, Nat.div_small by lia. intros [= <-].
  exists (byteOf 0 :: byteOf (Z.of_nat (length metadata)) :: byteOf (Z.of_nat 0)
          :: metadata ++ rest).
  split; [done|]. rewrite readHeader_bytes, !charValue_byteOf.
  assert (u8 (Z.of_nat (length metadata)) = Z.of_nat (length metadata)) as ->
    by (unfold u8; apply Z.mod_small; lia).
  rewrite (proj2 (Z.ltb_ge _ _)) by lia. change (Z.shiftr _ 8) with 0. rewrite Z.add_0_r.
  assert (65280 <= u16 (Z.of_nat (length metadata) - 256)) as Hn.
  { unfold u16. replace (Z.of_nat (length metadata) - 256)
      with (Z.of_nat (length metadata) + 65280 + (-1) * 2 ^ 16) by lia.
    rewrite Z_mod_plus_full, Z.mod_small by lia. lia. }
  rewrite (proj2 (Nat.eqb_neq _ _)); [done|]. rewrite length_take, length_app. lia.
Qed.

(** ** Files *)

Section Files.
Context {Impl : Type} `{Implementation Impl}.

(** The reader derives the writer's key from the writer's metadata. *)
Definition sameKey (writer reader : Impl) : Prop :=
  let '(key, writer) := getKeyOf EncryptionChachaPolyV2 [] writer in
  (getKeyOf EncryptionChachaPolyV2 (getMetaDataOf writer) reader).1 = key.

Lemma deviceWriteAll_unlimited (l : list chars) (written : chars) :
  deviceWriteAll l (mkDevice written None) = (true, mkDevice (written ++ concat l) None).
Proof.
  revert written. induction l as [|data l IH]; intros written; cbn.
  - by rewrite app_nil_r.
  - by rewrite IH, app_assoc.
Qed.

Lemma length_nonceBytes (n : Z) : length (nonceBytes n) = NONCE_SIZE.
Proof. unfold nonceBytes. by rewrite length_app, length_toLittleEndian. Qed.

Lemma nonceBytes_read (n : Z) : 0 <= n < 2 ^ 64 -> fromLittleEndian (take 8 (nonceBytes n)) = n.
Proof.
  intros Hn. unfold nonceBytes. rewrite take_app_le by (by rewrite length_toLittleEndian).
  rewrite take_ge by (by rewrite length_toLittleEndian). by apply fromLittleEndian_to.
Qed.

(** The header, the nonce, the code and the cipher text are taken apart as they were
    put together. *)
Lemma readEncrypted_written (header metadata nonce content file key : chars)
    (reader : Crypto Impl) (s : Impl) (obj : QJsonObject) (m : SettingsMap) :
  let '(ciphertext, mac) := encrypt key nonce header content in
  readHeader EncryptionChachaPolyV2 file = Some (header, metadata, nonce ++ mac ++ ciphertext) ->
  length nonce = NONCE_SIZE -> content <> [] -> length key = CRYPTO_SETTINGS_KEY_SIZE ->
  getKeyOf EncryptionChachaPolyV2 metadata (implementation reader) = (key, s) ->
  fromBytes content = Some obj ->
  readEncryptedChachaPolyFile EncryptionChachaPolyV2 file m reader
  = (true, insertMembers obj m, mkCrypto s (fromLittleEndian (take 8 nonce))).
Proof.
  pose proof (length_ciphertext key nonce header content) as Hlc.
  pose proof (length_mac key nonce header content) as Hlm.
  pose proof (decrypt_encrypt key nonce header content) as Hd.
  destruct (encrypt key nonce header content) as [ciphertext mac]. cbn [fst snd] in *.
  intros Hh Hn Hc Hk Hg Hj. unfold readEncryptedChachaPolyFile. rewrite Hh.
  rewrite <- Hn, take_app_length, drop_app_length, Nat.eqb_refl. cbn [negb].
  rewrite <- Hlm, take_app_length, drop_app_length, Nat.eqb_refl. cbn [negb].
  rewrite Hlc. destruct content as [|x content]; [done|]. cbn [length Nat.eqb].
  rewrite Hg, Hk, Nat.eqb_refl. cbn [negb]. rewrite Hd, Hj. done.
Qed.

Lemma file_roundtrip (m : SettingsMap) (writer writer' reader : Crypto Impl) (d : Device) :
  exactSettings m -> getPreferredVersionOf (implementation (nextNonce writer)) = EncryptionChachaPolyV2 ->
  sameKey (implementation (nextNonce writer)) (implementation reader) ->
  writeEncryptedChachaPolyFile m (mkDevice [] None) writer = (true, d, writer') ->
  (length (getMetaDataOf (implementation writer')) <= 127)%nat ->
  0 <= m_lastNonce (nextNonce writer) < 2 ^ 64 ->
  exists reader', readFile (contents d) ∅ (Some reader) = (true, stored m, Some reader')
    /\ m_lastNonce reader' = m_lastNonce writer'.
Proof.
  intros Hm Hv Hs Hw Hl Hn. unfold writeEncryptedChachaPolyFile in Hw. rewrite Hv in Hw.
  unfold sameKey in Hs.
  destruct (getKeyOf EncryptionChachaPolyV2 [] (implementation (nextNonce writer))) as [key s].
  destruct (Nat.eqb_spec (length key) CRYPTO_SETTINGS_KEY_SIZE) as [Hk|]; cbn [negb] in Hw; [|done].
  destruct (makeHeader EncryptionChachaPolyV2 (getMetaDataOf s)) as [header|] eqn:Eh; [|done].
  set (nonce := nonceBytes (m_lastNonce (nextNonce writer))) in *.
  pose proof (fun file m' s' obj => readEncrypted_written header (getMetaDataOf s) nonce
    (toCompact (toObject m)) file key reader s' obj m') as Hread.
  destruct (encrypt key nonce header (toCompact (toObject m))) as [ciphertext mac].
  rewrite deviceWriteAll_unlimited in Hw. injection Hw as <- <-.
  cbn [implementation m_lastNonce updateField] in Hl |- *.
  destruct (readHeader_make (getMetaDataOf s) (nonce ++ mac ++ ciphertext) header)
    as (file & Ef & Er); [exact Hl|done|].
  destruct (settings_text m Hm) as (obj & Eo & Em).
  destruct (getKeyOf EncryptionChachaPolyV2 (getMetaDataOf s) (implementation reader)) as [key' s'] eqn:Eg.
  cbn [fst] in Hs. subst key'.
  specialize (Hread file ∅ s' obj Er (length_nonceBytes _) (toCompact_nonempty _) Hk eq_refl Eo).
  exists (mkCrypto s' (fromLittleEndian (take 8 nonce))).
  assert (concat [header; nonce; mac; ciphertext] = byteOf 2 :: file) as Ec
    by (cbn [concat]; by rewrite app_nil_r).
  change (contents _) with (concat [header; nonce; mac; ciphertext]). rewrite Ec.
  unfold readFile.
  rewrite charValue_byteOf. change (u8 2) with 2. cbn [Z.ltb Z.compare Pos.compare Pos.compare_cont].
  change (2 =? 0) with false. change (2 =? 1) with false. change (2 =? 2) with true. cbn match.
  rewrite Hread, Em. split; [done|]. cbn [m_lastNonce]. by apply nonceBytes_read.
Qed.

(** A file that cannot be read, whatever is wrong with it, leaves the settings and
    the nonce as they were. *)
Theorem readFile_failure (file : chars) (m m' : SettingsMap) (i i' : option (Crypto Impl)) :
  readFile file m i = (false, m', i') ->
  m' = m /\ (m_lastNonce <$> i') = (m_lastNonce <$> i).
Proof.
  assert (forall v file m m' (i i' : Crypto Impl),
    readEncryptedChachaPolyFile v file m i = (false, m', i') ->
    m' = m /\ m_lastNonce i' = m_lastNonce i) as Henc.
  { clear. intros v file m m' i i'. unfold readEncryptedChachaPolyFile.
    destruct (readHeader v file) as [[[header metadata] rest]|]; [|by intros [= <- <-]].
    do 3 (destruct (_ : bool); [by intros [= <- <-]|]).
    destruct (getKeyOf v metadata (implementation i)) as [key s].
    destruct (_ : bool); [by intros [= <- <-]|].
    destruct (decrypt _ _ _ _ _) as [content|]; [|by intros [= <- <-]].
    destruct (fromBytes content); [done|by intros [= <- <-]]. }
  unfold readFile. destruct file as [|version file]; [by intros [= <- <-]|].
  destruct (_ =? 0).
  { unfold readJsonFile. destruct (fromBytes file); [done|by intros [= <- <-]]. }
  destruct i as [i|]; [|by intros [= <- <-]].
  destruct (_ =? 1); [|destruct (_ =? 2); [|by intros [= <- <-]]];
    destruct (readEncryptedChachaPolyFile _ file m i) as [[ok m1] i1] eqn:E;
    intros [= -> <- <-]; cbn; by destruct (Henc _ _ _ _ _ _ E) as [-> ->].
Qed.

(** The number in the nonce of an encrypted file. *)
Definition fileNonce (file : chars) : option Z :=
  match file with
  | [] => None
  | version :: device =>
      '(_, _, rest) ← (if charValue version =? 1 then readHeader EncryptionChachaPolyV1 device
                       else if charValue version =? 2 then readHeader EncryptionChachaPolyV2 device
                       else None);
      Some (fromLittleEndian (take 8 (take NONCE_SIZE rest)))
  end.

(** The file of the settings and the singleton of the process. *)
Record Storage : Type := mkStorage { file : option chars; crypto : Crypto Impl }.

(** The settings are saved, to a device that may be limited, or the file is read again;
    a file that was not written to its end does not replace the one there is. *)
Inductive Access : Type :=
| Save (m : SettingsMap) (room : option nat)
| Load.

(** The new file, if there is one, and the state. *)
Definition access (a : Access) (s : Storage) : option chars * Storage :=
  match a with
  | Save m room =>
      let '(ok, d, i) := writeFile m (mkDevice [] room) (Some (crypto s)) in
      let stored := if ok : bool then Some (contents d) else None in
      (stored, mkStorage (if stored is Some f then Some f else file s) (default (crypto s) i))
  | Load =>
      match file s with
      | None => (None, s)
      | Some f => let '(_, _, i) := readFile f ∅ (Some (crypto s)) in
                  (None, mkStorage (file s) (default (crypto s) i))
      end
  end.

Fixpoint accesses (l : list Access) (s : Storage) : list (option chars * Storage) :=
  match l with
  | [] => []
  | a :: r => let '(f, s) := access a s in (f, s) :: accesses r s
  end.

(** The metadata are short enough to be read again. *)
Definition legible (s : Storage) : Prop :=
  (length (getMetaDataOf (implementation (crypto s))) <= 127)%nat.

(** The number in the last file, and the next one if it is not encrypted. *)
Definition lastStored (s : Storage) : Z :=
  default (m_lastNonce (crypto s)) (file s ≫= fileNonce).

(** A file is made of what the cipher gives for its nonce, or is not encrypted. *)
Definition wellMade (f : chars) : Prop :=
  match fileNonce f with
  | Some nonce => exists header key content,
      let '(ciphertext, mac) := encrypt key (nonceBytes nonce) header content in
      f = header ++ nonceBytes nonce ++ mac ++ ciphertext
  | None => head f = Some (byteOf 0)
  end.

Lemma nextNonce_small (i : Crypto Impl) :
  0 <= m_lastNonce i -> m_lastNonce i + 1 < 2 ^ 64 - 1 ->
  nextNonce i = mkCrypto (implementation i) (m_lastNonce i + 1).
Proof.
  intros H1' H2'. unfold nextNonce, u64. rewrite Z.mod_small by lia.
  by rewrite (proj2 (Z.eqb_neq _ _)) by lia.
Qed.

Lemma deviceWriteAll_contents (l : list chars) (d d' : Device) :
  deviceWriteAll l d = (true, d') -> contents d' = contents d ++ concat l.
Proof.
  revert d. induction l as [|data l IH]; intros d; cbn [deviceWriteAll concat].
  - intros [= <-]. by rewrite app_nil_r.
  - unfold deviceWrite. destruct (room d) as [n|]; [destruct (_ <=? _)%nat; [|done]|];
      intros E%IH; rewrite E; cbn [contents]; by rewrite app_assoc.
Qed.

(** What is read leaves the number, or sets it to the one in the file. *)
Lemma readFile_nonce (f : chars) (m : SettingsMap) (i : Crypto Impl) :
  exists i', (readFile f m (Some i)).2 = Some i'
    /\ (m_lastNonce i' = m_lastNonce i \/ fileNonce f = Some (m_lastNonce i')).
Proof.
  assert (forall v device, let i' := (readEncryptedChachaPolyFile v device m i).2 in
    m_lastNonce i' = m_lastNonce i
    \/ ('(_, _, rest) ← readHeader v device;
        Some (fromLittleEndian (take 8 (take NONCE_SIZE rest)))) = Some (m_lastNonce i')) as Henc.
  { clear. intros v device. unfold readEncryptedChachaPolyFile.
    destruct (readHeader v device) as [[[header metadata] rest]|]; [|by left].
    do 3 (destruct (_ : bool); [by left|]).
    destruct (getKeyOf v metadata (implementation i)) as [key s].
    destruct (_ : bool); [by left|].
    destruct (decrypt _ _ _ _ _) as [content|]; [|by left].
    destruct (fromBytes content); [by right|by left]. }
  unfold readFile. destruct f as [|version device]; [eauto|]. unfold fileNonce.
  destruct (Z.eqb_spec (charValue version) 0) as [->|Hv].
  { destruct (readJsonFile device m). eauto. }
  pose proof (Henc EncryptionChachaPolyV1 device) as H1'.
  pose proof (Henc EncryptionChachaPolyV2 device) as H2'.
  do 2 destruct (readEncryptedChachaPolyFile _ _ _ _) as [[? ?] ?].
  destruct (charValue version =? 1); [eauto|]. destruct (charValue version =? 2); eauto.
Qed.

(** The file of a header, as it is made. *)
Lemma fileNonce_made (v : Version) (metadata header rest : chars) (n : Z) :
  0 <= n < 2 ^ 64 -> (length metadata <= 127)%nat -> makeHeader v metadata = Some header ->
  fileNonce (header ++ nonceBytes n ++ rest) = Some n.
Proof.
  intros Hn Hl Hh.
  assert (fromLittleEndian (take 8 (take NONCE_SIZE (nonceBytes n ++ rest))) = n) as Er.
  { rewrite <- (length_nonceBytes n), take_app_length. by apply nonceBytes_read. }
  destruct v; [done| |].
  - injection Hh as <-. cbn [app fileNonce]. rewrite charValue_byteOf.
    transitivity (Some (fromLittleEndian (take 8 (take NONCE_SIZE (nonceBytes n ++ rest)))));
      [done|by rewrite Er].
  - destruct (readHeader_make metadata (nonceBytes n ++ rest) header Hl Hh) as (f & -> & E).
    cbn [fileNonce]. rewrite charValue_byteOf.
    transitivity ('(_, _, rest) ← readHeader EncryptionChachaPolyV2 f;
      Some (fromLittleEndian (take 8 (take NONCE_SIZE rest)))); [done|].
    rewrite E. exact (f_equal Some Er).
Qed.

(** A file that is written is plain, or carries the next number; the number is counted
    up in any case where the file is to be encrypted. *)
Lemma writeFile_nonce (m : SettingsMap) (r : option nat) (i : Crypto Impl) (ok : bool)
    (d : Device) (i' : option (Crypto Impl)) :
  0 <= m_lastNonce i -> m_lastNonce i + 1 < 2 ^ 64 - 1 ->
  writeFile m (mkDevice [] r) (Some i) = (ok, d, i') ->
  exists c, i' = Some c
  /\ (m_lastNonce c = m_lastNonce i
      /\ (ok = true -> fileNonce (contents d) = None /\ wellMade (contents d))
      \/ m_lastNonce c = m_lastNonce i + 1
         /\ (ok = true -> (length (getMetaDataOf (implementation c)) <= 127)%nat ->
             fileNonce (contents d) = Some (m_lastNonce c) /\ wellMade (contents d))).
Proof.
  intros H1' H2'.
  assert (forall ok d i1, writeEncryptedChachaPolyFile m (mkDevice [] r) i = (ok, d, i1) ->
    m_lastNonce i1 = m_lastNonce i + 1
    /\ (ok = true -> (length (getMetaDataOf (implementation i1)) <= 127)%nat ->
        fileNonce (contents d) = Some (m_lastNonce i1) /\ wellMade (contents d))) as Henc.
  { clear ok d i'. intros ok d i1. unfold writeEncryptedChachaPolyFile.
    rewrite nextNonce_small by done. cbn [implementation m_lastNonce].
    destruct (getKeyOf _ [] (implementation i)) as [key s].
    destruct (negb _); [by intros [= <- <- <-]|].
    destruct (makeHeader _ _) as [header|] eqn:Eh; [|by intros [= <- <- <-]].
    destruct (encrypt key (nonceBytes (m_lastNonce i + 1)) header (toCompact (toObject m)))
      as [ciphertext mac] eqn:E.
    destruct (deviceWriteAll _ _) as [ok1 d1] eqn:Ed. intros [= <- <- <-]. split; [done|].
    intros -> Hl. cbn [implementation m_lastNonce updateField] in *.
    apply deviceWriteAll_contents in Ed. cbn [contents concat app] in Ed.
    rewrite app_nil_r in Ed. rewrite Ed.
    assert (fileNonce (header ++ nonceBytes (m_lastNonce i + 1) ++ mac ++ ciphertext)
            = Some (m_lastNonce i + 1)) as En
      by (apply (fileNonce_made _ _ _ _ (m_lastNonce i + 1) ltac:(lia) Hl Eh)).
    split; [done|]. unfold wellMade. rewrite En.
    exists header, key, (toCompact (toObject m)). by rewrite E. }
  unfold writeFile. destruct (getPreferredVersionOf (implementation i)).
  - destruct (writeJsonFile m (mkDevice [] r)) as [ok1 d1] eqn:E. intros [= <- <- <-].
    exists i. split; [done|]. left. split; [done|]. intros ->.
    apply deviceWriteAll_contents in E. cbn [contents concat app] in E. by rewrite E.
  - destruct (writeEncryptedChachaPolyFile m (mkDevice [] r) i) as [[ok1 d1] i1].
    intros [= <- <- <-]. eauto.
  - destruct (writeEncryptedChachaPolyFile m (mkDevice [] r) i) as [[ok1 d1] i1].
    intros [= <- <- <-]. eauto.
Qed.

Lemma nonceBytes_inj (a b : Z) :
  0 <= a < 2 ^ 64 -> 0 <= b < 2 ^ 64 -> nonceBytes a = nonceBytes b -> a = b.
Proof. intros Ha Hb E. by rewrite <- (nonceBytes_read a), E, nonceBytes_read. Qed.

Lemma access_nonce (a : Access) (s s' : Storage) (stored : option chars) :
  access a s = (stored, s') -> legible s' ->
  0 <= lastStored s <= m_lastNonce (crypto s) -> m_lastNonce (crypto s) + 1 < 2 ^ 64 - 1 ->
  lastStored s <= lastStored s' <= m_lastNonce (crypto s')
  /\ m_lastNonce (crypto s') <= m_lastNonce (crypto s) + 1
  /\ match stored with
     | Some f => wellMade f
                 /\ (forall n, fileNonce f = Some n -> lastStored s < n /\ lastStored s' = n)
     | None => True
     end.
Proof.
  intros Ha Hl Hs Hb. destruct a as [m r|]; cbn [access] in Ha.
  - destruct (writeFile m (mkDevice [] r) (Some (crypto s))) as [[ok d] i] eqn:E.
    destruct (writeFile_nonce m r (crypto s) ok d i ltac:(lia) Hb E) as (c & -> & Hc).
    injection Ha as <- <-. unfold legible, lastStored in *. cbn [crypto file default] in *.
    destruct ok; cbn [mbind option_bind].
    + destruct Hc as [[Ec Hc]|[Ec Hc]];
        [destruct (Hc eq_refl) as [En Hw]|destruct (Hc eq_refl Hl) as [En Hw]];
        rewrite En; cbn [default id];
        (split_and!; [lia|lia|lia|done|intros n [= <-]; lia]).
    + destruct (file s ≫= fileNonce); cbn [default] in *; lia.
  - destruct (file s) as [f|] eqn:Ef.
    + destruct (readFile_nonce f ∅ (crypto s)) as (i & Ei & Hi).
      destruct (readFile f ∅ (Some (crypto s))) as [[ok m] i']. cbn in Ei. subst i'.
      injection Ha as <- <-. unfold lastStored in *. rewrite Ef in Hs |- *.
      cbn [crypto file default mbind option_bind] in *.
      destruct Hi as [->|Hi]; [lia|]. rewrite Hi in *. cbn [default id] in *. lia.
    + injection Ha as <- <-. lia.
Qed.

Lemma sorted_distinct (l : list Z) : StronglySorted Z.lt l -> NoDup l.
Proof.
  induction 1 as [|x l _ IH Hx]; constructor; [|done]. intros Hin.
  rewrite list.Forall_forall in Hx. specialize (Hx x Hin). lia.
Qed.

(** C40: no nonce is used for two files: in any sequence of writes and reads of the
    settings, failures included, the encrypted files carry increasing numbers, beyond
    that of the file the process began with. *)
Theorem write_nonces (l : list Access) (s : Storage) :
  0 <= lastStored s <= m_lastNonce (crypto s) ->
  m_lastNonce (crypto s) + Z.of_nat (length l) < 2 ^ 64 - 1 ->
  Forall legible (accesses l s).*2 ->
  let files := omap fst (accesses l s) in
  let numbers := lastStored s :: omap fileNonce files in
  Forall wellMade files /\ StronglySorted Z.lt numbers /\ NoDup (map nonceBytes numbers).
Proof.
  intros Hs Hb Hl.
  assert (let numbers := omap fileNonce (omap fst (accesses l s)) in
    Forall wellMade (omap fst (accesses l s)) /\ StronglySorted Z.lt numbers
    /\ Forall (fun n => lastStored s < n < 2 ^ 64) numbers) as (Hw & Hsort & Hall).
  { revert s Hs Hb Hl. induction l as [|a l IH]; intros s Hs Hb Hl; cbn [accesses length] in *.
    { split_and!; constructor. }
    destruct (access a s) as [f s1] eqn:E. cbn [fmap list_fmap snd] in Hl.
    apply Forall_cons in Hl as [Hl1 Hl].
    destruct (access_nonce a s s1 f E Hl1 Hs ltac:(lia)) as (Hm & Hn & Hf).
    destruct (IH s1 ltac:(lia) ltac:(lia) Hl) as (IHw & IHs & IHa).
    assert (Forall (fun n => lastStored s < n < 2 ^ 64)
              (omap fileNonce (omap fst (accesses l s1)))) as IHa'
      by (eapply list.Forall_impl; [exact IHa|]; cbn; intros; lia).
    destruct f as [f|]; cbn [omap list_omap fst]; [|done]. destruct Hf as [Hf Hfn].
    cbn [omap list_omap]. destruct (fileNonce f) as [n|] eqn:En.
    - destruct (Hfn n eq_refl) as [Hlt Heq]. rewrite Heq in IHa, Hm. split_and!.
      + by constructor.
      + constructor; [done|]. eapply list.Forall_impl; [exact IHa|]. cbn. intros; lia.
      + constructor; [lia|done].
    - split_and!; [by constructor|done|done]. }
  cbv zeta. split; [done|].
  assert (StronglySorted Z.lt (lastStored s :: omap fileNonce (omap fst (accesses l s))))
    as Hsorted by (constructor; [done|]; eapply list.Forall_impl; [exact Hall|]; cbn; intros; lia).
  split; [done|]. apply (NoDup_fmap_2_strong nonceBytes); [|by apply sorted_distinct].
  assert (forall n, n ∈ lastStored s :: omap fileNonce (omap fst (accesses l s)) ->
    0 <= n < 2 ^ 64) as Hr.
  { intros n [->|Hin]%elem_of_cons; [lia|]. rewrite list.Forall_forall in Hall.
    specialize (Hall n Hin). cbn in Hall. lia. }
  intros a b Ha%Hr Hb'%Hr. by apply nonceBytes_inj.
Qed.

(** A file whose code is wrong leaves the nonce at its first value, but not the key:
    the next file is encrypted with the key of the file that could not be read, and
    with a number that its first version has used. *)
Lemma nonce_reuse (file : chars) (m m' : SettingsMap) (fresh s : Impl)
    (header metadata nonce mac ciphertext key : chars) (d : Device) (i' : Crypto Impl) :
  readHeader EncryptionChachaPolyV2 file = Some (header, metadata, nonce ++ mac ++ ciphertext) ->
  length nonce = NONCE_SIZE -> length mac = MAC_SIZE -> ciphertext <> [] ->
  getKeyOf EncryptionChachaPolyV2 metadata fresh = (key, s) ->
  length key = CRYPTO_SETTINGS_KEY_SIZE -> decrypt key nonce header ciphertext mac = None ->
  getPreferredVersionOf s = EncryptionChachaPolyV2 -> getKeyOf EncryptionChachaPolyV2 [] s = (key, s) ->
  readEncryptedChachaPolyFile EncryptionChachaPolyV2 file m (mkCrypto fresh 0)
  = (false, m, mkCrypto s 0)
  /\ (writeEncryptedChachaPolyFile m' (mkDevice [] None) (mkCrypto s 0) = (true, d, i') ->
      exists header', let '(ciphertext', mac') := encrypt key (nonceBytes 1) header' (toCompact (toObject m')) in
        contents d = header' ++ nonceBytes 1 ++ mac' ++ ciphertext').
Proof.
  intros Hh Hn Hm Hc Hg Hk Hd Hv Hs. split.
  - unfold readEncryptedChachaPolyFile. rewrite Hh.
    rewrite <- Hn, take_app_length, drop_app_length, Nat.eqb_refl. cbn [negb].
    rewrite <- Hm, take_app_length, drop_app_length, Nat.eqb_refl. cbn [negb].
    destruct ciphertext as [|x ciphertext]; [done|]. cbn [length Nat.eqb].
    cbn [implementation]. rewrite Hg, Hk, Nat.eqb_refl. cbn [negb]. by rewrite Hd.
  - unfold writeEncryptedChachaPolyFile. rewrite nextNonce_small by done.
    cbn [implementation m_lastNonce]. change (0 + 1) with 1. rewrite Hv, Hs, Hk, Nat.eqb_refl.
    cbn [negb]. destruct (makeHeader _ _) as [header'|]; [|done].
    destruct (encrypt key (nonceBytes 1) header' (toCompact (toObject m'))) as [ct' mac'] eqn:E.
    rewrite deviceWriteAll_unlimited. intros [= <- <-]. exists header'. rewrite E.
    cbn [contents concat]. by rewrite app_nil_r.
Qed.

End Files.

End RoundTrip.

End CryptoSettings.

Module XdgCryptoSettings.
Import CryptoSettings.

(** An empty string is one that is not set. *)
Record Xdg : Type := mkXdg {
  m_version : Version;
  m_token : chars;
  m_salt : chars;
  m_key : chars;
  saltsDrawn : nat;
}.

#[export] Instance Xdg_eta : Eta Xdg := fun x =>
  mkXdg (m_version x) (m_token x) (m_salt x) (m_key x) (saltsDrawn x).

(** The constructor; [supported] says that the bus passes file descriptors and the
    portal has a version. *)
Definition construct (supported : bool) : Xdg :=
  mkXdg (if supported then EncryptionChachaPolyV2 else NoEncryption) [] [] [] 0.

Section Portal.
Context `{QtJsonText} `{Hkdf.Hmac}.

(** The secret that the portal writes to the pipe for a request with or without a
    token, [None] if there is no pipe or no reply; the random salts, in base64; and
    [QString::toUtf8]. *)
Variable retrieveSecret : option chars -> option chars.
Variable freshSalt : nat -> chars.
Variable toUtf8 : chars -> chars.

(** A response with code zero may carry a token. *)
Definition handleResponse (code : Z) (token : option chars) (x : Xdg) : Xdg :=
  if negb (code =? 0) then x
  else match token with Some t => x <| m_token := t |> | None => x end.

Definition resetKey (x : Xdg) : Xdg :=
  x <| m_token := [] |> <| m_salt := [] |> <| m_key := [] |>.

(** The token option of the request. *)
Definition requestToken (obj : QJsonObject) (x : Xdg) : option chars :=
  if hasKey (qs "token") obj then Some (text (toQString (value (qs "token") obj)))
  else if bool_decide (m_token x = []) then None else Some (m_token x).

Definition chooseSalt (obj : QJsonObject) (x : Xdg) : Xdg :=
  if hasKey (qs "salt") obj then x <| m_salt := text (toQString (value (qs "salt") obj)) |>
  else if bool_decide (m_salt x = [])
  then x <| m_salt := freshSalt (saltsDrawn x) |> <| saltsDrawn := (saltsDrawn x + 1)%nat |>
  else x.

Definition deriveKey (x : Xdg) : chars :=
  match Hkdf.result CRYPTO_SETTINGS_KEY_SIZE (toUtf8 (m_salt x)) (m_key x) [] with
  | Ret key => key
  | _ => []
  end.

Definition getKey (version : Version) (metadata : chars) (x : Xdg) : chars * Xdg :=
  if negb (bool_decide (version = EncryptionChachaPolyV2)) then ([], x)
  else if negb (bool_decide (m_key x = [])) then (deriveKey x, x)
  else
    let obj := default [] (fromBytes metadata) in
    let token := requestToken obj x in
    match retrieveSecret token with
    | None => ([], x)
    | Some secret =>
        let x := x <| m_key := secret |> in
        if bool_decide (secret = []) then ([], x)
        else
          let x := chooseSalt obj x in
          let x := match token with Some t => x <| m_token := t |> | None => x end in
          (deriveKey x, x)
    end.

Definition metaObject (x : Xdg) : QJsonObject :=
  let obj := if bool_decide (m_salt x = []) then []
             else insertKey (qs "salt") (JString (m_salt x)) [] in
  if bool_decide (m_token x = []) then obj
  else insertKey (qs "token") (JString (m_token x)) obj.

Definition getMetaData (x : Xdg) : chars := toCompact (metaObject x).

#[export] Instance xdgImplementation : Implementation Xdg := {|
  CryptoSettings.resetKeyOf := resetKey;
  CryptoSettings.getKeyOf := getKey;
  CryptoSettings.getMetaDataOf := getMetaData;
  CryptoSettings.getPreferredVersionOf := m_version;
|}.

End Portal.

(** ** The key comes back *)

Section Keys.
Context `{QtJsonTextLaws} `{Hkdf.HmacLaws} `{CipherLaws} `{VariantsLaws}.

(** The portal gives the same secret for the same token, and salts are not empty. *)
Variable retrieveSecret : option chars -> option chars.
Variable freshSalt : nat -> chars.
Variable toUtf8 : chars -> chars.
Hypothesis freshSalt_nonempty : forall n, freshSalt n <> [].

#[local] Existing Instance xdgImplementation.

Definition ownToken (x : Xdg) : option chars :=
  if bool_decide (m_token x = []) then None else Some (m_token x).

(** Once there is a key, the portal gives it for the token, and there is a salt. *)
Definition consistent (x : Xdg) : Prop :=
  m_key x = [] \/ (retrieveSecret (ownToken x) = Some (m_key x) /\ m_salt x <> []).

Lemma requestToken_none (x : Xdg) : requestToken [] x = ownToken x.
Proof. done. Qed.

Lemma getKey_written (x : Xdg) :
  consistent x ->
  let '(key, x') := getKey retrieveSecret freshSalt toUtf8 EncryptionChachaPolyV2 [] x in
  key = [] \/ (key = deriveKey toUtf8 x' /\ m_key x' <> [] /\ m_salt x' <> []
              /\ retrieveSecret (ownToken x') = Some (m_key x')).
Proof.
  intros Hx. unfold getKey. cbn [bool_decide decide negb]. rewrite bool_decide_true by done.
  cbn [negb]. destruct (decide (m_key x = [])) as [E|E].
  - rewrite bool_decide_true by done. cbn [negb]. rewrite fromBytes_nothing. cbn [default].
    rewrite requestToken_none. destruct (retrieveSecret (ownToken x)) as [secret|] eqn:Er; [|by left].
    case_bool_decide as Hs; [by left|]. right.
    set (x1 := x <| m_key := secret |>). unfold chooseSalt. cbn [hasKey].
    change (m_salt x1) with (m_salt x).
    assert (forall x', m_token x' = m_token x -> ownToken x' = ownToken x) as Ht
      by (unfold ownToken; by intros x' ->).
    assert (forall t, ownToken x = Some t -> t = m_token x) as Hown
      by (unfold ownToken; intros t; case_bool_decide; by intros [= ->]).
    destruct (decide (m_salt x = [])) as [Hsalt|Hsalt];
      [rewrite (bool_decide_true _ Hsalt)|rewrite (bool_decide_false _ Hsalt)];
      destruct (ownToken x) as [t|];
      (split_and!; [done|done|exact Hsalt || apply freshSalt_nonempty|];
       rewrite Ht; [exact Er|first [done|exact (Hown t eq_refl)]]).
  - rewrite bool_decide_false by done. cbn [negb]. right. destruct Hx as [Hx|[Hx Hs]]; [done|].
    by split_and!.
Qed.

(** The metadata of a key, read by a new process. *)
Lemma getKey_read (x : Xdg) :
  m_key x <> [] -> m_salt x <> [] -> retrieveSecret (ownToken x) = Some (m_key x) ->
  (getKey retrieveSecret freshSalt toUtf8 EncryptionChachaPolyV2 (getMetaData x) (construct true)).1
  = deriveKey toUtf8 x.
Proof.
  intros Hk Hs Hr.
  assert (exactJson (JObject (metaObject x)) = true) as He
    by (unfold metaObject; repeat case_bool_decide; done).
  destruct (fromBytes_toCompact (metaObject x) He) as (o & Eo & Hv & Hh).
  unfold getKey. rewrite bool_decide_true by done. cbn [negb].
  change (m_key (construct true)) with (@nil ascii).
  rewrite bool_decide_true by done. cbn [negb]. unfold getMetaData. rewrite Eo. cbn [default].
  assert (requestToken o (construct true) = ownToken x) as Ht.
  { unfold requestToken, ownToken. rewrite Hh. pose proof (Hv (qs "token")) as Hvt.
    unfold metaObject in *. rewrite (bool_decide_false _ Hs) in *.
    case_bool_decide; cbn in *; [done|]. by inversion Hvt. }
  change (id o) with o. rewrite Ht, Hr. rewrite (bool_decide_false _ Hk).
  assert (hasKey (qs "salt") o = true /\ value (qs "salt") o = JString (m_salt x)) as [Hhs Hvs].
  { rewrite Hh. pose proof (Hv (qs "salt")) as Hvs. unfold metaObject in *.
    rewrite (bool_decide_false _ Hs) in *. case_bool_decide; cbn in *; by inversion Hvs. }
  unfold chooseSalt. rewrite Hhs, Hvs. cbn [toQString text default].
  unfold deriveKey. by destruct (ownToken x).
Qed.

(** C30: the settings written to a file by one process are read from it by the next:
    the portal gives the secret again for the token in the file, whose salt gives the
    key. This holds while the metadata fit in 127 bytes. *)
Theorem xdg_roundtrip (m : gmap chars QVariant) (writer writer' : Crypto Xdg) (d : Device) :
  exactSettings m -> consistent (implementation writer) ->
  m_version (implementation writer) = EncryptionChachaPolyV2 ->
  0 <= m_lastNonce writer -> m_lastNonce writer + 1 < 2 ^ 64 - 1 ->
  let I := xdgImplementation retrieveSecret freshSalt toUtf8 in
  writeFile (H2 := I) m (mkDevice [] None) (Some writer) = (true, d, Some writer') ->
  (length (getMetaData (implementation writer')) <= 127)%nat ->
  exists reader', readFile (H2 := I) (contents d) ∅ (Some (mkCrypto (construct true) 0))
                  = (true, stored m, Some reader')
    /\ m_lastNonce reader' = m_lastNonce writer'.
Proof.
  intros Hm Hc Hv H1' H2' I Hw Hl. unfold writeFile in Hw.
  change (getPreferredVersionOf (implementation writer)) with (m_version (implementation writer)) in Hw.
  rewrite Hv in Hw.
  destruct (writeEncryptedChachaPolyFile m (mkDevice [] None) writer) as [[ok d1] w1] eqn:E.
  injection Hw as -> <- <-.
  assert (nextNonce writer = mkCrypto (implementation writer) (m_lastNonce writer + 1)) as En
    by (by apply nextNonce_small).
  apply (file_roundtrip m writer w1); try done.
  - by rewrite En.
  - rewrite En. cbn [implementation]. unfold sameKey.
    pose proof (getKey_written (implementation writer) Hc) as Hk.
    unfold writeEncryptedChachaPolyFile in E. rewrite En in E. cbn [implementation] in E.
    change (getPreferredVersionOf (implementation writer)) with (m_version (implementation writer)) in E.
    rewrite Hv in E. cbn [CryptoSettings.getKeyOf xdgImplementation I] in *.
    destruct (getKey _ _ _ _ [] (implementation writer)) as [key x'].
    destruct Hk as [->|(-> & Hk & Hs & Hr)]; [done|]. by apply getKey_read.
  - rewrite En. cbn [m_lastNonce]. lia.
Qed.

End Keys.

(** ** Examples *)

#[local] Existing Instance modelJsonText.
#[local] Existing Instance modelJsonTextLaws.

(** A hash, a cipher and variants for examples. *)
Definition sampleHmac : Hkdf.Hmac := {|
  Hkdf.hashLength := 32;
  Hkdf.hmac key message := take 32 (message ++ key ++ repeat (byteOf 0) 32);
|}.

Lemma sampleHmacLaws : Hkdf.HmacLaws (H := sampleHmac).
Proof.
  split; [cbn; lia|]. intros key message. cbn [Hkdf.hmac Hkdf.hashLength sampleHmac].
  rewrite length_take, !length_app, repeat_length. lia.
Qed.

Definition sampleCipher : Cipher := {|
  encrypt key nonce aad plain := (plain, repeat (byteOf 0) MAC_SIZE);
  decrypt key nonce aad ciphertext mac := Some ciphertext;
|}.

Lemma sampleCipherLaws : CipherLaws (H := sampleCipher).
Proof. by split. Qed.

(** Settings that are texts. *)
Definition sampleVariants : Variants := {|
  QVariant := QString;
  fromVariant := ofQString;
  toVariant := toQString;
|}.

Lemma sampleVariantsLaws : VariantsLaws (H := sampleVariants).
Proof. split. apply toQString_proper. Qed.

#[local] Existing Instance sampleHmac.
#[local] Existing Instance sampleHmacLaws.
#[local] Existing Instance sampleCipher.
#[local] Existing Instance sampleCipherLaws.
#[local] Existing Instance sampleVariants.
#[local] Existing Instance sampleVariantsLaws.

Definition sampleSecret (token : option chars) : option chars := Some (qs "secret").
Definition sampleSalt (n : nat) : chars := qs "s".

#[local] Instance sampleImplementation : Implementation Xdg :=
  xdgImplementation sampleSecret sampleSalt (fun s => s).

Definition sampleSettings : gmap chars QVariant := {[ qs "token" := Some (qs "abc") ]}.

Definition sampleWriter : Crypto Xdg := mkCrypto (construct true) 0.

Definition sampleFile : bool * Device * option (Crypto Xdg) :=
  writeFile sampleSettings (mkDevice [] None) (Some sampleWriter).

Definition sampleDevice : Device := sampleFile.1.2.
Definition sampleWritten : Crypto Xdg := default sampleWriter sampleFile.2.

Lemma sampleFile_eq : sampleFile = (true, sampleDevice, Some sampleWritten).
Proof. vm_compute. reflexivity. Qed.

Lemma xdg_roundtrip_witness :
  exists reader', readFile (contents sampleDevice) ∅ (Some (mkCrypto (construct true) 0))
                  = (true, stored sampleSettings, Some reader')
    /\ m_lastNonce reader' = m_lastNonce sampleWritten.
Proof.
  apply (xdg_roundtrip sampleSecret sampleSalt (fun s => s)) with (writer := sampleWriter).
  - done.
  - apply map_Forall_singleton. reflexivity.
  - by left.
  - reflexivity.
  - done.
  - by vm_compute.
  - exact sampleFile_eq.
  - vm_compute. lia.
Defined.

Lemma readFile_failure_witness :
  readFile [byteOf 7] sampleSettings (Some sampleWriter)
  = (false, sampleSettings, Some sampleWriter)
  /\ m_lastNonce <$> Some sampleWriter = Some 0.
Proof.
  assert (readFile [byteOf 7] sampleSettings (Some sampleWriter)
          = (false, sampleSettings, Some sampleWriter)) as E by reflexivity.
  destruct (readFile_failure _ _ _ _ _ E) as [_ Hn]. by split.
Defined.

(** Two files, a write that fails, the last file read again, and a third file. *)
Definition sampleAccesses : list Access :=
  [Save sampleSettings None; Save sampleSettings None; Save sampleSettings (Some 3%nat); Load;
   Save sampleSettings (Some 200%nat)].

Definition sampleStorage : Storage := mkStorage None sampleWriter.

Example sampleNumbers :
  omap fileNonce (omap fst (accesses sampleAccesses sampleStorage)) = [1; 2; 3].
Proof. vm_compute. reflexivity. Qed.

Lemma write_nonces_witness : NoDup (map nonceBytes [0; 1; 2; 3]).
Proof.
  rewrite <- sampleNumbers.
  refine (proj2 (proj2 (write_nonces sampleAccesses sampleStorage _ _ _))).
  - by vm_compute.
  - by vm_compute.
  - apply Forall_forall. intros s Hs. unfold legible. apply Nat.leb_le. revert s Hs.
    apply Forall_forall. repeat (constructor; [vm_compute; reflexivity|]). constructor.
Defined.

Lemma result_rfc5869_witness :
  Hkdf.result 32 (qs "s") (qs "secret") []
  = Ret (take 32 (Hkdf.expand (Hkdf.privateKey (qs "s") (qs "secret")) [] 1)).
Proof. apply Hkdf.result_rfc5869. cbn. lia. Defined.

End XdgCryptoSettings.
