(* ===== verification/PingSender.v ===== *)
(** * Ping senders

    Model of [src/src/utils/pingsender/], of
    [platforms/linux/linuxpingsender.cpp] and of [pingsenderfactory.cpp] on Linux: the
    checksum, the packets, the sockets that are tried, the filter attached to a raw
    one, and what counts as an answer. Bytes are integers below 256, the host is
    little-endian; what the system calls answer is an argument. *)
From Stdlib Require Import ZArith Lia Ascii String.
From stdpp Require Import base numbers list.
From S2P Require Import Prelude QHostAddress.

Local Open Scope Z_scope.
Local Open Scope wg_scope.

Module PingSender.

(** ** The checksum *)

(** The additions of the loop, and of an odd last byte. *)
Fixpoint sumWords (data : list Z) : Z :=
  match data with
  | a :: b :: r => (a + 256 * b) + sumWords r
  | [a] => a
  | [] => 0
  end.

Definition inetChecksum (data : list Z) : Z :=
  let sum := sumWords data in
  let sum := Z.shiftr sum 16 + Z.land sum 65535 in
  let sum := sum + Z.shiftr sum 16 in
  u16 (Z.lnot sum).

(** RFC 1071: the complement of the sum in one's complement arithmetic. *)
Definition plus1 (a b : Z) : Z := if a + b <? 65536 then a + b else a + b - 65535.

Fixpoint sum1 (data : list Z) : Z :=
  match data with
  | a :: b :: r => plus1 (a + 256 * b) (sum1 r)
  | [a] => a
  | [] => 0
  end.

Definition isByte (z : Z) : Prop := 0 <= z < 256.

Definition bytes (data : list Z) : Prop := Forall isByte data.

(** ** Packets *)

Definition ICMP_ECHO : Z := 8.
Definition ICMP_ECHOREPLY : Z := 0.
Definition ICMP6_ECHO_REQUEST : Z := 128.
Definition ICMP6_ECHO_REPLY : Z := 129.
Definition ICMP_HDRLEN : Z := 8.

(** The two bytes of [htons] in memory, and of a word of the host. *)
Definition net16 (z : Z) : list Z := [u16 z / 256; u16 z mod 256].
Definition host16 (z : Z) : list Z := [u16 z mod 256; u16 z / 256].

Definition byteAt (i : nat) (data : list Z) : Z := default 0 (data !! i).

(** [ntohs] of the word at [i]. *)
Definition net16At (i : nat) (data : list Z) : Z := 256 * byteAt i data + byteAt (S i) data.

(** An [icmphdr]: type, code, checksum, identifier and sequence number. *)
Definition icmphdr (type : Z) (checksum : list Z) (ident sequence : Z) : list Z :=
  type :: 0 :: checksum ++ net16 ident ++ net16 sequence.

(** ** The sender of Linux *)

Inductive SocketKind : Type := Datagram4 | Raw4 | Datagram6 | Raw6.

#[export] Instance SocketKind_eq_dec : EqDecision SocketKind.
Proof. solve_decision. Defined.

(** [m_kind] is [None] without a socket. *)
Record LinuxPingSender : Type := mkSender {
  m_kind : option SocketKind;
  m_ident : Z;
}.

(** What the system answers: [socket()] for a datagram socket, with whether its error
    is one of permission, [socket()] for a raw one, [bind()], and [getpid()]. *)
Record System : Type := mkSystem {
  datagram : bool;
  permission : bool;
  raw : bool;
  bound : bool;
  pid : Z;
}.

Definition createSocket (v6 : bool) (y : System) : LinuxPingSender :=
  if datagram y then mkSender (Some (if v6 then Datagram6 else Datagram4)) 0
  else if negb (permission y) then mkSender None 0
  else if negb (raw y) then mkSender None 0
  else mkSender (Some (if v6 then Raw6 else Raw4)) (Z.land (pid y) 65535).

Definition construct (source : QHostAddress) (y : System) : LinuxPingSender :=
  let v6 := match source with HostV6 _ => true | _ => false end in
  let s := createSocket v6 y in
  match m_kind s with
  | None => s
  | Some _ => if bound y then s else mkSender None (m_ident s)
  end.

Definition isValid (s : LinuxPingSender) : bool :=
  match m_kind s with Some _ => true | None => false end.

(** The message given to [sendto]. *)
Definition sendPing (dest : QHostAddress) (sequence : Z) (s : LinuxPingSender) : list Z :=
  match dest with
  | HostV6 _ => icmphdr ICMP6_ECHO_REQUEST [0; 0] (m_ident s) sequence
  | _ =>
      let packet := icmphdr ICMP_ECHO [0; 0] (m_ident s) sequence in
      icmphdr ICMP_ECHO (host16 (inetChecksum packet)) (m_ident s) sequence
  end.

(** *** Answers

    Each handler gives the sequence number it emits with [recvPing]; [data] is what
    [recvfrom] returned, at most 2048 bytes. *)
Definition icmpSocketReady (s : LinuxPingSender) (data : list Z) : option Z :=
  if Z.of_nat (length data) <? ICMP_HDRLEN then None
  else if byteAt 0 data =? ICMP_ECHOREPLY then Some (net16At 6 data) else None.

Definition icmp6SocketReady (s : LinuxPingSender) (data : list Z) : option Z :=
  if Z.of_nat (length data) <? ICMP_HDRLEN then None
  else if (byteAt 0 data =? ICMP6_ECHO_REPLY)
          && ((m_ident s =? 0) || (net16At 4 data =? m_ident s))
  then Some (net16At 6 data) else None.

Definition rawSocketReady (s : LinuxPingSender) (data : list Z) : option Z :=
  match data with
  | [] => None
  | first :: _ =>
      let rc := Z.of_nat (length data) in
      let iphdrlen := Z.land first 15 * 4 in
      if (rc <? iphdrlen) || (iphdrlen <? 20) then None
      else
        let icmp := drop (Z.to_nat iphdrlen) data in
        if negb (inetChecksum icmp =? 0) then None
        else if rc <? iphdrlen + ICMP_HDRLEN then None
        else if (byteAt 0 icmp =? ICMP_ECHOREPLY) && (net16At 4 icmp =? m_ident s)
        then Some (net16At 6 icmp) else None
  end.

(** The handler connected to the socket. *)
Definition socketReady (s : LinuxPingSender) (data : list Z) : option Z :=
  match m_kind s with
  | None => None
  | Some (Datagram6 | Raw6) => icmp6SocketReady s data
  | Some (Datagram4 | Raw4) =>
      if negb (m_ident s =? 0) then rawSocketReady s data else icmpSocketReady s data
  end.

(** *** The packet filter

    The instructions of the program attached to the raw socket, as the kernel runs
    them: the accumulator and the index register, [None] being a load out of the
    packet, which rejects it. *)
Inductive Instruction : Type :=
| LDX_B_MSH (k : Z)
| LD_H_IND (k : Z)
| LD_B_IND (k : Z)
| JMP_JEQ_K (k : Z) (jt jf : nat)
| RET_K (accept : bool).

Definition bpf_prog (ident : Z) : list Instruction :=
  [LDX_B_MSH 0; LD_H_IND 4; JMP_JEQ_K ident 1 0; RET_K false;
   LD_B_IND 0; JMP_JEQ_K ICMP_ECHOREPLY 1 0; RET_K false; RET_K true].

Definition load (data : list Z) (i : Z) : option Z := data !! Z.to_nat i.

(** The program without what has run; jumps only go forward. *)
Fixpoint bpf (fuel : nat) (prog : list Instruction) (data : list Z) (a x : Z) : Outcome bool :=
  match fuel with
  | O => OutOfFuel
  | S fuel =>
      match prog with
      | [] => Undefined
      | LDX_B_MSH k :: r =>
          match load data k with
          | Some b => bpf fuel r data a (4 * Z.land b 15)
          | None => Ret false
          end
      | LD_H_IND k :: r =>
          match load data (x + k), load data (x + k + 1) with
          | Some b, Some b' => bpf fuel r data (256 * b + b') x
          | _, _ => Ret false
          end
      | LD_B_IND k :: r =>
          match load data (x + k) with
          | Some b => bpf fuel r data b x
          | None => Ret false
          end
      | JMP_JEQ_K k jt jf :: r => bpf fuel (drop (if a =? k then jt else jf) r) data a x
      | RET_K b :: _ => Ret b
      end
  end.

Definition filtered (ident : Z) (data : list Z) : Outcome bool := bpf 8 (bpf_prog ident) data 0 0.

(** ** The sender of DNS queries *)

Definition DNS_FLAG_QR : Z := 32768.
Definition DNS_FLAG_OPCODE : Z := 30720.
Definition DNS_FLAG_OPCODE_QUERY : Z := 0.
Definition DNS_HDRLEN : Z := 12.

(** The header, and a query for the addresses of the root. *)
Definition dnsQuery (sequence : Z) : list Z :=
  net16 sequence ++ net16 DNS_FLAG_OPCODE_QUERY ++ net16 1 ++ [0; 0; 0; 0; 0; 0]
  ++ [0; 0; 1; 0; 1].

(** The datagram written, or [None] with [criticalPingError]. *)
Definition dnsSendPing (dest : QHostAddress) (socketValid : bool) (sequence : Z)
  : option (list Z) :=
  match dest with
  | NullHost => None
  | _ => if socketValid then Some (dnsQuery sequence) else None
  end.

Definition dnsReply (payload : list Z) : option Z :=
  if Z.of_nat (length payload) <? DNS_HDRLEN then None
  else
    let flags := net16At 2 payload in
    if Z.land flags DNS_FLAG_QR =? 0 then None
    else if negb (Z.land flags DNS_FLAG_OPCODE =? DNS_FLAG_OPCODE_QUERY) then None
    else Some (net16At 0 payload).

(** The datagrams that wait, [None] being an invalid one; what is emitted, and what is
    left. *)
Fixpoint dnsReadData (pending : list (option (list Z))) : list Z * list (option (list Z)) :=
  match pending with
  | [] => ([], [])
  | None :: r => ([], r)
  | Some payload :: r =>
      let '(out, rest) := dnsReadData r in
      (match dnsReply payload with Some s => s :: out | None => out end, rest)
  end.

(** ** Lemmas on the checksum *)

Lemma words_ind (P : list Z -> Prop) :
  P [] -> (forall a, P [a]) -> (forall a b r, P r -> P (a :: b :: r)) -> forall l, P l.
Proof.
  intros H0 H1 H2. assert (forall l, P l /\ forall a, P (a :: l)) as Hl; [|apply Hl].
  induction l as [|b l [I1 I2]]; split; auto.
Qed.

Lemma sumWords_range (data : list Z) :
  bytes data -> 0 <= sumWords data /\ 2 * sumWords data <= 65535 * (Z.of_nat (length data) + 1).
Proof.
  unfold bytes, isByte. induction data as [|a|a b r IH] using words_ind; intros Hb; cbn [sumWords length].
  - lia.
  - inversion Hb; subst. lia.
  - inversion Hb as [|? ? Ha Hr]; subst. inversion Hr; subst. specialize (IH ltac:(done)). lia.
Qed.

(** Both sums are the same number modulo 65535, with zero only for zero. *)
Lemma sum1_spec (data : list Z) :
  bytes data -> 0 <= sum1 data <= 65535
  /\ (exists j, sumWords data = sum1 data + 65535 * j) /\ (sum1 data = 0 <-> sumWords data = 0).
Proof.
  unfold bytes, isByte. induction data as [|a|a b r IH] using words_ind; intros Hb.
  - split_and!; [done|done|by exists 0|done].
  - inversion Hb; subst. cbn. split_and!; [lia|lia|exists 0; lia|lia].
  - inversion Hb as [|? ? Ha Hr]; subst. inversion Hr as [|? ? Hb' Hr']; subst.
    pose proof (sumWords_range r Hr') as Hs.
    destruct (IH Hr') as (R & [j E] & Z0). cbn [sum1 sumWords]. unfold plus1.
    destruct (Z.ltb_spec (a + 256 * b + sum1 r) 65536); split_and!; try lia.
    + exists j. lia.
    + exists (j + 1). lia.
Qed.

Lemma fold_spec (S : Z) :
  0 <= S < 2 ^ 32 ->
  let sum := Z.shiftr S 16 + Z.land S 65535 in
  let sum := sum + Z.shiftr sum 16 in
  exists low, u16 (Z.lnot sum) = 65535 - low /\ 0 <= low <= 65535
    /\ (exists k, S = low + 65535 * k) /\ (low = 0 <-> S = 0).
Proof.
  intros HS. cbv zeta.
  assert (Z.land S 65535 = S mod 65536) as ->.
  { change 65535 with (Z.ones 16). by rewrite Z.land_ones by lia. }
  rewrite !Z.shiftr_div_pow2 by lia. change (2 ^ 16) with 65536.
  pose proof (Z.div_mod S 65536 ltac:(lia)) as E.
  pose proof (Z.mod_pos_bound S 65536 ltac:(lia)) as Hm.
  set (h := S / 65536) in *. set (m := S mod 65536) in *.
  assert (0 <= h < 65536) as Hh by lia.
  unfold u16. change (2 ^ 16) with 65536.
  destruct (Z_lt_dec (h + m) 65536) as [Hlt|Hge].
  - rewrite (Z.div_small (h + m)) by lia. exists (h + m). unfold Z.lnot. split_and!; try lia.
    + replace (Z.pred (- (h + m + 0))) with (65535 - (h + m) + (-1) * 65536) by lia.
      rewrite Z.mod_add, Z.mod_small by lia. lia.
    + exists h. lia.
  - assert ((h + m) / 65536 = 1) as ->.
    { symmetry. apply (Z.div_unique _ _ _ (h + m - 65536)); lia. }
    exists (h + m - 65535). unfold Z.lnot. split_and!; try lia.
    + replace (Z.pred (- (h + m + 1))) with (65535 - (h + m - 65535) + (-2) * 65536) by lia.
      rewrite Z.mod_add, Z.mod_small by lia. lia.
    + exists (h + 1). lia.
Qed.

(** The value of the checksum, from the plain sum. *)
Lemma inetChecksum_low (data : list Z) :
  bytes data -> Z.of_nat (length data) <= 65536 ->
  exists low, inetChecksum data = 65535 - low /\ 0 <= low <= 65535
    /\ (exists k, sumWords data = low + 65535 * k) /\ (low = 0 <-> sumWords data = 0).
Proof.
  intros Hb Hl. pose proof (sumWords_range data Hb). apply fold_spec. lia.
Qed.

Lemma inetChecksum_range (data : list Z) : 0 <= inetChecksum data < 65536.
Proof. unfold inetChecksum, u16. apply Z.mod_pos_bound. lia. Qed.

(** ** Properties *)

(** C29: For everything that fits in a packet the sum does not overflow, and two foldings
    give the checksum of RFC 1071. *)
Theorem inetChecksum_rfc1071 (data : list Z) :
  bytes data -> Z.of_nat (length data) <= 65535 ->
  sumWords data < 2 ^ 31 /\ inetChecksum data = 65535 - sum1 data.
Proof.
  intros Hb Hl. pose proof (sumWords_range data Hb) as Hr. split; [lia|].
  destruct (inetChecksum_low data Hb ltac:(lia)) as (low & -> & R & [k E] & Z0).
  destruct (sum1_spec data Hb) as (R1 & [j E1] & Z1). lia.
Qed.

(** ** Packets *)

Lemma u16_bytes (z : Z) : isByte (u16 z / 256) /\ isByte (u16 z mod 256).
Proof.
  pose proof (u16_range z). unfold isByte.
  pose proof (Z.div_mod (u16 z) 256 ltac:(lia)). pose proof (Z.mod_pos_bound (u16 z) 256 ltac:(lia)).
  lia.
Qed.

Lemma net16_value (z : Z) : 256 * (u16 z / 256) + u16 z mod 256 = u16 z.
Proof. pose proof (Z.div_mod (u16 z) 256 ltac:(lia)). lia. Qed.

Lemma bytes_net16 (z : Z) : bytes (net16 z).
Proof. destruct (u16_bytes z). unfold bytes, net16, host16. by rewrite !Forall_cons, Forall_nil. Qed.

Lemma bytes_host16 (z : Z) : bytes (host16 z).
Proof. destruct (u16_bytes z). unfold bytes, net16, host16. by rewrite !Forall_cons, Forall_nil. Qed.

Lemma bytes_icmphdr (type : Z) (checksum : list Z) (ident sequence : Z) :
  isByte type -> bytes checksum -> bytes (icmphdr type checksum ident sequence).
Proof.
  intros Ht Hc. unfold icmphdr, bytes. repeat (apply Forall_cons_2; [done || (unfold isByte; lia)|]).
  repeat apply Forall_app_2; [done|apply bytes_net16|apply bytes_net16].
Qed.

Lemma icmphdr_ident (type a b ident sequence : Z) (payload : list Z) :
  net16At 4 (icmphdr type [a; b] ident sequence ++ payload) = u16 ident.
Proof. unfold net16At, byteAt. cbn. apply net16_value. Qed.

Lemma icmphdr_sequence (type a b ident sequence : Z) (payload : list Z) :
  net16At 6 (icmphdr type [a; b] ident sequence ++ payload) = u16 sequence.
Proof. unfold net16At, byteAt. cbn. apply net16_value. Qed.

(** A packet with its checksum has the checksum zero. *)
Definition sealed (type ident sequence : Z) (payload : list Z) : list Z :=
  icmphdr type (host16 (inetChecksum (icmphdr type [0; 0] ident sequence ++ payload)))
    ident sequence ++ payload.

Lemma sumWords_sealed (type ident sequence : Z) (payload : list Z) :
  sumWords (sealed type ident sequence payload)
  = sumWords (icmphdr type [0; 0] ident sequence ++ payload)
    + inetChecksum (icmphdr type [0; 0] ident sequence ++ payload).
Proof.
  unfold sealed. set (c := inetChecksum _).
  assert (u16 c = c) as Ec.
  { unfold u16. apply Z.mod_small. apply inetChecksum_range. }
  unfold icmphdr, host16. cbn [app sumWords net16]. pose proof (net16_value c). lia.
Qed.

Lemma length_icmphdr (type a b ident sequence : Z) (payload : list Z) :
  length (icmphdr type [a; b] ident sequence ++ payload) = (8 + length payload)%nat.
Proof. done. Qed.

Lemma sealed_bytes (type ident sequence : Z) (payload : list Z) :
  isByte type -> bytes payload -> bytes (sealed type ident sequence payload).
Proof. intros Ht Hp. apply Forall_app_2; [|done]. apply bytes_icmphdr; [done|apply bytes_host16]. Qed.

Lemma sealed_checksum (type ident sequence : Z) (payload : list Z) :
  isByte type -> bytes payload -> Z.of_nat (length payload) <= 65000 ->
  inetChecksum (sealed type ident sequence payload) = 0.
Proof.
  intros Ht Hp Hl. set (p0 := icmphdr type [0; 0] ident sequence ++ payload).
  assert (bytes p0) as H0b.
  { apply Forall_app_2; [|done]. apply bytes_icmphdr; [done|]. unfold bytes, isByte. rewrite !Forall_cons, Forall_nil. lia. }
  assert (length p0 = length (sealed type ident sequence payload)) as El by done.
  assert (Z.of_nat (length p0) <= 65536) as Hl0.
  { unfold p0. rewrite length_icmphdr. lia. }
  destruct (inetChecksum_low p0 H0b Hl0) as (low & Ec & R & [k E] & Z0).
  destruct (inetChecksum_low (sealed type ident sequence payload)) as (low' & -> & R' & [k' E'] & Z0');
    [by apply sealed_bytes|lia|].
  rewrite sumWords_sealed in E', Z0'. fold p0 in E', Z0'. rewrite Ec in E', Z0'.
  pose proof (sumWords_range p0 H0b). lia.
Qed.

(** The filter decides on every packet within its eight instructions. *)
Lemma filtered_total (ident : Z) (data : list Z) : exists b, filtered ident data = Ret b.
Proof.
  unfold filtered, bpf_prog. cbn [bpf].
  destruct (load data 0) as [v|]; [|by exists false].
  destruct (load data (_ + 4)) as [b|]; [|by exists false].
  destruct (load data (_ + 4 + 1)) as [b'|]; [|by exists false].
  destruct (_ =? ident); cbn [drop bpf]; [|by exists false].
  destruct (load data (_ + 0)) as [t|]; [|by exists false].
  destruct (t =? ICMP_ECHOREPLY); cbn [drop bpf]; [by exists true|by exists false].
Qed.

(** *** Received packets *)

(** The header of an IPv4 packet. *)
Definition ipHeader (hdr : list Z) : Prop :=
  bytes hdr /\ exists v, head hdr = Some v /\ Z.shiftr v 4 = 4
    /\ Z.of_nat (length hdr) = 4 * Z.land v 15 /\ 5 <= Z.land v 15.

(** What a host sends back to an echo request with this identifier, as the socket of
    that kind delivers it. *)
Definition delivered (kind : SocketKind) (hdr payload : list Z) (ident sequence : Z) (data : list Z)
  : Prop :=
  match kind with
  | Datagram4 => exists i, data = sealed ICMP_ECHOREPLY i sequence payload
  | Raw4 => data = hdr ++ sealed ICMP_ECHOREPLY ident sequence payload
  | Datagram6 => exists i c, data = icmphdr ICMP6_ECHO_REPLY (host16 c) i sequence ++ payload
  | Raw6 => exists c, data = icmphdr ICMP6_ECHO_REPLY (host16 c) ident sequence ++ payload
  end.

Lemma load_app (hdr data : list Z) (x k : Z) :
  Z.of_nat (length hdr) = x -> 0 <= k -> load (hdr ++ data) (x + k) = load data k.
Proof.
  intros E Hk. unfold load. rewrite lookup_app_r by lia. f_equal. lia.
Qed.

Lemma raw_received (hdr payload : list Z) (ident sequence : Z) :
  ipHeader hdr -> bytes payload -> Z.of_nat (length payload) <= 65000 -> 0 <= ident < 65536 ->
  filtered ident (hdr ++ sealed ICMP_ECHOREPLY ident sequence payload) = Ret true
  /\ forall s, m_ident s = ident ->
     rawSocketReady s (hdr ++ sealed ICMP_ECHOREPLY ident sequence payload) = Some (u16 sequence).
Proof.
  intros (Hb & v & Hv & _ & Hlen & Hmin) Hp Hpl Hi.
  destruct hdr as [|v' hdr]; [done|]. injection Hv as ->.
  set (p := sealed ICMP_ECHOREPLY ident sequence payload).
  assert (u16 ident = ident) as Ei by (unfold u16; apply Z.mod_small; lia).
  assert (load p 4 = Some (u16 ident / 256)) as L4 by done.
  assert (load p 5 = Some (u16 ident mod 256)) as L5 by done.
  assert (load p 0 = Some 0) as L0 by done.
  split.
  - unfold filtered, bpf_prog. cbn [bpf].
    change (load ((v :: hdr) ++ p) 0) with (Some v). cbn [bpf].
    rewrite (load_app _ _ _ 4) by lia.
    replace (4 * Z.land v 15 + 4 + 1) with (4 * Z.land v 15 + 5) by lia.
    rewrite (load_app _ _ _ 5) by lia. rewrite L4, L5, net16_value, Ei, Z.eqb_refl. cbn [drop bpf].
    rewrite (load_app _ _ _ 0) by lia. by rewrite L0.
  - intros s Es. unfold rawSocketReady. cbn [app].
    change (v :: hdr ++ p) with ((v :: hdr) ++ p).
    rewrite length_app, Nat2Z.inj_add, Hlen.
    assert (Z.of_nat (length p) = 8 + Z.of_nat (length payload)) as Elp.
    { unfold p, sealed, host16. rewrite length_icmphdr. lia. }
    rewrite Elp. destruct (Z.ltb_spec (4 * Z.land v 15 + (8 + Z.of_nat (length payload))) (Z.land v 15 * 4)); [lia|].
    destruct (Z.ltb_spec (Z.land v 15 * 4) 20); [lia|]. cbn [orb].
    replace (drop (Z.to_nat (Z.land v 15 * 4)) ((v :: hdr) ++ p)) with p
      by (symmetry; apply drop_app_length'; lia).
    unfold p at 1. rewrite sealed_checksum by (done || unfold isByte, ICMP_ECHOREPLY; lia).
    cbn [negb Z.eqb].
    destruct (Z.ltb_spec (4 * Z.land v 15 + (8 + Z.of_nat (length payload))) (Z.land v 15 * 4 + ICMP_HDRLEN));
      [unfold ICMP_HDRLEN in *; lia|].
    change (byteAt 0 p) with 0. cbn [Z.eqb andb ICMP_ECHOREPLY].
    unfold p, sealed, host16. rewrite icmphdr_ident, icmphdr_sequence, Ei, Es. by rewrite Z.eqb_refl.
Qed.

Lemma datagram_received (s : LinuxPingSender) (type ident sequence a b : Z) (payload : list Z) :
  type = ICMP_ECHOREPLY ->
  icmpSocketReady s (icmphdr type [a; b] ident sequence ++ payload) = Some (u16 sequence).
Proof.
  intros ->. unfold icmpSocketReady. rewrite length_icmphdr, Nat2Z.inj_add.
  destruct (Z.ltb_spec (Z.of_nat 8 + Z.of_nat (length payload)) ICMP_HDRLEN);
    [unfold ICMP_HDRLEN in *; lia|]. by rewrite icmphdr_sequence.
Qed.

Lemma received6 (s : LinuxPingSender) (ident sequence a b : Z) (payload : list Z) :
  m_ident s = 0 \/ m_ident s = u16 ident ->
  icmp6SocketReady s (icmphdr ICMP6_ECHO_REPLY [a; b] ident sequence ++ payload)
  = Some (u16 sequence).
Proof.
  intros Hi. unfold icmp6SocketReady. rewrite length_icmphdr, Nat2Z.inj_add.
  destruct (Z.ltb_spec (Z.of_nat 8 + Z.of_nat (length payload)) ICMP_HDRLEN);
    [unfold ICMP_HDRLEN in *; lia|].
  rewrite icmphdr_sequence, icmphdr_ident.
  change (byteAt 0 (icmphdr ICMP6_ECHO_REPLY [a; b] ident sequence ++ payload)) with ICMP6_ECHO_REPLY.
  cbn [Z.eqb Pos.eqb ICMP6_ECHO_REPLY andb].
  destruct Hi as [->| ->]; [done|]. by rewrite Z.eqb_refl, orb_true_r.
Qed.

(** The identifier of a raw socket is the low half of the process number. *)
Lemma construct_identified (source : QHostAddress) (y : System) (kind : SocketKind) :
  m_kind (construct source y) = Some kind ->
  m_ident (construct source y) = match kind with
                                 | Raw4 | Raw6 => pid y mod 65536
                                 | Datagram4 | Datagram6 => 0
                                 end.
Proof.
  assert (Z.land (pid y) 65535 = pid y mod 65536) as Ep.
  { change 65535 with (Z.ones 16). by rewrite Z.land_ones by lia. }
  unfold construct, createSocket.
  destruct source, (datagram y), (permission y), (raw y), (bound y); cbn; by intros [= <-].
Qed.

(** A process whose number is a multiple of 65536 gets no answer from a raw socket:
    the handler of datagrams is connected to it. *)
Lemma raw_unidentified (source : QHostAddress) (y : System) (hdr icmp : list Z) :
  m_kind (construct source y) = Some Raw4 -> pid y mod 65536 = 0 -> ipHeader hdr ->
  socketReady (construct source y) (hdr ++ icmp) = None.
Proof.
  intros Hk Hp (_ & v & Hv & H4 & Hl & Hm).
  pose proof (construct_identified source y Raw4 Hk) as Ei. rewrite Hp in Ei.
  unfold socketReady. rewrite Hk, Ei. cbn [Z.eqb negb]. unfold icmpSocketReady.
  destruct hdr as [|x hdr]; [done|]. injection Hv as ->. cbn [app].
  destruct (_ <? _); [done|]. change (byteAt 0 (v :: hdr ++ icmp)) with v.
  destruct (Z.eqb_spec v ICMP_ECHOREPLY) as [->|]; [done|done].
Qed.


(** Only echo replies with the identifier of the process are taken from a raw socket,
    with their sequence numbers, and the filter lets each of them pass. *)
Lemma rawSocketReady_only (s : LinuxPingSender) (data : list Z) (sequence : Z) :
  rawSocketReady s data = Some sequence ->
  exists hdr icmp, data = hdr ++ icmp /\ 20 <= Z.of_nat (length hdr)
    /\ byteAt 0 icmp = ICMP_ECHOREPLY /\ inetChecksum icmp = 0
    /\ net16At 4 icmp = m_ident s /\ net16At 6 icmp = sequence
    /\ filtered (m_ident s) data = Ret true.
Proof.
  unfold rawSocketReady. destruct data as [|v data]; [done|].
  set (n := Z.land v 15 * 4). set (whole := v :: data).
  destruct (_ || _) eqn:E1; [done|].
  destruct (inetChecksum (drop (Z.to_nat n) whole) =? 0) eqn:E2; [|done].
  destruct (_ <? n + ICMP_HDRLEN) eqn:E3; [done|].
  destruct (_ && _) eqn:E4; [|done]. intros [= <-]. cbn [negb] in *. unfold ICMP_HDRLEN in *. zbool.
  assert (Z.of_nat (length (take (Z.to_nat n) whole)) = n) as Eh.
  { rewrite length_take. lia. }
  exists (take (Z.to_nat n) whole), (drop (Z.to_nat n) whole).
  set (icmp := drop (Z.to_nat n) whole) in *. set (hdr := take (Z.to_nat n) whole) in *.
  assert (whole = hdr ++ icmp) as Ew by (symmetry; apply take_drop).
  assert (8 <= length icmp)%nat as Hicmp.
  { apply (f_equal length) in Ew. rewrite length_app in Ew. lia. }
  split_and!; [done|lia|done|done|done|done|].
  destruct icmp as [|b0 [|b1 [|b2 [|b3 [|b4 [|b5 icmp]]]]]]; try (cbn in Hicmp; lia).
  assert (forall k, 0 <= k -> load whole (4 * Z.land v 15 + k)
          = load (b0 :: b1 :: b2 :: b3 :: b4 :: b5 :: icmp) k) as Hl.
  { intros k Hk. rewrite Ew. apply load_app; [unfold n in Eh; lia|done]. }
  unfold filtered, bpf_prog. cbn [bpf]. change (load whole 0) with (Some v). cbn [bpf].
  rewrite (Hl 4) by lia. replace (4 * Z.land v 15 + 4 + 1) with (4 * Z.land v 15 + 5) by lia.
  rewrite (Hl 5) by lia.
  change (load (b0 :: b1 :: b2 :: b3 :: b4 :: b5 :: icmp) 4) with (Some b4).
  change (load (b0 :: b1 :: b2 :: b3 :: b4 :: b5 :: icmp) 5) with (Some b5). cbn match.
  match goal with H : net16At 4 _ = m_ident s |- _ =>
    change (256 * b4 + b5 = m_ident s) in H; rewrite H end.
  rewrite Z.eqb_refl. cbn [drop bpf]. rewrite (Hl 0) by lia.
  match goal with H : byteAt 0 _ = _ |- _ => change (b0 = ICMP_ECHOREPLY) in H; rewrite H end.
  done.
Qed.

(** *** DNS *)

Lemma length_net16 (z : Z) : length (net16 z) = 2%nat.
Proof. done. Qed.

(** The answer of a name server to the query is taken, with its number; queries,
    answers of another kind and short datagrams are passed over, and an invalid
    datagram stops the loop. *)
Theorem dns_answered (dest : QHostAddress) (sequence flags : Z) (rest : list Z)
    (before : list (list Z)) (after : list (option (list Z))) :
  0 <= sequence < 65536 -> 0 <= flags < 65536 -> (8 <= length rest)%nat ->
  Z.testbit flags 15 = true -> Z.land flags DNS_FLAG_OPCODE = DNS_FLAG_OPCODE_QUERY ->
  Forall (fun d => dnsReply d = None) before ->
  dest <> NullHost ->
  exists query, dnsSendPing dest true sequence = Some query
    /\ take 2 query = net16 sequence /\ dnsReply query = None
    /\ dnsReadData (map Some before ++ Some (take 2 query ++ net16 flags ++ rest) :: None :: after)
       = ([sequence], after).
Proof.
  intros Hs Hf Hr Hq Ho Hb Hd. exists (dnsQuery sequence). split_and!; [by destruct dest|done|done|].
  assert (u16 sequence = sequence) as Es by (unfold u16; apply Z.mod_small; lia).
  assert (u16 flags = flags) as Ef by (unfold u16; apply Z.mod_small; lia).
  induction Hb as [|d before E _ IH]; cbn [map app dnsReadData].
  - assert (dnsReply (take 2 (dnsQuery sequence) ++ net16 flags ++ rest) = Some sequence) as ->;
      [|done].
    unfold dnsReply. rewrite !length_app, length_net16.
    change (length (take 2 (dnsQuery sequence))) with 2%nat.
    destruct (Z.ltb_spec (Z.of_nat (2 + (2 + length rest))) DNS_HDRLEN);
      [unfold DNS_HDRLEN in *; lia|].
    change (net16At 2 (take 2 (dnsQuery sequence) ++ net16 flags ++ rest))
      with (256 * (u16 flags / 256) + u16 flags mod 256).
    change (net16At 0 (take 2 (dnsQuery sequence) ++ net16 flags ++ rest))
      with (256 * (u16 sequence / 256) + u16 sequence mod 256).
    rewrite !net16_value, Es, Ef, Ho. cbn [Z.eqb negb DNS_FLAG_OPCODE_QUERY].
    destruct (Z.eqb_spec (Z.land flags DNS_FLAG_QR) 0) as [E|]; [|done].
    apply (f_equal (fun z => Z.testbit z 15)) in E. rewrite Z.land_spec, Hq in E. done.
  - by rewrite IH, E.
Qed.

(** ** Examples *)

Definition unprivileged : System := mkSystem true false false true 4242.

Lemma inetChecksum_rfc1071_witness :
  inetChecksum [8; 0; 0; 0; 18; 52; 0; 1; 7] = 65535 - sum1 [8; 0; 0; 0; 18; 52; 0; 1; 7].
Proof.
  apply inetChecksum_rfc1071; [|cbn; lia].
  unfold bytes, isByte. rewrite !Forall_cons, Forall_nil. lia.
Defined.

Definition sampleHeader : list Z := [69; 0; 0; 28; 0; 0; 64; 0; 64; 1; 0; 0; 10; 64; 0; 1; 10; 64; 0; 2].


Lemma dns_answered_witness :
  exists query, dnsSendPing (HostV4 1) true 513 = Some query
    /\ dnsReadData [Some [0]; Some (take 2 query ++ net16 33152 ++ replicate 8 0); None]
       = ([513], []).
Proof.
  destruct (dns_answered (HostV4 1) 513 33152 (replicate 8 0) [[0]] [])
    as (query & E & _ & _ & R); try done; try lia; [by repeat constructor|].
  by exists query.
Defined.

End PingSender.
