(* ===== verification/Settings.v ===== *)
(** * Settings

    Model of [src/src/settings/]: the settings with their defaults, the groups of
    settings, and the manager that owns them over the storage of [QSettings]. What Qt
    does with a key is the interface [QSettings]; [changed] carries the value that a
    listener reads when it is called. Group keys hold no percent sign. *)
From Stdlib Require Import ZArith Lia Ascii String.
From stdpp Require Import base numbers list gmap strings.
From S2P Require Import Prelude QHostAddress QString QStringExtra.

Local Open Scope Z_scope.
Local Open Scope wg_scope.

Module Settings.

(** ** Values *)

Inductive SettingType : Type :=
| TBool | TByteArray | TDateTime | TInt | TInt64 | TString | TStringList.

(** Instants in milliseconds; [None] is the invalid one. *)
Definition QDateTime : Type := option Z.

Definition typeOf (t : SettingType) : Type :=
  match t with
  | TBool => bool
  | TByteArray | TString => chars
  | TDateTime => QDateTime
  | TInt | TInt64 => Z
  | TStringList => list chars
  end.

(** Numbers as C++ stores them, and a double of the file gives back. *)
Definition fitsType (t : SettingType) : typeOf t -> Prop :=
  match t with
  | TInt => fun x => - 2 ^ 31 <= x < 2 ^ 31
  | TInt64 => fun x => - 2 ^ 53 <= x <= 2 ^ 53
  | _ => fun _ => True
  end.

(** [QVariant], with its conversions to and from the types of the settings.
    [isList] is [typeId] being that of a list of variants or of strings. *)
Class QtVariant : Type := {
  Variant : Type;
  nullVariant : Variant;
  isNull : Variant -> bool;
  isList : Variant -> bool;
  sameVariant : Variant -> Variant -> bool;
  ofValue (t : SettingType) : typeOf t -> Variant;
  toValue (t : SettingType) : Variant -> typeOf t;
}.

(** A variant equal to that of a value converts to it. *)
Class QtVariantLaws `{QtVariant} : Prop := {
  isNull_null : isNull nullVariant = true;
  isNull_ofValue t x : isNull (ofValue t x) = false;
  toValue_ofValue t x : fitsType t x -> toValue t (ofValue t x) = x;
  sameVariant_toValue t x v :
    fitsType t x -> sameVariant v (ofValue t x) = true -> toValue t v = x;
}.

(** ** Keys *)

Definition slash : ascii := "/"%char.

(** No part of the key between slashes is empty. *)
Definition normalKey (k : chars) : Prop := Forall (fun p => p <> []) (split slash k).

#[export] Instance normalKey_dec (k : chars) : Decision (normalKey k).
Proof. unfold normalKey. apply _. Defined.

Definition subKey (g k : chars) : chars := g ++ slash :: k.

(** The key is [p], or below it. *)
Definition covers (p k : chars) : bool :=
  bool_decide (p = k) || startsWithText (p ++ [slash]) k.

(** ** The storage

    [remove g k] is [QSettings::remove] of [k] within the group [g]. *)
Class QSettings `{QtVariant} : Type := {
  Store : Type;
  value : chars -> Store -> Variant;
  contains : chars -> Store -> bool;
  setValue : chars -> Variant -> Store -> Store;
  remove : chars -> chars -> Store -> Store;
  clear : Store -> Store;
  allKeys : chars -> Store -> list chars;
}.

(** What [remove g k] removes, with its children. *)
Definition path (g k : chars) : chars :=
  if bool_decide (k = []) then g else if bool_decide (g = []) then k else subKey g k.

Class QSettingsLaws `{QSettings} : Prop := {
  contains_setValue k v s k' : normalKey k -> normalKey k' ->
    contains k' (setValue k v s) = bool_decide (k = k') || contains k' s;
  value_setValue k v s k' : normalKey k -> normalKey k' ->
    value k' (setValue k v s) = if bool_decide (k = k') then v else value k' s;
  contains_remove g k s k' : normalKey (path g k) -> normalKey k' ->
    contains k' (remove g k s) = negb (covers (path g k) k') && contains k' s;
  value_remove g k s k' : normalKey (path g k) -> normalKey k' ->
    covers (path g k) k' = false -> value k' (remove g k s) = value k' s;
  value_absent k s : normalKey k -> contains k s = false -> value k s = nullVariant;
  contains_clear k s : normalKey k -> contains k (clear s) = false;
  allKeys_spec g s k : normalKey g ->
    k ∈ allKeys g s <-> normalKey k /\ contains (subKey g k) s = true;
}.

Section Settings.
Context `{QSettings}.

(** What the default values are computed from: constants, features, the
    environment of the process. *)
Variable Environment : Type.

(** ** A setting *)

Record Setting : Type := mkSetting {
  m_key : chars;
  m_defaultValueGetter : Environment -> Variant;
  m_removeWhenReset : bool;
  m_sensitiveSetting : bool;
}.

Record SettingGroup : Type := mkGroup {
  m_groupKey : chars;
  group_removeWhenReset : bool;
  group_sensitiveSetting : bool;
  m_acceptedKeys : list chars;
}.

(** [Changed] carries the value read by those who are told. *)
Inductive Signal : Type :=
| Changed (key : chars) (v : Variant)
| GroupChanged (group : nat).

(** [connections] are those of [SettingGroup::addSetting]. *)
Record SettingsManager : Type := mkManager {
  m_registeredSettings : list Setting;
  m_settings : Store;
  groups : list SettingGroup;
  connections : list (chars * nat);
  signals : list Signal;
}.

#[local] Instance SettingsManager_eta : Eta SettingsManager := fun m =>
  mkManager (m_registeredSettings m) (m_settings m) (groups m) (connections m) (signals m).

Implicit Types (w : Environment) (s : Setting) (m : SettingsManager) (st : Store).

Definition get w s st : Variant :=
  let v := value (m_key s) st in
  if isNull v then m_defaultValueGetter s w else v.

Definition isSet s st : bool := contains (m_key s) st.

Definition emitChanged w s m : SettingsManager :=
  m <| signals := signals m ++ Changed (m_key s) (get w s (m_settings m))
         :: flat_map (fun c : chars * nat =>
              if bool_decide (c.1 = m_key s) then [GroupChanged (c.2)] else [])
              (connections m) |>.

Definition withStore (f : Store -> Store) m : SettingsManager :=
  m <| m_settings := f (m_settings m) |>.

Definition set w s (v : Variant) m : SettingsManager :=
  if negb (isSet s (m_settings m)) || negb (sameVariant (get w s (m_settings m)) v)
  then emitChanged w s (withStore (setValue (m_key s) v) m) else m.

Definition removeSetting w s m : SettingsManager :=
  if negb (isSet s (m_settings m)) then m
  else emitChanged w s (withStore (remove [] (m_key s)) m).

Definition resetSetting w s m : SettingsManager :=
  if negb (m_removeWhenReset s) then m else removeSetting w s m.

Definition log w s st : chars :=
  if negb (isSet s st) then []
  else if m_sensitiveSetting s then m_key s ++ qs " -> <Sensitive>"
  else
    let v := get w s st in
    m_key s ++ qs " -> " ++
    (if isList v then qs "[" ++ join (qs ",") (toValue TStringList v) ++ qs "]"
     else toValue TString v).

(** ** The manager *)

Definition getSetting (k : chars) m : option Setting :=
  find (fun s => bool_decide (m_key s = k)) (m_registeredSettings m).

(** The order of the characters' codes, that of a [QMap]. *)
Fixpoint keyLt (a b : chars) : bool :=
  match a, b with
  | _, [] => false
  | [], _ :: _ => true
  | x :: a, y :: b =>
      if bool_decide (x = y) then keyLt a b else (nat_of_ascii x <? nat_of_ascii y)%nat
  end.

(** [QMap::insert] of a key that is not there. *)
Fixpoint insertSetting s (l : list Setting) : list Setting :=
  match l with
  | [] => [s]
  | x :: r => if keyLt (m_key s) (m_key x) then s :: l else x :: insertSetting s r
  end.

Definition registerSetting s m : SettingsManager :=
  match getSetting (m_key s) m with
  | Some _ => m
  | None => m <| m_registeredSettings := insertSetting s (m_registeredSettings m) |>
  end.

Definition createOrGetSetting (k : chars) (defaultValueGetter : Environment -> Variant)
    (removeWhenReset sensitiveSetting : bool) m : Setting * SettingsManager :=
  match getSetting k m with
  | Some s => (s, m)
  | None =>
      let s := mkSetting k defaultValueGetter removeWhenReset sensitiveSetting in
      (s, registerSetting s m)
  end.

Definition reset w m : SettingsManager :=
  foldl (fun m s => resetSetting w s m) m (m_registeredSettings m).

Definition hardReset w m : SettingsManager :=
  let m := withStore clear m in
  foldl (fun m s => emitChanged w s m) m (m_registeredSettings m).

Definition logLine w st s : chars :=
  let l := log w s st in if bool_decide (l = []) then [] else l ++ [newline].

Definition logSerialize w m : chars :=
  concat (map (logLine w (m_settings m)) (m_registeredSettings m)).

(** ** Groups

    [i] is the index of the group in [groups]. *)
Definition addSetting (i : nat) (g : SettingGroup) (k : chars) m : SettingsManager :=
  let '(s, m) := createOrGetSetting (subKey (m_groupKey g) k) (fun _ => nullVariant)
                   (group_removeWhenReset g) (group_sensitiveSetting g) m in
  m <| connections := connections m ++ [(m_key s, i)] |>.

Definition createSettingGroup (g : SettingGroup) m : SettingsManager :=
  let i := length (groups m) in
  let m := m <| groups := groups m ++ [g] |> in
  foldl (fun m k => addSetting i g k m) m (allKeys (m_groupKey g) (m_settings m)).

Definition isAcceptedKey (g : SettingGroup) (k : chars) : bool :=
  bool_decide (m_acceptedKeys g = []) || bool_decide (k ∈ m_acceptedKeys g).

Definition groupGet w (g : SettingGroup) (k : chars) m : Variant :=
  match getSetting (subKey (m_groupKey g) k) m with
  | None => nullVariant
  | Some s => get w s (m_settings m)
  end.

(** Without a setting, [setting->set] would be a call on a null pointer. *)
Definition groupSet w (i : nat) (g : SettingGroup) (k : chars) (v : Variant) m
  : Outcome SettingsManager :=
  if negb (isAcceptedKey g k) then Ret m
  else
    let fullKey := subKey (m_groupKey g) k in
    let m := match getSetting fullKey m with
             | Some _ => m
             | None => addSetting i g k m
             end in
    match getSetting fullKey m with
    | Some s => Ret (set w s v m)
    | None => Undefined
    end.

Fixpoint emitKeys w (g : SettingGroup) (l : list chars) m : Outcome SettingsManager :=
  match l with
  | [] => Ret m
  | k :: r =>
      match getSetting (subKey (m_groupKey g) k) m with
      | Some s => emitKeys w g r (emitChanged w s m)
      | None => Undefined
      end
  end.

Definition groupRemove w (g : SettingGroup) m : Outcome SettingsManager :=
  let keys := allKeys (m_groupKey g) (m_settings m) in
  emitKeys w g keys (withStore (remove (m_groupKey g) []) m).

(** ** Events *)

Inductive Event : Type :=
| CreateSetting (k : chars) (d : Environment -> Variant) (removeWhenReset sensitive : bool)
| SetValue (k : chars) (v : Variant)
| RemoveValue (k : chars)
| ResetAll
| HardResetAll
| CreateGroup (g : SettingGroup)
| GroupSet (i : nat) (k : chars) (v : Variant)
| GroupRemove (i : nat).

(** A setting is used through its pointer, a group through its own. *)
Definition handle w (e : Event) m : Outcome SettingsManager :=
  match e with
  | CreateSetting k d r b => Ret (createOrGetSetting k d r b m).2
  | SetValue k v => Ret (match getSetting k m with Some s => set w s v m | None => m end)
  | RemoveValue k => Ret (match getSetting k m with Some s => removeSetting w s m | None => m end)
  | ResetAll => Ret (reset w m)
  | HardResetAll => Ret (hardReset w m)
  | CreateGroup g => Ret (createSettingGroup g m)
  | GroupSet i k v =>
      match groups m !! i with Some g => groupSet w i g k v m | None => Ret m end
  | GroupRemove i =>
      match groups m !! i with Some g => groupRemove w g m | None => Ret m end
  end.

(** Keys are not malformed. *)
Definition validEvent (e : Event) : Prop :=
  match e with
  | CreateSetting k _ _ _ | GroupSet _ k _ => normalKey k
  | CreateGroup g => normalKey (m_groupKey g)
  | _ => True
  end.

Fixpoint run w (l : list Event) m : Outcome SettingsManager :=
  match l with
  | [] => Ret m
  | e :: r => m <~ handle w e m ;; run w r m
  end.

(** ** Keys *)

Lemma covers_refl (k : chars) : covers k k = true.
Proof. unfold covers. by rewrite bool_decide_true. Qed.

Lemma startsWithText_spec (p k : chars) :
  startsWithText p k = true <-> exists r, k = p ++ r.
Proof.
  unfold startsWithText. rewrite bool_decide_eq_true. split.
  - intros E. exists (drop (length p) k). by rewrite <- E at 1; rewrite take_drop.
  - intros [r ->]. by rewrite take_app_length.
Qed.

Lemma covers_spec (p k : chars) :
  covers p k = true <-> k = p \/ exists r, k = subKey p r.
Proof.
  unfold covers, subKey. rewrite orb_true_iff, bool_decide_eq_true, startsWithText_spec.
  split.
  - intros [->|[r ->]]; [by left|right]. exists r. by rewrite <- app_assoc.
  - intros [->|[r ->]]; [by left|right]. exists r. by rewrite <- app_assoc.
Qed.

Lemma covers_trans (a b c : chars) : covers a b = true -> covers b c = true -> covers a c = true.
Proof.
  rewrite !covers_spec. intros [->|[r ->]] [->|[r' ->]]; [by left|right; by exists r'|right; by exists r|].
  right. exists (r ++ slash :: r'). unfold subKey. by rewrite <- app_assoc.
Qed.

Lemma split_sub (a b : chars) : split slash (a ++ slash :: b) = split slash a ++ split slash b.
Proof.
  induction a as [|x a IH]; simpl.
  - destruct (split slash b) eqn:E; [by apply split_nonempty in E|done].
  - rewrite IH. destruct (split slash a) as [|h t] eqn:E; [by apply split_nonempty in E|].
    simpl. by case_bool_decide.
Qed.

Lemma normal_sub (g k : chars) : normalKey (subKey g k) <-> normalKey g /\ normalKey k.
Proof. unfold normalKey, subKey. by rewrite split_sub, Forall_app. Qed.

Lemma normal_nonempty (k : chars) : normalKey k -> k <> [].
Proof. intros Hk ->. inversion Hk. done. Qed.

Lemma path_key (k : chars) : normalKey k -> path [] k = k.
Proof. intros Hk%normal_nonempty. unfold path. by rewrite bool_decide_false. Qed.

Lemma path_group (g : chars) : path g [] = g.
Proof. done. Qed.

(** ** The registry *)

Lemma insertSetting_perm s (l : list Setting) : insertSetting s l ≡ₚ s :: l.
Proof.
  induction l as [|x l IH]; simpl; [done|]. case_match; [done|].
  rewrite IH. by constructor.
Qed.

Lemma getSetting_Some (k : chars) m s :
  getSetting k m = Some s -> s ∈ m_registeredSettings m /\ m_key s = k.
Proof.
  unfold getSetting. intros [Hin E]%find_some. apply bool_decide_eq_true in E.
  by apply list_elem_of_In in Hin.
Qed.

Lemma getSetting_None (k : chars) m :
  getSetting k m = None -> k ∉ map m_key (m_registeredSettings m).
Proof.
  unfold getSetting. intros E (s & -> & Hs)%list_elem_of_fmap.
  apply list_elem_of_In in Hs. apply (find_none _ _ E) in Hs.
  by rewrite bool_decide_true in Hs.
Qed.

Definition distinct (l : list Setting) : Prop := NoDup (map m_key l).

Lemma distinct_inj (l : list Setting) s s' :
  distinct l -> s ∈ l -> s' ∈ l -> m_key s = m_key s' -> s = s'.
Proof.
  unfold distinct. induction l as [|x l IH]; intros Hd; [set_solver|].
  inversion Hd as [|? ? Hx Hl]; subst.
  intros [->|Hs]%elem_of_cons [->|Hs']%elem_of_cons E; [done| | |by apply IH].
  - destruct Hx. rewrite E. by apply list_elem_of_fmap_2.
  - destruct Hx. rewrite <- E. by apply list_elem_of_fmap_2.
Qed.

Lemma getSetting_registered m s :
  distinct (m_registeredSettings m) -> s ∈ m_registeredSettings m ->
  getSetting (m_key s) m = Some s.
Proof.
  intros Hd Hs. destruct (getSetting (m_key s) m) as [s'|] eqn:E.
  - apply getSetting_Some in E as [Hs' E]. f_equal. by eapply distinct_inj.
  - apply getSetting_None in E. destruct E. by apply list_elem_of_fmap_2.
Qed.

(** ** What listeners know *)

Definition seen (k : chars) (l : list Signal) : list Variant :=
  flat_map (fun x => match x with
                     | Changed k' v => if bool_decide (k' = k) then [v] else []
                     | GroupChanged _ => []
                     end) l.

(** Between [m] and [m'], one who listens to [s] was told of every change. *)
Definition told w s m m' : Prop :=
  exists l, signals m' = signals m ++ l
    /\ get w s (m_settings m') = default (get w s (m_settings m)) (last (seen (m_key s) l)).

Lemma seen_app (k : chars) (l l' : list Signal) : seen k (l ++ l') = seen k l ++ seen k l'.
Proof. unfold seen. by rewrite flat_map_app. Qed.

Lemma told_refl w s m : told w s m m.
Proof. exists []. by rewrite app_nil_r. Qed.

Lemma told_trans w s m1 m2 m3 : told w s m1 m2 -> told w s m2 m3 -> told w s m1 m3.
Proof.
  intros (l1 & E1 & V1) (l2 & E2 & V2). exists (l1 ++ l2).
  rewrite E2, E1, <- app_assoc. split; [done|]. rewrite V2, seen_app, last_app.
  destruct (last (seen (m_key s) l2)); [done|]. by rewrite V1.
Qed.

Lemma get_value w s st st' :
  value (m_key s) st' = value (m_key s) st -> get w s st' = get w s st.
Proof. unfold get. by intros ->. Qed.

(** The signals of one emission. *)
Lemma seen_emission (k k' : chars) (v : Variant) (c : list (chars * nat)) :
  seen k (Changed k' v :: flat_map (fun c : chars * nat =>
            if bool_decide (c.1 = k') then [GroupChanged (c.2)] else []) c)
  = if bool_decide (k' = k) then [v] else [].
Proof.
  change (seen k (Changed k' v :: ?l)) with ((if bool_decide (k' = k) then [v] else []) ++ seen k l).
  assert (seen k (flat_map (fun c : chars * nat =>
    if bool_decide (c.1 = k') then [GroupChanged (c.2)] else []) c) = []) as ->.
  { induction c as [|x c IH]; [done|]. cbn [flat_map]. rewrite seen_app, IH. by case_bool_decide. }
  by rewrite app_nil_r.
Qed.

Lemma told_change w s s' (f : Store -> Store) m :
  (m_key s = m_key s' -> s = s') ->
  (m_key s <> m_key s' -> value (m_key s') (f (m_settings m)) = value (m_key s') (m_settings m)) ->
  told w s' m (emitChanged w s (withStore f m)).
Proof.
  intros He Hv. eexists. split; [done|]. rewrite seen_emission.
  change (m_settings (emitChanged w s (withStore f m))) with (f (m_settings m)).
  change (m_settings (withStore f m)) with (f (m_settings m)).
  case_bool_decide as E; cbn [last default].
  - by rewrite <- (He E).
  - apply get_value, Hv, E.
Qed.

(** Emissions for a list of settings, whatever happened to the store before. *)
Definition emitAll w (l : list Setting) m : SettingsManager := foldl (fun m s => emitChanged w s m) m l.

Lemma emitAll_store w (l : list Setting) m :
  m_settings (emitAll w l m) = m_settings m
  /\ m_registeredSettings (emitAll w l m) = m_registeredSettings m
  /\ groups (emitAll w l m) = groups m.
Proof.
  revert m. induction l as [|s l IH]; intros m; [done|].
  exact (IH (emitChanged w s m)).
Qed.

Lemma emitAll_seen w (l : list Setting) m s :
  (forall x, x ∈ l -> m_key x = m_key s -> x = s) ->
  exists e, signals (emitAll w l m) = signals m ++ e
    /\ last (seen (m_key s) e)
       = if decide (m_key s ∈ map m_key l) then Some (get w s (m_settings m)) else None.
Proof.
  revert m. induction l as [|x l IH]; intros m Hu.
  - exists []. rewrite app_nil_r. split; [done|]. by rewrite decide_False by set_solver.
  - destruct (IH (emitChanged w x m)) as (e & E & V); [intros y Hy; apply Hu; set_solver|].
    change (emitAll w (x :: l) m) with (emitAll w l (emitChanged w x m)).
    eexists. split; [rewrite E; symmetry; apply app_assoc|].
    rewrite seen_app, last_app, V, seen_emission.
    change (m_settings (emitChanged w x m)) with (m_settings m). cbn [map].
    destruct (decide (m_key s ∈ map m_key l)) as [Hl|Hl]; [by rewrite decide_True by set_solver|].
    case_bool_decide as Ek.
    + rewrite decide_True by (rewrite Ek; left).
      by pose proof (Hu x ltac:(set_solver) Ek) as ->.
    + rewrite decide_False; [done|]. intros [?|?]%elem_of_cons; congruence.
Qed.

Lemma told_emitAll w (l : list Setting) (f : Store -> Store) m s :
  (forall x, x ∈ l -> m_key x = m_key s -> x = s) ->
  (m_key s ∉ map m_key l ->
   value (m_key s) (f (m_settings m)) = value (m_key s) (m_settings m)) ->
  told w s m (emitAll w l (withStore f m)).
Proof.
  intros Hu Hv. destruct (emitAll_seen w l (withStore f m) s Hu) as (e & E & V).
  exists e. split; [done|]. rewrite V. rewrite (proj1 (emitAll_store w l (withStore f m))).
  change (m_settings (withStore f m)) with (f (m_settings m)).
  destruct (decide _) as [|Hs]; [done|]. by apply get_value, Hv.
Qed.

(** ** The invariant *)

Record wf m : Prop := mkWf {
  wf_distinct : distinct (m_registeredSettings m);
  wf_keys s : s ∈ m_registeredSettings m -> normalKey (m_key s);
  wf_groups g : g ∈ groups m -> normalKey (m_groupKey g);
  wf_stored g k : g ∈ groups m -> normalKey k ->
    contains (subKey (m_groupKey g) k) (m_settings m) = true ->
    is_Some (getSetting (subKey (m_groupKey g) k) m);
}.

(** No other setting is a folder that holds [s], and no group has its key. *)
Definition isolated s m : Prop :=
  (forall s', s' ∈ m_registeredSettings m -> covers (m_key s') (m_key s) = true ->
     m_key s' = m_key s)
  /\ forall g, g ∈ groups m -> m_key s <> m_groupKey g.

Definition grows m m' : Prop :=
  m_registeredSettings m ⊆ m_registeredSettings m' /\ groups m ⊆ groups m'.

Lemma isolated_grows s m m' : grows m m' -> isolated s m' -> isolated s m.
Proof. intros [H1' H2'] [I1 I2]. split; intros; [apply I1|apply I2]; auto. Qed.

(** What an operation has to do, for the invariant. *)
Definition good w m m' : Prop :=
  wf m' /\ grows m m'
  /\ (forall s, s ∈ m_registeredSettings m -> isolated s m' -> told w s m m').

Lemma good_refl w m : wf m -> good w m m.
Proof. intros Hm. split_and!; [done|split; done|]. intros s _ _. apply told_refl. Qed.

Lemma good_trans w m1 m2 m3 : good w m1 m2 -> good w m2 m3 -> good w m1 m3.
Proof.
  intros (_ & [G1 G2] & T) (W & [G3 G4] & T'). split_and!; [done|split; set_solver|].
  intros s Hs I. eapply told_trans; [apply T; [done|by eapply isolated_grows]|apply T'; auto].
Qed.

Section Operations.
Context `{!QSettingsLaws}.

Lemma getSetting_same (k : chars) m m' :
  m_registeredSettings m' = m_registeredSettings m -> getSetting k m' = getSetting k m.
Proof. unfold getSetting. by intros ->. Qed.

(** An operation that stores nothing but registered settings. *)
Lemma wf_store m m' :
  m_registeredSettings m' = m_registeredSettings m -> groups m' = groups m ->
  (forall k, normalKey k -> contains k (m_settings m') = true ->
     contains k (m_settings m) = true \/ is_Some (getSetting k m)) ->
  wf m -> wf m'.
Proof.
  intros Er Eg Hc [W1 W2 W3 W4]. split; rewrite ?Er, ?Eg; [done..|].
  intros g k Hg Hk Hin. rewrite (getSetting_same _ m m' Er).
  destruct (Hc (subKey (m_groupKey g) k)) as [Hc'|]; [|done| |done].
  - apply normal_sub. auto.
  - by apply W4.
Qed.

Lemma grows_same m m' :
  m_registeredSettings m' = m_registeredSettings m -> groups m' = groups m -> grows m m'.
Proof. intros Er Eg. split; by rewrite ?Er, ?Eg. Qed.

Lemma good_change w s (f : Store -> Store) m :
  wf m -> s ∈ m_registeredSettings m ->
  (forall k, normalKey k -> contains k (f (m_settings m)) = true ->
     contains k (m_settings m) = true \/ k = m_key s) ->
  (forall s', s' ∈ m_registeredSettings m -> isolated s' m -> m_key s <> m_key s' ->
     value (m_key s') (f (m_settings m)) = value (m_key s') (m_settings m)) ->
  good w m (emitChanged w s (withStore f m)).
Proof.
  intros Hm Hs Hc Hv. split_and!.
  - apply (wf_store m); [done|done| |done]. intros k Hk Hin.
    destruct (Hc k Hk Hin) as [?| ->]; [by left|right].
    by rewrite (getSetting_registered m s (wf_distinct m Hm) Hs).
  - by apply grows_same.
  - intros s' Hs' Hi. apply told_change.
    + intros E. by apply (distinct_inj _ _ _ (wf_distinct m Hm)).
    + by apply Hv.
Qed.

Lemma set_good w s (v : Variant) m :
  wf m -> s ∈ m_registeredSettings m -> good w m (set w s v m).
Proof.
  intros Hm Hs. unfold set. case_match; [|by apply good_refl].
  pose proof (wf_keys m Hm s Hs) as Hk.
  apply good_change; [done..| |].
  - intros k Hn. rewrite contains_setValue by done. case_bool_decide; [by right|by left].
  - intros s' Hs' _ Hne. rewrite value_setValue by (done || by apply (wf_keys m)).
    by rewrite bool_decide_false.
Qed.

Lemma removeSetting_good w s m :
  wf m -> s ∈ m_registeredSettings m -> good w m (removeSetting w s m).
Proof.
  intros Hm Hs. unfold removeSetting. case_match; [by apply good_refl|].
  pose proof (wf_keys m Hm s Hs) as Hk. pose proof (path_key _ Hk) as Ep.
  apply good_change; [done..| |].
  - intros k Hn. rewrite contains_remove by (rewrite ?Ep; done).
    intros [_ ?]%andb_true_iff. by left.
  - intros s' Hs' Hi Hne. apply value_remove; rewrite ?Ep; [done|by apply (wf_keys m)|].
    apply not_true_is_false. intros Hc. destruct Hne. by apply (proj1 Hi).
Qed.

Lemma reset_good w m : wf m -> good w m (reset w m).
Proof.
  intros Hm. unfold reset.
  assert (forall l m, wf m -> l ⊆ m_registeredSettings m ->
    good w m (foldl (fun m s => resetSetting w s m) m l)) as Hl; [|by apply Hl].
  clear m Hm. induction l as [|s l IH]; intros m Hm Hl; [by apply good_refl|].
  assert (good w m (resetSetting w s m)) as Hg.
  { unfold resetSetting. case_match; [by apply good_refl|].
    apply removeSetting_good; [done|]. apply Hl. left. }
  cbn [foldl]. eapply good_trans; [done|]. destruct Hg as (Hm' & [G _] & _).
  apply IH; [done|]. intros x Hx. apply G, Hl. by right.
Qed.

Lemma hardReset_good w m : wf m -> good w m (hardReset w m).
Proof.
  intros Hm.
  change (hardReset w m) with (emitAll w (m_registeredSettings m) (withStore clear m)).
  destruct (emitAll_store w (m_registeredSettings m) (withStore clear m)) as (E1 & E2 & E3).
  split_and!.
  - apply (wf_store m); [done|done| |done]. intros k Hk. rewrite E1.
    change (m_settings (withStore clear m)) with (clear (m_settings m)).
    by rewrite contains_clear.
  - by apply grows_same.
  - intros s Hs _. apply told_emitAll.
    + intros x Hx E. by apply (distinct_inj _ _ _ (wf_distinct m Hm)).
    + intros Hn. destruct Hn. by apply list_elem_of_fmap_2.
Qed.

(** *** Registration *)

(** Settings were registered, and nothing else. *)
Definition registers m m' : Prop :=
  m_settings m' = m_settings m /\ signals m' = signals m
  /\ groups m' = groups m
  /\ m_registeredSettings m ⊆ m_registeredSettings m'
  /\ (distinct (m_registeredSettings m) -> distinct (m_registeredSettings m'))
  /\ ((forall s, s ∈ m_registeredSettings m -> normalKey (m_key s)) ->
      forall s, s ∈ m_registeredSettings m' -> normalKey (m_key s)).

Lemma registers_refl m : registers m m.
Proof. by split_and!. Qed.

Lemma registers_trans m1 m2 m3 : registers m1 m2 -> registers m2 m3 -> registers m1 m3.
Proof.
  intros (A1 & A2 & A3 & A4 & A5 & A6) (B1 & B2 & B3 & B4 & B5 & B6).
  split_and!; [congruence..|set_solver|auto|auto].
Qed.

Lemma getSetting_grows (k : chars) m m' :
  m_registeredSettings m ⊆ m_registeredSettings m' ->
  is_Some (getSetting k m) -> is_Some (getSetting k m').
Proof.
  intros Hs [s E]. destruct (getSetting k m') eqn:E'; [done|].
  apply getSetting_Some in E as [Hin <-]. apply getSetting_None in E'.
  destruct E'. apply list_elem_of_fmap_2. auto.
Qed.

Lemma createOrGetSetting_registers (k : chars) (d : Environment -> Variant) (r b : bool) m :
  normalKey k ->
  let '(s, m') := createOrGetSetting k d r b m in
  registers m m' /\ s ∈ m_registeredSettings m' /\ m_key s = k.
Proof.
  intros Hk. unfold createOrGetSetting. destruct (getSetting k m) as [s|] eqn:E.
  - apply getSetting_Some in E as [Hs E]. split; [apply registers_refl|done].
  - unfold registerSetting. cbn [m_key]. rewrite E. set (s := mkSetting k d r b).
    set (m' := m <| m_registeredSettings := _ |>).
    assert (m_registeredSettings m' = insertSetting s (m_registeredSettings m)) as Er by done.
    unfold registers. rewrite Er. split_and!; [done|done|done|..].
    + intros x Hx. rewrite insertSetting_perm. by right.
    + unfold distinct. intros Hd. rewrite insertSetting_perm. cbn [map].
      constructor; [by apply getSetting_None|done].
    + intros Hn x. rewrite insertSetting_perm. intros [->|Hx]%elem_of_cons; [done|auto].
    + rewrite insertSetting_perm. left.
    + done.
Qed.

Lemma addSetting_registers (i : nat) (g : SettingGroup) (k : chars) m :
  normalKey (subKey (m_groupKey g) k) ->
  registers m (addSetting i g k m)
  /\ is_Some (getSetting (subKey (m_groupKey g) k) (addSetting i g k m)).
Proof.
  intros Hk. unfold addSetting.
  pose proof (createOrGetSetting_registers _ (fun _ => nullVariant) (group_removeWhenReset g)
                (group_sensitiveSetting g) m Hk) as Hc.
  destruct (createOrGetSetting _ _ _ _ m) as [s m1]. destruct Hc as (Hr & Hs & E).
  split; [exact Hr|].
  change (is_Some (getSetting (subKey (m_groupKey g) k) m1)).
  destruct (getSetting _ m1) eqn:E'; [done|]. apply getSetting_None in E'.
  destruct E'. rewrite <- E. by apply list_elem_of_fmap_2.
Qed.

Lemma told_same w s m m' :
  signals m' = signals m -> m_settings m' = m_settings m -> told w s m m'.
Proof. intros E1 E2. exists []. by rewrite E1, E2, app_nil_r. Qed.

Lemma registers_good w m m' : wf m -> registers m m' -> good w m m'.
Proof.
  intros [W1 W2 W3 W4] (R1 & R2 & R3 & R4 & R5 & R6). split_and!.
  - split; [auto|auto|by rewrite R3|]. intros g k. rewrite R1, R3. intros Hg Hk Hc.
    eapply getSetting_grows; [done|]. by apply W4.
  - by split; [|rewrite R3].
  - intros s _ _. by apply told_same.
Qed.

Lemma addSettings_registers (i : nat) (g : SettingGroup) (l : list chars) m :
  (forall k, k ∈ l -> normalKey (subKey (m_groupKey g) k)) ->
  registers m (foldl (fun m k => addSetting i g k m) m l)
  /\ forall k, k ∈ l ->
     is_Some (getSetting (subKey (m_groupKey g) k) (foldl (fun m k => addSetting i g k m) m l)).
Proof.
  revert m. induction l as [|k l IH]; intros m Hl; cbn [foldl].
  - split; [apply registers_refl|set_solver].
  - destruct (addSetting_registers i g k m) as [R1 S1]; [apply Hl; left|].
    destruct (IH (addSetting i g k m)) as [R2 S2]; [intros; apply Hl; by right|].
    split; [by eapply registers_trans|]. intros k' [->|Hk]%elem_of_cons; [|by apply S2].
    eapply getSetting_grows; [apply R2|done].
Qed.

Lemma createSettingGroup_good w (g : SettingGroup) m :
  normalKey (m_groupKey g) -> wf m -> good w m (createSettingGroup g m).
Proof.
  intros Hg Hm. unfold createSettingGroup. cbv zeta.
  set (m1 := m <| groups := _ |>). set (l := allKeys _ _).
  destruct (addSettings_registers (length (groups m)) g l m1) as [R S].
  { intros k [Hk _]%allKeys_spec; [|done]. by apply normal_sub. }
  destruct R as (R1 & R2 & R3 & R4 & R5 & R6). destruct Hm as [W1 W2 W3 W4].
  change (groups m1) with (groups m ++ [g]) in R3. change (m_settings m1) with (m_settings m) in R1.
  change (signals m1) with (signals m) in R2.
  change (m_registeredSettings m1) with (m_registeredSettings m) in *. split_and!.
  - split; [auto|auto|rewrite R3|rewrite R3, R1].
    + intros g' [?| ->%list_elem_of_singleton]%elem_of_app; auto.
    + intros g' k [Hg'| ->%list_elem_of_singleton]%elem_of_app Hk Hc.
      * eapply getSetting_grows; [exact R4|]. by apply (W4 g').
      * apply S. unfold l. by apply allKeys_spec.
  - split; [done|]. rewrite R3. set_solver.
  - intros s _ _. by apply told_same.
Qed.

Lemma groupSet_good w (i : nat) (g : SettingGroup) (k : chars) (v : Variant) m :
  g ∈ groups m -> normalKey k -> wf m ->
  exists m', groupSet w i g k v m = Ret m' /\ good w m m'.
Proof.
  intros Hg Hk Hm. unfold groupSet. destruct (isAcceptedKey g k); cbn [negb].
  2: { exists m. split; [done|by apply good_refl]. }
  set (m1 := match getSetting _ m with Some _ => m | None => addSetting i g k m end).
  assert (normalKey (subKey (m_groupKey g) k)) as Hn.
  { apply normal_sub. split; [by apply (wf_groups m)|done]. }
  assert (good w m m1 /\ is_Some (getSetting (subKey (m_groupKey g) k) m1)) as [Hm1 [s E]].
  { unfold m1. destruct (getSetting _ m) eqn:E.
    - split; [by apply good_refl|by rewrite E].
    - destruct (addSetting_registers i g k m Hn). split; [by apply registers_good|done]. }
  rewrite E. exists (set w s v m1). split; [done|]. eapply good_trans; [done|].
  apply set_good; [apply Hm1|]. by apply getSetting_Some in E as [? _].
Qed.

Lemma emitKeys_all w (g : SettingGroup) (keys : list chars) m :
  (forall k, k ∈ keys -> is_Some (getSetting (subKey (m_groupKey g) k) m)) ->
  exists l, emitKeys w g keys m = Ret (emitAll w l m)
    /\ map m_key l = map (subKey (m_groupKey g)) keys /\ l ⊆ m_registeredSettings m.
Proof.
  revert m. induction keys as [|k keys IH]; intros m Hk; cbn [emitKeys].
  - exists []. split; [done|]. split; [done|set_solver].
  - destruct (Hk k ltac:(left)) as [s E]. rewrite E.
    destruct (IH (emitChanged w s m)) as (l & El & Em & Es); [intros; apply Hk; by right|].
    apply getSetting_Some in E as [Hs E]. exists (s :: l). rewrite El. split_and!; [done| |].
    + cbn [map]. by rewrite Em, E.
    + intros x [->|Hx]%elem_of_cons; [done|]. by apply Es.
Qed.

Lemma groupRemove_good w (g : SettingGroup) m :
  g ∈ groups m -> wf m -> exists m', groupRemove w g m = Ret m' /\ good w m m'.
Proof.
  intros Hg Hm. pose proof (wf_groups m Hm g Hg) as Hn. unfold groupRemove.
  set (keys := allKeys (m_groupKey g) (m_settings m)).
  set (f := remove (m_groupKey g) []).
  destruct (emitKeys_all w g keys (withStore f m)) as (l & E & Em & Es).
  { intros k [Hk Hc]%allKeys_spec; [|done].
    change (is_Some (getSetting (subKey (m_groupKey g) k) m)). by apply (wf_stored m). }
  exists (emitAll w l (withStore f m)). split; [done|].
  destruct (emitAll_store w l (withStore f m)) as (E1 & E2 & E3).
  change (m_settings (withStore f m)) with (f (m_settings m)) in E1.
  change (m_registeredSettings (withStore f m)) with (m_registeredSettings m) in *.
  split_and!.
  - apply (wf_store m); [done|done| |done]. intros k Hk. rewrite E1. unfold f.
    rewrite contains_remove by done. intros [_ ?]%andb_true_iff. by left.
  - by apply grows_same.
  - intros s Hs [_ Hi]. rewrite E3 in Hi. apply told_emitAll.
    + intros x Hx Ek. apply (distinct_inj _ _ _ (wf_distinct m Hm)); [by apply Es|done|done].
    + rewrite Em. intros Hk. pose proof (wf_keys m Hm s Hs) as Hks.
      destruct (covers (m_groupKey g) (m_key s)) eqn:Hc; [|by apply value_remove].
      apply covers_spec in Hc as [Ek|[r Ek]]; [by destruct (Hi g Hg)|].
      assert (contains (m_key s) (m_settings m) = false) as Ha.
      { apply not_true_is_false. intros Hin. destruct Hk. rewrite Ek in Hin, Hks |- *.
        apply list_elem_of_fmap_2, allKeys_spec; [done|]. by apply normal_sub in Hks as [_ ?]. }
      rewrite (value_absent _ _ Hks Ha). apply value_absent; [done|]. unfold f.
      rewrite contains_remove by done. by rewrite Ha, andb_false_r.
Qed.

Lemma handle_good w (e : Event) m :
  validEvent e -> wf m -> exists m', handle w e m = Ret m' /\ good w m m'.
Proof.
  intros He Hm. destruct e as [k d r b|k v|k| | |g|i k v|i]; cbn [handle validEvent] in *.
  - eexists. split; [done|]. pose proof (createOrGetSetting_registers k d r b m He) as Hc.
    destruct (createOrGetSetting k d r b m) as [s m']. apply registers_good; [done|apply Hc].
  - eexists. split; [done|]. destruct (getSetting k m) eqn:E; [|by apply good_refl].
    apply getSetting_Some in E as [? _]. by apply set_good.
  - eexists. split; [done|]. destruct (getSetting k m) eqn:E; [|by apply good_refl].
    apply getSetting_Some in E as [? _]. by apply removeSetting_good.
  - eexists. split; [done|]. by apply reset_good.
  - eexists. split; [done|]. by apply hardReset_good.
  - eexists. split; [done|]. by apply createSettingGroup_good.
  - destruct (groups m !! i) as [g|] eqn:E; [|eexists; split; [done|by apply good_refl]].
    apply groupSet_good; [|done|done]. by eapply list_elem_of_lookup_2.
  - destruct (groups m !! i) as [g|] eqn:E; [|eexists; split; [done|by apply good_refl]].
    apply groupRemove_good; [|done]. by eapply list_elem_of_lookup_2.
Qed.

(** ** Properties *)

(** Whatever is done with settings and groups, no null pointer is called, and who
    listens to a setting is told of every change of its value, defaults included: the
    last value it was shown is the current one. This holds for a setting that is not
    in the folder of another one and whose key is not that of a group. *)
Lemma run_good w (l : list Event) m :
  wf m -> Forall validEvent l -> exists m', run w l m = Ret m' /\ good w m m'.
Proof.
  intros Hm Hl. revert m Hm. induction Hl as [|e l He _ IH]; intros m Hm; cbn [run].
  - exists m. split; [done|by apply good_refl].
  - destruct (handle_good w e m He Hm) as (m1 & E & G1). rewrite E. cbn [outcome_bind].
    destruct (IH m1) as (m2 & E2 & G2); [apply G1|]. exists m2.
    split; [done|by eapply good_trans].
Qed.

(** Events that change values only, of settings that are registered. *)
Definition valueEvent (e : Event) : Prop :=
  match e with SetValue _ _ | RemoveValue _ | ResetAll | HardResetAll => True | _ => False end.

Definition sameRegistry m m' : Prop :=
  m_registeredSettings m' = m_registeredSettings m /\ groups m' = groups m.

#[local] Instance sameRegistry_preorder : PreOrder sameRegistry.
Proof. split; [by intros m|]. unfold sameRegistry. intros a b c. intuition congruence. Qed.

Lemma removeSetting_registry w s m : sameRegistry m (removeSetting w s m).
Proof. unfold removeSetting. by destruct (negb _). Qed.

Lemma reset_registry w m : sameRegistry m (reset w m).
Proof.
  unfold reset. generalize (m_registeredSettings m). intros l. revert m.
  induction l as [|s l IH]; intros m; cbn [foldl]; [done|].
  transitivity (resetSetting w s m); [|apply IH].
  unfold resetSetting. destruct (negb _); [done|apply removeSetting_registry].
Qed.

Lemma run_registry w (l : list Event) m m' :
  Forall valueEvent l -> run w l m = Ret m' -> sameRegistry m m'.
Proof.
  intros Hl. revert m. induction Hl as [|e l He _ IH]; intros m E; cbn [run] in E;
    [by injection E as <-|].
  destruct (handle w e m) as [m1| |] eqn:E1; [|done..]. cbn [outcome_bind] in E.
  transitivity m1; [|by apply IH]. clear E IH.
  destruct e; cbn [handle valueEvent] in *; try done; injection E1 as <-.
  - destruct (getSetting k m); [|done]. unfold set. by destruct (_ || _).
  - destruct (getSetting k m); [apply removeSetting_registry|done].
  - apply reset_registry.
  - destruct (emitAll_store w (m_registeredSettings m) (withStore clear m)) as (_ & E2 & E3).
    by split.
Qed.

(** A reset removes what a setting with the flag stores, and what is below its key,
    and changes nothing else. *)
Definition forgotten (R : list Setting) (st : Store) (k : chars) : bool :=
  existsb (fun s => m_removeWhenReset s && contains (m_key s) st && covers (m_key s) k) R.

Lemma forgotten_removed (R : list Setting) s0 (k : chars) st :
  normalKey (m_key s0) -> (forall s, s ∈ R -> normalKey (m_key s)) ->
  covers (m_key s0) k = false ->
  forgotten R (remove [] (m_key s0) st) k = forgotten R st k.
Proof.
  intros H0' HR Hc. unfold forgotten. induction R as [|s R IH]; [done|]. cbn [existsb].
  rewrite IH by (intros; apply HR; by right). f_equal.
  destruct (covers (m_key s) k) eqn:Hs; [|by rewrite !andb_false_r].
  rewrite contains_remove by (rewrite ?(path_key _ H0'); first [done | apply HR; left]).
  rewrite (path_key _ H0').
  destruct (covers (m_key s0) (m_key s)) eqn:H0s; [|done].
  by rewrite (covers_trans _ _ _ H0s Hs) in Hc.
Qed.

Lemma resetAll_store w (R : list Setting) m (k : chars) :
  (forall s, s ∈ R -> normalKey (m_key s)) -> normalKey k ->
  let st := m_settings m in
  let st' := m_settings (foldl (fun m s => resetSetting w s m) m R) in
  contains k st' = contains k st && negb (forgotten R st k)
  /\ (contains k st' = true -> value k st' = value k st).
Proof.
  intros HR Hk. cbv zeta. revert m. induction R as [|s R IH]; intros m; cbn [foldl forgotten existsb].
  { by rewrite andb_true_r. }
  pose proof (HR s ltac:(left)) as Hs. specialize (IH (fun x Hx => HR x ltac:(by right))).
  fold (forgotten R (m_settings m) k).
  destruct (m_removeWhenReset s && contains (m_key s) (m_settings m)) eqn:E; cbn [andb].
  - apply andb_true_iff in E as [E1 E2].
    assert (resetSetting w s m = emitChanged w s (withStore (remove [] (m_key s)) m)) as ->.
    { unfold resetSetting, removeSetting, isSet. by rewrite E1, E2. }
    destruct (IH (emitChanged w s (withStore (remove [] (m_key s)) m))) as [I1 I2].
    change (m_settings (emitChanged w s (withStore (remove [] (m_key s)) m)))
      with (remove [] (m_key s) (m_settings m)) in I1, I2.
    rewrite contains_remove in I1 by (rewrite ?(path_key _ Hs); done).
    rewrite (path_key _ Hs) in I1.
    destruct (covers (m_key s) k) eqn:Hc; cbn [orb negb andb] in *.
    + by rewrite I1, andb_false_r.
    + rewrite forgotten_removed in I1
        by (first [done | intros; apply HR; by right]).
      split; [done|]. intros Hin. rewrite (I2 Hin).
      apply value_remove; rewrite ?(path_key _ Hs); done.
  - assert (resetSetting w s m = m) as ->; [|apply IH].
    unfold resetSetting, removeSetting, isSet. apply andb_false_iff in E as [->| ->]; [done|].
    by destruct (m_removeWhenReset s).
Qed.

Lemma reset_store w m (k : chars) :
  wf m -> normalKey k ->
  let st := m_settings m in
  let st' := m_settings (reset w m) in
  contains k st' = contains k st && negb (forgotten (m_registeredSettings m) st k)
  /\ (contains k st' = true -> value k st' = value k st).
Proof. intros Hm. apply resetAll_store. apply (wf_keys m Hm). Qed.

(** ** Logs *)

(** The logs depend only on which settings are stored, and on the values of those that
    are not sensitive. *)
Lemma logs_redacted w (R : list Setting) st st' :
  (forall s, s ∈ R -> isSet s st' = isSet s st) ->
  (forall s, s ∈ R -> m_sensitiveSetting s = false -> value (m_key s) st' = value (m_key s) st) ->
  map (logLine w st') R = map (logLine w st) R.
Proof.
  intros Hs Hv. apply map_ext_in. intros s Hin%list_elem_of_In. unfold logLine, log.
  rewrite (Hs s Hin). destruct (isSet s st); [|done]. cbn [negb].
  destruct (m_sensitiveSetting s) eqn:E; [done|]. by rewrite (get_value w s st st') by auto.
Qed.

End Operations.
End Settings.

Arguments mkSetting {_ _} _ _ _ _.
Arguments mkManager {_ _ _} _ _ _ _ _.
Arguments m_key {_ _} _.
Arguments m_sensitiveSetting {_ _} _.
Arguments m_removeWhenReset {_ _} _.
Arguments m_settings {_ _ _} _.
Arguments m_registeredSettings {_ _ _} _.
Arguments signals {_ _ _} _.
Arguments get {_ _ _} _ _ _.
Arguments set {_ _ _} _ _ _ _.
Arguments removeSetting {_ _ _} _ _ _.
Arguments isSet {_ _ _} _ _.
Arguments reset {_ _ _} _ _.
Arguments hardReset {_ _ _} _ _.
Arguments createOrGetSetting {_ _ _} _ _ _ _ _.
Arguments getSetting {_ _ _} _ _.
Arguments logSerialize {_ _ _} _ _.
Arguments handle {_ _ _} _ _ _.
Arguments run {_ _ _} _ _ _.
Arguments wf {_ _ _} _.
Arguments isolated {_ _ _} _ _.
Arguments valueEvent {_ _} _.
Arguments sameRegistry {_ _ _} _ _.
Arguments told {_ _ _} _ _ _ _.

(** ** A model of the storage *)

Inductive ModelVariant : Type :=
| MNull
| MBool (b : bool)
| MText (t : SettingType) (s : chars)
| MNumber (t : SettingType) (z : Z)
| MList (l : list chars)
| MTime (d : QDateTime).

#[export] Instance SettingType_eq_dec : EqDecision SettingType.
Proof. solve_decision. Defined.

#[export] Instance ModelVariant_eq_dec : EqDecision ModelVariant.
Proof. solve_decision. Defined.

Definition modelOf (t : SettingType) : typeOf t -> ModelVariant :=
  match t with
  | TBool => MBool
  | TByteArray => MText TByteArray
  | TString => MText TString
  | TDateTime => MTime
  | TInt => MNumber TInt
  | TInt64 => MNumber TInt64
  | TStringList => MList
  end.

Definition modelTo (t : SettingType) (v : ModelVariant) : typeOf t :=
  match t with
  | TBool => match v with MBool b => b | _ => false end
  | TByteArray => match v with MText TByteArray s => s | _ => [] end
  | TString => match v with MText TString s => s | MBool b => qs (if b then "true" else "false")
               | MNumber _ z => showZ z | _ => [] end
  | TDateTime => match v with MTime d => d | _ => None end
  | TInt => match v with MNumber TInt z => z | _ => 0 end
  | TInt64 => match v with MNumber TInt64 z => z | _ => 0 end
  | TStringList => match v with MList l => l | _ => [] end
  end.

#[export] Instance modelVariants : QtVariant := {|
  Variant := ModelVariant;
  nullVariant := MNull;
  isNull v := bool_decide (v = MNull);
  isList v := match v with MList _ => true | _ => false end;
  sameVariant v v' := bool_decide (v = v');
  ofValue := modelOf;
  toValue := modelTo;
|}.

#[export] Instance modelVariantsLaws : QtVariantLaws.
Proof.
  split.
  - done.
  - by intros [] x.
  - by intros [] x.
  - intros t x v _. cbn. intros ->%bool_decide_eq_true. by destruct t.
Qed.

(** The storage as a map. *)
Definition modelRemove (p : chars) (s : gmap chars ModelVariant) : gmap chars ModelVariant :=
  filter (fun e => covers p (e.1) = false) s.

Definition below (g k : chars) : list chars :=
  if startsWithText (g ++ [slash]) k then
    let r := drop (S (length g)) k in if bool_decide (normalKey r) then [r] else []
  else [].

#[export] Instance modelSettings : QSettings := {|
  Store := gmap chars ModelVariant;
  value k s := default MNull (s !! k);
  contains k s := bool_decide (is_Some (s !! k));
  setValue k v s := <[k := v]> s;
  remove g k s := modelRemove (path g k) s;
  clear _ := ∅;
  allKeys g s := flat_map (fun e : chars * ModelVariant => below g (e.1)) (map_to_list s);
|}.

Lemma below_spec (g k r : chars) : r ∈ below g k <-> normalKey r /\ k = subKey g r.
Proof.
  unfold below. destruct (startsWithText (g ++ [slash]) k) eqn:E.
  - apply startsWithText_spec in E as [t ->]. rewrite <- app_assoc.
    change ([slash] ++ t) with (slash :: t). cbv zeta.
    replace (drop (S (length g)) (g ++ slash :: t)) with t
      by (rewrite drop_app_ge, Nat.sub_succ_l, Nat.sub_diag by lia; done).
    unfold subKey. case_bool_decide as Ht.
    + rewrite list_elem_of_singleton. split; [by intros ->|].
      by intros [_ [=]%app_inv_head].
    + split; [set_solver|]. by intros [Hr [= ->]%app_inv_head].
  - split; [set_solver|]. intros [_ ->].
    assert (startsWithText (g ++ [slash]) (subKey g r) = true) as E'; [|congruence].
    apply startsWithText_spec. exists r. unfold subKey. by rewrite <- app_assoc.
Qed.

#[export] Instance modelSettingsLaws : QSettingsLaws.
Proof.
  split; cbn.
  - intros k v s k' _ _. destruct (decide (k = k')) as [->|].
    + rewrite lookup_insert_eq, (bool_decide_true (k' = k')) by done. by apply bool_decide_true.
    + rewrite lookup_insert_ne by done. by rewrite (bool_decide_false (k = k')).
  - intros k v s k' _ _. case_bool_decide as E; [subst; by rewrite lookup_insert_eq|].
    by rewrite lookup_insert_ne.
  - intros g k s k' _ _. unfold modelRemove.
    destruct (covers (path g k) k') eqn:E; cbn [negb andb].
    + apply bool_decide_false. intros [x [_ Hx]%map_lookup_filter_Some]. cbn in Hx. congruence.
    + apply bool_decide_ext. unfold is_Some. setoid_rewrite map_lookup_filter_Some. naive_solver.
  - intros g k s k' _ _ E. unfold modelRemove. rewrite map_lookup_filter.
    destruct (s !! k') as [v|]; [|done]. cbn. by rewrite option_guard_True.
  - intros k s _ E%bool_decide_eq_false. by destruct (s !! k); [destruct E|].
  - done.
  - intros g s k _. rewrite list_elem_of_In, in_flat_map.
    split.
    + intros ([k' v] & Hin & Hb). apply list_elem_of_In, below_spec in Hb as [Hk Eq].
      cbn in Eq. subst k'. split; [done|]. apply bool_decide_true. exists v. by apply elem_of_map_to_list, list_elem_of_In.
    + intros [Hk [v Hv]%bool_decide_eq_true]. exists (subKey g k, v).
      rewrite <- !list_elem_of_In. split; [by apply elem_of_map_to_list|]. by apply below_spec.
Qed.

End Settings.
