(* ===== verification/SettingsList.v ===== *)
(** * The settings of the application

    Model of [src/src/settingslist.h] and of [src/src/settingsholder.cpp]: the table
    of the settings on every platform, their typed accessors, and what is recorded at
    a start. *)
From Stdlib Require Import ZArith Lia Ascii String.
From stdpp Require Import base numbers list gmap strings.
From S2P Require Import Prelude QHostAddress QString QStringExtra Settings.

Local Open Scope Z_scope.
Local Open Scope wg_scope.

Module SettingsHolder.
Import Settings.Settings.

(** ** The platform and the environment *)

Record Platform : Type := mkPlatform {
  windows : bool;
  macos : bool;
  linux_ : bool;
  android : bool;
  ios : bool;
  wasm : bool;
  flatpak : bool;
}.

Definition captivePortal (p : Platform) : bool := linux_ p || macos p || windows p || wasm p.

Definition unsecuredNetworkNotification (p : Platform) : bool :=
  windows p || macos p || linux_ p || wasm p.

Record Environment : Type := mkEnvironment {
  inProduction : bool;
  env_addonUrl : option chars;
  env_apiBaseUrl : option chars;
}.

(** [v] is the variable of the environment. *)
Definition envOrDefault (v : option chars) (defaultValue : chars) : chars :=
  let env := default [] v in if bool_decide (env = []) then defaultValue else env.

Definition addonBaseUrl (w : Environment) : chars :=
  if inProduction w then qs "https://wgdesktop.invalid/addons/"
  else envOrDefault (env_addonUrl w) (qs "https://wgdesktop.invalid/addons/").

Definition API_STAGING_URL : chars := qs "https://wgdesktop.invalid".

Definition Gateway : Z := 0.

(** ** The table *)

Record StaticSetting : Type := mkStatic {
  type : SettingType;
  key : chars;
  defaultValue : Environment -> typeOf type;
  removeWhenReset : bool;
  isSensitive : bool;
}.

Definition entry (t : SettingType) (k : string) (d : Environment -> typeOf t) (r s : bool)
  : StaticSetting := mkStatic t (qs k) d r s.

Definition activeWireGuardProfileId : StaticSetting :=
  entry TString "wireGuard/activeProfileId" (fun _ => []) true false.

Definition featuresFlippedOff : StaticSetting :=
  entry TStringList "featuresFlippedOff" (fun _ => []) false false.

Definition featuresFlippedOn : StaticSetting :=
  entry TStringList "featuresFlippedOn" (fun _ => []) false false.

Definition installationTime : StaticSetting :=
  entry TDateTime "installationTime" (fun _ => None) false false.

Definition installedVersion : StaticSetting :=
  entry TString "installedVersion" (fun _ => []) false false.

Definition updateTime : StaticSetting :=
  entry TDateTime "updateTime" (fun _ => None) false false.

Definition wireGuardProfiles : StaticSetting :=
  entry TByteArray "wireGuard/profiles" (fun _ => []) true true.

Section Table.
Variable p : Platform.

Definition settingsA : list StaticSetting :=
  [activeWireGuardProfileId;
    entry TBool "addon/customServer" (fun _ => false) false false;
    entry TString "addon/customServerAddress" addonBaseUrl false false;
    entry TBool "addon/prodKeyInStaging" (fun _ => false) false true;
    entry TBool "captivePortalAlert" (fun _ => captivePortal p) false false;
    entry TStringList "captivePortal/ipv4Addresses" (fun _ => []) false false;
    entry TStringList "captivePortal/ipv6Addresses" (fun _ => []) false false;
    entry TBool "connectionChangeNotification" (fun _ => true) false false;
    entry TString "currentServer/city" (fun _ => []) true false;
    entry TString "currentServer/countryCode" (fun _ => []) true false;
    entry TBool "developerUnlock" (fun _ => false) false false;
    entry TString "deviceKeyVersion" (fun _ => []) true false;
    entry TByteArray "devices" (fun _ => []) true true;
    entry TInt "dnsProvider" (fun _ => Gateway) false false;
    entry TInt "dnsProviderFlags" (fun _ => Gateway) false false].

Definition settingsD : list StaticSetting :=
  [entry TString "entryServer/city" (fun _ => []) true false;
    entry TString "entryServer/countryCode" (fun _ => []) true false;
    entry TStringList "excluded/ipv4Addresses" (fun _ => []) false false;
    entry TStringList "excluded/ipv6Addresses" (fun _ => []) false false;
    featuresFlippedOff;
    featuresFlippedOn;
    entry TBool "gleanEnabled" (fun _ => false) false false;
    entry TStringList "iapProducts" (fun _ => []) true false;
    installationTime;
    installedVersion;
    entry TInt64 "keyRegenerationTimeSec" (fun _ => 0) true false;
    entry TString "languageCode" (fun _ => []) false false;
    entry TBool "localhostRequestOnly" (fun _ => false) true false;
    entry TStringList "MissingApps" (fun _ => []) false false].

Definition settingsO : list StaticSetting :=
  [entry TBool "onboardingCompleted" (fun _ => false) false false;
    entry TBool "hasDismissedBatteryOptimization" (fun _ => false) true false;
    entry TBool "onboardingDataCollectionEnabled" (fun _ => false) false false;
    entry TBool "onboardingStarted" (fun _ => false) false false;
    entry TInt "onboardingStep" (fun _ => 0) false false;
    entry TString "previousLanguageCode" (fun _ => []) false false;
    entry TString "privateKey" (fun _ => []) true true;
    entry TString "publicKey" (fun _ => []) true true;
    entry TByteArray "recentConnections2" (fun _ => []) true true;
    entry TStringList "recentConnections" (fun _ => []) true true;
    entry TByteArray "servers" (fun _ => []) true true;
    entry TByteArray "serverData" (fun _ => []) true true;
    entry TBool "serverSwitchNotification" (fun _ => true) false false;
    entry TBool "serverUnavailableNotification" (fun _ => true) false false;
    entry TBool "recommendedServerSelected" (fun _ => true) false false].

Definition settingsS : list StaticSetting :=
  [entry TString "stagingServerAddress"
      (fun w => envOrDefault (env_apiBaseUrl w) API_STAGING_URL) false false;
    entry TBool "stagingServer" (fun _ => wasm p) false false;
    entry TBool "startAtBoot" (fun _ => false) false false;
    entry TByteArray "subscriptionData" (fun _ => []) true true;
    updateTime;
    entry TString "user/email" (fun _ => []) true true;
    entry TString "theme" (fun _ => qs "main") true false;
    entry TBool "theme/usingSystemTheme" (fun _ => true) true false;
    entry TString "token" (fun _ => []) true true;
    entry TBool "unsecuredNetworkAlert" (fun _ => unsecuredNetworkNotification p) false false;
    entry TString "user/avatar" (fun _ => []) true true;
    entry TString "user/displayName" (fun _ => []) true true;
    entry TString "userDNS" (fun _ => []) false false;
    entry TInt "user/maxDevices" (fun _ => 0) true false].

Definition settingsU : list StaticSetting :=
  [entry TBool "user/subscriptionNeeded" (fun _ => false) true false;
    entry TStringList "vpnDisabledApps" (fun _ =>
        if android p then [qs "com.google.android.projection.gearhead";
                          qs "com.google.android.apps.tycho"] else []) false false;
    wireGuardProfiles;
    entry TString "sentry/dsn" (fun _ => []) true true;
    entry TString "sentry/endpoint" (fun _ => []) true true]
  ++ (if ios p then
   [entry TStringList "subscriptionTransactions" (fun _ => []) false true;
    entry TBool "localNetworkAccess" (fun _ => true) true false] else [])
  ++ (if flatpak p then
   [entry TString "tunnelUuid" (fun _ => []) false true] else [])
  ++ (if linux_ p then
   [entry TString "xdgSecretToken" (fun _ => []) false false] else [])
  ++ [entry TString "unauthedExperimenterId" (fun _ => []) true true;
    entry TDateTime "addonPromoLastShown" (fun _ => None) true false;
    entry TBool "useShortAddonPromoTime" (fun _ => false) true false;
    entry TBool "useLengthyAddonMessageHighlight" (fun _ => false) true false].

Definition settingslist : list StaticSetting :=
  settingsA ++ settingsD ++ settingsO ++ settingsS ++ settingsU.

End Table.

(** ** The holder *)

Section Holder.
Context `{QSettings}.

Implicit Types (w : Environment) (x : StaticSetting) (m : SettingsManager Environment).

Definition settingOf x : Setting Environment :=
  mkSetting (key x) (fun w => ofValue (type x) (defaultValue x w)) (removeWhenReset x)
    (isSensitive x).

(** The members that the macro generates for each setting. *)
Definition has x m : bool := isSet (settingOf x) (m_settings m).

Definition getter w x m : typeOf (type x) := toValue (type x) (get w (settingOf x) (m_settings m)).

Definition setter w x (v : typeOf (type x)) m : SettingsManager Environment :=
  set w (settingOf x) (ofValue (type x) v) m.

Definition remover w x m : SettingsManager Environment := removeSetting w (settingOf x) m.

(** The manager over the settings of the file. *)
Definition openSettings (st : Store) : SettingsManager Environment := mkManager [] st [] [] [].

Definition createSettings (l : list StaticSetting) m : SettingsManager Environment :=
  foldl (fun m x => (createOrGetSetting (key x) (m_defaultValueGetter _ (settingOf x))
                       (removeWhenReset x) (isSensitive x) m).2) m l.

(** The constructor: [m_firstExecution] and the settings. [now] and [now'] are the times
    read. *)
Definition construct (p : Platform) w (now now' : QDateTime) (version : chars) m
  : bool * SettingsManager Environment :=
  let m := createSettings (settingslist p) m in
  let '(first, m) :=
    if negb (has installationTime m) then (true, setter w installationTime now m) else (false, m) in
  if negb (has updateTime m) || negb (has installedVersion m)
     || negb (bool_decide (getter w installedVersion m = version))
  then (first, setter w installedVersion version (setter w updateTime now' m))
  else (first, m).

(** ** Facts of the table *)

Definition shape x : chars * (SettingType * (bool * bool)) :=
  (key x, (type x, (removeWhenReset x, isSensitive x))).

(** A platform with every entry. *)
Definition everything : Platform := mkPlatform false false true false true false true.

Lemma settings_sublist (p : Platform) :
  map shape (settingslist p) `sublist_of` map shape (settingslist everything).
Proof.
  destruct p as [win mac lin and io was fla].
  destruct lin, io, fla; cbn;
    repeat first [apply sublist_skip | apply sublist_cons | apply sublist_nil].
Qed.

Lemma sublist_map {A B : Type} (f : A -> B) (l l' : list A) :
  l `sublist_of` l' -> map f l `sublist_of` map f l'.
Proof. induction 1; cbn; by constructor. Qed.

Lemma keys_distinct (p : Platform) : NoDup (map key (settingslist p)).
Proof.
  apply (sublist_NoDup _ (map key (settingslist everything))); [by_decision|].
  pose proof (sublist_map fst _ _ (settings_sublist p)) as Hs.
  by rewrite !map_map in Hs.
Qed.

(** A fact of each entry's key, type and flags holds on every platform. *)
Lemma settings_shape (P : chars * (SettingType * (bool * bool)) -> Prop) (p : Platform) x :
  Forall P (map shape (settingslist everything)) -> x ∈ settingslist p -> P (shape x).
Proof.
  intros Hf Hx. rewrite Forall_forall in Hf. apply Hf.
  eapply elem_of_sublist; [|apply (settings_sublist p)]. by apply list_elem_of_fmap_2.
Qed.

Lemma keys_normal (p : Platform) x : x ∈ settingslist p -> normalKey (key x).
Proof. apply (settings_shape (fun s => normalKey s.1)). by_decision. Qed.

(** What is below a key that is reset is reset as well. *)
Definition resetTogether (a b : chars * (SettingType * (bool * bool))) : bool :=
  implb (a.2.2.1 && covers (a.1) (b.1)) (b.2.2.1).

Lemma shapes_resetTogether :
  forallb (fun a => forallb (resetTogether a) (map shape (settingslist everything)))
    (map shape (settingslist everything)) = true.
Proof. vm_compute. reflexivity. Qed.

Lemma keys_below (p : Platform) x y :
  x ∈ settingslist p -> y ∈ settingslist p ->
  covers (key x) (key y) = true -> removeWhenReset x = true -> removeWhenReset y = true.
Proof.
  intros Hx Hy Hc Hr.
  assert (resetTogether (shape x) (shape y) = true) as E.
  { apply (settings_shape (fun b => resetTogether (shape x) b = true) p); [|done].
    apply (settings_shape (fun a => Forall (fun b => resetTogether a b = true) _) p); [|done].
    apply Forall_forall. intros a Ha. apply Forall_forall. intros b Hb.
    pose proof shapes_resetTogether as Hall. rewrite forallb_forall in Hall.
    specialize (Hall a ltac:(by apply list_elem_of_In)). rewrite forallb_forall in Hall.
    apply Hall. by apply list_elem_of_In. }
  unfold resetTogether in E. cbn in E. by rewrite Hr, Hc in E.
Qed.

Lemma defaults_fit (p : Platform) w x :
  x ∈ settingslist p -> fitsType (type x) (defaultValue x w).
Proof.
  revert x. apply Forall_forall.
  unfold settingslist, settingsA, settingsD, settingsO, settingsS, settingsU.
  repeat first [apply Forall_nil_2 | apply Forall_cons_2 | apply Forall_app_2 | case_match];
    cbn; first [done | lia].
Qed.

(** ** The holder's settings *)

Section Laws.
Context `{!QtVariantLaws} `{!QSettingsLaws}.

(** The manager has the settings of the table; the keys of other ones are not folders
    of them. *)
Record serves (p : Platform) m : Prop := mkServes {
  serves_wf : wf m;
  serves_table x : x ∈ settingslist p -> settingOf x ∈ m_registeredSettings m;
  serves_other s : s ∈ m_registeredSettings m ->
    (exists x, x ∈ settingslist p /\ s = settingOf x)
    \/ (forall x, x ∈ settingslist p -> covers (m_key s) (key x) = false);
}.

Lemma getter_default w x m :
  has x m = false -> normalKey (key x) -> fitsType (type x) (defaultValue x w) ->
  getter w x m = defaultValue x w.
Proof.
  unfold has, isSet, getter, get. cbn [settingOf m_key m_defaultValueGetter]. intros Hh Hk Hf.
  rewrite (value_absent _ _ Hk Hh), isNull_null. by apply toValue_ofValue.
Qed.

Lemma forgotten_static (p : Platform) m x :
  serves p m -> x ∈ settingslist p -> has x m = true ->
  forgotten _ (m_registeredSettings m) (m_settings m) (key x) = removeWhenReset x.
Proof.
  intros Hs Hx Hh. unfold forgotten. destruct (removeWhenReset x) eqn:Er.
  - apply existsb_exists. exists (settingOf x).
    split; [by apply list_elem_of_In, (serves_table p m)|]. cbn [settingOf m_key m_removeWhenReset].
    unfold has, isSet in Hh. cbn [settingOf m_key] in Hh. by rewrite Er, Hh, covers_refl.
  - apply not_true_is_false. intros (s & Hin%list_elem_of_In & Hc)%existsb_exists.
    apply andb_true_iff in Hc as [[Hr _]%andb_true_iff Hc].
    destruct (serves_other p m Hs s Hin) as [(y & Hy & ->)|Ho]; [|by rewrite Ho in Hc].
    by rewrite (keys_below p y x Hy Hx Hc Hr) in Er.
Qed.

(** *** Accessors *)

Lemma getter_setter w x (v : typeOf (type x)) m :
  normalKey (key x) -> fitsType (type x) v ->
  getter w x (setter w x v m) = v /\ has x (setter w x v m) = true.
Proof.
  intros Hk Hf. unfold setter, set. destruct (negb _ || negb _) eqn:E.
  - unfold getter, has, isSet, get. cbn [settingOf m_key].
    change (m_settings (emitChanged _ w (settingOf x) (withStore _ ?f m))) with (f (m_settings m)).
    rewrite value_setValue, contains_setValue, !bool_decide_true by done.
    by rewrite isNull_ofValue, toValue_ofValue.
  - apply orb_false_iff in E as [E1%negb_false_iff E2%negb_false_iff].
    split; [|done]. unfold getter. by apply sameVariant_toValue.
Qed.

Lemma getter_setter_ne w x y (v : typeOf (type x)) m :
  normalKey (key x) -> normalKey (key y) -> key x <> key y ->
  getter w y (setter w x v m) = getter w y m /\ has y (setter w x v m) = has y m.
Proof.
  intros Hx Hy Hne. unfold setter, set. destruct (_ || _); [|done].
  unfold getter, has, isSet, get. cbn [settingOf m_key].
  change (m_settings (emitChanged _ w (settingOf x) (withStore _ ?f m))) with (f (m_settings m)).
  by rewrite value_setValue, contains_setValue, !bool_decide_false.
Qed.

Lemma setter_registered w x (v : typeOf (type x)) m :
  m_registeredSettings (setter w x v m) = m_registeredSettings m
  /\ groups _ (setter w x v m) = groups _ m.
Proof. unfold setter, set. by destruct (_ || _). Qed.

Lemma createSettings_spec (l : list StaticSetting) m :
  NoDup (map key l) ->
  (forall x, x ∈ l -> key x ∉ map m_key (m_registeredSettings m)) ->
  m_registeredSettings (createSettings l m) ≡ₚ map settingOf l ++ m_registeredSettings m
  /\ m_settings (createSettings l m) = m_settings m
  /\ groups _ (createSettings l m) = groups _ m.
Proof.
  revert m. induction l as [|x l IH]; intros m Hd Hn; [done|].
  cbn [map] in Hd. inversion Hd as [|? ? Hx Hl]; subst. cbn [createSettings foldl].
  set (m1 := (createOrGetSetting _ _ _ _ m).2).
  assert (m_registeredSettings m1 = insertSetting _ (settingOf x) (m_registeredSettings m)
          /\ m_settings m1 = m_settings m /\ groups _ m1 = groups _ m) as (E1 & E2 & E3).
  { unfold m1, createOrGetSetting. destruct (getSetting (key x) m) as [s|] eqn:E.
    - apply getSetting_Some in E as [Hin E]. destruct (Hn x ltac:(left)). rewrite <- E.
      by apply list_elem_of_fmap_2.
    - cbn [snd]. unfold registerSetting. cbn [m_key]. by rewrite E. }
  destruct (IH m1) as (I1 & I2 & I3); [done| |].
  - intros y Hy. rewrite E1, insertSetting_perm. cbn [map].
    intros [Ek|Hin]%elem_of_cons; [|by apply (Hn y); [right|]].
    destruct Hx. cbn [settingOf m_key] in Ek. rewrite <- Ek. by apply list_elem_of_fmap_2.
  - fold (createSettings l m1). rewrite I1, I2, I3, E1, E2, E3, insertSetting_perm. cbn [map app].
    split; [|done]. by rewrite Permutation_middle.
Qed.

Lemma keys_of_settings (l : list StaticSetting) : map m_key (map settingOf l) = map key l.
Proof. by rewrite map_map. Qed.

#[local] Opaque settingslist.

Lemma createSettings_serves (p : Platform) (st : Store) :
  serves p (createSettings (settingslist p) (openSettings st)).
Proof.
  destruct (createSettings_spec (settingslist p) (openSettings st)) as (E1 & E2 & E3);
    [apply keys_distinct|set_solver|].
  change (m_registeredSettings (openSettings st)) with (@nil (Setting Environment)) in E1.
  change (groups _ (openSettings st)) with (@nil SettingGroup) in E3.
  rewrite app_nil_r in E1.
  revert E1 E2 E3. generalize (createSettings (settingslist p) (openSettings st)). intros m E1 _ E3.
  assert (forall s, s ∈ m_registeredSettings m ->
    exists x, x ∈ settingslist p /\ s = settingOf x) as Hs.
  { intros s. rewrite E1. intros (x & -> & Hx)%list_elem_of_fmap. by exists x. }
  split.
  - split.
    + unfold distinct. rewrite E1, keys_of_settings. apply keys_distinct.
    + intros s (x & Hx & ->)%Hs. by apply (keys_normal p).
    + rewrite E3. set_solver.
    + rewrite E3. set_solver.
  - intros x Hx. rewrite E1. by apply list_elem_of_fmap_2.
  - intros s Hin. left. by apply Hs.
Qed.

Lemma serves_store (p : Platform) m m' :
  m_registeredSettings m' = m_registeredSettings m -> groups _ m = [] -> groups _ m' = [] ->
  serves p m -> serves p m'.
Proof.
  intros E Eg Eg' [[W1 W2 _ _] S2 S3]. split; [|by rewrite E..].
  split; rewrite ?E, ?Eg'; [done..| |]; set_solver.
Qed.

(** ** Properties *)

(** A reset gives every setting that belongs to the user its default again, the
    profiles and keys among them, and leaves every other setting of the application
    as it was. *)
Theorem reset_static (p : Platform) w m x :
  serves p m -> x ∈ settingslist p ->
  let m' := reset w m in
  if removeWhenReset x then has x m' = false /\ getter w x m' = defaultValue x w
  else has x m' = has x m /\ getter w x m' = getter w x m.
Proof.
  intros Hs Hx. cbv zeta. pose proof (keys_normal p x Hx) as Hk.
  destruct (reset_store _ w m (key x) (serves_wf p m Hs) Hk) as [Hc Hv].
  change (contains (key x) (m_settings (reset w m))) with (has x (reset w m)) in Hc, Hv.
  change (contains (key x) (m_settings m)) with (has x m) in Hc.
  assert (has x (reset w m) = has x m && negb (removeWhenReset x)) as E.
  { rewrite Hc. destruct (has x m) eqn:Hh; [|done]. by rewrite (forgotten_static p). }
  destruct (removeWhenReset x) eqn:Er.
  - rewrite andb_false_r in E. split; [done|].
    apply getter_default; [done|done|by apply (defaults_fit p)].
  - rewrite andb_true_r in E. split; [done|]. destruct (has x m) eqn:Hh.
    + unfold getter. f_equal. apply get_value. by apply Hv.
    + pose proof (defaults_fit p w x Hx). by rewrite !getter_default.
Qed.

(** *** Starts *)

Definition firstStart w (now : QDateTime) m : SettingsManager Environment :=
  if negb (has installationTime m) then setter w installationTime now m else m.

Definition versionStart w (now : QDateTime) (version : chars) m : SettingsManager Environment :=
  if negb (has updateTime m) || negb (has installedVersion m)
     || negb (bool_decide (getter w installedVersion m = version))
  then setter w installedVersion version (setter w updateTime now m) else m.

Lemma construct_split (p : Platform) w (now now' : QDateTime) (version : chars) m :
  construct p w now now' version m
  = (negb (has installationTime (createSettings (settingslist p) m)),
     versionStart w now' version (firstStart w now (createSettings (settingslist p) m))).
Proof.
  unfold construct, firstStart, versionStart. cbv zeta.
  destruct (has installationTime _) eqn:E; cbn [negb]; by destruct (_ || _).
Qed.

Lemma firstStart_has w (now : QDateTime) m : has installationTime (firstStart w now m) = true.
Proof.
  unfold firstStart. destruct (has installationTime m) eqn:E; [done|].
  apply getter_setter; [by_decision|done].
Qed.

Lemma versionStart_has w (now : QDateTime) (version : chars) m :
  let m' := versionStart w now version m in
  has updateTime m' = true /\ has installedVersion m' = true
  /\ getter w installedVersion m' = version
  /\ has installationTime m' = has installationTime m.
Proof.
  cbv zeta. unfold versionStart.
  assert (normalKey (key installedVersion)) as N1 by by_decision.
  assert (normalKey (key updateTime)) as N2 by by_decision.
  assert (normalKey (key installationTime)) as N3 by by_decision.
  destruct (_ || _) eqn:E.
  - set (m1 := setter w updateTime now m).
    destruct (getter_setter w updateTime now m N2 I) as [_ U].
    destruct (getter_setter w installedVersion version m1 N1 I) as [V1 V2].
    split_and!; [|done|done|].
    + by rewrite (proj2 (getter_setter_ne w installedVersion updateTime version m1 N1 N2
                           ltac:(by_decision))).
    + rewrite (proj2 (getter_setter_ne w installedVersion installationTime version m1 N1 N3
                           ltac:(by_decision))).
      apply getter_setter_ne; [done|done|by_decision].
  - apply orb_false_iff in E as [[E1%negb_false_iff E2%negb_false_iff]%orb_false_iff E3].
    by apply negb_false_iff, bool_decide_eq_true in E3.
Qed.

Lemma createSettings_settings (p : Platform) (st : Store) :
  m_settings (createSettings (settingslist p) (openSettings st)) = st.
Proof. apply createSettings_spec; [apply keys_distinct|set_solver]. Qed.

(** Starting again records nothing: only a change of version is recorded, and only the
    first start of all counts as one. *)
Lemma restart_quiet (p : Platform) w w' (now now' later later' : QDateTime) (version : chars)
    (st : Store) :
  let '(first, m) := construct p w now now' version (openSettings st) in
  let '(first', m') := construct p w' later later' version (openSettings (m_settings m)) in
  first = negb (contains (key installationTime) st)
  /\ has installationTime m = true /\ getter w installedVersion m = version
  /\ first' = false /\ m_settings m' = m_settings m.
Proof.
  rewrite !construct_split.
  pose proof (createSettings_settings p st) as Es. revert Es.
  generalize (createSettings (settingslist p) (openSettings st)). intros m0 Es.
  pose proof (firstStart_has w now m0) as F. revert F.
  generalize (firstStart w now m0). intros m1 F.
  destruct (versionStart_has w now' version m1) as (U & V & G & I'). revert U V G I'.
  generalize (versionStart w now' version m1). intros m U V G I'. rewrite F in I'.
  pose proof (createSettings_settings p (m_settings m)) as Es'. revert Es'.
  generalize (createSettings (settingslist p) (openSettings (m_settings m))). intros m2 Es'.
  assert (forall x, has x m2 = has x m) as Hh by (intros x; unfold has; by rewrite Es').
  assert (getter w' installedVersion m2 = version) as G'.
  { rewrite <- G. unfold getter. by rewrite Es'. }
  unfold firstStart, versionStart. rewrite Hh, I'. cbn [negb].
  rewrite !Hh, U, V, G', bool_decide_true by done. cbn [negb orb].
  unfold has at 1, isSet. cbn [settingOf m_key]. by rewrite Es.
Qed.

(** *** Listeners *)

(** The only setting of the table in the folder of another one, which is [theme]. *)
Definition nested : chars := qs "theme/usingSystemTheme".

Lemma shapes_apart :
  forallb (fun b : chars * (SettingType * (bool * bool)) => bool_decide (b.1 = nested)
      || forallb (fun a => implb (covers (a.1) (b.1)) (bool_decide (a.1 = b.1)))
           (map shape (settingslist everything)))
    (map shape (settingslist everything)) = true.
Proof. vm_compute. reflexivity. Qed.

Lemma keys_apart (p : Platform) x y :
  x ∈ settingslist p -> y ∈ settingslist p -> key x <> nested ->
  covers (key y) (key x) = true -> key y = key x.
Proof.
  intros Hx Hy Hn Hc.
  assert (forall z, z ∈ settingslist p -> shape z ∈ map shape (settingslist everything)) as Hin.
  { intros z Hz. apply (settings_shape (fun s => s ∈ map shape (settingslist everything)) p);
      [by apply Forall_forall|done]. }
  pose proof shapes_apart as Hall. rewrite forallb_forall in Hall.
  specialize (Hall (shape x) ltac:(by apply list_elem_of_In, Hin)). cbn [shape fst] in Hall.
  rewrite bool_decide_false in Hall by done. cbn [orb] in Hall. rewrite forallb_forall in Hall.
  specialize (Hall (shape y) ltac:(by apply list_elem_of_In, Hin)). cbn [shape fst] in Hall.
  rewrite Hc in Hall. by apply bool_decide_eq_true in Hall.
Qed.

(** The registry that the application starts with. *)
Lemma createSettings_table (p : Platform) (st : Store) :
  let m := createSettings (settingslist p) (openSettings st) in
  groups _ m = [] /\ forall s, s ∈ m_registeredSettings m ->
    exists x, x ∈ settingslist p /\ s = settingOf x.
Proof.
  destruct (createSettings_spec (settingslist p) (openSettings st)) as (E1 & E2 & E3);
    [apply keys_distinct|set_solver|].
  cbv zeta. split; [exact E3|]. intros s Hin. rewrite E1 in Hin.
  change (m_registeredSettings (openSettings st)) with (@nil (Setting Environment)) in Hin.
  rewrite app_nil_r in Hin. apply list_elem_of_fmap in Hin as (x & -> & Hx). by exists x.
Qed.

(** C27: Over the settings of the application. Whatever is done with settings and groups,
    nothing is called through a null pointer. Who listens to a setting of the table is
    told of every change of its value, defaults included, so that the last value it
    was shown is the current one: if values are set, removed and reset, this holds for
    every setting but [theme/usingSystemTheme], which is in the folder of another; if
    settings and groups are added as well, for each that is then in no other's folder
    and has no group's key. *)
Theorem listeners_current (p : Platform) w (st : Store) (l : list (Event Environment)) :
  Forall (validEvent _) l ->
  let m := createSettings (settingslist p) (openSettings st) in
  exists m', run w l m = Ret m' /\ wf m'
    /\ (forall x, x ∈ settingslist p -> isolated (settingOf x) m' -> told w (settingOf x) m m')
    /\ (Forall valueEvent l ->
        forall x, x ∈ settingslist p -> key x <> nested -> told w (settingOf x) m m').
Proof.
  intros Hl m. destruct (createSettings_serves p st) as [W T _]. fold m in W, T.
  destruct (run_good _ w l m W Hl) as (m' & E & Hw & _ & Ht). exists m'.
  assert (forall x, x ∈ settingslist p -> isolated (settingOf x) m' ->
            told w (settingOf x) m m') as Htold by (intros x Hx; by apply Ht, T).
  split_and!; [done..|]. intros Hv x Hx Hn. apply Htold; [done|].
  destruct (run_registry _ w l m m' Hv E) as [Er Eg].
  destruct (createSettings_table p st) as [Hg Hs]. fold m in Hg, Hs.
  split; rewrite ?Er, ?Eg, ?Hg; [|set_solver].
  intros s (y & Hy & ->)%Hs. by apply (keys_apart p).
Qed.

(** *** Logs *)

(** Keys of profiles, keys, credentials and account data, whose values the logs must not
    show. *)
Definition secretKeys : list chars :=
  map qs ["wireGuard/profiles"; "privateKey"; "publicKey"; "token"; "devices"; "servers";
          "serverData"; "recentConnections"; "recentConnections2"; "subscriptionData";
          "user/email"; "user/avatar"; "user/displayName"; "sentry/dsn"; "sentry/endpoint";
          "tunnelUuid"; "unauthedExperimenterId"]%string.

Lemma secret_sensitive (p : Platform) x :
  x ∈ settingslist p -> isSensitive x = false -> key x ∉ secretKeys.
Proof.
  intros Hx. assert (isSensitive x = true \/ key x ∉ secretKeys) as [E|?];
    [|by rewrite E|done].
  apply (settings_shape (fun s => s.2.2.2 = true \/ s.1 ∉ secretKeys) p); [|done].
  by_decision.
Qed.

Lemma createSettings_registry (l : list StaticSetting) m m' :
  m_registeredSettings m' = m_registeredSettings m ->
  m_registeredSettings (createSettings l m') = m_registeredSettings (createSettings l m).
Proof.
  revert m m'. induction l as [|x l IH]; intros m m' E; [done|].
  cbn [createSettings foldl]. apply IH. unfold createOrGetSetting.
  rewrite (getSetting_same _ _ m m' E). destruct (getSetting (key x) m) eqn:Eg; [done|].
  cbn [snd]. unfold registerSetting. rewrite (getSetting_same _ _ m m' E).
  cbn [m_key]. rewrite Eg. cbn. by rewrite E.
Qed.

(** C26: The log of the single settings does not show what the secret keys hold: it
    depends only on which settings are stored and on the values of the other keys.
    That a secret key is set, and the values of the keys that are not in the list,
    are logged. *)
Theorem logs_hide_secrets (p : Platform) w (st st' : Store) :
  (forall k, normalKey k -> contains k st' = contains k st) ->
  (forall k, normalKey k -> k ∉ secretKeys -> value k st' = value k st) ->
  logSerialize w (createSettings (settingslist p) (openSettings st'))
  = logSerialize w (createSettings (settingslist p) (openSettings st)).
Proof.
  intros Hc Hv. unfold logSerialize. rewrite !createSettings_settings.
  rewrite (createSettings_registry _ (openSettings st) (openSettings st')) by done.
  f_equal. destruct (createSettings_table p st) as [_ Hs].
  apply logs_redacted.
  - intros s (x & Hx & ->)%Hs. apply Hc. by apply (keys_normal p).
  - intros s (x & Hx & ->)%Hs E. apply Hv; [by apply (keys_normal p)|].
    by apply (secret_sensitive p).
Qed.

End Laws.
End Holder.

(** ** Examples *)

#[local] Existing Instance modelVariants.
#[local] Existing Instance modelSettings.

Definition flatpakLinux : Platform := mkPlatform false false true false false false true.

Definition production : Environment := mkEnvironment true None None.

Definition withProfiles (profiles : string) : Store :=
  ({[ qs "wireGuard/profiles" := MText TByteArray (qs profiles);
      qs "startAtBoot" := MBool true ]} : gmap chars ModelVariant).

Definition stored : Store := withProfiles "[..]".

Definition opened : SettingsManager Environment :=
  createSettings (settingslist flatpakLinux) (openSettings stored).

Lemma reset_static_witness :
  getter production wireGuardProfiles (reset production opened) = [].
Proof.
  assert (wireGuardProfiles ∈ settingslist flatpakLinux) as Hx.
  { unfold settingslist, settingsU. list_in. }
  exact (proj2 (reset_static flatpakLinux production opened wireGuardProfiles
                  (createSettings_serves flatpakLinux stored) Hx)).
Defined.

Lemma logs_hide_secrets_witness :
  logSerialize production (createSettings (settingslist flatpakLinux)
    (openSettings (withProfiles "[{}]")))
  = logSerialize production opened.
Proof.
  apply (logs_hide_secrets flatpakLinux production stored (withProfiles "[{}]")).
  - intros k _. cbn. apply bool_decide_ext. rewrite !lookup_insert_is_Some. naive_solver.
  - intros k _ Hk. cbn. rewrite !(lookup_insert_ne _ (qs "wireGuard/profiles")); [done|..];
      intros <-; apply Hk; left.
Defined.

Definition themed : Store :=
  ({[ qs "theme" := MText TString (qs "dark");
      qs "theme/usingSystemTheme" := MBool false ]} : gmap chars ModelVariant).

Definition nothingStored : Store := (∅ : gmap chars ModelVariant).

Definition theme : StaticSetting := entry TString "theme" (fun _ => qs "main") true false.

Definition usingSystemTheme : StaticSetting :=
  entry TBool "theme/usingSystemTheme" (fun _ => true) true false.

Definition themeOpened : SettingsManager Environment :=
  createSettings [theme; usingSystemTheme] (openSettings themed).

(** The theme is a folder: a reset removes [theme/usingSystemTheme] with it, and who
    listens to that setting is never told. *)
Lemma theme_stale :
  getter production usingSystemTheme themeOpened = false
  /\ getter production usingSystemTheme (reset production themeOpened) = true
  /\ length (seen (key usingSystemTheme) (signals (reset production themeOpened))) = 0%nat.
Proof. split_and!; vm_compute; reflexivity. Qed.

(** The groups that were told of a change, and the keys whose change was signalled. *)
Definition toldGroups (l : list Signal) : list nat :=
  flat_map (fun s => match s with GroupChanged i => [i] | _ => [] end) l.

Definition changedKeys (l : list Signal) : list chars :=
  flat_map (fun s => match s with Changed k _ => [k] | _ => [] end) l.

Definition messageRead : Outcome (SettingsManager Environment) :=
  run production [CreateGroup _ (mkGroup (qs "addons/message") true false []);
                  CreateGroup _ (mkGroup (qs "addons/message/m1") true false []);
                  GroupSet _ 1 (qs "status") (MText TString (qs "Read"))]
    (openSettings nothingStored).

(** A group is not told of a key that another group added before it: here the group of
    all messages, of a message read. *)
Lemma group_misses_key :
  match messageRead with
  | Ret m => changedKeys (signals m) = [qs "addons/message/m1/status"]
             /\ toldGroups (signals m) = [1%nat]
  | _ => False
  end.
Proof. vm_compute. split; reflexivity. Qed.

(** The theme is changed, and the settings are reset. *)
Definition themeEvents : list (Event Environment) :=
  [SetValue _ (qs "theme") (MText TString (qs "light")); SetValue _ (qs "startAtBoot") (MBool false);
   ResetAll _].

(** The theme was dark and is the default again. *)
Lemma themeEvents_run :
  let m := createSettings (settingslist flatpakLinux) (openSettings themed) in
  getter production theme m = qs "dark"
  /\ match run production themeEvents m with
     | Ret m' => getter production theme m' = qs "main"
     | _ => False
     end.
Proof. vm_compute. split; reflexivity. Qed.

Lemma theme_listed (p : Platform) : theme ∈ settingslist p.
Proof.
  unfold settingslist. do 3 (apply elem_of_app; right). apply elem_of_app. left.
  do 6 right. left.
Qed.

(** Who listens to the theme was told. *)
Lemma listeners_current_witness :
  let m := createSettings (settingslist flatpakLinux) (openSettings themed) in
  exists m', run production themeEvents m = Ret m' /\ told production (settingOf theme) m m'.
Proof.
  intros m. destruct (listeners_current flatpakLinux production themed themeEvents)
    as (m' & E & _ & _ & Ht); [by repeat constructor|].
  exists m'. split; [exact E|]. apply Ht; [by repeat constructor|apply theme_listed|by_decision].
Defined.

End SettingsHolder.
