(* ===== verification/Features.v ===== *)
(** * Features

    Model of [src/src/feature/]: the three kinds of flags, their table, the overrides
    in the settings, and the answer of the service that sets them. *)
From Stdlib Require Import ZArith Lia Ascii String.
From stdpp Require Import base numbers list gmap strings.
From S2P Require Import Prelude QHostAddress QString Json JsonText Settings SettingsList.

Local Open Scope Z_scope.
Local Open Scope wg_scope.

Module Feature.
Import Settings.Settings SettingsHolder.

(** ** Kinds of features *)

Record ConstantFeature : Type := mkConstant { c_id : chars; supported : bool }.

Record RuntimeFeature : Type := mkRuntime { r_id : chars; r_evaluator : Environment -> bool }.

Record OverridableFeature : Type := mkOverridable {
  id : chars;
  evaluator : Environment -> bool;
  canFlipOn : Environment -> bool;
  canFlipOff : Environment -> bool;
}.

Inductive AnyFeature : Type :=
| Constant (c : ConstantFeature)
| Runtime (r : RuntimeFeature)
| Overridable (o : OverridableFeature).

Definition getId (f : AnyFeature) : chars :=
  match f with Constant c => c_id c | Runtime r => r_id r | Overridable o => id o end.

(** ** The table *)

Section Table.

(** The platform, whether Balrog is built in, the flavour for Android and the version
    of its SDK, and whether Qt is 6.5.0 or later. *)
Variable p : Platform.
Variables (hasBalrog androidFoss qt650 : bool).
Variable sdkVersion : Z.

Definition constant (i : string) (s : bool) : AnyFeature := Constant (mkConstant (qs i) s).

(** An override that is always possible, as by the defaults of the members. *)
Definition overridable (i : string) (d : Environment -> bool) : OverridableFeature :=
  mkOverridable (qs i) d (fun _ => true) (fun _ => true).

Definition accountDeletion := overridable "accountDeletion" (fun _ => android p || ios p).

Definition alwaysPort53 := overridable "alwaysPort53" (fun _ => false).

Definition enableUpdateServer : OverridableFeature :=
  mkOverridable (qs "enableUpdateServer") (fun _ => hasBalrog) (fun _ => hasBalrog)
    (fun _ => hasBalrog).

Definition replacerAddon := overridable "replacerAddon" (fun _ => false).

Definition showRotateIPAddressButton := overridable "showRotateIPAddressButton" (fun _ => false).

Definition addonSignature : OverridableFeature :=
  mkOverridable (qs "addonSignature") (fun _ => true)
    (fun w => negb (inProduction w)) (fun w => negb (inProduction w)).

Definition webExtension : OverridableFeature :=
  mkOverridable (qs "webExtension") (fun _ => windows p)
    (fun _ => windows p || macos p || linux_ p) (fun _ => true).

Definition networkExtension : OverridableFeature :=
  mkOverridable (qs "networkExtension") (fun _ => false) (fun _ => macos p) (fun _ => macos p).

Definition shareLogs : AnyFeature :=
  if android p then Runtime (mkRuntime (qs "shareLogs") (fun _ => 29 <=? sdkVersion))
  else constant "shareLogs" (windows p || linux_ p || macos p || ios p || wasm p).

Definition webPurchase : AnyFeature :=
  constant "webPurchase" (windows p || macos p || linux_ p || (android p && androidFoss)).

(** [s_exposedFeatures]. *)
Definition exposedFeatures : list AnyFeature :=
  [Overridable accountDeletion;
   Overridable addonSignature;
   Overridable alwaysPort53;
   constant "annualUpgrade" (windows p || macos p || linux_ p || wasm p);
   constant "appReview" (android p || ios p);
   constant "captivePortal" (captivePortal p);
   constant "checkConnectivityOnActivation" false;
   constant "customDNS" true;
   Overridable enableUpdateServer;
   constant "freeTrial" false;
   constant "multiHop" true;
   Overridable networkExtension;
   Overridable replacerAddon;
   shareLogs;
   Overridable showRotateIPAddressButton;
   constant "startOnBoot" (windows p || macos p || linux_ p || wasm p);
   constant "themeSelectionIncludesAutomatic" (linux_ p || qt650);
   constant "unsecuredNetworkNotification" (unsecuredNetworkNotification p);
   Overridable webExtension;
   webPurchase].

Lemma exposed_distinct : NoDup (map getId exposedFeatures).
Proof. unfold exposedFeatures, shareLogs, webPurchase. destruct (android p); by_decision. Qed.

End Table.

(** ** Overrides *)

Section Overrides.
Context `{QSettings}.

Implicit Types (w : Environment) (f : OverridableFeature) (m : SettingsManager Environment).

Definition isEnabled w f m : bool :=
  if canFlipOn f w && bool_decide (id f ∈ getter w featuresFlippedOn m) then true
  else if canFlipOff f w && bool_decide (id f ∈ getter w featuresFlippedOff m) then false
  else evaluator f w.

Definition isEnabledAny w (a : AnyFeature) m : bool :=
  match a with
  | Constant c => supported c
  | Runtime r => r_evaluator r w
  | Overridable o => isEnabled w o m
  end.

Definition appendNew (i : chars) (l : list chars) : list chars :=
  if bool_decide (i ∈ l) then l else l ++ [i].

Definition removeAll (i : chars) (l : list chars) : list chars := filter (fun x => x <> i) l.

Definition toggle w f (enabled : bool) m : SettingsManager Environment :=
  let baseSupported := evaluator f w in
  let on := getter w featuresFlippedOn m in
  let off := getter w featuresFlippedOff m in
  let '(on, off) :=
    if enabled && negb baseSupported then (appendNew (id f) on, removeAll (id f) off)
    else if negb enabled && baseSupported then (removeAll (id f) on, appendNew (id f) off)
    else (removeAll (id f) on, removeAll (id f) off) in
  setter w featuresFlippedOff off (setter w featuresFlippedOn on m).

(** [FeatureProxy::isToggleable] of an overridable feature. *)
Definition isToggleable w f : bool :=
  let onByDefault := evaluator f w in
  (onByDefault && canFlipOff f w) || (negb onByDefault && canFlipOn f w).

(** ** The model *)

Definition proxyForId (exposed : list AnyFeature) (i : chars) : option AnyFeature :=
  find (fun a => bool_decide (getId a = i)) exposed.

Definition isEnabledById w (exposed : list AnyFeature) (i : chars) m : bool :=
  match proxyForId exposed i with Some a => isEnabledAny w a m | None => false end.

(** [FeatureModel::toggle]. *)
Definition toggleById w (exposed : list AnyFeature) (i : chars) m : SettingsManager Environment :=
  match proxyForId exposed i with
  | Some (Overridable f) => toggle w f (negb (isEnabled w f m)) m
  | _ => m
  end.

Context `{QtJsonText}.

Definition overwrites (obj : QJsonObject) (o : gmap chars bool) : gmap chars bool :=
  fold_left (fun o (e : chars * QJsonValue) =>
    match e.2 with JBool b => <[e.1 := b]> o | _ => o end) obj o.

Definition experiments (obj : QJsonObject) (o : gmap chars bool) : gmap chars bool :=
  fold_left (fun o (e : chars * QJsonValue) =>
    if isObject (e.2) then <[e.1 := true]> o else o) obj o.

(** [fromJson] gives an empty object for what is not one. *)
Definition parseFeatures (data : chars) (acceptExperiments : bool) : gmap chars bool :=
  let json := default [] (fromBytes data) in
  let o := if hasKey (qs "featuresOverwrite") json
           then overwrites (toObject (Json.value (qs "featuresOverwrite") json)) ∅ else ∅ in
  if acceptExperiments && hasKey (qs "experimentalFeatures") json
  then experiments (toObject (Json.value (qs "experimentalFeatures") json)) o else o.

(** One override of the answer. *)
Definition override w (exposed : list AnyFeature) m (e : chars * bool)
  : SettingsManager Environment :=
  match proxyForId exposed (e.1) with
  | Some (Overridable f) => toggle w f (e.2) m
  | _ => m
  end.

(** [order] is the order in which the hash is iterated. *)
Definition updateFeatureList w (exposed : list AnyFeature) (order : list (chars * bool)) m
  : SettingsManager Environment :=
  foldl (override w exposed) m order.

(** ** Lemmas *)

Section Laws.
Context `{!QtVariantLaws} `{!QSettingsLaws}.

Lemma on_normal : normalKey (key featuresFlippedOn). Proof. by_decision. Qed.
Lemma off_normal : normalKey (key featuresFlippedOff). Proof. by_decision. Qed.

(** What the two lists say of a feature. *)
Definition flags w (i : chars) m : bool * bool :=
  (bool_decide (i ∈ getter w featuresFlippedOn m), bool_decide (i ∈ getter w featuresFlippedOff m)).

Lemma isEnabled_flags w f m m' : flags w (id f) m' = flags w (id f) m -> isEnabled w f m' = isEnabled w f m.
Proof.
  unfold flags, isEnabled. intros [E1 E2]%pair_equal_spec. by rewrite E1, E2.
Qed.

(** What a feature is once it is asked to be [b]. *)
Definition effective w f (b : bool) : bool :=
  if eqb b (evaluator f w) then b else if b then canFlipOn f w else negb (canFlipOff f w).

Lemma set_lists w (on off : list chars) m :
  let m' := setter w featuresFlippedOff off (setter w featuresFlippedOn on m) in
  getter w featuresFlippedOn m' = on /\ getter w featuresFlippedOff m' = off
  /\ (forall x, normalKey (key x) -> key x <> key featuresFlippedOn ->
      key x <> key featuresFlippedOff -> getter w x m' = getter w x m).
Proof.
  pose proof on_normal. pose proof off_normal.
  assert (key featuresFlippedOff <> key featuresFlippedOn) as Hne by by_decision. cbv zeta.
  split_and!.
  - rewrite (proj1 (getter_setter_ne w featuresFlippedOff featuresFlippedOn off _
                      off_normal on_normal Hne)).
    by apply getter_setter.
  - by apply getter_setter.
  - intros x Hx N1 N2.
    rewrite (proj1 (getter_setter_ne w featuresFlippedOff x off _ off_normal Hx (not_eq_sym N2))).
    by apply getter_setter_ne.
Qed.

Lemma elem_appendNew (i x : chars) (l : list chars) : x ∈ appendNew i l <-> x = i \/ x ∈ l.
Proof. unfold appendNew. case_bool_decide; set_solver. Qed.

Lemma elem_removeAll (i x : chars) (l : list chars) : x ∈ removeAll i l <-> x <> i /\ x ∈ l.
Proof. unfold removeAll. by rewrite list_elem_of_filter. Qed.

Lemma in_appendNew (i : chars) (l : list chars) : bool_decide (i ∈ appendNew i l) = true.
Proof. apply bool_decide_true, elem_appendNew. by left. Qed.

Lemma in_removeAll (i : chars) (l : list chars) : bool_decide (i ∈ removeAll i l) = false.
Proof. apply bool_decide_false. rewrite elem_removeAll. by intros [? _]. Qed.

Lemma toggle_spec w f (b : bool) m :
  let m' := toggle w f b m in
  isEnabled w f m' = effective w f b
  /\ (forall i, i <> id f -> flags w i m' = flags w i m)
  /\ (forall x, normalKey (key x) -> key x <> key featuresFlippedOn ->
      key x <> key featuresFlippedOff -> getter w x m' = getter w x m).
Proof.
  cbv zeta. unfold toggle.
  set (l := if b && negb (evaluator f w) then _ else _).
  destruct l as [on off] eqn:El.
  destruct (set_lists w on off m) as (E1 & E2 & E3). split_and!; [| |exact E3].
  - unfold isEnabled, effective. rewrite E1, E2. subst l.
    destruct b, (evaluator f w); cbn in El; injection El as <- <-; cbn;
      rewrite ?in_appendNew, ?in_removeAll; by destruct (canFlipOn f w), (canFlipOff f w).
  - intros i Hi. unfold flags. rewrite E1, E2. subst l.
    destruct b, (evaluator f w); cbn in El; injection El as <- <-;
      f_equal; apply bool_decide_ext; rewrite ?elem_appendNew, ?elem_removeAll; tauto.
Qed.

Lemma proxyForId_exposed (exposed : list AnyFeature) (a : AnyFeature) :
  NoDup (map getId exposed) -> a ∈ exposed -> proxyForId exposed (getId a) = Some a.
Proof.
  unfold proxyForId. induction exposed as [|x l IH]; intros Hd Hin; [set_solver|].
  cbn [map] in Hd. inversion Hd as [|? ? Hx Hl]; subst. cbn [find].
  apply elem_of_cons in Hin as [->|Hin]; [by rewrite bool_decide_true|].
  rewrite bool_decide_false; [by apply IH|]. intros E. destruct Hx. rewrite E.
  by apply list_elem_of_fmap_2.
Qed.

Lemma proxyForId_id (exposed : list AnyFeature) (i : chars) (a : AnyFeature) :
  proxyForId exposed i = Some a -> getId a = i.
Proof. unfold proxyForId. intros [_ E]%find_some. by apply bool_decide_eq_true in E. Qed.

Lemma override_other w (exposed : list AnyFeature) f (i : chars) (b : bool) m :
  i <> id f -> isEnabled w f (override w exposed m (i, b)) = isEnabled w f m.
Proof.
  intros Hne. unfold override. cbn [fst snd].
  destruct (proxyForId exposed i) as [[c|r|g]|] eqn:E; try done.
  apply isEnabled_flags, toggle_spec. apply proxyForId_id in E. cbn in E. congruence.
Qed.

Lemma override_settings w (exposed : list AnyFeature) (e : chars * bool) m x :
  normalKey (key x) -> key x <> key featuresFlippedOn -> key x <> key featuresFlippedOff ->
  getter w x (override w exposed m e) = getter w x m.
Proof.
  intros. unfold override. destruct (proxyForId exposed (e.1)) as [[c|r|g]|]; try done.
  by apply toggle_spec.
Qed.

(** ** Properties *)

(** An answer of the service sets each feature that it names and that can be
    overridden, as far as an override of that kind is allowed, whatever the order in
    which the hash table is read; features that it does not name and all other
    settings stay. *)
Theorem updateFeatureList_spec w (exposed : list AnyFeature) (overrides : gmap chars bool)
    (order : list (chars * bool)) m f :
  NoDup (map getId exposed) -> Overridable f ∈ exposed ->
  order ≡ₚ map_to_list overrides ->
  let m' := updateFeatureList w exposed order m in
  isEnabled w f m' = match overrides !! id f with
                     | Some b => effective w f b
                     | None => isEnabled w f m
                     end
  /\ (forall x, normalKey (key x) -> key x <> key featuresFlippedOn ->
      key x <> key featuresFlippedOff -> getter w x m' = getter w x m).
Proof.
  intros Hd Hf Ho. cbv zeta. unfold updateFeatureList.
  assert (NoDup (map fst order)) as Hn by (rewrite Ho; apply NoDup_fst_map_to_list).
  assert (overrides = list_to_map order) as ->.
  { rewrite (list_to_map_proper order (map_to_list overrides)) by done.
    by rewrite list_to_map_to_list. }
  clear Ho. revert m. induction order as [|[i b] order IH]; intros m; [done|].
  cbn [map] in Hn. inversion Hn as [|? ? Hi Hn']; subst. cbn [foldl].
  destruct (IH Hn' (override w exposed m (i, b))) as [I1 I2]. split.
  - rewrite I1. cbn [list_to_map fold_right curry fst snd].
    change (list_to_map ((i, b) :: order)) with (<[i := b]> (list_to_map order : gmap chars bool)).
    destruct (decide (i = id f)) as [->|Hne].
    + rewrite lookup_insert_eq, (not_elem_of_list_to_map_1 order (id f)) by done.
      unfold override. cbn [fst snd].
      change (id f) with (getId (Overridable f)). rewrite (proxyForId_exposed exposed _ Hd Hf).
      apply toggle_spec.
    + rewrite lookup_insert_ne by done. destruct (list_to_map order !! id f); [done|].
      by apply override_other.
  - intros x Hx N1 N2. rewrite I2 by done. by apply override_settings.
Qed.

(** The switch of the developer menu turns a feature to the other value exactly if it
    is shown as one that can be. *)
Lemma toggleById_spec w (exposed : list AnyFeature) m f :
  NoDup (map getId exposed) -> Overridable f ∈ exposed ->
  isEnabled w f (toggleById w exposed (id f) m)
  = if isToggleable w f then negb (isEnabled w f m) else isEnabled w f m.
Proof.
  intros Hd Hf. unfold toggleById. change (id f) with (getId (Overridable f)).
  rewrite (proxyForId_exposed exposed _ Hd Hf).
  rewrite (proj1 (toggle_spec w f (negb (isEnabled w f m)) m)).
  unfold effective, isToggleable, isEnabled. destruct (flags w (id f) m) as [a b] eqn:E.
  unfold flags in E. apply pair_equal_spec in E as [-> ->].
  by destruct (evaluator f w), (canFlipOn f w), (canFlipOff f w), a, b.
Qed.

End Laws.
End Overrides.

(** ** Examples *)

#[local] Existing Instance modelVariants.
#[local] Existing Instance modelSettings.
#[local] Existing Instance modelJsonText.

(** The features of the Flatpak. *)
Definition linuxFeatures : list AnyFeature := exposedFeatures flatpakLinux false false true 0.

Definition answer : chars :=
  toCompact [(qs "featuresOverwrite", JObject [(qs "alwaysPort53", JBool true);
                                               (qs "addonSignature", JBool false);
                                               (qs "multiHop", JBool false)])].

Definition overridden : gmap chars bool := parseFeatures answer true.

Definition answered : SettingsManager Environment :=
  updateFeatureList production linuxFeatures (map_to_list overridden) opened.

Lemma updateFeatureList_spec_witness :
  isEnabled production alwaysPort53 answered = true
  /\ isEnabled production addonSignature answered = true.
Proof.
  assert (NoDup (map getId linuxFeatures)) as Hd by apply exposed_distinct.
  assert (overridden !! id alwaysPort53 = Some true) as E1 by (vm_compute; reflexivity).
  assert (overridden !! id addonSignature = Some false) as E2 by (vm_compute; reflexivity).
  unfold answered. generalize opened. intros m. revert E1 E2. generalize overridden. intros o E1 E2.
  pose proof (fun f Hf => proj1 (updateFeatureList_spec production linuxFeatures o
    (map_to_list o) m f Hd Hf (Permutation_refl _))) as Hall. split.
  - etransitivity; [apply Hall; unfold linuxFeatures, exposedFeatures; list_in|]. by rewrite E1.
  - etransitivity; [apply Hall; unfold linuxFeatures, exposedFeatures; list_in|]. by rewrite E2.
Defined.

End Feature.
