(* ===== verification/RecentConnections.v ===== *)
(** * Recent connections

    Model of [src/src/models/recentconnections.cpp] and [.h]: the lists of recent single
    hop and multihop connections, what they show, the settings they are kept in and the
    migration of the settings of older versions. What Qt does with the text of a JSON
    array is the interface [QtJsonArrayText] with its laws. *)
From Stdlib Require Import ZArith Lia Ascii String.
From stdpp Require Import base numbers list gmap strings countable.
From S2P Require Import Prelude QHostAddress QString QStringExtra Json JsonText.

Local Open Scope nat_scope.
Local Open Scope wg_scope.

Module RecentConnections.

(** ** JSON arrays as documents *)

(** [arrayFromBytes] is [None] where the document is not an array. *)
Class QtJsonArrayText : Type := {
  arrayToCompact : list QJsonValue -> chars;
  arrayFromBytes : chars -> option (list QJsonValue);
}.

Class QtJsonArrayLaws `{QtJsonArrayText} : Prop := {
  arrayFromBytes_nothing : arrayFromBytes [] = None;
  arrayFromBytes_toCompact l :
    exactJson (JArray l) = true ->
    exists l', arrayFromBytes (arrayToCompact l) = Some l' /\ Forall2 (≡) l l';
}.

(** ** Strings *)

(** [QString::split] by a text that is not empty; [skip] characters of a separator are
    still to be passed over. *)
Fixpoint splitTextAux (sep : chars) (skip : nat) (s : chars) : list chars :=
  match s with
  | [] => [[]]
  | c :: r =>
      match skip with
      | S n => splitTextAux sep n r
      | O =>
          if startsWithText sep (c :: r) then [] :: splitTextAux sep (length sep - 1) r
          else
            match splitTextAux sep 0 r with
            | h :: t => (c :: h) :: t
            | [] => [[c]]
            end
      end
  end.

Definition splitText (sep s : chars) : list chars := splitTextAux sep 0 s.

(** ** A connection *)

Record RecentConnection : Type := mkRecent {
  m_entryCityName : chars;
  m_entryCountryCode : chars;
  m_exitCityName : chars;
  m_exitCountryCode : chars;
}.

#[export] Instance RecentConnection_eq_dec : EqDecision RecentConnection.
Proof. solve_decision. Defined.

Definition isMultiHop (c : RecentConnection) : bool :=
  negb (bool_decide (m_entryCityName c = [])) && negb (bool_decide (m_entryCountryCode c = [])).

(** ** A model of connections *)

Inductive AddType : Type := Prepend | Append.

Definition RECENT_CONNECTIONS_MAX_COUNT : nat := 2.

(** [indexOf], [None] for -1. *)
Definition indexIn (c : RecentConnection) (l : list RecentConnection) : option nat :=
  fst <$> list_find (fun x => x = c) l.

Definition removeAt (i : nat) (l : list RecentConnection) : list RecentConnection :=
  take i l ++ drop (S i) l.

(** The loop that removes the last element of a list that is too long; its length bounds
    the turns. *)
Fixpoint shrink (fuel : nat) (l : list RecentConnection) : list RecentConnection :=
  match fuel with
  | O => l
  | S fuel =>
      if RECENT_CONNECTIONS_MAX_COUNT <? length l then shrink fuel (removelast l) else l
  end.

(** [add]: whether the list has changed, and the list. *)
Definition add (c : RecentConnection) (t : AddType) (m_list : list RecentConnection)
  : bool * list RecentConnection :=
  let index := indexIn c m_list in
  if bool_decide (index = Some 0) then (false, m_list)
  else
    let m_list := match index with Some i => removeAt i m_list | None => m_list end in
    let m_list := shrink (length m_list) m_list in
    (true, match t with Prepend => c :: m_list | Append => m_list ++ [c] end).

(** The first element is the current connection and is not shown. *)
Definition rowCount (m_list : list RecentConnection) : nat :=
  if 1 <? length m_list then length m_list - 1 else 0.

Definition isEmptyModel (m_list : list RecentConnection) : bool := length m_list <=? 1.

Inductive Role : Type :=
| ExitCountryCodeRole | ExitCityNameRole | LocalizedExitCityNameRole | IsMultiHopRole
| EntryCountryCodeRole | EntryCityNameRole | LocalizedEntryCityNameRole.

Inductive Shown : Type := ShownText (t : chars) | ShownBool (b : bool).

(** [data]; [localizedName] is the translation of a city's name, and [None] the invalid
    variant. *)
Definition data (localizedName : chars -> chars) (row : nat) (role : Role)
    (m_list : list RecentConnection) : option Shown :=
  match m_list !! S row with
  | None => None
  | Some rc =>
      Some match role with
           | ExitCountryCodeRole => ShownText (m_exitCountryCode rc)
           | ExitCityNameRole => ShownText (m_exitCityName rc)
           | LocalizedExitCityNameRole => ShownText (localizedName (m_exitCityName rc))
           | IsMultiHopRole => ShownBool (isMultiHop rc)
           | EntryCountryCodeRole => ShownText (m_entryCountryCode rc)
           | EntryCityNameRole => ShownText (m_entryCityName rc)
           | LocalizedEntryCityNameRole => ShownText (localizedName (m_entryCityName rc))
           end
  end.

Definition connectionToJson (rc : RecentConnection) : QJsonValue :=
  JObject (insertAll [(qs "exit_country_code", JString (m_exitCountryCode rc));
                      (qs "exit_city_name", JString (m_exitCityName rc));
                      (qs "enter_country_code", JString (m_entryCountryCode rc));
                      (qs "enter_city_name", JString (m_entryCityName rc))] []).

Definition serialize (m_list : list RecentConnection) (array : list QJsonValue)
  : list QJsonValue := array ++ map connectionToJson m_list.

(** ** The two models and the settings *)

(** [recentConnections] is the setting, empty where it is not set;
    [recentConnectionsDeprecated] is [None] where there is none. *)
Record Connections : Type := mkConnections {
  m_singleHopModel : list RecentConnection;
  m_multiHopModel : list RecentConnection;
  recentConnections : chars;
  recentConnectionsDeprecated : option (list chars);
}.

#[export] Instance Connections_eta : Eta Connections := fun s =>
  mkConnections (m_singleHopModel s) (m_multiHopModel s) (recentConnections s)
    (recentConnectionsDeprecated s).

Section Connections.
Context `{QtJsonArrayText}.

Definition writeSettings (s : Connections) : Connections :=
  s <| recentConnections :=
         arrayToCompact (serialize (m_multiHopModel s) (serialize (m_singleHopModel s) [])) |>.

(** A connection is added to the model of its kind. *)
Definition addTo (t : AddType) (rc : RecentConnection) (s : Connections) : bool * Connections :=
  if isMultiHop rc
  then let '(ok, l) := add rc t (m_multiHopModel s) in (ok, s <| m_multiHopModel := l |>)
  else let '(ok, l) := add rc t (m_singleHopModel s) in (ok, s <| m_singleHopModel := l |>).

Definition serverChanged (rc : RecentConnection) (s : Connections) : Connections :=
  let '(ok, s) := addTo Prepend rc s in if ok then writeSettings s else s.

Definition connectionOfJson (v : QJsonValue) : RecentConnection :=
  let obj := toObject v in
  let field k := text (toQString (value (qs k) obj)) in
  mkRecent (field "enter_city_name"%string) (field "enter_country_code"%string)
    (field "exit_city_name"%string) (field "exit_country_code"%string).

Definition readSettings (s : Connections) : Connections :=
  match arrayFromBytes (recentConnections s) with
  | None => s
  | Some array => foldl (fun s v => snd (addTo Append (connectionOfJson v) s)) s array
  end.

(** One entry of the settings of older versions: [None] where it is not valid. *)
Definition deprecatedConnection (rc : chars) : option (bool * RecentConnection) :=
  match splitText (qs " -> ") rc with
  | [] => None
  | a :: rest =>
      match splitText (qs ", ") a with
      | [a0; a1] =>
          match rest with
          | [] => Some (false, mkRecent [] [] a0 a1)
          | b :: _ =>
              match splitText (qs ", ") b with
              | [b0; b1] => Some (true, mkRecent a0 a1 b0 b1)
              | _ => None
              end
          end
      | _ => None
      end
  end.

Definition addDeprecated (s : Connections) (rc : chars) : Connections :=
  match deprecatedConnection rc with
  | None => s
  | Some (false, c) => s <| m_singleHopModel := snd (add c Append (m_singleHopModel s)) |>
  | Some (true, c) => s <| m_multiHopModel := snd (add c Append (m_multiHopModel s)) |>
  end.

(** [None] where there is nothing to migrate. *)
Definition migrate (s : Connections) : option Connections :=
  match recentConnectionsDeprecated s with
  | None => None
  | Some rcList =>
      Some (writeSettings ((foldl addDeprecated s rcList) <| recentConnectionsDeprecated := None |>))
  end.

Definition initialize (s : Connections) : Connections :=
  let s := s <| m_singleHopModel := [] |> <| m_multiHopModel := [] |> in
  match migrate s with Some s => s | None => readSettings s end.

(** ** Runs *)

(** The server is changed, or the program is started again with its settings. *)
Inductive Event : Type := ServerChanged (rc : RecentConnection) | Restart.

Definition handle (s : Connections) (e : Event) : Connections :=
  match e with ServerChanged rc => serverChanged rc s | Restart => initialize s end.

Definition run (l : list Event) (s : Connections) : Connections := foldl handle s l.

(** ** The reference: the most recent first *)

Definition without (c : RecentConnection) (l : list RecentConnection) : list RecentConnection :=
  filter (fun x => x <> c) l.

Definition touch (c : RecentConnection) (m : list RecentConnection) : list RecentConnection :=
  c :: without c m.

(** Each connection of the history once, the last used first. *)
Definition recent (history : list RecentConnection) : list RecentConnection :=
  foldl (fun m c => touch c m) [] history.

Definition MAX : nat := S RECENT_CONNECTIONS_MAX_COUNT.

Lemma touch_NoDup (c : RecentConnection) (m : list RecentConnection) :
  NoDup m -> NoDup (touch c m).
Proof.
  intros Hm. constructor; [|by apply list.NoDup_filter].
  unfold without. rewrite list_elem_of_filter. by intros [? _].
Qed.

Lemma recent_snoc (h : list RecentConnection) (c : RecentConnection) :
  recent (h ++ [c]) = touch c (recent h).
Proof. unfold recent. by rewrite foldl_app. Qed.

Lemma recent_NoDup (h : list RecentConnection) : NoDup (recent h).
Proof.
  induction h as [|c h IH] using rev_ind; [constructor|].
  rewrite recent_snoc. by apply touch_NoDup.
Qed.

Lemma without_absent (c : RecentConnection) (l : list RecentConnection) :
  c ∉ l -> without c l = l.
Proof. intros Hc. apply filter_all. by intros x Hx ->. Qed.

Lemma indexIn_cons (c x : RecentConnection) (l : list RecentConnection) :
  indexIn c (x :: l) = if decide (x = c) then Some 0 else S <$> indexIn c l.
Proof.
  unfold indexIn. cbn. destruct (decide (x = c)); [done|].
  by destruct (list_find _ l) as [[i y]|].
Qed.

Lemma indexIn_None (c : RecentConnection) (l : list RecentConnection) :
  indexIn c l = None <-> c ∉ l.
Proof.
  induction l as [|x l IH]; [split; [intros _; apply not_elem_of_nil|done]|].
  rewrite indexIn_cons, not_elem_of_cons. destruct (decide (x = c)) as [->|Hne]; [naive_solver|].
  rewrite fmap_None, IH. naive_solver.
Qed.

Lemma removeAt_without (c : RecentConnection) (l : list RecentConnection) (i : nat) :
  NoDup l -> indexIn c l = Some i -> removeAt i l = without c l.
Proof.
  revert i. induction l as [|x l IH]; intros i Hl Hi; [done|].
  rewrite indexIn_cons in Hi. inversion Hl as [|? ? Hx Hl']; subst.
  unfold without. destruct (decide (x = c)) as [->|Hne].
  - injection Hi as <-. rewrite filter_cons_False by naive_solver. cbn.
    symmetry. by apply without_absent.
  - rewrite filter_cons_True by done. destruct (indexIn c l) as [j|]; [|done].
    injection Hi as <-. change (removeAt (S j) (x :: l)) with (x :: removeAt j l).
    f_equal. by apply IH.
Qed.

Lemma shrink_take (fuel : nat) (l : list RecentConnection) :
  length l <= fuel -> shrink fuel l = take RECENT_CONNECTIONS_MAX_COUNT l.
Proof.
  unfold RECENT_CONNECTIONS_MAX_COUNT. revert l.
  induction fuel as [|fuel IH]; intros l Hl; cbn [shrink];
    [destruct l; [done|cbn in Hl; lia]|].
  unfold RECENT_CONNECTIONS_MAX_COUNT. destruct (Nat.ltb_spec 2 (length l)) as [Hlt|Hge].
  - destruct (exists_last (l := l)) as (l' & x & ->); [intros ->; cbn in Hlt; lia|].
    rewrite removelast_last. rewrite length_app in *. cbn in *.
    rewrite IH, take_app_le by lia. done.
  - by rewrite take_ge.
Qed.

(** [add] in terms of the list it is given. *)
Lemma add_eq (c : RecentConnection) (t : AddType) (l : list RecentConnection) :
  NoDup l ->
  add c t l
  = if bool_decide (head l = Some c) then (false, l)
    else let r := take RECENT_CONNECTIONS_MAX_COUNT (without c l) in
         (true, match t with Prepend => c :: r | Append => r ++ [c] end).
Proof.
  intros Hl. unfold add. assert (indexIn c l = Some 0 <-> head l = Some c) as Hh.
  { destruct l as [|x l]; [done|]. rewrite indexIn_cons. cbn. destruct (decide (x = c)) as [->|]; [done|].
    destruct (indexIn c l); naive_solver. }
  rewrite (bool_decide_ext _ _ Hh). case_bool_decide; [done|].
  assert (match indexIn c l with Some i => removeAt i l | None => l end = without c l) as ->.
  { destruct (indexIn c l) eqn:E; [by apply removeAt_without|].
    symmetry. by apply without_absent, indexIn_None. }
  by rewrite shrink_take.
Qed.

Lemma without_take (c : RecentConnection) (m : list RecentConnection) (k : nat) :
  NoDup m -> take k (without c (take (S k) m)) = take k (without c m).
Proof.
  revert k. induction m as [|x m IH]; intros k Hm; [done|]. inversion Hm as [|? ? Hx Hm']; subst.
  cbn [take]. unfold without. destruct (decide (x = c)) as [->|Hne].
  - rewrite !filter_cons_False by naive_solver. fold (without c (take k m)) (without c m).
    rewrite !without_absent; [|done|]; [by rewrite take_take, Nat.min_id|].
    intros (i & Hi & _)%elem_of_take. by eapply Hx, list_elem_of_lookup_2.
  - rewrite !filter_cons_True by done. destruct k as [|k]; [done|].
    cbn [take]. f_equal. by apply IH.
Qed.

(** Adding to the bounded list is using in the whole list. *)
Lemma add_recent (c : RecentConnection) (m : list RecentConnection) :
  NoDup m -> snd (add c Prepend (take MAX m)) = take MAX (touch c m).
Proof.
  intros Hm. rewrite add_eq by (eapply sublist_NoDup; [exact Hm|apply sublist_take]).
  case_bool_decide as Hh; cbn [snd].
  - destruct m as [|x m]; [done|]. cbn in Hh. injection Hh as ->.
    inversion Hm as [|? ? Hx Hm']; subst. unfold touch, without. rewrite filter_cons_False by naive_solver.
    fold (without c m). by rewrite (without_absent c m).
  - unfold touch, MAX. cbn [take]. f_equal. by apply without_take.
Qed.

(** ** Restarts *)

Section Laws.
Context `{!QtJsonArrayLaws}.

Lemma connection_roundtrip (rc : RecentConnection) : connectionOfJson (connectionToJson rc) = rc.
Proof. by destruct rc. Qed.

#[local] Instance connectionOfJson_proper : Proper ((≡@{QJsonValue}) ==> (=)) connectionOfJson.
Proof.
  intros v v' Hv. unfold connectionOfJson.
  assert (forall k, toQString (value k (toObject v)) = toQString (value k (toObject v'))) as E.
  { intros k. apply toQString_proper. by apply toObject_proper. }
  by rewrite !E.
Qed.

(** A list that is read back is the list that was written. *)
Lemma append_all (acc l : list RecentConnection) :
  NoDup (acc ++ l) -> length (acc ++ l) <= MAX ->
  foldl (fun m c => snd (add c Append m)) acc l = acc ++ l.
Proof.
  unfold MAX, RECENT_CONNECTIONS_MAX_COUNT. revert acc.
  induction l as [|c l IH]; intros acc Hd Hl; [by rewrite app_nil_r|].
  assert ((c ∉ acc) /\ NoDup acc) as [Hc Ha].
  { apply list.NoDup_app in Hd as (Ha & Hd & _). split; [|done]. intros Hc.
    apply (Hd c Hc). left. }
  cbn [foldl]. rewrite add_eq by done. rewrite bool_decide_false
    by (intros E; apply Hc; destruct acc; [done|]; injection E as ->; left).
  cbn [snd]. rewrite without_absent, take_ge by
    (try done; rewrite length_app in Hl; cbn in Hl; unfold RECENT_CONNECTIONS_MAX_COUNT; lia).
  replace (acc ++ c :: l) with ((acc ++ [c]) ++ l) in * by by rewrite <- app_assoc.
  by apply IH.
Qed.

(** Each model reads the connections of its kind. *)
Lemma read_split (l : list RecentConnection) (s : Connections) :
  foldl (fun s c => snd (addTo Append c s)) s l
  = s <| m_singleHopModel := foldl (fun m c => snd (add c Append m)) (m_singleHopModel s)
           (filter (fun c => isMultiHop c = false) l) |>
      <| m_multiHopModel := foldl (fun m c => snd (add c Append m)) (m_multiHopModel s)
           (filter (fun c => isMultiHop c = true) l) |>.
Proof.
  revert s. induction l as [|c l IH]; intros s; [by destruct s|]. cbn [foldl].
  rewrite IH. unfold addTo. destruct (isMultiHop c) eqn:E.
  - rewrite filter_cons_True, filter_cons_False by (rewrite E; done).
    destruct (add c Append (m_multiHopModel s)) eqn:Ea. cbn. by rewrite Ea.
  - rewrite filter_cons_False, filter_cons_True by (rewrite E; done).
    destruct (add c Append (m_singleHopModel s)) eqn:Ea. cbn. by rewrite Ea.
Qed.

(** The models of a run that has seen the connections [h]. *)
Definition kind (b : bool) (h : list RecentConnection) : list RecentConnection :=
  take MAX (recent (filter (fun c => isMultiHop c = b) h)).

(** What the settings hold is what the models hold. *)
Definition saved (s : Connections) : Prop :=
  recentConnectionsDeprecated s = None
  /\ ((recentConnections s = [] /\ m_singleHopModel s = [] /\ m_multiHopModel s = [])
      \/ s = writeSettings s).

Definition after (h : list RecentConnection) (s : Connections) : Prop :=
  m_singleHopModel s = kind false h /\ m_multiHopModel s = kind true h /\ saved s.

Lemma elem_of_recent (h : list RecentConnection) (c : RecentConnection) :
  c ∈ recent h -> c ∈ h.
Proof.
  induction h as [|x h IH] using rev_ind; [done|]. rewrite recent_snoc. unfold touch, without.
  rewrite elem_of_cons, list_elem_of_filter, elem_of_app, list_elem_of_singleton. naive_solver.
Qed.

Lemma kind_spec (b : bool) (h : list RecentConnection) :
  NoDup (kind b h) /\ length (kind b h) <= MAX
  /\ Forall (fun c => isMultiHop c = b) (kind b h).
Proof.
  unfold kind. split_and!.
  - eapply sublist_NoDup; [apply recent_NoDup|apply sublist_take].
  - rewrite length_take. lia.
  - apply list.Forall_forall. intros c (i & Hi & _)%elem_of_take.
    apply list_elem_of_lookup_2, elem_of_recent, list_elem_of_filter in Hi. by destruct Hi.
Qed.

Lemma exactJson_connections (l : list RecentConnection) :
  exactJson (JArray (map connectionToJson l)) = true.
Proof. cbn. by induction l. Qed.

Lemma read_saved (h : list RecentConnection) (s : Connections) :
  after h s -> initialize s = s.
Proof.
  intros (Hs & Hm & Hd & Hsaved). unfold initialize, migrate.
  change (recentConnectionsDeprecated (_ <| m_multiHopModel := [] |>))
    with (recentConnectionsDeprecated s). rewrite Hd. cbn match. unfold readSettings.
  change (recentConnections (_ <| m_multiHopModel := [] |>)) with (recentConnections s).
  destruct Hsaved as [(Er & Es & Em)|E].
  { rewrite Er, arrayFromBytes_nothing. clear Hs Hm. destruct s. cbn in *. by subst. }
  assert (recentConnections s = arrayToCompact (map connectionToJson
    (kind false h ++ kind true h))) as ->.
  { rewrite E. cbn. unfold serialize. by rewrite Hs, Hm, map_app. }
  destruct (arrayFromBytes_toCompact (map connectionToJson (kind false h ++ kind true h)))
    as (l' & -> & Hl); [apply exactJson_connections|].
  assert (map connectionOfJson l' = kind false h ++ kind true h) as El.
  { revert Hl. generalize (kind false h ++ kind true h). clear. intros l. revert l'.
    induction l as [|c l IH]; intros l' Hl; [by inversion Hl|].
    inversion Hl as [|? v ? l2 Hv Hl2]; subst. cbn [map]. rewrite (IH l2 Hl2).
    by rewrite <- (connectionOfJson_proper _ _ Hv), connection_roundtrip. }
  assert (forall (l : list QJsonValue) t, foldl (fun s v => snd (addTo Append (connectionOfJson v) s)) t l
    = foldl (fun s c => snd (addTo Append c s)) t (map connectionOfJson l)) as ->
    by (intros l; induction l as [|v l IH]; intros t; [done|]; cbn; by rewrite IH).
  rewrite El, read_split. cbn [m_singleHopModel m_multiHopModel].
  destruct (kind_spec false h) as (D0 & L0 & F0), (kind_spec true h) as (D1 & L1 & F1).
  assert (forall b l, Forall (fun c => isMultiHop c = b) l ->
    filter (fun c => isMultiHop c = b) l = l /\ filter (fun c => isMultiHop c = negb b) l = [])
    as Hf.
  { intros b l Hb. split; [by apply filter_all, list.Forall_forall|].
    induction Hb as [|c l Hc _ IH]; [done|]. rewrite filter_cons_False, IH; [done|].
    rewrite Hc. by destruct b. }
  destruct (Hf false _ F0) as [E0 E0'], (Hf true _ F1) as [E1 E1']. cbn [negb] in *.
  rewrite !list.filter_app, E0, E0', E1, E1', app_nil_r; cbn [app].
  change (m_singleHopModel (s <| m_singleHopModel := [] |> <| m_multiHopModel := [] |>))
    with (@nil RecentConnection).
  change (m_multiHopModel (s <| m_singleHopModel := [] |> <| m_multiHopModel := [] |>))
    with (@nil RecentConnection).
  rewrite !append_all by done. cbn [app]. rewrite <- Hs, <- Hm. by destruct s.
Qed.

Lemma changed_saved (rc : RecentConnection) (h : list RecentConnection) (s : Connections) :
  after h s -> after (h ++ [rc]) (serverChanged rc s).
Proof.
  intros (Hs & Hm & Hd & Hsaved).
  assert (forall b, kind b (h ++ [rc])
    = if eqb (isMultiHop rc) b then snd (add rc Prepend (kind b h)) else kind b h) as Hk.
  { intros b. unfold kind. rewrite list.filter_app. destruct (eqb (isMultiHop rc) b) eqn:E.
    - apply eqb_prop in E. rewrite filter_cons_True, recent_snoc by done.
      symmetry. apply add_recent, recent_NoDup.
    - apply eqb_false_iff in E. rewrite filter_cons_False by done. by rewrite app_nil_r. }
  unfold after. rewrite !Hk. unfold serverChanged, addTo.
  assert (forall l, fst (add rc Prepend l) = false -> snd (add rc Prepend l) = l) as Hsame.
  { intros l. unfold add. by case_bool_decide. }
  destruct (isMultiHop rc); cbn [eqb].
  - rewrite <- Hm. pose proof (Hsame (m_multiHopModel s)) as Hx.
    destruct (add rc Prepend (m_multiHopModel s)) as [[] l]; cbn [fst snd] in *.
    + split_and!; [exact Hs|done|split; [exact Hd|right; by destruct s]].
    + rewrite (Hx eq_refl). destruct s. by split_and!.
  - rewrite <- Hs. pose proof (Hsame (m_singleHopModel s)) as Hx.
    destruct (add rc Prepend (m_singleHopModel s)) as [[] l]; cbn [fst snd] in *.
    + split_and!; [done|exact Hm|split; [exact Hd|right; by destruct s]].
    + rewrite (Hx eq_refl). destruct s. by split_and!.
Qed.

(** ** Properties *)

Definition changes (l : list Event) : list RecentConnection :=
  omap (fun e => match e with ServerChanged rc => Some rc | Restart => None end) l.

Definition fresh : Connections := mkConnections [] [] [] None.

(** C18: however servers are chosen and the program is started again, each of the two lists
    holds the last three different connections of its kind, the current one first, and
    shows the others; the settings give back the lists, and nothing is lost or repeated. *)
Theorem recent_refines (l : list Event) :
  let s := run l (initialize fresh) in
  m_singleHopModel s = kind false (changes l)
  /\ m_multiHopModel s = kind true (changes l)
  /\ initialize s = s.
Proof.
  assert (after (changes l) (run l (initialize fresh))) as Ha.
  { assert (after [] fresh) as Hf by (split_and!; [done|done|split; [done|by left]]).
    rewrite (read_saved [] fresh Hf).
    induction l as [|e l IH] using rev_ind; [exact Hf|].
    unfold run, changes. rewrite foldl_app, omap_app. cbn [foldl].
    change (omap _ l) with (changes l). change (foldl handle fresh l) with (run l fresh).
    destruct e as [rc|]; cbn [handle omap list_omap].
    - by apply changed_saved.
    - rewrite app_nil_r. by rewrite (read_saved _ _ IH). }
  cbv zeta. split_and!; [apply Ha|apply Ha|by eapply read_saved].
Qed.

End Laws.

(** The rows shown are the elements after the first. *)
Lemma data_rows localizedName (row : nat) (role : Role) (l : list RecentConnection) :
  data localizedName row role l <> None <-> row < rowCount l.
Proof.
  unfold data, rowCount. destruct (l !! S row) eqn:E.
  - apply lookup_lt_Some in E. split; [|done]. intros _.
    destruct (Nat.ltb_spec 1 (length l)); lia.
  - apply lookup_ge_None in E. split; [done|]. destruct (Nat.ltb_spec 1 (length l)); lia.
Qed.

End Connections.

(** ** Examples *)

Definition modelArrayText : QtJsonArrayText := {|
  arrayToCompact l := pack (bits (encode (JArray l)));
  arrayFromBytes s :=
    p ← ofBits (unpack s); v ← decode p;
    match v with JArray l => Some l | _ => None end;
|}.

Lemma modelArrayLaws : QtJsonArrayLaws (H := modelArrayText).
Proof.
  split; [done|]. intros l _. exists l. split.
  - unfold arrayFromBytes, arrayToCompact, modelArrayText.
    rewrite ofBits_pack, ofBits_bits. cbn [mbind option_bind]. by rewrite decode_encode.
  - by induction l; constructor.
Qed.

#[local] Existing Instance modelArrayText.
#[local] Existing Instance modelArrayLaws.

Definition city (name : string) : RecentConnection := mkRecent [] [] (qs name) (qs "xx").

Definition visited : list Event :=
  map (fun c => ServerChanged (city c)) ["Oslo"; "Rome"; "Wien"; "Oslo"; "Bern"]%string ++ [Restart].

Lemma recent_refines_witness :
  m_singleHopModel (run visited (initialize fresh)) = map city ["Bern"; "Oslo"; "Wien"]%string.
Proof.
  destruct (recent_refines visited) as (E & _). etransitivity; [exact E|].
  vm_compute. reflexivity.
Defined.

(** Of a longer list of an older version the first two connections and the last are
    kept, not the first three. *)
Definition migrated : list RecentConnection :=
  m_singleHopModel (initialize (mkConnections [] [] []
    (Some (map qs ["Oslo, no"; "Rome, it"; "Wien, at"; "Bern, ch"]%string)))).

Lemma migrate_keeps_last :
  map m_exitCityName migrated = map qs ["Oslo"; "Rome"; "Bern"]%string.
Proof. vm_compute. reflexivity. Qed.

End RecentConnections.
