(* ===== verification/CaptivePortal.v ===== *)
(** * Captive portal detection

    Model of [src/src/captiveportal/]: the addresses of the test server and their
    settings, the requests to them and how their results are combined, the task with its
    retries and its time limit, and the detection that reacts to the state of the
    connection. *)
From Stdlib Require Import ZArith Lia Ascii String.
From stdpp Require Import base numbers list gmap strings relations.
From S2P Require Import Prelude QHostAddress QString Json ControllerModel ConnectionHealth.

Local Open Scope Z_scope.
Local Open Scope wg_scope.

Module CaptivePortal.

#[local] Existing Instance ConnectionHealth.ConnectionStability_eq_dec.

(** ** The addresses *)

Record Addresses : Type := mkAddresses {
  m_ipv4Addresses : list chars;
  m_ipv6Addresses : list chars;
}.

(** One entry of the array: its family and address. *)
Definition entryOfJson (entry : QJsonValue) : option (bool * chars) :=
  match entry with
  | JObject obj =>
      match value (qs "address") obj, value (qs "family") obj with
      | JString address, JDouble n d =>
          if jsonToInt (JDouble n d) =? 4 then Some (true, address)
          else if jsonToInt (JDouble n d) =? 6 then Some (false, address)
          else None
      | _, _ => None
      end
  | _ => None
  end.

Definition ofFamily (v4 : bool) (l : list (bool * chars)) : list chars :=
  map snd (List.filter (fun e => eqb (fst e) v4) l).

(** [fromJson]; [array] is [None] where the document is not an array. On failure the
    addresses stay. *)
Definition fromJson (array : option (list QJsonValue)) (a : Addresses) : bool * Addresses :=
  match array ≫= mapM entryOfJson with
  | None => (false, a)
  | Some l => (true, mkAddresses (ofFamily true l) (ofFamily false l))
  end.

(** [fromSettings] and [writeSettings], over the two settings with the addresses. *)
Definition fromSettings (settings a : Addresses) : bool * Addresses := (true, settings).

Definition writeSettings (a settings : Addresses) : Addresses := a.

(** ** A request to every address *)

Inductive CaptivePortalResult : Type := NoPortal | PortalDetected | Failure.

#[export] Instance Result_eq_dec : EqDecision CaptivePortalResult.
Proof. solve_decision. Defined.

(** What a network request signals first; later signals of an aborted one are ignored. *)
Inductive Response : Type :=
| Redirected
| Failed
| Completed (statusCode : Z) (data : chars).

Definition CAPTIVEPORTAL_REQUEST_CONTENT : chars := qs "success".

Definition resultOf (r : Response) : CaptivePortalResult :=
  match r with
  | Redirected => PortalDetected
  | Failed => Failure
  | Completed statusCode data =>
      if negb (statusCode =? 200) then PortalDetected
      else if bool_decide (trimmed data = CAPTIVEPORTAL_REQUEST_CONTENT) then NoPortal
      else PortalDetected
  end.

(** [outstanding] is the network requests that have not responded. *)
Record CaptivePortalRequest : Type := mkRequest {
  outstanding : nat;
  m_running : Z;
  m_success : Z;
}.

#[export] Instance CaptivePortalRequest_eta : Eta CaptivePortalRequest := fun r =>
  mkRequest (outstanding r) (m_running r) (m_success r).

(** [onResult], with what it emits. The object is deleted later: responses that arrive
    until then are still counted. *)
Definition onResult (p : CaptivePortalResult) (r : CaptivePortalRequest)
  : option CaptivePortalResult * CaptivePortalRequest :=
  let r := r <| m_running := m_running r - 1 |> in
  let r := if bool_decide (p = NoPortal) then r <| m_success := m_success r + 1 |> else r in
  if bool_decide (p = PortalDetected) then (Some p, r)
  else if m_running r =? 0 then (Some (if 0 <? m_success r then NoPortal else Failure), r)
  else (None, r).

(** The response of one of the network requests. *)
Definition respond (p : Response) (r : CaptivePortalRequest)
  : option CaptivePortalResult * CaptivePortalRequest :=
  onResult (resultOf p) (r <| outstanding := pred (outstanding r) |>).

(** The addresses as they are written into the URL. *)
Definition hosts (a : Addresses) : list chars :=
  m_ipv4Addresses a ++ map (fun x => qs "[" ++ x ++ qs "]") (m_ipv6Addresses a).

Definition newRequest (n : nat) : CaptivePortalRequest := mkRequest n (Z.of_nat n) 0.

(** ** The task *)

(** [timer] is the one of thirty seconds, [retries] the delayed requests; [asked] is the
    hosts asked so far and [operationCompleted] the signals of that name, each followed by
    [completed]. *)
Record RequestTask : Type := mkTask {
  m_retryOnFailure : bool;
  m_completed : bool;
  requests : list CaptivePortalRequest;
  timer : bool;
  retries : nat;
  asked : list chars;
  operationCompleted : list CaptivePortalResult;
}.

#[export] Instance RequestTask_eta : Eta RequestTask := fun t =>
  mkTask (m_retryOnFailure t) (m_completed t) (requests t) (timer t) (retries t) (asked t)
    (operationCompleted t).

Definition construct (retryOnFailure : bool) : RequestTask :=
  mkTask retryOnFailure false [] false 0 [] [].

Definition taskResult (p : CaptivePortalResult) (t : RequestTask) : RequestTask :=
  if m_completed t then t
  else if bool_decide (p = Failure) && m_retryOnFailure t then t <| retries := S (retries t) |>
  else t <| m_completed := true |> <| operationCompleted := operationCompleted t ++ [p] |>.

Definition createRequest (a : Addresses) (t : RequestTask) : RequestTask :=
  match hosts a with
  | [] => taskResult NoPortal t
  | l => t <| requests := requests t ++ [newRequest (length l)] |> <| asked := asked t ++ l |>
  end.

Definition runTask (a : Addresses) (t : RequestTask) : RequestTask :=
  createRequest a (t <| timer := true |>).

(** A response to the [i]-th request, one of the two timers. *)
Inductive TaskEvent : Type :=
| Responded (i : nat) (p : Response)
| MaxTimeout
| RetryTimeout (a : Addresses).

Definition taskEvent (e : TaskEvent) (t : RequestTask) : RequestTask :=
  match e with
  | Responded i p =>
      match requests t !! i with
      | None => t
      | Some r =>
          let '(result, r) := respond p r in
          let t := t <| requests := <[i := r]> (requests t) |> in
          match result with Some x => taskResult x t | None => t end
      end
  | MaxTimeout => taskResult NoPortal (t <| timer := false |>)
  | RetryTimeout a => createRequest a (t <| retries := pred (retries t) |>)
  end.

(** A network request responds once, a timer fires when it runs. *)
Definition taskEnabled (e : TaskEvent) (t : RequestTask) : Prop :=
  match e with
  | Responded i _ => exists r, requests t !! i = Some r /\ outstanding r <> 0%nat
  | MaxTimeout => timer t = true
  | RetryTimeout _ => retries t <> 0%nat
  end.

(** ** The detection *)

Inductive Message : Type := CaptivePortalUnblock | OtherMessage.

(** [ScheduleTask] is given the number of the detection. *)
Inductive Effect : Type :=
| ScheduleTask (n : nat)
| CaptivePortalPresent
| RequestScreenCaptivePortal
| NotifyBlock
| NotifyUnblock
| ShowWindow
| DeactivateVpn
| ControllerCaptivePortalGone
| ActivateVpn.

(** [m_impl] is the number of the detection under way; [started] counts them, and
    [m_captivePortalNotifier] says whether the notifier exists. *)
Record Detection : Type := mkDetection {
  m_active : bool;
  m_shouldRun : bool;
  m_impl : option nat;
  m_captivePortalNotifier : bool;
  started : nat;
  effects : list Effect;
}.

#[export] Instance Detection_eta : Eta Detection := fun d =>
  mkDetection (m_active d) (m_shouldRun d) (m_impl d) (m_captivePortalNotifier d) (started d)
    (effects d).

Definition initial : Detection := mkDetection false true None false 0 [].

(** What it reads: the controller, the health of the connection, whether the application
    shows its main screen, the setting, and whether the platform is supported. *)
Record World : Type := mkWorld {
  controllerState : Controller.State;
  stability : ConnectionHealth.ConnectionStability;
  stateMain : bool;
  captivePortalAlert : bool;
  supported : bool;
}.

Definition emit (e : Effect) (d : Detection) : Detection := d <| effects := effects d ++ [e] |>.

Definition online (s : Controller.State) : bool :=
  Controller.stateIn s [Controller.StateOn; Controller.StateConnecting; Controller.StateConfirming].

Definition isOff (s : Controller.State) : bool := Controller.stateIn s [Controller.StateOff].
Definition isOn (s : Controller.State) : bool := Controller.stateIn s [Controller.StateOn].

Definition initialize (w : World) (d : Detection) : Detection :=
  d <| m_active := captivePortalAlert w |>.

Definition detectCaptivePortal (w : World) (d : Detection) : Detection :=
  if negb (m_active d) then d
  else if negb (online (controllerState w)) then d
  else if negb (supported w) then d
  else
    emit (ScheduleTask (started d))
      (d <| m_impl := Some (started d) |> <| started := S (started d) |>).

Definition networkChanged (w : World) (d : Detection) : Detection :=
  if negb (online (controllerState w)) then d else detectCaptivePortal w d.

Definition isStable (s : ConnectionHealth.ConnectionStability) : bool :=
  bool_decide (s = ConnectionHealth.Stable).

Definition stateChanged (w : World) (d : Detection) : Detection :=
  let state := controllerState w in
  if negb (m_active d) then d
  else if isOff state then d
  else if (negb (isOn state) || isStable (stability w))
          && negb (Controller.stateIn state [Controller.StateConnecting; Controller.StateConfirming])
  then d <| m_impl := None |> <| m_shouldRun := true |>
  else if negb (m_shouldRun d) then d
  else detectCaptivePortal w d.

Definition settingsChanged (w : World) (d : Detection) : Detection :=
  let d := d <| m_active := captivePortalAlert w |> in
  if negb (m_active d) then d <| m_impl := None |> else d.

Definition notifier (d : Detection) : Detection := d <| m_captivePortalNotifier := true |>.

Definition captivePortalDetected (w : World) (d : Detection) : Detection :=
  if negb (m_active d) then d
  else
    let d := emit RequestScreenCaptivePortal (emit CaptivePortalPresent d) in
    if isOn (controllerState w) then emit NotifyBlock (notifier d) else d.

Definition detectionCompleted (detected : CaptivePortalResult) (w : World) (d : Detection)
  : Detection :=
  let d := d <| m_impl := None |> <| m_shouldRun := false |> in
  match detected with
  | NoPortal | Failure => d
  | PortalDetected => captivePortalDetected w d
  end.

Definition captivePortalGone (w : World) (d : Detection) : Detection :=
  if stateMain w && isOff (controllerState w) then emit NotifyUnblock (notifier d) else d.

Definition deactivationRequired (w : World) (d : Detection) : Detection :=
  if negb (isOff (controllerState w)) then emit DeactivateVpn d else d.

Definition activationRequired (w : World) (d : Detection) : Detection :=
  if stateMain w && isOff (controllerState w)
  then emit ActivateVpn (emit ControllerCaptivePortalGone d) else d.

(** [CaptivePortalNotifier::notificationClicked], once there is a notifier. *)
Definition notificationClicked (m : Message) (w : World) (d : Detection) : Detection :=
  if negb (m_captivePortalNotifier d) then d
  else
    emit ShowWindow
      (match m with CaptivePortalUnblock => activationRequired w d | OtherMessage => d end).

(** [TaskCompleted n p]: the task of the [n]-th detection signals its result, of which
    only the detection under way is told. Of what the inspector calls, the report of a portal
    that nothing detected is left out. *)
Inductive Event : Type :=
| NetworkChanged | StateChanged | SettingsChanged | DetectCaptivePortal
| TaskCompleted (n : nat) (p : CaptivePortalResult)
| PortalGone | DeactivationRequired | NotificationClicked (m : Message).

Definition handle (w : World) (e : Event) (d : Detection) : Detection :=
  match e with
  | NetworkChanged => networkChanged w d
  | StateChanged => stateChanged w d
  | SettingsChanged => settingsChanged w d
  | DetectCaptivePortal => detectCaptivePortal w d
  | TaskCompleted n p =>
      if bool_decide (m_impl d = Some n) then detectionCompleted p w d else d
  | PortalGone => captivePortalGone w d
  | DeactivationRequired => deactivationRequired w d
  | NotificationClicked m => notificationClicked m w d
  end.

(** ** The combined result *)

(** The reference: a portal if one response shows it, else no portal if one address
    answers as it should. *)
Definition verdict (l : list CaptivePortalResult) : CaptivePortalResult :=
  if bool_decide (PortalDetected ∈ l) then PortalDetected
  else if bool_decide (NoPortal ∈ l) then NoPortal else Failure.

(** Responses one after the other, with everything that is emitted. *)
Fixpoint feed (l : list Response) (r : CaptivePortalRequest) : list CaptivePortalResult :=
  match l with
  | [] => []
  | p :: l => let '(o, r) := respond p r in option_list o ++ feed l r
  end.

Lemma verdict_cons (x : CaptivePortalResult) (l : list CaptivePortalResult) :
  verdict (x :: l)
  = match x with
    | PortalDetected => PortalDetected
    | NoPortal => if bool_decide (PortalDetected ∈ l) then PortalDetected else NoPortal
    | Failure => verdict l
    end.
Proof.
  unfold verdict. destruct x; repeat case_bool_decide; try done; exfalso; set_solver.
Qed.

Definition oks (x : CaptivePortalResult) : Z := match x with NoPortal => 1 | _ => 0 end.

Lemma respond_eq (p : Response) (n k : nat) (success : Z) :
  respond p (mkRequest n (Z.of_nat (S k)) success)
  = (match resultOf p with
     | PortalDetected => Some PortalDetected
     | x => if (k =? 0)%nat then Some (if 0 <? success + oks x then NoPortal else Failure)
            else None
     end, mkRequest (pred n) (Z.of_nat k) (success + oks (resultOf p))).
Proof.
  unfold respond, onResult. rewrite Nat2Z.inj_succ.
  assert (Z.succ (Z.of_nat k) - 1 = Z.of_nat k) as Ek by lia.
  assert ((Z.of_nat k =? 0) = (k =? 0)%nat) as E by (by destruct k).
  destruct (resultOf p); repeat (case_bool_decide; try done); unfold updateField; cbn;
    rewrite Ek, ?Z.add_0_r, ?E; by destruct (k =? 0)%nat.
Qed.

Lemma feed_head (l : list Response) (n : nat) (success : Z) :
  l <> [] -> 0 <= success ->
  head (feed l (mkRequest n (Z.of_nat (length l)) success))
  = Some (verdict (if 0 <? success then NoPortal :: map resultOf l else map resultOf l)).
Proof.
  revert n success. induction l as [|p l IH]; intros n success Hl Hs; [done|].
  cbn [feed length map]. rewrite respond_eq.
  assert (0 <= success + oks (resultOf p)) as Hs' by (destruct (resultOf p); cbn; lia).
  destruct (resultOf p) eqn:Ep; cbn [oks] in *.
  - destruct l as [|q l]; cbn [length Nat.eqb option_list app head].
    + rewrite (proj2 (Z.ltb_lt 0 (success + 1))) by lia. by destruct (0 <? success).
    + change (S (length l)) with (length (q :: l)). change (option_list None ++ ?x) with x.
      rewrite IH by (done || lia). rewrite (proj2 (Z.ltb_lt 0 (success + 1))) by lia.
      destruct (0 <? success); [|done]. rewrite !verdict_cons.
      f_equal. repeat case_bool_decide; try done; exfalso; set_solver.
  - destruct (0 <? success); by rewrite !verdict_cons.
  - rewrite Z.add_0_r in *. destruct l as [|q l]; cbn [length Nat.eqb option_list app head].
    + by destruct (0 <? success).
    + change (S (length l)) with (length (q :: l)). change (option_list None ++ ?x) with x.
      rewrite IH by done. destruct (0 <? success); rewrite !verdict_cons; [|done].
      f_equal. repeat case_bool_decide; try done; exfalso; set_solver.
Qed.

(** ** Properties *)

(** The result of a detection does not depend on the order in which the addresses
    respond: once all have, the first result signalled is a portal if one of them shows
    it, no portal if none does and one answers as it should, and a failure otherwise. *)
Theorem request_verdict (l : list Response) :
  l <> [] ->
  head (feed l (newRequest (length l))) = Some (verdict (map resultOf l))
  /\ forall l', l ≡ₚ l' -> head (feed l' (newRequest (length l'))) = Some (verdict (map resultOf l)).
Proof.
  intros Hl.
  assert (forall l, l <> [] -> head (feed l (newRequest (length l))) = Some (verdict (map resultOf l)))
    as Hf by (intros r Hr; by apply (feed_head r (length r) 0)).
  split; [by apply Hf|]. intros l' Hp. rewrite Hf by (intros ->; by apply Permutation_nil_r in Hp).
  f_equal. apply (Permutation_map resultOf) in Hp. unfold verdict.
  assert (forall x, x ∈ map resultOf l <-> x ∈ map resultOf l') as He by (intros x; by rewrite Hp).
  by rewrite (bool_decide_ext _ _ (He PortalDetected)), (bool_decide_ext _ _ (He NoPortal)).
Qed.

(** *** The task *)

(** The events a task has met. *)
Inductive TaskRun (retryOnFailure : bool) : list TaskEvent -> RequestTask -> Prop :=
| run_start a : TaskRun retryOnFailure [] (runTask a (construct retryOnFailure))
| run_event h t e :
    TaskRun retryOnFailure h t -> taskEnabled e t ->
    TaskRun retryOnFailure (h ++ [e]) (taskEvent e t).

(** What is asserted when a result arrives. *)
Definition counted (r : CaptivePortalRequest) : Prop := m_running r = Z.of_nat (outstanding r).

(** A response of the history shows a portal. *)
Definition shown (h : list TaskEvent) : Prop :=
  exists i p, Responded i p ∈ h /\ resultOf p = PortalDetected.

Record TaskInv (h : list TaskEvent) (t : RequestTask) : Prop := {
  inv_counted : Forall counted (requests t);
  inv_once : operationCompleted t = [] \/ exists p, operationCompleted t = [p];
  inv_completed : m_completed t = true <-> operationCompleted t <> [];
  inv_failure : m_retryOnFailure t = true -> Failure ∉ operationCompleted t;
  inv_portal : PortalDetected ∈ operationCompleted t -> shown h;
}.

Lemma shown_more (h l : list TaskEvent) : shown h -> shown (h ++ l).
Proof. intros (i & p & Hi & Hp). exists i, p. split; [set_solver|done]. Qed.

Lemma TaskInv_more (h l : list TaskEvent) (t : RequestTask) : TaskInv h t -> TaskInv (h ++ l) t.
Proof. intros []. split; [done..|]. intros Hp. by apply shown_more, inv_portal0. Qed.

Lemma taskResult_inv (p : CaptivePortalResult) (h : list TaskEvent) (t : RequestTask) :
  TaskInv h t -> (p = PortalDetected -> shown h) -> TaskInv h (taskResult p t).
Proof.
  intros [Hc Ho Hm Hf Hp] Hs. unfold taskResult. destruct (m_completed t) eqn:E in |- *; [by split|].
  assert (operationCompleted t = []) as En.
  { destruct Ho as [|[x Ex]]; [done|].
    assert (m_completed t = true) as Hx by (apply Hm; by rewrite Ex). congruence. }
  destruct (bool_decide (p = Failure) && m_retryOnFailure t) eqn:Er; [by split|].
  split; [exact Hc| | | |]; cbn; rewrite En; cbn [app].
  - right. by exists p.
  - done.
  - intros Hr [<-|Hx]%elem_of_cons; [|by apply elem_of_nil in Hx].
    by rewrite Hr, bool_decide_true in Er.
  - intros [<-|Hx]%elem_of_cons; [by apply Hs|by apply elem_of_nil in Hx].
Qed.

Lemma createRequest_inv (a : Addresses) (h : list TaskEvent) (t : RequestTask) :
  TaskInv h t -> TaskInv h (createRequest a t).
Proof.
  intros Ht. unfold createRequest. destruct (hosts a) as [|x l]; [by apply taskResult_inv|].
  destruct Ht as [Hc Ho Hm Hf Hp]. split; [|done..]. apply Forall_app. split; [exact Hc|].
  by apply Forall_singleton.
Qed.

Lemma taskEvent_inv (e : TaskEvent) (h : list TaskEvent) (t : RequestTask) :
  taskEnabled e t -> TaskInv h t -> TaskInv (h ++ [e]) (taskEvent e t).
Proof.
  intros He Ht. apply (TaskInv_more h [e]) in Ht. destruct e as [i p| |a]; cbn [taskEvent].
  - destruct He as (r & Er & Hn). rewrite Er.
    assert (counted r) as Hr by (by apply (Forall_lookup_1 _ _ i r (inv_counted _ _ Ht))).
    destruct r as [n running success]. unfold counted in Hr. cbn in Hr, Hn. subst running.
    destruct n as [|n]; [done|]. rewrite respond_eq. cbn [pred].
    assert (TaskInv (h ++ [Responded i p]) (t <| requests :=
      <[i := mkRequest n (Z.of_nat n) (success + oks (resultOf p))]> (requests t) |>)) as Hi.
    { destruct Ht as [Hc Ho Hm Hf Hp]. split; [|done..]. by apply Forall_insert. }
    assert (resultOf p = PortalDetected -> shown (h ++ [Responded i p])) as Hs
      by (intros E; exists i, p; split; [set_solver|done]).
    destruct (resultOf p) eqn:Ep; [|by apply taskResult_inv|];
      destruct (n =? 0)%nat; try done; apply taskResult_inv; try done;
      by destruct (0 <? _).
  - apply taskResult_inv; [|done]. by destruct Ht.
  - apply createRequest_inv. by destruct Ht.
Qed.

Lemma timer_taskResult (p : CaptivePortalResult) (t : RequestTask) :
  timer (taskResult p t) = timer t.
Proof. unfold taskResult. by repeat case_match. Qed.

Lemma timer_createRequest (a : Addresses) (t : RequestTask) :
  timer (createRequest a t) = timer t.
Proof. unfold createRequest. destruct (hosts a); [apply timer_taskResult|done]. Qed.

Lemma timer_run b h t : TaskRun b h t -> timer t = false <-> MaxTimeout ∈ h.
Proof.
  induction 1 as [a|h t e _ IH He]; [unfold runTask; rewrite timer_createRequest; set_solver|].
  rewrite elem_of_app, list_elem_of_singleton.
  destruct e as [i p| |a]; cbn [taskEvent].
  - assert (timer (taskEvent (Responded i p) t) = timer t) as E.
    { cbn. destruct (requests t !! i) as [r|]; [|done]. destruct (respond p r) as [[x|] r'];
        [by rewrite timer_taskResult|done]. }
    cbn [taskEvent] in E. rewrite E, IH. naive_solver.
  - rewrite timer_taskResult. cbn. naive_solver.
  - rewrite timer_createRequest. cbn. rewrite IH. naive_solver.
Qed.

Lemma completed_timeout b h t : TaskRun b h t -> MaxTimeout ∈ h -> m_completed t = true.
Proof.
  assert (forall p t, m_completed t = true -> m_completed (taskResult p t) = true) as Hr
    by (intros p u E; unfold taskResult; by rewrite E).
  induction 1 as [a|h t e _ IH He]; [set_solver|].
  rewrite elem_of_app, list_elem_of_singleton. intros Hin.
  destruct e as [i p| |a]; cbn [taskEvent].
  - destruct Hin as [Hin|]; [|done]. specialize (IH Hin).
    destruct (requests t !! i) as [r|]; [|done]. destruct (respond p r) as [[x|] r']; [|done].
    by apply Hr.
  - unfold taskResult. cbn. by destruct (m_completed t) eqn:E.
  - destruct Hin as [Hin|]; [|done]. specialize (IH Hin). unfold createRequest.
    destruct (hosts a); [by apply Hr|done].
Qed.

(** C14: whatever the network does, the counters of the requests are those of the responses
    still to come, the task signals its result at most once, and at the latest when its
    time is up; a portal is only reported if a response shows it, and a failure only if
    the task does not retry. *)
Theorem task_completes (b : bool) (h : list TaskEvent) (t : RequestTask) :
  TaskRun b h t ->
  Forall counted (requests t)
  /\ (length (operationCompleted t) <= 1)%nat
  /\ (operationCompleted t = [] -> timer t = true)
  /\ (PortalDetected ∈ operationCompleted t -> shown h)
  /\ (b = true -> Failure ∉ operationCompleted t).
Proof.
  intros Hr. assert (TaskInv h t /\ m_retryOnFailure t = b) as [[Hc Ho Hm Hf Hp] Hb].
  { induction Hr as [a|h t e Hr [IH Eb] He].
    - split; [|unfold runTask, createRequest; by destruct (hosts a)].
      apply createRequest_inv. split; cbn; try done; [by left|..]; set_solver.
    - split; [by apply taskEvent_inv|]. rewrite <- Eb.
      assert (forall p t, m_retryOnFailure (taskResult p t) = m_retryOnFailure t) as Hk
        by (intros p u; unfold taskResult; by repeat case_match).
      destruct e as [i p| |a]; cbn [taskEvent]; [|by rewrite Hk|].
      + destruct (requests t !! i) as [r|]; [|done]. destruct (respond p r) as [[x|] r'];
          [by rewrite Hk|done].
      + unfold createRequest. destruct (hosts a); [by rewrite Hk|done]. }
  split_and!; [done| | |done|intros E; apply Hf; congruence].
  - destruct Ho as [->|[x ->]]; cbn; lia.
  - intros E. destruct (timer t) eqn:Et; [done|]. apply (timer_run _ _ _ Hr) in Et.
    apply (completed_timeout _ _ _ Hr), Hm in Et. by rewrite E in Et.
Qed.

(** An address answers that it fails, another one redirects. *)
Lemma request_verdict_witness :
  head (feed [Failed; Redirected] (newRequest 2)) = Some PortalDetected
  /\ head (feed [Redirected; Failed] (newRequest 2)) = Some PortalDetected.
Proof.
  destruct (request_verdict [Failed; Redirected]) as [H1 H2]; [discriminate|].
  split; [exact H1|]. apply (H2 [Redirected; Failed]). apply Permutation_swap.
Defined.

Definition server : Addresses := mkAddresses [qs "192.0.2.1"] [qs "2001:db8::1"].

(** The first request fails, the retry meets a portal. *)
Definition retried : list TaskEvent :=
  [Responded 0 Failed; Responded 0 Failed; RetryTimeout server; Responded 1 Redirected].

Lemma TaskRun_fold (b : bool) (a : Addresses) (h : list TaskEvent) :
  (forall n e, h !! n = Some e ->
     taskEnabled e (foldl (fun t e => taskEvent e t) (runTask a (construct b)) (take n h))) ->
  TaskRun b h (foldl (fun t e => taskEvent e t) (runTask a (construct b)) h).
Proof.
  induction h as [|e h IH] using rev_ind; intros He; [constructor|].
  rewrite foldl_app. constructor.
  - apply IH. intros n x Hn. rewrite <- (take_app_le h [e]) by (apply lookup_lt_Some in Hn; lia).
    apply He. by apply lookup_app_l_Some.
  - rewrite <- (take_app_length h [e]) at 1. apply He. by apply list_lookup_middle.
Qed.

Lemma task_completes_witness :
  (let t := foldl (fun t e => taskEvent e t) (runTask server (construct true)) retried in
   operationCompleted t = [PortalDetected] /\ timer t = true)
  /\ shown retried.
Proof.
  split; [by vm_compute|].
  destruct (task_completes true retried
    (foldl (fun t e => taskEvent e t) (runTask server (construct true)) retried))
    as (_ & _ & _ & Hp & _).
  - apply TaskRun_fold. intros [|[|[|[|n]]]] e [= <-];
      first [discriminate | eexists; split; [reflexivity | discriminate]].
  - apply Hp. vm_compute. by constructor.
Defined.

(** *** The detection *)

(** The states of the detection, whatever the state of the rest is at each event. *)
Inductive DetectionRun : Detection -> Prop :=
| detection_initialize w : DetectionRun (initialize w initial)
| detection_handle d w e : DetectionRun d -> DetectionRun (handle w e d).

Definition isPresent (e : Effect) : bool :=
  match e with CaptivePortalPresent => true | _ => false end.

Definition isSchedule (e : Effect) : bool :=
  match e with ScheduleTask _ => true | _ => false end.

Definition underway (d : Detection) : nat := match m_impl d with Some _ => 1 | None => 0 end.

(** The numbers of the detections that were started. *)
Definition scheduled (d : Detection) : list nat :=
  omap (fun e => match e with ScheduleTask n => Some n | _ => None end) (effects d).

Record DetectionInv (d : Detection) : Prop := {
  inv_latest : forall n, m_impl d = Some n -> started d = S n;
  inv_inactive : m_active d = false -> m_impl d = None;
  inv_scheduled : scheduled d = seq 0 (started d);
  inv_reported :
    (length (List.filter isPresent (effects d)) + underway d <= started d)%nat;
}.

Lemma scheduled_emit (e : Effect) (d : Detection) :
  scheduled (emit e d)
  = scheduled d ++ match e with ScheduleTask n => [n] | _ => [] end.
Proof. unfold scheduled, emit. cbn. rewrite omap_app. by destruct e. Qed.

(** The effects other than a detection or a report change nothing of the invariant. *)
Lemma emit_inv (e : Effect) (d : Detection) :
  isSchedule e = false -> isPresent e = false -> DetectionInv d -> DetectionInv (emit e d).
Proof.
  intros He Hp [Hl Ha Hs Hr]. split; [done..| |].
  - rewrite scheduled_emit. destruct e; try discriminate; by rewrite app_nil_r.
  - unfold emit. cbn. rewrite List.filter_app, length_app. cbn. rewrite Hp. cbn.
    by rewrite Nat.add_0_r.
Qed.

Lemma notifier_inv (d : Detection) : DetectionInv d -> DetectionInv (notifier d).
Proof. by intros []. Qed.

Lemma reset_inv (d : Detection) : DetectionInv d -> DetectionInv (d <| m_impl := None |>).
Proof.
  intros [Hl Ha Hs Hr]. split; [done..|]. unfold underway. cbn. lia.
Qed.

Lemma detect_inv (w : World) (d : Detection) :
  DetectionInv d -> DetectionInv (detectCaptivePortal w d).
Proof.
  intros Hd. unfold detectCaptivePortal. destruct (m_active d) eqn:Ea; [|done].
  destruct (online _); [|done]. destruct (supported w); [|done].
  destruct Hd as [Hl _ Hs Hr]. cbn [negb].
  split.
  - cbn. by intros n [= <-].
  - cbn. by rewrite Ea.
  - rewrite scheduled_emit. change (scheduled _) with (scheduled d). cbn [started emit].
    rewrite Hs. symmetry. apply seq_S.
  - unfold underway, emit in *. cbn. rewrite List.filter_app, length_app. cbn. lia.
Qed.

Lemma completed_inv (w : World) (n : nat) (p : CaptivePortalResult) (d : Detection) :
  m_impl d = Some n -> DetectionInv d -> DetectionInv (detectionCompleted p w d).
Proof.
  intros En [Hl Ha Hs Hr].
  assert (underway d = 1%nat) as Eu by (unfold underway; by rewrite En).
  destruct p; unfold detectionCompleted.
  1,3: split; [done..|unfold underway; cbn; lia].
  unfold captivePortalDetected. cbn.
  destruct (m_active d) eqn:Ea; cbn; [|split; [done..|unfold underway; cbn; lia]].
  assert (DetectionInv (emit CaptivePortalPresent
            (d <| m_impl := None |> <| m_shouldRun := false |>))) as Hi.
  { split; [done..| |].
    - rewrite scheduled_emit. by rewrite app_nil_r.
    - unfold underway, emit. cbn. rewrite List.filter_app, length_app. cbn. lia. }
  destruct (isOn _); repeat first [apply emit_inv; [done..|] | apply notifier_inv]; exact Hi.
Qed.

Lemma handle_inv (w : World) (e : Event) (d : Detection) :
  DetectionInv d -> DetectionInv (handle w e d).
Proof.
  intros Hd. destruct e as [| | | |n p| | |m]; cbn [handle].
  - unfold networkChanged. destruct (online _); [by apply detect_inv|done].
  - unfold stateChanged. destruct (m_active d); [|done]. cbn [negb].
    destruct (isOff _); [done|]. destruct (_ && _).
    + apply reset_inv in Hd. by destruct Hd.
    + destruct (m_shouldRun d); [by apply detect_inv|done].
  - unfold settingsChanged. cbn. destruct (captivePortalAlert w) eqn:E; cbn.
    + destruct Hd. by split.
    + apply reset_inv in Hd. by destruct Hd.
  - by apply detect_inv.
  - case_bool_decide; [by eapply completed_inv|done].
  - unfold captivePortalGone. destruct (_ && _); [|done]. apply emit_inv; [done..|].
    by apply notifier_inv.
  - unfold deactivationRequired. destruct (negb _); [by apply emit_inv|done].
  - unfold notificationClicked. destruct (m_captivePortalNotifier d); [|done]. cbn [negb].
    apply emit_inv; [done..|]. destruct m; [|done]. unfold activationRequired.
    destruct (_ && _); [|done]. by repeat (apply emit_inv; [done..|]).
Qed.

(** Whatever the connection and the settings do, only the result of the latest
    detection is listened to, none is under way while the alert is switched off, and a
    detection reports a portal at most once. *)
Theorem detection_reports (d : Detection) :
  DetectionRun d ->
  (forall n, m_impl d = Some n -> started d = S n)
  /\ (m_active d = false -> m_impl d = None)
  /\ scheduled d = seq 0 (started d)
  /\ (length (List.filter isPresent (effects d)) + underway d <= started d)%nat.
Proof.
  intros Hd. assert (DetectionInv d) as [] by
    (induction Hd as [w|d w e _ IH]; [by split|by apply handle_inv]).
  by split_and!.
Qed.

Definition unstable : World := mkWorld Controller.StateOn ConnectionHealth.Unstable true true true.

(** An instability, a change of network that starts a new detection, and the results of
    both. *)
Definition superseded : Detection :=
  foldl (fun d e => handle unstable e d) (initialize unstable initial)
    [StateChanged; NetworkChanged; TaskCompleted 0 PortalDetected; TaskCompleted 1 PortalDetected].

Lemma detection_reports_witness :
  effects superseded
  = [ScheduleTask 0; ScheduleTask 1; CaptivePortalPresent; RequestScreenCaptivePortal; NotifyBlock]
  /\ scheduled superseded = [0; 1]%nat.
Proof.
  split; [by vm_compute|].
  destruct (detection_reports superseded) as (_ & _ & Hs & _); [|exact Hs].
  unfold superseded. cbn [foldl]. by repeat constructor.
Defined.

End CaptivePortal.
