(* ===== verification/MozillaVPN.v ===== *)
(** * The application

    Model of the reachable part of [src/src/mozillavpn.cpp] and of
    [src/src/errorhandler.cpp]: the state that selects the screen, what makes it
    change, and the tasks it schedules. The profiles are those of
    WireGuardProfileModel; the state of the controller and the answers of the account
    models are inputs. A queued task starts in a step of its own. What follows the
    early returns of [initialize], [maybeStateMain], [loadModels],
    [modelsInitialized], [scheduleRefreshDataTasks] and [maybeRegenerateDeviceKey] is
    never executed. *)
From Stdlib Require Import ZArith Lia Ascii String.
From stdpp Require Import base numbers list gmap strings.
From S2P Require Import Prelude QHostAddress QString QtTextModel IPAddress Json InterfaceConfig.
From S2P Require Import WireGuardConfig WireGuardProfileModel Server ServerList ServerData Dns.
From S2P Require Import Tasks ControllerModel ControllerProofs TaskControllerAction.

Local Open Scope Z_scope.
Local Open Scope wg_scope.

Module ErrorHandler.

(** ** Errors and alerts *)

Inductive ErrorType : Type :=
| NoError | ConnectionFailureError | SplitTunnelError | NoConnectionError
| DependentConnectionError | AuthenticationError | ControllerError | RemoteServiceError
| SubscriptionFailureError | GeoIpRestrictionError | UnrecoverableError | IgnoredError.

Inductive AlertType : Type :=
| NoAlert | AuthenticationFailedAlert | ConnectionFailedAlert | LogoutAlert | NoConnectionAlert
| ControllerErrorAlert | SplitTunnelErrorAlert | SplitTunnelErrorAlertWithLink
| RemoteServiceErrorAlert | SubscriptionFailureAlert | GeoIpRestrictionAlert
| UnrecoverableErrorAlert | CopiedToClipboardConfirmationAlert | VPNMustBeOffWarning
| SampleInfoAlert | SettingsDecryptionErrorAlert.

#[export] Instance AlertType_eq_dec : EqDecision AlertType.
Proof. solve_decision. Defined.

Inductive ErrorPropagationPolicy : Type := DoNotPropagateError | PropagateError.

#[export] Instance ErrorPropagationPolicy_eq_dec : EqDecision ErrorPropagationPolicy.
Proof. solve_decision. Defined.

(** [QNetworkReply::NetworkError]. *)
Inductive NetworkError : Type :=
| ConnectionRefusedError | RemoteHostClosedError | HostNotFoundError | TimeoutError
| OperationCanceledError | SslHandshakeFailedError | TemporaryNetworkFailureError
| NetworkSessionFailedError | BackgroundRequestNotAllowedError | TooManyRedirectsError
| InsecureRedirectError | UnknownNetworkError | ProxyConnectionRefusedError
| ProxyConnectionClosedError | ProxyNotFoundError | ProxyTimeoutError
| ProxyAuthenticationRequiredError | UnknownProxyError | ContentAccessDenied
| ContentOperationNotPermittedError | ContentNotFoundError | AuthenticationRequiredError
| ContentReSendError | ContentConflictError | ContentGoneError | UnknownContentError
| ProtocolUnknownError | ProtocolInvalidOperationError | ProtocolFailure
| InternalServerError | OperationNotImplementedError | ServiceUnavailableError
| UnknownServerError | NoNetworkError.

Definition toErrorType (error : NetworkError) : ErrorType :=
  match error with
  | ConnectionRefusedError | RemoteHostClosedError | SslHandshakeFailedError
  | TemporaryNetworkFailureError | NetworkSessionFailedError | TooManyRedirectsError
  | InsecureRedirectError | ProxyConnectionRefusedError | ProxyConnectionClosedError
  | ProxyNotFoundError | ProxyTimeoutError | ProxyAuthenticationRequiredError
  | ServiceUnavailableError => ConnectionFailureError
  | HostNotFoundError => NoConnectionError
  | TimeoutError => DependentConnectionError
  | UnknownNetworkError => NoConnectionError
  | OperationCanceledError | BackgroundRequestNotAllowedError | ContentAccessDenied
  | ContentNotFoundError | ContentReSendError | ContentConflictError | ContentGoneError
  | InternalServerError | OperationNotImplementedError | ProtocolUnknownError
  | UnknownProxyError | UnknownContentError | ProtocolInvalidOperationError
  | ProtocolFailure | UnknownServerError => IgnoredError
  | ContentOperationNotPermittedError | AuthenticationRequiredError => AuthenticationError
  | NoNetworkError => NoError
  end.

(** The alert of an error. The application replaces two entries of the table by
    functions of the connection's health and of the controller's state. *)
Definition getAlert (unsettled : bool) (state : Controller.State) (error : ErrorType)
  : AlertType :=
  match error with
  | NoError => NoAlert
  | ConnectionFailureError => ConnectionFailedAlert
  | NoConnectionError => if unsettled then NoAlert else NoConnectionAlert
  | DependentConnectionError =>
      match state with
      | Controller.StateOn | Controller.StateConfirming => NoAlert
      | Controller.StateOff => NoConnectionAlert
      | _ => ConnectionFailedAlert
      end
  | AuthenticationError => AuthenticationFailedAlert
  | ControllerError => ControllerErrorAlert
  | SplitTunnelError => SplitTunnelErrorAlert
  | RemoteServiceError => RemoteServiceErrorAlert
  | SubscriptionFailureError => SubscriptionFailureAlert
  | GeoIpRestrictionError => GeoIpRestrictionAlert
  | UnrecoverableError => UnrecoverableErrorAlert
  | IgnoredError => NoAlert
  end.

Definition supportPolicyPropagation (error : ErrorType) : bool :=
  match error with
  | AuthenticationError | SubscriptionFailureError | GeoIpRestrictionError => false
  | _ => true
  end.

End ErrorHandler.

Module MozillaVPN.
Import ErrorHandler.

(** ** State *)

Inductive State : Type :=
| StateInitialize | StateAuthenticating | StateBillingNotAvailable | StateMain
| StateSubscriptionBlocked | StateSubscriptionNeeded | StateSubscriptionInProgress
| StateSubscriptionNotValidated | StateOnboarding | StateDeviceLimit
| StateHeartbeatFailure | StateUpdateRequired | StatePermissionRequired.

#[export] Instance State_eq_dec : EqDecision State.
Proof. solve_decision. Defined.

#[export] Instance ControllerState_eq_dec : EqDecision Controller.State.
Proof. solve_decision. Defined.

(** The tasks of the application: those of the controller, and functions. *)
Inductive Job : Type :=
| ControllerAction (action : TaskControllerAction.TaskAction)
| RemoveDevice
| DeleteOSTunnelConfig
| ActivateFunction
| MaybeStateMainFunction
| SubscriptionFunction
| HardResetFunction
| QuitFunction.

Definition deletePolicy (j : Job) : DeletePolicy :=
  match j with
  | ControllerAction _ | RemoveDevice | DeleteOSTunnelConfig => NonDeletable
  | _ => Deletable
  end.

Inductive Effect : Type :=
| UserAuthenticationMaybeChanged
| StateChanged (s : State)
| ControllerInitialize
| ControllerQuit
| ComponentsInitialized
| AlertQueued (a : AlertType)
| AlertChanged (a : AlertType)
| ErrorHandledSignal
| AuthenticationAborted
| SubscriptionCompletedSignal
| SubscriptionStopped
| SettingsReset
| KeysForgotten
| ServerDataForgotten
| UpdatingChanged
| StartingOnBoot
| CacheCleared
| ConnectionFailureNotification.

#[export] Instance Effect_eq_dec : EqDecision Effect.
Proof. solve_decision. Defined.

(** [jobs] is the queue of the task scheduler and [done] what it has run;
    [controllerState] is the state of the controller, [onboardingCompleted] a
    setting. *)
Record App `{QtJson} : Type := mkApp {
  m_state : State;
  m_initialized : bool;
  m_updating : bool;
  m_controllerInitialized : bool;
  m_locationInitialized : bool;
  m_isLoggingIn : bool;
  m_wireGuardProfileModel : WireGuardProfileModel.Model;
  controllerState : Controller.State;
  m_alert : AlertType;
  m_alertTimer : bool;
  onboardingCompletedSetting : bool;
  jobs : list Job;
  done : list Job;
  effects : list Effect;
}.

#[export] Instance App_eta `{QtJson} : Eta App := fun a =>
  mkApp _ (m_state a) (m_initialized a) (m_updating a) (m_controllerInitialized a)
    (m_locationInitialized a) (m_isLoggingIn a) (m_wireGuardProfileModel a) (controllerState a)
    (m_alert a) (m_alertTimer a) (onboardingCompletedSetting a) (jobs a) (done a) (effects a).

Section Application.
Context `{QtText} `{QtJson}.

(** Translated strings. *)
Variable tr : chars -> chars.

Definition emit (e : Effect) (a : App) : App := a <| effects := effects a ++ [e] |>.

(** The constructor, with the profiles of the settings. *)
Definition construct (s : WireGuardProfileModel.Settings) (onboarded : bool) : App :=
  mkApp _ StateInitialize false false false false false (WireGuardProfileModel.construct s)
    Controller.StateInitializing NoAlert false onboarded [] [] [].

Definition hasProfiles (a : App) : bool :=
  WireGuardProfileModel.hasProfiles (m_wireGuardProfileModel a).

Definition modelsInitialized (a : App) : bool := hasProfiles a.
Definition userAuthenticated (a : App) : bool := hasProfiles a.

(** ** Tasks *)

Definition scheduleTask (j : Job) (a : App) : App := a <| jobs := jobs a ++ [j] |>.

Definition deleteTasks (a : App) : App :=
  a <| jobs := List.filter (fun j => negb (bool_decide (deletePolicy j = Deletable))) (jobs a) |>.

Definition activate (a : App) : App := scheduleTask ActivateFunction (deleteTasks a).

Definition deactivate (a : App) : App :=
  scheduleTask (ControllerAction TaskControllerAction.eDeactivate) (deleteTasks a).

Definition silentSwitch (a : App) : App :=
  scheduleTask (ControllerAction TaskControllerAction.eSilentSwitch) (deleteTasks a).

(** ** The state *)

Definition setState (s : State) (a : App) : App :=
  let a := a <| m_state := s |> in
  let a := emit (StateChanged s) (emit UserAuthenticationMaybeChanged a) in
  match s with
  | StateMain | StateOnboarding =>
      if bool_decide (controllerState a = Controller.StateInitializing)
      then emit ControllerInitialize a else a
  | _ => scheduleTask (ControllerAction TaskControllerAction.eDeactivate) a
  end.

Definition maybeStateMain (a : App) : App :=
  if negb (hasProfiles a) then setState StateInitialize a
  else if bool_decide (controllerState a = Controller.StatePermissionRequired)
  then setState StatePermissionRequired a
  else
    let a := a <| onboardingCompletedSetting := true |> in
    if bool_decide (m_state a = StateUpdateRequired) then a else setState StateMain a.

(** [settingsError] is [SettingsManager::hasError]. *)
Definition initialize (settingsError : bool) (a : App) : App :=
  let a := a <| m_initialized := true |> in
  let a := if settingsError then emit (AlertQueued SettingsDecryptionErrorAlert) a else a in
  let a := emit ComponentsInitialized a in
  let a := a <| m_locationInitialized := true |> in
  if negb (hasProfiles a) then a
  else setState StateMain (a <| onboardingCompletedSetting := true |>).

(** An operation on the profiles and, if it emits [changed], its slot. *)
Definition profileOperation (op : WireGuardProfileModel.Op) (a : App) : bool * App :=
  let m := m_wireGuardProfileModel a in
  let '(ok, m') := WireGuardProfileModel.run tr op m in
  let emitted := drop (length (WireGuardProfileModel.signals m)) (WireGuardProfileModel.signals m') in
  let a := a <| m_wireGuardProfileModel := m' |> in
  if existsb (fun s => match s with WireGuardProfileModel.Changed => true | _ => false end) emitted
  then
    let a := emit UserAuthenticationMaybeChanged a in
    (ok, if m_initialized a then maybeStateMain a else a)
  else (ok, a).

(** [SettingsManager::reset] removes the profiles, but the model of the profiles keeps
    those it has loaded; whether the onboarding is completed is not removed. *)
Definition resetSettings (a : App) : App :=
  let m := m_wireGuardProfileModel a in
  let m := WireGuardProfileModel.mkModel _ (WireGuardProfileModel.m_profiles m)
             (WireGuardProfileModel.m_activeProfileId m) (WireGuardProfileModel.m_lastError m)
             (WireGuardProfileModel.mkSettings _ emptyBytes []) (WireGuardProfileModel.signals m) in
  emit SettingsReset (a <| m_wireGuardProfileModel := m |>).

Definition reset (forceInitialState : bool) (a : App) : App :=
  let a := deactivate a in
  let a := emit ServerDataForgotten (emit KeysForgotten (resetSettings a)) in
  let a := emit SubscriptionStopped (scheduleTask DeleteOSTunnelConfig a) in
  if forceInitialState then setState StateInitialize a
  else emit UserAuthenticationMaybeChanged a.

(** ** Alerts *)

Definition setAlert (alert : AlertType) (a : App) : App :=
  emit (AlertChanged alert)
    (a <| m_alertTimer := negb (bool_decide (alert = NoAlert)) |> <| m_alert := alert |>).

Definition errorHandled (a : App) : App :=
  let alert := m_alert a in
  let a := if bool_decide (alert = ControllerErrorAlert)
           then emit ConnectionFailureNotification a else a in
  if bool_decide (m_state a = StateAuthenticating) then reset true a
  else if bool_decide (alert = AuthenticationFailedAlert) then reset true a
  else a.

(** [unsettled] is [ConnectionHealth::isUnsettled]. *)
Definition errorHandle (unsettled : bool) (error : ErrorType) (a : App) : App :=
  let alert := getAlert unsettled (controllerState a) error in
  if bool_decide (alert = NoAlert) then a
  else errorHandled (emit ErrorHandledSignal (setAlert alert a)).

Definition networkErrorHandle (unsettled : bool) (error : NetworkError)
    (policy : ErrorPropagationPolicy) (a : App) : App :=
  let errorType := toErrorType error in
  if negb (supportPolicyPropagation errorType) || bool_decide (policy = PropagateError)
  then errorHandle unsettled errorType a else a.

(** ** Operations of the user *)

(** [hasCurrentDevice] is that of the model of the devices. *)
Definition logout (hasCurrentDevice : bool) (a : App) : App :=
  let a := setAlert LogoutAlert a in
  let a := deleteTasks (deactivate a) in
  let a := if hasCurrentDevice then scheduleTask RemoveDevice a else a in
  reset (negb (bool_decide (m_state a = StateUpdateRequired))) a.

Definition cancelAuthentication (a : App) : App :=
  if negb (bool_decide (m_state a = StateAuthenticating)) then a
  else reset true (emit AuthenticationAborted a).

Definition abortAuthentication (a : App) : App :=
  emit AuthenticationAborted (setState StateInitialize a).

Definition onboardingCompleted (a : App) : App :=
  if negb (hasProfiles a)
  then setState StateInitialize (a <| onboardingCompletedSetting := false |>)
  else
    let a := a <| onboardingCompletedSetting := true |> in
    if bool_decide (m_state a = StateUpdateRequired) then a else maybeStateMain a.

Definition setUpdating (updating : bool) (a : App) : App :=
  emit UpdatingChanged (a <| m_updating := updating |>).

Definition update (a : App) : App := setUpdating false a.

(** [SettingsManager::hardReset] removes every setting. *)
Definition hardReset (a : App) : App :=
  scheduleTask DeleteOSTunnelConfig
    ((resetSettings a) <| onboardingCompletedSetting := false |>).

Definition hardResetAndQuit (a : App) : App :=
  scheduleTask QuitFunction (scheduleTask HardResetFunction
    (scheduleTask (ControllerAction TaskControllerAction.eDeactivate) (deleteTasks a))).

(** ** The controller *)

Definition maybeConnectOnStartup (startAtBoot : bool) (a : App) : App :=
  if m_controllerInitialized a && m_locationInitialized a then
    let a := a <| m_isLoggingIn := false |> in
    if startAtBoot then activate (emit StartingOnBoot a) else a
  else a.

(** [Controller::isInitialized]. *)
Definition isInitialized (s : Controller.State) : bool :=
  Controller.stateRank Controller.StateOff <=? Controller.stateRank s.

Definition controllerStateChanged (s : Controller.State) (startAtBoot : bool) (a : App) : App :=
  let a := a <| controllerState := s |> in
  let a :=
    if bool_decide (m_state a = StateMain) && bool_decide (s = Controller.StatePermissionRequired)
    then setState StatePermissionRequired a
    else if bool_decide (m_state a = StatePermissionRequired) && bool_decide (s = Controller.StateOff)
    then setState StateMain a
    else a in
  let a :=
    if negb (m_controllerInitialized a) && isInitialized s
    then maybeConnectOnStartup startAtBoot (a <| m_controllerInitialized := true |>) else a in
  let a := if m_updating a && bool_decide (s = Controller.StateOff) then update a else a in
  emit CacheCleared a.

(** ** Subscriptions and checks of the service *)

Inductive RemovalDeviceOption : Type := DeviceNotFound | DeviceStillValid | DeviceRemoved.

#[export] Instance RemovalDeviceOption_eq_dec : EqDecision RemovalDeviceOption.
Proof. solve_decision. Defined.

(** [option] is what [maybeRemoveCurrentDevice] finds. *)
Definition completeActivation (option : RemovalDeviceOption) (activeDevices maxDevices : Z)
    (a : App) : App :=
  let a := if bool_decide (option = DeviceRemoved) then scheduleTask RemoveDevice a else a in
  let deviceCount := if bool_decide (option = DeviceRemoved) then activeDevices - 1
                     else activeDevices in
  if (maxDevices <=? deviceCount) && bool_decide (option = DeviceNotFound) then maybeStateMain a
  else scheduleTask MaybeStateMainFunction a.

Definition subscriptionCompleted (option : RemovalDeviceOption) (activeDevices maxDevices : Z)
    (a : App) : App :=
  completeActivation option activeDevices maxDevices (emit SubscriptionCompletedSignal a).

Definition billingNotAvailable (subscriptionNeeded : bool) (a : App) : App :=
  if subscriptionNeeded then setState StateBillingNotAvailable a else a.

Definition subscriptionNotValidated (a : App) : App := setState StateSubscriptionNotValidated a.

Definition subscriptionFailedInternal (unsettled canceledByUser : bool) (a : App) : App :=
  let a := setState StateSubscriptionNeeded a in
  let a := if canceledByUser then a else errorHandle unsettled SubscriptionFailureError a in
  scheduleTask SubscriptionFunction a.

Definition alreadySubscribed (a : App) : App := setState StateSubscriptionBlocked a.

Definition heartbeatCompleted (success : bool) (a : App) : App :=
  if negb success && bool_decide (m_state a = StateAuthenticating)
  then setState StateHeartbeatFailure (deleteTasks a)
  else if negb (bool_decide (m_state a = StateHeartbeatFailure)) then a
  else if negb (modelsInitialized a) || negb (userAuthenticated a)
  then setState StateInitialize a
  else maybeStateMain a.

(** ** Functions that were scheduled *)

Definition activateFunction (unsettled : bool) (a : App) : App :=
  if modelsInitialized a
  then scheduleTask (ControllerAction TaskControllerAction.eActivate) a
  else setState StateInitialize (errorHandle unsettled RemoteServiceError a).

Definition runJob (unsettled subscriptionNeeded : bool) (j : Job) (a : App) : App :=
  match j with
  | ControllerAction _ | RemoveDevice | DeleteOSTunnelConfig => a
  | ActivateFunction => activateFunction unsettled a
  | MaybeStateMainFunction => maybeStateMain a
  | SubscriptionFunction =>
      if negb subscriptionNeeded && bool_decide (m_state a = StateSubscriptionNeeded)
      then maybeStateMain a else a
  | HardResetFunction => hardReset a
  | QuitFunction => emit ControllerQuit a
  end.

(** The scheduler runs the first task of the queue. *)
Definition runNext (unsettled subscriptionNeeded : bool) (a : App) : App :=
  match jobs a with
  | [] => a
  | j :: r => runJob unsettled subscriptionNeeded j (a <| jobs := r |> <| done := done a ++ [j] |>)
  end.

(** ** Events *)

(** What the environment and the user can do, with what the handlers read. *)
Inductive Event : Type :=
| Initialize (settingsError : bool)
| ProfileOperation (op : WireGuardProfileModel.Op)
| ControllerStateChanged (s : Controller.State) (startAtBoot : bool)
| ReadyToUpdate
| RunNext (unsettled subscriptionNeeded : bool)
| Activate
| Deactivate
| SilentSwitch
| Logout (hasCurrentDevice : bool)
| CancelAuthentication
| OnboardingCompleted
| HardResetAndQuit
| Update
| SetUpdating (updating : bool)
| RequestAlert (alert : AlertType)
| AlertTimeout
| ReportError (unsettled : bool) (error : ErrorType)
| ReportNetworkError (unsettled : bool) (error : NetworkError) (policy : ErrorPropagationPolicy)
| HeartbeatCompleted (success : bool)
| SubscriptionCompleted (option : RemovalDeviceOption) (activeDevices maxDevices : Z)
| SubscriptionFailed (unsettled canceledByUser : bool)
| SubscriptionNotValidated
| AlreadySubscribed
| BillingNotAvailable (subscriptionNeeded : bool)
| ExtensionActivate
| ExtensionDeactivate.

(** Profiles are loaded, and can change, before the initialization; everything else
    follows it. *)
Definition enabled (e : Event) (a : App) : bool :=
  match e with
  | Initialize _ => negb (m_initialized a)
  | ProfileOperation _ => true
  | _ => m_initialized a
  end.

Definition handle (e : Event) (a : App) : App :=
  match e with
  | Initialize settingsError => initialize settingsError a
  | ProfileOperation op => (profileOperation op a).2
  | ControllerStateChanged s startAtBoot => controllerStateChanged s startAtBoot a
  | ReadyToUpdate => setState StateUpdateRequired a
  | RunNext unsettled subscriptionNeeded => runNext unsettled subscriptionNeeded a
  | Activate => activate a
  | Deactivate => deactivate a
  | SilentSwitch => silentSwitch a
  | Logout hasCurrentDevice => logout hasCurrentDevice a
  | CancelAuthentication => cancelAuthentication a
  | OnboardingCompleted => onboardingCompleted a
  | HardResetAndQuit => hardResetAndQuit a
  | Update => update a
  | SetUpdating updating => setUpdating updating a
  | RequestAlert alert => setAlert alert a
  | AlertTimeout => setAlert NoAlert a
  | ReportError unsettled error => errorHandle unsettled error a
  | ReportNetworkError unsettled error policy => networkErrorHandle unsettled error policy a
  | HeartbeatCompleted success => heartbeatCompleted success a
  | SubscriptionCompleted option activeDevices maxDevices =>
      subscriptionCompleted option activeDevices maxDevices a
  | SubscriptionFailed unsettled canceledByUser =>
      subscriptionFailedInternal unsettled canceledByUser a
  | SubscriptionNotValidated => subscriptionNotValidated a
  | AlreadySubscribed => alreadySubscribed a
  | BillingNotAvailable subscriptionNeeded => billingNotAvailable subscriptionNeeded a
  | ExtensionActivate =>
      scheduleTask (ControllerAction TaskControllerAction.eActivateForExtension) a
  | ExtensionDeactivate =>
      scheduleTask (ControllerAction TaskControllerAction.eDeactivateForExtension) a
  end.

Inductive reachable : App -> Prop :=
| reachable_construct s onboarded : reachable (construct s onboarded)
| reachable_step a e : reachable a -> enabled e a = true -> reachable (handle e a).

(** ** Invariants *)

(** The actions asked of the controller, in order. *)
Definition actions (a : App) : list TaskControllerAction.TaskAction :=
  flat_map (fun j => match j with ControllerAction x => [x] | _ => [] end) (done a ++ jobs a).

(** Whether the last that was asked of the controller by the application itself, of
    activations and deactivations, is an activation; what the extension asks does not
    count. *)
Definition wanted (l : list TaskControllerAction.TaskAction) : bool :=
  foldl (fun w x => match x with
                    | TaskControllerAction.eActivate => true
                    | TaskControllerAction.eDeactivate => false
                    | _ => w
                    end) false l.

Lemma wanted_snoc (l : list TaskControllerAction.TaskAction) (x : TaskControllerAction.TaskAction) :
  wanted (l ++ [x]) = match x with
                      | TaskControllerAction.eActivate => true
                      | TaskControllerAction.eDeactivate => false
                      | _ => wanted l
                      end.
Proof. unfold wanted. by rewrite foldl_app. Qed.

Definition startups (a : App) : nat :=
  length (List.filter (fun e => bool_decide (e = StartingOnBoot)) (effects a)).

(** ** Operations on the profiles *)

(** [m'] has emitted more signals than [m], [changed] among them or without a change of
    the profiles. *)
Definition announced (m m' : WireGuardProfileModel.Model) : Prop :=
  exists l, WireGuardProfileModel.signals m' = WireGuardProfileModel.signals m ++ l
    /\ (WireGuardProfileModel.Changed ∈ l
        \/ WireGuardProfileModel.m_profiles m' = WireGuardProfileModel.m_profiles m).

Lemma setLastError_signals (e : chars) (m : WireGuardProfileModel.Model) :
  exists l, WireGuardProfileModel.signals (WireGuardProfileModel.setLastError e m)
            = WireGuardProfileModel.signals m ++ l
    /\ WireGuardProfileModel.m_profiles (WireGuardProfileModel.setLastError e m)
       = WireGuardProfileModel.m_profiles m.
Proof.
  unfold WireGuardProfileModel.setLastError. case_bool_decide.
  - exists []. by rewrite app_nil_r.
  - by exists [WireGuardProfileModel.LastErrorChanged].
Qed.

Lemma announced_failure (e : chars) (m : WireGuardProfileModel.Model) :
  announced m (WireGuardProfileModel.setLastError e m).
Proof.
  destruct (setLastError_signals e m) as (l & E1 & E2). exists l. split; [done|by right].
Qed.

(** The end of every operation that succeeds. *)
Lemma announced_success (m m1 : WireGuardProfileModel.Model) (l : list WireGuardProfileModel.Signal) :
  WireGuardProfileModel.signals m1 = WireGuardProfileModel.signals m ++ l ->
  announced m (WireGuardProfileModel.emit WireGuardProfileModel.Changed
                (WireGuardProfileModel.setLastError [] (WireGuardProfileModel.writeSettings m1))).
Proof.
  intros E. destruct (setLastError_signals [] (WireGuardProfileModel.writeSettings m1))
    as (l' & E1 & _).
  exists (l ++ l' ++ [WireGuardProfileModel.Changed]). split.
  - change (WireGuardProfileModel.signals (WireGuardProfileModel.emit ?x ?y))
      with (WireGuardProfileModel.signals y ++ [x]). rewrite E1.
    change (WireGuardProfileModel.signals (WireGuardProfileModel.writeSettings m1))
      with (WireGuardProfileModel.signals m1). by rewrite E, <- !app_assoc.
  - left. list_in.
Qed.

Lemma run_announced (op : WireGuardProfileModel.Op) (m : WireGuardProfileModel.Model) :
  announced m (WireGuardProfileModel.run tr op m).2.
Proof.
  assert (forall uuid n content, announced m (WireGuardProfileModel.addProfile tr uuid n content m).2)
    as Hadd.
  { intros uuid n content. unfold WireGuardProfileModel.addProfile.
    destruct (WireGuardConfig.parse content); [apply announced_failure|]. cbn [snd].
    apply (announced_success m _
      [WireGuardProfileModel.RowsInserted (length (WireGuardProfileModel.m_profiles m))]).
    by destruct (bool_decide _). }
  destruct op as [uuid n content|uuid n local contents base|i|i n|i]; cbn [WireGuardProfileModel.run].
  - apply Hadd.
  - unfold WireGuardProfileModel.addProfileFromFile. destruct local; [|apply announced_failure].
    destruct contents; [apply Hadd|apply announced_failure].
  - unfold WireGuardProfileModel.removeProfile, WireGuardProfileModel.notFound.
    destruct (WireGuardProfileModel.profileIndex _ _) as [k|]; [|apply announced_failure].
    cbn [snd]. apply (announced_success m _ [WireGuardProfileModel.RowsRemoved k]).
    by destruct (bool_decide _).
  - unfold WireGuardProfileModel.renameProfile, WireGuardProfileModel.notFound.
    destruct (WireGuardProfileModel.profileIndex _ _) as [k|]; [|apply announced_failure].
    case_bool_decide; [apply announced_failure|]. cbn [snd].
    by apply (announced_success m _ [WireGuardProfileModel.DataChanged k WireGuardProfileModel.NameRole]).
  - unfold WireGuardProfileModel.selectProfile, WireGuardProfileModel.notFound.
    destruct (WireGuardProfileModel.profileIndex i _) as [k|]; [|apply announced_failure].
    cbn [snd]. destruct (WireGuardProfileModel.profileIndex _ _) as [j|].
    + apply (announced_success m _ [WireGuardProfileModel.DataChanged j WireGuardProfileModel.ActiveRole;
                                    WireGuardProfileModel.DataChanged k WireGuardProfileModel.ActiveRole]).
      exact (eq_sym (app_assoc (WireGuardProfileModel.signals m) [_] [_])).
    + by apply (announced_success m _ [WireGuardProfileModel.DataChanged k WireGuardProfileModel.ActiveRole]).
Qed.

(** ** The invariant is kept *)

(** The invariant of an application that is initialized. *)
Definition running (a : App) : Prop :=
  m_initialized a = true
  /\ (m_state a = StateMain \/ m_state a = StatePermissionRequired -> hasProfiles a = true)
  /\ (hasProfiles a = false -> wanted (actions a) = false)
  /\ (startups a <= if m_controllerInitialized a then 1 else 0)%nat.

(** Changes of members that the invariant does not mention. *)
Definition sameCore (a a' : App) : Prop :=
  m_initialized a' = m_initialized a /\ m_state a' = m_state a
  /\ hasProfiles a' = hasProfiles a /\ actions a' = actions a /\ startups a' = startups a
  /\ m_controllerInitialized a' = m_controllerInitialized a.

Lemma sameCore_running (a a' : App) : sameCore a a' -> running a -> running a'.
Proof. unfold sameCore, running. by intros (-> & -> & -> & -> & -> & ->). Qed.

Lemma sameCore_trans (a b c : App) : sameCore a b -> sameCore b c -> sameCore a c.
Proof. unfold sameCore. intuition congruence. Qed.

Lemma emit_core (e : Effect) (a : App) : e <> StartingOnBoot -> sameCore a (emit e a).
Proof.
  intros He. repeat split. unfold startups. cbn [emit effects updateField].
  change (effects (emit e a)) with (effects a ++ [e]). rewrite List.filter_app, length_app.
  cbn [List.filter]. rewrite bool_decide_false by done. cbn. lia.
Qed.

Lemma deleteTasks_core (a : App) : sameCore a (deleteTasks a).
Proof.
  repeat split. unfold actions, deleteTasks. cbn [done jobs updateField].
  change (done (a <| jobs := ?x |>)) with (done a). change (jobs (a <| jobs := ?x |>)) with x.
  rewrite !flat_map_app. f_equal. induction (jobs a) as [|j l IH]; [done|].
  destruct j; cbn [List.filter deletePolicy];
    first [rewrite bool_decide_true by done|rewrite bool_decide_false by done];
    cbn [negb flat_map app]; by rewrite IH.
Qed.

Lemma actions_schedule (j : Job) (a : App) :
  actions (scheduleTask j a)
  = actions a ++ match j with ControllerAction x => [x] | _ => [] end.
Proof.
  unfold actions, scheduleTask.
  change (done (a <| jobs := ?x |>)) with (done a). change (jobs (a <| jobs := ?x |>)) with x.
  rewrite app_assoc, flat_map_app. cbn [flat_map]. by rewrite app_nil_r.
Qed.

Lemma schedule_running (j : Job) (a : App) :
  (j = ControllerAction TaskControllerAction.eActivate -> hasProfiles a = true) ->
  running a -> running (scheduleTask j a).
Proof.
  intros Hj (Hi & Hs & Ha & Hst). split_and!; [done|done| |done].
  change (hasProfiles (scheduleTask j a)) with (hasProfiles a). intros Hp.
  rewrite actions_schedule. destruct j as [x| | | | | | |]; rewrite ?app_nil_r; try by apply Ha.
  rewrite wanted_snoc. destruct x; try done; try by apply Ha. by rewrite Hj in Hp.
Qed.

Lemma emit_running (e : Effect) (a : App) :
  e <> StartingOnBoot -> running a -> running (emit e a).
Proof. intros He. by apply sameCore_running, emit_core. Qed.

Lemma deleteTasks_running (a : App) : running a -> running (deleteTasks a).
Proof. apply sameCore_running, deleteTasks_core. Qed.

(** A change of state, from any state that has not started up twice. *)
Lemma setState_core (s : State) (a : App) :
  m_initialized a = true -> (startups a <= if m_controllerInitialized a then 1 else 0)%nat ->
  (s = StateMain \/ s = StatePermissionRequired -> hasProfiles a = true) ->
  (s = StateMain \/ s = StateOnboarding -> hasProfiles a = false ->
   wanted (actions a) = false) ->
  running (setState s a).
Proof.
  intros Hi Hst Hp Ha. set (b := a <| m_state := s |>).
  pose proof (sameCore_trans b _ _ (emit_core UserAuthenticationMaybeChanged b ltac:(done))
                (emit_core (StateChanged s) _ ltac:(done))) as Hc.
  assert (running (scheduleTask (ControllerAction TaskControllerAction.eDeactivate)
    (emit (StateChanged s) (emit UserAuthenticationMaybeChanged b)))) as Hoff.
  { destruct Hc as (E1 & E2 & E3 & E4 & E5 & E6). unfold running.
    change (m_initialized (scheduleTask ?j ?x)) with (m_initialized x).
    change (m_state (scheduleTask ?j ?x)) with (m_state x).
    change (hasProfiles (scheduleTask ?j ?x)) with (hasProfiles x).
    change (startups (scheduleTask ?j ?x)) with (startups x).
    change (m_controllerInitialized (scheduleTask ?j ?x)) with (m_controllerInitialized x).
    rewrite E1, E2, E3, E5, E6, actions_schedule, wanted_snoc. by split_and!. }
  assert (s = StateMain \/ s = StateOnboarding ->
    running (emit (StateChanged s) (emit UserAuthenticationMaybeChanged b))) as Hon.
  { intros Hs. destruct Hc as (E1 & E2 & E3 & E4 & E5 & E6). unfold running.
    rewrite E1, E2, E3, E4, E5, E6. split_and!; [done|done| |done]. exact (Ha Hs). }
  unfold setState. fold b.
  destruct s; first [exact Hoff|case_bool_decide; [apply emit_running; [done|]|]; apply Hon; tauto].
Qed.

Lemma setState_running (s : State) (a : App) :
  (s = StateMain \/ s = StatePermissionRequired -> hasProfiles a = true) ->
  running a -> running (setState s a).
Proof. intros Hp (Hi & _ & Ha & Hst). by apply setState_core. Qed.

(** This slot restores the invariant whatever happened to the profiles. *)
Lemma maybeStateMain_core (a : App) :
  m_initialized a = true -> (startups a <= if m_controllerInitialized a then 1 else 0)%nat ->
  running (maybeStateMain a).
Proof.
  intros Hi Hst. unfold maybeStateMain. destruct (hasProfiles a) eqn:Hp; cbn [negb].
  - case_bool_decide; [apply setState_core; try done; by intros _ ?; congruence|].
    change (m_state (a <| onboardingCompletedSetting := true |>)) with (m_state a).
    case_bool_decide as Hu.
    + split_and!; [done| | |done];
        change (hasProfiles (a <| onboardingCompletedSetting := true |>)) with (hasProfiles a);
        congruence.
    + apply setState_core; try done.
      change (hasProfiles (a <| onboardingCompletedSetting := true |>)) with (hasProfiles a).
      congruence.
  - apply setState_core; try done; intros [?|?]; done.
Qed.

(** Before the initialization nothing happens but changes of the profiles. *)
Definition untouched (a : App) : Prop :=
  m_initialized a = false /\ m_state a = StateInitialize /\ actions a = []
  /\ startups a = 0%nat /\ m_controllerInitialized a = false.

Lemma initialize_running (settingsError : bool) (a : App) :
  untouched a -> running (initialize settingsError a).
Proof.
  intros (Hi & Hs & Ha & Hst & Hc).
  set (b := a <| m_initialized := true |>).
  assert (running b) as Hb.
  { split_and!; [done| | |].
    - change (m_state b) with (m_state a). rewrite Hs. by intros [?|?].
    - change (actions b) with (actions a). by rewrite Ha.
    - change (startups b) with (startups a). rewrite Hst. lia. }
  unfold initialize. fold b.
  set (c := if settingsError then _ else _).
  assert (running c) as Hcr by (unfold c; destruct settingsError; [by apply emit_running|done]).
  pose proof (emit_running ComponentsInitialized c ltac:(done) Hcr) as Hd.
  set (d := (emit ComponentsInitialized c) <| m_locationInitialized := true |>).
  assert (running d) as Hdr by exact Hd.
  destruct (hasProfiles d) eqn:Hp; cbn [negb]; [|done].
  apply setState_running; [by intros _|exact Hdr].
Qed.

Lemma profileOperation_invariant (op : WireGuardProfileModel.Op) (a : App) :
  untouched a \/ running a ->
  untouched (profileOperation op a).2 \/ running (profileOperation op a).2.
Proof.
  intros Ha. unfold profileOperation.
  destruct (run_announced op (m_wireGuardProfileModel a)) as (l & E & Hl).
  destruct (WireGuardProfileModel.run tr op (m_wireGuardProfileModel a)) as [ok m'].
  cbn [snd] in E, Hl. rewrite E, drop_app_length.
  set (b := a <| m_wireGuardProfileModel := m' |>).
  assert (forall c, sameCore c (emit UserAuthenticationMaybeChanged c)) as Hemit
    by (intros c; by apply emit_core).
  destruct (existsb _ l) eqn:Ex; cbn [snd].
  - destruct (Hemit b) as (E1 & E2 & E3 & E4 & E5 & E6). rewrite E1.
    destruct Ha as [(Hi & Hs & Hac & Hst & Hc)|(Hi & _ & _ & Hst)];
      change (m_initialized b) with (m_initialized a); rewrite Hi.
    + left. unfold untouched. rewrite E1, E2, E4, E5, E6. by split_and!.
    + right. apply maybeStateMain_core; [by rewrite E1|]. by rewrite E5, E6.
  - destruct Hl as [Hl|Hl].
    { exfalso. assert (existsb (fun s => match s with WireGuardProfileModel.Changed => true
                                         | _ => false end) l = true) as Ht; [|congruence].
      apply existsb_exists. exists WireGuardProfileModel.Changed. split; [|done].
      by apply list_elem_of_In. }
    assert (hasProfiles b = hasProfiles a) as Hp.
    { unfold hasProfiles, WireGuardProfileModel.hasProfiles.
      change (m_wireGuardProfileModel b) with m'. by rewrite Hl. }
    destruct Ha as [Ha|Ha]; [by left|right].
    revert Ha. apply sameCore_running. by repeat split.
Qed.

Lemma resetSettings_core (a : App) : sameCore a (resetSettings a).
Proof.
  unfold resetSettings. cbv zeta. set (m := WireGuardProfileModel.mkModel _ _ _ _ _ _).
  apply (sameCore_trans _ (a <| m_wireGuardProfileModel := m |>)); [done|by apply emit_core].
Qed.

Lemma deactivate_running (a : App) : running a -> running (deactivate a).
Proof. intros Ha. apply schedule_running; [done|by apply deleteTasks_running]. Qed.

Lemma reset_running (force : bool) (a : App) : running a -> running (reset force a).
Proof.
  intros Ha. unfold reset. cbv zeta.
  set (b := emit SubscriptionStopped _).
  assert (running b) as Hb.
  { apply emit_running; [done|]. apply schedule_running; [done|].
    do 2 (apply emit_running; [done|]). apply (sameCore_running _ _ (resetSettings_core _)).
    by apply deactivate_running. }
  destruct force; [|by apply emit_running]. apply setState_running; [by intros [?|?]|done].
Qed.

Lemma setAlert_running (alert : AlertType) (a : App) : running a -> running (setAlert alert a).
Proof. intros Ha. unfold setAlert. by apply emit_running. Qed.

Lemma errorHandled_running (a : App) : running a -> running (errorHandled a).
Proof.
  intros Ha. unfold errorHandled. cbv zeta.
  set (b := if bool_decide _ then emit _ a else a).
  assert (running b) as Hb by (unfold b; destruct (bool_decide _); [by apply emit_running|done]).
  repeat case_bool_decide; by try apply reset_running.
Qed.

Lemma errorHandle_running (unsettled : bool) (error : ErrorType) (a : App) :
  running a -> running (errorHandle unsettled error a).
Proof.
  intros Ha. unfold errorHandle. case_bool_decide; [done|].
  apply errorHandled_running, emit_running; [done|]. by apply setAlert_running.
Qed.

Lemma maybeStateMain_running (a : App) : running a -> running (maybeStateMain a).
Proof. intros (Hi & _ & _ & Hst). by apply maybeStateMain_core. Qed.

Lemma controllerStateChanged_running (s : Controller.State) (startAtBoot : bool) (a : App) :
  running a -> running (controllerStateChanged s startAtBoot a).
Proof.
  intros Ha. unfold controllerStateChanged. cbv zeta.
  set (b := a <| controllerState := s |>). assert (running b) as Hb by exact Ha.
  set (c := if (_ && _)%bool then setState _ b else _).
  assert (running c) as Hc.
  { unfold c. pose proof Hb as (_ & Hs & _).
    destruct (bool_decide (m_state b = StateMain) && _) eqn:E1.
    { apply andb_true_iff in E1 as [E1%bool_decide_eq_true _].
      apply setState_running; [intros _; apply Hs; by left|done]. }
    destruct (bool_decide (m_state b = StatePermissionRequired) && _) eqn:E2; [|done].
    apply andb_true_iff in E2 as [E2%bool_decide_eq_true _].
    apply setState_running; [intros _; apply Hs; by right|done]. }
  clearbody c. clear b Hb Ha.
  set (d := if negb _ && _ then _ else c).
  assert (running d) as Hd.
  { unfold d. destruct Hc as (Hi & Hs & Hac & Hst).
    destruct (m_controllerInitialized c) eqn:Ec; cbn [negb andb]; [by split_and!; rewrite ?Ec|].
    destruct (isInitialized s); [|split_and!; rewrite ?Ec; done].
    unfold maybeConnectOnStartup. cbn [andb m_controllerInitialized updateField].
    change (m_controllerInitialized (c <| m_controllerInitialized := true |>)) with true.
    change (m_locationInitialized (c <| m_controllerInitialized := true |>))
      with (m_locationInitialized c). cbn [andb].
    destruct (m_locationInitialized c); [destruct startAtBoot|];
      try (split_and!; [done|done|done|]; change (startups c <= 1)%nat; lia).
    apply schedule_running; [done|]. apply deleteTasks_running.
    set (e := (c <| m_controllerInitialized := true |>) <| m_isLoggingIn := false |>).
    split_and!; [done|exact Hs|exact Hac|].
    change (m_controllerInitialized (emit StartingOnBoot e)) with true. unfold startups.
    change (effects (emit StartingOnBoot e)) with (effects c ++ [StartingOnBoot]).
    rewrite List.filter_app, length_app. cbn [List.filter]. rewrite bool_decide_true by done.
    unfold startups in Hst. cbn [length]. lia. }
  clearbody d. apply emit_running; [done|].
  destruct (m_updating d && _); [by apply emit_running|done].
Qed.

Lemma runNext_main (unsettled needed : bool) (a : App) :
  running a -> running (runNext unsettled needed a).
Proof.
  intros Ha. unfold runNext. destruct (jobs a) as [|j r] eqn:Ej; [done|].
  set (b := a <| jobs := r |> <| done := done a ++ [j] |>).
  assert (running b) as Hb.
  { revert Ha. apply sameCore_running. repeat split. unfold actions. rewrite Ej.
    change (done b) with (done a ++ [j]). change (jobs b) with r. by rewrite <- app_assoc. }
  clearbody b. destruct j; cbn [runJob]; try done.
  - unfold activateFunction, modelsInitialized. destruct (hasProfiles b) eqn:Hp.
    + by apply schedule_running.
    + apply setState_running; [by intros [?|?]|]. by apply errorHandle_running.
  - by apply maybeStateMain_running.
  - case_match; [by apply maybeStateMain_running|done].
  - apply schedule_running; [done|]. apply (sameCore_running (resetSettings b)); [done|].
    by apply (sameCore_running b), Hb; apply resetSettings_core.
  - by apply emit_running.
Qed.

Lemma handle_app_invariant (e : Event) (a : App) :
  untouched a \/ running a -> enabled e a = true ->
  untouched (handle e a) \/ running (handle e a).
Proof.
  intros Ha He.
  assert (e = Initialize (match e with Initialize b => b | _ => false end)
          \/ (exists op, e = ProfileOperation op) \/ running a) as [E|[[op ->]|Hr]].
  { destruct e; cbn in He; try (by left); try (right; left; by eexists); right; right;
      (destruct Ha as [(Hi & _)|Ha]; [congruence|done]). }
  - destruct e as [err| | | | | | | | | | | | | | | | | | | | | | | | |]; try done. clear E.
    right. apply initialize_running. destruct Ha as [Ha|(Hi & _)]; [done|].
    cbn in He. by rewrite Hi in He.
  - by apply profileOperation_invariant.
  - destruct e; cbn [handle] in *; try (right; done).
    + cbn in He. destruct Hr as (Hi & _). by rewrite Hi in He.
    + apply profileOperation_invariant. by right.
    + right. by apply controllerStateChanged_running.
    + right. apply setState_running; [by intros [?|?]|done].
    + right. by apply runNext_main.
    + right. apply schedule_running; [done|by apply deleteTasks_running].
    + right. by apply deactivate_running.
    + right. apply schedule_running; [done|by apply deleteTasks_running].
    + right. unfold logout. cbv zeta. apply reset_running.
      assert (running (deleteTasks (deactivate (setAlert LogoutAlert a)))) as Hd
        by (by apply deleteTasks_running, deactivate_running, setAlert_running).
      destruct hasCurrentDevice; [by apply schedule_running|done].
    + right. unfold cancelAuthentication. case_bool_decide; cbn [negb]; [|done].
      by apply reset_running, emit_running.
    + right. unfold onboardingCompleted. destruct (hasProfiles a) eqn:Hp; cbn [negb].
      * case_bool_decide; [done|by apply maybeStateMain_running].
      * apply setState_running; [by intros [?|?]|done].
    + right. unfold hardResetAndQuit. do 3 (apply schedule_running; [done|]).
      by apply deleteTasks_running.
    + right. by apply emit_running.
    + right. by apply emit_running.
    + right. by apply setAlert_running.
    + right. by apply setAlert_running.
    + right. by apply errorHandle_running.
    + right. unfold networkErrorHandle. case_match; [by apply errorHandle_running|done].
    + right. unfold heartbeatCompleted. repeat case_match; try done.
      * apply setState_running; [by intros [?|?]|by apply deleteTasks_running].
      * apply setState_running; [by intros [?|?]|done].
      * by apply maybeStateMain_running.
    + right. unfold subscriptionCompleted, completeActivation. cbv zeta.
      set (b := if bool_decide _ then scheduleTask RemoveDevice _ else _).
      assert (running b) as Hb.
      { unfold b. destruct (bool_decide _); [apply schedule_running; [done|]|]; by apply emit_running. }
      case_match; [by apply maybeStateMain_running|by apply schedule_running].
    + right. unfold subscriptionFailedInternal. cbv zeta. apply schedule_running; [done|].
      assert (running (setState StateSubscriptionNeeded a)) as Hs
        by (apply setState_running; [by intros [?|?]|done]).
      destruct canceledByUser; [done|by apply errorHandle_running].
    + right. apply setState_running; [by intros [?|?]|done].
    + right. apply setState_running; [by intros [?|?]|done].
    + right. unfold billingNotAvailable. case_match; [|done].
      apply setState_running; [by intros [?|?]|done].
    + right. by apply schedule_running.
    + right. by apply schedule_running.
Qed.

Lemma reachable_invariant (a : App) : reachable a -> untouched a \/ running a.
Proof.
  induction 1 as [s onboarded|a e _ IH He]; [by left|]. by apply handle_app_invariant.
Qed.

(** C24: the main screen, and the one that asks for a permission, are only shown while
    there is a profile; the application itself asks the controller for an activation
    only while there is one, and when the last profile is gone it has asked for a
    deactivation after its last activation (which runs still if it was queued); and the
    connection at startup is made at most once. The extension's activations are not
    bound to a profile. *)
Theorem reachable_app (a : App) :
  reachable a ->
  (m_state a = StateMain \/ m_state a = StatePermissionRequired -> hasProfiles a = true)
  /\ (hasProfiles a = false -> wanted (actions a) = false)
  /\ (startups a <= 1)%nat.
Proof.
  intros [(_ & Hs & Ha & Hst & _)|(_ & Hs & Ha & Hst)]%reachable_invariant.
  - split_and!; [rewrite Hs; by intros [?|?]|by rewrite Ha|lia].
  - split_and!; [done..|]. destruct (m_controllerInitialized a); lia.
Qed.

(** ** Errors of requests *)

(** C39: an error of a network request wipes the settings, stops the tunnel and shows
    the first screen exactly if the service refuses the credentials, whatever the
    policy of the request; any other error changes no more than the alert, the one of
    its kind if the policy asks for it. *)
Theorem networkErrorHandle_spec (unsettled : bool) (error : NetworkError)
    (policy : ErrorPropagationPolicy) (a : App) :
  m_state a <> StateAuthenticating ->
  let a' := networkErrorHandle unsettled error policy a in
  match error with
  | AuthenticationRequiredError | ContentOperationNotPermittedError =>
      m_state a' = StateInitialize /\ m_alert a' = AuthenticationFailedAlert
      /\ last (actions a') = Some TaskControllerAction.eDeactivate
      /\ WireGuardProfileModel.settings (m_wireGuardProfileModel a')
         = WireGuardProfileModel.mkSettings _ emptyBytes []
  | _ =>
      m_state a' = m_state a /\ actions a' = actions a
      /\ m_wireGuardProfileModel a' = m_wireGuardProfileModel a
      /\ m_alert a' =
         let alert := getAlert unsettled (controllerState a) (toErrorType error) in
         if bool_decide (policy = PropagateError) && negb (bool_decide (alert = NoAlert))
         then alert else m_alert a
  end.
Proof.
  intros Hs. cbv zeta.
  assert (forall alert, alert <> AuthenticationFailedAlert -> alert <> ControllerErrorAlert ->
    errorHandled (emit ErrorHandledSignal (setAlert alert a))
    = emit ErrorHandledSignal (setAlert alert a)) as Hother.
  { intros alert H1' H2'. unfold errorHandled. cbv zeta.
    change (m_alert (emit ErrorHandledSignal (setAlert alert a))) with alert.
    change (m_state (emit ErrorHandledSignal (setAlert alert a))) with (m_state a).
    rewrite (bool_decide_false (alert = ControllerErrorAlert)) by exact H2'.
    rewrite (bool_decide_false (m_state a = _)) by exact Hs.
    by rewrite bool_decide_false. }
  assert (toErrorType error <> AuthenticationError ->
    m_state (networkErrorHandle unsettled error policy a) = m_state a
    /\ actions (networkErrorHandle unsettled error policy a) = actions a
    /\ m_wireGuardProfileModel (networkErrorHandle unsettled error policy a)
       = m_wireGuardProfileModel a
    /\ m_alert (networkErrorHandle unsettled error policy a) =
      let alert := getAlert unsettled (controllerState a) (toErrorType error) in
      if bool_decide (policy = PropagateError) && negb (bool_decide (alert = NoAlert))
      then alert else m_alert a) as Hrest.
  { intros Hn. unfold networkErrorHandle.
    assert (supportPolicyPropagation (toErrorType error) = true) as -> by (by destruct error).
    cbn [negb orb]. case_bool_decide; [|by split_and!]. unfold errorHandle. cbn [andb].
    case_bool_decide as Ea; cbn [negb]; [by split_and!|].
    rewrite Hother; [by split_and!|..]; intros E; destruct error; cbn in *; try done;
      destruct unsettled, (controllerState a); done. }
  assert (forall b, m_state b <> StateAuthenticating -> m_alert b = AuthenticationFailedAlert ->
    m_state (errorHandled b) = StateInitialize
    /\ m_alert (errorHandled b) = AuthenticationFailedAlert
    /\ last (actions (errorHandled b)) = Some TaskControllerAction.eDeactivate
    /\ WireGuardProfileModel.settings (m_wireGuardProfileModel (errorHandled b))
       = WireGuardProfileModel.mkSettings _ emptyBytes []) as Hauth.
  { intros b Hb Hal. unfold errorHandled. cbv zeta. rewrite Hal.
    rewrite (bool_decide_false (AuthenticationFailedAlert = _)) by done.
    rewrite bool_decide_false, bool_decide_true by done. split_and!; [done|exact Hal| |done].
    unfold reset, setState. cbv zeta. by rewrite actions_schedule, last_snoc. }
  destruct error; try (apply Hrest; done); apply Hauth; done.
Qed.

(** ** What modelling shows *)

(** The extension activates without a look at the profiles. *)
Lemma extension_activates (a : App) :
  jobs (handle ExtensionActivate a)
  = jobs a ++ [ControllerAction TaskControllerAction.eActivateForExtension].
Proof. done. Qed.

Lemma hasProfiles_reset (b : bool) (a : App) : hasProfiles (reset b a) = hasProfiles a.
Proof. by destruct b. Qed.

Lemma activateFunction_schedules (a : App) :
  hasProfiles a = true ->
  jobs (activateFunction false a) = jobs a ++ [ControllerAction TaskControllerAction.eActivate].
Proof. intros Hp. unfold activateFunction, modelsInitialized. by rewrite Hp. Qed.

(** Signing out, or a refused request, removes the profiles from the settings but not
    from the application: until it is restarted it still counts as authenticated and
    can activate them. *)
Lemma reset_keeps_profiles (a : App) :
  let a' := reset true a in
  WireGuardProfileModel.settings (m_wireGuardProfileModel a')
  = WireGuardProfileModel.mkSettings _ emptyBytes []
  /\ userAuthenticated a' = userAuthenticated a
  /\ (hasProfiles a = true ->
      jobs (activateFunction false a')
      = jobs a' ++ [ControllerAction TaskControllerAction.eActivate]).
Proof.
  cbv zeta. split; [done|]. split; [apply hasProfiles_reset|].
  rewrite <- (hasProfiles_reset true a). apply activateFunction_schedules.
Qed.

(** Several events. *)
Fixpoint run (l : list Event) (a : App) : App :=
  match l with [] => a | e :: r => run r (handle e a) end.

Fixpoint allEnabled (l : list Event) (a : App) : bool :=
  match l with [] => true | e :: r => enabled e a && allEnabled r (handle e a) end.

Lemma reachable_run (l : list Event) (a : App) :
  reachable a -> allEnabled l a = true -> reachable (run l a).
Proof.
  revert a. induction l as [|e l IH]; intros a Ha Hl; [done|].
  apply andb_true_iff in Hl as [He Hl]. apply IH; [|done]. by apply reachable_step.
Qed.

End Application.

(** ** Examples *)

#[local] Existing Instance modelText.
#[local] Existing Instance modelJson.

Definition untranslated (s : chars) : chars := s.

Definition fresh : App := construct WireGuardProfileModel.emptySettings false.

(** A profile is added, the controller becomes ready and the connection at startup is
    made. *)
Definition firstRun : list Event :=
  [Initialize false; ProfileOperation WireGuardProfileModel.sampleOp;
   ControllerStateChanged Controller.StateOff true; RunNext false false;
   ControllerStateChanged Controller.StateConnecting true].

(** The user activates, and removes the profile while the activation is queued. *)
Definition lastRemoved : list Event :=
  firstRun ++ [Activate; RunNext false false;
               ProfileOperation (WireGuardProfileModel.Remove (qs "id-1")); ExtensionActivate].

(** An update is required; removing the last profile and adding one shows the main
    screen all the same. *)
Lemma update_required_lost :
  m_state (run untranslated
    [Initialize false; ProfileOperation WireGuardProfileModel.sampleOp; ReadyToUpdate;
     ProfileOperation (WireGuardProfileModel.Remove (qs "id-1"));
     ProfileOperation WireGuardProfileModel.sampleOp] fresh) = StateMain.
Proof. vm_compute. reflexivity. Qed.

Lemma reachable_app_witness :
  hasProfiles (run untranslated firstRun fresh) = true
  /\ TaskControllerAction.eActivate ∈ actions (run untranslated lastRemoved fresh)
  /\ wanted (actions (run untranslated lastRemoved fresh)) = false.
Proof.
  split.
  - destruct (reachable_app untranslated (run untranslated firstRun fresh)) as (Hs & _ & _).
    + apply reachable_run; [constructor|]. vm_compute. reflexivity.
    + apply Hs. left. vm_compute. reflexivity.
  - split; [apply list_elem_of_In; vm_compute; tauto|].
    destruct (reachable_app untranslated (run untranslated lastRemoved fresh)) as (_ & Hw & _).
    + apply reachable_run; [constructor|]. vm_compute. reflexivity.
    + apply Hw. vm_compute. reflexivity.
Defined.

Lemma networkErrorHandle_spec_witness :
  m_state (networkErrorHandle false AuthenticationRequiredError DoNotPropagateError
             (run untranslated firstRun fresh)) = StateInitialize.
Proof.
  assert (m_state (run untranslated firstRun fresh) <> StateAuthenticating) as Hs by by_decision.
  exact (proj1 (networkErrorHandle_spec false AuthenticationRequiredError DoNotPropagateError
                  (run untranslated firstRun fresh) Hs)).
Defined.

End MozillaVPN.
