(* ===== verification/Navigator.v ===== *)
(** * Navigation between the screens

    Model of [src/src/frontend/navigator.cpp] and of the screens that
    [MozillaVPN::registerNavigatorScreens] registers, and of the navigator together with
    the application, whose state selects the screens that can be shown. *)
From Stdlib Require Import ZArith Lia Ascii String.
From stdpp Require Import base numbers list gmap strings.
From S2P Require Import Prelude QHostAddress QString QStringExtra QtTextModel Json.
From S2P Require Import WireGuardProfileModel ControllerModel MozillaVPN.

Local Open Scope Z_scope.
Local Open Scope wg_scope.

Module Navigator.

#[local] Existing Instance MozillaVPN.State_eq_dec.

(** ** Screens *)

Inductive CustomScreen : Type :=
| ScreenAuthenticating | ScreenHeartbeatFailure | ScreenBillingNotAvailable | ScreenCaptivePortal
| ScreenCrashReporting | ScreenDeviceLimit | ScreenGetHelp | ScreenHome | ScreenInitialize
| ScreenMessaging | ScreenNoSubscriptionFoundError | ScreenSettings | ScreenSubscriptionBlocked
| ScreenSubscriptionExpiredError | ScreenSubscriptionGenericError
| ScreenSubscriptionInProgressIAP | ScreenSubscriptionInProgressWeb
| ScreenSubscriptionInUseError | ScreenSubscriptionNeeded | ScreenSubscriptionNotValidated
| ScreenUpdateRecommended | ScreenUpdateRequired | ScreenViewLogs | ScreenRemovingDevice
| ScreenOnboarding | ScreenPermissionRequired.

#[export] Instance CustomScreen_eq_dec : EqDecision CustomScreen.
Proof. solve_decision. Defined.

(** The keys of the enumeration, in its order. *)
Definition meta : list (string * CustomScreen) :=
  [("ScreenAuthenticating", ScreenAuthenticating);
   ("ScreenHeartbeatFailure", ScreenHeartbeatFailure);
   ("ScreenBillingNotAvailable", ScreenBillingNotAvailable);
   ("ScreenCaptivePortal", ScreenCaptivePortal);
   ("ScreenCrashReporting", ScreenCrashReporting);
   ("ScreenDeviceLimit", ScreenDeviceLimit);
   ("ScreenGetHelp", ScreenGetHelp);
   ("ScreenHome", ScreenHome);
   ("ScreenInitialize", ScreenInitialize);
   ("ScreenMessaging", ScreenMessaging);
   ("ScreenNoSubscriptionFoundError", ScreenNoSubscriptionFoundError);
   ("ScreenSettings", ScreenSettings);
   ("ScreenSubscriptionBlocked", ScreenSubscriptionBlocked);
   ("ScreenSubscriptionExpiredError", ScreenSubscriptionExpiredError);
   ("ScreenSubscriptionGenericError", ScreenSubscriptionGenericError);
   ("ScreenSubscriptionInProgressIAP", ScreenSubscriptionInProgressIAP);
   ("ScreenSubscriptionInProgressWeb", ScreenSubscriptionInProgressWeb);
   ("ScreenSubscriptionInUseError", ScreenSubscriptionInUseError);
   ("ScreenSubscriptionNeeded", ScreenSubscriptionNeeded);
   ("ScreenSubscriptionNotValidated", ScreenSubscriptionNotValidated);
   ("ScreenUpdateRecommended", ScreenUpdateRecommended);
   ("ScreenUpdateRequired", ScreenUpdateRequired);
   ("ScreenViewLogs", ScreenViewLogs);
   ("ScreenRemovingDevice", ScreenRemovingDevice);
   ("ScreenOnboarding", ScreenOnboarding);
   ("ScreenPermissionRequired", ScreenPermissionRequired)]%string.

Inductive LoadPolicy : Type := LoadPersistently | LoadTemporarily.

Inductive LoadingFlags : Type := NoFlags | ForceReload | ForceReloadAll.

#[export] Instance LoadingFlags_eq_dec : EqDecision LoadingFlags.
Proof. solve_decision. Defined.

(** What the close button of a mobile platform does on a screen. *)
Inductive QuitBlocked : Type :=
| NotBlocked | CancelAuthentication | PreviousScreen | HomeScreen.

Inductive LayerType : Type := eStackView | eView.

(** A layer is an item of the user interface, given by a number. *)
Record Layer : Type := mkLayer { m_layer : nat; m_type : LayerType }.

(** A requested screen is [None] where the number asked for is that of no screen, or no
    screen is requested. *)
Record ScreenData : Type := mkScreenData {
  m_screen : CustomScreen;
  m_loadPolicy : LoadPolicy;
  m_qmlComponentUrl : string;
  m_requiredState : list MozillaVPN.State;
  m_priorityGetter : option CustomScreen -> Z;
  m_quitBlocked : QuitBlocked;
  m_layers : list Layer;
}.

#[export] Instance ScreenData_eta : Eta ScreenData := fun d =>
  mkScreenData (m_screen d) (m_loadPolicy d) (m_qmlComponentUrl d) (m_requiredState d)
    (m_priorityGetter d) (m_quitBlocked d) (m_layers d).

Definition always (p : Z) (requested : option CustomScreen) : Z := p.

Definition onRequest (s : CustomScreen) (requested : option CustomScreen) : Z :=
  if bool_decide (requested = Some s) then 99 else -1.

Definition screenData (s : CustomScreen) (file : string) (required : list MozillaVPN.State)
    (priority : option CustomScreen -> Z) (quit : QuitBlocked) : ScreenData :=
  mkScreenData s LoadTemporarily
    ("qrc:/qt/qml/Mozilla/VPN/screens/" ++ file ++ ".qml")%string required priority quit [].

(** The screens in the order of their registration; [linux] is the platform, and
    [webPurchase] whether that feature is supported. *)
Definition registered (linux webPurchase : bool) : list ScreenData :=
  let subscribing := [MozillaVPN.StateSubscriptionNeeded; MozillaVPN.StateSubscriptionInProgress] in
  let elsewhere (l : list ScreenData) := if linux then [] else l in
  elsewhere
    [screenData ScreenAuthenticating "ScreenAuthenticating" [MozillaVPN.StateAuthenticating]
       (always 0) CancelAuthentication;
     screenData ScreenHeartbeatFailure "ScreenBackendFailure" [MozillaVPN.StateHeartbeatFailure]
       (always 0) NotBlocked;
     screenData ScreenPermissionRequired "ScreenPermissionRequired"
       [MozillaVPN.StatePermissionRequired] (always 0) NotBlocked;
     screenData ScreenBillingNotAvailable "ScreenBillingNotAvailable"
       [MozillaVPN.StateBillingNotAvailable] (always 0) NotBlocked]
  ++ [screenData ScreenCaptivePortal "ScreenCaptivePortal" [MozillaVPN.StateMain] (always 0)
        NotBlocked;
      screenData ScreenCrashReporting "ScreenCrashReporting" [] (onRequest ScreenCrashReporting)
        NotBlocked]
  ++ elsewhere
    [screenData ScreenDeviceLimit "ScreenDeviceLimit" [MozillaVPN.StateDeviceLimit] (always 0)
       NotBlocked]
  ++ [screenData ScreenGetHelp "ScreenGetHelp" [] (onRequest ScreenGetHelp) PreviousScreen;
      screenData ScreenHome "ScreenHome" [MozillaVPN.StateMain] (always 99) NotBlocked;
      screenData ScreenInitialize "ScreenInitialize" [MozillaVPN.StateInitialize] (always 0)
        NotBlocked;
      screenData ScreenMessaging "ScreenMessaging" [MozillaVPN.StateMain] (always 0) HomeScreen]
  ++ elsewhere
    [screenData ScreenNoSubscriptionFoundError "ScreenNoSubscriptionFoundError" subscribing
       (onRequest ScreenNoSubscriptionFoundError) NotBlocked]
  ++ [screenData ScreenSettings "ScreenSettings" [MozillaVPN.StateMain] (always 0) HomeScreen]
  ++ elsewhere
    [screenData ScreenSubscriptionBlocked "ScreenSubscriptionBlocked"
       [MozillaVPN.StateSubscriptionBlocked] (always 0) NotBlocked;
     screenData ScreenSubscriptionExpiredError "ScreenSubscriptionExpiredError" subscribing
       (onRequest ScreenSubscriptionExpiredError) NotBlocked;
     screenData ScreenSubscriptionGenericError "ScreenSubscriptionGenericError" subscribing
       (onRequest ScreenSubscriptionGenericError) NotBlocked;
     screenData ScreenSubscriptionInProgressIAP "ScreenSubscriptionInProgressIAP"
       [MozillaVPN.StateSubscriptionInProgress] (always (if webPurchase then -1 else 99))
       NotBlocked;
     screenData ScreenSubscriptionInProgressWeb "ScreenSubscriptionInProgressWeb"
       [MozillaVPN.StateSubscriptionInProgress] (always (if webPurchase then 99 else -1))
       NotBlocked;
     screenData ScreenSubscriptionInUseError "ScreenSubscriptionInUseError" subscribing
       (onRequest ScreenSubscriptionInUseError) NotBlocked;
     screenData ScreenSubscriptionNeeded "ScreenSubscriptionNeeded"
       [MozillaVPN.StateSubscriptionNeeded] (always 0) NotBlocked;
     screenData ScreenSubscriptionNotValidated "ScreenSubscriptionNotValidated"
       [MozillaVPN.StateSubscriptionNotValidated] (always 0) NotBlocked]
  ++ [screenData ScreenUpdateRequired "ScreenUpdateRequired" [MozillaVPN.StateUpdateRequired]
        (always 0) NotBlocked;
      screenData ScreenUpdateRecommended "ScreenUpdateRecommended" []
        (onRequest ScreenUpdateRecommended) PreviousScreen;
      screenData ScreenViewLogs "ScreenViewLogs" [] (onRequest ScreenViewLogs) PreviousScreen]
  ++ elsewhere
    [screenData ScreenRemovingDevice "ScreenRemovingDevice" [] (onRequest ScreenRemovingDevice)
       PreviousScreen]
  ++ [screenData ScreenOnboarding "ScreenOnboarding" [MozillaVPN.StateOnboarding] (always 0)
        NotBlocked].

(** ** The navigator *)

Inductive Signal : Type := CurrentComponentChanged | GoBack (item : nat).

(** [s_screens] is the global list of the screens; [m_currentScreen] is [None] for -1. *)
Record Navigator : Type := mkNavigator {
  m_currentScreen : option CustomScreen;
  m_currentLoadPolicy : LoadPolicy;
  m_currentLoadingFlags : LoadingFlags;
  m_currentLoadUrl : string;
  m_screenHistory : list CustomScreen;
  m_reloaders : list nat;
  s_screens : list ScreenData;
  signals : list Signal;
}.

#[export] Instance Navigator_eta : Eta Navigator := fun n =>
  mkNavigator (m_currentScreen n) (m_currentLoadPolicy n) (m_currentLoadingFlags n)
    (m_currentLoadUrl n) (m_screenHistory n) (m_reloaders n) (s_screens n) (signals n).

Definition construct : Navigator := mkNavigator None LoadTemporarily NoFlags EmptyString [] [] [] [].

Definition registerScreen (d : ScreenData) (n : Navigator) : Navigator :=
  n <| s_screens := s_screens n ++ [d] |>.

Definition emit (s : Signal) (n : Navigator) : Navigator := n <| signals := signals n ++ [s] |>.

Definition computeScreen (state : MozillaVPN.State) (requested : option CustomScreen)
    (d : ScreenData) : bool :=
  if m_priorityGetter d requested <? 0 then false
  else if negb (bool_decide (m_requiredState d = [])) && negb (bool_decide (state ∈ m_requiredState d))
  then false
  else true.

Definition computeScreens (state : MozillaVPN.State) (requested : option CustomScreen)
    (screens : list ScreenData) : list ScreenData :=
  List.filter (computeScreen state requested) screens.

(** The default flags reload where there is a reloader. *)
Definition reloadFlags (n : Navigator) (flags : LoadingFlags) : LoadingFlags :=
  if negb (bool_decide (m_reloaders n = [])) && bool_decide (flags = NoFlags)
  then ForceReload else flags.

Definition loadScreen (screen : CustomScreen) (policy : LoadPolicy) (url : string)
    (flags : LoadingFlags) (n : Navigator) : Navigator :=
  if bool_decide (m_currentScreen n = Some screen) then n
  else
    let flags := reloadFlags n flags in
    let n := if bool_decide (m_screenHistory n = []) || negb (bool_decide (Some screen = m_currentScreen n))
             then n <| m_screenHistory := m_screenHistory n ++ [screen] |>
                    <| m_currentScreen := Some screen |>
             else n in
    emit CurrentComponentChanged
      (n <| m_currentLoadPolicy := policy |> <| m_currentLoadUrl := url |>
         <| m_currentLoadingFlags := flags |>).

Definition load (d : ScreenData) (flags : LoadingFlags) (n : Navigator) : Navigator :=
  loadScreen (m_screen d) (m_loadPolicy d) (m_qmlComponentUrl d) flags n.

(** The loop of [computeComponent]: the first screen with the highest priority. *)
Definition topPriority (screens : list ScreenData) : option ScreenData :=
  foldl (fun top d =>
    match top with
    | Some t => if m_priorityGetter t None <? m_priorityGetter d None then Some d else Some t
    | None => Some d
    end) None screens.

(** Without a screen the code follows a null pointer. *)
Definition computeComponent (state : MozillaVPN.State) (n : Navigator) : Outcome Navigator :=
  match topPriority (computeScreens state None (s_screens n)) with
  | None => Undefined
  | Some d => Ret (load d ForceReloadAll n)
  end.

(** The first of the screens that is the requested one. *)
Definition findScreen (state : MozillaVPN.State) (requested : option CustomScreen)
    (screens : list ScreenData) : option ScreenData :=
  head (List.filter (fun d => bool_decide (Some (m_screen d) = requested))
          (computeScreens state requested screens)).

Definition requestScreen (state : MozillaVPN.State) (requested : option CustomScreen)
    (flags : LoadingFlags) (n : Navigator) : Navigator :=
  let flags := reloadFlags n flags in
  match findScreen state requested (s_screens n) with
  | None => n
  | Some d =>
      if String.eqb (m_qmlComponentUrl d) (m_currentLoadUrl n) && bool_decide (flags = NoFlags)
      then n else load d flags n
  end.

(** [requestPreviousScreen] takes the last two screens out of the history. *)
Definition requestPreviousScreen (state : MozillaVPN.State) (n : Navigator) : Navigator :=
  match rev (m_screenHistory n) with
  | _ :: previous :: r =>
      requestScreen state (Some previous) NoFlags (n <| m_screenHistory := rev r |>)
  | _ => n
  end.

Definition reloadCurrentScreen (state : MozillaVPN.State) (n : Navigator) : Navigator :=
  requestScreen state (m_currentScreen n) ForceReloadAll n.

(** [path] is that of the URL. *)
Definition requestDeepLink (state : MozillaVPN.State) (path : chars) (n : Navigator) : Navigator :=
  match head (splitSkipEmpty "/" path) with
  | None => n
  | Some topPath =>
      let name := toLower (qs "Screen" ++ topPath) in
      match List.find (fun e => bool_decide (toLower (qs (fst e)) = name)) meta with
      | Some (_, s) => requestScreen state (Some s) NoFlags n
      | None => n
      end
  end.

Definition isScreen (s : CustomScreen) (d : ScreenData) : bool := bool_decide (m_screen d = s).

(** [addStackView] and [addView]. *)
Fixpoint addLayer (accepts : ScreenData -> bool) (l : Layer) (screens : list ScreenData)
  : list ScreenData :=
  match screens with
  | [] => []
  | d :: r =>
      if accepts d then (d <| m_layers := m_layers d ++ [l] |>) :: r else d :: addLayer accepts l r
  end.

Definition addView (state : MozillaVPN.State) (requested : option CustomScreen) (l : Layer)
    (n : Navigator) : Navigator :=
  n <| s_screens := addLayer (fun d => computeScreen state requested d
                                       && bool_decide (Some (m_screen d) = requested)) l
                      (s_screens n) |>.

(** The first layer of the item, in every screen. *)
Fixpoint removeLayer (item : nat) (l : list Layer) : list Layer :=
  match l with
  | [] => []
  | x :: r => if (m_layer x =? item)%nat then r else x :: removeLayer item r
  end.

Definition removeItem (item : nat) (n : Navigator) : Navigator :=
  n <| s_screens := map (fun d => d <| m_layers := removeLayer item (m_layers d) |>) (s_screens n) |>.

Definition registerReloader (reloader : nat) (n : Navigator) : Navigator :=
  n <| m_reloaders := m_reloaders n ++ [reloader] |>.

Fixpoint removeOne (x : nat) (l : list nat) : list nat :=
  match l with
  | [] => []
  | y :: r => if (x =? y)%nat then r else y :: removeOne x r
  end.

Definition unregisterReloader (reloader : nat) (n : Navigator) : Navigator :=
  n <| m_reloaders := removeOne reloader (m_reloaders n) |>.

(** [eventHandled] on the mobile platforms: the topmost layer that can go back does, else
    the screen decides. [depth] and [visible] are properties of the items. *)
Definition canGoBack (depth : nat -> option Z) (visible : nat -> option bool) (l : Layer) : bool :=
  match m_type l with
  | eStackView => match depth (m_layer l) with Some d => 1 <? d | None => false end
  | eView => default false (visible (m_layer l))
  end.

Definition quitBlocked (state : MozillaVPN.State) (q : QuitBlocked) (n : Navigator)
  : bool * Navigator :=
  match q with
  | NotBlocked => (false, n)
  | CancelAuthentication => (true, n)
  | PreviousScreen => (true, requestPreviousScreen state n)
  | HomeScreen => (true, requestScreen state (Some ScreenHome) ForceReload n)
  end.

Definition eventHandled (state : MozillaVPN.State) (depth : nat -> option Z)
    (visible : nat -> option bool) (n : Navigator) : Outcome (bool * Navigator) :=
  match last (m_screenHistory n) with
  | None => Ret (false, n)
  | Some s =>
      match List.find (isScreen s) (s_screens n) with
      | None => Undefined
      | Some d =>
          match List.find (canGoBack depth visible) (rev (m_layers d)) with
          | Some l => Ret (true, emit (GoBack (m_layer l)) n)
          | None => Ret (quitBlocked state (m_quitBlocked d) n)
          end
      end
  end.

(** ** The navigator and the application *)

Section Application.
Context `{QtText} `{QtJson}.

(** Translated strings, the platform and the feature. *)
Variable tr : chars -> chars.
Variables linux webPurchase : bool.

Record System : Type := mkSystem { app : MozillaVPN.App; navigator : Navigator }.

(** The changes of the state that were signalled. *)
Definition states (l : list MozillaVPN.Effect) : list MozillaVPN.State :=
  omap (fun e => match e with MozillaVPN.StateChanged s => Some s | _ => None end) l.

Definition news (a a' : MozillaVPN.App) : list MozillaVPN.State :=
  states (drop (length (MozillaVPN.effects a)) (MozillaVPN.effects a')).

(** The slot of the signal, which is called while the state is the one signalled. *)
Fixpoint compute (l : list MozillaVPN.State) (n : Navigator) : Outcome Navigator :=
  match l with
  | [] => Ret n
  | s :: r => n <~ computeComponent s n;; compute r n
  end.

(** [Navigator::initialize], after the registration of the screens. *)
Definition initialize (state : MozillaVPN.State) (n : Navigator) : Outcome Navigator :=
  computeComponent state (foldl (fun n d => registerScreen d n) n (registered linux webPurchase)).

Inductive Event : Type :=
| AppEvent (e : MozillaVPN.Event)
| Requested (s : option CustomScreen) (flags : LoadingFlags)
| PreviousRequested
| DeepLink (path : chars)
| Reload
| ViewAdded (s : option CustomScreen) (l : Layer)
| ItemRemoved (item : nat)
| ReloaderRegistered (reloader : nat)
| ReloaderUnregistered (reloader : nat).

(** The screens are registered at the initialization of the application, before it
    changes its state. *)
Definition handle (e : Event) (x : System) : Outcome System :=
  let a := app x in
  let n := navigator x in
  let state := MozillaVPN.m_state a in
  match e with
  | AppEvent e =>
      let a' := MozillaVPN.handle tr e a in
      n <~ match e with MozillaVPN.Initialize _ => initialize state n | _ => Ret n end;;
      n <~ compute (news a a') n;;
      Ret (mkSystem a' n)
  | Requested s flags => Ret (mkSystem a (requestScreen state s flags n))
  | PreviousRequested => Ret (mkSystem a (requestPreviousScreen state n))
  | DeepLink path => Ret (mkSystem a (requestDeepLink state path n))
  | Reload => Ret (mkSystem a (reloadCurrentScreen state n))
  | ViewAdded s l => Ret (mkSystem a (addView state s l n))
  | ItemRemoved item => Ret (mkSystem a (removeItem item n))
  | ReloaderRegistered r => Ret (mkSystem a (registerReloader r n))
  | ReloaderUnregistered r => Ret (mkSystem a (unregisterReloader r n))
  end.

(** What happens on the desktop: no backend asks for a permission and nothing is
    purchased. *)
Definition onDesktop (e : MozillaVPN.Event) : bool :=
  match e with
  | MozillaVPN.ControllerStateChanged Controller.StatePermissionRequired _ => false
  | MozillaVPN.SubscriptionFailed _ _ | MozillaVPN.SubscriptionNotValidated
  | MozillaVPN.AlreadySubscribed | MozillaVPN.BillingNotAvailable _ => false
  | _ => true
  end.

(** The user interface is loaded after the initialization. *)
Definition enabled (e : Event) (x : System) : bool :=
  match e with
  | AppEvent e => onDesktop e && MozillaVPN.enabled e (app x)
  | _ => MozillaVPN.m_initialized (app x)
  end.

Inductive Reachable : System -> Prop :=
| reachable_start s onboarded : Reachable (mkSystem (MozillaVPN.construct s onboarded) construct)
| reachable_event x x' e :
    Reachable x -> enabled e x = true -> handle e x = Ret x' -> Reachable x'.

(** *** The states of the application *)

Definition desktopStates : list MozillaVPN.State :=
  [MozillaVPN.StateInitialize; MozillaVPN.StateMain; MozillaVPN.StateUpdateRequired].

Definition settled (a : MozillaVPN.App) : Prop :=
  MozillaVPN.m_state a ∈ desktopStates
  /\ MozillaVPN.controllerState a <> Controller.StatePermissionRequired.

(** [a'] has signalled more than [a], each change of its state and only those of the
    desktop. *)
Definition follows (a a' : MozillaVPN.App) : Prop :=
  exists l, MozillaVPN.effects a' = MozillaVPN.effects a ++ l
    /\ Forall (fun s => s ∈ desktopStates) (states l)
    /\ MozillaVPN.m_state a' = default (MozillaVPN.m_state a) (last (states l))
    /\ MozillaVPN.controllerState a' <> Controller.StatePermissionRequired
    /\ (MozillaVPN.m_initialized a = true -> MozillaVPN.m_initialized a' = true).

Definition steps (a a' : MozillaVPN.App) : Prop := settled a -> follows a a'.

Lemma follows_settled (a a' : MozillaVPN.App) : settled a -> follows a a' -> settled a'.
Proof.
  intros [Hs _] (l & _ & Hl & E & Hc & _). split; [|exact Hc]. rewrite E.
  destruct (last (states l)) as [s|] eqn:El; [|done]. apply last_Some_elem_of in El.
  by apply (proj1 (Forall_forall _ _) Hl).
Qed.

Lemma steps_trans (a b c : MozillaVPN.App) : steps a b -> steps b c -> steps a c.
Proof.
  intros Hab Hbc Ha. pose proof (Hab Ha) as Hb. pose proof (Hbc (follows_settled _ _ Ha Hb)) as Hc.
  destruct Hb as (l & E1 & Hl & Es & _ & Hi). destruct Hc as (l' & E2 & Hl' & Es' & Hc & Hi').
  exists (l ++ l'). unfold states in *. rewrite omap_app. split_and!.
  - by rewrite E2, E1, app_assoc.
  - by apply Forall_app.
  - rewrite Es', Es, last_app. by destruct (last (omap _ l')).
  - exact Hc.
  - auto.
Qed.

(** Nothing is signalled and the states stay. *)
Lemma steps_quiet (l : list MozillaVPN.Effect) (a a' : MozillaVPN.App) :
  MozillaVPN.effects a' = MozillaVPN.effects a ++ l -> states l = [] ->
  MozillaVPN.m_state a' = MozillaVPN.m_state a ->
  MozillaVPN.controllerState a' = MozillaVPN.controllerState a ->
  MozillaVPN.m_initialized a' = MozillaVPN.m_initialized a -> steps a a'.
Proof.
  intros E El Es Ec Ei [_ Hc]. exists l. rewrite El, Ec, Ei. by split_and!.
Qed.

Lemma steps_refl (a : MozillaVPN.App) : steps a a.
Proof. by apply (steps_quiet []); rewrite ?app_nil_r. Qed.

Lemma steps_setState (s : MozillaVPN.State) (a : MozillaVPN.App) :
  s ∈ desktopStates -> steps a (MozillaVPN.setState s a).
Proof.
  intros Hs [_ Hc].
  assert (forall l, states l = [] ->
    MozillaVPN.effects (MozillaVPN.setState s a)
    = MozillaVPN.effects a ++ [MozillaVPN.UserAuthenticationMaybeChanged; MozillaVPN.StateChanged s] ++ l ->
    MozillaVPN.m_state (MozillaVPN.setState s a) = s ->
    MozillaVPN.controllerState (MozillaVPN.setState s a) = MozillaVPN.controllerState a ->
    MozillaVPN.m_initialized (MozillaVPN.setState s a) = MozillaVPN.m_initialized a ->
    follows a (MozillaVPN.setState s a)) as Hf.
  { intros l El E Es Ec Ei. exists ([MozillaVPN.UserAuthenticationMaybeChanged; MozillaVPN.StateChanged s] ++ l).
    unfold states in *. rewrite omap_app, El, app_nil_r. split_and!; [exact E|exact (Forall_cons_2 _ s [] Hs (Forall_nil_2 _))|by rewrite Es|by rewrite Ec|by rewrite Ei]. }
  unfold MozillaVPN.setState in *. set (b := a <| MozillaVPN.m_state := s |>) in *.
  assert (MozillaVPN.effects (MozillaVPN.emit (MozillaVPN.StateChanged s)
            (MozillaVPN.emit MozillaVPN.UserAuthenticationMaybeChanged b))
          = MozillaVPN.effects a
            ++ [MozillaVPN.UserAuthenticationMaybeChanged; MozillaVPN.StateChanged s]) as Eb
    by exact (eq_sym (app_assoc (MozillaVPN.effects a) [_] [_])).
  destruct s; try (apply (Hf []); [done|exact Eb|done..]);
    (destruct (bool_decide _);
       [apply (Hf [MozillaVPN.ControllerInitialize]); [done| |done..];
        rewrite app_assoc, <- Eb; reflexivity
       |apply (Hf []); [done|exact Eb|done..]]).
Qed.

(** The same, after other steps. *)
Lemma on_same (a b c : MozillaVPN.App) :
  MozillaVPN.effects c = MozillaVPN.effects b -> MozillaVPN.m_state c = MozillaVPN.m_state b ->
  MozillaVPN.controllerState c = MozillaVPN.controllerState b ->
  (MozillaVPN.m_initialized b = true -> MozillaVPN.m_initialized c = true) ->
  steps a b -> steps a c.
Proof.
  intros E Es Ec Ei Hab. apply (steps_trans a b c Hab). intros [_ Hc]. exists [].
  rewrite app_nil_r, Ec. split_and!; [done|constructor|done..].
Qed.

Lemma on_emit (e : MozillaVPN.Effect) (a b : MozillaVPN.App) :
  states [e] = [] -> steps a b -> steps a (MozillaVPN.emit e b).
Proof. intros He Hab. apply (steps_trans a b _ Hab). by apply (steps_quiet [e]). Qed.

Lemma on_setState (s : MozillaVPN.State) (a b : MozillaVPN.App) :
  s ∈ desktopStates -> steps a b -> steps a (MozillaVPN.setState s b).
Proof. intros Hs Hab. apply (steps_trans a b _ Hab). by apply steps_setState. Qed.

Lemma on_schedule (j : MozillaVPN.Job) (a b : MozillaVPN.App) :
  steps a b -> steps a (MozillaVPN.scheduleTask j b).
Proof. by apply on_same. Qed.

Lemma on_deleteTasks (a b : MozillaVPN.App) : steps a b -> steps a (MozillaVPN.deleteTasks b).
Proof. by apply on_same. Qed.

Lemma on_deactivate (a b : MozillaVPN.App) : steps a b -> steps a (MozillaVPN.deactivate b).
Proof. by apply on_same. Qed.

Lemma on_reset (force : bool) (a b : MozillaVPN.App) :
  steps a b -> steps a (MozillaVPN.reset force b).
Proof.
  intros Hab. unfold MozillaVPN.reset. cbv zeta.
  set (c := MozillaVPN.emit MozillaVPN.SubscriptionStopped _).
  assert (steps a c) as Hc.
  { unfold c, MozillaVPN.resetSettings. cbv zeta.
    apply on_emit, on_schedule; [done|]. do 3 (apply on_emit; [done|]).
    by apply (on_same a b). }
  destruct force; [apply on_setState; [unfold desktopStates; set_solver|done]|by apply on_emit].
Qed.

Lemma on_maybeStateMain (a b : MozillaVPN.App) :
  steps a b -> steps a (MozillaVPN.maybeStateMain b).
Proof.
  intros Hab Ha. pose proof (follows_settled _ _ Ha (Hab Ha)) as [_ Hc]. revert Ha.
  unfold MozillaVPN.maybeStateMain.
  destruct (negb _); [by apply on_setState; [unfold desktopStates; set_solver|]|].
  rewrite bool_decide_false by exact Hc. cbv zeta.
  destruct (bool_decide _); [by apply (on_same a b)|].
  apply on_setState; [unfold desktopStates; set_solver|]. by apply (on_same a b).
Qed.

Lemma on_errorHandle (unsettled : bool) (error : ErrorHandler.ErrorType) (a b : MozillaVPN.App) :
  steps a b -> steps a (MozillaVPN.errorHandle unsettled error b).
Proof.
  intros Hab. unfold MozillaVPN.errorHandle. destruct (bool_decide _); [done|].
  unfold MozillaVPN.errorHandled. cbv zeta.
  set (c := MozillaVPN.emit MozillaVPN.ErrorHandledSignal _).
  assert (steps a c) as Hc
    by (apply on_emit; [done|]; apply on_emit; [done|]; by apply (on_same a b)).
  set (d := if bool_decide (MozillaVPN.m_alert c = _) then _ else c).
  assert (steps a d) as Hd by (unfold d; destruct (bool_decide _); [by apply on_emit|done]).
  clearbody d. case_bool_decide; [by apply on_reset|]. case_bool_decide; [by apply on_reset|done].
Qed.

Lemma steps_profileOperation (op : WireGuardProfileModel.Op) (a : MozillaVPN.App) :
  steps a (MozillaVPN.profileOperation tr op a).2.
Proof.
  unfold MozillaVPN.profileOperation. destruct (WireGuardProfileModel.run _ _ _) as [ok m].
  set (b := a <| MozillaVPN.m_wireGuardProfileModel := m |>).
  assert (steps a b) as Hb by (apply (on_same a a); [done..|apply steps_refl]).
  destruct (existsb _ _); [|exact Hb]. cbn [snd].
  assert (steps a (MozillaVPN.emit MozillaVPN.UserAuthenticationMaybeChanged b)) as Hc
    by by apply on_emit.
  destruct (MozillaVPN.m_initialized _); [by apply on_maybeStateMain|done].
Qed.

Lemma steps_controller (s : Controller.State) (startAtBoot : bool) (a : MozillaVPN.App) :
  s <> Controller.StatePermissionRequired ->
  steps a (MozillaVPN.controllerStateChanged s startAtBoot a).
Proof.
  intros Hs Ha. revert Ha. unfold MozillaVPN.controllerStateChanged. cbv zeta.
  set (b := a <| MozillaVPN.controllerState := s |>).
  assert (steps a b) as Hb by 
    (intros _; exists []; split_and!; [by rewrite app_nil_r|constructor|done|exact Hs|done]).
  set (c := if (_ && _)%bool then MozillaVPN.setState _ b else _).
  assert (steps a c) as Hc.
  { unfold c. destruct (_ && bool_decide (s = Controller.StatePermissionRequired)) eqn:E.
    { by apply andb_true_iff in E as [_ E%bool_decide_eq_true]. }
    clear E. destruct (_ && _); [apply on_setState; [unfold desktopStates; set_solver|done]|done]. }
  clearbody c. set (d := if negb _ && _ then _ else c).
  assert (steps a d) as Hd.
  { unfold d. destruct (_ && _); [|done]. unfold MozillaVPN.maybeConnectOnStartup.
    destruct (_ && _); [|by apply (on_same a c)]. cbv zeta.
    destruct startAtBoot; [|by apply (on_same a c)].
    unfold MozillaVPN.activate. apply on_schedule, on_deleteTasks, on_emit; [done|].
    by apply (on_same a c). }
  clearbody d. apply on_emit; [done|]. destruct (_ && _); [|done].
  apply on_emit; [done|]. by apply (on_same a d).
Qed.

Lemma steps_runJob (unsettled needed : bool) (j : MozillaVPN.Job) (a b : MozillaVPN.App) :
  steps a b -> steps a (MozillaVPN.runJob unsettled needed j b).
Proof.
  intros Hab. destruct j; cbn [MozillaVPN.runJob]; try done.
  - unfold MozillaVPN.activateFunction. destruct (MozillaVPN.modelsInitialized b); [by apply on_schedule|].
    apply on_setState; [unfold desktopStates; set_solver|]. by apply on_errorHandle.
  - by apply on_maybeStateMain.
  - destruct (_ && _); [by apply on_maybeStateMain|done].
  - unfold MozillaVPN.hardReset. apply on_schedule.
    apply (on_same a (MozillaVPN.resetSettings b)); [done..|].
    unfold MozillaVPN.resetSettings. cbv zeta. apply on_emit; [done|]. by apply (on_same a b).
  - by apply on_emit.
Qed.

Lemma steps_handle (e : MozillaVPN.Event) (a : MozillaVPN.App) :
  onDesktop e = true -> steps a (MozillaVPN.handle tr e a).
Proof.
  intros He. pose proof (steps_refl a) as Ha.
  assert (MozillaVPN.StateInitialize ∈ desktopStates /\ MozillaVPN.StateMain ∈ desktopStates
          /\ MozillaVPN.StateUpdateRequired ∈ desktopStates) as (Hi & Hm & Hu)
    by (unfold desktopStates; set_solver).
  destruct e; cbn [MozillaVPN.handle onDesktop] in *; try discriminate.
  - unfold MozillaVPN.initialize. cbv zeta.
    set (b := if settingsError then _ else _).
    assert (steps a b) as Hb.
    { unfold b. destruct settingsError; [apply on_emit; [done|]|]; by apply (on_same a a). }
    clearbody b.
    match goal with |- steps a (if _ then ?x else _) => assert (steps a x) as Hc end.
    { apply (on_same a (MozillaVPN.emit MozillaVPN.ComponentsInitialized b)); [done..|].
      by apply on_emit. }
    destruct (negb _); [exact Hc|]. apply on_setState; [exact Hm|].
    by apply (on_same a _ _ eq_refl eq_refl eq_refl (fun x => x) Hc).
  - apply steps_profileOperation.
  - apply steps_controller. intros ->. discriminate.
  - by apply on_setState.
  - unfold MozillaVPN.runNext. destruct (MozillaVPN.jobs a); [done|].
    apply steps_runJob. by apply (on_same a a).
  - by apply (on_same a a).
  - by apply on_deactivate.
  - by apply (on_same a a).
  - unfold MozillaVPN.logout. cbv zeta. apply on_reset.
    assert (steps a (MozillaVPN.deleteTasks (MozillaVPN.deactivate
              (MozillaVPN.setAlert ErrorHandler.LogoutAlert a)))) as Hb
      by (apply on_deleteTasks, on_deactivate, on_emit; [done|]; by apply (on_same a a)).
    destruct hasCurrentDevice; [by apply on_schedule|done].
  - unfold MozillaVPN.cancelAuthentication. destruct (negb _); [done|].
    by apply on_reset, on_emit.
  - unfold MozillaVPN.onboardingCompleted. destruct (negb _).
    { apply on_setState; [done|]. by apply (on_same a a). }
    cbv zeta. destruct (bool_decide _); [by apply (on_same a a)|].
    apply on_maybeStateMain. by apply (on_same a a).
  - by apply (on_same a a).
  - apply on_emit; [done|]. by apply (on_same a a).
  - apply on_emit; [done|]. by apply (on_same a a).
  - apply on_emit; [done|]. by apply (on_same a a).
  - apply on_emit; [done|]. by apply (on_same a a).
  - by apply on_errorHandle.
  - unfold MozillaVPN.networkErrorHandle. cbv zeta. destruct (_ || _); [by apply on_errorHandle|done].
  - intros Hs. revert Hs. unfold MozillaVPN.heartbeatCompleted.
    intros [Hs Hc]. revert Hs Hc.
    destruct (negb success && _) eqn:E.
    + apply andb_true_iff in E as [_ E%bool_decide_eq_true]. rewrite E. unfold desktopStates.
      intros Hs. set_solver.
    + clear E. intros Hs Hc. assert (settled a) as Hset by done. revert Hset.
      destruct (negb _); [done|]. destruct (_ || _); [by apply on_setState|].
      by apply on_maybeStateMain.
  - unfold MozillaVPN.subscriptionCompleted, MozillaVPN.completeActivation. cbv zeta.
    set (b := if bool_decide _ then MozillaVPN.scheduleTask _ _ else _).
    assert (steps a b) as Hb.
    { unfold b. destruct (bool_decide _); [apply on_schedule|]; by apply on_emit. }
    clearbody b. destruct (_ && _); [by apply on_maybeStateMain|by apply on_schedule].
  - by apply on_schedule.
  - by apply on_schedule.
Qed.

End Application.

(** *** The screen that is shown *)

Section Desktop.
Context `{QtText} `{QtJson}.
Variable tr : chars -> chars.
Variable webPurchase : bool.

(** The screens of the desktop, without the layers of the user interface. *)
Definition desktop : list ScreenData := registered true webPurchase.

Definition bare (d : ScreenData) : ScreenData := d <| m_layers := [] |>.

Definition wellFormed (n : Navigator) : Prop := map bare (s_screens n) = desktop.

Definition available (state : MozillaVPN.State) (c : CustomScreen) : Prop :=
  exists d, d ∈ desktop /\ m_screen d = c
    /\ (m_requiredState d = [] \/ state ∈ m_requiredState d).

(** A screen that the state allows is shown. *)
Definition shows (state : MozillaVPN.State) (n : Navigator) : Prop :=
  exists c, m_currentScreen n = Some c /\ available state c.

(** The screen of a state. *)
Definition home (state : MozillaVPN.State) : CustomScreen :=
  match state with
  | MozillaVPN.StateMain => ScreenHome
  | MozillaVPN.StateUpdateRequired => ScreenUpdateRequired
  | _ => ScreenInitialize
  end.

Lemma computeScreens_bare (state : MozillaVPN.State) (r : option CustomScreen) (l : list ScreenData) :
  map bare (computeScreens state r l) = computeScreens state r (map bare l).
Proof.
  unfold computeScreens. induction l as [|d l IH]; [done|]. cbn [List.filter map].
  change (computeScreen state r (bare d)) with (computeScreen state r d).
  destruct (computeScreen state r d); cbn [map]; by rewrite IH.
Qed.

Lemma topPriority_bare (l : list ScreenData) :
  bare <$> topPriority l = topPriority (map bare l).
Proof.
  unfold topPriority. set (f := fun top d => _).
  assert (forall t, bare <$> foldl f t l = foldl f (bare <$> t) (map bare l)) as Hf; [|apply (Hf None)].
  induction l as [|d l IH]; intros t; [done|]. cbn [foldl map]. rewrite IH. f_equal.
  destruct t as [t|]; [|done]. cbn. by destruct (_ <? _).
Qed.

Lemma computeScreen_allowed (state : MozillaVPN.State) (r : option CustomScreen) (d : ScreenData) :
  computeScreen state r d = true -> m_requiredState d = [] \/ state ∈ m_requiredState d.
Proof.
  unfold computeScreen. destruct (_ <? 0); [done|].
  case_bool_decide; [by left|]. case_bool_decide; [by right|done].
Qed.

Lemma load_current (d : ScreenData) (flags : LoadingFlags) (n : Navigator) :
  m_currentScreen (load d flags n) = Some (m_screen d) /\ s_screens (load d flags n) = s_screens n.
Proof.
  unfold load, loadScreen. case_bool_decide as E; [done|]. cbv zeta.
  rewrite (bool_decide_false (Some _ = m_currentScreen n)) by congruence.
  by rewrite orb_true_r.
Qed.

Lemma findScreen_spec (state : MozillaVPN.State) (r : option CustomScreen) (n : Navigator) d :
  wellFormed n -> findScreen state r (s_screens n) = Some d ->
  Some (m_screen d) = r /\ available state (m_screen d).
Proof.
  unfold findScreen. intros Hn Hd.
  assert (d ∈ List.filter (fun d => bool_decide (Some (m_screen d) = r))
                (computeScreens state r (s_screens n))) as Hin
    by (destruct (List.filter _ _); [done|]; injection Hd as ->; set_solver).
  apply list_elem_of_In, filter_In in Hin as [Hin Er%bool_decide_eq_true].
  unfold computeScreens in Hin. apply filter_In in Hin as [Hin Hc].
  split; [done|]. exists (bare d). split_and!; [|done|by apply (computeScreen_allowed state r)].
  rewrite <- Hn. apply list_elem_of_In. by apply in_map.
Qed.

(** A request leaves a screen that the state allows. *)
Lemma request_shows (state : MozillaVPN.State) (r : option CustomScreen) (flags : LoadingFlags) n :
  wellFormed n -> shows state n ->
  wellFormed (requestScreen state r flags n) /\ shows state (requestScreen state r flags n).
Proof.
  intros Hn Hs. unfold requestScreen. cbv zeta.
  destruct (findScreen state r (s_screens n)) as [d|] eqn:Ed; [|done].
  destruct (_ && _); [done|]. destruct (load_current d (reloadFlags n flags) n) as [Ec El].
  split; [unfold wellFormed; by rewrite El|]. exists (m_screen d).
  split; [exact Ec|]. by apply (findScreen_spec state r n).
Qed.

Lemma compute_shows (state : MozillaVPN.State) (n : Navigator) :
  wellFormed n -> state ∈ desktopStates ->
  exists n', computeComponent state n = Ret n'
    /\ wellFormed n' /\ m_currentScreen n' = Some (home state).
Proof.
  intros Hn Hs. unfold computeComponent.
  pose proof (topPriority_bare (computeScreens state None (s_screens n))) as Ht.
  rewrite computeScreens_bare, Hn in Ht.
  assert (m_screen <$> topPriority (computeScreens state None desktop) = Some (home state)) as Hh.
  { unfold desktopStates in Hs. rewrite !elem_of_cons in Hs.
    destruct Hs as [->|[->|[->|[]%elem_of_nil]]]; reflexivity. }
  rewrite <- Ht in Hh. destruct (topPriority _) as [d|]; [|done]. cbn in Hh.
  destruct (load_current d ForceReloadAll n) as [Ec El]. eexists. split; [done|].
  split; [unfold wellFormed; by rewrite El|]. by rewrite Ec.
Qed.

Lemma home_available (state : MozillaVPN.State) :
  state ∈ desktopStates -> available state (home state).
Proof.
  assert (forall k d, desktop !! k = Some d -> m_screen d = home state ->
    state ∈ m_requiredState d -> available state (home state)) as Hk.
  { intros k d Hd Es Hr. exists d. split_and!; [by apply list_elem_of_lookup_2 in Hd|done|by right]. }
  unfold desktopStates. rewrite !elem_of_cons. intros [->|[->|[->|[]%elem_of_nil]]];
    [eapply (Hk 4%nat)|eapply (Hk 3%nat)|eapply (Hk 7%nat)]; try reflexivity;
    by apply list_elem_of_singleton.
Qed.

Lemma computes_show (l : list MozillaVPN.State) (n : Navigator) :
  wellFormed n -> Forall (fun s => s ∈ desktopStates) l ->
  exists n', compute l n = Ret n' /\ wellFormed n'
    /\ m_currentScreen n' = match last l with Some s => Some (home s) | None => m_currentScreen n end.
Proof.
  intros Hn Hl. revert n Hn. induction Hl as [|s l Hs _ IH]; intros n Hn; [by exists n|].
  destruct (compute_shows s n Hn Hs) as (n1 & E1 & Hn1 & Ec1).
  destruct (IH n1 Hn1) as (n2 & E2 & Hn2 & Ec2). exists n2. cbn [compute]. rewrite E1. cbn.
  split_and!; [done|done|]. rewrite Ec2, last_cons. by destruct (last l).
Qed.

(** *** Everything together *)

(** Before the initialization there are no screens; after it one is shown. *)
Definition navigating (x : System) : Prop :=
  settled (app x)
  /\ ((MozillaVPN.untouched (app x) /\ navigator x = construct)
      \/ (MozillaVPN.running (app x)
          /\ wellFormed (navigator x) /\ shows (MozillaVPN.m_state (app x)) (navigator x))).

Lemma register_all (l : list ScreenData) (n : Navigator) :
  s_screens (foldl (fun n d => registerScreen d n) n l) = s_screens n ++ l
  /\ m_currentScreen (foldl (fun n d => registerScreen d n) n l) = m_currentScreen n.
Proof.
  revert n. induction l as [|d l IH]; intros n; [by rewrite app_nil_r|]. cbn [foldl].
  destruct (IH (registerScreen d n)) as [-> ->]. split; [|done]. exact (eq_sym (app_assoc _ [d] l)).
Qed.

(** What the application does is followed by a screen of its state. *)
Lemma follow_shows (a a' : MozillaVPN.App) (n : Navigator) :
  follows a a' -> settled a' -> wellFormed n -> shows (MozillaVPN.m_state a) n ->
  exists n', compute (news a a') n = Ret n' /\ wellFormed n' /\ shows (MozillaVPN.m_state a') n'.
Proof.
  intros (l & E & Hl & Es & _ & _) [Ha' _] Hn Hs. unfold news. rewrite E, drop_app_length.
  destruct (computes_show (states l) n Hn Hl) as (n' & E' & Hn' & Ec).
  exists n'. split_and!; [done|done|]. destruct (last (states l)) as [s|]; cbn in Es.
  - exists (home s). split; [done|]. rewrite Es in Ha' |- *. by apply home_available.
  - rewrite Es. destruct Hs as (c & Hc & Hav). exists c. by rewrite Ec.
Qed.

Lemma early_operation (op : WireGuardProfileModel.Op) (a : MozillaVPN.App) :
  MozillaVPN.m_initialized a = false ->
  news a (MozillaVPN.profileOperation tr op a).2 = []
  /\ MozillaVPN.m_initialized (MozillaVPN.profileOperation tr op a).2 = false.
Proof.
  intros Hi. unfold MozillaVPN.profileOperation. destruct (WireGuardProfileModel.run _ _ _) as [ok m].
  set (b := a <| MozillaVPN.m_wireGuardProfileModel := m |>). unfold news.
  destruct (existsb _ _); cbn [snd].
  - change (MozillaVPN.m_initialized (MozillaVPN.emit ?e b)) with (MozillaVPN.m_initialized a).
    rewrite Hi. change (MozillaVPN.effects (MozillaVPN.emit ?e b)) with (MozillaVPN.effects a ++ [e]).
    by rewrite drop_app_length.
  - change (MozillaVPN.effects b) with (MozillaVPN.effects a). by rewrite drop_all.
Qed.

(** The application does something, initialized or not. *)
Lemma app_navigating (e : MozillaVPN.Event) (x : System) :
  navigating x -> onDesktop e = true -> MozillaVPN.enabled e (app x) = true ->
  exists x', handle tr true webPurchase (AppEvent e) x = Ret x' /\ navigating x'.
Proof.
  intros [Hset Hx] Hd He. destruct x as [a n]. cbn [app navigator] in *.
  pose proof (steps_handle tr e a Hd Hset) as Hf.
  pose proof (follows_settled _ _ Hset Hf) as Hset'.
  assert (MozillaVPN.untouched a \/ MozillaVPN.running a) as Ha by tauto.
  pose proof (MozillaVPN.handle_app_invariant tr e a Ha He) as Hinv. cbn [handle app navigator].
  destruct Hx as [[Hu ->]|(Hr & Hn & Hs)].
  - destruct e as [err|op| | | | | | | | | | | | | | | | | | | | | | | |];
      try (destruct Hu as [Hi _]; cbn in He; congruence).
    + assert (MozillaVPN.running (MozillaVPN.initialize err a)) as Hr
        by (by apply MozillaVPN.initialize_running).
      destruct (register_all desktop construct) as [Er _].
      assert (wellFormed (foldl (fun n d => registerScreen d n) construct desktop)) as Hn0.
      { unfold wellFormed. rewrite Er. reflexivity. }
      destruct Hset as [Hs Hc]. destruct (compute_shows _ _ Hn0 Hs) as (n1 & E1 & Hn1 & Ec1).
      assert (shows (MozillaVPN.m_state a) n1) as Hs1
        by (exists (home (MozillaVPN.m_state a)); split; [done|by apply home_available]).
      destruct (follow_shows _ _ n1 Hf Hset' Hn1 Hs1) as (n2 & E2 & Hn2 & Hs2).
      eexists. unfold initialize. fold desktop. rewrite E1. cbn [outcome_bind]. rewrite E2.
      split; [done|]. split; [done|]. right. by split_and!.
    + cbn [MozillaVPN.handle outcome_bind] in *.
      destruct (early_operation op a (proj1 Hu)) as [-> Hi]. eexists. split; [done|].
      split; [done|]. left. split; [|done]. destruct Hinv as [|(Hi' & _)]; [done|]. congruence.
  - assert (MozillaVPN.running (MozillaVPN.handle tr e a)) as Hr'.
    { destruct Hinv as [(Hi & _)|]; [|done]. destruct Hf as (_ & _ & _ & _ & _ & Hf).
      rewrite Hf in Hi; [done|apply Hr]. }
    destruct (follow_shows _ _ n Hf Hset' Hn Hs) as (n' & E & Hn' & Hs').
    exists (mkSystem (MozillaVPN.handle tr e a) n').
    destruct e; try (cbn [outcome_bind]; rewrite E; split; [done|]; split; [done|]; right; by split_and!).
    cbn in He. destruct Hr as [Hi _]. rewrite Hi in He. discriminate.
Qed.

(** Changes of the layers leave the screens. *)
Lemma layers_wellFormed (f : list ScreenData -> list ScreenData) (n : Navigator) :
  map bare (f (s_screens n)) = map bare (s_screens n) ->
  wellFormed n -> wellFormed (n <| s_screens := f (s_screens n) |>).
Proof. unfold wellFormed. cbn. congruence. Qed.

Lemma addLayer_bare (accepts : ScreenData -> bool) (l : Layer) (screens : list ScreenData) :
  map bare (addLayer accepts l screens) = map bare screens.
Proof.
  induction screens as [|d r IH]; [done|]. cbn [addLayer].
  destruct (accepts d); cbn [map]; by rewrite ?IH.
Qed.

Lemma event_navigating (e : Event) (x : System) :
  navigating x -> enabled e x = true ->
  exists x', handle tr true webPurchase e x = Ret x' /\ navigating x'.
Proof.
  intros Hx He.
  destruct e as [e|s flags|  |path| |s l|item|r|r]; cbn [enabled] in He;
    [apply andb_true_iff in He as [Hd He]; by apply app_navigating|..];
    (destruct Hx as [Hset [[[Hi _] _]|(Hr & Hn & Hs)]]; [congruence|]);
    (assert (forall n', wellFormed n' /\ shows (MozillaVPN.m_state (app x)) n' ->
       exists x', Ret (mkSystem (app x) n') = Ret x' /\ navigating x') as Hret
       by (intros n' Hn'; eexists; split; [done|]; split; [done|by right]));
    cbn [handle]; apply Hret; clear Hret.
  - by apply request_shows.
  - unfold requestPreviousScreen. destruct (rev (m_screenHistory (navigator x))) as [|c [|q l]];
      [done..|]. by apply request_shows.
  - unfold requestDeepLink. destruct (head _); [|done]. cbv zeta.
    destruct (List.find _ _) as [[name c]|]; [by apply request_shows|done].
  - by apply request_shows.
  - split; [|done]. apply (layers_wellFormed (addLayer _ l)); [apply addLayer_bare|done].
  - split; [|done]. apply (layers_wellFormed (map _)); [|done]. rewrite map_map. by apply map_ext.
  - done.
  - done.
Qed.

Definition mainScreens : list CustomScreen :=
  [ScreenHome; ScreenSettings; ScreenMessaging; ScreenCaptivePortal].

Lemma main_screens (state : MozillaVPN.State) (c : CustomScreen) :
  available state c -> c ∈ mainScreens -> state = MozillaVPN.StateMain.
Proof.
  intros (d & Hd & <- & Hr) Hc.
  assert (forallb (fun d => implb (bool_decide (m_screen d ∈ mainScreens))
            (bool_decide (m_requiredState d = [MozillaVPN.StateMain]))) desktop = true) as Hall
    by reflexivity.
  apply list_elem_of_In in Hd. pose proof (proj1 (forallb_forall _ _) Hall d Hd) as E.
  cbv beta in E. rewrite (bool_decide_true (m_screen d ∈ mainScreens)) in E by exact Hc.
  apply bool_decide_eq_true in E. rewrite E in Hr.
  destruct Hr as [|Hr]; [done|by apply list_elem_of_singleton in Hr].
Qed.

(** C25: on the desktop, however the application changes its state and screens are
    requested, the navigator always finds a screen; once the application is
    initialized, the screen that is shown is one that its state allows, and those of the
    main state are only shown while there is a profile. *)
Theorem navigation_shows (x : System) :
  Reachable tr true webPurchase x ->
  (MozillaVPN.m_initialized (app x) = true ->
   exists c, m_currentScreen (navigator x) = Some c
     /\ available (MozillaVPN.m_state (app x)) c
     /\ (c ∈ mainScreens -> MozillaVPN.hasProfiles (app x) = true))
  /\ forall e, enabled e x = true -> exists x', handle tr true webPurchase e x = Ret x'.
Proof.
  intros Hx. assert (navigating x) as Hn.
  { induction Hx as [s onboarded|x x' e _ IH He E].
    - split; [split; [unfold desktopStates; set_solver|done]|]. left. by split.
    - destruct (event_navigating e x IH He) as (x1 & E1 & Hx1). congruence. }
  split; [|intros e He; destruct (event_navigating e x Hn He) as (x' & E & _); by exists x'].
  intros Hi. destruct Hn as [_ [[[Hi' _] _]|((_ & Hp & _) & _ & c & Hc & Ha)]]; [congruence|].
  exists c. split_and!; [done|done|]. intros Hm. apply Hp. left. by apply (main_screens _ c).
Qed.

End Desktop.

(** ** Examples *)

#[local] Existing Instance modelText.
#[local] Existing Instance modelJson.

Definition untranslated (s : chars) : chars := s.

Definition start : System := mkSystem MozillaVPN.fresh construct.

Fixpoint run (l : list Event) (x : System) : Outcome System :=
  match l with [] => Ret x | e :: r => x <~ handle untranslated true false e x;; run r x end.

Fixpoint allEnabled (l : list Event) (x : System) : bool :=
  match l with
  | [] => true
  | e :: r =>
      enabled e x && match handle untranslated true false e x with
                     | Ret x' => allEnabled r x' | _ => false end
  end.

Lemma Reachable_run (l : list Event) (x x' : System) :
  Reachable untranslated true false x -> allEnabled l x = true -> run l x = Ret x' ->
  Reachable untranslated true false x'.
Proof.
  revert x. induction l as [|e l IH]; intros x Hx Hl E; [by injection E as <-|].
  cbn [allEnabled run] in Hl, E. apply andb_true_iff in Hl as [He Hl].
  destruct (handle untranslated true false e x) as [x1| |] eqn:E1; try done.
  apply (IH x1); [by eapply reachable_event|done|done].
Qed.

(** A profile is added, a portal is found, help is looked up, and the profile is
    removed. *)
Definition visit : list Event :=
  [AppEvent (MozillaVPN.Initialize false);
   AppEvent (MozillaVPN.ProfileOperation WireGuardProfileModel.sampleOp);
   Requested (Some ScreenCaptivePortal) NoFlags; Requested (Some ScreenGetHelp) NoFlags;
   PreviousRequested;
   AppEvent (MozillaVPN.ProfileOperation (WireGuardProfileModel.Remove (qs "id-1")))].

Definition screenAfter (l : list Event) : option (option CustomScreen) :=
  match run l start with Ret x => Some (m_currentScreen (navigator x)) | _ => None end.

Lemma visit_screens :
  map (fun k => screenAfter (take k visit)) (seq 0 7)
  = [Some None; Some (Some ScreenInitialize); Some (Some ScreenHome);
     Some (Some ScreenCaptivePortal); Some (Some ScreenGetHelp); Some (Some ScreenCaptivePortal);
     Some (Some ScreenInitialize)].
Proof. vm_compute. reflexivity. Qed.

Lemma navigation_shows_witness :
  exists x, run (take 5 visit) start = Ret x /\ MozillaVPN.hasProfiles (app x) = true
    /\ exists x', handle untranslated true false PreviousRequested x = Ret x'.
Proof.
  destruct (run (take 5 visit) start) as [x| |] eqn:E; [|by vm_compute in E|by vm_compute in E].
  exists x. split; [done|].
  assert (Reachable untranslated true false x) as Hx.
  { apply (Reachable_run (take 5 visit) start); [constructor| |done]. vm_compute. reflexivity. }
  assert (MozillaVPN.m_initialized (app x) = true
          /\ m_currentScreen (navigator x) = Some ScreenCaptivePortal) as [Hi Hc].
  { assert (match run (take 5 visit) start with
            | Ret x => MozillaVPN.m_initialized (app x)
                       && bool_decide (m_currentScreen (navigator x) = Some ScreenCaptivePortal)
            | _ => false end = true) as Hb by (vm_compute; reflexivity).
    rewrite E in Hb. apply andb_true_iff in Hb as [Hb Hb2%bool_decide_eq_true]. by split. }
  destruct (navigation_shows untranslated false x Hx) as [Hs He]. split.
  - destruct (Hs Hi) as (c & Hc' & _ & Hp). apply Hp. rewrite Hc in Hc'. injection Hc' as <-.
    unfold mainScreens. apply elem_of_cons. right. apply elem_of_cons. right.
    apply elem_of_cons. right. by apply list_elem_of_singleton.
  - by apply He.
Defined.

(** ** What modelling shows *)

(** A request for the current screen does nothing, whatever the flags: the screen is
    never loaded again. *)
Lemma reload_ignored (state : MozillaVPN.State) (flags : LoadingFlags) (n : Navigator) :
  requestScreen state (m_currentScreen n) flags n = n.
Proof.
  unfold requestScreen. cbv zeta. unfold findScreen.
  destruct (head _) as [d|] eqn:E; [|done]. destruct (_ && _); [done|].
  assert (Some (m_screen d) = m_currentScreen n) as Ed.
  { destruct (List.filter _ _) as [|d' l] eqn:El; [done|]. injection E as ->.
    assert (In d (d :: l)) as Hin by by left. rewrite <- El in Hin.
    apply filter_In in Hin as [_ Hin]. by apply bool_decide_eq_true in Hin. }
  unfold load, loadScreen. by rewrite bool_decide_true.
Qed.

(** Going back to a screen that the state no longer allows shows nothing else but
    forgets the history: the next request to go back does nothing. *)
Lemma back_forgets :
  match run [AppEvent (MozillaVPN.Initialize false);
             AppEvent (MozillaVPN.ProfileOperation WireGuardProfileModel.sampleOp);
             PreviousRequested; Requested (Some ScreenGetHelp) NoFlags; PreviousRequested] start with
  | Ret x => (m_currentScreen (navigator x), m_screenHistory (navigator x))
             = (Some ScreenGetHelp, [ScreenGetHelp])
  | _ => False
  end.
Proof. vm_compute. reflexivity. Qed.

(** On Linux no screen is registered for the other states of the application. *)
Lemma linux_undefined :
  Forall (fun state => computeComponent state (foldl (fun n d => registerScreen d n) construct
                                                 (registered true false)) = Undefined)
    [MozillaVPN.StateAuthenticating; MozillaVPN.StatePermissionRequired;
     MozillaVPN.StateSubscriptionNeeded; MozillaVPN.StateSubscriptionBlocked;
     MozillaVPN.StateDeviceLimit; MozillaVPN.StateHeartbeatFailure].
Proof. repeat constructor. Qed.

End Navigator.
