(* ===== verification/Notifications.v ===== *)
(** * Notifications, unsecured networks and the status icon

    Model of [src/src/notificationhandler.cpp] with what
    [platforms/linux/xdgnotificationhandler.cpp] adds, of [networkwatcher.cpp] with the
    worker [platforms/linux/linuxnetworkwatcherworker.cpp], and of [statusicon.cpp]; and
    of the three that show notifications and answer to their clicks, the detection of
    captive portals being the one of CaptivePortal. Translations and the drawing of the
    icon are left out. *)
From Stdlib Require Import ZArith Lia Ascii String Sorted.
From stdpp Require Import base numbers list gmap strings.
From S2P Require Import Prelude QHostAddress QString ControllerModel MozillaVPN.
From S2P Require Import ConnectionHealth CaptivePortal.

Local Open Scope Z_scope.
Local Open Scope wg_scope.

Module NotificationHandler.

#[local] Existing Instance MozillaVPN.State_eq_dec.
#[local] Existing Instance Controller.State_eq_dec.

Inductive Message : Type :=
| None_ | UnsecuredNetwork | CaptivePortalBlock | CaptivePortalUnblock | ServerUnavailable
| NewInAppMessage | SubscriptionNotFound | ConnectionFailure.

#[export] Instance Message_eq_dec : EqDecision Message.
Proof. solve_decision. Defined.

(** What a notification says, by the strings it is made of. *)
Inductive Notice : Type :=
| VpnSwitchedServers (from to : chars)
| VpnConnected (city : chars)
| VpnConnectedMultihop (exit entry : chars)
| VpnDisconnected (city : chars)
| VpnDisconnectedMultihop (exit entry : chars)
| PortalBlock
| PortalUnblock
| UnsecuredNetworkGeneric
| UnsecuredNetworkNamed (name : chars)
| ServerUnavailableFirewall
| ServerUnavailableText
| InAppMessage (title message : chars)
| SubscriptionNotFoundText
| ConnectionFailedText.

#[export] Instance Notice_eq_dec : EqDecision Notice.
Proof. solve_decision. Defined.

(** What it reads. The locations are those of the controller's server, the setting of
    the location with one or two hops is the application's. *)
Record World : Type := mkWorld {
  appState : MozillaVPN.State;
  controllerState : Controller.State;
  shouldSuppressNextNotification : bool;
  serverSwitchNotification : bool;
  connectionChangeNotification : bool;
  serverUnavailableSetting : bool;
  multihop : bool;
  exitCity : chars;
  exitCountry : chars;
  entryCity : chars;
  previousExitCity : chars;
  previousExitCountry : chars;
  userAuthenticated : bool;
}.

(** [shown] is every notification with its type. *)
Record Handler : Type := mkHandler {
  m_lastMessage : Message;
  m_switching : bool;
  m_connected : bool;
  shown : list (Message * Notice);
}.

#[export] Instance Handler_eta : Eta Handler := fun h =>
  mkHandler (m_lastMessage h) (m_switching h) (m_connected h) (shown h).

Definition construct : Handler := mkHandler None_ false false [].

Definition notifyInternal (type : Message) (n : Notice) (h : Handler) : Handler :=
  h <| m_lastMessage := type |> <| shown := shown h ++ [(type, n)] |>.

(** [showNotification], the slot of the controller's changes of state. *)
Definition showNotification (w : World) (h : Handler) : Handler :=
  if negb (bool_decide (appState w = MozillaVPN.StateMain))
     && negb (bool_decide (appState w = MozillaVPN.StateInitialize)
              && bool_decide (controllerState w = Controller.StateOff))
  then h
  else if shouldSuppressNextNotification w then h
  else match controllerState w with
  | Controller.StateOn =>
      if m_switching h then
        let h := h <| m_switching := false |> in
        if negb (serverSwitchNotification w) then h
        else if bool_decide (previousExitCountry w = exitCountry w)
                && bool_decide (previousExitCity w = exitCity w) then h
        else notifyInternal None_ (VpnSwitchedServers (previousExitCity w) (exitCity w)) h
      else if negb (m_connected h) then
        let h := h <| m_connected := true |> in
        if negb (connectionChangeNotification w) then h
        else if multihop w
        then notifyInternal None_ (VpnConnectedMultihop (exitCity w) (entryCity w)) h
        else notifyInternal None_ (VpnConnected (exitCity w)) h
      else h
  | Controller.StateOff =>
      if m_connected h then
        let h := h <| m_connected := false |> in
        if negb (connectionChangeNotification w) then h
        else if multihop w
        then notifyInternal None_ (VpnDisconnectedMultihop (exitCity w) (entryCity w)) h
        else notifyInternal None_ (VpnDisconnected (exitCity w)) h
      else h
  | Controller.StateSilentSwitching => h <| m_connected := true |> <| m_switching := false |>
  | Controller.StateSwitching => h <| m_connected := true |> <| m_switching := true |>
  | _ => h
  end.

Definition captivePortalBlockNotificationRequired : Handler -> Handler :=
  notifyInternal CaptivePortalBlock PortalBlock.

Definition captivePortalUnblockNotificationRequired : Handler -> Handler :=
  notifyInternal CaptivePortalUnblock PortalUnblock.

Definition unsecuredNetworkNotification (networkName : chars) : Handler -> Handler :=
  notifyInternal UnsecuredNetwork
    (if bool_decide (networkName = []) then UnsecuredNetworkGeneric
     else UnsecuredNetworkNamed networkName).

Definition serverUnavailableNotification (pingReceived : bool) (w : World) (h : Handler) : Handler :=
  if negb (serverUnavailableSetting w) then h
  else notifyInternal ServerUnavailable
         (if pingReceived then ServerUnavailableFirewall else ServerUnavailableText) h.

Definition newInAppMessageNotification (title message : chars) (w : World) (h : Handler) : Handler :=
  if negb (userAuthenticated w) then h
  else if bool_decide (appState w = MozillaVPN.StateOnboarding)
          || bool_decide (appState w = MozillaVPN.StateDeviceLimit) then h
  else notifyInternal NewInAppMessage (InAppMessage title message) h.

Definition subscriptionNotFoundNotification : Handler -> Handler :=
  notifyInternal SubscriptionNotFound SubscriptionNotFoundText.

Definition connectionFailureNotification : Handler -> Handler :=
  notifyInternal ConnectionFailure ConnectionFailedText.

(** [maybeAddonNotification], of an add-on that is a message. *)
Definition maybeAddonNotification (isReceived : bool) (title subtitle : chars) (w : World)
    (h : Handler) : Handler :=
  if isReceived then newInAppMessageNotification title subtitle w h else h.

(** [messageClickHandle]: the message of the signal [notificationClicked]. *)
Definition messageClickHandle (h : Handler) : option Message * Handler :=
  if bool_decide (m_lastMessage h = None_) then (None, h)
  else (Some (m_lastMessage h), h <| m_lastMessage := None_ |>).

(** The button of a notification on Linux; the others, and the notification itself, call
    nothing. *)
Inductive Button : Type := TurnOn | TurnOff.

Definition button (type : Message) : option Button :=
  match type with
  | UnsecuredNetwork => Some TurnOn
  | CaptivePortalBlock => Some TurnOff
  | CaptivePortalUnblock => Some TurnOn
  | _ => None
  end.

End NotificationHandler.

Module NetworkWatcher.
Import NotificationHandler.

#[local] Existing Instance MozillaVPN.State_eq_dec.
#[local] Existing Instance Controller.State_eq_dec.

(** ** The access points of Linux *)

Definition NM_802_11_AP_SEC_NONE : Z := 0.
Definition NM_802_11_AP_SEC_WEAK_CRYPTO : Z := Z.lor 1 2.

(** Whether a network is secure. *)
Definition checkUnsecureFlags (rsnFlags wpaFlags : Z) : bool :=
  if (rsnFlags =? NM_802_11_AP_SEC_NONE) && (wpaFlags =? NM_802_11_AP_SEC_NONE) then false
  else if negb (Z.land rsnFlags NM_802_11_AP_SEC_WEAK_CRYPTO =? 0)
          || negb (Z.land wpaFlags NM_802_11_AP_SEC_WEAK_CRYPTO =? 0) then false
  else true.

(** What NetworkManager says of a device: its access point, [None] where the path is
    empty, with the flags, [None] where they are not valid, and the name. *)
Record AccessPoint : Type := mkAccessPoint { rsnFlags : option Z; wpaFlags : option Z; ssid : chars }.

(** [checkDevices]: the name of the unsecured network that is signalled. *)
Fixpoint checkDevices (devices : list (option AccessPoint)) : option chars :=
  match devices with
  | [] => None
  | None :: r => checkDevices r
  | Some ap :: r =>
      match rsnFlags ap, wpaFlags ap with
      | Some rsn, Some wpa =>
          if negb (checkUnsecureFlags rsn wpa) then Some (ssid ap) else checkDevices r
      | _, _ => checkDevices r
      end
  end.

(** [propertyChanged], with whether the access point is among the properties. *)
Definition propertyChanged (activeAccessPoint : bool) (devices : list (option AccessPoint))
  : option chars :=
  if activeAccessPoint then checkDevices devices else None.

(** ** The watcher *)

Definition NETWORK_WATCHER_TIMER_MSEC : Z := 20000.

(** [implActive] is the member of the platform's implementation, [m_cooldown] the time at
    which the timer was started. *)
Record Watcher : Type := mkWatcher {
  m_active : bool;
  m_reportUnsecuredNetwork : bool;
  implActive : bool;
  m_cooldown : option Z;
  m_firstNotification : bool;
  m_simulatedDisconnection : bool;
}.

#[export] Instance Watcher_eta : Eta Watcher := fun w =>
  mkWatcher (m_active w) (m_reportUnsecuredNetwork w) (implActive w) (m_cooldown w)
    (m_firstNotification w) (m_simulatedDisconnection w).

Definition construct : Watcher := mkWatcher false false false None true false.

(** The two settings; [start] asks the worker to check the devices. *)
Definition settingsChanged (unsecuredNetworkAlert captivePortalAlert : bool) (n : Watcher) : Watcher :=
  n <| m_active := unsecuredNetworkAlert || captivePortalAlert |>
    <| m_reportUnsecuredNetwork := unsecuredNetworkAlert |>
    <| implActive := unsecuredNetworkAlert || captivePortalAlert |>.

Definition initialize (unsecuredNetworkAlert captivePortalAlert : bool) (n : Watcher) : Watcher :=
  let n := n <| m_active := unsecuredNetworkAlert || captivePortalAlert |>
             <| m_reportUnsecuredNetwork := unsecuredNetworkAlert |> in
  if m_active n then n <| implActive := true |> else n.

(** [hasExpired]; [never] is Qt's answer for a timer that was not started. *)
Definition hasExpired (never : bool) (now : Z) (n : Watcher) : bool :=
  match m_cooldown n with
  | None => never
  | Some t => NETWORK_WATCHER_TIMER_MSEC <? now - t
  end.

(** [unsecuredNetwork]: whether a notification is shown. *)
Definition unsecuredNetwork (never : bool) (now : Z) (w : World) (n : Watcher) : bool * Watcher :=
  if negb (m_reportUnsecuredNetwork n) then (false, n)
  else if negb (bool_decide (appState w = MozillaVPN.StateMain)) then (false, n)
  else if Controller.stateIn (controllerState w)
            [Controller.StateOn; Controller.StateConnecting; Controller.StateSwitching;
             Controller.StateSilentSwitching] then (false, n)
  else if negb (hasExpired never now n) then (false, n)
  else (true, n <| m_cooldown := Some now |> <| m_firstNotification := false |>).

(** Whether a click activates the VPN: the slot is connected at the first notification. *)
Definition notificationClicked (m : Message) (n : Watcher) : bool :=
  negb (m_firstNotification n) && bool_decide (m = UnsecuredNetwork).

Inductive Reachability : Type := Disconnected | Unknown | Reported (r : Z).

Definition getReachability (information : option Z) (n : Watcher) : Reachability :=
  if m_simulatedDisconnection n then Disconnected
  else match information with Some r => Reported r | None => Unknown end.

Definition simulateDisconnection (b : bool) (n : Watcher) : Watcher :=
  n <| m_simulatedDisconnection := b |>.

End NetworkWatcher.

Module StatusIcon.

#[local] Existing Instance MozillaVPN.State_eq_dec.
#[local] Existing Instance Controller.State_eq_dec.

Inductive Color : Type := GREEN_COLOR | ORANGE_COLOR | RED_COLOR | INVALID_COLOR.

Inductive Logo : Type :=
| LOGO_GENERIC | LOGO_GENERIC_OFF | LOGO_GENERIC_ON | ANIMATED_LOGO (step : nat).

Definition ANIMATED_LOGO_STEPS : list Logo := map ANIMATED_LOGO (seq 1 4).

(** [m_icon] is the logo and the dot that is drawn on it; [updates] counts the signals
    [iconUpdateNeeded]. *)
Record StatusIcon : Type := mkStatusIcon {
  m_icon : option (Logo * option Color);
  m_animatedIconTimer : bool;
  m_animatedIconIndex : Z;
  m_animationWatchdog : bool;
  updates : nat;
}.

#[export] Instance StatusIcon_eta : Eta StatusIcon := fun i =>
  mkStatusIcon (m_icon i) (m_animatedIconTimer i) (m_animatedIconIndex i) (m_animationWatchdog i)
    (updates i).

Definition construct : StatusIcon := mkStatusIcon None false 0 false 0.

Record World : Type := mkWorld {
  appState : MozillaVPN.State;
  controllerState : Controller.State;
  stability : ConnectionHealth.ConnectionStability;
}.

Definition refreshNeeded (i : StatusIcon) : StatusIcon :=
  i <| m_icon := None |> <| updates := S (updates i) |>.

(** The slot of the controller's changes of state. *)
Definition controllerStateChanged (i : StatusIcon) : StatusIcon :=
  i <| m_animationWatchdog := true |>.

Definition watchdogTimeout (i : StatusIcon) : StatusIcon :=
  refreshNeeded (i <| m_animationWatchdog := false |>).

Definition activateAnimation (i : StatusIcon) : StatusIcon :=
  i <| m_animatedIconIndex := 0 |> <| m_animatedIconTimer := true |>.

Definition animateIcon (i : StatusIcon) : StatusIcon :=
  let index := u8 (m_animatedIconIndex i + 1) in
  let index := if index =? Z.of_nat (length ANIMATED_LOGO_STEPS) then 0 else index in
  refreshNeeded (i <| m_animatedIconIndex := index |> <| m_animationWatchdog := true |>).

(** [iconString]; the access to the array is not checked. *)
Definition iconString (w : World) (i : StatusIcon) : Outcome (Logo * StatusIcon) :=
  if negb (bool_decide (appState w = MozillaVPN.StateMain)) then Ret (LOGO_GENERIC, i)
  else match controllerState w with
  | Controller.StateConnectionError | Controller.StateOn | Controller.StateSilentSwitching =>
      Ret (LOGO_GENERIC_ON, i <| m_animatedIconTimer := false |>)
  | Controller.StateOff => Ret (LOGO_GENERIC_OFF, i <| m_animatedIconTimer := false |>)
  | Controller.StateSwitching | Controller.StateRegeneratingKey | Controller.StateConnecting
  | Controller.StateConfirming | Controller.StateDisconnecting =>
      let i := if m_animatedIconTimer i then i else activateAnimation i in
      match ANIMATED_LOGO_STEPS !! Z.to_nat (m_animatedIconIndex i) with
      | Some l => Ret (l, i)
      | None => Undefined
      end
  | _ => Ret (LOGO_GENERIC, i <| m_animatedIconTimer := false |>)
  end.

Definition indicatorColor (w : World) : Color :=
  if negb (bool_decide (appState w = MozillaVPN.StateMain)) then INVALID_COLOR
  else match controllerState w with
  | Controller.StateConnectionError => RED_COLOR
  | Controller.StateOn | Controller.StateSilentSwitching =>
      match stability w with
      | ConnectionHealth.Stable => GREEN_COLOR
      | ConnectionHealth.Unstable => ORANGE_COLOR
      | ConnectionHealth.NoSignal => RED_COLOR
      end
  | _ => INVALID_COLOR
  end.

Definition drawStatusIndicator (w : World) (i : StatusIcon)
  : Outcome (Logo * option Color * StatusIcon) :=
  x <~ iconString w i;;
  let dot := if Controller.stateIn (controllerState w)
                 [Controller.StateOn; Controller.StateConnectionError;
                  Controller.StateSilentSwitching]
             then Some (indicatorColor w) else None in
  Ret (fst x, dot, snd x).

(** [icon]: the icon is drawn again only after a refresh. *)
Definition icon (w : World) (i : StatusIcon) : Outcome (Logo * option Color * StatusIcon) :=
  match m_icon i with
  | Some x => Ret (x, i)
  | None =>
      x <~ drawStatusIndicator w i;;
      Ret (fst x, (snd x) <| m_icon := Some (fst x) |>)
  end.

(** The timers fire while they run. *)
Inductive Event : Type := Refresh | ControllerStateChanged | Watchdog | Animate | Icon (w : World).

Definition handle (e : Event) (i : StatusIcon) : Outcome StatusIcon :=
  match e with
  | Refresh => Ret (refreshNeeded i)
  | ControllerStateChanged => Ret (controllerStateChanged i)
  | Watchdog => Ret (watchdogTimeout i)
  | Animate => Ret (if m_animatedIconTimer i then animateIcon i else i)
  | Icon w => x <~ icon w i;; Ret (snd x)
  end.

Fixpoint run (l : list Event) (i : StatusIcon) : Outcome StatusIcon :=
  match l with [] => Ret i | e :: r => i <~ handle e i;; run r i end.

Definition inRange (i : StatusIcon) : Prop := 0 <= m_animatedIconIndex i < 4.

Lemma iconString_defined (w : World) (i : StatusIcon) :
  inRange i -> exists l i', iconString w i = Ret (l, i') /\ inRange i'.
Proof.
  intros Hi. unfold iconString. destruct (negb _); [by eexists _, _|].
  assert (inRange (if m_animatedIconTimer i then i else activateAnimation i)) as Ha
    by (destruct (m_animatedIconTimer i); [done|unfold inRange; cbn; lia]).
  assert (exists l, ANIMATED_LOGO_STEPS !! Z.to_nat (m_animatedIconIndex
            (if m_animatedIconTimer i then i else activateAnimation i)) = Some l) as [l El].
  { apply lookup_lt_is_Some. unfold inRange in Ha. cbn [length ANIMATED_LOGO_STEPS map seq]. lia. }
  destruct (controllerState w); try (by eexists _, _);
    cbv zeta; rewrite El; by eexists _, _.
Qed.

(** The icon is always found, however long the animation runs. *)
Lemma run_defined (l : list Event) (i : StatusIcon) :
  inRange i -> exists i', run l i = Ret i' /\ inRange i'.
Proof.
  revert i. induction l as [|e l IH]; intros i Hi; [by exists i|]. cbn [run].
  assert (exists i', handle e i = Ret i' /\ inRange i') as (i' & -> & Hi'); [|by apply IH].
  destruct e as [| | | |w]; cbn [handle]; try (by eexists).
  - eexists. split; [done|]. destruct (m_animatedIconTimer i); [|done].
    unfold inRange in *. change (m_animatedIconIndex (animateIcon i))
      with (let index := u8 (m_animatedIconIndex i + 1) in if index =? 4 then 0 else index).
    unfold u8. rewrite Z.mod_small by lia. cbv zeta. destruct (Z.eqb_spec (m_animatedIconIndex i + 1) 4); lia.
  - unfold icon. destruct (m_icon i) as [x|]; [by eexists|].
    destruct (iconString_defined w i Hi) as (lg & i' & E & Hi'). unfold drawStatusIndicator.
    rewrite E. eexists. split; [reflexivity|]. done.
Qed.

End StatusIcon.

(** ** Notifications and the answers to them *)

Module Alerts.
Import NotificationHandler.

(** [unsecuredAt] is when and in what world unsecured networks were notified,
    [activations] the activations of the VPN by clicks. *)
Record Alerts : Type := mkAlerts {
  clock : Z;
  watcher : NetworkWatcher.Watcher;
  handler : Handler;
  detection : CaptivePortal.Detection;
  unsecuredAt : list (Z * World);
  activations : nat;
}.

#[export] Instance Alerts_eta : Eta Alerts := fun a =>
  mkAlerts (clock a) (watcher a) (handler a) (detection a) (unsecuredAt a) (activations a).

Definition construct : Alerts :=
  mkAlerts 0 NetworkWatcher.construct NotificationHandler.construct CaptivePortal.initial [] 0.

(** The effects of the detection that are notifications. *)
Definition notifyEffect (h : Handler) (e : CaptivePortal.Effect) : Handler :=
  match e with
  | CaptivePortal.NotifyBlock => captivePortalBlockNotificationRequired h
  | CaptivePortal.NotifyUnblock => captivePortalUnblockNotificationRequired h
  | _ => h
  end.

Definition newEffects (d d' : CaptivePortal.Detection) : list CaptivePortal.Effect :=
  drop (length (CaptivePortal.effects d)) (CaptivePortal.effects d').

Definition isActivate (e : CaptivePortal.Effect) : bool :=
  match e with CaptivePortal.ActivateVpn => true | _ => false end.

Definition portalMessage (m : Message) : CaptivePortal.Message :=
  match m with
  | CaptivePortalUnblock => CaptivePortal.CaptivePortalUnblock
  | _ => CaptivePortal.OtherMessage
  end.

(** The signal [notificationClicked] reaches the watcher and the notifier of the
    portals. *)
Definition clicked (m : Message) (w : CaptivePortal.World) (a : Alerts) : Alerts :=
  let d := CaptivePortal.notificationClicked (portalMessage m) w (detection a) in
  let byPortal := length (List.filter isActivate (newEffects (detection a) d)) in
  let byWatcher := if NetworkWatcher.notificationClicked m (watcher a) then 1%nat else 0%nat in
  a <| detection := d |> <| activations := (activations a + byWatcher + byPortal)%nat |>.

Inductive Event : Type :=
| Elapsed (msec : Z)
| Initialize (unsecuredNetworkAlert captivePortalAlert : bool)
| SettingsChanged (unsecuredNetworkAlert captivePortalAlert : bool)
| UnsecuredNetworkFound (networkName : chars) (w : World)
| ControllerStateChanged (w : World)
| Notified (f : World -> Handler -> Handler) (w : World)
| Portal (e : CaptivePortal.Event) (w : CaptivePortal.World)
| Click (w : CaptivePortal.World).

(** The other notifications. *)
Definition others : list (World -> Handler -> Handler) :=
  [serverUnavailableNotification true; serverUnavailableNotification false;
   fun _ => subscriptionNotFoundNotification; fun _ => connectionFailureNotification].

(** Clicks reach the detection by [Click] only. *)
Definition enabled (e : Event) : Prop :=
  match e with
  | Elapsed msec => 0 <= msec
  | Notified f _ => f ∈ others \/ exists received t s, f = maybeAddonNotification received t s
  | Portal (CaptivePortal.NotificationClicked _) _ => False
  | _ => True
  end.

(** [never] is Qt's answer for a timer that was not started. *)
Definition handle (never : bool) (e : Event) (a : Alerts) : Alerts :=
  match e with
  | Elapsed msec => a <| clock := clock a + msec |>
  | Initialize u c => a <| watcher := NetworkWatcher.initialize u c (watcher a) |>
  | SettingsChanged u c => a <| watcher := NetworkWatcher.settingsChanged u c (watcher a) |>
  | UnsecuredNetworkFound name w =>
      let '(notified, n) := NetworkWatcher.unsecuredNetwork never (clock a) w (watcher a) in
      let a := a <| watcher := n |> in
      if notified
      then a <| handler := unsecuredNetworkNotification name (handler a) |>
             <| unsecuredAt := unsecuredAt a ++ [(clock a, w)] |>
      else a
  | ControllerStateChanged w => a <| handler := showNotification w (handler a) |>
  | Notified f w => a <| handler := f w (handler a) |>
  | Portal e w =>
      let d := CaptivePortal.handle w e (detection a) in
      let h := foldl notifyEffect (handler a) (newEffects (detection a) d) in
      a <| detection := d |> <| handler := h |>
  | Click w =>
      let '(m, h) := messageClickHandle (handler a) in
      let a := a <| handler := h |> in
      match m with Some m => clicked m w a | None => a end
  end.

Inductive Reachable (never : bool) : Alerts -> Prop :=
| reachable_construct : Reachable never construct
| reachable_event a e : Reachable never a -> enabled e -> Reachable never (handle never e a).

(** ** Properties *)

(** Notifications whose answer is an activation. *)
Definition answerable (m : Message) : bool :=
  match m with UnsecuredNetwork | CaptivePortalUnblock => true | _ => false end.

Definition invitations (h : Handler) : nat :=
  length (List.filter (fun x => answerable (fst x)) (shown h)).

(** Answers that can still be given. *)
Definition open (h : Handler) : nat := if answerable (m_lastMessage h) then 1 else 0.

(** A step of the handler: it opens at most one answer for each notification. *)
Definition grows (h h' : Handler) : Prop :=
  (invitations h <= invitations h' /\ open h' + invitations h <= open h + invitations h')%nat.

Lemma grows_alike (h h' : Handler) :
  shown h' = shown h -> m_lastMessage h' = m_lastMessage h -> grows h h'.
Proof. unfold grows, invitations, open. intros -> ->. lia. Qed.

Lemma grows_refl (h : Handler) : grows h h.
Proof. by apply grows_alike. Qed.

Lemma grows_trans (a b c : Handler) : grows a b -> grows b c -> grows a c.
Proof. unfold grows. lia. Qed.

Lemma grows_notify (m : Message) (n : Notice) (h : Handler) : grows h (notifyInternal m n h).
Proof.
  unfold grows, invitations, open. cbn. rewrite List.filter_app, length_app. cbn.
  destruct (answerable m); cbn; lia.
Qed.

Lemma grows_show (w : World) (h : Handler) : grows h (showNotification w h).
Proof.
  unfold showNotification. destruct (_ && _); [apply grows_refl|].
  destruct (shouldSuppressNextNotification w); [apply grows_refl|].
  destruct (controllerState w); try apply grows_refl; cbv zeta;
    repeat case_match; try (by apply grows_alike);
    (eapply grows_trans; [|apply grows_notify]; by apply grows_alike).
Qed.

Lemma grows_effects (l : list CaptivePortal.Effect) (h : Handler) :
  grows h (foldl notifyEffect h l).
Proof.
  revert h. induction l as [|e l IH]; intros h; [apply grows_refl|]. cbn [foldl].
  eapply grows_trans; [|apply IH]. destruct e; try apply grows_refl; apply grows_notify.
Qed.

Lemma grows_others (f : World -> Handler -> Handler) (w : World) (h : Handler) :
  enabled (Notified f w) -> grows h (f w h).
Proof.
  cbn [enabled]. unfold others. rewrite !elem_of_cons, elem_of_nil.
  intros [[->|[->|[->|[->|[]]]]]|(received & t & s & ->)]; try apply grows_notify.
  1,2: unfold serverUnavailableNotification; destruct (negb _); [apply grows_refl|apply grows_notify].
  unfold maybeAddonNotification, newInAppMessageNotification. destruct received; [|apply grows_refl].
  destruct (negb _); [apply grows_refl|]. destruct (_ || _); [apply grows_refl|apply grows_notify].
Qed.

(** A click asks for one activation at most, and only as the answer to the last
    notification. *)
Lemma clicked_activations (m : Message) (w : CaptivePortal.World) (a : Alerts) :
  (activations (clicked m w a) <= activations a + if answerable m then 1 else 0)%nat.
Proof.
  unfold clicked. cbv zeta.
  change (activations (_ <| activations := ?x |>)) with x. unfold newEffects.
  assert (forall d, drop (length (CaptivePortal.effects d)) (CaptivePortal.effects d) = []) as Hd
    by (intros d; apply drop_all).
  unfold CaptivePortal.notificationClicked.
  destruct (CaptivePortal.m_captivePortalNotifier (detection a)); cbn [negb].
  - assert (forall d, CaptivePortal.effects (CaptivePortal.emit CaptivePortal.ShowWindow d)
                      = CaptivePortal.effects d ++ [CaptivePortal.ShowWindow]) as Hs by done.
    unfold NetworkWatcher.notificationClicked. rewrite Hs.
    destruct m; cbn [portalMessage answerable]; rewrite ?bool_decide_false, ?andb_false_r by done;
      try (rewrite drop_app_length; cbn; lia).
    + rewrite drop_app_length. cbn. destruct (_ && _); lia.
    + unfold CaptivePortal.activationRequired. destruct (_ && _).
      * change (CaptivePortal.effects (CaptivePortal.emit ?x (CaptivePortal.emit ?y ?d)))
          with ((CaptivePortal.effects d ++ [y]) ++ [x]).
        rewrite <- !app_assoc, drop_app_length. cbn. lia.
      * rewrite drop_app_length. cbn. lia.
  - rewrite Hd. unfold NetworkWatcher.notificationClicked.
    destruct m; cbn [answerable]; rewrite ?bool_decide_false, ?andb_false_r by done; cbn; try lia.
    destruct (_ && _); lia.
Qed.

Definition later (x y : Z * World) : Prop := fst x + NetworkWatcher.NETWORK_WATCHER_TIMER_MSEC < fst y.

(** The application shows its main screen, and the controller is in none of the four states
    that hold a notification back: it is off, is confirming, is partially on or has
    failed, for instance. *)
Definition exposed (w : World) : Prop :=
  appState w = MozillaVPN.StateMain
  /\ controllerState w ∉ [Controller.StateOn; Controller.StateConnecting;
                           Controller.StateSwitching; Controller.StateSilentSwitching].

Record AlertsInv (a : Alerts) : Prop := {
  inv_answers : (activations a + open (handler a) <= invitations (handler a))%nat;
  inv_later : StronglySorted later (unsecuredAt a);
  inv_cooldown : forall x, x ∈ unsecuredAt a ->
    exists t, NetworkWatcher.m_cooldown (watcher a) = Some t /\ fst x <= t;
  inv_exposed : Forall (fun x => exposed (snd x)) (unsecuredAt a);
}.

Lemma StronglySorted_snoc {A} (R : A -> A -> Prop) (l : list A) (y : A) :
  StronglySorted R l -> Forall (fun x => R x y) l -> StronglySorted R (l ++ [y]).
Proof.
  induction 1 as [|x l _ IH Hx]; intros Hy; cbn; [by repeat constructor|].
  apply Forall_cons in Hy as [Hxy Hy]. constructor; [by apply IH|].
  apply Forall_app. split; [done|by constructor].
Qed.

(** A step of the handler alone. *)
Lemma inv_grows (a : Alerts) (h : Handler) :
  grows (handler a) h -> AlertsInv a -> AlertsInv (a <| handler := h |>).
Proof. intros [Hg1 Hg2] [Ha Hl Hc He]. split; [|done..]. cbn. lia. Qed.

Lemma expired (never : bool) (now : Z) (n : NetworkWatcher.Watcher) (t : Z) :
  NetworkWatcher.hasExpired never now n = true -> NetworkWatcher.m_cooldown n = Some t ->
  t + NetworkWatcher.NETWORK_WATCHER_TIMER_MSEC < now.
Proof. unfold NetworkWatcher.hasExpired. intros E Et. rewrite Et in E. apply Z.ltb_lt in E. lia. Qed.

Lemma handle_alerts (never : bool) (e : Event) (a : Alerts) :
  enabled e -> AlertsInv a -> AlertsInv (handle never e a).
Proof.
  intros He Ha. destruct e as [msec|u c|u c|name w|w|f w|e w|w]; cbn [handle].
  - by destruct Ha.
  - destruct Ha as [Hi Hl Hc Hx]. split; [done..| |done]. unfold NetworkWatcher.initialize.
    cbv zeta. by destruct (NetworkWatcher.m_active _).
  - by destruct Ha.
  - unfold NetworkWatcher.unsecuredNetwork. destruct (negb _); [by destruct Ha|].
    destruct (negb _) eqn:Em; [by destruct Ha|]. destruct (Controller.stateIn _ _) eqn:Es; [by destruct Ha|].
    destruct (negb (NetworkWatcher.hasExpired _ _ _)) eqn:Ee; [by destruct Ha|].
    apply negb_false_iff in Em, Ee. apply bool_decide_eq_true in Em. apply bool_decide_eq_false in Es.
    destruct (inv_grows a _ (grows_notify UnsecuredNetwork
      (if bool_decide (name = []) then UnsecuredNetworkGeneric else UnsecuredNetworkNamed name) _) Ha)
      as [Hi Hl Hc Hx].
    split; [exact Hi| | |].
    + apply StronglySorted_snoc; [exact Hl|]. apply list.Forall_forall. intros x Hin.
      change (later x (clock a, w)). destruct (Hc x Hin) as (t & Et & Hxt).
      pose proof (expired never _ _ t Ee Et). unfold later. cbn [fst]. lia.
    + intros x Hin. exists (clock a). split; [done|].
      change (x ∈ unsecuredAt a ++ [(clock a, w)]) in Hin.
      apply elem_of_app in Hin as [Hin|Hin%list_elem_of_singleton]; [|by subst].
      destruct (Hc x Hin) as (t & Et & Hxt). pose proof (expired never _ _ t Ee Et) as Ht.
      unfold NetworkWatcher.NETWORK_WATCHER_TIMER_MSEC in Ht. lia.
    + change (unsecuredAt _) with (unsecuredAt a ++ [(clock a, w)]).
      apply Forall_app. split; [exact Hx|]. by repeat constructor.
  - by apply inv_grows; [apply grows_show|].
  - by apply inv_grows; [apply grows_others|].
  - set (d := CaptivePortal.handle w e (detection a)).
    destruct (inv_grows a _ (grows_effects (newEffects (detection a) d) _) Ha). by split.
  - unfold messageClickHandle. case_bool_decide as Em; [by destruct Ha|].
    set (b := a <| handler := (handler a) <| m_lastMessage := None_ |> |>).
    pose proof (clicked_activations (m_lastMessage (handler a)) w b) as Hn.
    destruct Ha as [Hi Hl Hc Hx]. split; [|exact Hl|exact Hc|exact Hx].
    change (handler (clicked (m_lastMessage (handler a)) w b)) with (handler b).
    change (activations b) with (activations a) in Hn.
    change (open (handler b)) with 0%nat.
    change (invitations (handler b)) with (invitations (handler a)).
    unfold open in Hi. lia.
Qed.

(** C15: on a clock that does not go back, clicks activate the VPN at most once for each
    notification of an unsecured network or of a portal that is gone; unsecured networks
    are notified more than twenty seconds apart, and only on the main screen while the
    controller is in none of the states on, connecting, switching and silently switching.
    The other states let them through, also the confirmation of a connection and the
    partial state of the extension. *)
Theorem reachable_alerts (never : bool) (a : Alerts) :
  Reachable never a ->
  (activations a <= invitations (handler a))%nat
  /\ StronglySorted later (unsecuredAt a)
  /\ Forall (fun x => exposed (snd x)) (unsecuredAt a).
Proof.
  intros Ha. assert (AlertsInv a) as [Hi Hl _ Hx]; [|split_and!; [lia|done..]].
  induction Ha as [|a e _ IH He]; [|by apply handle_alerts].
  split; cbn; [lia|constructor|by intros x Hin%elem_of_nil|constructor].
Qed.

(** ** Examples *)

Definition mainOff : World :=
  mkWorld MozillaVPN.StateMain Controller.StateOff false true true true false
    (qs "Oslo") (qs "Norway") [] [] [] true.

Definition portalWorld (s : Controller.State) : CaptivePortal.World :=
  CaptivePortal.mkWorld s ConnectionHealth.Unstable true true true.

(** Two networks within ten seconds, a click on the one notification, another click. *)
Definition walk : list Event :=
  [Initialize true false; Elapsed 1000; UnsecuredNetworkFound (qs "cafe") mainOff; Elapsed 10000;
   UnsecuredNetworkFound (qs "park") mainOff; Click (portalWorld Controller.StateOff);
   Click (portalWorld Controller.StateOff); Elapsed 15000; UnsecuredNetworkFound [] mainOff].

Definition runAll (l : list Event) : Alerts := foldl (fun a e => handle true e a) construct l.

Lemma Reachable_runAll (l : list Event) : Forall enabled l -> Reachable true (runAll l).
Proof.
  induction l as [|e l IH] using rev_ind; intros Hl; [constructor|].
  apply Forall_app in Hl as [Hl He]. unfold runAll. rewrite foldl_app. cbn [foldl].
  constructor; [by apply IH|by inversion He].
Qed.

Lemma reachable_alerts_witness :
  map fst (unsecuredAt (runAll walk)) = [1000; 26000] /\ activations (runAll walk) = 1%nat
  /\ StronglySorted later (unsecuredAt (runAll walk)).
Proof.
  split; [by vm_compute|]. split; [by vm_compute|].
  refine (proj1 (proj2 (reachable_alerts true (runAll walk) _))).
  apply Reachable_runAll. unfold walk. repeat (constructor; [cbn [enabled]; first [lia|exact I]|]).
  constructor.
Defined.

(** ** What modelling shows *)

(** The button of a blocking portal's notification on Linux is labelled as turning the
    VPN off, but a click on it only shows the window. *)
Lemma block_click (w : CaptivePortal.World) (a : Alerts) :
  button CaptivePortalBlock = Some TurnOff
  /\ forall d, newEffects d (CaptivePortal.notificationClicked (portalMessage CaptivePortalBlock) w d)
       = if CaptivePortal.m_captivePortalNotifier d then [CaptivePortal.ShowWindow] else [].
Proof.
  split; [done|]. intros d. unfold newEffects, CaptivePortal.notificationClicked. cbn [portalMessage].
  destruct (CaptivePortal.m_captivePortalNotifier d); cbn [negb].
  - change (CaptivePortal.effects (CaptivePortal.emit ?x d)) with (CaptivePortal.effects d ++ [x]).
    by rewrite drop_app_length.
  - by rewrite drop_all.
Qed.

(** An unsecured network is notified while the connection is being confirmed. *)
Lemma confirming_notified (name : chars) :
  let w := mainOff in
  let confirming := mkWorld MozillaVPN.StateMain Controller.StateConfirming false true true true
                      false (exitCity w) (exitCountry w) [] [] [] true in
  length (unsecuredAt (runAll [Initialize true false; UnsecuredNetworkFound name confirming])) = 1%nat.
Proof. reflexivity. Qed.

End Alerts.
