(* ===== verification/WebExtension.v ===== *)
(** * The bridge to the web extension

    Model of [src/src/webextension/] and of [src/src/webextensionadapter.cpp]: messages
    framed by their length on standard input, on standard output and on a local socket;
    the bridge process with its reader, handler and connection to the client; the
    client's connection and the adapter that answers the requests. What Qt does with JSON
    text is [QtJsonText]. *)
From Stdlib Require Import ZArith Lia Ascii String.
From stdpp Require Import base numbers list gmap strings.
From S2P Require Import Prelude QHostAddress QString Json JsonText Netlink.
From S2P Require Import Server ServerList.

Local Open Scope Z_scope.
Local Open Scope wg_scope.

Module WebExtension.

(** ** Frames *)

Definition MAX_MSG_SIZE : Z := 1024 * 1024.

(** The four bytes of an integer in the order of a little-endian host. *)
Definition lengthBytes (n : Z) : chars :=
  map (fun b => ascii_of_nat (Z.to_nat b)) (Netlink.le 4 (u32 n)).

Definition toLength (s : chars) : Z := Netlink.ofLe (map (fun c => Z.of_nat (nat_of_ascii c)) s).

Definition frame (m : chars) : chars := lengthBytes (Z.of_nat (length m)) ++ m.

Definition stream (l : list chars) : chars := concat (map frame l).

(** ** The connection of the client *)

Section Text.
Context `{QtJsonText}.

Inductive ConnectionState : Type := ReadingLength | ReadingBody.

Inductive ConnectionEffect : Type :=
| OnMessageReceived (obj : QJsonObject)
| Written (bytes : chars).

(** [isOpen] says whether the device is open, [processed] is the messages it was sent. *)
Record Connection : Type := mkConnection {
  m_state : ConnectionState;
  m_buffer : chars;
  m_messageLength : Z;
  isOpen : bool;
  processed : list chars;
  effects : list ConnectionEffect;
}.

#[export] Instance Connection_eta : Eta Connection := fun c =>
  mkConnection (m_state c) (m_buffer c) (m_messageLength c) (isOpen c) (processed c) (effects c).

Definition newConnection : Connection := mkConnection ReadingLength [] 0 true [] [].

(** A device that is closed takes nothing. *)
Definition writeData (data : chars) (c : Connection) : Connection :=
  if isOpen c then c <| effects := effects c ++ [Written (frame data)] |> else c.

Definition writeMessage (data : QJsonObject) (c : Connection) : Connection :=
  writeData (toCompact data) c.

Definition invalidRequest : QJsonObject := insertKey (qs "t") (JString (qs "invalidRequest")) [].

Definition writeInvalidRequest (c : Connection) : Connection := writeMessage invalidRequest c.

Definition processMessage (message : chars) (c : Connection) : Connection :=
  let c := c <| processed := processed c ++ [message] |> in
  match fromBytes message with
  | None => writeInvalidRequest c
  | Some obj => c <| effects := effects c ++ [OnMessageReceived obj] |>
  end.

(** The message that is complete. *)
Definition takeMessage (c : Connection) : Connection :=
  let message := take (Z.to_nat (m_messageLength c)) (m_buffer c) in
  let c := c <| m_buffer := drop (Z.to_nat (m_messageLength c)) (m_buffer c) |> in
  (processMessage message c) <| m_messageLength := 0 |> <| m_state := ReadingLength |>.

(** The loop of [readData]. *)
Fixpoint readLoop (fuel : nat) (c : Connection) : Outcome Connection :=
  match fuel with
  | O => OutOfFuel
  | S fuel =>
      let body (c : Connection) :=
        if Z.of_nat (length (m_buffer c)) <? m_messageLength c then Ret c
        else readLoop fuel (takeMessage c) in
      match m_state c with
      | ReadingBody => body c
      | ReadingLength =>
          if (length (m_buffer c) <? 4)%nat then Ret c
          else
            let messageLength := toLength (take 4 (m_buffer c)) in
            let c := c <| m_buffer := drop 4 (m_buffer c) |>
                       <| m_messageLength := messageLength |> in
            if (messageLength =? 0) || (MAX_MSG_SIZE <? messageLength)
            then Ret (c <| isOpen := false |>)
            else body (c <| m_state := ReadingBody |>)
      end
  end.

Definition readData (input : chars) (c : Connection) : Outcome Connection :=
  let buffer := m_buffer c ++ input in
  readLoop (S (length buffer)) (c <| m_buffer := buffer |>).

(** ** The reader of the bridge *)

(** [device] is what the device holds and [transaction] what was read of it since a
    transaction was started. *)
Record WebExtReader : Type := mkReader {
  r_buffer : chars;
  r_length : Z;
  device : chars;
  transaction : option chars;
  messages : list chars;
}.

#[export] Instance WebExtReader_eta : Eta WebExtReader := fun r =>
  mkReader (r_buffer r) (r_length r) (device r) (transaction r) (messages r).

Definition newReader : WebExtReader := mkReader [] 0 [] None [].

(** Starting a second transaction changes nothing. *)
Definition startTransaction (r : WebExtReader) : WebExtReader :=
  match transaction r with Some _ => r | None => r <| transaction := Some [] |> end.

Definition readDevice (n : nat) (r : WebExtReader) : chars * WebExtReader :=
  let data := take n (device r) in
  (data, r <| device := drop n (device r) |>
           <| transaction := (fun t => t ++ data) <$> transaction r |>).

Definition rollbackTransaction (r : WebExtReader) : WebExtReader :=
  r <| device := default [] (transaction r) ++ device r |> <| transaction := None |>.

Definition commitTransaction (r : WebExtReader) : WebExtReader := r <| transaction := None |>.

Fixpoint readyLoop (fuel : nat) (r : WebExtReader) : Outcome WebExtReader :=
  match fuel with
  | O => OutOfFuel
  | S fuel =>
      let body (r : WebExtReader) :=
        let maxlen := r_length r - Z.of_nat (length (r_buffer r)) in
        let '(data, r) := readDevice (Z.to_nat maxlen) r in
        let r := r <| r_buffer := r_buffer r ++ data |> in
        if Z.of_nat (length (r_buffer r)) <? r_length r then Ret r
        else readyLoop fuel (r <| messages := messages r ++ [r_buffer r] |> <| r_buffer := [] |>
                               <| r_length := 0 |>) in
      if bool_decide (device r = []) then Ret r
      else if r_length r =? 0 then
        let '(msgLength, r) := readDevice 4 (startTransaction r) in
        if (length msgLength <? 4)%nat then Ret (rollbackTransaction r)
        else
          let r := r <| r_length := toLength msgLength |> in
          if r_length r =? 0 then readyLoop fuel r else body (commitTransaction r)
      else body r
  end.

(** [readyRead], when the device has received bytes. *)
Definition readyRead (input : chars) (r : WebExtReader) : Outcome WebExtReader :=
  let bytes := device r ++ input in
  readyLoop (S (length (r_buffer r) + length bytes)) (r <| device := bytes |>).

(** ** Standard input *)

(** [WebExtWorker::run]: the messages of the whole input. *)
Fixpoint workerLoop (fuel : nat) (input : chars) : Outcome (list chars) :=
  match fuel with
  | O => OutOfFuel
  | S fuel =>
      if (length input <? 4)%nat then Ret []
      else
        let n := Z.to_nat (toLength (take 4 input)) in
        let input := drop 4 input in
        if (length input <? n)%nat then Ret []
        else l <~ workerLoop fuel (drop n input);; Ret (take n input :: l)
  end.

Definition worker (input : chars) : Outcome (list chars) := workerLoop (S (length input)) input.

(** ** The handler of the bridge *)

(** What the handler does with a message: answers of its own are written to standard
    output, [StartClient] launches the client. *)
Inductive HandlerEffect : Type :=
| UnhandledMessage (msg : chars)
| Output (obj : QJsonObject)
| StartClient.

(** The methods of the class that take a message, by name. *)
Inductive Method : Type := BridgePing | ProcInfo | Start | SignalUnhandled | SlotHandle.

Definition method (name : chars) : option Method :=
  if bool_decide (name = qs "bridge_ping") then Some BridgePing
  else if bool_decide (name = qs "proc_info") then Some ProcInfo
  else if bool_decide (name = qs "start") then Some Start
  else if bool_decide (name = qs "unhandledMessage") then Some SignalUnhandled
  else if bool_decide (name = qs "handleMessage") then Some SlotHandle
  else None.

Definition single (k v : string) : QJsonObject := insertKey (qs k) (JString (qs v)) [].

(** [parent] is the process and its executable, [launched] whether the launch succeeds;
    the fuel is the depth of the stack. *)
Fixpoint handleMessage (fuel : nat) (parent : Z * option chars) (launched : bool) (msg : chars)
  : Outcome (list HandlerEffect) :=
  match fuel with
  | O => OutOfFuel
  | S fuel =>
      match fromBytes msg ≫= (fun doc => match value (qs "t") doc with
                                         | JString name => Some name | _ => None end) with
      | None => Ret [UnhandledMessage msg]
      | Some name =>
          match method name with
          | None => Ret [UnhandledMessage msg]
          | Some BridgePing => Ret [Output (single "status" "bridge_pong")]
          | Some ProcInfo =>
              let obj := insertKey (qs "pid") (ofInt (fst parent)) [] in
              Ret [Output (match snd parent with
                           | Some exe => insertKey (qs "exe") (JString exe) obj
                           | None => obj end)]
          | Some Start =>
              Ret [StartClient; Output (if launched then single "status" "requested_start"
                                        else single "error" "start_failed")]
          | Some SignalUnhandled => Ret [UnhandledMessage msg]
          | Some SlotHandle => handleMessage fuel parent launched msg
          end
      end
  end.

(** ** The bridge *)

Inductive SocketState : Type := Unconnected | Connecting | Connected | Closing.

Definition BRIDGE_RETRY_DELAY : Z := 500.
Definition BRIDGE_START_DELAY : Z := 10.

Inductive BridgeSignal : Type := SignalConnected | SignalDisconnected.

(** [pushed] is what the socket has taken since it connected, [m_retryTimer] the interval of
    the timer while it runs. *)
Record WebExtBridge : Type := mkBridge {
  socket : SocketState;
  m_reader : option WebExtReader;
  b_buffer : chars;
  m_retryTimer : option Z;
  pushed : chars;
  signals : list BridgeSignal;
}.

#[export] Instance WebExtBridge_eta : Eta WebExtBridge := fun b =>
  mkBridge (socket b) (m_reader b) (b_buffer b) (m_retryTimer b) (pushed b) (signals b).

Definition newBridge : WebExtBridge := mkBridge Unconnected None [] (Some BRIDGE_START_DELAY) [] [].

Definition isConnected (s : SocketState) : bool := match s with Connected => true | _ => false end.
Definition isUnconnected (s : SocketState) : bool :=
  match s with Unconnected => true | _ => false end.

Definition stateChanged (state : SocketState) (b : WebExtBridge) : WebExtBridge :=
  let b := b <| socket := state |> in
  let b :=
    if isConnected state
    then b <| m_reader := Some newReader |> <| pushed := [] |>
           <| signals := signals b ++ [SignalConnected] |>
    else match m_reader b with
         | Some _ => b <| m_reader := None |> <| signals := signals b ++ [SignalDisconnected] |>
         | None => b
         end in
  if isUnconnected state then b <| m_retryTimer := Some BRIDGE_RETRY_DELAY |> else b.

(** [accepted] is what the socket takes at most. *)
Definition tryPushData (accepted : nat) (b : WebExtBridge) : WebExtBridge :=
  if bool_decide (b_buffer b = []) then b
  else b <| pushed := pushed b ++ take accepted (b_buffer b) |>
         <| b_buffer := drop accepted (b_buffer b) |>.

Definition sendMessage (accepted : nat) (message : chars) (b : WebExtBridge) : bool * WebExtBridge :=
  if negb (isConnected (socket b)) then (false, b)
  else (true, tryPushData accepted (b <| b_buffer := b_buffer b ++ frame message |>)).

(** [retryConnection]: the states the socket goes through, with whether it connects. *)
Definition retryConnection (connects : bool) (b : WebExtBridge) : WebExtBridge :=
  let b := b <| m_retryTimer := None |> in
  let b := if isUnconnected (socket b) then b else stateChanged Unconnected b in
  let b := stateChanged Connecting b in
  if connects then stateChanged Connected b else stateChanged Unconnected b.

(** What [WebExtCommand::run] connects: a message that is not handled goes to the client,
    or the extension is told that the client is down. *)
Definition unhandledMessage (accepted : nat) (msg : chars) (b : WebExtBridge)
  : list QJsonObject * WebExtBridge :=
  let '(ok, b) := sendMessage accepted msg b in
  (if ok then [] else [single "error" "vpn-client-down"], b).

Definition ALLOW_LISTED_WEBEXTENSIONS : list chars :=
  [qs "@testpilot-containers"; qs "vpn@mozilla.com"].

(** Whether the command runs, by its positional arguments. *)
Definition allowedArguments (args : list chars) : bool :=
  match args with
  | [_; extId] => bool_decide (extId ∈ ALLOW_LISTED_WEBEXTENSIONS)
  | _ => false
  end.

(** What happens to the bridge: the timer fires, the connection closes, a message is sent,
    the socket takes bytes, the socket delivers bytes. *)
Inductive BridgeStep : WebExtBridge -> WebExtBridge -> Prop :=
| RetryFires (connects : bool) b :
    m_retryTimer b <> None -> BridgeStep b (retryConnection connects b)
| SocketCloses b : socket b = Connected -> BridgeStep b (stateChanged Closing b)
| SocketDisconnects b :
    socket b = Connected \/ socket b = Closing -> BridgeStep b (stateChanged Unconnected b)
| MessageSent accepted m b : BridgeStep b (snd (sendMessage accepted m b))
| MoreWritten accepted b : BridgeStep b (tryPushData accepted b)
| DataRead chunk r r' b :
    m_reader b = Some r -> readyRead chunk r = Ret r' ->
    BridgeStep b (b <| m_reader := Some r' |>).

Inductive BridgeReachable : WebExtBridge -> Prop :=
| reachable_new : BridgeReachable newBridge
| reachable_next b b' : BridgeReachable b -> BridgeStep b b' -> BridgeReachable b'.

End Text.

(** ** Who may connect to the client *)

Inductive LinuxSecurityModule : Type := SELinux | AppArmor | Disabled.

Definition securityModule (modules : chars) : LinuxSecurityModule :=
  let modules := split "," modules in
  if bool_decide (qs "selinux" ∈ modules) then SELinux
  else if bool_decide (qs "apparmor" ∈ modules) then AppArmor
  else Disabled.

Definition NAME_MAX : nat := 255.

(** The text of an array of characters, up to its terminator. *)
Definition cString (s : chars) : chars := default [] (head (split (ascii_of_nat 0) s)).

(** [peer] is the context the kernel copies, of at most [NAME_MAX] bytes; the terminator
    is written behind it into an array of that size. *)
Definition isAllowedToConnect (lsm : LinuxSecurityModule) (peer : option chars) (policy : chars)
  : Outcome bool :=
  match lsm with
  | Disabled => Ret true
  | _ =>
      match peer with
      | None => Ret false
      | Some peer =>
          if (NAME_MAX <=? length peer)%nat then Undefined
          else
          let peer := cString peer in
          match lsm with
          | AppArmor => Ret (bool_decide (policy = qs "unconfined") || bool_decide (peer = policy))
          | _ =>
              let type (s : chars) := default [] (split ":" s !! 2%nat) in
              Ret (bool_decide (type policy = qs "unconfined_t")
                   || bool_decide (type peer = type policy))
          end
      end
  end.

(** ** The adapter *)

(** What the adapter reads. *)
Record World `{QtJson} : Type := mkWorld {
  hasProfiles : bool;
  activeProfileId : chars;
  activeProfileName : chars;
  exitCountryCode : chars;
  exitCityName : chars;
  entryCountryCode : chars;
  entryCityName : chars;
  authenticated : bool;
  version : chars;
  connectionTimestamp : chars;
  appState : chars;
  controllerState : chars;
  stability : chars;
  stateInitialize : bool;
  vpnDisabledApps : list chars;
  webExtensionEnabled : bool;
  localProxy : bool;
  serverCountryModel : ServerList.ServerCountryModel;
}.

Section Adapter.
Context `{QtJson}.

Inductive AdapterEffect : Type :=
| ActivateForExtension | DeactivateForExtension | ShowWindow | Authenticate
| OnOutgoingMessage (obj : QJsonObject).

Definition strings (l : list (string * chars)) : QJsonObject :=
  insertAll (map (fun e => (qs (fst e), JString (snd e))) l) [].

Definition serializeStatus (w : World) : QJsonObject :=
  let location :=
    if hasProfiles w
    then strings [("active_profile_id"%string, activeProfileId w);
                  ("active_profile_name"%string, activeProfileName w)]
    else strings [("exit_country_code"%string, exitCountryCode w);
                  ("exit_city_name"%string, exitCityName w);
                  ("entry_country_code"%string, entryCountryCode w);
                  ("entry_city_name"%string, entryCityName w)] in
  insertAll [(qs "authenticated", JBool (authenticated w)); (qs "location", JObject location);
             (qs "version", JString (version w));
             (qs "connectedSince", JString (connectionTimestamp w));
             (qs "app", JString (appState w)); (qs "vpn", JString (controllerState w));
             (qs "connectionHealth", JString (stability w))] [].

Definition getDisabledApps (w : World) : QJsonValue := JArray (map JString (vpnDisabledApps w)).

Definition serializeFeaturelist (w : World) : QJsonObject :=
  insertAll [(qs "webExtension", JBool (webExtensionEnabled w));
             (qs "localProxy", JBool (localProxy w))] [].

(** [initialized()] of a server is that it has a host name. *)
Definition serializeServer (s : Server.Server) : option QJsonValue :=
  if isEmpty (Server.m_hostname s) then None
  else
    let obj := insertAll [(qs "hostname", ofQString (Server.m_hostname s));
                          (qs "ipv4_gateway", ofQString (Server.m_ipv4Gateway s));
                          (qs "ipv6_gateway", ofQString (Server.m_ipv6Gateway s));
                          (qs "weight", ofInt (Server.m_weight s))] [] in
    let obj := if isEmpty (Server.m_socksName s) then obj
               else insertKey (qs "socksName") (ofQString (Server.m_socksName s)) obj in
    let obj := if Server.m_multihopPort s =? 0 then obj
               else insertKey (qs "multihopPort") (ofInt (Server.m_multihopPort s)) obj in
    Some (JObject obj).

Definition serializeCity (m : ServerList.ServerCountryModel) (countryCode cityName : chars)
  : option QJsonValue :=
  let city := ServerList.findCity countryCode cityName m in
  if negb (ServerList.cityInitialized city) then None
  else
    let servers := omap (fun k => serializeServer (ServerList.server k m)) (ServerList.m_servers city) in
    Some (JObject (insertAll [(qs "name", ofQString (ServerList.m_name city));
                              (qs "code", ofQString (ServerList.m_code city));
                              (qs "latitude", ServerList.m_latitude city);
                              (qs "longitude", ServerList.m_longitude city);
                              (qs "servers", JArray servers)] [])).

Definition serializeServerCountry (m : ServerList.ServerCountryModel) (obj : QJsonObject)
  : QJsonObject :=
  let country (c : ServerList.ServerCountry) :=
    JObject (insertAll [(qs "name", JString (ServerList.name c));
                        (qs "code", JString (ServerList.code c));
                        (qs "cities", JArray (omap (serializeCity m (ServerList.code c))
                                                (ServerList.cities c)))] []) in
  insertKey (qs "countries") (JArray (map country (ServerList.m_countries m))) obj.

(** The commands in their order, with what they do and answer. *)
Definition m_commands (w : World) : list (chars * (list AdapterEffect * QJsonObject)) :=
  [(qs "activate", ([ActivateForExtension], []));
   (qs "deactivate", ([DeactivateForExtension], []));
   (qs "servers",
     ([], insertKey (qs "servers")
            (JObject (if hasProfiles w then []
                      else serializeServerCountry (serverCountryModel w) [])) []));
   (qs "focus", ([ShowWindow], []));
   (qs "openAuth",
     (if hasProfiles w then [] else if stateInitialize w then [Authenticate] else [], []));
   (qs "disabled_apps", ([], insertKey (qs "disabled_apps") (getDisabledApps w) []));
   (qs "featurelist", ([], insertKey (qs "featurelist") (JObject (serializeFeaturelist w)) []));
   (qs "status", ([], insertKey (qs "status") (JObject (serializeStatus w)) []));
   (qs "interventions", ([], insertKey (qs "interventions") (JArray []) []))].

Definition invalidAnswer : QJsonObject := insertKey (qs "t") (JString (qs "invalidRequest")) [].

Definition errorAnswer (msg : chars) : QJsonObject :=
  insertKey (qs "msg") (JString msg) (insertKey (qs "t") (JString (qs "error")) []).

(** [BaseAdapter::onMessage]. *)
Definition onMessage (w : World) (message : QJsonObject) : list AdapterEffect :=
  if negb (hasKey (qs "t") message) then [OnOutgoingMessage invalidAnswer]
  else match value (qs "t") message with
  | JString typeName =>
      match List.find (fun e => bool_decide (fst e = typeName)) (m_commands w) with
      | Some (_, (effects, responseObj)) =>
          effects ++ [OnOutgoingMessage (insertKey (qs "t") (JString typeName) responseObj)]
      | None => [OnOutgoingMessage (errorAnswer (qs "Command not found"))]
      end
  | _ => [OnOutgoingMessage invalidAnswer]
  end.

(** [writeState], the slot of the changes of state. *)
Definition writeState (w : World) : list AdapterEffect :=
  [OnOutgoingMessage (insertKey (qs "t") (JString (qs "status"))
     (insertKey (qs "status") (JObject (serializeStatus w)) []))].

(** The slot of the changes of the applications, which calls [onMessage]. *)
Definition disabledAppsChanged (w : World) : list AdapterEffect :=
  onMessage w (insertKey (qs "disabled_apps") (getDisabledApps w)
                 (insertKey (qs "t") (JString (qs "disabled_apps")) [])).

(** The messages that go out. *)
Definition outgoing (l : list AdapterEffect) : list QJsonObject :=
  omap (fun e => match e with OnOutgoingMessage obj => Some obj | _ => None end) l.

End Adapter.

(** A stream that arrives in pieces. *)
Fixpoint feedAll {X : Type} (step : chars -> X -> Outcome X) (chunks : list chars) (x : X)
  : Outcome X :=
  match chunks with [] => Ret x | c :: r => x <~ step c x;; feedAll step r x end.

(** ** The server *)

Section Service.
Context `{QtJson} `{QtJsonText}.

(** What a connection writes, because of an effect of its own or of another's: the
    adapter's messages go to every connection. *)
Definition writtenBy (w : World) (own : bool) (e : ConnectionEffect) : list chars :=
  match e with
  | Written bytes => if own then [bytes] else []
  | OnMessageReceived obj => map (fun o => frame (toCompact o)) (outgoing (onMessage w obj))
  end.

(** The connections, each with what it has written. *)
Definition Server : Type := list (Connection * chars).

Definition newConnectionReceived (allowed : Outcome bool) (s : Server) : Outcome Server :=
  a <~ allowed;; Ret (if a then s ++ [(newConnection, [])] else s).

(** A connection receives bytes. *)
Definition receive (w : World) (i : nat) (input : chars) (s : Server) : Outcome Server :=
  match s !! i with
  | None => Ret s
  | Some (c, _) =>
      c' <~ readData input c;;
      let effs := drop (length (effects c)) (effects c') in
      Ret (imap (fun j e =>
        let '(d, out) := e in
        let own := bool_decide (i = j) in
        (if own then c' else d,
         if isOpen d then out ++ concat (concat (map (writtenBy w own) effs)) else out)) s)
  end.

Definition serve (w : World) (i : nat) : list chars -> Server -> Outcome Server :=
  feedAll (receive w i).

(** ** The command *)

(** What happens to [WebExtCommand::run] while its event loop runs. *)
Inductive CommandEvent : Type :=
| StdinMessage (msg : chars) (accepted : nat)
| BytesWritten (accepted : nat)
| SocketStateChanged (state : SocketState)
| SocketData (chunk : chars).

Record Command : Type := mkCommand { bridge : WebExtBridge; stdout : chars }.

#[export] Instance Command_eta : Eta Command := fun c => mkCommand (bridge c) (stdout c).

Definition writeMsgStdout (msg : chars) (c : Command) : Command :=
  c <| stdout := stdout c ++ frame msg |>.

Definition writeJsonStdout (obj : QJsonObject) (c : Command) : Command :=
  writeMsgStdout (toCompact obj) c.

(** What the command connects to a signal of the handler and of the bridge. *)
Definition handlerEffect (accepted : nat) (c : Command) (e : HandlerEffect) : Command :=
  match e with
  | UnhandledMessage msg =>
      let '(answers, b) := unhandledMessage accepted msg (bridge c) in
      fold_left (fun c o => writeJsonStdout o c) answers (c <| bridge := b |>)
  | Output obj => writeJsonStdout obj c
  | StartClient => c
  end.

Definition bridgeSignal (c : Command) (e : BridgeSignal) : Command :=
  match e with
  | SignalConnected => writeJsonStdout (single "status" "vpn-client-up") c
  | SignalDisconnected => writeJsonStdout (single "error" "vpn-client-down") c
  end.

(** A call that does not recurse is one frame deep. *)
Definition commandEvent (parent : Z * option chars) (launched : bool) (e : CommandEvent)
  (c : Command) : Outcome Command :=
  match e with
  | StdinMessage msg accepted =>
      effs <~ handleMessage 1 parent launched msg;;
      Ret (fold_left (handlerEffect accepted) effs c)
  | BytesWritten accepted => Ret (c <| bridge := tryPushData accepted (bridge c) |>)
  | SocketStateChanged state =>
      let b := stateChanged state (bridge c) in
      Ret (fold_left bridgeSignal (drop (length (signals (bridge c))) (signals b))
             (c <| bridge := b |>))
  | SocketData chunk =>
      match m_reader (bridge c) with
      | None => Ret c
      | Some r =>
          r' <~ readyRead chunk r;;
          Ret (fold_left (fun c m => writeMsgStdout m c) (drop (length (messages r)) (messages r'))
                 (c <| bridge := (bridge c) <| m_reader := Some r' |> |>))
      end
  end.

Fixpoint runCommand (parent : Z * option chars) (launched : bool) (l : list CommandEvent)
  (c : Command) : Outcome Command :=
  match l with
  | [] => Ret c
  | e :: r => c <~ commandEvent parent launched e c;; runCommand parent launched r c
  end.

End Service.

(** ** Streams of frames *)

(** What a state machine that takes a stream in pieces promises: [waiting l rest s] says
    that once [rest] has arrived the state [s] will have taken exactly the messages [l]. *)
Class Decoder (D : Type) : Type := {
  feed : chars -> D -> Outcome D;
  decoded : D -> list chars;
  waiting : list chars -> chars -> D -> Prop;
}.

(** The messages it accepts. *)
Class DecoderLaws (D : Type) `{Decoder D} (accepts : chars -> Prop) : Prop := {
  feed_waiting l chunk rest s :
    Forall accepts l -> waiting l (chunk ++ rest) s ->
    exists s' l1 l2, feed chunk s = Ret s' /\ l = l1 ++ l2
      /\ decoded s' = decoded s ++ l1 /\ waiting l2 rest s';
  waiting_nothing l s : Forall accepts l -> waiting l [] s -> l = [];
}.

Section Decoding.
Context {D : Type} `{Decoder D} (accepts : chars -> Prop) `{!DecoderLaws D accepts}.

(** However the stream is cut into pieces, its messages are taken in order; what follows
    the state of the decoder follows it to the end. *)
Lemma feedAll_decodes {X : Type} (step : chars -> X -> Outcome X) (R : D -> X -> Prop) :
  (forall l chunk rest s s' x, Forall accepts l -> waiting l (chunk ++ rest) s ->
     feed chunk s = Ret s' -> (exists l1, decoded s' = decoded s ++ l1) -> R s x -> exists x', step chunk x = Ret x' /\ R s' x') ->
  forall l chunks s x, Forall accepts l -> waiting l (concat chunks) s -> R s x ->
  exists s' x', feedAll step chunks x = Ret x' /\ R s' x' /\ decoded s' = decoded s ++ l
    /\ waiting [] [] s'.
Proof.
  intros Hstep l chunks. revert l. induction chunks as [|c r IH]; intros l s x Hl Hw HR.
  - pose proof (waiting_nothing _ _ Hl Hw) as ->. exists s, x. by rewrite app_nil_r.
  - destruct (feed_waiting l c (concat r) s Hl Hw) as (s1 & l1 & l2 & E1 & El & Ed & Hw1).
    destruct (Hstep l c (concat r) s s1 x Hl Hw E1 (ex_intro _ _ Ed) HR) as (x1 & Ex1 & HR1). subst l.
    apply Forall_app in Hl as [_ Hl]. destruct (IH l2 s1 x1 Hl Hw1 HR1) as (s2 & x2 & E2 & H2 & Ed2 & Hw2).
    exists s2, x2. cbn [feedAll]. rewrite Ex1. cbn [outcome_bind].
    by rewrite E2, Ed2, Ed, app_assoc.
Qed.

End Decoding.

(** *** Frames *)

Lemma length_lengthBytes (n : Z) : length (lengthBytes n) = 4%nat.
Proof. unfold lengthBytes. by rewrite length_map, Netlink.length_le. Qed.

Lemma le_bytes (n : nat) (v : Z) : Forall (fun b => 0 <= b < 256) (Netlink.le n v).
Proof.
  revert v. induction n as [|n IH]; intros v; constructor; [apply Z.mod_pos_bound; lia|apply IH].
Qed.

Lemma toLength_lengthBytes (n : Z) : 0 <= n < 2 ^ 32 -> toLength (lengthBytes n) = n.
Proof.
  intros Hn. unfold toLength, lengthBytes. rewrite map_map.
  assert (forall l, Forall (fun b => 0 <= b < 256) l ->
    map (fun b => Z.of_nat (nat_of_ascii (ascii_of_nat (Z.to_nat b)))) l = l) as Hm.
  { induction 1 as [|b l Hb _ IH]; [done|]. cbn [map]. rewrite IH, nat_ascii_embedding by lia.
    f_equal. lia. }
  rewrite Hm by apply le_bytes. unfold u32. rewrite Z.mod_small by lia.
  apply Netlink.ofLe_le. exact Hn.
Qed.

Definition sized (m : chars) : Prop := 0 < Z.of_nat (length m) <= MAX_MSG_SIZE.

(** The length fits into its four bytes. *)
Definition fits (m : chars) : Prop := 0 < Z.of_nat (length m) < 2 ^ 32.

Lemma sized_fits (m : chars) : sized m -> fits m.
Proof. unfold sized, fits, MAX_MSG_SIZE. lia. Qed.

Lemma toLength_frame (m s : chars) :
  fits m -> toLength (take 4 (frame m ++ s)) = Z.of_nat (length m)
  /\ drop 4 (frame m ++ s) = m ++ s.
Proof.
  intros Hm. unfold frame. rewrite <- app_assoc.
  pose proof (length_lengthBytes (Z.of_nat (length m))) as El.
  rewrite (take_app_length' _ _ 4%nat), (drop_app_length' _ _ 4%nat) by done.
  split; [|done]. apply toLength_lengthBytes. unfold fits in Hm. lia.
Qed.

(** A frame is longer than its length; what has arrived of a stream is less than a frame
    or begins with one. *)
Lemma stream_split (m : chars) (l : list chars) (p rest : chars) :
  stream (m :: l) = p ++ rest ->
  (exists q, p = frame m ++ q /\ stream l = q ++ rest)
  \/ (exists q, frame m = p ++ q /\ q <> [] /\ rest = q ++ stream l).
Proof.
  unfold stream. cbn [map concat]. intros E.
  destruct (decide (length (frame m) <= length p)%nat) as [Hl|Hl].
  - left. exists (drop (length (frame m)) p).
    assert (p = frame m ++ drop (length (frame m)) p) as Ep.
    { rewrite <- (take_drop (length (frame m)) p) at 1. f_equal.
      apply (f_equal (take (length (frame m)))) in E.
      rewrite take_app_length, take_app_le in E by done. done. }
    split; [done|]. rewrite Ep, <- app_assoc in E. by apply app_inv_head in E.
  - right. exists (drop (length p) (frame m)).
    assert (frame m = p ++ drop (length p) (frame m)) as Ep.
    { rewrite <- (take_drop (length p) (frame m)) at 1. f_equal.
      apply (f_equal (take (length p))) in E.
      rewrite take_app_length, take_app_le in E by lia. done. }
    split; [done|]. split.
    + intros Ed. rewrite Ed, app_nil_r in Ep. rewrite Ep in Hl. lia.
    + rewrite Ep, <- app_assoc in E. by apply app_inv_head in E.
Qed.

(** A part of a frame that has its length. *)
Lemma frame_part (m p q : chars) :
  fits m -> frame m = p ++ q -> q <> [] -> (4 <= length p)%nat ->
  p = lengthBytes (Z.of_nat (length m)) ++ drop 4 p
  /\ toLength (take 4 p) = Z.of_nat (length m) /\ (length (drop 4 p) < length m)%nat.
Proof.
  intros Hm Ef Hq Hp. pose proof (length_lengthBytes (Z.of_nat (length m))) as E4.
  assert (p = lengthBytes (Z.of_nat (length m)) ++ drop 4 p) as Ep.
  { rewrite <- (take_drop 4 p) at 1. f_equal. apply (f_equal (take 4)) in Ef.
    unfold frame in Ef. rewrite (take_app_length' _ _ 4%nat), take_app_le in Ef by done. done. }
  split_and!; [done| |].
  - rewrite Ep, (take_app_length' _ _ 4%nat) by done. apply toLength_lengthBytes.
    unfold fits in Hm. lia.
  - apply (f_equal length) in Ef. apply (f_equal length) in Ep. unfold frame in Ef.
    rewrite !length_app in Ef. rewrite length_app in Ep.
    destruct q; [done|]. cbn [length] in Ef. lia.
Qed.

#[local] Arguments lengthBytes : simpl never.
#[local] Arguments toLength : simpl never.
#[local] Arguments frame : simpl never.
#[local] Arguments take : simpl never.
#[local] Arguments drop : simpl never.
#[local] Arguments Z.ltb : simpl never.
#[local] Arguments Z.eqb : simpl never.

Section TextProofs.
Context `{QtJsonText}.

(** *** The connection decodes *)

(** A connection in the middle of a message, as it was before it took the length. *)
Definition pending (c : Connection) : chars :=
  match m_state c with
  | ReadingLength => m_buffer c
  | ReadingBody => lengthBytes (m_messageLength c) ++ m_buffer c
  end.

Definition healthy (c : Connection) : Prop :=
  isOpen c = true
  /\ match m_state c with
     | ReadingLength => (length (m_buffer c) < 4)%nat
     | ReadingBody => 0 < m_messageLength c <= MAX_MSG_SIZE
                      /\ Z.of_nat (length (m_buffer c)) < m_messageLength c
     end.

#[export] Instance Connection_decoder : Decoder Connection := {
  feed := readData;
  decoded := processed;
  waiting l rest c := healthy c /\ stream l = pending c ++ rest;
}.

Definition rewound (c : Connection) : Connection :=
  c <| m_buffer := pending c |> <| m_state := ReadingLength |>.

(** The loop does not depend on whether the length has been taken. *)
Lemma readLoop_rewound (fuel : nat) (c : Connection) (s : chars) :
  healthy c ->
  readLoop fuel (c <| m_buffer := m_buffer c ++ s |>)
  = readLoop fuel ((rewound c) <| m_buffer := pending c ++ s |>).
Proof.
  intros [_ Hc]. destruct fuel as [|fuel]; [done|]. destruct c as [[] b n o p e]; cbn in Hc |- *; [done|].
  destruct Hc as [Hn _]. unfold pending. cbn.
  pose proof (length_lengthBytes n) as El. rewrite <- app_assoc.
  rewrite (take_app_length' _ _ 4%nat), (drop_app_length' _ _ 4%nat) by done.
  rewrite toLength_lengthBytes by (unfold MAX_MSG_SIZE in Hn; lia).
  rewrite !length_app, El. cbn [Nat.add Nat.ltb Nat.leb].
  rewrite (proj2 (Z.eqb_neq n 0)), (proj2 (Z.ltb_ge MAX_MSG_SIZE n)) by lia. done.
Qed.

Lemma processMessage_fields (m : chars) (c : Connection) :
  processed (processMessage m c) = processed c ++ [m] /\ m_buffer (processMessage m c) = m_buffer c
  /\ isOpen (processMessage m c) = isOpen c.
Proof.
  unfold processMessage. cbv zeta. destruct (fromBytes m); [done|].
  by destruct c as [st b n [] p e].
Qed.

Lemma takeMessage_fields (m s : chars) (c : Connection) :
  m_messageLength c = Z.of_nat (length m) -> m_buffer c = m ++ s ->
  m_buffer (takeMessage c) = s /\ processed (takeMessage c) = processed c ++ [m]
  /\ isOpen (takeMessage c) = isOpen c /\ m_state (takeMessage c) = ReadingLength.
Proof.
  intros En Eb. unfold takeMessage. cbv zeta. rewrite En, Eb, Nat2Z.id, take_app_length, drop_app_length.
  destruct (processMessage_fields m (c <| m_buffer := s |>)) as (E1 & E2 & E3).
  split_and!; [exact E2|exact E1|exact E3|done].
Qed.

(** A part of a frame makes the loop wait. *)
Lemma readLoop_waits (fuel : nat) (m : chars) (l : list chars) (p q : chars) (c : Connection) :
  sized m -> isOpen c = true -> m_state c = ReadingLength -> m_buffer c = p ->
  frame m = p ++ q -> q <> [] ->
  exists c', readLoop (S fuel) c = Ret c' /\ processed c' = processed c /\ healthy c'
    /\ stream (m :: l) = pending c' ++ q ++ stream l.
Proof.
  intros Hm Ho Es Eb Ef Hq.
  assert (stream (m :: l) = p ++ q ++ stream l) as El
    by (rewrite app_assoc, <- Ef; reflexivity).
  cbn [readLoop]. rewrite Es, Eb. destruct (Nat.ltb_spec (length p) 4) as [Hp|Hp].
  { exists c. unfold healthy, pending. rewrite Es, Eb. split_and!; done. }
  destruct (frame_part m p q (sized_fits m Hm) Ef Hq Hp) as (Ep & Et & Hd).
  cbv zeta. rewrite Et. unfold sized in Hm.
  rewrite (proj2 (Z.eqb_neq _ 0)), (proj2 (Z.ltb_ge MAX_MSG_SIZE _)) by lia. cbn [orb].
  eexists. split.
  { cbn. rewrite (proj2 (Z.ltb_lt (Z.of_nat (length (drop 4 p))) (Z.of_nat (length m)))) by lia.
    reflexivity. }
  unfold healthy, pending. cbn. rewrite <- Ep. split_and!; try done; lia.
Qed.

(** What the loop does with the prefix of a stream. *)
Lemma readLoop_stream (l : list chars) (fuel : nat) (c : Connection) (rest : chars) :
  Forall sized l -> isOpen c = true -> m_state c = ReadingLength ->
  stream l = m_buffer c ++ rest -> (length (m_buffer c) < fuel + 4)%nat -> (0 < fuel)%nat ->
  exists c' l1 l2, readLoop fuel c = Ret c' /\ l = l1 ++ l2
    /\ processed c' = processed c ++ l1 /\ healthy c' /\ stream l2 = pending c' ++ rest.
Proof.
  revert fuel c. induction l as [|m l IH]; intros fuel c Hl Ho Es E Hf Hf0.
  - assert (m_buffer c = []) as Eb by (by destruct (m_buffer c)).
    destruct fuel as [|fuel]; [lia|]. exists c, [], []. unfold healthy, pending.
    rewrite Eb in E. cbn [readLoop]. rewrite !Es, !Eb, app_nil_r.
    split_and!; try done; [by rewrite app_nil_r|cbn; lia].
  - apply Forall_cons in Hl as [Hm Hl]. destruct fuel as [|fuel]; [lia|].
    pose proof (length_lengthBytes (Z.of_nat (length m))) as El.
    destruct (stream_split m l (m_buffer c) rest E) as [(q & Eb & Eq)|(q & Eb & Hq & Er)].
    + destruct (toLength_frame m q (sized_fits _ Hm)) as [Et Ed]. cbn [readLoop]. rewrite Es, Eb.
      assert (length (frame m ++ q) = 4 + length m + length q)%nat as Elen
        by (unfold frame; rewrite !length_app, El; lia).
      rewrite Elen. cbn [Nat.add Nat.ltb Nat.leb]. cbv zeta. rewrite Et, Ed.
      unfold sized in Hm.
      rewrite (proj2 (Z.eqb_neq _ 0)), (proj2 (Z.ltb_ge MAX_MSG_SIZE _)) by lia. cbn [orb].
      set (c1 := ((c <| m_buffer := m ++ q |> <| m_messageLength := Z.of_nat (length m) |>)
                   <| m_state := ReadingBody |>)).
      assert (Z.of_nat (length (m_buffer c1)) <? m_messageLength c1 = false) as ->.
      { apply Z.ltb_ge. unfold c1. cbn. rewrite length_app. lia. }
      set (c2 := takeMessage c1).
      assert (m_buffer c2 = q /\ processed c2 = processed c ++ [m] /\ isOpen c2 = true
              /\ m_state c2 = ReadingLength) as (Eb2 & Ep2 & Eo2 & Es2).
      { destruct (takeMessage_fields m q c1 eq_refl eq_refl) as (E1 & E2 & E3 & E4).
        split_and!; [exact E1|exact E2|by rewrite <- Ho|exact E4]. }
      rewrite Eb, Elen in Hf.
      destruct (IH fuel c2 Hl Eo2 Es2 ltac:(by rewrite Eb2) ltac:(rewrite Eb2; lia) ltac:(lia))
        as (c' & l1 & l2 & E' & -> & Ep & Hh & Er).
      exists c', (m :: l1), l2. split_and!; [exact E'|done| |done|done].
      by rewrite Ep, Ep2, <- app_assoc.
    + destruct (readLoop_waits fuel m l (m_buffer c) q c Hm Ho Es eq_refl Eb Hq)
        as (c' & E' & Ep & Hh & Er').
      exists c', [], (m :: l). rewrite app_nil_r. split_and!; try done. rewrite Er', Er. done.
Qed.

#[export] Instance Connection_decodes : DecoderLaws Connection sized.
Proof.
  split; cbn [feed decoded waiting Connection_decoder].
  - intros l chunk rest c Hl [Hc E]. unfold readData. cbv zeta.
    rewrite (readLoop_rewound _ c chunk Hc). rewrite app_assoc in E.
    set (c1 := (rewound c) <| m_buffer := pending c ++ chunk |>).
    assert (length (m_buffer c1) < S (length (m_buffer c ++ chunk)) + 4)%nat as Hf
      by (unfold c1, pending; cbn; destruct (m_state c);
          rewrite !length_app, ?length_lengthBytes; lia).
    destruct (readLoop_stream l (S (length (m_buffer c ++ chunk))) c1 rest Hl)
      as (c' & l1 & l2 & E1 & El & Ep & Hh & E2); [apply Hc|done|exact E|exact Hf|lia|].
    exists c', l1, l2. split_and!; done.
  - intros [|m l] c Hl [[Ho Hc] E]; [done|]. exfalso. apply Forall_cons in Hl as [Hm _].
    unfold sized, MAX_MSG_SIZE in Hm. revert E Hc. unfold pending. rewrite app_nil_r.
    unfold stream. cbn [map concat]. unfold frame. rewrite <- app_assoc.
    pose proof (length_lengthBytes (Z.of_nat (length m))) as E4. destruct (m_state c).
    + intros <-. rewrite length_app. lia.
    + intros E [Hn Hb]. pose proof (length_lengthBytes (m_messageLength c)) as E4'.
      apply app_inj_1 in E as [En Eb]; [|congruence].
      apply (f_equal toLength) in En. unfold MAX_MSG_SIZE in Hn.
      rewrite !toLength_lengthBytes in En by lia. rewrite <- Eb, length_app in Hb. lia.
Qed.

(** *** The reader decodes *)

Definition readerPending (r : WebExtReader) : chars :=
  if r_length r =? 0 then device r else lengthBytes (r_length r) ++ r_buffer r.

Definition readerHealthy (r : WebExtReader) : Prop :=
  transaction r = None
  /\ (if r_length r =? 0 then r_buffer r = [] /\ (length (device r) < 4)%nat
      else device r = [] /\ Z.of_nat (length (r_buffer r)) < r_length r < 2 ^ 32).

#[export] Instance WebExtReader_decoder : Decoder WebExtReader := {
  feed := readyRead;
  decoded := messages;
  waiting l rest r := readerHealthy r /\ stream l = readerPending r ++ rest;
}.

Lemma reader_idle (d : chars) (ms : list chars) :
  (length d < 4)%nat -> readerHealthy (mkReader [] 0 d None ms).
Proof. by intros Hd. Qed.

(** The steps of the loop, for a reader between transactions. *)
Definition readBody (fuel : nat) (n : Z) (b d : chars) (ms : list chars) : Outcome WebExtReader :=
  let k := Z.to_nat (n - Z.of_nat (length b)) in
  if Z.of_nat (length (b ++ take k d)) <? n then Ret (mkReader (b ++ take k d) n (drop k d) None ms)
  else readyLoop fuel (mkReader [] 0 (drop k d) None (ms ++ [b ++ take k d])).

Lemma readyLoop_nothing (fuel : nat) (r : WebExtReader) :
  device r = [] -> readyLoop (S fuel) r = Ret r.
Proof. intros E. cbn [readyLoop]. by rewrite bool_decide_true. Qed.

Lemma readyLoop_short (fuel : nat) (d : chars) (ms : list chars) :
  (length d < 4)%nat -> readyLoop (S fuel) (mkReader [] 0 d None ms) = Ret (mkReader [] 0 d None ms).
Proof.
  intros Hd. destruct (decide (d = [])) as [->|Hn]; [by apply readyLoop_nothing|].
  cbn [readyLoop device r_length]. rewrite bool_decide_false by done.
  change (0 =? 0) with true. cbv iota.
  change (readDevice 4 (startTransaction (mkReader [] 0 d None ms)))
    with (take 4 d, mkReader [] 0 (drop 4 d) (Some (take 4 d)) ms). cbv iota beta.
  rewrite (take_ge d), (drop_ge d) by lia. rewrite (proj2 (Nat.ltb_lt _ _)) by done.
  unfold rollbackTransaction. cbn. by rewrite app_nil_r.
Qed.

Lemma readyLoop_length (fuel : nat) (d : chars) (ms : list chars) (n : Z) :
  (4 <= length d)%nat -> toLength (take 4 d) = n -> n <> 0 ->
  readyLoop (S fuel) (mkReader [] 0 d None ms) = readBody fuel n [] (drop 4 d) ms.
Proof.
  intros Hd E Hn. cbn [readyLoop device r_length].
  rewrite bool_decide_false by (by intros ->; cbn in Hd; lia).
  change (0 =? 0) with true. cbv iota.
  change (readDevice 4 (startTransaction (mkReader [] 0 d None ms)))
    with (take 4 d, mkReader [] 0 (drop 4 d) (Some (take 4 d)) ms). cbv iota beta.
  rewrite (proj2 (Nat.ltb_ge _ _)) by (rewrite length_take; lia). cbv zeta. rewrite E.
  change (r_length ((mkReader [] 0 (drop 4 d) (Some (take 4 d)) ms) <| r_length := n |>)) with n.
  by rewrite (proj2 (Z.eqb_neq n 0)).
Qed.

Lemma readyLoop_middle (fuel : nat) (n : Z) (b d : chars) (ms : list chars) :
  n <> 0 -> d <> [] -> readyLoop (S fuel) (mkReader b n d None ms) = readBody fuel n b d ms.
Proof.
  intros Hn Hd. cbn [readyLoop device r_length].
  by rewrite bool_decide_false, (proj2 (Z.eqb_neq n 0)).
Qed.

Lemma readyLoop_waits (fuel : nat) (m : chars) (l : list chars) (p q : chars) (ms : list chars) :
  fits m -> frame m = p ++ q -> q <> [] ->
  exists r', readyLoop (S fuel) (mkReader [] 0 p None ms) = Ret r' /\ messages r' = ms
    /\ readerHealthy r' /\ stream (m :: l) = readerPending r' ++ q ++ stream l.
Proof.
  intros Hm Ef Hq.
  assert (stream (m :: l) = p ++ q ++ stream l) as El
    by (rewrite app_assoc, <- Ef; reflexivity).
  destruct (decide (length p < 4)%nat) as [Hp|Hp].
  - exists (mkReader [] 0 p None ms). rewrite readyLoop_short by done.
    split_and!; [done|done|by apply reader_idle|exact El].
  - destruct (frame_part m p q Hm Ef Hq ltac:(lia)) as (Ep & Et & Hd). unfold fits in Hm.
    rewrite (readyLoop_length fuel p ms (Z.of_nat (length m)) ltac:(lia) Et ltac:(lia)).
    unfold readBody. cbv zeta.
    cbn [length app]. rewrite Z.sub_0_r, Nat2Z.id, (take_ge (drop 4 p)), (drop_ge (drop 4 p)) by lia.
    rewrite (proj2 (Z.ltb_lt (Z.of_nat (length (drop 4 p))) (Z.of_nat (length m)))) by lia.
    eexists. split; [reflexivity|]. unfold readerHealthy, readerPending.
    cbn [r_length r_buffer device transaction messages].
    rewrite (proj2 (Z.eqb_neq _ 0)) by lia. rewrite <- Ep. split_and!; try done; lia.
Qed.

(** What the loop does with the prefix of a stream. *)
Lemma readyLoop_stream (l : list chars) (fuel : nat) (d rest : chars) (ms : list chars) :
  Forall fits l -> stream l = d ++ rest -> (length d < fuel + 4)%nat -> (0 < fuel)%nat ->
  exists r' l1 l2, readyLoop fuel (mkReader [] 0 d None ms) = Ret r' /\ l = l1 ++ l2
    /\ messages r' = ms ++ l1 /\ readerHealthy r' /\ stream l2 = readerPending r' ++ rest.
Proof.
  revert fuel d ms. induction l as [|m l IH]; intros fuel d ms Hl E Hf Hf0;
    (destruct fuel as [|fuel]; [lia|]).
  - assert (d = []) as -> by (by destruct d).
    exists (mkReader [] 0 [] None ms), [], []. rewrite readyLoop_nothing by done.
    split_and!; [done|done|by rewrite app_nil_r|apply reader_idle; cbn; lia|exact E].
  - apply Forall_cons in Hl as [Hm Hl].
    destruct (stream_split m l d rest E) as [(q & -> & Eq)|(q & Eb & Hq & Er)].
    + destruct (toLength_frame m q Hm) as [Et Ed].
      pose proof (length_lengthBytes (Z.of_nat (length m))) as El.
      assert (length (frame m ++ q) = 4 + length m + length q)%nat as Elen
        by (unfold frame; rewrite !length_app, El; lia).
      unfold fits in Hm. 
      rewrite (readyLoop_length fuel (frame m ++ q) ms (Z.of_nat (length m)) ltac:(lia) Et
                 ltac:(lia)), Ed.
      unfold readBody. cbv zeta. cbn [length app].
      rewrite Z.sub_0_r, Nat2Z.id, take_app_length, drop_app_length, Z.ltb_irrefl.
      destruct (IH fuel q (ms ++ [m]) Hl Eq ltac:(lia) ltac:(lia))
        as (r' & l1 & l2 & E1 & -> & Ep & Hh & E2).
      exists r', (m :: l1), l2. split_and!; try done. by rewrite Ep, <- app_assoc.
    + destruct (readyLoop_waits fuel m l d q ms Hm Eb Hq) as (r' & E1 & Ep & Hh & E2).
      exists r', [], (m :: l). rewrite app_nil_r. split_and!; try done. by rewrite E2, Er.
Qed.

(** In the middle of a message the loop goes on as if it had not taken the length. *)
Lemma readyLoop_rewound (fuel : nat) (r : WebExtReader) (s : chars) :
  readerHealthy r -> s <> [] ->
  readyLoop (S fuel) (r <| device := device r ++ s |>)
  = readyLoop (S fuel) (mkReader [] 0 (readerPending r ++ s) None (messages r)).
Proof.
  unfold readerHealthy, readerPending. destruct r as [b n d t ms].
  cbn [r_length r_buffer device transaction messages]. intros [-> Hr] Hs.
  destruct (Z.eqb_spec n 0) as [->|Hn]; [by destruct Hr as [-> _]|]. destruct Hr as [-> Hr].
  change (readyLoop (S fuel) (mkReader b n s None ms)
          = readyLoop (S fuel) (mkReader [] 0 ((lengthBytes n ++ b) ++ s) None ms)).
  pose proof (length_lengthBytes n) as El.
  rewrite readyLoop_middle, (readyLoop_length _ _ _ n), <- app_assoc,
    (drop_app_length' _ _ 4%nat); [|done|by rewrite !length_app, El; lia| |done|done|done].
  - unfold readBody. cbv zeta. cbn [app length]. rewrite Z.sub_0_r.
    replace (Z.to_nat (n - Z.of_nat (length b))) with (Z.to_nat n - length b)%nat by lia.
    by rewrite take_app_ge, drop_app_ge by lia.
  - rewrite <- app_assoc, (take_app_length' _ _ 4%nat) by done.
    apply toLength_lengthBytes. lia.
Qed.

Lemma readyLoop_idle (fuel : nat) (r : WebExtReader) :
  readerHealthy r -> readyLoop (S fuel) (r <| device := device r |>) = Ret r.
Proof.
  unfold readerHealthy. destruct r as [b n d t ms].
  cbn [r_length r_buffer device transaction]. intros [-> Hr].
  change (readyLoop (S fuel) (mkReader b n d None ms) = Ret (mkReader b n d None ms)).
  destruct (Z.eqb_spec n 0) as [->|Hn].
  - destruct Hr as [-> Hd]. by apply readyLoop_short.
  - destruct Hr as [-> _]. by apply readyLoop_nothing.
Qed.

#[export] Instance WebExtReader_decodes : DecoderLaws WebExtReader fits.
Proof.
  split; cbn [feed decoded waiting WebExtReader_decoder].
  - intros l chunk rest r Hl [Hr E]. unfold readyRead. cbv zeta.
    destruct (decide (chunk = [])) as [->|Hc].
    { exists r, [], l. rewrite !app_nil_r. split_and!; [|done|done|done|exact E].
      destruct r as [b n d t ms]. by apply readyLoop_idle. }
    rewrite (readyLoop_rewound _ r chunk Hr Hc). rewrite app_assoc in E.
    assert (length (readerPending r ++ chunk)
            < S (length (r_buffer r) + length (device r ++ chunk)) + 4)%nat as Hf.
    { unfold readerPending. destruct Hr as [_ Hr].
      destruct (r_length r =? 0); rewrite !length_app, ?length_lengthBytes; lia. }
    destruct (readyLoop_stream l _ _ rest (messages r) Hl E Hf ltac:(lia))
      as (r' & l1 & l2 & E1 & El & Ep & Hh & E2).
    exists r', l1, l2. split_and!; done.
  - intros [|m l] r Hl [[_ Hr] E]; [done|]. exfalso. apply Forall_cons in Hl as [Hm _].
    revert E Hr. unfold readerPending, fits in *. rewrite app_nil_r.
    unfold stream. cbn [map concat]. unfold frame. rewrite <- app_assoc.
    pose proof (length_lengthBytes (Z.of_nat (length m))) as E4. destruct (r_length r =? 0).
    + intros <- [_ Hd]. rewrite length_app in Hd. lia.
    + intros E [_ Hb]. pose proof (length_lengthBytes (r_length r)) as E4'.
      apply app_inj_1 in E as [En Eb]; [|congruence]. apply (f_equal toLength) in En.
      rewrite !toLength_lengthBytes in En by lia. rewrite <- Eb, length_app in Hb. lia.
Qed.

(** *** What a connection does with its messages *)

Definition effectOf (m : chars) : ConnectionEffect :=
  match fromBytes m with
  | None => Written (frame (toCompact invalidRequest))
  | Some obj => OnMessageReceived obj
  end.

Lemma takeMessage_effects (c : Connection) :
  isOpen c = true ->
  exists m, processed (takeMessage c) = processed c ++ [m]
    /\ effects (takeMessage c) = effects c ++ [effectOf m] /\ isOpen (takeMessage c) = true.
Proof.
  intros Ho. destruct c as [st b n o p e]. cbn in Ho. subst o. exists (take (Z.to_nat n) b).
  unfold takeMessage, processMessage, effectOf. cbn. by destruct (fromBytes _).
Qed.

Lemma readLoop_effects (fuel : nat) (c c' : Connection) :
  isOpen c = true -> readLoop fuel c = Ret c' ->
  exists l, processed c' = processed c ++ l /\ effects c' = effects c ++ map effectOf l.
Proof.
  revert c. induction fuel as [|fuel IH]; intros c Ho E; [done|].
  assert (forall d, isOpen d = true -> processed d = processed c -> effects d = effects c ->
    (if Z.of_nat (length (m_buffer d)) <? m_messageLength d then Ret d
     else readLoop fuel (takeMessage d)) = Ret c' ->
    exists l, processed c' = processed c ++ l /\ effects c' = effects c ++ map effectOf l) as Hbody.
  { intros d Hd Ep Ee. destruct (_ <? _); intros E'.
    - injection E' as <-. exists []. by rewrite !app_nil_r.
    - destruct (takeMessage_effects d Hd) as (m & Ep1 & Ee1 & Ho1).
      destruct (IH _ Ho1 E') as (l & Ep2 & Ee2). exists (m :: l).
      by rewrite Ep2, Ee2, Ep1, Ee1, Ep, Ee, <- !app_assoc. }
  cbn [readLoop] in E. destruct (m_state c); [|by apply (Hbody c)].
  destruct (length (m_buffer c) <? 4)%nat; [injection E as <-; exists []; by rewrite !app_nil_r|].
  cbv zeta in E. destruct (_ || _); [injection E as <-; exists []; by rewrite !app_nil_r|].
  refine (Hbody _ _ _ _ E); [exact Ho|reflexivity|reflexivity].
Qed.

End TextProofs.

Section ServiceProofs.
Context `{QtJson} `{QtJsonText}.

(** *** The server *)

Definition respond (w : World) (m : chars) : list chars := writtenBy w true (effectOf m).

(** The connection at an index, and what it has written. *)
Definition serves (w : World) (i : nat) (out : chars) (c : Connection) (s : Server) : Prop :=
  s !! i = Some (c, out ++ concat (concat (map (respond w) (processed c)))).

Lemma receive_serves (w : World) (i : nat) (out : chars) (chunk : chars) (c c' : Connection)
  (s : Server) :
  isOpen c = true -> readData chunk c = Ret c' -> serves w i out c s ->
  exists s', receive w i chunk s = Ret s' /\ serves w i out c' s'.
Proof.
  intros Ho E Hs. unfold receive, serves, Server in *. rewrite Hs, E. cbn [outcome_bind].
  eexists. split; [reflexivity|]. 
  rewrite list_lookup_imap, Hs. cbn [fmap option_fmap option_map].
  rewrite bool_decide_true, Ho by done.
  set (c1 := c <| m_buffer := m_buffer c ++ chunk |>).
  destruct (readLoop_effects _ c1 c' Ho E) as (l & Ep & Ee). cbn in Ep, Ee.
  rewrite Ee, drop_app_length, Ep, map_app, !concat_app, <- app_assoc, map_map. done.
Qed.

(** A connection serves its messages in order, however they arrive. *)
Lemma serve_stream (w : World) (i : nat) (chunks : list chars) (l : list chars) (s : Server) :
  Forall sized l -> concat chunks = stream l -> s !! i = Some (newConnection, []) ->
  exists s' c', serve w i chunks s = Ret s' /\ processed c' = l /\ isOpen c' = true
    /\ s' !! i = Some (c', concat (concat (map (respond w) l))).
Proof.
  intros Hl E Hs.
  assert (waiting (D := Connection) l (concat chunks) newConnection) as Hw
    by (split; [repeat split; cbn; lia|by rewrite E]).
  destruct (feedAll_decodes sized (receive w i) (serves w i []))
    with (l := l) (chunks := chunks) (s := newConnection) (x := s)
    as (c' & s' & E1 & Hs' & Ep & Hw'); [|done|exact Hw|exact Hs|].
  - intros l0 chunk rest c c' s0 _ [[Ho _] _] E1 _. by apply receive_serves.
  - cbn in Ep. exists s', c'. rewrite <- Ep at 2. split_and!; [done|done|apply Hw'|exact Hs'].
Qed.

(** *** The command *)

Lemma stream_app (a b : list chars) : stream (a ++ b) = stream a ++ stream b.
Proof. unfold stream. by rewrite map_app, concat_app. Qed.

Lemma tryPushData_keeps (n : nat) (b : WebExtBridge) :
  pushed (tryPushData n b) ++ b_buffer (tryPushData n b) = pushed b ++ b_buffer b
  /\ socket (tryPushData n b) = socket b /\ m_reader (tryPushData n b) = m_reader b.
Proof.
  unfold tryPushData. destruct b as [st r buf t p sg]; cbn. case_bool_decide as E; [done|]. cbn.
  by rewrite <- app_assoc, take_drop.
Qed.

Section Running.
Context (parent : Z * option chars) (launched : bool).

(** The events of the standard input that the handler leaves to the client. *)
Definition forwarded (m : chars) : Prop :=
  handleMessage 1 parent launched m = Ret [UnhandledMessage m].

Definition forwards (e : CommandEvent) : Prop :=
  match e with StdinMessage m _ => forwarded m | BytesWritten _ => True | _ => False end.

Definition sent (l : list CommandEvent) : list chars :=
  omap (fun e => match e with StdinMessage m _ => Some m | _ => None end) l.

Definition isUp (c : Command) : Prop := socket (bridge c) = Connected.

Lemma commandEvent_forwards (e : CommandEvent) (c : Command) :
  forwards e -> isUp c ->
  exists c', commandEvent parent launched e c = Ret c' /\ isUp c' /\ stdout c' = stdout c
    /\ m_reader (bridge c') = m_reader (bridge c)
    /\ pushed (bridge c') ++ b_buffer (bridge c')
       = (pushed (bridge c) ++ b_buffer (bridge c)) ++ stream (sent [e]).
Proof.
  unfold isUp. destruct e as [m n|n|st|ch]; cbn [forwards]; intros Hf Hc; try done;
    cbn [commandEvent].
  - unfold forwarded in Hf. rewrite Hf. cbn [outcome_bind fold_left handlerEffect].
    unfold unhandledMessage, sendMessage. rewrite Hc. cbn [isConnected negb fold_left].
    set (b := (bridge c) <| b_buffer := b_buffer (bridge c) ++ frame m |>).
    destruct (tryPushData_keeps n b) as (E1 & E2 & E3).
    eexists. split; [reflexivity|]. cbn. split_and!; [by rewrite E2|done|by rewrite E3|].
    rewrite E1. cbn. unfold stream. cbn. by rewrite app_nil_r, app_assoc.
  - destruct (tryPushData_keeps n (bridge c)) as (E1 & E2 & E3).
    eexists. split; [reflexivity|]. cbn. rewrite E1, E2, E3. unfold stream. cbn.
    by rewrite app_nil_r.
Qed.

(** What the bridge has pushed and still holds is what it was given. *)
Lemma runCommand_forwards (l : list CommandEvent) (c : Command) :
  Forall forwards l -> isUp c ->
  exists c', runCommand parent launched l c = Ret c' /\ isUp c' /\ stdout c' = stdout c
    /\ m_reader (bridge c') = m_reader (bridge c)
    /\ pushed (bridge c') ++ b_buffer (bridge c')
       = (pushed (bridge c) ++ b_buffer (bridge c)) ++ stream (sent l).
Proof.
  revert c. induction l as [|e l IH]; intros c Hl Hc.
  - exists c. cbn. by rewrite app_nil_r.
  - apply Forall_cons in Hl as [He Hl].
    destruct (commandEvent_forwards e c He Hc) as (c1 & E1 & H1 & E2 & E3 & E4).
    destruct (IH c1 Hl H1) as (c2 & F1 & H2 & F2 & F3 & F4).
    exists c2. cbn [runCommand]. rewrite E1. cbn [outcome_bind].
    change (e :: l) with ([e] ++ l). unfold sent in *. rewrite omap_app, stream_app.
    by rewrite F2, F3, F4, E2, E3, E4, <- !app_assoc.
Qed.

Lemma writeMsgs_stdout (l : list chars) (c : Command) :
  fold_left (fun c m => writeMsgStdout m c) l c = c <| stdout := stdout c ++ stream l |>.
Proof.
  revert c. induction l as [|m l IH]; intros c; cbn [fold_left].
  - destruct c. cbn. unfold stream. cbn. by rewrite app_nil_r.
  - rewrite IH. unfold writeMsgStdout. cbn. unfold stream. cbn. by rewrite <- app_assoc.
Qed.

Lemma runCommand_data (chunks : list chars) (c : Command) :
  runCommand parent launched (map SocketData chunks) c
  = feedAll (fun chunk => commandEvent parent launched (SocketData chunk)) chunks c.
Proof.
  revert c. induction chunks as [|ch r IH]; intros c; [done|]. cbn [map runCommand feedAll].
  destruct (commandEvent _ _ _ _); cbn [outcome_bind]; [apply IH|done|done].
Qed.

(** What the client sends is written to standard output, message by message. *)
Lemma runCommand_delivers (chunks l : list chars) (c : Command) :
  Forall fits l -> concat chunks = stream l -> m_reader (bridge c) = Some newReader ->
  exists c', runCommand parent launched (map SocketData chunks) c = Ret c'
    /\ stdout c' = stdout c ++ stream l.
Proof.
  intros Hl E Hr. rewrite runCommand_data.
  assert (waiting (D := WebExtReader) l (concat chunks) newReader) as Hw
    by (split; [by apply reader_idle; cbn; lia|by rewrite E]).
  destruct (feedAll_decodes fits (fun chunk => commandEvent parent launched (SocketData chunk))
      (fun r d => m_reader (bridge d) = Some r /\ stdout d = stdout c ++ stream (messages r)))
    with (l := l) (chunks := chunks) (s := newReader) (x := c)
    as (r' & c' & E1 & [_ Es] & Ep & _); [|done|exact Hw| |].
  - intros l0 chunk rest r r' d _ _ E1 [l1 Ed] [Hd Hs].
    change (readyRead chunk r = Ret r') in E1. change (messages r' = messages r ++ l1) in Ed.
    cbn [commandEvent]. rewrite Hd, E1. cbn [outcome_bind]. eexists. split; [reflexivity|].
    rewrite writeMsgs_stdout, Ed, drop_app_length. cbn. split; [done|].
    by rewrite Hs, stream_app, app_assoc.
  - split; [done|]. cbn. unfold stream. cbn. by rewrite app_nil_r.
  - exists c'. split; [done|]. rewrite Es. change (messages r' = [] ++ l) in Ep. by rewrite Ep.
Qed.

(** A message that names the handler itself is handled again, for ever. *)
Lemma handleMessage_recurses (fuel : nat) (m : chars) (obj : QJsonObject) :
  fromBytes m = Some obj -> value (qs "t") obj = JString (qs "handleMessage") ->
  handleMessage fuel parent launched m = OutOfFuel.
Proof.
  intros Em Et. induction fuel as [|fuel IH]; [done|]. cbn [handleMessage]. rewrite Em. cbn [mbind option_bind].
  rewrite Et. exact IH.
Qed.

(** Every other message is handled one call deep. *)
Lemma handleMessage_once (fuel : nat) (m : chars) :
  (forall obj, fromBytes m = Some obj -> value (qs "t") obj <> JString (qs "handleMessage")) ->
  exists l, handleMessage (S fuel) parent launched m = Ret l.
Proof.
  intros Hm. cbn [handleMessage]. destruct (fromBytes m) as [obj|]; cbn [mbind option_bind]; [|eauto].
  specialize (Hm obj eq_refl). destruct (value (qs "t") obj) as [| | | |name| |]; eauto.
  destruct (method name) as [[]|] eqn:E; eauto. exfalso. apply Hm. f_equal. revert E. unfold method.
  repeat (case_bool_decide as Hn; [by intros|clear Hn]). by intros.
Qed.

End Running.

(** *** The standard input *)

Lemma workerLoop_stream (l : list chars) (fuel : nat) :
  Forall (fun m : chars => Z.of_nat (length m) < 2 ^ 32) l -> (length l < fuel)%nat ->
  workerLoop fuel (stream l) = Ret l.
Proof.
  revert fuel. induction l as [|m l IH]; intros fuel Hl Hf; (destruct fuel as [|fuel]; [cbn in Hf; lia|]);
    [done|].
  apply Forall_cons in Hl as [Hm Hl]. cbn [length] in Hf.
  unfold stream. cbn [map concat]. fold (stream l). unfold frame. rewrite <- app_assoc.
  cbn [workerLoop]. pose proof (length_lengthBytes (Z.of_nat (length m))) as El.
  rewrite (proj2 (Nat.ltb_ge _ 4)) by (rewrite length_app; lia). cbv zeta.
  rewrite (take_app_length' _ _ 4%nat), (drop_app_length' _ _ 4%nat) by done.
  rewrite toLength_lengthBytes, Nat2Z.id by lia.
  rewrite (proj2 (Nat.ltb_ge _ _)) by (rewrite length_app; lia).
  rewrite take_app_length, drop_app_length, IH by (done || lia). done.
Qed.

Lemma length_stream (l : list chars) : (length l <= length (stream l))%nat.
Proof.
  induction l as [|m l IH]; [done|]. unfold stream. cbn [map concat length]. fold (stream l).
  unfold frame. rewrite !length_app, length_lengthBytes. lia.
Qed.

Lemma worker_stream (l : list chars) :
  Forall (fun m : chars => Z.of_nat (length m) < 2 ^ 32) l -> worker (stream l) = Ret l.
Proof. intros Hl. apply workerLoop_stream; [done|]. pose proof (length_stream l). lia. Qed.

(** *** The adapter *)

(** The kind of the answer to a request. *)
Definition answerType (obj : QJsonObject) : chars :=
  match value (qs "t") obj with
  | JString name =>
      if bool_decide (name ∈ map qs ["activate"; "deactivate"; "servers"; "focus"; "openAuth";
                                     "disabled_apps"; "featurelist"; "status"; "interventions"]%string)
      then name else qs "error"
  | _ => qs "invalidRequest"
  end.

Lemma commands_names (w : World) :
  map fst (m_commands w)
  = map qs ["activate"; "deactivate"; "servers"; "focus"; "openAuth"; "disabled_apps";
            "featurelist"; "status"; "interventions"]%string.
Proof. reflexivity. Qed.

Lemma find_command (w : World) (name : chars) :
  match List.find (fun e => bool_decide (fst e = name)) (m_commands w) with
  | Some e => fst e = name /\ outgoing (fst (snd e)) = [] /\ name ∈ map fst (m_commands w)
  | None => name ∉ map fst (m_commands w)
  end.
Proof.
  destruct (List.find _ _) as [e|] eqn:E.
  - apply List.find_some in E as [He Hn]. apply bool_decide_eq_true in Hn. split; [done|].
    split; [|rewrite <- Hn; by apply list_elem_of_In, in_map].
    unfold m_commands in He. cbn [In] in He.
    repeat (destruct He as [<-|He]; [cbn; by repeat case_match|]). done.
  - intros Hn. apply list_elem_of_In, in_map_iff in Hn as (e & En & He).
    pose proof (List.find_none _ _ E e He) as Hd. cbn in Hd. by apply bool_decide_eq_false in Hd.
Qed.

Lemma value_missing (k : chars) (o : QJsonObject) : hasKey k o = false -> value k o = JUndefined.
Proof.
  induction o as [|[k' v] o IH]; [done|]. cbn. by destruct (bool_decide (k' = k)).
Qed.

(** Every request is answered once, by an answer of its kind. *)
Lemma onMessage_answers (w : World) (obj : QJsonObject) :
  exists o, outgoing (onMessage w obj) = [o] /\ value (qs "t") o = JString (answerType obj).
Proof.
  unfold onMessage, answerType. destruct (hasKey (qs "t") obj) eqn:Ek; cbn [negb]; cycle 1.
  { exists invalidAnswer. split; [done|]. by rewrite (value_missing _ _ Ek). }
  destruct (value (qs "t") obj) as [| | | |name| |]; try (by exists invalidAnswer).
  pose proof (find_command w name) as Hf. rewrite commands_names in Hf.
  destruct (List.find _ _) as [[k [effs o]]|]; cbn [fst snd] in Hf.
  - destruct Hf as (_ & Eo & Hn). rewrite bool_decide_true by done.
    exists (insertKey (qs "t") (JString name) o). rewrite value_insertKey, bool_decide_true by done.
    split; [|done]. unfold outgoing in *. by rewrite omap_app, Eo.
  - exists (errorAnswer (qs "Command not found")). by rewrite bool_decide_false.
Qed.

(** *** The states of the bridge *)

(** The signals of [n] connections that are over. *)
Definition finished (n : nat) : list BridgeSignal :=
  concat (repeat [SignalConnected; SignalDisconnected] n).

Definition bridgeInvariant (b : WebExtBridge) : Prop :=
  (m_retryTimer b <> None <-> socket b = Unconnected)
  /\ (m_reader b <> None <-> socket b = Connected)
  /\ exists n, signals b = finished n ++ if isConnected (socket b) then [SignalConnected] else [].

Lemma finished_S (n : nat) :
  finished (S n) = finished n ++ [SignalConnected; SignalDisconnected].
Proof.
  unfold finished. rewrite <- Nat.add_1_r, repeat_app, concat_app. cbn. done.
Qed.

(** A socket that was not connected, or that is not now. *)
Lemma stateChanged_signals (st : SocketState) (b : WebExtBridge) :
  (m_reader b <> None <-> socket b = Connected) ->
  (exists n, signals b = finished n ++ if isConnected (socket b) then [SignalConnected] else []) ->
  isConnected st && isConnected (socket b) = false ->
  (m_reader (stateChanged st b) <> None <-> socket (stateChanged st b) = Connected)
  /\ exists n, signals (stateChanged st b)
       = finished n ++ if isConnected (socket (stateChanged st b)) then [SignalConnected] else [].
Proof.
  destruct b as [so r buf t p sg]. cbn [m_reader socket signals]. intros Hr [n ->] Hc.
  destruct r as [r|].
  - assert (so = Connected) as -> by (by apply Hr). rewrite andb_true_r in Hc.
    unfold stateChanged. cbn. rewrite Hc.
    destruct st; try done; (split; [done|]); exists (S n);
      rewrite finished_S, app_nil_r, <- app_assoc; reflexivity.
  - assert (isConnected so = false) as Hso by (destruct so; try done; by destruct Hr as [_ []]).
    rewrite Hso, app_nil_r.
    destruct st; (split; [done|]); exists n; cbn; by rewrite ?app_nil_r.
Qed.

Lemma stateChanged_retry (st : SocketState) (b : WebExtBridge) :
  m_retryTimer (stateChanged st b)
  = (if isUnconnected st then Some BRIDGE_RETRY_DELAY else m_retryTimer b)
  /\ socket (stateChanged st b) = st /\ b_buffer (stateChanged st b) = b_buffer b.
Proof. destruct b as [so [r|] buf t p sg], st; done. Qed.

Lemma bridgeInvariant_stateChanged (st : SocketState) (b : WebExtBridge) :
  (m_reader b <> None <-> socket b = Connected) ->
  (exists n, signals b = finished n ++ if isConnected (socket b) then [SignalConnected] else []) ->
  isConnected st && isConnected (socket b) = false ->
  (m_retryTimer b <> None -> st = Unconnected) ->
  bridgeInvariant (stateChanged st b).
Proof.
  intros Hr Hn Hc Ht. split; [|by apply stateChanged_signals].
  destruct (stateChanged_retry st b) as (-> & -> & _). destruct st; cbn; naive_solver.
Qed.

Lemma bridgeInvariant_keeps (b : WebExtBridge) (n : nat) :
  bridgeInvariant b -> bridgeInvariant (tryPushData n b).
Proof. unfold bridgeInvariant, tryPushData. by case_bool_decide. Qed.

Lemma bridgeStep_invariant (b b' : WebExtBridge) :
  bridgeInvariant b -> BridgeStep b b' -> bridgeInvariant b'.
Proof.
  intros Hi Hs. pose proof Hi as (Ht & Hr & Hn). destruct Hs as [connects b Hb|b Hb|b Hb|n m b|n b|chunk r r' b Hb E].
  - apply Ht in Hb. unfold retryConnection. cbv zeta.
    set (b1 := b <| m_retryTimer := None |>).
    assert (isUnconnected (socket b1) = true) as -> by (unfold b1; cbn; by rewrite Hb).
    assert (bridgeInvariant (stateChanged Connecting b1)) as (Ht2 & Hr2 & Hn2)
      by (by apply bridgeInvariant_stateChanged).
    destruct (stateChanged_retry Connecting b1) as (Et & Es & _).
    destruct connects; apply bridgeInvariant_stateChanged; try done; by rewrite ?Es, ?Et.
  - apply bridgeInvariant_stateChanged; try done. intros Hx. apply Ht in Hx. congruence.
  - apply bridgeInvariant_stateChanged; done.
  - unfold sendMessage. destruct (isConnected (socket b)) eqn:Ec; cbn [negb snd];
      [|exact Hi].
    set (b1 := b <| b_buffer := b_buffer b ++ frame m |>).
    apply (bridgeInvariant_keeps b1). exact Hi.
  - apply bridgeInvariant_keeps. exact Hi.
  - split; [done|]. split; [|done]. cbn. split; [intros _; apply Hr; by rewrite Hb|done].
Qed.

(** The bridge never stops trying: whatever happens to its socket, its timer runs exactly
    while the socket is not connected to anything, so that it never gives up a connection
    it has; a reader is there exactly while it is connected; and the two signals
    alternate, the first and the last being of a connection while there is one. *)
Theorem reachable_bridge (b : WebExtBridge) :
  BridgeReachable b ->
  (m_retryTimer b <> None <-> socket b = Unconnected)
  /\ (m_reader b <> None <-> socket b = Connected)
  /\ exists n, signals b = finished n ++ if isConnected (socket b) then [SignalConnected] else [].
Proof.
  intros Hb. change (bridgeInvariant b). induction Hb as [|b b' _ IH Hs].
  - repeat split; try done. by exists 0%nat.
  - by apply (bridgeStep_invariant b).
Qed.

Lemma reachable_bridge_witness :
  let b := retryConnection true newBridge in
  (m_retryTimer b <> None <-> socket b = Unconnected)
  /\ (m_reader b <> None <-> socket b = Connected)
  /\ exists n, signals b = finished n ++ if isConnected (socket b) then [SignalConnected] else [].
Proof.
  apply (reachable_bridge (retryConnection true newBridge)).
  apply (reachable_next newBridge); [apply reachable_new|by apply RetryFires].
Defined.

(** *** Boundary cases *)

(** What the socket did not take of a message is kept over a disconnection, and goes out
    first on the next connection. *)
Lemma leftover_kept (m : chars) (n : nat) (b : WebExtBridge) :
  socket b = Connected -> b_buffer b = [] -> (0 < n < length (frame m))%nat ->
  let b1 := stateChanged Connected (stateChanged Unconnected (snd (sendMessage n m b))) in
  b_buffer b1 = drop n (frame m) /\ b_buffer b1 <> [] /\ pushed b1 = [].
Proof.
  intros Hc Hb Hn b1. assert (b_buffer b1 = drop n (frame m)) as E.
  { unfold b1. destruct (stateChanged_retry Connected (stateChanged Unconnected (snd (sendMessage n m b))))
      as (_ & _ & ->).
    destruct (stateChanged_retry Unconnected (snd (sendMessage n m b))) as (_ & _ & ->).
    unfold sendMessage, tryPushData. rewrite Hc. cbn. rewrite Hb. cbn [app].
    rewrite bool_decide_false; [done|]. intros E. rewrite E in Hn. cbn in Hn. lia. }
  split_and!; [done| |done]. rewrite E. intros E'. apply (f_equal length) in E'.
  rewrite length_drop in E'. cbn in E'. lia.
Qed.

(** An empty message of the extension closes the connection of the client. *)
Lemma empty_message_closes :
  worker (stream [[]]) = Ret [[]]
  /\ exists c, readData (frame []) newConnection = Ret c /\ isOpen c = false.
Proof. split; [by vm_compute|]. by eexists. Qed.

(** The answers to the two commands that switch the tunnel say nothing of their success. *)
Lemma activate_answer (w : World) (obj : QJsonObject) (name : string) :
  name = "activate"%string \/ name = "deactivate"%string ->
  hasKey (qs "t") obj = true -> value (qs "t") obj = JString (qs name) ->
  outgoing (onMessage w obj) = [single "t" name].
Proof. intros [->| ->] Hk Ht; unfold onMessage; by rewrite Hk, Ht. Qed.

(** A context of the size of the array is terminated behind its end. *)
Lemma peer_overflow (lsm : LinuxSecurityModule) (peer policy : chars) :
  lsm <> Disabled -> length peer = NAME_MAX ->
  isAllowedToConnect lsm (Some peer) policy = Undefined.
Proof. intros Hl Hn. destruct lsm; cbn -[NAME_MAX Nat.leb]; rewrite ?Hn; by try (by rewrite Nat.leb_refl). Qed.

(** *** From a request to its answer *)

(** The kind of the answer to a text. *)
Definition requestType (m : chars) : chars :=
  match fromBytes m with Some obj => answerType obj | None => qs "invalidRequest" end.

(** The answer [o] to the text [m]. *)
Definition answers (w : World) (m : chars) (o : QJsonObject) : Prop :=
  respond w m = [frame (toCompact o)] /\ value (qs "t") o = JString (requestType m).

Lemma respond_once (w : World) (m : chars) : exists o, answers w m o.
Proof.
  unfold answers, respond, effectOf, requestType. destruct (fromBytes m) as [obj|]; cbn [writtenBy].
  - destruct (onMessage_answers w obj) as (o & E & Et). exists o. by rewrite E.
  - by exists invalidRequest.
Qed.

Lemma respond_stream (w : World) (l : list chars) :
  exists os, Forall2 (answers w) l os
    /\ concat (concat (map (respond w) l)) = stream (map toCompact os).
Proof.
  induction l as [|m l (os & Hos & E)]; [by exists []|]. destruct (respond_once w m) as [o Ho].
  exists (o :: os). split; [by constructor|]. cbn [map concat]. rewrite (proj1 Ho), concat_app, E.
  unfold stream. cbn. by rewrite app_nil_r.
Qed.

(** A bridge that has just connected. *)
Definition justConnected (c : Command) : Prop :=
  isUp c /\ m_reader (bridge c) = Some newReader /\ pushed (bridge c) = [] /\ b_buffer (bridge c) = [].

(** C16: Requests of 1 byte to 1 MiB that the bridge does not handle itself, over a bridge
    that has just connected, reach a new connection of the client, whatever parts of its
    buffer the bridge's socket takes at a time and however the sockets deliver the bytes.
    While the state of the client is [w] throughout and it broadcasts nothing in between,
    and where the answers fit a frame: once the bridge's buffer is empty, it writes to
    standard output, for each request and in their order, one answer whose [t] is the
    request's command, [error] for a command there is not, or [invalidRequest] for a text
    that is not a request; the connection stays open. *)
Theorem request_response (parent : Z * option chars) (launched : bool) (w : World)
  (evs : list CommandEvent) (c : Command) (s : Server) (i : nat) :
  Forall (forwards parent launched) evs -> Forall sized (sent evs) ->
  (forall m o, m ∈ sent evs -> answers w m o -> fits (toCompact o)) ->
  justConnected c -> s !! i = Some (newConnection, []) ->
  exists c1, runCommand parent launched evs c = Ret c1 /\ stdout c1 = stdout c
    /\ (b_buffer (bridge c1) = [] ->
        forall chunks, concat chunks = pushed (bridge c1) ->
        exists s1 d out, serve w i chunks s = Ret s1 /\ s1 !! i = Some (d, out)
          /\ isOpen d = true /\ processed d = sent evs
          /\ forall chunks', concat chunks' = out ->
              exists c2 os, runCommand parent launched (map SocketData chunks') c1 = Ret c2
                /\ Forall2 (answers w) (sent evs) os
                /\ stdout c2 = stdout c ++ stream (map toCompact os)).
Proof.
  intros Hf Hl Ha (Hu & Hr & Hp & Hb) Hs.
  destruct (runCommand_forwards parent launched evs c Hf Hu) as (c1 & E1 & _ & Es & Er & Ep).
  exists c1. split_and!; [done|done|]. intros Hb1 chunks Hc.
  rewrite Hp, Hb, Hb1, app_nil_r in Ep. cbn [app] in Ep. rewrite Ep in Hc.
  destruct (serve_stream w i chunks (sent evs) s Hl Hc Hs) as (s1 & d & E2 & Ed & Ho & Es1).
  exists s1, d, (concat (concat (map (respond w) (sent evs)))). split_and!; try done.
  intros chunks' Hc'. destruct (respond_stream w (sent evs)) as (os & Hos & Eo). rewrite Eo in Hc'.
  destruct (runCommand_delivers parent launched chunks' (map toCompact os) c1) as (c2 & E3 & Es2);
    [|done|by rewrite Er|].
  - apply Forall_map, Forall_forall. intros o Ho'.
    apply list_elem_of_lookup in Ho' as [k Hk].
    destruct (Forall2_lookup_r _ _ _ _ _ Hos Hk) as (m & Hm & Hmo).
    apply (Ha m o); [by eapply list_elem_of_lookup_2|done].
  - exists c2, os. split_and!; [done|done|by rewrite Es2, Es].
Qed.

End ServiceProofs.

(** *** Examples *)

#[local] Existing Instance modelJson.
#[local] Existing Instance modelJsonText.

Definition sampleWorld : World := {|
  hasProfiles := true; activeProfileId := qs "1"; activeProfileName := qs "home";
  exitCountryCode := []; exitCityName := []; entryCountryCode := []; entryCityName := [];
  authenticated := true; version := qs "2.0"; connectionTimestamp := qs "0";
  appState := qs "StateMain"; controllerState := qs "StateOff"; stability := qs "Stable";
  stateInitialize := false; vpnDisabledApps := []; webExtensionEnabled := true;
  localProxy := false;
  serverCountryModel := ServerList.mkModel _ emptyBytes [] ∅ ∅ [];
|}.

Definition sampleRequest (name : string) : chars := toCompact (single "t" name).

Definition sampleEvents : list CommandEvent :=
  [StdinMessage (sampleRequest "focus") 3; StdinMessage (qs "x") 0; BytesWritten 9;
   BytesWritten 1000].

Definition upCommand : Command := mkCommand (stateChanged Connected newBridge) [].

Lemma answers_length (w : World) (m : chars) (o : QJsonObject) (n : Z) :
  answers w m o -> Z.of_nat (length (concat (respond w m))) = n -> Z.of_nat (length (toCompact o)) = n - 4.
Proof.
  intros [-> _]. cbn [concat]. rewrite app_nil_r. unfold frame.
  rewrite length_app, length_lengthBytes. lia.
Qed.

Lemma request_response_witness :
  exists c1, runCommand (1, None) true sampleEvents upCommand = Ret c1 /\ stdout c1 = stdout upCommand
    /\ (b_buffer (bridge c1) = [] ->
        forall chunks, concat chunks = pushed (bridge c1) ->
        exists s1 d out, serve sampleWorld 0 chunks [(newConnection, [])] = Ret s1
          /\ s1 !! 0%nat = Some (d, out)
          /\ isOpen d = true /\ processed d = sent sampleEvents
          /\ forall chunks', concat chunks' = out ->
              exists c2 os, runCommand (1, None) true (map SocketData chunks') c1 = Ret c2
                /\ Forall2 (answers sampleWorld) (sent sampleEvents) os
                /\ stdout c2 = stdout upCommand ++ stream (map toCompact os)).
Proof.
  apply (request_response (1, None) true sampleWorld sampleEvents upCommand [(newConnection, [])] 0).
  - repeat constructor; vm_compute; reflexivity.
  - repeat constructor; unfold MAX_MSG_SIZE; vm_compute; reflexivity || discriminate.
  - intros m o Hm Ho. apply elem_of_cons in Hm as [->|Hm].
    + unfold fits. erewrite (answers_length _ _ _ _ Ho) by (vm_compute; reflexivity). lia.
    + apply list_elem_of_singleton in Hm as ->.
      unfold fits. erewrite (answers_length _ _ _ _ Ho) by (vm_compute; reflexivity). lia.
  - repeat split.
  - reflexivity.
Defined.

End WebExtension.
