(* ===== verification/CommandLine.v ===== *)
(** * The command line

    Model of [src/src/utils/commandlineparser.cpp], of the dispatch in [src/src/main.cpp]
    and of the commands in [src/src/commands/]: options, help, exit codes and what each
    command prints, changes and waits for. The commands that drive the tunnel run the
    controller of ControllerModel.v in an event loop of their own. *)
From Stdlib Require Import ZArith Lia Ascii String.
From stdpp Require Import base numbers list gmap strings.
From S2P Require Import Prelude QHostAddress QString QtTextModel Json JsonText IPAddress.
From S2P Require Import InterfaceConfig Server ServerList ServerData Dns.
From S2P Require Import ControllerModel ControllerProofs.

Local Open Scope Z_scope.
Local Open Scope wg_scope.

(** ** Options *)

Module CommandLineParser.

(** What is printed, line by line. *)
Inductive Line : Type := Stdout (s : chars) | Stderr (s : chars).

Record Option : Type := mkOption {
  m_short : chars;
  m_long : chars;
  m_description : chars;
  m_set : bool;
}.

#[export] Instance Option_eta : Eta Option := fun o =>
  mkOption (m_short o) (m_long o) (m_description o) (m_set o).

Definition newOption (short long description : string) : Option :=
  mkOption (qs short) (qs long) (qs description) false.

Definition helpOption : Option := newOption "h" "help" "Displays help on commandline options.".

Definition versionOption : Option := newOption "v" "version" "Displays version information.".

(** Whether an option, as it is written, is this one. *)
Definition isNamed (opt : chars) (shortOption : bool) (o : Option) : bool :=
  if shortOption then bool_decide (m_short o = opt) else bool_decide (m_long o = opt).

(** The first option of the name is set; [None] where there is none. *)
Fixpoint parseOption (opt : chars) (shortOption : bool) (options : list Option)
  : option (list Option) :=
  match options with
  | [] => None
  | o :: r =>
      if isNamed opt shortOption o then Some (o <| m_set := true |> :: r)
      else (fun r => o :: r) <$> parseOption opt shortOption r
  end.

Definition dash : ascii := "-"%char.

(** The name of an option, and whether it is the short one. *)
Definition optionName (token : chars) : chars * bool :=
  let opt := drop 1 token in
  if startsWith dash opt then (drop 1 opt, false) else (opt, true).

Fixpoint parseOptions (tokens : list chars) (options : list Option)
  : bool * list chars * list Option :=
  match tokens with
  | [] => (true, [], options)
  | token :: r =>
      if negb (startsWith dash token) then (true, tokens, options)
      else
        let '(opt, shortOption) := optionName token in
        match parseOption opt shortOption options with
        | None => (false, tokens, options)
        | Some options => parseOptions r options
        end
  end.

Definition pad (s : chars) : chars := s ++ qs " " ++ replicate (20 - length s) " "%char.

(** The help; the names and descriptions of the commands are given where it has them. *)
Definition showHelp (app : chars) (options : list Option) (commands : option (list (chars * chars)))
    (compact : bool) : list Line :=
  let usage o := qs " [-" ++ m_short o ++ qs " | --" ++ m_long o ++ qs "]" in
  let tail := match commands with Some _ => qs " <commands> [<args>]" | None => [] end in
  Stdout (qs "usage: " ++ app ++ concat (map usage options) ++ tail)
  :: if compact then [] else
     (if bool_decide (map m_short options = []) then []
      else Stdout [] :: Stdout (qs "List of options:")
           :: map (fun o => Stdout (qs "  "
                      ++ pad (qs "-" ++ m_short o ++ qs " | --" ++ m_long o) ++ m_description o))
                options)
     ++ match commands with
        | None => []
        | Some commands =>
            Stdout [] :: Stdout (qs "List of commands:")
            :: map (fun c => Stdout (qs "  " ++ pad (fst c) ++ snd c)) commands
        end.

Definition unknownOption (opt app : chars) (options : list Option)
    (commands : option (list (chars * chars))) : Z * list Line :=
  (1, Stderr (qs "unknown option: " ++ opt) :: showHelp app options commands true).

(** [parse(tokens, options, hasCommands)]: the code, what is printed, the tokens that are
    left and the options. *)
Definition parse (tokens : list chars) (options : list Option)
    (commands : option (list (chars * chars))) : Outcome (Z * list Line * list chars * list Option) :=
  match tokens with
  | [] => Undefined
  | app :: tokens =>
      let '(ok, tokens, options) := parseOptions tokens options in
      if ok then Ret (0, [], tokens, options)
      else match tokens with
           | [] => Undefined
           | token :: _ =>
               let '(code, lines) := unknownOption token app options commands in
               Ret (code, lines, tokens, options)
           end
  end.

(** Whether the option of a name is set. *)
Definition isSet (short : string) (options : list Option) : bool :=
  existsb (fun o => bool_decide (m_short o = qs short) && m_set o) options.

(** ** Commands *)

Section Commands.
Context {W : Type}.

(** A command takes its tokens, the first of which names it, and the state of the program. *)
Record Command : Type := mkCommand {
  name : chars;
  description : chars;
  run : list chars -> W -> Outcome (Z * list Line * W);
}.

Definition entries (commands : list Command) : list (chars * chars) :=
  map (fun c => (name c, description c)) commands.

(** [parse(argc, argv, defaultCmd)]; [title] is the name and the version of the program. *)
Definition parseArguments (title : chars) (commands : list Command) (argv : list chars)
    (defaultCmd : chars) (w : W) : Outcome (Z * list Line * W) :=
  let app := default [] (head argv) in
  r <~ parse argv [helpOption; versionOption] (Some (entries commands));;
  let '(code, lines, tokens, options) := r in
  if negb (code =? 0) then Ret (1, lines, w)
  else if isSet "h" options
  then Ret (0, showHelp app options (Some (entries commands)) false, w)
  else if isSet "v" options then Ret (0, [Stdout title], w)
  else
    let tokens := match tokens with [] => [defaultCmd] | _ => tokens end in
    match tokens with
    | [] => Undefined
    | token :: args =>
        match List.find (fun c => bool_decide (name c = token)) commands with
        | Some c => run c ((app ++ qs " " ++ token) :: args) w
        | None =>
            Ret (1, [Stderr (app ++ qs ": '" ++ token ++ qs "' is not a valid command. See '"
                             ++ app ++ qs " --help'.")], w)
        end
    end.

(** How every command begins: its options, and its help. *)
Definition withOptions (options : list Option) (tokens : list chars) (w : W)
    (k : chars -> list chars -> list Option -> Outcome (Z * list Line * W))
  : Outcome (Z * list Line * W) :=
  r <~ parse tokens options None;;
  let '(code, lines, rest, options) := r in
  let app := default [] (head tokens) in
  if negb (code =? 0) then Ret (1, lines, w)
  else if isSet "h" options then Ret (0, showHelp app options None false, w)
  else k app rest options.

End Commands.

Arguments Command W : clear implicits.

Definition testingOption : Option := newOption "t" "testing" "Run in testing mode.".

(** The names and descriptions of the commands; the others are registered where the
    program is not built for Linux. *)
Definition registered (linux : bool) : list (chars * chars) :=
  map (fun e => (qs (fst e), qs (snd e)))
    ([("activate", "Activate the VPN tunnel"); ("deactivate", "Deactivate the VPN tunnel");
      ("excludeip", "Exclude IP addresses from VPN routing");
      ("status", "Show the current VPN status."); ("ui", "Start the UI.")]%string
     ++ if linux then []
        else [("device", "Remove a device by its id."); ("login", "Starts the authentication flow.");
              ("logout", "Logout the current user."); ("select", "Select a server.");
              ("servers", "Show the list of servers.");
              ("wgconf", "Generate a wireguard configuration file.")]%string).

(** [main]: an argument that names the manifest of the extension makes the program its
    bridge. [isManifest] says so of a path or a URL. *)
Definition mainArguments (isManifest : chars -> bool) (argv : list chars) : list chars :=
  match argv with
  | app :: arg :: args => if isManifest arg then app :: qs "webext" :: arg :: args else argv
  | _ => argv
  end.

Definition CLP_DEFAULT_COMMAND : chars := qs "ui".

(** ** Properties of the parser *)

(** The options at the front that are known, and what follows them. *)
Definition known (options : list Option) (token : chars) : bool :=
  let '(opt, shortOption) := optionName token in
  startsWith dash token && existsb (isNamed opt shortOption) options.

Fixpoint leading (options : list Option) (tokens : list chars) : list chars :=
  match tokens with
  | [] => []
  | t :: r => if known options t then t :: leading options r else []
  end.

Definition named (o : Option) (token : chars) : bool :=
  let '(opt, shortOption) := optionName token in isNamed opt shortOption o.

(** The options once those of the tokens are set. *)
Definition setBy (tokens : list chars) (o : Option) : Option :=
  o <| m_set := m_set o || existsb (named o) tokens |>.

Definition distinct (options : list Option) : Prop :=
  NoDup (map m_short options) /\ NoDup (map m_long options).

Lemma setBy_names (l : list chars) (o : Option) :
  m_short (setBy l o) = m_short o /\ m_long (setBy l o) = m_long o.
Proof. done. Qed.

Lemma map_setBy_names (l : list chars) (options : list Option) :
  map m_short (map (setBy l) options) = map m_short options
  /\ map m_long (map (setBy l) options) = map m_long options.
Proof. by rewrite !map_map. Qed.

Lemma isNamed_unique (opt : chars) (short : bool) (o o' : Option) (options : list Option) :
  distinct (o :: options) -> isNamed opt short o = true -> o' ∈ options ->
  isNamed opt short o' = false.
Proof.
  intros [Hs Hl] Ho Ho'. cbn [map] in *. apply NoDup_cons in Hs as [Hs _].
  apply NoDup_cons in Hl as [Hl _]. unfold isNamed in *.
  destruct short; apply bool_decide_eq_true in Ho; apply bool_decide_eq_false; intros E;
    [apply Hs; rewrite Ho, <- E|apply Hl; rewrite Ho, <- E];
    by apply list_elem_of_In, in_map, list_elem_of_In.
Qed.

Lemma parseOption_setBy (token : chars) (options : list Option) :
  distinct options ->
  parseOption (fst (optionName token)) (snd (optionName token)) options
  = if existsb (isNamed (fst (optionName token)) (snd (optionName token))) options
    then Some (map (setBy [token]) options) else None.
Proof.
  assert (forall o, named o token = isNamed (fst (optionName token)) (snd (optionName token)) o)
    as En by (intros o; unfold named; by destruct (optionName token)).
  induction options as [|o r IH]; intros Hd; [done|]. cbn [parseOption existsb map].
  destruct (isNamed _ _ o) eqn:Eo; cbn [orb].
  - f_equal. f_equal.
    + destruct o as [sh lo de se]. unfold setBy. cbn -[named]. rewrite En, Eo, orb_true_r. done.
    + rewrite <- (map_id r) at 1. apply map_ext_in. intros o' Ho'. unfold setBy. cbn [existsb].
      rewrite En, (isNamed_unique _ _ o o' r Hd Eo) by (by apply list_elem_of_In).
      rewrite orb_false_r. by destruct o'.
  - rewrite IH by (destruct Hd as [Hs Hl]; cbn in *; split; by eapply NoDup_cons_1_2).
    destruct (existsb _ r); cbn; [|done]. f_equal. f_equal.
    destruct o as [sh lo de se]. unfold setBy. cbn -[named]. rewrite En, Eo. by rewrite !orb_false_r.
Qed.

Lemma setBy_cons (t : chars) (l : list chars) (options : list Option) :
  map (setBy l) (map (setBy [t]) options) = map (setBy (t :: l)) options.
Proof.
  rewrite map_map. apply map_ext. intros [sh lo de se]. unfold setBy. cbn -[named].
  by rewrite orb_false_r, <- orb_assoc.
Qed.

Lemma distinct_setBy (l : list chars) (options : list Option) :
  distinct options -> distinct (map (setBy l) options).
Proof. unfold distinct. by rewrite (proj1 (map_setBy_names l options)), (proj2 (map_setBy_names l options)). Qed.

Lemma known_setBy (l : list chars) (options : list Option) (t : chars) :
  known (map (setBy l) options) t = known options t.
Proof.
  unfold known. destruct (optionName t) as [opt sh]. f_equal.
  induction options as [|o r IH]; [done|]. cbn. rewrite IH. by destruct sh.
Qed.

Lemma leading_setBy (l : list chars) (options : list Option) (tokens : list chars) :
  leading (map (setBy l) options) tokens = leading options tokens.
Proof. induction tokens as [|t r IH]; [done|]. cbn. by rewrite known_setBy, IH. Qed.

(** The options of a command line are the known ones at its front: exactly those are set
    that one of them names, the rest is left as it is, and the line is refused exactly if
    the rest begins like an option. *)
Theorem parseOptions_reference (tokens : list chars) (options : list Option) :
  distinct options ->
  let prefix := leading options tokens in
  let rest := drop (length prefix) tokens in
  parseOptions tokens options
  = (negb (existsb (startsWith dash) (take 1 rest)), rest, map (setBy prefix) options).
Proof.
  cbv zeta. revert options. induction tokens as [|t r IH]; intros options Hd; cbn [parseOptions leading].
  { cbn. f_equal. rewrite <- (map_id options) at 1. apply map_ext. intros [sh lo de se].
    unfold setBy. cbn. by rewrite orb_false_r. }
  assert (forall o : list Option, o = map (setBy []) o) as Hnil.
  { intros o. rewrite <- (map_id o) at 1. apply map_ext. intros [sh lo de se].
    unfold setBy. cbn. by rewrite orb_false_r. }
  pose proof (parseOption_setBy t options Hd) as Ep.
  unfold known. destruct (optionName t) as [opt sh] eqn:Eo. cbn [fst snd] in Ep.
  destruct (startsWith dash t) eqn:Es; cbn [negb andb].
  - rewrite Ep. destruct (existsb (isNamed opt sh) options) eqn:Ek; cbn [length drop take existsb].
    + rewrite IH by (by apply distinct_setBy). rewrite leading_setBy, setBy_cons. done.
    + rewrite Es. cbn. by rewrite <- Hnil.
  - cbn [length drop take existsb]. rewrite Es. cbn. by rewrite <- Hnil.
Qed.

Lemma parseOptions_plain (token : chars) (tokens : list chars) (options : list Option) :
  startsWith dash token = false -> parseOptions (token :: tokens) options = (true, token :: tokens, options).
Proof. intros E. cbn. by rewrite E. Qed.

Definition sampleOptions : list Option := [helpOption; testingOption].

Lemma parseOptions_reference_witness :
  parseOptions [qs "--testing"; qs "add"; qs "-h"] sampleOptions
  = (true, [qs "add"; qs "-h"], [helpOption; testingOption <| m_set := true |>]).
Proof.
  assert (distinct sampleOptions) as Hd by (split; by_decision).
  rewrite (parseOptions_reference [qs "--testing"; qs "add"; qs "-h"] sampleOptions Hd).
  vm_compute. reflexivity.
Defined.

(** A command is found by its name, whatever the order of the registrations. *)
Lemma parseArguments_runs {W : Type} (title : chars) (commands : list (Command W))
    (c : Command W) (app : chars) (args : list chars) (defaultCmd : chars) (w : W) :
  NoDup (map name commands) -> c ∈ commands -> startsWith dash (name c) = false ->
  parseArguments title commands (app :: name c :: args) defaultCmd w
  = run c ((app ++ qs " " ++ name c) :: args) w.
Proof.
  intros Hn Hc Hd. unfold parseArguments, parse. rewrite parseOptions_plain by done.
  cbn [outcome_bind head default negb Z.eqb].
  assert (List.find (fun c' => bool_decide (name c' = name c)) commands = Some c) as ->; [|done].
  revert Hn Hc. induction commands as [|d l IH]; intros Hn Hc; [by apply not_elem_of_nil in Hc|].
  cbn [map] in Hn. apply NoDup_cons in Hn as [Hd' Hn]. cbn [List.find].
  apply elem_of_cons in Hc as [<-|Hc]; [by rewrite bool_decide_true|].
  rewrite bool_decide_false; [by apply IH|]. intros E. apply Hd'. rewrite E.
  by apply list_elem_of_In, in_map, list_elem_of_In.
Qed.

Lemma registered_names (linux : bool) :
  NoDup (map fst (registered linux)) /\ Forall (fun c => startsWith dash (fst c) = false) (registered linux).
Proof. destruct linux; split; by_decision. Qed.

(** The program without arguments runs its default command. *)
Lemma parseArguments_default {W : Type} (title : chars) (commands : list (Command W)) (app : chars)
    (defaultCmd : chars) (w : W) :
  startsWith dash defaultCmd = false ->
  parseArguments title commands [app] defaultCmd w
  = parseArguments title commands [app; defaultCmd] defaultCmd w.
Proof. intros E. unfold parseArguments, parse. rewrite parseOptions_plain by done. done. Qed.

End CommandLineParser.

(** ** The commands *)

Module Commands.
Import CommandLineParser.

(** *** [excludeip] *)

Section ExcludeIP.
Context `{QtText}.

(** The two settings of the command. *)
Record Excluded : Type := mkExcluded {
  excludedIpv4Addresses : list chars;
  excludedIpv6Addresses : list chars;
}.

#[export] Instance Excluded_eta : Eta Excluded := fun s =>
  mkExcluded (excludedIpv4Addresses s) (excludedIpv6Addresses s).

Inductive ExcludeCommand : Type := LIST | ADD | REMOVE.

Definition excludeCommand (tokens : list chars) : option ExcludeCommand :=
  match tokens with
  | [] => None
  | token :: _ =>
      if bool_decide (token = qs "list") then Some LIST
      else if bool_decide (token = qs "add") then Some ADD
      else if bool_decide (token = qs "remove") then Some REMOVE
      else None
  end.

(** What a list of addresses becomes; [None] where there is nothing to remove. *)
Definition changeAddresses (command : ExcludeCommand) (ipString : chars) (addresses : list chars)
  : option (list chars) :=
  match command with
  | ADD => Some (if bool_decide (ipString ∈ addresses) then addresses else addresses ++ [ipString])
  | REMOVE =>
      if bool_decide (ipString ∈ addresses)
      then Some (filter (fun a => a <> ipString) addresses) else None
  | LIST => Some addresses
  end.

(** The address of a token, in its canonical form and with its protocol. *)
Definition canonicalAddress (token : chars) : option (NetworkLayerProtocol * chars) :=
  let '(ip, prefix) := parseSubnet token in
  if bool_decide (ip = NullHost) || (prefix <? 0) then None
  else Some (protocol ip, IPAddress.toString (IPAddress.mkIPAddress ip prefix)).

Definition excludeAddress (command : ExcludeCommand) (token : chars) (s : Excluded)
  : Z * list Line * Excluded :=
  match canonicalAddress token with
  | None => (1, [Stdout (token ++ qs " is not a valid IP address.")], s)
  | Some (proto, ipString) =>
      let missing := [Stdout (ipString ++ qs " is not currently an excluded IP address.")] in
      match proto with
      | IPv4Protocol =>
          match changeAddresses command ipString (excludedIpv4Addresses s) with
          | Some l => (0, [], s <| excludedIpv4Addresses := l |>)
          | None => (1, missing, s)
          end
      | IPv6Protocol =>
          match changeAddresses command ipString (excludedIpv6Addresses s) with
          | Some l => (0, [], s <| excludedIpv6Addresses := l |>)
          | None => (1, missing, s)
          end
      | UnknownNetworkLayerProtocol => (0, [], s)
      end
  end.

Definition excludeip (tokens : list chars) (s : Excluded) : Outcome (Z * list Line * Excluded) :=
  withOptions [helpOption; testingOption] tokens s (fun appName tokens _ =>
    match excludeCommand tokens, tokens with
    | Some LIST, [_] =>
        let items l := map (fun a => Stdout (qs "- " ++ a)) l in
        Ret (0, Stdout (qs "Excluded IP v4 addresses:") :: items (excludedIpv4Addresses s)
                ++ Stdout (qs "Excluded IP v6 addresses:") :: items (excludedIpv6Addresses s), s)
    | Some LIST, token :: _ => Ret (1, [Stdout (qs "usage: " ++ appName ++ qs " " ++ token)], s)
    | Some command, [_; token] => Ret (excludeAddress command token s)
    | Some _, token :: _ =>
        Ret (1, [Stdout (qs "usage: " ++ appName ++ qs " " ++ token ++ qs " <ip>"); Stdout [];
                 Stdout (qs "The list of excluded <ips> can be obtained using: 'list'")], s)
    | _, _ => Ret (1, [Stdout (qs "usage: " ++ appName ++ qs " <list|add|remove> [ip]")], s)
    end).

End ExcludeIP.

(** *** [select] *)

Section Select.
Context `{QtJson}.

(** What the account gives: a token, and models that are cached. *)
Record Account : Type := mkAccount { hasToken : bool; loadModels : bool }.

(** The servers of a city, and of all of them, in the order in which they are looked at. *)
Definition cityServers (model : ServerList.ServerCountryModel) (code cityName : chars)
  : list (chars * chars * Server.Server) :=
  let city := ServerList.findCity code cityName model in
  if negb (ServerList.cityInitialized city) then []
  else map (fun key => (code, text (ServerList.m_name city), ServerList.server key model))
         (ServerList.m_servers city).

Definition allServers (model : ServerList.ServerCountryModel) : list (chars * chars * Server.Server) :=
  concat (map (fun country =>
    concat (map (cityServers model (ServerList.code country)) (ServerList.cities country)))
    (ServerList.m_countries model)).

Definition pickServer (model : ServerList.ServerCountryModel) (hostname : chars)
  : option (chars * chars) :=
  fst <$> List.find (fun e => bool_decide (text (Server.m_hostname (snd e)) = hostname))
            (allServers model).

Definition firstWord (appName : chars) : chars := default [] (head (split " " appName)).

(** The models' state is that of [ServerData]. *)
Definition select (account : Account) (model : ServerList.ServerCountryModel)
    (tokens : list chars) (w : ServerData.World) : Outcome (Z * list Line * ServerData.World) :=
  withOptions [helpOption; testingOption] tokens w (fun appName tokens _ =>
    let unknown token := Ret (1, [Stdout (qs "unknown server hostname: " ++ token)], w) in
    let chosen (exit entry : chars * chars) :=
      Ret (0, [], ServerData.changeServer model (fst exit) (snd exit) (fst entry) (snd entry) w) in
    if (length tokens <? 1)%nat || (2 <? length tokens)%nat then
      Ret (1, [Stdout (qs "usage: " ++ appName ++ qs " <server_hostname> [entry_hostname]");
               Stdout [];
               Stdout (qs "The list of hostnames can be obtained using: '" ++ firstWord appName
                       ++ qs " servers'")], w)
    else if negb (hasToken account) then Ret (1, [Stdout (qs "User status: not authenticated")], w)
    else if negb (loadModels account) then Ret (1, [Stdout (qs "No cache available")], w)
    else match tokens with
    | exitHost :: rest =>
        match pickServer model exitHost with
        | None => unknown exitHost
        | Some exit =>
            match rest with
            | [] => chosen exit ([], [])
            | entryHost :: _ =>
                match pickServer model entryHost with
                | None => unknown entryHost
                | Some entry => chosen exit entry
                end
            end
        end
    | [] => Undefined
    end).

End Select.

(** *** [servers] *)

Section Servers.
Context `{QtJson}.

Definition verboseOption : Option := newOption "v" "verbose" "Verbose mode.".
Definition cacheOption : Option := newOption "c" "cache" "From local cache.".
Definition jsonOption : Option := newOption "j" "json" "Json format.".

Definition ofText (s : QString) : chars := text s.

Definition serverLines (verbose : bool) (s : Server.Server) : list Line :=
  if negb (Server.initialized s) then []
  else Stdout (qs "    - Server: " ++ ofText (Server.m_hostname s))
       :: if verbose
          then [Stdout (qs "        ipv4 addr-in: " ++ ofText (Server.m_ipv4AddrIn s));
                Stdout (qs "        ipv4 gateway: " ++ ofText (Server.m_ipv4Gateway s));
                Stdout (qs "        ipv6 addr-in: " ++ ofText (Server.m_ipv6AddrIn s));
                Stdout (qs "        ipv6 gateway: " ++ ofText (Server.m_ipv6Gateway s));
                Stdout (qs "        public key: " ++ ofText (Server.m_publicKey s))]
          else [].

Definition cityLines (verbose : bool) (model : ServerList.ServerCountryModel) (code cityName : chars)
  : list Line :=
  let city := ServerList.findCity code cityName model in
  if negb (ServerList.cityInitialized city) then []
  else Stdout (qs "  - City: " ++ ofText (ServerList.m_name city) ++ qs " ("
               ++ ofText (ServerList.m_code city) ++ qs ")")
       :: concat (map (fun key => serverLines verbose (ServerList.server key model))
                   (ServerList.m_servers city)).

Definition countryLines (verbose : bool) (model : ServerList.ServerCountryModel)
    (country : ServerList.ServerCountry) : list Line :=
  Stdout (qs "- Country: " ++ ServerList.name country ++ qs " (code: " ++ ServerList.code country
          ++ qs ")")
  :: concat (map (cityLines verbose model (ServerList.code country)) (ServerList.cities country)).

Definition serverToJson (s : Server.Server) : option QJsonValue :=
  if negb (Server.initialized s) then None
  else Some (JObject (insertAll
    [(qs "hostname", ofQString (Server.m_hostname s));
     (qs "ipv4-addr-in", ofQString (Server.m_ipv4AddrIn s));
     (qs "ipv4-gateway", ofQString (Server.m_ipv4Gateway s));
     (qs "ipv6-addr-in", ofQString (Server.m_ipv6AddrIn s));
     (qs "ipv6-gateway", ofQString (Server.m_ipv6Gateway s));
     (qs "public-key", ofQString (Server.m_publicKey s))] [])).

Definition cityToJson (model : ServerList.ServerCountryModel) (code cityName : chars)
  : option QJsonValue :=
  let city := ServerList.findCity code cityName model in
  if negb (ServerList.cityInitialized city) then None
  else Some (JObject (insertAll
    [(qs "name", ofQString (ServerList.m_name city)); (qs "code", ofQString (ServerList.m_code city));
     (qs "servers", JArray (omap (fun key => serverToJson (ServerList.server key model))
                              (ServerList.m_servers city)))] [])).

Definition countryToJson (model : ServerList.ServerCountryModel) (country : ServerList.ServerCountry)
  : QJsonValue :=
  JObject (insertAll
    [(qs "name", JString (ServerList.name country)); (qs "code", JString (ServerList.code country));
     (qs "cities", JArray (omap (cityToJson model (ServerList.code country))
                             (ServerList.cities country)))] []).

(** [fetched] is the model once the servers have been requested, [cached] the model that
    was stored; [arrayText] is the text of a JSON array. The order of the arguments of
    [unknownOption] is the code's. *)
Definition servers (arrayText : list QJsonValue -> chars) (account : Account)
    (fetched cached : ServerList.ServerCountryModel) (tokens : list chars)
    (model : ServerList.ServerCountryModel)
  : Outcome (Z * list Line * ServerList.ServerCountryModel) :=
  let options := [helpOption; verboseOption; cacheOption; jsonOption; testingOption] in
  r <~ parse tokens options None;;
  let '(code, lines, rest, options) := r in
  let appName := default [] (head tokens) in
  if negb (code =? 0) then Ret (1, lines, model)
  else match rest with
  | token :: _ =>
      let '(code, lines) := unknownOption appName token options None in Ret (code, lines, model)
  | [] =>
      if isSet "h" options then Ret (0, showHelp appName options None false, model)
      else if negb (hasToken account) then Ret (1, [], model)
      else if isSet "c" options && negb (loadModels account)
      then Ret (0, [Stdout (qs "No cache available")], model)
      else
        let model := if isSet "c" options then cached else fetched in
        let countries := ServerList.m_countries model in
        Ret (0, if isSet "j" options then [Stdout (arrayText (map (countryToJson model) countries))]
                else concat (map (countryLines (isSet "v" options) model) countries), model)
  end.

End Servers.

(** *** [device] *)

Section Device.

(** A device of the account: its key, and whether it is this one. *)
Record Device : Type := mkDevice { publicKey : chars; isCurrentDevice : bool }.

(** [toUInt] is [QString::toUInt]; the state is the keys whose removal was requested. *)
Definition device (toUInt : chars -> option Z) (account : Account) (devices : list Device)
    (tokens : list chars) (removed : list chars) : Outcome (Z * list Line * list chars) :=
  withOptions [helpOption; testingOption] tokens removed (fun appName tokens _ =>
    match tokens with
    | [token] =>
        if negb (hasToken account)
        then Ret (1, [Stdout (qs "User status: not authenticated")], removed)
        else if negb (loadModels account) then Ret (1, [Stdout (qs "No cache available")], removed)
        else match toUInt token with
        | None => Ret (1, [Stdout (token ++ qs " is not a valid number.")], removed)
        | Some n =>
            let id := s32 n in
            if (id =? 0) || (Z.of_nat (length devices) <? id)
            then Ret (1, [Stdout (token ++ qs " is not a valid ID.")], removed)
            else if id <? 1 then Undefined
            else match devices !! Z.to_nat (id - 1) with
            | None => Undefined
            | Some d =>
                if isCurrentDevice d
                then Ret (1, [Stdout (qs "Removing the current device is not allowed. Use 'logout' instead.")],
                          removed)
                else Ret (0, [], removed ++ [publicKey d])
            end
        end
    | _ =>
        Ret (1, [Stdout (qs "usage: " ++ appName ++ qs " <device_id>"); Stdout [];
                 Stdout (qs "The list of <device_id> can be obtained using: 'status'")], removed)
    end).

End Device.

(** *** [wgconf] *)

Section WgConf.
Context `{QtText} `{QtJson} `{DNSHelper.Platform}.

(** What the command reads. *)
Record Offer : Type := mkOffer {
  account : Account;
  currentDevice : option (QString * QString);
  privateKey : QString;
  dnsSettings : DNSHelper.Settings;
  serverData : ServerData.ServerData;
  exitServers : list Server.Server;
  entryServers : list Server.Server;
  localizedExitCityName : chars;
  localizedEntryCityName : chars;
  rndExit : Z;
  rndExitPort : Z;
  rndEntry : Z;
  rndEntryPort : Z;
}.

Definition mullvadMultihop : Option :=
  newOption "m" "mullvad-multihop" "Generate config for Mullvad multihop.".
Definition wireguardMultihop : Option :=
  newOption "w" "wireguard-multihop" "Generate config for Wireguard multihop.".

Definition serverComment (kind : string) (s : Server.Server) (cityName code : chars) : chars :=
  qs kind ++ qs " Server: " ++ text (Server.m_hostname s) ++ qs " - " ++ cityName ++ qs " ("
  ++ code ++ qs ")".

Definition singleHop (o : Offer) (addresses : QString * QString) (exitServer : Server.Server)
    (port : Z) : InterfaceConfig :=
  (emptyConfig SingleHop)
    <| m_privateKey := privateKey o |>
    <| m_deviceIpv4Address := fst addresses |>
    <| m_deviceIpv6Address := snd addresses |>
    <| m_serverIpv4Gateway := Server.m_ipv4Gateway exitServer |>
    <| m_serverIpv6Gateway := Server.m_ipv6Gateway exitServer |>
    <| m_serverPublicKey := Server.m_publicKey exitServer |>
    <| m_serverIpv4AddrIn := Server.m_ipv4AddrIn exitServer |>
    <| m_serverIpv6AddrIn := Server.m_ipv6AddrIn exitServer |>
    <| m_serverPort := s32 port |>.

Definition entryHop (o : Offer) (addresses : QString * QString)
    (exitServer entryServer : Server.Server) (port : Z) : InterfaceConfig :=
  (emptyConfig MultiHopEntry)
    <| m_privateKey := privateKey o |>
    <| m_deviceIpv4Address := fst addresses |>
    <| m_deviceIpv6Address := snd addresses |>
    <| m_serverPublicKey := Server.m_publicKey entryServer |>
    <| m_serverIpv4AddrIn := Server.m_ipv4AddrIn entryServer |>
    <| m_serverIpv6AddrIn := Server.m_ipv6AddrIn entryServer |>
    <| m_serverPort := s32 port |>
    <| m_allowedIPAddressRanges :=
         IPAddress.ofString (text (Server.m_ipv4AddrIn exitServer))
         :: if isEmpty (Server.m_ipv6AddrIn exitServer) then []
            else [IPAddress.ofString (text (Server.m_ipv6AddrIn exitServer))] |>.

(** The resolver and the ranges of the exit. *)
Definition routed (o : Offer) (exitServer : Server.Server) (c : InterfaceConfig) : InterfaceConfig :=
  c <| m_dnsServer := DNSHelper.getDNS (dnsSettings o) (Server.m_ipv4Gateway exitServer) |>
    <| m_allowedIPAddressRanges := DNSHelper.getAllowedIPAddressRanges exitServer |>.

(** The text of the configuration: an entry hop and an exit hop, or one hop. *)
Inductive Generated : Type :=
| TwoHops (entry exit : InterfaceConfig) (exitComment entryComment : chars)
| OneHop (mullvad : bool) (exit : InterfaceConfig) (comment : chars).

Definition generate (useWireguardMultihop : bool) (o : Offer) (addresses : QString * QString)
  : Outcome Generated :=
  let d := serverData o in
  exitServer <~ Server.weightChooser (exitServers o) (rndExit o);;
  exitPort <~ Server.choosePort exitServer (rndExitPort o);;
  let exit := singleHop o addresses exitServer exitPort in
  let exitComment := serverComment "Exit" exitServer (localizedExitCityName o)
                       (ServerData.m_exitCountryCode d) in
  if negb (ServerData.multihop d) then Ret (OneHop false (routed o exitServer exit) exitComment)
  else
    entryServer <~ Server.weightChooser (entryServers o) (rndEntry o);;
    let entryComment := serverComment "Entry" entryServer (localizedEntryCityName o)
                          (ServerData.m_entryCountryCode d) in
    if useWireguardMultihop then
      entryPort <~ Server.choosePort entryServer (rndEntryPort o);;
      Ret (TwoHops (entryHop o addresses exitServer entryServer entryPort)
             (routed o exitServer (exit <| m_hopType := MultiHopExit |>)) exitComment entryComment)
    else
      Ret (OneHop true
             (routed o exitServer
                (exit <| m_serverIpv4AddrIn := Server.m_ipv4AddrIn entryServer |>
                      <| m_serverIpv6AddrIn := Server.m_ipv6AddrIn entryServer |>
                      <| m_serverPort := s32 (Server.m_multihopPort exitServer) |>))
             (entryComment ++ [newline] ++ exitComment)).

Definition multiHopPreamble : list Line :=
  map (fun l => Stdout (qs l))
    ["# This file contains configuration settings for a multi-hop WireGuard setup";
     "# The configuration is intended for Linux systems and has been tested to work";
     "# with both wg-quick and NetworkManager-managed WireGuard connections.";
     "# IMPORTANT:";
     "# For a proper multi-hop setup, the client must configure specific routes so";
     "# that traffic is correctly forwarded through each WireGuard hop. If these";
     "# routes are missing or incorrect, the configuration may silently degrade into";
     "# a single-hop setup.";
     "# If you are unsure how to check the required routes, you can generate a";
     "# configuration that works across all supported systems by using the";
     "# --mullvad-multihop flag.";
     ""]%string.

Definition mullvadPreamble : list Line :=
  map (fun l => Stdout (qs l))
    ["# This file contains configuration settings for a multi-hop WireGuard setup";
     "# It utilizes Mullvad's Multi-Hop feature, which routes traffic through multiple";
     "# WireGuard nodes. In this setup, data is sent to the entry server using a";
     "# specific port and the exit server's public key, allowing the entry server to";
     "# forward the traffic to the exit server.";
     "# For more information see: https://mullvad.net/en/help/wireguard-multi-hop/";
     ""]%string.

Definition printed (g : Generated) : list Line :=
  match g with
  | TwoHops entry exit exitComment entryComment =>
      multiHopPreamble ++ [Stdout (toMultiHopWgConf entry exit [] exitComment entryComment)]
  | OneHop mullvad exit comment =>
      (if mullvad then mullvadPreamble else []) ++ [Stdout (toWgConf exit [] comment)]
  end.

Definition wgconf (linux : bool) (o : Offer) (tokens : list chars) : Outcome (Z * list Line * unit) :=
  withOptions [helpOption; mullvadMultihop; wireguardMultihop; testingOption] tokens tt
    (fun _ _ options =>
      let mullvad := isSet "m" options in
      let wireguard := isSet "w" options in
      if mullvad && wireguard then
        Ret (1, [Stdout (qs "Cannot use both --mullvad-multihop and --wireguard-multihop")], tt)
      else if negb (hasToken (account o))
      then Ret (1, [Stdout (qs "User is not authenticated")], tt)
      else if negb (loadModels (account o)) then Ret (1, [Stdout (qs "No cache available")], tt)
      else match currentDevice o with
      | None => Ret (1, [Stdout (qs "Device is not registered")], tt)
      | Some addresses =>
          g <~ generate (if linux then negb mullvad else wireguard) o addresses;;
          Ret (0, printed g, tt)
      end).

End WgConf.

(** ** Boundary cases *)

(** An identifier above the range of [int] is looked up below the beginning of the list. *)
Lemma device_negative (toUInt : chars -> option Z) (account : Account) (devices : list Device)
    (app token : chars) (removed : list chars) :
  hasToken account = true -> loadModels account = true -> startsWith dash token = false ->
  toUInt token = Some 4294967295 ->
  device toUInt account devices [app; token] removed = Undefined.
Proof.
  intros Ht Hl Hd Hn. unfold device, withOptions, parse. rewrite parseOptions_plain by done.
  cbn -[s32]. rewrite Ht, Hl, Hn. change (s32 4294967295) with (-1). cbn -[Z.ltb].
  by rewrite (proj2 (Z.ltb_ge _ _)) by lia.
Qed.

(** [servers] reports its own name for an argument it does not know. *)
Lemma servers_swapped `{QtJson} (arrayText : list QJsonValue -> chars) (account : Account)
    (fetched cached model : ServerList.ServerCountryModel) (app token : chars) :
  startsWith dash token = false ->
  exists lines, servers arrayText account fetched cached [app; token] model
    = Ret (1, Stderr (qs "unknown option: " ++ app) :: lines, model).
Proof.
  intros Hd. unfold servers, parse. rewrite parseOptions_plain by done. by eexists.
Qed.

Section Boundaries.
Context `{QtText} `{QtJson} `{DNSHelper.Platform}.

(** Without a server the configuration has no key and no endpoint, and the code is 0. *)
Lemma wgconf_no_server (wireguard : bool) (o : Offer) (addresses : QString * QString) :
  exitServers o = [] -> ServerData.multihop (serverData o) = false ->
  exists exit comment, generate wireguard o addresses = Ret (OneHop false exit comment)
    /\ text (m_serverPublicKey exit) = [] /\ endpointLine exit = [].
Proof.
  intros Hs Hm. unfold generate. rewrite Hs. cbn [Server.weightChooser outcome_bind].
  cbn -[singleHop routed serverComment]. rewrite Hm. cbn [negb].
  do 2 eexists. split; [reflexivity|]. done.
Qed.

(** The configuration of two hops names no resolver. *)
Lemma two_hops_no_dns (o : Offer) (addresses : QString * QString) (entry exit : InterfaceConfig)
    (exitComment entryComment : chars) :
  generate true o addresses = Ret (TwoHops entry exit exitComment entryComment) ->
  m_dnsServer entry = None.
Proof.
  unfold generate. destruct (Server.weightChooser (exitServers o) _); cbn [outcome_bind]; [|done..].
  destruct (Server.choosePort _ _); cbn [outcome_bind]; [|done..].
  destruct (ServerData.multihop _); cbn [negb]; [|done].
  destruct (Server.weightChooser (entryServers o) _); cbn [outcome_bind]; [|done..].
  destruct (Server.choosePort _ _); cbn [outcome_bind]; [|done..]. by intros [= <-].
Qed.

End Boundaries.

(** ** Properties of [excludeip] *)

Section ExcludeProofs.
Context `{QtTextLaws}.

(** The list that holds the addresses of a protocol. *)
Definition held (proto : NetworkLayerProtocol) (s : Excluded) : list chars :=
  match proto with
  | IPv4Protocol => excludedIpv4Addresses s
  | IPv6Protocol => excludedIpv6Addresses s
  | UnknownNetworkLayerProtocol => []
  end.

(** A history of additions and removals, in which the failed ones change nothing. *)
Definition replay (history : list (ExcludeCommand * chars)) (s : Excluded) : Excluded :=
  fold_left (fun s e => snd (excludeAddress (fst e) (snd e) s)) history s.

(** What the last command that names a network says of it. *)
Definition verdict (network : QHostAddress * Z) (history : list (ExcludeCommand * chars)) : bool :=
  match last (filter (fun e => parseSubnet (snd e) = network) history) with
  | Some (ADD, _) => true
  | _ => false
  end.

Definition validNetwork (network : QHostAddress * Z) : Prop :=
  wf_host (fst network) /\ 0 <= snd network.

Definition networkText (network : QHostAddress * Z) : chars :=
  IPAddress.toString (IPAddress.mkIPAddress (fst network) (snd network)).

Lemma slash_special : special "/"%char = true.
Proof. by_decision. Qed.

Lemma split_unique (c : ascii) (a b r t : chars) :
  c ∉ a -> c ∉ b -> a ++ c :: r = b ++ c :: t -> a = b /\ r = t.
Proof.
  revert b. induction a as [|x a IH]; intros [|y b] Ha Hb E; cbn in E; injection E; intros; subst.
  - done.
  - by destruct Hb; left.
  - by destruct Ha; left.
  - destruct (IH b) as [-> ->]; [| |done..]; [by intros Hx; apply Ha; right|by intros Hx; apply Hb; right].
Qed.

(** Two networks with the same text are the same. *)
Lemma networkText_inj (m n : QHostAddress * Z) :
  validNetwork m -> validNetwork n -> networkText m = networkText n -> m = n.
Proof.
  destruct m as [a p], n as [b q]. intros [Ha Hp] [Hb Hq] E. cbn in Ha, Hp, Hb, Hq.
  unfold networkText, IPAddress.toString in E. cbn [IPAddress.m_address IPAddress.m_prefixLength fst snd] in E.
  assert (forall x : QHostAddress, wf_host x -> "/"%char ∉ hostToString x) as Hs
    by (intros x Hx; apply plainText_not_elem; [by apply hostToString_plain|apply slash_special]).
  change (qs "/" ++ showZ p) with ("/"%char :: showZ p) in E.
  change (qs "/" ++ showZ q) with ("/"%char :: showZ q) in E.
  apply split_unique in E as [E1 E2]; [|by apply Hs|by apply Hs].
  apply (f_equal hostOfString) in E1. rewrite !hostOfString_toString in E1 by done.
  apply (f_equal readZ) in E2. rewrite !readZ_showZ in E2 by done. congruence.
Qed.

Lemma changeAddresses_spec (command : ExcludeCommand) (a b : chars) (l l' : list chars) :
  changeAddresses command a l = Some l' ->
  (NoDup l -> NoDup l')
  /\ (b ∈ l' <-> match command with
                 | ADD => b = a \/ b ∈ l
                 | REMOVE => b <> a /\ b ∈ l
                 | LIST => b ∈ l
                 end).
Proof.
  destruct command; cbn [changeAddresses].
  - by intros [= <-].
  - case_bool_decide as Ha; intros [= <-]; split.
    + done.
    + split; [by right|]. intros [->|Hb]; done.
    + intros Hl. apply NoDup_app. split; [done|]. split; [|by apply NoDup_singleton].
      intros x Hx Hxa. apply list_elem_of_singleton in Hxa as ->. done.
    + rewrite elem_of_app, list_elem_of_singleton. tauto.
  - case_bool_decide as Ha; intros [= <-]; split.
    + intros Hl. by apply NoDup_filter.
    + by rewrite list_elem_of_filter.
Qed.

(** A token that names a network. *)
Lemma canonicalAddress_spec (token : chars) :
  match canonicalAddress token with
  | Some (proto, ipString) =>
      validNetwork (parseSubnet token) /\ ipString = networkText (parseSubnet token)
      /\ proto = protocol (fst (parseSubnet token))
  | None => ~ validNetwork (parseSubnet token)
  end.
Proof.
  unfold canonicalAddress, validNetwork. pose proof (parseSubnet_wf token) as Hw.
  destruct (parseSubnet token) as [ip prefix]. cbn [fst snd] in *.
  case_bool_decide as Hn; cbn [orb].
  - intros [Ha _]. subst ip. done.
  - destruct (Z.ltb_spec prefix 0); [lia|]. destruct Hw as [Hw|Hw]; [done|]. done.
Qed.

Definition setHeld (proto : NetworkLayerProtocol) (l : list chars) (s : Excluded) : Excluded :=
  match proto with
  | IPv4Protocol => s <| excludedIpv4Addresses := l |>
  | IPv6Protocol => s <| excludedIpv6Addresses := l |>
  | UnknownNetworkLayerProtocol => s
  end.

Definition wellFormed (s : Excluded) : Prop := forall proto, NoDup (held proto s).

Lemma held_setHeld (proto proto' : NetworkLayerProtocol) (l : list chars) (s : Excluded) :
  proto <> UnknownNetworkLayerProtocol ->
  held proto' (setHeld proto l s) = if bool_decide (proto = proto') then l else held proto' s.
Proof. by destruct proto, proto'. Qed.

Lemma protocol_wf (a : QHostAddress) : wf_host a -> protocol a <> UnknownNetworkLayerProtocol.
Proof. by destruct a. Qed.

(** A command on a token that names a network. *)
Lemma excludeAddress_network (command : ExcludeCommand) (token : chars) (s : Excluded) :
  validNetwork (parseSubnet token) ->
  let proto := protocol (fst (parseSubnet token)) in
  snd (excludeAddress command token s)
  = match changeAddresses command (networkText (parseSubnet token)) (held proto s) with
    | Some l => setHeld proto l s
    | None => s
    end.
Proof.
  intros Hv. cbv zeta. unfold excludeAddress. pose proof (canonicalAddress_spec token) as Ht.
  destruct (canonicalAddress token) as [[proto ipString]|]; [|done]. destruct Ht as (_ & -> & ->).
  pose proof (protocol_wf _ (proj1 Hv)) as Hp.
  destruct (protocol (fst (parseSubnet token))); cbn [held]; try done;
    by destruct (changeAddresses _ _ _).
Qed.

(** One command, as it is seen by one network. *)
Lemma excludeAddress_spec (command : ExcludeCommand) (token : chars) (s : Excluded)
    (network : QHostAddress * Z) :
  command <> LIST -> validNetwork network ->
  let s' := snd (excludeAddress command token s) in
  (networkText network ∈ held (protocol (fst network)) s'
   <-> if bool_decide (parseSubnet token = network) then command = ADD
       else networkText network ∈ held (protocol (fst network)) s).
Proof.
  intros Hc Hn. cbv zeta. destruct (canonicalAddress token) as [[proto ipString]|] eqn:Ec; cycle 1.
  { pose proof (canonicalAddress_spec token) as Ht. rewrite Ec in Ht.
    unfold excludeAddress. rewrite Ec. cbn [snd].
    rewrite bool_decide_false; [done|]. intros E. by rewrite E in Ht. }
  pose proof (canonicalAddress_spec token) as Ht. rewrite Ec in Ht. destruct Ht as (Hv & _ & _).
  rewrite (excludeAddress_network command token s Hv). cbv zeta.
  set (m := parseSubnet token) in *. pose proof (protocol_wf _ (proj1 Hv)) as Hp.
  destruct (changeAddresses command (networkText m) (held (protocol (fst m)) s)) as [l|] eqn:El.
  - rewrite held_setHeld by done. apply (changeAddresses_spec _ _ (networkText network)) in El as [_ El].
    destruct (decide (m = network)) as [<-|Hne].
    + rewrite !bool_decide_true by done. rewrite El. destruct command; try done; naive_solver.
    + rewrite (bool_decide_false (m = network)) by done. case_bool_decide as Hpr; [|done].
      rewrite El, <- Hpr.
      assert (networkText network <> networkText m) as Ht
        by (intros E; apply Hne; symmetry; by apply networkText_inj).
      destruct command; try done; naive_solver.
  - destruct command; try done. cbn [changeAddresses] in El. case_bool_decide as Hin; [done|].
    case_bool_decide as Hm; [subst network|done]. split; [done|by intros].
Qed.

Lemma excludeAddress_wellFormed (command : ExcludeCommand) (token : chars) (s : Excluded) :
  wellFormed s -> wellFormed (snd (excludeAddress command token s)).
Proof.
  intros Hs. destruct (canonicalAddress token) as [[proto ipString]|] eqn:Ec; cycle 1.
  { unfold excludeAddress. by rewrite Ec. }
  pose proof (canonicalAddress_spec token) as Ht. rewrite Ec in Ht. destruct Ht as (Hv & _ & _).
  rewrite (excludeAddress_network command token s Hv). cbv zeta.
  destruct (changeAddresses _ _ _) as [l|] eqn:El; [|done]. intros proto'.
  rewrite held_setHeld by (by apply protocol_wf, Hv). case_bool_decide; [|apply Hs].
  by apply (changeAddresses_spec _ _ [] _ _ El), Hs.
Qed.

(** After any sequence of additions and removals, failed ones included, each list has no
    duplicates, and a network is in the list of its protocol exactly if the last command
    that named it, in whatever form, added it. *)
Theorem excluded_history (history : list (ExcludeCommand * chars)) (network : QHostAddress * Z) :
  Forall (fun e => fst e <> LIST) history -> validNetwork network ->
  let s := replay history (mkExcluded [] []) in
  NoDup (excludedIpv4Addresses s) /\ NoDup (excludedIpv6Addresses s)
  /\ (networkText network ∈ held (protocol (fst network)) s <-> verdict network history = true).
Proof.
  intros Hh Hn. cbv zeta.
  assert (wellFormed (replay history (mkExcluded [] []))
    /\ (networkText network ∈ held (protocol (fst network)) (replay history (mkExcluded [] []))
        <-> verdict network history = true)) as [Hw Hi]; [|by split_and!; [apply (Hw IPv4Protocol)
          |apply (Hw IPv6Protocol)|exact Hi]].
  induction history as [|[command token] history IH] using rev_ind.
  - split; [intros []; by constructor|]. cbn. destruct (protocol (fst network)); cbn;
      (split; [intros Hx; by apply not_elem_of_nil in Hx|done]).
  - apply Forall_app in Hh as [Hh Hc]. apply Forall_cons in Hc as [Hc _]. cbn [fst] in Hc.
    destruct (IH Hh) as [Hw Hi]. unfold replay. rewrite fold_left_app. cbn [fold_left fst snd].
    fold (replay history (mkExcluded [] [])).
    split; [by apply excludeAddress_wellFormed|]. rewrite excludeAddress_spec by done.
    unfold verdict. rewrite filter_app, filter_cons, filter_nil. cbn [snd].
    case_bool_decide as E.
    + rewrite decide_True by done. rewrite last_snoc. by destruct command.
    + rewrite decide_False by done. rewrite app_nil_r. exact Hi.
Qed.

End ExcludeProofs.

(** *** Examples *)

#[local] Existing Instance modelText.
#[local] Existing Instance modelTextLaws.

(** The network 10.0.0.0/8, added in two ways and removed, and another one. *)
Definition sampleHistory : list (ExcludeCommand * chars) :=
  [(ADD, qs "10.0.0.0/8"); (REMOVE, qs "192.168.0.0/16"); (ADD, qs "no address");
   (ADD, qs "10.0.0.0/8"); (ADD, qs "192.168.0.0/16"); (REMOVE, qs "10.0.0.0/8")].

Definition lan : QHostAddress * Z := parseSubnet (qs "192.168.0.0/16").

Lemma excluded_history_witness :
  excludedIpv4Addresses (replay sampleHistory (mkExcluded [] [])) = [networkText lan]
  /\ networkText lan ∈ excludedIpv4Addresses (replay sampleHistory (mkExcluded [] [])).
Proof.
  split; [by_decision|]. apply (excluded_history sampleHistory lan).
  - repeat constructor; discriminate.
  - split; [by vm_compute|]. by_decision.
  - vm_compute. reflexivity.
Defined.

End Commands.

(** ** The commands that drive the tunnel *)

Module Tunnel.
Import CommandLineParser.
Import Controller.

Section Tunnel.
Context `{QtText} `{QtJson} `{DNSHelper.Platform}.

(** *** Event loops *)

(** The states at which [activate] and [deactivate] stop waiting, and those of [status]. *)
Definition isTerminalState (s : State) : bool :=
  stateIn s [StateOff; StateOn; StateConnectionError; StatePermissionRequired].

Definition isKnownState (s : State) : bool :=
  stateIn s [StateOff; StateOn; StateOnPartial; StateSilentSwitching; StateConnectionError;
             StatePermissionRequired].

(** The states a computation has announced, to the slot that ends the loop. *)
Definition announces (terminal : State -> bool) (before after : Controller) : bool :=
  existsb (fun e => match e with StateChanged s => terminal s | _ => false end)
    (drop (length (effects before)) (effects after)).

(** What arrives at the process, each event with what the controller reads meanwhile. *)
Definition Events : Type := list (Env * Event).

(** A loop has ended, with the events that are left, or waits for more of them. *)
Inductive Loop : Type := Ended (c : Controller) (rest : Events) | Waiting (c : Controller).

(** [loop.exec()]: the loop ends after the event whose handling announces such a state. *)
Fixpoint exec (terminal : State -> bool) (events : Events) (c : Controller) : Outcome Loop :=
  match events with
  | [] => Ret (Waiting c)
  | (e, ev) :: rest =>
      r <~ handle e ev c;;
      if announces terminal c (snd r) then Ret (Ended (snd r) rest) else exec terminal rest (snd r)
  end.

(** The loop runs unless the state is one of those already. *)
Definition await (terminal : State -> bool) (events : Events) (c : Controller) : Outcome Loop :=
  if terminal (m_state c) then Ret (Ended c events) else exec terminal events c.

(** [QObject::disconnect()] on the controller: its own slot is not called any more either. *)
Definition disconnect (c : Controller) : Controller := c <| slots := 0%nat |>.

(** A command that has ended, with its code, or that still waits. *)
Inductive Run : Type :=
| Finished (code : Z) (lines : list Line) (c : Controller) (rest : Events)
| Unfinished (c : Controller).

Definition andThen (l : Outcome Loop) (k : Controller -> Events -> Outcome Run) : Outcome Run :=
  l <~ l;; match l with Ended c rest => k c rest | Waiting c => Ret (Unfinished c) end.

(** The first part of both commands: a controller of its own is initialized; if that ends
    while it is connecting, the end of the operation is waited for. *)
Definition initialized (e : Env) (events : Events) (k : Controller -> Events -> Outcome Run)
  : Outcome Run :=
  r <~ initialize e construct;;
  andThen (await isTerminalState events (snd r)) (fun c rest =>
    let c := disconnect c in
    if isTerminalState (m_state c) then k c rest
    else andThen (exec isTerminalState rest c) (fun c rest => k (disconnect c) rest)).

(** *** [activate] *)

(** [profile] is the active profile, or the error of its text; [e] and [e'] are what the
    initialization and the activation read. *)
Definition activateRun (profile : InterfaceConfig + chars) (e e' : Env) (events : Events)
  : Outcome Run :=
  match profile with
  | inr error => Ret (Finished 1 [Stdout error] construct events)
  | inl config =>
      initialized e events (fun c rest =>
        if negb (bool_decide (m_state c = StateOff))
        then Ret (Finished 0 [Stdout (qs "The VPN tunnel is already active")] c rest)
        else
          r <~ activateConfig config ClientUser e' c;;
          andThen (await isTerminalState rest (snd r)) (fun c rest =>
            let c := disconnect c in
            Ret (if bool_decide (m_state c = StateOn)
                 then Finished 0 [Stdout (qs "The VPN tunnel is now active")] c rest
                 else Finished 1 [Stdout (qs "The VPN tunnel activation failed")] c rest)))
  end.

(** *** [deactivate] *)

Definition deactivateRun (e : Env) (events : Events) : Outcome Run :=
  initialized e events (fun c rest =>
    if bool_decide (m_state c = StateOff)
    then Ret (Finished 0 [Stdout (qs "The VPN tunnel is already inactive")] c rest)
    else
      r <~ deactivate ClientUser c;;
      andThen (await isTerminalState rest (snd r)) (fun c rest =>
        let c := disconnect c in
        Ret (if bool_decide (m_state c = StateOff)
             then Finished 0 [Stdout (qs "The VPN tunnel is now inactive")] c rest
             else Finished 1 [Stdout (qs "The VPN tunnel deactivation failed")] c rest))).

(** *** [status] *)

Definition stateName (s : State) : chars :=
  qs match s with
     | StateInitializing => "initializing"
     | StatePermissionRequired => "permission-required"
     | StateOff => "off"
     | StateRegeneratingKey => "regenerating-key"
     | StateConnecting => "connecting"
     | StateConnectionError => "connection-error"
     | StateConfirming => "confirming"
     | StateOn | StateOnPartial | StateSilentSwitching => "on"
     | StateDisconnecting => "disconnecting"
     | StateSwitching => "switching"
     end.

Definition errorName (e : ErrorCode) : chars :=
  qs match e with
     | ErrorNone => "none"
     | ErrorFatal => "fatal"
     | ErrorSplitTunnelInit => "split-tunnel-init"
     | ErrorSplitTunnelStart => "split-tunnel-start"
     | ErrorSplitTunnelExclude => "split-tunnel-exclude"
     | ErrorServerTimeout => "server-timeout"
     | ErrorNoServerAvailable => "no-server-available"
     end.

(** [profiles] is how many there are, [active] the name of the active one. *)
Definition statusJson (profiles : Z) (active : chars) (c : Controller) : QJsonObject :=
  insertAll [(qs "profile_count", ofInt profiles);
             (qs "active_profile", if 0 <? profiles then JString active else JNull);
             (qs "vpn_state", JString (stateName (m_state c)));
             (qs "error", JString (errorName (m_errorCode c)))] [].

Definition statusLines (profiles : Z) (active : chars) (c : Controller) : list Line :=
  [Stdout (qs "Profile count: " ++ showZ profiles);
   Stdout (qs "Active profile: " ++ if 0 <? profiles then active else qs "none");
   Stdout (qs "VPN state: " ++ stateName (m_state c))].

Definition statusRun `{QtJsonText} (json : bool) (profiles : Z) (active : chars) (e : Env)
    (events : Events) : Outcome Run :=
  r <~ initialize e construct;;
  andThen (await isKnownState events (snd r)) (fun c rest =>
    Ret (Finished 0 (if json then [Stdout (toCompact (statusJson profiles active c))]
                     else statusLines profiles active c) c rest)).

(** *** The commands *)

(** A run as a command leaves it: nothing is printed by one that still waits. *)
Definition finished (r : Outcome Run) : Outcome (Z * list Line * option Controller) :=
  r <~ r;; match r with
           | Finished code lines c _ => Ret (code, lines, Some c)
           | Unfinished _ => OutOfFuel
           end.

Definition activate_ (profile : InterfaceConfig + chars) (e e' : Env) (events : Events)
    (tokens : list chars) (w : option Controller) : Outcome (Z * list Line * option Controller) :=
  withOptions [helpOption; testingOption] tokens w (fun _ _ _ =>
    finished (activateRun profile e e' events)).

Definition deactivate_ (e : Env) (events : Events) (tokens : list chars) (w : option Controller)
  : Outcome (Z * list Line * option Controller) :=
  withOptions [helpOption; testingOption] tokens w (fun _ _ _ => finished (deactivateRun e events)).

Definition compatibilityOption : Option := newOption "c" "cache" "Accepted for compatibility.".
Definition statusJsonOption : Option := newOption "j" "json" "Output status as JSON.".

Definition status `{QtJsonText} (profiles : Z) (active : chars) (e : Env) (events : Events)
    (tokens : list chars) (w : option Controller) : Outcome (Z * list Line * option Controller) :=
  let options := [helpOption; compatibilityOption; statusJsonOption; testingOption] in
  r <~ parse tokens options None;;
  let '(code, lines, rest, options) := r in
  let appName := default [] (head tokens) in
  if negb (code =? 0) then Ret (1, lines, w)
  else match rest with
  | token :: _ =>
      let '(code, lines) := unknownOption token appName options None in Ret (code, lines, w)
  | [] =>
      if isSet "h" options then Ret (0, showHelp appName options None false, w)
      else finished (statusRun (isSet "j" options) profiles active e events)
  end.

End Tunnel.

(** ** Properties of [activate] *)

Section TunnelProofs.
Context `{QtText} `{QtJson} `{DNSHelper.Platform}.

(** What reaches the process of a command: the signals of the backend, the answer of the
    canary and the handshake timer, while there is a profile. *)
Definition backendEvent (ee : Env * Event) : Prop :=
  match snd ee with
  | ImplPermRequired | ImplInitialized _ _ _ | Connected _ | Disconnected | BackendFailure _
  | StatusReceived _ | HandshakeTimer | CanaryReply => hasProfiles (fst ee) = true
  | _ => False
  end.

(** The controller before the backend has answered. *)
Definition starting (c : Controller) : Prop :=
  m_state c = StateInitializing /\ m_impl c = true /\ m_nextStep c = None_
  /\ m_activationQueue c = [] /\ m_initiator c = Null /\ slots c = 1%nat.

(** The controller when a loop has ended. *)
Definition settled (c : Controller) : Prop :=
  isTerminalState (m_state c) = true /\ m_impl c = true /\ m_nextStep c = None_.

(** The controller while an activation is confirmed: its timer runs. *)
Definition confirming (c : Controller) : Prop :=
  m_state c = StateConfirming /\ m_impl c = true /\ m_nextStep c = None_
  /\ (exists config, m_activationQueue c = [config]) /\ m_initiator c = ClientUser
  /\ slots c = 0%nat /\ m_handshakeTimer c = true.

(** The states of the controller, taken apart. *)
Ltac fields c :=
  destruct c as [st nx ini en q retry im ba po de er sd ns pi tim sta ct ht sl effs];
  cbn [m_state m_nextStep m_initiator m_activationQueue m_impl slots m_handshakeTimer] in *;
  subst.

(** The effects that an event appends. *)
Ltac announced :=
  unfold announces; cbn [effects]; rewrite <- ?app_assoc, ?drop_app_length, ?drop_all; cbn.

Ltac quick_event :=
  eexists; (split; [lazy -[app]; reflexivity|]); announced; unfold settled; cbn; repeat split.

Lemma announces_nothing (terminal : State -> bool) (c : Controller) : announces terminal c c = false.
Proof. unfold announces. by rewrite drop_all. Qed.

Lemma starting_step (ee : Env * Event) (c : Controller) :
  backendEvent ee -> starting c ->
  exists c', handle (fst ee) (snd ee) c = Ret (tt, c')
    /\ (if announces isTerminalState c c' then settled c' else starting c').
Proof.
  destruct ee as [e ev]. unfold backendEvent, starting. cbn [fst snd].
  intros Hb (Hs & Hi & Hn & Hq & Hini & Hsl). fields c.
  destruct ev as [| | | | | | | | | | | | | | | | | | | |status a_connected date|pubkey| |code|stat| | | |];
    try done.
  - quick_event.
  - destruct status, a_connected; quick_event.
  - destruct (sameString (Some (ServerData.m_exitServerPublicKey sd)) pubkey) eqn:Ek;
      cbn [handle]; unfold connected, bind, gets, id; cbn [m_activationQueue m_serverData];
      rewrite Ek; [|quick_event].
    unfold allConnected. destruct (mobile e), tim, er; quick_event.
  - quick_event.
  - destruct code, er; quick_event.
  - quick_event.
  - cbn [handle]. unfold handshakeTimerFires, handshakeTimeout. rewrite Hb. destruct er; quick_event.
  - quick_event.
Qed.

Lemma confirming_step (ee : Env * Event) (c : Controller) :
  backendEvent ee -> confirming c ->
  exists c', handle (fst ee) (snd ee) c = Ret (tt, c')
    /\ (if announces isTerminalState c c' then settled c' else confirming c')
    /\ (snd ee = HandshakeTimer -> m_state c' = StateConnectionError
        /\ announces isTerminalState c c' = true).
Proof.
  destruct ee as [e ev]. unfold backendEvent, confirming. cbn [fst snd].
  intros Hb (Hs & Hi & Hn & [config Hq] & Hini & Hsl & Ht). fields c.
  destruct ev as [| | | | | | | | | | | | | | | | | | | |status a_connected date|pubkey| |code|stat| | | |];
    try done.
  - quick_event; done.
  - destruct status, a_connected; quick_event; done.
  - destruct (sameString (m_serverPublicKey config) pubkey) eqn:Ek;
      cbn [handle]; unfold connected, bind, gets, id; cbn [m_activationQueue m_serverData];
      rewrite Ek; cbn [negb]; [|quick_event; try done; by exists config].
    unfold allConnected. destruct (mobile e), tim, er; quick_event; done.
  - quick_event; done.
  - destruct code, er; quick_event; try done; by exists config.
  - quick_event; try done; by exists config.
  - cbn [handle]. unfold handshakeTimerFires, handshakeTimeout. rewrite Hb. destruct er; quick_event; done.
  - quick_event; try done; by exists config.
Qed.

(** *** Loops *)

Lemma exec_app (terminal : State -> bool) (evs evs' : Events) (c : Controller) :
  exec terminal (evs ++ evs') c
  = (l <~ exec terminal evs c;;
     match l with
     | Ended c rest => Ret (Ended c (rest ++ evs'))
     | Waiting c => exec terminal evs' c
     end).
Proof.
  revert c. induction evs as [|[e ev] evs IH]; intros c; [done|]. cbn [exec app].
  destruct (handle e ev c) as [[u c']| |]; cbn [outcome_bind snd]; [|done|done].
  destruct (announces terminal c c'); [done|apply IH].
Qed.

(** A loop whose steps keep an invariant until they end it. *)
Lemma exec_keeps (I S' : Controller -> Prop) (events : Events) (c : Controller) :
  (forall ee c, backendEvent ee -> I c -> exists c', handle (fst ee) (snd ee) c = Ret (tt, c')
     /\ (if announces isTerminalState c c' then S' c' else I c')) ->
  Forall backendEvent events -> I c ->
  exists l, exec isTerminalState events c = Ret l
    /\ match l with Ended c' rest => S' c' /\ Forall backendEvent rest | Waiting c' => I c' end.
Proof.
  intros Hstep. revert c. induction events as [|[e ev] events IH]; intros c Hev Hc; [by eexists|].
  apply Forall_cons in Hev as [He Hev]. destruct (Hstep (e, ev) c He Hc) as (c' & E & Hc').
  cbn [fst snd] in E. cbn [exec]. rewrite E. cbn [outcome_bind snd].
  destruct (announces isTerminalState c c'); [by eexists|by apply IH].
Qed.

(** There is a backend to talk to. *)
Definition available (e : Env) : Prop :=
  negb (bool_decide (useLocalSocketPath e = [])) || platformController e = true.

Lemma initialize_starting (e : Env) :
  available e -> exists c, initialize e construct = Ret (tt, c) /\ starting c.
Proof.
  unfold available, initialize. generalize (useLocalSocketPath e) as path. intros path ->.
  eexists. split; [lazy -[app ServerData.assign]; reflexivity|]. by repeat split.
Qed.

(** The first part of a command waits for the backend, or goes on with a controller that
    has settled; events that come later change nothing of it. *)
Lemma initialized_spec (e : Env) (events : Events) :
  available e -> Forall backendEvent events ->
  (exists c, starting c /\ forall k, initialized e events k = Ret (Unfinished c))
  \/ (exists c rest, settled c /\ slots c = 0%nat /\ Forall backendEvent rest
      /\ forall evs k, initialized e (events ++ evs) k = k c (rest ++ evs)).
Proof.
  intros Ha Hev. destruct (initialize_starting e Ha) as (c & E & Hc).
  unfold initialized. rewrite E. cbn [outcome_bind snd]. unfold await.
  assert (isTerminalState (m_state c) = false) as -> by (by rewrite (proj1 Hc)).
  destruct (exec_keeps starting settled events c starting_step Hev Hc) as (l & El & Hl).
  destruct l as [c' rest|c'].
  - right. destruct Hl as [Hs Hr]. exists (disconnect c'), rest. split_and!; [by destruct c'|done|done|].
    intros evs k. rewrite exec_app, El. cbn [outcome_bind andThen].
    assert (isTerminalState (m_state (disconnect c')) = true) as -> by (by destruct Hs). done.
  - left. exists c'. split; [done|]. intros k. by rewrite El.
Qed.

(** An activation of a profile in the off state ends at once, without the tunnel, or is
    confirmed with its timer running. *)
Lemma activateConfig_spec (config : InterfaceConfig) (e : Env) (c : Controller) :
  hasProfiles e = true -> desktop e = true ->
  settled c -> slots c = 0%nat -> m_state c = StateOff ->
  exists b c', activateConfig config ClientUser e c = Ret (b, c')
    /\ ((m_state c' = StateOff \/ m_state c' = StateConnectionError) \/ confirming c').
Proof.
  intros Hp Hd (_ & Hi & Hn) Hsl Hs. fields c.
  unfold activateConfig, checkDeviceConnected, activateNext. rewrite Hp, Hd.
  set (lc := if splitTunnelSupported e then _ else _). clearbody lc.
  destruct ba; cycle 1.
  { destruct er; do 2 eexists; (split; [lazy -[app]; reflexivity|]); left; by right. }
  destruct (checkConnectivityOnActivation e), (disconnected_ e), de, er,
    (isEmpty (m_serverIpv4AddrIn lc)), (isEmpty (m_serverIpv6AddrIn lc));
    do 2 eexists; (split; [lazy -[app]; reflexivity|]);
    first [left; by left|right; repeat split; try done; by exists lc].
Qed.

(** What a run of [activate] has come to: it has ended and says whether there is a tunnel,
    or the backend has not yet answered to the initialization, or the handshake timer of
    the activation runs. *)
Definition activateResult (config : InterfaceConfig) (e e' : Env) (events : Events) (r : Run) : Prop :=
  match r with
  | Finished code _ c _ =>
      (code = 0 /\ m_state c <> StateOff \/ code = 1 /\ m_state c <> StateOn)
      /\ isTerminalState (m_state c) = true
  | Unfinished c =>
      starting c
      \/ m_handshakeTimer c = true /\ forall e'', hasProfiles e'' = true ->
         exists lines c', activateRun (inl config) e e' (events ++ [(e'', HandshakeTimer)])
           = Ret (Finished 1 lines c' []) /\ m_state c' = StateConnectionError
  end.

(** The part of [activate] after the loop of its activation. *)
Definition activated (c : Controller) (rest : Events) : Outcome Run :=
  let c := disconnect c in
  Ret (if bool_decide (m_state c = StateOn)
       then Finished 0 [Stdout (qs "The VPN tunnel is now active")] c rest
       else Finished 1 [Stdout (qs "The VPN tunnel activation failed")] c rest).

Lemma activated_ends (c : Controller) (rest : Events) :
  exists code lines c', activated c rest = Ret (Finished code lines c' rest)
    /\ m_state c' = m_state c
    /\ (code = 0 /\ m_state c = StateOn \/ code = 1 /\ m_state c <> StateOn).
Proof.
  unfold activated. cbv zeta. change (m_state (disconnect c)) with (m_state c).
  case_bool_decide; do 3 eexists; (split; [reflexivity|]); by auto.
Qed.

(** Whatever the backend signals and whenever, the command is defined; it ends with code
    0 only with a connection that is not off, and with 1 only without a tunnel; and it
    never waits for ever once the backend has answered its initialization, because while
    it waits the handshake timer runs, and the command fails when the timer fires. *)
Theorem activate_ends (config : InterfaceConfig) (e e' : Env) (events : Events) :
  available e -> hasProfiles e' = true -> desktop e' = true -> Forall backendEvent events ->
  exists r, activateRun (inl config) e e' events = Ret r /\ activateResult config e e' events r.
Proof.
  intros Ha Hp Hd Hev. unfold activateRun.
  destruct (initialized_spec e events Ha Hev) as [(c & Hc & E)|(c & rest & Hc & Hsl & Hr & E)].
  { exists (Unfinished c). split; [apply E|by left]. }
  pose proof (E []) as E0. rewrite !app_nil_r in E0. rewrite E0.
  destruct (decide (m_state c = StateOff)) as [Hs|Hs]; cycle 1.
  { rewrite bool_decide_false by done. eexists. split; [reflexivity|]. split; [by left|apply Hc]. }
  rewrite bool_decide_true by done. cbn [negb].
  destruct (activateConfig_spec config e' c Hp Hd Hc Hsl Hs) as (b & c1 & E1 & Hc1).
  rewrite E1. cbn [outcome_bind snd]. unfold await. fold activated.
  destruct Hc1 as [Hoff|Hc1].
  { assert (isTerminalState (m_state c1) = true) as -> by (by destruct Hoff as [-> | ->]).
    destruct (activated_ends c1 rest) as (code & lines & c2 & E2 & Es & Hcode).
    exists (Finished code lines c2 rest). split; [exact E2|]. rewrite <- Es in *.
    split; [|by destruct Hoff as [-> | ->]].
    destruct Hcode as [[-> Hon]|[-> Hon]]; [left|right]; split; congruence. }
  assert (isTerminalState (m_state c1) = false) as Ht1 by (by rewrite (proj1 Hc1)). rewrite Ht1.
  destruct (exec_keeps confirming settled rest c1) as (l & El & Hl); [|exact Hr|exact Hc1|].
  { intros ee c0 Hee Hc0. destruct (confirming_step ee c0 Hee Hc0) as (c0' & E0' & Hk & _). by eexists. }
  rewrite El. destruct l as [c2 rest2|c2]; cbn [andThen outcome_bind].
  - destruct Hl as [Hset _]. destruct (activated_ends c2 rest2) as (code & lines & c3 & E3 & Es & Hcode).
    exists (Finished code lines c3 rest2). split; [exact E3|]. split; [|rewrite Es; apply Hset].
    rewrite Es. destruct Hcode as [[-> Hon]|[-> Hon]]; [left|right]; split; congruence.
  - exists (Unfinished c2). split; [done|]. right. split; [apply Hl|]. intros e'' He''.
    unfold activateRun. rewrite E, Hs, bool_decide_true by done. cbn [negb].
    rewrite E1. cbn [outcome_bind snd]. unfold await. rewrite Ht1, exec_app, El. cbn [outcome_bind].
    fold activated.
    destruct (confirming_step (e'', HandshakeTimer) c2 He'' Hl) as (c3 & E3 & _ & Hce).
    destruct (Hce eq_refl) as [Hst Han]. cbn [fst snd] in E3. cbn [exec]. rewrite E3.
    cbn [outcome_bind snd]. rewrite Han. cbn [andThen outcome_bind].
    destruct (activated_ends c3 []) as (code & lines & c4 & E4 & Es4 & Hcode).
    destruct Hcode as [[_ Hon]|[-> _]]; [congruence|].
    exists lines, c4. split; [exact E4|congruence].
Qed.

End TunnelProofs.

(** *** Examples *)

#[local] Existing Instance modelText.
#[local] Existing Instance modelJson.
#[local] Existing Instance DNSHelper.desktop.

Definition cliEnv : Env := ControllerProofs.ControllerProofs.sampleEnv false None true 0.

Definition sampleProfile : InterfaceConfig := (emptyConfig SingleHop) <| m_serverPublicKey := Some (qs "key") |>.

Definition handshaken : Events :=
  [(cliEnv, ImplInitialized true false None); (cliEnv, CanaryReply);
   (cliEnv, Connected (Some (qs "key")))].

Lemma activate_ends_witness :
  exists r, activateRun (inl sampleProfile) cliEnv cliEnv handshaken = Ret r
    /\ activateResult sampleProfile cliEnv cliEnv handshaken r.
Proof.
  apply (activate_ends sampleProfile cliEnv cliEnv handshaken); try (vm_compute; reflexivity).
  repeat constructor; vm_compute; reflexivity.
Defined.

(** A backend that asks for a permission is taken for an active tunnel. *)
Lemma permission_active :
  exists c, activateRun (inl sampleProfile) cliEnv cliEnv [(cliEnv, ImplPermRequired)]
      = Ret (Finished 0 [Stdout (qs "The VPN tunnel is already active")] c [])
    /\ m_state c = StatePermissionRequired.
Proof. eexists. split; [lazy; reflexivity|done]. Qed.

Example handshaken_active :
  exists c, activateRun (inl sampleProfile) cliEnv cliEnv handshaken
      = Ret (Finished 0 [Stdout (qs "The VPN tunnel is now active")] c [])
    /\ m_state c = StateOn.
Proof. eexists. split; [lazy; reflexivity|done]. Qed.

End Tunnel.
